(* ===== verification/_CoqProject ===== *)
-Q . S2P
Prelude.v
Checksum.v
StpTypes.v
StpMd5.v
StpBpdu.v
StpVector.v
StpTo.v
StpHeap.v
StpStatmch.v
StpMachines.v
StpPort.v
StpRoletrns.v
StpTopoch.v
StpPortinfo.v
StpRolesel.v
StpTransmit.v
StpFrame.v
StpReceive.v
StpStpm.v
StpSafety.v
StpIn.v
StpMgmt.v
StpCommand.v
StpUid.v
StpManage.v
StpDaemon.v
StpMd5Props.v
StpMgmtSafety.v
StpClear.v
StpRequest.v
StpExample.v
StpCodec.v
StpMachineProps.v
StpRoleselProps.v
StpInProps.v
StpRequestSafety.v
StpUidProps.v
StpMgmtProps.v
StpEngineProps.v
Chain.v
DhcpTbl.v
DhcpUnres.v
DhcpSnp.v
DhcpOptions.v
DhcpPkt.v
DhcpTable.v
DhcpBind.v
DhcpUnresProps.v
DhcpHandle.v
DhcpAging.v
DhcpV6.v
DhcpAdmin.v
DhcpOptionsProps.v
DhcpRun.v
DhcpExample.v
DhcpProps.v
DList.v
IgmpL2mc.v
IgmpL2mcProps.v
IgmpSnp.v
IgmpList.v
IgmpGroup.v
IgmpGroupProps.v
IgmpInv.v
IgmpTimer.v
IgmpFrame.v
IgmpRecv.v
Mld.v
IgmpDevice.v
IgmpCreate.v
IgmpNewGroup.v
IgmpFrameProps.v
IgmpReport.v
IgmpTimerProps.v
IgmpSafe.v
IgmpSwitch.v
MldSafe.v
IgmpExample.v
IgmpProps.v
MldProps.v
