(* ===== verification/Prelude.v ===== *)
(** * Verification of three daemons of daemongroup

    [daemongroup] is a collection of network daemons for access controllers and
    switches.  This development verifies three whose logic is entirely their own:
    the multiple spanning tree daemon under [src/stpsuit/src] (IEEE 802.1Q
    clause 13, 802.1w; files [Stp*]), the DHCP snooping daemon under
    [src/dhcp-snooping/src/lib] (files [Chain] and [Dhcp*]) and the daemon that
    snoops IGMP and MLD under [src/igmp-snooping] (files [DList], [Igmp*] and
    [Mld*]).  They share the prelude and, the last two, [Checksum].  All run on a
    32-bit big-endian processor; the first is compiled with [STP_DBG] and
    [STRONGLY_SPEC_802_1W].  Code under other switches is not part of the model.

    ** The spanning tree daemon

    A bridge instance ([STPM_T], [stp_stpm.c]) is the common tree (CIST,
    instance 0) or one of up to 64 multiple spanning tree instances (MSTI).  It
    has a list of ports ([PORT_T], [stp_port.c]), one per physical port; the
    ports of one physical port in the different instances form a chain that
    starts at its CIST port, found through the array [g_CISTPORT].  Every port
    owns state machines ([stp_statmch.c]), each a file with a function that
    enters a state and a function that looks for the next one:

    - [stp_portinfo.c]: what the port has heard, and how long it is believed;
    - [stp_rolesel.c] (one per instance): the election of the root and the role
      of every port;
    - [stp_roletrns.c], [stp_sttrans.c]: the way of a port to its role, and to
      learning and forwarding;
    - [stp_topoch.c]: topology changes;
    - [stp_pcost.c], [stp_edge.c], [stp_p2p.c], [stp_migrate.c]: path cost, edge
      detection, point-to-point detection, protocol migration;
    - [stp_receive.c], [stp_transmit.c]: decoding and sending of frames (only
      the CIST port of a physical port sends and receives).

    [stp_in.c] is the interface: a received frame, one second of the clock, a
    configuration change.  Each of them stores what has happened and then runs
    all machines of all instances until none has to change state
    ([stp_stpm_mst_update]).

    Above it, [stp_mgmt.c] keeps the table that maps VLANs to instances
    ([g_VID2MSTID]) and to ports ([g_VlanPBMP]), moves VLANs between instances
    and computes the digest of the configuration ([stp_md5.c]); [stp_param.c]
    has one function for each request of the management interface;
    [stp_npd_cmd.c] serves the commands of the switch driver and the frames and
    link events of WAN interfaces; [stp_uid.c] exchanges frames with the switch;
    [stp_bridge.c] is the main loop, which serves one input after the other.

    ** The DHCP snooping daemon

    It reads the DHCP, DHCPv6 and ARP frames of the interfaces it listens on
    ([dhcp_snp_listener.c]), finds their options ([dhcp_snp_com.c]) and has one
    handler per message ([dhcp_snp_pkt.c]).  The handlers keep a table of bindings
    per family ([dhcp_snp_tbl.c]): nodes in two hash arrays of linked lists, one
    by MAC and one by IP address.  A DISCOVER or REQUEST creates the binding of a
    client, an ACK gives it its address and evicts the other holders of it,
    RELEASE and NAK delete it, and a thread removes those whose lease is over.
    Bound clients get a neighbour and a route in the kernel
    ([dhcp_snp_netlink.c]); the access station daemon [asd], which reports its
    stations to a second pair of tables, is told their addresses.  The management
    interface adds and deletes static bindings and switches the daemon on and off.

    ** The IGMP and MLD snooping daemon

    It learns which ports of a VLAN want which multicast groups, and asks the
    switch to forward accordingly.  Its state is an array of VLANs with groups,
    linked by index ([mcgroup_vlan_queue]), each with a doubly linked list of
    groups and the ports that are their members; the table of what it has asked of
    the switch ([igmp_snoop_hw.c], [mld_snoop_hw.c]); lists of VLANs, router ports
    and reporter ports; and a list of timers ([igmp_snoop_com.c]).  Reports create
    groups and add ports, leaves start a countdown of queries, queries teach router
    ports and are answered with the reports of the groups ([igmp_snoop_main.c] for
    IPv4, [mld_snoop_main.c] for IPv6, on the same lists: a group without an IPv4
    address belongs to MLD).  A tick and the timers age ports, groups and routers;
    the switch daemon reports ports and VLANs that come and go; the management
    ([igmp_snoop_cli.c], [mld_snoop_cli.c]) switches one of the two families on.

    ** The model

    A C function is a function of the state ([STP_T]: the heap of ports, the heap
    of instances and the global variables; [SNP]: the tables and the global
    variables of the DHCP daemon; [IGS]: the heap of groups, the array of VLANs, the
    lists and the global variables of the IGMP daemon) with a result in
    [outcome]: a normal return, a [Segv] (undefined behaviour: a bad pointer, a
    read outside a buffer, a missing [return]) or [OutOfFuel] (a [for (;;)] that
    has not ended yet).  [let*] is the sequencing of statements, [x <| f := v |>] an
    assignment to a field.  Integers are [Z], reduced where C reduces them
    ([u8], [u16], [u32], [i32]).  What the daemon asks of the switch driver, of
    the kernel bridge and of the packet sockets is recorded in the list [trace].

    The spanning tree and the IGMP daemon have accesses that leave a block of
    memory in ordinary operation: a frame sent with more bytes than it has, 32
    bytes copied from a shorter name, a name printed into four bytes, an element
    behind an array, a port read after [free].  The program goes on after them,
    and a [Segv] there would hide all that follows; the model goes on too, and
    puts an event into the trace that names the block, its room and the length of
    the access ([OVERRUN] in [StpTypes], [OVER_READ] in [IgmpSnp]).  What such a
    read finds is sent, printed or makes no difference; what such a write spoils is
    not followed.  The theorems on safety say which of these events
    there are, and that there is no other access of the kind and no [Segv].

    The names of the C functions, types and fields are kept.  What the kernel
    answers to the DHCP daemon is the parameter [DhcpSnp.ENV]; whether the switch
    daemon and the kernel answer, the random numbers and what uninitialised
    memory holds, [IgmpSnp.ENV].

    - [Prelude]: outcomes, weakest preconditions [wp], record updates, machine
      integers, big-endian bytes, tactics and the hint database [stp].
    - [StpTypes], [StpBpdu]: structures and frame layouts.
    - [Checksum]: the sum of 16-bit words in one's complement.
    - [StpVector] (with [stp_times.c]), [StpTo] (with [stp_bitmap.h]): the
      corresponding C files.
    - [StpHeap]: well-formed heaps ([wf]), which hold exactly the pointers the
      code relies on, and what keeps them well formed ([same_shape]).
    - [StpStatmch]: the driver of the state machines, the class [FieldLaws] of a
      machine stored in a port, and the proof rules for a run of a machine by a
      measure that decreases.
    - [StpMachines] (edge, point-to-point, migration, path cost and port state
      machines), [StpRoletrns], [StpTopoch], [StpPortinfo], [StpRolesel],
      [StpReceive], [StpTransmit]: the machines, with their measures and effects.
    - [StpPort], [StpStpm], [StpIn]: ports, instances, entry points.
    - [StpMd5]: MD5 and the keyed digest, with RFC 1321 and RFC 2104 as they are
      written there.
    - [StpMgmt]: the state of the daemon, [MGMT_T]: the engine with the VLAN
      tables above it; VLANs of an instance, the digest, deleting everything, link
      events.
    - [StpCommand]: commands of the driver, enabling and disabling, and one
      function per parameter.
    - [StpUid]: datagrams, messages and names of interfaces, byte by byte.
    - [StpRequest]: one input of the daemon as a step, [serve]; the precondition
      [request_ok] of an input, and the [reachable] states.
    - [StpManage], [StpDaemon], [StpMgmtSafety], [StpClear],
      [StpRequestSafety]: what creating, starting, moving and deleting instances
      and ports keeps: [daemon_ok] for the engine, [mgmt_ok] for the daemon.
    - [StpFrame], [StpSafety]: what every machine leaves unchanged, and the
      safety of every function that runs them.
    - [StpExample]: a bridge with two ports, built, started and fed with a frame
      by the modelled functions; the witnesses evaluate on it.
    - [Chain]: linked lists in a heap under an array of heads: the loops the code
      writes over them, and the invariant [hashed].
    - [DhcpTbl]: the bindings of both families, written once over the class [ADDR]
      of addresses; [DhcpUnres]: the stations of [asd], over the class
      [NEXT_CHADDR] of what the code reads through a [next] pointer.
    - [DhcpSnp]: the state [SNP], binding, aging, static bindings, notification;
      [DhcpOptions]: the packet buffer, options, checksum; [DhcpPkt]: handlers,
      sockets, listeners.
    - [DhcpTable]: the invariant of a table and its abstraction
      [table], a finite map from MAC addresses to bindings; [DhcpUnresProps]: the
      same for the stations.
    - [DhcpBind], [DhcpHandle], [DhcpV6], [DhcpAging], [DhcpAdmin],
      [DhcpOptionsProps]: every operation against its specification on the map.
    - [DhcpRun]: one input of the daemon as a step, [snp_serve], its precondition
      [input_ok], and the [snp_reachable] states; [DhcpExample]: frames byte by
      byte and a small network for the witnesses.
    - [DList]: doubly linked lists in a heap, over a record [DLink] of the two
      fields, with what linking and unlinking a node keeps.
    - [IgmpL2mc]: the table of the switch, once over the class [GROUP] of addresses;
      [IgmpSnp]: the state [IGS]; [IgmpList], [IgmpGroup], [IgmpTimer]: lists,
      groups and VLANs, timers; [IgmpFrame], [IgmpRecv]: frames and the handlers of
      messages; [Mld]: frames, groups, handlers and timeouts of MLD; [IgmpDevice]:
      timeouts of IGMP, the tick, events, management, the loops of the threads.
    - [IgmpL2mcProps], [IgmpSwitch]: the table represents a list of entries,
      whatever is asked of it.
    - [IgmpGroupProps], [IgmpInv], [IgmpCreate], [IgmpNewGroup]: the invariant
      [igs_ok] of VLANs, groups and identifiers, and its abstraction [group_table],
      a finite map from VLANs and addresses to groups; deleting and creating groups
      and VLANs.  [IgmpReport]: a report on the map.  [IgmpTimerProps],
      [IgmpFrameProps]: the list of timers; the bytes of frames.
    - [IgmpSafe]: the invariant [igmp_ok] of the daemon under messages; [MldSafe]:
      a daemon that snoops MLD is seen as one that snoops IGMP, with the IPv6
      addresses as numbers, so that what is proved of the lists carries over.
    - [IgmpExample]: a small network for the witnesses.

    ** The theorems

    - [StpCodec]: comparison of priority vectors is the
      lexicographic order as long as costs are below [2^31], and is not an order
      beyond; messages and whole MSTP frames survive encoding and decoding.
    - [StpMachineProps]: refinement of
      the role transitions by a step relation; termination of every machine,
      with a bound on its turns, and the two settings of the root's timers under
      which a machine never returns; the rate limit of transmission; what a
      blocked or a forwarding port is.
    - [StpRoleselProps]: the elected root is the best offer, the root port is the
      port that made it, every port is selected.
    - [StpInProps]: bounds of the frame check, reception that stays in a buffer
      with room for the largest frame, the exact range of accepted configurations,
      and what a configuration request stores, leaves alone or drops.
    - [StpEngineProps]: the engine follows no bad pointer and has three kinds of
      accesses outside a block ([engine_event]); rest when the update returns, the
      clock, lookup, deletion, VLAN bookkeeping.
    - [StpMd5Props]: the digest is that of the two RFCs.
    - [StpMgmtProps]: from its start, for every sequence of inputs that respect
      [request_ok], the daemon is well formed, and leaves blocks of memory only as
      [daemon_event] lists; moving a VLAN keeps the partition of the
      VLANs among the instances; shutting down leaves nothing.
    - [StpUidProps]: frames survive their datagram and names of interfaces are
      read back; two ways in which a WAN interface breaks the daemon.
    - [DhcpProps]: the DHCP daemon is safe from its start for every sequence of
      inputs that respect [input_ok], and an address has one holder; the messages
      of both families refine operations of a finite map; aging removes exactly
      the stale entries; ARP requests are answered from the bindings; options are
      found and the scan ends; the checksum is that of RFC 1071; static bindings
      come and go; switching off frees everything.  Then the ways in which it
      goes wrong: a scan that leaves the buffer, aging that stops at an interface
      that has gone, a static binding that is evicted, stations that cannot be
      deleted, addresses read beyond their end, sockets outside their table.
    - [IgmpProps]: IGMP messages other than PIM keep the invariant, in whatever
      order, and the frames sent are the only blocks read behind their end; a
      report refines an update of the map of groups and tells the switch about the
      new port and nothing else; requests to the switch refine those of a list; deleting a VLAN removes exactly its groups; frames are
      typed, verify, and are read back as they were built; no message leaves its
      buffer.  Then the failures: router ports that are not learnt, a VLAN that is
      deleted for ever, PIM messages judged by the wrong bytes, ports of unknown
      VLANs.
    - [MldProps]: the invariant and the blocks left under all MLD messages, a report on the map of
      groups, frames read back, the checksum that leaves out the group.

    ** Bounds and fuel

    Loops over lists are structural.  [stp_statmch_change_state],
    [stp_stpm_do_update] and [stp_stpm_mst_update] are [for (;;)] loops and take
    fuel.  For each single machine a number of turns that always suffices is
    proved (137 for role transitions, at most 22 for the others, and a number
    that depends on [txCount] for transmission).  The loops that delete all
    instances and ports need no more rounds than [rounds], the number of both.
    Safety theorems hold for every fuel.  The two outer loops run machines that set each other's flags; a bound
    for them is not proved, only that they are at rest when they return.

    A walk over a list of the DHCP tables takes [turns], one more than the table
    has nodes, which the invariant shows to be enough; the loop that evicts the
    holders of an address the same.  The scan for an option takes at most 1700
    turns (1500, 128 and 64 bytes in three fields), that for a DHCPv6 option 400.

    The walks of the IGMP daemon over the array take [queue_turns], four more than
    the 4096 slots, those over groups [group_turns], one more than there are nodes,
    those over the table of the switch [l2mc_turns], over the ports of a VLAN
    [port_turns], over timers [timer_turns]; the invariant shows that they suffice
    and, where a walk never ends, a theorem says so for every fuel.  A new timer is
    numbered with random numbers until one is unused: [rand_varied] asks that 257
    consecutive ones differ.

    [input_ok] asks that a frame's options can be read without leaving the buffer
    and, for DHCPv6, that an address contains a zero byte; that [asd] sends a
    flag of 0 or 1; and that a static binding has an address and an interface.
    Three theorems show what happens otherwise.

    [request_ok] leaves out inputs for which the code is not defined: a port
    index outside the tables, a speed that is no value of the enumeration, a
    VLAN outside 1 to 4094, a name of more than 31 bytes, a datagram that
    announces more bytes than it has, the last VLAN of an MSTI that still has
    ports leaving it, a port of a VLAN without a CIST port, and disabling while
    the configuration of the CIST is outside its ranges.  Frames and link
    events of WAN interfaces are no inputs of [serve]: the theorems on them show
    the crash.

    ** Not modelled

    Debug output and tracing switches; [malloc] failure; the contents of the table
    [stp_ports], which keeps what was asked of a port (the accesses to it are
    modelled), and the functions that save or print the configuration; [stp_mgmt_del_all_mst] and [stp_in_reinit_port_cfg], which
    nothing calls; opening sockets, [select], the walk over the attributes of a
    link message; the D-Bus thread ([stp_dbus.c]) and the command line
    ([stp_cli.c], [stp_dcli.c]), which marshal the calls of [stp_param.c].  The
    D-Bus thread and the main loop share all state without locks (the macros of
    the critical sections are empty); the model runs one request after the
    other.

    Of the DHCP daemon: D-Bus messages and the printing of tables; opening and
    configuring sockets; option 82 ([dhcp_snp_options.c]), which no request can
    switch on; the SQLite copy of the bindings, compiled out; ports, VLANs and
    trust, whose functions answer constants; the bytes of netlink and portal
    messages, recorded by their content.  Its threads hold the mutexes of the
    tables, except for the requests for static bindings; the model runs one input
    after the other.  Of the IGMP daemon: D-Bus, logging, the configuration file and the requests
    that only show something; sockets and netlink headers; [malloc] failure.  The
    thread of the timers takes a lock that the handlers of messages do not take;
    the model runs one event after the other.  Not proved: what the tick and the
    timeouts keep, and the invariant for a daemon that has groups of both families
    or reporter ports, which no request can add.

    The other daemons of the repository are listed in the manifest: many are
    third-party programs or forward commands over D-Bus, and their logic is that
    of the programs they call; the access station daemon, the captive portal and
    the board daemons keep state of their own and have not been modelled.  A bound
    for the two outer loops of the spanning tree and the validity of its
    configuration as an invariant are not proved. *)

(** ** Shared prelude *)

From Stdlib Require Import ZArith Lia.
From stdpp Require Import base gmap list option.

Open Scope Z_scope.

#[global] Arguments Z.eqb : simpl never.
#[global] Arguments Z.ltb : simpl never.
#[global] Arguments Z.leb : simpl never.

(** ** Outcomes of C code

    A modelled C function returns an [outcome].  [Done a] is a normal return.
    [Segv] is undefined behaviour: a dereference of a NULL or dangling pointer,
    a read outside the buffer, or a function that ends without the [return]
    its caller uses.  [OutOfFuel] is the value of an unbounded C loop ([for (;;)])
    whose fuel was not enough; a loop that gives [OutOfFuel] for every fuel
    does not terminate. *)

Inductive outcome (A : Type) : Type :=
| Done (a : A)
| Segv
| OutOfFuel.
Arguments Done {A} a.
Arguments Segv {A}.
Arguments OutOfFuel {A}.

Definition obind {A B} (k : A → outcome B) (m : outcome A) : outcome B :=
  match m with
  | Done a => k a
  | Segv => Segv
  | OutOfFuel => OutOfFuel
  end.

#[export] Instance outcome_ret : MRet outcome := @Done.
#[export] Instance outcome_bind : MBind outcome := @obind.

(** Dereference: a missing object is a [Segv]. *)
Definition deref {A} (o : option A) : outcome A :=
  match o with Some a => Done a | None => Segv end.

Declare Scope stp_scope.
Delimit Scope stp_scope with stp.
Open Scope stp_scope.

Notation "'let*' x := m 'in' k" := (obind (fun x => k) m)
  (at level 10, x name, m at level 100, k at level 200) : stp_scope.
Notation "'let*' ' p := m 'in' k" := (obind (fun p => k) m)
  (at level 10, p strict pattern, m at level 100, k at level 200) : stp_scope.

Lemma obind_Done {A B} (k : A → outcome B) (m : outcome A) b :
  obind k m = Done b ↔ ∃ a, m = Done a ∧ k a = Done b.
Proof.
  destruct m as [a| |]; simpl; (split; [intros E|intros (c & E & ?)]); try discriminate.
  - by exists a.
  - by injection E as ->.
Qed.

Lemma obind_to {A B} (k : A → outcome B) (m : outcome A) a r :
  m = Done a → k a = r → obind k m = r.
Proof. by intros -> <-. Qed.

Lemma obind_assoc {A B C} (m : outcome A) (f : A → outcome B) (g : B → outcome C) :
  obind g (obind f m) = obind (fun a => obind g (f a)) m.
Proof. by destruct m. Qed.

Lemma deref_Done {A} (o : option A) a : deref o = Done a ↔ o = Some a.
Proof. destruct o; simpl; split; congruence. Qed.

(** ** Total correctness

    [wp m Q]: the computation returns, and its result satisfies [Q]. *)
Definition wp {A} (m : outcome A) (Q : A → Prop) : Prop :=
  match m with Done a => Q a | _ => False end.

Lemma wp_Done {A} (a : A) (Q : A → Prop) : Q a → wp (Done a) Q.
Proof. done. Qed.

Lemma wp_elim {A} (m : outcome A) (Q : A → Prop) : wp m Q → ∃ a, m = Done a ∧ Q a.
Proof. destruct m; simpl; [eauto|done|done]. Qed.

Lemma wp_intro {A} (m : outcome A) (Q : A → Prop) a : m = Done a → Q a → wp m Q.
Proof. by intros ->. Qed.

Lemma wp_use {A} (m : outcome A) (Q : A → Prop) a : wp m Q → m = Done a → Q a.
Proof. by intros H ->. Qed.

Lemma wp_bind {A B} (m : outcome A) (k : A → outcome B) (Q : B → Prop) :
  wp m (fun a => wp (k a) Q) → wp (obind k m) Q.
Proof. by destruct m. Qed.

Lemma wp_mono {A} (m : outcome A) (P Q : A → Prop) :
  wp m P → (∀ a, P a → Q a) → wp m Q.
Proof. destruct m; simpl; auto. Qed.

Lemma wp_deref {A} (o : option A) a (Q : A → Prop) : o = Some a → Q a → wp (deref o) Q.
Proof. by intros ->. Qed.

(** [foldM f l s]: the C loop [for (x in l) s = f(x, s)]. *)
Fixpoint foldM {A S} (f : A → S → outcome S) (l : list A) (s : S) : outcome S :=
  match l with
  | [] => Done s
  | x :: l' => let* s' := f x s in foldM f l' s'
  end.

(** An invariant of the body is an invariant of the loop. *)
Lemma foldM_inv {A S} (P : S → Prop) (f : A → S → outcome S) l :
  (∀ x s s', x ∈ l → P s → f x s = Done s' → P s') →
  ∀ s s', P s → foldM f l s = Done s' → P s'.
Proof.
  induction l as [|x l IH]; intros Hf s s' Hs; simpl; [naive_solver|].
  intros (s1 & E1 & E2)%obind_Done. eapply IH; [|eapply Hf, E1|exact E2].
  - intros; eapply Hf; [right|..]; eauto.
  - left.
  - done.
Qed.

(** When the body returns on every state that satisfies [P], and keeps [P],
    the loop returns. *)
Lemma wp_foldM {A S} (P : S → Prop) (f : A → S → outcome S) l s :
  (∀ x s, x ∈ l → P s → wp (f x s) P) → P s → wp (foldM f l s) P.
Proof.
  revert s. induction l as [|x l IH]; intros s Hf Hs; simpl; [done|].
  apply wp_bind, (wp_mono _ P); [apply Hf; [left|done]|].
  intros s1 H1. apply IH; [|done]. intros y t Hy; apply Hf; by right.
Qed.

Lemma foldM_app {A S} (f : A → S → outcome S) l1 l2 s :
  foldM f (l1 ++ l2) s = let* s' := foldM f l1 s in foldM f l2 s'.
Proof.
  revert s. induction l1 as [|x l1 IH]; intros s; simpl; [done|].
  rewrite obind_assoc. destruct (f x s); simpl; auto.
Qed.

(** ** Record update *)

Class Setter {R T : Type} (proj : R → T) := set : T → R → R.
Arguments set {R T} proj {_} v r.

Notation "r <| f := v |>" := (set f v r)
  (at level 1, f at next level, v at level 200, left associativity,
   format "r <| f  :=  v |>") : stp_scope.

(** [solve_setter eta] builds the setter of the goal's projection from [eta],
    the record written as its constructor applied to its own projections. *)
Ltac solve_setter eta :=
  match goal with
  | |- @Setter ?R ?T ?proj =>
      exact (fun (v : T) (r : R) =>
               ltac:(let b := eval cbv beta delta [eta] in (eta r) in
                     let p := eval cbv beta in (proj r) in
                     let F := eval pattern p in b in
                     match F with
                     | ?G _ => let t := eval cbv beta in (G v) in exact t
                     end))
  end.

(** ** Machine integers

    The daemon is built for a 32-bit target (ILP32): [char] 8, [short] 16,
    [int] and [long] 32 bits.  Values are kept as [Z]; a store that can lose
    bits goes through one of the functions below. *)

Definition u8 (z : Z) : Z := z mod 2 ^ 8.
Definition u16 (z : Z) : Z := z mod 2 ^ 16.
Definition u32 (z : Z) : Z := z mod 2 ^ 32.
(** Conversion to a signed 32-bit [int]. *)
Definition i32 (z : Z) : Z := (z + 2 ^ 31) mod 2 ^ 32 - 2 ^ 31.

Lemma u8_range z : 0 ≤ u8 z < 256.
Proof. unfold u8. apply (Z.mod_pos_bound z (2 ^ 8)). lia. Qed.
Lemma u16_range z : 0 ≤ u16 z < 65536.
Proof. unfold u16. apply (Z.mod_pos_bound z (2 ^ 16)). lia. Qed.
Lemma u32_range z : 0 ≤ u32 z < 2 ^ 32.
Proof. unfold u32. apply (Z.mod_pos_bound z (2 ^ 32)). lia. Qed.

Lemma u8_small z : 0 ≤ z < 256 → u8 z = z.
Proof. intros. unfold u8. by apply Z.mod_small. Qed.
Lemma u16_small z : 0 ≤ z < 65536 → u16 z = z.
Proof. intros. unfold u16. by apply Z.mod_small. Qed.
Lemma u32_small z : 0 ≤ z < 2 ^ 32 → u32 z = z.
Proof. intros. unfold u32. by apply Z.mod_small. Qed.
Lemma i32_small z : - 2 ^ 31 ≤ z < 2 ^ 31 → i32 z = z.
Proof. intros. unfold i32. rewrite Z.mod_small; lia. Qed.

(** The C test [if (flags & MASK)]. *)
Definition bit_set (flags mask : Z) : bool := negb (Z.land flags mask =? 0).

(** ** Bytes in network order *)

(** [be_bytes n z]: the [n] low bytes of [z], most significant first, what
    [htons]/[htonl] followed by a copy leave in memory. *)
Fixpoint be_bytes (n : nat) (z : Z) : list Z :=
  match n with
  | O => []
  | S n' => u8 (Z.shiftr z (8 * Z.of_nat n')) :: be_bytes n' z
  end.

(** [be_val l]: the number read by [ntohs]/[ntohl] from these bytes. *)
Fixpoint be_val_aux (acc : Z) (l : list Z) : Z :=
  match l with
  | [] => acc
  | b :: l' => be_val_aux (acc * 256 + b) l'
  end.
Definition be_val (l : list Z) : Z := be_val_aux 0 l.

Definition is_byte (b : Z) : Prop := 0 ≤ b < 256.

Lemma length_be_bytes n z : length (be_bytes n z) = n.
Proof. induction n; simpl; auto. Qed.

Lemma be_bytes_byte n z : Forall is_byte (be_bytes n z).
Proof. induction n; simpl; constructor; auto. apply u8_range. Qed.

Lemma be_val_aux_bytes n z acc :
  be_val_aux acc (be_bytes n z) = acc * 2 ^ (8 * Z.of_nat n) + z mod 2 ^ (8 * Z.of_nat n).
Proof.
  revert acc. induction n as [|n IH]; intros acc.
  - simpl. rewrite Z.mod_1_r. lia.
  - cbn [be_bytes be_val_aux]. rewrite IH.
    set (k := 8 * Z.of_nat n).
    replace (8 * Z.of_nat (S n)) with (k + 8) by (unfold k; lia).
    assert (Hk : 0 ≤ k) by (unfold k; lia).
    rewrite Z.pow_add_r by lia. unfold u8.
    rewrite Z.shiftr_div_pow2 by lia.
    rewrite Z.rem_mul_r by (try apply Z.pow_nonzero; lia). lia.
Qed.

Lemma be_val_bytes n z : be_val (be_bytes n z) = z mod 2 ^ (8 * Z.of_nat n).
Proof. unfold be_val. rewrite be_val_aux_bytes. lia. Qed.

Lemma be_val_bytes2 z : 0 ≤ z < 65536 → be_val (be_bytes 2 z) = z.
Proof. intros. rewrite be_val_bytes. apply Z.mod_small. simpl; lia. Qed.
Lemma be_val_bytes4 z : 0 ≤ z < 2 ^ 32 → be_val (be_bytes 4 z) = z.
Proof. intros. rewrite be_val_bytes. apply Z.mod_small. simpl; lia. Qed.

(** ** Lists of pairs *)

Lemma NoDup_fst_inj {A B} (l : list (A * B)) p q :
  NoDup (l.*1) → p ∈ l → q ∈ l → p.1 = q.1 → p = q.
Proof.
  induction l as [|r l IH]; simpl; intros Hn Hp Hq E; [by apply not_elem_of_nil in Hp|].
  inversion_clear Hn as [|? ? Hr Hn']. apply elem_of_cons in Hp, Hq.
  destruct Hp as [->|Hp], Hq as [->|Hq]; [done|..|by apply IH].
  - destruct Hr. rewrite E. by apply list_elem_of_fmap_2.
  - destruct Hr. rewrite <- E. by apply list_elem_of_fmap_2.
Qed.

(** ** Automation *)

Create HintDb stp.
Create Rewrite HintDb stp_rw.
#[export] Hint Resolve u8_range u16_range u32_range be_bytes_byte : stp.
#[export] Hint Rewrite @obind_Done @deref_Done : stp_rw.

(** Splits every boolean conjunction and disjunction of the context and turns
    comparisons on [Z] into propositions. *)
Ltac bool_facts :=
  repeat match goal with
  | H : _ && _ = true |- _ => apply andb_true_iff in H; destruct H
  | H : _ || _ = false |- _ => apply orb_false_iff in H; destruct H
  | H : negb _ = true |- _ => apply negb_true_iff in H
  | H : negb _ = false |- _ => apply negb_false_iff in H
  | H : bool_decide _ = true |- _ => apply bool_decide_eq_true in H
  | H : bool_decide _ = false |- _ => apply bool_decide_eq_false in H
  | H : (_ =? _) = true |- _ => apply Z.eqb_eq in H
  | H : (_ =? _) = false |- _ => apply Z.eqb_neq in H
  | H : (_ <? _) = true |- _ => apply Z.ltb_lt in H
  | H : (_ <? _) = false |- _ => apply Z.ltb_ge in H
  | H : (_ <=? _) = true |- _ => apply Z.leb_le in H
  | H : (_ <=? _) = false |- _ => apply Z.leb_gt in H
  end.

(** Runs through the binds of a hypothesis [m = Done x]. *)
Ltac done_inv :=
  repeat match goal with
  | H : obind _ _ = Done _ |- _ => apply obind_Done in H; destruct H as (? & ? & H)
  | H : deref _ = Done _ |- _ => apply deref_Done in H
  | H : Done _ = Done _ |- _ => injection H as H
  | H : Segv = Done _ |- _ => discriminate H
  | H : OutOfFuel = Done _ |- _ => discriminate H
  end.
