(* ===== verification/Checksum.v ===== *)
(** * The arithmetic of the Internet checksum

    The sum of RFC 1071 and numbers in one's complement, for the checksums of the
    DHCP and of the IGMP snooping daemon. *)

From Stdlib Require Import ZArith Lia.
From stdpp Require Import base list.
From S2P Require Import Prelude.

(** The sum of the 16-bit words of RFC 1071, the last byte padded with zero. *)
Fixpoint sum16 (l : list Z) : Z :=
  match l with
  | a :: b :: l' => 256 * a + b + sum16 l'
  | [a] => 256 * a
  | [] => 0
  end.

Lemma list_pairs_ind (P : list Z → Prop) :
  P [] → (∀ a, P [a]) → (∀ a b l, P l → P (a :: b :: l)) → ∀ l, P l.
Proof.
  intros H0 H1 H2 l. assert (H : P l ∧ ∀ a, P (a :: l)); [|tauto].
  induction l as [|b l [IH1 IH2]]; [auto|]. split; [auto|]. intros a. by apply H2.
Qed.

Lemma sum16_bounds l : Forall is_byte l → 0 ≤ sum16 l ≤ 65535 * Z.of_nat (length l).
Proof.
  induction l as [|a|a b l IH] using list_pairs_ind; intros Hb; cbn [sum16 length]; [lia|..].
  - apply Forall_inv in Hb. unfold is_byte in Hb. lia.
  - apply list.Forall_cons in Hb as [Ha [Hb Hl]%list.Forall_cons]. unfold is_byte in *. specialize (IH Hl). lia.
Qed.

Lemma sum16_even l k : Nat.Even (length l) → sum16 (l ++ k) = sum16 l + sum16 k.
Proof.
  induction l as [|a|a b l IH] using list_pairs_ind; intros He; [done| |].
  - destruct He as [n Hn]. simpl in Hn. lia.
  - cbn [app sum16]. rewrite IH; [lia|]. destruct He as [n Hn]. exists (n - 1)%nat. simpl in Hn. lia.
Qed.

(** One's complement numbers: congruent modulo 65535, and zero only for zero. *)
Definition ones (n c : Z) : Prop := 0 ≤ c < 65536 ∧ (c - n) mod 65535 = 0 ∧ (c = 0 ↔ n = 0).

Lemma fold_step n : 0 ≤ n < 2 ^ 31 →
  let n' := Z.land n 0xffff + Z.shiftr n 16 in
  i32 n' = n' ∧ 0 ≤ n' ∧ n = n' + 65535 * Z.shiftr n 16 ∧ (n' = 0 ↔ n = 0) ∧ n' ≤ 65535 + Z.shiftr n 16.
Proof.
  intros Hn. cbv zeta. rewrite (Z.land_ones n 16 ltac:(lia) : Z.land n 0xffff = _).
  rewrite Z.shiftr_div_pow2 by lia. pose proof (Z.div_mod n (2 ^ 16) ltac:(lia)) as E.
  pose proof (Z.mod_pos_bound n (2 ^ 16) ltac:(lia)).
  assert (0 ≤ n / 2 ^ 16 < 2 ^ 15).
  { split; [apply Z.div_pos; lia|]. apply Z.div_lt_upper_bound; lia. }
  change (2 ^ 16) with 65536 in *. split_and!; [apply i32_small; lia|lia|lia|lia|lia].
Qed.

Lemma ones_step n n' c k : n = n' + 65535 * k → (n' = 0 ↔ n = 0) → ones n' c → ones n c.
Proof.
  intros -> H0 (Hc & Hm & Hz). split_and!; [lia|lia| |by rewrite Hz, H0].
  replace (c - (n' + 65535 * k)) with (c - n' + (- k) * 65535) by lia.
  by rewrite Z.mod_add by lia.
Qed.

(** A checksum [c] of a sum [n] verifies: with [c] added the checksum is zero. *)
Lemma ones_verify n c c' :
  0 ≤ n → 0 ≤ c < 65536 → ones n (65535 - c) → 0 ≤ c' < 65536 → ones (n + c) (65535 - c') →
  (n + c) mod 65535 = 0 ∧ c' = 0.
Proof.
  intros Hn Hc (_ & Hm & Hz) Hc' (_ & Hm' & Hz').
  assert (Hmod : (n + c) mod 65535 = 0).
  { replace (n + c) with (- (65535 - c - n) + 1 * 65535) by lia.
    rewrite Z.mod_add by lia. by apply Z.mod_opp_l_z. }
  split; [done|].
  assert (Hz0 : c' ≠ 65535).
  { intros ->. destruct Hz' as [Hz' _]. assert (n = 0 ∧ c = 0) as [Ew Ec] by lia.
    destruct Hz as [_ Hz]. specialize (Hz Ew). lia. }
  assert (Hm2 : (65535 - c') mod 65535 = 0).
  { replace (65535 - c') with ((65535 - c' - (n + c)) + (n + c)) by lia.
    by rewrite Z.add_mod, Hm', Hmod by lia. }
  destruct (decide (c' = 0)); [done|]. rewrite Z.mod_small in Hm2 by lia. lia.
Qed.

(** The two bytes of a 16-bit number are one word. *)
Lemma sum16_be_bytes c : 0 ≤ c < 65536 → sum16 (be_bytes 2 c) = c.
Proof.
  intros Hc. pose proof (be_val_bytes2 c Hc) as E. unfold be_val in E. cbn [be_bytes be_val_aux sum16] in *. lia.
Qed.
