(* ===== verification/StpTypes.v ===== *)
(** * Data of the spanning-tree daemon

    The C structures of [stpsuit/src] as records, the enumerations as
    inductive types, and the heap of ports and bridge instances.

    - [BRIDGE_ID], [PRIO_VECTOR_T], [TIMEVALUES_T]: [stp_vector.h], [stp_times.h].
    - [PORT_T]: [struct port_t] of [stp_port.h].  A [Bool] is a [bool], a C
      enumeration an inductive type, every other number a [Z].  The state
      machines a port owns are fields; the five that an MSTI port does not
      create ([migrate], [transmit], [p2p], [edge], [receive]) are [None]
      there.  Debug strings and trace switches are left out.
    - [STPM.STPM_T]: [struct stpm_t] of [stp_stpm.h].
    - [STP_T]: the global variables of the daemon.  A [struct port_t *] is a
      [PORT_REF], the pair of the instance number and the port index, looked up
      in [port_heap]; a [struct stpm_t *] is the instance number, looked up in
      [stpm_heap].  The linked list [stpm->ports] is a list of references, the
      chain of [nextMst] pointers that starts at a CIST port is the list
      [nextMst] of that port (only CIST ports are heads of a chain).
    - [EVENT]: what the daemon asks of the outside (the switch driver, the
      kernel bridge, the packet socket), and the accesses outside a block of
      memory; [trace] lists the events, newest first. *)

From Stdlib Require Import ZArith Lia.
From stdpp Require Import base gmap list option.
From S2P Require Import Prelude.

#[export] Set Primitive Projections.

(** ** States of the state machines *)

Module EdgeState.
Inductive STATES := BEGIN | DISABLED | DETECTED | DELEAYED | RESOLVED.
End EdgeState.

Module P2pState.
Inductive STATES := BEGIN | INIT | RECOMPUTE | STABLE.
End P2pState.

Module MigrateState.
Inductive STATES := BEGIN | INIT | SEND_RSTP | SENDING_RSTP | SEND_STP | SENDING_STP.
End MigrateState.

Module PcostState.
Inductive STATES := BEGIN | AUTO | FORSE | STABLE.
End PcostState.

Module SttransState.
Inductive STATES := BEGIN | DISCARDING | LEARNING | FORWARDING.
End SttransState.

Module TopochState.
Inductive STATES :=
  BEGIN | INIT | INACTIVE | ACTIVE | DETECTED | NOTIFIED_TC | PROPAGATING
| ACKNOWLEDGED | NOTIFIED_TCN.
End TopochState.

Module InfoState.
Inductive STATES :=
  BEGIN | DISABLED | ENABLED | AGED | UPDATE | CURRENT | RECEIVE
| SUPERIOR_DESIGNATED | REPEATED_DESIGNATED | ROOT | OTHER.
End InfoState.

Module RoleselState.
Inductive STATES := BEGIN | INIT_BRIDGE | RECEIVE.
End RoleselState.

Module RoletrnsState.
Inductive STATES :=
  BEGIN | INIT_PORT | BLOCK_PORT | BLOCKED_PORT | BACKUP_PORT | PROPOSED
| PROPOSING | AGREES | SYNCED | REROOT | ACTIVE_PORT | FORWARD | LEARN
| LISTEN | REROOTED | ROOT | NON_STP.
End RoletrnsState.

Module ReceiveState.
Inductive STATES := BEGIN | INIT | DISCARD | RECEIVE.
End ReceiveState.

Module TransmitState.
Inductive STATES :=
  BEGIN | TRANSMIT_INIT | TRANSMIT_PERIODIC | IDLE | TRANSMIT_CONFIG
| TRANSMIT_TCN | TRANSMIT_RSTP.
End TransmitState.

(** [struct state_mach_t], less its name, debug switches and callbacks (the
    callbacks are the functions of the machine's own file). *)
Record STATE_MACH_T (S : Type) : Type := mkMach { State : S; changeState : bool }.
Arguments mkMach {S} _ _.
Arguments State {S} _.
Arguments changeState {S} _.

(** ** Enumerations *)

Inductive INFO_IS_T := Mine | Aged | Received | Disabled.

Inductive RCVD_MSG_T :=
  SuperiorDesignateMsg | RepeatedDesignateMsg | ConfirmedRootMsg | OtherMsg.

Inductive PORT_ROLE_T :=
  DisabledPort | AlternatePort | BackupPort | RootPort | DesignatedPort
| MasterPort | NonStpPort.

Inductive ADMIN_P2P_T := P2P_FORCE_FALSE_E | P2P_FORCE_TRUE_E | P2P_AUTO_E.

Inductive UID_STP_MODE_T := STP_DISABLED | STP_ENABLED.

Inductive NAM_RSTP_PORT_STATE_E :=
  NAM_STP_PORT_STATE_DISABLE_E | NAM_STP_PORT_STATE_DISCARD_E
| NAM_STP_PORT_STATE_LEARN_E | NAM_STP_PORT_STATE_FORWARD_E.

Inductive PRODUCT_ID_T :=
  PRODUCT_ID_NONE | PRODUCT_ID_AX8600 | PRODUCT_ID_AX7K | PRODUCT_ID_AX7K_I
| PRODUCT_ID_AX5K | PRODUCT_ID_AX5K_I | PRODUCT_ID_AX5K_E | PRODUCT_ID_AX5608
| PRODUCT_ID_AU4K | PRODUCT_ID_AU3K | PRODUCT_ID_AU3K_BCM
| PRODUCT_ID_AU3K_BCAT | PRODUCT_ID_AU2K_TCAT.

#[export] Instance INFO_IS_T_eq_dec : EqDecision INFO_IS_T.
Proof. solve_decision. Defined.
#[export] Instance RCVD_MSG_T_eq_dec : EqDecision RCVD_MSG_T.
Proof. solve_decision. Defined.
#[export] Instance PORT_ROLE_T_eq_dec : EqDecision PORT_ROLE_T.
Proof. solve_decision. Defined.
#[export] Instance UID_STP_MODE_T_eq_dec : EqDecision UID_STP_MODE_T.
Proof. solve_decision. Defined.
#[export] Instance PRODUCT_ID_T_eq_dec : EqDecision PRODUCT_ID_T.
Proof. solve_decision. Defined.

(** The C comparison [a == b] on an enumeration, as a [bool]. *)
Notation "a =e b" := (bool_decide (a = b)) (at level 70) : stp_scope.
Notation "a <>e b" := (negb (bool_decide (a = b))) (at level 70) : stp_scope.

(** ** Constants of [stp_base.h], [stp_bpdu.h] and [stp_stpm.h] *)

Definition STP_CIST_ID : Z := 0.
Definition STP_MSTI_MAX : Z := 64.
Definition STP_MAX_VID : Z := 4094.
Definition TxHoldCount : Z := 3.
Definition NORMAL_RSTP : Z := 2.
Definition NORMAL_MSTP : Z := 3.

Definition BPDU_TOPO_CHANGE_TYPE : Z := 0x80.
Definition BPDU_CONFIG_TYPE : Z := 0x00.
Definition BPDU_RSTP : Z := 0x02.
Definition BPDU_MSTP : Z := 0x03.

Definition TOLPLOGY_CHANGE_BIT : Z := 0x01.
Definition PROPOSAL_BIT : Z := 0x02.
Definition PORT_ROLE_OFFS : Z := 2.
Definition PORT_ROLE_MASK : Z := Z.shiftl 0x03 PORT_ROLE_OFFS.
Definition LEARN_BIT : Z := 0x10.
Definition FORWARD_BIT : Z := 0x20.
Definition AGREEMENT_BIT : Z := 0x40.
Definition TOLPLOGY_CHANGE_ACK_BIT : Z := 0x80.
Definition MASTER_BIT : Z := 0x80.

Definition RSTP_PORT_ROLE_UNKN : Z := 0x00.
Definition MSTP_PORT_ROLE_MASTER : Z := 0x00.
Definition RSTP_PORT_ROLE_ALTBACK : Z := 0x01.
Definition RSTP_PORT_ROLE_ROOT : Z := 0x02.
Definition RSTP_PORT_ROLE_DESGN : Z := 0x03.

(** ** Identifiers, priority vectors and times *)

Record BRIDGE_ID : Type := mkBridgeId {
  prio : Z;
  addr : list Z }.

Definition BRIDGE_ID_eta (r : BRIDGE_ID) : BRIDGE_ID :=
  mkBridgeId r.(prio) r.(addr).

#[export] Instance set_prio : Setter prio := ltac:(solve_setter BRIDGE_ID_eta).
#[export] Instance set_addr : Setter addr := ltac:(solve_setter BRIDGE_ID_eta).

Record PRIO_VECTOR_T : Type := mkVector {
  root_bridge : BRIDGE_ID;
  root_path_cost : Z;
  region_root_bridge : BRIDGE_ID;
  region_root_path_cost : Z;
  design_bridge : BRIDGE_ID;
  design_port : Z;
  bridge_port : Z }.

Definition PRIO_VECTOR_T_eta (r : PRIO_VECTOR_T) : PRIO_VECTOR_T :=
  mkVector r.(root_bridge) r.(root_path_cost) r.(region_root_bridge)
    r.(region_root_path_cost) r.(design_bridge) r.(design_port)
    r.(bridge_port).

#[export] Instance set_root_bridge : Setter root_bridge := ltac:(solve_setter PRIO_VECTOR_T_eta).
#[export] Instance set_root_path_cost : Setter root_path_cost := ltac:(solve_setter PRIO_VECTOR_T_eta).
#[export] Instance set_region_root_bridge : Setter region_root_bridge := ltac:(solve_setter PRIO_VECTOR_T_eta).
#[export] Instance set_region_root_path_cost : Setter region_root_path_cost := ltac:(solve_setter PRIO_VECTOR_T_eta).
#[export] Instance set_design_bridge : Setter design_bridge := ltac:(solve_setter PRIO_VECTOR_T_eta).
#[export] Instance set_design_port : Setter design_port := ltac:(solve_setter PRIO_VECTOR_T_eta).
#[export] Instance set_bridge_port : Setter bridge_port := ltac:(solve_setter PRIO_VECTOR_T_eta).

Record TIMEVALUES_T : Type := mkTimes {
  MessageAge : Z;
  MaxAge : Z;
  ForwardDelay : Z;
  HelloTime : Z;
  RemainingHops : Z }.

Definition TIMEVALUES_T_eta (r : TIMEVALUES_T) : TIMEVALUES_T :=
  mkTimes r.(MessageAge) r.(MaxAge) r.(ForwardDelay) r.(HelloTime)
    r.(RemainingHops).

#[export] Instance set_MessageAge : Setter MessageAge := ltac:(solve_setter TIMEVALUES_T_eta).
#[export] Instance set_MaxAge : Setter MaxAge := ltac:(solve_setter TIMEVALUES_T_eta).
#[export] Instance set_ForwardDelay : Setter ForwardDelay := ltac:(solve_setter TIMEVALUES_T_eta).
#[export] Instance set_HelloTime : Setter HelloTime := ltac:(solve_setter TIMEVALUES_T_eta).
#[export] Instance set_RemainingHops : Setter RemainingHops := ltac:(solve_setter TIMEVALUES_T_eta).

Record MST_CFG_ID_S : Type := mkMstCfgId {
  FormatSelector : Z;
  ConfigurationName : list Z;
  RevisionLevel : list Z;
  ConfigurationDigest : list Z }.

Definition MST_CFG_ID_S_eta (r : MST_CFG_ID_S) : MST_CFG_ID_S :=
  mkMstCfgId r.(FormatSelector) r.(ConfigurationName) r.(RevisionLevel)
    r.(ConfigurationDigest).

#[export] Instance set_FormatSelector : Setter FormatSelector := ltac:(solve_setter MST_CFG_ID_S_eta).
#[export] Instance set_ConfigurationName : Setter ConfigurationName := ltac:(solve_setter MST_CFG_ID_S_eta).
#[export] Instance set_RevisionLevel : Setter RevisionLevel := ltac:(solve_setter MST_CFG_ID_S_eta).
#[export] Instance set_ConfigurationDigest : Setter ConfigurationDigest := ltac:(solve_setter MST_CFG_ID_S_eta).

(** [bmp]: the 512 bytes of the VLAN bitmap. *)
Record VLAN_MAP_T : Type := mkVlanMap {
  bmp : list Z;
  ulcount : Z }.

Definition VLAN_MAP_T_eta (r : VLAN_MAP_T) : VLAN_MAP_T :=
  mkVlanMap r.(bmp) r.(ulcount).

#[export] Instance set_bmp : Setter bmp := ltac:(solve_setter VLAN_MAP_T_eta).
#[export] Instance set_ulcount : Setter ulcount := ltac:(solve_setter VLAN_MAP_T_eta).

#[export] Instance BRIDGE_ID_eq_dec : EqDecision BRIDGE_ID.
Proof. solve_decision. Defined.

(** ** Ports *)

(** A [struct port_t *]: instance number and port index. *)
Abbreviation PORT_REF := (Z * Z)%type.

Record PORT_T : Type := mkPort {
  nextMst : list PORT_REF;
  vlan_map : VLAN_MAP_T;
  info : STATE_MACH_T InfoState.STATES;
  roletrns : STATE_MACH_T RoletrnsState.STATES;
  sttrans : STATE_MACH_T SttransState.STATES;
  topoch : STATE_MACH_T TopochState.STATES;
  migrate : option (STATE_MACH_T MigrateState.STATES);
  transmit : option (STATE_MACH_T TransmitState.STATES);
  p2p : option (STATE_MACH_T P2pState.STATES);
  edge : option (STATE_MACH_T EdgeState.STATES);
  pcost : STATE_MACH_T PcostState.STATES;
  receive : option (STATE_MACH_T ReceiveState.STATES);
  owner : Z;
  fdWhile : Z;
  helloWhen : Z;
  mdelayWhile : Z;
  rbWhile : Z;
  rcvdInfoWhile : Z;
  rrWhile : Z;
  tcWhile : Z;
  txCount : Z;
  lnkWhile : Z;
  agreed : bool;
  designPrio : PRIO_VECTOR_T;
  designTimes : TIMEVALUES_T;
  forward : bool;
  forwarding : bool;
  infoIs : INFO_IS_T;
  initPm : bool;
  learn : bool;
  learning : bool;
  mcheck : bool;
  msgPrio : PRIO_VECTOR_T;
  msgTimes : TIMEVALUES_T;
  newInfo : bool;
  operEdge : bool;
  adminEdge : bool;
  portEnabled : bool;
  port_id : Z;
  portPrio : PRIO_VECTOR_T;
  portTimes : TIMEVALUES_T;
  proposed : bool;
  proposing : bool;
  rcvdBpdu : bool;
  rcvdInfo : RCVD_MSG_T;
  rcvdRSTP : bool;
  rcvdSTP : bool;
  rcvdTc : bool;
  rcvdTcAck : bool;
  rcvdTcn : bool;
  reRoot : bool;
  reselect : bool;
  role : PORT_ROLE_T;
  selected : bool;
  selectedRole : PORT_ROLE_T;
  sendRSTP : bool;
  sync : bool;
  synced : bool;
  tc : bool;
  tcAck : bool;
  tcProp : bool;
  updtInfo : bool;
  agree : bool;
  changedMaster : bool;
  infoInternal : bool;
  mstiMaster : bool;
  mstiMastered : bool;
  newInfoCist : bool;
  newInfoMsti : bool;
  rcvdInternal : bool;
  rcvdMsg : bool;
  msgBpduVersion : Z;
  msgBpduType : Z;
  msgPortRole : Z;
  msgFlags : Z;
  adminPCost : Z;
  operPCost : Z;
  operSpeed : Z;
  usedSpeed : Z;
  LinkDelay : Z;
  adminEnable : bool;
  isWAN : bool;
  slot_no : Z;
  port_no : Z;
  port_ifindex : Z;
  br_ifindex : Z;
  wasInitBpdu : bool;
  admin_non_stp : bool;
  p2p_recompute : bool;
  operPointToPointMac : bool;
  adminPointToPointMac : ADMIN_P2P_T;
  rx_cfg_bpdu_cnt : Z;
  rx_rstp_bpdu_cnt : Z;
  rx_tcn_bpdu_cnt : Z;
  uptime : Z;
  port_index : Z;
  vlan_id : Z;
  skip_rx : Z;
  skip_tx : Z;
  configDigestSnp : bool;
  digest : list Z }.

Definition PORT_T_eta (r : PORT_T) : PORT_T :=
  mkPort r.(nextMst) r.(vlan_map) r.(info) r.(roletrns) r.(sttrans) r.(topoch)
    r.(migrate) r.(transmit) r.(p2p) r.(edge) r.(pcost) r.(receive)
    r.(owner) r.(fdWhile) r.(helloWhen) r.(mdelayWhile) r.(rbWhile)
    r.(rcvdInfoWhile) r.(rrWhile) r.(tcWhile) r.(txCount) r.(lnkWhile)
    r.(agreed) r.(designPrio) r.(designTimes) r.(forward) r.(forwarding)
    r.(infoIs) r.(initPm) r.(learn) r.(learning) r.(mcheck) r.(msgPrio)
    r.(msgTimes) r.(newInfo) r.(operEdge) r.(adminEdge) r.(portEnabled)
    r.(port_id) r.(portPrio) r.(portTimes) r.(proposed) r.(proposing)
    r.(rcvdBpdu) r.(rcvdInfo) r.(rcvdRSTP) r.(rcvdSTP) r.(rcvdTc)
    r.(rcvdTcAck) r.(rcvdTcn) r.(reRoot) r.(reselect) r.(role)
    r.(selected) r.(selectedRole) r.(sendRSTP) r.(sync) r.(synced) r.(tc)
    r.(tcAck) r.(tcProp) r.(updtInfo) r.(agree) r.(changedMaster)
    r.(infoInternal) r.(mstiMaster) r.(mstiMastered) r.(newInfoCist)
    r.(newInfoMsti) r.(rcvdInternal) r.(rcvdMsg) r.(msgBpduVersion)
    r.(msgBpduType) r.(msgPortRole) r.(msgFlags) r.(adminPCost)
    r.(operPCost) r.(operSpeed) r.(usedSpeed) r.(LinkDelay)
    r.(adminEnable) r.(isWAN) r.(slot_no) r.(port_no) r.(port_ifindex)
    r.(br_ifindex) r.(wasInitBpdu) r.(admin_non_stp) r.(p2p_recompute)
    r.(operPointToPointMac) r.(adminPointToPointMac) r.(rx_cfg_bpdu_cnt)
    r.(rx_rstp_bpdu_cnt) r.(rx_tcn_bpdu_cnt) r.(uptime) r.(port_index)
    r.(vlan_id) r.(skip_rx) r.(skip_tx) r.(configDigestSnp) r.(digest).

#[export] Instance set_nextMst : Setter nextMst := ltac:(solve_setter PORT_T_eta).
#[export] Instance set_vlan_map : Setter vlan_map := ltac:(solve_setter PORT_T_eta).
#[export] Instance set_info : Setter info := ltac:(solve_setter PORT_T_eta).
#[export] Instance set_roletrns : Setter roletrns := ltac:(solve_setter PORT_T_eta).
#[export] Instance set_sttrans : Setter sttrans := ltac:(solve_setter PORT_T_eta).
#[export] Instance set_topoch : Setter topoch := ltac:(solve_setter PORT_T_eta).
#[export] Instance set_migrate : Setter migrate := ltac:(solve_setter PORT_T_eta).
#[export] Instance set_transmit : Setter transmit := ltac:(solve_setter PORT_T_eta).
#[export] Instance set_p2p : Setter p2p := ltac:(solve_setter PORT_T_eta).
#[export] Instance set_edge : Setter edge := ltac:(solve_setter PORT_T_eta).
#[export] Instance set_pcost : Setter pcost := ltac:(solve_setter PORT_T_eta).
#[export] Instance set_receive : Setter receive := ltac:(solve_setter PORT_T_eta).
#[export] Instance set_owner : Setter owner := ltac:(solve_setter PORT_T_eta).
#[export] Instance set_fdWhile : Setter fdWhile := ltac:(solve_setter PORT_T_eta).
#[export] Instance set_helloWhen : Setter helloWhen := ltac:(solve_setter PORT_T_eta).
#[export] Instance set_mdelayWhile : Setter mdelayWhile := ltac:(solve_setter PORT_T_eta).
#[export] Instance set_rbWhile : Setter rbWhile := ltac:(solve_setter PORT_T_eta).
#[export] Instance set_rcvdInfoWhile : Setter rcvdInfoWhile := ltac:(solve_setter PORT_T_eta).
#[export] Instance set_rrWhile : Setter rrWhile := ltac:(solve_setter PORT_T_eta).
#[export] Instance set_tcWhile : Setter tcWhile := ltac:(solve_setter PORT_T_eta).
#[export] Instance set_txCount : Setter txCount := ltac:(solve_setter PORT_T_eta).
#[export] Instance set_lnkWhile : Setter lnkWhile := ltac:(solve_setter PORT_T_eta).
#[export] Instance set_agreed : Setter agreed := ltac:(solve_setter PORT_T_eta).
#[export] Instance set_designPrio : Setter designPrio := ltac:(solve_setter PORT_T_eta).
#[export] Instance set_designTimes : Setter designTimes := ltac:(solve_setter PORT_T_eta).
#[export] Instance set_forward : Setter forward := ltac:(solve_setter PORT_T_eta).
#[export] Instance set_forwarding : Setter forwarding := ltac:(solve_setter PORT_T_eta).
#[export] Instance set_infoIs : Setter infoIs := ltac:(solve_setter PORT_T_eta).
#[export] Instance set_initPm : Setter initPm := ltac:(solve_setter PORT_T_eta).
#[export] Instance set_learn : Setter learn := ltac:(solve_setter PORT_T_eta).
#[export] Instance set_learning : Setter learning := ltac:(solve_setter PORT_T_eta).
#[export] Instance set_mcheck : Setter mcheck := ltac:(solve_setter PORT_T_eta).
#[export] Instance set_msgPrio : Setter msgPrio := ltac:(solve_setter PORT_T_eta).
#[export] Instance set_msgTimes : Setter msgTimes := ltac:(solve_setter PORT_T_eta).
#[export] Instance set_newInfo : Setter newInfo := ltac:(solve_setter PORT_T_eta).
#[export] Instance set_operEdge : Setter operEdge := ltac:(solve_setter PORT_T_eta).
#[export] Instance set_adminEdge : Setter adminEdge := ltac:(solve_setter PORT_T_eta).
#[export] Instance set_portEnabled : Setter portEnabled := ltac:(solve_setter PORT_T_eta).
#[export] Instance set_port_id : Setter port_id := ltac:(solve_setter PORT_T_eta).
#[export] Instance set_portPrio : Setter portPrio := ltac:(solve_setter PORT_T_eta).
#[export] Instance set_portTimes : Setter portTimes := ltac:(solve_setter PORT_T_eta).
#[export] Instance set_proposed : Setter proposed := ltac:(solve_setter PORT_T_eta).
#[export] Instance set_proposing : Setter proposing := ltac:(solve_setter PORT_T_eta).
#[export] Instance set_rcvdBpdu : Setter rcvdBpdu := ltac:(solve_setter PORT_T_eta).
#[export] Instance set_rcvdInfo : Setter rcvdInfo := ltac:(solve_setter PORT_T_eta).
#[export] Instance set_rcvdRSTP : Setter rcvdRSTP := ltac:(solve_setter PORT_T_eta).
#[export] Instance set_rcvdSTP : Setter rcvdSTP := ltac:(solve_setter PORT_T_eta).
#[export] Instance set_rcvdTc : Setter rcvdTc := ltac:(solve_setter PORT_T_eta).
#[export] Instance set_rcvdTcAck : Setter rcvdTcAck := ltac:(solve_setter PORT_T_eta).
#[export] Instance set_rcvdTcn : Setter rcvdTcn := ltac:(solve_setter PORT_T_eta).
#[export] Instance set_reRoot : Setter reRoot := ltac:(solve_setter PORT_T_eta).
#[export] Instance set_reselect : Setter reselect := ltac:(solve_setter PORT_T_eta).
#[export] Instance set_role : Setter role := ltac:(solve_setter PORT_T_eta).
#[export] Instance set_selected : Setter selected := ltac:(solve_setter PORT_T_eta).
#[export] Instance set_selectedRole : Setter selectedRole := ltac:(solve_setter PORT_T_eta).
#[export] Instance set_sendRSTP : Setter sendRSTP := ltac:(solve_setter PORT_T_eta).
#[export] Instance set_sync : Setter sync := ltac:(solve_setter PORT_T_eta).
#[export] Instance set_synced : Setter synced := ltac:(solve_setter PORT_T_eta).
#[export] Instance set_tc : Setter tc := ltac:(solve_setter PORT_T_eta).
#[export] Instance set_tcAck : Setter tcAck := ltac:(solve_setter PORT_T_eta).
#[export] Instance set_tcProp : Setter tcProp := ltac:(solve_setter PORT_T_eta).
#[export] Instance set_updtInfo : Setter updtInfo := ltac:(solve_setter PORT_T_eta).
#[export] Instance set_agree : Setter agree := ltac:(solve_setter PORT_T_eta).
#[export] Instance set_changedMaster : Setter changedMaster := ltac:(solve_setter PORT_T_eta).
#[export] Instance set_infoInternal : Setter infoInternal := ltac:(solve_setter PORT_T_eta).
#[export] Instance set_mstiMaster : Setter mstiMaster := ltac:(solve_setter PORT_T_eta).
#[export] Instance set_mstiMastered : Setter mstiMastered := ltac:(solve_setter PORT_T_eta).
#[export] Instance set_newInfoCist : Setter newInfoCist := ltac:(solve_setter PORT_T_eta).
#[export] Instance set_newInfoMsti : Setter newInfoMsti := ltac:(solve_setter PORT_T_eta).
#[export] Instance set_rcvdInternal : Setter rcvdInternal := ltac:(solve_setter PORT_T_eta).
#[export] Instance set_rcvdMsg : Setter rcvdMsg := ltac:(solve_setter PORT_T_eta).
#[export] Instance set_msgBpduVersion : Setter msgBpduVersion := ltac:(solve_setter PORT_T_eta).
#[export] Instance set_msgBpduType : Setter msgBpduType := ltac:(solve_setter PORT_T_eta).
#[export] Instance set_msgPortRole : Setter msgPortRole := ltac:(solve_setter PORT_T_eta).
#[export] Instance set_msgFlags : Setter msgFlags := ltac:(solve_setter PORT_T_eta).
#[export] Instance set_adminPCost : Setter adminPCost := ltac:(solve_setter PORT_T_eta).
#[export] Instance set_operPCost : Setter operPCost := ltac:(solve_setter PORT_T_eta).
#[export] Instance set_operSpeed : Setter operSpeed := ltac:(solve_setter PORT_T_eta).
#[export] Instance set_usedSpeed : Setter usedSpeed := ltac:(solve_setter PORT_T_eta).
#[export] Instance set_LinkDelay : Setter LinkDelay := ltac:(solve_setter PORT_T_eta).
#[export] Instance set_adminEnable : Setter adminEnable := ltac:(solve_setter PORT_T_eta).
#[export] Instance set_isWAN : Setter isWAN := ltac:(solve_setter PORT_T_eta).
#[export] Instance set_slot_no : Setter slot_no := ltac:(solve_setter PORT_T_eta).
#[export] Instance set_port_no : Setter port_no := ltac:(solve_setter PORT_T_eta).
#[export] Instance set_port_ifindex : Setter port_ifindex := ltac:(solve_setter PORT_T_eta).
#[export] Instance set_br_ifindex : Setter br_ifindex := ltac:(solve_setter PORT_T_eta).
#[export] Instance set_wasInitBpdu : Setter wasInitBpdu := ltac:(solve_setter PORT_T_eta).
#[export] Instance set_admin_non_stp : Setter admin_non_stp := ltac:(solve_setter PORT_T_eta).
#[export] Instance set_p2p_recompute : Setter p2p_recompute := ltac:(solve_setter PORT_T_eta).
#[export] Instance set_operPointToPointMac : Setter operPointToPointMac := ltac:(solve_setter PORT_T_eta).
#[export] Instance set_adminPointToPointMac : Setter adminPointToPointMac := ltac:(solve_setter PORT_T_eta).
#[export] Instance set_rx_cfg_bpdu_cnt : Setter rx_cfg_bpdu_cnt := ltac:(solve_setter PORT_T_eta).
#[export] Instance set_rx_rstp_bpdu_cnt : Setter rx_rstp_bpdu_cnt := ltac:(solve_setter PORT_T_eta).
#[export] Instance set_rx_tcn_bpdu_cnt : Setter rx_tcn_bpdu_cnt := ltac:(solve_setter PORT_T_eta).
#[export] Instance set_uptime : Setter uptime := ltac:(solve_setter PORT_T_eta).
#[export] Instance set_port_index : Setter port_index := ltac:(solve_setter PORT_T_eta).
#[export] Instance set_vlan_id : Setter vlan_id := ltac:(solve_setter PORT_T_eta).
#[export] Instance set_skip_rx : Setter skip_rx := ltac:(solve_setter PORT_T_eta).
#[export] Instance set_skip_tx : Setter skip_tx := ltac:(solve_setter PORT_T_eta).
#[export] Instance set_configDigestSnp : Setter configDigestSnp := ltac:(solve_setter PORT_T_eta).
#[export] Instance set_digest : Setter digest := ltac:(solve_setter PORT_T_eta).

(** ** Bridge instances *)

Module STPM.
Record STPM_T : Type := mkStpm {
  ports : list PORT_REF;
  rolesel : STATE_MACH_T RoleselState.STATES;
  ForceVersion : Z;
  BrId : BRIDGE_ID;
  BrTimes : TIMEVALUES_T;
  rootPortId : Z;
  rootPrio : PRIO_VECTOR_T;
  rootTimes : TIMEVALUES_T;
  MstConfigId : MST_CFG_ID_S;
  vlan_id : Z;
  vlan_map : VLAN_MAP_T;
  admin_state : UID_STP_MODE_T;
  timeSince_Topo_Change : Z;
  Topo_Change_Count : Z;
  Topo_Change : Z;
  digest : list Z }.

Definition STPM_T_eta (r : STPM_T) : STPM_T :=
  mkStpm r.(ports) r.(rolesel) r.(ForceVersion) r.(BrId) r.(BrTimes)
    r.(rootPortId) r.(rootPrio) r.(rootTimes) r.(MstConfigId) r.(vlan_id)
    r.(vlan_map) r.(admin_state) r.(timeSince_Topo_Change)
    r.(Topo_Change_Count) r.(Topo_Change) r.(digest).

#[export] Instance set_ports : Setter ports := ltac:(solve_setter STPM_T_eta).
#[export] Instance set_rolesel : Setter rolesel := ltac:(solve_setter STPM_T_eta).
#[export] Instance set_ForceVersion : Setter ForceVersion := ltac:(solve_setter STPM_T_eta).
#[export] Instance set_BrId : Setter BrId := ltac:(solve_setter STPM_T_eta).
#[export] Instance set_BrTimes : Setter BrTimes := ltac:(solve_setter STPM_T_eta).
#[export] Instance set_rootPortId : Setter rootPortId := ltac:(solve_setter STPM_T_eta).
#[export] Instance set_rootPrio : Setter rootPrio := ltac:(solve_setter STPM_T_eta).
#[export] Instance set_rootTimes : Setter rootTimes := ltac:(solve_setter STPM_T_eta).
#[export] Instance set_MstConfigId : Setter MstConfigId := ltac:(solve_setter STPM_T_eta).
#[export] Instance set_vlan_id : Setter vlan_id := ltac:(solve_setter STPM_T_eta).
#[export] Instance set_vlan_map : Setter vlan_map := ltac:(solve_setter STPM_T_eta).
#[export] Instance set_admin_state : Setter admin_state := ltac:(solve_setter STPM_T_eta).
#[export] Instance set_timeSince_Topo_Change : Setter timeSince_Topo_Change := ltac:(solve_setter STPM_T_eta).
#[export] Instance set_Topo_Change_Count : Setter Topo_Change_Count := ltac:(solve_setter STPM_T_eta).
#[export] Instance set_Topo_Change : Setter Topo_Change := ltac:(solve_setter STPM_T_eta).
#[export] Instance set_digest : Setter digest := ltac:(solve_setter STPM_T_eta).
End STPM.
Export (hints) STPM.
Abbreviation STPM_T := STPM.STPM_T.

(** ** The global state *)

(** [BPDU_RECORD_T]: the frame being processed.  [rec_bytes] is the memory
    from the start of the frame to the end of its buffer. *)
Record BPDU_RECORD_T : Type := mkBpduRecord {
  rec_bytes : list Z;
  rec_type : Z;
  rec_digestSnp : bool }.

(** The blocks of memory that some access may leave: the string a name of 32
    bytes is copied from (the one [strdup] makes of it, a literal), the array
    [tmp] of [stp_to_get_port_name], an array for the name of an interface, the
    block of a frame to send, the buffer of a message to the kernel, an array of
    [struct stp_admin_infos], the table [stp_ports], and memory that was freed. *)
Inductive BLOCK_T :=
  NAME_STRING | PORT_NAME | IF_NAME | FRAME | NETLINK_BUF | INFO_ARRAY | STP_PORTS | FREED.

(** Calls to the outside: [stp_npd_cmd_send_stp_info], [stp_npd_set_wan_state],
    [stp_npd_cmd_notify_tcn], [stp_uid_bridge_tx_bpdu] and
    [stp_netlink_socket_sendto] (the interface [eth<slot>-<port>[.<vid>]]).  The
    last two are given the whole buffer and the number of bytes to send.

    [OVERRUN block room len] is an access to the first [len] elements of a block
    that has [room] of them.  The program goes on, and so does the model, which
    has no memory next to the block: what such a read finds there is not used,
    what such a write spoils there is not modelled. *)
Inductive EVENT :=
| NPD_STP_INFO (mstid vid port_index : Z) (state : NAM_RSTP_PORT_STATE_E)
| WAN_STATE (br_ifindex port_ifindex : Z) (state : NAM_RSTP_PORT_STATE_E)
| NPD_TCN (mstid vid port_index : Z)
| TX_BPDU (port_index : Z) (bpdu : list Z) (bpdu_len : Z)
| TX_WAN (slot_no port_no : Z) (vid : option Z) (bpdu : list Z) (bpdu_len : Z)
| OVERRUN (block : BLOCK_T) (room len : Z).

Record STP_T : Type := mkStp {
  bridges : list Z;
  g_CISTBRIDGE : option Z;
  stpm_heap : gmap Z STPM.STPM_T;
  port_heap : gmap PORT_REF PORT_T;
  g_CISTPORT : gmap Z PORT_REF;
  g_curBPDU : option BPDU_RECORD_T;
  sttrans_count : Z;
  g_flag : bool;
  productId : PRODUCT_ID_T;
  stp_is_distributed : bool;
  stp_slot_id : Z;
  sysMac : list Z;
  enabled_ports : list Z;
  port_speed_s : option (gmap Z (Z * Z));
  port_duplex_mode_nodes : option (gmap Z Z);
  trace : list EVENT }.

Definition STP_T_eta (r : STP_T) : STP_T :=
  mkStp r.(bridges) r.(g_CISTBRIDGE) r.(stpm_heap) r.(port_heap)
    r.(g_CISTPORT) r.(g_curBPDU) r.(sttrans_count) r.(g_flag)
    r.(productId) r.(stp_is_distributed) r.(stp_slot_id) r.(sysMac)
    r.(enabled_ports) r.(port_speed_s) r.(port_duplex_mode_nodes)
    r.(trace).

#[export] Instance set_bridges : Setter bridges := ltac:(solve_setter STP_T_eta).
#[export] Instance set_g_CISTBRIDGE : Setter g_CISTBRIDGE := ltac:(solve_setter STP_T_eta).
#[export] Instance set_stpm_heap : Setter stpm_heap := ltac:(solve_setter STP_T_eta).
#[export] Instance set_port_heap : Setter port_heap := ltac:(solve_setter STP_T_eta).
#[export] Instance set_g_CISTPORT : Setter g_CISTPORT := ltac:(solve_setter STP_T_eta).
#[export] Instance set_g_curBPDU : Setter g_curBPDU := ltac:(solve_setter STP_T_eta).
#[export] Instance set_sttrans_count : Setter sttrans_count := ltac:(solve_setter STP_T_eta).
#[export] Instance set_g_flag : Setter g_flag := ltac:(solve_setter STP_T_eta).
#[export] Instance set_productId : Setter productId := ltac:(solve_setter STP_T_eta).
#[export] Instance set_stp_is_distributed : Setter stp_is_distributed := ltac:(solve_setter STP_T_eta).
#[export] Instance set_stp_slot_id : Setter stp_slot_id := ltac:(solve_setter STP_T_eta).
#[export] Instance set_sysMac : Setter sysMac := ltac:(solve_setter STP_T_eta).
#[export] Instance set_enabled_ports : Setter enabled_ports := ltac:(solve_setter STP_T_eta).
#[export] Instance set_port_speed_s : Setter port_speed_s := ltac:(solve_setter STP_T_eta).
#[export] Instance set_port_duplex_mode_nodes : Setter port_duplex_mode_nodes := ltac:(solve_setter STP_T_eta).
#[export] Instance set_trace : Setter trace := ltac:(solve_setter STP_T_eta).

(** Loads and stores through a port pointer or an instance pointer. *)
Definition get_port (st : STP_T) (p : PORT_REF) : outcome PORT_T :=
  deref (st.(port_heap) !! p).
Definition put_port (st : STP_T) (p : PORT_REF) (port : PORT_T) : STP_T :=
  st <| port_heap := <[p := port]> st.(port_heap) |>.
Definition get_stpm (st : STP_T) (b : Z) : outcome STPM_T :=
  deref (st.(stpm_heap) !! b).
Definition put_stpm (st : STP_T) (b : Z) (stpm : STPM_T) : STP_T :=
  st <| stpm_heap := <[b := stpm]> st.(stpm_heap) |>.
Definition emit (e : EVENT) (st : STP_T) : STP_T :=
  st <| trace := e :: st.(trace) |>.

(** An access to [len] elements of a block that has [room]. *)
Definition access (block : BLOCK_T) (room len : Z) (st : STP_T) : STP_T :=
  if room <? len then emit (OVERRUN block room len) st else st.

(** [upd_port p f]: the sequence of assignments [f] to the fields of [*p]. *)
Definition upd_port (p : PORT_REF) (f : PORT_T → PORT_T) (st : STP_T) : outcome STP_T :=
  let* port := get_port st p in Done (put_port st p (f port)).

(** [upd_ports l f]: the loop over a list of ports that applies [f] to each. *)
Definition upd_ports (l : list PORT_REF) (f : PORT_T → PORT_T) (st : STP_T) : outcome STP_T :=
  foldM (fun p => upd_port p f) l st.
