(* ===== verification/StpMd5.v ===== *)
(** * MD5 and the keyed digest ([stp_md5.c])

    The context, the three routines on it and the HMAC of the configuration
    identifier, followed by the reference: MD5 as RFC 1321 writes it (padding,
    blocks of sixteen words, sixty-four steps with the schedules of the four
    rounds) and HMAC as RFC 2104 does.  [stp_md5_init] leaves the buffer of the
    context indeterminate: it is an argument. *)

From Stdlib Require Import ZArith Lia.
From stdpp Require Import base list option.
From S2P Require Import Prelude.

(** ** The basic functions, on 32-bit words *)

Module Macros.
Definition not32 (x : Z) : Z := Z.lxor x 0xffffffff.
Definition F (x y z : Z) : Z := Z.lor (Z.land x y) (Z.land (not32 x) z).
Definition G (x y z : Z) : Z := Z.lor (Z.land x z) (Z.land y (not32 z)).
Definition H (x y z : Z) : Z := Z.lxor (Z.lxor x y) z.
Definition I (x y z : Z) : Z := Z.lxor y (Z.lor x (not32 z)).

Definition ROTATE_LEFT (x n : Z) : Z := Z.lor (u32 (Z.shiftl x n)) (Z.shiftr x (32 - n)).

Definition md5_step (f : Z → Z → Z → Z) (a b c d x s ac : Z) : Z :=
  let a := u32 (a + (f b c d + x + ac)) in
  let a := ROTATE_LEFT a s in
  u32 (a + b).
Definition FF := md5_step F.
Definition GG := md5_step G.
Definition HH := md5_step H.
Definition II := md5_step I.

Definition S11 : Z := 7.
Definition S12 : Z := 12.
Definition S13 : Z := 17.
Definition S14 : Z := 22.
Definition S21 : Z := 5.
Definition S22 : Z := 9.
Definition S23 : Z := 14.
Definition S24 : Z := 20.
Definition S31 : Z := 4.
Definition S32 : Z := 11.
Definition S33 : Z := 16.
Definition S34 : Z := 23.
Definition S41 : Z := 6.
Definition S42 : Z := 10.
Definition S43 : Z := 15.
Definition S44 : Z := 21.

End Macros.
Import Macros.

(** The four words of [buf]. *)
Record BUF : Type := mkBuf { buf0 : Z; buf1 : Z; buf2 : Z; buf3 : Z }.

(** Four lines of [stp_md5_transform] with the same macro, which assign to [a],
    [d], [c] and [b] in turn; each is given as the index of its word, its shift
    and its constant. *)
Definition md5_row (f : Z → Z → Z → Z → Z → Z → Z → Z) (x : nat → Z)
    (l1 l2 l3 l4 : nat * Z * Z) (r : Z * Z * Z * Z) : Z * Z * Z * Z :=
  let '(a, b, c, d) := r in
  let a := f a b c d (x l1.1.1) l1.1.2 l1.2 in
  let d := f d a b c (x l2.1.1) l2.1.2 l2.2 in
  let c := f c d a b (x l3.1.1) l3.1.2 l3.2 in
  let b := f b c d a (x l4.1.1) l4.1.2 l4.2 in
  (a, b, c, d).

Definition stp_md5_transform (buf : BUF) (inw : list Z) : BUF :=
  let x (k : nat) := nth k inw 0 in
  let r := (buf.(buf0), buf.(buf1), buf.(buf2), buf.(buf3)) in
  let r := md5_row FF x (0%nat, S11, 3614090360) (1%nat, S12, 3905402710) (2%nat, S13, 606105819) (3%nat, S14, 3250441966) r in
  let r := md5_row FF x (4%nat, S11, 4118548399) (5%nat, S12, 1200080426) (6%nat, S13, 2821735955) (7%nat, S14, 4249261313) r in
  let r := md5_row FF x (8%nat, S11, 1770035416) (9%nat, S12, 2336552879) (10%nat, S13, 4294925233) (11%nat, S14, 2304563134) r in
  let r := md5_row FF x (12%nat, S11, 1804603682) (13%nat, S12, 4254626195) (14%nat, S13, 2792965006) (15%nat, S14, 1236535329) r in
  let r := md5_row GG x (1%nat, S21, 4129170786) (6%nat, S22, 3225465664) (11%nat, S23, 643717713) (0%nat, S24, 3921069994) r in
  let r := md5_row GG x (5%nat, S21, 3593408605) (10%nat, S22, 38016083) (15%nat, S23, 3634488961) (4%nat, S24, 3889429448) r in
  let r := md5_row GG x (9%nat, S21, 568446438) (14%nat, S22, 3275163606) (3%nat, S23, 4107603335) (8%nat, S24, 1163531501) r in
  let r := md5_row GG x (13%nat, S21, 2850285829) (2%nat, S22, 4243563512) (7%nat, S23, 1735328473) (12%nat, S24, 2368359562) r in
  let r := md5_row HH x (5%nat, S31, 4294588738) (8%nat, S32, 2272392833) (11%nat, S33, 1839030562) (14%nat, S34, 4259657740) r in
  let r := md5_row HH x (1%nat, S31, 2763975236) (4%nat, S32, 1272893353) (7%nat, S33, 4139469664) (10%nat, S34, 3200236656) r in
  let r := md5_row HH x (13%nat, S31, 681279174) (0%nat, S32, 3936430074) (3%nat, S33, 3572445317) (6%nat, S34, 76029189) r in
  let r := md5_row HH x (9%nat, S31, 3654602809) (12%nat, S32, 3873151461) (15%nat, S33, 530742520) (2%nat, S34, 3299628645) r in
  let r := md5_row II x (0%nat, S41, 4096336452) (7%nat, S42, 1126891415) (14%nat, S43, 2878612391) (5%nat, S44, 4237533241) r in
  let r := md5_row II x (12%nat, S41, 1700485571) (3%nat, S42, 2399980690) (10%nat, S43, 4293915773) (1%nat, S44, 2240044497) r in
  let r := md5_row II x (8%nat, S41, 1873313359) (15%nat, S42, 4264355552) (6%nat, S43, 2734768916) (13%nat, S44, 1309151649) r in
  let r := md5_row II x (4%nat, S41, 4149444226) (11%nat, S42, 3174756917) (2%nat, S43, 718787259) (9%nat, S44, 3951481745) r in
  let '(a, b, c, d) := r in
  mkBuf (u32 (buf.(buf0) + a)) (u32 (buf.(buf1) + b)) (u32 (buf.(buf2) + c)) (u32 (buf.(buf3) + d)).

(** ** The context *)

Record MD5_CTX : Type := mkCtx {
  i0 : Z;
  i1 : Z;
  buf : BUF;
  inb : list Z }.

(** The magic constants. *)
Definition md5_magic : BUF := mkBuf 0x67452301 0xefcdab89 0x98badcfe 0x10325476.

Definition stp_md5_init (junk : list Z) : MD5_CTX := mkCtx 0 0 md5_magic junk.

(** [(in[ii+3] << 24) | (in[ii+2] << 16) | (in[ii+1] << 8) | in[ii]]. *)
Definition word_at (l : list Z) (ii : nat) : Z :=
  Z.lor (Z.lor (Z.lor (Z.shiftl (nth (ii + 3) l 0) 24) (Z.shiftl (nth (ii + 2) l 0) 16))
    (Z.shiftl (nth (ii + 1) l 0) 8)) (nth ii l 0).

(** The first [n] words of the buffer. *)
Definition words (n : nat) (l : list Z) : list Z := (fun j => word_at l (4 * j)) <$> seq 0 n.

(** The [while] over the bytes: [mdi] is the place of the next one. *)
Fixpoint update_loop (b : BUF) (l : list Z) (mdi : nat) (inBuf : list Z) : BUF * list Z * nat :=
  match inBuf with
  | [] => (b, l, mdi)
  | x :: rest =>
      let l := <[mdi := x]> l in
      let mdi := S mdi in
      if Nat.eqb mdi 0x40 then update_loop (stp_md5_transform b (words 16 l)) l 0 rest
      else update_loop b l mdi rest
  end.

(** The number of bytes in the buffer. *)
Definition md5_mdi (c : MD5_CTX) : nat := Z.to_nat (Z.land (Z.shiftr c.(i0) 3) 0x3f).

Definition stp_md5_update (c : MD5_CTX) (inBuf : list Z) : MD5_CTX :=
  let inLen := Z.of_nat (length inBuf) in
  let mdi := md5_mdi c in
  let bits := u32 (Z.shiftl inLen 3) in
  let hi := if u32 (c.(i0) + bits) <? c.(i0) then u32 (c.(i1) + 1) else c.(i1) in
  let '(b, l, _) := update_loop c.(buf) c.(inb) mdi inBuf in
  mkCtx (u32 (c.(i0) + bits)) (u32 (hi + Z.shiftr inLen 29)) b l.

Definition PADDING : list Z := 0x80 :: repeat 0 63.

Definition md5_padLen (mdi : nat) : nat := if Nat.ltb mdi 56 then 56 - mdi else 120 - mdi.

(** The bytes of a word, the least significant first. *)
Definition le_bytes (w : Z) : list Z :=
  [u8 w; u8 (Z.shiftr w 8); u8 (Z.shiftr w 16); u8 (Z.shiftr w 24)].

Definition buf_words (b : BUF) : list Z := [b.(buf0); b.(buf1); b.(buf2); b.(buf3)].

(** [stp_md5_encode]: the bytes of an array of words. *)
Definition stp_md5_encode (input : list Z) : list Z := input ≫= le_bytes.

(** The digest. *)
Definition stp_md5_final (c : MD5_CTX) : list Z :=
  let in14 := c.(i0) in
  let in15 := c.(i1) in
  let c := stp_md5_update c (take (md5_padLen (md5_mdi c)) PADDING) in
  let b := stp_md5_transform c.(buf) (words 14 c.(inb) ++ [in14; in15]) in
  stp_md5_encode (buf_words b).

Definition stp_md5_final_h (c : MD5_CTX) : list Z :=
  let bits := stp_md5_encode [c.(i0); c.(i1)] in
  let c := stp_md5_update c (take (md5_padLen (md5_mdi c)) PADDING) in
  let c := stp_md5_update c bits in
  stp_md5_encode (buf_words c.(buf)).

(** [MD5]: the text is fed in blocks, then the rest. *)
Fixpoint md5_blocks (steps : nat) (c : MD5_CTX) (da : list Z) : MD5_CTX * list Z :=
  match steps with
  | O => (c, da)
  | S n => md5_blocks n (stp_md5_update c (take 64 da)) (drop 64 da)
  end.

Definition MD5 (junk text : list Z) : list Z :=
  let '(c, rest) := md5_blocks (length text / 64) (stp_md5_init junk) text in
  stp_md5_final (stp_md5_update c rest).

(** ** The keyed digest *)

(** [k_pad ^= pad] on the 64 bytes of a pad that starts with the key. *)
Definition xor_pad (pad : Z) (key : list Z) : list Z :=
  (fun b => Z.lxor b pad) <$> (key ++ repeat 0 (64 - length key)).

(** A key longer than a block is replaced by its digest, of 16 bytes, of which
    the code then copies 20. *)
Definition stp_md5_get_digest (junk text key : list Z) : outcome (list Z) :=
  if Nat.ltb 64 (length key) then Segv
  else
    let k_ipad := xor_pad 0x36 key in
    let k_opad := xor_pad 0x5c key in
    let c := stp_md5_init junk in
    let c := stp_md5_update c k_ipad in
    let c := stp_md5_update c text in
    let digest := stp_md5_final_h c in
    let c := stp_md5_init junk in
    let c := stp_md5_update c k_opad in
    let c := stp_md5_update c digest in
    Done (stp_md5_final_h c).

(** ** The reference *)

Module Rfc.

(** The constants of the steps. *)
Definition T : list Z :=
   [3614090360; 3905402710; 606105819; 3250441966; 4118548399; 1200080426;
    2821735955; 4249261313; 1770035416; 2336552879; 4294925233; 2304563134;
    1804603682; 4254626195; 2792965006; 1236535329; 4129170786; 3225465664;
    643717713; 3921069994; 3593408605; 38016083; 3634488961; 3889429448;
    568446438; 3275163606; 4107603335; 1163531501; 2850285829; 4243563512;
    1735328473; 2368359562; 4294588738; 2272392833; 1839030562; 4259657740;
    2763975236; 1272893353; 4139469664; 3200236656; 681279174; 3936430074;
    3572445317; 76029189; 3654602809; 3873151461; 530742520; 3299628645;
    4096336452; 1126891415; 2878612391; 4237533241; 1700485571; 2399980690;
    4293915773; 2240044497; 1873313359; 4264355552; 2734768916; 1309151649;
    4149444226; 3174756917; 718787259; 3951481745].

Definition round (i : nat) : nat := (i / 16)%nat.
Definition f (i : nat) : Z → Z → Z → Z :=
  match round i with 0%nat => F | 1%nat => G | 2%nat => H | _ => I end.
Definition k (i : nat) : nat :=
  match round i with
  | 0%nat => i | 1%nat => (5 * i + 1) mod 16 | 2%nat => (3 * i + 5) mod 16 | _ => (7 * i) mod 16
  end%nat.
Definition s (i : nat) : Z :=
  nth (i mod 4) (match round i with
    | 0%nat => [7; 12; 17; 22] | 1%nat => [5; 9; 14; 20]
    | 2%nat => [4; 11; 16; 23] | _ => [6; 10; 15; 21]
    end) 0.
Definition rotl (x n : Z) : Z := Z.lor (x * 2 ^ n mod 2 ^ 32) (x / 2 ^ (32 - n)).

(** One step: the registers turn. *)
Definition step (X : list Z) (r : Z * Z * Z * Z) (i : nat) : Z * Z * Z * Z :=
  let '(a, b, c, d) := r in
  (d, (rotl ((a + f i b c d + nth (k i) X 0 + nth i T 0) mod 2 ^ 32) (s i) + b) mod 2 ^ 32, b, c).

(** The number whose bytes these are, the least significant first. *)
Fixpoint le_val (l : list Z) : Z :=
  match l with [] => 0 | b :: l' => b + 256 * le_val l' end.

(** The words of a block. *)
Definition block_words (l : list Z) : list Z := (fun j => le_val (take 4 (drop (4 * j) l))) <$> seq 0 16.

Definition compress (h : BUF) (block : list Z) : BUF :=
  let '(a, b, c, d) :=
    foldl (step (block_words block)) (h.(buf0), h.(buf1), h.(buf2), h.(buf3)) (seq 0 64) in
  mkBuf ((h.(buf0) + a) mod 2 ^ 32) ((h.(buf1) + b) mod 2 ^ 32)
        ((h.(buf2) + c) mod 2 ^ 32) ((h.(buf3) + d) mod 2 ^ 32).

(** The first [n] blocks of a message. *)
Fixpoint absorb (comp : BUF → list Z → BUF) (n : nat) (m : list Z) (h : BUF) : BUF :=
  match n with
  | O => h
  | S n' => absorb comp n' (drop 64 m) (comp h (take 64 m))
  end.

(** The [n] bytes of a number, the least significant first. *)
Fixpoint le_bytes_n (n : nat) (z : Z) : list Z :=
  match n with O => [] | S n' => z mod 256 :: le_bytes_n n' (z / 256) end.

(** A one bit, zeros up to 56 modulo 64 bytes, and the length in bits modulo
    [2^64]. *)
Definition pad (m : list Z) : list Z :=
  m ++ 0x80 :: repeat 0 (Z.to_nat ((55 - Z.of_nat (length m)) mod 64)) ++
  le_bytes_n 8 (8 * Z.of_nat (length m) mod 2 ^ 64).

Definition md5 (m : list Z) : list Z :=
  let p := pad m in
  let h := absorb compress (length p / 64) p md5_magic in
  le_bytes_n 4 h.(buf0) ++ le_bytes_n 4 h.(buf1) ++ le_bytes_n 4 h.(buf2) ++ le_bytes_n 4 h.(buf3).

(** HMAC (RFC 2104) for a key of a block at most. *)
Definition hmac_md5 (key text : list Z) : list Z :=
  let K := key ++ repeat 0 (64 - length key) in
  md5 (((Z.lxor 0x5c) <$> K) ++ md5 (((Z.lxor 0x36) <$> K) ++ text)).

End Rfc.
