(* ===== verification/StpBpdu.v ===== *)
(** * Wire formats ([stp_bpdu.h])

    The BPDU structures of [stp_bpdu.h] are made of [unsigned char] arrays
    only, so a pointer to one of them is a window on the frame's bytes.  Frames
    that are sent are built as records ([BPDU_BODY_T], [MSTI_CFG_MSG_T],
    [MSTP_BPDU_T], ...) and laid out by the [_bytes] functions; frames that are
    received are read in place, at the offsets of the structure's members, with
    [rd], which fails outside the buffer. *)

From Stdlib Require Import ZArith Lia.
From stdpp Require Import base gmap list option.
From S2P Require Import Prelude StpTypes.

(** ** Reading a received frame *)

(** [rd mem off n]: the [n] bytes at offset [off]. *)
Definition rd (mem : list Z) (off n : nat) : outcome (list Z) :=
  if decide (off + n ≤ length mem)%nat then Done (take n (drop off mem)) else Segv.

(** One byte, a [short] and a [long] in network order. *)
Definition rd8 (mem : list Z) (off : nat) : outcome Z := deref (mem !! off).
Definition rd16 (mem : list Z) (off : nat) : outcome Z :=
  let* l := rd mem off 2 in Done (be_val l).
Definition rd32 (mem : list Z) (off : nat) : outcome Z :=
  let* l := rd mem off 4 in Done (be_val l).

(** Offsets of the members of [MSTP_BPDU_T]; those up to [off_body_end] are
    shared by all BPDU structures. *)
Definition off_len8023 : nat := 12.
Definition off_dsap : nat := 14.
Definition off_ssap : nat := 15.
Definition off_llc : nat := 16.
Definition off_protocol : nat := 17.
Definition off_version : nat := 19.
Definition off_bpdu_type : nat := 20.
Definition off_flags : nat := 21.
Definition off_root_id : nat := 22.
Definition off_root_path_cost : nat := 30.
Definition off_bridge_id : nat := 34.
Definition off_port_id : nat := 42.
Definition off_message_age : nat := 44.
Definition off_max_age : nat := 46.
Definition off_hello_time : nat := 48.
Definition off_forward_delay : nat := 50.
Definition off_ver_1_len : nat := 52.
Definition off_version_3_length : nat := 53.
Definition off_MSTCID : nat := 55.
Definition off_cist_inter_path_cost : nat := 106.
Definition off_cist_bridge_id : nat := 110.
Definition off_cist_remaining_hops : nat := 118.
Definition off_MCfgMsg (index : nat) : nat := 119 + 16 * index.

(** Offsets of the members of [MSTP_Cisco_BPDU_T]. *)
Definition off_cisco_version_3_length : nat := 54.
Definition off_cisco_ConfigurationDigest : nat := 90.
Definition off_cisco_cist_region_root_id : nat := 106.
Definition off_cisco_cist_inter_path_cost : nat := 114.
Definition off_cisco_cist_remaining_hops : nat := 118.
Definition off_cisco_MCfgMsg (index : nat) : nat := 120 + 26 * index.

(** ** Frames that are built *)

(** [BPDU_BODY_T], 31 bytes. *)
Record BPDU_BODY_T : Type := mkBody {
  flags : Z;
  root_id : list Z;
  body_root_path_cost : list Z;
  bridge_id : list Z;
  body_port_id : list Z;
  message_age : list Z;
  max_age : list Z;
  hello_time : list Z;
  forward_delay : list Z }.

Definition BPDU_BODY_T_eta (r : BPDU_BODY_T) : BPDU_BODY_T :=
  mkBody r.(flags) r.(root_id) r.(body_root_path_cost) r.(bridge_id) r.(body_port_id)
         r.(message_age) r.(max_age) r.(hello_time) r.(forward_delay).

#[export] Instance set_flags : Setter flags := ltac:(solve_setter BPDU_BODY_T_eta).
#[export] Instance set_root_id : Setter root_id := ltac:(solve_setter BPDU_BODY_T_eta).
#[export] Instance set_body_root_path_cost : Setter body_root_path_cost := ltac:(solve_setter BPDU_BODY_T_eta).
#[export] Instance set_bridge_id : Setter bridge_id := ltac:(solve_setter BPDU_BODY_T_eta).
#[export] Instance set_body_port_id : Setter body_port_id := ltac:(solve_setter BPDU_BODY_T_eta).
#[export] Instance set_message_age : Setter message_age := ltac:(solve_setter BPDU_BODY_T_eta).
#[export] Instance set_max_age : Setter max_age := ltac:(solve_setter BPDU_BODY_T_eta).
#[export] Instance set_hello_time : Setter hello_time := ltac:(solve_setter BPDU_BODY_T_eta).
#[export] Instance set_forward_delay : Setter forward_delay := ltac:(solve_setter BPDU_BODY_T_eta).

Definition body_bytes (b : BPDU_BODY_T) : list Z :=
  [b.(flags)] ++ b.(root_id) ++ b.(body_root_path_cost) ++ b.(bridge_id) ++
  b.(body_port_id) ++ b.(message_age) ++ b.(max_age) ++ b.(hello_time) ++
  b.(forward_delay).

(** Every array has the length its declaration says. *)
Definition body_sized (b : BPDU_BODY_T) : Prop :=
  length b.(root_id) = 8%nat ∧ length b.(body_root_path_cost) = 4%nat ∧
  length b.(bridge_id) = 8%nat ∧ length b.(body_port_id) = 2%nat ∧
  length b.(message_age) = 2%nat ∧ length b.(max_age) = 2%nat ∧
  length b.(hello_time) = 2%nat ∧ length b.(forward_delay) = 2%nat.

(** [MSTI_CFG_MSG_T], 16 bytes. *)
Record MSTI_CFG_MSG_T : Type := mkMsti {
  msti_flags : Z;
  msti_region_root_id : list Z;
  msti_internal_root_path_cost : list Z;
  msti_bridge_priority : Z;
  msti_port_priority : Z;
  msti_remaining_hops : Z }.

Definition msti_bytes (m : MSTI_CFG_MSG_T) : list Z :=
  [m.(msti_flags)] ++ m.(msti_region_root_id) ++ m.(msti_internal_root_path_cost) ++
  [m.(msti_bridge_priority); m.(msti_port_priority); m.(msti_remaining_hops)].

(** [MSTI_Cisco_CFG_MST_T], 26 bytes, the last one reserved. *)
Record MSTI_Cisco_CFG_MST_T : Type := mkCiscoMsti {
  cisco_msti_id : Z;
  cisco_msti_flags : Z;
  cisco_msti_region_root_id : list Z;
  cisco_msti_internal_root_path_cost : list Z;
  cisco_msti_bridge_priority : list Z;
  cisco_msti_port_priority : list Z;
  cisco_msti_remaining_hops : Z }.

Definition cisco_msti_bytes (m : MSTI_Cisco_CFG_MST_T) : list Z :=
  [m.(cisco_msti_id); m.(cisco_msti_flags)] ++ m.(cisco_msti_region_root_id) ++
  m.(cisco_msti_internal_root_path_cost) ++ m.(cisco_msti_bridge_priority) ++
  m.(cisco_msti_port_priority) ++ [m.(cisco_msti_remaining_hops); 0].

Definition mst_cfg_id_bytes (c : MST_CFG_ID_S) : list Z :=
  [c.(FormatSelector)] ++ c.(ConfigurationName) ++ c.(RevisionLevel) ++
  c.(ConfigurationDigest).

(** ** Reading back what was laid out *)

Lemma rd_app mem1 x mem2 :
  rd (mem1 ++ x ++ mem2) (length mem1) (length x) = Done x.
Proof.
  unfold rd. rewrite decide_True by (rewrite !length_app; lia).
  by rewrite drop_app_length, take_app_length.
Qed.

(** The window at [off] of a frame whose bytes before it are [mem1]. *)
Lemma rd_window mem1 x mem2 off n :
  length mem1 = off → length x = n → rd (mem1 ++ x ++ mem2) off n = Done x.
Proof. intros <- <-. apply rd_app. Qed.

Lemma rd_bound mem off n l : rd mem off n = Done l → length l = n ∧ (off + n ≤ length mem)%nat.
Proof.
  unfold rd. case_decide; [|done]. intros [= <-].
  rewrite length_take, length_drop. lia.
Qed.

Lemma length_body_bytes b : body_sized b → length (body_bytes b) = 31%nat.
Proof.
  unfold body_sized, body_bytes. rewrite !length_app. simpl. lia.
Qed.

(** Reads inside the buffer return. *)
Lemma wp_rd mem off n (Q : list Z → Prop) :
  (off + n ≤ length mem)%nat → (∀ l, length l = n → Q l) → wp (rd mem off n) Q.
Proof.
  intros Hb HQ. unfold rd. rewrite decide_True by done. apply HQ.
  rewrite length_take, length_drop. lia.
Qed.

Lemma wp_rd8 mem off (Q : Z → Prop) :
  (off < length mem)%nat → (∀ x, x ∈ mem → Q x) → wp (rd8 mem off) Q.
Proof.
  intros Hb HQ. unfold rd8. destruct (lookup_lt_is_Some_2 _ _ Hb) as [x Hx]. rewrite Hx.
  apply HQ. by eapply list_elem_of_lookup_2.
Qed.

Lemma wp_rd16 mem off (Q : Z → Prop) :
  (off + 2 ≤ length mem)%nat → (∀ x, Q x) → wp (rd16 mem off) Q.
Proof. intros Hb HQ. apply wp_bind, wp_rd; [done|]. intros l _. apply HQ. Qed.

Lemma wp_rd32 mem off (Q : Z → Prop) :
  (off + 4 ≤ length mem)%nat → (∀ x, Q x) → wp (rd32 mem off) Q.
Proof. intros Hb HQ. apply wp_bind, wp_rd; [done|]. intros l _. apply HQ. Qed.

(** Reading a concatenation: skip the bytes before the window. *)
Lemma rd_skip a b off n :
  (length a ≤ off)%nat → rd (a ++ b) off n = rd b (off - length a) n.
Proof.
  intros H. unfold rd. rewrite length_app.
  repeat case_decide; try lia; [|done].
  by rewrite drop_app_ge by done.
Qed.

Lemma rd_head x b n : length x = n → rd (x ++ b) 0 n = Done x.
Proof. intros H. exact (rd_window [] x b 0 n eq_refl H). Qed.

Lemma rd8_skip a b off : (length a ≤ off)%nat → rd8 (a ++ b) off = rd8 b (off - length a).
Proof. intros H. unfold rd8. by rewrite lookup_app_r. Qed.

Lemma rd8_head x b : rd8 (x :: b) 0 = Done x.
Proof. done. Qed.

(** A prefix is read without the rest. *)
Lemma rd_prefix a b off n l : rd a off n = Done l → rd (a ++ b) off n = Done l.
Proof.
  unfold rd. rewrite length_app. case_decide as H; [|done]. rewrite decide_True by lia.
  intros [= <-]. f_equal. rewrite drop_app_le by lia. rewrite take_app_le; [done|].
  rewrite length_drop. lia.
Qed.

Lemma rd8_prefix a b off x : rd8 a off = Done x → rd8 (a ++ b) off = Done x.
Proof.
  unfold rd8. intros E%deref_Done. apply deref_Done.
  rewrite lookup_app_l; [done|]. by eapply lookup_lt_Some.
Qed.
