(* ===== verification/StpVector.v ===== *)
(** * Priority vectors and timer values ([stp_vector.c], [stp_times.c])

    Comparison of bridge identifiers, priority vectors and timer values, and
    their encoding in configuration messages. *)

From Stdlib Require Import ZArith Lia.
From stdpp Require Import base gmap list option.
From S2P Require Import Prelude StpTypes StpBpdu.

(** ** Comparison *)

(** The sign of [memcmp]; its magnitude is not specified and not used. *)
Fixpoint memcmp (a b : list Z) : Z :=
  match a, b with
  | x :: a', y :: b' =>
      if x <? y then -1 else if y <? x then 1 else memcmp a' b'
  | _, _ => 0
  end.

Definition stp_vector_compare_bridge_id (b1 b2 : BRIDGE_ID) : Z :=
  if b1.(prio) <? b2.(prio) then -1
  else if b2.(prio) <? b1.(prio) then 1
  else memcmp b1.(addr) b2.(addr).

Definition stp_vector_create (root_br : BRIDGE_ID) (rpc : Z)
    (region_root_br : BRIDGE_ID) (rrpc : Z) (design_br : BRIDGE_ID)
    (dport bport : Z) : PRIO_VECTOR_T :=
  mkVector root_br rpc region_root_br rrpc design_br dport bport.

Definition stp_vector_compare (v1 v2 : PRIO_VECTOR_T) : Z :=
  let bridcmp := stp_vector_compare_bridge_id v1.(root_bridge) v2.(root_bridge) in
  if bridcmp <? 0 then -1 else if 0 <? bridcmp then 1 else
  let bridcmp := i32 (v1.(root_path_cost) - v2.(root_path_cost)) in
  if bridcmp <? 0 then -2 else if 0 <? bridcmp then 2 else
  let bridcmp := stp_vector_compare_bridge_id v1.(region_root_bridge) v2.(region_root_bridge) in
  if bridcmp <? 0 then -3 else if 0 <? bridcmp then 3 else
  let bridcmp := i32 (v1.(region_root_path_cost) - v2.(region_root_path_cost)) in
  if bridcmp <? 0 then -4 else if 0 <? bridcmp then 4 else
  let bridcmp := stp_vector_compare_bridge_id v1.(design_bridge) v2.(design_bridge) in
  if bridcmp <? 0 then -5 else if 0 <? bridcmp then 5 else
  let bridcmp := v1.(design_port) - v2.(design_port) in
  if bridcmp <? 0 then -6 else if 0 <? bridcmp then 6 else
  let bridcmp := v1.(bridge_port) - v2.(bridge_port) in
  if bridcmp <? 0 then -7 else if 0 <? bridcmp then 7 else
  bridcmp.

(** ** Encoding *)

Definition stp_vector_get_short (f : list Z) : Z := be_val (take 2 f).
Definition stp_vector_set_short (f : Z) : list Z := be_bytes 2 f.

(** [c_br]: the eight bytes of an encoded bridge identifier. *)
Definition stp_vector_get_bridge_id (c_br : list Z) : BRIDGE_ID :=
  mkBridgeId (stp_vector_get_short c_br) (take 6 (drop 2 c_br)).

Definition stp_vector_set_bridge_id (b : BRIDGE_ID) : list Z :=
  stp_vector_set_short b.(prio) ++ take 6 b.(addr).

(** The members of [v] that the message does not carry keep their value. *)
Definition stp_vector_get_vector (b : BPDU_BODY_T) (v : PRIO_VECTOR_T) : PRIO_VECTOR_T :=
  v <| root_bridge := stp_vector_get_bridge_id b.(root_id) |>
    <| root_path_cost := be_val (take 4 b.(body_root_path_cost)) |>
    <| design_bridge := stp_vector_get_bridge_id b.(bridge_id) |>
    <| design_port := stp_vector_get_short b.(body_port_id) |>.

Definition stp_vector_set_vector (v : PRIO_VECTOR_T) (b : BPDU_BODY_T) : BPDU_BODY_T :=
  b <| root_id := stp_vector_set_bridge_id v.(root_bridge) |>
    <| body_root_path_cost := be_bytes 4 v.(root_path_cost) |>
    <| bridge_id := stp_vector_set_bridge_id v.(design_bridge) |>
    <| body_port_id := stp_vector_set_short v.(design_port) |>.

(** [stp_vector_get_mst_vector]: [b] is the received frame.  The encoded
    bridge identifiers are read with [rd]; on the big-endian target the
    [memcpy] of the Cisco branch reads its two members in network order. *)
Definition stp_vector_get_mst_vector (b : list Z) (index : nat) (vendorCisco : bool)
    (v : PRIO_VECTOR_T) : outcome PRIO_VECTOR_T :=
  if vendorCisco then
    let m := off_cisco_MCfgMsg index in
    let* rr := rd b (m + 2) 8 in
    let* cost := rd32 b (m + 10) in
    let* bp := rd b (m + 14) 8 in
    let* pp := rd16 b (m + 22) in
    Done (v <| region_root_bridge := stp_vector_get_bridge_id rr |>
            <| region_root_path_cost := cost |>
            <| design_bridge := stp_vector_get_bridge_id bp |>
            <| design_port := pp |>)
  else
    let m := off_MCfgMsg index in
    let* rr := rd b (m + 1) 8 in
    let* cost := rd32 b (m + 9) in
    let* db := rd b off_cist_bridge_id 8 in
    let* bp := rd8 b (m + 13) in
    let* dp := rd16 b off_port_id in
    let* pp := rd8 b (m + 14) in
    let dbr := stp_vector_get_bridge_id db in
    Done (v <| region_root_bridge := stp_vector_get_bridge_id rr |>
            <| region_root_path_cost := cost |>
            <| design_bridge := dbr <| prio := Z.land 0xf000 (Z.shiftl (Z.land bp 0xf0) 8) |> |>
            <| design_port :=
                 Z.land dp 0x0fff + Z.land 0xf000 (Z.shiftl (Z.land pp 0xf0) 8) |>).

(** The flags both MSTI encoders compute. *)
Definition msti_role_code (r : PORT_ROLE_T) : Z :=
  match r with
  | DisabledPort => RSTP_PORT_ROLE_UNKN
  | MasterPort => MSTP_PORT_ROLE_MASTER
  | AlternatePort | BackupPort => RSTP_PORT_ROLE_ALTBACK
  | RootPort => RSTP_PORT_ROLE_ROOT
  | DesignatedPort => RSTP_PORT_ROLE_DESGN
  | NonStpPort => 0
  end.

Definition or_if (c : bool) (mask f : Z) : Z := if c then Z.lor f mask else f.

Definition msti_port_flags (p : PORT_T) : Z :=
  let f := 0 in
  let f := or_if (negb (p.(tcWhile) =? 0)) TOLPLOGY_CHANGE_BIT f in
  let f := or_if p.(proposing) PROPOSAL_BIT f in
  let f := or_if p.(learning) LEARN_BIT f in
  let f := or_if p.(forwarding) FORWARD_BIT f in
  let f := or_if p.(agree) AGREEMENT_BIT f in
  let f := or_if (p.(role) =e MasterPort) MASTER_BIT f in
  Z.lor f (Z.shiftl (msti_role_code p.(role)) PORT_ROLE_OFFS).

Definition stp_vector_cisco_set_mst_vector (stpm : STPM_T) (p : PORT_T) : MSTI_Cisco_CFG_MST_T :=
  {| cisco_msti_id := u8 stpm.(STPM.vlan_id);
     cisco_msti_flags := msti_port_flags p;
     cisco_msti_region_root_id := stp_vector_set_bridge_id p.(portPrio).(region_root_bridge);
     cisco_msti_internal_root_path_cost := be_bytes 4 p.(portPrio).(region_root_path_cost);
     cisco_msti_bridge_priority := stp_vector_set_bridge_id stpm.(STPM.BrId);
     cisco_msti_port_priority := be_bytes 2 (Z.shiftr (Z.land p.(port_id) 0xf000) 8);
     cisco_msti_remaining_hops := p.(portTimes).(RemainingHops) |}.

Definition stp_vector_set_mst_vector (stpm : STPM_T) (p : PORT_T) : MSTI_CFG_MSG_T :=
  {| msti_flags := msti_port_flags p;
     msti_region_root_id := stp_vector_set_bridge_id p.(portPrio).(region_root_bridge);
     msti_internal_root_path_cost := be_bytes 4 p.(portPrio).(region_root_path_cost);
     msti_bridge_priority := Z.shiftr (Z.land stpm.(STPM.BrId).(prio) 0xf000) 8;
     msti_port_priority := Z.shiftr (Z.land p.(port_id) 0xf000) 8;
     msti_remaining_hops := p.(portTimes).(RemainingHops) |}.

(** Reads the hop count at the offset of the standard structure, for both
    formats. *)
Definition stp_vector_get_mst_timers (b : list Z) (msti_id : nat) (v : TIMEVALUES_T)
    : outcome TIMEVALUES_T :=
  let* hops := rd8 b (off_MCfgMsg msti_id + 15) in
  Done (v <| RemainingHops := hops |> <| ForwardDelay := 0 |> <| HelloTime := 0 |>
          <| MaxAge := 0 |> <| MessageAge := 0 |>).

(** ** The order the comparison implements *)

(** Lexicographic comparison of sequences of numbers. *)
Fixpoint lex (a b : list Z) : comparison :=
  match a, b with
  | [], [] => Eq
  | [], _ => Lt
  | _, [] => Gt
  | x :: a', y :: b' =>
      match x ?= y with Eq => lex a' b' | c => c end
  end.

Definition sign_of (c : comparison) : Z :=
  match c with Lt => -1 | Eq => 0 | Gt => 1 end.

Definition bridge_id_key (b : BRIDGE_ID) : list Z := b.(prio) :: b.(addr).

(** The components of a vector, most significant first (13.9 of IEEE 802.1Q). *)
Definition vector_key (v : PRIO_VECTOR_T) : list Z :=
  bridge_id_key v.(root_bridge) ++ [v.(root_path_cost)] ++
  bridge_id_key v.(region_root_bridge) ++ [v.(region_root_path_cost)] ++
  bridge_id_key v.(design_bridge) ++ [v.(design_port); v.(bridge_port)].

Definition wf_bridge_id (b : BRIDGE_ID) : Prop :=
  0 ≤ b.(prio) < 65536 ∧ length b.(addr) = 6%nat ∧ Forall is_byte b.(addr).

(** The vectors the comparison is meant for: path costs below [2^31]. *)
Definition wf_vector (v : PRIO_VECTOR_T) : Prop :=
  wf_bridge_id v.(root_bridge) ∧ 0 ≤ v.(root_path_cost) < 2 ^ 31 ∧
  wf_bridge_id v.(region_root_bridge) ∧ 0 ≤ v.(region_root_path_cost) < 2 ^ 31 ∧
  wf_bridge_id v.(design_bridge) ∧ 0 ≤ v.(design_port) < 65536 ∧
  0 ≤ v.(bridge_port) < 65536.

Lemma lex_app a1 b1 a2 b2 :
  length a1 = length b1 →
  lex (a1 ++ a2) (b1 ++ b2) = match lex a1 b1 with Eq => lex a2 b2 | c => c end.
Proof.
  revert b1. induction a1 as [|x a1 IH]; intros [|y b1]; simpl; try done.
  intros [= Hlen]. destruct (x ?= y); auto.
Qed.

Lemma lex_refl a : lex a a = Eq.
Proof. induction a as [|x a IH]; simpl; [done|]. by rewrite Z.compare_refl. Qed.

Lemma lex_Eq a b : lex a b = Eq → a = b.
Proof.
  revert b. induction a as [|x a IH]; intros [|y b]; simpl; try done.
  destruct (x ?= y) eqn:E; try done. intros H.
  apply Z.compare_eq in E. f_equal; auto.
Qed.

Lemma lex_opp a b : lex b a = CompOpp (lex a b).
Proof.
  revert b. induction a as [|x a IH]; intros [|y b]; simpl; try done.
  rewrite (Z.compare_antisym x y). destruct (x ?= y); simpl; auto.
Qed.

Lemma lex_trans a b c : lex a b = Lt → lex b c = Lt → lex a c = Lt.
Proof.
  revert b c. induction a as [|x a IH]; intros [|y b] [|z c]; simpl; try done.
  destruct (Z.compare_spec x y), (Z.compare_spec y z), (Z.compare_spec x z);
    try lia; eauto; done.
Qed.

Lemma memcmp_lex a b : length a = length b → memcmp a b = sign_of (lex a b).
Proof.
  revert b. induction a as [|x a IH]; intros [|y b]; simpl; try done.
  intros [= Hlen]. destruct (Z.ltb_spec x y), (Z.ltb_spec y x), (Z.compare_spec x y);
    try lia; auto.
Qed.

Lemma compare_bridge_id_lex b1 b2 :
  wf_bridge_id b1 → wf_bridge_id b2 →
  stp_vector_compare_bridge_id b1 b2 = sign_of (lex (bridge_id_key b1) (bridge_id_key b2)).
Proof.
  intros (_ & L1 & _) (_ & L2 & _). unfold stp_vector_compare_bridge_id. simpl.
  rewrite memcmp_lex by congruence.
  destruct (Z.ltb_spec b1.(prio) b2.(prio)), (Z.ltb_spec b2.(prio) b1.(prio)),
    (Z.compare_spec b1.(prio) b2.(prio)); simpl; try lia; auto.
Qed.

Lemma bridge_id_eq b1 b2 :
  wf_bridge_id b1 → wf_bridge_id b2 →
  stp_vector_compare_bridge_id b1 b2 = 0 ↔ b1 = b2.
Proof.
  intros W1 W2. rewrite compare_bridge_id_lex by done. split.
  - destruct (lex _ _) eqn:E; try done. intros _. apply lex_Eq in E.
    destruct b1, b2; unfold bridge_id_key in E; simpl in E. by simplify_eq.
  - intros ->. by rewrite lex_refl.
Qed.

(** Each step of [stp_vector_compare] tests a sign. *)
Lemma sign_step (c : comparison) (lo hi rest : Z) :
  (if sign_of c <? 0 then lo else if 0 <? sign_of c then hi else rest) =
  match c with Lt => lo | Gt => hi | Eq => rest end.
Proof. by destruct c. Qed.

Lemma diff_step x y (lo hi rest : Z) :
  (if x - y <? 0 then lo else if 0 <? x - y then hi else rest) =
  match x ?= y with Lt => lo | Gt => hi | Eq => rest end.
Proof.
  destruct (Z.ltb_spec (x - y) 0), (Z.ltb_spec 0 (x - y)), (Z.compare_spec x y); lia.
Qed.

(** The comparison, as the rank of the first component that differs. *)
Definition vector_rank (v1 v2 : PRIO_VECTOR_T) : Z :=
  match lex (bridge_id_key v1.(root_bridge)) (bridge_id_key v2.(root_bridge)) with
  | Lt => -1 | Gt => 1 | Eq =>
  match v1.(root_path_cost) ?= v2.(root_path_cost) with
  | Lt => -2 | Gt => 2 | Eq =>
  match lex (bridge_id_key v1.(region_root_bridge)) (bridge_id_key v2.(region_root_bridge)) with
  | Lt => -3 | Gt => 3 | Eq =>
  match v1.(region_root_path_cost) ?= v2.(region_root_path_cost) with
  | Lt => -4 | Gt => 4 | Eq =>
  match lex (bridge_id_key v1.(design_bridge)) (bridge_id_key v2.(design_bridge)) with
  | Lt => -5 | Gt => 5 | Eq =>
  match v1.(design_port) ?= v2.(design_port) with
  | Lt => -6 | Gt => 6 | Eq =>
  match v1.(bridge_port) ?= v2.(bridge_port) with
  | Lt => -7 | Gt => 7 | Eq => 0
  end end end end end end end.

Lemma compare_rank v1 v2 :
  wf_vector v1 → wf_vector v2 → stp_vector_compare v1 v2 = vector_rank v1 v2.
Proof.
  intros (B1 & C1 & B2 & C2 & B3 & P1 & P2) (B1' & C1' & B2' & C2' & B3' & P1' & P2').
  unfold stp_vector_compare, vector_rank.
  rewrite !compare_bridge_id_lex, !i32_small by (done || lia).
  cbv zeta. rewrite !sign_step, !diff_step.
  destruct (Z.compare_spec v1.(bridge_port) v2.(bridge_port)); try reflexivity.
  by replace (_ - _) with 0 by lia.
Qed.

Lemma rank_sign v1 v2 :
  wf_vector v1 → wf_vector v2 →
  Z.sgn (vector_rank v1 v2) = sign_of (lex (vector_key v1) (vector_key v2)).
Proof.
  intros ((_ & L1 & _) & _ & (_ & L2 & _) & _ & (_ & L3 & _) & _)
         ((_ & L1' & _) & _ & (_ & L2' & _) & _ & (_ & L3' & _) & _).
  unfold vector_rank, vector_key.
  rewrite !lex_app by (simpl; congruence).
  repeat match goal with
         | |- context [lex (bridge_id_key ?a) ?b] => destruct (lex (bridge_id_key a) b); try done
         | |- context [?x ?= ?y] => simpl; destruct (x ?= y); try done
         | |- context [lex [?x] [?y]] => simpl; destruct (x ?= y); try done
         | |- _ => progress simpl
         end.
Qed.

Lemma compare_sign v1 v2 :
  wf_vector v1 → wf_vector v2 →
  Z.sgn (stp_vector_compare v1 v2) = sign_of (lex (vector_key v1) (vector_key v2)).
Proof. intros. by rewrite compare_rank, rank_sign. Qed.

Lemma bridge_id_key_inj b1 b2 : bridge_id_key b1 = bridge_id_key b2 → b1 = b2.
Proof. destruct b1, b2; unfold bridge_id_key; simpl. by intros [= -> ->]. Qed.

Lemma vector_key_inj v1 v2 :
  wf_vector v1 → wf_vector v2 → vector_key v1 = vector_key v2 → v1 = v2.
Proof.
  intros ((_ & L1 & _) & _ & (_ & L2 & _) & _ & (_ & L3 & _) & _)
         ((_ & L1' & _) & _ & (_ & L2' & _) & _ & (_ & L3' & _) & _).
  destruct v1 as [r c rr rc d dp bp], v2 as [r' c' rr' rc' d' dp' bp'].
  unfold vector_key; cbn [root_bridge root_path_cost region_root_bridge
    region_root_path_cost design_bridge design_port bridge_port] in *.
  intros E. repeat (apply app_inj_1 in E as [? E]; [|simpl; congruence]).
  repeat match goal with H : bridge_id_key _ = bridge_id_key _ |- _ =>
    apply bridge_id_key_inj in H end.
  by simplify_eq.
Qed.

(** Consequences used by the clients of the comparison. *)
Lemma compare_eq v1 v2 :
  wf_vector v1 → wf_vector v2 → stp_vector_compare v1 v2 = 0 ↔ v1 = v2.
Proof.
  intros W1 W2. pose proof (compare_sign v1 v2 W1 W2) as S. split.
  - intros E. rewrite E in S. apply vector_key_inj; [done..|].
    apply lex_Eq. by destruct (lex _ _).
  - intros ->. rewrite lex_refl in S. simpl in S. lia.
Qed.

Lemma compare_opp v1 v2 :
  wf_vector v1 → wf_vector v2 → stp_vector_compare v2 v1 = - stp_vector_compare v1 v2.
Proof.
  intros W1 W2. rewrite !compare_rank by done. unfold vector_rank.
  rewrite (lex_opp (bridge_id_key v1.(root_bridge))),
    (lex_opp (bridge_id_key v1.(region_root_bridge))),
    (lex_opp (bridge_id_key v1.(design_bridge))),
    (Z.compare_antisym v1.(root_path_cost)), (Z.compare_antisym v1.(region_root_path_cost)),
    (Z.compare_antisym v1.(design_port)), (Z.compare_antisym v1.(bridge_port)).
  repeat (match goal with
          | |- context [CompOpp ?c] => destruct c; simpl; try done
          end).
Qed.

Lemma compare_neg_lex v1 v2 :
  wf_vector v1 → wf_vector v2 →
  stp_vector_compare v1 v2 < 0 ↔ lex (vector_key v1) (vector_key v2) = Lt.
Proof.
  intros W1 W2. pose proof (compare_sign v1 v2 W1 W2) as S.
  destruct (lex _ _); simpl in S; split; intros; (done || lia).
Qed.

Lemma compare_trans v1 v2 v3 :
  wf_vector v1 → wf_vector v2 → wf_vector v3 →
  stp_vector_compare v1 v2 < 0 → stp_vector_compare v2 v3 < 0 →
  stp_vector_compare v1 v3 < 0.
Proof. intros W1 W2 W3. rewrite !compare_neg_lex by done. apply lex_trans. Qed.

Lemma compare_le_trans v1 v2 v3 :
  wf_vector v1 → wf_vector v2 → wf_vector v3 →
  stp_vector_compare v1 v2 ≤ 0 → stp_vector_compare v2 v3 ≤ 0 →
  stp_vector_compare v1 v3 ≤ 0.
Proof.
  intros W1 W2 W3 H12 H23.
  destruct (decide (stp_vector_compare v1 v2 = 0)) as [->%compare_eq|?]; [done..|].
  destruct (decide (stp_vector_compare v2 v3 = 0)) as [<-%compare_eq|?]; [done..|].
  assert (stp_vector_compare v1 v3 < 0) by (apply (compare_trans v1 v2 v3); (done || lia)). lia.
Qed.

(** ** Round trips *)

Lemma get_set_bridge_id b :
  wf_bridge_id b → stp_vector_get_bridge_id (stp_vector_set_bridge_id b) = b.
Proof.
  intros (Hp & Hl & _). destruct b as [p a]. simpl in *.
  unfold stp_vector_get_bridge_id, stp_vector_set_bridge_id, stp_vector_get_short,
    stp_vector_set_short. simpl prio. simpl addr. f_equal.
  - rewrite take_app_length' by (by rewrite length_be_bytes). by apply be_val_bytes2.
  - rewrite drop_app_length' by (by rewrite length_be_bytes).
    rewrite take_take. by rewrite take_ge by lia.
Qed.

Lemma length_set_bridge_id b :
  wf_bridge_id b → length (stp_vector_set_bridge_id b) = 8%nat.
Proof.
  intros (_ & Hl & _). unfold stp_vector_set_bridge_id, stp_vector_set_short.
  rewrite length_app, length_be_bytes, length_take. lia.
Qed.

(** ** Timer values ([stp_times.c]) *)

Definition stp_times_compare (t1 t2 : TIMEVALUES_T) : Z :=
  if t1.(MessageAge) <? t2.(MessageAge) then -1
  else if t2.(MessageAge) <? t1.(MessageAge) then 1
  else if t1.(MaxAge) <? t2.(MaxAge) then -2
  else if t2.(MaxAge) <? t1.(MaxAge) then 2
  else if t1.(ForwardDelay) <? t2.(ForwardDelay) then -3
  else if t2.(ForwardDelay) <? t1.(ForwardDelay) then 3
  else if t1.(HelloTime) <? t2.(HelloTime) then -4
  else if t2.(HelloTime) <? t1.(HelloTime) then 4
  else if t1.(RemainingHops) <? t2.(RemainingHops) then -5
  else if t2.(RemainingHops) <? t1.(RemainingHops) then 5
  else 0.

(** [ntohs(field) >> 8]. *)
Definition get_time (f : list Z) : Z := Z.shiftr (be_val (take 2 f)) 8.

(** [RemainingHops] keeps its value. *)
Definition stp_times_get (b : BPDU_BODY_T) (v : TIMEVALUES_T) : TIMEVALUES_T :=
  v <| MessageAge := get_time b.(message_age) |>
    <| MaxAge := get_time b.(max_age) |>
    <| ForwardDelay := get_time b.(forward_delay) |>
    <| HelloTime := get_time b.(hello_time) |>.

(** The macro [STP_SET_TIME]: [htons] keeps the 16 low bits of [f << 8]. *)
Definition STP_SET_TIME (f : Z) : list Z := be_bytes 2 (u16 (Z.shiftl f 8)).

Definition stp_times_set (v : TIMEVALUES_T) (b : BPDU_BODY_T) : BPDU_BODY_T :=
  b <| message_age := STP_SET_TIME v.(MessageAge) |>
    <| max_age := STP_SET_TIME v.(MaxAge) |>
    <| forward_delay := STP_SET_TIME v.(ForwardDelay) |>
    <| hello_time := STP_SET_TIME v.(HelloTime) |>.

Definition stp_times_copy (f : TIMEVALUES_T) : TIMEVALUES_T :=
  mkTimes f.(MessageAge) f.(MaxAge) f.(ForwardDelay) f.(HelloTime) f.(RemainingHops).

(** ** Facts *)

Lemma times_compare_eq t1 t2 : stp_times_compare t1 t2 = 0 ↔ t1 = t2.
Proof.
  destruct t1, t2. unfold stp_times_compare; simpl. split.
  - repeat (case_match; try done; bool_facts); intros _. f_equal; lia.
  - intros [= -> -> -> -> ->]. by rewrite !Z.ltb_irrefl.
Qed.

(** A time survives the wire modulo 256 seconds. *)
Lemma get_set_time f : get_time (STP_SET_TIME f) = f mod 256.
Proof.
  unfold get_time, STP_SET_TIME.
  rewrite take_ge by (by rewrite length_be_bytes).
  rewrite be_val_bytes2 by apply u16_range. unfold u16.
  rewrite Z.shiftr_div_pow2, Z.shiftl_mul_pow2 by lia.
  change (2 ^ 16) with (2 ^ 8 * 256).
  rewrite (Z.mul_comm f), Z.mul_mod_distr_l by lia.
  by rewrite (Z.mul_comm (2 ^ 8)), Z.div_mul by lia.
Qed.
