(* ===== verification/StpTo.v ===== *)
(** * System-dependent calls and port bitmaps ([stp_to.c], [stp_bitmap.c])

    The tables of link speed and duplex mode are [struct ... **]: an array of
    pointers that may itself be NULL ([None]); an absent entry is a NULL
    element. *)

From Stdlib Require Import ZArith Lia.
From stdpp Require Import base gmap list option.
From S2P Require Import Prelude StpTypes.

Definition PORT_INDEX_MAX : Z := 640.
Definition STP_ERROR : Z := 1.

(** [STP_PORT_SPEED_ENT]; the table keeps it in an [unsigned int]. *)
Definition STP_PORT_SPEED_10_E : Z := 0.
Definition STP_PORT_SPEED_100_E : Z := 1.
Definition STP_PORT_SPEED_1000_E : Z := 2.
Definition STP_PORT_SPEED_10000_E : Z := 3.
Definition STP_PORT_SPEED_12000_E : Z := 4.
Definition STP_PORT_SPEED_2500_E : Z := 5.
Definition STP_PORT_SPEED_5000_E : Z := 6.

(** [t[i]], when the array is there: the arrays have [PORT_INDEX_MAX] elements. *)
Definition table_entry {A} (t : option (gmap Z A)) (i : Z) : outcome (option A) :=
  match t with
  | Some t => if i <? PORT_INDEX_MAX then Done (t !! i) else Segv
  | None => Done None
  end.

(** In Mb/s.  A speed outside the enumeration reaches the end of the function
    without a [return].  The range check lets [PORT_INDEX_MAX] itself pass. *)
Definition stp_to_get_port_oper_speed (st : STP_T) (port : PORT_T) : outcome Z :=
  let portNo := u32 port.(port_index) in
  if PORT_INDEX_MAX <? portNo then Done STP_ERROR
  else
    let other := Done (if PORT_INDEX_MAX <=? portNo then 1000000 else 1) in
    let* entry := table_entry st.(port_speed_s) portNo in
    match entry with
    | Some (idx, speed) =>
        if (portNo =? idx) && port.(adminEnable) then
          if speed =? STP_PORT_SPEED_10_E then Done 10
          else if speed =? STP_PORT_SPEED_100_E then Done 100
          else if speed =? STP_PORT_SPEED_1000_E then Done 1000
          else if speed =? STP_PORT_SPEED_10000_E then Done 10000
          else if speed =? STP_PORT_SPEED_12000_E then Done 12000
          else if speed =? STP_PORT_SPEED_2500_E then Done 2500
          else if speed =? STP_PORT_SPEED_5000_E then Done 5000
          else Segv
        else other
    | None => other
    end.

(** [P2P_YES] for a full-duplex link (mode 0), [P2P_NO] for a half-duplex one
    (mode 1). *)
Definition stp_to_get_duplex (st : STP_T) (port : PORT_T) : outcome bool :=
  let idx := u32 port.(port_index) in
  if PORT_INDEX_MAX <? idx then Done true (* STP_ERROR *)
  else
    let* entry := table_entry st.(port_duplex_mode_nodes) idx in
    match entry with
    | Some mode =>
        if port.(adminEnable) then
          if mode =? 1 then Done false
          else if mode =? 0 then Done true
          else Segv
        else Done false
    | None => Done false
    end.

(** The tables hold only values of their enumerations. *)
Definition tables_ok (st : STP_T) : Prop :=
  (∀ t i idx speed, st.(port_speed_s) = Some t → t !! i = Some (idx, speed) → 0 ≤ speed ≤ 6) ∧
  (∀ t i mode, st.(port_duplex_mode_nodes) = Some t → t !! i = Some mode → 0 ≤ mode ≤ 1).

(** The port's entry is within the tables, or not looked up. *)
Definition in_tables (port : PORT_T) : Prop := u32 port.(port_index) ≠ PORT_INDEX_MAX.

Lemma table_entry_total {A} (t : option (gmap Z A)) i :
  i < PORT_INDEX_MAX → ∃ e, table_entry t i = Done e ∧ ∀ x, e = Some x → ∃ t', t = Some t' ∧ t' !! i = Some x.
Proof.
  intros Hi. destruct t as [t|]; simpl; [|by exists None].
  destruct (Z.ltb_spec i PORT_INDEX_MAX); [|lia]. eauto 6.
Qed.

Lemma oper_speed_total st port :
  tables_ok st → in_tables port → ∃ v, stp_to_get_port_oper_speed st port = Done v ∧ 1 ≤ v ≤ 1000000.
Proof.
  intros [Hs _] Hi. unfold stp_to_get_port_oper_speed, in_tables in *.
  destruct (Z.ltb_spec PORT_INDEX_MAX (u32 port.(port_index))); [exists 1; split; [done|lia]|].
  destruct (table_entry_total st.(port_speed_s) (u32 port.(port_index))) as (e & -> & He); [lia|].
  cbn [obind]. set (other := if _ <=? _ then _ else _).
  assert (1 ≤ other ≤ 1000000) by (unfold other; case_match; lia).
  destruct e as [[idx speed]|]; [|eauto]. destruct (He _ eq_refl) as (t & Et & E).
  specialize (Hs _ _ _ _ Et E). case_match; [|eauto].
  repeat (case_match; [eexists; split; [done|lia]|bool_facts]).
  unfold STP_PORT_SPEED_10_E, STP_PORT_SPEED_100_E, STP_PORT_SPEED_1000_E,
    STP_PORT_SPEED_10000_E, STP_PORT_SPEED_12000_E, STP_PORT_SPEED_2500_E,
    STP_PORT_SPEED_5000_E in *. lia.
Qed.

Lemma duplex_total st port :
  tables_ok st → in_tables port → ∃ b, stp_to_get_duplex st port = Done b.
Proof.
  intros [_ Hd] Hi. unfold stp_to_get_duplex, in_tables in *.
  destruct (Z.ltb_spec PORT_INDEX_MAX (u32 port.(port_index))); [eauto|].
  destruct (table_entry_total st.(port_duplex_mode_nodes) (u32 port.(port_index))) as (e & -> & He); [lia|].
  cbn [obind]. destruct e as [mode|]; [|eauto].
  destruct (He _ eq_refl) as (t & Et & E). specialize (Hd _ _ _ Et E).
  repeat (case_match; [eauto|bool_facts]); [lia|eauto].
Qed.

(** ** Names *)

(** [sprintf] with [%d] of a number that is not negative. *)
Fixpoint decimal (fuel : nat) (n : Z) : list Z :=
  match fuel with
  | O => []
  | S fuel => (if n <? 10 then [] else decimal fuel (n / 10)) ++ [48 + n mod 10]
  end.

(** Ten digits are enough for 32 bits. *)
Definition print_d (n : Z) : list Z := decimal 10 n.

Definition eth : list Z := [101; 116; 104].

(** The name of the interface of a port, or of a VLAN on it. *)
Definition wan_ifname (slot portno : Z) (vlan_id : option Z) : list Z :=
  eth ++ print_d slot ++ 45 :: print_d portno ++
  match vlan_id with Some v => 46 :: print_d v | None => [] end.

(** [stp_to_get_port_name]: a letter and at least two digits are printed into an
    array of four bytes; the result is the length of the name. *)
Definition stp_to_get_port_name (port_index : Z) (st : STP_T) : STP_T * Z :=
  let n := 1 + Z.max 2 (Z.of_nat (length (print_d port_index))) in
  (access PORT_NAME 4 (n + 1) st, n).

(** ** Port bitmaps ([stp_bitmap.c])

    A [BITMAP_T] is an array of nine bytes.  The three operations on a bit
    share the computation of its byte and position, written out once here. *)

Abbreviation BITMAP_T := (list Z).

Definition stp_bitmap_clear (BitmapPtr : BITMAP_T) : BITMAP_T := repeat 0 9.
Definition stp_bitmap_set_allbits (BitmapPtr : BITMAP_T) : BITMAP_T := repeat 0xff 9.

(** [index] and [byte], by platform. *)
Definition bit_position (product : PRODUCT_ID_T) (distributed : bool) (Bit : Z) : Z * Z :=
  if distributed then
    let Bit := Z.rem Bit 64 in (Z.quot Bit 8 + 1, Z.rem Bit 8)
  else match product with
  | PRODUCT_ID_AX7K => (Z.quot Bit 64, Z.rem Bit 64 + 1)
  | PRODUCT_ID_AU3K | PRODUCT_ID_AU3K_BCM | PRODUCT_ID_AU3K_BCAT | PRODUCT_ID_AU2K_TCAT =>
      (Z.quot Bit 8 + 1, Z.rem Bit 8)
  | PRODUCT_ID_AX5K | PRODUCT_ID_AU4K | PRODUCT_ID_AX5K_I | PRODUCT_ID_AX5K_E
  | PRODUCT_ID_AX5608 =>
      let Bit := if 64 <=? Bit then Bit - 64 else Bit in
      (Z.quot Bit 8 + 1, Z.rem Bit 8)
  | _ => (0, 0)
  end.

(** [part[index]]. *)
Definition part (bm : BITMAP_T) (index : Z) : outcome Z :=
  if index <? 0 then Segv else deref (bm !! Z.to_nat index).

Definition stp_bitmap_set_bit (st : STP_T) (bm : BITMAP_T) (Bit : Z) : outcome BITMAP_T :=
  let '(index, byte) := bit_position st.(productId) st.(stp_is_distributed) Bit in
  let* old := part bm index in
  if byte <=? 7 then Done (<[Z.to_nat index := Z.lor old (u8 (Z.shiftl 1 byte))]> bm)
  else Done bm.

Definition stp_bitmap_clear_bit (st : STP_T) (bm : BITMAP_T) (Bit : Z) : outcome BITMAP_T :=
  let '(index, byte) := bit_position st.(productId) st.(stp_is_distributed) Bit in
  if byte <=? 7 then
    let* old := part bm index in
    Done (<[Z.to_nat index := Z.ldiff old (Z.shiftl 1 byte)]> bm)
  else Done bm.

Definition stp_bitmap_get_bit (st : STP_T) (bm : BITMAP_T) (Bit : Z) : outcome Z :=
  let '(index, byte) := bit_position st.(productId) st.(stp_is_distributed) Bit in
  if byte <=? 7 then
    let* old := part bm index in Done (Z.land old (Z.shiftl 1 byte))
  else Done (-1).

Definition stp_bitmap_portbmp_add (desPtr souPtr : BITMAP_T) : BITMAP_T :=
  zip_with Z.lor desPtr souPtr.

(** The port a bit of the bitmap stands for; -2 when the byte is empty or the
    platform unknown, -1 when the bit is clear. *)
Definition stp_bitmap_get_portindex_from_bmp (st : STP_T) (bm : BITMAP_T) (Bytes Bit : Z)
    : outcome Z :=
  let* b := part bm Bytes in
  if b =? 0 then Done (-2)
  else if negb (bit_set b (Z.shiftl 1 Bit)) then Done (-1)
  else Done
    (if st.(stp_is_distributed) then
       i32 (64 * (st.(stp_slot_id) - 1) + 8 * (Bytes - 1) + Bit)
     else match st.(productId) with
     | PRODUCT_ID_AU3K | PRODUCT_ID_AU3K_BCM | PRODUCT_ID_AU3K_BCAT | PRODUCT_ID_AU2K_TCAT =>
         if 0 <? Bytes then 8 * (Bytes - 1) + (Bit - 1) else -2
     | PRODUCT_ID_AX5K_E | PRODUCT_ID_AX5608 =>
         if 0 <? Bytes then 8 * (Bytes - 1) + Bit else -2
     | PRODUCT_ID_AX5K_I => if 0 <? Bytes then 56 + 8 * (Bytes - 1) + Bit else -2
     | PRODUCT_ID_AU4K | PRODUCT_ID_AX5K =>
         if 0 <? Bytes then 64 + 8 * (Bytes - 1) + (Bit - 1) else -2
     | PRODUCT_ID_AX7K => 64 * Bytes + Bit - 1
     | _ => -2
     end).

(** ** Facts *)

(** The indices a platform maps into its bitmap without wrapping. *)
Definition bit_ok (st : STP_T) (Bit : Z) : bool :=
  let '(index, byte) := bit_position st.(productId) st.(stp_is_distributed) Bit in
  (0 <=? index) && (index <=? 8) && (0 <=? byte) && (byte <=? 7).

Lemma part_Some bm i : 0 ≤ i → length bm = 9%nat → i ≤ 8 → ∃ v, part bm i = Done v ∧ bm !! Z.to_nat i = Some v.
Proof.
  intros H0 Hl H8. unfold part. destruct (Z.ltb_spec i 0); [lia|].
  destruct (bm !! Z.to_nat i) as [v|] eqn:E; [eauto|].
  apply lookup_ge_None in E. lia.
Qed.

Lemma land_pow2_testbit v n : 0 ≤ n → Z.land v (Z.shiftl 1 n) = if Z.testbit v n then 2 ^ n else 0.
Proof.
  intros Hn. apply Z.bits_inj'. intros k Hk.
  rewrite Z.land_spec, Z.shiftl_1_l, Z.pow2_bits_eqb by done.
  destruct (Z.testbit v n) eqn:E; rewrite ?Z.bits_0, ?Z.pow2_bits_eqb by done;
    destruct (Z.eqb_spec n k) as [->|]; rewrite ?E, ?andb_false_r; done.
Qed.

(** Reading back after setting and after clearing a bit; other bits are not
    touched.  [bit_of] is what [stp_bitmap_get_bit] tests. *)
Definition bit_of (st : STP_T) (bm : BITMAP_T) (Bit : Z) : bool :=
  let '(index, byte) := bit_position st.(productId) st.(stp_is_distributed) Bit in
  Z.testbit (default 0 (bm !! Z.to_nat index)) byte.

Lemma get_bit_of st bm Bit :
  bit_ok st Bit = true → length bm = 9%nat →
  ∃ v, stp_bitmap_get_bit st bm Bit = Done v ∧ (v ≠ 0 ↔ bit_of st bm Bit = true).
Proof.
  unfold bit_ok, bit_of, stp_bitmap_get_bit.
  destruct (bit_position _ _ _) as [index byte]. intros H Hl. bool_facts.
  destruct (Z.leb_spec byte 7); [|lia].
  destruct (part_Some bm index) as (v & -> & ->); [done..|]. simpl.
  eexists; split; [done|]. rewrite land_pow2_testbit by done.
  pose proof (Z.pow_pos_nonneg 2 byte). destruct (Z.testbit v byte); [|done].
  split; [done|]. lia.
Qed.

(** The place of two bits. *)
Definition same_place (st : STP_T) (a b : Z) : bool :=
  bool_decide (bit_position st.(productId) st.(stp_is_distributed) a =
               bit_position st.(productId) st.(stp_is_distributed) b).

Lemma set_bit_of st bm Bit other :
  bit_ok st Bit = true → bit_ok st other = true → length bm = 9%nat →
  ∃ bm', stp_bitmap_set_bit st bm Bit = Done bm' ∧ length bm' = 9%nat ∧
    bit_of st bm' other = bit_of st bm other || same_place st Bit other.
Proof.
  unfold bit_ok, bit_of, same_place, stp_bitmap_set_bit.
  destruct (bit_position _ _ Bit) as [i b], (bit_position _ _ other) as [i' b'].
  intros H H' Hl. bool_facts. destruct (Z.leb_spec b 7); [|lia].
  destruct (part_Some bm i) as (v & -> & Hv); [done..|]. simpl.
  eexists; split; [done|]. rewrite length_insert. split; [done|].
  assert (Hu : u8 (Z.shiftl 1 b) = 2 ^ b).
  { rewrite Z.shiftl_1_l. apply u8_small.
    pose proof (Z.pow_pos_nonneg 2 b). pose proof (Z.pow_le_mono_r 2 b 7). lia. }
  rewrite Hu. destruct (decide (i = i')) as [<-|Hne].
  - rewrite list_lookup_insert_eq by (apply lookup_lt_Some in Hv; lia).
    rewrite Hv. simpl. rewrite Z.lor_spec, Z.pow2_bits_eqb by done. f_equal.
    destruct (Z.eqb_spec b b') as [->|]; [by rewrite bool_decide_true|].
    rewrite bool_decide_false; [done|]. congruence.
  - rewrite list_lookup_insert_ne by (intros E; apply Z2Nat.inj in E; lia).
    rewrite bool_decide_false by congruence. by rewrite orb_false_r.
Qed.

Lemma clear_bit_of st bm Bit other :
  bit_ok st Bit = true → bit_ok st other = true → length bm = 9%nat →
  ∃ bm', stp_bitmap_clear_bit st bm Bit = Done bm' ∧ length bm' = 9%nat ∧
    bit_of st bm' other = bit_of st bm other && negb (same_place st Bit other).
Proof.
  unfold bit_ok, bit_of, same_place, stp_bitmap_clear_bit.
  destruct (bit_position _ _ Bit) as [i b], (bit_position _ _ other) as [i' b'].
  intros H H' Hl. bool_facts. destruct (Z.leb_spec b 7); [|lia].
  destruct (part_Some bm i) as (v & -> & Hv); [done..|]. simpl.
  eexists; split; [done|]. rewrite length_insert. split; [done|].
  rewrite Z.shiftl_1_l. destruct (decide (i = i')) as [<-|Hne].
  - rewrite list_lookup_insert_eq by (apply lookup_lt_Some in Hv; lia).
    rewrite Hv. simpl. rewrite Z.ldiff_spec, Z.pow2_bits_eqb by done. f_equal. f_equal.
    destruct (Z.eqb_spec b b') as [->|]; [by rewrite bool_decide_true|].
    rewrite bool_decide_false; [done|]. congruence.
  - rewrite list_lookup_insert_ne by (intros E; apply Z2Nat.inj in E; lia).
    rewrite bool_decide_false by congruence. by rewrite andb_true_r.
Qed.
