(* ===== verification/StpHeap.v ===== *)
(** * Well-formed heaps

    The [shape] of a state is what the pointers are: which instances and ports
    exist, which lists they are on, who owns them, and which optional state
    machines a port has.  The protocol engine changes contents, never shapes;
    well-formedness is a property of the shape, so it is an invariant of every
    operation that keeps the shape. *)

From Stdlib Require Import ZArith Lia.
From stdpp Require Import base gmap list option sets.
From S2P Require Import Prelude StpTypes StpTo.

#[global] Arguments get_port : simpl never.
#[global] Arguments get_stpm : simpl never.
#[global] Arguments put_port : simpl never.
#[global] Arguments put_stpm : simpl never.
#[global] Arguments upd_port : simpl never.
#[global] Arguments upd_ports : simpl never.

(** ** Shapes *)

Record PSHAPE : Type := mkPShape {
  sh_owner : Z;
  sh_index : Z;
  sh_mstid : Z;
  sh_next : list PORT_REF;
  sh_migrate : bool;
  sh_transmit : bool;
  sh_p2p : bool;
  sh_edge : bool;
  sh_receive : bool }.

Definition present {A} (o : option A) : bool :=
  match o with Some _ => true | None => false end.

Definition pshape (p : PORT_T) : PSHAPE :=
  {| sh_owner := p.(owner); sh_index := p.(port_index); sh_mstid := p.(vlan_id); sh_next := p.(nextMst);
     sh_migrate := present p.(migrate); sh_transmit := present p.(transmit);
     sh_p2p := present p.(p2p); sh_edge := present p.(edge);
     sh_receive := present p.(receive) |}.

(** The shape with another chain. *)
Definition with_next (l : list PORT_REF) (x : PSHAPE) : PSHAPE :=
  mkPShape x.(sh_owner) x.(sh_index) x.(sh_mstid) l x.(sh_migrate) x.(sh_transmit) x.(sh_p2p)
    x.(sh_edge) x.(sh_receive).

(** Of an instance: its ports, its number, and what only management changes. *)
Record SSHAPE : Type := mkSShape {
  sh_list : list PORT_REF;
  sh_vlan : Z;
  sh_map : VLAN_MAP_T;
  sh_config : MST_CFG_ID_S }.

Definition sshape (s : STPM_T) : SSHAPE :=
  {| sh_list := s.(STPM.ports); sh_vlan := s.(STPM.vlan_id);
     sh_map := s.(STPM.vlan_map); sh_config := s.(STPM.MstConfigId) |}.

(** The shape with another list of ports. *)
Definition with_list (l : list PORT_REF) (x : SSHAPE) : SSHAPE :=
  mkSShape l x.(sh_vlan) x.(sh_map) x.(sh_config).

Record SHAPE : Type := mkShape {
  sh_bridges : list Z;
  sh_cist : option Z;
  sh_stpms : gmap Z SSHAPE;
  sh_ports : gmap PORT_REF PSHAPE;
  sh_cistport : gmap Z PORT_REF;
  sh_product : PRODUCT_ID_T;
  sh_distributed : bool }.

Definition shape (st : STP_T) : SHAPE :=
  {| sh_bridges := st.(bridges); sh_cist := st.(g_CISTBRIDGE);
     sh_stpms := sshape <$> st.(stpm_heap); sh_ports := pshape <$> st.(port_heap);
     sh_cistport := st.(g_CISTPORT); sh_product := st.(productId);
     sh_distributed := st.(stp_is_distributed) |}.

(** The engine's equivalence on states: same shape. *)
Definition same_shape (st st' : STP_T) : Prop := shape st = shape st'.

#[export] Instance same_shape_equiv : Equivalence same_shape.
Proof. split; unfold same_shape; [intros ?|intros ???|intros ?????]; congruence. Qed.

(** ** The index of the array [g_CISTPORT]

    [stp_port_global_index_parse]: its results are [unsigned int]; -1 is
    [2^32 - 1]. *)
Definition index_parse (product : PRODUCT_ID_T) (distributed : bool) (port_index : Z) : Z :=
  if distributed then port_index mod 64
  else match product with
  | PRODUCT_ID_AX7K =>
      let byte := u32 (port_index - 64) / 64 in
      let bit := port_index mod 64 in
      u32 (byte * 6 + bit)
  | PRODUCT_ID_AU3K | PRODUCT_ID_AU3K_BCM | PRODUCT_ID_AU3K_BCAT
  | PRODUCT_ID_AU2K_TCAT | PRODUCT_ID_AX5K_E | PRODUCT_ID_AX5608 => port_index
  | PRODUCT_ID_AX5K_I => if 56 <=? port_index then port_index - 56 else port_index
  | PRODUCT_ID_AX5K | PRODUCT_ID_AU4K =>
      if 64 <=? port_index then port_index - 64 else port_index
  | _ => u32 (-1)
  end.

Definition stp_port_global_index_parse (st : STP_T) (port_index : Z) : Z :=
  index_parse st.(productId) st.(stp_is_distributed) port_index.

Definition MAX_PORT_NUM : Z := 51.

(** The test [index < 0 || index > MAX_PORT_NUM] on the [int] the callers keep. *)
Definition bad_index (index : Z) : bool := (i32 index <? 0) || (MAX_PORT_NUM <? i32 index).

(** The index is one of a port the daemon can have: no table or bitmap is read
    outside its bounds for it. *)
Definition index_ok (product : PRODUCT_ID_T) (distributed : bool) (idx : Z) : bool :=
  (0 <=? idx) && (idx <? 2 ^ 31) && negb (idx =? PORT_INDEX_MAX) &&
  (let '(index, byte) := bit_position product distributed idx in
   (7 <? byte) || ((0 <=? index) && (index <=? 8))).

(** ** Well-formedness

    [wf_once] and [wf_apart]: a chain has one port per instance at most, and no
    port is on two chains. *)

Record wf_shape (s : SHAPE) : Prop := {
  wf_bridges : ∀ b, b ∈ s.(sh_bridges) → is_Some (s.(sh_stpms) !! b);
  wf_distinct : NoDup s.(sh_bridges);
  wf_cist : ∀ b, s.(sh_cist) = Some b → b = STP_CIST_ID ∧ is_Some (s.(sh_stpms) !! b);
  wf_root : ∀ b x, s.(sh_stpms) !! b = Some x → s.(sh_cist) = Some STP_CIST_ID;
  wf_vlan : ∀ b x, s.(sh_stpms) !! b = Some x →
    x.(sh_vlan) = b ∧ 0 ≤ b ≤ STP_MSTI_MAX ∧ b ∈ s.(sh_bridges);
  wf_list : ∀ b x q, s.(sh_stpms) !! b = Some x → q ∈ x.(sh_list) →
    q.1 = b ∧ is_Some (s.(sh_ports) !! q);
  wf_nodup : ∀ b x, s.(sh_stpms) !! b = Some x → NoDup x.(sh_list);
  wf_owner : ∀ q x, s.(sh_ports) !! q = Some x →
    x.(sh_owner) = q.1 ∧ x.(sh_index) = q.2 ∧ x.(sh_mstid) = q.1 ∧
    ∃ b, s.(sh_stpms) !! q.1 = Some b ∧ q ∈ b.(sh_list);
  wf_machines : ∀ q x, s.(sh_ports) !! q = Some x → q.1 = STP_CIST_ID →
    x.(sh_migrate) = true ∧ x.(sh_transmit) = true ∧ x.(sh_p2p) = true ∧
    x.(sh_edge) = true ∧ x.(sh_receive) = true;
  wf_only_cist : ∀ q x, s.(sh_ports) !! q = Some x → x.(sh_migrate) = true → q.1 = STP_CIST_ID;
  wf_next : ∀ q x r, s.(sh_ports) !! q = Some x → r ∈ x.(sh_next) →
    r.1 ≠ STP_CIST_ID ∧ is_Some (s.(sh_ports) !! r);
  wf_once : ∀ q x, s.(sh_ports) !! q = Some x → NoDup (x.(sh_next).*1);
  wf_apart : ∀ q1 q2 x1 x2 r, s.(sh_ports) !! q1 = Some x1 → s.(sh_ports) !! q2 = Some x2 →
    r ∈ x1.(sh_next) → r ∈ x2.(sh_next) → q1 = q2;
  wf_cistport : ∀ i q, s.(sh_cistport) !! i = Some q →
    q.1 = STP_CIST_ID ∧ is_Some (s.(sh_ports) !! q);
  wf_indexed : ∀ q x, s.(sh_ports) !! q = Some x →
    let index := index_parse s.(sh_product) s.(sh_distributed) q.2 in
    index_ok s.(sh_product) s.(sh_distributed) q.2 = true ∧
    bad_index index = false ∧ is_Some (s.(sh_cistport) !! index) }.

Definition wf (st : STP_T) : Prop := wf_shape (shape st).

#[export] Instance wf_proper : Proper (same_shape ==> iff) wf.
Proof. intros st st' E. unfold wf. by rewrite E. Qed.

Lemma wf_same st st' : same_shape st st' → wf st → wf st'.
Proof. intros E. by rewrite E. Qed.

(** Reading a well-formed heap. *)
Lemma shape_port st q port :
  st.(port_heap) !! q = Some port → (shape st).(sh_ports) !! q = Some (pshape port).
Proof. intros E. simpl. by rewrite lookup_fmap, E. Qed.

Lemma shape_port_inv st q x :
  (shape st).(sh_ports) !! q = Some x →
  ∃ port, st.(port_heap) !! q = Some port ∧ x = pshape port.
Proof. simpl. rewrite lookup_fmap, fmap_Some. done. Qed.

Lemma shape_port_is_Some st q :
  is_Some ((shape st).(sh_ports) !! q) ↔ is_Some (st.(port_heap) !! q).
Proof. simpl. by rewrite lookup_fmap, fmap_is_Some. Qed.

Lemma shape_stpm_is_Some st b :
  is_Some ((shape st).(sh_stpms) !! b) ↔ is_Some (st.(stpm_heap) !! b).
Proof. simpl. by rewrite lookup_fmap, fmap_is_Some. Qed.

Lemma shape_stpm st b stpm :
  st.(stpm_heap) !! b = Some stpm → (shape st).(sh_stpms) !! b = Some (sshape stpm).
Proof. intros E. simpl. by rewrite lookup_fmap, E. Qed.

Lemma same_port st st' q port :
  same_shape st st' → st.(port_heap) !! q = Some port →
  ∃ port', st'.(port_heap) !! q = Some port' ∧ pshape port' = pshape port.
Proof.
  intros E H. apply shape_port in H. rewrite E in H.
  apply shape_port_inv in H as (port' & ? & ?). eauto.
Qed.

Lemma same_stpm st st' b stpm :
  same_shape st st' → st.(stpm_heap) !! b = Some stpm →
  ∃ stpm', st'.(stpm_heap) !! b = Some stpm' ∧ sshape stpm' = sshape stpm.
Proof.
  intros E H. apply shape_stpm in H. rewrite E in H. simpl in H.
  rewrite lookup_fmap, fmap_Some in H. destruct H as (stpm' & ? & ?). eauto.
Qed.

Lemma shape_stpm_inv st b x :
  (shape st).(sh_stpms) !! b = Some x →
  ∃ stpm, st.(stpm_heap) !! b = Some stpm ∧ x = sshape stpm.
Proof. simpl. rewrite lookup_fmap, fmap_Some. done. Qed.

Lemma wf_port_member st q port :
  wf st → st.(port_heap) !! q = Some port →
  port.(owner) = q.1 ∧ port.(port_index) = q.2 ∧
  ∃ stpm, st.(stpm_heap) !! q.1 = Some stpm ∧ q ∈ stpm.(STPM.ports).
Proof.
  intros W H. destruct (wf_owner _ W q _ (shape_port _ _ _ H)) as (? & ? & _ & b & Hb & Hin).
  apply shape_stpm_inv in Hb as (stpm & ? & ->). eauto.
Qed.

Lemma wf_port_owner st q port :
  wf st → st.(port_heap) !! q = Some port →
  port.(owner) = q.1 ∧ port.(port_index) = q.2 ∧
  ∃ stpm, st.(stpm_heap) !! q.1 = Some stpm.
Proof.
  intros W H. destruct (wf_port_member _ _ _ W H) as (? & ? & stpm & ? & _). eauto.
Qed.

Lemma wf_port_vlan st q port :
  wf st → st.(port_heap) !! q = Some port → port.(vlan_id) = q.1.
Proof.
  intros W H. by destruct (wf_owner _ W q _ (shape_port _ _ _ H)) as (? & ? & ? & _).
Qed.

Lemma wf_on_list st b stpm q :
  wf st → st.(stpm_heap) !! b = Some stpm → q ∈ stpm.(STPM.ports) →
  q.1 = b ∧ ∃ port, st.(port_heap) !! q = Some port.
Proof.
  intros W H Hq. destruct (wf_list _ W b _ q (shape_stpm _ _ _ H) Hq) as [? Hp].
  apply shape_port_is_Some in Hp. done.
Qed.

Lemma wf_list_nodup st b stpm :
  wf st → st.(stpm_heap) !! b = Some stpm → NoDup stpm.(STPM.ports).
Proof. intros W H. exact (wf_nodup _ W b _ (shape_stpm _ _ _ H)). Qed.

Lemma wf_nextMst st q port r :
  wf st → st.(port_heap) !! q = Some port → r ∈ port.(nextMst) →
  r.1 ≠ STP_CIST_ID ∧ ∃ mst, st.(port_heap) !! r = Some mst.
Proof.
  intros W H Hr. destruct (wf_next _ W q _ r (shape_port _ _ _ H) Hr) as (? & Hp).
  apply shape_port_is_Some in Hp. done.
Qed.

(** A chain has at most [STP_MSTI_MAX] ports, one per instance. *)
Lemma wf_chain_length st q port :
  wf st → st.(port_heap) !! q = Some port → (length port.(nextMst) ≤ 64)%nat.
Proof.
  intros W H. assert (Hn := wf_once _ W q _ (shape_port _ _ _ H)). simpl in Hn.
  rewrite <- (length_fmap fst). change 64%nat with (length (seqZ 1 64)).
  apply submseteq_length, NoDup_submseteq; [done|].
  intros b [r [-> Hr]]%list_elem_of_fmap. apply elem_of_seqZ.
  destruct (wf_next _ W q _ r (shape_port _ _ _ H) Hr) as (Hc & [x Hx]).
  destruct (wf_owner _ W r x Hx) as (_ & _ & _ & s & Hs & _).
  destruct (wf_vlan _ W _ _ Hs) as (_ & Hb & _). unfold STP_CIST_ID, STP_MSTI_MAX in *. lia.
Qed.

Lemma wf_stpm_vlan st b stpm :
  wf st → st.(stpm_heap) !! b = Some stpm → stpm.(STPM.vlan_id) = b.
Proof. intros W H. by destruct (wf_vlan _ W b _ (shape_stpm _ _ _ H)) as [? _]. Qed.

(** Every port finds the CIST port of its physical port in [g_CISTPORT]. *)
Lemma wf_cist_port st q port :
  wf st → st.(port_heap) !! q = Some port →
  bad_index (stp_port_global_index_parse st q.2) = false ∧
  ∃ c cport, st.(g_CISTPORT) !! stp_port_global_index_parse st q.2 = Some c ∧
    c.1 = STP_CIST_ID ∧ st.(port_heap) !! c = Some cport.
Proof.
  intros W H. destruct (wf_indexed _ W q _ (shape_port _ _ _ H)) as (_ & Hi & [c Hc]).
  split; [exact Hi|]. destruct (wf_cistport _ W _ _ Hc) as (Hc1 & Hp).
  apply shape_port_is_Some in Hp as [cport Hp]. exists c, cport. done.
Qed.

(** The index of a port is within the tables. *)
Lemma wf_port_index st q port :
  wf st → st.(port_heap) !! q = Some port →
  index_ok st.(productId) st.(stp_is_distributed) q.2 = true.
Proof. intros W H. by destruct (wf_indexed _ W q _ (shape_port _ _ _ H)) as [? _]. Qed.

Lemma index_ok_range product distributed idx :
  index_ok product distributed idx = true → 0 ≤ idx < 2 ^ 31 ∧ idx ≠ PORT_INDEX_MAX.
Proof. unfold index_ok. intros H. bool_facts. lia. Qed.

Lemma wf_in_tables st q port : wf st → st.(port_heap) !! q = Some port → in_tables port.
Proof.
  intros W H. destruct (wf_port_owner _ _ _ W H) as (_ & E & _). unfold in_tables. rewrite E.
  destruct (index_ok_range _ _ _ (wf_port_index _ _ _ W H)) as [? ?].
  rewrite u32_small by lia. done.
Qed.

Lemma present_Some {A} (o : option A) : present o = true → ∃ a, o = Some a.
Proof. destruct o; [eauto|done]. Qed.

(** The five machines of a CIST port exist. *)
Lemma wf_cist_machines st q port :
  wf st → st.(port_heap) !! q = Some port → q.1 = STP_CIST_ID →
  (∃ m, port.(migrate) = Some m) ∧ (∃ m, port.(transmit) = Some m) ∧
  (∃ m, port.(p2p) = Some m) ∧ (∃ m, port.(edge) = Some m) ∧
  (∃ m, port.(receive) = Some m).
Proof.
  intros W H Hq. destruct (wf_machines _ W q _ (shape_port _ _ _ H) Hq) as (?&?&?&?&?).
  simpl in *. repeat split; by apply present_Some.
Qed.

Lemma wf_migrate_cist st q port :
  wf st → st.(port_heap) !! q = Some port → present port.(migrate) = true → q.1 = STP_CIST_ID.
Proof. intros W H. exact (wf_only_cist _ W q _ (shape_port _ _ _ H)). Qed.

(** ** What the trace gains *)

(** [st'] has the events of [st] and newer ones that satisfy [P]. *)
Definition adds (P : EVENT → Prop) (st st' : STP_T) : Prop :=
  ∃ ev, st'.(trace) = ev ++ st.(trace) ∧ Forall P ev.

#[export] Instance adds_preorder P : PreOrder (adds P).
Proof.
  split; [intros st; exists []; by split; [|constructor]|].
  intros a b c (e1 & E1 & H1) (e2 & E2 & H2). exists (e2 ++ e1).
  rewrite E2, E1, app_assoc. split; [done|]. by apply Forall_app.
Qed.

Lemma adds_mono (P Q : EVENT → Prop) st st' : (∀ e, P e → Q e) → adds P st st' → adds Q st st'.
Proof. intros H (ev & E & F). exists ev. split; [done|]. by eapply Forall_impl. Qed.

Lemma adds_emit (P : EVENT → Prop) st0 st e : P e → adds P st0 st → adds P st0 (emit e st).
Proof. intros H (ev & E & F). exists (e :: ev). simpl. rewrite E. by split; [|constructor]. Qed.

Lemma adds_access (P : EVENT → Prop) st0 st b room len :
  (room < len → P (OVERRUN b room len)) → adds P st0 st → adds P st0 (access b room len st).
Proof. intros H A. unfold access. destruct (Z.ltb_spec room len); [apply adds_emit; auto|done]. Qed.

Lemma adds_Forall (P : EVENT → Prop) st st' : adds P st st' → Forall P st.(trace) → Forall P st'.(trace).
Proof. intros (ev & -> & F) H. by apply Forall_app. Qed.

Lemma adds_same (P : EVENT → Prop) st st' : st'.(trace) = st.(trace) → adds P st st'.
Proof. intros E. exists []. by split; [|constructor]. Qed.

(** An access changes nothing but the trace. *)
Lemma access_traced b room len st : ∃ t, access b room len st = st <| trace := t |>.
Proof. unfold access. destruct (_ <? _); [by eexists|]. exists st.(trace). by destruct st. Qed.

(** A port belongs to six MSTIs or more. *)
Definition crowded (st : STP_T) : Prop :=
  ∃ q port, st.(port_heap) !! q = Some port ∧ (6 ≤ length port.(nextMst))%nat.

(** What the protocol engine may access outside a block: a BPDU of the three
    short kinds is sent with 81 bytes from a block of 53; the name of a WAN
    interface may not fit its array; a long BPDU, of a port in many MSTIs, may
    not fit the buffer of a message to the kernel. *)
Definition engine_overrun (crowd : Prop) (b : BLOCK_T) (room len : Z) : Prop :=
  match b with
  | FRAME => room = 53 ∧ len = 81
  | IF_NAME => room = 20 ∨ room = 21
  | NETLINK_BUF => room = 255 ∧ crowd
  | _ => False
  end.

Definition engine_event (crowd : Prop) (e : EVENT) : Prop :=
  match e with OVERRUN b room len => engine_overrun crowd b room len | _ => True end.

Lemma engine_event_mono (A B : Prop) e : (A → B) → engine_event A e → engine_event B e.
Proof. intros H. destruct e as [| | | | |[] ? ?]; simpl; tauto. Qed.

(** What the daemon may access outside a block: also names, of which 32 bytes
    are copied whatever their length; the name of a port with an index of three
    digits or more; the element 64 of an array of [struct stp_admin_infos], for
    instance 64; the entry of a port beyond the table [stp_ports]; a port or a
    buffer just freed. *)
Definition daemon_overrun (b : BLOCK_T) (room len : Z) : Prop :=
  match b with
  | NAME_STRING => len = 32
  | PORT_NAME => room = 4
  | INFO_ARRAY => room = 64 ∧ len = 65
  | STP_PORTS => room = PORT_INDEX_MAX
  | FREED => True
  | FRAME | IF_NAME | NETLINK_BUF => engine_overrun True b room len
  end.

Definition daemon_event (e : EVENT) : Prop :=
  match e with OVERRUN b room len => daemon_overrun b room len | _ => True end.

Lemma engine_daemon crowd e : engine_event crowd e → daemon_event e.
Proof. destruct e as [| | | | |[] ? ?]; simpl; tauto. Qed.

#[export] Hint Extern 0 (adds _ _ _) => (apply adds_same; reflexivity) : core.

(** ** Stores that keep the shape *)

Lemma put_port_shape st q port port' :
  st.(port_heap) !! q = Some port → pshape port' = pshape port →
  same_shape st (put_port st q port').
Proof.
  intros H E. unfold same_shape, shape, put_port. simpl. f_equal.
  rewrite fmap_insert, E, insert_id; [done|]. by rewrite lookup_fmap, H.
Qed.

Lemma put_stpm_shape st b stpm stpm' :
  st.(stpm_heap) !! b = Some stpm → sshape stpm' = sshape stpm →
  same_shape st (put_stpm st b stpm').
Proof.
  intros H E. unfold same_shape, shape, put_stpm. simpl. f_equal.
  rewrite fmap_insert, E, insert_id; [done|]. by rewrite lookup_fmap, H.
Qed.

Lemma crowded_same st st' : same_shape st st' → crowded st → crowded st'.
Proof.
  intros E (q & port & H & Hl). destruct (same_port _ _ _ _ E H) as (port' & H' & Es).
  exists q, port'. split; [done|]. by rewrite <- (f_equal sh_next Es : port'.(nextMst) = port.(nextMst)) in Hl.
Qed.

Lemma emit_shape st e : same_shape st (emit e st).
Proof. done. Qed.

Lemma get_port_Some st q port : st.(port_heap) !! q = Some port → get_port st q = Done port.
Proof. unfold get_port. by intros ->. Qed.

Lemma get_stpm_Some st b stpm : st.(stpm_heap) !! b = Some stpm → get_stpm st b = Done stpm.
Proof. unfold get_stpm. by intros ->. Qed.

Lemma get_put_port st q port : get_port (put_port st q port) q = Done port.
Proof. unfold get_port, put_port. simpl. by rewrite lookup_insert_eq. Qed.

Lemma get_put_port_ne st q r port :
  q ≠ r → get_port (put_port st q port) r = get_port st r.
Proof. intros. unfold get_port, put_port. simpl. by rewrite lookup_insert_ne. Qed.

Lemma get_put_stpm st b stpm : get_stpm (put_stpm st b stpm) b = Done stpm.
Proof. unfold get_stpm, put_stpm. simpl. by rewrite lookup_insert_eq. Qed.

Lemma get_stpm_put_port st q port b : get_stpm (put_port st q port) b = get_stpm st b.
Proof. done. Qed.

Lemma put_put_port st q x y : put_port (put_port st q x) q y = put_port st q y.
Proof. unfold put_port. simpl. unfold set, set_port_heap. f_equal. apply insert_insert_eq. Qed.

#[export] Hint Rewrite get_put_port get_put_stpm get_stpm_put_port put_put_port : stp_rw.

(** ** The loop over a list of ports *)

(** What [upd_ports l f] makes of the heap of ports. *)
Definition map_ports (l : list PORT_REF) (f : PORT_T → PORT_T)
    (h : gmap PORT_REF PORT_T) : gmap PORT_REF PORT_T :=
  foldl (fun h q => alter f q h) h l.

Lemma upd_port_alter st q f port :
  st.(port_heap) !! q = Some port →
  upd_port q f st = Done (st <| port_heap := alter f q st.(port_heap) |>).
Proof.
  intros H. unfold upd_port. rewrite (get_port_Some _ _ _ H). simpl. f_equal.
  unfold put_port, set, set_port_heap. f_equal.
  apply map_eq. intros r. destruct (decide (q = r)) as [->|].
  - by rewrite lookup_insert_eq, lookup_alter_eq, H.
  - by rewrite lookup_insert_ne, lookup_alter_ne.
Qed.

Lemma upd_ports_map l f st :
  (∀ q, q ∈ l → is_Some (st.(port_heap) !! q)) →
  upd_ports l f st = Done (st <| port_heap := map_ports l f st.(port_heap) |>).
Proof.
  unfold upd_ports, map_ports. revert st. induction l as [|q l IH]; intros st Hl; simpl.
  - done.
  - destruct (Hl q ltac:(left)) as [port H]. rewrite (upd_port_alter _ _ _ _ H). simpl.
    rewrite IH; [done|]. intros r Hr. simpl. apply lookup_alter_is_Some, Hl. by right.
Qed.

Lemma map_ports_notin l f h q : q ∉ l → map_ports l f h !! q = h !! q.
Proof.
  unfold map_ports. revert h. induction l as [|r l IH]; intros h Hq; simpl; [done|].
  apply not_elem_of_cons in Hq as [? ?]. rewrite IH by done. by rewrite lookup_alter_ne.
Qed.

Lemma map_ports_in l f h q :
  NoDup l → q ∈ l → map_ports l f h !! q = f <$> h !! q.
Proof.
  unfold map_ports. revert h. induction l as [|r l IH]; intros h Hn Hq; simpl.
  - by apply not_elem_of_nil in Hq.
  - inversion_clear Hn as [|? ? Hr Hn']. destruct (decide (q = r)) as [->|Hne].
    + fold (map_ports l f (alter f r h)). rewrite map_ports_notin by done.
      by rewrite lookup_alter_eq.
    + apply elem_of_cons in Hq as [?|Hq]; [done|]. rewrite IH by done.
      by rewrite lookup_alter_ne.
Qed.

Lemma map_ports_shape l f st :
  (∀ p, pshape (f p) = pshape p) →
  same_shape st (st <| port_heap := map_ports l f st.(port_heap) |>).
Proof.
  intros Hf. unfold same_shape, shape. simpl. f_equal. unfold map_ports.
  generalize (st.(port_heap)). induction l as [|q l IH]; intros h; simpl; [done|].
  rewrite <- IH. apply map_eq. intros r. rewrite !lookup_fmap.
  destruct (decide (q = r)) as [->|].
  - rewrite lookup_alter_eq. destruct (h !! r); simpl; [by rewrite Hf|done].
  - by rewrite lookup_alter_ne.
Qed.

(** ** The worlds a port's machines run on *)

Definition ready (p : PORT_REF) (st : STP_T) : Prop :=
  wf st ∧ is_Some (st.(port_heap) !! p).

Definition cist_ready (p : PORT_REF) (st : STP_T) : Prop :=
  ready p st ∧ p.1 = STP_CIST_ID.

Lemma ready_same p st st' : same_shape st st' → ready p st → ready p st'.
Proof.
  intros E [W [port H]]. split; [by rewrite <- E|].
  destruct (same_port _ _ _ _ E H) as (port' & ? & _). eauto.
Qed.

Lemma cist_ready_same p st st' : same_shape st st' → cist_ready p st → cist_ready p st'.
Proof. intros E [R ?]. split; [by eapply ready_same|done]. Qed.

(** The MSTI ports of a CIST port are other ports, and exist. *)
Lemma nextMst_others p st port :
  cist_ready p st → st.(port_heap) !! p = Some port →
  (p ∉ port.(nextMst)) ∧ (∀ q, q ∈ port.(nextMst) → is_Some (st.(port_heap) !! q)).
Proof.
  intros [[W _] Hp] H. split.
  - intros Hin. by destruct (wf_nextMst _ _ _ _ W H Hin) as (? & _).
  - intros q Hq. destruct (wf_nextMst _ _ _ _ W H Hq) as (_ & ?). done.
Qed.

Lemma put_port_lookup st p port : (put_port st p port).(port_heap) !! p = Some port.
Proof. unfold put_port. simpl. by rewrite lookup_insert_eq. Qed.

(** Assign to a CIST port, then copy to its MSTI ports. *)
Lemma wp_upd_chain p st port port' f (Q : STP_T → Prop) :
  cist_ready p st → st.(port_heap) !! p = Some port →
  pshape port' = pshape port → (∀ x, pshape (f x) = pshape x) →
  (∀ st', same_shape st st' → st'.(port_heap) !! p = Some port' →
     (∀ b, st'.(stpm_heap) !! b = st.(stpm_heap) !! b) →
     (∀ q, q ∉ port.(nextMst) → q ≠ p → st'.(port_heap) !! q = st.(port_heap) !! q) →
     st'.(trace) = st.(trace) → Q st') →
  wp (upd_ports port.(nextMst) f (put_port st p port')) Q.
Proof.
  intros R H Hs Hf HQ. destruct (nextMst_others _ _ _ R H) as [Hn Hex].
  assert (E1 : same_shape st (put_port st p port')) by (by eapply put_port_shape).
  rewrite upd_ports_map.
  - apply HQ; simpl.
    + etransitivity; [exact E1|]. by apply map_ports_shape.
    + rewrite map_ports_notin by done. apply put_port_lookup.
    + done.
    + intros q Hq Hne. rewrite map_ports_notin by done. unfold put_port. simpl.
      by rewrite lookup_insert_ne.
    + done.
  - intros q Hq. destruct (Hex q Hq) as [x Hx].
    destruct (same_port _ _ _ _ E1 Hx) as (x' & ? & _). eauto.
Qed.

(** A loop that applies [F] to each port of its list, whatever it does to the
    ports outside of it. *)
Lemma wp_each_port (Inv : STP_T → Prop) (F : PORT_REF → PORT_T → PORT_T)
    (step : PORT_REF → STP_T → outcome STP_T) (L : list PORT_REF) :
  (∀ q st port, q ∈ L → Inv st → st.(port_heap) !! q = Some port →
     wp (step q st) (fun st' => Inv st' ∧ st'.(port_heap) !! q = Some (F q port) ∧
       ∀ r, r ∈ L → r ≠ q → st'.(port_heap) !! r = st.(port_heap) !! r)) →
  ∀ l st, NoDup l → l ⊆ L → Inv st → (∀ q, q ∈ l → is_Some (st.(port_heap) !! q)) →
  wp (foldM step l st) (fun st' => Inv st' ∧
    (∀ q, q ∈ l → st'.(port_heap) !! q = F q <$> st.(port_heap) !! q) ∧
    (∀ q, q ∈ L → q ∉ l → st'.(port_heap) !! q = st.(port_heap) !! q)).
Proof.
  intros Hstep l. induction l as [|q l IH]; intros st Hn HL HI Hex; simpl.
  { split_and!; [done| |done]. intros q Hq. by apply not_elem_of_nil in Hq. }
  inversion_clear Hn as [|? ? Hq Hn']. destruct (Hex q ltac:(left)) as [port H].
  apply wp_bind. eapply wp_mono; [apply (Hstep q st port); [apply HL; left|done..]|].
  intros st1 (HI1 & H1 & Ho1).
  assert (Hkeep : ∀ r, r ∈ l → st1.(port_heap) !! r = st.(port_heap) !! r).
  { intros r Hr. apply Ho1; [apply HL; by right|]. by intros ->. }
  eapply wp_mono; [apply IH; [done|set_solver|done|]|].
  { intros r Hr. rewrite Hkeep by done. apply Hex. by right. }
  intros st2 (HI2 & H2 & Ho2). split_and!; [done| |].
  - intros r [->|Hr]%elem_of_cons.
    + rewrite Ho2 by (done || (apply HL; left)). by rewrite H1, H.
    + rewrite H2 by done. by rewrite Hkeep.
  - intros r Hr [Hne Hnin]%not_elem_of_cons. rewrite Ho2 by done. by apply Ho1.
Qed.
