(* ===== verification/StpStatmch.v ===== *)
(** * The generic state machine ([stp_statmch.c])

    A machine is its flag [changeState] and its two callbacks, which act on a
    world [W] (the daemon's global state).  [stp_statmch_change_state] is the
    unbounded loop of the source, run with fuel. *)

From Stdlib Require Import ZArith Lia String.
From stdpp Require Import base gmap list option.
From S2P Require Import Prelude StpTypes StpHeap.

(** ** The loop *)

Record MACHINE (W : Type) : Type := mkMachine {
  get_changeState : W → outcome bool;
  set_changeState : bool → W → outcome W;
  concreteEnterState : W → outcome W;
  concreteCheckCondition : W → outcome (W * bool) }.
Arguments get_changeState {W} _ _.
Arguments set_changeState {W} _ _ _.
Arguments concreteEnterState {W} _ _.
Arguments concreteCheckCondition {W} _ _.
Arguments mkMachine {W} _ _ _ _.

(** The state and the flag a new machine starts with.  32 bytes are copied from
    the duplicate of its name, which is kept for debugging only. *)
Definition stp_statmch_create {S} (name : string) (BEGIN : S) (st : STP_T)
    : STP_T * STATE_MACH_T S :=
  (access NAME_STRING (Z.of_nat (String.length name) + 1) 32 st, mkMach BEGIN false).

Definition stp_statmch_check_condition {W} (this : MACHINE W) (w : W) : outcome (W * bool) :=
  let* '(w, bret) := concreteCheckCondition this w in
  if bret : bool then
    let* w := set_changeState this true w in Done (w, bret)
  else Done (w, bret).

(** One turn of the loop of [stp_statmch_change_state]. *)
Definition change_state_body {W} (this : MACHINE W) (w : W) : outcome W :=
  let* w := concreteEnterState this w in
  let* w := set_changeState this false w in
  let* '(w, _) := stp_statmch_check_condition this w in
  Done w.

(** Returns the number of turns; the callers use it as a boolean. *)
Fixpoint change_state_loop {W} (fuel : nat) (this : MACHINE W) (w : W)
    (number_of_loops : Z) : outcome (W * Z) :=
  match fuel with
  | O => OutOfFuel
  | S fuel' =>
      let* c := get_changeState this w in
      if negb c then Done (w, number_of_loops)
      else
        let* w := change_state_body this w in
        change_state_loop fuel' this w (number_of_loops + 1)
  end.

Definition stp_statmch_change_state {W} (fuel : nat) (this : MACHINE W) (w : W)
    : outcome (W * Z) :=
  change_state_loop fuel this w 0.

(** [stp_statmch_hop_2_state], which always returns [True]. *)
Definition stp_statmch_hop_2_state {S} (this : STATE_MACH_T S) (new_state : S) : STATE_MACH_T S :=
  mkMach new_state true.

(** ** Machines owned by a port *)

(** The member of [struct port_t] that points to the machine; [None] is the
    NULL pointer. *)
Record MACH_FIELD (S : Type) : Type := mkField {
  mach_get : PORT_T → option (STATE_MACH_T S);
  mach_put : STATE_MACH_T S → PORT_T → PORT_T }.
Arguments mach_get {S} _ _.
Arguments mach_put {S} _ _ _.
Arguments mkField {S} _ _.

(** What every field of [struct port_t] satisfies. *)
Class FieldLaws {S} (f : MACH_FIELD S) : Prop := {
  mach_get_put : ∀ m port, mach_get f (mach_put f m port) = Some m;
  mach_put_put : ∀ m m' port, mach_put f m (mach_put f m' port) = mach_put f m port;
  mach_put_shape : ∀ m m' port, mach_get f port = Some m' →
    pshape (mach_put f m port) = pshape port }.

Definition mach_of {S} (f : MACH_FIELD S) (st : STP_T) (p : PORT_REF)
    : outcome (PORT_T * STATE_MACH_T S) :=
  let* port := get_port st p in
  let* m := deref (mach_get f port) in
  Done (port, m).

Definition port_get_changeState {S} (f : MACH_FIELD S) (p : PORT_REF) (st : STP_T)
    : outcome bool :=
  let* '(_, m) := mach_of f st p in Done m.(changeState).

Definition port_set_changeState {S} (f : MACH_FIELD S) (p : PORT_REF) (c : bool) (st : STP_T)
    : outcome STP_T :=
  let* '(port, m) := mach_of f st p in
  Done (put_port st p (mach_put f (mkMach m.(State) c) port)).

(** [return stp_statmch_hop_2_state (s, new_state)]. *)
Definition hop {S} (f : MACH_FIELD S) (st : STP_T) (p : PORT_REF) (new_state : S)
    : outcome (STP_T * bool) :=
  let* '(port, m) := mach_of f st p in
  Done (put_port st p (mach_put f (stp_statmch_hop_2_state m new_state) port), true).

Definition port_machine {S} (f : MACH_FIELD S)
    (enter : STP_T → PORT_REF → outcome STP_T)
    (check : STP_T → PORT_REF → outcome (STP_T * bool)) (p : PORT_REF) : MACHINE STP_T :=
  mkMachine (port_get_changeState f p) (port_set_changeState f p)
    (fun st => enter st p) (fun st => check st p).

#[global] Arguments hop : simpl never.
#[global] Arguments mach_of : simpl never.
#[global] Arguments port_get_changeState : simpl never.
#[global] Arguments port_set_changeState : simpl never.

(** ** What the loop guarantees *)

Section Loop.
Context {W : Type} (m : MACHINE W).

(** More fuel does not change a result. *)
Lemma change_state_loop_mono fuel fuel' w n r :
  change_state_loop fuel m w n = Done r → (fuel ≤ fuel')%nat →
  change_state_loop fuel' m w n = Done r.
Proof.
  revert fuel' w n. induction fuel as [|fuel IH]; intros [|fuel'] w n; simpl; try done; try lia.
  intros H Hle. apply obind_Done in H as (c & -> & H). simpl in *. destruct c; simpl in *; [|done].
  apply obind_Done in H as (w1 & -> & H). simpl. apply IH; [done|lia].
Qed.

(** The result has no pending change; it is the initial world exactly when no
    turn was made, and otherwise the outcome of a last turn. *)
Lemma change_state_loop_exit fuel w n w' n' :
  change_state_loop fuel m w n = Done (w', n') →
  get_changeState m w' = Done false ∧
  (n ≤ n')%Z ∧ (n' = n → w' = w) ∧
  (n < n' → ∃ w1, get_changeState m w1 = Done true ∧ change_state_body m w1 = Done w')%Z.
Proof.
  revert w n. induction fuel as [|fuel IH]; intros w n; simpl; [done|].
  intros (c & Hc & H)%obind_Done. destruct c; simpl in H.
  - apply obind_Done in H as (w1 & Hb & H). destruct (IH _ _ H) as (Hq & Hn & H0 & H1).
    split_and!; [done|lia|lia|]. intros _. destruct (decide (n' = n + 1)) as [E|].
    + exists w. split; [done|]. by rewrite (H0 E).
    + apply H1. lia.
  - simplify_eq. split_and!; [done|lia|done|lia].
Qed.

(** An invariant of a turn is an invariant of the loop. *)
Lemma change_state_loop_inv (P : W → Prop) fuel w n w' n' :
  (∀ w w', P w → get_changeState m w = Done true → change_state_body m w = Done w' → P w') →
  P w → change_state_loop fuel m w n = Done (w', n') → P w'.
Proof.
  intros Hb. revert w n. induction fuel as [|fuel IH]; intros w n HP; simpl; [done|].
  intros (c & Hc & H)%obind_Done. destruct c; simpl in H; [|naive_solver].
  apply obind_Done in H as (w1 & H1 & H). exact (IH _ _ (Hb _ _ HP Hc H1) H).
Qed.

(** What an implementation promises: on the worlds [P], a turn returns, keeps
    [P], and decreases the measure when it asks for another turn. *)
Class Terminating (P : W → Prop) (mu : W → nat) : Prop := {
  term_get : ∀ w, P w → wp (get_changeState m w) (fun _ => True);
  term_step : ∀ w, P w → get_changeState m w = Done true →
    wp (change_state_body m w) (fun w' =>
      P w' ∧ (get_changeState m w' = Done true → mu w' < mu w)%nat) }.

(** Then the loop returns, with one unit of fuel per turn. *)
Lemma change_state_loop_total P mu `{!Terminating P mu} fuel w n :
  P w → (mu w + 1 < fuel)%nat →
  wp (change_state_loop fuel m w n) (fun '(w', _) => P w').
Proof.
  revert w n. induction fuel as [|fuel IH]; intros w n HP Hf; [lia|]. simpl.
  destruct (wp_elim _ _ (term_get w HP)) as (c & Ec & _). rewrite Ec. simpl.
  destruct c; simpl; [|done]. apply wp_bind.
  eapply wp_mono; [exact (term_step w HP Ec)|]. intros w1 [HP1 Hmu].
  destruct (wp_elim _ _ (term_get w1 HP1)) as ([] & Ec1 & _).
  - apply IH; [done|]. specialize (Hmu Ec1). lia.
  - destruct fuel as [|fuel]; [lia|]. simpl. by rewrite Ec1.
Qed.

(** The same as total correctness, with a bound on the measure. *)
Lemma change_state_returns P mu `{!Terminating P mu} B fuel w :
  P w → (mu w ≤ B)%nat → (B + 1 < fuel)%nat →
  wp (stp_statmch_change_state fuel m w)
    (fun '(w', _) => P w' ∧ get_changeState m w' = Done false).
Proof.
  intros HP HB Hf. unfold stp_statmch_change_state.
  destruct (wp_elim _ _ (change_state_loop_total P mu fuel w 0 HP ltac:(lia))) as ([w' n] & E & HP').
  rewrite E. split; [done|]. by destruct (change_state_loop_exit _ _ _ _ _ E).
Qed.

(** A set of worlds that asks for another turn and is closed under turns is
    never left. *)
Lemma change_state_diverges (P : W → Prop) fuel w :
  (∀ w, P w → get_changeState m w = Done true ∧ wp (change_state_body m w) P) →
  P w → stp_statmch_change_state fuel m w = OutOfFuel.
Proof.
  intros Hb. unfold stp_statmch_change_state. generalize 0 as n. revert w.
  induction fuel as [|fuel IH]; intros w n HP; simpl; [done|].
  destruct (Hb w HP) as [-> Hw]. simpl.
  destruct (wp_elim _ _ Hw) as (w' & -> & HP'). simpl. by apply IH.
Qed.
End Loop.

(** ** Port machines *)

Section PortMachine.
Context {S : Type} (f : MACH_FIELD S) `{!FieldLaws f}.

Lemma mach_of_Done st p port m :
  st.(port_heap) !! p = Some port → mach_get f port = Some m →
  mach_of f st p = Done (port, m).
Proof. intros H E. unfold mach_of. rewrite (get_port_Some _ _ _ H). simpl. by rewrite E. Qed.

Lemma hop_Done st p port m s :
  st.(port_heap) !! p = Some port → mach_get f port = Some m →
  hop f st p s = Done (put_port st p (mach_put f (mkMach s true) port), true).
Proof. intros H E. unfold hop. by rewrite (mach_of_Done _ _ _ _ H E). Qed.

Lemma get_changeState_Done st p port m :
  st.(port_heap) !! p = Some port → mach_get f port = Some m →
  port_get_changeState f p st = Done m.(changeState).
Proof. intros H E. unfold port_get_changeState. by rewrite (mach_of_Done _ _ _ _ H E). Qed.

Lemma set_changeState_Done st p port m c :
  st.(port_heap) !! p = Some port → mach_get f port = Some m →
  port_set_changeState f p c st = Done (put_port st p (mach_put f (mkMach m.(State) c) port)).
Proof. intros H E. unfold port_set_changeState. by rewrite (mach_of_Done _ _ _ _ H E). Qed.

Lemma mach_put_present st p port m m' :
  st.(port_heap) !! p = Some port → mach_get f port = Some m →
  same_shape st (put_port st p (mach_put f m' port)).
Proof. intros H E. eapply put_port_shape; [done|]. by eapply mach_put_shape. Qed.

(** A turn: enter the state, clear the flag, then hop or stay. *)
Definition idle_after (st1 : STP_T) (p : PORT_REF) (port1 : PORT_T) (s : S) : STP_T :=
  put_port st1 p (mach_put f (mkMach s false) port1).

Section Body.
Context (enter : STP_T → PORT_REF → outcome STP_T)
        (check : STP_T → PORT_REF → outcome (STP_T * bool))
        (p : PORT_REF) (st st1 : STP_T) (port1 : PORT_T) (m : STATE_MACH_T S).
Hypotheses (He : enter st p = Done st1) (H1 : st1.(port_heap) !! p = Some port1)
  (E1 : mach_get f port1 = Some m).
Let st2 := idle_after st1 p port1 m.(State).

Lemma idle_after_lookup :
  st2.(port_heap) !! p = Some (mach_put f (mkMach m.(State) false) port1).
Proof. apply put_port_lookup. Qed.

Lemma idle_after_shape : same_shape st1 st2.
Proof. by eapply mach_put_present. Qed.

Lemma body_stay st3 :
  check st2 p = Done (st3, false) →
  change_state_body (port_machine f enter check p) st = Done st3.
Proof.
  intros Hc. unfold change_state_body. simpl. rewrite He. cbn [obind].
  rewrite (set_changeState_Done _ _ _ _ _ H1 E1). cbn [obind].
  unfold stp_statmch_check_condition. simpl. fold (idle_after st1 p port1 m.(State)). fold st2.
  by rewrite Hc.
Qed.

Lemma body_hop s :
  check st2 p = hop f st2 p s →
  change_state_body (port_machine f enter check p) st =
    Done (put_port st1 p (mach_put f (mkMach s true) port1)).
Proof.
  intros Hc. unfold change_state_body. simpl. rewrite He. cbn [obind].
  rewrite (set_changeState_Done _ _ _ _ _ H1 E1). cbn [obind].
  unfold stp_statmch_check_condition. simpl. fold (idle_after st1 p port1 m.(State)). fold st2.
  rewrite Hc, (hop_Done _ _ _ _ _ idle_after_lookup (mach_get_put _ _)). cbn [obind].
  erewrite set_changeState_Done; [|apply put_port_lookup|apply mach_get_put]. cbn [obind State].
  unfold st2, idle_after. by rewrite !put_put_port, !mach_put_put.
Qed.
End Body.

(** The measure of a machine is a function of its state and its port, the
    machine's own record apart. *)
Definition mu_at (mu : S → PORT_T → nat) (p : PORT_REF) (st : STP_T) : nat :=
  match st.(port_heap) !! p with
  | Some port => match mach_get f port with Some m => mu m.(State) port | None => 0 end
  | None => 0
  end%nat.

#[local] Arguments mu_at : simpl never.

Lemma mu_at_eq mu p st port m :
  st.(port_heap) !! p = Some port → mach_get f port = Some m →
  mu_at mu p st = mu m.(State) port.
Proof. intros H E. unfold mu_at. by rewrite H, E. Qed.

(** A property of the shape does not see the machine's own record. *)
Lemma shape_put (p : PORT_REF) (P : STP_T → Prop) :
  (∀ st, P st → ∃ port m, st.(port_heap) !! p = Some port ∧ mach_get f port = Some m) →
  (∀ st st', same_shape st st' → P st → P st') →
  ∀ st port m, P st → st.(port_heap) !! p = Some port →
  P (put_port st p (mach_put f m port)).
Proof.
  intros P_has P_same st port m HP H. destruct (P_has st HP) as (port0 & m0 & H0 & E0).
  rewrite H in H0. injection H0 as <-. eapply P_same; [by eapply mach_put_present|done].
Qed.

Section Turn.
Context (enter : STP_T → PORT_REF → outcome STP_T)
        (check : STP_T → PORT_REF → outcome (STP_T * bool))
        (p : PORT_REF) (P : STP_T → Prop) (mu : S → PORT_T → nat).
Hypothesis P_has : ∀ st, P st →
  ∃ port m, st.(port_heap) !! p = Some port ∧ mach_get f port = Some m.
Hypothesis P_put : ∀ st port m, P st → st.(port_heap) !! p = Some port →
  P (put_port st p (mach_put f m port)).
Hypothesis mu_put : ∀ s m port, mu s (mach_put f m port) = mu s port.
(** Entering the state returns and leaves the machine alone; the conditions
    then either do not ask for a change (they may have effects that leave the
    port alone) or hop to a state of smaller measure. *)
Hypothesis turn : ∀ st port m, P st →
  st.(port_heap) !! p = Some port → mach_get f port = Some m →
  wp (enter st p) (fun st1 => P st1 ∧ ∃ port1, st1.(port_heap) !! p = Some port1 ∧
    mach_get f port1 = Some m ∧
    ∀ st2, P st2 →
      st2.(port_heap) !! p = Some (mach_put f (mkMach m.(State) false) port1) →
      (∃ st3, check st2 p = Done (st3, false) ∧ P st3 ∧
              st3.(port_heap) !! p = st2.(port_heap) !! p) ∨
      ∃ s, check st2 p = hop f st2 p s ∧ (mu s port1 < mu m.(State) port)%nat).

Lemma port_machine_terminating_effect :
  Terminating (port_machine f enter check p) P (mu_at mu p).
Proof.
  split.
  - intros st HP. destruct (P_has st HP) as (port & m & H & E). simpl.
    by rewrite (get_changeState_Done _ _ _ _ H E).
  - intros st HP _. destruct (P_has st HP) as (port & m & H & E).
    unfold change_state_body. simpl. apply wp_bind. eapply wp_mono; [exact (turn st port m HP H E)|].
    intros st1 (HP1 & port1 & H1 & E1 & Hc). rewrite (set_changeState_Done _ _ _ _ _ H1 E1). simpl.
    set (st2 := put_port st1 p _).
    assert (H2 : st2.(port_heap) !! p = Some (mach_put f (mkMach m.(State) false) port1))
      by apply put_port_lookup.
    assert (HP2 : P st2) by (by apply P_put).
    unfold stp_statmch_check_condition. simpl.
    destruct (Hc st2 HP2 H2) as [(st3 & -> & HP3 & H3)|(s & -> & Hlt)]; simpl.
    + split; [done|]. rewrite H2 in H3. intros Hg.
      pose proof (get_changeState_Done _ _ _ _ H3 (mach_get_put _ _)).
      simpl in *. congruence.
    + rewrite (hop_Done _ _ _ _ _ H2 (mach_get_put _ _)). simpl.
      set (st3 := put_port st2 p _).
      assert (H3 : st3.(port_heap) !! p = Some (mach_put f (mkMach s true) port1)).
      { unfold st3. by rewrite put_port_lookup, mach_put_put. }
      rewrite (set_changeState_Done _ _ _ _ _ H3 (mach_get_put _ _)). simpl.
      split; [by repeat apply P_put|]. intros _.
      rewrite (mu_at_eq _ _ _ _ _ H E). erewrite mu_at_eq; [|apply put_port_lookup|apply mach_get_put].
      simpl. by rewrite !mu_put.
Qed.
End Turn.

(** The common case: conditions without effects. *)
Lemma port_machine_terminating enter check p P mu :
  (∀ st, P st → ∃ port m, st.(port_heap) !! p = Some port ∧ mach_get f port = Some m) →
  (∀ st port m, P st → st.(port_heap) !! p = Some port →
     P (put_port st p (mach_put f m port))) →
  (∀ s m port, mu s (mach_put f m port) = mu s port) →
  (∀ st port m, P st → st.(port_heap) !! p = Some port → mach_get f port = Some m →
     wp (enter st p) (fun st1 => P st1 ∧ ∃ port1, st1.(port_heap) !! p = Some port1 ∧
       mach_get f port1 = Some m ∧
       ∀ st2, P st2 →
         st2.(port_heap) !! p = Some (mach_put f (mkMach m.(State) false) port1) →
         check st2 p = Done (st2, false) ∨
         ∃ s, check st2 p = hop f st2 p s ∧ (mu s port1 < mu m.(State) port)%nat)) →
  Terminating (port_machine f enter check p) P (mu_at mu p).
Proof.
  intros Hhas Hput Hmu Hturn. apply port_machine_terminating_effect; [done..|].
  intros st port m HP H E. eapply wp_mono; [by apply Hturn|].
  intros st1 (HP1 & port1 & H1 & E1 & Hc). split; [done|]. exists port1. split_and!; [done..|].
  intros st2 HP2 H2. destruct (Hc st2 HP2 H2) as [->|]; [left; eauto|by right].
Qed.
End PortMachine.
