(* ===== verification/StpMachines.v ===== *)
(** * The small state machines of a port

    Edge detection ([stp_edge.c]), point-to-point detection ([stp_p2p.c]), protocol
    migration ([stp_migrate.c]), path cost ([stp_pcost.c]) and port state
    transitions ([stp_sttrans.c]): for each the function that enters a state, the
    function that looks for the next one, what it leaves alone, and a bound on its
    turns. *)

From Stdlib Require Import ZArith Lia.
From stdpp Require Import base gmap list option.
From S2P Require Import Prelude StpTypes StpTo StpHeap StpStatmch.

(** ** Edge-port detection machine ([stp_edge.c])

    Only CIST ports own one; its results are copied to the MSTI ports of the
    same physical port. *)

Import EdgeState.

Definition edge_field : MACH_FIELD STATES :=
  mkField (fun port => port.(edge)) (fun m port => port <| edge := Some m |>).

Definition MSTP_edge_enter_state (st : STP_T) (p : PORT_REF) : outcome STP_T :=
  let* '(port, s) := mach_of edge_field st p in
  let mstport := port.(nextMst) in
  match s.(State) with
  | BEGIN => Done st
  | DISABLED =>
      let st := put_port st p
        (port <| operEdge := port.(adminEdge) |> <| wasInitBpdu := false |>
              <| lnkWhile := 0 |> <| portEnabled := false |>) in
      upd_ports mstport (fun q =>
        q <| operEdge := q.(adminEdge) |> <| portEnabled := false |>) st
  | DETECTED =>
      let st := put_port st p
        (port <| portEnabled := true |> <| lnkWhile := port.(LinkDelay) |>
              <| operEdge := false |>) in
      upd_ports mstport (fun q => q <| operEdge := false |> <| portEnabled := true |>) st
  | DELEAYED => Done st
  | RESOLVED =>
      if negb port.(wasInitBpdu) then
        let st := put_port st p (port <| operEdge := port.(adminEdge) |>) in
        upd_ports mstport (fun q => q <| operEdge := port.(adminEdge) |>) st
      else Done st
  end.

Definition MSTP_edge_check_conditions (st : STP_T) (p : PORT_REF) : outcome (STP_T * bool) :=
  let* '(port, s) := mach_of edge_field st p in
  match s.(State) with
  | BEGIN => hop edge_field st p DISABLED
  | DISABLED =>
      if port.(adminEnable) then hop edge_field st p DETECTED else Done (st, false)
  | DETECTED => hop edge_field st p DELEAYED
  | DELEAYED =>
      if port.(wasInitBpdu) then hop edge_field st p RESOLVED
      else if port.(lnkWhile) =? 0 then hop edge_field st p RESOLVED
      else if negb port.(adminEnable) then hop edge_field st p DISABLED
      else Done (st, false)
  | RESOLVED =>
      if negb port.(adminEnable) then hop edge_field st p DISABLED else Done (st, false)
  end.

Definition edge_machine (p : PORT_REF) : MACHINE STP_T :=
  port_machine edge_field MSTP_edge_enter_state MSTP_edge_check_conditions p.

(** ** Termination *)

#[export] Instance edge_field_laws : FieldLaws edge_field.
Proof. split; [done|done|]. intros m m' port E. unfold pshape. simpl in *. by rewrite E. Qed.

Lemma edge_has p st : cist_ready p st →
  ∃ port m, st.(port_heap) !! p = Some port ∧ mach_get edge_field port = Some m.
Proof.
  intros [[W [port H]] Hp]. destruct (wf_cist_machines _ _ _ W H Hp) as (_&_&_&[m E]&_). eauto.
Qed.

Definition edge_mu (s : STATES) (port : PORT_T) : nat :=
  match s with
  | BEGIN => 5
  | DISABLED => if port.(adminEnable) then 4 else 0
  | DETECTED => 3
  | DELEAYED => 2
  | RESOLVED => 1
  end.


Lemma edge_turn p st port m :
  cist_ready p st → st.(port_heap) !! p = Some port → mach_get edge_field port = Some m →
  wp (MSTP_edge_enter_state st p) (fun st1 => cist_ready p st1 ∧ ∃ port1,
    st1.(port_heap) !! p = Some port1 ∧ mach_get edge_field port1 = Some m ∧
    ∀ st2, cist_ready p st2 →
      st2.(port_heap) !! p = Some (mach_put edge_field (mkMach m.(State) false) port1) →
      MSTP_edge_check_conditions st2 p = Done (st2, false) ∨
      ∃ s, MSTP_edge_check_conditions st2 p = hop edge_field st2 p s ∧
           (edge_mu s port1 < edge_mu m.(State) port)%nat).
Proof.
  intros R H E. unfold MSTP_edge_enter_state. rewrite (mach_of_Done _ _ _ _ _ H E). simpl.
  assert (Hc : ∀ st2 port1, st2.(port_heap) !! p =
      Some (mach_put edge_field (mkMach m.(State) false) port1) → 
      port1.(adminEnable) = port.(adminEnable) →
      MSTP_edge_check_conditions st2 p = Done (st2, false) ∨
      ∃ s, MSTP_edge_check_conditions st2 p = hop edge_field st2 p s ∧
           (edge_mu s port1 < edge_mu m.(State) port)%nat).
  { intros st2 port1 H2 Ha. unfold MSTP_edge_check_conditions.
    rewrite (mach_of_Done _ _ _ _ _ H2 (mach_get_put _ _)). simpl. rewrite Ha.
    destruct m.(State); simpl; repeat case_match; simplify_eq/=; rewrite ?Ha in *;
      (by left) || (right; eexists; split; [done|]; simpl; rewrite ?Ha; repeat case_match; (done || lia)). }
  destruct m.(State) eqn:Es; [| | | |destruct (negb _)];
    try (apply wp_Done; split; [done|]; exists port; split_and!; [done..|]; intros; by apply Hc);
    (eapply wp_upd_chain; [done..|]; intros st' Esh H' _ _ _;
     split; [by eapply cist_ready_same|]; eexists; split_and!; [exact H'|done|]; intros; by apply Hc).
Qed.

#[export] Instance edge_terminating p :
  Terminating (edge_machine p) (cist_ready p) (mu_at edge_field edge_mu p).
Proof.
  apply (port_machine_terminating edge_field);
    [apply edge_has| |done|apply edge_turn].
  apply (shape_put edge_field); [apply edge_has|apply cist_ready_same].
Qed.

(** ** Point-to-point detection machine ([stp_p2p.c]) *)

Import P2pState.

Definition p2p_field : MACH_FIELD STATES :=
  mkField (fun port => port.(p2p)) (fun m port => port <| p2p := Some m |>).

Definition stp_p2p_port_check (st : STP_T) (port : PORT_T) : outcome bool :=
  match port.(adminPointToPointMac) with
  | P2P_FORCE_TRUE_E => Done true
  | P2P_FORCE_FALSE_E => Done false
  | P2P_AUTO_E => stp_to_get_duplex st port
  end.

Definition MSTP_p2p_enter_state (st : STP_T) (p : PORT_REF) : outcome STP_T :=
  let* '(port, s) := mach_of p2p_field st p in
  match s.(State) with
  | BEGIN | INIT => Done (put_port st p (port <| p2p_recompute := true |>))
  | RECOMPUTE =>
      let* oper := stp_p2p_port_check st port in
      let st := put_port st p
        (port <| operPointToPointMac := oper |> <| p2p_recompute := false |>) in
      upd_ports port.(nextMst) (fun q => q <| operPointToPointMac := oper |>) st
  | STABLE => Done st
  end.

Definition MSTP_p2p_check_conditions (st : STP_T) (p : PORT_REF) : outcome (STP_T * bool) :=
  let* '(port, s) := mach_of p2p_field st p in
  match s.(State) with
  | BEGIN | INIT => hop p2p_field st p STABLE
  | RECOMPUTE => hop p2p_field st p STABLE
  | STABLE =>
      if port.(p2p_recompute) then hop p2p_field st p RECOMPUTE else Done (st, false)
  end.

Definition p2p_machine (p : PORT_REF) : MACHINE STP_T :=
  port_machine p2p_field MSTP_p2p_enter_state MSTP_p2p_check_conditions p.

(** ** Termination *)

#[export] Instance p2p_field_laws : FieldLaws p2p_field.
Proof. split; [done|done|]. intros m m' port E. unfold pshape. simpl in *. by rewrite E. Qed.

Definition p2p_ready (p : PORT_REF) (st : STP_T) : Prop := cist_ready p st ∧ tables_ok st.

Lemma p2p_has p st : p2p_ready p st →
  ∃ port m, st.(port_heap) !! p = Some port ∧ mach_get p2p_field port = Some m.
Proof.
  intros [[[W [port H]] Hp] _].
  destruct (wf_cist_machines _ _ _ W H Hp) as (_&_&[m E]&_). eauto.
Qed.

Definition p2p_mu (s : STATES) (port : PORT_T) : nat :=
  match s with
  | BEGIN | INIT => 4
  | RECOMPUTE => 2
  | STABLE => if port.(p2p_recompute) then 3 else 1
  end.

Lemma p2p_turn p st port m :
  p2p_ready p st → st.(port_heap) !! p = Some port → mach_get p2p_field port = Some m →
  wp (MSTP_p2p_enter_state st p) (fun st1 => p2p_ready p st1 ∧ ∃ port1,
    st1.(port_heap) !! p = Some port1 ∧ mach_get p2p_field port1 = Some m ∧
    ∀ st2, p2p_ready p st2 →
      st2.(port_heap) !! p = Some (mach_put p2p_field (mkMach m.(State) false) port1) →
      MSTP_p2p_check_conditions st2 p = Done (st2, false) ∨
      ∃ s, MSTP_p2p_check_conditions st2 p = hop p2p_field st2 p s ∧
           (p2p_mu s port1 < p2p_mu m.(State) port)%nat).
Proof.
  intros [R T] H E. unfold MSTP_p2p_enter_state. rewrite (mach_of_Done _ _ _ _ _ H E). simpl.
  assert (Hc : ∀ st2 port1, st2.(port_heap) !! p =
      Some (mach_put p2p_field (mkMach m.(State) false) port1) →
      match m.(State) with
      | RECOMPUTE => port1.(p2p_recompute) = false
      | STABLE => port1.(p2p_recompute) = port.(p2p_recompute)
      | _ => True
      end →
      MSTP_p2p_check_conditions st2 p = Done (st2, false) ∨
      ∃ s, MSTP_p2p_check_conditions st2 p = hop p2p_field st2 p s ∧
           (p2p_mu s port1 < p2p_mu m.(State) port)%nat).
  { intros st2 port1 H2 Ha. unfold MSTP_p2p_check_conditions.
    rewrite (mach_of_Done _ _ _ _ _ H2 (mach_get_put _ _)). simpl.
    destruct m.(State); simpl in *; rewrite ?Ha; repeat case_match; simplify_eq/=;
      (by left) || (right; eexists; split; [done|]; simpl; repeat case_match; lia). }
  destruct m.(State) eqn:Es.
  - apply wp_Done. split; [split; [by eapply cist_ready_same; [eapply put_port_shape|]|done]|].
    eexists; split_and!; [apply put_port_lookup|done|]. intros; by apply Hc.
  - apply wp_Done. split; [split; [by eapply cist_ready_same; [eapply put_port_shape|]|done]|].
    eexists; split_and!; [apply put_port_lookup|done|]. intros; by apply Hc.
  - assert (Hd : ∃ b, stp_p2p_port_check st port = Done b).
    { unfold stp_p2p_port_check. assert (W := proj1 (proj1 R)).
      case_match; eauto using duplex_total, wf_in_tables. }
    destruct Hd as [b ->]. simpl. rewrite upd_ports_map.
    + simpl. split.
      * split; [|done]. eapply cist_ready_same; [|done]. etransitivity; [|by apply map_ports_shape].
        by eapply put_port_shape.
      * eexists; split; [rewrite map_ports_notin by (by apply (nextMst_others _ _ _ R H));
          apply put_port_lookup|]. split; [done|]. intros; by apply Hc.
    + intros q Hq. destruct (nextMst_others _ _ _ R H) as [_ Hex]. destruct (Hex q Hq) as [x Hx].
      edestruct (same_port st (put_port st p (port <| operPointToPointMac := b |>
        <| p2p_recompute := false |>))) as (x' & Hx' & _); [by eapply put_port_shape|done|eauto].
  - apply wp_Done. split; [done|]. exists port; split_and!; [done..|]. intros; by apply Hc.
Qed.

Lemma p2p_ready_put p st port m :
  p2p_ready p st → st.(port_heap) !! p = Some port →
  p2p_ready p (put_port st p (mach_put p2p_field m port)).
Proof.
  intros [R T] H. split; [|done].
  destruct (p2p_has p st (conj R T)) as (port0 & m0 & H0 & E0). rewrite H in H0.
  injection H0 as <-. eapply cist_ready_same; [by eapply (mach_put_present p2p_field)|done].
Qed.

#[export] Instance p2p_terminating p :
  Terminating (p2p_machine p) (p2p_ready p) (mu_at p2p_field p2p_mu p).
Proof.
  apply (port_machine_terminating p2p_field);
    [apply p2p_has|apply p2p_ready_put|done|apply p2p_turn].
Qed.

(** ** Protocol migration machine ([stp_migrate.c]) *)

Import MigrateState.

Definition migrate_field : MACH_FIELD STATES :=
  mkField (fun port => port.(migrate)) (fun m port => port <| migrate := Some m |>).

Definition MigrateTime : Z := 3.

Definition MSTP_migrate_enter_state (st : STP_T) (p : PORT_REF) : outcome STP_T :=
  let* '(port, this) := mach_of migrate_field st p in
  Done (put_port st p
    match this.(State) with
    | BEGIN | INIT => port <| initPm := true |> <| mcheck := false |>
    | SEND_RSTP =>
        port <| mdelayWhile := MigrateTime |> <| initPm := false |> <| mcheck := false |>
             <| sendRSTP := true |>
    | SENDING_RSTP => port <| rcvdSTP := false |> <| rcvdRSTP := false |>
    | SEND_STP =>
        port <| mdelayWhile := MigrateTime |> <| sendRSTP := false |> <| initPm := false |>
    | SENDING_STP => port <| rcvdSTP := false |> <| rcvdRSTP := false |>
    end).

Definition MSTP_migrate_check_conditions (st : STP_T) (p : PORT_REF) : outcome (STP_T * bool) :=
  let* '(port, this) := mach_of migrate_field st p in
  let BEGIN_eq := match this.(State) with BEGIN => true | _ => false end in
  if (negb port.(portEnabled) && negb port.(initPm)) || BEGIN_eq then
    hop migrate_field st p INIT
  else
    match this.(State) with
    | BEGIN => Done (st, false)
    | INIT =>
        if port.(portEnabled) then
          let* stpm := get_stpm st port.(owner) in
          hop migrate_field st p
            (if 2 <=? stpm.(STPM.ForceVersion) then SEND_RSTP else SEND_STP)
        else Done (st, false)
    | SEND_RSTP => hop migrate_field st p SENDING_RSTP
    | SENDING_RSTP =>
        if port.(mcheck) then hop migrate_field st p SEND_RSTP
        else if negb (port.(mdelayWhile) =? 0) && (port.(rcvdSTP) || port.(rcvdRSTP)) then
          hop migrate_field st p SENDING_RSTP
        else if (port.(mdelayWhile) =? 0) && port.(rcvdSTP) then
          hop migrate_field st p SEND_STP
        else
          let* stpm := get_stpm st port.(owner) in
          if stpm.(STPM.ForceVersion) <? 2 then hop migrate_field st p SEND_STP
          else Done (st, false)
    | SEND_STP => hop migrate_field st p SENDING_STP
    | SENDING_STP =>
        if port.(mcheck) then hop migrate_field st p SEND_RSTP
        else if negb (port.(mdelayWhile) =? 0) && (port.(rcvdSTP) || port.(rcvdRSTP)) then
          hop migrate_field st p SENDING_STP
        else if (port.(mdelayWhile) =? 0) && port.(rcvdRSTP) then
          hop migrate_field st p SEND_RSTP
        else Done (st, false)
    end.

Definition migrate_machine (p : PORT_REF) : MACHINE STP_T :=
  port_machine migrate_field MSTP_migrate_enter_state MSTP_migrate_check_conditions p.

(** ** Termination *)

#[export] Instance migrate_field_laws : FieldLaws migrate_field.
Proof. split; [done|done|]. intros m m' port E. unfold pshape. simpl in *. by rewrite E. Qed.

Lemma migrate_has p st : cist_ready p st →
  ∃ port m, st.(port_heap) !! p = Some port ∧ mach_get migrate_field port = Some m.
Proof.
  intros [[W [port H]] Hp]. destruct (wf_cist_machines _ _ _ W H Hp) as ([m E]&_). eauto.
Qed.

Definition migrate_mu (s : STATES) (port : PORT_T) : nat :=
  match s with
  | BEGIN => 8
  | INIT => if port.(portEnabled) then 7 else 0
  | SEND_RSTP => 4
  | SENDING_RSTP => if port.(mcheck) then 5 else 3
  | SEND_STP => if port.(mcheck) then 6 else 2
  | SENDING_STP => if port.(mcheck) then 5 else 1
  end.

Lemma migrate_turn p st port m :
  cist_ready p st → st.(port_heap) !! p = Some port → mach_get migrate_field port = Some m →
  wp (MSTP_migrate_enter_state st p) (fun st1 => cist_ready p st1 ∧ ∃ port1,
    st1.(port_heap) !! p = Some port1 ∧ mach_get migrate_field port1 = Some m ∧
    ∀ st2, cist_ready p st2 →
      st2.(port_heap) !! p = Some (mach_put migrate_field (mkMach m.(State) false) port1) →
      MSTP_migrate_check_conditions st2 p = Done (st2, false) ∨
      ∃ s, MSTP_migrate_check_conditions st2 p = hop migrate_field st2 p s ∧
           (migrate_mu s port1 < migrate_mu m.(State) port)%nat).
Proof.
  intros R H E. unfold MSTP_migrate_enter_state. rewrite (mach_of_Done _ _ _ _ _ H E). simpl.
  split; [eapply cist_ready_same; [eapply put_port_shape|]; try done; by destruct m.(State)|].
  eexists; split_and!; [apply put_port_lookup|by destruct m.(State)|].
  intros st2 R2 H2. unfold MSTP_migrate_check_conditions.
  rewrite (mach_of_Done migrate_field _ _ _ (mkMach m.(State) false) H2 eq_refl). simpl.
  destruct (wf_port_owner _ _ _ (proj1 (proj1 R2)) H2) as (Ho & _ & stpm & Hs).
  rewrite <- Ho in Hs. simpl in Hs. rewrite (get_stpm_Some _ _ _ Hs). simpl.
  destruct m.(State); simpl; rewrite ?andb_false_r; repeat (case_match; simplify_eq/=; bool_facts);
    try (by left); right; eexists; (split; [done|]); simpl; rewrite ?H0; repeat case_match;
    simplify_eq/=; lia.
Qed.

#[export] Instance migrate_terminating p :
  Terminating (migrate_machine p) (cist_ready p) (mu_at migrate_field migrate_mu p).
Proof.
  apply (port_machine_terminating migrate_field);
    [apply migrate_has| |done|apply migrate_turn].
  apply (shape_put migrate_field); [apply migrate_has|apply cist_ready_same].
Qed.

(** ** Path cost machine ([stp_pcost.c]) *)

Import PcostState.

Definition ADMIN_PORT_PATH_COST_AUTO : Z := 200000000.

Definition pcost_field : MACH_FIELD STATES :=
  mkField (fun port => Some port.(pcost)) (fun m port => port <| pcost := m |>).

Definition stp_pcost_compute_auto_pcost (port : PORT_T) : Z :=
  if port.(usedSpeed) <? 10 then 20000000
  else if port.(usedSpeed) <=? 10 then 2000000
  else if port.(usedSpeed) <=? 100 then 200000
  else if port.(usedSpeed) <=? 1000 then 20000
  else if port.(usedSpeed) <=? 10000 then 2000
  else if port.(usedSpeed) <=? 100000 then 200
  else if port.(usedSpeed) <=? 1000000 then 20
  else if port.(usedSpeed) <=? 10000000 then 2
  else 1.

Definition stp_pcost_updport_pcost (port : PORT_T) : PORT_T :=
  port <| reselect := true |> <| selected := false |>.

(** [usedSpeed] is an [unsigned long]: -1 is stored as [2^32 - 1]. *)
Definition MSTP_pcost_enter_state (st : STP_T) (p : PORT_REF) : outcome STP_T :=
  let* '(port, this) := mach_of pcost_field st p in
  match this.(State) with
  | BEGIN => Done st
  | AUTO =>
      let* speed := stp_to_get_port_oper_speed st port in
      let port := port <| operSpeed := speed |> in
      let port := port <| usedSpeed := port.(operSpeed) |> in
      Done (put_port st p (port <| operPCost := stp_pcost_compute_auto_pcost port |>))
  | FORSE =>
      Done (put_port st p
        (port <| operPCost := port.(adminPCost) |> <| usedSpeed := u32 (-1) |>))
  | STABLE => Done (put_port st p (stp_pcost_updport_pcost port))
  end.

Definition MSTP_pcost_check_conditions (st : STP_T) (p : PORT_REF) : outcome (STP_T * bool) :=
  let* '(port, this) := mach_of pcost_field st p in
  match this.(State) with
  | BEGIN => hop pcost_field st p AUTO
  | AUTO => hop pcost_field st p STABLE
  | FORSE => hop pcost_field st p STABLE
  | STABLE =>
      if (ADMIN_PORT_PATH_COST_AUTO =? port.(adminPCost)) &&
         negb (port.(operSpeed) =? port.(usedSpeed)) then hop pcost_field st p AUTO
      else if negb (ADMIN_PORT_PATH_COST_AUTO =? port.(adminPCost)) &&
              negb (port.(operPCost) =? port.(adminPCost)) then hop pcost_field st p FORSE
      else Done (st, false)
  end.

Definition pcost_machine (p : PORT_REF) : MACHINE STP_T :=
  port_machine pcost_field MSTP_pcost_enter_state MSTP_pcost_check_conditions p.

(** ** Termination *)

#[export] Instance pcost_field_laws : FieldLaws pcost_field.
Proof. by split. Qed.

Definition pcost_ready (p : PORT_REF) (st : STP_T) : Prop := ready p st ∧ tables_ok st.

Lemma pcost_has p st : pcost_ready p st →
  ∃ port m, st.(port_heap) !! p = Some port ∧ mach_get pcost_field port = Some m.
Proof. intros [[W [port H]] _]. eexists _, _. done. Qed.

(** The two settled forms of [STABLE]. *)
Definition pcost_settled (port : PORT_T) : bool :=
  if ADMIN_PORT_PATH_COST_AUTO =? port.(adminPCost) then port.(operSpeed) =? port.(usedSpeed)
  else port.(operPCost) =? port.(adminPCost).

Definition pcost_mu (s : STATES) (port : PORT_T) : nat :=
  match s with
  | BEGIN => 7
  | AUTO => 4
  | FORSE => if ADMIN_PORT_PATH_COST_AUTO =? port.(adminPCost) then 6 else 2
  | STABLE =>
      if pcost_settled port then 1
      else if ADMIN_PORT_PATH_COST_AUTO =? port.(adminPCost) then 5 else 3
  end.

#[local] Arguments pcost_mu : simpl never.

Lemma pcost_check st2 p port1 m port :
  st2.(port_heap) !! p = Some (mach_put pcost_field (mkMach m.(State) false) port1) →
  match m.(State) with
  | AUTO => port1.(operSpeed) = port1.(usedSpeed)
  | FORSE => port1.(operPCost) = port1.(adminPCost) ∧ port1.(adminPCost) = port.(adminPCost)
  | STABLE => port1 = stp_pcost_updport_pcost port
  | BEGIN => True
  end →
  MSTP_pcost_check_conditions st2 p = Done (st2, false) ∨
  ∃ s, MSTP_pcost_check_conditions st2 p = hop pcost_field st2 p s ∧
       (pcost_mu s port1 < pcost_mu m.(State) port)%nat.
Proof.
  intros H2 Ha. unfold MSTP_pcost_check_conditions.
  rewrite (mach_of_Done _ _ _ _ _ H2 (mach_get_put _ _)). simpl.
  destruct m.(State); unfold pcost_mu, pcost_settled; simpl in *.
  - right. exists AUTO. simpl. split; [done|lia].
  - right. exists STABLE. split; [done|]. rewrite Ha, Z.eqb_refl.
    repeat case_match; lia.
  - destruct Ha as [Ha Hb]. right. exists STABLE. split; [done|]. rewrite Ha, Z.eqb_refl.
    rewrite Hb. repeat case_match; lia.
  - subst port1. unfold stp_pcost_updport_pcost. simpl.
    destruct (ADMIN_PORT_PATH_COST_AUTO =? port.(adminPCost)) eqn:Ea,
      (port.(operSpeed) =? port.(usedSpeed)), (port.(operPCost) =? port.(adminPCost));
      simpl; (by left) || (right; eexists; split; [done|]; simpl; rewrite ?Ea; lia).
Qed.

Lemma pcost_ready_put p st port port' :
  pcost_ready p st → st.(port_heap) !! p = Some port → pshape port' = pshape port →
  pcost_ready p (put_port st p port').
Proof.
  intros [R T] H Es. split; [|done]. eapply ready_same; [by eapply put_port_shape|done].
Qed.

Lemma pcost_turn p st port m :
  pcost_ready p st → st.(port_heap) !! p = Some port → mach_get pcost_field port = Some m →
  wp (MSTP_pcost_enter_state st p) (fun st1 => pcost_ready p st1 ∧ ∃ port1,
    st1.(port_heap) !! p = Some port1 ∧ mach_get pcost_field port1 = Some m ∧
    ∀ st2, pcost_ready p st2 →
      st2.(port_heap) !! p = Some (mach_put pcost_field (mkMach m.(State) false) port1) →
      MSTP_pcost_check_conditions st2 p = Done (st2, false) ∨
      ∃ s, MSTP_pcost_check_conditions st2 p = hop pcost_field st2 p s ∧
           (pcost_mu s port1 < pcost_mu m.(State) port)%nat).
Proof.
  intros R H E. unfold MSTP_pcost_enter_state. rewrite (mach_of_Done _ _ _ _ _ H E). simpl.
  destruct (oper_speed_total st port (proj2 R) (wf_in_tables _ _ _ (proj1 (proj1 R)) H)) as (v & -> & _).
  destruct m.(State) eqn:Es; simpl.
  - split; [done|]. exists port. split_and!; [done..|]. intros st2 _ H2. rewrite <- Es in *.
    apply pcost_check; [done|by rewrite Es].
  - split; [by eapply pcost_ready_put|]. eexists; split_and!; [apply put_port_lookup|done|].
    intros st2 _ H2. rewrite <- Es in *. eapply pcost_check; [exact H2|by rewrite Es].
  - split; [by eapply pcost_ready_put|]. eexists; split_and!; [apply put_port_lookup|done|].
    intros st2 _ H2. rewrite <- Es in *. eapply pcost_check; [exact H2|by rewrite Es].
  - split; [by eapply pcost_ready_put|]. eexists; split_and!; [apply put_port_lookup|done|].
    intros st2 _ H2. rewrite <- Es in *. eapply pcost_check; [exact H2|by rewrite Es].
Qed.

#[export] Instance pcost_terminating p :
  Terminating (pcost_machine p) (pcost_ready p) (mu_at pcost_field pcost_mu p).
Proof.
  apply (port_machine_terminating pcost_field);
    [apply pcost_has| |done|apply pcost_turn].
  intros st port m R H. by eapply pcost_ready_put.
Qed.

(** ** Port state transition machine ([stp_sttrans.c])

    Built with [STRONGLY_SPEC_802_1W], where [stp_to_set_learning] and
    [stp_to_set_forwarding] do nothing: the switch learns a port's state only
    from [stp_npd_cmd_send_stp_info] and [stp_npd_set_wan_state]. *)

Import SttransState.

Definition sttrans_field : MACH_FIELD STATES :=
  mkField (fun port => Some port.(sttrans)) (fun m port => port <| sttrans := m |>).

(** The state reported for a state of the machine. *)
Definition npd_state (s : STATES) : NAM_RSTP_PORT_STATE_E :=
  match s with
  | DISCARDING => NAM_STP_PORT_STATE_DISCARD_E
  | LEARNING => NAM_STP_PORT_STATE_LEARN_E
  | FORWARDING => NAM_STP_PORT_STATE_FORWARD_E
  | BEGIN => NAM_STP_PORT_STATE_DISABLE_E
  end.

Definition stp_sttrans_sendStpStatetoNpd (port : PORT_T) (st : STP_T) : STP_T :=
  let state := npd_state port.(sttrans).(State) in
  if port.(isWAN) then emit (WAN_STATE port.(br_ifindex) port.(port_ifindex) state) st
  else emit (NPD_STP_INFO port.(vlan_id) 0 port.(port_index) state) st.

Definition MSTP_sttrans_enter_state (st : STP_T) (p : PORT_REF) : outcome STP_T :=
  let* '(port, this) := mach_of sttrans_field st p in
  match this.(State) with
  | BEGIN | DISCARDING =>
      let st := put_port st p (port <| learning := false |> <| forwarding := false |>) in
      Done (if port.(portEnabled) then stp_sttrans_sendStpStatetoNpd port st else st)
  | LEARNING =>
      let st := put_port st p (port <| learning := true |>) in
      Done (stp_sttrans_sendStpStatetoNpd port st)
  | FORWARDING =>
      let st := put_port st p
        (port <| tc := negb port.(operEdge) |> <| forwarding := true |> <| synced := false |>
              <| proposing := false |> <| agreed := false |>) in
      Done (stp_sttrans_sendStpStatetoNpd port st)
  end.

Definition MSTP_sttrans_check_conditions (st : STP_T) (p : PORT_REF) : outcome (STP_T * bool) :=
  let* '(port, this) := mach_of sttrans_field st p in
  match this.(State) with
  | BEGIN => hop sttrans_field st p DISCARDING
  | DISCARDING =>
      let st :=
        if port.(portEnabled) && (st.(sttrans_count) <? 1) && negb port.(learn) then
          let st := stp_sttrans_sendStpStatetoNpd port st in
          st <| sttrans_count := u32 (st.(sttrans_count) + 1) |>
        else st in
      if port.(learn) then hop sttrans_field st p LEARNING else Done (st, false)
  | LEARNING =>
      if port.(forward) then hop sttrans_field st p FORWARDING
      else if negb port.(learn) then hop sttrans_field st p DISCARDING
      else Done (st, false)
  | FORWARDING =>
      if negb port.(forward) then hop sttrans_field st p DISCARDING else Done (st, false)
  end.

Definition sttrans_machine (p : PORT_REF) : MACHINE STP_T :=
  port_machine sttrans_field MSTP_sttrans_enter_state MSTP_sttrans_check_conditions p.

(** ** Termination *)

#[export] Instance sttrans_field_laws : FieldLaws sttrans_field.
Proof. by split. Qed.

Lemma sttrans_has p st : ready p st →
  ∃ port m, st.(port_heap) !! p = Some port ∧ mach_get sttrans_field port = Some m.
Proof. intros [W [port H]]. eexists _, _. done. Qed.

Definition sttrans_mu (s : STATES) (port : PORT_T) : nat :=
  match s with
  | BEGIN => 4
  | DISCARDING => if port.(forward) then 3 else if port.(learn) then 2 else 1
  | LEARNING => if port.(forward) then 2 else if port.(learn) then 1 else 2
  | FORWARDING => if port.(forward) then 1 else 3
  end.

Lemma ready_put p st port port' :
  ready p st → st.(port_heap) !! p = Some port → pshape port' = pshape port →
  ready p (put_port st p port').
Proof. intros R H E. eapply ready_same; [by eapply put_port_shape|done]. Qed.

(** Reporting to the switch touches nothing else. *)
Lemma send_heap port st :
  (stp_sttrans_sendStpStatetoNpd port st).(port_heap) = st.(port_heap).
Proof. unfold stp_sttrans_sendStpStatetoNpd. by destruct port.(isWAN). Qed.

Lemma send_shape port st : same_shape st (stp_sttrans_sendStpStatetoNpd port st).
Proof. unfold stp_sttrans_sendStpStatetoNpd. by destruct port.(isWAN). Qed.

(** What entering a state does to the port. *)
Definition entered (port : PORT_T) : PORT_T :=
  match port.(sttrans).(State) with
  | BEGIN | DISCARDING => port <| learning := false |> <| forwarding := false |>
  | LEARNING => port <| learning := true |>
  | FORWARDING =>
      port <| tc := negb port.(operEdge) |> <| forwarding := true |> <| synced := false |>
           <| proposing := false |> <| agreed := false |>
  end.

Lemma sttrans_enter_spec p st port :
  st.(port_heap) !! p = Some port →
  wp (MSTP_sttrans_enter_state st p) (fun st' =>
    same_shape st st' ∧ st'.(port_heap) = <[p := entered port]> st.(port_heap)).
Proof.
  intros H. unfold MSTP_sttrans_enter_state, entered.
  rewrite (mach_of_Done sttrans_field _ _ _ port.(sttrans) H eq_refl). simpl.
  assert (Hs : ∀ port', pshape port' = pshape port →
    same_shape st (stp_sttrans_sendStpStatetoNpd port (put_port st p port')) ∧
    (stp_sttrans_sendStpStatetoNpd port (put_port st p port')).(port_heap) =
      <[p := port']> st.(port_heap)).
  { intros port' E. rewrite send_heap. split; [|done].
    etransitivity; [by eapply put_port_shape|apply send_shape]. }
  destruct port.(sttrans).(State); simpl; try case_match; auto;
    (split; [by eapply put_port_shape|done]).
Qed.

Lemma sttrans_turn p st port m :
  ready p st → st.(port_heap) !! p = Some port → mach_get sttrans_field port = Some m →
  wp (MSTP_sttrans_enter_state st p) (fun st1 => ready p st1 ∧ ∃ port1,
    st1.(port_heap) !! p = Some port1 ∧ mach_get sttrans_field port1 = Some m ∧
    ∀ st2, ready p st2 →
      st2.(port_heap) !! p = Some (mach_put sttrans_field (mkMach m.(State) false) port1) →
      (∃ st3, MSTP_sttrans_check_conditions st2 p = Done (st3, false) ∧ ready p st3 ∧
              st3.(port_heap) !! p = st2.(port_heap) !! p) ∨
      ∃ s, MSTP_sttrans_check_conditions st2 p = hop sttrans_field st2 p s ∧
           (sttrans_mu s port1 < sttrans_mu m.(State) port)%nat).
Proof.
  intros R H E. injection E as <-.
  eapply wp_mono; [by apply sttrans_enter_spec|]. intros st1 [E1 H1].
  split; [by eapply ready_same|]. exists (entered port). rewrite H1, lookup_insert_eq.
  split_and!; [done|unfold entered; by destruct port.(sttrans).(State)|].
  intros st2 R2 H2. unfold MSTP_sttrans_check_conditions.
  rewrite (mach_of_Done _ _ _ _ _ H2 (mach_get_put _ _)). unfold entered in *.
  destruct port.(sttrans).(State) eqn:Es; simpl.
  - right. eexists; split; [done|]. simpl. repeat case_match; lia.
  - destruct (learn port) eqn:El.
    + right. rewrite !andb_false_r. eexists; split; [done|]. simpl. rewrite El. case_match; lia.
    + left. eexists; split; [done|]. case_match; [|done]. split.
      * eapply ready_same; [|done]. by destruct port.(isWAN).
      * by destruct port.(isWAN).
  - repeat case_match; simplify_eq/=; bool_facts; first
      [by left; eauto|right; eexists; split; [done|]; simpl; repeat case_match; simplify_eq/=; lia].
  - repeat case_match; simplify_eq/=; bool_facts; first
      [by left; eauto|right; eexists; split; [done|]; simpl; repeat case_match; simplify_eq/=; lia].
Qed.

#[export] Instance sttrans_terminating p :
  Terminating (sttrans_machine p) (ready p) (mu_at sttrans_field sttrans_mu p).
Proof.
  apply (port_machine_terminating_effect sttrans_field);
    [apply sttrans_has| |done|apply sttrans_turn].
  intros. by eapply ready_put.
Qed.
