(* ===== verification/StpPort.v ===== *)
(** * Ports ([stp_port.c])

    Creation, initialisation, look-up and deletion of a port instance, with the
    accesses that leave their blocks: to the names of a port and of its machines,
    and to a port just freed.  The look-up of network interfaces in sysfs is a
    parameter ([wan_if]). *)

From Stdlib Require Import ZArith Lia String.
From stdpp Require Import base gmap list option.
From S2P Require Import Prelude StpTypes StpVector StpTo StpHeap StpStatmch StpMachines.

Definition DEF_PORT_PRIO : Z := 128.
Definition DEF_LINK_DELAY : Z := 3.

(** ** Look-up *)

(** The loop over the chain of MSTI ports. *)
Fixpoint find_in_chain (st : STP_T) (MSTID : Z) (chain : list PORT_REF) : outcome (option PORT_REF) :=
  match chain with
  | [] => Done None
  | q :: chain' =>
      let* port := get_port st q in
      let* stpm := get_stpm st port.(owner) in
      if stpm.(STPM.vlan_id) =? MSTID then Done (Some q)
      else find_in_chain st MSTID chain'
  end.

Definition stp_port_mst_findport (st : STP_T) (MSTID port_index : Z) : outcome (option PORT_REF) :=
  let index := stp_port_global_index_parse st port_index in
  if bad_index index then Done None
  else
    match st.(g_CISTPORT) !! index with
    | None => Done None
    | Some c =>
        if STP_CIST_ID =? MSTID then Done (Some c)
        else
          let* port := get_port st c in
          find_in_chain st MSTID port.(nextMst)
    end.

(** ** Creation *)

Definition zero_vlan_map : VLAN_MAP_T := mkVlanMap (repeat 0 512) 0.
Definition null_br : BRIDGE_ID := mkBridgeId 0 (repeat 0 6).
Definition zero_vector : PRIO_VECTOR_T := mkVector null_br 0 null_br 0 null_br 0 0.
Definition zero_times : TIMEVALUES_T := mkTimes 0 0 0 0 0.

(** A [PORT_T] as [calloc] returns it. *)
Definition calloc_port : PORT_T := {|
  nextMst := []; vlan_map := zero_vlan_map;
  info := mkMach InfoState.BEGIN false;
  roletrns := mkMach RoletrnsState.BEGIN false;
  sttrans := mkMach SttransState.BEGIN false;
  topoch := mkMach TopochState.BEGIN false;
  migrate := None;
  transmit := None;
  p2p := None;
  edge := None;
  pcost := mkMach PcostState.BEGIN false;
  receive := None;
  owner := 0; fdWhile := 0; helloWhen := 0; mdelayWhile := 0; rbWhile := 0;
  rcvdInfoWhile := 0; rrWhile := 0; tcWhile := 0; txCount := 0; lnkWhile := 0;
  agreed := false; designPrio := zero_vector; designTimes := zero_times;
  forward := false; forwarding := false; infoIs := Mine; initPm := false;
  learn := false; learning := false; mcheck := false;
  msgPrio := zero_vector; msgTimes := zero_times; newInfo := false;
  operEdge := false; adminEdge := false; portEnabled := false; port_id := 0;
  portPrio := zero_vector; portTimes := zero_times;
  proposed := false; proposing := false; rcvdBpdu := false;
  rcvdInfo := SuperiorDesignateMsg; rcvdRSTP := false; rcvdSTP := false;
  rcvdTc := false; rcvdTcAck := false; rcvdTcn := false;
  reRoot := false; reselect := false; role := DisabledPort; selected := false;
  selectedRole := DisabledPort; sendRSTP := false; sync := false; synced := false;
  tc := false; tcAck := false; tcProp := false; updtInfo := false; agree := false;
  changedMaster := false; infoInternal := false; mstiMaster := false;
  mstiMastered := false; newInfoCist := false; newInfoMsti := false;
  rcvdInternal := false; rcvdMsg := false; msgBpduVersion := 0; msgBpduType := 0;
  msgPortRole := 0; msgFlags := 0; adminPCost := 0; operPCost := 0; operSpeed := 0;
  usedSpeed := 0; LinkDelay := 0; adminEnable := false; isWAN := false;
  slot_no := 0; port_no := 0; port_ifindex := 0; br_ifindex := 0;
  wasInitBpdu := false; admin_non_stp := false; p2p_recompute := false;
  operPointToPointMac := false; adminPointToPointMac := P2P_FORCE_FALSE_E;
  rx_cfg_bpdu_cnt := 0; rx_rstp_bpdu_cnt := 0; rx_tcn_bpdu_cnt := 0; uptime := 0;
  port_index := 0; vlan_id := 0; skip_rx := 0; skip_tx := 0;
  configDigestSnp := false; digest := repeat 0 16 |}.

(** The machines of a new port: five for every port, five more for one of the
    CIST. *)
Definition add_machines (cist : bool) (st : STP_T) (this : PORT_T) : STP_T * PORT_T :=
  let '(st, m) := stp_statmch_create "topoch" TopochState.BEGIN st in
  let this := this <| topoch := m |> in
  let '(st, m) := stp_statmch_create "pcost" PcostState.BEGIN st in
  let this := this <| pcost := m |> in
  let '(st, m) := stp_statmch_create "info" InfoState.BEGIN st in
  let this := this <| info := m |> in
  let '(st, m) := stp_statmch_create "roletrns" RoletrnsState.BEGIN st in
  let this := this <| roletrns := m |> in
  let '(st, m) := stp_statmch_create "sttrans" SttransState.BEGIN st in
  let this := this <| sttrans := m |> in
  if cist then
    let '(st, m) := stp_statmch_create "p2p" P2pState.BEGIN st in
    let this := this <| p2p := Some m |> in
    let '(st, m) := stp_statmch_create "edge" EdgeState.BEGIN st in
    let this := this <| edge := Some m |> in
    let '(st, m) := stp_statmch_create "migrate" MigrateState.BEGIN st in
    let this := this <| migrate := Some m |> in
    let '(st, m) := stp_statmch_create "transmit" TransmitState.BEGIN st in
    let this := this <| transmit := Some m |> in
    let '(st, m) := stp_statmch_create "receive" ReceiveState.BEGIN st in
    (st, this <| receive := Some m |>)
  else (st, this).

(** Whether a port of the list has this index. *)
Fixpoint has_index (st : STP_T) (l : list PORT_REF) (idx : Z) : outcome bool :=
  match l with
  | [] => Done false
  | q :: l' =>
      let* port := get_port st q in
      if port.(port_index) =? idx then Done true else has_index st l' idx
  end.

(** [stp_to_get_init_port_cfg]: priority, non-stp, edge, path cost, p2p. *)
Definition stp_to_get_init_port_cfg : Z * bool * bool * Z * ADMIN_P2P_T :=
  (DEF_PORT_PRIO, false, true, ADMIN_PORT_PATH_COST_AUTO, P2P_AUTO_E).

Section Create.
(** [wan_if slot port vid]: the bridge index and the interface index sysfs
    gives for the interface, if it is in a bridge. *)
Variable wan_if : Z → Z → Z → option (Z * Z).

(** The [isWan] part: copies the slot and port numbers of the CIST port, and
    tells the kernel bridge to discard first. *)
Definition create_wan (st : STP_T) (this : PORT_T) (port_index VID : Z)
    : outcome (STP_T * PORT_T) :=
  let* found := stp_port_mst_findport st 0 port_index in
  let* '(this, s, n) :=
    match found with
    | Some q =>
        let* port := get_port st q in
        Done (this <| slot_no := port.(slot_no) |> <| port_no := port.(port_no) |>
                   <| isWAN := true |>, port.(slot_no), port.(port_no))
    | None => Done (this, 0, 0)
    end in
  match wan_if s n VID with
  | Some (br, ifi) =>
      let st := access IF_NAME 21 (Z.of_nat (length (wan_ifname s n (Some VID))) + 1) st in
      Done (emit (WAN_STATE br ifi NAM_STP_PORT_STATE_DISCARD_E) st,
            this <| port_ifindex := ifi |> <| br_ifindex := br |>)
  | None => Done (st, this)
  end.

(** [None] is the NULL returned when the instance has the port already.  The
    instance's list gets the new port at its head before the rest runs. *)
Definition stp_port_mst_port_create (st : STP_T) (b MSTID idx : Z) (isWan : bool) (VID : Z)
    : outcome (STP_T * option PORT_REF) :=
  let* stpm := get_stpm st b in
  let* dup := has_index st stpm.(STPM.ports) idx in
  if dup : bool then Done (st, None)
  else
    let ref := (b, idx) in
    let cist := stpm.(STPM.vlan_id) =? STP_CIST_ID in
    let st := put_stpm st b (stpm <| STPM.ports := ref :: stpm.(STPM.ports) |>) in
    let* '(st, this) :=
      if isWan then create_wan st calloc_port idx VID else Done (st, calloc_port) in
    let '(st, name_len) := stp_to_get_port_name idx st in
    let st := access NAME_STRING (name_len + 1) 32 st in
    let '(prio, nonstp, edg, pc, p2) := stp_to_get_init_port_cfg in
    let this := this <| owner := b |> <| vlan_id := MSTID |> <| port_index := idx |>
      <| admin_non_stp := nonstp |> <| adminEdge := edg |> <| adminPCost := pc |>
      <| adminPointToPointMac := p2 |> <| LinkDelay := DEF_LINK_DELAY |>
      <| port_id := u16 (Z.shiftl prio 8 + idx) |> in
    let this :=
      if PORT_INDEX_MAX <? idx then this <| port_id := Z.land this.(port_id) 0xfeff |>
      else this in
    let* this :=
      if negb (MSTID =? STP_CIST_ID) then
        let* found := stp_port_mst_findport st STP_CIST_ID idx in
        match found with
        | Some q =>
            let* cist_port := get_port st q in
            Done (this <| operEdge := cist_port.(operEdge) |>
                       <| portEnabled := cist_port.(portEnabled) |>
                       <| operPointToPointMac := cist_port.(operPointToPointMac) |>)
        | None => Done this
        end
      else Done this in
    let '(st, this) := add_machines cist st this in
    Done (put_port st ref this, Some ref).
End Create.

(** ** Initialisation and deletion *)

Definition stp_to_get_port_link_status (st : STP_T) (idx : Z) : outcome bool :=
  let* v := stp_bitmap_get_bit st st.(enabled_ports) idx in
  Done (negb (v =? 0)).

Definition stp_port_init (st : STP_T) (p : PORT_REF) (b : Z) (check_link : bool) : outcome STP_T :=
  let* this := get_port st p in
  let* this :=
    if check_link then
      let* up := stp_to_get_port_link_status st this.(port_index) in
      let* stpm := get_stpm st b in
      let this := this <| adminEnable := up |> in
      Done (this
        <| designPrio := stp_vector_create stpm.(STPM.BrId) 0 null_br 0 stpm.(STPM.BrId)
             this.(port_id) this.(port_id) |>
        <| designTimes := stp_times_copy stpm.(STPM.rootTimes) |>)
    else Done this in
  let this := this <| fdWhile := 0 |> <| helloWhen := 0 |> <| mdelayWhile := 0 |>
    <| rbWhile := 0 |> <| rcvdInfoWhile := 0 |> <| rrWhile := 0 |> <| tcWhile := 0 |>
    <| txCount := 0 |> <| msgPortRole := RSTP_PORT_ROLE_UNKN |>
    <| selectedRole := DisabledPort |> <| sendRSTP := true |> in
  let* speed := stp_to_get_port_oper_speed st this in
  Done (put_port st p (this <| operSpeed := speed |> <| p2p_recompute := true |>)).

(** The list without its first port of this index; [None] when there is none. *)
Fixpoint unlink_index (st : STP_T) (l : list PORT_REF) (idx : Z)
    : outcome (option (list PORT_REF)) :=
  match l with
  | [] => Done None
  | q :: l' =>
      let* port := get_port st q in
      if port.(port_index) =? idx then Done (Some l')
      else
        let* rest := unlink_index st l' idx in
        Done ((fun r => q :: r) <$> rest)
  end.

(** Unlinks the port, tells the switch to disable it, and frees it. *)
Definition stp_port_delete (st : STP_T) (p : PORT_REF) : outcome STP_T :=
  let* this := get_port st p in
  let* stpm := get_stpm st this.(owner) in
  let* rest := unlink_index st stpm.(STPM.ports) this.(port_index) in
  match rest with
  | Some l =>
      let st := put_stpm st this.(owner) (stpm <| STPM.ports := l |>) in
      let st := emit (NPD_STP_INFO this.(vlan_id) 0 this.(port_index)
                        NAM_STP_PORT_STATE_DISABLE_E) st in
      Done (st <| port_heap := delete p st.(port_heap) |>)
  | None => Done st
  end.

(** ** Facts *)

Lemma findport_cist st q port :
  wf st → st.(port_heap) !! q = Some port →
  ∃ c cport, stp_port_mst_findport st STP_CIST_ID q.2 = Done (Some c) ∧
    c.1 = STP_CIST_ID ∧ st.(port_heap) !! c = Some cport.
Proof.
  intros W H. destruct (wf_cist_port _ _ _ W H) as (Hi & c & cport & Hc & H1 & H2).
  exists c, cport. unfold stp_port_mst_findport. rewrite Hi, Hc. done.
Qed.

Lemma find_in_chain_spec st b chain :
  wf st → (∀ q, q ∈ chain → is_Some (st.(port_heap) !! q)) →
  wp (find_in_chain st b chain) (fun r =>
    match r with
    | Some q => q ∈ chain ∧ q.1 = b
    | None => ∀ q, q ∈ chain → q.1 ≠ b
    end).
Proof.
  intros W. induction chain as [|q chain IH]; intros Hex; simpl.
  - intros q Hq. by apply not_elem_of_nil in Hq.
  - destruct (Hex q ltac:(left)) as [port H]. rewrite (get_port_Some _ _ _ H). simpl.
    destruct (wf_port_owner _ _ _ W H) as (Ho & _ & stpm & Hs). rewrite Ho.
    rewrite (get_stpm_Some _ _ _ Hs). simpl. rewrite (wf_stpm_vlan _ _ _ W Hs).
    destruct (Z.eqb_spec q.1 b); simpl; [by split; [left|]|].
    eapply wp_mono; [apply IH; intros; apply Hex; by right|].
    intros [r|]; simpl; [intros [? ?]; by split; [right|]|].
    intros Hn r [->|Hr]%elem_of_cons; auto.
Qed.

(** Look-up always returns, and the port it returns exists and belongs to the
    instance asked for. *)
Lemma findport_spec st b idx :
  wf st → wp (stp_port_mst_findport st b idx) (fun r =>
    ∀ q, r = Some q → q.1 = b ∧ is_Some (st.(port_heap) !! q)).
Proof.
  intros W. unfold stp_port_mst_findport. destruct (bad_index _); [done|].
  destruct (st.(g_CISTPORT) !! _) as [c|] eqn:Ec; [|done].
  destruct (wf_cistport _ W _ _ Ec) as [Hc Hex]. apply shape_port_is_Some in Hex as [port H].
  destruct (Z.eqb_spec STP_CIST_ID b) as [<-|Hb]; simpl.
  - intros q [= <-]. eauto.
  - rewrite (get_port_Some _ _ _ H). simpl.
    eapply wp_mono; [apply find_in_chain_spec; [done|]|].
    + intros q Hq. by destruct (wf_nextMst _ _ _ _ W H Hq) as (_ & ?).
    + intros [r|] Hr q [= <-]. destruct Hr as [Hin <-]. split; [done|].
      by destruct (wf_nextMst _ _ _ _ W H Hin) as (_ & ?).
Qed.
