(* ===== verification/StpRoletrns.v ===== *)
(** * Port role transitions machine ([stp_roletrns.c]) *)

From Stdlib Require Import ZArith Lia.
From stdpp Require Import base gmap list option.
From S2P Require Import Prelude StpTypes StpHeap StpStatmch StpPort.
Import RoletrnsState.

Definition roletrns_field : MACH_FIELD STATES :=
  mkField (fun port => Some port.(roletrns)) (fun m port => port <| roletrns := m |>).

#[export] Instance roletrns_STATES_eq_dec : EqDecision STATES.
Proof. solve_decision. Defined.

(** [port->owner->ports]. *)
Definition owner_ports (st : STP_T) (port : PORT_T) : outcome (list PORT_REF) :=
  let* stpm := get_stpm st port.(owner) in Done stpm.(STPM.ports).

Definition stp_roletrns_setSyncTree (st : STP_T) (port : PORT_T) : outcome STP_T :=
  let* l := owner_ports st port in
  upd_ports l (fun q => q <| sync := true |>) st.

Definition stp_roletrns_setReRootTree (st : STP_T) (port : PORT_T) : outcome STP_T :=
  let* l := owner_ports st port in
  upd_ports l (fun q => q <| reRoot := true |>) st.

(** [ok] holds of every port of the list, [this] and the ports out of the
    protocol excepted. *)
Fixpoint all_others (st : STP_T) (this : PORT_T) (ok : PORT_T → bool) (l : list PORT_REF)
    : outcome bool :=
  match l with
  | [] => Done true
  | q :: l' =>
      let* port := get_port st q in
      if (port.(port_index) =? this.(port_index)) || port.(admin_non_stp) then
        all_others st this ok l'
      else if negb (ok port) then Done false
      else all_others st this ok l'
  end.

Definition stp_roletrns_compute_all_synced (st : STP_T) (this : PORT_T) : outcome bool :=
  let* l := owner_ports st this in all_others st this (fun q => q.(synced)) l.

Definition stp_roletrns_compute_re_rooted (st : STP_T) (this : PORT_T) : outcome bool :=
  let* l := owner_ports st this in all_others st this (fun q => q.(rrWhile) =? 0) l.

Definition stp_roletrns_setnewinfoCist (p : PORT_REF) (st : STP_T) : outcome STP_T :=
  upd_port p (fun this => this <| newInfoCist := true |>) st.

Definition stp_roletrns_setnewinfoMsti (p : PORT_REF) (st : STP_T) : outcome STP_T :=
  let* this := get_port st p in
  let* cistport := stp_port_mst_findport st STP_CIST_ID this.(port_index) in
  match cistport with
  | Some c => upd_port c (fun q => q <| newInfoMsti := true |>) st
  | None => Done st
  end.

Definition stp_roletrns_setnewinfoXst (p : PORT_REF) (st : STP_T) : outcome STP_T :=
  let* this := get_port st p in
  if this.(vlan_id) =? STP_CIST_ID then stp_roletrns_setnewinfoCist p st
  else stp_roletrns_setnewinfoMsti p st.

(** [stp_stpm_get_the_cist]. *)
Definition stp_stpm_get_the_cist (st : STP_T) : outcome (option STPM_T) :=
  match st.(g_CISTBRIDGE) with
  | Some b => let* stpm := get_stpm st b in Done (Some stpm)
  | None => Done None
  end.

Definition MSTP_roletrns_enter_state (st : STP_T) (p : PORT_REF) : outcome STP_T :=
  let* '(port, this) := mach_of roletrns_field st p in
  let* cist := stp_stpm_get_the_cist st in
  match cist with
  | None => Done st
  | Some stpm =>
      let rootFD := stpm.(STPM.rootTimes).(ForwardDelay) in
      match this.(State) with
      | BEGIN | INIT_PORT =>
          Done (put_port st p
            (port <| selectedRole := DisabledPort |> <| role := DisabledPort |>
                  <| reselect := true |> <| synced := false |> <| sync := true |>
                  <| reRoot := true |> <| rrWhile := rootFD |> <| fdWhile := rootFD |>
                  <| rbWhile := 0 |>))
      | BLOCK_PORT =>
          Done (put_port st p
            (port <| role := port.(selectedRole) |> <| forward := false |>
                  <| learn := false |>))
      | BLOCKED_PORT =>
          Done (put_port st p
            (port <| fdWhile := rootFD |> <| synced := true |> <| rrWhile := 0 |>
                  <| reRoot := false |> <| sync := false |>))
      | BACKUP_PORT =>
          Done (put_port st p (port <| rbWhile := 2 * stpm.(STPM.rootTimes).(HelloTime) |>))
      | PROPOSED =>
          let* st := stp_roletrns_setSyncTree st port in
          upd_port p (fun port => port <| proposed := false |>) st
      | PROPOSING =>
          stp_roletrns_setnewinfoXst p (put_port st p (port <| proposing := true |>))
      | AGREES =>
          stp_roletrns_setnewinfoXst p
            (put_port st p (port <| proposed := false |> <| agree := true |>))
      | SYNCED =>
          let port := if port.(role) <>e RootPort then port <| rrWhile := 0 |> else port in
          Done (put_port st p (port <| synced := true |> <| sync := false |>))
      | REROOT => stp_roletrns_setReRootTree st port
      | FORWARD => Done (put_port st p (port <| fdWhile := 0 |> <| forward := true |>))
      | LISTEN =>
          Done (put_port st p
            (port <| forward := false |> <| learn := false |> <| fdWhile := rootFD |>))
      | LEARN => Done (put_port st p (port <| learn := true |> <| fdWhile := rootFD |>))
      | REROOTED => Done (put_port st p (port <| reRoot := false |>))
      | ROOT => Done (put_port st p (port <| rrWhile := rootFD |>))
      | NON_STP => Done (put_port st p (port <| role := NonStpPort |>))
      | ACTIVE_PORT => Done (put_port st p (port <| role := port.(selectedRole) |>))
      end
  end.

(** The condition under which a port may learn or forward now, shared by the
    transitions to [FORWARD] and [LEARN]. *)
Definition may_progress (st : STP_T) (port : PORT_T) (allSynced : bool) : outcome bool :=
  let* reRooted := stp_roletrns_compute_re_rooted st port in
  let* own := get_stpm st port.(owner) in
  Done ((port.(fdWhile) =? 0) ||
        ((port.(role) =e RootPort) && (reRooted && (port.(rbWhile) =? 0)) &&
         (2 <=? own.(STPM.ForceVersion))) ||
        ((port.(role) =e DesignatedPort) && (port.(agreed) || port.(operEdge)) &&
         ((port.(rrWhile) =? 0) || negb port.(reRoot)) && negb port.(sync)) ||
        ((port.(role) =e MasterPort) && allSynced)).

(** The case [ACTIVE_PORT] of the switch. *)
Definition active_port_conditions (st : STP_T) (p : PORT_REF) (port : PORT_T) (rootFD : Z)
    : outcome (STP_T * bool) :=
  if negb port.(selected) || port.(updtInfo) then Done (st, false)
  else if (negb port.(learning) && negb port.(forwarding) && negb port.(synced) &&
           (port.(role) <>e RootPort)) || (port.(agreed) && negb port.(synced)) ||
          (port.(operEdge) && negb port.(synced)) || (port.(sync) && port.(synced)) then
    hop roletrns_field st p SYNCED
  else
    let* allSynced := stp_roletrns_compute_all_synced st port in
    if allSynced && (port.(proposed) || negb port.(agree)) then hop roletrns_field st p AGREES
    else if negb port.(forward) && negb port.(agreed) && negb port.(proposing) &&
            negb port.(operEdge) && (port.(role) =e DesignatedPort) then
      hop roletrns_field st p PROPOSING
    else if port.(proposed) && negb port.(agree) then hop roletrns_field st p PROPOSED
    else
      let* ok := may_progress st port allSynced in
      if port.(learn) && negb port.(forward) && ok then hop roletrns_field st p FORWARD
      else if negb (port.(rrWhile) =? rootFD) && (port.(role) =e RootPort) then
        hop roletrns_field st p ROOT
      else if negb port.(forward) && negb port.(reRoot) && (port.(role) =e RootPort) then
        hop roletrns_field st p REROOT
      else if port.(reRoot) &&
              (((port.(role) =e RootPort) && port.(forward)) || (port.(rrWhile) =? 0)) then
        hop roletrns_field st p REROOTED
      else if negb port.(learn) && ok then hop roletrns_field st p LEARN
      else if (port.(learn) || port.(forward)) && negb port.(operEdge) &&
              ((port.(role) <>e RootPort) && (port.(role) <>e MasterPort)) &&
              ((port.(sync) && negb port.(synced)) ||
               (port.(reRoot) && negb (port.(rrWhile) =? 0))) then
        hop roletrns_field st p LISTEN
      else Done (st, false).

Definition MSTP_roletrns_check_conditions (st : STP_T) (p : PORT_REF) : outcome (STP_T * bool) :=
  let* '(port, this) := mach_of roletrns_field st p in
  let* cist := stp_stpm_get_the_cist st in
  match cist with
  | None => Done (st, false)
  | Some stpm =>
      let rootFD := stpm.(STPM.rootTimes).(ForwardDelay) in
      match this.(State) with
      | BEGIN => hop roletrns_field st p INIT_PORT
      | s =>
          if (port.(role) <>e port.(selectedRole)) && port.(selected) &&
             negb port.(updtInfo) then
            match port.(selectedRole) with
            | DisabledPort | AlternatePort | BackupPort => hop roletrns_field st p BLOCK_PORT
            | RootPort | DesignatedPort | MasterPort => hop roletrns_field st p ACTIVE_PORT
            | NonStpPort => hop roletrns_field st p NON_STP
            end
          else
            match s with
            | INIT_PORT => hop roletrns_field st p BLOCK_PORT
            | BLOCK_PORT =>
                if negb port.(selected) || port.(updtInfo) then Done (st, false)
                else if negb port.(learning) && negb port.(forwarding) then
                  hop roletrns_field st p BLOCKED_PORT
                else Done (st, false)
            | BLOCKED_PORT =>
                if negb port.(selected) || port.(updtInfo) then Done (st, false)
                else if negb (port.(fdWhile) =? rootFD) || port.(sync) || port.(reRoot) ||
                        negb port.(synced) then
                  hop roletrns_field st p BLOCKED_PORT
                else if negb (port.(rbWhile) =? 2 * stpm.(STPM.rootTimes).(HelloTime)) &&
                        (port.(role) =e BackupPort) then
                  hop roletrns_field st p BACKUP_PORT
                else Done (st, false)
            | BACKUP_PORT => hop roletrns_field st p BLOCKED_PORT
            | PROPOSED | PROPOSING | AGREES | SYNCED | REROOT | FORWARD | LISTEN | LEARN
            | REROOTED | ROOT => hop roletrns_field st p ACTIVE_PORT
            | ACTIVE_PORT => active_port_conditions st p port rootFD
            | NON_STP | BEGIN => Done (st, false)
            end
      end
  end.

Definition roletrns_machine (p : PORT_REF) : MACHINE STP_T :=
  port_machine roletrns_field MSTP_roletrns_enter_state MSTP_roletrns_check_conditions p.

(** ** The machine as a step relation *)

(** The state a newly selected role leads to. *)
Definition role_state (r : PORT_ROLE_T) : STATES :=
  match r with
  | DisabledPort | AlternatePort | BackupPort => BLOCK_PORT
  | RootPort | DesignatedPort | MasterPort => ACTIVE_PORT
  | NonStpPort => NON_STP
  end.

Definition idle (port : PORT_T) : bool := negb port.(selected) || port.(updtInfo).

(** What may let a port learn or forward without waiting for [fdWhile]: roots
    and masters, and designated ports that are agreed or edge ports and neither
    retiring nor synchronising. *)
Definition fast (port : PORT_T) : bool :=
  (port.(role) =e RootPort) || (port.(role) =e MasterPort) ||
  ((port.(role) =e DesignatedPort) && (port.(agreed) || port.(operEdge)) &&
   ((port.(rrWhile) =? 0) || negb port.(reRoot)) && negb port.(sync)).

(** [rt_step FD HT2 port s s']: with root times [FD] and twice [HelloTime]
    [HT2], the conditions may lead port [port] from [s] to [s']. *)
Inductive rt_step (FD HT2 : Z) (port : PORT_T) : STATES → STATES → Prop :=
| rt_begin : rt_step FD HT2 port BEGIN INIT_PORT
| rt_role s : s ≠ BEGIN → port.(role) ≠ port.(selectedRole) → idle port = false →
    rt_step FD HT2 port s (role_state port.(selectedRole))
| rt_init : rt_step FD HT2 port INIT_PORT BLOCK_PORT
| rt_blocked : idle port = false → port.(learning) = false → port.(forwarding) = false →
    rt_step FD HT2 port BLOCK_PORT BLOCKED_PORT
| rt_again : idle port = false →
    (port.(fdWhile) ≠ FD ∨ port.(sync) = true ∨ port.(reRoot) = true ∨ port.(synced) = false) →
    rt_step FD HT2 port BLOCKED_PORT BLOCKED_PORT
| rt_backup : idle port = false → port.(rbWhile) ≠ HT2 → port.(role) = BackupPort →
    rt_step FD HT2 port BLOCKED_PORT BACKUP_PORT
| rt_backed : rt_step FD HT2 port BACKUP_PORT BLOCKED_PORT
| rt_return s :
    (match s with
     | PROPOSED | PROPOSING | AGREES | SYNCED | REROOT | FORWARD | LISTEN | LEARN
     | REROOTED | ROOT => True
     | _ => False
     end) →
    (idle port = true ∨ port.(role) = port.(selectedRole)) →
    rt_step FD HT2 port s ACTIVE_PORT
| rt_synced : idle port = false → (port.(synced) = false ∨ port.(sync) = true) →
    rt_step FD HT2 port ACTIVE_PORT SYNCED
| rt_agrees : idle port = false → (port.(proposed) = true ∨ port.(agree) = false) →
    rt_step FD HT2 port ACTIVE_PORT AGREES
| rt_proposing : idle port = false → port.(proposing) = false → port.(forward) = false →
    port.(role) = DesignatedPort → rt_step FD HT2 port ACTIVE_PORT PROPOSING
| rt_proposed : idle port = false → port.(proposed) = true →
    rt_step FD HT2 port ACTIVE_PORT PROPOSED
| rt_forward : idle port = false → port.(learn) = true → port.(forward) = false →
    (port.(fdWhile) = 0 ∨ fast port = true) → rt_step FD HT2 port ACTIVE_PORT FORWARD
| rt_root : idle port = false → port.(rrWhile) ≠ FD → port.(role) = RootPort →
    rt_step FD HT2 port ACTIVE_PORT ROOT
| rt_reroot : idle port = false → port.(forward) = false → port.(reRoot) = false →
    port.(role) = RootPort → rt_step FD HT2 port ACTIVE_PORT REROOT
| rt_rerooted : idle port = false → port.(reRoot) = true →
    (port.(role) = RootPort → port.(rrWhile) = FD) →
    (port.(role) = RootPort ∧ port.(forward) = true ∨ port.(rrWhile) = 0) →
    rt_step FD HT2 port ACTIVE_PORT REROOTED
| rt_learn : idle port = false → port.(learn) = false →
    (port.(fdWhile) = 0 ∨ fast port = true) → rt_step FD HT2 port ACTIVE_PORT LEARN
| rt_listen : idle port = false → (port.(learn) = true ∨ port.(forward) = true) →
    port.(operEdge) = false → port.(role) ≠ RootPort → port.(role) ≠ MasterPort →
    (port.(sync) = true ∧ port.(synced) = false ∨ port.(reRoot) = true ∧ port.(rrWhile) ≠ 0) →
    rt_step FD HT2 port ACTIVE_PORT LISTEN.

(** The effect of entering a state on the port itself. *)
Definition rt_own (FD HT2 : Z) (s : STATES) (port : PORT_T) : PORT_T :=
  match s with
  | BEGIN | INIT_PORT =>
      port <| selectedRole := DisabledPort |> <| role := DisabledPort |>
           <| reselect := true |> <| synced := false |> <| sync := true |>
           <| reRoot := true |> <| rrWhile := FD |> <| fdWhile := FD |> <| rbWhile := 0 |>
  | BLOCK_PORT =>
      port <| role := port.(selectedRole) |> <| forward := false |> <| learn := false |>
  | BLOCKED_PORT =>
      port <| fdWhile := FD |> <| synced := true |> <| rrWhile := 0 |>
           <| reRoot := false |> <| sync := false |>
  | BACKUP_PORT => port <| rbWhile := HT2 |>
  | PROPOSED => port <| sync := true |> <| proposed := false |>
  | PROPOSING => port <| proposing := true |>
  | AGREES => port <| proposed := false |> <| agree := true |>
  | SYNCED =>
      (if port.(role) <>e RootPort then port <| rrWhile := 0 |> else port)
        <| synced := true |> <| sync := false |>
  | REROOT => port <| reRoot := true |>
  | FORWARD => port <| fdWhile := 0 |> <| forward := true |>
  | LISTEN => port <| forward := false |> <| learn := false |> <| fdWhile := FD |>
  | LEARN => port <| learn := true |> <| fdWhile := FD |>
  | REROOTED => port <| reRoot := false |>
  | ROOT => port <| rrWhile := FD |>
  | NON_STP => port <| role := NonStpPort |>
  | ACTIVE_PORT => port <| role := port.(selectedRole) |>
  end.

(** ** The code implements the step relation *)

#[export] Instance roletrns_field_laws : FieldLaws roletrns_field.
Proof. by split. Qed.

(** The CIST exists and its root times are [FD] and [HT]. *)
Definition cist_times (FD HT : Z) (st : STP_T) : Prop :=
  ∃ b stpm, st.(g_CISTBRIDGE) = Some b ∧ st.(stpm_heap) !! b = Some stpm ∧
    stpm.(STPM.rootTimes).(ForwardDelay) = FD ∧ stpm.(STPM.rootTimes).(HelloTime) = HT.

Definition rt_ready (FD HT : Z) (p : PORT_REF) (st : STP_T) : Prop :=
  ready p st ∧ cist_times FD HT st.

(** [st'] has the instances of [st]. *)
Definition same_stpms (st st' : STP_T) : Prop :=
  st'.(stpm_heap) = st.(stpm_heap) ∧ st'.(g_CISTBRIDGE) = st.(g_CISTBRIDGE).

Lemma rt_ready_same FD HT p st st' :
  same_shape st st' → same_stpms st st' → rt_ready FD HT p st → rt_ready FD HT p st'.
Proof.
  intros E [E1 E2] [R (b & stpm & ? & ? & ?)]. split; [by eapply ready_same|].
  exists b, stpm. by rewrite E1, E2.
Qed.

Lemma the_cist st FD HT :
  cist_times FD HT st → ∃ stpm, stp_stpm_get_the_cist st = Done (Some stpm) ∧
    stpm.(STPM.rootTimes).(ForwardDelay) = FD ∧ stpm.(STPM.rootTimes).(HelloTime) = HT.
Proof.
  intros (b & stpm & Hb & Hs & ? & ?). exists stpm. unfold stp_stpm_get_the_cist.
  rewrite Hb, (get_stpm_Some _ _ _ Hs). done.
Qed.

Lemma owner_ports_Done st p port :
  wf st → st.(port_heap) !! p = Some port →
  ∃ l, owner_ports st port = Done l ∧ p ∈ l ∧ NoDup l ∧
    ∀ q, q ∈ l → is_Some (st.(port_heap) !! q).
Proof.
  intros W H. destruct (wf_port_member _ _ _ W H) as (Ho & _ & stpm & Hs & Hin).
  exists stpm.(STPM.ports). unfold owner_ports. rewrite Ho, (get_stpm_Some _ _ _ Hs).
  split_and!; [done..|by eapply wf_list_nodup|].
  intros q Hq. by destruct (wf_on_list _ _ _ _ W Hs Hq) as [_ ?].
Qed.

(** [newinfo x y port]: [port] with its two transmission requests changed. *)
Definition newinfo (x y : bool) (port : PORT_T) : PORT_T :=
  port <| newInfoCist := x |> <| newInfoMsti := y |>.

Lemma setnewinfo_spec p st port :
  ready p st → st.(port_heap) !! p = Some port →
  wp (stp_roletrns_setnewinfoXst p st) (fun st' => same_shape st st' ∧ same_stpms st st' ∧
    (∃ x y, st'.(port_heap) !! p = Some (newinfo x y port)) ∧
    ∀ q, q.1 ≠ STP_CIST_ID → q ≠ p → st'.(port_heap) !! q = st.(port_heap) !! q).
Proof.
  intros [W _] H. unfold stp_roletrns_setnewinfoXst. rewrite (get_port_Some _ _ _ H). simpl.
  assert (Hupd : ∀ c cport x y, c = p ∨ c.1 = STP_CIST_ID → st.(port_heap) !! c = Some cport →
    let st' := put_port st c (cport <| newInfoCist := x |> <| newInfoMsti := y |>) in
    same_shape st st' ∧ same_stpms st st' ∧
    (∃ x y, st'.(port_heap) !! p = Some (newinfo x y port)) ∧
    ∀ q, q.1 ≠ STP_CIST_ID → q ≠ p → st'.(port_heap) !! q = st.(port_heap) !! q).
  { intros c cport x y Hc Hcp st'. subst st'. split; [by eapply put_port_shape|]. split; [done|]. split.
    - destruct (decide (c = p)) as [->|Hne].
      + simplify_eq. rewrite put_port_lookup. by exists x, y.
      + unfold put_port; simpl. rewrite lookup_insert_ne by done.
        by exists port.(newInfoCist), port.(newInfoMsti).
    - intros q Hq Hqp. unfold put_port; simpl. rewrite lookup_insert_ne; [done|].
      intros ->. by destruct Hc. }
  destruct (_ =? _).
  - unfold stp_roletrns_setnewinfoCist, upd_port. rewrite (get_port_Some _ _ _ H). simpl.
    apply (Hupd p port true port.(newInfoMsti)); auto.
  - unfold stp_roletrns_setnewinfoMsti. rewrite (get_port_Some _ _ _ H). simpl.
    destruct (wf_port_owner _ _ _ W H) as (_ & -> & _).
    destruct (findport_cist _ _ _ W H) as (c & cport & -> & Hc & Hcp). simpl.
    unfold upd_port. rewrite (get_port_Some _ _ _ Hcp). simpl.
    apply (Hupd c cport cport.(newInfoCist) true); auto.
Qed.

Lemma rt_put FD HT p st port port' :
  rt_ready FD HT p st → st.(port_heap) !! p = Some port → pshape port' = pshape port →
  rt_ready FD HT p (put_port st p port').
Proof. intros R H E. eapply rt_ready_same; [by eapply put_port_shape|done|done]. Qed.

(** The loop over the ports of the instance, then an assignment to [p]. *)
Lemma tree_spec FD HT p st port f :
  rt_ready FD HT p st → st.(port_heap) !! p = Some port → (∀ q, pshape (f q) = pshape q) →
  wp (let* l := owner_ports st port in upd_ports l f st) (fun st1 =>
    rt_ready FD HT p st1 ∧ st1.(port_heap) !! p = Some (f port)).
Proof.
  intros R H Hf. destruct (owner_ports_Done st p port) as (l & -> & Hin & Hn & Hl);
    [apply R|done|]. simpl. rewrite upd_ports_map by done. simpl. split.
  - eapply rt_ready_same; [by apply map_ports_shape|done|done].
  - by rewrite map_ports_in, H.
Qed.

Lemma rt_enter_spec FD HT p st port :
  rt_ready FD HT p st → st.(port_heap) !! p = Some port →
  wp (MSTP_roletrns_enter_state st p) (fun st1 => rt_ready FD HT p st1 ∧ ∃ x y,
    st1.(port_heap) !! p =
      Some (newinfo x y (rt_own FD (2 * HT) port.(roletrns).(State) port))).
Proof.
  intros R H. unfold MSTP_roletrns_enter_state.
  rewrite (mach_of_Done roletrns_field _ _ _ port.(roletrns) H eq_refl). cbn [obind].
  destruct (the_cist st FD HT (proj2 R)) as (stpm & -> & EF & EH). cbn [obind]. rewrite EF, EH.
  assert (Hput : ∀ port', pshape port' = pshape port →
    wp (Done (put_port st p port')) (fun st1 => rt_ready FD HT p st1 ∧ ∃ x y,
      st1.(port_heap) !! p = Some (newinfo x y port'))).
  { intros port' E. split; [by eapply rt_put|].
    exists port'.(newInfoCist), port'.(newInfoMsti). by rewrite put_port_lookup. }
  assert (Hxst : ∀ port', pshape port' = pshape port →
    wp (stp_roletrns_setnewinfoXst p (put_port st p port')) (fun st1 =>
      rt_ready FD HT p st1 ∧ ∃ x y, st1.(port_heap) !! p = Some (newinfo x y port'))).
  { intros port' E. assert (R' : rt_ready FD HT p (put_port st p port')) by (by eapply rt_put).
    eapply wp_mono; [apply setnewinfo_spec; [apply R'|apply put_port_lookup]|].
    intros st1 (E1 & E2 & Hxy & _). split; [by eapply rt_ready_same|done]. }
  destruct port.(roletrns).(State); cbn [rt_own];
    try (apply Hput; done); try (apply Hxst; done).
  - apply wp_bind. eapply wp_mono; [by apply (tree_spec FD HT p st port)|].
    intros st1 [R1 H1]. unfold upd_port. rewrite (get_port_Some _ _ _ H1). simpl.
    split; [by eapply rt_put|]. exists port.(newInfoCist), port.(newInfoMsti).
    apply put_port_lookup.
  - apply Hput. by destruct (port.(role) <>e RootPort).
  - eapply wp_mono; [by apply (tree_spec FD HT p st port)|].
    intros st1 [R1 H1]. split; [done|]. by exists port.(newInfoCist), port.(newInfoMsti).
Qed.

Lemma all_others_total st this ok l :
  (∀ q, q ∈ l → is_Some (st.(port_heap) !! q)) → ∃ b, all_others st this ok l = Done b.
Proof.
  induction l as [|q l IH]; intros Hl; simpl; [eauto|].
  destruct (Hl q ltac:(left)) as [port H]. rewrite (get_port_Some _ _ _ H). simpl.
  destruct IH as [b Hb]; [intros; apply Hl; by right|].
  repeat case_match; eauto.
Qed.

Lemma all_synced_total st p port :
  wf st → st.(port_heap) !! p = Some port →
  ∃ b, stp_roletrns_compute_all_synced st port = Done b.
Proof.
  intros W H. destruct (owner_ports_Done st p port) as (l & E & _ & _ & Hl); [done..|].
  unfold stp_roletrns_compute_all_synced. rewrite E. simpl. by apply all_others_total.
Qed.

Lemma may_progress_total st p port a :
  wf st → st.(port_heap) !! p = Some port →
  ∃ b, may_progress st port a = Done b ∧ (b = true → port.(fdWhile) = 0 ∨ fast port = true).
Proof.
  intros W H. unfold may_progress, stp_roletrns_compute_re_rooted.
  destruct (owner_ports_Done st p port) as (l & -> & _ & _ & Hl); [done..|]. simpl.
  destruct (all_others_total st port (fun q => q.(rrWhile) =? 0) l Hl) as [b ->]. simpl.
  destruct (wf_port_owner _ _ _ W H) as (Ho & _ & stpm & Hs).
  rewrite Ho, (get_stpm_Some _ _ _ Hs). simpl. eexists; split; [done|]. unfold fast.
  destruct (Z.eqb_spec port.(fdWhile) 0); [by left|]. simpl. right.
  destruct (port.(role) =e RootPort); [done|]. destruct (port.(role) =e MasterPort); [done|].
  simpl in *. by rewrite orb_false_r in *.
Qed.

(** A disjunct of the conclusions below. *)
Definition stays_or_steps (FD HT : Z) (st : STP_T) (p : PORT_REF) (port : PORT_T)
    (r : outcome (STP_T * bool)) : Prop :=
  r = Done (st, false) ∨
  ∃ s, r = hop roletrns_field st p s ∧ rt_step FD (2 * HT) port port.(roletrns).(State) s.

Lemma active_spec FD HT p st port :
  wf st → st.(port_heap) !! p = Some port → port.(roletrns).(State) = ACTIVE_PORT →
  stays_or_steps FD HT st p port (active_port_conditions st p port FD).
Proof.
  intros W H Es. unfold active_port_conditions, stays_or_steps. fold (idle port).
  destruct (idle port) eqn:Ei; [by left|]. rewrite Es.
  destruct (all_synced_total st p port W H) as [a Ea].
  destruct (may_progress_total st p port a W H) as (ok & Eok & Hok).
  case_match eqn:C; [right; eexists; split; [done|]; apply rt_synced; [done|]|].
  { destruct port.(synced), port.(sync); simpl in *; rewrite ?andb_false_r in C; auto. }
  rewrite Ea. cbn [obind].
  case_match eqn:C1; [right; eexists; split; [done|]; apply rt_agrees; [done|]|].
  { destruct port.(proposed), port.(agree), a; simpl in *; auto. }
  case_match eqn:C2; [right; eexists; split; [done|]; bool_facts; apply rt_proposing; try done|].
  case_match eqn:C3; [right; eexists; split; [done|]; bool_facts; by apply rt_proposed|].
  rewrite Eok. cbn [obind].
  case_match eqn:C4; [right; eexists; split; [done|]; bool_facts; apply rt_forward; auto|].
  case_match eqn:C5; [right; eexists; split; [done|]; bool_facts; apply rt_root; try done|].
  case_match eqn:C6; [right; eexists; split; [done|]; bool_facts; apply rt_reroot; try done|].
  case_match eqn:C7; [right; eexists; split; [done|]; bool_facts; apply rt_rerooted; try done|].
  { intros Er. rewrite Er, bool_decide_true, andb_true_r in C5 by done. by bool_facts. }
  { apply orb_true_iff in H1 as [?|?]; bool_facts; [left|by right].
    done. }
  case_match eqn:C8; [right; eexists; split; [done|]; bool_facts; apply rt_learn; auto|].
  case_match eqn:C9; [|by left]. right; eexists; split; [done|]. bool_facts.
  apply rt_listen; try done.
  - by apply orb_true_iff.
  - apply orb_true_iff in H1 as [?|?]; bool_facts; auto.
Qed.

Lemma rt_check_spec FD HT p st port :
  rt_ready FD HT p st → st.(port_heap) !! p = Some port →
  stays_or_steps FD HT st p port (MSTP_roletrns_check_conditions st p).
Proof.
  intros R H. unfold MSTP_roletrns_check_conditions.
  rewrite (mach_of_Done roletrns_field _ _ _ port.(roletrns) H eq_refl). cbn [obind].
  destruct (the_cist st FD HT (proj2 R)) as (stpm & -> & EF & EH). cbn [obind]. rewrite EF, EH.
  destruct (decide (port.(roletrns).(State) = BEGIN)) as [Eb|Nb];
    [rewrite Eb; right; eexists; split; [done|]; rewrite Eb; apply rt_begin|].
  destruct ((port.(role) <>e port.(selectedRole)) && port.(selected) && negb port.(updtInfo))
    eqn:C.
  { right. exists (role_state port.(selectedRole)). split.
    - destruct port.(roletrns).(State); try done; by destruct port.(selectedRole).
    - bool_facts. apply rt_role; [done..|]. unfold idle.
      by destruct port.(selected), port.(updtInfo). }
  assert (Hr : idle port = true ∨ port.(role) = port.(selectedRole)).
  { unfold idle. destruct port.(selected), port.(updtInfo); simpl in *; auto.
    right. rewrite !andb_true_r in C. by bool_facts. }
  fold (idle port).
  destruct port.(roletrns).(State) eqn:Es; try done;
    try (right; eexists; split; [done|]; rewrite Es; by constructor).
  - destruct (idle port) eqn:Ei; [by left|]. case_match eqn:C1; [|by left].
    right; eexists; split; [done|]. rewrite Es. bool_facts. by constructor.
  - destruct (idle port) eqn:Ei; [by left|]. case_match eqn:C1.
    { right; eexists; split; [done|]. rewrite Es. apply rt_again; [done|].
      rewrite !orb_true_iff, negb_true_iff, Z.eqb_neq, negb_true_iff in C1. tauto. }
    case_match eqn:C2; [|by left]. right; eexists; split; [done|]. rewrite Es. bool_facts.
    by apply rt_backup.
  - apply active_spec; [apply R|done..].
  - by left.
Qed.

(** ** Termination, when the root's forward delay is not zero *)

Section Measure.
Context (FD HT2 : Z).

(** A designated, alternate or backup port that has to go back to listening. *)
Definition retiring (q : PORT_T) : bool :=
  (q.(role) <>e RootPort) && (q.(role) <>e MasterPort) && negb q.(operEdge) &&
  ((q.(sync) && negb q.(synced)) || (q.(reRoot) && negb (q.(rrWhile) =? 0))).

(** Steps left to settle [learn] and [forward]. *)
Definition mu_state (q : PORT_T) : nat :=
  if retiring q then
    match q.(learn), q.(forward) with
    | false, false => if q.(fdWhile) =? 0 then 4 else 0
    | true, true => 2
    | _, _ => 3
    end
  else (Nat.b2n (negb q.(learn)) + Nat.b2n (negb q.(forward)))%nat.

(** Steps left of the re-rooting hand-shake. *)
Definition mu_reroot (q : PORT_T) : nat :=
  if q.(reRoot) then 1
  else if (q.(role) =e RootPort) && negb q.(forward) then 2 else 0.

Definition mu_active (q : PORT_T) : nat :=
  (10 * Nat.b2n q.(proposed) + Nat.b2n (negb q.(agree)) +
   5 * Nat.b2n (q.(sync) || negb q.(synced)) + 5 * mu_reroot q +
   Nat.b2n ((q.(role) =e RootPort) && negb (q.(rrWhile) =? FD)%Z) +
   Nat.b2n (negb q.(proposing)) + mu_state q)%nat.

Definition mu_role (s : STATES) (q : PORT_T) : nat :=
  ((if q.(role) <>e q.(selectedRole) then 70 else 0) +
   match s with
   | BLOCK_PORT => 6
   | BLOCKED_PORT =>
       if (q.(role) =e BackupPort) && negb (q.(rbWhile) =? HT2)%Z then 5 else 2
   | BACKUP_PORT => 3
   | NON_STP => 0
   | ACTIVE_PORT => 2 * mu_active q
   | _ => 2 * mu_active q + 1
   end)%nat.

Definition roletrns_mu (s : STATES) (port : PORT_T) : nat :=
  match s with
  | BEGIN => 81
  | INIT_PORT => 80
  | BLOCK_PORT | BLOCKED_PORT | NON_STP | ACTIVE_PORT =>
      if idle port then 0 else mu_role s (rt_own FD HT2 s port)
  | _ => if idle port then 1 else mu_role s (rt_own FD HT2 s port)
  end%nat.

Lemma mu_state_bound q : (mu_state q ≤ 4)%nat.
Proof. unfold mu_state. destruct q.(learn), q.(forward); repeat case_match; simpl; lia. Qed.

Lemma mu_active_bound q : (mu_active q ≤ 32)%nat.
Proof.
  unfold mu_active, mu_reroot. pose proof (mu_state_bound q).
  destruct q.(proposed), (negb q.(agree)), (q.(sync) || _), q.(reRoot), (negb q.(proposing)),
    (q.(role) =e RootPort), (negb q.(forward)), (negb (q.(rrWhile) =? FD)); simpl; lia.
Qed.

(** An action state, entered from [ACTIVE_PORT]. *)
Definition action (s : STATES) : bool :=
  match s with
  | PROPOSED | PROPOSING | AGREES | SYNCED | REROOT | FORWARD | LISTEN | LEARN
  | REROOTED | ROOT => true
  | _ => false
  end.

(** Waiting is over, or never needed: then a retiring port has [fdWhile = 0]. *)
Lemma fast_not_retiring q : fast q = true → retiring q = false.
Proof.
  unfold fast, retiring. rewrite !orb_true_iff. intros [[?|?]|?]; bool_facts.
  - by rewrite bool_decide_true.
  - by rewrite (bool_decide_true (q.(role) = MasterPort)), andb_false_r.
  - destruct q.(sync); [done|]. simpl. destruct (q.(rrWhile) =? 0), q.(reRoot); simpl in *;
      rewrite ?andb_false_r; done.
Qed.

Lemma mu_learn q : FD ≠ 0 → q.(learn) = false → q.(fdWhile) = 0 ∨ fast q = true →
  (mu_state (rt_own FD HT2 LEARN q) < mu_state q)%nat.
Proof.
  intros HF El Hok. unfold mu_state, rt_own.
  change (retiring (q <| learn := true |> <| fdWhile := FD |>)) with (retiring q). cbn.
  rewrite El. destruct (retiring q) eqn:Er.
  - destruct Hok as [Hf|Hf]; [|by rewrite fast_not_retiring in Er].
    rewrite Hf. simpl. destruct q.(forward); simpl; lia.
  - destruct q.(forward); simpl; lia.
Qed.

Lemma mu_forward q : q.(learn) = true → q.(forward) = false →
  (mu_state (rt_own FD HT2 FORWARD q) < mu_state q)%nat.
Proof.
  intros El Ef. unfold mu_state, rt_own.
  change (retiring (q <| fdWhile := 0 |> <| forward := true |>)) with (retiring q). cbn.
  rewrite El, Ef. destruct (retiring q); simpl; lia.
Qed.

Lemma mu_listen q : FD ≠ 0 → q.(learn) = true ∨ q.(forward) = true → retiring q = true →
  (mu_state (rt_own FD HT2 LISTEN q) < mu_state q)%nat.
Proof.
  intros HF Hlf Er. unfold mu_state, rt_own.
  change (retiring (q <| forward := false |> <| learn := false |> <| fdWhile := FD |>))
    with (retiring q). cbn. rewrite Er.
  destruct (Z.eqb_spec FD 0); [done|]. destruct q.(learn), q.(forward); simpl; destruct Hlf; (done || lia).
Qed.

Lemma active_dec q s :
  FD ≠ 0 → rt_step FD HT2 q ACTIVE_PORT s → action s = true →
  (mu_active (rt_own FD HT2 s q) < mu_active q)%nat.
Proof.
  intros HF Hs Ha. pose proof (mu_state_bound q). pose proof (mu_state_bound (rt_own FD HT2 s q)).
  inversion Hs; subst; clear Hs; try done.
  - by destruct q.(selectedRole).
  - (* SYNCED *) unfold mu_active. cbn [rt_own] in *.
    assert (Nat.b2n (q.(sync) || negb q.(synced)) = 1%nat) as -> by (destruct H2 as [->| ->]; simpl; by rewrite ?orb_true_r).
    revert H0. destruct (q.(role) <>e RootPort) eqn:Er; intros H0; unfold mu_reroot; simpl;
      [bool_facts; rewrite (bool_decide_false (q.(role) = RootPort)) by done; simpl; lia|lia].
  - (* AGREES *) unfold mu_active in *. cbn [rt_own] in *.
    change (mu_state (q <| proposed := false |> <| agree := true |>)) with (mu_state q).
    change (mu_reroot (q <| proposed := false |> <| agree := true |>)) with (mu_reroot q).
    simpl. destruct H2 as [-> | ->]; simpl; lia.
  - (* PROPOSING *) unfold mu_active. cbn [rt_own] in *.
    change (mu_state (q <| proposing := true |>)) with (mu_state q).
    change (mu_reroot (q <| proposing := true |>)) with (mu_reroot q). simpl. rewrite H2. simpl. lia.
  - (* PROPOSED *) unfold mu_active. cbn [rt_own] in *.
    change (mu_reroot (q <| sync := true |> <| proposed := false |>)) with (mu_reroot q).
    simpl. rewrite H2. simpl. destruct (q.(sync) || _); simpl; lia.
  - (* FORWARD *) pose proof (mu_forward q H2 H3). unfold mu_active.
    assert (mu_reroot (rt_own FD HT2 FORWARD q) ≤ mu_reroot q)%nat.
    { unfold mu_reroot. simpl. rewrite H3, andb_false_r. repeat case_match; simpl; lia. }
    simpl in *. lia.
  - (* ROOT *) unfold mu_active. cbn [rt_own] in *.
    change (mu_reroot (q <| rrWhile := FD |>)) with (mu_reroot q).
    assert (retiring (q <| rrWhile := FD |>) = false ∧ retiring q = false) as [E1 E2].
    { unfold retiring. simpl. by rewrite H3. }
    unfold mu_state. rewrite E1, E2. simpl. rewrite H3. simpl. rewrite Z.eqb_refl.
    destruct (Z.eqb_spec q.(rrWhile) FD); [done|]. simpl. lia.
  - (* REROOT *) unfold mu_active. cbn [rt_own] in *.
    assert (retiring (q <| reRoot := true |>) = false ∧ retiring q = false) as [E1 E2].
    { unfold retiring. simpl. by rewrite H4. }
    unfold mu_state. rewrite E1, E2. unfold mu_reroot. simpl. rewrite H2, H3, H4. simpl. lia.
  - (* REROOTED *) unfold mu_active. cbn [rt_own] in *. unfold mu_reroot. simpl. rewrite H2.
    destruct (decide (q.(role) = RootPort)) as [Er|Er].
    + assert (q.(forward) = true) as Ef.
      { destruct H4 as [[_ ?]|E0]; [done|]. rewrite (H3 Er) in E0. done. }
      rewrite Er, Ef. simpl. lia.
    + rewrite (bool_decide_false (q.(role) = RootPort)) by done. simpl. lia.
  - (* LEARN *) pose proof (mu_learn q HF H2 H3). unfold mu_active.
    change (mu_reroot (rt_own FD HT2 LEARN q)) with (mu_reroot q). simpl in *. lia.
  - (* LISTEN *) assert (retiring q = true) as Er.
    { unfold retiring. rewrite !bool_decide_false, H3 by done. simpl.
      destruct H6 as [[-> ->]|[-> ?]]; [done|]. destruct (Z.eqb_spec q.(rrWhile) 0); [done|].
      simpl. by rewrite orb_true_r. }
    pose proof (mu_listen q HF H2 Er). unfold mu_active.
    assert (mu_reroot (rt_own FD HT2 LISTEN q) = mu_reroot q) as ->.
    { unfold mu_reroot. simpl. by rewrite (bool_decide_false (q.(role) = RootPort)). }
    simpl in *. lia.
Qed.
End Measure.

Lemma mu_newinfo FD HT2 s x y port :
  roletrns_mu FD HT2 s (newinfo x y port) = roletrns_mu FD HT2 s port.
Proof. destruct s; try reflexivity. unfold roletrns_mu; cbn [rt_own]. by destruct (_ <>e RootPort). Qed.

Lemma idle_own FD HT2 s port : idle (rt_own FD HT2 s port) = idle port.
Proof. destruct s; try reflexivity. cbn [rt_own]. by destruct (_ <>e RootPort). Qed.

(** After a role change the machine is far below its measure before it. *)
Lemma mu_role_change FD HT2 q :
  idle q = false → (roletrns_mu FD HT2 (role_state q.(selectedRole)) q < 70)%nat.
Proof.
  intros Ei. pose proof (mu_active_bound FD (q <| role := q.(selectedRole) |>)).
  assert (Hb : ∀ a b : nat, (b < 70 → (if q.(selectedRole) <>e q.(selectedRole) then a else 0) +
    b < 70)%nat) by (intros; by rewrite bool_decide_true).
  destruct q.(selectedRole) eqn:E at 1; cbn [role_state]; unfold roletrns_mu, mu_role; rewrite Ei;
    try (apply Hb; simpl in *; lia).
  cbn. rewrite E. simpl. lia.
Qed.

Lemma mu_le_init FD HT2 q : (roletrns_mu FD HT2 BLOCK_PORT q < 80)%nat.
Proof.
  unfold roletrns_mu, mu_role. destruct (idle q); [lia|]. cbn. rewrite bool_decide_true by done.
  simpl. lia.
Qed.

Lemma rt_step_dec FD HT2 s s' port :
  FD ≠ 0 → rt_step FD HT2 (rt_own FD HT2 s port) s s' →
  (roletrns_mu FD HT2 s' (rt_own FD HT2 s port) < roletrns_mu FD HT2 s port)%nat.
Proof.
  intros HF Hs. set (q := rt_own FD HT2 s port) in *.
  assert (Eq : idle q = idle port) by apply idle_own.
  destruct (decide (action s' = true)) as [Ha|Ha].
  { assert (s = ACTIVE_PORT) as ->.
    { inversion Hs; subst; try done. by destruct q.(selectedRole). }
    assert (Er : q.(role) = q.(selectedRole)) by done.
    pose proof (active_dec FD HT2 q s' HF Hs Ha) as Hd.
    assert (Ei : idle q = false) by (inversion Hs; by subst).
    unfold roletrns_mu at 2. rewrite <- Eq, Ei. fold q.
    assert (Hm : roletrns_mu FD HT2 s' q = (2 * mu_active FD (rt_own FD HT2 s' q) + 1)%nat).
    { assert (Er' : role (rt_own FD HT2 s' q) = selectedRole (rt_own FD HT2 s' q)).
      { destruct s'; try done; cbn [rt_own]; by destruct (_ <>e RootPort). }
      unfold roletrns_mu. rewrite Ei. destruct s'; try done; unfold mu_role;
        by rewrite bool_decide_true by exact Er'. }
    rewrite Hm. unfold mu_role. rewrite bool_decide_true by done. simpl in *. lia. }
  inversion Hs; subst; try done.
  - simpl. lia.
  - pose proof (mu_role_change FD HT2 q H1).
    assert (70 ≤ roletrns_mu FD HT2 s port)%nat; [|lia].
    destruct s; try done; unfold roletrns_mu; try lia; rewrite <- Eq, H1; unfold mu_role;
      fold q; rewrite bool_decide_false by done; simpl; lia.
  - apply mu_le_init.
  - unfold roletrns_mu at 2. rewrite <- Eq, H. unfold mu_role. fold q.
    unfold roletrns_mu. rewrite H. unfold mu_role. cbn. rewrite !bool_decide_true by done. simpl.
    case_match; lia.
  - exfalso. destruct H0 as [H0|[H0|[H0|H0]]]; done.
  - unfold roletrns_mu. rewrite <- Eq, H. unfold mu_role. fold q.
    change (role (rt_own FD HT2 BACKUP_PORT q)) with (role q).
    change (selectedRole (rt_own FD HT2 BACKUP_PORT q)) with (selectedRole q).
    rewrite (bool_decide_true (role q = BackupPort)) by done.
    destruct (Z.eqb_spec q.(rbWhile) HT2); [done|]. simpl. lia.
  - unfold roletrns_mu. rewrite <- Eq. destruct (idle q); [lia|]. unfold mu_role. fold q.
    change (role (rt_own FD HT2 BLOCKED_PORT q)) with (role q).
    change (selectedRole (rt_own FD HT2 BLOCKED_PORT q)) with (selectedRole q).
    change (rbWhile (rt_own FD HT2 BLOCKED_PORT q)) with HT2.
    rewrite Z.eqb_refl, andb_false_r. lia.
  - assert (Hm : roletrns_mu FD HT2 s port =
      if idle q then 1%nat else mu_role FD HT2 s q) by (rewrite Eq; by destruct s).
    rewrite Hm. unfold roletrns_mu. destruct (idle q) eqn:Ei; [lia|].
    destruct H0 as [H0|H0]; [done|].
    assert (E : rt_own FD HT2 ACTIVE_PORT q = q) by (unfold rt_own; by rewrite <- H0).
    rewrite E. unfold mu_role. destruct s; try done; lia.
Qed.

(** The conditions do not look at the machine's record nor at [newInfo*]. *)
Lemma rt_step_fields FD HT2 m x y q s s' :
  rt_step FD HT2 (mach_put roletrns_field m (newinfo x y q)) s s' → rt_step FD HT2 q s s'.
Proof.
  intros Hs. inversion_clear Hs; [apply rt_begin|by apply (rt_role FD HT2 q)|apply rt_init|by apply (rt_blocked FD HT2 q)|
    by apply (rt_again FD HT2 q)|by apply (rt_backup FD HT2 q)|apply rt_backed|by apply (rt_return FD HT2 q)|by apply (rt_synced FD HT2 q)|
    by apply (rt_agrees FD HT2 q)|by apply (rt_proposing FD HT2 q)|by apply (rt_proposed FD HT2 q)|by apply (rt_forward FD HT2 q)|
    by apply (rt_root FD HT2 q)|by apply (rt_reroot FD HT2 q)|by apply (rt_rerooted FD HT2 q)|by apply (rt_learn FD HT2 q)|by apply (rt_listen FD HT2 q)].
Qed.

Lemma rt_turn FD HT p st port m :
  FD ≠ 0 → rt_ready FD HT p st → st.(port_heap) !! p = Some port →
  mach_get roletrns_field port = Some m →
  wp (MSTP_roletrns_enter_state st p) (fun st1 => rt_ready FD HT p st1 ∧ ∃ port1,
    st1.(port_heap) !! p = Some port1 ∧ mach_get roletrns_field port1 = Some m ∧
    ∀ st2, rt_ready FD HT p st2 →
      st2.(port_heap) !! p = Some (mach_put roletrns_field (mkMach m.(State) false) port1) →
      MSTP_roletrns_check_conditions st2 p = Done (st2, false) ∨
      ∃ s, MSTP_roletrns_check_conditions st2 p = hop roletrns_field st2 p s ∧
        (roletrns_mu FD (2 * HT) s port1 < roletrns_mu FD (2 * HT) m.(State) port)%nat).
Proof.
  intros HF R H E. injection E as <-.
  eapply wp_mono; [by apply rt_enter_spec|]. intros st1 (R1 & x & y & H1). split; [done|].
  eexists; split; [exact H1|]. split.
  { simpl. destruct port.(roletrns).(State); try done. cbn [rt_own]. by destruct (_ <>e _). }
  intros st2 R2 H2. destruct (rt_check_spec FD HT p st2 _ R2 H2) as [->|(s & -> & Hs)]; [by left|].
  right. exists s. split; [done|]. rewrite mu_newinfo. apply rt_step_dec; [done|].
  by apply rt_step_fields in Hs.
Qed.

#[export] Instance roletrns_terminating FD HT p : FD ≠ 0 →
  Terminating (roletrns_machine p) (rt_ready FD HT p)
    (mu_at roletrns_field (roletrns_mu FD (2 * HT)) p).
Proof.
  intros HF. apply (port_machine_terminating roletrns_field).
  - intros st [[W [port H]] _]. by eexists _, _.
  - intros st port m R H. by eapply rt_put.
  - intros s m port. destruct s; try reflexivity.
    unfold roletrns_mu; cbn [rt_own]. simpl. by destruct (_ <>e RootPort).
  - intros. by apply rt_turn.
Qed.
