(* ===== verification/StpTopoch.v ===== *)
(** * Topology change machine ([stp_topoch.c])

    [stp_topoch_flush] only calls [stp_to_flush_lt], which does nothing, so
    the two states that flush have no other effect here. *)

From Stdlib Require Import ZArith Lia.
From stdpp Require Import base gmap list option.
From S2P Require Import Prelude StpTypes StpHeap StpStatmch StpPort StpRoletrns.
Import TopochState.

Definition topoch_field : MACH_FIELD STATES :=
  mkField (fun port => Some port.(topoch)) (fun m port => port <| topoch := m |>).

Definition stp_topoch_setTcPropTree (st : STP_T) (port : PORT_T) : outcome STP_T :=
  let* l := owner_ports st port in
  upd_ports l (fun tmp =>
    if negb (tmp.(port_index) =? port.(port_index)) then tmp <| tcProp := true |> else tmp) st.

Definition stp_topoch_newTcWhile (st : STP_T) (port : PORT_T) : outcome Z :=
  let* found := stp_port_mst_findport st STP_CIST_ID port.(port_index) in
  let* c := deref found in
  let* cistport := get_port st c in
  let* stpm := get_stpm st cistport.(owner) in
  let rootTimes := stpm.(STPM.rootTimes) in
  if (port.(tcWhile) =? 0) && port.(sendRSTP) && port.(operPointToPointMac) then
    Done (2 * rootTimes.(HelloTime))
  else Done (rootTimes.(MaxAge) + rootTimes.(ForwardDelay)).

Definition MSTP_topoch_enter_state (st : STP_T) (p : PORT_REF) : outcome STP_T :=
  let* '(port, this) := mach_of topoch_field st p in
  let* stpm := get_stpm st port.(owner) in
  let cist := stpm.(STPM.vlan_id) =? STP_CIST_ID in
  match this.(State) with
  | BEGIN | INIT =>
      let port := port <| tcWhile := 0 |> in
      Done (put_port st p (if cist then port <| tcAck := false |> else port))
  | INACTIVE =>
      let port :=
        if cist then
          port <| rcvdTcAck := false |> <| rcvdTcn := false |> <| rcvdTc := false |>
        else port in
      Done (put_port st p (port <| tcProp := false |> <| rcvdTc := false |>))
  | ACTIVE => Done st
  | DETECTED =>
      let* t := stp_topoch_newTcWhile st port in
      let st := put_port st p (port <| tcWhile := t |>) in
      let* st := stp_topoch_setTcPropTree st port in
      stp_roletrns_setnewinfoXst p st
  | NOTIFIED_TC =>
      let port := if cist then port <| rcvdTcn := false |> else port in
      let port := port <| rcvdTc := false |> in
      let port :=
        if cist && (port.(role) =e DesignatedPort) then port <| tcAck := true |> else port in
      stp_topoch_setTcPropTree (put_port st p port) port
  | PROPAGATING =>
      let* t := stp_topoch_newTcWhile st port in
      Done (put_port st p (port <| tcWhile := t |> <| tcProp := false |>))
  | ACKNOWLEDGED =>
      Done (put_port st p (port <| tcWhile := 0 |> <| rcvdTcAck := false |>))
  | NOTIFIED_TCN =>
      let* t := stp_topoch_newTcWhile st port in
      Done (put_port st p (port <| tcWhile := t |>))
  end.

Definition is_active_role (r : PORT_ROLE_T) : bool :=
  (r =e RootPort) || (r =e DesignatedPort) || (r =e MasterPort).

Definition MSTP_topoch_check_conditions (st : STP_T) (p : PORT_REF) : outcome (STP_T * bool) :=
  let* '(port, this) := mach_of topoch_field st p in
  match this.(State) with
  | BEGIN => hop topoch_field st p INIT
  | INIT => hop topoch_field st p INACTIVE
  | INACTIVE =>
      if port.(rcvdTc) || port.(rcvdTcn) || port.(rcvdTcAck) || port.(tcProp) then
        hop topoch_field st p INACTIVE
      else if is_active_role port.(role) && port.(forward) && negb port.(operEdge) then
        hop topoch_field st p DETECTED
      else Done (st, false)
  | DETECTED => hop topoch_field st p ACTIVE
  | ACTIVE =>
      if negb (is_active_role port.(role)) then hop topoch_field st p INIT
      else if port.(rcvdTcn) then hop topoch_field st p NOTIFIED_TCN
      else if port.(rcvdTc) then hop topoch_field st p NOTIFIED_TC
      else if port.(tcProp) then hop topoch_field st p PROPAGATING
      else if port.(rcvdTcAck) then hop topoch_field st p ACKNOWLEDGED
      else Done (st, false)
  | NOTIFIED_TC => hop topoch_field st p ACTIVE
  | PROPAGATING => hop topoch_field st p ACTIVE
  | ACKNOWLEDGED => hop topoch_field st p ACTIVE
  | NOTIFIED_TCN => hop topoch_field st p NOTIFIED_TC
  end.

Definition topoch_machine (p : PORT_REF) : MACHINE STP_T :=
  port_machine topoch_field MSTP_topoch_enter_state MSTP_topoch_check_conditions p.

(** ** Effect on the port *)

Definition topoch_own (cist : bool) (t : Z) (s : STATES) (port : PORT_T) : PORT_T :=
  match s with
  | BEGIN | INIT =>
      if cist then port <| tcWhile := 0 |> <| tcAck := false |> else port <| tcWhile := 0 |>
  | INACTIVE =>
      (if cist then
         port <| rcvdTcAck := false |> <| rcvdTcn := false |> <| rcvdTc := false |>
       else port) <| tcProp := false |> <| rcvdTc := false |>
  | ACTIVE => port
  | DETECTED | NOTIFIED_TCN => port <| tcWhile := t |>
  | NOTIFIED_TC =>
      let port := (if cist then port <| rcvdTcn := false |> else port) <| rcvdTc := false |> in
      if cist && (port.(role) =e DesignatedPort) then port <| tcAck := true |> else port
  | PROPAGATING => port <| tcWhile := t |> <| tcProp := false |>
  | ACKNOWLEDGED => port <| tcWhile := 0 |> <| rcvdTcAck := false |>
  end.

#[export] Instance topoch_field_laws : FieldLaws topoch_field.
Proof. by split. Qed.

Lemma newTcWhile_total st p port port' :
  wf st → st.(port_heap) !! p = Some port → port'.(port_index) = port.(port_index) →
  ∃ t, stp_topoch_newTcWhile st port' = Done t.
Proof.
  intros W H E. unfold stp_topoch_newTcWhile. rewrite E.
  destruct (wf_port_owner _ _ _ W H) as (_ & -> & _).
  destruct (findport_cist _ _ _ W H) as (c & cport & -> & Hc & Hcp). simpl.
  rewrite (get_port_Some _ _ _ Hcp). simpl.
  destruct (wf_port_owner _ _ _ W Hcp) as (-> & _ & stpm & Hs).
  rewrite (get_stpm_Some _ _ _ Hs). simpl. case_match; eauto.
Qed.

(** [stp_topoch_setTcPropTree] leaves its own port alone. *)
Lemma setTcProp_spec p st port port' :
  ready p st → st.(port_heap) !! p = Some port → pshape port' = pshape port →
  wp (stp_topoch_setTcPropTree st port') (fun st1 =>
    same_shape st st1 ∧ same_stpms st st1 ∧ st1.(port_heap) !! p = Some port).
Proof.
  intros [W _] H Es. unfold stp_topoch_setTcPropTree.
  assert (owner_ports st port' = owner_ports st port) as ->.
  { unfold owner_ports. apply (f_equal sh_owner) in Es. simpl in Es. by rewrite Es. }
  destruct (owner_ports_Done st p port) as (l & -> & Hin & Hn & Hl); [done..|]. simpl.
  rewrite upd_ports_map by done. simpl. split_and!.
  - apply map_ports_shape. intros q. by case_match.
  - done.
  - rewrite map_ports_in, H by done. simpl. apply (f_equal sh_index) in Es. simpl in Es.
    by rewrite Es, Z.eqb_refl.
Qed.

Lemma topoch_enter_spec p st port :
  ready p st → st.(port_heap) !! p = Some port →
  wp (MSTP_topoch_enter_state st p) (fun st1 => ready p st1 ∧ ∃ x y t,
    st1.(port_heap) !! p =
      Some (newinfo x y (topoch_own (p.1 =? STP_CIST_ID) t port.(topoch).(State) port))).
Proof.
  intros R H. assert (W := proj1 R). unfold MSTP_topoch_enter_state.
  rewrite (mach_of_Done topoch_field _ _ _ port.(topoch) H eq_refl). cbn [obind].
  destruct (wf_port_owner _ _ _ W H) as (Ho & Hi & stpm & Hs).
  rewrite Ho, (get_stpm_Some _ _ _ Hs). cbn [obind]. rewrite (wf_stpm_vlan _ _ _ W Hs).
  set (cist := p.1 =? STP_CIST_ID).
  assert (Hnew : ∃ t, stp_topoch_newTcWhile st port = Done t) by (by eapply newTcWhile_total).
  destruct Hnew as [t Et]. 
  assert (Hready : ∀ port', pshape port' = pshape port → ready p (put_port st p port')).
  { intros port' E. eapply ready_same; [by eapply put_port_shape|done]. }
  assert (Hput : ∀ port', pshape port' = pshape port →
    wp (Done (put_port st p port')) (fun st1 => ready p st1 ∧ ∃ x y (t : Z),
      st1.(port_heap) !! p = Some (newinfo x y port'))).
  { intros port' E. split; [by apply Hready|].
    exists port'.(newInfoCist), port'.(newInfoMsti), 0. by rewrite put_port_lookup. }
  destruct port.(topoch).(State); cbn [topoch_own];
    try (apply Hput; by destruct cist); rewrite ?Et; cbn [obind].
  - split; [done|]. by exists port.(newInfoCist), port.(newInfoMsti), 0.
  - apply wp_bind. assert (Rt : ready p (put_port st p (port <| tcWhile := t |>))) by (by apply Hready).
    eapply wp_mono; [eapply setTcProp_spec; [exact Rt|apply put_port_lookup|done]|].
    intros st1 (E1 & _ & H1). eapply wp_mono; [apply setnewinfo_spec; [by eapply ready_same|exact H1]|].
    intros st2 (E2 & _ & (x & y & H2) & _). split; [by eapply ready_same; [|eapply ready_same]|].
    by exists x, y, t.
  - set (port' := if cist && _ then _ else _).
    assert (pshape port' = pshape port) as E
      by (unfold port'; destruct cist; simpl; [by destruct (_ =e _)|done]).
    eapply wp_mono; [eapply setTcProp_spec; [by apply Hready|apply put_port_lookup|done]|].
    intros st1 (E1 & _ & H1). split; [eapply ready_same; [done|by apply Hready]|].
    exists port'.(newInfoCist), port'.(newInfoMsti), 0. rewrite H1. unfold port'. by destruct cist.
  - split; [by apply Hready|]. exists port.(newInfoCist), port.(newInfoMsti), t. apply put_port_lookup.
  - split; [by apply Hready|]. exists port.(newInfoCist), port.(newInfoMsti), t. apply put_port_lookup.
Qed.

(** ** Termination

    An MSTI port never has [rcvdTcn] or [rcvdTcAck], which only its CIST port
    clears. *)

Definition topoch_ready (p : PORT_REF) (st : STP_T) : Prop :=
  ready p st ∧ ∀ port, st.(port_heap) !! p = Some port → p.1 ≠ STP_CIST_ID →
    port.(rcvdTcn) = false ∧ port.(rcvdTcAck) = false.

Definition topoch_mu (s : STATES) (port : PORT_T) : nat :=
  let notified := (4 * Nat.b2n (port.(rcvdTcn) || port.(rcvdTc)))%nat in
  let prop := (2 * Nat.b2n port.(tcProp))%nat in
  let ack := (2 * Nat.b2n port.(rcvdTcAck))%nat in
  let leave := (if is_active_role port.(role) then 0 else 10)%nat in
  match s with
  | BEGIN => 5
  | INIT => 4
  | INACTIVE => 3
  | DETECTED => 2 + notified + prop + ack + leave
  | ACTIVE => 1 + notified + prop + ack + leave
  | NOTIFIED_TCN => 4 + prop + ack + leave
  | NOTIFIED_TC => 3 + prop + ack + leave
  | PROPAGATING => 2 + notified + ack + leave
  | ACKNOWLEDGED => 2 + notified + prop + leave
  end%nat.

#[local] Arguments topoch_mu : simpl never.

(** The flags after entering a state decide the next one. *)
Lemma topoch_check_spec p st2 port t m :
  (p.1 ≠ STP_CIST_ID → port.(rcvdTcn) = false ∧ port.(rcvdTcAck) = false) →
  ∀ x y, st2.(port_heap) !! p = Some (mach_put topoch_field (mkMach m.(State) false)
    (newinfo x y (topoch_own (p.1 =? STP_CIST_ID) t m.(State) port))) →
  MSTP_topoch_check_conditions st2 p = Done (st2, false) ∨
  ∃ s, MSTP_topoch_check_conditions st2 p = hop topoch_field st2 p s ∧
    (topoch_mu s (topoch_own (p.1 =? STP_CIST_ID)%Z t m.(State) port) < topoch_mu m.(State) port)%nat.
Proof.
  intros Hm x y H2. unfold MSTP_topoch_check_conditions.
  rewrite (mach_of_Done _ _ _ _ _ H2 (mach_get_put _ _)). cbn [obind].
  destruct (Z.eqb_spec p.1 STP_CIST_ID) as [Ec|Ec];
    [|destruct (Hm Ec) as [Hn Ha]];
    destruct m.(State); cbn; unfold topoch_mu; rewrite ?Hn, ?Ha;
    try (right; eexists; split; [done|]; simpl; rewrite ?Hn, ?Ha; simpl;
         repeat (case_match; simpl); lia).
  all: repeat (case_match; simplify_eq/=); try (by left);
    right; eexists; (split; [done|]); cbn; rewrite ?Hn, ?Ha in *;
    destruct (is_active_role port.(role)), port.(rcvdTcn), port.(rcvdTc), port.(tcProp),
      port.(rcvdTcAck); simplify_eq/=; lia.
Qed.

Lemma topoch_own_flags cist t s port :
  port.(rcvdTcn) = false → port.(rcvdTcAck) = false →
  (topoch_own cist t s port).(rcvdTcn) = false ∧ (topoch_own cist t s port).(rcvdTcAck) = false.
Proof.
  intros Hn Ha. destruct s, cist; simpl; auto; case_match; auto.
Qed.

Lemma topoch_own_topoch cist t s port : (topoch_own cist t s port).(topoch) = port.(topoch).
Proof. destruct s, cist; simpl; try done; by case_match. Qed.

Lemma topoch_turn p st port m :
  topoch_ready p st → st.(port_heap) !! p = Some port → mach_get topoch_field port = Some m →
  wp (MSTP_topoch_enter_state st p) (fun st1 => topoch_ready p st1 ∧ ∃ port1,
    st1.(port_heap) !! p = Some port1 ∧ mach_get topoch_field port1 = Some m ∧
    ∀ st2, topoch_ready p st2 →
      st2.(port_heap) !! p = Some (mach_put topoch_field (mkMach m.(State) false) port1) →
      MSTP_topoch_check_conditions st2 p = Done (st2, false) ∨
      ∃ s, MSTP_topoch_check_conditions st2 p = hop topoch_field st2 p s ∧
        (topoch_mu s port1 < topoch_mu m.(State) port)%nat).
Proof.
  intros [R Hm] H E. injection E as <-. specialize (Hm port H).
  eapply wp_mono; [by apply topoch_enter_spec|]. intros st1 (R1 & x & y & t & H1). split.
  { split; [done|]. intros port1 Hp1 Hc. rewrite H1 in Hp1. injection Hp1 as <-.
    destruct (Hm Hc). by apply (topoch_own_flags _ t port.(topoch).(State) port). }
  eexists; split; [exact H1|]. split.
  { exact (f_equal Some (topoch_own_topoch _ t _ port)). }
  intros st2 _ H2. by eapply topoch_check_spec.
Qed.

#[export] Instance topoch_terminating p :
  Terminating (topoch_machine p) (topoch_ready p) (mu_at topoch_field topoch_mu p).
Proof.
  apply (port_machine_terminating topoch_field); [| |intros [] ? ?; reflexivity|apply topoch_turn].
  - intros st [[W [port H]] _]. by eexists _, _.
  - intros st port m [R Hm] H. split.
    + eapply ready_same; [by eapply put_port_shape|done].
    + intros port1. rewrite put_port_lookup. intros [= <-]. exact (Hm port H).
Qed.
