(* ===== verification/StpPortinfo.v ===== *)
(** * Port information machine ([stp_portinfo.c]) *)

From Stdlib Require Import ZArith Lia.
From stdpp Require Import base gmap list option.
From S2P Require Import Prelude StpTypes StpVector StpHeap StpStatmch StpPort StpRoletrns.
Import InfoState.

Definition DEF_BR_HELLOT : Z := 2.

Definition info_field : MACH_FIELD STATES :=
  mkField (fun port => Some port.(info)) (fun m port => port <| info := m |>).

(** ** Classification of the received message *)

(** [(8 + MaxAge) / 16], at least 1, plus the age of the message. *)
Definition effective_age (maxAge msgAge : Z) : Z :=
  let eff_age := (8 + maxAge) / 16 in
  let eff_age := if eff_age <? 1 then 1 else eff_age in
  eff_age + msgAge.

(** The times the received message would give the port. *)
Definition stp_portinfo_updt_recvmsg_timer (st : STP_T) (port : PORT_T) : outcome TIMEVALUES_T :=
  let v := port.(msgTimes) in
  if port.(vlan_id) =? STP_CIST_ID then
    if negb port.(rcvdInternal) then
      let* stpm := get_stpm st port.(owner) in
      Done (v <| MessageAge :=
                   u16 (effective_age port.(portTimes).(MaxAge) port.(msgTimes).(MessageAge)) |>
              <| RemainingHops := stpm.(STPM.BrTimes).(RemainingHops) |>)
    else
      Done (v <| MessageAge := port.(msgTimes).(MessageAge) |>
              <| RemainingHops := u8 (port.(msgTimes).(RemainingHops) - 1) |>)
  else Done (v <| RemainingHops := u8 (port.(msgTimes).(RemainingHops) - 1) |>).

Definition msg_role (flags : Z) : Z := Z.shiftr (Z.land flags PORT_ROLE_MASK) PORT_ROLE_OFFS.

(** [msgPortRole] is assigned, then the message is compared with what the port
    holds.  [cfg_ok]: whether a configuration BPDU counts as designated, which
    the CIST version allows and the MSTI version does not. *)
Definition rcvinfo (cfg_ok : bool) (st : STP_T) (port : PORT_T) : outcome (PORT_T * RCVD_MSG_T) :=
  if port.(msgBpduType) =? BPDU_TOPO_CHANGE_TYPE then Done (port, OtherMsg)
  else
    let port := port <| msgPortRole := RSTP_PORT_ROLE_UNKN |> in
    let port :=
      if BPDU_RSTP =? port.(msgBpduType) then
        port <| msgPortRole := msg_role port.(msgFlags) |>
      else port in
    let bridcmp := stp_vector_compare port.(msgPrio) port.(portPrio) in
    let* msgtimer := stp_portinfo_updt_recvmsg_timer st port in
    let timecmp := stp_times_compare msgtimer port.(portTimes) in
    let desgn := (RSTP_PORT_ROLE_DESGN =? port.(msgPortRole)) ||
                 (cfg_ok && (BPDU_CONFIG_TYPE =? port.(msgBpduType))) in
    Done (port,
      if desgn &&
         ((bridcmp <? 0) ||
          ((stp_vector_compare_bridge_id port.(msgPrio).(design_bridge)
              port.(portPrio).(design_bridge) =? 0) &&
           (port.(msgPrio).(design_port) =? port.(portPrio).(design_port)) &&
           negb (timecmp =? 0))) then SuperiorDesignateMsg
      else if desgn && ((bridcmp =? 0) && (timecmp =? 0)) then RepeatedDesignateMsg
      else if (RSTP_PORT_ROLE_ROOT =? port.(msgPortRole)) && (0 <=? bridcmp) then ConfirmedRootMsg
      else OtherMsg).

Definition stp_portinfo_cist_rcvinfo := rcvinfo true.
Definition stp_portinfo_msti_rcvinfo := rcvinfo false.

Definition stp_portinfo_xst_rcvinfo (st : STP_T) (port : PORT_T) : outcome (PORT_T * RCVD_MSG_T) :=
  if port.(vlan_id) =? STP_CIST_ID then stp_portinfo_cist_rcvinfo st port
  else stp_portinfo_msti_rcvinfo st port.

(** ** Recording what the message says *)

Definition stp_portinfo_record_masteredcist (st : STP_T) (p : PORT_REF) : outcome STP_T :=
  let* port := get_port st p in
  if negb port.(rcvdInternal) then
    upd_ports port.(nextMst) (fun q => q <| mstiMastered := false |>) st
  else Done st.

Definition stp_portinfo_record_masteredmsti (st : STP_T) (p : PORT_REF) : outcome STP_T :=
  let* port := get_port st p in
  Done (put_port st p
    (port <| mstiMastered :=
       port.(operPointToPointMac) && bit_set port.(msgFlags) MASTER_BIT |>)).

Definition stp_portinfo_record_masteredxst (st : STP_T) (p : PORT_REF) : outcome STP_T :=
  let* port := get_port st p in
  if port.(vlan_id) =? STP_CIST_ID then stp_portinfo_record_masteredcist st p
  else stp_portinfo_record_masteredmsti st p.

Definition stp_portinfo_record_proposalcist (st : STP_T) (p : PORT_REF) : outcome STP_T :=
  let* port := get_port st p in
  let prop := (RSTP_PORT_ROLE_DESGN =? port.(msgPortRole)) &&
              bit_set port.(msgFlags) PROPOSAL_BIT && port.(operPointToPointMac) in
  let st := put_port st p (port <| proposed := prop |>) in
  if negb port.(rcvdInternal) then
    upd_ports port.(nextMst) (fun q => q <| proposed := prop |>) st
  else Done st.

Definition stp_portinfo_record_proposalmsti (st : STP_T) (p : PORT_REF) : outcome STP_T :=
  let* port := get_port st p in
  Done (put_port st p
    (port <| proposed := bit_set port.(msgFlags) PROPOSAL_BIT && port.(operPointToPointMac) |>)).

Definition stp_portinfo_record_proposalxst (st : STP_T) (p : PORT_REF) : outcome STP_T :=
  let* port := get_port st p in
  if port.(vlan_id) =? STP_CIST_ID then stp_portinfo_record_proposalcist st p
  else stp_portinfo_record_proposalmsti st p.

Definition stp_portinfo_xstinfo_check (port : PORT_T) : bool :=
  stp_vector_compare port.(msgPrio) port.(portPrio) <=? 0.

(** The test of both agreement functions: [bridcmp] is the truth value of a
    comparison, 0 or 1. *)
Definition agreement_test (port : PORT_T) : bool :=
  bit_set port.(msgFlags) AGREEMENT_BIT && port.(operPointToPointMac) &&
  (let bridcmp := if stp_vector_compare port.(msgPrio) port.(portPrio) <=? 0 then 1 else 0 in
   (bit_set port.(msgFlags) (Z.shiftl RSTP_PORT_ROLE_ROOT PORT_ROLE_OFFS) && (bridcmp <=? 0)) ||
   (bit_set port.(msgFlags) (Z.shiftl RSTP_PORT_ROLE_DESGN PORT_ROLE_OFFS) && (0 <=? bridcmp))).

Definition stp_portinfo_record_agreementcist (st : STP_T) (p : PORT_REF) : outcome STP_T :=
  let* port := get_port st p in
  let agr := agreement_test port in
  let st := put_port st p (port <| agreed := agr |>) in
  if negb port.(rcvdInternal) then
    upd_ports port.(nextMst) (fun q => q <| agreed := agr |>) st
  else Done st.

Definition stp_portinfo_record_agreementmsti (st : STP_T) (p : PORT_REF) : outcome STP_T :=
  let* port := get_port st p in
  let* found := stp_port_mst_findport st STP_CIST_ID port.(port_index) in
  match found with
  | None => Done st
  | Some c =>
      let* cist_port := get_port st c in
      let bridcmp := stp_vector_compare cist_port.(msgPrio) cist_port.(portPrio) in
      Done (put_port st p
        (port <| agreed :=
           ((bridcmp =? 0) || (bridcmp <? -4) || (4 <? bridcmp)) && agreement_test port |>))
  end.

Definition stp_portinfo_record_agreementxst (st : STP_T) (p : PORT_REF) : outcome STP_T :=
  let* port := get_port st p in
  if port.(vlan_id) =? STP_CIST_ID then stp_portinfo_record_agreementcist st p
  else stp_portinfo_record_agreementmsti st p.

(** ** Conditions *)

Definition stp_portinfo_rcvd_xstinfo (st : STP_T) (port : PORT_T) : outcome bool :=
  if port.(vlan_id) =? STP_CIST_ID then Done port.(rcvdMsg)
  else
    let* found := stp_port_mst_findport st STP_CIST_ID port.(port_index) in
    match found with
    | Some c => let* cp := get_port st c in Done (negb cp.(rcvdMsg) && port.(rcvdMsg))
    | None => Done false
    end.

Definition stp_portinfo_updt_xstinfo (st : STP_T) (port : PORT_T) : outcome bool :=
  if port.(vlan_id) =? STP_CIST_ID then Done port.(updtInfo)
  else if port.(updtInfo) then Done true
  else
    let* found := stp_port_mst_findport st STP_CIST_ID port.(port_index) in
    match found with
    | Some c => let* cp := get_port st c in Done (cp.(updtInfo) || cp.(reselect))
    | None => Done false
    end.

(** ** The age of received information *)

Definition stp_portinfo_updtRcvdInfoWhileCist (st : STP_T) (p : PORT_REF) : outcome STP_T :=
  let* port := get_port st p in
  if negb port.(rcvdInternal) then
    let eff_age := effective_age port.(portTimes).(MaxAge) port.(msgTimes).(MessageAge) in
    let hello3 := 3 * port.(portTimes).(HelloTime) in
    let dm := port.(portTimes).(MaxAge) - eff_age in
    let dt :=
      if eff_age <=? port.(portTimes).(MaxAge) then
        if hello3 <? dm then hello3 else dm
      else 0 in
    let* stpm := get_stpm st port.(owner) in
    Done (put_port st p
      (port <| rcvdInfoWhile := dt |>
            <| portTimes := port.(portTimes) <| MessageAge := u16 eff_age |>
                 <| RemainingHops := stpm.(STPM.BrTimes).(RemainingHops) |> |>))
  else
    let times := port.(portTimes) <| MessageAge := port.(msgTimes).(MessageAge) |>
                   <| RemainingHops := u8 (port.(msgTimes).(RemainingHops) - 1) |> in
    Done (put_port st p
      (port <| portTimes := times |>
            <| rcvdInfoWhile :=
                 if (times.(MaxAge) <? times.(MessageAge)) || (times.(RemainingHops) <=? 0)
                 then 0 else 3 * times.(HelloTime) |>)).

Definition stp_portinfo_updtRcvdInfoWhileMsti (st : STP_T) (p : PORT_REF) : outcome STP_T :=
  let* port := get_port st p in
  let hops := u8 (port.(msgTimes).(RemainingHops) - 1) in
  let port := port <| portTimes := port.(portTimes) <| RemainingHops := hops |> |> in
  if hops <=? 0 then Done (put_port st p (port <| rcvdInfoWhile := 0 |>))
  else
    let* found := stp_port_mst_findport st STP_CIST_ID port.(port_index) in
    let* hello :=
      match found with
      | Some c => let* cp := get_port st c in Done cp.(portTimes).(HelloTime)
      | None => Done DEF_BR_HELLOT
      end in
    Done (put_port st p (port <| rcvdInfoWhile := 3 * hello |>)).

Definition stp_portinfo_updtRcvdInfoWhileXst (st : STP_T) (p : PORT_REF) : outcome STP_T :=
  let* port := get_port st p in
  if port.(vlan_id) =? STP_CIST_ID then stp_portinfo_updtRcvdInfoWhileCist st p
  else stp_portinfo_updtRcvdInfoWhileMsti st p.

(** ** The machine *)

Definition info_disabled (port : PORT_T) : PORT_T :=
  port <| rcvdMsg := false |> <| agreed := false |> <| agree := false |>
       <| proposed := false |> <| proposing := false |> <| rcvdInfoWhile := 0 |>
       <| infoIs := Disabled |> <| updtInfo := false |> <| reselect := true |>
       <| selected := false |>.

Definition MSTP_info_enter_state (st : STP_T) (p : PORT_REF) : outcome STP_T :=
  let* '(port, this) := mach_of info_field st p in
  match this.(State) with
  | BEGIN =>
      let port := port <| rcvdMsg := false |> <| msgBpduType := u8 (-1) |>
        <| msgPortRole := RSTP_PORT_ROLE_UNKN |> <| msgFlags := 0 |>
        <| rx_tcn_bpdu_cnt := 0 |> <| rx_rstp_bpdu_cnt := 0 |> <| rx_cfg_bpdu_cnt := 0 |> in
      Done (put_port st p (info_disabled port))
  | DISABLED => Done (put_port st p (info_disabled port))
  | ENABLED =>
      Done (put_port st p
        (port <| portPrio := port.(designPrio) |>
              <| portTimes := stp_times_copy port.(designTimes) |>))
  | AGED =>
      Done (put_port st p
        (port <| infoIs := Aged |> <| reselect := true |> <| selected := false |>))
  | UPDATE =>
      let port := port <| proposed := false |> <| proposing := false |> <| synced := false |>
        <| sync := port.(changedMaster) |> in
      let port := port <| agreed := port.(agreed) && stp_portinfo_xstinfo_check port &&
                                    negb port.(changedMaster) |> in
      let port := port <| portPrio := port.(designPrio) |>
        <| portTimes := stp_times_copy port.(designTimes) |>
        <| updtInfo := false |> <| changedMaster := false |>
        <| infoIs := Mine |> <| newInfo := true |> in
      stp_roletrns_setnewinfoXst p (put_port st p port)
  | CURRENT => Done st
  | RECEIVE =>
      let* '(port, r) := stp_portinfo_xst_rcvinfo st port in
      stp_portinfo_record_masteredxst (put_port st p (port <| rcvdInfo := r |>)) p
  | SUPERIOR_DESIGNATED =>
      let st := put_port st p
        (port <| infoInternal := port.(rcvdInternal) |> <| proposing := false |>) in
      let* st := stp_portinfo_record_proposalxst st p in
      let* st := upd_port p (fun port =>
        port <| agree := port.(agree) && stp_portinfo_xstinfo_check port |>) st in
      let* st := stp_portinfo_record_agreementxst st p in
      let* st := upd_port p (fun port =>
        port <| synced := port.(synced) && port.(agreed) |>
             <| portPrio := port.(msgPrio) |>
             <| portTimes := stp_times_copy port.(msgTimes) |>) st in
      let* st := stp_portinfo_updtRcvdInfoWhileXst st p in
      upd_port p (fun port =>
        port <| infoIs := Received |> <| reselect := true |> <| selected := false |>
             <| rcvdMsg := false |>) st
  | REPEATED_DESIGNATED =>
      let st := put_port st p (port <| infoInternal := port.(rcvdInternal) |>) in
      let* st := stp_portinfo_record_proposalxst st p in
      let* st := stp_portinfo_record_agreementxst st p in
      let* st := stp_portinfo_updtRcvdInfoWhileXst st p in
      upd_port p (fun port => port <| rcvdMsg := false |>) st
  | ROOT =>
      let* st := stp_portinfo_record_agreementxst st p in
      upd_port p (fun port => port <| rcvdMsg := false |>) st
  | OTHER => Done (put_port st p (port <| rcvdMsg := false |>))
  end.

Definition MSTP_info_check_conditions (st : STP_T) (p : PORT_REF) : outcome (STP_T * bool) :=
  let* '(port, this) := mach_of info_field st p in
  let BEGIN_eq := match this.(State) with BEGIN => true | _ => false end in
  if (negb port.(portEnabled) && (port.(infoIs) <>e Disabled)) || BEGIN_eq then
    hop info_field st p DISABLED
  else
    match this.(State) with
    | BEGIN => hop info_field st p DISABLED
    | DISABLED =>
        if port.(portEnabled) then hop info_field st p AGED
        else if port.(rcvdMsg) then hop info_field st p DISABLED
        else if port.(updtInfo) then hop info_field st p DISABLED
        else Done (st, false)
    | ENABLED => hop info_field st p AGED
    | AGED =>
        if port.(selected) && port.(updtInfo) then hop info_field st p UPDATE
        else Done (st, false)
    | UPDATE => hop info_field st p CURRENT
    | CURRENT =>
        if port.(selected) && port.(updtInfo) then hop info_field st p UPDATE
        else
          let* rcvd := stp_portinfo_rcvd_xstinfo st port in
          if (port.(infoIs) =e Received) && (port.(rcvdInfoWhile) =? 0) &&
             negb port.(updtInfo) && negb rcvd then hop info_field st p AGED
          else
            let* updt := stp_portinfo_updt_xstinfo st port in
            if port.(rcvdMsg) && negb updt then hop info_field st p RECEIVE
            else Done (st, false)
    | RECEIVE =>
        match port.(rcvdInfo) with
        | SuperiorDesignateMsg => hop info_field st p SUPERIOR_DESIGNATED
        | RepeatedDesignateMsg => hop info_field st p REPEATED_DESIGNATED
        | ConfirmedRootMsg => hop info_field st p ROOT
        | OtherMsg => hop info_field st p OTHER
        end
    | SUPERIOR_DESIGNATED | REPEATED_DESIGNATED | ROOT | OTHER => hop info_field st p CURRENT
    end.

Definition info_machine (p : PORT_REF) : MACHINE STP_T :=
  port_machine info_field MSTP_info_enter_state MSTP_info_check_conditions p.

(** ** Termination *)

#[export] Instance info_field_laws : FieldLaws info_field.
Proof. by split. Qed.

(** What the conditions of the machine look at. *)
Definition info_view (port : PORT_T) :=
  (port.(info), port.(portEnabled), port.(updtInfo), port.(rcvdMsg), port.(selected),
   port.(infoIs)).

(** [st'] differs from [st] in contents only, and not in the view of port [p]. *)
Definition info_kept (p : PORT_REF) (st st' : STP_T) : Prop :=
  same_shape st st' ∧ info_view <$> st'.(port_heap) !! p = info_view <$> st.(port_heap) !! p.

#[export] Instance info_kept_preorder p : PreOrder (info_kept p).
Proof.
  split; [by split|]. intros a b c [S1 E1] [S2 E2]. split; [by etransitivity|congruence].
Qed.

Lemma info_kept_put p st port port' :
  st.(port_heap) !! p = Some port → pshape port' = pshape port →
  info_view port' = info_view port → info_kept p st (put_port st p port').
Proof.
  intros H Es Ev. split; [by eapply put_port_shape|]. rewrite put_port_lookup, H. simpl. by rewrite Ev.
Qed.

(** A loop over the MSTI ports of a CIST port, when [p] is that port. *)
Lemma info_kept_chain p st port l f :
  ready p st → p.1 = STP_CIST_ID → st.(port_heap) !! p = Some port → port.(nextMst) = l →
  (∀ q, pshape (f q) = pshape q) → wp (upd_ports l f st) (info_kept p st).
Proof.
  intros R Hp H <- Hf. destruct (nextMst_others p st port) as [Hn Hex]; [by split|done|].
  rewrite upd_ports_map by done. split; simpl; [by apply map_ports_shape|].
  by rewrite map_ports_notin.
Qed.

Lemma ready_kept p st st' : info_kept p st st' → ready p st → ready p st'.
Proof. intros [E _]. by apply ready_same. Qed.

(** Sequencing: a function that keeps the view, then another. *)
Lemma wp_kept p st (m : outcome STP_T) (k : STP_T → outcome STP_T) (Q : STP_T → Prop) :
  ready p st → wp m (info_kept p st) →
  (∀ st', ready p st' → info_kept p st st' → wp (k st') Q) →
  wp (obind k m) Q.
Proof.
  intros R Hf Hk. apply wp_bind. eapply wp_mono; [exact Hf|]. intros st' K. apply Hk; [|done].
  by eapply ready_kept.
Qed.

Lemma ready_port p st : ready p st → ∃ port, st.(port_heap) !! p = Some port ∧
  get_port st p = Done port ∧ port.(vlan_id) = p.1 ∧ port.(port_index) = p.2 ∧
  port.(owner) = p.1 ∧ ∃ stpm, get_stpm st p.1 = Done stpm.
Proof.
  intros [W [port H]]. exists port. destruct (wf_port_owner _ _ _ W H) as (? & ? & stpm & Hs).
  split_and!; [done|by apply get_port_Some|by eapply wf_port_vlan|done|done|].
  exists stpm. by apply get_stpm_Some.
Qed.

Lemma record_proposal_kept p st : ready p st →
  wp (stp_portinfo_record_proposalxst st p) (info_kept p st).
Proof.
  intros R. destruct (ready_port p st R) as (port & H & E & Ev & _).
  unfold stp_portinfo_record_proposalxst, stp_portinfo_record_proposalcist,
    stp_portinfo_record_proposalmsti. rewrite E. cbn [obind]. rewrite Ev.
  destruct (Z.eqb_spec p.1 STP_CIST_ID) as [Hc|Hc]; [|by eapply info_kept_put].
  set (st1 := put_port _ _ _). assert (K : info_kept p st st1) by (by eapply info_kept_put).
  destruct (negb _); [|done].
  eapply wp_mono; [eapply (info_kept_chain p st1); [by eapply ready_kept|done|apply put_port_lookup|done..]|].
  intros st2 K2. by etransitivity.
Qed.

Lemma record_agreement_kept p st : ready p st →
  wp (stp_portinfo_record_agreementxst st p) (info_kept p st).
Proof.
  intros R. destruct (ready_port p st R) as (port & H & E & Ev & Ei & _).
  unfold stp_portinfo_record_agreementxst, stp_portinfo_record_agreementcist,
    stp_portinfo_record_agreementmsti. rewrite E. cbn [obind]. rewrite Ev, Ei.
  destruct (Z.eqb_spec p.1 STP_CIST_ID) as [Hc|Hc].
  - set (st1 := put_port _ _ _). assert (K : info_kept p st st1) by (by eapply info_kept_put).
    destruct (negb _); [|done].
    eapply wp_mono; [eapply (info_kept_chain p st1);
      [by eapply ready_kept|done|apply put_port_lookup|done..]|].
    intros st2 K2. by etransitivity.
  - destruct (findport_cist _ _ _ (proj1 R) H) as (c & cport & -> & _ & Hcp). cbn [obind].
    rewrite (get_port_Some _ _ _ Hcp). cbn [obind]. by eapply info_kept_put.
Qed.

Lemma record_mastered_kept p st : ready p st →
  wp (stp_portinfo_record_masteredxst st p) (info_kept p st).
Proof.
  intros R. destruct (ready_port p st R) as (port & H & E & Ev & _).
  unfold stp_portinfo_record_masteredxst, stp_portinfo_record_masteredcist,
    stp_portinfo_record_masteredmsti. rewrite E. cbn [obind]. rewrite Ev.
  destruct (Z.eqb_spec p.1 STP_CIST_ID) as [Hc|Hc]; [|by eapply info_kept_put].
  destruct (negb _); [by eapply info_kept_chain|done].
Qed.

Lemma updtRcvdInfoWhile_kept p st : ready p st →
  wp (stp_portinfo_updtRcvdInfoWhileXst st p) (info_kept p st).
Proof.
  intros R. destruct (ready_port p st R) as (port & H & E & Ev & Ei & Eo & stpm & Es).
  unfold stp_portinfo_updtRcvdInfoWhileXst, stp_portinfo_updtRcvdInfoWhileCist,
    stp_portinfo_updtRcvdInfoWhileMsti. rewrite E. cbn [obind]. rewrite Ev, Eo.
  destruct (Z.eqb_spec p.1 STP_CIST_ID) as [Hc|Hc].
  - destruct (negb _); [|by eapply info_kept_put].
    rewrite Es. cbn [obind]. by eapply info_kept_put.
  - case_match; [by eapply info_kept_put|]. simpl. rewrite Ei.
    destruct (findport_cist _ _ _ (proj1 R) H) as (c & cport & -> & _ & Hcp). cbn [obind].
    rewrite (get_port_Some _ _ _ Hcp). cbn [obind]. by eapply info_kept_put.
Qed.

Lemma upd_port_kept p st f : ready p st →
  (∀ q, pshape (f q) = pshape q) → (∀ q, info_view (f q) = info_view q) →
  wp (upd_port p f st) (info_kept p st).
Proof.
  intros R Hs Hv. destruct (ready_port p st R) as (port & H & E & _).
  unfold upd_port. rewrite E. cbn [obind]. by eapply info_kept_put.
Qed.

Lemma recvmsg_timer_total st port stpm :
  get_stpm st port.(owner) = Done stpm →
  ∃ t, stp_portinfo_updt_recvmsg_timer st port = Done t.
Proof.
  intros Es. unfold stp_portinfo_updt_recvmsg_timer. rewrite Es.
  destruct (_ =? _), (negb port.(rcvdInternal)); simpl; eauto.
Qed.

(** The received message is classified without changing the view. *)
Lemma rcvinfo_total cfg_ok st port stpm :
  get_stpm st port.(owner) = Done stpm →
  ∃ port' r, rcvinfo cfg_ok st port = Done (port', r) ∧
    pshape port' = pshape port ∧ info_view port' = info_view port.
Proof.
  intros Es. unfold rcvinfo. destruct (port.(msgBpduType) =? _); [by eexists _, _|].
  set (port1 := if BPDU_RSTP =? _ then _ else _).
  assert (E1 : pshape port1 = pshape port ∧ info_view port1 = info_view port ∧
    port1.(owner) = port.(owner)) by (unfold port1; by destruct (BPDU_RSTP =? _)).
  destruct E1 as (E1 & E2 & E3). rewrite <- E3 in Es.
  destruct (recvmsg_timer_total st port1 stpm Es) as [t ->]. cbn [obind].
  eexists port1, _. by split.
Qed.

Lemma xst_rcvinfo_total st p port : ready p st → st.(port_heap) !! p = Some port →
  ∃ port' r, stp_portinfo_xst_rcvinfo st port = Done (port', r) ∧
    pshape port' = pshape port ∧ info_view port' = info_view port.
Proof.
  intros R H. destruct (ready_port p st R) as (port0 & H0 & _ & _ & _ & Eo & stpm & Es).
  simplify_eq. rewrite <- Eo in Es. unfold stp_portinfo_xst_rcvinfo.
  destruct (_ =? _); by eapply rcvinfo_total.
Qed.

(** The view after entering a state. *)
Definition info_after (s : STATES) (port port' : PORT_T) : Prop :=
  port'.(info) = port.(info) ∧ port'.(portEnabled) = port.(portEnabled) ∧
  match s with
  | BEGIN | DISABLED =>
      port'.(infoIs) = Disabled ∧ port'.(rcvdMsg) = false ∧ port'.(updtInfo) = false
  | AGED => port'.(selected) = false
  | UPDATE => port'.(updtInfo) = false ∧ port'.(rcvdMsg) = port.(rcvdMsg)
  | SUPERIOR_DESIGNATED | REPEATED_DESIGNATED | ROOT | OTHER =>
      port'.(rcvdMsg) = false ∧ port'.(updtInfo) = port.(updtInfo)
  | ENABLED | CURRENT | RECEIVE => info_view port' = info_view port
  end.

Lemma kept_view p st st' port :
  info_kept p st st' → st.(port_heap) !! p = Some port →
  ∃ port', st'.(port_heap) !! p = Some port' ∧ info_view port' = info_view port.
Proof.
  intros [_ E] H. rewrite H in E. simpl in E. apply fmap_Some in E as (port' & ? & ?). eauto.
Qed.

(** Last step of the states that end with assignments to the port. *)
Lemma wp_last p st st' port f s :
  ready p st' → info_kept p st st' → st.(port_heap) !! p = Some port →
  (∀ q, pshape (f q) = pshape q) →
  (∀ q, info_view q = info_view port → info_after s port (f q)) →
  wp (upd_port p f st') (fun st1 => ready p st1 ∧ ∃ port1,
    st1.(port_heap) !! p = Some port1 ∧ info_after s port port1).
Proof.
  intros R K H Hs Hf. destruct (kept_view _ _ _ _ K H) as (port' & H' & E').
  unfold upd_port. rewrite (get_port_Some _ _ _ H'). cbn [obind]. split.
  - eapply ready_same; [by eapply put_port_shape|done].
  - eexists. split; [apply put_port_lookup|by apply Hf].
Qed.

Lemma info_enter_spec p st port :
  ready p st → st.(port_heap) !! p = Some port →
  wp (MSTP_info_enter_state st p) (fun st1 => ready p st1 ∧ ∃ port1,
    st1.(port_heap) !! p = Some port1 ∧ info_after port.(info).(State) port port1).
Proof.
  intros R H. unfold MSTP_info_enter_state.
  rewrite (mach_of_Done info_field _ _ _ port.(info) H eq_refl). cbn [obind].
  assert (Hready : ∀ port', pshape port' = pshape port → ready p (put_port st p port')).
  { intros port' E. eapply ready_same; [by eapply put_port_shape|done]. }
  assert (Hput : ∀ s port', pshape port' = pshape port → info_after s port port' →
    wp (Done (put_port st p port')) (fun st1 => ready p st1 ∧ ∃ port1,
      st1.(port_heap) !! p = Some port1 ∧ info_after s port port1)).
  { intros s port' E A. split; [by apply Hready|]. exists port'. by rewrite put_port_lookup. }
  destruct port.(info).(State); try (by apply Hput).
  - (* UPDATE *) set (port1 := set newInfo _ _).
    eapply wp_mono; [apply setnewinfo_spec; [by apply (Hready port1)|apply put_port_lookup]|].
    intros st1 (E1 & _ & (x & y & H1) & _). split; [eapply ready_same; [done|by apply Hready]|].
    by eexists.
  - split; [done|]. by exists port.
  - (* RECEIVE *) destruct (xst_rcvinfo_total st p port R H) as (port' & r & -> & Es & Ev).
    cbn [obind]. set (port1 := port' <| rcvdInfo := r |>).
    assert (R1 : ready p (put_port st p port1)) by (by apply Hready).
    eapply wp_mono; [by apply record_mastered_kept|]. intros st1 K.
    split; [by eapply ready_kept|].
    destruct (kept_view _ _ _ port1 K (put_port_lookup _ _ _)) as (q & Hq & Eq).
    exists q. split; [done|]. assert (info_view q = info_view port) as E
      by (rewrite Eq; exact Ev). unfold info_after. split_and!; [| |done]; by injection E.
  - (* SUPERIOR_DESIGNATED *) set (port1 := set proposing _ _).
    assert (K0 : info_kept p st (put_port st p port1)) by (by eapply info_kept_put).
    assert (R0 : ready p (put_port st p port1)) by (by apply Hready).
    eapply (wp_kept p); [eassumption|by apply record_proposal_kept|]. intros st1 R1 K1.
    eapply (wp_kept p); [eassumption|by apply upd_port_kept|]. intros st2 R2 K2.
    eapply (wp_kept p); [eassumption|by apply record_agreement_kept|]. intros st3 R3 K3.
    eapply (wp_kept p); [eassumption|by apply upd_port_kept|]. intros st4 R4 K4.
    eapply (wp_kept p); [eassumption|by apply updtRcvdInfoWhile_kept|]. intros st5 R5 K5.
    eapply (wp_last p st); [done|by repeat (etransitivity; [eassumption|])|done|done|].
    intros q E. split_and!; (done || by injection E).
  - set (port1 := set infoInternal _ _).
    assert (K0 : info_kept p st (put_port st p port1)) by (by eapply info_kept_put).
    assert (R0 : ready p (put_port st p port1)) by (by apply Hready).
    eapply (wp_kept p); [eassumption|by apply record_proposal_kept|]. intros st1 R1 K1.
    eapply (wp_kept p); [eassumption|by apply record_agreement_kept|]. intros st3 R3 K3.
    eapply (wp_kept p); [eassumption|by apply updtRcvdInfoWhile_kept|]. intros st5 R5 K5.
    eapply (wp_last p st); [done|by repeat (etransitivity; [eassumption|])|done|done|].
    intros q E. split_and!; (done || by injection E).
  - eapply (wp_kept p); [eassumption|by apply record_agreement_kept|]. intros st3 R3 K3.
    eapply (wp_last p st); [done..|].
    intros q E. split_and!; (done || by injection E).
Qed.

Definition info_mu (s : STATES) (port : PORT_T) : nat :=
  let U := (10 * Nat.b2n port.(updtInfo))%nat in
  let M := (5 * Nat.b2n port.(rcvdMsg))%nat in
  match s with
  | BEGIN => 3
  | DISABLED => if port.(portEnabled) then 2 else 0
  | ENABLED => 2
  | AGED => 1
  | CURRENT => 2 + U + M
  | UPDATE => 3 + M
  | RECEIVE => 5 + U
  | SUPERIOR_DESIGNATED | REPEATED_DESIGNATED | ROOT | OTHER => 4 + U
  end%nat.

#[local] Arguments info_mu : simpl never.

Lemma rcvd_xst_total st p port : ready p st → st.(port_heap) !! p = Some port →
  ∃ b, stp_portinfo_rcvd_xstinfo st port = Done b.
Proof.
  intros R H. destruct (ready_port p st R) as (port0 & H0 & _ & Ev & Ei & _). simplify_eq.
  unfold stp_portinfo_rcvd_xstinfo. rewrite Ev, Ei. destruct (_ =? _); [eauto|].
  destruct (findport_cist _ _ _ (proj1 R) H) as (c & cport & -> & _ & Hcp). cbn [obind].
  rewrite (get_port_Some _ _ _ Hcp). simpl. eauto.
Qed.

Lemma updt_xst_total st p port : ready p st → st.(port_heap) !! p = Some port →
  ∃ b, stp_portinfo_updt_xstinfo st port = Done b.
Proof.
  intros R H. destruct (ready_port p st R) as (port0 & H0 & _ & Ev & Ei & _). simplify_eq.
  unfold stp_portinfo_updt_xstinfo. rewrite Ev, Ei. destruct (_ =? _); [eauto|].
  destruct port.(updtInfo); [eauto|].
  destruct (findport_cist _ _ _ (proj1 R) H) as (c & cport & -> & _ & Hcp). cbn [obind].
  rewrite (get_port_Some _ _ _ Hcp). simpl. eauto.
Qed.

Lemma info_check_spec p st2 port port1 m :
  ready p st2 → info_after m.(State) port port1 →
  st2.(port_heap) !! p = Some (mach_put info_field (mkMach m.(State) false) port1) →
  MSTP_info_check_conditions st2 p = Done (st2, false) ∨
  ∃ s, MSTP_info_check_conditions st2 p = hop info_field st2 p s ∧
    (info_mu s port1 < info_mu m.(State) port)%nat.
Proof.
  intros R A H2. unfold MSTP_info_check_conditions.
  rewrite (mach_of_Done _ _ _ _ _ H2 (mach_get_put _ _)). cbn [obind].
  destruct (rcvd_xst_total st2 p _ R H2) as [b1 ->], (updt_xst_total st2 p _ R H2) as [b2 ->].
  destruct A as (_ & Ep & A). cbn [obind]. simpl mach_put.
  destruct m.(State); simpl; rewrite ?orb_true_r, ?orb_false_r;
    unfold info_mu; rewrite ?Ep;
    repeat match goal with H : _ ∧ _ |- _ => destruct H end;
    try match goal with H : info_view _ = info_view _ |- _ => injection H as ?Hi ?He ?Hu ?Hm ?Hs ?Hf end;
    try (rewrite <- Hu, <- Hm);
    repeat (case_match; simplify_eq/=; bool_facts); try (by left);
    right; eexists; (split; [done|]); simpl;
    repeat match goal with H : ?a = _ |- context [?a] => rewrite H end; simpl; try lia;
    repeat case_match; simplify_eq/=; (lia || congruence).
Qed.

Lemma info_turn p st port m :
  ready p st → st.(port_heap) !! p = Some port → mach_get info_field port = Some m →
  wp (MSTP_info_enter_state st p) (fun st1 => ready p st1 ∧ ∃ port1,
    st1.(port_heap) !! p = Some port1 ∧ mach_get info_field port1 = Some m ∧
    ∀ st2, ready p st2 →
      st2.(port_heap) !! p = Some (mach_put info_field (mkMach m.(State) false) port1) →
      MSTP_info_check_conditions st2 p = Done (st2, false) ∨
      ∃ s, MSTP_info_check_conditions st2 p = hop info_field st2 p s ∧
        (info_mu s port1 < info_mu m.(State) port)%nat).
Proof.
  intros R H E. injection E as <-. eapply wp_mono; [by apply info_enter_spec|].
  intros st1 (R1 & port1 & H1 & A). split; [done|]. exists port1. split; [done|]. split.
  - exact (f_equal Some (proj1 A)).
  - intros st2 R2 H2. by eapply info_check_spec.
Qed.

#[export] Instance info_terminating p :
  Terminating (info_machine p) (ready p) (mu_at info_field info_mu p).
Proof.
  apply (port_machine_terminating info_field); [| |intros [] ? ?; reflexivity|apply info_turn].
  - intros st [W [port H]]. by eexists _, _.
  - intros st port m R H. eapply ready_same; [by eapply put_port_shape|done].
Qed.
