(* ===== verification/StpRolesel.v ===== *)
(** * Port role selection ([stp_rolesel.c])

    One machine per instance.  It computes the root priority vector from what
    the ports have received, the designated vector of each port, and the role
    of each port. *)

From Stdlib Require Import ZArith Lia.
From stdpp Require Import base gmap list option.
From S2P Require Import Prelude StpTypes StpVector StpHeap StpStatmch StpPort StpRoletrns.
Import RoleselState.

Definition stp_rolesel_is_backup_port (port : PORT_T) (this : STPM_T) : bool :=
  stp_vector_compare_bridge_id port.(portPrio).(design_bridge) this.(STPM.BrId) =? 0.

(** A new role resets the hand-shake flags. *)
Definition stp_rolesel_setRoleSelected (newRole : PORT_ROLE_T) (port : PORT_T) : PORT_T :=
  let port := port <| selectedRole := newRole |> in
  if newRole =e port.(role) then port
  else
    let port := if newRole =e NonStpPort then port <| role := newRole |> else port in
    port <| proposed := false |> <| proposing := false |> <| agreed := false |>
         <| agree := false |> <| synced := false |> <| sync := false |>.

Definition stp_rolesel_updtRoleDisableTree (st : STP_T) (b : Z) : outcome STP_T :=
  let* this := get_stpm st b in
  upd_ports this.(STPM.ports) (fun port => port <| selectedRole := DisabledPort |>) st.

Definition stp_rolesel_clearReselectTree (st : STP_T) (b : Z) : outcome STP_T :=
  let* this := get_stpm st b in
  upd_ports this.(STPM.ports) (fun port => port <| reselect := false |>) st.

(** ** The root priority vector *)

(** [rootPathPrio]: the vector a port offers, from what it has received. *)
Definition root_path_prio (cist : bool) (BrId : BRIDGE_ID) (port : PORT_T) : PRIO_VECTOR_T :=
  let v := port.(portPrio) in
  if cist && negb port.(infoInternal) then
    v <| root_path_cost := u32 (v.(root_path_cost) + port.(operPCost)) |>
      <| region_root_bridge := BrId |> <| region_root_path_cost := 0 |>
  else v <| region_root_path_cost := u32 (v.(region_root_path_cost) + port.(operPCost)) |>.

(** The guards of the loop: whether the port takes part. *)
Definition offers_root (st : STP_T) (stpm : STPM_T) (port : PORT_T) : outcome bool :=
  if port.(admin_non_stp) then Done false
  else match port.(infoIs) with
  | Disabled | Aged | Mine => Done false
  | Received =>
      if stp_vector_compare_bridge_id port.(portPrio).(design_bridge) stpm.(STPM.BrId) =? 0
      then Done false
      else if negb (stpm.(STPM.vlan_id) =? STP_CIST_ID) then
        let* found := stp_port_mst_findport st STP_CIST_ID port.(port_index) in
        match found with
        | None => Done false
        | Some c =>
            let* cist_port := get_port st c in
            Done (negb (negb cist_port.(infoInternal) && (cist_port.(infoIs) =e Received)))
        end
      else Done true
  end.

Definition updtRootPrio_port (b : Z) (q : PORT_REF) (st : STP_T) : outcome STP_T :=
  let* port := get_port st q in
  let* stpm := get_stpm st b in
  let* offers := offers_root st stpm port in
  if offers : bool then
    let* own := get_stpm st port.(owner) in
    let rootPathPrio :=
      root_path_prio (stpm.(STPM.vlan_id) =? STP_CIST_ID) own.(STPM.BrId) port in
    if stp_vector_compare rootPathPrio stpm.(STPM.rootPrio) <? 0 then
      Done (put_stpm st b
        (stpm <| STPM.rootPrio := rootPathPrio |>
              <| STPM.rootTimes := stp_times_copy port.(portTimes) |>))
    else Done st
  else Done st.

Definition stp_rolesel_updtRootPrio (st : STP_T) (b : Z) : outcome STP_T :=
  let* stpm := get_stpm st b in
  foldM (updtRootPrio_port b) stpm.(STPM.ports) st.

(** ** Roles *)

(** The [switch (port->infoIs)] of both role functions. *)
Definition select_role (stpm : STPM_T) (port : PORT_T) : PORT_T :=
  match port.(infoIs) with
  | Disabled => stp_rolesel_setRoleSelected DisabledPort port
  | Aged => (stp_rolesel_setRoleSelected DesignatedPort port) <| updtInfo := true |>
  | Mine =>
      let port := stp_rolesel_setRoleSelected DesignatedPort port in
      if negb (stp_vector_compare port.(portPrio) port.(designPrio) =? 0) ||
         negb (stp_times_compare port.(portTimes) port.(designTimes) =? 0) then
        port <| updtInfo := true |>
      else port
  | Received =>
      if stpm.(STPM.rootPortId) =? port.(port_id) then
        (stp_rolesel_setRoleSelected RootPort port) <| updtInfo := false |>
      else if stp_vector_compare port.(designPrio) port.(portPrio) <? 0 then
        (stp_rolesel_setRoleSelected DesignatedPort port) <| updtInfo := true |>
      else
        let r := if stp_rolesel_is_backup_port port stpm then BackupPort else AlternatePort in
        (stp_rolesel_setRoleSelected r port) <| updtInfo := false |>
  end.

Definition non_stp_role (port : PORT_T) : PORT_T :=
  (stp_rolesel_setRoleSelected NonStpPort port) <| learn := true |> <| forward := true |>.

(** The designated vector and times of a port. *)
Definition set_designated (cist : bool) (stpm : STPM_T) (port : PORT_T) : PORT_T :=
  if port.(admin_non_stp) then port
  else
    let rp := stpm.(STPM.rootPrio) in
    let v := stp_vector_create rp.(root_bridge) rp.(root_path_cost) rp.(region_root_bridge)
               rp.(region_root_path_cost) stpm.(STPM.BrId) port.(port_id) port.(port_id) in
    let v := if cist && negb port.(sendRSTP) then v <| region_root_bridge := stpm.(STPM.BrId) |>
             else v in
    port <| designPrio := v |> <| designTimes := stp_times_copy stpm.(STPM.rootTimes) |>.

(** The common beginning: a fresh root vector, the best offer, the designated
    vectors and the root port. *)
Definition updtRoles_prio (st : STP_T) (b : Z) (root_br : BRIDGE_ID) : outcome STP_T :=
  let* stpm := get_stpm st b in
  let cist := stpm.(STPM.vlan_id) =? STP_CIST_ID in
  let st := put_stpm st b
    (stpm <| STPM.rootPrio :=
               stp_vector_create root_br 0 stpm.(STPM.BrId) 0 stpm.(STPM.BrId) 0 0 |>
          <| STPM.rootTimes := stp_times_copy stpm.(STPM.BrTimes) |>
          <| STPM.rootPortId := 0 |>) in
  let* st := stp_rolesel_updtRootPrio st b in
  let* stpm := get_stpm st b in
  let* st := upd_ports stpm.(STPM.ports) (set_designated cist stpm) st in
  Done (put_stpm st b (stpm <| STPM.rootPortId := stpm.(STPM.rootPrio).(bridge_port) |>)).

(** One turn of the last loop of [stp_rolesel_updtRolesCist]: a boundary port
    makes its MSTI ports reselect. *)
Definition updtRolesCist_port (b : Z) (q : PORT_REF) (st : STP_T) : outcome STP_T :=
  let* port := get_port st q in
  let* stpm := get_stpm st b in
  if port.(admin_non_stp) then Done (put_port st q (non_stp_role port))
  else
    let port := select_role stpm port in
    let st := put_port st q port in
    if negb port.(infoInternal) || negb port.(rcvdInternal) then
      upd_ports port.(nextMst) (fun m => m <| reselect := true |> <| selected := false |>) st
    else Done st.

Definition stp_rolesel_updtRolesCist (st : STP_T) (b : Z) : outcome STP_T :=
  let* stpm := get_stpm st b in
  let had_cist_pathcost := stpm.(STPM.rootPrio).(root_path_cost) in
  let old_region_root := stpm.(STPM.rootPrio).(region_root_bridge).(addr) in
  let* st := updtRoles_prio st b stpm.(STPM.BrId) in
  let* stpm := get_stpm st b in
  let* st :=
    if (negb (stpm.(STPM.rootPrio).(root_path_cost) =? 0) || negb (had_cist_pathcost =? 0)) &&
       negb (memcmp old_region_root stpm.(STPM.rootPrio).(region_root_bridge).(addr) =? 0) then
      foldM (fun q st =>
        let* port := get_port st q in
        upd_ports port.(nextMst) (fun m => m <| changedMaster := true |>) st)
        stpm.(STPM.ports) st
    else Done st in
  foldM (updtRolesCist_port b) stpm.(STPM.ports) st.

(** One turn of the last loop of [stp_rolesel_updtRolesMsti]; [None] is the
    early return. *)
Definition updtRolesMsti_port (b : Z) (q : PORT_REF) (st : STP_T) : outcome (option STP_T) :=
  let* port := get_port st q in
  let* stpm := get_stpm st b in
  let* found := stp_port_mst_findport st STP_CIST_ID port.(port_index) in
  if port.(admin_non_stp) then Done (Some (put_port st q (non_stp_role port)))
  else
    match found with
    | None => Done None
    | Some c =>
        let* cistport := get_port st c in
        if cistport.(portEnabled) && (cistport.(infoIs) =e Received) &&
           negb cistport.(infoInternal) then
          let port :=
            if cistport.(selectedRole) =e RootPort then
              stp_rolesel_setRoleSelected MasterPort port
            else if cistport.(selectedRole) =e AlternatePort then
              stp_rolesel_setRoleSelected AlternatePort port
            else port in
          let port :=
            if negb (stp_vector_compare port.(portPrio) port.(designPrio) =? 0) ||
               negb (stp_times_compare port.(portTimes) port.(designTimes) =? 0) then
              port <| updtInfo := true |>
            else port in
          Done (Some (put_port st q port))
        else Done (Some (put_port st q (select_role stpm port)))
    end.

Fixpoint updtRolesMsti_loop (b : Z) (l : list PORT_REF) (st : STP_T) : outcome STP_T :=
  match l with
  | [] => Done st
  | q :: l' =>
      let* r := updtRolesMsti_port b q st in
      match r with
      | Some st => updtRolesMsti_loop b l' st
      | None => Done st
      end
  end.

Definition stp_rolesel_updtRolesMsti (st : STP_T) (b : Z) : outcome STP_T :=
  let* st := updtRoles_prio st b null_br in
  let* stpm := get_stpm st b in
  updtRolesMsti_loop b stpm.(STPM.ports) st.

Definition stp_rolesel_updtRolesXst (st : STP_T) (b : Z) : outcome STP_T :=
  let* stpm := get_stpm st b in
  if STP_CIST_ID =? stpm.(STPM.vlan_id) then stp_rolesel_updtRolesCist st b
  else stp_rolesel_updtRolesMsti st b.

(** Whether some port of the list asks for a reselection. *)
Fixpoint any_reselect (st : STP_T) (l : list PORT_REF) : outcome bool :=
  match l with
  | [] => Done false
  | q :: l' =>
      let* port := get_port st q in
      if port.(reselect) then Done true else any_reselect st l'
  end.

Definition stp_rolesel_setSelectedTree (st : STP_T) (b : Z) : outcome STP_T :=
  let* this := get_stpm st b in
  let* again := any_reselect st this.(STPM.ports) in
  if again : bool then Done st
  else upd_ports this.(STPM.ports) (fun port => port <| selected := true |>) st.

(** ** The machine *)

Definition MSTP_rolesel_enter_state (st : STP_T) (b : Z) : outcome STP_T :=
  let* stpm := get_stpm st b in
  match stpm.(STPM.rolesel).(State) with
  | BEGIN | INIT_BRIDGE => stp_rolesel_updtRoleDisableTree st b
  | RECEIVE =>
      let* st := stp_rolesel_clearReselectTree st b in
      let* st := stp_rolesel_updtRolesXst st b in
      stp_rolesel_setSelectedTree st b
  end.

Definition rolesel_hop (st : STP_T) (b : Z) (s : STATES) : outcome (STP_T * bool) :=
  let* stpm := get_stpm st b in
  Done (put_stpm st b
    (stpm <| STPM.rolesel := stp_statmch_hop_2_state stpm.(STPM.rolesel) s |>), true).

Definition MSTP_rolesel_check_conditions (st : STP_T) (b : Z) : outcome (STP_T * bool) :=
  let* stpm := get_stpm st b in
  match stpm.(STPM.rolesel).(State) with
  | BEGIN => rolesel_hop st b INIT_BRIDGE
  | INIT_BRIDGE => rolesel_hop st b RECEIVE
  | RECEIVE =>
      let* again := any_reselect st stpm.(STPM.ports) in
      if again : bool then rolesel_hop st b RECEIVE else Done (st, false)
  end.

Definition rolesel_machine (b : Z) : MACHINE STP_T :=
  mkMachine
    (fun st => let* stpm := get_stpm st b in Done stpm.(STPM.rolesel).(changeState))
    (fun c st =>
       let* stpm := get_stpm st b in
       Done (put_stpm st b
         (stpm <| STPM.rolesel := mkMach stpm.(STPM.rolesel).(State) c |>)))
    (fun st => MSTP_rolesel_enter_state st b)
    (fun st => MSTP_rolesel_check_conditions st b).

(** After a change of the bridge's identity. *)
Definition stp_rolesel_update_stpm (st : STP_T) (b : Z) : outcome STP_T :=
  let* this := get_stpm st b in
  let rootPathPrio :=
    stp_vector_create this.(STPM.BrId) 0 this.(STPM.BrId) 0 this.(STPM.BrId) 0 0 in
  let this :=
    if (this.(STPM.rootPortId) =? 0) ||
       (stp_vector_compare rootPathPrio this.(STPM.rootPrio) <? 0) then
      this <| STPM.rootPrio := rootPathPrio |>
    else this in
  let rp := this.(STPM.rootPrio) in
  upd_ports this.(STPM.ports) (fun port =>
    let v := stp_vector_create rp.(root_bridge) rp.(root_path_cost) rp.(region_root_bridge)
               rp.(region_root_path_cost) this.(STPM.BrId) port.(port_id) port.(port_id) in
    let port := port <| designPrio := v |> in
    let port :=
      if (port.(infoIs) <>e Received) || (this.(STPM.rootPortId) =? port.(port_id)) then
        port <| portPrio := v |>
      else port in
    port <| reselect := true |> <| selected := false |>)
    (put_stpm st b this).

(** ** What the computation of the root vector does *)

(** The offer of a port: its vector and its times. *)
Definition offer (st : STP_T) (stpm : STPM_T) (q : PORT_REF) : option (PRIO_VECTOR_T * TIMEVALUES_T) :=
  match st.(port_heap) !! q with
  | Some port =>
      match offers_root st stpm port with
      | Done true =>
          Some (root_path_prio (stpm.(STPM.vlan_id) =? STP_CIST_ID) stpm.(STPM.BrId) port,
                port.(portTimes))
      | _ => None
      end
  | None => None
  end.

(** Keeps the better of two offers, the first one on a tie. *)
Definition better (a v : PRIO_VECTOR_T * TIMEVALUES_T) : PRIO_VECTOR_T * TIMEVALUES_T :=
  if stp_vector_compare v.1 a.1 <? 0 then v else a.

Definition best (init : PRIO_VECTOR_T * TIMEVALUES_T) (l : list (PRIO_VECTOR_T * TIMEVALUES_T)) :=
  foldl better init l.

Definition set_root (r : PRIO_VECTOR_T * TIMEVALUES_T) (stpm : STPM_T) : STPM_T :=
  stpm <| STPM.rootPrio := r.1 |> <| STPM.rootTimes := r.2 |>.

Lemma offers_root_total st stpm q port :
  wf st → st.(port_heap) !! q = Some port → ∃ b, offers_root st stpm port = Done b.
Proof.
  intros W H. unfold offers_root. destruct port.(admin_non_stp); [eauto|].
  destruct port.(infoIs); try (eexists; reflexivity).
  case_match; [eauto|]. case_match; [|eauto].
  destruct (wf_port_owner _ _ _ W H) as (_ & -> & _).
  destruct (findport_cist _ _ _ W H) as (c & cport & -> & _ & Hcp). cbn [obind].
  rewrite (get_port_Some _ _ _ Hcp). simpl. eauto.
Qed.

(** The guards look neither at the root vector nor at the root times. *)
Lemma offers_root_stpm st h stpm stpm' port :
  stpm'.(STPM.BrId) = stpm.(STPM.BrId) → stpm'.(STPM.vlan_id) = stpm.(STPM.vlan_id) →
  offers_root (st <| stpm_heap := h |>) stpm' port = offers_root st stpm port.
Proof. intros E1 E2. unfold offers_root. rewrite E1, E2. done. Qed.

(** Everything but the instances is as before. *)
Definition only_stpms (st st' : STP_T) : Prop := st' = st <| stpm_heap := st'.(stpm_heap) |>.

Lemma updtRootPrio_port_spec st b q port stpm :
  wf st → st.(port_heap) !! q = Some port → q.1 = b → st.(stpm_heap) !! b = Some stpm →
  updtRootPrio_port b q st =
    Done (st <| stpm_heap := <[b := set_root
      (from_option (better (stpm.(STPM.rootPrio), stpm.(STPM.rootTimes)))
        (stpm.(STPM.rootPrio), stpm.(STPM.rootTimes)) (offer st stpm q)) stpm]>
        st.(stpm_heap) |>).
Proof.
  intros W H Hq Hs. unfold updtRootPrio_port, offer.
  rewrite (get_port_Some _ _ _ H), H. cbn [obind]. rewrite (get_stpm_Some _ _ _ Hs). cbn [obind].
  destruct (offers_root_total st stpm q port W H) as [o ->]. cbn [obind].
  destruct (wf_port_owner _ _ _ W H) as (-> & _ & _). rewrite Hq, (get_stpm_Some _ _ _ Hs).
  assert (Hid : Done st = Done (st <| stpm_heap :=
    <[b := set_root (stpm.(STPM.rootPrio), stpm.(STPM.rootTimes)) stpm]> st.(stpm_heap) |>)).
  { f_equal. change (set_root _ stpm) with stpm. by rewrite (insert_id _ _ _ Hs). }
  destruct o; [|exact Hid]. cbn [obind from_option]. unfold better. simpl.
  destruct (_ <? 0); [|exact Hid]. done.
Qed.

(** The loop computes the best of the offers. *)
Lemma updtRootPrio_loop l : ∀ st b stpm,
  wf st → st.(stpm_heap) !! b = Some stpm →
  (∀ q, q ∈ l → q.1 = b ∧ is_Some (st.(port_heap) !! q)) →
  foldM (updtRootPrio_port b) l st =
    Done (st <| stpm_heap := <[b := set_root
      (best (stpm.(STPM.rootPrio), stpm.(STPM.rootTimes)) (omap (offer st stpm) l)) stpm]>
      st.(stpm_heap) |>).
Proof.
  induction l as [|q l IH]; intros st b stpm W Hs Hl; cbn [foldM].
  { change (set_root _ stpm) with stpm. by rewrite (insert_id _ _ _ Hs). }
  destruct (Hl q ltac:(left)) as [Hq [port H]].
  rewrite (updtRootPrio_port_spec st b q port stpm) by done. cbn [obind].
  set (r := from_option _ _ _). set (st1 := st <| stpm_heap := _ |>).
  rewrite (IH st1 b (set_root r stpm)).
  - assert (Ho : omap (offer st1 (set_root r stpm)) l = omap (offer st stpm) l).
    { apply list_omap_ext, Forall_Forall2_diag, Forall_forall. intros x _. unfold offer, st1.
      simpl. destruct (st.(port_heap) !! x); [|done]. by rewrite (offers_root_stpm st _ stpm). }
    rewrite Ho. unfold st1. simpl. rewrite insert_insert_eq.
    assert (Hr : (r.1, r.2) = r) by (by destruct r). rewrite Hr. unfold r.
    by destruct (offer st stpm q).
  - apply (wf_same st); [|done]. exact (put_stpm_shape st b stpm (set_root r stpm) Hs eq_refl).
  - unfold st1. simpl. by rewrite lookup_insert_eq.
  - intros x Hx. apply Hl. by right.
Qed.

Lemma updtRootPrio_spec st b stpm :
  wf st → st.(stpm_heap) !! b = Some stpm →
  stp_rolesel_updtRootPrio st b =
    Done (st <| stpm_heap := <[b := set_root
      (best (stpm.(STPM.rootPrio), stpm.(STPM.rootTimes))
        (omap (offer st stpm) stpm.(STPM.ports))) stpm]> st.(stpm_heap) |>).
Proof.
  intros W Hs. unfold stp_rolesel_updtRootPrio. rewrite (get_stpm_Some _ _ _ Hs). cbn [obind].
  apply updtRootPrio_loop; [done..|]. intros q Hq.
  destruct (wf_on_list _ _ _ _ W Hs Hq) as [? [port ?]]. eauto.
Qed.

(** ** The best offer *)

Definition wf_offer (v : PRIO_VECTOR_T * TIMEVALUES_T) : Prop := wf_vector v.1.

Lemma best_in init l : best init l = init ∨ best init l ∈ l.
Proof.
  revert init. induction l as [|v l IH]; intros init; simpl; [by left|].
  destruct (IH (better init v)) as [->|?]; [|by right; right].
  unfold better. destruct (_ <? 0); [right; left|by left].
Qed.

Lemma best_le init l :
  wf_offer init → Forall wf_offer l →
  ∀ v, v ∈ init :: l → stp_vector_compare (best init l).1 v.1 ≤ 0.
Proof.
  revert init. induction l as [|x l IH]; intros init Wi Wl v Hv.
  - apply elem_of_cons in Hv as [->|Hv]; [|by apply not_elem_of_nil in Hv]. simpl.
    assert (stp_vector_compare init.1 init.1 = 0) by (by apply compare_eq). lia.
  - inversion Wl as [|? ? Wx Wl']; subst. cbn [best foldl]. fold (best (better init x) l).
    assert (Wb : wf_offer (better init x)) by (unfold better; by destruct (_ <? 0)).
    assert (Hb : ∀ y, y = init ∨ y = x → wf_offer y ∧ stp_vector_compare (better init x).1 y.1 ≤ 0).
    { assert (Hrefl : ∀ y, wf_offer y → stp_vector_compare y.1 y.1 ≤ 0).
      { intros y Wy. rewrite (proj2 (compare_eq y.1 y.1 Wy Wy)); [lia|done]. }
      intros y [->| ->]; (split; [done|]); unfold better; destruct (Z.ltb_spec (stp_vector_compare x.1 init.1) 0);
        try (by apply Hrefl); [lia|]. rewrite compare_opp by done. lia. }
    assert (Hbest : stp_vector_compare (best (better init x) l).1 (better init x).1 ≤ 0)
      by (apply IH; [done..|left]).
    assert (Wbest : wf_offer (best (better init x) l)).
    { destruct (best_in (better init x) l) as [->|Hin]; [done|].
      rewrite Forall_forall in Wl'. apply Wl'. by apply list_elem_of_In. }
    assert (Hy : v = init ∨ v = x ∨ v ∈ l) by (rewrite !elem_of_cons in Hv; tauto).
    destruct Hy as [Hy|[Hy|Hy]]; [| |by apply IH; [..|right]];
      (destruct (Hb v) as [Wv Hle]; [auto|]; by apply (compare_le_trans _ (better init x).1)).
Qed.

(** ** The result of role selection *)

(** The vector and times of a bridge that considers itself the root. *)
Definition own_offer (root_br : BRIDGE_ID) (stpm : STPM_T) : PRIO_VECTOR_T * TIMEVALUES_T :=
  (stp_vector_create root_br 0 stpm.(STPM.BrId) 0 stpm.(STPM.BrId) 0 0, stpm.(STPM.BrTimes)).

(** The best of the bridge's own vector and the offers of its ports. *)
Definition elected (st : STP_T) (root_br : BRIDGE_ID) (stpm : STPM_T) : PRIO_VECTOR_T * TIMEVALUES_T :=
  best (own_offer root_br stpm) (omap (offer st stpm) stpm.(STPM.ports)).

Definition elected_stpm (st : STP_T) (root_br : BRIDGE_ID) (stpm : STPM_T) : STPM_T :=
  let r := elected st root_br stpm in
  (set_root r stpm) <| STPM.rootPortId := r.1.(bridge_port) |>.

Lemma set_designated_shape cist stpm port : pshape (set_designated cist stpm port) = pshape port.
Proof. unfold set_designated. by destruct port.(admin_non_stp). Qed.

Lemma updtRoles_prio_spec st b stpm root_br :
  wf st → st.(stpm_heap) !! b = Some stpm →
  let stpm' := elected_stpm st root_br stpm in
  let cist := stpm.(STPM.vlan_id) =? STP_CIST_ID in
  wp (updtRoles_prio st b root_br) (fun st' =>
    same_shape st st' ∧ st'.(stpm_heap) = <[b := stpm']> st.(stpm_heap) ∧
    (∀ q, q ∈ stpm.(STPM.ports) →
       st'.(port_heap) !! q = set_designated cist stpm' <$> st.(port_heap) !! q) ∧
    (∀ q, q ∉ stpm.(STPM.ports) → st'.(port_heap) !! q = st.(port_heap) !! q)).
Proof.
  intros W Hs stpm' cist. unfold updtRoles_prio. rewrite (get_stpm_Some _ _ _ Hs). cbn [obind].
  set (stpm0 := stpm <| STPM.rootPrio := _ |> <| STPM.rootTimes := _ |> <| STPM.rootPortId := _ |>).
  set (st0 := put_stpm st b stpm0).
  assert (E0 : same_shape st st0) by (exact (put_stpm_shape st b stpm stpm0 Hs eq_refl)).
  assert (W0 : wf st0) by (by apply (wf_same st)).
  assert (H0 : st0.(stpm_heap) !! b = Some stpm0) by (unfold st0; simpl; by rewrite lookup_insert_eq).
  rewrite (updtRootPrio_spec st0 b stpm0 W0 H0). cbn [obind].
  assert (Ho : best (stpm0.(STPM.rootPrio), stpm0.(STPM.rootTimes))
      (omap (offer st0 stpm0) stpm0.(STPM.ports)) = elected st root_br stpm) by reflexivity.
  rewrite Ho. set (r := elected st root_br stpm) in *. set (st1 := st0 <| stpm_heap := _ |>).
  assert (H1 : st1.(stpm_heap) !! b = Some (set_root r stpm0)) by apply lookup_insert_eq.
  rewrite (get_stpm_Some _ _ _ H1). cbn [obind].
  change ((set_root r stpm0).(STPM.ports)) with stpm.(STPM.ports).
  assert (E1 : same_shape st0 st1) by exact (put_stpm_shape st0 b stpm0 (set_root r stpm0) H0 eq_refl).
  rewrite upd_ports_map.
  2: { intros q Hq. by destruct (wf_on_list _ _ _ _ W Hs Hq) as [_ ?]. }
  cbn [obind]. set (st2 := st1 <| port_heap := _ |>).
  assert (H2 : st2.(stpm_heap) !! b = Some (set_root r stpm0)) by exact H1.
  split_and!.
  - etransitivity; [exact E0|]. etransitivity; [exact E1|].
    transitivity st2; [apply map_ports_shape, set_designated_shape|].
    exact (put_stpm_shape st2 b _ stpm' H2 eq_refl).
  - change (<[b := stpm']> (<[b := set_root r stpm0]> (<[b := stpm0]> st.(stpm_heap))) =
            <[b := stpm']> st.(stpm_heap)). by rewrite !insert_insert_eq.
  - intros q Hq. apply (map_ports_in _ (set_designated cist stpm') st.(port_heap));
      [exact (wf_list_nodup _ _ _ W Hs)|done].
  - intros q Hq. by apply (map_ports_notin _ (set_designated cist stpm') st.(port_heap)).
Qed.

(** The role of a port, once its designated vector is known. *)
Definition role_result (stpm : STPM_T) (port : PORT_T) : PORT_T :=
  if port.(admin_non_stp) then non_stp_role port else select_role stpm port.

Lemma setRole_shape r port : pshape (stp_rolesel_setRoleSelected r port) = pshape port.
Proof. unfold stp_rolesel_setRoleSelected. destruct (_ =e _); [done|]. by destruct (_ =e _). Qed.

Lemma select_role_shape stpm port : pshape (select_role stpm port) = pshape port.
Proof.
  unfold select_role. destruct port.(infoIs); [..|apply setRole_shape].
  - case_match; apply (setRole_shape DesignatedPort port).
  - apply (setRole_shape DesignatedPort port).
  - case_match; [apply (setRole_shape RootPort port)|]. case_match; apply setRole_shape.
Qed.

Lemma role_result_shape stpm port : pshape (role_result stpm port) = pshape port.
Proof.
  unfold role_result. destruct port.(admin_non_stp); [|apply select_role_shape].
  apply (setRole_shape NonStpPort port).
Qed.

(** Ports of the CIST are not on a chain of MSTI ports. *)
Lemma chain_foreign st q port r :
  wf st → st.(port_heap) !! q = Some port → r.1 = STP_CIST_ID → r ∉ port.(nextMst).
Proof. intros W H Hr Hin. by destruct (wf_nextMst _ _ _ _ W H Hin) as (? & _). Qed.

Lemma chain_exists st q port r :
  wf st → st.(port_heap) !! q = Some port → r ∈ port.(nextMst) → is_Some (st.(port_heap) !! r).
Proof. intros W H Hin. by destruct (wf_nextMst _ _ _ _ W H Hin) as (_ & ?). Qed.

Lemma updtRolesCist_port_spec st b stpm q port :
  wf st → st.(stpm_heap) !! b = Some stpm → b = STP_CIST_ID → q.1 = b →
  st.(port_heap) !! q = Some port →
  wp (updtRolesCist_port b q st) (fun st' =>
    same_shape st st' ∧ st'.(stpm_heap) = st.(stpm_heap) ∧
    st'.(port_heap) !! q = Some (role_result stpm port) ∧
    ∀ r, r.1 = STP_CIST_ID → r ≠ q → st'.(port_heap) !! r = st.(port_heap) !! r).
Proof.
  intros W Hs Hb Hq H. unfold updtRolesCist_port, role_result.
  rewrite (get_port_Some _ _ _ H). cbn [obind]. rewrite (get_stpm_Some _ _ _ Hs). cbn [obind].
  assert (Hput : ∀ port', pshape port' = pshape port →
    let st' := put_port st q port' in
    same_shape st st' ∧ st'.(stpm_heap) = st.(stpm_heap) ∧
    st'.(port_heap) !! q = Some port' ∧
    ∀ r, r.1 = STP_CIST_ID → r ≠ q → st'.(port_heap) !! r = st.(port_heap) !! r).
  { intros port' E st'. split_and!; [by eapply put_port_shape|done|apply put_port_lookup|].
    intros r _ Hne. by apply lookup_insert_ne. }
  destruct port.(admin_non_stp); [apply Hput, (setRole_shape NonStpPort port)|].
  set (port' := select_role stpm port).
  destruct (Hput port' (select_role_shape _ _)) as (E & Hst & Hl & Ho).
  destruct (_ || _); [|done]. set (st1 := put_port st q port') in *.
  assert (W1 : wf st1) by (by apply (wf_same st)).
  rewrite upd_ports_map by (intros r; by eapply chain_exists).
  simpl. split_and!.
  - etransitivity; [exact E|]. by apply map_ports_shape.
  - done.
  - rewrite map_ports_notin; [done|]. eapply chain_foreign; [done..|]. congruence.
  - intros r Hr Hne. rewrite map_ports_notin; [by apply Ho|]. by eapply chain_foreign.
Qed.

(** The loop that marks the MSTI ports when the regional root changed. *)
Lemma changedMaster_spec st l :
  wf st → (∀ q, q ∈ l → q.1 = STP_CIST_ID ∧ is_Some (st.(port_heap) !! q)) →
  wp (foldM (fun q st =>
        let* port := get_port st q in
        upd_ports port.(nextMst) (fun m => m <| changedMaster := true |>) st) l st)
    (fun st' => same_shape st st' ∧ st'.(stpm_heap) = st.(stpm_heap) ∧
       ∀ r, r.1 = STP_CIST_ID → st'.(port_heap) !! r = st.(port_heap) !! r).
Proof.
  intros W Hl.
  apply (wp_foldM (fun st' => same_shape st st' ∧ st'.(stpm_heap) = st.(stpm_heap) ∧
    ∀ r, r.1 = STP_CIST_ID → st'.(port_heap) !! r = st.(port_heap) !! r)); [|done].
  intros q st1 Hq (E & Hs & Ho). destruct (Hl q Hq) as [Hc [port H]].
  rewrite <- Ho in H by done. rewrite (get_port_Some _ _ _ H). cbn [obind].
  assert (W1 : wf st1) by (by apply (wf_same st)).
  rewrite upd_ports_map by (intros r; by eapply chain_exists). simpl. split_and!; [|done|].
  - etransitivity; [exact E|]. by apply map_ports_shape.
  - intros r Hr. rewrite map_ports_notin; [by apply Ho|]. by eapply chain_foreign.
Qed.

(** The exact result of role selection for the CIST: the elected root vector
    and, for each port, its designated vector and its role. *)
Lemma updtRolesCist_spec st stpm :
  wf st → st.(stpm_heap) !! STP_CIST_ID = Some stpm →
  let stpm' := elected_stpm st stpm.(STPM.BrId) stpm in
  wp (stp_rolesel_updtRolesCist st STP_CIST_ID) (fun st' =>
    same_shape st st' ∧ st'.(stpm_heap) = <[STP_CIST_ID := stpm']> st.(stpm_heap) ∧
    ∀ q port, q ∈ stpm.(STPM.ports) → st.(port_heap) !! q = Some port →
      st'.(port_heap) !! q = Some (role_result stpm' (set_designated true stpm' port))).
Proof.
  intros W Hs stpm'. unfold stp_rolesel_updtRolesCist. rewrite (get_stpm_Some _ _ _ Hs). cbn [obind].
  apply wp_bind. eapply wp_mono; [apply (updtRoles_prio_spec st STP_CIST_ID stpm); done|].
  rewrite (wf_stpm_vlan _ _ _ W Hs), Z.eqb_refl. fold stpm'.
  intros st1 (E1 & Hs1 & Hd & _).
  assert (Hl : ∀ q, q ∈ stpm.(STPM.ports) → q.1 = STP_CIST_ID ∧ is_Some (st1.(port_heap) !! q)).
  { intros q Hq. destruct (wf_on_list _ _ _ _ W Hs Hq) as [? [port H]]. split; [done|].
    rewrite (Hd q Hq), H. eauto. }
  assert (H1 : st1.(stpm_heap) !! STP_CIST_ID = Some stpm') by (rewrite Hs1; apply lookup_insert_eq).
  rewrite (get_stpm_Some _ _ _ H1). cbn [obind].
  change (stpm'.(STPM.ports)) with (stpm.(STPM.ports)).
  assert (W1 : wf st1) by (by apply (wf_same st)).
  apply wp_bind. eapply (wp_mono _ (fun st2 => same_shape st1 st2 ∧ st2.(stpm_heap) = st1.(stpm_heap) ∧
    ∀ r, r.1 = STP_CIST_ID → st2.(port_heap) !! r = st1.(port_heap) !! r)).
  { destruct (_ && _); [by apply changedMaster_spec|]. done. }
  intros st2 (E2 & Hs2 & Ho2).
  eapply wp_mono; [apply (wp_each_port
    (fun s => same_shape st2 s ∧ s.(stpm_heap) = st2.(stpm_heap)) (fun _ => role_result stpm')
    (updtRolesCist_port STP_CIST_ID) stpm.(STPM.ports))|].
  - intros q s port Hq [Es Hss] H. destruct (Hl q Hq) as [Hc _].
    eapply wp_mono; [apply (updtRolesCist_port_spec s STP_CIST_ID stpm' q port); try done|].
    + apply (wf_same st1); [by etransitivity|done].
    + by rewrite Hss, Hs2.
    + intros s' (E' & Hs' & Hq' & Ho'). split_and!; [by etransitivity|congruence|done|].
      intros r Hr Hne. apply Ho'; [by apply Hl|done].
  - exact (wf_list_nodup _ _ _ W Hs).
  - done.
  - done.
  - intros q Hq. rewrite Ho2 by (by apply Hl). by apply Hl.
  - intros st3 ([E3 Hs3] & Hr & _). split_and!.
    + by etransitivity; [|etransitivity].
    + congruence.
    + intros q port Hq H. rewrite (Hr q Hq), Ho2 by (by apply Hl). by rewrite (Hd q Hq), H.
Qed.

(** The role of an MSTI port, given its CIST port: at the boundary of the
    region it follows the CIST port, as master or alternate. *)
Definition msti_role (cistport : PORT_T) (stpm : STPM_T) (port : PORT_T) : PORT_T :=
  if port.(admin_non_stp) then non_stp_role port
  else if cistport.(portEnabled) && (cistport.(infoIs) =e Received) &&
          negb cistport.(infoInternal) then
    let port :=
      if cistport.(selectedRole) =e RootPort then stp_rolesel_setRoleSelected MasterPort port
      else if cistport.(selectedRole) =e AlternatePort then
        stp_rolesel_setRoleSelected AlternatePort port
      else port in
    if negb (stp_vector_compare port.(portPrio) port.(designPrio) =? 0) ||
       negb (stp_times_compare port.(portTimes) port.(designTimes) =? 0) then
      port <| updtInfo := true |>
    else port
  else select_role stpm port.

Lemma msti_role_shape cp stpm port : pshape (msti_role cp stpm port) = pshape port.
Proof.
  unfold msti_role. destruct port.(admin_non_stp); [apply (setRole_shape NonStpPort port)|].
  destruct (_ && _ && _); [|apply select_role_shape].
  assert (E : pshape (if cp.(selectedRole) =e RootPort
      then stp_rolesel_setRoleSelected MasterPort port
      else if cp.(selectedRole) =e AlternatePort
        then stp_rolesel_setRoleSelected AlternatePort port else port) = pshape port).
  { destruct (_ =e RootPort); [apply setRole_shape|].
    destruct (_ =e AlternatePort); [apply setRole_shape|done]. }
  cbv zeta. by destruct (_ || _).
Qed.

(** Under well-formedness the loop never returns early. *)
Lemma msti_loop_foldM b l st Q :
  wp (foldM (fun q st => let* r := updtRolesMsti_port b q st in deref r) l st) Q →
  wp (updtRolesMsti_loop b l st) Q.
Proof.
  revert st. induction l as [|q l IH]; intros st; simpl; [done|].
  destruct (updtRolesMsti_port b q st) as [[st'|]| |]; simpl; auto. done.
Qed.

Definition cist_of (st : STP_T) (idx : Z) : PORT_T :=
  match stp_port_mst_findport st STP_CIST_ID idx with
  | Done (Some c) => default calloc_port (st.(port_heap) !! c)
  | _ => calloc_port
  end.

Lemma updtRolesMsti_port_spec st b stpm q port :
  wf st → st.(stpm_heap) !! b = Some stpm → st.(port_heap) !! q = Some port →
  updtRolesMsti_port b q st =
    Done (Some (put_port st q (msti_role (cist_of st q.2) stpm port))).
Proof.
  intros W Hs H. unfold updtRolesMsti_port, msti_role, cist_of.
  rewrite (get_port_Some _ _ _ H). cbn [obind]. rewrite (get_stpm_Some _ _ _ Hs). cbn [obind].
  destruct (wf_port_owner _ _ _ W H) as (_ & -> & _).
  destruct (findport_cist _ _ _ W H) as (c & cport & -> & _ & Hcp). cbn [obind].
  rewrite (get_port_Some _ _ _ Hcp), Hcp. cbn [obind default].
  destruct port.(admin_non_stp); [done|]. by destruct (_ && _ && _).
Qed.

(** CIST ports are found in the same place, with the same contents, in states
    that agree on them. *)
Lemma cist_of_same st st' q port :
  wf st → same_shape st st' → st.(port_heap) !! q = Some port →
  (∀ r, r.1 = STP_CIST_ID → st'.(port_heap) !! r = st.(port_heap) !! r) →
  cist_of st' q.2 = cist_of st q.2.
Proof.
  intros W E H Ho. unfold cist_of, stp_port_mst_findport, stp_port_global_index_parse.
  assert (Ec : st'.(g_CISTPORT) = st.(g_CISTPORT)) by exact (eq_sym (f_equal sh_cistport E)).
  assert (Ep : st'.(productId) = st.(productId)) by exact (eq_sym (f_equal sh_product E)).
  assert (Ed : st'.(stp_is_distributed) = st.(stp_is_distributed))
    by exact (eq_sym (f_equal sh_distributed E)).
  rewrite Ec, Ep, Ed. destruct (wf_cist_port _ _ _ W H) as (Hi & c & cport & Hc & Hc1 & _).
  unfold stp_port_global_index_parse in *. rewrite Hi, Hc. simpl. by rewrite Ho.
Qed.

Lemma updtRolesMsti_spec st b stpm :
  wf st → st.(stpm_heap) !! b = Some stpm → b ≠ STP_CIST_ID →
  let stpm' := elected_stpm st null_br stpm in
  wp (stp_rolesel_updtRolesMsti st b) (fun st' =>
    same_shape st st' ∧ st'.(stpm_heap) = <[b := stpm']> st.(stpm_heap) ∧
    ∀ q port, q ∈ stpm.(STPM.ports) → st.(port_heap) !! q = Some port →
      st'.(port_heap) !! q =
        Some (msti_role (cist_of st q.2) stpm' (set_designated false stpm' port))).
Proof.
  intros W Hs Hb stpm'. unfold stp_rolesel_updtRolesMsti.
  apply wp_bind. eapply wp_mono; [apply (updtRoles_prio_spec st b stpm); done|].
  rewrite (wf_stpm_vlan _ _ _ W Hs). destruct (Z.eqb_spec b STP_CIST_ID); [done|]. fold stpm'.
  intros st1 (E1 & Hs1 & Hd & Hd').
  assert (W1 : wf st1) by (by apply (wf_same st)).
  assert (H1 : st1.(stpm_heap) !! b = Some stpm') by (rewrite Hs1; apply lookup_insert_eq).
  rewrite (get_stpm_Some _ _ _ H1). cbn [obind].
  change (stpm'.(STPM.ports)) with (stpm.(STPM.ports)). apply msti_loop_foldM.
  assert (Hl : ∀ q, q ∈ stpm.(STPM.ports) → q.1 = b ∧ is_Some (st1.(port_heap) !! q)).
  { intros q Hq. destruct (wf_on_list _ _ _ _ W Hs Hq) as [? [port H]]. split; [done|].
    rewrite (Hd q Hq), H. eauto. }
  assert (Hcist : ∀ r, r.1 = STP_CIST_ID → st1.(port_heap) !! r = st.(port_heap) !! r).
  { intros r Hr. apply Hd'. intros Hin. destruct (Hl r Hin). congruence. }
  eapply wp_mono; [apply (wp_each_port
    (fun s => same_shape st1 s ∧ s.(stpm_heap) = st1.(stpm_heap) ∧
       ∀ r, r.1 = STP_CIST_ID → s.(port_heap) !! r = st1.(port_heap) !! r)
    (fun q => msti_role (cist_of st q.2) stpm') _ stpm.(STPM.ports))|].
  - intros q s port Hq (Es & Hss & Hcs) H. destruct (Hl q Hq) as [Hc [port1 Hp1]].
    rewrite (updtRolesMsti_port_spec s b stpm' q port); [|by apply (wf_same st1)|by rewrite Hss|done].
    assert (cist_of s q.2 = cist_of st q.2) as ->.
    { destruct (wf_on_list _ _ _ _ W Hs Hq) as [_ [port0 H0]].
      rewrite (cist_of_same st1 s q port1), (cist_of_same st st1 q port0); done. }
    simpl. split_and!.
    + etransitivity; [exact Es|]. eapply put_port_shape; [done|apply msti_role_shape].
    + done.
    + intros r Hr. rewrite <- (Hcs r Hr). apply lookup_insert_ne. intros ->. congruence.
    + apply put_port_lookup.
    + intros r _ Hne. by apply lookup_insert_ne.
  - exact (wf_list_nodup _ _ _ W Hs).
  - done.
  - done.
  - intros q Hq. by apply Hl.
  - intros st3 ((E3 & Hs3 & _) & Hr & _). split_and!.
    + by etransitivity.
    + congruence.
    + intros q port Hq H. rewrite (Hr q Hq), (Hd q Hq), H. done.
Qed.

(** ** The machine *)

Lemma setRole_keeps r port :
  (stp_rolesel_setRoleSelected r port).(reselect) = port.(reselect).
Proof. unfold stp_rolesel_setRoleSelected. destruct (_ =e _); [done|]. by destruct (_ =e _). Qed.

Lemma select_role_keeps stpm port : (select_role stpm port).(reselect) = port.(reselect).
Proof.
  unfold select_role. destruct port.(infoIs); [..|apply setRole_keeps].
  - case_match; apply (setRole_keeps DesignatedPort port).
  - apply (setRole_keeps DesignatedPort port).
  - case_match; [apply (setRole_keeps RootPort port)|]. case_match; apply setRole_keeps.
Qed.

Lemma designated_keeps cist stpm port :
  (set_designated cist stpm port).(reselect) = port.(reselect).
Proof. unfold set_designated. by destruct port.(admin_non_stp). Qed.

Lemma role_result_keeps stpm port : (role_result stpm port).(reselect) = port.(reselect).
Proof.
  unfold role_result. destruct port.(admin_non_stp); [apply (setRole_keeps NonStpPort port)|].
  apply select_role_keeps.
Qed.

Lemma msti_role_keeps cp stpm port : (msti_role cp stpm port).(reselect) = port.(reselect).
Proof.
  unfold msti_role. destruct port.(admin_non_stp); [apply (setRole_keeps NonStpPort port)|].
  destruct (_ && _ && _); [|apply select_role_keeps].
  assert (E : (if cp.(selectedRole) =e RootPort
      then stp_rolesel_setRoleSelected MasterPort port
      else if cp.(selectedRole) =e AlternatePort
        then stp_rolesel_setRoleSelected AlternatePort port else port).(reselect) = port.(reselect)).
  { destruct (_ =e RootPort); [apply setRole_keeps|].
    destruct (_ =e AlternatePort); [apply setRole_keeps|done]. }
  cbv zeta. by destruct (_ || _).
Qed.

Lemma any_reselect_false st l :
  (∀ q, q ∈ l → ∃ port, st.(port_heap) !! q = Some port ∧ port.(reselect) = false) →
  any_reselect st l = Done false.
Proof.
  induction l as [|q l IH]; intros Hl; simpl; [done|].
  destruct (Hl q ltac:(left)) as (port & H & E). rewrite (get_port_Some _ _ _ H). simpl.
  rewrite E. apply IH. intros; apply Hl; by right.
Qed.

Lemma any_reselect_heap st st' l :
  st'.(port_heap) = st.(port_heap) → any_reselect st' l = any_reselect st l.
Proof.
  intros E. induction l as [|q l IH]; simpl; [done|]. unfold get_port. rewrite E.
  destruct (st.(port_heap) !! q); simpl; [by rewrite IH|done].
Qed.

Lemma sshape_elected st root_br stpm : sshape (elected_stpm st root_br stpm) = sshape stpm.
Proof. done. Qed.

(** The roles a port of instance [b] gets. *)
Definition new_role (st : STP_T) (b : Z) (stpm : STPM_T) (q : PORT_REF) (port : PORT_T) : PORT_T :=
  if STP_CIST_ID =? b then
    let stpm' := elected_stpm st stpm.(STPM.BrId) stpm in
    role_result stpm' (set_designated true stpm' port)
  else
    let stpm' := elected_stpm st null_br stpm in
    msti_role (cist_of st q.2) stpm' (set_designated false stpm' port).

Lemma new_role_keeps st b stpm q port : (new_role st b stpm q port).(reselect) = port.(reselect).
Proof.
  unfold new_role. destruct (_ =? _); rewrite ?role_result_keeps, ?msti_role_keeps;
    apply designated_keeps.
Qed.

Lemma updtRolesXst_spec st b stpm :
  wf st → st.(stpm_heap) !! b = Some stpm →
  wp (stp_rolesel_updtRolesXst st b) (fun st' =>
    same_shape st st' ∧
    (∃ stpm', st'.(stpm_heap) = <[b := stpm']> st.(stpm_heap) ∧
       stpm'.(STPM.rolesel) = stpm.(STPM.rolesel)) ∧
    ∀ q port, q ∈ stpm.(STPM.ports) → st.(port_heap) !! q = Some port →
      st'.(port_heap) !! q = Some (new_role st b stpm q port)).
Proof.
  intros W Hs. unfold stp_rolesel_updtRolesXst, new_role. rewrite (get_stpm_Some _ _ _ Hs).
  cbn [obind]. rewrite (wf_stpm_vlan _ _ _ W Hs). destruct (Z.eqb_spec STP_CIST_ID b) as [<-|Hb].
  - eapply wp_mono; [by apply updtRolesCist_spec|]. intros st' (E & Hs' & Hr).
    split_and!; [done| |done]. by eexists.
  - eapply wp_mono; [by apply updtRolesMsti_spec|]. intros st' (E & Hs' & Hr).
    split_and!; [done| |done]. by eexists.
Qed.

(** A turn in state [RECEIVE]: every port of the instance has its new role, is
    selected and asks for no reselection. *)
Lemma rolesel_receive_spec st b stpm :
  wf st → st.(stpm_heap) !! b = Some stpm → stpm.(STPM.rolesel).(State) = RECEIVE →
  wp (MSTP_rolesel_enter_state st b) (fun st' =>
    same_shape st st' ∧
    (∃ stpm', st'.(stpm_heap) !! b = Some stpm' ∧ stpm'.(STPM.rolesel) = stpm.(STPM.rolesel)) ∧
    ∃ st1, same_shape st st1 ∧
      (∀ q, q ∈ stpm.(STPM.ports) → st1.(port_heap) !! q =
         (fun port => port <| reselect := false |>) <$> st.(port_heap) !! q) ∧
      (∀ q, q ∉ stpm.(STPM.ports) → st1.(port_heap) !! q = st.(port_heap) !! q) ∧
      ∀ q port, q ∈ stpm.(STPM.ports) → st1.(port_heap) !! q = Some port →
        st'.(port_heap) !! q = Some ((new_role st1 b stpm q port) <| selected := true |>)).
Proof.
  intros W Hs Est. unfold MSTP_rolesel_enter_state. rewrite (get_stpm_Some _ _ _ Hs). cbn [obind].
  rewrite Est. unfold stp_rolesel_clearReselectTree. rewrite (get_stpm_Some _ _ _ Hs). cbn [obind].
  assert (Hex : ∀ q, q ∈ stpm.(STPM.ports) → is_Some (st.(port_heap) !! q)).
  { intros q Hq. by destruct (wf_on_list _ _ _ _ W Hs Hq) as [_ ?]. }
  assert (Hn := wf_list_nodup _ _ _ W Hs).
  rewrite upd_ports_map by done. cbn [obind]. set (st1 := st <| port_heap := _ |>).
  assert (E1 : same_shape st st1) by (by apply map_ports_shape).
  assert (Hc : ∀ q, q ∈ stpm.(STPM.ports) → st1.(port_heap) !! q =
     (fun port => port <| reselect := false |>) <$> st.(port_heap) !! q)
    by (intros q Hq; by apply map_ports_in).
  apply wp_bind. eapply wp_mono; [apply (updtRolesXst_spec st1 b stpm); [by apply (wf_same st)|done]|].
  intros st2 (E2 & (stpm' & Hs2 & Er) & Hr).
  assert (Hs2' : st2.(stpm_heap) !! b = Some stpm') by (rewrite Hs2; apply lookup_insert_eq).
  assert (Ep : stpm'.(STPM.ports) = stpm.(STPM.ports)).
  { destruct (same_stpm st1 st2 b stpm E2 Hs) as (s & Hs' & Es). rewrite Hs2' in Hs'.
    injection Hs' as <-. exact (f_equal sh_list Es). }
  unfold stp_rolesel_setSelectedTree. rewrite (get_stpm_Some _ _ _ Hs2'). cbn [obind]. rewrite Ep.
  assert (Hq2 : ∀ q, q ∈ stpm.(STPM.ports) → ∃ port,
    st2.(port_heap) !! q = Some port ∧ port.(reselect) = false).
  { intros q Hq. destruct (Hex q Hq) as [port H]. eexists. split.
    - apply Hr; [done|]. by rewrite (Hc q Hq), H.
    - by rewrite new_role_keeps. }
  rewrite any_reselect_false by done. cbn [obind].
  rewrite upd_ports_map by (intros q Hq; by destruct (Hq2 q Hq) as (? & ? & _); eexists).
  simpl. split_and!.
  - etransitivity; [exact E1|]. etransitivity; [exact E2|]. by apply map_ports_shape.
  - by exists stpm'.
  - exists st1. split_and!; [done|done|intros q Hq; by apply map_ports_notin|].
    intros q port Hq H. rewrite map_ports_in by done. by rewrite (Hr q port Hq H).
Qed.

#[export] Instance rolesel_STATES_eq_dec : EqDecision STATES.
Proof. solve_decision. Defined.

Definition rolesel_ready (b : Z) (st : STP_T) : Prop :=
  wf st ∧ is_Some (st.(stpm_heap) !! b).

Definition rolesel_mu (b : Z) (st : STP_T) : nat :=
  match st.(stpm_heap) !! b with
  | Some stpm => match stpm.(STPM.rolesel).(State) with BEGIN => 3 | INIT_BRIDGE => 2 | RECEIVE => 1 end
  | None => 0
  end.

Lemma rolesel_ready_put b st stpm stpm' :
  rolesel_ready b st → st.(stpm_heap) !! b = Some stpm → sshape stpm' = sshape stpm →
  rolesel_ready b (put_stpm st b stpm').
Proof.
  intros [W _] H E. split; [by apply (wf_same st); [eapply put_stpm_shape|]|].
  eexists. apply lookup_insert_eq.
Qed.

(** The conditions, from the state the entry action leaves. *)
Lemma rolesel_check_spec b st stpm :
  rolesel_ready b st → st.(stpm_heap) !! b = Some stpm →
  (stpm.(STPM.rolesel).(State) = RECEIVE → any_reselect st stpm.(STPM.ports) = Done false) →
  MSTP_rolesel_check_conditions st b =
    match stpm.(STPM.rolesel).(State) with
    | BEGIN => Done (put_stpm st b (stpm <| STPM.rolesel := mkMach INIT_BRIDGE true |>), true)
    | INIT_BRIDGE => Done (put_stpm st b (stpm <| STPM.rolesel := mkMach RECEIVE true |>), true)
    | RECEIVE => Done (st, false)
    end.
Proof.
  intros _ H Hr. unfold MSTP_rolesel_check_conditions, rolesel_hop.
  rewrite (get_stpm_Some _ _ _ H). cbn [obind].
  destruct stpm.(STPM.rolesel).(State); [done..|]. by rewrite Hr.
Qed.

(** Entering a state keeps the machine and leaves no reselection pending. *)
Lemma rolesel_enter_spec b st stpm :
  rolesel_ready b st → st.(stpm_heap) !! b = Some stpm →
  wp (MSTP_rolesel_enter_state st b) (fun st' => rolesel_ready b st' ∧
    ∃ stpm', st'.(stpm_heap) !! b = Some stpm' ∧ sshape stpm' = sshape stpm ∧
      stpm'.(STPM.rolesel) = stpm.(STPM.rolesel) ∧
      (stpm.(STPM.rolesel).(State) = RECEIVE → any_reselect st' stpm.(STPM.ports) = Done false)).
Proof.
  intros [W Hex] Hs. destruct (decide (stpm.(STPM.rolesel).(State) = RECEIVE)) as [E|E].
  - eapply wp_mono; [by apply rolesel_receive_spec|].
    intros st' (Esh & (stpm' & Hs' & Er) & st1 & E1 & Hc & _ & Hr).
    destruct (same_stpm _ _ _ _ Esh Hs) as (s & Hs2 & Es2). rewrite Hs' in Hs2. injection Hs2 as <-.
    split; [split; [by apply (wf_same st)|by eexists]|]. exists stpm'. split_and!; [done..|].
    intros _. apply any_reselect_false. intros q Hq.
    destruct (wf_on_list _ _ _ _ W Hs Hq) as [_ [port H]]. eexists. split.
    + apply Hr; [done|]. by rewrite (Hc q Hq), H.
    + simpl. by rewrite new_role_keeps.
  - unfold MSTP_rolesel_enter_state, stp_rolesel_updtRoleDisableTree.
    rewrite (get_stpm_Some _ _ _ Hs). cbn [obind].
    assert (Hd : wp (upd_ports stpm.(STPM.ports) (fun port => port <| selectedRole := DisabledPort |>) st)
      (fun st' => rolesel_ready b st' ∧ st'.(stpm_heap) !! b = Some stpm)).
    { rewrite upd_ports_map by (intros q Hq; by destruct (wf_on_list _ _ _ _ W Hs Hq) as [_ ?]).
      split; [|exact Hs]. split; [by apply (wf_same st); [apply map_ports_shape|]|exact Hex]. }
    destruct stpm.(STPM.rolesel).(State); [..|done];
      (eapply wp_mono; [exact Hd|]; intros st' [R' H']; split; [done|]; exists stpm; done).
Qed.

#[export] Instance rolesel_terminating b :
  Terminating (rolesel_machine b) (rolesel_ready b) (rolesel_mu b).
Proof.
  split.
  - intros st [W [stpm H]]. simpl. by rewrite (get_stpm_Some _ _ _ H).
  - intros st R _. destruct (proj2 R) as [stpm H]. unfold change_state_body. cbn [concreteEnterState rolesel_machine].
    apply wp_bind. eapply wp_mono; [by apply rolesel_enter_spec|].
    intros st1 (R1 & stpm1 & H1 & Es & Er & Hr). cbn [set_changeState rolesel_machine].
    rewrite (get_stpm_Some _ _ _ H1). cbn [obind].
    set (stpm2 := stpm1 <| STPM.rolesel := _ |>). set (st2 := put_stpm st1 b stpm2).
    assert (H2 : st2.(stpm_heap) !! b = Some stpm2) by apply lookup_insert_eq.
    assert (R2 : rolesel_ready b st2) by (by eapply rolesel_ready_put).
    unfold stp_statmch_check_condition. cbn [concreteCheckCondition rolesel_machine].
    rewrite (rolesel_check_spec b st2 stpm2 R2 H2).
    2: { unfold stpm2. simpl. rewrite Er. intros E. rewrite <- (Hr E).
         assert (Ep : stpm1.(STPM.ports) = stpm.(STPM.ports)) by exact (f_equal sh_list Es).
         rewrite Ep. by apply any_reselect_heap. }
    assert (Emu : rolesel_mu b st = match stpm2.(STPM.rolesel).(State) with
      BEGIN => 3 | INIT_BRIDGE => 2 | RECEIVE => 1 end%nat).
    { unfold rolesel_mu. rewrite H. unfold stpm2. simpl. by rewrite Er. }
    rewrite Emu.
    destruct stpm2.(STPM.rolesel).(State) eqn:E2; cbn [obind set_changeState rolesel_machine];
      rewrite ?get_put_stpm; cbn [obind wp].
    + split; [repeat (eapply rolesel_ready_put; [|apply lookup_insert_eq|done]); by eapply rolesel_ready_put|].
      intros _. unfold rolesel_mu, put_stpm. simpl. rewrite lookup_insert_eq. simpl. lia.
    + split; [repeat (eapply rolesel_ready_put; [|apply lookup_insert_eq|done]); by eapply rolesel_ready_put|].
      intros _. unfold rolesel_mu, put_stpm. simpl. rewrite lookup_insert_eq. simpl. lia.
    + split; [done|]. simpl. rewrite (get_stpm_Some _ _ _ H2). by intros [= ].
Qed.
