(* ===== verification/StpTransmit.v ===== *)
(** * Port transmit machine ([stp_transmit.c])

    The frames the daemon sends and the machine that decides when.  The
    results of the [tx] functions are discarded by their caller, so these
    return the new state only; [malloc] is taken to succeed.  Each CIST port
    has a transmit machine, which [stp_stpm.c] runs after all the others. *)

From Stdlib Require Import ZArith Lia.
From stdpp Require Import base gmap list option.
From S2P Require Import Prelude StpTypes StpTo StpBpdu StpVector StpHeap StpStatmch StpPort StpRoletrns.
Import TransmitState.

Definition transmit_field : MACH_FIELD STATES :=
  mkField (fun port => port.(transmit)) (fun m port => port <| transmit := Some m |>).

(** ** Frames *)

(** The members of [MAC_HEADER_T], [ETH_HEADER_T] and [BPDU_HEADER_T] that are
    not constant in [g_bpdu_packet]. *)
Record FRAME_HEADER_T : Type := mkHeader {
  src_mac : list Z;
  len8023 : list Z;
  hdr_version : Z;
  hdr_bpdu_type : Z }.

Definition BPDU_L_SAP : Z := 0x42.
Definition LLC_UI : Z := 0x03.
Definition BPDU_VERSION_ID : Z := 0.
Definition BPDU_VERSION_RAPID_ID : Z := 2.
Definition BPDU_VERSION_MULTI_ID : Z := 3.
Definition MIN_FRAME_LENGTH : Z := 64.

Definition header_bytes (h : FRAME_HEADER_T) : list Z :=
  [0x01; 0x80; 0xc2; 0x00; 0x00; 0x00] ++ h.(src_mac) ++ h.(len8023) ++
  [BPDU_L_SAP; BPDU_L_SAP; LLC_UI; 0; 0; h.(hdr_version); h.(hdr_bpdu_type)].

Definition zero_body : BPDU_BODY_T :=
  mkBody 0 (repeat 0 8) (repeat 0 4) (repeat 0 8) (repeat 0 2) (repeat 0 2)
    (repeat 0 2) (repeat 0 2) (repeat 0 2).

(** [sizeof (MAC_HEADER_T) + sizeof (ETH_HEADER_T)], [sizeof (BPDU_HEADER_T)]
    and [sizeof (BPDU_BODY_T)]. *)
Definition SIZE_MAC_ETH : Z := 17.
Definition SIZE_HDR : Z := 4.
Definition SIZE_BODY : Z := 31.

(** The header, and the length the function returns. *)
Definition stp_transmit_build_bpdu_header (st : STP_T) (bpdu_type pkt_len : Z)
    : FRAME_HEADER_T * Z :=
  let '(version, type) :=
    if bpdu_type =? BPDU_RSTP then (BPDU_VERSION_RAPID_ID, bpdu_type)
    else if bpdu_type =? BPDU_MSTP then (BPDU_VERSION_MULTI_ID, BPDU_RSTP)
    else (BPDU_VERSION_ID, bpdu_type) in
  (mkHeader (take 6 st.(sysMac)) (be_bytes 2 (u16 (pkt_len + 3))) version type,
   if pkt_len <? MIN_FRAME_LENGTH then MIN_FRAME_LENGTH else pkt_len).

(** [RSTP_BPDU_T], 53 bytes. *)
Definition rstp_frame (h : FRAME_HEADER_T) (b : BPDU_BODY_T) : list Z :=
  header_bytes h ++ body_bytes b ++ [0].

(** ** Sending *)

(** [sizeof] of the three kinds of frames. *)
Definition SIZE_RSTP_BPDU : Z := 53.
Definition SIZE_MSTP_BPDU : Z := 1143.
Definition SIZE_CISCO_BPDU : Z := 1784.

(** [size]: the bytes of the block [bpdu] points to.  For a WAN port the name of
    the interface is printed into [ifName], of 20 bytes, and what follows the 14
    bytes of the Ethernet header is copied into a buffer of 255 bytes on the
    stack; for another port at least 64 bytes are copied to the datagram. *)
Definition stp_to_tx_bpdu (st : STP_T) (port_index vlan_id : Z) (bpdu : list Z)
    (size bpdu_len : Z) (isWAN : bool) (slot_no port_no : Z) : STP_T :=
  if isWAN then
    let vid := if 1 <? vlan_id then Some vlan_id else None in
    let st := emit (TX_WAN slot_no port_no vid bpdu bpdu_len) st in
    let st := access IF_NAME 20 (Z.of_nat (length (wan_ifname slot_no port_no vid)) + 1) st in
    let st := access FRAME size bpdu_len st in
    access NETLINK_BUF 255 (bpdu_len - 14) st
  else
    let st := emit (TX_BPDU port_index bpdu bpdu_len) st in
    access FRAME size (Z.max 64 bpdu_len) st.

Definition sendStpTcnbittoNpd (st : STP_T) (port : PORT_T) : STP_T :=
  emit (NPD_TCN port.(vlan_id) 0 port.(port_index)) st.

(** The loop over the ports of the instance that flushes the enabled ones. *)
Definition notify_tcn_ports (l : list PORT_REF) (st : STP_T) : outcome STP_T :=
  foldM (fun q st =>
    let* port := get_port st q in
    Done (if port.(portEnabled) then sendStpTcnbittoNpd st port else st)) l st.

(** The debug switch that skips transmissions: [Some] is the state to return
    with. *)
Definition tx_skipped (st : STP_T) (p : PORT_REF) (port : PORT_T) : option STP_T :=
  if 0 <? port.(skip_tx) then
    Some (put_port st p (port <| skip_tx := port.(skip_tx) - 1 |>))
  else if port.(admin_non_stp) then Some st
  else None.

Definition stp_transmit_txTcn (st : STP_T) (p : PORT_REF) : outcome STP_T :=
  let* port := get_port st p in
  match tx_skipped st p port with
  | Some st => Done st
  | None =>
      let* stpm := get_stpm st port.(owner) in
      let '(h, pkt_len) := stp_transmit_build_bpdu_header st BPDU_TOPO_CHANGE_TYPE SIZE_HDR in
      let st := stp_to_tx_bpdu st port.(port_index) stpm.(STPM.vlan_id)
        (rstp_frame h zero_body) SIZE_RSTP_BPDU (pkt_len + SIZE_MAC_ETH)
        port.(isWAN) port.(slot_no) port.(port_no) in
      notify_tcn_ports stpm.(STPM.ports) st
  end.

Definition stp_transmit_build_config_bpdu (port : PORT_T) (set_topo_ack_flag : bool)
    (body : BPDU_BODY_T) : BPDU_BODY_T :=
  let f := or_if (negb (port.(tcWhile) =? 0)) TOLPLOGY_CHANGE_BIT 0 in
  let f := or_if (set_topo_ack_flag && port.(tcAck)) TOLPLOGY_CHANGE_ACK_BIT f in
  let body := body <| flags := f |> in
  let body := stp_vector_set_vector port.(portPrio) body in
  stp_times_set port.(portTimes) body.

Definition stp_transmit_txConfig (st : STP_T) (p : PORT_REF) : outcome STP_T :=
  let* port := get_port st p in
  match tx_skipped st p port with
  | Some st => Done st
  | None =>
      let* stpm := get_stpm st port.(owner) in
      let '(h, pkt_len) :=
        stp_transmit_build_bpdu_header st BPDU_CONFIG_TYPE (SIZE_HDR + SIZE_BODY) in
      let body := stp_transmit_build_config_bpdu port true zero_body in
      Done (stp_to_tx_bpdu st port.(port_index) stpm.(STPM.vlan_id)
              (rstp_frame h body) SIZE_RSTP_BPDU (pkt_len + SIZE_MAC_ETH)
              port.(isWAN) port.(slot_no) port.(port_no))
  end.

(** The role code of the two switches on [port->selectedRole] and
    [port->role]; a Master port is unknown to the first. *)
Definition rstp_role_code (r : PORT_ROLE_T) : Z :=
  match r with
  | AlternatePort | BackupPort => RSTP_PORT_ROLE_ALTBACK
  | RootPort => RSTP_PORT_ROLE_ROOT
  | DesignatedPort => RSTP_PORT_ROLE_DESGN
  | _ => RSTP_PORT_ROLE_UNKN
  end.

Definition mstp_role_code (r : PORT_ROLE_T) : Z :=
  match r with
  | MasterPort => MSTP_PORT_ROLE_MASTER
  | AlternatePort | BackupPort => RSTP_PORT_ROLE_ALTBACK
  | RootPort => RSTP_PORT_ROLE_ROOT
  | DesignatedPort => RSTP_PORT_ROLE_DESGN
  | _ => RSTP_PORT_ROLE_UNKN
  end.

(** Not called: the machine sends MSTP frames instead. *)
Definition stp_transmit_txRstp (st : STP_T) (p : PORT_REF) : outcome STP_T :=
  let* port := get_port st p in
  match tx_skipped st p port with
  | Some st => Done st
  | None =>
      let* stpm := get_stpm st port.(owner) in
      let '(h, pkt_len) :=
        stp_transmit_build_bpdu_header st BPDU_RSTP (SIZE_HDR + SIZE_BODY + 1) in
      let body := stp_transmit_build_config_bpdu port false zero_body in
      let f := Z.lor body.(flags)
        (Z.shiftl (rstp_role_code port.(selectedRole)) PORT_ROLE_OFFS) in
      let f := or_if port.(synced) AGREEMENT_BIT f in
      let f := or_if port.(proposing) PROPOSAL_BIT f in
      let f := or_if port.(forwarding) FORWARD_BIT f in
      let f := or_if port.(learning) LEARN_BIT f in
      Done (stp_to_tx_bpdu st port.(port_index) stpm.(STPM.vlan_id)
              (rstp_frame h (body <| flags := f |>)) SIZE_RSTP_BPDU (pkt_len + SIZE_MAC_ETH)
              port.(isWAN) port.(slot_no) port.(port_no))
  end.

(** ** MSTP frames *)

(** The flags both MSTP body builders set. *)
Definition mstp_flags (port : PORT_T) : Z :=
  let f := or_if (negb (port.(tcWhile) =? 0)) TOLPLOGY_CHANGE_BIT 0 in
  let f := or_if port.(proposing) PROPOSAL_BIT f in
  let f := or_if port.(learning) LEARN_BIT f in
  let f := or_if port.(forwarding) FORWARD_BIT f in
  or_if port.(agree) AGREEMENT_BIT f.

Definition mstp_body (port : PORT_T) (bridge : BRIDGE_ID) (body : BPDU_BODY_T) : BPDU_BODY_T :=
  let body := body <| flags := mstp_flags port |>
    <| root_id := stp_vector_set_bridge_id port.(portPrio).(root_bridge) |>
    <| body_root_path_cost := be_bytes 4 port.(portPrio).(root_path_cost) |>
    <| bridge_id := stp_vector_set_bridge_id bridge |>
    <| body_port_id := be_bytes 2 port.(port_id) |> in
  stp_times_set port.(portTimes) body.

Definition stp_transmit_build_cisco_config_bpdu_mstp (stpm : STPM_T) (port : PORT_T)
    : BPDU_BODY_T → BPDU_BODY_T :=
  mstp_body port stpm.(STPM.BrId).

Definition stp_transmit_build_config_bpdu_mstp (port : PORT_T) : BPDU_BODY_T → BPDU_BODY_T :=
  mstp_body port port.(portPrio).(region_root_bridge).

(** The part of the frame after [body], up to the configuration messages. *)
Record MSTP_CIST_T : Type := mkCist {
  cist_version_3_length : list Z;
  cist_MSTCID : list Z;
  cist_region_root : list Z;
  cist_inter_path_cost : list Z;
  cist_bridge : list Z;
  cist_remaining_hops : Z }.

(** The room of [MCfgMsg[64]]: the messages, then zeros; writing a
    sixty-fifth one is outside of the structure. *)
Definition msti_room (width : nat) (msgs : list (list Z)) : outcome (list Z) :=
  if decide (length msgs ≤ 64)%nat then
    Done (concat msgs ++ repeat 0 (width * (64 - length msgs)))
  else Segv.

(** [MSTP_BPDU_T], 1143 bytes. *)
Definition mstp_frame (h : FRAME_HEADER_T) (b : BPDU_BODY_T) (c : MSTP_CIST_T)
    (room : list Z) : list Z :=
  header_bytes h ++ body_bytes b ++ [0] ++ c.(cist_version_3_length) ++ c.(cist_MSTCID) ++
  c.(cist_inter_path_cost) ++ c.(cist_bridge) ++ [c.(cist_remaining_hops)] ++ room.

(** [MSTP_Cisco_BPDU_T], 1784 bytes. *)
Definition cisco_frame (h : FRAME_HEADER_T) (b : BPDU_BODY_T) (c : MSTP_CIST_T)
    (room : list Z) : list Z :=
  header_bytes h ++ body_bytes b ++ [0; 0] ++ c.(cist_version_3_length) ++ c.(cist_MSTCID) ++
  c.(cist_region_root) ++ c.(cist_inter_path_cost) ++ [c.(cist_remaining_hops); 0] ++ room.

(** The messages of the MSTI ports of the chain. *)
Fixpoint chain_msgs {A} (enc : STPM_T → PORT_T → A) (st : STP_T) (chain : list PORT_REF)
    : outcome (list A) :=
  match chain with
  | [] => Done []
  | q :: chain' =>
      let* mstport := get_port st q in
      let* stpm := get_stpm st mstport.(owner) in
      let* rest := chain_msgs enc st chain' in
      Done (enc stpm mstport :: rest)
  end.

(** [stp_stpm_get_instance]: the first instance of the list with this number. *)
Fixpoint find_instance (st : STP_T) (l : list Z) (mstid : Z) : outcome (option Z) :=
  match l with
  | [] => Done None
  | b :: l' =>
      let* stpm := get_stpm st b in
      if stpm.(STPM.vlan_id) =? mstid then Done (Some b) else find_instance st l' mstid
  end.

Definition stp_stpm_get_instance (st : STP_T) (mstid : Z) : outcome (option Z) :=
  find_instance st st.(bridges) mstid.

(** [strlen (cist->digest) != 0]. *)
Definition digest_set (d : list Z) : bool :=
  match d with x :: _ => negb (x =? 0) | [] => false end.

Definition mstp_pkt_len (force_version fixed v3len : Z) : Z * Z :=
  if force_version <? 3 then (BPDU_RSTP, SIZE_HDR + SIZE_BODY + 1)
  else (BPDU_MSTP, u16 (SIZE_HDR + SIZE_BODY + fixed + v3len)).

(** What follows the transmission of an MSTP frame. *)
Definition notify_tc (f : Z) (stpm : STPM_T) (st : STP_T) : outcome STP_T :=
  if negb (Z.land f TOLPLOGY_CHANGE_BIT =? 0) || negb (Z.land f TOLPLOGY_CHANGE_ACK_BIT =? 0)
  then notify_tcn_ports stpm.(STPM.ports) st
  else Done st.

Definition zero_cist (mstcid : nat) : MSTP_CIST_T :=
  mkCist (repeat 0 2) (repeat 0 mstcid) (repeat 0 8) (repeat 0 4) (repeat 0 8) 0.

(** The digest a Cisco frame carries: the configured one, replaced by the
    one the port received, replaced by the user's if there is one. *)
Definition cisco_digest (stpm cist : STPM_T) (port : PORT_T) : list Z :=
  if port.(configDigestSnp) then
    if digest_set cist.(STPM.digest) then take 16 cist.(STPM.digest)
    else take 16 port.(digest)
  else stpm.(STPM.MstConfigId).(ConfigurationDigest).

Definition stp_transmit_txMstp_to_Cisco (st : STP_T) (p : PORT_REF) : outcome STP_T :=
  let* port := get_port st p in
  let* stpm := get_stpm st port.(owner) in
  let body := stp_transmit_build_cisco_config_bpdu_mstp stpm port zero_body in
  let f := Z.lor body.(flags) (Z.shiftl (mstp_role_code port.(role)) PORT_ROLE_OFFS) in
  let body := body <| flags := f |> in
  let finish (cist : MSTP_CIST_T) (v3len : Z) (room : list Z) : outcome STP_T :=
    let '(bpdu_type, pkt_len) := mstp_pkt_len stpm.(STPM.ForceVersion) 4 v3len in
    let '(h, _) := stp_transmit_build_bpdu_header st bpdu_type pkt_len in
    let st := stp_to_tx_bpdu st port.(port_index) 1 (cisco_frame h body cist room)
      SIZE_CISCO_BPDU (pkt_len + SIZE_MAC_ETH) port.(isWAN) port.(slot_no) port.(port_no) in
    notify_tc f stpm st in
  if 3 <=? stpm.(STPM.ForceVersion) then
    let* found := stp_stpm_get_instance st STP_CIST_ID in
    match found with
    | None => Done st
    | Some c =>
        let* cist := get_stpm st c in
        let id := stpm.(STPM.MstConfigId) in
        let* msgs := chain_msgs stp_vector_cisco_set_mst_vector st port.(nextMst) in
        let* room := msti_room 26 (cisco_msti_bytes <$> msgs) in
        let v3len := u16 (64 + 26 * Z.of_nat (length msgs)) in
        finish {| cist_version_3_length := be_bytes 2 v3len;
                  cist_MSTCID := id.(ConfigurationName) ++ id.(RevisionLevel) ++
                                 cisco_digest stpm cist port;
                  cist_region_root :=
                    stp_vector_set_bridge_id port.(portPrio).(region_root_bridge);
                  cist_inter_path_cost := be_bytes 4 port.(portPrio).(region_root_path_cost);
                  cist_bridge := [];
                  cist_remaining_hops := port.(portTimes).(RemainingHops) |} v3len room
    end
  else finish (zero_cist 50) 0 (repeat 0 (26 * 64)).

Definition stp_transmit_txMstp (st : STP_T) (p : PORT_REF) : outcome STP_T :=
  let* port := get_port st p in
  if port.(admin_non_stp) then Done st
  else
  let* stpm := get_stpm st port.(owner) in
  if stpm.(STPM.ForceVersion) <=? 1 then Done st
  else if port.(configDigestSnp) then stp_transmit_txMstp_to_Cisco st p
  else
  let body := stp_transmit_build_config_bpdu_mstp port zero_body in
  let f := Z.lor body.(flags) (Z.shiftl (mstp_role_code port.(role)) PORT_ROLE_OFFS) in
  let body := body <| flags := f |> in
  let finish (cist : MSTP_CIST_T) (v3len : Z) (room : list Z) : outcome STP_T :=
    let '(bpdu_type, pkt_len) := mstp_pkt_len stpm.(STPM.ForceVersion) 3 v3len in
    let '(h, _) := stp_transmit_build_bpdu_header st bpdu_type pkt_len in
    let st := stp_to_tx_bpdu st port.(port_index) 1 (mstp_frame h body cist room)
      SIZE_MSTP_BPDU (pkt_len + SIZE_MAC_ETH) port.(isWAN) port.(slot_no) port.(port_no) in
    notify_tc f stpm st in
  if 3 <=? stpm.(STPM.ForceVersion) then
    let* msgs := chain_msgs stp_vector_set_mst_vector st port.(nextMst) in
    let* room := msti_room 16 (msti_bytes <$> msgs) in
    let v3len := u16 (64 + 16 * Z.of_nat (length msgs)) in
    finish {| cist_version_3_length := be_bytes 2 v3len;
              cist_MSTCID := mst_cfg_id_bytes stpm.(STPM.MstConfigId);
              cist_region_root := [];
              cist_inter_path_cost := be_bytes 4 port.(portPrio).(region_root_path_cost);
              cist_bridge := stp_vector_set_bridge_id stpm.(STPM.BrId);
              cist_remaining_hops := port.(portTimes).(RemainingHops) |} v3len room
  else finish (zero_cist 51) 0 (repeat 0 (16 * 64)).

(** ** Conditions on the ports of a physical port (13.25) *)

(** The CIST port of this index, NULL as [None]. *)
Definition cist_port_of (st : STP_T) (idx : Z) : outcome (option PORT_T) :=
  let* found := stp_port_mst_findport st STP_CIST_ID idx in
  match found with
  | None => Done None
  | Some c => let* port := get_port st c in Done (Some port)
  end.

(** A loop over a chain that returns [True] at the first port that satisfies
    [f]. *)
Fixpoint any_port (f : PORT_T → bool) (st : STP_T) (chain : list PORT_REF) : outcome bool :=
  match chain with
  | [] => Done false
  | q :: chain' =>
      let* port := get_port st q in
      if f port then Done true else any_port f st chain'
  end.

Definition cist_port_is (f : PORT_T → bool) (st : STP_T) (idx : Z) : outcome bool :=
  let* found := cist_port_of st idx in
  Done (match found with Some port => f port | None => false end).

Definition any_msti_port (f : PORT_T → bool) (st : STP_T) (idx : Z) : outcome bool :=
  let* found := cist_port_of st idx in
  match found with
  | Some port => any_port f st port.(nextMst)
  | None => Done false
  end.

Definition is_root (port : PORT_T) : bool := port.(role) =e RootPort.
Definition is_designated (port : PORT_T) : bool := port.(role) =e DesignatedPort.

(** The port has something to say at the end of a hello period. *)
Definition periodic (port : PORT_T) : bool :=
  is_designated port || (is_root port && negb (port.(tcWhile) =? 0)).

Definition stp_transmit_cistRootPort : STP_T → Z → outcome bool := cist_port_is is_root.
Definition stp_transmit_mstiRootPort : STP_T → Z → outcome bool := any_msti_port is_root.
Definition stp_transmit_cistDesignatedPort : STP_T → Z → outcome bool :=
  cist_port_is is_designated.
Definition stp_transmit_mstiDesignatedPort : STP_T → Z → outcome bool :=
  any_msti_port is_designated.

Definition stp_transmit_update_newInfoCist : STP_T → Z → outcome bool :=
  cist_port_is (fun port => port.(newInfoCist) || periodic port).
Definition stp_transmit_update_newInfoMsti : STP_T → Z → outcome bool :=
  any_msti_port (fun port => port.(newInfoMsti) || periodic port).

Definition stp_transmit_ifselectedAndnotupdtInfoInAnyMstPort (st : STP_T) (idx : Z)
    : outcome bool :=
  let* found := stp_port_mst_findport st STP_CIST_ID idx in
  match found with
  | None => Done false
  | Some c =>
      let* port := get_port st c in
      any_port (fun x => x.(selected) && negb x.(updtInfo)) st (c :: port.(nextMst))
  end.

(** ** The machine *)

Definition clear_newinfo (port : PORT_T) : PORT_T :=
  port <| newInfoCist := false |> <| newInfoMsti := false |>.

Definition MSTP_transmit_enter_state (st : STP_T) (p : PORT_REF) : outcome STP_T :=
  let* '(port, this) := mach_of transmit_field st p in
  match this.(State) with
  | BEGIN | TRANSMIT_INIT =>
      Done (put_port st p ((clear_newinfo port) <| helloWhen := 0 |> <| txCount := 0 |>))
  | TRANSMIT_PERIODIC =>
      let* c := stp_transmit_update_newInfoCist st port.(port_index) in
      let port := port <| newInfoCist := c |> in
      let* m := stp_transmit_update_newInfoMsti (put_port st p port) port.(port_index) in
      let port := port <| newInfoMsti := m |> in
      let* stpm := get_stpm st port.(owner) in
      Done (put_port st p (port <| helloWhen := stpm.(STPM.rootTimes).(HelloTime) |>))
  | IDLE => Done st
  | TRANSMIT_CONFIG =>
      let* st := stp_transmit_txConfig (put_port st p (clear_newinfo port)) p in
      upd_port p (fun port => port <| txCount := port.(txCount) + 1 |> <| tcAck := false |>) st
  | TRANSMIT_TCN =>
      let* st := stp_transmit_txTcn (put_port st p (clear_newinfo port)) p in
      upd_port p (fun port => port <| txCount := port.(txCount) + 1 |>) st
  | TRANSMIT_RSTP =>
      let* st := stp_transmit_txMstp (put_port st p (clear_newinfo port)) p in
      upd_port p (fun port => port <| txCount := port.(txCount) + 1 |> <| tcAck := false |>) st
  end.

(** The branch of [IDLE]: the state to hop to, if any.  [C]'s [&&] and [||]
    evaluate their right operand only when it matters; the operands have no
    effect. *)
Definition transmit_next (st : STP_T) (port : PORT_T) : outcome (option STATES) :=
  let idx := port.(port_index) in
  let* sel := stp_transmit_ifselectedAndnotupdtInfoInAnyMstPort st idx in
  if negb sel then Done None
  else if negb port.(adminEnable) || port.(admin_non_stp) then Done None
  else if port.(helloWhen) =? 0 then Done (Some TRANSMIT_PERIODIC)
  else
    let room := port.(txCount) <? TxHoldCount in
    let* cd := stp_transmit_cistDesignatedPort st idx in
    if negb port.(sendRSTP) && port.(newInfoCist) && room && cd then
      Done (Some TRANSMIT_CONFIG)
    else
    let* cr := stp_transmit_cistRootPort st idx in
    if negb port.(sendRSTP) && port.(newInfoCist) && room && cr && negb (port.(tcWhile) =? 0) then
      Done (Some TRANSMIT_TCN)
    else
    let* mr := stp_transmit_mstiRootPort st idx in
    let* md := stp_transmit_mstiDesignatedPort st idx in
    if port.(sendRSTP) && room &&
       ((port.(newInfoCist) && (cr || cd)) || (port.(newInfoMsti) && (mr || md))) then
      Done (Some TRANSMIT_RSTP)
    else Done None.

Definition MSTP_transmit_check_conditions (st : STP_T) (p : PORT_REF) : outcome (STP_T * bool) :=
  let* '(port, this) := mach_of transmit_field st p in
  match this.(State) with
  | BEGIN => hop transmit_field st p TRANSMIT_INIT
  | TRANSMIT_INIT | TRANSMIT_PERIODIC | TRANSMIT_CONFIG | TRANSMIT_TCN | TRANSMIT_RSTP =>
      hop transmit_field st p IDLE
  | IDLE =>
      let* next := transmit_next st port in
      match next with
      | Some s => hop transmit_field st p s
      | None => Done (st, false)
      end
  end.

Definition transmit_machine (p : PORT_REF) : MACHINE STP_T :=
  port_machine transmit_field MSTP_transmit_enter_state MSTP_transmit_check_conditions p.

(** ** What a transmission does to the state

    It sends at most one frame, and changes nothing else than the trace and
    the debug counter [skip_tx]. *)

Definition is_tx (e : EVENT) : bool :=
  match e with TX_BPDU _ _ _ | TX_WAN _ _ _ _ _ => true | _ => false end.

Definition count_tx (t : list EVENT) : nat := length (filter (fun e => is_tx e = true) t).

Lemma count_tx_app t1 t2 : count_tx (t1 ++ t2) = (count_tx t1 + count_tx t2)%nat.
Proof. unfold count_tx. by rewrite list.filter_app, length_app. Qed.

Definition traced (ev : list EVENT) (st : STP_T) : STP_T := st <| trace := ev ++ st.(trace) |>.

Lemma traced_traced e1 e2 st : traced e1 (traced e2 st) = traced (e1 ++ e2) st.
Proof. unfold traced. simpl. by rewrite app_assoc. Qed.

Lemma put_port_id st p port : st.(port_heap) !! p = Some port → put_port st p port = st.
Proof. intros H. unfold put_port, set, set_port_heap. by rewrite insert_id. Qed.

(** Events that are neither a frame nor an access outside a block. *)
Definition plain (e : EVENT) : Prop :=
  match e with TX_BPDU _ _ _ | TX_WAN _ _ _ _ _ | OVERRUN _ _ _ => False | _ => True end.

Lemma notify_tcn_spec l st :
  (∀ q, q ∈ l → is_Some (st.(port_heap) !! q)) →
  ∃ ev, notify_tcn_ports l st = Done (traced ev st) ∧ count_tx ev = 0%nat ∧ Forall plain ev.
Proof.
  unfold notify_tcn_ports. revert st. induction l as [|q l IH]; intros st Hl; simpl.
  - exists []. split_and!; [done..|constructor].
  - destruct (Hl q ltac:(left)) as [port H]. rewrite (get_port_Some _ _ _ H). simpl.
    destruct port.(portEnabled).
    + destruct (IH (sendStpTcnbittoNpd st port)) as (ev & -> & Hev & Hp).
      { intros r Hr. apply Hl. by right. }
      exists (ev ++ [NPD_TCN port.(vlan_id) 0 port.(port_index)]). split_and!.
      * unfold traced, sendStpTcnbittoNpd, emit. simpl. by rewrite <- app_assoc.
      * by rewrite count_tx_app, Hev.
      * apply Forall_app. by repeat constructor.
    + apply IH. intros r Hr. apply Hl. by right.
Qed.

Lemma plain_engine crowd ev : Forall plain ev → Forall (engine_event crowd) ev.
Proof. apply Forall_impl. by intros []. Qed.

(** The block of a frame and the part of it that is sent. *)
Definition tx_fits (crowd : Prop) (size len : Z) : Prop :=
  (Z.max 64 len ≤ size ∨ (size = 53 ∧ len = 81)) ∧ (len ≤ 269 ∨ crowd).

Lemma access_engine crowd st b room len :
  (room < len → engine_overrun crowd b room len) →
  ∃ ev, access b room len st = traced ev st ∧ count_tx ev = 0%nat ∧ Forall (engine_event crowd) ev.
Proof.
  intros H. unfold access. destruct (Z.ltb_spec room len).
  - exists [OVERRUN b room len]. split_and!; [done..|]. repeat constructor. simpl. auto.
  - exists []. split_and!; [by destruct st|done|constructor].
Qed.

Lemma tx_bpdu_traced crowd st i v b z n w s k :
  tx_fits crowd z n →
  ∃ ev e, stp_to_tx_bpdu st i v b z n w s k = traced (ev ++ [e]) st ∧
    e = (if w then TX_WAN s k (if 1 <? v then Some v else None) b n else TX_BPDU i b n) ∧
    count_tx ev = 0%nat ∧ Forall (engine_event crowd) ev.
Proof.
  intros [Hz Hn]. unfold stp_to_tx_bpdu. destruct w.
  - set (st1 := emit _ st).
    destruct (access_engine crowd st1 IF_NAME 20 (Z.of_nat (length (wan_ifname s k (if 1 <? v then Some v else None))) + 1))
      as (e1 & -> & C1 & F1); [by left|].
    destruct (access_engine crowd (traced e1 st1) FRAME z n) as (e2 & -> & C2 & F2); [simpl; lia|].
    destruct (access_engine crowd (traced e2 (traced e1 st1)) NETLINK_BUF 255 (n - 14)) as (e3 & -> & C3 & F3).
    { simpl. destruct Hn; [lia|done]. }
    exists (e3 ++ e2 ++ e1), (TX_WAN s k (if 1 <? v then Some v else None) b n). split_and!.
    + rewrite !traced_traced. unfold traced, st1, emit. simpl. by rewrite <- !app_assoc.
    + done.
    + by rewrite !count_tx_app, C1, C2, C3.
    + by rewrite !Forall_app.
  - set (st1 := emit _ st).
    destruct (access_engine crowd st1 FRAME z (Z.max 64 n)) as (e2 & -> & C2 & F2); [simpl; lia|].
    exists e2, (TX_BPDU i b n). split_and!; try done.
    unfold traced, st1, emit. simpl. by rewrite <- !app_assoc.
Qed.

Definition sent (p : PORT_REF) (port : PORT_T) (st st' : STP_T) : Prop :=
  ∃ ev k, st' = traced ev (put_port st p (port <| skip_tx := k |>)) ∧ (count_tx ev ≤ 1)%nat ∧
    Forall (engine_event (crowded st)) ev.

Lemma sent_traced p port st ev :
  st.(port_heap) !! p = Some port → (count_tx ev ≤ 1)%nat → Forall (engine_event (crowded st)) ev →
  sent p port st (traced ev st).
Proof.
  intros H Hev F. exists ev, port.(skip_tx). split_and!; [|done..]. by rewrite put_port_id.
Qed.

Lemma sent_same p port st : st.(port_heap) !! p = Some port → sent p port st st.
Proof. intros H. apply (sent_traced p port st []); [done|exact (Nat.le_0_l 1)|constructor]. Qed.

Section Tx.
Context (p : PORT_REF) (st : STP_T) (port : PORT_T) (stpm : STPM_T).
Hypotheses (W : wf st) (H : st.(port_heap) !! p = Some port)
  (Hs : st.(stpm_heap) !! port.(owner) = Some stpm).

Lemma owner_members q : q ∈ stpm.(STPM.ports) → is_Some (st.(port_heap) !! q).
Proof. intros Hq. by destruct (wf_on_list _ _ _ _ W Hs Hq) as (_ & ? & ?). Qed.

Lemma skipped_sent st' : tx_skipped st p port = Some st' → sent p port st st'.
Proof.
  unfold tx_skipped. case_match; [|case_match; [|done]]; intros [= <-].
  - exists [], (port.(skip_tx) - 1). split_and!; [done|exact (Nat.le_0_l 1)|constructor].
  - by apply sent_same.
Qed.

Lemma sent_notify i v b z n w s k (c : bool) :
  tx_fits (crowded st) z n →
  wp (if c then notify_tcn_ports stpm.(STPM.ports) (stp_to_tx_bpdu st i v b z n w s k)
      else Done (stp_to_tx_bpdu st i v b z n w s k)) (sent p port st).
Proof.
  intros Hf. destruct (tx_bpdu_traced _ st i v b z n w s k Hf) as (ev & e & -> & Ee & Hev & F).
  assert (F' : Forall (engine_event (crowded st)) (ev ++ [e])).
  { apply Forall_app. split; [done|]. repeat constructor. rewrite Ee. by destruct w. }
  assert (Hc : count_tx (ev ++ [e]) = 1%nat) by (rewrite count_tx_app, Hev, Ee; by destruct w).
  destruct c.
  - destruct (notify_tcn_spec stpm.(STPM.ports) (traced (ev ++ [e]) st)) as (ev' & -> & Hev' & Hp).
    { apply owner_members. }
    simpl. rewrite traced_traced. apply sent_traced; [done|rewrite count_tx_app; lia|].
    apply Forall_app. split; [by apply plain_engine|done].
  - simpl. apply sent_traced; [done|lia|done].
Qed.

(** The short frames are sent with 81 bytes. *)
Lemma short_fits t len : 0 ≤ len < 64 → tx_fits (crowded st) SIZE_RSTP_BPDU
  ((stp_transmit_build_bpdu_header st t len).2 + SIZE_MAC_ETH).
Proof.
  intros Hl. unfold stp_transmit_build_bpdu_header, MIN_FRAME_LENGTH. repeat case_match; simplify_eq/=;
    unfold tx_fits, SIZE_RSTP_BPDU, SIZE_MAC_ETH; bool_facts; try lia.
Qed.

Lemma txTcn_sent : wp (stp_transmit_txTcn st p) (sent p port st).
Proof.
  unfold stp_transmit_txTcn. rewrite (get_port_Some _ _ _ H). simpl.
  destruct (tx_skipped st p port) as [st'|] eqn:E; [by apply skipped_sent|].
  rewrite (get_stpm_Some _ _ _ Hs). simpl. apply (sent_notify _ _ _ _ _ _ _ _ true).
  apply (short_fits BPDU_TOPO_CHANGE_TYPE SIZE_HDR). unfold SIZE_HDR. lia.
Qed.

Lemma txConfig_sent : wp (stp_transmit_txConfig st p) (sent p port st).
Proof.
  unfold stp_transmit_txConfig. rewrite (get_port_Some _ _ _ H). simpl.
  destruct (tx_skipped st p port) as [st'|] eqn:E; [by apply skipped_sent|].
  rewrite (get_stpm_Some _ _ _ Hs). apply (sent_notify _ _ _ _ _ _ _ _ false).
  apply (short_fits BPDU_CONFIG_TYPE (SIZE_HDR + SIZE_BODY)). unfold SIZE_HDR, SIZE_BODY. lia.
Qed.

(** The long ones fit their block; those of a port in few MSTIs are short. *)
Lemma long_fits fv fixed width size v3len :
  v3len = 0 ∨ v3len = u16 (64 + width * Z.of_nat (length port.(nextMst))) →
  3 ≤ fixed ≤ 4 → 16 ≤ width ≤ 26 → 52 + fixed + 64 + width * 64 ≤ size →
  tx_fits (crowded st) size ((mstp_pkt_len fv fixed v3len).2 + SIZE_MAC_ETH).
Proof.
  intros Hv Hx Hw Hs1. pose proof (wf_chain_length _ _ _ W H) as Hn.
  assert (Hb : 0 ≤ v3len ≤ 64 + width * Z.of_nat (length port.(nextMst))).
  { destruct Hv as [-> | ->]; [nia|]. rewrite u16_small by nia. nia. }
  unfold mstp_pkt_len, SIZE_HDR, SIZE_BODY, SIZE_MAC_ETH, tx_fits.
  destruct (fv <? 3); cbn [snd]; [nia|]. rewrite u16_small by nia.
  split; [left; nia|]. destruct (decide (6 ≤ length port.(nextMst))%nat); [right|left; nia].
  by exists p, port.
Qed.

(** The messages of the chain: one per MSTI port. *)
Lemma chain_msgs_total {A} (enc : STPM_T → PORT_T → A) :
  ∃ msgs, chain_msgs enc st port.(nextMst) = Done msgs ∧
    length msgs = length port.(nextMst).
Proof.
  assert (Hex : ∀ r, r ∈ port.(nextMst) → ∃ mst, st.(port_heap) !! r = Some mst).
  { intros r Hr. by destruct (wf_nextMst _ _ _ _ W H Hr) as (_ & ?). }
  induction port.(nextMst) as [|r chain IH]; simpl; [by exists []|].
  destruct (Hex r ltac:(left)) as [mst Hm]. rewrite (get_port_Some _ _ _ Hm). simpl.
  destruct (wf_port_owner _ _ _ W Hm) as (-> & _ & s & Hb). rewrite (get_stpm_Some _ _ _ Hb). simpl.
  destruct IH as (msgs & -> & Hl). { intros. apply Hex. by right. }
  simpl. eexists; split; [done|]. simpl. by rewrite Hl.
Qed.

Lemma msti_room_total {A} (width : nat) (f : A → list Z) msgs :
  length msgs = length port.(nextMst) → ∃ room, msti_room width (f <$> msgs) = Done room.
Proof.
  intros Hl. unfold msti_room. rewrite length_fmap, Hl.
  rewrite decide_True by (by eapply wf_chain_length). eauto.
Qed.

Lemma find_instance_total l mstid :
  (∀ b, b ∈ l → is_Some (st.(stpm_heap) !! b)) →
  wp (find_instance st l mstid) (fun r => ∀ b, r = Some b → b ∈ l).
Proof.
  induction l as [|b l IH]; intros Hl; simpl; [done|].
  destruct (Hl b ltac:(left)) as [s Hb]. rewrite (get_stpm_Some _ _ _ Hb). simpl.
  destruct (_ =? mstid); simpl; [intros ? [= <-]; left|].
  eapply wp_mono; [apply IH; intros; apply Hl; by right|]. intros r Hr c E. right. auto.
Qed.

Lemma instances_exist b : b ∈ st.(bridges) → is_Some (st.(stpm_heap) !! b).
Proof. intros Hb. by apply shape_stpm_is_Some, (wf_bridges _ W b). Qed.

Ltac long_tx :=
  match goal with |- context [mstp_pkt_len ?fv ?x ?v] =>
    let F := fresh in
    pose proof (long_fits fv x (if x =? 4 then 26 else 16) (if x =? 4 then SIZE_CISCO_BPDU else SIZE_MSTP_BPDU) v) as F;
    destruct (mstp_pkt_len fv x v); destruct (stp_transmit_build_bpdu_header _ _ _);
    apply sent_notify; apply F; [|simpl; unfold SIZE_CISCO_BPDU, SIZE_MSTP_BPDU; lia..]
  end.

Lemma txCisco_sent : wp (stp_transmit_txMstp_to_Cisco st p) (sent p port st).
Proof.
  unfold stp_transmit_txMstp_to_Cisco. rewrite (get_port_Some _ _ _ H). simpl.
  rewrite (get_stpm_Some _ _ _ Hs). cbn [obind]. case_match.
  - apply wp_bind. eapply wp_mono; [apply find_instance_total, instances_exist|].
    intros [c|] Hc; [|by apply sent_same].
    destruct (instances_exist c (Hc c eq_refl)) as [cist Hcist].
    rewrite (get_stpm_Some _ _ _ Hcist). cbn [obind].
    destruct (chain_msgs_total stp_vector_cisco_set_mst_vector) as (msgs & -> & Hl). cbn [obind].
    destruct (msti_room_total 26 cisco_msti_bytes msgs Hl) as (room & ->). cbn [obind].
    long_tx. right. by rewrite Hl.
  - long_tx. by left.
Qed.

Lemma txMstp_sent : wp (stp_transmit_txMstp st p) (sent p port st).
Proof.
  unfold stp_transmit_txMstp. rewrite (get_port_Some _ _ _ H). cbn [obind].
  destruct port.(admin_non_stp); [by apply sent_same|].
  rewrite (get_stpm_Some _ _ _ Hs). cbn [obind]. case_match; [by apply sent_same|].
  destruct port.(configDigestSnp); [apply txCisco_sent|]. case_match.
  - destruct (chain_msgs_total stp_vector_set_mst_vector) as (msgs & -> & Hl). cbn [obind].
    destruct (msti_room_total 16 msti_bytes msgs Hl) as (room & ->). cbn [obind].
    long_tx. right. by rewrite Hl.
  - long_tx. by left.
Qed.
End Tx.

(** ** Entering a state *)

Definition sending (s : STATES) : bool :=
  match s with TRANSMIT_CONFIG | TRANSMIT_TCN | TRANSMIT_RSTP => true | _ => false end.

(** The port after entering [s]: [c] and [m] are the values the periodic
    state computes for the two flags, [k] the debug counter. *)
Definition transmit_own (hello : Z) (c m : bool) (k : Z) (s : STATES) (port : PORT_T) : PORT_T :=
  match s with
  | BEGIN | TRANSMIT_INIT => (clear_newinfo port) <| helloWhen := 0 |> <| txCount := 0 |>
  | TRANSMIT_PERIODIC =>
      port <| newInfoCist := c |> <| newInfoMsti := m |> <| helloWhen := hello |>
  | IDLE => port
  | TRANSMIT_TCN =>
      (clear_newinfo port) <| skip_tx := k |> <| txCount := port.(txCount) + 1 |>
  | TRANSMIT_CONFIG | TRANSMIT_RSTP =>
      (clear_newinfo port) <| skip_tx := k |> <| txCount := port.(txCount) + 1 |> <| tcAck := false |>
  end.

Lemma transmit_own_shape hello c m k s port :
  pshape (transmit_own hello c m k s port) = pshape port.
Proof. by destruct s. Qed.

Lemma any_port_total f st chain :
  (∀ q, q ∈ chain → is_Some (st.(port_heap) !! q)) → ∃ r, any_port f st chain = Done r.
Proof.
  induction chain as [|q chain IH]; intros Hex; simpl; [eauto|].
  destruct (Hex q ltac:(left)) as [port H]. rewrite (get_port_Some _ _ _ H). simpl.
  destruct (f port); [eauto|]. apply IH. intros. apply Hex. by right.
Qed.

Lemma cist_port_of_spec st q port :
  wf st → st.(port_heap) !! q = Some port →
  ∃ c cport, stp_port_mst_findport st STP_CIST_ID q.2 = Done (Some c) ∧
    st.(port_heap) !! c = Some cport ∧ c.1 = STP_CIST_ID ∧
    cist_port_of st q.2 = Done (Some cport) ∧
    ∀ r, r ∈ cport.(nextMst) → is_Some (st.(port_heap) !! r).
Proof.
  intros W H. destruct (findport_cist _ _ _ W H) as (c & cport & E & Hc & Hp).
  exists c, cport. split_and!; [done..| |].
  - unfold cist_port_of. rewrite E. simpl. by rewrite (get_port_Some _ _ _ Hp).
  - intros r Hr. by destruct (wf_nextMst _ _ _ _ W Hp Hr) as (_ & ?).
Qed.

Lemma cist_port_is_total f st q port :
  wf st → st.(port_heap) !! q = Some port → ∃ b, cist_port_is f st q.2 = Done b.
Proof.
  intros W H. destruct (cist_port_of_spec _ _ _ W H) as (c & cport & _ & _ & _ & E & _).
  unfold cist_port_is. rewrite E. eauto.
Qed.

Lemma any_msti_port_total f st q port :
  wf st → st.(port_heap) !! q = Some port → ∃ b, any_msti_port f st q.2 = Done b.
Proof.
  intros W H. destruct (cist_port_of_spec _ _ _ W H) as (c & cport & _ & _ & _ & E & Hex).
  unfold any_msti_port. rewrite E. simpl. by apply any_port_total.
Qed.

Lemma cist_ready_put p st port port' :
  ready p st → st.(port_heap) !! p = Some port → pshape port' = pshape port →
  ready p (put_port st p port').
Proof. intros R H E. eapply ready_same; [by eapply put_port_shape|done]. Qed.

Definition entered_transmit (p : PORT_REF) (port : PORT_T) (s : STATES) (hello : Z)
    (st st1 : STP_T) : Prop :=
  ∃ c m k ev, st1 = traced ev (put_port st p (transmit_own hello c m k s port)) ∧
    (count_tx ev ≤ if sending s then 1 else 0)%nat ∧ Forall (engine_event (crowded st)) ev.

(** A transmission, then the assignments after it. *)
Lemma transmit_tx p st port stpm tx f s :
  ready p st → st.(port_heap) !! p = Some port → st.(stpm_heap) !! p.1 = Some stpm →
  (∀ st' port', wf st' → st'.(port_heap) !! p = Some port' →
     st'.(stpm_heap) !! port'.(owner) = Some stpm → wp (tx st' p) (sent p port' st')) →
  sending s = true →
  (∀ k, f ((clear_newinfo port) <| skip_tx := k |>) = transmit_own 0 false false k s port) →
  wp (let* st' := tx (put_port st p (clear_newinfo port)) p in upd_port p f st')
    (fun st1 => ∃ hello, entered_transmit p port s hello st st1).
Proof.
  intros R H Hs Htx Hsend Hf. assert (W := proj1 R). apply wp_bind.
  destruct (wf_port_owner _ _ _ W H) as (Ho & _).
  assert (R' : ready p (put_port st p (clear_newinfo port))) by (by eapply cist_ready_put).
  eapply wp_mono.
  { apply (Htx _ (clear_newinfo port)); [apply R'|apply put_port_lookup|]. simpl. by rewrite Ho. }
  intros st1 (ev & k & -> & Hev & Hf'). rewrite put_put_port. set (port1 := _ <| skip_tx := k |>).
  unfold upd_port. rewrite (get_port_Some _ p port1) by apply put_port_lookup.
  exists 0, false, false, k, ev. rewrite Hsend. split_and!; [|done|].
  2: { revert Hf'. apply Forall_impl. intros e. apply engine_event_mono.
       apply crowded_same. symmetry. by eapply put_port_shape. }
  rewrite <- Hf. fold port1.
  unfold traced, put_port, set, set_port_heap, set_trace. simpl. by rewrite insert_insert_eq.
Qed.

Lemma transmit_enter_spec p st port m stpm :
  ready p st → st.(port_heap) !! p = Some port → port.(transmit) = Some m →
  st.(stpm_heap) !! p.1 = Some stpm →
  wp (MSTP_transmit_enter_state st p)
    (entered_transmit p port m.(State) stpm.(STPM.rootTimes).(HelloTime) st).
Proof.
  intros R H E Hs. assert (W := proj1 R). unfold MSTP_transmit_enter_state.
  rewrite (mach_of_Done transmit_field _ _ _ m H E). cbn [obind].
  destruct (wf_port_owner _ _ _ W H) as (Ho & Hi & _).
  assert (Hsent : ∀ s, sending s = true → ∀ st1 h h', entered_transmit p port s h st st1 →
    entered_transmit p port s h' st st1).
  { intros s Hsd st1 h h' (c & b & k & ev & -> & ?). exists c, b, k, ev. by destruct s. }
  destruct m.(State) eqn:Em.
  - exists false, false, 0, []. split_and!; [done|exact (Nat.le_0_l 0)|constructor].
  - exists false, false, 0, []. split_and!; [done|exact (Nat.le_0_l 0)|constructor].
  - rewrite Hi.
    destruct (cist_port_is_total (fun port => port.(newInfoCist) || periodic port) st p port W H)
      as (c & Ec). unfold stp_transmit_update_newInfoCist. rewrite Ec. cbn [obind].
    set (st1 := put_port _ _ _). assert (R1 : ready p st1) by (by eapply cist_ready_put).
    destruct (any_msti_port_total (fun port => port.(newInfoMsti) || periodic port) st1 p
      (port <| newInfoCist := c |>)) as (b & Eb); [apply R1|apply put_port_lookup|].
    unfold stp_transmit_update_newInfoMsti.
    change ((port <| newInfoCist := c |>).(port_index)) with port.(port_index).
    rewrite Hi, Eb. cbn [obind].
    change ((port <| newInfoCist := c |> <| newInfoMsti := b |>).(owner)) with port.(owner).
    rewrite Ho, (get_stpm_Some _ _ _ Hs). cbn [obind].
    exists c, b, 0, []. split_and!; [done|exact (Nat.le_0_l 0)|constructor].
  - exists false, false, 0, []. split_and!; [cbn [transmit_own]; by rewrite put_port_id|exact (Nat.le_0_l 0)|constructor].
  - eapply wp_mono; [apply (transmit_tx p st port stpm stp_transmit_txConfig _ TRANSMIT_CONFIG); [done..| |done|done]|].
    + intros. by eapply txConfig_sent.
    + intros ? [? ?]. by eapply Hsent.
  - eapply wp_mono; [apply (transmit_tx p st port stpm stp_transmit_txTcn _ TRANSMIT_TCN); [done..| |done|done]|].
    + intros. by eapply txTcn_sent.
    + intros ? [? ?]. by eapply Hsent.
  - eapply wp_mono; [apply (transmit_tx p st port stpm stp_transmit_txMstp _ TRANSMIT_RSTP); [done..| |done|done]|].
    + intros. by eapply txMstp_sent.
    + intros ? [? ?]. by eapply Hsent.
Qed.

(** ** Termination *)

Definition transmit_ready (hello : Z) (p : PORT_REF) (st : STP_T) : Prop :=
  cist_ready p st ∧ ∃ stpm, st.(stpm_heap) !! p.1 = Some stpm ∧
    stpm.(STPM.rootTimes).(HelloTime) = hello.

(** A hello period starts when the timer is out; a frame goes only while the
    hold count allows. *)
Definition transmit_step (port : PORT_T) (s : STATES) : Prop :=
  (s = TRANSMIT_PERIODIC ∧ port.(helloWhen) = 0) ∨
  (sending s = true ∧ port.(helloWhen) ≠ 0 ∧ port.(txCount) < TxHoldCount).

Lemma transmit_next_spec p st port :
  ready p st → st.(port_heap) !! p = Some port →
  wp (transmit_next st port) (fun r => ∀ s, r = Some s → transmit_step port s).
Proof.
  intros [W _] H. unfold transmit_next. destruct (wf_port_owner _ _ _ W H) as (_ & -> & _).
  destruct (cist_port_of_spec _ _ _ W H) as (c & cport & Ef & Hc & _ & _ & Hex).
  assert (∃ sel, stp_transmit_ifselectedAndnotupdtInfoInAnyMstPort st p.2 = Done sel) as (sel & ->).
  { unfold stp_transmit_ifselectedAndnotupdtInfoInAnyMstPort. rewrite Ef. cbn [obind].
    rewrite (get_port_Some _ _ _ Hc). cbn [obind]. apply any_port_total.
    intros q [->|Hq]%elem_of_cons; eauto. }
  cbn [obind]. case_match; [done|]. case_match; [done|].
  destruct (Z.eqb_spec port.(helloWhen) 0) as [E0|E0].
  { intros s [= <-]. by left. }
  destruct (cist_port_is_total is_designated _ _ _ W H) as (cd & Ecd).
  destruct (cist_port_is_total is_root _ _ _ W H) as (cr & Ecr).
  destruct (any_msti_port_total is_root _ _ _ W H) as (mr & Emr).
  destruct (any_msti_port_total is_designated _ _ _ W H) as (md & Emd).
  unfold stp_transmit_cistDesignatedPort, stp_transmit_cistRootPort,
    stp_transmit_mstiRootPort, stp_transmit_mstiDesignatedPort.
  rewrite Ecd, Ecr, Emr, Emd. cbn [obind].
  assert (Hroom : ∀ b, b && (port.(txCount) <? TxHoldCount) = true → port.(txCount) < TxHoldCount).
  { intros b Hb. bool_facts. lia. }
  repeat (case_match; simpl); intros s; (intros [= <-] || done); right; bool_facts; auto.
Qed.

Definition transmit_mu (s : STATES) (port : PORT_T) : nat :=
  let hold (n : Z) := (3 * Z.to_nat (TxHoldCount - n))%nat in
  let hello := if port.(helloWhen) =? 0 then 2%nat else 0%nat in
  match s with
  | BEGIN => 15
  | TRANSMIT_INIT => 14
  | TRANSMIT_PERIODIC => 2 + hold port.(txCount)
  | IDLE => 1 + hold port.(txCount) + hello
  | _ => 2 + hold (port.(txCount) + 1)%Z + hello
  end%nat.

#[local] Arguments transmit_mu : simpl never.

#[export] Instance transmit_field_laws : FieldLaws transmit_field.
Proof.
  split; try done. intros m m' port E. unfold pshape. simpl in *. by rewrite E.
Qed.

Lemma transmit_ready_same hello p st st' :
  same_shape st st' → st'.(stpm_heap) = st.(stpm_heap) →
  transmit_ready hello p st → transmit_ready hello p st'.
Proof.
  intros E E1 [R (stpm & ? & ?)]. split; [by eapply cist_ready_same|].
  exists stpm. by rewrite E1.
Qed.

Lemma entered_transmit_shape p port s hello st st1 :
  st.(port_heap) !! p = Some port → entered_transmit p port s hello st st1 →
  same_shape st st1 ∧ st1.(stpm_heap) = st.(stpm_heap).
Proof.
  intros H (c & m & k & ev & -> & _). split; [|done].
  exact (put_port_shape _ _ _ _ H (transmit_own_shape hello c m k s port)).
Qed.

Lemma transmit_has hello p st :
  transmit_ready hello p st →
  ∃ port m, st.(port_heap) !! p = Some port ∧ mach_get transmit_field port = Some m.
Proof.
  intros [[[W [port H]] Hp] _].
  destruct (wf_cist_machines _ _ _ W H Hp) as (_ & [m ?] & _). eauto.
Qed.

Lemma transmit_mu_next hello c m k s port port2 s' :
  hello ≠ 0 → port2 = transmit_own hello c m k s port →
  (s = IDLE ∧ transmit_step port s') ∨ (s = BEGIN ∧ s' = TRANSMIT_INIT) ∨
    (s ≠ BEGIN ∧ s ≠ IDLE ∧ s' = IDLE) →
  (transmit_mu s' port2 < transmit_mu s port)%nat.
Proof.
  intros Hh ->. unfold transmit_mu, TxHoldCount. intros [[-> Hs]|[[-> ->]|(H1 & H2 & ->)]].
  - unfold transmit_step, TxHoldCount in Hs. simpl.
    destruct Hs as [[-> ->]|(Hs & Hw & Hc)]; simpl; [lia|].
    rewrite (proj2 (Z.eqb_neq _ _) Hw). destruct s'; try done; lia.
  - lia.
  - destruct s; try done; simpl; try lia; case_match; lia.
Qed.

#[export] Instance transmit_terminating hello p (Hh : hello ≠ 0) :
  Terminating (transmit_machine p) (transmit_ready hello p) (mu_at transmit_field transmit_mu p).
Proof.
  apply (port_machine_terminating transmit_field);
    [exact (transmit_has hello p)| |intros [] ? ?; reflexivity|].
  - intros st port m R H. destruct (transmit_has _ _ _ R) as (port' & m' & H' & E').
    rewrite H in H'. injection H' as <-.
    eapply transmit_ready_same; [exact (mach_put_present transmit_field st p port m' m H E')|done|done].
  - intros st port m R H E. destruct (R) as [[Rr Hp] (stpm & Hs & Hel)].
    eapply wp_mono; [by eapply transmit_enter_spec|]. intros st1 He.
    destruct (entered_transmit_shape _ _ _ _ _ _ H He) as [E1 E2].
    split; [by eapply transmit_ready_same|]. rewrite Hel in He.
    destruct He as (c & b & k & ev & -> & _).
    set (port1 := transmit_own hello c b k m.(State) port).
    exists port1. split; [apply put_port_lookup|].
    split; [unfold port1; by destruct m.(State)|]. intros st2 R2 H2.
    unfold MSTP_transmit_check_conditions.
    rewrite (mach_of_Done _ _ _ _ _ H2 (mach_get_put _ _)). cbn [obind State].
    pose proof (transmit_mu_next hello c b k m.(State) port port1) as Hmu.
    destruct m.(State) eqn:Em; try (right; eexists; split; [done|]; apply Hmu; [done..|naive_solver]).
    destruct (wp_elim _ _ (transmit_next_spec p st2 _ (proj1 (proj1 R2)) H2)) as (r & -> & Hr).
    destruct r as [s|]; [|by left]. right. exists s. split; [done|].
    apply Hmu; [done..|]. left. split; [done|]. exact (Hr s eq_refl).
Qed.

(** ** The transmission rate

    From [IDLE] the machine never goes back to its initial state, so that
    every frame is counted. *)

Definition held (s : STATES) (port : PORT_T) : Prop :=
  s ≠ BEGIN ∧ s ≠ TRANSMIT_INIT ∧ port.(txCount) ≤ TxHoldCount ∧
  (sending s = true → port.(txCount) < TxHoldCount).

(** Frames sent so far, less those counted. *)
Definition uncounted (st : STP_T) (port : PORT_T) : Z :=
  Z.of_nat (count_tx st.(trace)) - port.(txCount).

Definition rate_inv (n : Z) (p : PORT_REF) (st : STP_T) : Prop :=
  ∃ port m, st.(port_heap) !! p = Some port ∧ port.(transmit) = Some m ∧
    held m.(State) port ∧ uncounted st port ≤ n.

(** What a frame adds to the trace, the counter adds to [txCount]. *)
Lemma transmit_own_rate hello c b k s port ev n (t : list EVENT) :
  held s port → (count_tx ev ≤ if sending s then 1 else 0)%nat →
  Z.of_nat (count_tx t) - port.(txCount) ≤ n →
  let port1 := transmit_own hello c b k s port in
  port1.(txCount) ≤ TxHoldCount ∧ Z.of_nat (count_tx (ev ++ t)) - port1.(txCount) ≤ n.
Proof.
  intros (Hb & Hi & Hc & Hs) Hev Hn. rewrite count_tx_app.
  destruct s; simpl in *; try done; try specialize (Hs eq_refl); lia.
Qed.

(** Where the machine goes next is again counted. *)
Lemma transmit_check_held p st2 port2 m :
  ready p st2 → st2.(port_heap) !! p = Some port2 → port2.(transmit) = Some m →
  m.(State) ≠ BEGIN → port2.(txCount) ≤ TxHoldCount →
  (m.(State) = IDLE ∧ MSTP_transmit_check_conditions st2 p = Done (st2, false)) ∨
  ∃ s, MSTP_transmit_check_conditions st2 p = hop transmit_field st2 p s ∧ held s port2.
Proof.
  intros R H2 E Hb Hc. unfold MSTP_transmit_check_conditions.
  rewrite (mach_of_Done transmit_field _ _ _ _ H2 E). cbn [obind].
  destruct m.(State) eqn:Em; try done; try (right; exists IDLE; by split_and!).
  destruct (wp_elim _ _ (transmit_next_spec p st2 _ R H2)) as (r & -> & Hr).
  destruct r as [s|]; [|by left]. right. exists s. split; [done|].
  destruct (Hr s eq_refl) as [[-> _]|(Hsd & _ & Hlt)]; split_and!; try done; by intros ->.
Qed.

Lemma transmit_turn_rate n p st st' :
  cist_ready p st → rate_inv n p st → change_state_body (transmit_machine p) st = Done st' →
  cist_ready p st' ∧ rate_inv n p st'.
Proof.
  intros [R Hp] (port & m & H & E & Hh & Hu) Hbody.
  destruct (wf_port_owner _ _ _ (proj1 R) H) as (_ & _ & stpm & Hstpm).
  destruct (wp_elim _ _ (transmit_enter_spec p st port m stpm R H E Hstpm)) as (st1 & He & He1).
  destruct (entered_transmit_shape _ _ _ _ _ _ H He1) as [E1 _].
  destruct He1 as (c & b & k & ev & -> & Hev & _).
  destruct (transmit_own_rate stpm.(STPM.rootTimes).(HelloTime) c b k _ _ _ _ st.(trace) Hh Hev Hu) as [Hc Hn].
  set (port1 := transmit_own _ c b k m.(State) port) in *. set (st1 := traced _ _) in *.
  assert (H1 : st1.(port_heap) !! p = Some port1) by apply put_port_lookup.
  assert (Et : mach_get transmit_field port1 = Some m) by (unfold port1; by destruct m.(State)).
  set (st2 := idle_after transmit_field st1 p port1 m.(State)).
  assert (R1 : cist_ready p st1) by (by eapply cist_ready_same).
  assert (R2 : cist_ready p st2) by (eapply cist_ready_same; [exact (idle_after_shape transmit_field p st1 port1 m H1 Et)|done]).
  destruct (transmit_check_held p st2 _ (mkMach m.(State) false) (proj1 R2)
    (idle_after_lookup transmit_field p st1 port1 m)) as [[Ei Hck]|(s & Hck & Hs)];
    [done|apply Hh|exact Hc|..].
  - unfold transmit_machine in Hbody. rewrite (body_stay _ _ _ _ _ _ _ _ He H1 Et _ Hck) in Hbody.
    injection Hbody as <-. split; [done|]. eexists _, _. split; [apply put_port_lookup|].
    split; [done|]. split; [|exact Hn]. destruct Hh as (? & ? & ? & ?). split_and!; [done..|].
    cbn [State] in *. by rewrite Ei.
  - unfold transmit_machine in Hbody. rewrite (body_hop _ _ _ _ _ _ _ _ He H1 Et _ Hck) in Hbody.
    injection Hbody as <-. split.
    + eapply cist_ready_same; [exact (mach_put_present transmit_field st1 p port1 m _ H1 Et)|done].
    + eexists _, _. split; [apply put_port_lookup|]. split; [done|]. by split.
Qed.
