(* ===== verification/StpFrame.v ===== *)
(** * The frame of the protocol engine

    What no state machine touches: the shape of the heap, the driver's tables
    of speeds, duplex modes and links, the current frame, and the global switch;
    and the trace gains no access outside a block but those of [engine_overrun].
    [frame st0 st] says that [st] has the frame of [st0]; the lemmas below show
    that entering a state and checking the conditions of every machine keeps
    it.  The tactic [frame_tac] follows the program's sequence of assignments. *)

From Stdlib Require Import ZArith Lia.
From stdpp Require Import base gmap list option.
From S2P Require Import Prelude StpTypes StpTo StpHeap StpStatmch StpMachines StpPort StpRoletrns StpTopoch StpPortinfo StpRolesel.

Record frame (st0 st : STP_T) : Prop := {
  fr_shape : same_shape st0 st;
  fr_speed : st.(port_speed_s) = st0.(port_speed_s);
  fr_duplex : st.(port_duplex_mode_nodes) = st0.(port_duplex_mode_nodes);
  fr_cur : st.(g_curBPDU) = st0.(g_curBPDU);
  fr_flag : st.(g_flag) = st0.(g_flag);
  fr_mac : st.(sysMac) = st0.(sysMac);
  fr_links : st.(enabled_ports) = st0.(enabled_ports);
  fr_slot : st.(stp_slot_id) = st0.(stp_slot_id);
  fr_trace : adds (engine_event (crowded st0)) st0 st }.

#[export] Instance frame_preorder : PreOrder frame.
Proof.
  split; [by intros st; split|]. intros a b c [Ea] [Eb]. split; [by etransitivity|congruence..|].
  etransitivity; [done|]. eapply adds_mono; [|done]. intros e. apply engine_event_mono.
  apply crowded_same. by symmetry.
Qed.

(** ** Primitive steps *)

(** [port] has the shape of the port [p] of [st0]. *)
Definition shaped (st0 : STP_T) (p : PORT_REF) (port : PORT_T) : Prop :=
  ∃ port0, st0.(port_heap) !! p = Some port0 ∧ pshape port = pshape port0.

Lemma get_shaped st0 st p port : frame st0 st → get_port st p = Done port → shaped st0 p port.
Proof.
  intros F H. apply deref_Done in H.
  destruct (same_port _ st0 _ _ (symmetry (fr_shape _ _ F)) H) as (port0 & ? & ?).
  exists port0. by split.
Qed.

Lemma put_frame st0 st p port port' :
  frame st0 st → shaped st0 p port → pshape port' = pshape port → frame st0 (put_port st p port').
Proof.
  intros [E ? ? ? ? ? ? ? ?] (port0 & H0 & E0) E1. split; try done.
  destruct (same_port _ _ _ _ E H0) as (x & Hx & Ex).
  etransitivity; [exact E|]. eapply put_port_shape; [exact Hx|congruence].
Qed.

Lemma upd_port_frame st0 st st' p f :
  frame st0 st → (∀ x, pshape (f x) = pshape x) → upd_port p f st = Done st' → frame st0 st'.
Proof.
  intros F Hf (port & H & E)%obind_Done. injection E as <-.
  eapply put_frame; [done|by eapply get_shaped|auto].
Qed.

Lemma foldM_frame {A} st0 (g : A → STP_T → outcome STP_T) l st st' :
  (∀ x s s', frame st0 s → g x s = Done s' → frame st0 s') →
  frame st0 st → foldM g l st = Done st' → frame st0 st'.
Proof. intros Hg. apply (foldM_inv (frame st0)). intros; eapply Hg; eauto. Qed.

Lemma upd_ports_frame st0 st st' l f :
  frame st0 st → (∀ x, pshape (f x) = pshape x) → upd_ports l f st = Done st' → frame st0 st'.
Proof.
  intros F Hf. apply (foldM_frame st0 (fun p => upd_port p f)); [|done].
  intros x s s' Fs. by apply upd_port_frame.
Qed.

Lemma put_stpm_frame st0 st b stpm stpm' :
  frame st0 st → get_stpm st b = Done stpm → sshape stpm' = sshape stpm →
  frame st0 (put_stpm st b stpm').
Proof.
  intros [E ? ? ? ? ? ? ? ?] H Es. apply deref_Done in H. split; try done.
  etransitivity; [exact E|]. by eapply put_stpm_shape.
Qed.

Lemma emit_frame st0 st e : engine_event (crowded st0) e → frame st0 st → frame st0 (emit e st).
Proof. intros H []. split; try done. by apply adds_emit. Qed.

Lemma access_frame st0 st b room len :
  engine_overrun (crowded st0) b room len → frame st0 st → frame st0 (access b room len st).
Proof. intros H F. unfold access. destruct (_ <? _); [by apply emit_frame|done]. Qed.

Section Mach.
Context {S : Type} (f : MACH_FIELD S) `{!FieldLaws f}.

Lemma mach_shaped st0 st p port m :
  frame st0 st → mach_of f st p = Done (port, m) → shaped st0 p port.
Proof.
  intros F (x & Hx & E)%obind_Done. apply obind_Done in E as (m' & _ & E). simplify_eq.
  by eapply get_shaped.
Qed.

Lemma mach_put_frame st0 st p port m m' :
  frame st0 st → mach_of f st p = Done (port, m) →
  frame st0 (put_port st p (mach_put f m' port)).
Proof.
  intros F H. eapply put_frame; [done|by eapply mach_shaped|].
  apply obind_Done in H as (x & Hx & E). apply obind_Done in E as (m0 & E0 & E). simplify_eq.
  apply deref_Done in E0. by eapply mach_put_shape.
Qed.

Lemma hop_frame st0 st st' p s r : frame st0 st → hop f st p s = Done (st', r) → frame st0 st'.
Proof.
  intros F ([port m] & H & E)%obind_Done. simplify_eq. by eapply mach_put_frame.
Qed.

Lemma set_change_frame st0 st st' p c :
  frame st0 st → port_set_changeState f p c st = Done st' → frame st0 st'.
Proof.
  intros F ([port m] & H & E)%obind_Done. simplify_eq. by eapply mach_put_frame.
Qed.
End Mach.

(** ** Following the assignments *)

Ltac frame_shape :=
  intros; simpl; try reflexivity; repeat (case_match; try reflexivity).

(** Every known [frame st0 _], and the shapes of the ports read. *)
Ltac frame_step :=
  match goal with
  | H : Done _ = Done _ |- _ => injection H as <- || (injection H as <- <-) || (injection H; intros; subst)
  | H : Segv = Done _ |- _ => discriminate H
  | H : OutOfFuel = Done _ |- _ => discriminate H
  | H : obind _ _ = Done _ |- _ =>
      let x := fresh "v" in let Hx := fresh "Hv" in
      apply obind_Done in H; destruct H as (x & Hx & H);
      lazymatch type of x with
      | PORT_REF => idtac
      | prod _ _ => destruct x as [? ?]
      | _ => idtac
      end
  | F : frame ?st0 ?st, H : mach_of ?f ?st ?p = Done (?port, ?m) |- _ =>
      lazymatch goal with
      | _ : shaped st0 p port |- _ => fail
      | _ => pose proof (mach_shaped f st0 st p port m F H)
      end
  | F : frame ?st0 ?st, H : get_port ?st ?p = Done ?port |- _ =>
      lazymatch goal with
      | _ : shaped st0 p port |- _ => fail
      | _ => pose proof (get_shaped st0 st p port F H)
      end
  | F : frame ?st0 ?st, H : upd_port ?p ?g ?st = Done ?st' |- _ =>
      pose proof (upd_port_frame st0 st st' p g F ltac:(frame_shape) H); clear H
  | F : frame ?st0 ?st, H : upd_ports ?l ?g ?st = Done ?st' |- _ =>
      pose proof (upd_ports_frame st0 st st' l g F ltac:(frame_shape) H); clear H
  | F : frame ?st0 ?st, H : hop ?f ?st ?p ?s = Done (?st', ?r) |- _ =>
      pose proof (hop_frame f st0 st st' p s r F H); clear H
  | F : frame ?st0 ?st, S : shaped ?st0 ?p ?port, H : context [put_port ?st ?p ?port'] |- _ =>
      lazymatch goal with
      | _ : frame st0 (put_port st p port') |- _ => fail
      | _ => pose proof (put_frame st0 st p port port' F S ltac:(frame_shape))
      end
  | F : frame ?st0 ?st, S : shaped ?st0 ?p ?port |- frame ?st0 (put_port ?st ?p ?port') =>
      exact (put_frame st0 st p port port' F S ltac:(frame_shape))
  | |- frame _ (emit _ _) => apply emit_frame; [exact I|]
  | |- frame _ _ => assumption
  end.

Ltac frame_case :=
  match goal with
  | H : match ?x with _ => _ end = Done _ |- _ => destruct x eqn:?
  | |- frame _ (match ?x with _ => _ end) => destruct x eqn:?
  end.

Ltac frame_tac := repeat first [frame_step | frame_case].

Lemma edge_enter_frame st0 st st' p :
  frame st0 st → MSTP_edge_enter_state st p = Done st' → frame st0 st'.
Proof. intros F H. unfold MSTP_edge_enter_state in H. frame_tac. Qed.

Lemma edge_check_frame st0 st st' p r :
  frame st0 st → MSTP_edge_check_conditions st p = Done (st', r) → frame st0 st'.
Proof. intros F H. unfold MSTP_edge_check_conditions in H. frame_tac. Qed.

Lemma p2p_enter_frame st0 st st' p :
  frame st0 st → MSTP_p2p_enter_state st p = Done st' → frame st0 st'.
Proof. intros F H. unfold MSTP_p2p_enter_state in H. frame_tac. Qed.

Lemma p2p_check_frame st0 st st' p r :
  frame st0 st → MSTP_p2p_check_conditions st p = Done (st', r) → frame st0 st'.
Proof. intros F H. unfold MSTP_p2p_check_conditions in H. frame_tac. Qed.

Lemma migrate_enter_frame st0 st st' p :
  frame st0 st → MSTP_migrate_enter_state st p = Done st' → frame st0 st'.
Proof. intros F H. unfold MSTP_migrate_enter_state in H. frame_tac. Qed.

Lemma migrate_check_frame st0 st st' p r :
  frame st0 st → MSTP_migrate_check_conditions st p = Done (st', r) → frame st0 st'.
Proof. intros F H. unfold MSTP_migrate_check_conditions in H. frame_tac. Qed.

Lemma pcost_enter_frame st0 st st' p :
  frame st0 st → MSTP_pcost_enter_state st p = Done st' → frame st0 st'.
Proof. intros F H. unfold MSTP_pcost_enter_state in H. frame_tac. Qed.

Lemma pcost_check_frame st0 st st' p r :
  frame st0 st → MSTP_pcost_check_conditions st p = Done (st', r) → frame st0 st'.
Proof. intros F H. unfold MSTP_pcost_check_conditions in H. frame_tac. Qed.

Lemma send_state_frame st0 st port :
  frame st0 st → frame st0 (stp_sttrans_sendStpStatetoNpd port st).
Proof. unfold stp_sttrans_sendStpStatetoNpd. intros F. frame_tac. Qed.

Lemma count_frame st0 st n : frame st0 st → frame st0 (st <| sttrans_count := n |>).
Proof. by intros []. Qed.

Lemma sttrans_enter_frame st0 st st' p :
  frame st0 st → MSTP_sttrans_enter_state st p = Done st' → frame st0 st'.
Proof.
  intros F H. unfold MSTP_sttrans_enter_state in H. frame_tac;
    try apply send_state_frame; frame_tac.
Qed.

Lemma sttrans_check_frame st0 st st' p r :
  frame st0 st → MSTP_sttrans_check_conditions st p = Done (st', r) → frame st0 st'.
Proof.
  intros F H. unfold MSTP_sttrans_check_conditions in H.
  assert (F1 : ∀ port n, frame st0
    ((stp_sttrans_sendStpStatetoNpd port st) <| sttrans_count := n |>)).
  { intros. by apply count_frame, send_state_frame. }
  repeat first [frame_step | frame_case | solve [eauto using hop_frame]];
    eapply (hop_frame sttrans_field); [|eassumption]; frame_tac; apply F1.
Qed.

(** ** Functions of several machines *)

Lemma setnewinfo_frame st0 st st' p :
  frame st0 st → stp_roletrns_setnewinfoXst p st = Done st' → frame st0 st'.
Proof.
  intros F H. unfold stp_roletrns_setnewinfoXst, stp_roletrns_setnewinfoCist,
    stp_roletrns_setnewinfoMsti in H. frame_tac.
Qed.

Lemma roletrns_enter_frame st0 st st' p :
  frame st0 st → MSTP_roletrns_enter_state st p = Done st' → frame st0 st'.
Proof.
  intros F H. unfold MSTP_roletrns_enter_state, stp_roletrns_setSyncTree,
    stp_roletrns_setReRootTree in H. frame_tac.
  all: eapply setnewinfo_frame; [|eassumption]; frame_tac.
Qed.

Lemma roletrns_check_frame st0 st st' p r :
  frame st0 st → MSTP_roletrns_check_conditions st p = Done (st', r) → frame st0 st'.
Proof.
  intros F H. unfold MSTP_roletrns_check_conditions, active_port_conditions in H. frame_tac.
Qed.

Lemma topoch_enter_frame st0 st st' p :
  frame st0 st → MSTP_topoch_enter_state st p = Done st' → frame st0 st'.
Proof.
  intros F H. unfold MSTP_topoch_enter_state, stp_topoch_setTcPropTree in H. frame_tac.
  eapply setnewinfo_frame; [|eassumption]. done.
Qed.

Lemma topoch_check_frame st0 st st' p r :
  frame st0 st → MSTP_topoch_check_conditions st p = Done (st', r) → frame st0 st'.
Proof. intros F H. unfold MSTP_topoch_check_conditions in H. frame_tac. Qed.

(** ** The port information machine *)

#[export] Instance info_STATES_eq_dec : EqDecision InfoState.STATES.
Proof. solve_decision. Defined.

Lemma rcvinfo_shape c st port port' r : rcvinfo c st port = Done (port', r) → pshape port' = pshape port.
Proof.
  unfold rcvinfo. intros H. repeat first [frame_step | frame_case]; simplify_eq; by repeat case_match.
Qed.

Lemma xst_rcvinfo_shape st port port' r :
  stp_portinfo_xst_rcvinfo st port = Done (port', r) → pshape port' = pshape port.
Proof. unfold stp_portinfo_xst_rcvinfo. case_match; apply rcvinfo_shape. Qed.

Lemma mastered_frame st0 st st' p :
  frame st0 st → stp_portinfo_record_masteredxst st p = Done st' → frame st0 st'.
Proof.
  intros F H. unfold stp_portinfo_record_masteredxst, stp_portinfo_record_masteredcist,
    stp_portinfo_record_masteredmsti in H. frame_tac.
Qed.

Lemma proposal_frame st0 st st' p :
  frame st0 st → stp_portinfo_record_proposalxst st p = Done st' → frame st0 st'.
Proof.
  intros F H. unfold stp_portinfo_record_proposalxst, stp_portinfo_record_proposalcist,
    stp_portinfo_record_proposalmsti in H. frame_tac.
Qed.

Lemma agreement_frame st0 st st' p :
  frame st0 st → stp_portinfo_record_agreementxst st p = Done st' → frame st0 st'.
Proof.
  intros F H. unfold stp_portinfo_record_agreementxst, stp_portinfo_record_agreementcist,
    stp_portinfo_record_agreementmsti in H. frame_tac.
Qed.

Lemma rcvdInfoWhile_frame st0 st st' p :
  frame st0 st → stp_portinfo_updtRcvdInfoWhileXst st p = Done st' → frame st0 st'.
Proof.
  intros F H. unfold stp_portinfo_updtRcvdInfoWhileXst, stp_portinfo_updtRcvdInfoWhileCist,
    stp_portinfo_updtRcvdInfoWhileMsti in H. frame_tac.
Qed.

Ltac info_step :=
  match goal with
  | F : frame ?st0 ?st, H : stp_portinfo_record_proposalxst ?st _ = Done _ |- _ =>
      apply (proposal_frame st0 _ _ _ F) in H
  | F : frame ?st0 ?st, H : stp_portinfo_record_agreementxst ?st _ = Done _ |- _ =>
      apply (agreement_frame st0 _ _ _ F) in H
  | F : frame ?st0 ?st, H : stp_portinfo_updtRcvdInfoWhileXst ?st _ = Done _ |- _ =>
      apply (rcvdInfoWhile_frame st0 _ _ _ F) in H
  | F : frame ?st0 ?st, H : stp_roletrns_setnewinfoXst _ ?st = Done _ |- _ =>
      apply (setnewinfo_frame st0 _ _ _ F) in H
  end.

Lemma info_enter_frame st0 st st' p :
  frame st0 st → MSTP_info_enter_state st p = Done st' → frame st0 st'.
Proof.
  intros F ([port this] & Hm & H)%obind_Done. assert (S := mach_shaped _ _ _ _ _ _ F Hm).
  destruct (decide (this.(State) = InfoState.RECEIVE)) as [Er|Er].
  { rewrite Er in H. apply obind_Done in H as ([port' r] & Hr & H). apply xst_rcvinfo_shape in Hr.
    eapply mastered_frame; [|exact H]. eapply put_frame; [done|exact S|]. by rewrite <- Hr. }
  cbv zeta in H. destruct this.(State); try done; repeat first [info_step | frame_step | frame_case].
Qed.

Lemma info_check_frame st0 st st' p r :
  frame st0 st → MSTP_info_check_conditions st p = Done (st', r) → frame st0 st'.
Proof. intros F H. unfold MSTP_info_check_conditions in H. frame_tac. Qed.

(** ** The role selection machine *)

Lemma rootPrio_frame st0 st st' b :
  frame st0 st → stp_rolesel_updtRootPrio st b = Done st' → frame st0 st'.
Proof.
  intros F H. unfold stp_rolesel_updtRootPrio in H. apply obind_Done in H as (stpm & _ & H).
  revert F H. apply foldM_frame. clear. intros q s s' F H. unfold updtRootPrio_port in H.
  frame_tac. by eapply put_stpm_frame.
Qed.

(** An instance read earlier has the shape of the one stored now. *)
Lemma put_stpm_frame' st0 st st1 b stpm stpm' :
  frame st0 st → frame st0 st1 → get_stpm st b = Done stpm → sshape stpm' = sshape stpm →
  frame st0 (put_stpm st1 b stpm').
Proof.
  intros F F1 H Es. apply deref_Done in H.
  destruct (same_stpm st st1 b stpm) as (x & Hx & Ex).
  { etransitivity; [symmetry; apply (fr_shape _ _ F)|apply (fr_shape _ _ F1)]. }
  { done. }
  eapply (put_stpm_frame st0 st1 b x); [done|by apply deref_Done|congruence].
Qed.

Lemma updtRoles_prio_frame st0 st st' b br :
  frame st0 st → updtRoles_prio st b br = Done st' → frame st0 st'.
Proof.
  intros F H. unfold updtRoles_prio in H.
  apply obind_Done in H as (stpm & Hs & H). apply obind_Done in H as (st1 & H1 & H).
  apply rootPrio_frame with (st0 := st0) in H1; [|by eapply put_stpm_frame].
  apply obind_Done in H as (stpm1 & Hs1 & H). apply obind_Done in H as (st2 & H2 & H).
  injection H as <-. eapply upd_ports_frame in H2; [|exact H1|intros; apply set_designated_shape].
  by apply (put_stpm_frame' st0 st1 st2 b stpm1).
Qed.

Lemma rolesCist_frame st0 st st' b :
  frame st0 st → stp_rolesel_updtRolesCist st b = Done st' → frame st0 st'.
Proof.
  intros F H. unfold stp_rolesel_updtRolesCist in H.
  apply obind_Done in H as (stpm & _ & H). apply obind_Done in H as (st1 & H1 & H).
  apply updtRoles_prio_frame with (st0 := st0) in H1; [|done].
  apply obind_Done in H as (stpm1 & _ & H). apply obind_Done in H as (st2 & H2 & H).
  assert (F2 : frame st0 st2).
  { case_match; [|by simplify_eq]. revert H1 H2. apply foldM_frame. clear. intros q s s' F H.
    frame_tac. }
  revert F2 H. apply foldM_frame. clear. intros q s s' F H. unfold updtRolesCist_port in H.
  apply obind_Done in H as (port & Hp & H). apply obind_Done in H as (stpm & _ & H).
  assert (S := get_shaped _ _ _ _ F Hp). case_match.
  { simplify_eq. eapply put_frame; [done|exact S|]. exact (setRole_shape NonStpPort port). }
  assert (F1 := put_frame st0 s q port _ F S (select_role_shape stpm port)). frame_tac.
Qed.

Lemma rolesMsti_port_frame st0 st st' b q :
  frame st0 st → updtRolesMsti_port b q st = Done (Some st') → frame st0 st'.
Proof.
  intros F H. unfold updtRolesMsti_port in H.
  apply obind_Done in H as (port & Hp & H). apply obind_Done in H as (stpm & _ & H).
  apply obind_Done in H as (found & _ & H). assert (S := get_shaped _ _ _ _ F Hp).
  case_match.
  { simplify_eq. eapply put_frame; [done|exact S|]. exact (setRole_shape NonStpPort port). }
  destruct found as [c|]; [|done]. apply obind_Done in H as (cp & _ & H).
  case_match; simplify_eq; (eapply put_frame; [done|exact S|]); [|apply select_role_shape].
  repeat case_match; simpl; apply setRole_shape || reflexivity.
Qed.

Lemma rolesMsti_frame st0 st st' b :
  frame st0 st → stp_rolesel_updtRolesMsti st b = Done st' → frame st0 st'.
Proof.
  intros F H. unfold stp_rolesel_updtRolesMsti in H.
  apply obind_Done in H as (st1 & H1 & H). apply updtRoles_prio_frame with (st0 := st0) in H1; [|done].
  apply obind_Done in H as (stpm1 & _ & H). revert st1 H1 H.
  induction stpm1.(STPM.ports) as [|q l IH]; intros st1 F1 H; simpl in H; [by simplify_eq|].
  apply obind_Done in H as ([st2|] & H2 & H); [|by simplify_eq].
  eapply IH; [|exact H]. by eapply rolesMsti_port_frame.
Qed.

Lemma rolesel_enter_frame st0 st st' b :
  frame st0 st → MSTP_rolesel_enter_state st b = Done st' → frame st0 st'.
Proof.
  intros F H. unfold MSTP_rolesel_enter_state, stp_rolesel_updtRoleDisableTree in H.
  apply obind_Done in H as (stpm & _ & H). destruct stpm.(STPM.rolesel).(State); [frame_tac..|].
  apply obind_Done in H as (st1 & H1 & H). unfold stp_rolesel_clearReselectTree in H1.
  assert (F1 : frame st0 st1) by frame_tac.
  apply obind_Done in H as (st2 & H2 & H). assert (F2 : frame st0 st2).
  { unfold stp_rolesel_updtRolesXst in H2. apply obind_Done in H2 as (s2 & _ & H2).
    case_match; [by eapply rolesCist_frame|by eapply rolesMsti_frame]. }
  unfold stp_rolesel_setSelectedTree in H. frame_tac.
Qed.

Lemma rolesel_check_frame st0 st st' b r :
  frame st0 st → MSTP_rolesel_check_conditions st b = Done (st', r) → frame st0 st'.
Proof.
  intros F H. unfold MSTP_rolesel_check_conditions, rolesel_hop in H. frame_tac;
    by eapply put_stpm_frame.
Qed.
