(* ===== verification/StpReceive.v ===== *)
(** * Port receive machine ([stp_receive.c])

    Decoding of the current frame into the CIST port and its MSTI ports.  The
    frame is the global [g_curBPDU] of [stp_in.c], [None] when its [bpdu]
    pointer is NULL.  Each CIST port has a receive machine, which [stp_stpm.c]
    runs before all the others. *)

From Stdlib Require Import ZArith Lia.
From stdpp Require Import base gmap list option.
From S2P Require Import Prelude StpTypes StpBpdu StpVector StpHeap StpStatmch StpPort StpTransmit StpFrame.
Import ReceiveState.

Definition receive_field : MACH_FIELD STATES :=
  mkField (fun port => port.(receive)) (fun m port => port <| receive := Some m |>).

(** ** The current frame *)

Definition stp_in_get_cur_bpdu (st : STP_T) : option BPDU_RECORD_T := st.(g_curBPDU).

Definition stp_in_set_cur_bpdu (bpdu : option BPDU_RECORD_T) (st : STP_T) : STP_T :=
  st <| g_curBPDU := bpdu |>.

Definition stp_receive_mstpVendorCisco (st : STP_T) : bool :=
  match stp_in_get_cur_bpdu st with
  | None => false
  | Some cur => cur.(rec_digestSnp)
  end.

(** [memcmp] of the whole structures. *)
Definition stp_receive_fromSameRegion (st : STP_T) (port : PORT_T) : outcome bool :=
  match stp_in_get_cur_bpdu st with
  | None => Done false
  | Some cur =>
      let* stpm := get_stpm st port.(owner) in
      if port.(rcvdRSTP) && (cur.(rec_type) =? BPDU_MSTP) &&
         (3 <=? stpm.(STPM.ForceVersion)) then
        if port.(configDigestSnp) then Done true
        else
          let* id := rd cur.(rec_bytes) off_MSTCID 51 in
          Done (memcmp id (mst_cfg_id_bytes stpm.(STPM.MstConfigId)) =? 0)
      else Done false
  end.

Definition stp_receive_rcvdAnyMsg (st : STP_T) (p : PORT_REF) : outcome bool :=
  let* port := get_port st p in
  any_port (fun x => x.(rcvdMsg)) st (p :: port.(nextMst)).

Definition stp_receive_clearAllRcvdMsgs (st : STP_T) : outcome STP_T :=
  foldM (fun b st =>
    let* stpm := get_stpm st b in
    upd_ports stpm.(STPM.ports) (fun port => port <| rcvdMsg := false |>) st)
  st.(bridges) st.

(** ** Decoding *)

(** The members of [body], read in place. *)
Definition rd_body (mem : list Z) : outcome BPDU_BODY_T :=
  let* f := rd8 mem off_flags in
  let* rid := rd mem off_root_id 8 in
  let* rpc := rd mem off_root_path_cost 4 in
  let* bid := rd mem off_bridge_id 8 in
  let* pid := rd mem off_port_id 2 in
  let* age := rd mem off_message_age 2 in
  let* maxa := rd mem off_max_age 2 in
  let* hello := rd mem off_hello_time 2 in
  let* fd := rd mem off_forward_delay 2 in
  Done (mkBody f rid rpc bid pid age maxa hello fd).

(** [MstCnt]: the [int] quotient stored in an [unsigned short]. *)
Definition mst_count (v3len width : Z) : Z := u16 (Z.quot (v3len - 64) width).

(** The body of the loop over the configuration messages: [flags_off] is the
    offset of [msti_flags] of message [index], [root_off] that of
    [msti_region_root_id]. *)
Definition receive_msti (mem : list Z) (cisco : bool) (p : PORT_REF) (index : nat) (st : STP_T)
    : outcome STP_T :=
  let flags_off := if cisco then (off_cisco_MCfgMsg index + 1)%nat else off_MCfgMsg index in
  let* port := get_port st p in
  let* prio2 := rd16 mem (flags_off + 1) in
  let mstid := Z.land prio2 0x0fff in
  let* found := stp_port_mst_findport st mstid port.(port_index) in
  match found with
  | None => Done st
  | Some q =>
      let* mstport := get_port st q in
      let mstport := mstport <| rcvdMsg := true |> <| msgBpduType := port.(msgBpduType) |> in
      let* v := stp_vector_get_mst_vector mem index cisco mstport.(msgPrio) in
      let* f := rd8 mem flags_off in
      let v := v <| bridge_port := mstport.(port_id) |> in
      let v := v <| design_bridge := v.(design_bridge)
                 <| prio := u16 (v.(design_bridge).(prio) + Z.land 0x0fff mstid) |> |> in
      let* t := stp_vector_get_mst_timers mem index mstport.(msgTimes) in
      Done (put_port st q
        (mstport <| msgPrio := v |> <| msgFlags := f |> <| msgTimes := t |>))
  end.

(** The offset of [version_3_length]. *)
Definition v3_off (cisco : bool) : nat :=
  if cisco then off_cisco_version_3_length else off_version_3_length.

(** The loop over the messages, after the CIST part. *)
Definition receive_mstis (mem : list Z) (cisco : bool) (p : PORT_REF) (st : STP_T)
    : outcome STP_T :=
  let* port := get_port st p in
  if port.(rcvdInternal) then
    let* v3len := rd16 mem (v3_off cisco) in
    let n := mst_count v3len (if cisco then 26 else 16) in
    foldM (receive_msti mem cisco p) (seq 0 (Z.to_nat n)) st
  else Done st.

Definition stp_receive_setRcvdMsgs_Cisco (st : STP_T) (p : PORT_REF) : outcome STP_T :=
  match stp_in_get_cur_bpdu st with
  | None => Done st
  | Some cur =>
      let mem := cur.(rec_bytes) in
      let mstp := cur.(rec_type) =? BPDU_MSTP in
      let* port := get_port st p in
      let port := port <| rcvdMsg := true |> in
      let* port :=
        if mstp then
          let* d := rd mem off_cisco_ConfigurationDigest 16 in
          Done (port <| digest := d |>)
        else Done port in
      let* body := rd_body mem in
      let* rr := rd mem off_cisco_cist_region_root_id 8 in
      let* rrpc :=
        if mstp && port.(rcvdInternal) then rd32 mem off_cisco_cist_inter_path_cost else Done 0 in
      let v := port.(msgPrio)
        <| root_bridge := stp_vector_get_bridge_id body.(root_id) |>
        <| root_path_cost := be_val body.(body_root_path_cost) |>
        <| region_root_bridge := stp_vector_get_bridge_id rr |>
        <| design_port := be_val body.(body_port_id) |>
        <| bridge_port := port.(port_id) |>
        <| design_bridge := stp_vector_get_bridge_id body.(bridge_id) |>
        <| region_root_path_cost := rrpc |> in
      let* hops := if mstp then rd8 mem off_cisco_cist_remaining_hops else Done 0 in
      let t := (stp_times_get body port.(msgTimes)) <| RemainingHops := hops |> in
      let st := put_port st p (port <| msgPrio := v |> <| msgTimes := t |>) in
      receive_mstis mem true p st
  end.

Definition stp_receive_setRcvdMsgs (st : STP_T) (p : PORT_REF) : outcome STP_T :=
  match stp_in_get_cur_bpdu st with
  | None => Done st
  | Some cur =>
      let mem := cur.(rec_bytes) in
      let mstp := cur.(rec_type) =? BPDU_MSTP in
      let* port := get_port st p in
      let port := port <| rcvdMsg := true |> in
      if port.(configDigestSnp) then stp_receive_setRcvdMsgs_Cisco (put_port st p port) p
      else
      let* body := rd_body mem in
      let* db := if mstp then rd mem off_cist_bridge_id 8 else Done body.(bridge_id) in
      let* rrpc :=
        if mstp && port.(rcvdInternal) then rd32 mem off_cist_inter_path_cost else Done 0 in
      let v := port.(msgPrio)
        <| root_bridge := stp_vector_get_bridge_id body.(root_id) |>
        <| root_path_cost := be_val body.(body_root_path_cost) |>
        <| region_root_bridge := stp_vector_get_bridge_id body.(bridge_id) |>
        <| design_port := be_val body.(body_port_id) |>
        <| bridge_port := port.(port_id) |>
        <| design_bridge := stp_vector_get_bridge_id db |>
        <| region_root_path_cost := rrpc |> in
      let* hops := if mstp then rd8 mem off_cist_remaining_hops else Done 0 in
      let t := (stp_times_get body port.(msgTimes)) <| RemainingHops := hops |> in
      let st := put_port st p (port <| msgPrio := v |> <| msgTimes := t |>) in
      receive_mstis mem false p st
  end.

(** ** Topology change and version flags *)

Definition has_bits (f mask : Z) : bool := negb (Z.land mask f =? 0).

Definition stp_receive_setTcFlags (st : STP_T) (p : PORT_REF) : outcome STP_T :=
  let* port := get_port st p in
  if BPDU_TOPO_CHANGE_TYPE =? port.(msgBpduType) then
    upd_ports port.(nextMst) (fun mst => mst <| rcvdTc := true |>)
      (put_port st p (port <| rcvdTcn := true |>))
  else if (BPDU_CONFIG_TYPE =? port.(msgBpduType)) || (BPDU_RSTP =? port.(msgBpduType)) then
    let st :=
      if has_bits port.(msgFlags) TOLPLOGY_CHANGE_ACK_BIT
      then put_port st p (port <| rcvdTcAck := true |>) else st in
    if negb port.(rcvdInternal) then
      if has_bits port.(msgFlags) TOLPLOGY_CHANGE_BIT
      then upd_ports port.(nextMst) (fun mst => mst <| rcvdTc := true |>) st
      else Done st
    else
      upd_ports port.(nextMst) (fun mst =>
        if mst.(rcvdMsg) && has_bits mst.(msgFlags) TOLPLOGY_CHANGE_BIT
        then mst <| rcvdTc := true |> else mst) st
  else Done st.

Definition stp_receive_updtBPDUVersion (port : PORT_T) : PORT_T :=
  let port :=
    if BPDU_TOPO_CHANGE_TYPE =? port.(msgBpduType) then port <| rcvdSTP := true |> else port in
  let port := if port.(msgBpduVersion) <? 2 then port <| rcvdSTP := true |> else port in
  if BPDU_RSTP =? port.(msgBpduType) then port <| rcvdRSTP := true |> else port.

(** ** The machine *)

Definition MSTP_receive_enter_state (st : STP_T) (p : PORT_REF) : outcome STP_T :=
  let* '(port, this) := mach_of receive_field st p in
  match this.(State) with
  | BEGIN | INIT => Done st
  | DISCARD =>
      let st := put_port st p
        (port <| rcvdSTP := false |> <| rcvdRSTP := false |> <| rcvdBpdu := false |>) in
      stp_receive_clearAllRcvdMsgs st
  | RECEIVE =>
      let port := stp_receive_updtBPDUVersion port in
      let* same := stp_receive_fromSameRegion st port in
      let st := put_port st p (port <| rcvdInternal := same |>) in
      let* st := stp_receive_setRcvdMsgs st p in
      let* st := stp_receive_setTcFlags st p in
      upd_port p (fun port => port <| rcvdBpdu := false |>) st
  end.

Definition MSTP_receive_check_conditions (st : STP_T) (p : PORT_REF) : outcome (STP_T * bool) :=
  let* '(port, this) := mach_of receive_field st p in
  match this.(State) with
  | BEGIN => hop receive_field st p DISCARD
  | DISCARD =>
      if port.(rcvdBpdu) && negb port.(portEnabled) then hop receive_field st p DISCARD
      else if port.(rcvdBpdu) && port.(portEnabled) then hop receive_field st p RECEIVE
      else Done (st, false)
  | RECEIVE =>
      if port.(rcvdBpdu) && negb port.(portEnabled) then hop receive_field st p DISCARD
      else
        let* any := stp_receive_rcvdAnyMsg st p in
        if port.(rcvdBpdu) && port.(portEnabled) && negb any then hop receive_field st p RECEIVE
        else Done (st, false)
  | INIT => Done (st, false)
  end.

Definition receive_machine (p : PORT_REF) : MACHINE STP_T :=
  port_machine receive_field MSTP_receive_enter_state MSTP_receive_check_conditions p.

(** ** Safety of the decoder

    The receive buffer has room for a whole [MSTP_BPDU_T], and the header
    check lets an MSTP frame through only with at most 64 messages. *)

Definition frame_room : nat := 1143.

Definition frame_ok (cur : BPDU_RECORD_T) : Prop :=
  (frame_room ≤ length cur.(rec_bytes))%nat ∧
  (cur.(rec_type) = BPDU_MSTP →
   ∀ v, rd16 cur.(rec_bytes) (v3_off cur.(rec_digestSnp)) = Done v → 49 ≤ v < 64 + 16 * 65).

(** What decoding keeps: the engine's frame, and of its port the receive machine
    and the configuration [configDigestSnp]. *)
Definition rkey (port : PORT_T) : option (STATE_MACH_T STATES) * bool :=
  (port.(receive), port.(configDigestSnp)).

Definition receive_kept (p : PORT_REF) (m : option (STATE_MACH_T STATES) * bool)
    (st0 st : STP_T) : Prop :=
  frame st0 st ∧ ∃ port, st.(port_heap) !! p = Some port ∧ rkey port = m.

Lemma receive_kept_put p m st0 st q x x' :
  receive_kept p m st0 st → st.(port_heap) !! q = Some x → pshape x' = pshape x →
  rkey x' = rkey x → receive_kept p m st0 (put_port st q x').
Proof.
  intros (F & port & H & Em) Hq Es Er. split.
  - eapply put_frame; [exact F|eapply get_shaped; [exact F|by apply deref_Done]|exact Es].
  - destruct (decide (q = p)) as [->|Hne].
    + rewrite H in Hq. injection Hq as ->. exists x'. split; [apply put_port_lookup|congruence].
    + exists port. split; [|done]. unfold put_port. simpl. by rewrite lookup_insert_ne.
Qed.

Lemma receive_kept_upd p m st0 st l f :
  receive_kept p m st0 st → (∀ q, q ∈ l → is_Some (st.(port_heap) !! q)) →
  (∀ x, pshape (f x) = pshape x) → (∀ x, rkey (f x) = rkey x) →
  wp (upd_ports l f st) (receive_kept p m st0).
Proof.
  intros HK Hex Es Er. unfold upd_ports. revert st HK Hex.
  induction l as [|q l IH]; intros st HK Hex; simpl; [done|].
  destruct (Hex q ltac:(left)) as [x Hx].
  assert (upd_port q f st = Done (put_port st q (f x))) as ->.
  { unfold upd_port. by rewrite (get_port_Some _ _ _ Hx). }
  cbn [obind]. apply IH.
  - eapply receive_kept_put; [done|exact Hx|auto..].
  - intros r Hr. destruct (decide (q = r)) as [->|Hne].
    + rewrite put_port_lookup. eauto.
    + unfold put_port. simpl. rewrite lookup_insert_ne by done. apply Hex. by right.
Qed.

Lemma receive_kept_wf p m st0 st : wf st0 → receive_kept p m st0 st → wf st.
Proof. intros W (F & _). by rewrite <- (fr_shape _ _ F). Qed.

(** One message inside the buffer. *)
Lemma wp_get_mst_vector mem index cisco v (Q : PRIO_VECTOR_T → Prop) :
  (off_MCfgMsg index + 16 ≤ length mem ∧ off_cisco_MCfgMsg index + 26 ≤ length mem
   ∨ cisco = false ∧ off_MCfgMsg index + 16 ≤ length mem)%nat →
  (∀ w, Q w) → wp (stp_vector_get_mst_vector mem index cisco v) Q.
Proof.
  unfold off_MCfgMsg, off_cisco_MCfgMsg. intros Hb HQ.
  assert (Hl : (119 + 16 * index + 16 ≤ length mem)%nat) by lia.
  unfold stp_vector_get_mst_vector, off_MCfgMsg, off_cisco_MCfgMsg. destruct cisco.
  - destruct Hb as [Hb|Hb]; [|by destruct Hb].
    apply wp_bind, wp_rd; [lia|]. intros ? _. apply wp_bind, wp_rd32; [lia|]. intros ?.
    apply wp_bind, wp_rd; [lia|]. intros ? _. apply wp_bind, wp_rd16; [lia|]. intros ?. apply HQ.
  - apply wp_bind, wp_rd; [lia|]. intros ? _. apply wp_bind, wp_rd32; [lia|]. intros ?.
    apply wp_bind, wp_rd; [unfold off_cist_bridge_id; lia|]. intros ? _.
    apply wp_bind, wp_rd8; [lia|]. intros ? _.
    apply wp_bind, wp_rd16; [unfold off_port_id; lia|]. intros ?.
    apply wp_bind, wp_rd8; [lia|]. intros ? _. apply HQ.
Qed.

Lemma receive_msti_kept p m st0 st mem cisco index :
  wf st0 → receive_kept p m st0 st →
  (off_MCfgMsg index + 16 ≤ length mem)%nat →
  (cisco = true → off_cisco_MCfgMsg index + 26 ≤ length mem)%nat →
  wp (receive_msti mem cisco p index st) (receive_kept p m st0).
Proof.
  intros W HK Hb Hc. assert (W1 := receive_kept_wf _ _ _ _ W HK). unfold receive_msti.
  destruct (HK) as (_ & port & H & _). rewrite (get_port_Some _ _ _ H). cbn [obind].
  assert (Hf : ((if cisco then off_cisco_MCfgMsg index + 1 else off_MCfgMsg index) + 3
    ≤ length mem)%nat) by (destruct cisco; [specialize (Hc eq_refl)|]; lia).
  apply wp_bind, wp_rd16; [lia|]. intros prio2.
  apply wp_bind. eapply wp_mono; [by apply findport_spec|]. intros [q|] Hq; [|done].
  destruct (Hq q eq_refl) as [_ [x Hx]]. rewrite (get_port_Some _ _ _ Hx). cbn [obind].
  apply wp_bind, wp_get_mst_vector.
  { destruct cisco; [left; split; auto|by right]. }
  intros v. apply wp_bind, wp_rd8; [lia|]. intros f _.
  apply wp_bind, wp_bind, wp_rd8; [unfold off_MCfgMsg in *; lia|]. intros hops _. 
  eapply receive_kept_put; [done|exact Hx|done..].
Qed.

(** The quotient of the length field is at most 64 messages of 16 bytes, 39 of
    26. *)
Lemma mst_count_bound v (cisco : bool) :
  49 ≤ v < 64 + 16 * 65 →
  0 ≤ mst_count v (if cisco then 26 else 16) ≤ if cisco then 39 else 64.
Proof.
  intros Hv. unfold mst_count, u16.
  assert (Hq : 0 ≤ Z.quot (v - 64) (if cisco then 26 else 16) ≤ if cisco then 39 else 64).
  { destruct (decide (v < 64)).
    - assert (Z.quot (v - 64) (if cisco then 26 else 16) = 0) as ->.
      { apply Z.quot_small_iff; destruct cisco; lia. }
      destruct cisco; lia.
    - destruct cisco; rewrite Z.quot_div_nonneg by lia; (split; [apply Z.div_pos; lia|]);
        (apply Z.lt_succ_r, Z.div_lt_upper_bound; lia). }
  rewrite Z.mod_small by (destruct cisco; lia). done.
Qed.

(** If the port takes the frame for one of its region, it is an MSTP frame. *)
Lemma receive_mstis_kept p m st0 st cur :
  wf st0 → frame_ok cur → receive_kept p m st0 st →
  (∀ port, st.(port_heap) !! p = Some port → port.(rcvdInternal) = true →
     cur.(rec_type) = BPDU_MSTP) →
  wp (receive_mstis cur.(rec_bytes) cur.(rec_digestSnp) p st) (receive_kept p m st0).
Proof.
  intros W [Hroom Hv3] HK Hint. unfold receive_mstis. destruct (HK) as (_ & port & H & _).
  rewrite (get_port_Some _ _ _ H). cbn [obind]. set (cisco := cur.(rec_digestSnp)) in *.
  destruct port.(rcvdInternal) eqn:Ei; [|done]. specialize (Hv3 (Hint _ H Ei)).
  unfold frame_room in Hroom. apply wp_bind.
  destruct (wp_elim (rd16 cur.(rec_bytes) (v3_off cisco)) (fun _ => True)) as (v & Ev & _).
  { apply wp_rd16; [|done]. destruct cisco; cbn; lia. }
  rewrite Ev. assert (Hn := mst_count_bound v cisco (Hv3 v Ev)).
  apply wp_foldM; [|done]. intros index st1 Hi HK1. apply elem_of_seq in Hi.
  apply receive_msti_kept; [done..| |].
  - unfold off_MCfgMsg. destruct cisco; lia.
  - intros ->. unfold off_cisco_MCfgMsg. lia.
Qed.

Lemma wp_rd_body mem (Q : BPDU_BODY_T → Prop) :
  (frame_room ≤ length mem)%nat → (∀ b, body_sized b → Q b) → wp (rd_body mem) Q.
Proof.
  unfold frame_room. intros Hb HQ. unfold rd_body, off_flags, off_root_id, off_root_path_cost,
    off_bridge_id, off_port_id, off_message_age, off_max_age, off_hello_time, off_forward_delay.
  apply wp_bind, wp_rd8; [lia|]. intros f _.
  do 8 (apply wp_bind, wp_rd; [lia|]; intros ? ?). apply HQ. by split_and!.
Qed.

(** ** Entering a state *)

(** The frame being received was classified for this port. *)
Definition receive_ready (p : PORT_REF) (st : STP_T) : Prop :=
  cist_ready p st ∧
  ∀ cur port, st.(g_curBPDU) = Some cur → st.(port_heap) !! p = Some port →
    frame_ok cur ∧ port.(configDigestSnp) = cur.(rec_digestSnp).

Lemma fromSameRegion_spec st port stpm :
  st.(stpm_heap) !! port.(owner) = Some stpm →
  (∀ cur, st.(g_curBPDU) = Some cur → frame_ok cur) →
  wp (stp_receive_fromSameRegion st port) (fun b =>
    b = true → ∃ cur, st.(g_curBPDU) = Some cur ∧ cur.(rec_type) = BPDU_MSTP).
Proof.
  intros Hs Hok. unfold stp_receive_fromSameRegion, stp_in_get_cur_bpdu.
  destruct st.(g_curBPDU) as [cur|] eqn:Ec; [|done].
  rewrite (get_stpm_Some _ _ _ Hs). cbn [obind].
  case_match eqn:Em; [|by intros ?]. bool_facts.
  destruct port.(configDigestSnp); [intros _; by exists cur|].
  apply wp_bind, wp_rd; [|intros ? _ _; by exists cur]. destruct (Hok cur eq_refl) as [Hr _].
  unfold frame_room, off_MSTCID in *. lia.
Qed.

Lemma setRcvdMsgs_Cisco_kept p m st0 st cur port :
  wf st0 → receive_kept p m st0 st → st.(g_curBPDU) = Some cur → frame_ok cur →
  st.(port_heap) !! p = Some port → cur.(rec_digestSnp) = true →
  (port.(rcvdInternal) = true → cur.(rec_type) = BPDU_MSTP) →
  wp (stp_receive_setRcvdMsgs_Cisco st p) (receive_kept p m st0).
Proof.
  intros W HK Ec Hok H Hd Hint. unfold stp_receive_setRcvdMsgs_Cisco, stp_in_get_cur_bpdu.
  rewrite Ec, (get_port_Some _ _ _ H). cbn [obind]. destruct (Hok) as [Hr _]. unfold frame_room in Hr.
  apply wp_bind, (wp_mono _ (fun port' => ∃ d, port' = port <| rcvdMsg := true |> <| digest := d |>)).
  { case_match; [apply wp_bind, wp_rd; [unfold off_cisco_ConfigurationDigest; lia|]; by eexists|].
    by exists port.(digest). }
  intros port' (d & ->). apply wp_bind, wp_rd_body; [done|]. intros body _.
  apply wp_bind, wp_rd; [unfold off_cisco_cist_region_root_id; lia|]. intros rr _.
  apply wp_bind, (wp_mono _ (fun _ => True)).
  { case_match; [apply wp_rd32; [unfold off_cisco_cist_inter_path_cost; lia|done]|done]. }
  intros rrpc _. apply wp_bind, (wp_mono _ (fun _ => True)).
  { case_match; [apply wp_rd8; [unfold off_cisco_cist_remaining_hops; lia|done]|done]. }
  intros hops _. rewrite <- Hd. apply receive_mstis_kept; [done|done| |].
  - eapply receive_kept_put; [done|exact H|done..].
  - intros x. rewrite put_port_lookup. intros [= <-]. exact Hint.
Qed.

Lemma setRcvdMsgs_kept p m st0 st port :
  wf st0 → receive_kept p m st0 st → st.(port_heap) !! p = Some port →
  (∀ cur, st.(g_curBPDU) = Some cur → frame_ok cur ∧
     port.(configDigestSnp) = cur.(rec_digestSnp) ∧
     (port.(rcvdInternal) = true → cur.(rec_type) = BPDU_MSTP)) →
  wp (stp_receive_setRcvdMsgs st p) (receive_kept p m st0).
Proof.
  intros W HK H Hcur. unfold stp_receive_setRcvdMsgs, stp_in_get_cur_bpdu.
  destruct st.(g_curBPDU) as [cur|] eqn:Ec; [|done].
  destruct (Hcur cur eq_refl) as (Hok & Hd & Hint). destruct (Hok) as [Hr _]. unfold frame_room in Hr.
  rewrite (get_port_Some _ _ _ H). cbn [obind].
  change (configDigestSnp (port <| rcvdMsg := true |>)) with port.(configDigestSnp).
  destruct port.(configDigestSnp) eqn:Ed.
  { apply (setRcvdMsgs_Cisco_kept p m st0 _ cur (port <| rcvdMsg := true |>));
      [done| |done|done|apply put_port_lookup|done|done].
    eapply receive_kept_put; [done|exact H|done..]. }
  apply wp_bind, wp_rd_body; [done|]. intros body _.
  apply wp_bind, (wp_mono _ (fun _ => True)).
  { case_match; [apply wp_rd; [unfold off_cist_bridge_id; lia|done]|done]. }
  intros db _. apply wp_bind, (wp_mono _ (fun _ => True)).
  { case_match; [apply wp_rd32; [unfold off_cist_inter_path_cost; lia|done]|done]. }
  intros rrpc _. apply wp_bind, (wp_mono _ (fun _ => True)).
  { case_match; [apply wp_rd8; [unfold off_cist_remaining_hops; lia|done]|done]. }
  intros hops _. rewrite Hd. apply receive_mstis_kept; [done|done| |].
  - eapply receive_kept_put; [done|exact H|done..].
  - intros x. rewrite put_port_lookup. intros [= <-]. exact Hint.
Qed.

Lemma setTcFlags_kept p m st0 st port :
  wf st0 → receive_kept p m st0 st → p.1 = STP_CIST_ID → st.(port_heap) !! p = Some port →
  wp (stp_receive_setTcFlags st p) (receive_kept p m st0).
Proof.
  intros W HK Hp H. assert (W1 := receive_kept_wf _ _ _ _ W HK).
  unfold stp_receive_setTcFlags. rewrite (get_port_Some _ _ _ H). cbn [obind].
  assert (Hex : ∀ port', pshape port' = pshape port → ∀ q, q ∈ port.(nextMst) →
    is_Some ((put_port st p port').(port_heap) !! q)).
  { intros port' E q Hq. destruct (wf_nextMst _ _ _ _ W1 H Hq) as (_ & x & Hx).
    destruct (same_port _ _ _ _ (put_port_shape _ _ _ port' H E) Hx) as (x' & Hx' & _). eauto. }
  assert (Hput : ∀ port', pshape port' = pshape port → rkey port' = rkey port →
    receive_kept p m st0 (put_port st p port')).
  { intros port' E1 E2. by eapply receive_kept_put. }
  assert (Hst : ∀ (b : bool), (∀ q, q ∈ port.(nextMst) →
      is_Some ((if b then put_port st p (port <| rcvdTcAck := true |>) else st).(port_heap) !! q)) ∧
    receive_kept p m st0 (if b then put_port st p (port <| rcvdTcAck := true |>) else st)).
  { intros []; [split; [by apply Hex|by apply Hput]|]. split; [|done].
    intros q Hq. by destruct (wf_nextMst _ _ _ _ W1 H Hq) as (_ & ?). }
  case_match; [apply receive_kept_upd; [by apply Hput|by apply Hex|done..]|].
  case_match; [|done].
  destruct (Hst (has_bits port.(msgFlags) TOLPLOGY_CHANGE_ACK_BIT)) as [Hex1 HK1].
  set (st1 := if has_bits _ _ then _ else st) in *.
  case_match; [case_match; [|exact HK1]|]; (apply receive_kept_upd; [exact HK1|exact Hex1|..]);
    intros x; by repeat case_match.
Qed.

(** No frame waits at the port. *)
Definition no_bpdu (p : PORT_REF) (st : STP_T) : Prop :=
  ∀ port, st.(port_heap) !! p = Some port → port.(rcvdBpdu) = false.

Lemma clear_one_instance p m st0 st b :
  wf st0 → receive_kept p m st0 st → no_bpdu p st → is_Some (st.(stpm_heap) !! b) →
  wp (let* stpm := get_stpm st b in
      upd_ports stpm.(STPM.ports) (fun port => port <| rcvdMsg := false |>) st)
    (fun st1 => receive_kept p m st0 st1 ∧ no_bpdu p st1).
Proof.
  intros W HK Hn [stpm Hs]. assert (W1 := receive_kept_wf _ _ _ _ W HK).
  rewrite (get_stpm_Some _ _ _ Hs). cbn [obind].
  assert (Hex : ∀ q, q ∈ stpm.(STPM.ports) → is_Some (st.(port_heap) !! q)).
  { intros q Hq. by destruct (wf_on_list _ _ _ _ W1 Hs Hq) as (_ & ? & ?). }
  pose proof (receive_kept_upd p m st0 st stpm.(STPM.ports)
    (fun port => port <| rcvdMsg := false |>) HK Hex ltac:(done) ltac:(done)) as HK1.
  rewrite upd_ports_map in * by done. split; [exact HK1|].
  intros port. simpl. destruct (decide (p ∈ stpm.(STPM.ports))) as [Hin|Hin].
  - rewrite map_ports_in by (done || by eapply wf_list_nodup).
    destruct (st.(port_heap) !! p) as [x|] eqn:Hx; [|done]. intros [= <-]. exact (Hn x Hx).
  - rewrite map_ports_notin by done. apply Hn.
Qed.

Lemma clearAll_kept p m st0 st :
  wf st0 → receive_kept p m st0 st → no_bpdu p st →
  wp (stp_receive_clearAllRcvdMsgs st) (fun st1 => receive_kept p m st0 st1 ∧ no_bpdu p st1).
Proof.
  intros W HK Hn. unfold stp_receive_clearAllRcvdMsgs.
  apply (wp_foldM (fun st1 => receive_kept p m st0 st1 ∧ no_bpdu p st1)); [|done].
  intros b st1 Hb [HK1 Hn1]. apply clear_one_instance; [done..|].
  destruct HK as ([E _ _ _ _ _] & _). destruct HK1 as ([E1 _ _ _ _ _] & _).
  assert (Hb' : is_Some (st.(stpm_heap) !! b)).
  { apply instances_exist; [|done]. by rewrite <- E. }
  destruct Hb' as [stpm Hs].
  destruct (same_stpm st st1 b stpm) as (? & ? & _); [by rewrite <- E|done|eauto].
Qed.

(** After the machine enters a state, no frame waits. *)
Lemma receive_enter_spec p st port m :
  receive_ready p st → st.(port_heap) !! p = Some port → port.(receive) = Some m →
  wp (MSTP_receive_enter_state st p) (fun st1 =>
    receive_kept p (rkey port) st st1 ∧
    (m.(State) = DISCARD ∨ m.(State) = RECEIVE → no_bpdu p st1)).
Proof.
  intros [[R Hp] Hcur] H E. assert (W := proj1 R). unfold MSTP_receive_enter_state.
  rewrite (mach_of_Done receive_field _ _ _ m H E). cbn [obind].
  assert (HK0 : receive_kept p (rkey port) st st) by (split; [reflexivity|eauto]).
  destruct m.(State) eqn:Em; [by split; [|intros [|]]..| |].
  - eapply wp_mono; [apply (clearAll_kept p (rkey port) st); [done| |]|by intros st1 [? ?]].
    + eapply receive_kept_put; [done|exact H|done..].
    + intros x. rewrite put_port_lookup. by intros [= <-].
  - destruct (wf_port_owner _ _ _ W H) as (Ho & _ & stpm & Hs).
    set (port1 := stp_receive_updtBPDUVersion port).
    assert (Ep : pshape port1 = pshape port ∧ rkey port1 = rkey port ∧
      port1.(configDigestSnp) = port.(configDigestSnp) ∧ port1.(owner) = port.(owner)).
    { unfold port1, stp_receive_updtBPDUVersion. by repeat case_match. }
    destruct Ep as (Ep & Er & Ed & Eo).
    apply wp_bind. eapply wp_mono; [eapply (fromSameRegion_spec st port1 stpm); [by rewrite Eo, Ho|]|].
    { intros cur Ec. by destruct (Hcur cur port Ec H). }
    intros same Hsame. set (st1 := put_port st p _).
    assert (HK1 : receive_kept p (rkey port) st st1) by (by eapply receive_kept_put).
    apply wp_bind. eapply wp_mono; [eapply (setRcvdMsgs_kept p (rkey port) st st1); [done..|apply put_port_lookup|]|].
    { intros cur Ec. destruct (Hcur cur port Ec H) as [Hok Hd]. split_and!; [done|simpl; congruence|].
      simpl. intros Hi. destruct (Hsame Hi) as (cur' & Ec' & ?). simpl in Ec. congruence. }
    intros st2 HK2. destruct (HK2) as (_ & x2 & H2 & _).
    apply wp_bind. eapply wp_mono; [by eapply (setTcFlags_kept p (rkey port) st)|].
    intros st3 HK3. destruct (HK3) as (_ & x3 & H3 & _).
    unfold upd_port. rewrite (get_port_Some _ _ _ H3). cbn [obind]. split.
    + eapply receive_kept_put; [done|exact H3|done..].
    + intros _ x. rewrite put_port_lookup. by intros [= <-].
Qed.

#[export] Instance STATES_eq_dec : EqDecision STATES.
Proof. solve_decision. Defined.

(** ** Termination *)

#[export] Instance receive_field_laws : FieldLaws receive_field.
Proof.
  split; try done. intros m m' port E. unfold pshape. simpl in *. by rewrite E.
Qed.

Definition receive_mu (s : STATES) (port : PORT_T) : nat :=
  match s with BEGIN => 2 | DISCARD | RECEIVE => 1 | INIT => 0 end.

Lemma receive_has p st :
  receive_ready p st →
  ∃ port m, st.(port_heap) !! p = Some port ∧ mach_get receive_field port = Some m.
Proof.
  intros [[[W [port H]] Hp] _].
  destruct (wf_cist_machines _ _ _ W H Hp) as (_ & _ & _ & _ & [m ?]). eauto.
Qed.

Lemma receive_check_idle p st port m :
  ready p st → st.(port_heap) !! p = Some port → port.(receive) = Some m →
  port.(rcvdBpdu) = false → m.(State) ≠ BEGIN →
  MSTP_receive_check_conditions st p = Done (st, false).
Proof.
  intros [W _] H E Hn Hb. unfold MSTP_receive_check_conditions.
  rewrite (mach_of_Done receive_field _ _ _ m H E). cbn [obind]. rewrite Hn.
  destruct m.(State); try done. simpl.
  unfold stp_receive_rcvdAnyMsg. rewrite (get_port_Some _ _ _ H). cbn [obind].
  destruct (any_port_total (fun x => x.(rcvdMsg)) st (p :: port.(nextMst))) as (r & ->); [|done].
  intros q [->|Hq]%elem_of_cons; [eauto|]. by destruct (wf_nextMst _ _ _ _ W H Hq) as (_ & ?).
Qed.

Lemma receive_ready_kept p st st1 port :
  receive_ready p st → st.(port_heap) !! p = Some port → receive_kept p (rkey port) st st1 →
  receive_ready p st1.
Proof.
  intros [R Hcur] H (F & x & Hx & Ex). split; [eapply cist_ready_same; [apply (fr_shape _ _ F)|done]|].
  assert (Eg := fr_cur _ _ F).
  intros cur x'. rewrite Eg, Hx. intros Ec [= <-]. destruct (Hcur cur port Ec H) as [? Hd].
  split; [done|]. injection Ex as _ Ex. by rewrite Ex.
Qed.

#[export] Instance receive_terminating p :
  Terminating (receive_machine p) (receive_ready p) (mu_at receive_field receive_mu p).
Proof.
  apply (port_machine_terminating receive_field);
    [exact (receive_has p)| |intros [] ? ?; reflexivity|].
  - intros st port m R H. destruct (receive_has _ _ R) as (port' & m' & H' & E').
    rewrite H in H'. injection H' as <-. split.
    + eapply cist_ready_same; [|apply R].
      exact (mach_put_present receive_field st p port m' m H E').
    + intros cur x Ec. rewrite put_port_lookup. intros [= <-]. exact (proj2 R cur port Ec H).
  - intros st port m R H E. eapply wp_mono; [by eapply receive_enter_spec|].
    intros st1 [HK Hn]. split; [by eapply receive_ready_kept|].
    destruct (HK) as (_ & port1 & H1 & Ek). exists port1. split; [done|].
    assert (Em : port1.(receive) = Some m) by (injection Ek as Ek _; by rewrite Ek).
    split; [done|]. intros st2 R2 H2.
    destruct (decide (m.(State) = BEGIN)) as [Eb|Eb].
    + right. exists DISCARD. unfold MSTP_receive_check_conditions.
      rewrite (mach_of_Done _ _ _ _ _ H2 (mach_get_put _ _)). cbn [obind State]. rewrite Eb.
      split; [done|]. simpl. lia.
    + left. destruct (decide (m.(State) = INIT)) as [Ei|Ei].
      * unfold MSTP_receive_check_conditions.
        rewrite (mach_of_Done _ _ _ _ _ H2 (mach_get_put _ _)). cbn [obind State]. by rewrite Ei.
      * assert (Hdr : m.(State) = DISCARD ∨ m.(State) = RECEIVE)
          by (clear -Eb Ei; destruct m as [[] ?]; simpl in *; auto; done).
        eapply receive_check_idle; [apply R2|exact H2|done| |done].
        exact (Hn Hdr _ H1).
Qed.
