(* ===== verification/StpStpm.v ===== *)
(** * The instances and the engine ([stp_stpm.c])

    An instance runs one role selection machine and the machines of its ports;
    the engine runs them until none has a condition to change state.  The
    unbounded loops [stp_stpm_do_update] and [stp_stpm_mst_update] run with
    fuel, which they also give to the machines' own loops. *)

From Stdlib Require Import ZArith Lia String.
From stdpp Require Import base gmap list option.
From S2P Require Import Prelude StpTypes StpVector StpTo StpHeap StpStatmch StpMachines StpPort StpRoletrns StpTopoch StpPortinfo StpRolesel StpTransmit StpFrame StpReceive.

(** ** The machines of an instance *)

(** A [STATE_MACH_T *] of a [machines] list: the machine, and the store of
    [BEGIN] in its [State]. *)
Record STATER : Type := mkStater {
  set_BEGIN : STP_T → outcome STP_T;
  machine : MACHINE STP_T }.

Definition port_stater {S} (f : MACH_FIELD S) (BEGIN : S) (mk : PORT_REF → MACHINE STP_T)
    (p : PORT_REF) : STATER :=
  mkStater (fun st =>
    let* '(port, m) := mach_of f st p in
    Done (put_port st p (mach_put f (mkMach BEGIN m.(changeState)) port))) (mk p).

Definition rolesel_stater (b : Z) : STATER :=
  mkStater (fun st =>
    let* stpm := get_stpm st b in
    Done (put_stpm st b
      (stpm <| STPM.rolesel := mkMach RoleselState.BEGIN stpm.(STPM.rolesel).(changeState) |>)))
    (rolesel_machine b).

(** [stp_port_mst_port_create] links each machine at the head of the list, so
    that the last created is the first.  An MSTI port has the last five. *)
Definition msti_staters (p : PORT_REF) : list STATER :=
  [port_stater sttrans_field SttransState.BEGIN sttrans_machine p;
   port_stater roletrns_field RoletrnsState.BEGIN roletrns_machine p;
   port_stater info_field InfoState.BEGIN info_machine p;
   port_stater pcost_field PcostState.BEGIN pcost_machine p;
   port_stater topoch_field TopochState.BEGIN topoch_machine p].

Definition cist_staters (p : PORT_REF) : list STATER :=
  port_stater migrate_field MigrateState.BEGIN migrate_machine p ::
  port_stater edge_field EdgeState.BEGIN edge_machine p ::
  port_stater p2p_field P2pState.BEGIN p2p_machine p :: msti_staters p.

Definition receive_stater : PORT_REF → STATER :=
  port_stater receive_field ReceiveState.BEGIN receive_machine.
Definition transmit_stater : PORT_REF → STATER :=
  port_stater transmit_field TransmitState.BEGIN transmit_machine.

Definition port_machines (st : STP_T) (p : PORT_REF) : outcome (list STATER) :=
  let* port := get_port st p in
  Done (if present port.(migrate) then cist_staters p else msti_staters p).

Fixpoint ports_machines (st : STP_T) (l : list PORT_REF) : outcome (list STATER) :=
  match l with
  | [] => Done []
  | p :: l' =>
      let* ms := port_machines st p in
      let* rest := ports_machines st l' in
      Done (ms ++ rest)
  end.

(** The machines in the order of [stp_stpm_iterate_machines]: those of the
    instance, then those of its ports.  The lists do not change while the
    machines run. *)
Definition stpm_machines (st : STP_T) (b : Z) : outcome (list STATER) :=
  let* stpm := get_stpm st b in
  let* ms := ports_machines st stpm.(STPM.ports) in
  Done (rolesel_stater b :: ms).

(** ** Callbacks and iteration *)

Definition stp_stpm_init_machine (s : STATER) (st : STP_T) : outcome (STP_T * Z) :=
  let* st := set_BEGIN s st in
  let* st := concreteEnterState (machine s) st in
  Done (st, 0).

Definition check_callback (s : STATER) (st : STP_T) : outcome (STP_T * Z) :=
  let* '(st, r) := stp_statmch_check_condition (machine s) st in
  Done (st, Z.b2z r).

Definition change_callback (fuel : nat) (s : STATER) (st : STP_T) : outcome (STP_T * Z) :=
  stp_statmch_change_state fuel (machine s) st.

Fixpoint run_machines (cb : STATER → STP_T → outcome (STP_T * Z)) (exit_on_non_zero_ret : bool)
    (l : list STATER) (st : STP_T) (mret : Z) : outcome (STP_T * Z) :=
  match l with
  | [] => Done (st, mret)
  | s :: l' =>
      let* '(st, iret) := cb s st in
      if exit_on_non_zero_ret && negb (iret =? 0) then Done (st, iret)
      else run_machines cb exit_on_non_zero_ret l' st (mret + iret)
  end.

Definition stp_stpm_iterate_machines (st : STP_T) (b : Z)
    (cb : STATER → STP_T → outcome (STP_T * Z)) (exit_on_non_zero_ret : bool)
    : outcome (STP_T * Z) :=
  let* l := stpm_machines st b in
  run_machines cb exit_on_non_zero_ret l st 0.

(** ** Updating *)

Fixpoint do_update_loop (fuel : nat) (st : STP_T) (b number_of_loops : Z) : outcome (STP_T * Z) :=
  match fuel with
  | O => OutOfFuel
  | S fuel' =>
      let* '(st, need) := stp_stpm_iterate_machines st b check_callback true in
      if need =? 0 then Done (st, number_of_loops)
      else
        let* '(st, n) := stp_stpm_iterate_machines st b (change_callback fuel') false in
        do_update_loop fuel' st b (number_of_loops + 1 + n)
  end.

Definition stp_stpm_do_update (fuel : nat) (st : STP_T) (b : Z) : outcome (STP_T * Z) :=
  do_update_loop fuel st b 0.

Definition stp_stpm_update (fuel : nat) (st : STP_T) (b : Z) : outcome (STP_T * Z) :=
  if st.(g_flag) then stp_stpm_do_update fuel st b else Done (st, 0).

(** Check one machine and run it if it has to change state. *)
Definition update_machine (fuel : nat) (s : STATER) (st : STP_T) : outcome STP_T :=
  let* '(st, iret) := stp_statmch_check_condition (machine s) st in
  if iret : bool then
    let* '(st, _) := stp_statmch_change_state fuel (machine s) st in Done st
  else Done st.

Definition stp_stpm_mst_update_transmit (fuel : nat) (st : STP_T) (b : Z) : outcome STP_T :=
  let* this := get_stpm st b in
  foldM (fun p => update_machine fuel (transmit_stater p)) this.(STPM.ports) st.

Definition stp_stpm_mst_update_receive (fuel : nat) (st : STP_T) (port : option PORT_REF)
    : outcome STP_T :=
  match port with
  | Some p => update_machine fuel (receive_stater p) st
  | None =>
      let* c := deref st.(g_CISTBRIDGE) in
      let* this := get_stpm st c in
      foldM (fun p => update_machine fuel (receive_stater p)) this.(STPM.ports) st
  end.

Definition init_ports (s : PORT_REF → STATER) (st : STP_T) (b : Z) : outcome STP_T :=
  let* this := get_stpm st b in
  foldM (fun p st => let* '(st, _) := stp_stpm_init_machine (s p) st in Done st)
    this.(STPM.ports) st.

Definition stp_stpm_mst_init_transmit : STP_T → Z → outcome STP_T := init_ports transmit_stater.
Definition stp_stpm_mst_init_receive : STP_T → Z → outcome STP_T := init_ports receive_stater.

(** One turn of the [do ... while]: every instance of the list. *)
Definition update_instances (fuel : nat) (st : STP_T) : outcome (STP_T * Z) :=
  foldM (fun b '(st, n) =>
    let* '(st, k) := stp_stpm_update fuel st b in Done (st, n + k)) st.(bridges) (st, 0).

Fixpoint mst_update_loop (fuel : nat) (st : STP_T) : outcome STP_T :=
  match fuel with
  | O => OutOfFuel
  | S fuel' =>
      let* '(st, n) := update_instances fuel' st in
      if n =? 0 then Done st else mst_update_loop fuel' st
  end.

Definition stp_stpm_mst_update (fuel : nat) (st : STP_T) (port : option PORT_REF)
    : outcome STP_T :=
  let* st := stp_stpm_mst_update_receive fuel st port in
  let* st := mst_update_loop fuel st in
  let* c := deref st.(g_CISTBRIDGE) in
  stp_stpm_mst_update_transmit fuel st c.

(** ** Time *)

(** [if (timer > 0) timer--]. *)
Definition tick (t : Z) : Z := if 0 <? t then t - 1 else t.

Definition tick_port (port : PORT_T) : PORT_T :=
  port <| fdWhile := tick port.(fdWhile) |> <| helloWhen := tick port.(helloWhen) |>
       <| mdelayWhile := tick port.(mdelayWhile) |> <| rbWhile := tick port.(rbWhile) |>
       <| rcvdInfoWhile := tick port.(rcvdInfoWhile) |> <| rrWhile := tick port.(rrWhile) |>
       <| tcWhile := tick port.(tcWhile) |> <| txCount := tick port.(txCount) |>
       <| lnkWhile := tick port.(lnkWhile) |> <| uptime := u32 (port.(uptime) + 1) |>.

Definition stp_stpm_check_topoch (st : STP_T) (this : STPM_T) : outcome bool :=
  any_port (fun port => negb (port.(tcWhile) =? 0)) st this.(STPM.ports).

(** One instance of the list: [dbg_cnt] counts the enabled ones. *)
Definition one_second_stpm (b : Z) (acc : STP_T * Z) : outcome (STP_T * Z) :=
  let '(st, dbg_cnt) := acc in
  let* this := get_stpm st b in
  if this.(STPM.admin_state) <>e STP_ENABLED then Done (st, dbg_cnt)
  else
    let* st := upd_ports this.(STPM.ports) tick_port st in
    let* tc := stp_stpm_check_topoch st this in
    let this := this <| STPM.Topo_Change := Z.b2z tc |> in
    let this :=
      if tc then
        this <| STPM.Topo_Change_Count := u32 (this.(STPM.Topo_Change_Count) + 1) |>
             <| STPM.timeSince_Topo_Change := 0 |>
      else
        this <| STPM.Topo_Change_Count := 0 |>
             <| STPM.timeSince_Topo_Change := u32 (this.(STPM.timeSince_Topo_Change) + 1) |> in
    Done (put_stpm st b this, dbg_cnt + 1).

Definition stp_stpm_one_second (fuel : nat) (st : STP_T) : outcome (STP_T * Z) :=
  let* '(st, dbg_cnt) := foldM one_second_stpm st.(bridges) (st, 0) in
  if negb (dbg_cnt =? 0) then
    let* st := stp_stpm_mst_update fuel st None in Done (st, dbg_cnt)
  else Done (st, dbg_cnt).

(** ** Starting and stopping an instance *)

(** Codes of [RSTP_ERRORS] (stp_base.h). *)
Definition STP_OK : Z := 0.
Definition STP_Cannot_Compute_Bridge_Prio : Z := 30.
Definition STP_Invalid_Bridge_Priority : Z := 28.

Definition stp_stpm_init_data (this : STPM_T) : STPM_T :=
  let this := this <| STPM.rootPrio := stp_vector_create this.(STPM.BrId) 0
                        this.(STPM.BrId) 0 this.(STPM.BrId) 0 0 |> in
  let this := this <| STPM.BrTimes := this.(STPM.BrTimes) <| MessageAge := 0 |> |> in
  this <| STPM.rootTimes := stp_times_copy this.(STPM.BrTimes) |>.

(** The MAC address does not depend on the port with the smallest index, only
    on there being a port; [None] is the NULL result. *)
Definition stp_stpm_compute_bridge_id (st : STP_T) (this : STPM_T) : option STPM_T :=
  match this.(STPM.ports) with
  | [] => None
  | _ => Some (this <| STPM.BrId := this.(STPM.BrId) <| addr := take 6 st.(sysMac) |> |>)
  end.

(** The instances after [c] in the list. *)
Fixpoint after (c : Z) (l : list Z) : list Z :=
  match l with
  | [] => []
  | b :: l' => if b =? c then l' else after c l'
  end.

Definition copy_address (a : list Z) (b : Z) (st : STP_T) : outcome STP_T :=
  let* stpm := get_stpm st b in
  Done (put_stpm st b (stpm <| STPM.BrId := stpm.(STPM.BrId) <| addr := take 6 a |> |>)).

(** The CIST part: [None] when there is no bridge identifier. *)
Definition start_bridge_id (st : STP_T) (b : Z) : outcome (option STP_T) :=
  let* this := get_stpm st b in
  if this.(STPM.vlan_id) =? STP_CIST_ID then
    match stp_stpm_compute_bridge_id st this with
    | None => Done None
    | Some this =>
        let st := put_stpm st b this in
        let* c := deref st.(g_CISTBRIDGE) in
        let* st := foldM (copy_address this.(STPM.BrId).(addr)) (after c st.(bridges)) st in
        Done (Some st)
    end
  else Done (Some st).

Definition stp_stpm_start (fuel : nat) (st : STP_T) (b : Z) : outcome (STP_T * Z) :=
  let* r := start_bridge_id st b in
  match r with
  | None => Done (st, STP_Cannot_Compute_Bridge_Prio)
  | Some st =>
      let* this := get_stpm st b in
      let cist := this.(STPM.vlan_id) =? STP_CIST_ID in
      let st := put_stpm st b (stp_stpm_init_data this) in
      let* st := foldM (fun p st => stp_port_init st p b true) this.(STPM.ports) st in
      let* st := if cist then
          let* st := stp_stpm_mst_init_receive st b in stp_stpm_mst_init_transmit st b
        else Done st in
      let* '(st, _) := stp_stpm_iterate_machines st b stp_stpm_init_machine false in
      let* st := if cist then stp_stpm_mst_update_receive fuel st None else Done st in
      let* '(st, _) := stp_stpm_update fuel st b in
      let* st := if cist then stp_stpm_mst_update_transmit fuel st b else Done st in
      Done (st, STP_OK)
  end.

Definition set_admin_state (st : STP_T) (b : Z) (s : UID_STP_MODE_T) : outcome STP_T :=
  let* this := get_stpm st b in
  Done (put_stpm st b (this <| STPM.admin_state := s |>)).

Definition stp_stpm_stop (st : STP_T) (b : Z) : outcome STP_T :=
  set_admin_state st b STP_DISABLED.

Definition stp_stpm_enable (fuel : nat) (st : STP_T) (b : Z) (admin_state : UID_STP_MODE_T)
    : outcome (STP_T * Z) :=
  let* this := get_stpm st b in
  if admin_state =e this.(STPM.admin_state) then Done (st, 0)
  else match admin_state with
  | STP_ENABLED =>
      let* '(st, rc) := stp_stpm_start fuel st b in
      let* st := set_admin_state st b admin_state in
      Done (st, rc)
  | STP_DISABLED =>
      let* st := set_admin_state st b admin_state in
      let* st := stp_stpm_stop st b in
      Done (st, 0)
  end.

Definition stp_stpm_update_after_bridge_management (st : STP_T) (b : Z) : outcome STP_T :=
  let* this := get_stpm st b in
  upd_ports this.(STPM.ports) (fun port => port <| reselect := true |> <| selected := false |>) st.

(** Not called. *)
Definition stp_stpm_check_bridge_priority (st : STP_T) (b : Z) : outcome Z :=
  let* this := get_stpm st b in
  let fix loop (l : list Z) : outcome Z :=
    match l with
    | [] => Done 0
    | o :: l' =>
        let* oth := get_stpm st o in
        if (oth.(STPM.admin_state) =e STP_ENABLED) && negb (o =? b) &&
           (stp_vector_compare_bridge_id this.(STPM.BrId) oth.(STPM.BrId) =? 0)
        then Done STP_Invalid_Bridge_Priority else loop l'
    end in
  loop st.(bridges).

(** ** Creating and deleting an instance *)

Definition DEF_BR_PRIO : Z := 32768.
Definition DEF_BR_MAXAGE : Z := 20.
Definition DEF_BR_FWDELAY : Z := 15.
Definition DEF_REMAINING_HOPS : Z := 20.

Definition zero_cfg_id : MST_CFG_ID_S := mkMstCfgId 0 (repeat 0 32) (repeat 0 2) (repeat 0 16).

(** [calloc] and the assignments every instance gets. *)
Definition calloc_stpm (mstid : Z) : STPM_T := {|
  STPM.ports := []; STPM.rolesel := mkMach RoleselState.BEGIN false;
  STPM.ForceVersion := 0; STPM.BrId := mkBridgeId DEF_BR_PRIO (repeat 0 6);
  STPM.BrTimes := zero_times; STPM.rootPortId := 0; STPM.rootPrio := zero_vector;
  STPM.rootTimes := zero_times; STPM.MstConfigId := zero_cfg_id; STPM.vlan_id := mstid;
  STPM.vlan_map := zero_vlan_map; STPM.admin_state := STP_DISABLED;
  STPM.timeSince_Topo_Change := 0; STPM.Topo_Change_Count := 0; STPM.Topo_Change := 0;
  STPM.digest := repeat 0 16 |}.

(** Insertion after the element [c]. *)
Fixpoint insert_after (c x : Z) (l : list Z) : list Z :=
  match l with
  | [] => []
  | b :: l' => if b =? c then b :: x :: l' else b :: insert_after c x l'
  end.

(** The management functions create an instance only when
    [stp_stpm_get_instance] does not find it, so that its number is a new key
    of the heap.  32 bytes of the name, from an array of [name_size], are kept
    for debugging. *)
Definition stp_stpm_mst_create (st : STP_T) (mstid name_size : Z) : outcome (STP_T * option Z) :=
  if STP_MSTI_MAX <? mstid then Done (st, None)
  else
    let new st :=
      let st := access NAME_STRING name_size 32 st in
      let '(st, m) := stp_statmch_create "rolesel" RoleselState.BEGIN st in
      (st, (calloc_stpm mstid) <| STPM.rolesel := m |>) in
    if mstid =? STP_CIST_ID then
      let '(st, this) := new st in
      let this := this <| STPM.ForceVersion := NORMAL_MSTP |>
        <| STPM.BrTimes :=
             mkTimes 0 DEF_BR_MAXAGE DEF_BR_FWDELAY DEF_BR_HELLOT DEF_REMAINING_HOPS |> in
      let st := st <| bridges := mstid :: st.(bridges) |> <| g_CISTBRIDGE := Some mstid |> in
      Done (put_stpm st mstid this, Some mstid)
    else
      match st.(g_CISTBRIDGE) with
      | None => Done (st, None)
      | Some c =>
          let* cist := get_stpm st c in
          let '(st, this) := new st in
          let prio := u16 (DEF_BR_PRIO + Z.land 0x0fff mstid) in
          let this := this <| STPM.ForceVersion := cist.(STPM.ForceVersion) |>
            <| STPM.BrTimes := mkTimes 0 0 0 0 cist.(STPM.BrTimes).(RemainingHops) |>
            <| STPM.BrId := mkBridgeId prio (take 6 cist.(STPM.BrId).(addr)) |> in
          let st := st <| bridges := insert_after c mstid st.(bridges) |> in
          Done (put_stpm st mstid this, Some mstid)
      end.

(** The loop over the ports steps twice per turn: it deletes every other port,
    and after the last one dereferences the NULL it has just stored. *)
Fixpoint delete_ports (st : STP_T) (b : Z) (l : list PORT_REF) : outcome STP_T :=
  match l with
  | [] => Done st
  | [q] => let* _ := stp_port_delete st q in Segv
  | q :: r :: l' =>
      let* st := stp_port_delete st q in
      let* this := get_stpm st b in
      delete_ports (put_stpm st b (this <| STPM.ports := r :: l' |>)) b l'
  end.

(** The list without its first instance of this number. *)
Fixpoint unlink_stpm (st : STP_T) (l : list Z) (vlan_id : Z) : outcome (option (list Z)) :=
  match l with
  | [] => Done None
  | b :: l' =>
      let* tmp := get_stpm st b in
      if tmp.(STPM.vlan_id) =? vlan_id then Done (Some l')
      else
        let* rest := unlink_stpm st l' vlan_id in
        Done ((fun r => b :: r) <$> rest)
  end.

Definition stp_stpm_delete (fuel : nat) (st : STP_T) (b : Z) : outcome STP_T :=
  let* '(st, _) := stp_stpm_enable fuel st b STP_DISABLED in
  let* this := get_stpm st b in
  let* st := delete_ports st b this.(STPM.ports) in
  let* rest := unlink_stpm st st.(bridges) this.(STPM.vlan_id) in
  match rest with
  | Some l =>
      let st := st <| bridges := l |> in
      let st := if this.(STPM.vlan_id) =? STP_CIST_ID then st <| g_CISTBRIDGE := None |> else st in
      Done (st <| stpm_heap := delete b st.(stpm_heap) |>)
  | None => Done st
  end.
