(* ===== verification/StpSafety.v ===== *)
(** * Memory safety of the engine

    On a well-formed state the engine dereferences no NULL and no dangling
    pointer, whatever the contents of its ports are, keeps its frame, and leaves
    other blocks only as [engine_event] says.
    [safe m Q]: [m] does not fail, and when it returns, [Q] holds.  The
    interface [SafeMachine] is what the engine asks of a machine; every machine
    has an instance, and the loops of [StpStpm] are proved against it. *)

From Stdlib Require Import ZArith Lia.
From stdpp Require Import base gmap list option.
From S2P Require Import Prelude StpTypes StpVector StpTo StpHeap StpStatmch StpMachines StpPort StpRoletrns StpTopoch StpPortinfo StpRolesel StpTransmit StpFrame StpReceive StpStpm.

(** ** Safety of an outcome *)

Definition safe {A} (m : outcome A) (Q : A → Prop) : Prop :=
  match m with Done a => Q a | Segv => False | OutOfFuel => True end.

Lemma safe_wp {A} (m : outcome A) (Q : A → Prop) : wp m Q → safe m Q.
Proof. by destruct m. Qed.

Lemma safe_bind {A B} (m : outcome A) (k : A → outcome B) (Q : B → Prop) :
  safe m (fun a => safe (k a) Q) → safe (obind k m) Q.
Proof. by destruct m. Qed.

Lemma safe_mono {A} (m : outcome A) (P Q : A → Prop) :
  safe m P → (∀ a, P a → Q a) → safe m Q.
Proof. destruct m; simpl; auto. Qed.

Lemma safe_foldM {A S} (P : S → Prop) (f : A → S → outcome S) l s :
  (∀ x s, x ∈ l → P s → safe (f x s) P) → P s → safe (foldM f l s) P.
Proof.
  revert s. induction l as [|x l IH]; intros s Hf Hs; simpl; [done|].
  apply safe_bind. eapply safe_mono; [apply Hf; [left|done]|].
  intros s1 H1. apply IH; [|done]. intros y t Hy; apply Hf; by right.
Qed.

(** ** The interface *)

Class SafeMachine (m : MACHINE STP_T) (P : STP_T → Prop) : Prop := {
  sm_get : ∀ st, P st → wp (get_changeState m st) (fun _ => True);
  sm_set : ∀ c st, P st → wp (set_changeState m c st) (fun st' => P st' ∧ frame st st');
  sm_enter : ∀ st, P st → wp (concreteEnterState m st) (fun st' => P st' ∧ frame st st');
  sm_check : ∀ st, P st →
    wp (concreteCheckCondition m st) (fun r => P r.1 ∧ frame st r.1) }.

Section Machine.
Context (m : MACHINE STP_T) (P : STP_T → Prop) `{!SafeMachine m P}.

Lemma check_condition_safe st :
  P st → wp (stp_statmch_check_condition m st) (fun r => P r.1 ∧ frame st r.1).
Proof.
  intros HP. apply wp_bind. eapply wp_mono; [by apply sm_check|]. intros [st1 []] [HP1 F1]; [|done].
  apply wp_bind. eapply wp_mono; [by apply sm_set|]. intros st2 [HP2 F2].
  split; [done|]. by etransitivity.
Qed.

Lemma change_body_safe st :
  P st → wp (change_state_body m st) (fun st' => P st' ∧ frame st st').
Proof.
  intros HP. unfold change_state_body.
  apply wp_bind. eapply wp_mono; [by apply sm_enter|]. intros st1 [HP1 F1].
  apply wp_bind. eapply wp_mono; [by apply sm_set|]. intros st2 [HP2 F2].
  apply wp_bind. eapply wp_mono; [by apply check_condition_safe|]. intros [st3 r] [HP3 F3].
  split; [done|]. etransitivity; [exact F1|]. by etransitivity.
Qed.

Lemma change_state_safe fuel st :
  P st → safe (stp_statmch_change_state fuel m st) (fun r => P r.1 ∧ frame st r.1).
Proof.
  unfold stp_statmch_change_state. generalize 0 as n.
  revert st. induction fuel as [|fuel IH]; intros st n HP; simpl; [done|].
  destruct (wp_elim _ _ (sm_get st HP)) as (c & -> & _). simpl.
  destruct c; simpl; [|by split; [|reflexivity]].
  apply safe_bind, safe_wp. eapply wp_mono; [by apply change_body_safe|].
  intros st1 [HP1 F1]. eapply safe_mono; [by apply IH|].
  intros [st2 k] [HP2 F2]. split; [done|]. by etransitivity.
Qed.
End Machine.

(** ** The states the engine runs on *)

Definition engine_ok (st : STP_T) : Prop :=
  wf st ∧ tables_ok st ∧ is_Some st.(g_CISTBRIDGE).

Definition port_ok (p : PORT_REF) (st : STP_T) : Prop :=
  engine_ok st ∧ is_Some (st.(port_heap) !! p).

Definition cist_port_ok (p : PORT_REF) (st : STP_T) : Prop :=
  port_ok p st ∧ p.1 = STP_CIST_ID.

Lemma engine_ok_frame st st' : frame st st' → engine_ok st → engine_ok st'.
Proof.
  intros [E E1 E2 _ _ _ _] (W & T & C). split_and!.
  - by rewrite <- E.
  - unfold tables_ok. by rewrite E1, E2.
  - assert (Ec : st.(g_CISTBRIDGE) = st'.(g_CISTBRIDGE)) by exact (f_equal sh_cist E).
    by rewrite <- Ec.
Qed.

Lemma port_ok_frame p st st' : frame st st' → port_ok p st → port_ok p st'.
Proof.
  intros F [Ok [port H]]. split; [by eapply engine_ok_frame|].
  destruct (same_port _ _ _ _ (fr_shape _ _ F) H) as (x & ? & _). eauto.
Qed.

Lemma cist_port_ok_frame p st st' : frame st st' → cist_port_ok p st → cist_port_ok p st'.
Proof. intros F [? ?]. split; [by eapply port_ok_frame|done]. Qed.

Lemma port_ok_ready p st : port_ok p st → ready p st.
Proof. by intros [(W & _) H]. Qed.

Lemma cist_ok_ready p st : cist_port_ok p st → cist_ready p st.
Proof. intros [H ?]. split; [by apply port_ok_ready|done]. Qed.

(** The instances of a port machine: the callbacks return, and the machine
    keeps the frame. *)
Section PortMachine.
Context {S : Type} (f : MACH_FIELD S) `{!FieldLaws f}
        (enter : STP_T → PORT_REF → outcome STP_T)
        (check : STP_T → PORT_REF → outcome (STP_T * bool))
        (p : PORT_REF) (P : STP_T → Prop).
Hypothesis P_frame : ∀ st st', frame st st' → P st → P st'.
Hypothesis P_has : ∀ st, P st →
  ∃ port m, st.(port_heap) !! p = Some port ∧ mach_get f port = Some m.
Hypothesis enter_total : ∀ st, P st → wp (enter st p) (fun _ => True).
Hypothesis check_total : ∀ st, P st → wp (check st p) (fun _ => True).
Hypothesis enter_frame : ∀ st st', enter st p = Done st' → frame st st'.
Hypothesis check_frame : ∀ st st' r, check st p = Done (st', r) → frame st st'.

Lemma port_machine_safe : SafeMachine (port_machine f enter check p) P.
Proof.
  split; simpl; intros.
  - destruct (P_has st H) as (port & m & Hp & E). by rewrite (get_changeState_Done _ _ _ _ _ Hp E).
  - destruct (P_has st H) as (port & m & Hp & E). rewrite (set_changeState_Done _ _ _ _ _ c Hp E).
    assert (F : frame st (put_port st p (mach_put f (mkMach m.(State) c) port))).
    { eapply (mach_put_frame f); [reflexivity|]. by eapply mach_of_Done. }
    split; [by eapply P_frame|done].
  - destruct (wp_elim _ _ (enter_total st H)) as (st' & E & _). rewrite E.
    assert (F := enter_frame _ _ E). split; [by eapply P_frame|done].
  - destruct (wp_elim _ _ (check_total st H)) as ([st' r] & E & _). rewrite E.
    assert (F := check_frame _ _ _ E). split; [by eapply P_frame|done].
Qed.
End PortMachine.

(** ** The machines *)

(** A chain of tests that ends in a hop or stays. *)
Ltac check_total f :=
  repeat case_match; try done;
  match goal with
  | |- wp (hop _ _ _ _) _ => eapply (wp_intro _ _ _); [by eapply (hop_Done f)|done]
  end.

#[export] Instance edge_safe p : SafeMachine (edge_machine p) (cist_port_ok p).
Proof.
  apply (port_machine_safe edge_field); [apply cist_port_ok_frame|..].
  - intros st R. by apply edge_has, cist_ok_ready.
  - intros st R%cist_ok_ready. destruct (edge_has p st R) as (port & m & H & E).
    eapply wp_mono; [by eapply edge_turn|done].
  - intros st R%cist_ok_ready. destruct (edge_has p st R) as (port & m & H & E).
    unfold MSTP_edge_check_conditions. rewrite (mach_of_Done _ _ _ _ _ H E). cbn [obind].
    check_total edge_field.
  - intros st st'. by apply edge_enter_frame.
  - intros st st' r. by apply edge_check_frame.
Qed.

Lemma p2p_ok_ready p st : cist_port_ok p st → p2p_ready p st.
Proof. intros H. split; [by apply cist_ok_ready|]. by destruct H as [[(_ & T & _) _] _]. Qed.

#[export] Instance p2p_safe p : SafeMachine (p2p_machine p) (cist_port_ok p).
Proof.
  apply (port_machine_safe p2p_field); [apply cist_port_ok_frame|..].
  - intros st R. by apply p2p_has, p2p_ok_ready.
  - intros st R%p2p_ok_ready. destruct (p2p_has p st R) as (port & m & H & E).
    eapply wp_mono; [by eapply p2p_turn|done].
  - intros st R%p2p_ok_ready. destruct (p2p_has p st R) as (port & m & H & E).
    unfold MSTP_p2p_check_conditions. rewrite (mach_of_Done _ _ _ _ _ H E). cbn [obind].
    check_total p2p_field.
  - intros st st'. by apply p2p_enter_frame.
  - intros st st' r. by apply p2p_check_frame.
Qed.

#[export] Instance migrate_safe p : SafeMachine (migrate_machine p) (cist_port_ok p).
Proof.
  apply (port_machine_safe migrate_field); [apply cist_port_ok_frame|..].
  - intros st R. by apply migrate_has, cist_ok_ready.
  - intros st R%cist_ok_ready. destruct (migrate_has p st R) as (port & m & H & E).
    eapply wp_mono; [by eapply migrate_turn|done].
  - intros st R%cist_ok_ready. destruct (migrate_has p st R) as (port & m & H & E).
    unfold MSTP_migrate_check_conditions. rewrite (mach_of_Done _ _ _ _ _ H E). cbn [obind].
    destruct (wf_port_owner _ _ _ (proj1 (proj1 R)) H) as (Ho & _ & stpm & Hs).
    rewrite Ho, (get_stpm_Some _ _ _ Hs). cbn [obind]. check_total migrate_field.
  - intros st st'. by apply migrate_enter_frame.
  - intros st st' r. by apply migrate_check_frame.
Qed.

Lemma pcost_ok_ready p st : port_ok p st → pcost_ready p st.
Proof. intros H. split; [by apply port_ok_ready|]. by destruct H as [(_ & T & _) _]. Qed.

#[export] Instance pcost_safe p : SafeMachine (pcost_machine p) (port_ok p).
Proof.
  apply (port_machine_safe pcost_field); [apply port_ok_frame|..].
  - intros st R. by apply pcost_has, pcost_ok_ready.
  - intros st R%pcost_ok_ready. destruct (pcost_has p st R) as (port & m & H & E).
    eapply wp_mono; [by eapply pcost_turn|done].
  - intros st R%pcost_ok_ready. destruct (pcost_has p st R) as (port & m & H & E).
    unfold MSTP_pcost_check_conditions. rewrite (mach_of_Done _ _ _ _ _ H E). cbn [obind].
    check_total pcost_field.
  - intros st st'. by apply pcost_enter_frame.
  - intros st st' r. by apply pcost_check_frame.
Qed.

#[export] Instance sttrans_safe p : SafeMachine (sttrans_machine p) (port_ok p).
Proof.
  apply (port_machine_safe sttrans_field); [apply port_ok_frame|..].
  - intros st R. by apply sttrans_has, port_ok_ready.
  - intros st [_ [port H]]. eapply wp_mono; [by eapply sttrans_enter_spec|done].
  - intros st R%port_ok_ready. destruct (sttrans_has p st R) as (port & m & H & E).
    unfold MSTP_sttrans_check_conditions. rewrite (mach_of_Done _ _ _ _ _ H E). cbn [obind].
    assert (Hc : ∀ n, ((stp_sttrans_sendStpStatetoNpd port st) <| sttrans_count := n |>).(port_heap)
      !! p = Some port) by (intros n; simpl; by rewrite send_heap).
    repeat case_match; try done; (eapply wp_intro; [|done]);
      (eapply (hop_Done sttrans_field); [by apply Hc || exact H|exact E]).
  - intros st st'. by apply sttrans_enter_frame.
  - intros st st' r. by apply sttrans_check_frame.
Qed.

Lemma info_check_total p st : ready p st → wp (MSTP_info_check_conditions st p) (fun _ => True).
Proof.
  intros R. destruct (proj2 R) as [port H]. unfold MSTP_info_check_conditions.
  rewrite (mach_of_Done info_field _ _ _ port.(info) H eq_refl). cbn [obind].
  destruct (rcvd_xst_total st p _ R H) as [b1 ->], (updt_xst_total st p _ R H) as [b2 ->].
  cbn [obind]. check_total info_field.
Qed.

#[export] Instance info_safe p : SafeMachine (info_machine p) (port_ok p).
Proof.
  apply (port_machine_safe info_field); [apply port_ok_frame|..].
  - intros st [_ [port H]]. by eexists _, _.
  - intros st R. destruct (proj2 R) as [port H].
    eapply wp_mono; [by eapply info_enter_spec; [apply port_ok_ready|]|done].
  - intros st R%port_ok_ready. by apply info_check_total.
  - intros st st'. by apply info_enter_frame.
  - intros st st' r. by apply info_check_frame.
Qed.

#[export] Instance topoch_safe p : SafeMachine (topoch_machine p) (port_ok p).
Proof.
  apply (port_machine_safe topoch_field); [apply port_ok_frame|..].
  - intros st [_ [port H]]. by eexists _, _.
  - intros st R. destruct (proj2 R) as [port H].
    eapply wp_mono; [by eapply topoch_enter_spec; [apply port_ok_ready|]|done].
  - intros st R. destruct (proj2 R) as [port H]. unfold MSTP_topoch_check_conditions.
    rewrite (mach_of_Done topoch_field _ _ _ port.(topoch) H eq_refl). cbn [obind].
    check_total topoch_field.
  - intros st st'. by apply topoch_enter_frame.
  - intros st st' r. by apply topoch_check_frame.
Qed.

Lemma rt_ok_ready p st : port_ok p st → ∃ FD HT, rt_ready FD HT p st.
Proof.
  intros [(W & _ & [c Hc]) Hp]. destruct (wf_cist _ W c Hc) as [_ Hs].
  apply shape_stpm_is_Some in Hs as [stpm Hs].
  exists stpm.(STPM.rootTimes).(ForwardDelay), stpm.(STPM.rootTimes).(HelloTime).
  split; [done|]. by exists c, stpm.
Qed.

#[export] Instance roletrns_safe p : SafeMachine (roletrns_machine p) (port_ok p).
Proof.
  apply (port_machine_safe roletrns_field); [apply port_ok_frame|..].
  - intros st [_ [port H]]. by eexists _, _.
  - intros st R. destruct (rt_ok_ready p st R) as (FD & HT & Rt). destruct (proj2 R) as [port H].
    eapply wp_mono; [by eapply rt_enter_spec|done].
  - intros st R. destruct (rt_ok_ready p st R) as (FD & HT & Rt). destruct (proj2 R) as [port H].
    destruct (rt_check_spec FD HT p st port Rt H) as [->|(s & -> & _)]; [done|].
    eapply wp_intro; [by eapply (hop_Done roletrns_field)|done].
  - intros st st'. by apply roletrns_enter_frame.
  - intros st st' r. by apply roletrns_check_frame.
Qed.

(** ** Transmit, receive and role selection *)

Lemma traced_frame st0 st ev :
  Forall (engine_event (crowded st0)) ev → frame st0 st → frame st0 (traced ev st).
Proof.
  intros H [? ? ? ? ? ? ? ? A]. split; try done. etransitivity; [exact A|]. by exists ev.
Qed.

Lemma transmit_enter_frame p st port m stpm :
  ready p st → st.(port_heap) !! p = Some port → port.(transmit) = Some m →
  st.(stpm_heap) !! p.1 = Some stpm →
  wp (MSTP_transmit_enter_state st p) (frame st).
Proof.
  intros R H E Hs. eapply wp_mono; [by eapply transmit_enter_spec|].
  intros st1 (c & b & k & ev & -> & _ & Hev). apply traced_frame; [done|].
  eapply put_frame; [reflexivity|by exists port|apply transmit_own_shape].
Qed.

Lemma transmit_check_total p st : cist_ready p st →
  wp (MSTP_transmit_check_conditions st p) (fun r => frame st r.1).
Proof.
  intros [R Hp]. destruct (proj2 R) as [port H].
  destruct (wf_cist_machines _ _ _ (proj1 R) H Hp) as (_ & [m E] & _).
  unfold MSTP_transmit_check_conditions. rewrite (mach_of_Done transmit_field _ _ _ m H E). cbn [obind].
  assert (Hhop : ∀ s, wp (hop transmit_field st p s) (fun r => frame st r.1)).
  { intros s. eapply wp_intro; [by eapply (hop_Done transmit_field)|].
    eapply (hop_frame transmit_field); [reflexivity|by eapply (hop_Done transmit_field)]. }
  destruct m.(State); try apply Hhop.
  apply wp_bind. eapply wp_mono; [by apply (transmit_next_spec p)|].
  intros [s|] _; [apply Hhop|]. apply wp_Done. reflexivity.
Qed.

Lemma wp_both {A} (m : outcome A) (P Q : A → Prop) : wp m P → (∀ a, m = Done a → P a → Q a) → wp m Q.
Proof. destruct m; simpl; auto. Qed.

#[export] Instance transmit_safe p : SafeMachine (transmit_machine p) (cist_port_ok p).
Proof.
  assert (Hhas : ∀ st, cist_port_ok p st → ∃ port m, st.(port_heap) !! p = Some port ∧
    mach_get transmit_field port = Some m).
  { intros st [[(W & _) [port H]] Hp].
    destruct (wf_cist_machines _ _ _ W H Hp) as (_ & [m E] & _). by exists port, m. }
  assert (Hen : ∀ st, cist_port_ok p st → wp (MSTP_transmit_enter_state st p) (frame st)).
  { intros st R. destruct (Hhas st R) as (port & m & H & E).
    assert (Rr := port_ok_ready _ _ (proj1 R)).
    destruct (wf_port_owner _ _ _ (proj1 Rr) H) as (_ & _ & stpm & Hs).
    by eapply transmit_enter_frame. }
  split; simpl.
  - intros st R. destruct (Hhas st R) as (port & m & H & E).
    by rewrite (get_changeState_Done transmit_field _ _ _ _ H E).
  - intros c st R. destruct (Hhas st R) as (port & m & H & E).
    rewrite (set_changeState_Done transmit_field _ _ _ _ c H E).
    assert (F : frame st (put_port st p (mach_put transmit_field (mkMach m.(State) c) port))).
    { eapply (mach_put_frame transmit_field); [reflexivity|]. by eapply mach_of_Done. }
    split; [exact (cist_port_ok_frame _ _ _ F R)|done].
  - intros st R. eapply wp_mono; [by apply Hen|]. intros st' F.
    split; [exact (cist_port_ok_frame _ _ _ F R)|done].
  - intros st R. eapply wp_mono; [by apply transmit_check_total, cist_ok_ready|].
    intros r F. split; [exact (cist_port_ok_frame _ _ _ F R)|done].
Qed.

Definition receive_ok (p : PORT_REF) (st : STP_T) : Prop := cist_port_ok p st ∧ receive_ready p st.

Lemma receive_ok_kept p st st1 port :
  receive_ok p st → st.(port_heap) !! p = Some port → receive_kept p (rkey port) st st1 →
  receive_ok p st1 ∧ frame st st1.
Proof.
  intros [R Rr] H HK. destruct (HK) as (F & _).
  split; [split; [exact (cist_port_ok_frame _ _ _ F R)|by eapply receive_ready_kept]|done].
Qed.

(** A store that changes only the machine's own record. *)
Lemma receive_ok_put p st port m m' :
  receive_ok p st → st.(port_heap) !! p = Some port → mach_get receive_field port = Some m →
  let st1 := put_port st p (mach_put receive_field m' port) in receive_ok p st1 ∧ frame st st1.
Proof.
  intros R H E st1. assert (F : frame st st1).
  { eapply (mach_put_frame receive_field); [reflexivity|]. by eapply mach_of_Done. }
  split; [|done]. split; [exact (cist_port_ok_frame _ _ _ F (proj1 R))|].
  split; [exact (cist_ok_ready _ _ (cist_port_ok_frame _ _ _ F (proj1 R)))|].
  intros cur x. unfold st1. rewrite put_port_lookup. intros Ec [= <-].
  exact (proj2 (proj2 R) cur port Ec H).
Qed.

Lemma receive_check_safe p st : receive_ok p st →
  wp (MSTP_receive_check_conditions st p) (fun r => receive_ok p r.1 ∧ frame st r.1).
Proof.
  intros R. destruct (receive_has p st (proj2 R)) as (port & m & H & E).
  unfold MSTP_receive_check_conditions. rewrite (mach_of_Done receive_field _ _ _ m H E). cbn [obind].
  assert (Hhop : ∀ s, wp (hop receive_field st p s) (fun r => receive_ok p r.1 ∧ frame st r.1)).
  { intros s. rewrite (hop_Done receive_field _ _ _ _ s H E). by eapply receive_ok_put. }
  assert (Hst : receive_ok p st ∧ frame st st) by (by split; [|reflexivity]).
  assert (W := proj1 (proj1 (proj1 (proj1 R)))).
  destruct m.(State); try apply Hhop; repeat (case_match; try apply Hhop); try exact Hst.
  unfold stp_receive_rcvdAnyMsg. rewrite (get_port_Some _ _ _ H). cbn [obind].
  destruct (any_port_total (fun x => x.(rcvdMsg)) st (p :: port.(nextMst))) as (r & ->).
  { intros q [->|Hq]%elem_of_cons; [eauto|]. by destruct (wf_nextMst _ _ _ _ W H Hq) as (_ & ?). }
  cbn [obind]. case_match; [apply Hhop|exact Hst].
Qed.

#[export] Instance receive_safe p : SafeMachine (receive_machine p) (receive_ok p).
Proof.
  split; simpl.
  - intros st R. destruct (receive_has p st (proj2 R)) as (port & m & H & E).
    by rewrite (get_changeState_Done receive_field _ _ _ _ H E).
  - intros c st R. destruct (receive_has p st (proj2 R)) as (port & m & H & E).
    rewrite (set_changeState_Done receive_field _ _ _ _ c H E). by eapply receive_ok_put.
  - intros st R. destruct (receive_has p st (proj2 R)) as (port & m & H & E).
    eapply wp_mono; [eapply receive_enter_spec; [apply R|done..]|].
    intros st1 [HK _]. by eapply receive_ok_kept.
  - apply receive_check_safe.
Qed.

Definition stpm_ok (b : Z) (st : STP_T) : Prop := engine_ok st ∧ is_Some (st.(stpm_heap) !! b).

Lemma stpm_ok_frame b st st' : frame st st' → stpm_ok b st → stpm_ok b st'.
Proof.
  intros F [Ok [stpm H]]. split; [by eapply engine_ok_frame|].
  destruct (same_stpm _ _ _ _ (fr_shape _ _ F) H) as (x & ? & _). eauto.
Qed.

Lemma any_reselect_total st l :
  (∀ q, q ∈ l → is_Some (st.(port_heap) !! q)) → ∃ r, any_reselect st l = Done r.
Proof.
  induction l as [|q l IH]; intros Hex; simpl; [eauto|].
  destruct (Hex q ltac:(left)) as [port H]. rewrite (get_port_Some _ _ _ H). simpl.
  destruct port.(reselect); [eauto|]. apply IH. intros. apply Hex. by right.
Qed.

#[export] Instance rolesel_safe b : SafeMachine (rolesel_machine b) (stpm_ok b).
Proof.
  split; simpl.
  - intros st [_ [stpm H]]. by rewrite (get_stpm_Some _ _ _ H).
  - intros c st R. destruct (proj2 R) as [stpm H]. rewrite (get_stpm_Some _ _ _ H). cbn [obind].
    assert (F : frame st (put_stpm st b
      (stpm <| STPM.rolesel := mkMach stpm.(STPM.rolesel).(State) c |>))).
    { eapply put_stpm_frame; [reflexivity|by apply get_stpm_Some|done]. }
    split; [exact (stpm_ok_frame _ _ _ F R)|done].
  - intros st R. destruct (proj2 R) as [stpm H].
    eapply wp_both; [by eapply rolesel_enter_spec; [split; [apply R|by exists stpm]|]|].
    intros st' E _. assert (F := rolesel_enter_frame st st st' b (reflexivity st) E).
    split; [exact (stpm_ok_frame _ _ _ F R)|done].
  - intros st R. destruct (proj2 R) as [stpm H]. unfold MSTP_rolesel_check_conditions, rolesel_hop.
    rewrite (get_stpm_Some _ _ _ H). cbn [obind].
    assert (Hput : ∀ s, let st1 := put_stpm st b (stpm <| STPM.rolesel := s |>) in
      stpm_ok b st1 ∧ frame st st1).
    { intros s st1. assert (F : frame st st1).
      { eapply put_stpm_frame; [reflexivity|by apply get_stpm_Some|done]. }
      split; [exact (stpm_ok_frame _ _ _ F R)|done]. }
    destruct stpm.(STPM.rolesel).(State); [apply Hput..|].
    destruct (any_reselect_total st stpm.(STPM.ports)) as (r & ->).
    { intros q Hq. by destruct (wf_on_list _ _ _ _ (proj1 (proj1 R)) H Hq) as (_ & ? & ?). }
    cbn [obind]. destruct r; [apply Hput|]. by split; [|reflexivity].
Qed.

(** ** The engine *)

(** What the engine may do with a machine in [st] and in every state with the
    same frame: run it, and set it back to [BEGIN]. *)
Class SafeStater (s : STATER) (P : STP_T → Prop) : Prop := {
  ss_machine :: SafeMachine (machine s) P;
  ss_begin : ∀ st, P st → wp (set_BEGIN s st) (fun st' => P st' ∧ frame st st') }.

Definition runs_safely (s : STATER) (st : STP_T) : Prop :=
  ∃ P : STP_T → Prop, SafeStater s P ∧ ∀ st', frame st st' → P st'.

#[export] Instance rolesel_stater_safe b : SafeStater (rolesel_stater b) (stpm_ok b).
Proof.
  split; [apply _|]. intros st R. destruct (proj2 R) as [stpm H]. simpl.
  rewrite (get_stpm_Some _ _ _ H). cbn [obind].
  assert (F : frame st (put_stpm st b (stpm <| STPM.rolesel :=
    mkMach RoleselState.BEGIN stpm.(STPM.rolesel).(changeState) |>))).
  { eapply put_stpm_frame; [reflexivity|by apply get_stpm_Some|done]. }
  split; [exact (stpm_ok_frame _ _ _ F R)|done].
Qed.

Lemma port_stater_safe {S} (f : MACH_FIELD S) `{!FieldLaws f} BEGIN mk p (P : STP_T → Prop) :
  SafeMachine (mk p) P → (∀ st st', frame st st' → P st → P st') →
  (∀ st, P st → ∃ port m, st.(port_heap) !! p = Some port ∧ mach_get f port = Some m) →
  SafeStater (port_stater f BEGIN mk p) P.
Proof.
  intros SM HF Hhas. split; [done|]. intros st HP. destruct (Hhas st HP) as (port & m & H & E).
  simpl. rewrite (mach_of_Done f _ _ _ _ H E). cbn [obind].
  assert (F : frame st (put_port st p (mach_put f (mkMach BEGIN m.(changeState)) port))).
  { eapply (mach_put_frame f); [reflexivity|]. by eapply mach_of_Done. }
  split; [by eapply HF|done].
Qed.

Lemma runs_cist {S} (f : MACH_FIELD S) `{!FieldLaws f} BEGIN mk p st :
  SafeMachine (mk p) (cist_port_ok p) →
  (∀ st, cist_port_ok p st → ∃ port m, st.(port_heap) !! p = Some port ∧ mach_get f port = Some m) →
  cist_port_ok p st → runs_safely (port_stater f BEGIN mk p) st.
Proof.
  intros SM Hhas R. exists (cist_port_ok p).
  split; [by apply (port_stater_safe f); [|apply cist_port_ok_frame|]|].
  intros st' F. exact (cist_port_ok_frame _ _ _ F R).
Qed.

Lemma runs_port {S} (f : MACH_FIELD S) `{!FieldLaws f} BEGIN mk p st :
  SafeMachine (mk p) (port_ok p) →
  (∀ st, port_ok p st → ∃ port m, st.(port_heap) !! p = Some port ∧ mach_get f port = Some m) →
  port_ok p st → runs_safely (port_stater f BEGIN mk p) st.
Proof.
  intros SM Hhas R. exists (port_ok p).
  split; [by apply (port_stater_safe f); [|apply port_ok_frame|]|].
  intros st' F. exact (port_ok_frame _ _ _ F R).
Qed.

Lemma runs_frame s st st' : frame st st' → runs_safely s st → runs_safely s st'.
Proof.
  intros F (P & SM & HP). exists P. split; [done|]. intros st2 F2. apply HP. by etransitivity.
Qed.

Definition staters_ok (l : list STATER) (st : STP_T) : Prop := ∀ s, s ∈ l → runs_safely s st.

Lemma msti_staters_ok p st : port_ok p st → staters_ok (msti_staters p) st.
Proof.
  intros R s Hs. unfold msti_staters in Hs. rewrite !elem_of_cons, elem_of_nil in Hs.
  destruct Hs as [->|[->|[->|[->|[->|[]]]]]];
    (apply runs_port; [apply _|apply _| |done]); intros s' [_ [port H]]; by eexists _, _.
Qed.

Lemma cist_port_machines p st : cist_port_ok p st →
  ∃ port, st.(port_heap) !! p = Some port ∧ (∃ m, port.(migrate) = Some m) ∧
    (∃ m, port.(transmit) = Some m) ∧ (∃ m, port.(p2p) = Some m) ∧
    (∃ m, port.(edge) = Some m) ∧ (∃ m, port.(receive) = Some m).
Proof.
  intros [[(W & _) [port H]] Hp]. exists port. split; [done|].
  exact (wf_cist_machines _ _ _ W H Hp).
Qed.

Lemma cist_staters_ok p st : cist_port_ok p st → staters_ok (cist_staters p) st.
Proof.
  intros R s Hs. unfold cist_staters in Hs. rewrite !elem_of_cons in Hs.
  destruct Hs as [->|[->|[->|Hs]]]; [..|by apply (msti_staters_ok p); [apply R|]];
    (apply runs_cist; [apply _|apply _| |done]); intros s' R';
    destruct (cist_port_machines p s' R') as (port & H & [? ?] & _ & [? ?] & [? ?] & _);
    by eexists _, _.
Qed.

Lemma port_machines_ok p st : port_ok p st → wp (port_machines st p) (fun l => staters_ok l st).
Proof.
  intros R. destruct (proj2 R) as [port H]. unfold port_machines.
  rewrite (get_port_Some _ _ _ H). cbn [obind]. destruct (present port.(migrate)) eqn:E.
  - apply cist_staters_ok. split; [done|]. by eapply wf_migrate_cist; [apply R|..].
  - by apply msti_staters_ok.
Qed.

Lemma ports_machines_ok l st : (∀ p, p ∈ l → port_ok p st) →
  wp (ports_machines st l) (fun l => staters_ok l st).
Proof.
  induction l as [|p l IH]; intros Hl; simpl.
  { intros s Hs. by apply not_elem_of_nil in Hs. }
  apply wp_bind. eapply wp_mono; [apply port_machines_ok, Hl; left|]. intros ms Hms.
  apply wp_bind. eapply wp_mono; [apply IH; intros; apply Hl; by right|]. intros rest Hrest.
  intros s [Hs|Hs]%elem_of_app; auto.
Qed.

Lemma stpm_ports_ok b st stpm p :
  stpm_ok b st → st.(stpm_heap) !! b = Some stpm → p ∈ stpm.(STPM.ports) → port_ok p st ∧ p.1 = b.
Proof.
  intros [Ok _] H Hp. destruct (wf_on_list _ _ _ _ (proj1 Ok) H Hp) as (? & port & ?).
  split; [split; [done|by exists port]|done].
Qed.

Lemma stpm_machines_ok b st : stpm_ok b st → wp (stpm_machines st b) (fun l => staters_ok l st).
Proof.
  intros R. destruct (proj2 R) as [stpm H]. unfold stpm_machines.
  rewrite (get_stpm_Some _ _ _ H). cbn [obind]. apply wp_bind.
  eapply wp_mono; [apply ports_machines_ok; intros; by eapply stpm_ports_ok|]. intros ms Hms.
  intros s [->|Hs]%elem_of_cons; [|auto]. exists (stpm_ok b). split; [apply rolesel_stater_safe|].
  intros st' F. exact (stpm_ok_frame _ _ _ F R).
Qed.

Definition callback_ok (cb : STATER → STP_T → outcome (STP_T * Z)) : Prop :=
  ∀ s st, runs_safely s st → safe (cb s st) (fun r => frame st r.1).

Lemma run_machines_safe cb ex l st n :
  callback_ok cb → staters_ok l st → safe (run_machines cb ex l st n) (fun r => frame st r.1).
Proof.
  intros Hcb. revert st n. induction l as [|s l IH]; intros st n Hl; simpl; [reflexivity|].
  apply safe_bind. eapply safe_mono; [apply Hcb, Hl; left|]. intros [st1 iret] F1. simpl in F1.
  case_match; [done|]. eapply safe_mono; [apply IH|].
  - intros s' Hs'. eapply runs_frame; [exact F1|]. apply Hl. by right.
  - intros r F2. by etransitivity.
Qed.

Lemma iterate_safe b cb ex st :
  callback_ok cb → stpm_ok b st →
  safe (stp_stpm_iterate_machines st b cb ex) (fun r => frame st r.1).
Proof.
  intros Hcb R. apply safe_bind, safe_wp. eapply wp_mono; [by apply stpm_machines_ok|].
  intros l Hl. by apply run_machines_safe.
Qed.

Lemma check_callback_ok : callback_ok check_callback.
Proof.
  intros s st (P & SM & HP). apply safe_bind, safe_wp.
  eapply wp_mono; [apply (check_condition_safe _ P), HP; reflexivity|]. by intros [st1 r] [_ F].
Qed.

Lemma change_callback_ok fuel : callback_ok (change_callback fuel).
Proof.
  intros s st (P & SM & HP).
  eapply safe_mono; [apply (change_state_safe _ P), HP; reflexivity|]. by intros r [_ F].
Qed.

Lemma do_update_safe fuel b st :
  stpm_ok b st → safe (stp_stpm_do_update fuel st b) (fun r => frame st r.1).
Proof.
  unfold stp_stpm_do_update. generalize 0 as n. revert st.
  induction fuel as [|fuel IH]; intros st n R; simpl; [done|].
  apply safe_bind. eapply safe_mono; [by apply iterate_safe; [apply check_callback_ok|]|].
  intros [st1 need] F1. simpl in F1. case_match; [done|].
  assert (R1 := stpm_ok_frame _ _ _ F1 R).
  apply safe_bind. eapply safe_mono; [by apply iterate_safe; [apply change_callback_ok|]|].
  intros [st2 k] F2. simpl in F2.
  eapply safe_mono; [apply IH; exact (stpm_ok_frame _ _ _ F2 R1)|].
  intros r F3. etransitivity; [exact F1|]. by etransitivity.
Qed.

Lemma update_safe fuel b st :
  stpm_ok b st → safe (stp_stpm_update fuel st b) (fun r => frame st r.1).
Proof.
  intros R. unfold stp_stpm_update. case_match; [by apply do_update_safe|exact (reflexivity st)].
Qed.

Lemma update_machine_safe fuel s st P `{!SafeMachine (machine s) P} :
  P st → safe (update_machine fuel s st) (fun st' => P st' ∧ frame st st').
Proof.
  intros HP. apply safe_bind, safe_wp. eapply wp_mono; [by apply (check_condition_safe _ P)|].
  intros [st1 []] [HP1 F1]; [|done].
  apply safe_bind. eapply safe_mono; [by apply (change_state_safe _ P)|]. intros [st2 k] [HP2 F2].
  split; [done|]. by etransitivity.
Qed.

Lemma update_transmit_safe fuel b st :
  stpm_ok b st → b = STP_CIST_ID →
  safe (stp_stpm_mst_update_transmit fuel st b) (frame st).
Proof.
  intros R ->. destruct (proj2 R) as [stpm H]. unfold stp_stpm_mst_update_transmit.
  rewrite (get_stpm_Some _ _ _ H). cbn [obind]. apply safe_foldM; [|reflexivity].
  intros p st1 Hp F1. destruct (stpm_ports_ok _ _ _ _ R H Hp) as [Rp Ep].
  eapply safe_mono; [eapply update_machine_safe; [exact (transmit_safe p)|]|].
  - exact (cist_port_ok_frame _ _ _ F1 (conj Rp Ep)).
  - intros st2 [_ F2]. by etransitivity.
Qed.

Lemma receive_ready_none p st : cist_ready p st → st.(g_curBPDU) = None → receive_ready p st.
Proof. intros R E. split; [done|]. intros cur port Ec. by rewrite E in Ec. Qed.

(** The port whose receive machine is to run, or no frame. *)
Definition receive_arg_ok (port : option PORT_REF) (st : STP_T) : Prop :=
  match port with Some p => receive_ok p st | None => st.(g_curBPDU) = None end.

Lemma the_cist_ok st : engine_ok st →
  ∃ stpm, st.(g_CISTBRIDGE) = Some STP_CIST_ID ∧ st.(stpm_heap) !! STP_CIST_ID = Some stpm ∧
    stpm_ok STP_CIST_ID st.
Proof.
  intros (W & T & [c Hc]). destruct (wf_cist _ W c Hc) as [-> Hs].
  apply shape_stpm_is_Some in Hs as [stpm Hs]. exists stpm. split_and!; [done..|].
  split; [|by exists stpm]. by split_and!; [..|exists STP_CIST_ID].
Qed.

Lemma update_receive_safe fuel port st :
  engine_ok st → receive_arg_ok port st →
  safe (stp_stpm_mst_update_receive fuel st port) (frame st).
Proof.
  intros Ok Ha. unfold stp_stpm_mst_update_receive. destruct port as [p|]; simpl in Ha.
  { eapply safe_mono; [eapply update_machine_safe; [exact (receive_safe p)|done]|].
    by intros st' [_ F]. }
  destruct (the_cist_ok st Ok) as (stpm & Hc & Hs & R). rewrite Hc. cbn [deref obind].
  rewrite (get_stpm_Some _ _ _ Hs). cbn [obind]. apply safe_foldM; [|reflexivity].
  intros p st1 Hp F1. destruct (stpm_ports_ok _ _ _ _ R Hs Hp) as [Rp Ep].
  assert (R1 := cist_port_ok_frame _ _ _ F1 (conj Rp Ep)).
  eapply safe_mono; [eapply update_machine_safe; [exact (receive_safe p)|]|].
  - split; [done|]. apply receive_ready_none; [by apply cist_ok_ready|].
    by rewrite (fr_cur _ _ F1).
  - intros st2 [_ F2]. by etransitivity.
Qed.

Lemma update_instances_safe fuel st :
  engine_ok st → safe (update_instances fuel st) (fun r => frame st r.1).
Proof.
  intros Ok. unfold update_instances.
  apply (safe_foldM (fun r : STP_T * Z => frame st r.1)); [|reflexivity].
  intros b [st1 n] Hb F1. simpl in F1.
  assert (R : stpm_ok b st).
  { split; [done|]. by apply instances_exist; [apply Ok|]. }
  apply safe_bind. eapply safe_mono; [apply update_safe; exact (stpm_ok_frame _ _ _ F1 R)|].
  intros [st2 k] F2. simpl in *. by etransitivity.
Qed.

Lemma mst_update_loop_safe fuel st :
  engine_ok st → safe (mst_update_loop fuel st) (frame st).
Proof.
  revert st. induction fuel as [|fuel IH]; intros st Ok; simpl; [done|].
  apply safe_bind. eapply safe_mono; [by apply update_instances_safe|].
  intros [st1 n] F1. simpl in F1. case_match; [done|].
  eapply safe_mono; [apply IH; by eapply engine_ok_frame|]. intros st2 F2. by etransitivity.
Qed.

Lemma mst_update_safe fuel port st :
  engine_ok st → receive_arg_ok port st →
  safe (stp_stpm_mst_update fuel st port) (frame st).
Proof.
  intros Ok Ha. unfold stp_stpm_mst_update.
  apply safe_bind. eapply safe_mono; [by apply update_receive_safe|]. intros st1 F1.
  assert (Ok1 := engine_ok_frame _ _ F1 Ok).
  apply safe_bind. eapply safe_mono; [by apply mst_update_loop_safe|]. intros st2 F2.
  assert (Ok2 := engine_ok_frame _ _ F2 Ok1).
  destruct (the_cist_ok st2 Ok2) as (stpm & -> & _ & R2). cbn [deref obind].
  eapply safe_mono; [by apply update_transmit_safe|]. intros st3 F3.
  etransitivity; [exact F1|]. by etransitivity.
Qed.

(** ** The clock *)

Lemma one_second_stpm_safe b st n :
  stpm_ok b st → wp (one_second_stpm b (st, n)) (fun r => frame st r.1).
Proof.
  intros R. destruct (proj2 R) as [stpm H]. unfold one_second_stpm.
  rewrite (get_stpm_Some _ _ _ H). cbn [obind]. case_match; [exact (reflexivity st)|].
  assert (Hex : ∀ q, q ∈ stpm.(STPM.ports) → is_Some (st.(port_heap) !! q)).
  { intros q Hq. by destruct (stpm_ports_ok _ _ _ _ R H Hq) as [[_ ?] _]. }
  assert (Hu := upd_ports_map stpm.(STPM.ports) tick_port st Hex).
  assert (F1 := upd_ports_frame st st _ _ tick_port (reflexivity st) (fun _ => eq_refl) Hu).
  rewrite Hu. set (st1 := st <| port_heap := _ |>) in *. cbn [obind].
  destruct (any_port_total (fun port => negb (port.(tcWhile) =? 0)) st1 stpm.(STPM.ports)) as (tc & E).
  { intros q Hq. destruct (Hex q Hq) as [x Hx].
    destruct (same_port _ _ _ _ (fr_shape _ _ F1) Hx) as (y & ? & _). eauto. }
  unfold stp_stpm_check_topoch. rewrite E. cbn [obind].
  eapply (put_stpm_frame st st1 b stpm); [done|by apply get_stpm_Some|by destruct tc].
Qed.

Lemma one_second_safe fuel st :
  engine_ok st → st.(g_curBPDU) = None →
  safe (stp_stpm_one_second fuel st) (fun r => frame st r.1).
Proof.
  intros Ok Hn. unfold stp_stpm_one_second.
  apply safe_bind. eapply (safe_mono _ (fun r : STP_T * Z => frame st r.1)).
  { apply (safe_foldM (fun r : STP_T * Z => frame st r.1)); [|reflexivity].
    intros b [st1 n] Hb F1. simpl in F1.
    assert (R : stpm_ok b st) by (split; [done|]; by apply instances_exist; [apply Ok|]).
    apply safe_wp. eapply wp_mono; [apply one_second_stpm_safe; exact (stpm_ok_frame _ _ _ F1 R)|].
    intros r F2. by etransitivity. }
  intros [st1 n] F1. simpl in F1. case_match; [|done].
  apply safe_bind. eapply safe_mono; [apply mst_update_safe|].
  - by eapply engine_ok_frame.
  - simpl. by rewrite (fr_cur _ _ F1).
  - intros st2 F2. simpl. by etransitivity.
Qed.
