(* ===== verification/StpIn.v ===== *)
(** * The API of the daemon ([stp_in.c])

    Frame reception, the clock, the configuration of instances and ports, and
    link events.  The critical sections and the event counters [tev], [nev]
    are not modelled.  [junk] is the indeterminate value of the local variable
    [bpdu_type] of [stp_portinfo_rx_bpdu] before it is assigned. *)

From Stdlib Require Import ZArith Lia.
From stdpp Require Import base gmap list option.
From S2P Require Import Prelude StpTypes StpBpdu StpVector StpTo StpHeap StpStatmch StpPort StpRoletrns StpPortinfo StpTransmit StpFrame StpReceive StpStpm.

(** Codes of [RSTP_ERRORS] (stp_base.h). *)
Definition STP_Small_Bridge_Priority : Z := 4.
Definition STP_Large_Bridge_Priority : Z := 5.
Definition STP_Small_Hello_Time : Z := 6.
Definition STP_Large_Hello_Time : Z := 7.
Definition STP_Small_Max_Age : Z := 8.
Definition STP_Large_Max_Age : Z := 9.
Definition STP_Small_Forward_Delay : Z := 10.
Definition STP_Large_Forward_Delay : Z := 11.
Definition STP_Small_Max_Hops : Z := 12.
Definition STP_Large_Max_Hops : Z := 13.
Definition STP_Forward_Delay_And_Max_Age_Are_Inconsistent : Z := 14.
Definition STP_Hello_Time_And_Max_Age_Are_Inconsistent : Z := 15.
Definition STP_Hello_Time_And_Forward_Delay_Are_Inconsistent : Z := 16.
Definition STP_Vlan_Had_Not_Yet_Been_Created : Z := 17.
Definition STP_Port_Is_Absent_In_The_Vlan : Z := 18.
Definition STP_Big_len8023_Format : Z := 19.
Definition STP_Small_len8023_Format : Z := 20.
Definition STP_len8023_Format_Gt_Len : Z := 21.
Definition STP_Not_Proper_802_3_Packet : Z := 22.
Definition STP_Invalid_Protocol : Z := 23.
Definition STP_Had_Not_Yet_Been_Enabled_On_The_Vlan : Z := 25.
Definition STP_Nothing_To_Do : Z := 32.
Definition STP_BRIDGE_NOTFOUND : Z := 33.
Definition STP_CREATE_PORT_FAIL : Z := 34.
Definition STP_PORT_NOTFOUND : Z := 35.

Definition MIN_BPDU : Z := 7.

(** ** Reception *)

(** The return code, and the type stored through [bpdu_type], if any. *)
Definition stp_in_check_bpdu_header (port : PORT_T) (bpdu : list Z) (len : Z)
    : outcome (Z * option Z) :=
  if len <? MIN_BPDU then Done (-1, None)
  else
  let* len8023 := rd16 bpdu off_len8023 in
  if 1500 <? len8023 then Done (STP_Big_len8023_Format, None)
  else if len8023 <? MIN_BPDU then Done (STP_Small_len8023_Format, None)
  else if len <? len8023 + 14 then Done (STP_len8023_Format_Gt_Len, None)
  else
  let* dsap := rd8 bpdu off_dsap in
  let* ssap := rd8 bpdu off_ssap in
  let* llc := rd8 bpdu off_llc in
  if negb (dsap =? BPDU_L_SAP) || negb (ssap =? BPDU_L_SAP) || negb (llc =? LLC_UI) then
    Done (STP_Not_Proper_802_3_Packet, None)
  else
  let* p0 := rd8 bpdu off_protocol in
  let* p1 := rd8 bpdu (off_protocol + 1) in
  if negb (p0 =? 0) || negb (p1 =? 0) then Done (STP_Invalid_Protocol, None)
  else
  let* bpdu_type := rd8 bpdu off_bpdu_type in
  if bpdu_type =? BPDU_TOPO_CHANGE_TYPE then
    if 4 <=? len then Done (0, Some BPDU_TOPO_CHANGE_TYPE) else Done (-1, None)
  else if bpdu_type =? BPDU_CONFIG_TYPE then
    if 35 <=? len then Done (0, Some BPDU_CONFIG_TYPE) else Done (-1, None)
  else if bpdu_type =? BPDU_RSTP then
    let* version := rd8 bpdu off_version in
    if (version =? 2) && (36 <=? len) then Done (0, Some BPDU_RSTP)
    else if 3 <=? version then
      let* v3len := rd16 bpdu (v3_off port.(configDigestSnp)) in
      let* ver_1_len := rd8 bpdu off_ver_1_len in
      let MstCnt := Z.quot (v3len - 64) 16 in
      if ((35 <=? len) && (len <? 103)) || negb (ver_1_len =? 0) ||
         ((64 <? MstCnt) || (MstCnt <? 0)) then Done (0, Some BPDU_RSTP)
      else if (102 <=? len) && (ver_1_len =? 0) && ((MstCnt <=? 64) && (0 <=? MstCnt)) then
        Done (0, Some BPDU_MSTP)
      else Done (-1, None)
    else Done (-1, None)
  else Done (-1, None).

(** [stp_portinfo_send_tcn2npd] for every enabled port of the instance. *)
Definition rx_notify_tcn (st : STP_T) (port : PORT_T) : outcome STP_T :=
  let* owner := get_stpm st port.(owner) in notify_tcn_ports owner.(STPM.ports) st.

(** What the [switch] on the type does to the port: [None] is a rejection. *)
Definition rx_classify (st : STP_T) (port : PORT_T) (bpdu : list Z) (bpdu_type : Z)
    : outcome (PORT_T * bool) :=
  if bpdu_type =? BPDU_CONFIG_TYPE then
    let port := port <| rx_cfg_bpdu_cnt := u32 (port.(rx_cfg_bpdu_cnt) + 1) |> in
    if port.(admin_non_stp) then Done (port, false)
    else Done (port <| rcvdBpdu := true |>, true)
  else if bpdu_type =? BPDU_TOPO_CHANGE_TYPE then
    let port := port <| rx_tcn_bpdu_cnt := u32 (port.(rx_tcn_bpdu_cnt) + 1) |> in
    if port.(admin_non_stp) then Done (port, false)
    else Done (port <| rcvdBpdu := true |>, true)
  else if (bpdu_type =? BPDU_RSTP) || (bpdu_type =? BPDU_MSTP) then
    let port := port <| rx_rstp_bpdu_cnt := u32 (port.(rx_rstp_bpdu_cnt) + 1) |> in
    if port.(admin_non_stp) then Done (port, false)
    else
      let* owner := get_stpm st port.(owner) in
      if NORMAL_RSTP <=? owner.(STPM.ForceVersion) then Done (port <| rcvdBpdu := true |>, true)
      else Done (port, false)
  else Done (port, false).

Section Rx.
Variable junk : Z.

Definition stp_portinfo_rx_bpdu (st : STP_T) (p : PORT_REF) (bpdu : list Z) (len : Z)
    : outcome (STP_T * Z) :=
  let* port := get_port st p in
  let* '(ret, written) := stp_in_check_bpdu_header port bpdu len in
  if ret <? 0 then Done (st, -1)
  else
  let bpdu_type := default junk written in
  let* '(port, ok) := rx_classify st port bpdu bpdu_type in
  if negb ok then Done (put_port st p port, -1)
  else
  let* version := rd8 bpdu off_version in
  let* type := rd8 bpdu off_bpdu_type in
  let* f := rd8 bpdu off_flags in
  let st := put_port st p
    (port <| msgBpduVersion := version |> <| msgBpduType := type |> <| msgFlags := f |>) in
  let* st :=
    if (BPDU_TOPO_CHANGE_TYPE =? bpdu_type) || negb (Z.land f TOLPLOGY_CHANGE_BIT =? 0) ||
       negb (Z.land f TOLPLOGY_CHANGE_ACK_BIT =? 0) then rx_notify_tcn st port
    else Done st in
  Done (stp_in_set_cur_bpdu (Some (mkBpduRecord bpdu bpdu_type port.(configDigestSnp))) st, 0).

Definition stp_port_rx_bpdu := stp_portinfo_rx_bpdu.

(** [stp_in_port_find] and [stp_in_slot_port_find]: the first port of the list
    that satisfies [f]. *)
Fixpoint find_port (f : PORT_T → bool) (st : STP_T) (l : list PORT_REF) : outcome (option PORT_REF) :=
  match l with
  | [] => Done None
  | q :: l' =>
      let* port := get_port st q in
      if f port then Done (Some q) else find_port f st l'
  end.

Definition stp_in_port_find (st : STP_T) (this : STPM_T) (idx : Z) : outcome (option PORT_REF) :=
  find_port (fun port => idx =? port.(port_index)) st this.(STPM.ports).

Definition stp_in_slot_port_find (st : STP_T) (this : STPM_T) (slot portno : Z)
    : outcome (option PORT_REF) :=
  find_port (fun port => (slot =? port.(slot_no)) && (portno =? port.(port_no))) st
    this.(STPM.ports).

Definition stp_in_rx_bpdu (fuel : nat) (st : STP_T) (port_index slot_no port_no : Z)
    (bpdu : list Z) (len : Z) : outcome (STP_T * Z) :=
  match st.(g_CISTBRIDGE) with
  | None => Done (st, STP_Vlan_Had_Not_Yet_Been_Created)
  | Some c =>
      let* this := get_stpm st c in
      if this.(STPM.admin_state) =e STP_DISABLED then
        Done (st, STP_Had_Not_Yet_Been_Enabled_On_The_Vlan)
      else
      let* found :=
        if negb (port_index =? 0) then stp_in_port_find st this port_index
        else stp_in_slot_port_find st this slot_no port_no in
      match found with
      | None => Done (st, STP_Port_Is_Absent_In_The_Vlan)
      | Some p =>
          let* port := get_port st p in
          if 0 <? port.(skip_rx) then
            Done (put_port st p (port <| skip_rx := port.(skip_rx) - 1 |>), STP_Nothing_To_Do)
          else
          let port :=
            if port.(operEdge) && (port.(lnkWhile) =? 0) && port.(portEnabled)
            then port <| tc := true |> else port in
          let st := put_port st p port in
          let* st :=
            if port.(operEdge) then
              upd_ports (p :: port.(nextMst)) (fun q => q <| operEdge := false |>) st
            else Done st in
          let* st := upd_port p (fun q => q <| wasInitBpdu := true |>) st in
          let* '(st, iret) := stp_port_rx_bpdu st p bpdu len in
          let* st := if iret =? 0 then stp_stpm_mst_update fuel st (Some p) else Done st in
          Done (stp_in_set_cur_bpdu None st, iret)
      end
  end.
End Rx.

(** Returns the number of enabled instances plus one. *)
Definition stp_in_one_second (fuel : nat) (st : STP_T) : outcome (STP_T * Z) :=
  let* '(st, dbg_cnt) := stp_stpm_one_second fuel st in Done (st, dbg_cnt + 1).

(** ** Configuration of an instance *)

Record UID_STP_CFG_T : Type := mkStpCfg {
  field_mask : Z;
  stp_enabled : UID_STP_MODE_T;
  bridge_priority : Z;
  cfg_max_age : Z;
  cfg_hello_time : Z;
  cfg_forward_delay : Z;
  force_version : Z;
  hold_time : Z;
  maxhops : Z }.

Definition BR_CFG_STATE : Z := 0x1.
Definition BR_CFG_PRIO : Z := 0x2.
Definition BR_CFG_AGE : Z := 0x4.
Definition BR_CFG_HELLO : Z := 0x8.
Definition BR_CFG_DELAY : Z := 0x10.
Definition BR_CFG_FORCE_VER : Z := 0x20.
Definition BR_CFG_MAX_HOPS : Z := 0x200.

Definition in_mask (bit mask : Z) : bool := negb (Z.land bit mask =? 0).

Definition MIN_BR_PRIO : Z := 0.
Definition MAX_BR_PRIO : Z := 61440.
Definition MIN_BR_HELLOT : Z := 1.
Definition MAX_BR_HELLOT : Z := 10.
Definition MIN_BR_MAXAGE : Z := 6.
Definition MAX_BR_MAXAGE : Z := 40.
Definition MIN_BR_FWDELAY : Z := 4.
Definition MAX_BR_FWDELAY : Z := 30.
Definition MIN_REMAINING_HOPS : Z := 6.
Definition MAX_REMAINING_HOPS : Z := 40.
Definition DEF_FORCE_VERS : Z := 2.

Definition stp_in_check_stpm_config (c : UID_STP_CFG_T) (mstid : Z) : Z :=
  if c.(bridge_priority) <? MIN_BR_PRIO then STP_Small_Bridge_Priority
  else if MAX_BR_PRIO <? c.(bridge_priority) then STP_Large_Bridge_Priority
  else if c.(maxhops) <? MIN_REMAINING_HOPS then STP_Small_Max_Hops
  else if MAX_REMAINING_HOPS <? c.(maxhops) then STP_Large_Max_Hops
  else if negb (STP_CIST_ID =? mstid) then STP_OK
  else if c.(cfg_hello_time) <? MIN_BR_HELLOT then STP_Small_Hello_Time
  else if MAX_BR_HELLOT <? c.(cfg_hello_time) then STP_Large_Hello_Time
  else if c.(cfg_max_age) <? MIN_BR_MAXAGE then STP_Small_Max_Age
  else if MAX_BR_MAXAGE <? c.(cfg_max_age) then STP_Large_Max_Age
  else if c.(cfg_forward_delay) <? MIN_BR_FWDELAY then STP_Small_Forward_Delay
  else if MAX_BR_FWDELAY <? c.(cfg_forward_delay) then STP_Large_Forward_Delay
  else if 2 * (c.(cfg_forward_delay) - 1) <? c.(cfg_max_age) then
    STP_Forward_Delay_And_Max_Age_Are_Inconsistent
  else if c.(cfg_max_age) <? 2 * (c.(cfg_hello_time) + 1) then
    STP_Hello_Time_And_Max_Age_Are_Inconsistent
  else if 2 * (c.(cfg_forward_delay) - 1) <? 2 * (c.(cfg_hello_time) + 1) then
    STP_Hello_Time_And_Forward_Delay_Are_Inconsistent
  else STP_OK.

Definition mask_if (c : bool) (bit m : Z) : Z := if c then Z.lor m bit else m.

Definition stp_in_stpm_get_cfg (this : STPM_T) : UID_STP_CFG_T :=
  let t := this.(STPM.BrTimes) in
  let m := 0 in
  let m := mask_if (this.(STPM.admin_state) <>e STP_DISABLED) BR_CFG_STATE m in
  let m := mask_if (negb (this.(STPM.BrId).(prio) =? DEF_BR_PRIO)) BR_CFG_PRIO m in
  let m := mask_if (negb (t.(RemainingHops) =? DEF_REMAINING_HOPS)) BR_CFG_MAX_HOPS m in
  let m := mask_if (negb (this.(STPM.ForceVersion) =? 2)) BR_CFG_FORCE_VER m in
  let m := mask_if (negb (t.(MaxAge) =? DEF_BR_MAXAGE)) BR_CFG_AGE m in
  let m := mask_if (negb (t.(HelloTime) =? DEF_BR_HELLOT)) BR_CFG_HELLO m in
  let m := mask_if (negb (t.(ForwardDelay) =? DEF_BR_FWDELAY)) BR_CFG_DELAY m in
  {| field_mask := m; stp_enabled := this.(STPM.admin_state);
     bridge_priority := this.(STPM.BrId).(prio);
     cfg_max_age := t.(MaxAge); cfg_hello_time := t.(HelloTime);
     cfg_forward_delay := t.(ForwardDelay); force_version := this.(STPM.ForceVersion);
     hold_time := TxHoldCount; maxhops := t.(RemainingHops) |}.

(** The configuration in force, overridden by the fields of the mask. *)
Definition merge_cfg (old uid : UID_STP_CFG_T) : UID_STP_CFG_T :=
  let pick {A} bit (f : UID_STP_CFG_T → A) :=
    if in_mask bit uid.(field_mask) then f uid else f old in
  {| field_mask := old.(field_mask); stp_enabled := old.(stp_enabled);
     bridge_priority := pick BR_CFG_PRIO (fun c => c.(bridge_priority));
     cfg_max_age := pick BR_CFG_AGE (fun c => c.(cfg_max_age));
     cfg_hello_time := pick BR_CFG_HELLO (fun c => c.(cfg_hello_time));
     cfg_forward_delay := pick BR_CFG_DELAY (fun c => c.(cfg_forward_delay));
     force_version := pick BR_CFG_FORCE_VER (fun c => c.(force_version));
     hold_time := old.(hold_time);
     maxhops := pick BR_CFG_MAX_HOPS (fun c => c.(maxhops)) |}.

(** The assignments of the checked configuration. *)
Definition store_cfg (c : UID_STP_CFG_T) (this : STPM_T) : STPM_T :=
  this <| STPM.BrId := this.(STPM.BrId)
            <| prio := u16 (Z.land this.(STPM.BrId).(prio) 0xfff +
                            Z.land c.(bridge_priority) 0xf000) |> |>
       <| STPM.BrTimes := mkTimes this.(STPM.BrTimes).(MessageAge) (u16 c.(cfg_max_age))
            (u16 c.(cfg_forward_delay)) (u16 c.(cfg_hello_time)) (u8 c.(maxhops)) |>
       <| STPM.ForceVersion := c.(force_version) |>.

(** [field_mask &= ! BR_CFG_STATE] clears the whole mask, so that a request to
    disable returns at once. *)
Definition stp_in_stpm_set_cfg (fuel : nat) (st : STP_T) (b : Z) (uid : UID_STP_CFG_T)
    : outcome (STP_T * Z) :=
  let* this := get_stpm st b in
  let old := merge_cfg (stp_in_stpm_get_cfg this) uid in
  let* st :=
    if in_mask BR_CFG_FORCE_VER uid.(field_mask) && (DEF_FORCE_VERS <=? uid.(force_version)) then
      upd_ports this.(STPM.ports) (fun port => port <| mcheck := true |>) st
    else Done st in
  let rc := stp_in_check_stpm_config old this.(STPM.vlan_id) in
  if negb (rc =? 0) then Done (st, rc)
  else if in_mask BR_CFG_STATE uid.(field_mask) && (uid.(stp_enabled) =e STP_DISABLED) then
    stp_stpm_enable fuel st b STP_DISABLED
  else
  let st := put_stpm st b (store_cfg old this) in
  let* '(st, rc) :=
    if in_mask BR_CFG_STATE uid.(field_mask) && (uid.(stp_enabled) <>e STP_DISABLED) &&
       (this.(STPM.admin_state) =e STP_DISABLED) then stp_stpm_enable fuel st b uid.(stp_enabled)
    else Done (st, 0) in
  if negb (rc =? 0) then Done (st, rc)
  else
  let* this := get_stpm st b in
  if this.(STPM.admin_state) <>e STP_DISABLED then
    let* st := stp_stpm_update_after_bridge_management st b in
    let* st := stp_stpm_mst_update fuel st None in
    Done (st, 0)
  else Done (st, 0).

(** ** Configuration of a port *)

Record UID_STP_PORT_CFG_T : Type := mkPortCfg {
  port_mask : Z;
  port_priority : Z;
  admin_port_path_cost : Z;
  admin_point2point : ADMIN_P2P_T;
  admin_edge : bool;
  cfg_non_stp : bool;
  cfg_skip_rx : Z;
  cfg_skip_tx : Z }.

Definition PT_CFG_COST : Z := 0x2.
Definition PT_CFG_PRIO : Z := 0x4.
Definition PT_CFG_P2P : Z := 0x8.
Definition PT_CFG_EDGE : Z := 0x10.
Definition PT_CFG_MCHECK : Z := 0x20.
Definition PT_CFG_NON_STP : Z := 0x40.
Definition PT_CFG_DBG_SKIP_RX : Z := 0x10000.
Definition PT_CFG_DBG_SKIP_TX : Z := 0x20000.

Definition apply_port_cfg (ForceVersion : Z) (uid : UID_STP_PORT_CFG_T) (port : PORT_T) : PORT_T :=
  let on bit := in_mask bit uid.(port_mask) in
  let port := if on PT_CFG_MCHECK && (NORMAL_RSTP <=? ForceVersion)
              then port <| mcheck := true |> else port in
  let port := if on PT_CFG_COST then port <| adminPCost := uid.(admin_port_path_cost) |> else port in
  let port := if on PT_CFG_PRIO then
      port <| port_id :=
        u16 (Z.shiftl (Z.land uid.(port_priority) 0xf0) 8 + port.(port_index)) |>
    else port in
  let port := if on PT_CFG_P2P then
      port <| adminPointToPointMac := uid.(admin_point2point) |> <| p2p_recompute := true |>
    else port in
  let port := if on PT_CFG_EDGE then
      port <| adminEdge := uid.(admin_edge) |> <| operEdge := uid.(admin_edge) |>
    else port in
  let port := if on PT_CFG_NON_STP then port <| admin_non_stp := uid.(cfg_non_stp) |> else port in
  let port := if on PT_CFG_DBG_SKIP_RX then port <| skip_rx := uid.(cfg_skip_rx) |> else port in
  let port := if on PT_CFG_DBG_SKIP_TX then port <| skip_tx := uid.(cfg_skip_tx) |> else port in
  port <| reselect := true |> <| selected := false |>.

Definition stp_in_set_port_cfg (fuel : nat) (st : STP_T) (p : PORT_REF) (uid : UID_STP_PORT_CFG_T)
    : outcome (STP_T * Z) :=
  let* port := get_port st p in
  let* this := get_stpm st port.(owner) in
  let st := put_port st p (apply_port_cfg this.(STPM.ForceVersion) uid port) in
  let* found := stp_port_mst_findport st STP_CIST_ID port.(port_index) in
  let* st := stp_stpm_mst_update fuel st found in
  Done (st, 0).

(** ** Link events *)

(** The loop over the enabled instances that have the port. *)
Definition each_enabled_port (f : PORT_T → PORT_T) (idx : Z) (st : STP_T) : outcome STP_T :=
  foldM (fun b st =>
    let* stpm := get_stpm st b in
    if stpm.(STPM.admin_state) <>e STP_ENABLED then Done st
    else
      let* found := stp_in_port_find st stpm idx in
      match found with
      | None => Done st
      | Some q => upd_port q f st
      end) st.(bridges) st.

Definition stp_in_change_port_speed (st : STP_T) (idx speed : Z) : outcome STP_T :=
  each_enabled_port (fun port =>
    port <| operSpeed := speed |> <| reselect := true |> <| selected := false |>) idx st.

Definition stp_in_change_port_duplex (st : STP_T) (idx : Z) : outcome STP_T :=
  each_enabled_port (fun port =>
    port <| p2p_recompute := true |> <| reselect := true |> <| selected := false |>) idx st.

Section Wan.
(** The bridge index sysfs gives for [eth<slot>-<port>], and the interface
    index, if it is in a bridge. *)
Variable wan_br : Z → Z → option (Z * Z).

(** One port of the chain; [None] is the early return when the interface is in
    no bridge. *)
Definition enable_one_port (enable link_state wan : bool) (slot portno : Z) (q : PORT_REF)
    (st : STP_T) : outcome (STP_T * bool) :=
  let* port := get_port st q in
  let port := port <| uptime := 0 |> in
  let port := if enable then
      port <| rx_tcn_bpdu_cnt := 0 |> <| rx_rstp_bpdu_cnt := 0 |> <| rx_cfg_bpdu_cnt := 0 |>
    else port in
  let port := port <| adminEnable := if enable then negb link_state else enable |>
    <| isWAN := wan |> <| slot_no := slot |> <| port_no := portno |> in
  let finish (st : STP_T) (port : PORT_T) :=
    let* st := stp_port_init (put_port st q port) q port.(owner) false in
    let* st := upd_port q (fun port => port <| reselect := true |> <| selected := false |>) st in
    Done (st, true) in
  if wan then
    match wan_br slot portno with
    | Some (br, ifi) =>
        let st := access IF_NAME 21 (Z.of_nat (length (wan_ifname slot portno None)) + 1) st in
        finish (emit (WAN_STATE br ifi NAM_STP_PORT_STATE_DISCARD_E) st)
          (port <| port_ifindex := ifi |> <| br_ifindex := br |>)
    | None => Done (put_port st q port, false)
    end
  else finish st port.

Fixpoint enable_chain (enable link_state wan : bool) (slot portno : Z) (l : list PORT_REF)
    (st : STP_T) : outcome (STP_T * bool) :=
  match l with
  | [] => Done (st, true)
  | q :: l' =>
      let* '(st, go) := enable_one_port enable link_state wan slot portno q st in
      if go : bool then enable_chain enable link_state wan slot portno l' st else Done (st, false)
  end.

(** [stp_ports[port_index]]: the table has [PORT_INDEX_MAX] pointers and is
    allocated and freed together with the table of speeds; what it points to
    only records requests, for the configuration to be saved, and is not
    modelled. *)
Definition stp_ports_entry (idx : Z) (st : STP_T) : STP_T :=
  if (0 <=? idx) && (idx <? PORT_INDEX_MAX) then st
  else emit (OVERRUN STP_PORTS PORT_INDEX_MAX (idx + 1)) st.

(** [link_state] is true when the link is down.  The entry of [stp_ports] is
    read although the table may be NULL. *)
Definition enable_port_on_stpm (fuel : nat) (st : STP_T) (idx : Z)
    (link_state wan enable : bool) (slot portno : Z) : outcome (STP_T * Z) :=
  let* _ := deref st.(port_speed_s) in
  let st := stp_ports_entry idx st in
  let* found := stp_port_mst_findport st STP_CIST_ID idx in
  match found with
  | None => Done (st, 1)
  | Some c =>
      let* cist_port := get_port st c in
      let* '(st, go) :=
        enable_chain enable link_state wan slot portno (c :: cist_port.(nextMst)) st in
      if negb go then Done (st, 0)
      else
        let* st := stp_stpm_mst_update fuel st (Some c) in
        Done (if enable then st else st <| sttrans_count := 0 |>, 0)
  end.

(** Records the speed of an enabled port, then enables or disables it.  The
    table has [PORT_INDEX_MAX] entries. *)
Definition stp_in_enable_port_on_stpm (fuel : nat) (st : STP_T) (idx : Z) (enable link_state : bool)
    (port_speed : Z) (wan : bool) (slot portno : Z) : outcome (STP_T * Z) :=
  let* st :=
    if enable then
      match st.(port_speed_s) with
      | None => Done st
      | Some t =>
          if (0 <=? idx) && (idx <? PORT_INDEX_MAX)
          then Done (st <| port_speed_s := Some (<[idx := (idx, port_speed)]> t) |>)
          else Segv
      end
    else Done st in
  enable_port_on_stpm fuel st idx link_state wan enable slot portno.
End Wan.

(** ** Ports of an instance ([stp_port.c]) *)

Definition set_vlan_bit (VID : Z) (m : list Z) : list Z :=
  alter (fun x => Z.lor x (Z.shiftl 1 (VID mod 8))) (Z.to_nat (VID / 8)) m.
Definition clear_vlan_bit (VID : Z) (m : list Z) : list Z :=
  alter (fun x => Z.land x (Z.lnot (Z.shiftl 1 (VID mod 8)))) (Z.to_nat (VID / 8)) m.

(** A store to [bmp[VID / 8]], which has 512 bytes. *)
Definition vlan_store {A} (VID : Z) (a : A) : outcome A :=
  if VID / 8 <? 512 then Done a else Segv.

(** The end of [stp_port_mst_addport]: the VLAN joins the port's map. *)
Definition add_port_vlan (VID : Z) (isWan : bool) (port : PORT_T) : PORT_T :=
  port <| vlan_map := mkVlanMap (set_vlan_bit VID port.(vlan_map).(bmp))
            (if isWan then 1 else u32 (port.(vlan_map).(ulcount) + 1)) |>.

Section AddPort.
Variable wan_if : Z → Z → Z → option (Z * Z).

(** Puts the new port at its place: the array of CIST ports, or the chain of
    its physical port, whose head must exist. *)
Definition link_port (st : STP_T) (MSTID index : Z) (p : PORT_REF) : outcome STP_T :=
  if STP_CIST_ID =? MSTID then Done (st <| g_CISTPORT := <[index := p]> st.(g_CISTPORT) |>)
  else
    let* c := deref (st.(g_CISTPORT) !! index) in
    upd_port c (fun head => head <| nextMst := p :: head.(nextMst) |>) st.

(** [stp_stpm_enable] on an instance that is enabled already does nothing. *)
Definition create_mst_port (fuel : nat) (st : STP_T) (MSTID idx index VID : Z) (isWan : bool)
    : outcome (STP_T * (PORT_REF + Z)) :=
  let* found := stp_stpm_get_instance st MSTID in
  match found with
  | None => Done (st, inr STP_BRIDGE_NOTFOUND)
  | Some b =>
      let* '(st, created) := stp_port_mst_port_create wan_if st b MSTID idx isWan VID in
      match created with
      | None => Done (st, inr STP_CREATE_PORT_FAIL)
      | Some p =>
          let* st := stp_port_init st p b true in
          let* st := link_port st MSTID index p in
          let* stpm := get_stpm st b in
          let* port := get_port st p in
          let* st :=
            if (stpm.(STPM.admin_state) =e STP_ENABLED) && port.(portEnabled) &&
               negb port.(admin_non_stp) then
              let* '(st, _) := stp_stpm_enable fuel st b STP_ENABLED in Done st
            else Done st in
          Done (st, inl p)
      end
  end.

Definition stp_port_mst_addport (fuel : nat) (st : STP_T) (MSTID idx VID : Z) (isWan : bool)
    : outcome (STP_T * Z) :=
  let index := stp_port_global_index_parse st idx in
  if (STP_MSTI_MAX <? MSTID) || bad_index index then Done (st, STP_ERROR)
  else
    let* found := stp_port_mst_findport st MSTID idx in
    let* '(st, r) :=
      match found with
      | Some p => Done (st, inl p)
      | None => create_mst_port fuel st MSTID idx index VID isWan
      end in
    match r with
    | inl p =>
        let* port := get_port st p in
        let* port := vlan_store VID (add_port_vlan VID isWan port) in
        Done (put_port st p port, STP_OK)
    | inr err => Done (st, err)
    end.
End AddPort.

(** The chain without its first port of this instance. *)
Fixpoint unlink_chain (st : STP_T) (MSTID : Z) (l : list PORT_REF) : outcome (list PORT_REF) :=
  match l with
  | [] => Done []
  | q :: l' =>
      let* port := get_port st q in
      let* stpm := get_stpm st port.(owner) in
      if stpm.(STPM.vlan_id) =? MSTID then Done l'
      else let* rest := unlink_chain st MSTID l' in Done (q :: rest)
  end.

(** [uninit] is the indeterminate value of [iRet] when the port stays.  On an
    enabled instance [port->portEnabled] is read after the port was freed, and
    perhaps [port->admin_non_stp]; they guard a call of [stp_stpm_enable] that
    does nothing, whatever they yield. *)
Definition stp_port_mst_delport (uninit : Z) (st : STP_T) (MSTID idx VID : Z) : outcome (STP_T * Z) :=
  let index := stp_port_global_index_parse st idx in
  if (STP_MSTI_MAX <? MSTID) || bad_index index then Done (st, STP_ERROR)
  else if MSTID =? STP_CIST_ID then Done (st, STP_OK)
  else
    let* found := stp_port_mst_findport st MSTID idx in
    match found with
    | None => Done (st, STP_PORT_NOTFOUND)
    | Some p =>
        let* port := get_port st p in
        let count := u32 (port.(vlan_map).(ulcount) - 1) in
        let* port := vlan_store VID
          (port <| vlan_map := mkVlanMap (clear_vlan_bit VID port.(vlan_map).(bmp)) count |>) in
        let st := put_port st p port in
        if negb (count =? 0) then Done (st, uninit)
        else
          let* c := deref (st.(g_CISTPORT) !! index) in
          let* head := get_port st c in
          let* rest := unlink_chain st MSTID head.(nextMst) in
          let st := put_port st c (head <| nextMst := rest |>) in
          let* st := stp_port_delete st p in
          let* stpm := get_stpm st port.(owner) in
          Done (if stpm.(STPM.admin_state) =e STP_ENABLED then access FREED 0 1 st else st, STP_OK)
    end.

(** ** Facts *)

(** The bit of a VLAN. *)
Definition vlan_bit (m : list Z) (VID : Z) : bool :=
  Z.testbit (default 0 (m !! Z.to_nat (VID / 8))) (VID mod 8).

(** Two VLANs share a byte and a bit only when they are equal. *)
Lemma vlan_place v w : 0 ≤ v → 0 ≤ w → Z.to_nat (v / 8) = Z.to_nat (w / 8) → v mod 8 = w mod 8 → v = w.
Proof.
  intros Hv Hw E1 E2. pose proof (Z.div_pos v 8). pose proof (Z.div_pos w 8).
  apply Z2Nat.inj in E1; [|lia..]. pose proof (Z.div_mod v 8). pose proof (Z.div_mod w 8). lia.
Qed.

Lemma vlan_bit_alter (f : Z → Z → Z) (g : bool → bool → bool) m v w :
  (∀ x k n, 0 ≤ k → 0 ≤ n → Z.testbit (f x k) n = g (Z.testbit x n) (k =? n)) →
  (∀ b, g b false = b) → 0 ≤ v → 0 ≤ w → (Z.to_nat (v / 8) < length m)%nat →
  vlan_bit (alter (fun x => f x (v mod 8)) (Z.to_nat (v / 8)) m) w = g (vlan_bit m w) (v =? w).
Proof.
  intros Hf Hg Hv Hw Hl. unfold vlan_bit.
  pose proof (Z.mod_pos_bound v 8). pose proof (Z.mod_pos_bound w 8).
  destruct (decide (Z.to_nat (v / 8) = Z.to_nat (w / 8))) as [E|E].
  - rewrite <- E, list_lookup_alter_eq. destruct (lookup_lt_is_Some_2 m _ Hl) as [x Hx].
    rewrite Hx. simpl. rewrite Hf by lia. f_equal.
    destruct (Z.eqb_spec v w) as [->|Hne]; [by rewrite Z.eqb_refl|].
    apply Z.eqb_neq. intros E2. apply Hne. by apply vlan_place.
  - rewrite list_lookup_alter_ne by done. destruct (Z.eqb_spec v w) as [->|]; [done|by rewrite Hg].
Qed.

Lemma vlan_bit_set m v w :
  0 ≤ v → 0 ≤ w → (Z.to_nat (v / 8) < length m)%nat →
  vlan_bit (set_vlan_bit v m) w = vlan_bit m w || (v =? w).
Proof.
  apply (vlan_bit_alter (fun x k => Z.lor x (Z.shiftl 1 k)) orb).
  - intros x k n Hk Hn. by rewrite Z.lor_spec, Z.shiftl_1_l, Z.pow2_bits_eqb.
  - apply orb_false_r.
Qed.

Lemma vlan_bit_clear m v w :
  0 ≤ v → 0 ≤ w → (Z.to_nat (v / 8) < length m)%nat →
  vlan_bit (clear_vlan_bit v m) w = vlan_bit m w && negb (v =? w).
Proof.
  apply (vlan_bit_alter (fun x k => Z.land x (Z.lnot (Z.shiftl 1 k))) (fun b c => b && negb c)).
  - intros x k n Hk Hn. by rewrite Z.land_spec, Z.lnot_spec, Z.shiftl_1_l, Z.pow2_bits_eqb.
  - intros b. apply andb_true_r.
Qed.

Lemma find_port_total f st l :
  (∀ q, q ∈ l → is_Some (st.(port_heap) !! q)) →
  wp (find_port f st l) (fun r => ∀ q, r = Some q → q ∈ l ∧
    ∃ port, st.(port_heap) !! q = Some port ∧ f port = true).
Proof.
  induction l as [|q l IH]; intros Hl; simpl; [done|].
  destruct (Hl q ltac:(left)) as [port H]. rewrite (get_port_Some _ _ _ H). cbn [obind].
  destruct (f port) eqn:E.
  - intros r [= <-]. split; [left|]. by exists port.
  - eapply wp_mono; [apply IH; intros; apply Hl; by right|].
    intros r Hr q' ->. destruct (Hr q' eq_refl) as [? ?]. split; [by right|done].
Qed.
