(* ===== verification/StpMgmt.v ===== *)
(** * Events of the switch driver, VLANs and instances ([stp_npd_cmd.c],
      [stp_param.c], [stp_mgmt.c], [stp_in.c])

    First the handlers of link events and of the switch's address, and the functions
    through which the management interface changes one parameter of an instance
    or of a port.  [uninit] is the indeterminate result of a function that
    reaches its end, or a [return] without a value.  The table [stp_ports],
    which only records what was asked, is not modelled.  Then the tables of VLANs
    and the digest of the configuration. *)

From Stdlib Require Import ZArith Lia.
From stdpp Require Import base gmap list option.
From S2P Require Import Prelude StpTypes StpMd5 StpTo StpHeap StpStatmch StpMachines StpPort StpRoletrns StpTransmit StpStpm StpIn.

(** ** Link events *)

(** A store through [port_duplex_mode_nodes[port_index]]: the new node is
    entered, and the ports are told when the mode differs from that of the node
    (a new node has the mode 0). *)
Definition stp_param_set_port_duplex_mode (st : STP_T) (idx mode : Z) : outcome (STP_T * Z) :=
  match st.(port_duplex_mode_nodes) with
  | None => Done (st, STP_OK)
  | Some t =>
      if (0 <=? idx) && (idx <? PORT_INDEX_MAX) then
        let old := default 0 (t !! idx) in
        let st := st <| port_duplex_mode_nodes := Some (<[idx := mode]> t) |> in
        let* st := if negb (old =? mode) then stp_in_change_port_duplex st idx else Done st in
        Done (st, STP_OK)
      else Segv
  end.

Definition LINK_PORT_UP_E : Z := 0.
Definition LINK_PORT_DOWN_E : Z := 1.

Section Link.
Variable wan_br : Z → Z → option (Z * Z).

(** The link bit is stored whether the protocol runs or not. *)
Definition stp_npd_cmd_set_param_by_link_state (fuel : nat) (st : STP_T)
    (portIdx portState speed duplex_mode : Z) (isWAN : bool) (slot_no port_no : Z)
    : outcome (STP_T * Z) :=
  let* links :=
    if portState =? LINK_PORT_UP_E then stp_bitmap_set_bit st st.(enabled_ports) portIdx
    else stp_bitmap_clear_bit st st.(enabled_ports) portIdx in
  let st := st <| enabled_ports := links |> in
  if negb st.(g_flag) then Done (st, 0xff)
  else
    let* '(st, _) := stp_in_enable_port_on_stpm wan_br fuel st portIdx true
        (negb (portState =? LINK_PORT_UP_E)) speed isWAN slot_no port_no in
    let* '(st, _) := stp_param_set_port_duplex_mode st portIdx duplex_mode in
    Done (st, 0).
End Link.

(** [STP_GET_SYS_MAC_E]: the six bytes are copied. *)
Definition stp_npd_sys_mac (st : STP_T) (MacDa : list Z) : STP_T :=
  st <| sysMac := take 6 MacDa |>.

(** ** One parameter of an instance *)

Definition BR_CFG_AGE_MODE : Z := 0x40.
Definition BR_CFG_AGE_TIME : Z := 0x80.

(** The [switch] on the mask; [None] is its default. *)
Definition bridge_cfg (value val_mask : Z) : option UID_STP_CFG_T :=
  if val_mask =? BR_CFG_STATE then
    Some (mkStpCfg val_mask (if value =? 0 then STP_DISABLED else STP_ENABLED) 0 0 0 0 0 0 0)
  else if val_mask =? BR_CFG_PRIO then Some (mkStpCfg val_mask STP_DISABLED (i32 value) 0 0 0 0 0 0)
  else if val_mask =? BR_CFG_AGE then Some (mkStpCfg val_mask STP_DISABLED 0 (i32 value) 0 0 0 0 0)
  else if val_mask =? BR_CFG_HELLO then Some (mkStpCfg val_mask STP_DISABLED 0 0 (i32 value) 0 0 0 0)
  else if val_mask =? BR_CFG_DELAY then Some (mkStpCfg val_mask STP_DISABLED 0 0 0 (i32 value) 0 0 0)
  else if val_mask =? BR_CFG_FORCE_VER then Some (mkStpCfg val_mask STP_DISABLED 0 0 0 0 (i32 value) 0 0)
  else if val_mask =? BR_CFG_MAX_HOPS then Some (mkStpCfg val_mask STP_DISABLED 0 0 0 0 0 0 (i32 value))
  else None.

Section Param.
Variable uninit : Z.
(** Whether the table [stp_ports] has an entry for the port. *)
Variable recorded : bool.

(** The loop over the instances, which stops at the first that refuses. *)
Fixpoint set_cfg_instances (fuel : nat) (st : STP_T) (l : list Z) (uid : UID_STP_CFG_T)
    : outcome (STP_T * Z) :=
  match l with
  | [] => Done (st, uninit)
  | b :: l' =>
      let* '(st, rc) := stp_in_stpm_set_cfg fuel st b uid in
      if negb (rc =? 0) then Done (st, rc) else set_cfg_instances fuel st l' uid
  end.

Definition stp_param_set_bridge_cfg_value (fuel : nat) (st : STP_T) (mstid value val_mask : Z)
    : outcome (STP_T * Z) :=
  match bridge_cfg value val_mask with
  | None => Done (st, uninit)
  | Some uid =>
      if val_mask =? BR_CFG_MAX_HOPS then set_cfg_instances fuel st st.(bridges) uid
      else
        let* found := stp_stpm_get_instance st mstid in
        match found with
        | None => Done (st, STP_Vlan_Had_Not_Yet_Been_Created)
        | Some b =>
            let* '(st, rc) := stp_in_stpm_set_cfg fuel st b uid in
            if negb (rc =? 0) then Done (st, rc) else Done (st, uninit)
        end
  end.

(** ** One parameter of a port *)

(** [ADMIN_P2P_T] from the number of the request, which is 0, 1 or 2. *)
Definition p2p_of (value : Z) : ADMIN_P2P_T :=
  if value =? 0 then P2P_FORCE_FALSE_E else if value =? 1 then P2P_FORCE_TRUE_E else P2P_AUTO_E.

(** The fields the mask does not name are indeterminate; they are not read. *)
Definition port_cfg (value val_mask : Z) : option UID_STP_PORT_CFG_T :=
  let c cost prio p2 edge nonstp rx tx := Some (mkPortCfg val_mask prio cost p2 edge nonstp rx tx) in
  if val_mask =? PT_CFG_MCHECK then c 0 0 P2P_AUTO_E false false 0 0
  else if val_mask =? PT_CFG_COST then c value 0 P2P_AUTO_E false false 0 0
  else if val_mask =? PT_CFG_PRIO then c 0 (i32 value) P2P_AUTO_E false false 0 0
  else if val_mask =? PT_CFG_P2P then c 0 0 (p2p_of value) false false 0 0
  else if val_mask =? PT_CFG_EDGE then c 0 0 P2P_AUTO_E (negb (u8 value =? 0)) false 0 0
  else if val_mask =? PT_CFG_NON_STP then c 0 0 P2P_AUTO_E false (negb (u8 value =? 0)) 0 0
  else if val_mask =? PT_CFG_DBG_SKIP_TX then c 0 0 P2P_AUTO_E false false 0 value
  else if val_mask =? PT_CFG_DBG_SKIP_RX then c 0 0 P2P_AUTO_E false false value 0
  else None.

(** The ports after [p] in the chain of its physical port. *)
Fixpoint chain_after (p : PORT_REF) (l : list PORT_REF) : list PORT_REF :=
  match l with
  | [] => []
  | q :: l' => if bool_decide (q = p) then l' else chain_after p l'
  end.

(** [port->nextMst] and what follows it. *)
Definition rest_of_chain (st : STP_T) (p : PORT_REF) : outcome (list PORT_REF) :=
  if p.1 =? STP_CIST_ID then
    let* port := get_port st p in Done port.(nextMst)
  else
    let* c := deref (st.(g_CISTPORT) !! stp_port_global_index_parse st p.2) in
    let* head := get_port st c in
    Done (chain_after p head.(nextMst)).

(** The chain is read again at each step, but configuring a port does not
    change it. *)
Fixpoint set_port_cfg_chain (fuel : nat) (st : STP_T) (l : list PORT_REF)
    (uid : UID_STP_PORT_CFG_T) (rc : Z) : outcome (STP_T * Z) :=
  match l with
  | [] => Done (st, rc)
  | q :: l' =>
      let* '(st, rc) := stp_in_set_port_cfg fuel st q uid in
      set_port_cfg_chain fuel st l' uid rc
  end.

(** The masks whose value [stp_ports] keeps; the [switch] that stores it returns
    without a value for the others. *)
Definition recorded_mask (val_mask : Z) : bool :=
  (val_mask =? PT_CFG_COST) || (val_mask =? PT_CFG_PRIO) || (val_mask =? PT_CFG_P2P) ||
  (val_mask =? PT_CFG_EDGE) || (val_mask =? PT_CFG_NON_STP).

(** The stores to the entry of [stp_ports]: the number of the instance, and the
    path cost or the priority, in arrays of 64 elements. *)
Definition MAX_MST_ID : Z := 64.
Definition record_port_cfg (mstid idx val_mask : Z) (st : STP_T) : STP_T :=
  let st := stp_ports_entry idx st in
  let st := access INFO_ARRAY MAX_MST_ID (mstid + 1) st in
  if (val_mask =? PT_CFG_COST) || (val_mask =? PT_CFG_PRIO)
  then access INFO_ARRAY MAX_MST_ID (mstid + 1) st else st.

(** A code of [stp_param.h]. *)
Definition STP_PORT_NOT_ENABLE : Z := 0xfd.

Definition stp_param_set_port_cfg_value (fuel : nat) (st : STP_T) (mstid idx value val_mask : Z)
    : outcome (STP_T * Z) :=
  match port_cfg value val_mask with
  | None => Done (st, uninit)
  | Some uid =>
      let* found := stp_port_mst_findport st mstid idx in
      match found with
      | None => Done (st, STP_PORT_NOT_ENABLE)
      | Some p =>
          let* '(st, rc) := stp_in_set_port_cfg fuel st p uid in
          let* '(st, rc) :=
            if (val_mask =? PT_CFG_EDGE) || (val_mask =? PT_CFG_NON_STP) || (val_mask =? PT_CFG_P2P) then
              let* rest := rest_of_chain st p in set_port_cfg_chain fuel st rest uid rc
            else Done (st, rc) in
          if recorded then
            let* port := get_port st p in
            let st := record_port_cfg mstid port.(port_index) val_mask st in
            if recorded_mask val_mask then Done (st, rc) else Done (st, uninit)
          else Done (st, rc)
      end
  end.
End Param.

(** ** VLANs and instances ([stp_mgmt.c], [stp_in.c], [stp_npd_cmd.c], [stp_param.c])

    The tables that map VLANs to instances and to ports, the digest of the
    configuration identifier, the commands that move VLANs and ports between
    instances, and enabling and disabling the protocol.  The state is that of
    the engine with the tables above it.

    [junk] is the indeterminate buffer of an MD5 context and [uninit] the code
    [stp_port_mst_delport] returns without having assigned it.  Allocations
    succeed.  Of the table [stp_ports], which keeps what was asked of a port for
    the printed configuration, the accesses are modelled and not the contents. *)

Definition STP_Cannot_Find_Vlan : Z := 2.
Definition STP_Cannot_Create_Instance_For_Vlan : Z := 26.
Definition STP_Cannot_Create_Instance_For_Port : Z := 27.

(** Codes of [stp_param.h]. *)
Definition STP_NOT_ENABLED : Z := 0xff.
Definition STP_HAVE_ENABLED : Z := 0xfe.
Definition STP_PORT_HAVE_ENABLED : Z := 0xfc.

Definition NUMBER_OF_BYTES : nat := 9.
Definition BIT_OF_BYTE : nat := 8.

Inductive RUNNING_MODE := STP_MODE | MST_MODE | NOT_MODE.

#[export] Instance RUNNING_MODE_eq_dec : EqDecision RUNNING_MODE.
Proof. solve_decision. Defined.

(** ** The state

    [g_VID2MSTID] and [g_VlanPBMP] have 4096 entries each. *)

Record MGMT_T : Type := mkMgmt {
  core : STP_T;
  g_VID2MSTID : list Z;
  g_VlanPBMP : list BITMAP_T;
  g_stp_state : UID_STP_MODE_T;
  current_mode : RUNNING_MODE }.

Definition MGMT_T_eta (r : MGMT_T) : MGMT_T :=
  mkMgmt r.(core) r.(g_VID2MSTID) r.(g_VlanPBMP) r.(g_stp_state) r.(current_mode).

#[export] Instance set_core : Setter core := ltac:(solve_setter MGMT_T_eta).
#[export] Instance set_g_VID2MSTID : Setter g_VID2MSTID := ltac:(solve_setter MGMT_T_eta).
#[export] Instance set_g_VlanPBMP : Setter g_VlanPBMP := ltac:(solve_setter MGMT_T_eta).
#[export] Instance set_g_stp_state : Setter g_stp_state := ltac:(solve_setter MGMT_T_eta).
#[export] Instance set_current_mode : Setter current_mode := ltac:(solve_setter MGMT_T_eta).

(** Loads and stores in the two tables. *)
Definition vid_mstid (m : MGMT_T) (VID : Z) : outcome Z := deref (m.(g_VID2MSTID) !! Z.to_nat VID).
Definition vid_ports (m : MGMT_T) (VID : Z) : outcome BITMAP_T := deref (m.(g_VlanPBMP) !! Z.to_nat VID).

Definition set_vid_mstid (m : MGMT_T) (VID MSTID : Z) : outcome MGMT_T :=
  let* _ := vid_mstid m VID in
  Done (m <| g_VID2MSTID := <[Z.to_nat VID := MSTID]> m.(g_VID2MSTID) |>).
Definition set_vid_ports (m : MGMT_T) (VID : Z) (bm : BITMAP_T) : outcome MGMT_T :=
  let* _ := vid_ports m VID in
  Done (m <| g_VlanPBMP := <[Z.to_nat VID := bm]> m.(g_VlanPBMP) |>).

(** A function of the engine, run on its part of the state. *)
Definition in_core {A} (f : STP_T → outcome (STP_T * A)) (m : MGMT_T) : outcome (MGMT_T * A) :=
  let* '(st, a) := f m.(core) in Done (m <| core := st |>, a).

(** ** The digest *)

Definition STP_UM_KEY : list Z :=
  [0x13; 0xAC; 0x06; 0xA6; 0x2E; 0x47; 0xFD; 0x51; 0xF9; 0x5D; 0x2B; 0xA2; 0x43; 0xCD; 0x03; 0x46].

(** The bytes of [vlan_mst_map_table]: entry [i] is [htons(g_VID2MSTID[i])] for
    [i] from 1 to 4094, and zero for the first and the last. *)
Definition vlan_mst_map_table (t : list Z) : list Z :=
  [0; 0] ++ (take 4094 (drop 1 t) ≫= be_bytes 2) ++ [0; 0].

Section Mgmt.
Variable junk : list Z.
Variable uninit : Z.
Variable wan_if : Z → Z → Z → option (Z * Z).

(** Stores through [this], an instance pointer that may be NULL. *)
Definition upd_stpm (f : STPM_T → STPM_T) (this : option Z) (m : MGMT_T) : outcome MGMT_T :=
  let* b := deref this in
  let* stpm := get_stpm m.(core) b in
  Done (m <| core := put_stpm m.(core) b (f stpm) |>).

Definition stp_mgmt_calc_configid_digest (m : MGMT_T) (this : option Z) : outcome MGMT_T :=
  let* digest := stp_md5_get_digest junk (vlan_mst_map_table m.(g_VID2MSTID)) STP_UM_KEY in
  upd_stpm (fun stpm => stpm <| STPM.MstConfigId :=
    stpm.(STPM.MstConfigId) <| ConfigurationDigest := digest |> |>) this m.

Definition stp_mgmt_build_configid_digest (m : MGMT_T) : outcome (MGMT_T * Z) :=
  match m.(core).(g_CISTBRIDGE) with
  | Some _ => Done (m, STP_Nothing_To_Do)
  | None => let* m := stp_mgmt_calc_configid_digest m None in Done (m, STP_OK)
  end.

(** ** VLANs of an instance *)

Definition map_add_vlan (VID : Z) (v : VLAN_MAP_T) : VLAN_MAP_T :=
  mkVlanMap (set_vlan_bit VID v.(bmp)) (u32 (v.(ulcount) + 1)).
Definition map_del_vlan (VID : Z) (v : VLAN_MAP_T) : VLAN_MAP_T :=
  mkVlanMap (clear_vlan_bit VID v.(bmp)) (u32 (v.(ulcount) - 1)).

Definition upd_vlan_map (f : VLAN_MAP_T → VLAN_MAP_T) (VID : Z) (this : option Z) (m : MGMT_T)
    : outcome MGMT_T :=
  let* f := vlan_store VID f in
  upd_stpm (fun stpm => stpm <| STPM.vlan_map := f stpm.(STPM.vlan_map) |>) this m.

Definition stp_mgmt_init_vlanpbmp (m : MGMT_T) (VID : Z) (ports : BITMAP_T) : outcome MGMT_T :=
  set_vid_ports m VID ports.

Definition stp_mgmt_get_mstid (m : MGMT_T) (vid : Z) : outcome Z := vid_mstid m vid.

(** [isAdd]: the VLAN joins another instance and leaves the CIST. *)
Definition stp_mgmt_set_cist_vlan_map (m : MGMT_T) (VID : Z) (isAdd : bool) : outcome (MGMT_T * Z) :=
  match m.(core).(g_CISTBRIDGE) with
  | None => Done (m, STP_BRIDGE_NOTFOUND)
  | Some c =>
      let* m := upd_vlan_map (if isAdd then map_del_vlan VID else map_add_vlan VID) VID (Some c) m in
      Done (m, STP_OK)
  end.

(** [stp_ports[port_index]->mstid[mstid] = mstid], when the table is there. *)
Definition record_mstid (mstid idx : Z) (st : STP_T) : STP_T :=
  access INFO_ARRAY MAX_MST_ID (mstid + 1) (stp_ports_entry idx st).

(** The inner loop over the bits of one byte of the bitmap of the VLAN, which an
    empty byte ends.  [Some err]: a port could not be added, the instance was
    deleted, and the function returns. *)
Fixpoint add_bits (fuel : nat) (bm : BITMAP_T) (b VID bytes : Z) (bits : list nat) (st : STP_T)
    : outcome (STP_T * option Z) :=
  match bits with
  | [] => Done (st, None)
  | bit :: bits' =>
      let* idx := stp_bitmap_get_portindex_from_bmp st bm bytes (Z.of_nat bit) in
      if idx =? -2 then Done (st, None)
      else if idx =? -1 then add_bits fuel bm b VID bytes bits' st
      else
        let* stpm := get_stpm st b in
        let* '(st, rc) := stp_port_mst_addport wan_if fuel st stpm.(STPM.vlan_id) (u32 idx) VID false in
        if negb (rc =? STP_OK) then
          let* st := stp_stpm_delete fuel st b in
          Done (st, Some STP_Cannot_Create_Instance_For_Port)
        else
          let st :=
            match st.(port_speed_s) with
            | Some _ => record_mstid stpm.(STPM.vlan_id) idx st
            | None => st
            end in
          add_bits fuel bm b VID bytes bits' st
  end.

Fixpoint add_bytes (fuel : nat) (bm : BITMAP_T) (b VID : Z) (bytes : list nat) (st : STP_T)
    : outcome (STP_T * option Z) :=
  match bytes with
  | [] => Done (st, None)
  | byte :: bytes' =>
      let* '(st, r) := add_bits fuel bm b VID (Z.of_nat byte) (seq 0 BIT_OF_BYTE) st in
      match r with
      | Some err => Done (st, Some err)
      | None => add_bytes fuel bm b VID bytes' st
      end
  end.

(** VLAN 0 is not entered in the maps. *)
Definition map_vlan (m : MGMT_T) (b VID : Z) : outcome MGMT_T :=
  if VID =? 0 then Done m
  else
    let* m := upd_vlan_map (map_add_vlan VID) VID (Some b) m in
    let* stpm := get_stpm m.(core) b in
    if stpm.(STPM.vlan_id) =? STP_CIST_ID then Done m
    else let* '(m, _) := stp_mgmt_set_cist_vlan_map m VID true in Done m.

Definition stp_mgmt_stpm_add_vlan (fuel : nat) (m : MGMT_T) (stpm : option Z) (VID : Z)
    : outcome (MGMT_T * Z) :=
  if STP_MAX_VID <? VID then Done (m, STP_ERROR)
  else match stpm with
  | None => Done (m, STP_ERROR)
  | Some b =>
      let* m := map_vlan m b VID in
      let* bm := vid_ports m VID in
      let* '(m, r) := in_core (add_bytes fuel bm b VID (seq 0 NUMBER_OF_BYTES)) m in
      match r with
      | Some err => Done (m, err)
      | None =>
          let* this := get_stpm m.(core) b in
          let* m := set_vid_mstid m VID this.(STPM.vlan_id) in
          Done (m, STP_OK)
      end
  end.

(** The loops of [stp_mgmt_stpm_del_vlan]: only a clear bit is skipped, so that
    the number -2 of an empty byte is looked up.  The flush of the learning
    table does nothing.  The last code, and whether it made the function
    return. *)
Fixpoint del_bits (bm : BITMAP_T) (b VID bytes : Z) (bits : list nat) (st : STP_T) (iRet : Z)
    : outcome (STP_T * Z) :=
  match bits with
  | [] => Done (st, iRet)
  | bit :: bits' =>
      let* idx := stp_bitmap_get_portindex_from_bmp st bm bytes (Z.of_nat bit) in
      if idx =? -1 then del_bits bm b VID bytes bits' st iRet
      else
        let* stpm := get_stpm st b in
        let* found := stp_port_mst_findport st stpm.(STPM.vlan_id) (u32 idx) in
        match found with
        | None => del_bits bm b VID bytes bits' st iRet
        | Some _ =>
            let* '(st, iRet) := stp_port_mst_delport uninit st stpm.(STPM.vlan_id) (u32 idx) VID in
            if negb (iRet =? STP_OK) then Done (st, iRet)
            else del_bits bm b VID bytes bits' st iRet
        end
  end.

Fixpoint del_bytes (bm : BITMAP_T) (b VID : Z) (bytes : list nat) (st : STP_T) (iRet : Z)
    : outcome (STP_T * Z) :=
  match bytes with
  | [] => Done (st, iRet)
  | byte :: bytes' =>
      let* '(st, iRet) := del_bits bm b VID (Z.of_nat byte) (seq 0 BIT_OF_BYTE) st iRet in
      if negb (iRet =? STP_OK) then Done (st, iRet) else del_bytes bm b VID bytes' st iRet
  end.

Definition stp_mgmt_stpm_del_vlan (fuel : nat) (m : MGMT_T) (stpm : option Z) (VID : Z)
    : outcome (MGMT_T * Z) :=
  if STP_MAX_VID <? VID then Done (m, STP_ERROR)
  else match stpm with
  | None => Done (m, STP_ERROR)
  | Some b =>
      let* m := upd_vlan_map (map_del_vlan VID) VID (Some b) m in
      let* this := get_stpm m.(core) b in
      let* m :=
        if this.(STPM.vlan_id) =? STP_CIST_ID then Done m
        else let* '(m, _) := stp_mgmt_set_cist_vlan_map m VID false in Done m in
      let* bm := vid_ports m VID in
      let* '(m, iRet) := in_core (fun st => del_bytes bm b VID (seq 0 NUMBER_OF_BYTES) st STP_OK) m in
      if negb (iRet =? STP_OK) then Done (m, iRet)
      else
        let* this := get_stpm m.(core) b in
        let* st :=
          if (this.(STPM.vlan_map).(ulcount) =? 0) && negb (this.(STPM.vlan_id) =? STP_CIST_ID)
          then stp_stpm_delete fuel m.(core) b else Done m.(core) in
        let* m := set_vid_mstid (m <| core := st |>) VID STP_CIST_ID in
        Done (m, iRet)
  end.

(** ** Instances *)

Definition hex_digit (d : Z) : Z := if d <? 10 then 48 + d else 87 + d.

(** [sprintf] with [%.2x] for each byte: the digits and the terminating zero are
    written over the start of the array. *)
Definition hex_name (addr name : list Z) : list Z :=
  let s := (addr ≫= fun x => [hex_digit (x / 16); hex_digit (x mod 16)]) ++ [0] in
  s ++ drop (length s) name.

(** The name is the literal [CIST], of five bytes. *)
Definition stp_mgmt_stpm_create_cist (m : MGMT_T) : outcome (MGMT_T * Z) :=
  match m.(core).(g_CISTBRIDGE) with
  | Some _ => Done (m, STP_Nothing_To_Do)
  | None =>
      let* '(m, this) := in_core (fun st => stp_stpm_mst_create st STP_CIST_ID 5) m in
      match this with
      | None => Done (m, STP_Cannot_Create_Instance_For_Vlan)
      | Some b =>
          let* m := upd_stpm (fun this =>
            this <| STPM.vlan_map := mkVlanMap (repeat 0xff 512) STP_MAX_VID |>
              <| STPM.MstConfigId := this.(STPM.MstConfigId)
                   <| FormatSelector := 0 |> <| RevisionLevel := [0; 0] |> |>) this m in
          let* m := stp_mgmt_calc_configid_digest m this in
          let* m := upd_stpm (fun this => this <| STPM.MstConfigId := this.(STPM.MstConfigId)
            <| ConfigurationName := hex_name this.(STPM.BrId).(addr)
                 this.(STPM.MstConfigId).(ConfigurationName) |> |>) this m in
          Done (m, STP_OK)
      end
  end.

(** The instance asked for, created when there is none, with a name in an array
    of 32 bytes. *)
Definition find_or_create (m : MGMT_T) (MSTID : Z) : outcome (MGMT_T * option Z) :=
  let* found := stp_stpm_get_instance m.(core) MSTID in
  match found with
  | Some b => Done (m, Some b)
  | None => in_core (fun st => stp_stpm_mst_create st MSTID 32) m
  end.

Definition stp_mgmt_stpm_update_instance (fuel : nat) (m : MGMT_T) (MSTID VID : Z)
    : outcome (MGMT_T * Z) :=
  let* old := vid_mstid m VID in
  if MSTID =? old then Done (m, STP_OK)
  else
    let* '(m, this) := find_or_create m MSTID in
    match this with
    | None => Done (m, STP_Cannot_Create_Instance_For_Vlan)
    | Some b =>
        let* old_stpm := stp_stpm_get_instance m.(core) old in
        match old_stpm with
        | None => Done (m, STP_Cannot_Create_Instance_For_Vlan)
        | Some _ =>
            let* '(m, err_code) := stp_mgmt_stpm_del_vlan fuel m old_stpm VID in
            if negb (err_code =? STP_OK) then Done (m, err_code)
            else
              let* '(m, err_code) := stp_mgmt_stpm_add_vlan fuel m this VID in
              if negb (err_code =? STP_OK) then Done (m, err_code)
              else
                let* m := stp_mgmt_calc_configid_digest m m.(core).(g_CISTBRIDGE) in
                if m.(g_stp_state) =e STP_ENABLED then
                  in_core (fun st => stp_stpm_enable fuel st b m.(g_stp_state)) m
                else Done (m, STP_OK)
        end
    end.

(** ** Deleting everything *)

(** [while (port = stpm->ports)]. *)
Fixpoint delete_all_ports (fuel : nat) (st : STP_T) (b : Z) : outcome STP_T :=
  match fuel with
  | O => OutOfFuel
  | S fuel =>
      let* stpm := get_stpm st b in
      match stpm.(STPM.ports) with
      | [] => Done st
      | p :: _ =>
          let* _ := get_port st p in
          let* st := stp_port_delete st p in
          delete_all_ports fuel st b
      end
  end.

(** [while (stpm = stp_stpm_get_the_list())]. *)
Fixpoint delete_all_instances (fuel : nat) (st : STP_T) : outcome STP_T :=
  match fuel with
  | O => OutOfFuel
  | S fuel' =>
      match st.(bridges) with
      | [] => Done st
      | b :: _ =>
          let* st := delete_all_ports fuel st b in
          let* st := stp_stpm_delete fuel st b in
          delete_all_instances fuel' st
      end
  end.

(** [memset(table, 0, 4096)] on the table of bitmaps, of 9 bytes each: 455 of
    them and a byte. *)
Definition clear_VlanPBMP (t : list BITMAP_T) : list BITMAP_T :=
  imap (fun i (bm : BITMAP_T) =>
    if Nat.ltb i 455 then repeat 0 9 else if Nat.eqb i 455 then 0 :: drop 1 bm else bm) t.

(** The same on the table of 2-byte numbers. *)
Definition clear_VID2MSTID (t : list Z) : list Z := repeat 0 (length (take 2048 t)) ++ drop 2048 t.

Definition stp_mgmt_stpm_delete_all (fuel : nat) (m : MGMT_T) : outcome MGMT_T :=
  let* st := delete_all_instances fuel m.(core) in
  let st := st <| g_CISTPORT := ∅ |> in
  Done (m <| core := st <| enabled_ports := stp_bitmap_clear st.(enabled_ports) |> |>
          <| g_VlanPBMP := clear_VlanPBMP m.(g_VlanPBMP) |>
          <| g_VID2MSTID := clear_VID2MSTID m.(g_VID2MSTID) |>).
End Mgmt.
