(* ===== verification/StpCommand.v ===== *)
(** * Commands ([stp_in.c], [stp_param.c], [stp_npd_cmd.c], [stp_bridge.c])

    What the switch driver and the management interface ask of the daemon:
    starting it, enabling and disabling the protocol, VLANs and ports that come
    and go, and the parameters of the bridge and of its ports, one function for
    each. *)

From Stdlib Require Import ZArith Lia.
From stdpp Require Import base gmap list option.
From S2P Require Import Prelude StpTypes StpMd5 StpTo StpHeap StpStatmch StpMachines StpPort StpRoletrns StpPortinfo StpTransmit StpStpm StpIn StpMgmt.

Definition FORCE_STP_COMPAT : Z := 0.

(** Codes of the shared header [returncode.h]. *)
Definition STP_RETURN_CODE_SUCCESS : Z := 0xF0001.
Definition STP_RETURN_CODE_MSTP_NOT_ENABLED : Z := 0xF0004.

(** ** Enabling and disabling the protocol *)

(** Allocates the tables of speeds and duplex modes, once. *)
Definition stp_in_port_global_init (st : STP_T) : STP_T :=
  st <| port_speed_s := match st.(port_speed_s) with None => Some ∅ | t => t end |>
     <| port_duplex_mode_nodes :=
          match st.(port_duplex_mode_nodes) with None => Some ∅ | t => t end |>.

Definition stp_in_port_global_destroy (st : STP_T) : STP_T :=
  st <| port_speed_s := None |> <| port_duplex_mode_nodes := None |>.

(** Only the field [stp_enabled] is set; the mask names no other. *)
Definition state_cfg (s : UID_STP_MODE_T) : UID_STP_CFG_T := mkStpCfg BR_CFG_STATE s 0 0 0 0 0 0 0.

Fixpoint enable_instances (fuel : nat) (l : list Z) (ret : Z) (st : STP_T) : outcome (STP_T * Z) :=
  match l with
  | [] => Done (st, ret)
  | b :: l' =>
      let* '(st, rc) := stp_in_stpm_set_cfg fuel (stp_in_port_global_init st) b (state_cfg STP_ENABLED) in
      enable_instances fuel l' (Z.lor ret rc) st
  end.

Definition stp_in_global_enable (fuel : nat) (st : STP_T) : outcome (STP_T * Z) :=
  enable_instances fuel st.(bridges) 0 st.

Definition stp_in_global_disable (fuel : nat) (m : MGMT_T) : outcome (MGMT_T * Z) :=
  let* '(st, ret) :=
    match m.(core).(g_CISTBRIDGE) with
    | None => Done (m.(core), 0)
    | Some c =>
        let* '(st, ret) := stp_in_stpm_set_cfg fuel m.(core) c (state_cfg STP_DISABLED) in
        Done (stp_in_port_global_destroy st, ret)
    end in
  let* m := stp_mgmt_stpm_delete_all fuel (m <| core := st |>) in
  Done (m, ret).

Definition stp_param_check_stp_state (m : MGMT_T) : bool := m.(core).(g_flag).

Definition stp_param_set_stpm_enable (fuel : nat) (m : MGMT_T) : outcome (MGMT_T * Z) :=
  if m.(core).(g_flag) then Done (m, STP_HAVE_ENABLED)
  else
    let* '(m, ret) := in_core (stp_in_global_enable fuel) m in
    if ret =? 0 then
      Done (m <| core := m.(core) <| g_flag := true |> |> <| g_stp_state := STP_ENABLED |>, ret)
    else Done (m, ret).

Definition stp_param_set_running_mode (m : MGMT_T) (mode : RUNNING_MODE) : MGMT_T :=
  m <| current_mode := mode |>.
Definition stp_param_get_running_mode (m : MGMT_T) : RUNNING_MODE := m.(current_mode).

Section Commands.
Variable junk : list Z.
Variable uninit : Z.
Variable wan_if : Z → Z → Z → option (Z * Z).
Variable wan_br : Z → Z → option (Z * Z).

(** After disabling, the CIST is created again for the next time. *)
Definition stp_param_set_stpm_disable (fuel : nat) (m : MGMT_T) : outcome (MGMT_T * Z) :=
  if negb m.(core).(g_flag) then Done (m, STP_NOT_ENABLED)
  else
    let* '(m, ret) := stp_in_global_disable fuel m in
    if ret =? 0 then
      let m := m <| core := m.(core) <| g_flag := false |> |> <| g_stp_state := STP_DISABLED |> in
      let* '(m, ret) := stp_mgmt_stpm_create_cist junk m in
      if negb (ret =? STP_OK) then Done (m, -1) else Done (m, ret)
    else Done (m, ret).

Definition stp_bridge_start (m : MGMT_T) : outcome (MGMT_T * Z) :=
  let st := m.(core) in
  let m := m <| core := st <| enabled_ports := stp_bitmap_clear st.(enabled_ports) |> |> in
  let* '(m, ret) := stp_mgmt_stpm_create_cist junk m in
  if negb (ret =? STP_OK) then Done (m, -1) else Done (m, STP_OK).

Definition stp_bridge_shutdown (fuel : nat) (m : MGMT_T) : outcome MGMT_T :=
  stp_mgmt_stpm_delete_all fuel m.

(** ** VLANs *)

Definition stp_in_add_vlan_to_cist (fuel : nat) (m : MGMT_T) (vid : Z) (port_bmp : BITMAP_T)
    : outcome (MGMT_T * Z) :=
  let* m := stp_mgmt_init_vlanpbmp m vid port_bmp in
  match m.(core).(g_CISTBRIDGE) with
  | None => Done (m, STP_BRIDGE_NOTFOUND)
  | this =>
      let* '(m, err_code) := stp_mgmt_stpm_add_vlan wan_if fuel m this vid in
      if negb (err_code =? STP_OK) then Done (m, err_code)
      else let* '(m, _) := stp_mgmt_build_configid_digest junk m in Done (m, STP_OK)
  end.

Definition stp_in_del_vlan_from_cist (fuel : nat) (m : MGMT_T) (vid : Z) : outcome (MGMT_T * Z) :=
  let* mstid := stp_mgmt_get_mstid m vid in
  if mstid =? STP_CIST_ID then Done (m, STP_OK)
  else
    let* this := stp_stpm_get_instance m.(core) mstid in
    match this with
    | None => Done (m, STP_Cannot_Create_Instance_For_Vlan)
    | Some _ =>
        let* '(m, err_code) := stp_mgmt_stpm_del_vlan uninit fuel m this vid in
        if negb (err_code =? STP_OK) then Done (m, err_code)
        else let* '(m, _) := stp_mgmt_build_configid_digest junk m in Done (m, STP_OK)
    end.

Definition stp_in_set_vlan_2_instance (fuel : nat) (m : MGMT_T) (vlan_id mstid : Z)
    : outcome (MGMT_T * Z) :=
  stp_mgmt_stpm_update_instance junk uninit wan_if fuel m (u16 mstid) vlan_id.

Definition stp_in_add_port_to_mstp (fuel : nat) (m : MGMT_T) (vid port_index : Z) (isWan : bool)
    : outcome (MGMT_T * Z) :=
  let* MSTID := stp_mgmt_get_mstid m vid in
  if MSTID =? STP_CIST_ID then Done (m, STP_OK)
  else
    let* '(m, rc) := in_core (fun st => stp_port_mst_addport wan_if fuel st MSTID port_index vid isWan) m in
    Done (m, if rc =? STP_OK then STP_OK else STP_Cannot_Create_Instance_For_Port).

Definition stp_in_del_port_from_mstp (m : MGMT_T) (vid port_index : Z) : outcome (MGMT_T * Z) :=
  let* MSTID := stp_mgmt_get_mstid m vid in
  if MSTID =? STP_CIST_ID then Done (m, STP_OK)
  else
    let* '(m, rc) := in_core (fun st => stp_port_mst_delport uninit st MSTID port_index vid) m in
    Done (m, if rc =? STP_OK then STP_OK else -1).

Definition stp_param_add_vlan_to_mstp (fuel : nat) (m : MGMT_T) (vid : Z) (ports : BITMAP_T) :=
  stp_in_add_vlan_to_cist fuel m vid ports.
Definition stp_param_mstp_init_vlan_info (m : MGMT_T) (vid : Z) (ports : BITMAP_T) :=
  stp_mgmt_init_vlanpbmp m vid ports.
Definition stp_param_set_vlan_to_instance (fuel : nat) (m : MGMT_T) (vid mstid : Z) :=
  stp_in_set_vlan_2_instance fuel m vid mstid.

(** ** Commands of the switch driver *)

(** The commands on VLANs are ignored unless the protocol runs as MSTP. *)
Definition npd_ready (m : MGMT_T) : bool := m.(core).(g_flag) && bool_decide (m.(current_mode) = MST_MODE).

Definition npd_vlan (vid : Z) : bool := (1 <=? vid) && (vid <=? STP_MAX_VID).

(** The bit of a port in the bitmap of the VLAN. *)
Definition upd_vid_ports (f : STP_T → BITMAP_T → Z → outcome BITMAP_T) (m : MGMT_T) (vid port_index : Z)
    : outcome MGMT_T :=
  let* bm := vid_ports m vid in
  let* bm := f m.(core) bm port_index in
  set_vid_ports m vid bm.

Definition stp_npd_cmd_add_port (fuel : nat) (m : MGMT_T) (vid port_index : Z) (isWan : bool)
    : outcome (MGMT_T * Z) :=
  if negb (npd_ready m) then Done (m, 0xff)
  else if negb (npd_vlan vid) then Done (m, -1)
  else
    let* '(m, rc) := stp_in_add_port_to_mstp fuel m vid port_index isWan in
    let* m := upd_vid_ports stp_bitmap_set_bit m vid port_index in
    Done (m, rc).

Definition stp_npd_cmd_del_port (m : MGMT_T) (vid port_index : Z) : outcome (MGMT_T * Z) :=
  if negb (npd_ready m) then Done (m, 0xff)
  else if negb (npd_vlan vid) then Done (m, -1)
  else
    let* '(m, rc) := stp_in_del_port_from_mstp m vid port_index in
    let* m := upd_vid_ports stp_bitmap_clear_bit m vid port_index in
    Done (m, rc).

(** Bytes 1 to 8 are those of the two words, the least significant first. *)
Definition cmd_bitmap (untagbmp tagbmp : Z * Z) : BITMAP_T :=
  let tmp0 := Z.lor untagbmp.1 tagbmp.1 in
  let tmp1 := Z.lor untagbmp.2 tagbmp.2 in
  0 :: ((fun i => Z.land (Z.shiftr (if i <? 5 then tmp0 else tmp1)
                            (if i <? 5 then (i - 1) * 8 else (i - 5) * 8)) 0xff)
          <$> [1; 2; 3; 4; 5; 6; 7; 8]).

Definition stp_npd_cmd_add_vlan_on_mst (fuel : nat) (m : MGMT_T) (vid : Z) (untagbmp tagbmp : Z * Z)
    : outcome (MGMT_T * Z) :=
  if negb (npd_ready m) then Done (m, 0xff)
  else if negb (npd_vlan vid) then Done (m, -1)
  else stp_in_add_vlan_to_cist fuel m vid (cmd_bitmap untagbmp tagbmp).

(** The ports of the VLAN go to the default VLAN. *)
Definition stp_npd_cmd_del_vlan_on_mst (fuel : nat) (m : MGMT_T) (vid : Z) : outcome (MGMT_T * Z) :=
  if negb (npd_ready m) then Done (m, 0xff)
  else if negb (npd_vlan vid) then Done (m, -1)
  else
    let* '(m, rc) := stp_in_del_vlan_from_cist fuel m vid in
    let* bm1 := vid_ports m 1 in
    let* bm := vid_ports m vid in
    let* m := set_vid_ports m 1 (stp_bitmap_portbmp_add bm1 bm) in
    let* bm := vid_ports m vid in
    let* m := set_vid_ports m vid (stp_bitmap_clear bm) in
    Done (m, rc).

(** ** Enabling a port

    [info]: whether the table [stp_ports] has an entry for the port, and its
    flag [stpEnable].  [lkState] is 0 when the link is up. *)

Definition port_rc (rc : Z) : Z :=
  if rc =? 0 then STP_RETURN_CODE_SUCCESS else STP_RETURN_CODE_MSTP_NOT_ENABLED.

Definition stp_param_set_stpm_port_enable (info : option bool) (fuel : nat) (st : STP_T)
    (port_index lkState speed : Z) (isWAN : bool) (slot_no port_no : Z) : outcome (STP_T * Z) :=
  if negb st.(g_flag) then Done (st, STP_NOT_ENABLED)
  else match info with
  | None => Done (st, STP_NOT_ENABLED)
  | Some stpEnable =>
      let st := stp_ports_entry port_index st in
      let* links :=
        if lkState =? 0 then stp_bitmap_set_bit st st.(enabled_ports) port_index
        else Done st.(enabled_ports) in
      let st := st <| enabled_ports := links |> in
      if stpEnable : bool then Done (st, STP_PORT_HAVE_ENABLED)
      else
        let* '(st, rc) := stp_in_enable_port_on_stpm wan_br fuel st port_index true
          (negb (lkState =? 0)) speed isWAN slot_no port_no in
        Done (st, port_rc rc)
  end.

Definition stp_param_set_stpm_port_disable (info : option bool) (fuel : nat) (st : STP_T)
    (port_index lkState speed : Z) (isWAN : bool) (slot_no port_no : Z) : outcome (STP_T * Z) :=
  if negb st.(g_flag) then Done (st, STP_NOT_ENABLED)
  else match info with
  | None => Done (st, STP_NOT_ENABLED)
  | Some stpEnable =>
      let st := stp_ports_entry port_index st in
      if negb stpEnable then Done (st, STP_PORT_NOT_ENABLE)
      else
        let* '(st, rc) := stp_in_enable_port_on_stpm wan_br fuel st port_index false
          (negb (lkState =? 0)) speed isWAN slot_no port_no in
        Done (st, port_rc rc)
  end.
End Commands.

(** ** Parameters ([stp_param.c])

    The functions the management interface calls to change or reset one
    parameter; all end in [stp_param_set_bridge_cfg_value] or
    [stp_param_set_port_cfg_value], through which each fixes the mask and the
    value.  [uninit] is the indeterminate result of these two where they end
    without a [return]. *)

(** ** The configuration identifier *)

(** [strcpy] into an array of 32 bytes: a longer name is written past it.  A
    name is a list of non-zero bytes. *)
Definition stp_param_set_bridge_region_name (st : STP_T) (name : list Z) : outcome (STP_T * Z) :=
  match st.(g_CISTBRIDGE) with
  | None => Done (st, -1)
  | Some c =>
      let* stpm := get_stpm st c in
      if Nat.ltb (length name) 32 then
        Done (put_stpm st c (stpm <| STPM.MstConfigId := stpm.(STPM.MstConfigId)
          <| ConfigurationName := name ++ repeat 0 (32 - length name) |> |>), 0)
      else Segv
  end.

(** A store of a 2-byte number, most significant byte first. *)
Definition stp_param_set_bridge_revision (st : STP_T) (value : Z) : outcome (STP_T * Z) :=
  match st.(g_CISTBRIDGE) with
  | None => Done (st, -1)
  | Some c =>
      let* stpm := get_stpm st c in
      Done (put_stpm st c (stpm <| STPM.MstConfigId := stpm.(STPM.MstConfigId)
        <| RevisionLevel := be_bytes 2 value |> |>), 0)
  end.

Section Params.
Variable uninit : Z.

(** ** The bridge *)

Definition stp_param_set_bridge_priority (fuel : nat) (st : STP_T) (mstid prio : Z)
    : outcome (STP_T * Z) :=
  let* found := stp_stpm_get_instance st mstid in
  match found with
  | Some _ => stp_param_set_bridge_cfg_value uninit fuel st (u16 mstid) (u32 prio) BR_CFG_PRIO
  | None => Done (st, STP_Vlan_Had_Not_Yet_Been_Created)
  end.

Definition stp_param_reset_bridge_priority (fuel : nat) (st : STP_T) (mstpid : Z) :=
  stp_param_set_bridge_cfg_value uninit fuel st (u16 mstpid) DEF_BR_PRIO BR_CFG_PRIO.
Definition stp_param_set_bridge_maxage (fuel : nat) (st : STP_T) (maxage : Z) :=
  stp_param_set_bridge_cfg_value uninit fuel st 0 (u32 maxage) BR_CFG_AGE.
Definition stp_param_reset_bridge_maxage (fuel : nat) (st : STP_T) (mstid : Z) :=
  stp_param_set_bridge_cfg_value uninit fuel st (u16 mstid) DEF_BR_MAXAGE BR_CFG_AGE.
Definition stp_param_set_bridge_fdelay (fuel : nat) (st : STP_T) (value : Z) :=
  stp_param_set_bridge_cfg_value uninit fuel st 0 (u32 value) BR_CFG_DELAY.
Definition stp_param_reset_bridge_fdelay (fuel : nat) (st : STP_T) (mstid : Z) :=
  stp_param_set_bridge_cfg_value uninit fuel st (u16 mstid) DEF_BR_FWDELAY BR_CFG_DELAY.
Definition stp_param_reset_bridge_fvers (fuel : nat) (st : STP_T) :=
  stp_param_set_bridge_cfg_value uninit fuel st 0 DEF_FORCE_VERS BR_CFG_FORCE_VER.
Definition stp_param_set_bridge_max_hops (fuel : nat) (st : STP_T) (value : Z) :=
  stp_param_set_bridge_cfg_value uninit fuel st 0 (u32 value) BR_CFG_MAX_HOPS.
Definition stp_param_reset_bridge_max_hops (fuel : nat) (st : STP_T) :=
  stp_param_set_bridge_cfg_value uninit fuel st 0 DEF_REMAINING_HOPS BR_CFG_MAX_HOPS.
Definition stp_param_set_bridge_hello_time (fuel : nat) (st : STP_T) (value : Z) :=
  stp_param_set_bridge_cfg_value uninit fuel st 0 (u32 value) BR_CFG_HELLO.
Definition stp_param_reset_bridge_hello_time (fuel : nat) (st : STP_T) (mstid : Z) :=
  stp_param_set_bridge_cfg_value uninit fuel st (u16 mstid) DEF_BR_HELLOT BR_CFG_HELLO.

(** The version also decides the running mode. *)
Definition stp_param_set_bridge_fvers (fuel : nat) (m : MGMT_T) (fvers : Z) : outcome (MGMT_T * Z) :=
  let m :=
    if (fvers =? FORCE_STP_COMPAT) || (fvers =? NORMAL_RSTP) then m <| current_mode := STP_MODE |>
    else if fvers =? NORMAL_MSTP then m <| current_mode := MST_MODE |> else m in
  in_core (fun st => stp_param_set_bridge_cfg_value uninit fuel st 0 (u32 fvers) BR_CFG_FORCE_VER) m.

(** The results of the six functions are ignored. *)
Definition stp_param_set_bridge_nocfg (fuel : nat) (m : MGMT_T) (mstpid : Z) : outcome (MGMT_T * Z) :=
  let* '(st, _) := stp_param_reset_bridge_priority fuel m.(core) mstpid in
  let* '(st, _) := stp_param_reset_bridge_fdelay fuel st mstpid in
  let* '(st, _) := stp_param_reset_bridge_hello_time fuel st mstpid in
  let* '(st, _) := stp_param_reset_bridge_maxage fuel st mstpid in
  let* '(st, _) := stp_param_reset_bridge_max_hops fuel st in
  let* '(st, _) :=
    match m.(current_mode) with
    | MST_MODE => stp_param_set_bridge_cfg_value uninit fuel st (u16 mstpid) NORMAL_MSTP BR_CFG_FORCE_VER
    | STP_MODE => stp_param_reset_bridge_fvers fuel st
    | NOT_MODE => Done (st, 0)
    end in
  Done (m <| core := st |>, 0).

(** ** The ports

    [recorded]: whether the table [stp_ports] has an entry for the port.  Most
    of the functions ignore the result of the one they call. *)

Variable recorded : bool.

Definition set_port (fuel : nat) (st : STP_T) (mstpid port_index value mask : Z) :=
  stp_param_set_port_cfg_value uninit recorded fuel st (u16 mstpid) (u32 port_index) (u32 value) mask.

Definition dropping {A B} (m : outcome (A * B)) : outcome (A * Z) :=
  let* '(a, _) := m in Done (a, 0).

Definition stp_param_set_port_past_cost (fuel : nat) (st : STP_T) (mstpid port_index past_cost : Z) :=
  set_port fuel st mstpid port_index past_cost PT_CFG_COST.
Definition stp_param_reset_port_past_cost (fuel : nat) (st : STP_T) (mstpid port_index : Z) :=
  dropping (set_port fuel st mstpid port_index ADMIN_PORT_PATH_COST_AUTO PT_CFG_COST).
Definition stp_param_set_port_priority (fuel : nat) (st : STP_T) (mstpid port_index prio : Z) :=
  set_port fuel st mstpid port_index prio PT_CFG_PRIO.
Definition stp_param_reset_port_priority (fuel : nat) (st : STP_T) (mstpid port_index : Z) :=
  set_port fuel st mstpid port_index DEF_PORT_PRIO PT_CFG_PRIO.
Definition stp_param_set_port_p2p (fuel : nat) (st : STP_T) (mstpid port_index value : Z) :=
  dropping (set_port fuel st mstpid port_index value PT_CFG_P2P).
Definition stp_param_reset_port_p2p (fuel : nat) (st : STP_T) (mstpid port_index : Z) :=
  dropping (set_port fuel st mstpid port_index 2 PT_CFG_P2P).
Definition stp_param_set_port_edge (fuel : nat) (st : STP_T) (mstpid port_index value : Z) :=
  dropping (set_port fuel st mstpid port_index (u8 value) PT_CFG_EDGE).
Definition stp_param_reset_port_edge (fuel : nat) (st : STP_T) (mstpid port_index : Z) :=
  dropping (set_port fuel st mstpid port_index 1 PT_CFG_EDGE).
Definition stp_param_set_port_mcheck (fuel : nat) (st : STP_T) (mstpid port_index value : Z) :=
  dropping (set_port fuel st mstpid port_index (u8 value) PT_CFG_MCHECK).
Definition stp_param_reset_port_mcheck (st : STP_T) (mstpid port_index : Z) : outcome (STP_T * Z) :=
  Done (st, 0).
Definition stp_param_set_port_non_stp (fuel : nat) (st : STP_T) (mstpid port_index isEn : Z) :=
  dropping (set_port fuel st mstpid port_index isEn PT_CFG_NON_STP).
Definition stp_param_reset_port_non_stp (fuel : nat) (st : STP_T) (mstpid port_index : Z) :=
  dropping (set_port fuel st mstpid port_index 0 PT_CFG_NON_STP).

Definition stp_param_set_port_cfg_defaultvalue (fuel : nat) (st : STP_T) (mstpid port_index : Z)
    : outcome (STP_T * Z) :=
  let* '(st, r1) := stp_param_reset_port_priority fuel st mstpid port_index in
  let* '(st, r2) := stp_param_reset_port_past_cost fuel st mstpid port_index in
  let* '(st, r3) := stp_param_reset_port_edge fuel st mstpid port_index in
  let* '(st, r4) := stp_param_reset_port_p2p fuel st mstpid port_index in
  let* '(st, r5) := stp_param_reset_port_non_stp fuel st mstpid port_index in
  Done (st, i32 (r1 + r2 + r3 + r4 + r5)).
End Params.
