(* ===== verification/StpUid.v ===== *)
(** * Sockets ([stp_uid.c], [stp_npd_cmd.c], [stp_to.c])

    The datagrams the daemon exchanges with the switch driver and with the
    kernel: frames to and from the switch ([UID_MSG_T]), commands
    ([NPD_CMD_STC]), frames of WAN interfaces, whose names hold a slot and a
    port.  Structures are laid out for the ILP32, most significant byte first,
    machine the daemon is built for; a datagram is a list of bytes, and what the
    socket calls do with it is not modelled. *)

From Stdlib Require Import ZArith Lia.
From stdpp Require Import base gmap list option.
From S2P Require Import Prelude StpTypes StpBpdu StpTo StpHeap StpStatmch StpPort StpRoletrns StpTransmit StpStpm StpIn StpMgmt StpCommand.

(** ** Frames of the switch *)

(** [UID_MSG_T]: the index of the port, the length of the frame and a pointer,
    then the frame. *)
Definition uid_msg_size : nat := 12.
Definition MAX_UID_MSG_SIZE : nat := 1200.

(** The datagram with a frame; [ptr] is the pointer in it.  The copy reads 64
    bytes of a shorter frame. *)
Definition stp_uid_bridge_tx_bpdu (ptr : list Z) (port_index : Z) (bpdu : list Z) (bpdu_len : Z)
    : outcome (list Z) :=
  let bpdu_len := if bpdu_len <? 64 then 64 else bpdu_len in
  let* frame := rd bpdu 0 (Z.to_nat bpdu_len) in
  Done (be_bytes 4 port_index ++ be_bytes 4 bpdu_len ++ ptr ++ frame).

(** A buffer of zeros that a datagram is received into. *)
Definition received (size : nat) (datagram : list Z) : list Z :=
  take size datagram ++ repeat 0 (size - length datagram).

(** The index of the port, the frame up to the end of the buffer, and the length
    announced.  All bytes announced are read to be logged. *)
Definition uid_message (datagram : list Z) : outcome (Z * list Z * Z) :=
  let buff := received MAX_UID_MSG_SIZE datagram in
  let* port_index := rd32 buff 0 in
  let* bodyLen := rd32 buff 4 in
  let* _ := rd buff uid_msg_size (Z.to_nat bodyLen) in
  Done (port_index, drop uid_msg_size buff, bodyLen).

(** ** Names of WAN interfaces *)

Definition is_digit (c : Z) : bool := (48 <=? c) && (c <=? 57).
Definition is_space (c : Z) : bool := (c =? 32) || ((9 <=? c) && (c <=? 13)).

(** [ULONG_MAX]: [unsigned long] has 32 bits. *)
Definition ULONG_MAX : Z := 2 ^ 32 - 1.

(** The digits at the start of a string: whether there are any, their value and
    what follows. *)
Fixpoint digits (s : list Z) (acc : Z) : Z * list Z :=
  match s with
  | c :: s' => if is_digit c then digits s' (10 * acc + (c - 48)) else (acc, s)
  | [] => (acc, [])
  end.

Fixpoint skip_space (s : list Z) : list Z :=
  match s with
  | c :: s' => if is_space c then skip_space s' else s
  | [] => []
  end.

(** [strtoul(s, &end, 10)] of the C library: the number and [end]. *)
Definition strtoul (s : list Z) : Z * list Z :=
  let t := skip_space s in
  let '(neg, t) :=
    match t with
    | c :: t' => if c =? 45 then (true, t') else if c =? 43 then (false, t') else (false, t)
    | [] => (false, [])
    end in
  match t with
  | c :: _ =>
      if is_digit c then
        let '(v, rest) := digits t 0 in
        (if ULONG_MAX <? v then ULONG_MAX else if neg : bool then u32 (- v) else v, rest)
      else (0, s)
  | [] => (0, s)
  end.

(** The first character of a string, 0 at its end. *)
Definition char0 (s : list Z) : Z := default 0 (s !! 0%nat).

(** Slot, port and sub-interface of what follows [eth] in a name, with the
    result 0 for success.  [endptr3], which may not have been assigned, is NULL
    then.  The three variables are bytes that were 0 before. *)
Record IFNAME_T : Type := mkIfname { if_slot : Z; if_port : Z; if_sub : Z }.

Definition stp_netlink_parse_slot_port_no (str : list Z) : outcome (Z * IFNAME_T) :=
  let '(v, endptr) := strtoul str in
  let portno := u8 v in
  if (char0 endptr =? 45) || (char0 endptr =? 47) then
    let slotno := portno in
    let '(v2, endptr2) := strtoul (drop 1 endptr) in
    let subintf := u8 v2 in
    if char0 endptr2 =? 0 then Done (0, mkIfname slotno subintf 0)
    else if char0 endptr2 =? 46 then
      let '(v3, endptr3) := strtoul (drop 1 endptr2) in
      Done (if char0 endptr3 =? 0 then 0 else 1, mkIfname slotno subintf (u8 v3))
    else Segv
  else if char0 endptr =? 0 then Done (0, mkIfname 0 portno 0)
  else Done (1, mkIfname 0 portno 0).

(** ** Frames of WAN interfaces *)

Section Netlink.
Variable if_nametoindex : list Z → Z.
Variable if_indextoname : Z → option (list Z).

Definition ETH_HLEN : Z := 14.

(** The message: the header, the description of the port and the frame without
    its first 14 bytes, which is copied into a buffer of 255 bytes. *)
Definition stp_netlink_socket_sendto (ifname bpdu : list Z) (buffer_size : Z) : outcome (list Z) :=
  let n := buffer_size - ETH_HLEN in
  if (n <? 0) || (255 <? n) then Segv
  else
    let* payload := rd bpdu (Z.to_nat ETH_HLEN) (Z.to_nat n) in
    Done (be_bytes 4 (28 + n) ++ repeat 0 12 ++
          be_bytes 4 0 ++ be_bytes 4 (if_nametoindex ifname) ++ be_bytes 4 n ++ payload).

(** The two ways out of the daemon. *)
Inductive SENT := TO_SWITCH (datagram : list Z) | TO_KERNEL (message : list Z).

(** What [stp_to_tx_bpdu] sends for a frame that the model emits as an event;
    [ifName] has 20 bytes. *)
Definition send_frame (ptr : list Z) (ev : EVENT) : outcome (option SENT) :=
  match ev with
  | TX_WAN slot portno vid bpdu bpdu_len =>
      let ifName := wan_ifname slot portno vid in
      if Nat.ltb (length ifName) 20 then
        let* m := stp_netlink_socket_sendto ifName bpdu bpdu_len in Done (Some (TO_KERNEL m))
      else Segv
  | TX_BPDU port_index bpdu bpdu_len =>
      let* d := stp_uid_bridge_tx_bpdu ptr port_index bpdu bpdu_len in Done (Some (TO_SWITCH d))
  | _ => Done None
  end.

Definition MAX_PAYLOAD : nat := 1024.

(** Reception: the frame starts 28 bytes into a buffer of
    [NLMSG_SPACE(MAX_PAYLOAD)] bytes. *)
Definition netlink_message (message : list Z) : outcome (option (Z * Z * list Z * Z)) :=
  let nlh := received (16 + MAX_PAYLOAD) message in
  let* port_ifindex := rd32 nlh 20 in
  let* msg_len := rd32 nlh 24 in
  match if_indextoname port_ifindex with
  | None => Done None
  | Some ifname =>
      if bool_decide (take 3 ifname = eth) then
        let* '(rc, nm) := stp_netlink_parse_slot_port_no (drop 3 ifname) in
        if rc =? 0 then Done (Some (nm.(if_slot), nm.(if_port), drop 28 nlh, msg_len)) else Done None
      else Done None
  end.
End Netlink.

(** ** Commands of the switch *)

Definition INTERFACE_ADD_E : Z := 2.
Definition INTERFACE_DEL_E : Z := 3.
Definition VLAN_ADD_ON_MST_E : Z := 4.
Definition VLAN_DEL_ON_MST_E : Z := 5.
Definition STP_STATE_UPDATE_E : Z := 9.
Definition STP_RECEIVE_TCN_E : Z := 10.
Definition LINK_CHANGE_EVENT_E : Z := 11.
Definition STP_GET_SYS_MAC_E : Z := 12.

(** [sizeof(NPD_CMD_STC)]: the type, the length, and 28 bytes of the union. *)
Definition npd_cmd_size : nat := 36.

(** The messages to the switch: the state of a port, a topology change and the
    request for the address. *)
Definition npd_stp_msg (cmdType mstid vid port_index portState : Z) : list Z :=
  be_bytes 4 cmdType ++ be_bytes 4 16 ++
  be_bytes 4 mstid ++ be_bytes 2 vid ++ [0; 0] ++ be_bytes 4 port_index ++ be_bytes 4 portState ++
  repeat 0 12.

Definition stp_npd_cmd_send_stp_info (mstid vid port_index state : Z) : list Z :=
  npd_stp_msg STP_STATE_UPDATE_E mstid vid port_index state.
Definition stp_npd_cmd_notify_tcn (mstid vid port_index : Z) : list Z :=
  npd_stp_msg STP_RECEIVE_TCN_E mstid vid port_index 0.
Definition stp_npd_cmd_send_stp_mac : list Z :=
  be_bytes 4 STP_GET_SYS_MAC_E ++ be_bytes 4 4 ++ repeat 0 28.

(** What a command asks for. *)
Inductive NPD_CMD :=
  | INTERFACE_ADD (vid portIdx : Z) (isWan : bool)
  | INTERFACE_DEL (vid portIdx : Z)
  | VLAN_ADD_ON_MST (vid : Z) (untagbmp tagbmp : Z * Z)
  | VLAN_DEL_ON_MST (vid : Z)
  | LINK_CHANGE_EVENT (portIdx portState speed duplex_mode : Z) (isWAN : bool) (slot_no port_no : Z)
  | STP_GET_SYS_MAC (MacDa : list Z)
  | OTHER_CMD.

(** The [switch] on the type of a message, with the members each case reads. *)
Definition npd_cmd (message : list Z) : outcome NPD_CMD :=
  let m := received npd_cmd_size message in
  let w i := rd32 m (8 + 4 * i) in
  let* cmdType := rd32 m 0 in
  let* vid := rd16 m 8 in
  if cmdType =? INTERFACE_ADD_E then
    let* p := w 1%nat in let* wan := w 2%nat in Done (INTERFACE_ADD vid p (negb (wan =? 0)))
  else if cmdType =? INTERFACE_DEL_E then let* p := w 1%nat in Done (INTERFACE_DEL vid p)
  else if cmdType =? VLAN_ADD_ON_MST_E then
    let* u0 := w 1%nat in let* u1 := w 2%nat in let* t0 := w 3%nat in let* t1 := w 4%nat in
    Done (VLAN_ADD_ON_MST vid (u0, u1) (t0, t1))
  else if cmdType =? VLAN_DEL_ON_MST_E then Done (VLAN_DEL_ON_MST vid)
  else if cmdType =? LINK_CHANGE_EVENT_E then
    let* p := w 0%nat in let* s := w 1%nat in let* speed := w 2%nat in let* d := w 3%nat in
    let* wan := w 4%nat in let* slot := w 5%nat in let* port := w 6%nat in
    Done (LINK_CHANGE_EVENT p s speed d (negb (wan =? 0)) slot port)
  else if cmdType =? STP_GET_SYS_MAC_E then let* mac := rd m 12 6 in Done (STP_GET_SYS_MAC mac)
  else Done OTHER_CMD.

(** ** Links of WAN interfaces *)

Section LinkState.
(** What sysfs says of [eth<slot>-<port>] and of [eth<slot>-<port>.<vlan>]: the
    indices of the bridge and of the interface. *)
Variable wan_br : Z → Z → option (Z * Z).
Variable wan_if : Z → Z → Z → option (Z * Z).

Definition stp_instance_get_port_pnt (st : STP_T) (this : STPM_T) (slot portno : Z) :=
  find_port (fun port => (slot =? port.(slot_no)) && (portno =? port.(port_no))) st
    this.(STPM.ports).

(** The loop over the VLANs from 1 to 4094: the first with an interface in a
    bridge. *)
Fixpoint first_wan_if (slot portno : Z) (vids : list nat) : option (Z * Z) :=
  match vids with
  | [] => None
  | i :: vids =>
      match wan_if slot portno (Z.of_nat i) with
      | Some x => Some x
      | None => first_wan_if slot portno vids
      end
  end.

(** The part of [stp_lnkst_read_socket] after the message was taken apart:
    [ifname] is the name of the interface and [running] its flag.  [pkt_mstid]
    is the instance of the last frame sent, and its new value is returned.  The
    code is always 0.  The speed of 8192 is none of the enumeration. *)
Definition stp_lnkst_event (fuel : nat) (st : STP_T) (pkt_mstid : Z) (ifname : list Z) (running : bool)
    : outcome (STP_T * Z) :=
  if negb (char0 ifname =? 101) then Done (st, pkt_mstid)
  else
    let* '(_, nm) := stp_netlink_parse_slot_port_no (drop 3 ifname) in
    let mstid := if running then pkt_mstid else 0 in
    let status := if running then 0 else 1 in
    let* found := stp_stpm_get_instance st mstid in
    match found with
    | None => Done (st, mstid)
    | Some b =>
        let* this := get_stpm st b in
        let* p := stp_instance_get_port_pnt st this nm.(if_slot) nm.(if_port) in
        match p with
        | None => Done (st, mstid)
        | Some p =>
            if negb (nm.(if_sub) =? 0) then Done (st, mstid)
            else
              let* port := get_port st p in
              let portindex := port.(port_index) in
              let* links :=
                if LINK_PORT_UP_E =? status then stp_bitmap_set_bit st st.(enabled_ports) portindex
                else stp_bitmap_clear_bit st st.(enabled_ports) portindex in
              let st := st <| enabled_ports := links |> in
              if negb st.(g_flag) then Done (st, mstid)
              else
                let* '(st, _) := stp_in_enable_port_on_stpm wan_br fuel st portindex true
                  (negb (status =? 0)) 8192 true nm.(if_slot) nm.(if_port) in
                let* st :=
                  if mstid =? 0 then Done st
                  else match first_wan_if nm.(if_slot) nm.(if_port) (seq 1 4094) with
                  | None => Done st
                  | Some (br, ifi) =>
                      let* st := upd_port p (fun port =>
                        port <| port_ifindex := ifi |> <| br_ifindex := br |>) st in
                      Done (emit (WAN_STATE br ifi NAM_STP_PORT_STATE_DISCARD_E) st)
                  end in
                let* st := stp_port_init st p b true in
                Done (st, mstid)
        end
    end.
End LinkState.
