(* ===== verification/StpManage.v ===== *)
(** * Memory safety of starting and configuring

    Starting and enabling an instance, its configuration, the configuration of
    a port and link events: on a well-formed bridge they dereference no NULL and
    no dangling pointer, index no table outside its bounds, and keep the frame
    (link events may enter a speed in the table).  They are proved against the
    interface [SafeStater] of the machines and the safety of the engine. *)

From Stdlib Require Import ZArith Lia.
From stdpp Require Import base gmap list option.
From S2P Require Import Prelude StpTypes StpVector StpTo StpHeap StpStatmch StpPort StpRoletrns StpTransmit StpFrame StpReceive StpStpm StpSafety StpIn.

(** ** Initialisation of a port *)

Definition links_ok (st : STP_T) : Prop := length st.(enabled_ports) = 9%nat.

(** A bit is read inside the bitmap for every index the daemon accepts. *)
Lemma get_bit_total st bm idx :
  index_ok st.(productId) st.(stp_is_distributed) idx = true → length bm = 9%nat →
  ∃ v, stp_bitmap_get_bit st bm idx = Done v.
Proof.
  unfold index_ok, stp_bitmap_get_bit. destruct (bit_position _ _ _) as [index byte]. intros H Hl.
  bool_facts. destruct (Z.leb_spec byte 7); [|by exists (-1)].
  destruct (part_Some bm index) as (v & -> & _); [..|by eexists].
  all: match goal with H : _ || _ = true |- _ => apply orb_true_iff in H as [H|H] end; bool_facts; lia || done.
Qed.

Lemma port_init_total st p b check this stpm :
  st.(port_heap) !! p = Some this → st.(stpm_heap) !! b = Some stpm →
  index_ok st.(productId) st.(stp_is_distributed) this.(port_index) = true →
  links_ok st → tables_ok st →
  ∃ this', stp_port_init st p b check = Done (put_port st p this') ∧ pshape this' = pshape this.
Proof.
  intros Hp Hb Hi Hl Ht. unfold stp_port_init, stp_to_get_port_link_status.
  rewrite (get_port_Some _ _ _ Hp). cbn [obind].
  destruct (get_bit_total st st.(enabled_ports) this.(port_index) Hi Hl) as (v & ->).
  rewrite (get_stpm_Some _ _ _ Hb). cbn [obind].
  destruct (index_ok_range _ _ _ Hi) as [? Hne]. unfold PORT_INDEX_MAX in Hne.
  assert (Hin : u32 this.(port_index) ≠ PORT_INDEX_MAX) by (rewrite u32_small; unfold PORT_INDEX_MAX; lia).
  destruct check; cbn [obind];
    match goal with |- context [stp_to_get_port_oper_speed st ?x] =>
      destruct (oper_speed_total st x Ht Hin) as (s & -> & _) end;
    cbn [obind]; eexists; done.
Qed.

(** What starting needs of the state, besides well-formedness. *)
Definition start_ok (st : STP_T) : Prop :=
  engine_ok st ∧ links_ok st ∧ st.(g_curBPDU) = None.

Lemma start_ok_frame st st' : frame st st' → start_ok st → start_ok st'.
Proof.
  intros F (Ok & Hl & Hc). split_and!.
  - by eapply engine_ok_frame.
  - unfold links_ok. by rewrite (fr_links _ _ F).
  - by rewrite (fr_cur _ _ F).
Qed.

Lemma port_init_safe st p b check :
  start_ok st → is_Some (st.(port_heap) !! p) → is_Some (st.(stpm_heap) !! b) →
  wp (stp_port_init st p b check) (frame st).
Proof.
  intros (Ok & Hl & _) [this Hp] [stpm Hb].
  destruct (wf_port_owner _ _ _ (proj1 Ok) Hp) as (_ & Ei & _).
  destruct (port_init_total st p b check this stpm) as (this' & -> & E); try done.
  - rewrite Ei. by eapply wf_port_index; [apply Ok|].
  - apply Ok.
  - by eapply put_frame; [reflexivity|exists this|].
Qed.

(** ** Starting an instance *)

Lemma copy_address_safe a b st :
  is_Some (st.(stpm_heap) !! b) → wp (copy_address a b st) (frame st).
Proof.
  intros [stpm H]. unfold copy_address. rewrite (get_stpm_Some _ _ _ H). cbn [obind].
  eapply put_stpm_frame; [reflexivity|by apply get_stpm_Some|done].
Qed.

Lemma frame_stpm st st' b : frame st st' → is_Some (st.(stpm_heap) !! b) → is_Some (st'.(stpm_heap) !! b).
Proof. intros F [x H]. destruct (same_stpm _ _ _ _ (fr_shape _ _ F) H) as (y & ? & _). eauto. Qed.

Lemma frame_port st st' p : frame st st' → is_Some (st.(port_heap) !! p) → is_Some (st'.(port_heap) !! p).
Proof. intros F [x H]. destruct (same_port _ _ _ _ (fr_shape _ _ F) H) as (y & ? & _). eauto. Qed.

Lemma frame_port_back st st' p : frame st st' → is_Some (st'.(port_heap) !! p) → is_Some (st.(port_heap) !! p).
Proof.
  intros F [x H]. destruct (same_port _ _ _ _ (symmetry (fr_shape _ _ F)) H) as (y & ? & _). eauto.
Qed.

Lemma after_subset c l : after c l ⊆ l.
Proof.
  induction l as [|b l IH]; simpl; [done|]. case_match; intros x Hx; right; [done|by apply IH].
Qed.

Lemma start_bridge_id_safe st b :
  stpm_ok b st → wp (start_bridge_id st b) (fun r => ∀ st', r = Some st' → frame st st').
Proof.
  intros R. destruct (proj2 R) as [this H]. unfold start_bridge_id.
  rewrite (get_stpm_Some _ _ _ H). cbn [obind]. case_match; [|by intros st' [= <-]].
  destruct (stp_stpm_compute_bridge_id st this) as [this'|] eqn:E; [|done].
  assert (Es : sshape this' = sshape this).
  { unfold stp_stpm_compute_bridge_id in E. by case_match; simplify_eq. }
  assert (F : frame st (put_stpm st b this')).
  { eapply put_stpm_frame; [reflexivity|by apply get_stpm_Some|done]. }
  destruct (the_cist_ok _ (engine_ok_frame _ _ F (proj1 R))) as (c & -> & _ & _). cbn [deref obind].
  apply wp_bind. eapply (wp_mono _ (frame st)); [|by intros st2 F2 st' [= <-]].
  apply (wp_foldM (frame st)); [|done]. intros x s Hx Fs.
  eapply wp_mono; [apply copy_address_safe|intros s' F'; by etransitivity].
  eapply frame_stpm; [exact Fs|]. apply instances_exist; [apply R|]. by apply after_subset in Hx.
Qed.

Lemma init_machine_safe s st : runs_safely s st →
  wp (stp_stpm_init_machine s st) (fun r => frame st r.1).
Proof.
  intros (P & SS & HP). assert (P0 := HP st (reflexivity st)). unfold stp_stpm_init_machine.
  apply wp_bind. eapply wp_mono; [exact (ss_begin st P0)|]. intros st1 [P1 F1].
  apply wp_bind. eapply wp_mono; [exact (sm_enter st1 P1)|]. intros st2 [P2 F2].
  simpl. by etransitivity.
Qed.

Lemma init_callback_ok : callback_ok stp_stpm_init_machine.
Proof. intros s st Hs. by apply safe_wp, init_machine_safe. Qed.

Lemma transmit_runs p st : cist_port_ok p st → runs_safely (transmit_stater p) st.
Proof.
  intros R. apply runs_cist; [apply _|apply _| |done]. intros s R'.
  destruct (cist_port_machines p s R') as (port & H & _ & [m E] & _). by exists port, m.
Qed.

Lemma receive_runs p st : cist_port_ok p st → st.(g_curBPDU) = None → runs_safely (receive_stater p) st.
Proof.
  intros R Hc. exists (receive_ok p). split.
  - split; [apply _|]. intros s Rr. destruct (cist_port_machines p s (proj1 Rr)) as (port & H & _ & _ & _ & _ & [m E]).
    simpl. rewrite (mach_of_Done receive_field _ _ _ _ H E). cbn [obind]. by eapply receive_ok_put.
  - intros s F. assert (R' := cist_port_ok_frame _ _ _ F R). split; [done|].
    apply receive_ready_none; [by apply cist_ok_ready|]. by rewrite (fr_cur _ _ F).
Qed.

Lemma init_ports_safe (mk : PORT_REF → STATER) b st :
  stpm_ok b st → (∀ p, port_ok p st → p.1 = b → runs_safely (mk p) st) →
  wp (init_ports mk st b) (frame st).
Proof.
  intros R Hmk. destruct (proj2 R) as [stpm H]. unfold init_ports.
  rewrite (get_stpm_Some _ _ _ H). cbn [obind]. apply wp_foldM; [|reflexivity].
  intros p s Hp F. destruct (stpm_ports_ok _ _ _ _ R H Hp) as [Rp Ep].
  apply wp_bind. eapply wp_mono; [apply init_machine_safe; eapply runs_frame; [exact F|by apply Hmk]|].
  intros [s' n] F'. simpl. by etransitivity.
Qed.

(** A step that keeps the frame, followed by the rest of the function. *)
Lemma safe_frame_bind {A B} st (m : outcome A) (fst_of : A → STP_T) (k : A → outcome B) (Q : B → Prop) :
  safe m (fun a => frame st (fst_of a)) → (∀ a, frame st (fst_of a) → safe (k a) Q) →
  safe (obind k m) Q.
Proof. intros H Hk. apply safe_bind. by eapply safe_mono. Qed.

Lemma stpm_ok_start b st : start_ok st → is_Some (st.(stpm_heap) !! b) → stpm_ok b st.
Proof. intros [Ok _] H. by split. Qed.

(** The steps of [stp_stpm_start], from any state with the frame of [st]. *)
Section Start.
Context (st : STP_T) (b : Z) (Ok : start_ok st) (Hb : is_Some (st.(stpm_heap) !! b)).

Lemma start_frame_ok s : frame st s → start_ok s ∧ stpm_ok b s.
Proof.
  intros F. assert (Os := start_ok_frame _ _ F Ok). split; [done|].
  apply stpm_ok_start; [done|by eapply frame_stpm].
Qed.

Lemma start_cist_port s p :
  frame st s → b = STP_CIST_ID → port_ok p s → p.1 = b → cist_port_ok p s.
Proof. intros F Eb Rp Ep. split; [done|congruence]. Qed.

Lemma start_ports_safe l s :
  (∀ p, p ∈ l → is_Some (st.(port_heap) !! p)) → frame st s →
  safe (foldM (fun p st => stp_port_init st p b true) l s) (frame st).
Proof.
  intros Hl. apply (safe_foldM (frame st)). intros p s' Hp F. apply safe_wp.
  destruct (start_frame_ok s' F) as [Os Rs].
  eapply wp_mono; [apply port_init_safe; [done|eapply frame_port; [exact F|by apply Hl]|apply Rs]|].
  intros s2 F'. by etransitivity.
Qed.

Lemma start_machines_safe s : frame st s →
  safe (if b =? STP_CIST_ID then
          let* s := stp_stpm_mst_init_receive s b in stp_stpm_mst_init_transmit s b
        else Done s) (frame st).
Proof.
  intros F. destruct (Z.eqb_spec b STP_CIST_ID) as [Eb|_]; [|done].
  eapply (safe_frame_bind st _ id); [apply safe_wp; eapply wp_mono; [apply init_ports_safe|]|].
  - by apply start_frame_ok.
  - intros p Rp Ep. apply receive_runs; [by apply start_cist_port|]. by apply start_frame_ok.
  - intros s' F'. by etransitivity.
  - intros s' F'. apply safe_wp. eapply wp_mono; [apply init_ports_safe; [by apply start_frame_ok|]|].
    + intros p Rp Ep. apply transmit_runs. by apply start_cist_port.
    + intros s2 F2. by etransitivity.
Qed.

(** A step of the CIST only. *)
Lemma start_if_cist s (m : outcome STP_T) :
  frame st s → (b = STP_CIST_ID → stpm_ok STP_CIST_ID s → safe m (frame s)) →
  safe (if b =? STP_CIST_ID then m else Done s) (frame st).
Proof.
  intros F Hm. destruct (Z.eqb_spec b STP_CIST_ID) as [Eb|_]; [|done].
  eapply safe_mono; [apply Hm; [done|]|intros s' F'; by etransitivity].
  destruct (start_frame_ok s F) as [_ R]. by rewrite Eb in R.
Qed.

Lemma stpm_start_safe fuel : safe (stp_stpm_start fuel st b) (fun r => frame st r.1).
Proof.
  unfold stp_stpm_start.
  apply safe_bind, safe_wp. eapply wp_mono; [apply start_bridge_id_safe; by apply stpm_ok_start|].
  intros [st0|] F0; [|exact (reflexivity st)]. specialize (F0 st0 eq_refl).
  destruct (start_frame_ok st0 F0) as [[[W0 _] _] [_ [this Hthis]]].
  rewrite (get_stpm_Some _ _ _ Hthis). cbn [obind].
  rewrite (wf_stpm_vlan _ _ _ W0 Hthis).
  eapply (safe_frame_bind st _ id).
  { apply start_ports_safe; [|by eapply put_stpm_frame; [|apply get_stpm_Some|]].
    intros p Hp. eapply frame_port_back; [exact F0|].
    destruct (wf_on_list _ _ _ _ W0 Hthis Hp) as (_ & x & ?). eauto. }
  intros st2 F2. eapply (safe_frame_bind st _ id); [by apply start_machines_safe|].
  intros st3 F3. eapply (safe_frame_bind st _ fst).
  { eapply safe_mono; [apply iterate_safe; [apply init_callback_ok|by apply start_frame_ok]|].
    intros [s n] F. by etransitivity. }
  intros [st4 n4] F4. eapply (safe_frame_bind st _ id).
  { apply start_if_cist; [done|]. intros _ [Ok4 _]. apply update_receive_safe; [done|].
    by apply (start_frame_ok _ F4). }
  intros st5 F5. eapply (safe_frame_bind st _ fst).
  { eapply safe_mono; [by apply update_safe, start_frame_ok|]. intros r F. by etransitivity. }
  intros [st6 n6] F6. eapply (safe_frame_bind st _ id); [|intros st7 F7; exact F7].
  apply start_if_cist; [done|]. intros -> R6. by apply update_transmit_safe.
Qed.
End Start.

(** ** Enabling and configuring an instance *)

Lemma set_admin_state_safe st b s :
  is_Some (st.(stpm_heap) !! b) → wp (set_admin_state st b s) (frame st).
Proof.
  intros [stpm H]. unfold set_admin_state. rewrite (get_stpm_Some _ _ _ H). cbn [obind].
  eapply put_stpm_frame; [reflexivity|by apply get_stpm_Some|done].
Qed.

Lemma stpm_enable_safe fuel st b s :
  start_ok st → is_Some (st.(stpm_heap) !! b) →
  safe (stp_stpm_enable fuel st b s) (fun r => frame st r.1).
Proof.
  intros Ok Hb. destruct (Hb) as [stpm H]. unfold stp_stpm_enable.
  rewrite (get_stpm_Some _ _ _ H). cbn [obind]. case_match; [exact (reflexivity st)|].
  destruct s.
  - eapply (safe_frame_bind st _ id); [by apply safe_wp, set_admin_state_safe|].
    intros st1 F1. eapply (safe_frame_bind st _ id); [|intros st2 F2; exact F2].
    apply safe_wp. eapply wp_mono; [apply set_admin_state_safe; by eapply frame_stpm|].
    intros s' F'. by etransitivity.
  - eapply (safe_frame_bind st _ fst); [by apply stpm_start_safe|]. intros [st1 rc] F1. simpl in F1.
    eapply (safe_frame_bind st _ id); [|intros st2 F2; exact F2].
    apply safe_wp. eapply wp_mono; [apply set_admin_state_safe; by eapply frame_stpm|].
    intros s' F'. by etransitivity.
Qed.

(** A loop over existing ports that assigns to each keeps the frame. *)
Lemma upd_ports_safe st l f :
  (∀ q, q ∈ l → is_Some (st.(port_heap) !! q)) → (∀ x, pshape (f x) = pshape x) →
  wp (upd_ports l f st) (frame st).
Proof.
  intros Hl Hf. assert (E := upd_ports_map l f st Hl). rewrite E.
  exact (upd_ports_frame st st _ l f (reflexivity st) Hf E).
Qed.

Lemma stpm_list_exists st b stpm q :
  wf st → st.(stpm_heap) !! b = Some stpm → q ∈ stpm.(STPM.ports) → is_Some (st.(port_heap) !! q).
Proof. intros W H Hq. destruct (wf_on_list _ _ _ _ W H Hq) as (_ & x & ?). eauto. Qed.

Lemma after_bridge_management_safe st b :
  engine_ok st → is_Some (st.(stpm_heap) !! b) →
  wp (stp_stpm_update_after_bridge_management st b) (frame st).
Proof.
  intros Ok [stpm H]. unfold stp_stpm_update_after_bridge_management.
  rewrite (get_stpm_Some _ _ _ H). cbn [obind].
  apply upd_ports_safe; [|done]. intros q Hq. eapply stpm_list_exists; [apply Ok|done..].
Qed.

Lemma set_cfg_safe fuel st b uid :
  start_ok st → is_Some (st.(stpm_heap) !! b) →
  safe (stp_in_stpm_set_cfg fuel st b uid) (fun r => frame st r.1).
Proof.
  intros Ok [this H]. unfold stp_in_stpm_set_cfg. rewrite (get_stpm_Some _ _ _ H). cbn [obind].
  set (old := merge_cfg _ _). eapply (safe_frame_bind st _ id).
  { apply safe_wp. case_match; [|apply wp_Done; reflexivity].
    apply upd_ports_safe; [|done]. intros q Hq. eapply stpm_list_exists; [apply Ok|done..]. }
  intros st1 F1. assert (Ok1 := start_ok_frame _ _ F1 Ok).
  assert (Hb1 : is_Some (st1.(stpm_heap) !! b)) by (eapply frame_stpm; [exact F1|by exists this]).
  cbv zeta. case_match; [done|]. case_match.
  { eapply safe_mono; [by apply stpm_enable_safe|]. intros r F. by etransitivity. }
  set (st2 := put_stpm st1 b (store_cfg old this)).
  assert (F2 : frame st st2).
  { destruct Hb1 as [this1 Hs1]. eapply put_stpm_frame; [done|by apply get_stpm_Some|].
    destruct (same_stpm _ _ _ _ (fr_shape _ _ F1) H) as (y & Hy & Ey). unfold id in Hy. rewrite Hs1 in Hy. injection Hy as <-. exact (eq_sym Ey). }
  assert (Ok2 := start_ok_frame _ _ F2 Ok).
  assert (Hb2 : is_Some (st2.(stpm_heap) !! b)) by (eapply frame_stpm; [exact F2|by exists this]).
  eapply (safe_frame_bind st _ fst).
  { case_match; [|exact F2]. eapply safe_mono; [by apply stpm_enable_safe|].
    intros r F. by etransitivity. }
  intros [st3 rc] F3. simpl in F3. case_match; [done|].
  assert (Ok3 := start_ok_frame _ _ F3 Ok).
  assert (Hb3 : is_Some (st3.(stpm_heap) !! b)) by (eapply frame_stpm; [exact F3|by exists this]).
  destruct Hb3 as [this3 Hs3]. rewrite (get_stpm_Some _ _ _ Hs3). cbn [obind].
  case_match; [|done]. eapply (safe_frame_bind st _ id).
  { apply safe_wp. eapply wp_mono; [apply after_bridge_management_safe; [apply Ok3|by exists this3]|].
    intros s F. by etransitivity. }
  intros st4 F4. destruct (start_ok_frame _ _ F4 Ok) as (Ok4 & _ & Hc4).
  eapply (safe_frame_bind st _ id); [|intros s F; exact F].
  eapply safe_mono; [by apply mst_update_safe|]. intros s F. by etransitivity.
Qed.

(** ** Configuring a port *)

(** The engine run for a CIST port, with no frame being processed. *)
Lemma update_for_port_safe fuel st c :
  start_ok st → c.1 = STP_CIST_ID → is_Some (st.(port_heap) !! c) →
  safe (stp_stpm_mst_update fuel st (Some c)) (frame st).
Proof.
  intros (Ok & _ & Hc) Ec Hp. apply mst_update_safe; [done|].
  assert (R : cist_port_ok c st) by (split; [by split|done]).
  split; [done|]. by apply receive_ready_none; [apply cist_ok_ready|].
Qed.

Lemma apply_port_cfg_shape v uid port : pshape (apply_port_cfg v uid port) = pshape port.
Proof. unfold apply_port_cfg. by repeat (case_match; simpl). Qed.

Lemma set_port_cfg_safe fuel st p uid :
  start_ok st → is_Some (st.(port_heap) !! p) →
  safe (stp_in_set_port_cfg fuel st p uid) (fun r => frame st r.1).
Proof.
  intros Ok [port H]. unfold stp_in_set_port_cfg. rewrite (get_port_Some _ _ _ H). cbn [obind].
  destruct (wf_port_owner _ _ _ (proj1 (proj1 Ok)) H) as (Eo & Ei & stpm & Hs).
  rewrite Eo, (get_stpm_Some _ _ _ Hs). cbn [obind].
  set (port1 := apply_port_cfg _ _ _). set (st1 := put_port st p port1).
  assert (F1 : frame st st1).
  { eapply put_frame; [reflexivity|by exists port|apply apply_port_cfg_shape]. }
  assert (Ok1 := start_ok_frame _ _ F1 Ok).
  rewrite Ei. destruct (findport_cist st1 p port1) as (c & cport & Ef & Ec & Hc);
    [apply Ok1|apply put_port_lookup|]. rewrite Ef. cbn [obind].
  eapply (safe_frame_bind st _ id); [|intros s F; exact F].
  eapply safe_mono; [by apply update_for_port_safe; [| |exists cport]|]. intros s F. by etransitivity.
Qed.

(** ** Link events *)

Lemma each_enabled_port_safe f idx st :
  wf st → (∀ x, pshape (f x) = pshape x) → wp (each_enabled_port f idx st) (frame st).
Proof.
  intros W Hf. unfold each_enabled_port. apply wp_foldM; [|reflexivity]. intros b s Hb F.
  assert (Ws := wf_same _ _ (fr_shape _ _ F) W).
  destruct (frame_stpm _ _ b F (instances_exist st W b Hb)) as [stpm H].
  rewrite (get_stpm_Some _ _ _ H). cbn [obind]. case_match; [done|].
  unfold stp_in_port_find. apply wp_bind. eapply wp_mono; [apply find_port_total|].
  { intros q Hq. by eapply stpm_list_exists. }
  intros [q|] Hq; [|done]. destruct (Hq q eq_refl) as [Hin _].
  destruct (stpm_list_exists _ _ _ _ Ws H Hin) as [x Hx]. unfold upd_port.
  rewrite (get_port_Some _ _ _ Hx). cbn [obind].
  apply (put_frame st s q x (f x)); [done|by eapply get_shaped, get_port_Some|done].
Qed.

Section Wan.
Context (wan_br : Z → Z → option (Z * Z)).

Lemma enable_one_port_safe enable link wan slot portno q st :
  start_ok st → is_Some (st.(port_heap) !! q) →
  wp (enable_one_port wan_br enable link wan slot portno q st) (fun r => frame st r.1).
Proof.
  intros Ok [port H]. unfold enable_one_port. rewrite (get_port_Some _ _ _ H). cbn [obind].
  destruct (wf_port_owner _ _ _ (proj1 (proj1 Ok)) H) as (Eo & _ & Hs).
  assert (Hfin : ∀ st1 port1, frame st st1 → pshape port1 = pshape port →
    wp (let* st := stp_port_init (put_port st1 q port1) q port1.(owner) false in
        let* st := upd_port q (fun port => port <| reselect := true |> <| selected := false |>) st in
        Done (st, true)) (fun r => frame st r.1)).
  { intros st1 port1 F1 E1. pose proof (f_equal sh_owner E1) as Eo1. simpl in Eo1. rewrite Eo1, Eo.
    assert (F2 : frame st (put_port st1 q port1)).
    { eapply put_frame; [done|by exists port|done]. }
    apply wp_bind. eapply wp_mono; [apply port_init_safe; [by eapply start_ok_frame|..]|].
    - rewrite put_port_lookup. eauto.
    - eapply frame_stpm; [exact F2|done].
    - intros st3 F3. assert (F3' : frame st st3) by (by etransitivity).
      destruct (frame_port _ _ q F3' ltac:(by exists port)) as [x Hx]. unfold upd_port.
      rewrite (get_port_Some _ _ _ Hx). cbn [obind]. apply wp_Done.
      apply (put_frame st st3 q x); [done|by eapply get_shaped, get_port_Some|done]. }
  assert (Hput : ∀ port1, pshape port1 = pshape port → frame st (put_port st q port1)).
  { intros. by eapply put_frame; [|exists port|]. }
  destruct wan; [destruct (wan_br slot portno) as [[br ifi]|]|].
  - apply Hfin; [|by destruct enable]. apply emit_frame; [exact I|]. apply access_frame; [by right|reflexivity].
  - simpl. apply Hput. by destruct enable.
  - apply Hfin; [reflexivity|by destruct enable].
Qed.

Lemma enable_chain_safe enable link wan slot portno l st :
  start_ok st → (∀ q, q ∈ l → is_Some (st.(port_heap) !! q)) →
  wp (enable_chain wan_br enable link wan slot portno l st) (fun r => frame st r.1).
Proof.
  revert st. induction l as [|q l IH]; intros st Ok Hl; simpl; [reflexivity|].
  apply wp_bind. eapply wp_mono; [apply enable_one_port_safe; [done|apply Hl; left]|].
  intros [st1 go] F1. simpl in F1. destruct go; [|done].
  eapply wp_mono; [apply IH; [by eapply start_ok_frame|]|].
  - intros r Hr. eapply frame_port; [exact F1|]. apply Hl. by right.
  - intros r F2. by etransitivity.
Qed.

Lemma ports_entry_in idx st : 0 ≤ idx < PORT_INDEX_MAX → stp_ports_entry idx st = st.
Proof. intros H. unfold stp_ports_entry. by rewrite (proj2 (Z.leb_le _ _)), (proj2 (Z.ltb_lt _ _)) by lia. Qed.

Lemma enable_port_safe fuel st idx link wan enable slot portno :
  start_ok st → is_Some st.(port_speed_s) → 0 ≤ idx < PORT_INDEX_MAX →
  safe (enable_port_on_stpm wan_br fuel st idx link wan enable slot portno)
    (fun r => frame st r.1).
Proof.
  intros Ok [t Et] Hi. unfold enable_port_on_stpm. assert (W := proj1 (proj1 Ok)).
  rewrite Et. cbn [deref obind]. rewrite ports_entry_in by done.
  apply safe_bind, safe_wp. eapply wp_mono; [by apply findport_spec|].
  intros [c|] Hc; [|exact (reflexivity st)]. destruct (Hc c eq_refl) as [Ec Hp].
  destruct (Hp) as [cport H]. rewrite (get_port_Some _ _ _ H). cbn [obind].
  eapply (safe_frame_bind st _ fst).
  { apply safe_wp, enable_chain_safe; [done|]. intros q [->|Hq]%elem_of_cons; [done|].
    by destruct (wf_nextMst _ _ _ _ W H Hq) as (_ & ?). }
  intros [st1 go] F1. simpl in F1. case_match; [done|].
  eapply (safe_frame_bind st _ id).
  { eapply safe_mono; [apply update_for_port_safe; [by eapply start_ok_frame|done|by eapply frame_port]|].
    intros s F. by etransitivity. }
  intros st2 F2. destruct enable; [exact F2|]. simpl. by apply count_frame.
Qed.
End Wan.
