(* ===== verification/StpDaemon.v ===== *)
(** * Creating and deleting instances and ports

    The functions that change the shape of the heap keep it well formed.  The
    first part is about shapes: what a new or a removed instance or port does to
    well-formedness; the second shows that the functions of [stp_stpm.c] and
    [stp_port.c] do just that to the shape, and fail nowhere. *)

From Stdlib Require Import ZArith Lia String.
From stdpp Require Import base gmap list option.
From S2P Require Import Prelude StpTypes StpVector StpTo StpHeap StpStatmch StpPort StpRoletrns StpTransmit StpFrame StpReceive StpStpm StpSafety StpIn StpManage.

(** ** Shapes *)

Section Shapes.
Context (s : SHAPE) (W : wf_shape s).

(** A new instance without ports. *)
Lemma wf_add_stpm b z l :
  z.(sh_list) = [] → z.(sh_vlan) = b →
  s.(sh_stpms) !! b = None → 0 ≤ b ≤ STP_MSTI_MAX →
  (∀ x, x ∈ l ↔ x = b ∨ x ∈ s.(sh_bridges)) → NoDup l →
  (b = STP_CIST_ID ∨ s.(sh_cist) = Some STP_CIST_ID) →
  wf_shape (mkShape l (Some STP_CIST_ID) (<[b := z]> s.(sh_stpms))
    s.(sh_ports) s.(sh_cistport) s.(sh_product) s.(sh_distributed)).
Proof.
  intros Ez Ev Hb Hr Hl Hn Hc.
  assert (Hold : ∀ x, is_Some (s.(sh_stpms) !! x) → is_Some (<[b := z]> s.(sh_stpms) !! x)).
  { intros x Hx. destruct (decide (b = x)) as [->|]; [by rewrite lookup_insert_eq|by rewrite lookup_insert_ne]. }
  destruct W as [W1 Wd W2 W3 W4 W5 W6 W7 W8 W9 W10 W11 W12 W13 W14]. split; simpl; try done.
  - intros x [->|Hx]%Hl; [by rewrite lookup_insert_eq|]. by apply Hold, W1.
  - intros x [= <-]. split; [done|]. destruct Hc as [->|Hc]; [by rewrite lookup_insert_eq|].
    apply Hold. by apply W2.
  - intros x y [[<- <-]|[Hne Hx]]%lookup_insert_Some; [split_and!; [done|lia..|apply Hl; by left]|].
    destruct (W4 x y Hx) as (? & ? & ?). split_and!; [done|lia..|apply Hl; by right].
  - intros x y q [[<- <-]|[_ Hx]]%lookup_insert_Some Hq; [|by eapply W5].
    rewrite Ez in Hq. by apply not_elem_of_nil in Hq.
  - intros x y [[<- <-]|[_ Hx]]%lookup_insert_Some; [rewrite Ez; apply NoDup_nil_2|by eapply W6].
  - intros q x Hq. destruct (W7 q x Hq) as (? & ? & ? & y & Hy & Hin). split_and!; [done..|].
    exists y. rewrite lookup_insert_ne by (intros ->; congruence). done.
Qed.

(** An instance without ports that is not the CIST goes. *)
Lemma wf_del_stpm b x l :
  s.(sh_stpms) !! b = Some x → x.(sh_list) = [] → b ≠ STP_CIST_ID →
  (∀ y, y ∈ l ↔ y ≠ b ∧ y ∈ s.(sh_bridges)) → NoDup l →
  wf_shape (mkShape l s.(sh_cist) (delete b s.(sh_stpms))
    s.(sh_ports) s.(sh_cistport) s.(sh_product) s.(sh_distributed)).
Proof.
  intros Hb He Hc Hl Hn.
  assert (Hold : ∀ y, y ≠ b → delete b s.(sh_stpms) !! y = s.(sh_stpms) !! y).
  { intros y Hy. by rewrite lookup_delete_ne. }
  destruct W as [W1 Wd W2 W3 W4 W5 W6 W7 W8 W9 W10 W11 W12 W13 W14]. split; simpl; try done.
  - intros y [Hy Hin]%Hl. rewrite Hold by done. by apply W1.
  - intros y Hy. destruct (W2 y Hy) as [-> ?]. split; [done|]. by rewrite Hold.
  - intros y z [_ Hz]%lookup_delete_Some. by eapply W3.
  - intros y z [Hne Hz]%lookup_delete_Some. destruct (W4 y z Hz) as (? & ? & ?).
    split_and!; [done|lia..|by apply Hl].
  - intros y z q [_ Hz]%lookup_delete_Some. by apply W5.
  - intros y z [_ Hz]%lookup_delete_Some. by eapply W6.
  - intros q y Hq. destruct (W7 q y Hq) as (? & ? & ? & z & Hz & Hin). split_and!; [done..|].
    exists z. rewrite Hold; [done|]. intros E. rewrite E in Hz. simplify_eq. rewrite He in Hin.
    by apply not_elem_of_nil in Hin.
Qed.

(** The VLANs and the identifier of an instance play no part. *)
Lemma wf_relabel b x y :
  s.(sh_stpms) !! b = Some x → y.(sh_list) = x.(sh_list) → y.(sh_vlan) = x.(sh_vlan) →
  wf_shape (mkShape s.(sh_bridges) s.(sh_cist) (<[b := y]> s.(sh_stpms))
    s.(sh_ports) s.(sh_cistport) s.(sh_product) s.(sh_distributed)).
Proof.
  intros Hb El Ev.
  assert (Hs : ∀ c, is_Some (s.(sh_stpms) !! c) → is_Some (<[b := y]> s.(sh_stpms) !! c)).
  { intros c Hc. destruct (decide (b = c)) as [<-|]; [by rewrite lookup_insert_eq|by rewrite lookup_insert_ne]. }
  destruct W as [W1 Wd W2 W3 W4 W5 W6 W7 W8 W9 W10 W11 W12 W13 W14]. split; simpl; try done.
  - intros c Hc. by apply Hs, W1.
  - intros c Hc. destruct (W2 c Hc). split; [done|by apply Hs].
  - intros c z [[<- <-]|[_ Hz]]%lookup_insert_Some; by eapply W3.
  - intros c z [[<- <-]|[_ Hz]]%lookup_insert_Some; [rewrite Ev; by apply W4|by apply W4].
  - intros c z q [[<- <-]|[_ Hz]]%lookup_insert_Some; [rewrite El|]; by eapply W5.
  - intros c z [[<- <-]|[_ Hz]]%lookup_insert_Some; [rewrite El|]; by eapply W6.
  - intros q z Hq. destruct (W7 q z Hq) as (? & ? & ? & v & Hv & Hin). split_and!; [done..|].
    destruct (decide (b = q.1)) as [->|].
    + rewrite lookup_insert_eq. eexists; split; [done|]. rewrite El. congruence.
    + rewrite lookup_insert_ne by done. eauto.
Qed.

(** A new port at the head of its instance's list; [t] is the new array of CIST
    ports. *)
Lemma wf_new_port p x y t :
  s.(sh_stpms) !! p.1 = Some y → s.(sh_ports) !! p = None →
  x.(sh_owner) = p.1 → x.(sh_index) = p.2 → x.(sh_mstid) = p.1 → x.(sh_next) = [] →
  (p.1 = STP_CIST_ID → x.(sh_migrate) = true ∧ x.(sh_transmit) = true ∧ x.(sh_p2p) = true ∧
     x.(sh_edge) = true ∧ x.(sh_receive) = true) →
  (x.(sh_migrate) = true → p.1 = STP_CIST_ID) →
  index_ok s.(sh_product) s.(sh_distributed) p.2 = true →
  bad_index (index_parse s.(sh_product) s.(sh_distributed) p.2) = false →
  is_Some (t !! index_parse s.(sh_product) s.(sh_distributed) p.2) →
  (∀ i q, t !! i = Some q → q.1 = STP_CIST_ID ∧ is_Some (<[p := x]> s.(sh_ports) !! q)) →
  (∀ i, is_Some (s.(sh_cistport) !! i) → is_Some (t !! i)) →
  wf_shape (mkShape s.(sh_bridges) s.(sh_cist)
    (<[p.1 := with_list (p :: y.(sh_list)) y]> s.(sh_stpms))
    (<[p := x]> s.(sh_ports)) t s.(sh_product) s.(sh_distributed)).
Proof.
  intros Hy Hp Xo Xi Xm Xn Xc Xc' Hi Hbad Ht Htab Hmono.
  destruct W as [W1 Wd W2 W3 W4 W5 W6 W7 W8 W9 W10 W11 W12 W13 W14].
  assert (Hold : ∀ q, is_Some (s.(sh_ports) !! q) → is_Some (<[p := x]> s.(sh_ports) !! q)).
  { intros q Hq. destruct (decide (p = q)) as [->|]; [by rewrite lookup_insert_eq|by rewrite lookup_insert_ne]. }
  assert (Hs : ∀ b, is_Some (s.(sh_stpms) !! b) →
    is_Some (<[p.1 := with_list (p :: y.(sh_list)) y]> s.(sh_stpms) !! b)).
  { intros b Hb. destruct (decide (p.1 = b)) as [<-|]; [by rewrite lookup_insert_eq|by rewrite lookup_insert_ne]. }
  assert (Hnew : p ∉ y.(sh_list)).
  { intros Hin. destruct (W5 _ _ _ Hy Hin) as [_ [? ?]]. congruence. }
  split; simpl; try done.
  - intros b Hb. by apply Hs, W1.
  - intros b Hb. destruct (W2 b Hb). split; [done|by apply Hs].
  - intros b z [[<- <-]|[_ Hz]]%lookup_insert_Some; by eapply W3.
  - intros b z [[<- <-]|[_ Hz]]%lookup_insert_Some; [exact (W4 _ _ Hy)|by apply W4].
  - intros b z q [[<- <-]|[_ Hz]]%lookup_insert_Some Hq.
    + apply elem_of_cons in Hq as [->|Hq]; [by rewrite lookup_insert_eq|].
      destruct (W5 _ _ _ Hy Hq). split; [done|by apply Hold].
    + destruct (W5 _ _ _ Hz Hq). split; [done|by apply Hold].
  - intros b z [[<- <-]|[_ Hz]]%lookup_insert_Some; [|by eapply W6].
    simpl. constructor; [done|by eapply W6].
  - intros q z [[<- <-]|[Hne Hq]]%lookup_insert_Some.
    + split_and!; [done..|]. eexists. rewrite lookup_insert_eq. split; [done|left].
    + destruct (W7 q z Hq) as (? & ? & ? & b & Hb & Hin). split_and!; [done..|].
      destruct (decide (p.1 = q.1)) as [E|].
      * rewrite E, lookup_insert_eq. eexists; split; [done|]. right. congruence.
      * rewrite lookup_insert_ne by done. eauto.
  - intros q z [[<- <-]|[Hne Hq]]%lookup_insert_Some; [done|by apply W8].
  - intros q z [[<- <-]|[Hne Hq]]%lookup_insert_Some; [done|by eapply W9].
  - intros q z r [[<- <-]|[Hne Hq]]%lookup_insert_Some Hr.
    + rewrite Xn in Hr. by apply not_elem_of_nil in Hr.
    + destruct (W10 q z r Hq Hr). split; [done|by apply Hold].
  - intros q z [[<- <-]|[Hne Hq]]%lookup_insert_Some; [rewrite Xn; apply NoDup_nil_2|by eapply W11].
  - intros q1 q2 x1 x2 r [[<- <-]|[? H1]]%lookup_insert_Some [[<- <-]|[? H2]]%lookup_insert_Some Hr1 Hr2;
      [done|rewrite Xn in *; by apply not_elem_of_nil in Hr1
      |rewrite Xn in *; by apply not_elem_of_nil in Hr2|by eapply W12].
  - intros q z [[<- <-]|[Hne Hq]]%lookup_insert_Some; [done|].
    destruct (W14 q z Hq) as (? & ? & ?). split_and!; [done..|by apply Hmono].
Qed.

(** The chain of the port [c] becomes [l]. *)
Lemma wf_chain c x l :
  s.(sh_ports) !! c = Some x → NoDup (l.*1) →
  (∀ r, r ∈ l → r ∈ x.(sh_next) ∨
     r.1 ≠ STP_CIST_ID ∧ is_Some (s.(sh_ports) !! r) ∧
     ∀ q y, s.(sh_ports) !! q = Some y → r ∉ y.(sh_next)) →
  wf_shape (mkShape s.(sh_bridges) s.(sh_cist) s.(sh_stpms)
    (<[c := with_next l x]> s.(sh_ports))
    s.(sh_cistport) s.(sh_product) s.(sh_distributed)).
Proof.
  intros Hc Hn Hl. set (x' := with_next l x).
  destruct W as [W1 Wd W2 W3 W4 W5 W6 W7 W8 W9 W10 W11 W12 W13 W14].
  assert (Hold : ∀ q, is_Some (s.(sh_ports) !! q) → is_Some (<[c := x']> s.(sh_ports) !! q)).
  { intros q Hq. destruct (decide (c = q)) as [->|]; [by rewrite lookup_insert_eq|by rewrite lookup_insert_ne]. }
  split; simpl; try done.
  - intros b z q Hz Hq. destruct (W5 b z q Hz Hq). split; [done|by apply Hold].
  - intros q z [[<- <-]|[_ Hq]]%lookup_insert_Some; [exact (W7 _ _ Hc)|by apply W7].
  - intros q z [[<- <-]|[_ Hq]]%lookup_insert_Some; [exact (W8 _ _ Hc)|by apply W8].
  - intros q z [[<- <-]|[_ Hq]]%lookup_insert_Some; [exact (W9 _ _ Hc)|by apply W9].
  - intros q z r [[<- <-]|[_ Hq]]%lookup_insert_Some Hr.
    + destruct (Hl r Hr) as [Hr'|(? & ? & _)]; [|split; [done|by apply Hold]].
      destruct (W10 _ _ _ Hc Hr'). split; [done|by apply Hold].
    + destruct (W10 _ _ _ Hq Hr). split; [done|by apply Hold].
  - intros q z [[<- <-]|[_ Hq]]%lookup_insert_Some; [done|by eapply W11].
  - intros q1 q2 x1 x2 r [[<- <-]|[? H1]]%lookup_insert_Some [[<- <-]|[? H2]]%lookup_insert_Some Hr1 Hr2;
      [done|..|by eapply W12].
    + destruct (Hl r Hr1) as [Hr|(_ & _ & Hno)]; [by eapply W12|by destruct (Hno q2 x2 H2)].
    + destruct (Hl r Hr2) as [Hr|(_ & _ & Hno)]; [by eapply W12|by destruct (Hno q1 x1 H1)].
  - intros i q Hi. destruct (W13 i q Hi). split; [done|by apply Hold].
  - intros q z [[<- <-]|[_ Hq]]%lookup_insert_Some; [exact (W14 _ _ Hc)|by apply (W14 q z)].
Qed.

(** An MSTI port on no chain goes. *)
Lemma wf_del_port p y l :
  s.(sh_stpms) !! p.1 = Some y → p.1 ≠ STP_CIST_ID →
  (∀ q x, s.(sh_ports) !! q = Some x → p ∉ x.(sh_next)) →
  (∀ q, q ∈ l ↔ q ≠ p ∧ q ∈ y.(sh_list)) → NoDup l →
  wf_shape (mkShape s.(sh_bridges) s.(sh_cist) (<[p.1 := with_list l y]> s.(sh_stpms))
    (delete p s.(sh_ports)) s.(sh_cistport) s.(sh_product) s.(sh_distributed)).
Proof.
  intros Hy Hc Hno Hl Hn.
  destruct W as [W1 Wd W2 W3 W4 W5 W6 W7 W8 W9 W10 W11 W12 W13 W14].
  assert (Hs : ∀ b, is_Some (s.(sh_stpms) !! b) →
    is_Some (<[p.1 := with_list l y]> s.(sh_stpms) !! b)).
  { intros b Hb. destruct (decide (p.1 = b)) as [<-|]; [by rewrite lookup_insert_eq|by rewrite lookup_insert_ne]. }
  assert (Hold : ∀ q, q ≠ p → delete p s.(sh_ports) !! q = s.(sh_ports) !! q).
  { intros q Hq. by rewrite lookup_delete_ne. }
  split; simpl; try done.
  - intros b Hb. by apply Hs, W1.
  - intros b Hb. destruct (W2 b Hb). split; [done|by apply Hs].
  - intros b z [[<- <-]|[_ Hz]]%lookup_insert_Some; by eapply W3.
  - intros b z [[<- <-]|[_ Hz]]%lookup_insert_Some; [exact (W4 _ _ Hy)|by apply W4].
  - intros b z q [[<- <-]|[Hne Hz]]%lookup_insert_Some Hq.
    + apply Hl in Hq as [Hq Hin]. rewrite Hold by done. exact (W5 _ _ _ Hy Hin).
    + destruct (W5 _ _ _ Hz Hq) as [<- ?]. rewrite Hold; [done|]. by intros ->.
  - intros b z [[<- <-]|[_ Hz]]%lookup_insert_Some; [done|by eapply W6].
  - intros q z [Hne Hq]%lookup_delete_Some. destruct (W7 q z Hq) as (? & ? & ? & b & Hb & Hin).
    split_and!; [done..|]. destruct (decide (p.1 = q.1)) as [E|].
    + rewrite E, lookup_insert_eq. eexists; split; [done|]. apply Hl. split; [done|]. congruence.
    + rewrite lookup_insert_ne by done. eauto.
  - intros q z [_ Hq]%lookup_delete_Some. by apply W8.
  - intros q z [_ Hq]%lookup_delete_Some. by eapply W9.
  - intros q z r [_ Hq]%lookup_delete_Some Hr. rewrite Hold; [by eapply W10|].
    intros ->. by destruct (Hno q z Hq).
  - intros q z [_ Hq]%lookup_delete_Some. by eapply W11.
  - intros q1 q2 x1 x2 r [_ H1]%lookup_delete_Some [_ H2]%lookup_delete_Some. by eapply W12.
  - intros i q Hi. destruct (W13 i q Hi) as [E ?]. split; [done|]. rewrite Hold; [done|]. by intros ->.
  - intros q z [_ Hq]%lookup_delete_Some. by apply (W14 q z).
Qed.

(** Every MSTI port is on the chain of the CIST port of its physical port. *)
Definition chained (s : SHAPE) : Prop :=
  ∀ q x, s.(sh_ports) !! q = Some x → q.1 ≠ STP_CIST_ID →
    ∃ c y, s.(sh_cistport) !! index_parse s.(sh_product) s.(sh_distributed) q.2 = Some c ∧
      s.(sh_ports) !! c = Some y ∧ q ∈ y.(sh_next).

Context (C : chained s).

Lemma chained_new_cist p x i bs :
  s.(sh_ports) !! p = None → p.1 = STP_CIST_ID → s.(sh_cistport) !! i = None →
  chained (mkShape s.(sh_bridges) s.(sh_cist) bs (<[p := x]> s.(sh_ports))
    (<[i := p]> s.(sh_cistport)) s.(sh_product) s.(sh_distributed)).
Proof.
  intros Hp Hc Hi q z Hq Hne. simpl in *. apply lookup_insert_Some in Hq as [[<- <-]|[_ Hq]]; [done|].
  destruct (C q z Hq Hne) as (c & y & E1 & E2 & Hin). exists c, y. simpl.
  rewrite !lookup_insert_ne by (intros E; simplify_eq). done.
Qed.

Lemma chained_new_msti p x c y bs :
  s.(sh_ports) !! p = None →
  s.(sh_cistport) !! index_parse s.(sh_product) s.(sh_distributed) p.2 = Some c →
  s.(sh_ports) !! c = Some y →
  chained (mkShape s.(sh_bridges) s.(sh_cist) bs
    (<[c := with_next (p :: y.(sh_next)) y]> (<[p := x]> s.(sh_ports)))
    s.(sh_cistport) s.(sh_product) s.(sh_distributed)).
Proof.
  intros Hp Hc Hy q z Hq Hne. simpl in *.
  assert (Hpc : p ≠ c) by (intros ->; simplify_eq).
  destruct (decide (q = p)) as [->|Hqp].
  { exists c, (with_next (p :: y.(sh_next)) y). rewrite lookup_insert_eq. split_and!; [done..|]. left. }
  assert (Hq0 : ∃ z, s.(sh_ports) !! q = Some z).
  { destruct (decide (c = q)) as [<-|]; [eauto|]. rewrite !lookup_insert_ne in Hq by done. eauto. }
  destruct Hq0 as [z0 Hq0]. destruct (C q z0 Hq0 Hne) as (c' & y' & E1 & E2 & Hin).
  exists c'. destruct (decide (c = c')) as [<-|].
  - rewrite lookup_insert_eq. eexists. split_and!; [done..|]. right. congruence.
  - exists y'. rewrite !lookup_insert_ne by (try done; intros ->; simplify_eq). done.
Qed.

Lemma chained_del p c y l bs :
  p.1 ≠ STP_CIST_ID → s.(sh_ports) !! c = Some y → (∀ q, q ≠ p → q ∈ y.(sh_next) → q ∈ l) →
  chained (mkShape s.(sh_bridges) s.(sh_cist) bs
    (delete p (<[c := with_next l y]> s.(sh_ports)))
    s.(sh_cistport) s.(sh_product) s.(sh_distributed)).
Proof.
  intros Hp Hy Hl q z Hq Hne. simpl in *. apply lookup_delete_Some in Hq as [Hqp Hq].
  assert (Hq0 : ∃ z, s.(sh_ports) !! q = Some z).
  { destruct (decide (c = q)) as [<-|]; [eauto|]. rewrite !lookup_insert_ne in Hq by done. eauto. }
  destruct Hq0 as [z0 Hq0]. destruct (C q z0 Hq0 Hne) as (c' & y' & E1 & E2 & Hin).
  exists c'. rewrite lookup_delete_ne by (intros ->; by destruct (wf_cistport _ W _ _ E1)).
  destruct (decide (c = c')) as [<-|].
  - rewrite lookup_insert_eq. eexists. split_and!; [done..|]. simpl. simplify_eq. by apply Hl.
  - exists y'. rewrite lookup_insert_ne by done. done.
Qed.
End Shapes.

(** ** The state of a daemon at rest *)

Definition daemon_ok (st : STP_T) : Prop :=
  wf st ∧ chained (shape st) ∧ tables_ok st ∧ links_ok st ∧ st.(g_curBPDU) = None.

Lemma daemon_ok_frame st st' : frame st st' → daemon_ok st → daemon_ok st'.
Proof.
  intros F (W & H & T & L & C). split_and!.
  - by rewrite <- (fr_shape _ _ F).
  - by rewrite <- (fr_shape _ _ F).
  - unfold tables_ok. by rewrite (fr_speed _ _ F), (fr_duplex _ _ F).
  - unfold links_ok. by rewrite (fr_links _ _ F).
  - by rewrite (fr_cur _ _ F).
Qed.

Lemma daemon_start_ok st b : daemon_ok st → is_Some (st.(stpm_heap) !! b) → start_ok st.
Proof.
  intros (W & _ & T & L & C) [x H]. split_and!; [split_and!|..]; [done..| |done|done].
  exists STP_CIST_ID. exact (wf_root _ W b _ (shape_stpm _ _ _ H)).
Qed.

(** The tables, the links and the frame of a state, which the functions below
    leave alone. *)
Definition same_rest (st st' : STP_T) : Prop :=
  st'.(port_speed_s) = st.(port_speed_s) ∧ st'.(port_duplex_mode_nodes) = st.(port_duplex_mode_nodes) ∧
  st'.(enabled_ports) = st.(enabled_ports) ∧ st'.(g_curBPDU) = st.(g_curBPDU).

Lemma daemon_ok_rest st st' :
  same_rest st st' → wf st' → chained (shape st') → daemon_ok st → daemon_ok st'.
Proof.
  intros (E1 & E2 & E3 & E4) W' H' (_ & _ & T & L & C). split_and!; [done..| | |].
  - unfold tables_ok. by rewrite E1, E2.
  - unfold links_ok. by rewrite E3.
  - by rewrite E4.
Qed.

(** What else management relies on when ports come and go and the engine runs:
    the VLANs and the configuration identifier of every instance, the instances
    there are, the slots that are taken, and the table of speeds, which stays
    allocated; and the accesses outside a block are those of [daemon_overrun]. *)
Record keeps (st st' : STP_T) : Prop := {
  kp_maps : ∀ b, (fun x => (x.(STPM.vlan_map), x.(STPM.MstConfigId))) <$> st'.(stpm_heap) !! b =
                 (fun x => (x.(STPM.vlan_map), x.(STPM.MstConfigId))) <$> st.(stpm_heap) !! b;
  kp_bridges : st'.(bridges) = st.(bridges);
  kp_cist : st'.(g_CISTBRIDGE) = st.(g_CISTBRIDGE);
  kp_product : st'.(productId) = st.(productId);
  kp_distributed : st'.(stp_is_distributed) = st.(stp_is_distributed);
  kp_slot : st'.(stp_slot_id) = st.(stp_slot_id);
  kp_flag : st'.(g_flag) = st.(g_flag);
  kp_slots : ∀ i, is_Some (st.(g_CISTPORT) !! i) → is_Some (st'.(g_CISTPORT) !! i);
  kp_tables : is_Some st.(port_speed_s) → is_Some st'.(port_speed_s);
  kp_trace : adds daemon_event st st' }.

#[export] Instance keeps_preorder : PreOrder keeps.
Proof.
  split; [by intros st; split|]. intros a b c [M1 ? ? ? ? ? ? S1 T1 A1] [M2 ? ? ? ? ? ? S2 T2 A2].
  split; try congruence; [auto..|]. by etransitivity.
Qed.

Lemma frame_keeps st st' : frame st st' → keeps st st'.
Proof.
  intros F. assert (E : shape st' = shape st) by (symmetry; exact (fr_shape _ _ F)). split.
  - intros b. assert (Eb : sshape <$> st'.(stpm_heap) !! b = sshape <$> st.(stpm_heap) !! b).
    { rewrite <- !lookup_fmap. by apply (f_equal (fun s => s.(sh_stpms) !! b) E). }
    apply (f_equal (fmap (fun s => (s.(sh_map), s.(sh_config))))) in Eb.
    by rewrite <- !option_fmap_compose in Eb.
  - exact (f_equal sh_bridges E).
  - exact (f_equal sh_cist E).
  - exact (f_equal sh_product E).
  - exact (f_equal sh_distributed E).
  - apply (fr_slot _ _ F).
  - apply (fr_flag _ _ F).
  - intros i. by rewrite <- (f_equal sh_cistport E : st'.(g_CISTPORT) = st.(g_CISTPORT)).
  - by rewrite (fr_speed _ _ F).
  - eapply adds_mono; [apply engine_daemon|apply (fr_trace _ _ F)].
Qed.

(** An access the daemon is known to make. *)
Lemma access_keeps st b room len :
  (room < len → daemon_overrun b room len) → keeps st (access b room len st).
Proof.
  intros H. assert (A := adds_access daemon_event st st b room len H (reflexivity st)). revert A.
  destruct (access_traced b room len st) as [t ->]. intros A. by split.
Qed.

Lemma access_daemon st b room len : daemon_ok st → daemon_ok (access b room len st).
Proof. intros Ok. destruct (access_traced b room len st) as [t ->]. exact Ok. Qed.

Lemma keeps_instance st st' b : keeps st st' → is_Some (st'.(stpm_heap) !! b) ↔ is_Some (st.(stpm_heap) !! b).
Proof. intros K. pose proof (kp_maps _ _ K b) as E. destruct (st'.(stpm_heap) !! b), (st.(stpm_heap) !! b); naive_solver. Qed.

Lemma shape_put_port st p port : shape (put_port st p port) =
  mkShape st.(bridges) st.(g_CISTBRIDGE) (sshape <$> st.(stpm_heap))
    (<[p := pshape port]> (pshape <$> st.(port_heap))) st.(g_CISTPORT)
    st.(productId) st.(stp_is_distributed).
Proof. unfold shape, put_port. simpl. by rewrite fmap_insert. Qed.

Lemma shape_put_stpm st b stpm : shape (put_stpm st b stpm) =
  mkShape st.(bridges) st.(g_CISTBRIDGE) (<[b := sshape stpm]> (sshape <$> st.(stpm_heap)))
    (pshape <$> st.(port_heap)) st.(g_CISTPORT) st.(productId) st.(stp_is_distributed).
Proof. unfold shape, put_stpm. simpl. by rewrite fmap_insert. Qed.

(** ** Instances *)

Lemma find_instance_spec st l b :
  wf st → l ⊆ st.(bridges) → wp (find_instance st l b) (fun r =>
    match r with
    | Some c => c = b ∧ b ∈ l
    | None => b ∉ l
    end).
Proof.
  intros W. induction l as [|c l IH]; intros Hl; simpl; [by apply not_elem_of_nil|].
  destruct (instances_exist st W c ltac:(apply Hl; left)) as [x Hx].
  rewrite (get_stpm_Some _ _ _ Hx). cbn [obind]. rewrite (wf_stpm_vlan _ _ _ W Hx).
  destruct (Z.eqb_spec c b) as [->|Hne]; [split; [done|left]|].
  eapply wp_mono; [apply IH; intros y Hy; apply Hl; by right|].
  intros [d|]; [intros [? ?]; split; [done|by right]|].
  intros Hn [->|?]%elem_of_cons; done.
Qed.

(** [stp_stpm_get_instance] finds exactly the instances that exist. *)
Lemma get_instance_spec st b :
  wf st → stp_stpm_get_instance st b = Done (if decide (is_Some (st.(stpm_heap) !! b)) then Some b else None).
Proof.
  intros W. unfold stp_stpm_get_instance.
  destruct (wp_elim _ _ (find_instance_spec st st.(bridges) b W (reflexivity _))) as (r & -> & Hr).
  f_equal. destruct r as [c|].
  - destruct Hr as [-> Hin]. rewrite decide_True; [done|]. by apply instances_exist.
  - rewrite decide_False; [done|]. intros [x Hx]. apply Hr.
    by destruct (wf_vlan _ W b _ (shape_stpm _ _ _ Hx)) as (_ & _ & ?).
Qed.

Lemma elem_of_insert_after c x l y : y ∈ insert_after c x l → y = x ∨ y ∈ l.
Proof.
  induction l as [|b l IH]; simpl; [by intros ?%elem_of_nil|]. destruct (b =? c); rewrite !elem_of_cons.
  - naive_solver.
  - intros [->|H]; [auto|]. destruct (IH H); auto.
Qed.

Lemma elem_of_insert_after_intro c x l y : c ∈ l → y = x ∨ y ∈ l → y ∈ insert_after c x l.
Proof.
  induction l as [|b l IH]; simpl; intros Hc; [by apply not_elem_of_nil in Hc|].
  apply elem_of_cons in Hc. destruct (Z.eqb_spec b c) as [->|Hne]; rewrite !elem_of_cons; [naive_solver|].
  destruct Hc as [->|Hc]; [done|]. intros [->|[->|Hy]]; [right; apply IH; auto|by left|right; apply IH; auto].
Qed.

Lemma NoDup_insert_after c x l : NoDup l → x ∉ l → NoDup (insert_after c x l).
Proof.
  induction l as [|b l IH]; simpl; [done|]. intros Hn Hx. inversion_clear Hn as [|? ? Hb Hn'].
  apply not_elem_of_cons in Hx as [Hne Hx]. destruct (b =? c).
  - constructor; [by intros [->|?]%elem_of_cons|by constructor].
  - constructor; [|by apply IH]. intros [->|?]%elem_of_insert_after; done.
Qed.

(** The state with a new instance: its list of instances is [l]. *)
Definition with_instance (st : STP_T) (l : list Z) (b : Z) (x : STPM_T) : STP_T :=
  put_stpm (st <| bridges := l |> <| g_CISTBRIDGE := Some STP_CIST_ID |>) b x.

Lemma with_instance_ok st b l x :
  daemon_ok st → 0 ≤ b ≤ STP_MSTI_MAX → st.(stpm_heap) !! b = None →
  sshape x = mkSShape [] b zero_vlan_map zero_cfg_id →
  (∀ y, y ∈ l ↔ y = b ∨ y ∈ st.(bridges)) → NoDup l →
  b = STP_CIST_ID ∨ st.(g_CISTBRIDGE) = Some STP_CIST_ID →
  daemon_ok (with_instance st l b x).
Proof.
  intros Ok Hb Hn Ex Hl Hd Hc. assert (W := proj1 Ok).
  assert (Es : shape (with_instance st l b x) =
    mkShape l (Some STP_CIST_ID) (<[b := sshape x]> (shape st).(sh_stpms)) (shape st).(sh_ports)
      (shape st).(sh_cistport) (shape st).(sh_product) (shape st).(sh_distributed))
    by (unfold with_instance; by rewrite shape_put_stpm).
  apply (daemon_ok_rest st); [by split_and!|..|done].
  - unfold wf. rewrite Es. apply (wf_add_stpm _ W b _ l); try done; [by rewrite Ex..|].
    simpl. by rewrite lookup_fmap, Hn.
  - rewrite Es. exact (proj1 (proj2 Ok)).
Qed.

(** The same state with another trace. *)
Definition retraced (st st' : STP_T) : Prop := ∃ t, st' = st <| trace := t |>.

Lemma retraced_refl st : retraced st st.
Proof. exists st.(trace). by destruct st. Qed.

Lemma access_retraced st st' b room len : retraced st st' → retraced st (access b room len st').
Proof. intros [t ->]. destruct (access_traced b room len (st <| trace := t |>)) as [t' ->]. by exists t'. Qed.

(** Naming a machine copies 32 bytes. *)
Lemma statmch_create_spec {S} (st0 st : STP_T) name (BEGIN : S) :
  retraced st0 st → adds daemon_event st0 st →
  ∃ st', stp_statmch_create name BEGIN st = (st', mkMach BEGIN false) ∧
    retraced st0 st' ∧ adds daemon_event st0 st'.
Proof. intros R A. eexists. split; [done|]. split; [by apply access_retraced|by apply adds_access]. Qed.

(** A new instance of the bridge: there is none when the number is too large,
    and for an MSTI when there is no CIST. *)
Lemma mst_create_spec st b size :
  daemon_ok st → 0 ≤ b → st.(stpm_heap) !! b = None →
  wp (stp_stpm_mst_create st b size) (fun '(st', r) => daemon_ok st' ∧ adds daemon_event st st' ∧
    match r with
    | None => st' = st ∧ (STP_MSTI_MAX < b ∨ b ≠ STP_CIST_ID ∧ st.(g_CISTBRIDGE) = None)
    | Some c => c = b ∧ ∃ l x st0, retraced st st0 ∧ sshape x = mkSShape [] b zero_vlan_map zero_cfg_id ∧
        x.(STPM.admin_state) = STP_DISABLED ∧ st' = with_instance st0 l b x
    end).
Proof.
  intros Ok H0 Hn. assert (W := proj1 Ok). unfold stp_stpm_mst_create.
  destruct (Z.ltb_spec STP_MSTI_MAX b) as [|Hmax]; [by split_and!; [| | |left]|]. cbv zeta.
  destruct (statmch_create_spec st (access NAME_STRING size 32 st) "rolesel" RoleselState.BEGIN)
    as (st0 & E0 & R0 & A0).
  { by apply access_retraced, retraced_refl. }
  { by apply adds_access. }
  rewrite E0. clear E0.
  assert (Ok0 : daemon_ok st0) by (by destruct R0 as [t ->]).
  assert (Hn0 : st0.(stpm_heap) !! b = None) by (by destruct R0 as [t ->]).
  assert (Eb0 : st0.(bridges) = st.(bridges)) by (by destruct R0 as [t ->]).
  assert (Ec0 : st0.(g_CISTBRIDGE) = st.(g_CISTBRIDGE)) by (by destruct R0 as [t ->]).
  assert (Hnb : b ∉ st.(bridges)).
  { intros Hin. destruct (instances_exist st W b Hin) as [? ?]. congruence. }
  destruct (Z.eqb_spec b STP_CIST_ID) as [Eb|Hne].
  { rewrite Eb in *. clear Eb b. set (x := _ <| STPM.BrTimes := _ |>).
    split; [|split; [exact A0|split; [done|]; by eexists _, x, st0]].
    apply (with_instance_ok st0 STP_CIST_ID (STP_CIST_ID :: st0.(bridges)) x); try done.
    - intros y. apply elem_of_cons.
    - constructor; [by rewrite Eb0|apply (wf_distinct _ (proj1 Ok0))].
    - by left. }
  destruct st.(g_CISTBRIDGE) as [c|] eqn:Hc; [|by split_and!; [| | |right]].
  destruct (wf_cist _ W c Hc) as [-> [y Hy]]. apply shape_stpm_inv in Hy as (cist & Hcist & _).
  rewrite (get_stpm_Some _ _ _ Hcist). cbn [obind]. set (x := _ <| STPM.BrId := _ |>).
  assert (Es : put_stpm (st0 <| bridges := insert_after STP_CIST_ID b st0.(bridges) |>) b x =
    with_instance st0 (insert_after STP_CIST_ID b st0.(bridges)) b x).
  { destruct st0. simpl in Ec0. by subst. }
  rewrite Es. split; [|split; [exact A0|by split; [|eexists _, x, st0]]].
  apply with_instance_ok; try done.
  - intros z. split; [apply elem_of_insert_after|]. apply elem_of_insert_after_intro. rewrite Eb0.
    by destruct (wf_vlan _ W _ _ (shape_stpm _ _ _ Hcist)) as (_ & _ & ?).
  - apply NoDup_insert_after; [apply (wf_distinct _ (proj1 Ok0))|by rewrite Eb0].
  - by right.
Qed.

Lemma unlink_stpm_spec st l b :
  wf st → l ⊆ st.(bridges) → NoDup l → b ∈ l →
  ∃ l', unlink_stpm st l b = Done (Some l') ∧ NoDup l' ∧ (∀ y, y ∈ l' ↔ y ≠ b ∧ y ∈ l).
Proof.
  intros W. induction l as [|c l IH]; intros Hl Hn Hb; simpl; [by apply not_elem_of_nil in Hb|].
  destruct (instances_exist st W c ltac:(apply Hl; left)) as [x Hx].
  rewrite (get_stpm_Some _ _ _ Hx). cbn [obind]. rewrite (wf_stpm_vlan _ _ _ W Hx).
  inversion_clear Hn as [|? ? Hc Hn']. destruct (Z.eqb_spec c b) as [->|Hne].
  - exists l. split_and!; [done..|]. intros y. rewrite elem_of_cons. naive_solver.
  - apply elem_of_cons in Hb as [->|Hb]; [done|].
    destruct IH as (l' & -> & Hd & Hy); [intros y Hy; apply Hl; by right|done|done|].
    exists (c :: l'). split_and!; [done| |].
    + constructor; [|done]. by intros [_ ?]%Hy.
    + intros y. rewrite !elem_of_cons, Hy. naive_solver.
Qed.

(** An MSTI whose ports are gone can be deleted. *)
Lemma stpm_delete_safe fuel st b stpm :
  daemon_ok st → st.(stpm_heap) !! b = Some stpm → stpm.(STPM.ports) = [] → b ≠ STP_CIST_ID →
  safe (stp_stpm_delete fuel st b) (fun st' => daemon_ok st' ∧ st'.(stpm_heap) !! b = None ∧
    st'.(g_CISTBRIDGE) = st.(g_CISTBRIDGE) ∧
    (∀ c x, st'.(stpm_heap) !! c = Some x → ∃ y, st.(stpm_heap) !! c = Some y ∧ sshape x = sshape y) ∧
    (∀ c, c ≠ b → is_Some (st.(stpm_heap) !! c) → is_Some (st'.(stpm_heap) !! c)) ∧
    st'.(productId) = st.(productId) ∧ st'.(stp_is_distributed) = st.(stp_is_distributed) ∧
    st'.(stp_slot_id) = st.(stp_slot_id) ∧ st'.(g_CISTPORT) = st.(g_CISTPORT) ∧
    st'.(g_flag) = st.(g_flag) ∧ (is_Some st.(port_speed_s) → is_Some st'.(port_speed_s)) ∧
    adds daemon_event st st').
Proof.
  intros Ok H He Hc. unfold stp_stpm_delete. assert (Os := daemon_start_ok _ b Ok ltac:(by exists stpm)).
  eapply (safe_frame_bind st _ fst); [by apply stpm_enable_safe; [|exists stpm]|].
  intros [st1 rc] F1. simpl in F1. assert (Ok1 := daemon_ok_frame _ _ F1 Ok). assert (W1 := proj1 Ok1).
  destruct (same_stpm _ _ _ _ (fr_shape _ _ F1) H) as (this & Hthis & Es).
  rewrite (get_stpm_Some _ _ _ Hthis). cbn [obind].
  assert (Ep : this.(STPM.ports) = []) by (rewrite <- He; exact (f_equal sh_list Es)).
  rewrite Ep. cbn [delete_ports obind]. rewrite (wf_stpm_vlan _ _ _ W1 Hthis).
  assert (Hin : b ∈ st1.(bridges)).
  { by destruct (wf_vlan _ W1 b _ (shape_stpm _ _ _ Hthis)) as (_ & _ & ?). }
  destruct (unlink_stpm_spec st1 st1.(bridges) b W1 (reflexivity _) (wf_distinct _ W1) Hin)
    as (l & -> & Hn & Hl). cbn [obind].
  rewrite (proj2 (Z.eqb_neq b STP_CIST_ID) Hc). simpl. split; [|split_and!].
  2: by rewrite lookup_delete_eq.
  2: by apply (kp_cist _ _ (frame_keeps _ _ F1)).
  2: { intros c x [_ Hx]%lookup_delete_Some.
       destruct (same_stpm _ _ _ _ (symmetry (fr_shape _ _ F1)) Hx) as (y & ? & ?). eauto. }
  2: { intros c Hcb Hc2. rewrite lookup_delete_ne by done. by eapply frame_stpm. }
  2-4: by apply (frame_keeps _ _ F1).
  2: by rewrite (f_equal sh_cistport (fr_shape _ _ F1) : st.(g_CISTPORT) = st1.(g_CISTPORT)).
  2-4: by apply (frame_keeps _ _ F1).
  apply (daemon_ok_rest st1); [by split_and!| |exact (proj1 (proj2 Ok1))|done].
  unfold wf, shape. simpl. rewrite fmap_delete.
  apply (wf_del_stpm _ W1 b (sshape this) l); [by apply shape_stpm|exact Ep|done|exact Hl|done].
Qed.

(** ** New ports *)

Lemma has_index_spec st b l idx :
  wf st → (∀ q, q ∈ l → q.1 = b ∧ is_Some (st.(port_heap) !! q)) →
  wp (has_index st l idx) (fun r => if r then (b, idx) ∈ l else (b, idx) ∉ l).
Proof.
  intros W. induction l as [|q l IH]; intros Hl; simpl; [by apply not_elem_of_nil|].
  destruct (Hl q ltac:(left)) as [Eb [port H]]. rewrite (get_port_Some _ _ _ H). cbn [obind].
  destruct (wf_port_owner _ _ _ W H) as (_ & Ei & _). rewrite Ei.
  destruct (Z.eqb_spec q.2 idx) as [<-|Hne]; [rewrite <- Eb; destruct q; left|].
  eapply wp_mono; [apply IH; intros; apply Hl; by right|].
  intros []; [by right|]. intros Hn [<-|?]%elem_of_cons; done.
Qed.

Lemma findport_cist_slot st idx :
  ∃ r, stp_port_mst_findport st STP_CIST_ID idx = Done r ∧
    ∀ q, r = Some q → st.(g_CISTPORT) !! stp_port_global_index_parse st idx = Some q.
Proof.
  unfold stp_port_mst_findport. destruct (bad_index _); [by exists None|].
  destruct (st.(g_CISTPORT) !! _) as [c|]; [|by exists None]. by exists (Some c).
Qed.

(** The shape of a port just created. *)
Definition new_shape (b idx : Z) : PSHAPE :=
  let c := b =? STP_CIST_ID in mkPShape b idx b [] c c c c c.

(** Its machines are there, and nothing else of it changes. *)
Lemma add_machines_spec cist st0 st this :
  retraced st0 st → adds daemon_event st0 st →
  ∃ st' this', add_machines cist st this = (st', this') ∧ retraced st0 st' ∧ adds daemon_event st0 st' ∧
    pshape this' = let x := pshape this in
      let c := fun b => if cist then true else b in
      mkPShape x.(sh_owner) x.(sh_index) x.(sh_mstid) x.(sh_next) (c x.(sh_migrate)) (c x.(sh_transmit))
        (c x.(sh_p2p)) (c x.(sh_edge)) (c x.(sh_receive)).
Proof.
  intros R A. unfold add_machines.
  repeat match goal with |- context [stp_statmch_create ?n ?x ?s] =>
    let s' := fresh "s" in let E := fresh in
    destruct (statmch_create_spec st0 s n x ltac:(assumption) ltac:(assumption)) as (s' & E & ? & ?);
    rewrite E; clear E
  end.
  destruct cist; [|by eexists _, _].
  repeat match goal with |- context [stp_statmch_create ?n ?x ?s] =>
    let s' := fresh "s" in let E := fresh in
    destruct (statmch_create_spec st0 s n x ltac:(assumption) ltac:(assumption)) as (s' & E & ? & ?);
    rewrite E; clear E
  end.
  by eexists _, _.
Qed.

Section AddPort.
Context (wan_if : Z → Z → Z → option (Z * Z)).

Lemma create_wan_spec st st0 this idx VID :
  st.(g_CISTPORT) = st0.(g_CISTPORT) → st.(port_heap) = st0.(port_heap) → wf st0 →
  wp (create_wan wan_if st this idx VID) (fun '(st', this') =>
    retraced st st' ∧ adds daemon_event st st' ∧ pshape this' = pshape this).
Proof.
  intros E1 E2 W. unfold create_wan.
  destruct (findport_cist_slot st idx) as (r & Er & Hr). change 0 with STP_CIST_ID. rewrite Er. cbn [obind].
  assert (Hfin : ∀ (x : PORT_T) s n, pshape x = pshape this →
    wp (match wan_if s n VID with
        | Some (br, ifi) =>
            let st := access IF_NAME 21 (Z.of_nat (length (wan_ifname s n (Some VID))) + 1) st in
            Done (emit (WAN_STATE br ifi NAM_STP_PORT_STATE_DISCARD_E) st,
             x <| port_ifindex := ifi |> <| br_ifindex := br |>)
        | None => Done (st, x)
        end) (fun '(st', this') => retraced st st' ∧ adds daemon_event st st' ∧ pshape this' = pshape this)).
  { intros x s n Ex. destruct (wan_if s n VID) as [[br ifi]|]; [|split_and!; [apply retraced_refl|reflexivity|exact Ex]].
    set (len := _ + 1). assert (R : retraced st (access IF_NAME 21 len st)) by apply access_retraced, retraced_refl.
    split_and!; [destruct R as [t ->]; by eexists| |exact Ex].
    apply adds_emit; [done|]. apply adds_access; [by right|reflexivity]. }
  destruct r as [q|]; [|by apply Hfin]. specialize (Hr q eq_refl). rewrite E1 in Hr.
  destruct (wf_cistport _ W _ _ Hr) as [_ Hq]. apply shape_port_is_Some in Hq as [port Hq].
  rewrite (get_port_Some st q port) by (by rewrite E2). cbn [obind]. by apply Hfin.
Qed.

(** Either the instance has the port already, and nothing changes, or it gets
    it. *)
Lemma port_create_spec st b stpm idx isWan VID :
  wf st → st.(stpm_heap) !! b = Some stpm →
  wp (stp_port_mst_port_create wan_if st b b idx isWan VID) (fun '(st', r) =>
    match r with
    | None => st' = st ∧ is_Some (st.(port_heap) !! (b, idx))
    | Some p => p = (b, idx) ∧ st.(port_heap) !! p = None ∧ adds daemon_event st st' ∧
        ∃ t port, pshape port = new_shape b idx ∧
        st' = put_port ((put_stpm st b (stpm <| STPM.ports := p :: stpm.(STPM.ports) |>))
                          <| trace := t |>) p port
    end).
Proof.
  intros W H. unfold stp_port_mst_port_create. rewrite (get_stpm_Some _ _ _ H). cbn [obind].
  apply wp_bind. eapply wp_mono; [apply (has_index_spec st b); [done|]|].
  { intros q Hq. destruct (wf_on_list _ _ _ _ W H Hq) as (? & x & ?). eauto. }
  intros [] Hdup.
  { split; [done|]. destruct (wf_on_list _ _ _ _ W H Hdup) as (_ & x & ?). eauto. }
  rewrite (wf_stpm_vlan _ _ _ W H).
  assert (Hnone : st.(port_heap) !! (b, idx) = None).
  { apply eq_None_not_Some. intros [x Hx]. destruct (wf_port_member _ _ _ W Hx) as (_ & _ & y & Hy & Hin).
    simpl in Hy. congruence. }
  set (st1 := put_stpm st b _). cbv zeta.
  apply wp_bind. eapply (wp_mono _ (fun '(st', this') =>
    retraced st1 st' ∧ adds daemon_event st1 st' ∧ pshape this' = pshape calloc_port)).
  { destruct isWan; [by apply (create_wan_spec st1 st)|].
    split_and!; [apply retraced_refl|reflexivity|done]. }
  intros [st2 this] (R2 & A2 & Ethis). cbn [stp_to_get_port_name].
  set (len := 1 + _). set (st3 := access NAME_STRING (len + 1) 32 _).
  assert (R3 : retraced st1 st3) by (by apply access_retraced, access_retraced).
  assert (A3 : adds daemon_event st1 st3).
  { apply adds_access; [done|]. apply adds_access; [done|]. exact A2. }
  clearbody st3. clear st2 R2 A2. destruct stp_to_get_init_port_cfg as [[[[prio nonstp] edg] pc] p2].
  match goal with |- context [if PORT_INDEX_MAX <? idx then ?a else ?b] =>
    set (this1 := if PORT_INDEX_MAX <? idx then a else b) end.
  assert (E1 : pshape this1 = mkPShape b idx b [] false false false false false).
  { transitivity (mkPShape b idx b (nextMst this) (present this.(migrate)) (present this.(transmit))
      (present this.(p2p)) (present this.(edge)) (present this.(receive))).
    - unfold this1. by destruct (PORT_INDEX_MAX <? idx).
    - unfold pshape in Ethis. injection Ethis. by intros -> -> -> -> -> -> _ _ _. }
  apply wp_bind. eapply (wp_mono _ (fun x => pshape x = pshape this1)).
  { destruct (b =? STP_CIST_ID); [done|]. cbn [negb]. destruct R3 as [t ->].
    destruct (findport_cist_slot (st1 <| trace := t |>) idx) as (r & -> & Hr). cbn [obind].
    destruct r as [q|]; [|done]. specialize (Hr q eq_refl). simpl in Hr.
    destruct (wf_cistport _ W _ _ Hr) as [_ Hq]. apply shape_port_is_Some in Hq as [port Hq].
    rewrite (get_port_Some (st1 <| trace := t |>) q port) by done. done. }
  intros this2 E2. destruct (add_machines_spec (b =? STP_CIST_ID) st1 st3 this2 R3 A3) as (st4 & this4 & -> & [t ->] & A4 & E4).
  split_and!; [done..|exact A4|]. exists t, this4. split; [|done]. rewrite E4, E2, E1. unfold new_shape. simpl. by destruct (b =? STP_CIST_ID).
Qed.

(** What the caller of [stp_port_mst_addport] has to see to: a VLAN number, an
    index of the platform, and, for an MSTI, the CIST port of the same physical
    port. *)
Definition addport_ok (st : STP_T) (MSTID idx VID : Z) : Prop :=
  VID < 4096 ∧ index_ok st.(productId) st.(stp_is_distributed) idx = true ∧
  (MSTID ≠ STP_CIST_ID → is_Some (st.(g_CISTPORT) !! stp_port_global_index_parse st idx)).

Lemma new_shape_wf st b stpm idx t :
  wf st → st.(stpm_heap) !! b = Some stpm → st.(port_heap) !! (b, idx) = None →
  index_ok st.(productId) st.(stp_is_distributed) idx = true →
  bad_index (stp_port_global_index_parse st idx) = false →
  is_Some (t !! stp_port_global_index_parse st idx) →
  (∀ i q, t !! i = Some q → q.1 = STP_CIST_ID ∧
     is_Some (<[(b, idx) := new_shape b idx]> (shape st).(sh_ports) !! q)) →
  (∀ i, is_Some (st.(g_CISTPORT) !! i) → is_Some (t !! i)) →
  wf_shape (mkShape st.(bridges) st.(g_CISTBRIDGE)
    (<[b := with_list ((b, idx) :: stpm.(STPM.ports)) (sshape stpm)]> (shape st).(sh_stpms))
    (<[(b, idx) := new_shape b idx]> (shape st).(sh_ports)) t
    st.(productId) st.(stp_is_distributed)).
Proof.
  intros W H Hn Hi Hbad Ht Htab Hmono.
  pose proof (wf_new_port _ W (b, idx) (new_shape b idx) _ t (shape_stpm _ _ _ H)) as E.
  apply E; try done.
  - simpl. by rewrite lookup_fmap, Hn.
  - simpl. by intros ->.
  - simpl. by intros ->%Z.eqb_eq.
Qed.

Lemma link_port_safe st0 st b stpm idx port :
  wf st0 → chained (shape st0) →
  (b = STP_CIST_ID → st0.(g_CISTPORT) !! stp_port_global_index_parse st0 idx = None) →
  st0.(stpm_heap) !! b = Some stpm → st0.(port_heap) !! (b, idx) = None →
  addport_ok st0 b idx 0 → bad_index (stp_port_global_index_parse st0 idx) = false →
  (∀ c x r, st0.(g_CISTPORT) !! stp_port_global_index_parse st0 idx = Some c →
     st0.(port_heap) !! c = Some x → r ∈ x.(nextMst) → r.1 ≠ b) →
  pshape port = new_shape b idx → st.(port_heap) = <[(b, idx) := port]> st0.(port_heap) →
  shape st = mkShape st0.(bridges) st0.(g_CISTBRIDGE)
    (<[b := with_list ((b, idx) :: stpm.(STPM.ports)) (sshape stpm)]> (shape st0).(sh_stpms))
    (<[(b, idx) := new_shape b idx]> (shape st0).(sh_ports)) st0.(g_CISTPORT)
    st0.(productId) st0.(stp_is_distributed) →
  wp (link_port st b (stp_port_global_index_parse st0 idx) (b, idx)) (fun st' =>
    wf st' ∧ chained (shape st') ∧ same_rest st st' ∧ keeps st st' ∧
    st'.(stpm_heap) = st.(stpm_heap) ∧ is_Some (st'.(port_heap) !! (b, idx))).
Proof.
  intros W C Hfree Hs Hn (_ & Hi & Hslot) Hbad Hchain Ep Eh Es. unfold link_port.
  assert (Et : st.(g_CISTPORT) = st0.(g_CISTPORT)) by exact (f_equal sh_cistport Es).
  assert (Hns : (shape st0).(sh_ports) !! (b, idx) = None) by (simpl; by rewrite lookup_fmap, Hn).
  destruct (Z.eqb_spec STP_CIST_ID b) as [Hb|Hb].
  - apply wp_Done.
    set (t := <[stp_port_global_index_parse st0 idx := (b, idx)]> st.(g_CISTPORT)).
    assert (Es' : shape (st <| g_CISTPORT := t |>) = mkShape (shape st).(sh_bridges) (shape st).(sh_cist)
      (shape st).(sh_stpms) (shape st).(sh_ports) t (shape st).(sh_product) (shape st).(sh_distributed)) by done.
    split_and!; try done; [unfold wf| | |simpl; rewrite Eh, lookup_insert_eq; eauto].
    2: { rewrite Es', Es. simpl. unfold t. rewrite Et.
         apply (chained_new_cist (shape st0) C (b, idx)); [done|by simpl|by apply Hfree]. }
    2: { split; try done. intros i [q Hq]. simpl. unfold t.
         destruct (decide (stp_port_global_index_parse st0 idx = i)) as [->|];
           [by rewrite lookup_insert_eq|rewrite lookup_insert_ne by done; eauto]. }
    rewrite Es', Es. simpl. apply new_shape_wf; try done; unfold t; rewrite Et.
    + by rewrite lookup_insert_eq.
    + intros i q [[<- <-]|[_ Hq]]%lookup_insert_Some; [by rewrite lookup_insert_eq|].
      destruct (wf_cistport _ W i q Hq) as [? Hex]. split; [done|]. simpl in Hex.
      destruct (decide ((b, idx) = q)) as [->|]; [by rewrite lookup_insert_eq|by rewrite lookup_insert_ne].
    + intros i Hq. destruct (decide (stp_port_global_index_parse st0 idx = i)) as [->|];
        [by rewrite lookup_insert_eq|by rewrite lookup_insert_ne].
  - destruct (Hslot (not_eq_sym Hb)) as [c Hc]. rewrite Et, Hc. cbn [deref obind].
    assert (W1 : wf st).
    { unfold wf. rewrite Es. apply new_shape_wf; try done.
      intros i q Hq. destruct (wf_cistport _ W i q Hq) as [? Hex]. split; [done|]. simpl in Hex.
        destruct (decide ((b, idx) = q)) as [->|]; [by rewrite lookup_insert_eq|by rewrite lookup_insert_ne]. }
    destruct (wf_cistport _ W _ _ Hc) as [Ec Hcx]. apply shape_port_is_Some in Hcx as [cx Hcx].
    assert (Hne : (b, idx) ≠ c) by (intros <-; done).
    assert (Hcx1 : st.(port_heap) !! c = Some cx) by (rewrite Eh, lookup_insert_ne; done).
    unfold upd_port. rewrite (get_port_Some _ _ _ Hcx1). cbn [obind].
    apply wp_Done. split_and!; [| |done..|by split|done|].
    + unfold wf. rewrite shape_put_port.
      apply (wf_chain _ W1 c (pshape cx) ((b, idx) :: cx.(nextMst)) (shape_port _ _ _ Hcx1)).
      * simpl. constructor; [|exact (wf_once _ W c _ (shape_port _ _ _ Hcx))].
        intros (r & Er & Hr)%list_elem_of_fmap. by apply (Hchain c cx r Hc Hcx Hr).
      * intros r [->|Hr]%elem_of_cons; [right|by left]. split_and!; [by simpl|..].
        -- rewrite Es. simpl. by rewrite lookup_insert_eq.
        -- intros q y Hq Hin. rewrite Es in Hq. simpl in Hq.
           apply lookup_insert_Some in Hq as [[<- <-]|[_ Hq]]; [by apply not_elem_of_nil in Hin|].
           destruct (wf_next _ W q y _ Hq Hin) as [_ [z Hz]]. simpl in Hz.
           rewrite lookup_fmap, Hn in Hz. done.
    + rewrite shape_put_port. change (sshape <$> stpm_heap st) with (shape st).(sh_stpms).
      change (pshape <$> port_heap st) with (shape st).(sh_ports). change st.(bridges) with (shape st).(sh_bridges).
      change st.(g_CISTBRIDGE) with (shape st).(sh_cist). change st.(g_CISTPORT) with (shape st).(sh_cistport).
      change st.(productId) with (shape st).(sh_product). change st.(stp_is_distributed) with (shape st).(sh_distributed).
      rewrite Es. simpl sh_ports.
      apply (chained_new_msti (shape st0) C (b, idx) _ c (pshape cx)); [done|done|by apply shape_port].
    + unfold put_port. simpl. rewrite lookup_insert_ne by done. rewrite Eh, lookup_insert_eq. eauto.
Qed.

(** The chain of the slot has no port of the instance when looking it up finds
    none. *)
Lemma findport_none_chain st b idx c x r :
  wf st → bad_index (stp_port_global_index_parse st idx) = false → b ≠ STP_CIST_ID →
  stp_port_mst_findport st b idx = Done None →
  st.(g_CISTPORT) !! stp_port_global_index_parse st idx = Some c →
  st.(port_heap) !! c = Some x → r ∈ x.(nextMst) → r.1 ≠ b.
Proof.
  intros W Hbad Hb Hf Hc Hx Hr. unfold stp_port_mst_findport in Hf. rewrite Hbad, Hc in Hf.
  rewrite (proj2 (Z.eqb_neq STP_CIST_ID b)) in Hf by done.
  rewrite (get_port_Some _ _ _ Hx) in Hf. cbn [obind] in Hf.
  apply (wp_use _ _ _ (find_in_chain_spec st b x.(nextMst) W
    (fun q Hq => proj2 (wf_nextMst _ _ _ _ W Hx Hq))) Hf r Hr).
Qed.

(** An instance has no port for the physical port when looking it up finds
    none. *)
Lemma findport_none_free st b idx :
  daemon_ok st → bad_index (stp_port_global_index_parse st idx) = false →
  stp_port_mst_findport st b idx = Done None →
  st.(port_heap) !! (b, idx) = None ∧
  (b = STP_CIST_ID → st.(g_CISTPORT) !! stp_port_global_index_parse st idx = None).
Proof.
  intros (W & C & _) Hbad Hf.
  assert (Hs : b = STP_CIST_ID → st.(g_CISTPORT) !! stp_port_global_index_parse st idx = None).
  { intros ->. unfold stp_port_mst_findport in Hf. rewrite Hbad in Hf. by destruct (_ !! _). }
  split; [|done]. apply eq_None_not_Some. intros [x Hx]. apply shape_port in Hx.
  destruct (decide (b = STP_CIST_ID)) as [Hb|Hb].
  - destruct (wf_indexed _ W _ _ Hx) as (_ & _ & Hi). simpl in Hi.
    change (is_Some (st.(g_CISTPORT) !! stp_port_global_index_parse st idx)) in Hi.
    rewrite (Hs Hb) in Hi. by destruct Hi.
  - destruct (C _ _ Hx Hb) as (c & y & Hc & Hy & Hin).
    apply shape_port_inv in Hy as (head & Hh & ->).
    exact (findport_none_chain _ _ _ _ _ _ W Hbad Hb Hf Hc Hh Hin eq_refl).
Qed.

Lemma create_mst_port_safe fuel st b idx VID isWan :
  daemon_ok st → addport_ok st b idx VID → bad_index (stp_port_global_index_parse st idx) = false →
  stp_port_mst_findport st b idx = Done None →
  wp (create_mst_port wan_if fuel st b idx (stp_port_global_index_parse st idx) VID isWan)
    (fun '(st', r) => daemon_ok st' ∧ keeps st st' ∧
      match r with
      | inl p => is_Some (st'.(port_heap) !! p)
      | inr _ => st.(stpm_heap) !! b = None
      end).
Proof.
  intros Ok Ha Hbad Hf. assert (W := proj1 Ok). unfold create_mst_port.
  destruct (findport_none_free _ _ _ Ok Hbad Hf) as [Hno Hfree].
  rewrite (get_instance_spec st b W). cbn [obind].
  case_decide as Hdec; [|by split_and!; [| |apply eq_None_not_Some]]. destruct Hdec as [stpm H].
  apply wp_bind. eapply wp_mono; [by apply port_create_spec|].
  intros [st1 [p|]]; [|intros [_ [x Hx]]; congruence]. intros (-> & Hn & A1 & t & port & Ep & ->).
  set (st1 := put_port _ _ _). set (stpm1 := stpm <| STPM.ports := (b, idx) :: stpm.(STPM.ports) |>).
  assert (Hp1 : st1.(port_heap) !! (b, idx) = Some port) by apply put_port_lookup.
  assert (Hs1 : st1.(stpm_heap) !! b = Some stpm1) by (unfold st1; simpl; by rewrite lookup_insert_eq).
  assert (R1 : same_rest st st1) by (by split_and!).
  assert (K1 : keeps st st1).
  { split; try done. intros b'. simpl. destruct (decide (b = b')) as [<-|];
      [by rewrite lookup_insert_eq, H|by rewrite lookup_insert_ne]. }
  destruct (port_init_total st1 (b, idx) b true port stpm1) as (port2 & -> & E2); [done..| |apply Ok|apply Ok|].
  { rewrite (f_equal sh_index Ep : port.(port_index) = idx). apply Ha. }
  cbn [obind]. set (st2 := put_port st1 (b, idx) port2).
  assert (Hsh : shape st2 = mkShape st.(bridges) st.(g_CISTBRIDGE)
    (<[b := with_list ((b, idx) :: stpm.(STPM.ports)) (sshape stpm)]> (shape st).(sh_stpms))
    (<[(b, idx) := new_shape b idx]> (shape st).(sh_ports)) st.(g_CISTPORT)
    st.(productId) st.(stp_is_distributed)).
  { unfold st2, st1. rewrite put_put_port, shape_put_port, E2, Ep. simpl. f_equal.
    by rewrite fmap_insert. }
  apply wp_bind. eapply wp_mono; [apply (link_port_safe st st2 b stpm idx port2); try done|].
  - apply Ok.
  - destruct Ha as (_ & ? & ?). by split_and!.
  - intros c x r Hc Hx Hr. destruct (decide (b = STP_CIST_ID)) as [->|Hb].
    + by destruct (wf_nextMst _ _ _ _ W Hx Hr).
    + by eapply findport_none_chain.
  - congruence.
  - unfold st2, st1. rewrite put_put_port. done.
  - intros st3 (W3 & C3 & R3 & K3 & Es3 & [port3 H3]).
    assert (K : keeps st st3) by (transitivity st1; [done|]; transitivity st2; [by split|done]).
    assert (Ok3 : daemon_ok st3).
    { apply (daemon_ok_rest st); [|done..]. destruct R3 as (?&?&?&?), R1 as (?&?&?&?).
      unfold st2 in *. simpl in *. split_and!; congruence. }
    rewrite (get_stpm_Some st3 b stpm1) by (by rewrite Es3). cbn [obind].
    rewrite (get_port_Some _ _ _ H3). cbn [obind].
    match goal with |- wp (obind _ ?m) _ => assert (Em : m = Done st3) end.
    { case_match eqn:Ec; [|done]. bool_facts. unfold stp_stpm_enable.
      rewrite (get_stpm_Some st3 b stpm1) by (by rewrite Es3). cbn [obind].
      rewrite bool_decide_true; done. }
    rewrite Em. cbn [obind]. split_and!; [done..|]. by exists port3.
Qed.

(** [stp_port_mst_addport]: creates the port when the instance has none for the
    physical port, and enters the VLAN in its map. *)
Lemma addport_safe fuel st MSTID idx VID isWan :
  daemon_ok st → addport_ok st MSTID idx VID →
  wp (stp_port_mst_addport wan_if fuel st MSTID idx VID isWan) (fun '(st', rc) =>
    daemon_ok st' ∧ keeps st st' ∧
    (is_Some (st.(stpm_heap) !! MSTID) → bad_index (stp_port_global_index_parse st idx) = false →
     rc = STP_OK)).
Proof.
  intros Ok Ha. assert (W := proj1 Ok). unfold stp_port_mst_addport.
  case_match eqn:Eb.
  { split_and!; [done..|]. intros [x Hx] Hbad. rewrite Hbad, orb_false_r in Eb. bool_facts.
    destruct (wf_vlan _ W _ _ (shape_stpm _ _ _ Hx)) as (_ & ? & _). lia. }
  apply orb_false_iff in Eb as [_ Hbad].
  destruct (wp_elim _ _ (findport_spec st MSTID idx W)) as (found & Ef & Hfound). rewrite Ef. cbn [obind].
  apply wp_bind. eapply (wp_mono _ (fun '(st', r) => daemon_ok st' ∧ keeps st st' ∧
    match r with inl p => is_Some (st'.(port_heap) !! p) | inr _ => st.(stpm_heap) !! MSTID = None end)).
  { destruct found as [p|]; [|by apply create_mst_port_safe]. split_and!; [done..|]. by apply Hfound. }
  intros [st1 [p|err]] (Ok1 & K1 & Hp).
  2: { split_and!; [done..|]. intros [x Hx]. congruence. }
  destruct Hp as [port H]. rewrite (get_port_Some _ _ _ H). cbn [obind]. unfold vlan_store.
  assert (Hv : VID / 8 < 512) by (destruct Ha as [? _]; apply Z.div_lt_upper_bound; lia).
  rewrite (proj2 (Z.ltb_lt _ _) Hv). cbn [obind].
  assert (F : frame st1 (put_port st1 p (add_port_vlan VID isWan port)))
    by (by eapply put_frame; [reflexivity|exists port|]).
  split_and!; [by apply (daemon_ok_frame st1)|transitivity st1; [done|by apply frame_keeps]|done].
Qed.
End AddPort.

(** ** Deleting ports *)

Lemma unlink_chain_spec st b l :
  wf st → (∀ q, q ∈ l → is_Some (st.(port_heap) !! q)) → NoDup (l.*1) →
  ∃ l', unlink_chain st b l = Done l' ∧ NoDup (l'.*1) ∧ (∀ q, q ∈ l' ↔ q.1 ≠ b ∧ q ∈ l).
Proof.
  intros W. induction l as [|q l IH]; intros Hl Hn; simpl.
  { exists []. split_and!; [done|apply NoDup_nil_2|]. intros q. rewrite !elem_of_nil. naive_solver. }
  destruct (Hl q ltac:(left)) as [port H]. rewrite (get_port_Some _ _ _ H). cbn [obind].
  destruct (wf_port_owner _ _ _ W H) as (-> & _ & stpm & Hs). rewrite (get_stpm_Some _ _ _ Hs). cbn [obind].
  rewrite (wf_stpm_vlan _ _ _ W Hs). simpl in Hn. inversion_clear Hn as [|? ? Hq Hn'].
  destruct (Z.eqb_spec q.1 b) as [<-|Hne].
  - exists l. split_and!; [done..|]. intros r. rewrite elem_of_cons. split; [|naive_solver].
    intros Hr. split; [|by right]. intros E. apply Hq. rewrite <- E. by apply list_elem_of_fmap_2.
  - destruct IH as (l' & -> & Hd & Hy); [intros; apply Hl; by right|done|]. cbn [obind].
    exists (q :: l'). split_and!; [done| |].
    + simpl. constructor; [|done]. intros (r & Er & [_ Hr]%Hy)%list_elem_of_fmap.
      apply Hq. rewrite Er. by apply list_elem_of_fmap_2.
    + intros r. rewrite !elem_of_cons, Hy. naive_solver.
Qed.

Lemma unlink_index_spec st b l idx :
  wf st → (∀ q, q ∈ l → q.1 = b ∧ is_Some (st.(port_heap) !! q)) → NoDup l → (b, idx) ∈ l →
  ∃ l', unlink_index st l idx = Done (Some l') ∧ NoDup l' ∧
    (∀ q, q ∈ l' ↔ q ≠ (b, idx) ∧ q ∈ l).
Proof.
  intros W. induction l as [|q l IH]; intros Hl Hn Hin; simpl; [by apply not_elem_of_nil in Hin|].
  destruct (Hl q ltac:(left)) as [Eb [port H]]. rewrite (get_port_Some _ _ _ H). cbn [obind].
  destruct (wf_port_owner _ _ _ W H) as (_ & -> & _). inversion_clear Hn as [|? ? Hq Hn'].
  destruct (Z.eqb_spec q.2 idx) as [Ei|Hne].
  - assert (Eq : q = (b, idx)) by (rewrite <- Eb, <- Ei; by destruct q).
    exists l. split_and!; [done..|]. intros r. rewrite elem_of_cons. naive_solver.
  - apply elem_of_cons in Hin as [<-|Hin]; [done|].
    destruct IH as (l' & -> & Hd & Hy); [intros; apply Hl; by right|done|done|]. cbn [obind].
    exists (q :: l'). split_and!; [done| |].
    + constructor; [|done]. by intros [_ ?]%Hy.
    + intros r. rewrite !elem_of_cons, Hy. split; [|naive_solver].
      intros [->|[? ?]]; [|by split; [|right]]. split; [by intros ->|by left].
Qed.

(** An MSTI port on no chain is unlinked from its instance and freed. *)
Lemma port_delete_spec st p port :
  wf st → st.(port_heap) !! p = Some port → p.1 ≠ STP_CIST_ID →
  (∀ q x, st.(port_heap) !! q = Some x → p ∉ x.(nextMst)) →
  wp (stp_port_delete st p) (fun st' => wf st' ∧ same_rest st st' ∧ keeps st st' ∧
    (∃ bs, shape st' = mkShape st.(bridges) st.(g_CISTBRIDGE) bs (delete p (shape st).(sh_ports))
      st.(g_CISTPORT) st.(productId) st.(stp_is_distributed)) ∧ is_Some (st'.(stpm_heap) !! p.1)).
Proof.
  intros W H Hc Hno. unfold stp_port_delete.
  rewrite (get_port_Some _ _ _ H). cbn [obind].
  destruct (wf_port_member _ _ _ W H) as (-> & -> & stpm & Hs & Hin).
  rewrite (get_stpm_Some _ _ _ Hs). cbn [obind].
  destruct (unlink_index_spec st p.1 stpm.(STPM.ports) p.2 W) as (l & -> & Hn & Hl).
  { intros q Hq. destruct (wf_on_list _ _ _ _ W Hs Hq) as (? & x & ?). eauto. }
  { by eapply wf_list_nodup. }
  { by destruct p. }
  cbn [obind]. apply wp_Done. split_and!; [|done| |eexists; unfold shape; simpl; by rewrite fmap_delete|].
  - unfold wf, shape. simpl. rewrite fmap_delete, fmap_insert.
    pose proof (wf_del_port _ W p (sshape stpm) l (shape_stpm _ _ _ Hs) Hc) as HW. apply HW; [|by destruct p|done].
    intros q x Hq Hin'. apply shape_port_inv in Hq as (y & Hy & ->). by apply (Hno q y Hy).
  - split; try done; [|by apply adds_emit]. intros b. simpl.
    destruct (decide (p.1 = b)) as [<-|]; [by rewrite lookup_insert_eq, Hs|by rewrite lookup_insert_ne].
  - exists (stpm <| STPM.ports := l |>). simpl. by rewrite lookup_insert_eq.
Qed.

Lemma findport_chain st b idx p :
  wf st → b ≠ STP_CIST_ID → stp_port_mst_findport st b idx = Done (Some p) →
  p.1 = b ∧ ∃ c x, st.(g_CISTPORT) !! stp_port_global_index_parse st idx = Some c ∧
    c.1 = STP_CIST_ID ∧ st.(port_heap) !! c = Some x ∧ p ∈ x.(nextMst).
Proof.
  intros W Hb Hf. unfold stp_port_mst_findport in Hf.
  destruct (bad_index _); [done|]. destruct (st.(g_CISTPORT) !! _) as [c|] eqn:Hc; [|done].
  destruct (wf_cistport _ W _ _ Hc) as [Ec Hx]. apply shape_port_is_Some in Hx as [x Hx].
  rewrite (proj2 (Z.eqb_neq STP_CIST_ID b)) in Hf by done.
  rewrite (get_port_Some _ _ _ Hx) in Hf. cbn [obind] in Hf.
  destruct (wp_use _ _ _ (find_in_chain_spec st b x.(nextMst) W
    (fun q Hq => proj2 (wf_nextMst _ _ _ _ W Hx Hq))) Hf) as [Hin Eb]. eauto 8.
Qed.

(** [stp_port_mst_delport]: the code of an existing port that stays is
    indeterminate. *)
Lemma delport_safe uninit st MSTID idx VID :
  daemon_ok st → VID < 4096 →
  wp (stp_port_mst_delport uninit st MSTID idx VID) (fun '(st', _) => daemon_ok st' ∧ keeps st st').
Proof.
  intros Ok Hv. assert (W := proj1 Ok). unfold stp_port_mst_delport.
  case_match; [done|]. destruct (Z.eqb_spec MSTID STP_CIST_ID) as [|Hb]; [done|].
  destruct (wp_elim _ _ (findport_spec st MSTID idx W)) as (found & Ef & Hfound). rewrite Ef. cbn [obind].
  destruct found as [p|]; [|done]. destruct (findport_chain _ _ _ _ W Hb Ef) as (Eb & c & head & Hc & Ec & Hh & Hin).
  destruct (Hfound p eq_refl) as [_ [port Hp]]. rewrite (get_port_Some _ _ _ Hp). cbn [obind].
  unfold vlan_store. rewrite (proj2 (Z.ltb_lt (VID / 8) 512)) by (apply Z.div_lt_upper_bound; lia).
  cbn [obind]. set (port1 := port <| vlan_map := _ |>). set (st1 := put_port st p port1).
  assert (F1 : frame st st1) by (by eapply put_frame; [reflexivity|exists port|]).
  assert (Ok1 := daemon_ok_frame _ _ F1 Ok). assert (W1 := proj1 Ok1).
  case_match; [by split; [|apply frame_keeps]|].
  change (st1.(g_CISTPORT)) with st.(g_CISTPORT). rewrite Hc. cbn [deref obind].
  assert (Hne : p ≠ c) by (intros ->; congruence).
  assert (Hh1 : st1.(port_heap) !! c = Some head).
  { unfold st1, put_port. simpl. by rewrite lookup_insert_ne. }
  rewrite (get_port_Some _ _ _ Hh1). cbn [obind].
  destruct (unlink_chain_spec st1 MSTID head.(nextMst) W1) as (rest & -> & Hn & Hr).
  { intros q Hq. by destruct (wf_nextMst _ _ _ _ W1 Hh1 Hq) as (_ & ?). }
  { exact (wf_once _ W1 c _ (shape_port _ _ _ Hh1)). }
  cbn [obind]. set (st2 := put_port st1 c (head <| nextMst := rest |>)).
  assert (E2 : (shape st2).(sh_ports) = <[c := with_next rest (pshape head)]> (shape st1).(sh_ports)).
  { unfold st2. by rewrite shape_put_port. }
  assert (W2 : wf st2).
  { unfold wf, st2. rewrite shape_put_port.
    apply (wf_chain _ W1 c (pshape head) rest (shape_port _ _ _ Hh1)); [done|].
    intros r [_ Hr']%Hr. by left. }
  assert (H2 : st2.(port_heap) !! p = Some port1).
  { unfold st2. transitivity (st1.(port_heap) !! p); [by unfold put_port; simpl; rewrite lookup_insert_ne|].
    apply put_port_lookup. }
  apply wp_bind. eapply wp_mono; [eapply (port_delete_spec st2 p port1); [done|done|congruence|]|].
  - intros q x Hq Hpq. unfold st2, put_port in Hq. simpl in Hq.
    apply lookup_insert_Some in Hq as [[<- <-]|[Hqc Hq]].
    + by apply Hr in Hpq as [? _].
    + apply Hqc. change (st1.(port_heap) !! q = Some x) in Hq.
      exact (wf_apart _ W1 c q _ _ p (shape_port _ _ _ Hh1) (shape_port _ _ _ Hq) Hin Hpq).
  - intros st3 (W3 & R3 & K3 & (bs & E3) & [x3 H3]).
    destruct (wf_port_owner _ _ _ W Hp) as (Eo & _). rewrite <- Eo in H3.
    change (port1.(owner)) with port.(owner). rewrite (get_stpm_Some _ _ _ H3). cbn [obind].
    match goal with |- wp (Done (?s, _)) _ => set (st4 := s) end. apply wp_Done.
    assert (H4 : (daemon_ok st3 → daemon_ok st4) ∧ keeps st3 st4).
    { unfold st4. case_match; [|by split]. split; [apply access_daemon|by apply access_keeps]. }
    split; [|etransitivity; [|apply H4]]; [apply H4|].
    + apply (daemon_ok_rest st1); [exact R3|done| |done]. rewrite E3, E2.
      apply (chained_del _ W1 (proj1 (proj2 Ok1)) p c (pshape head)); [congruence|by apply shape_port|].
      intros q Hq Hqn. apply Hr. split; [|done]. intros E. apply Hq.
      exact (NoDup_fst_inj _ q p (wf_once _ W1 c _ (shape_port _ _ _ Hh1)) Hqn Hin (eq_trans E (eq_sym Eb))).
    + transitivity st1; [by apply frame_keeps|]. transitivity st2; [by split|done].
Qed.
