(* ===== verification/StpMd5Props.v ===== *)
(** * Properties of MD5 and of the keyed digest

    The digest the context computes is that of RFC 1321, however the message is
    cut into updates; the two ways to finish agree; the keyed digest is the HMAC
    of RFC 2104. *)

From Stdlib Require Import ZArith Lia.
From stdpp Require Import base list option.
From S2P Require Import Prelude StpMd5.
Import StpMd5.Macros.

(** ** The transform *)

#[local] Arguments Rfc.step : simpl never.

Lemma rotate_rotl x n : 0 ≤ n ≤ 32 → ROTATE_LEFT x n = Rfc.rotl x n.
Proof.
  intros Hn. unfold ROTATE_LEFT, Rfc.rotl, u32.
  by rewrite Z.shiftl_mul_pow2, Z.shiftr_div_pow2 by lia.
Qed.

(** Step [i] of the reference, on the registers in the order of the code. *)
Definition ref_step (X : list Z) (i : nat) (a b c d : Z) : Z :=
  md5_step (Rfc.f i) a b c d (nth (Rfc.k i) X 0) (Rfc.s i) (nth i Rfc.T 0).

Lemma step_spec X a b c d i :
  Rfc.step X (a, b, c, d) i =
  (d, ref_step X i a b c d, b, c).
Proof.
  unfold Rfc.step, ref_step, md5_step. rewrite rotate_rotl.
  - unfold u32. by rewrite !Z.add_assoc.
  - unfold Rfc.s. assert (Hi : (i mod 4 < 4)%nat) by (apply Nat.mod_upper_bound; lia).
    destruct (i mod 4)%nat as [|[|[|[|n]]]]; [..|lia]; simpl; destruct (Rfc.round i) as [|[|[|]]]; simpl; lia.
Qed.

(** A row is four steps, after which the registers are back at their places. *)
Lemma row_steps X f i l1 l2 l3 l4 r :
  (∀ a b c d x s t, f a b c d x s t = md5_step (Rfc.f i) a b c d x s t) →
  Rfc.f (S i) = Rfc.f i → Rfc.f (S (S i)) = Rfc.f i → Rfc.f (S (S (S i))) = Rfc.f i →
  l1 = (Rfc.k i, Rfc.s i, nth i Rfc.T 0) →
  l2 = (Rfc.k (S i), Rfc.s (S i), nth (S i) Rfc.T 0) →
  l3 = (Rfc.k (S (S i)), Rfc.s (S (S i)), nth (S (S i)) Rfc.T 0) →
  l4 = (Rfc.k (S (S (S i))), Rfc.s (S (S (S i))), nth (S (S (S i))) Rfc.T 0) →
  md5_row f (fun k => nth k X 0) l1 l2 l3 l4 r =
  foldl (Rfc.step X) r [i; S i; S (S i); S (S (S i))].
Proof.
  destruct r as [[[a b] c] d]. intros Hf F1 F2 F3 -> -> -> ->. unfold md5_row.
  cbn [foldl]. rewrite !step_spec, !Hf. unfold ref_step. by rewrite F1, F2, F3.
Qed.

(** Turns the innermost row into the steps from [i]. *)
Ltac row X i :=
  match goal with
  | |- context [md5_row ?f ?x ?l1 ?l2 ?l3 ?l4 ?r] =>
      lazymatch r with
      | context [md5_row] => fail
      | _ => rewrite (row_steps X f i l1 l2 l3 l4 r) by (intros; reflexivity)
      end
  end.

(** The rows of the code follow the schedules of the reference. *)
Lemma transform_compress h block :
  stp_md5_transform h (Rfc.block_words block) = Rfc.compress h block.
Proof.
  unfold stp_md5_transform, Rfc.compress. set (X := Rfc.block_words block). cbv zeta.
  row X 0%nat. row X 4%nat. row X 8%nat. row X 12%nat.
  row X 16%nat. row X 20%nat. row X 24%nat. row X 28%nat.
  row X 32%nat. row X 36%nat. row X 40%nat. row X 44%nat.
  row X 48%nat. row X 52%nat. row X 56%nat. row X 60%nat.
  by rewrite <- !foldl_app.
Qed.

(** ** Bytes and words *)

Lemma lor_shiftl_add lo hi n : 0 ≤ n → 0 ≤ lo < 2 ^ n → Z.lor (Z.shiftl hi n) lo = lo + 2 ^ n * hi.
Proof.
  intros Hn Hlo. rewrite Z.shiftl_mul_pow2 by done. rewrite Z.lor_comm.
  rewrite <- Z.lxor_lor, <- Z.add_nocarry_lxor; [lia|..].
  all: apply Z.bits_inj'; intros k Hk; rewrite Z.land_spec, Z.bits_0; destruct (Z.ltb_spec k n);
    [by rewrite Z.mul_pow2_bits_low, andb_false_r by lia|].
  all: rewrite <- (Z.mod_small lo (2 ^ n)) by done; by rewrite Z.mod_pow2_bits_high by lia.
Qed.

Lemma word_le_val b0 b1 b2 b3 l :
  is_byte b0 → is_byte b1 → is_byte b2 → is_byte b3 →
  word_at (b0 :: b1 :: b2 :: b3 :: l) 0 = Rfc.le_val [b0; b1; b2; b3].
Proof.
  unfold is_byte, word_at. intros H0 H1 H2 H3. cbn [nth Nat.add Rfc.le_val].
  rewrite (lor_shiftl_add (Z.shiftl b2 16) b3 24) by (rewrite ?Z.shiftl_mul_pow2; lia).
  replace (Z.shiftl b2 16 + 2 ^ 24 * b3) with (Z.shiftl (b2 + 256 * b3) 16)
    by (rewrite !Z.shiftl_mul_pow2 by lia; lia).
  rewrite (lor_shiftl_add (Z.shiftl b1 8) _ 16) by (rewrite ?Z.shiftl_mul_pow2; lia).
  replace (Z.shiftl b1 8 + 2 ^ 16 * (b2 + 256 * b3)) with (Z.shiftl (b1 + 256 * (b2 + 256 * b3)) 8)
    by (rewrite !Z.shiftl_mul_pow2 by lia; lia).
  rewrite lor_shiftl_add by lia. lia.
Qed.

Lemma word_le_val4 l l' ii :
  Forall is_byte l' → (4 ≤ length l')%nat → (∀ j, nth (ii + j) l 0 = nth j l' 0) →
  word_at l ii = Rfc.le_val (take 4 l').
Proof.
  destruct l' as [|b0 [|b1 [|b2 [|b3 l']]]]; simpl length; try lia. intros Hb _ Hn.
  do 4 match goal with HF : Forall _ (_ :: _) |- _ => inversion_clear HF end.
  change (take 4 (b0 :: b1 :: b2 :: b3 :: l')) with [b0; b1; b2; b3].
  rewrite <- (word_le_val b0 b1 b2 b3 l') by done. unfold word_at.
  pose proof (Hn 0%nat) as E0. rewrite Nat.add_0_r in E0. by rewrite !Hn, E0.
Qed.

Lemma le_val_bytes4 w : 0 ≤ w < 2 ^ 32 → Rfc.le_val (Rfc.le_bytes_n 4 w) = w.
Proof.
  intros Hw. cbn [Rfc.le_bytes_n Rfc.le_val]. change (2 ^ 32) with 4294967296 in Hw.
  Z.to_euclidean_division_equations. lia.
Qed.

(** A buffer of bytes as words. *)
Lemma words_block l :
  Forall is_byte l → (64 ≤ length l)%nat → words 16 l = Rfc.block_words (take 64 l).
Proof.
  intros Hb Hl. unfold words, Rfc.block_words. apply list_fmap_ext. intros i j Hj.
  apply lookup_seq in Hj as [-> Hi]. simpl (0 + i)%nat.
  assert (Hd : (4 * i + 4 ≤ length l)%nat) by lia.
  rewrite take_drop_commute, take_take, Nat.min_l by lia. rewrite <- take_drop_commute.
  apply word_le_val4; [by apply Forall_drop|rewrite length_drop; lia|].
  intros j. by rewrite !nth_lookup, lookup_drop.
Qed.

(** ** Absorbing bytes *)

Section Absorb.
(** The compression function is abstract here. *)
Context (comp : BUF → list Z → BUF)
  (comp_transform : ∀ h block, stp_md5_transform h (Rfc.block_words block) = comp h block).

Lemma absorb_next n m h : Rfc.absorb comp (S n) m h = Rfc.absorb comp n (drop 64 m) (comp h (take 64 m)).
Proof. cbn [Rfc.absorb]. reflexivity. Qed.

Lemma absorb_app n : ∀ m l h, (64 * n ≤ length m)%nat → Rfc.absorb comp n (m ++ l) h = Rfc.absorb comp n m h.
Proof.
  induction n as [|n IH]; intros m l h Hl; [done|]. rewrite !absorb_next.
  rewrite take_app_le, drop_app_le by lia. apply IH. rewrite length_drop. lia.
Qed.

Lemma absorb_S n : ∀ m h,
  Rfc.absorb comp (S n) m h = comp (Rfc.absorb comp n m h) (take 64 (drop (64 * n) m)).
Proof.
  induction n as [|n IH]; intros m h; [done|].
  rewrite absorb_next, IH, drop_drop, <- absorb_next.
  by replace (64 + 64 * n)%nat with (64 * S n)%nat by lia.
Qed.

(** The buffer after the message [m]: its first bytes are those after the last
    full block. *)
Definition buffered (m : list Z) (b : BUF) (l : list Z) (mdi : nat) : Prop :=
  mdi = (length m mod 64)%nat ∧ b = Rfc.absorb comp (length m / 64) m md5_magic ∧
  length l = 64%nat ∧ Forall is_byte l ∧ take mdi l = drop (64 * (length m / 64)) m.

Lemma divmod_snoc n : (n mod 64 = 63 → S n / 64 = S (n / 64) ∧ S n mod 64 = 0)%nat ∧
  (n mod 64 ≠ 63 → S n / 64 = n / 64 ∧ S n mod 64 = S (n mod 64))%nat.
Proof.
  pose proof (Nat.div_mod_eq n 64). pose proof (Nat.mod_upper_bound n 64 ltac:(lia)).
  pose proof (Nat.div_mod_eq (S n) 64). pose proof (Nat.mod_upper_bound (S n) 64 ltac:(lia)). lia.
Qed.

Lemma update_loop_spec c : ∀ m b l mdi,
  buffered m b l mdi → Forall is_byte c →
  let '(b', l', mdi') := update_loop b l mdi c in buffered (m ++ c) b' l' mdi'.
Proof.
  induction c as [|x c IH]; intros m b l mdi HB Hc; cbn [update_loop].
  { by rewrite app_nil_r. }
  inversion_clear Hc as [|? ? Hx Hc']. replace (m ++ x :: c) with ((m ++ [x]) ++ c) by by rewrite <- app_assoc.
  destruct HB as (-> & -> & Hl & Hb & Ht).
  assert (Hmod : (length m mod 64 < 64)%nat) by (apply Nat.mod_upper_bound; lia).
  set (l1 := <[(length m mod 64)%nat := x]> l).
  assert (Hl1 : length l1 = 64%nat) by (unfold l1; by rewrite length_insert).
  assert (Hb1 : Forall is_byte l1) by (by apply Forall_insert).
  assert (Hq : (64 * (length m / 64) ≤ length m)%nat) by (pose proof (Nat.div_mod_eq (length m) 64); lia).
  assert (Ht1 : take (S (length m mod 64)) l1 = drop (64 * (length m / 64)) (m ++ [x])).
  { rewrite drop_app_le by lia. rewrite <- Ht. unfold l1.
    rewrite (take_S_r _ _ x) by (apply list_lookup_insert_eq; lia).
    f_equal. rewrite take_insert. by rewrite decide_False by lia. }
  destruct (divmod_snoc (length m)) as [D1 D2].
  assert (El : length (m ++ [x]) = S (length m)) by (rewrite length_app; simpl; lia).
  destruct (Nat.eqb_spec (S (length m mod 64)) 0x40) as [E|E].
  - destruct D1 as [Dq Dm]; [lia|]. apply IH; [|done]. split_and!.
    + by rewrite El, Dm.
    + rewrite El, Dq, absorb_S, absorb_app by lia. rewrite <- comp_transform.
      f_equal. rewrite words_block by (done || lia). f_equal.
      rewrite <- Ht1, E. by rewrite !take_ge by lia.
    + done.
    + done.
    + rewrite El, Dq. symmetry. apply drop_ge. rewrite El. pose proof (Nat.div_mod_eq (length m) 64). lia.
  - destruct D2 as [Dq Dm]; [lia|]. apply IH; [|done]. split_and!.
    + by rewrite El, Dm.
    + by rewrite El, Dq, absorb_app.
    + done.
    + done.
    + by rewrite El, Dq.
Qed.

(** ** The context *)

(** The context after the message [m]. *)
Definition md5_inv (m : list Z) (c : MD5_CTX) : Prop :=
  buffered m c.(buf) c.(inb) (length m mod 64) ∧
  c.(i0) = u32 (8 * Z.of_nat (length m)) ∧ c.(i1) = u32 (8 * Z.of_nat (length m) / 2 ^ 32).

Lemma mdi_spec m c : md5_inv m c → md5_mdi c = (length m mod 64)%nat.
Proof.
  intros (_ & E & _). unfold md5_mdi. rewrite E. change 0x3f with (Z.ones 6).
  rewrite Z.land_ones, Z.shiftr_div_pow2 by lia. unfold u32.
  apply Nat2Z.inj. rewrite Nat2Z.inj_mod, Z2Nat.id.
  2:{ apply Z.mod_pos_bound. lia. }
  set (N := Z.of_nat (length m)). change (Z.of_nat 64) with 64. change (2 ^ 6) with 64.
  change (2 ^ 3) with 8. change (2 ^ 32) with 4294967296.
  Z.to_euclidean_division_equations. lia.
Qed.

(** The bit count is one 64-bit number in two words. *)
Lemma update_bits N L :
  0 ≤ N → 0 ≤ L < 2 ^ 32 →
  let w0 := u32 (8 * N) in let w1 := u32 (8 * N / 2 ^ 32) in
  let bits := u32 (Z.shiftl L 3) in
  let hi := if u32 (w0 + bits) <? w0 then u32 (w1 + 1) else w1 in
  u32 (w0 + bits) = u32 (8 * (N + L)) ∧ u32 (hi + Z.shiftr L 29) = u32 (8 * (N + L) / 2 ^ 32).
Proof.
  intros HN HL. cbv zeta. rewrite Z.shiftl_mul_pow2, Z.shiftr_div_pow2 by lia. unfold u32.
  change (2 ^ 3) with 8. change (2 ^ 32) with 4294967296 in *. change (2 ^ 29) with 536870912.
  assert (E0 : ((8 * N) mod 4294967296 + (L * 8) mod 4294967296) mod 4294967296 =
               (8 * (N + L)) mod 4294967296).
  { rewrite <- Z.add_mod by lia. f_equal. lia. }
  split; [done|]. rewrite E0.
  set (M := 4294967296) in *.
  assert (HM : M = 4294967296) by done.
  assert (Hcarry : 8 * (N + L) / M = 8 * N / M + L / 536870912 +
    (if (8 * (N + L)) mod M <? (8 * N) mod M then 1 else 0)).
  { destruct (Z.ltb_spec ((8 * (N + L)) mod M) ((8 * N) mod M));
      rewrite HM in *; Z.to_euclidean_division_equations; lia. }
  rewrite Hcarry. destruct (_ <? _).
  - rewrite Z.add_mod_idemp_l by lia.
    replace ((8 * N / M) mod M + 1 + L / 536870912) with ((8 * N / M) mod M + (1 + L / 536870912)) by lia.
    rewrite Z.add_mod_idemp_l by lia. f_equal. lia.
  - rewrite Z.add_mod_idemp_l by lia. f_equal. lia.
Qed.

Lemma md5_init_inv junk :
  length junk = 64%nat → Forall is_byte junk → md5_inv [] (stp_md5_init junk).
Proof. intros Hl Hb. by split_and!. Qed.

Lemma md5_update_inv m c l :
  md5_inv m c → Forall is_byte l → Z.of_nat (length l) < 2 ^ 32 →
  md5_inv (m ++ l) (stp_md5_update c l).
Proof.
  intros HI Hb Hl. pose proof (mdi_spec _ _ HI) as Em. destruct HI as (HB & E0 & E1).
  pose proof (update_loop_spec l m c.(buf) c.(inb) (md5_mdi c)) as HU.
  rewrite Em in HU. specialize (HU HB Hb). unfold stp_md5_update. rewrite Em.
  destruct (update_loop c.(buf) c.(inb) (length m mod 64) l) as [[b' l'] mdi'].
  assert (Emdi : mdi' = (length (m ++ l) mod 64)%nat) by apply HU. rewrite Emdi in HU.
  destruct (update_bits (Z.of_nat (length m)) (Z.of_nat (length l))) as [B0 B1]; [lia|lia|].
  split; [exact HU|]. cbn [i0 i1]. rewrite E0, E1. rewrite length_app, Nat2Z.inj_add. by split.
Qed.

(** ** Padding *)

Lemma padLen_spec n :
  md5_padLen (n mod 64) = S (Z.to_nat ((55 - Z.of_nat n) mod 64)) ∧
  ((n + md5_padLen (n mod 64)) mod 64 = 56)%nat ∧ (md5_padLen (n mod 64) ≤ 64)%nat.
Proof.
  unfold md5_padLen. pose proof (Nat.div_mod_eq n 64) as Hn.
  pose proof (Nat.mod_upper_bound n 64 ltac:(lia)) as Hr. set (r := (n mod 64)%nat) in *.
  assert (Ez : (55 - Z.of_nat n) mod 64 = (55 - Z.of_nat r) mod 64).
  { rewrite Hn. set (q := (n / 64)%nat). replace (55 - Z.of_nat (64 * q + r)) with
      (55 - Z.of_nat r + (- Z.of_nat q) * 64) by lia. apply Z.mod_add. lia. }
  rewrite Ez. destruct (Nat.ltb_spec r 56).
  - rewrite Z.mod_small by lia. split_and!; [lia| |lia].
    rewrite Hn. replace (64 * (n / 64) + r + (56 - r))%nat with (56 + n / 64 * 64)%nat by lia.
    by rewrite Nat.Div0.mod_add.
  - replace ((55 - Z.of_nat r) mod 64) with (119 - Z.of_nat r).
    + split_and!; [lia| |lia].
      rewrite Hn. replace (64 * (n / 64) + r + (120 - r))%nat with (56 + (n / 64 + 1) * 64)%nat by lia.
      by rewrite Nat.Div0.mod_add.
    + apply (Z.mod_unique _ 64 (-1)); lia.
Qed.

Lemma take_PADDING k : (k ≤ 63)%nat → take (S k) PADDING = 0x80 :: repeat 0 k.
Proof.
  intros Hk. unfold PADDING. cbn [take]. f_equal.
  replace (repeat 0 63) with (repeat 0 k ++ repeat 0 (63 - k)).
  - rewrite take_app_le by (by rewrite repeat_length). apply take_ge. by rewrite repeat_length.
  - rewrite <- repeat_app. f_equal. lia.
Qed.

Definition padding (n : nat) : list Z := take (md5_padLen (n mod 64)) PADDING.

Lemma padding_bytes n : Forall is_byte (padding n).
Proof. apply Forall_take. unfold is_byte, PADDING. repeat (constructor; [lia|]). constructor. Qed.

Lemma length_padding n : length (padding n) = md5_padLen (n mod 64).
Proof.
  unfold padding. destruct (padLen_spec n) as (_ & _ & H). rewrite length_take.
  change (length PADDING) with 64%nat. lia.
Qed.

Lemma pad_eq m :
  Rfc.pad m = (m ++ padding (length m)) ++ Rfc.le_bytes_n 8 (8 * Z.of_nat (length m) mod 2 ^ 64).
Proof.
  unfold Rfc.pad, padding. destruct (padLen_spec (length m)) as (E & _ & Hle). rewrite E in *.
  rewrite take_PADDING by lia. by rewrite <- app_assoc.
Qed.

Lemma length_le_bytes_n n z : length (Rfc.le_bytes_n n z) = n.
Proof. revert z. induction n; intros; simpl; auto. Qed.

Lemma le_bytes_n_byte n z : Forall is_byte (Rfc.le_bytes_n n z).
Proof.
  revert z. induction n; intros; simpl; constructor; [|done].
  unfold is_byte. pose proof (Z.mod_pos_bound z 256). lia.
Qed.

Lemma le_bytes_spec w : le_bytes w = Rfc.le_bytes_n 4 w.
Proof.
  unfold le_bytes, u8. cbn [Rfc.le_bytes_n]. rewrite !Z.shiftr_div_pow2 by lia.
  change (2 ^ 8) with 256. rewrite !Z.div_div by lia. done.
Qed.

Lemma le_bytes_n_app a b z : 0 ≤ z →
  Rfc.le_bytes_n (a + b) z = Rfc.le_bytes_n a z ++ Rfc.le_bytes_n b (z / 2 ^ (8 * Z.of_nat a)).
Proof.
  revert z. induction a as [|a IH]; intros z Hz.
  - simpl. by rewrite Z.div_1_r.
  - simpl. rewrite IH by (apply Z.div_pos; lia). do 3 f_equal. rewrite Z.div_div by lia. f_equal.
    replace (8 * Z.of_nat (S a)) with (8 + 8 * Z.of_nat a) by lia. rewrite Z.pow_add_r by lia. done.
Qed.

Lemma le_bytes_n_mod n z m : m = 2 ^ (8 * Z.of_nat n) → Rfc.le_bytes_n n (z mod m) = Rfc.le_bytes_n n z.
Proof.
  revert z m. induction n as [|n IH]; intros z m ->; [done|]. cbn [Rfc.le_bytes_n].
  replace (8 * Z.of_nat (S n)) with (8 + 8 * Z.of_nat n) by lia. rewrite Z.pow_add_r by lia.
  change (2 ^ 8) with 256. assert (0 < 2 ^ (8 * Z.of_nat n)) by (apply Z.pow_pos_nonneg; lia).
  rewrite Z.rem_mul_r by lia. f_equal.
  - rewrite (Z.mul_comm 256), Z.mod_add by lia. by rewrite Z.mod_mod.
  - rewrite <- (IH (z / 256) _ eq_refl). f_equal. rewrite (Z.mul_comm 256), Z.div_add by lia.
    by rewrite (Z.div_small (z mod 256)) by (apply Z.mod_pos_bound; lia).
Qed.

(** The two words of the count are the eight bytes of the length. *)
Lemma length_bytes N : 0 ≤ N →
  stp_md5_encode [u32 (8 * N); u32 (8 * N / 2 ^ 32)] = Rfc.le_bytes_n 8 (8 * N mod 2 ^ 64).
Proof.
  intros HN. unfold stp_md5_encode. cbn [mbind list_bind]. rewrite app_nil_r, !le_bytes_spec. unfold u32.
  rewrite (le_bytes_n_mod 8 _ (2 ^ 64)) by done. change 8%nat with (4 + 4)%nat.
  rewrite le_bytes_n_app by lia. by rewrite !(le_bytes_n_mod 4 _ (2 ^ 32)) by done.
Qed.

(** ** Finishing *)

Definition ref_state (m : list Z) : BUF := Rfc.absorb comp (length (Rfc.pad m) / 64) (Rfc.pad m) md5_magic.

Definition ref_digest (h : BUF) : list Z :=
  Rfc.le_bytes_n 4 h.(buf0) ++ Rfc.le_bytes_n 4 h.(buf1) ++ Rfc.le_bytes_n 4 h.(buf2) ++
  Rfc.le_bytes_n 4 h.(buf3).

Lemma encode_digest b : stp_md5_encode (buf_words b) = ref_digest b.
Proof.
  unfold stp_md5_encode, buf_words, ref_digest. cbn [mbind list_bind].
  by rewrite app_nil_r, !le_bytes_spec.
Qed.

(** The context after the padding: 56 bytes are buffered. *)
Lemma padded_inv m c :
  md5_inv m c →
  md5_inv (m ++ padding (length m)) (stp_md5_update c (take (md5_padLen (md5_mdi c)) PADDING)) ∧
  (length (m ++ padding (length m)) mod 64 = 56)%nat.
Proof.
  intros HI. rewrite (mdi_spec _ _ HI). destruct (padLen_spec (length m)) as (_ & E & Hle). split.
  - apply md5_update_inv; [done|apply padding_bytes|].
    change (Z.of_nat (length (padding (length m))) < 2 ^ 32). rewrite length_padding. lia.
  - by rewrite length_app, length_padding.
Qed.

Lemma md5_final_h_spec m c : md5_inv m c → stp_md5_final_h c = ref_digest (ref_state m).
Proof.
  intros HI. unfold stp_md5_final_h. destruct (padded_inv m c HI) as [HI1 _].
  set (c1 := stp_md5_update c _) in *.
  assert (Eb : stp_md5_encode [c.(i0); c.(i1)] = Rfc.le_bytes_n 8 (8 * Z.of_nat (length m) mod 2 ^ 64)).
  { destruct HI as (_ & -> & ->). apply length_bytes. lia. }
  rewrite Eb. pose proof (md5_update_inv _ _ _ HI1
    (le_bytes_n_byte 8 (8 * Z.of_nat (length m) mod 2 ^ 64))) as HI2.
  rewrite length_le_bytes_n, <- pad_eq in HI2. destruct (HI2 ltac:(lia)) as ((_ & E & _) & _).
  rewrite encode_digest. by rewrite E.
Qed.

Lemma nth_app_l (l l' : list Z) j : (j < length l)%nat → nth j (l ++ l') 0 = nth j l 0.
Proof. intros. by rewrite !nth_lookup, lookup_app_l. Qed.

(** Fourteen words of the buffer and the two of the count are the last block. *)
Lemma last_words l N :
  length l = 64%nat → Forall is_byte l → 0 ≤ N →
  words 14 l ++ [u32 (8 * N); u32 (8 * N / 2 ^ 32)] =
  Rfc.block_words (take 56 l ++ Rfc.le_bytes_n 8 (8 * N mod 2 ^ 64)).
Proof.
  intros Hl Hb HN. set (t := take 56 l ++ Rfc.le_bytes_n 8 (8 * N mod 2 ^ 64)).
  assert (Ht : length t = 64%nat) by (unfold t; rewrite length_app, length_take, length_le_bytes_n; lia).
  assert (Hbt : Forall is_byte t) by (apply Forall_app; split; [by apply Forall_take|apply le_bytes_n_byte]).
  rewrite <- (take_ge t 64) by lia. rewrite <- words_block by (done || lia).
  unfold words. change 16%nat with (14 + 2)%nat. rewrite seq_app, fmap_app. f_equal.
  - apply list_fmap_ext. intros i j Hj. apply lookup_seq in Hj as [-> Hi]. simpl (0 + i)%nat.
    unfold word_at, t. rewrite !nth_app_l by (rewrite length_take; lia).
    by rewrite !nth_lookup, !lookup_take_lt by lia.
  - cbn [seq fmap list_fmap Nat.add Nat.mul].
    assert (Ed : drop 56 t = stp_md5_encode [u32 (8 * N); u32 (8 * N / 2 ^ 32)]).
    { unfold t. rewrite drop_app_length' by (rewrite length_take; lia). by rewrite length_bytes. }
    assert (Hw : ∀ w k, 0 ≤ w < 2 ^ 32 → take 4 (drop k t) = le_bytes w → (k ≤ 60)%nat → w = word_at t k).
    { intros w k Hw Ek Hk. rewrite (word_le_val4 t (drop k t)).
      - rewrite Ek, le_bytes_spec. symmetry. by apply le_val_bytes4.
      - by apply Forall_drop.
      - rewrite length_drop. lia.
      - intros j. by rewrite !nth_lookup, lookup_drop. }
    f_equal; [|f_equal]; (apply Hw; [apply u32_range| |lia]).
    + by rewrite Ed.
    + change 60%nat with (56 + 4)%nat. rewrite <- drop_drop, Ed. done.
Qed.

Lemma md5_final_spec m c : md5_inv m c → stp_md5_final c = ref_digest (ref_state m).
Proof.
  intros HI. unfold stp_md5_final. destruct (padded_inv m c HI) as [((_ & Eb & Hl & Hb & Ht) & _) Em].
  set (c1 := stp_md5_update c _) in *. set (m1 := m ++ padding (length m)) in *.
  rewrite encode_digest. f_equal. rewrite Em in Ht.
  destruct HI as (_ & -> & ->). rewrite last_words by (done || lia).
  rewrite comp_transform, Ht, Eb. unfold ref_state. rewrite pad_eq. fold m1.
  set (bits := Rfc.le_bytes_n 8 _).
  assert (Hm1 : length m1 = (64 * (length m1 / 64) + 56)%nat) by (pose proof (Nat.div_mod_eq (length m1) 64); lia).
  assert (Eq : (length (m1 ++ bits) / 64 = S (length m1 / 64))%nat).
  { rewrite length_app. unfold bits. rewrite length_le_bytes_n, Hm1 at 1.
    replace (64 * (length m1 / 64) + 56 + 8)%nat with ((S (length m1 / 64)) * 64)%nat by lia.
    apply Nat.div_mul. lia. }
  rewrite Eq, absorb_S, absorb_app by lia. f_equal.
  rewrite drop_app_le by lia. symmetry. apply take_ge.
  rewrite length_app, length_drop. unfold bits. rewrite length_le_bytes_n. lia.
Qed.

Lemma md5_blocks_inv n : ∀ m c da,
  md5_inv m c → Forall is_byte da → (64 * n ≤ length da)%nat →
  let '(c', rest) := md5_blocks n c da in
  md5_inv (m ++ take (64 * n) da) c' ∧ rest = drop (64 * n) da.
Proof.
  induction n as [|n IH]; intros m c da HI Hb Hl.
  { simpl. by rewrite app_nil_r. }
  cbn [md5_blocks]. pose proof (IH (m ++ take 64 da) (stp_md5_update c (take 64 da)) (drop 64 da)) as H.
  destruct (md5_blocks n _ _) as [c' rest]. destruct H as [H1 H2].
  - apply md5_update_inv; [done|by apply Forall_take|]. rewrite length_take. lia.
  - by apply Forall_drop.
  - rewrite length_drop. lia.
  - rewrite H2, drop_drop. replace (64 + 64 * n)%nat with (64 * S n)%nat by lia. split; [|done].
    rewrite <- app_assoc, take_take_drop in H1. by replace (64 + 64 * n)%nat with (64 * S n)%nat in H1 by lia.
Qed.
End Absorb.

(** ** Properties *)

Lemma foldl_update_inv chunks : ∀ m c,
  md5_inv Rfc.compress m c →
  Forall (fun l => Forall is_byte l ∧ Z.of_nat (length l) < 2 ^ 32) chunks →
  md5_inv Rfc.compress (m ++ concat chunks) (foldl stp_md5_update c chunks).
Proof.
  induction chunks as [|l chunks IH]; intros m c HI HF; simpl; [by rewrite app_nil_r|].
  inversion_clear HF as [|? ? [Hb Hl] HF']. rewrite app_assoc. apply IH; [|done].
  by apply (md5_update_inv _ transform_compress).
Qed.

Lemma rfc_digest m : ref_digest (ref_state Rfc.compress m) = Rfc.md5 m.
Proof. reflexivity. Qed.

Lemma MD5_spec junk text :
  length junk = 64%nat → Forall is_byte junk → Forall is_byte text →
  MD5 junk text = Rfc.md5 text.
Proof.
  intros Hl Hb Ht. unfold MD5.
  pose proof (md5_blocks_inv Rfc.compress transform_compress (length text / 64) [] (stp_md5_init junk) text
    (md5_init_inv _ junk Hl Hb) Ht) as H.
  pose proof (Nat.div_mod_eq (length text) 64) as Hd.
  pose proof (Nat.mod_upper_bound (length text) 64 ltac:(lia)) as Hm.
  destruct (md5_blocks _ _ _) as [c rest]. destruct H as [HI ->]; [lia|]. simpl in HI.
  rewrite <- rfc_digest. apply (md5_final_spec _ transform_compress).
  rewrite <- (take_drop (64 * (length text / 64)) text) at 1.
  apply (md5_update_inv _ transform_compress); [done|by apply Forall_drop|].
  rewrite length_drop. lia.
Qed.

(** C26: MD5 is computed as RFC 1321 defines it, however the message is cut: for
    any sequence of updates of less than [2^32] bytes each, from any content of
    the uninitialised buffer, both ways to finish give the digest of the whole
    message; so does the function [MD5], which cuts it into blocks. *)
Theorem md5_is_rfc1321 junk chunks :
  length junk = 64%nat → Forall is_byte junk →
  Forall (fun l => Forall is_byte l ∧ Z.of_nat (length l) < 2 ^ 32) chunks →
  let c := foldl stp_md5_update (stp_md5_init junk) chunks in
  stp_md5_final c = Rfc.md5 (concat chunks) ∧ stp_md5_final_h c = Rfc.md5 (concat chunks) ∧
  MD5 junk (concat chunks) = Rfc.md5 (concat chunks).
Proof.
  intros Hl Hb HF c. assert (HI : md5_inv Rfc.compress (concat chunks) c).
  { apply (foldl_update_inv chunks []); [by apply md5_init_inv|done]. }
  rewrite <- rfc_digest. split_and!.
  - by apply (md5_final_spec _ transform_compress).
  - by apply (md5_final_h_spec _ transform_compress).
  - rewrite rfc_digest. apply MD5_spec; [done..|].
    clear c HI. induction HF as [|l chunks [? _] _ IH]; simpl; [constructor|by apply Forall_app].
Qed.

Lemma lxor_byte a b : is_byte a → is_byte b → is_byte (Z.lxor a b).
Proof.
  unfold is_byte. intros Ha Hb. split; [apply Z.lxor_nonneg; lia|].
  destruct (decide (Z.lxor a b = 0)) as [->|Hne]; [lia|].
  apply (Z.log2_lt_pow2 _ 8); [pose proof (proj2 (Z.lxor_nonneg a b)); lia|].
  pose proof (Z.log2_lxor a b ltac:(lia) ltac:(lia)).
  assert (Hlog : ∀ x, 0 ≤ x < 256 → Z.log2 x ≤ 7).
  { intros x Hx. destruct (decide (x = 0)) as [->|]; [done|].
    pose proof (proj1 (Z.log2_lt_pow2 x 8 ltac:(lia))). lia. }
  pose proof (Hlog a Ha). pose proof (Hlog b Hb). lia.
Qed.

(** [stp_md5_get_digest] against the reference. *)
Lemma get_digest_hmac junk text key :
  length junk = 64%nat → Forall is_byte junk → Forall is_byte text → Forall is_byte key →
  (length key ≤ 64)%nat → Z.of_nat (length text) < 2 ^ 32 →
  stp_md5_get_digest junk text key = Done (Rfc.hmac_md5 key text).
Proof.
  intros Hl Hb Ht Hk Hlk Hlt. unfold stp_md5_get_digest.
  destruct (Nat.ltb_spec 64 (length key)); [lia|]. f_equal. unfold Rfc.hmac_md5.
  set (K := key ++ repeat 0 (64 - length key)).
  assert (HK : Forall is_byte K).
  { apply Forall_app. split; [done|]. generalize (64 - length key)%nat as n.
    induction n; simpl; constructor; [unfold is_byte; lia|done]. }
  assert (Hpad : ∀ p, is_byte p → xor_pad p key = Z.lxor p <$> K ∧ Forall is_byte (Z.lxor p <$> K) ∧
    Z.of_nat (length (Z.lxor p <$> K)) < 2 ^ 32).
  { intros p Hp. split_and!.
    - unfold xor_pad. apply list_fmap_ext. intros; apply Z.lxor_comm.
    - apply Forall_fmap. induction HK; constructor; [by apply lxor_byte|done].
    - rewrite length_fmap. unfold K. rewrite length_app, repeat_length. lia. }
  destruct (Hpad 0x36) as (-> & HI & HIl); [unfold is_byte; lia|].
  destruct (Hpad 0x5c) as (-> & HO & HOl); [unfold is_byte; lia|].
  pose proof (md5_init_inv Rfc.compress junk Hl Hb) as I0.
  assert (H1 : ∀ l1 l2, Forall is_byte l1 → Z.of_nat (length l1) < 2 ^ 32 →
    Forall is_byte l2 → Z.of_nat (length l2) < 2 ^ 32 →
    stp_md5_final_h (stp_md5_update (stp_md5_update (stp_md5_init junk) l1) l2) = Rfc.md5 (l1 ++ l2)).
  { intros. rewrite <- rfc_digest. apply (md5_final_h_spec _ transform_compress).
    apply (md5_update_inv _ transform_compress); [|done..].
    by apply (md5_update_inv _ transform_compress [] _ l1). }
  rewrite (H1 _ text) by done. apply H1; [done|done|..].
  - unfold Rfc.md5. repeat (apply Forall_app; split); apply le_bytes_n_byte.
  - unfold Rfc.md5. cbv zeta. rewrite !length_app, !length_le_bytes_n. lia.
Qed.

(** C27: the keyed digest is the HMAC of RFC 2104 over MD5, for every key of a
    block at most (the daemon's key has 16 bytes) and every text, whatever the
    uninitialised buffer holds. *)
Theorem keyed_digest_is_hmac junk text key :
  length junk = 64%nat → Forall is_byte junk → Forall is_byte text → Forall is_byte key →
  (length key ≤ 64)%nat → Z.of_nat (length text) < 2 ^ 32 →
  stp_md5_get_digest junk text key = Done (Rfc.hmac_md5 key text).
Proof. exact (get_digest_hmac junk text key). Qed.

(** *** Witnesses *)

(** RFC 1321, appendix 5: the digest of the three letters, cut in two. *)
Lemma md5_is_rfc1321_witness :
  stp_md5_final (foldl stp_md5_update (stp_md5_init (repeat 7 64)) [[97]; [98; 99]]) =
  [0x90; 0x01; 0x50; 0x98; 0x3c; 0xd2; 0x4f; 0xb0; 0xd6; 0x96; 0x3f; 0x7d; 0x28; 0xe1; 0x7f; 0x72].
Proof.
  refine (eq_trans (proj1 (md5_is_rfc1321 (repeat 7 64) [[97]; [98; 99]] eq_refl _ _)) _).
  - apply (bool_decide_unpack _). vm_compute. exact Logic.I.
  - apply (bool_decide_unpack _). vm_compute. exact Logic.I.
  - vm_compute. reflexivity.
Defined.

(** RFC 2202, the first test of HMAC-MD5. *)
Lemma keyed_digest_is_hmac_witness :
  stp_md5_get_digest (repeat 0 64) [0x48; 0x69; 0x20; 0x54; 0x68; 0x65; 0x72; 0x65] (repeat 0x0b 16) =
  Done [0x92; 0x94; 0x72; 0x7a; 0x36; 0x38; 0xbb; 0x1c; 0x13; 0xf4; 0x8e; 0xf8; 0x15; 0x8b; 0xfc; 0x9d].
Proof.
  refine (eq_trans (keyed_digest_is_hmac (repeat 0 64) _ (repeat 0x0b 16) eq_refl _ _ _ _ _) _).
  1-3: apply (bool_decide_unpack _); vm_compute; exact Logic.I.
  - vm_compute. lia.
  - vm_compute. reflexivity.
  - vm_compute. reflexivity.
Defined.
