(* ===== verification/StpMgmtSafety.v ===== *)
(** * Memory safety of management

    The functions of [stp_mgmt.c] keep the bridge and the VLAN tables well
    formed, fail nowhere and add to the trace only what [daemon_event] allows, on a
    state of a running daemon; and what they do to the VLAN maps of the instances. *)

From Stdlib Require Import ZArith Lia.
From stdpp Require Import base gmap list option.
From S2P Require Import Prelude StpTypes StpMd5 StpVector StpTo StpHeap StpStatmch StpPort StpRoletrns StpTransmit StpFrame StpReceive StpStpm StpSafety StpIn StpMgmt StpCommand StpManage StpDaemon StpMd5Props.

(** ** The state of a running daemon

    While the protocol runs the tables of the ports are allocated, and whatever
    the daemon ever accessed outside a block is in [daemon_overrun]. *)

Record mgmt_ok (m : MGMT_T) : Prop := {
  mo_daemon : daemon_ok m.(core);
  mo_cist : m.(core).(g_CISTBRIDGE) = Some STP_CIST_ID;
  mo_vids : length m.(g_VID2MSTID) = 4096%nat;
  mo_ports : length m.(g_VlanPBMP) = 4096%nat;
  mo_bytes : ∀ bm, bm ∈ m.(g_VlanPBMP) → length bm = 9%nat;
  mo_maps : ∀ b x, m.(core).(stpm_heap) !! b = Some x → length x.(STPM.vlan_map).(bmp) = 512%nat;
  mo_tables : m.(core).(g_flag) = true → is_Some m.(core).(port_speed_s);
  mo_trace : Forall daemon_event m.(core).(trace) }.

(** The VLAN maps of the instances. *)
Definition maps (st : STP_T) : gmap Z VLAN_MAP_T := STPM.vlan_map <$> st.(stpm_heap).

(** Their lists of ports. *)
Definition lists (st : STP_T) : gmap Z (list PORT_REF) := STPM.ports <$> st.(stpm_heap).

Lemma keeps_maps st st' : keeps st st' → maps st' = maps st.
Proof.
  intros K. apply map_eq. intros b. unfold maps. rewrite !lookup_fmap.
  pose proof (f_equal (fmap fst) (kp_maps _ _ K b)) as E. by rewrite <- !option_fmap_compose in E.
Qed.

Lemma mgmt_cist m : mgmt_ok m → ∃ x, m.(core).(stpm_heap) !! STP_CIST_ID = Some x.
Proof.
  intros M. destruct (wf_cist _ (proj1 (mo_daemon _ M)) _ (mo_cist _ M)) as [_ [y Hy]].
  apply shape_stpm_inv in Hy as (x & Hx & _). eauto.
Qed.

Lemma mgmt_ok_core m st :
  mgmt_ok m → daemon_ok st → keeps m.(core) st → mgmt_ok (m <| core := st |>).
Proof.
  intros [D C V P B L T A] D' K. split; simpl; try done; [by rewrite (kp_cist _ _ K)|..].
  2: { rewrite (kp_flag _ _ K). intros Hg. apply (kp_tables _ _ K), T, Hg. }
  2: { eapply adds_Forall; [apply (kp_trace _ _ K)|done]. }
  intros b x Hx. pose proof (f_equal (.!! b) (keeps_maps _ _ K)) as E. unfold maps in E.
  rewrite !lookup_fmap, Hx in E. destruct (m.(core).(stpm_heap) !! b) as [y|] eqn:Hy; [|done].
  simpl in E. injection E as E. etransitivity; [exact (f_equal (fun v => length v.(bmp)) E)|by eapply L].
Qed.

(** A step of the engine's part. *)
Lemma in_core_wp {A} (f : STP_T → outcome (STP_T * A)) m (Q : MGMT_T * A → Prop) :
  wp (f m.(core)) (fun '(st, a) => Q (m <| core := st |>, a)) → wp (in_core f m) Q.
Proof. intros H. apply wp_bind. eapply wp_mono; [exact H|]. by intros [st a]. Qed.

(** ** The tables *)

Lemma vid_lookup {A} (t : list A) VID : length t = 4096%nat → 0 ≤ VID < 4096 → ∃ x, t !! Z.to_nat VID = Some x.
Proof. intros Hl Hv. apply lookup_lt_is_Some_2. lia. Qed.

Lemma vid_ports_ok m VID :
  mgmt_ok m → 0 ≤ VID < 4096 → ∃ bm, vid_ports m VID = Done bm ∧ length bm = 9%nat.
Proof.
  intros M Hv. destruct (vid_lookup _ _ (mo_ports _ M) Hv) as [bm E]. exists bm. unfold vid_ports.
  rewrite E. split; [done|]. eapply mo_bytes; [exact M|by eapply list_elem_of_lookup_2].
Qed.

Lemma set_vid_mstid_ok m VID b :
  mgmt_ok m → 0 ≤ VID < 4096 →
  set_vid_mstid m VID b = Done (m <| g_VID2MSTID := <[Z.to_nat VID := b]> m.(g_VID2MSTID) |>) ∧
  mgmt_ok (m <| g_VID2MSTID := <[Z.to_nat VID := b]> m.(g_VID2MSTID) |>).
Proof.
  intros M Hv. destruct (vid_lookup _ _ (mo_vids _ M) Hv) as [x E]. unfold set_vid_mstid, vid_mstid.
  rewrite E. split; [done|]. destruct M. split; try done. simpl. by rewrite length_insert.
Qed.

Lemma set_vid_ports_ok m VID bm :
  mgmt_ok m → 0 ≤ VID < 4096 → length bm = 9%nat →
  wp (set_vid_ports m VID bm) (fun m' => mgmt_ok m' ∧ m'.(core) = m.(core) ∧ m'.(g_VID2MSTID) = m.(g_VID2MSTID)).
Proof.
  intros M Hv Hb. destruct (vid_lookup _ _ (mo_ports _ M) Hv) as [x E]. unfold set_vid_ports, vid_ports.
  rewrite E. split; [|done]. destruct M as [D C V P B L T A]. split; try done; simpl; [by rewrite length_insert|].
  intros y Hy. apply list_elem_of_lookup_1 in Hy as [i Hy].
  destruct (decide (i = Z.to_nat VID)) as [->|].
  - rewrite list_lookup_insert_eq in Hy by (eapply lookup_lt_Some; exact E). congruence.
  - rewrite list_lookup_insert_ne in Hy by done. apply B. by eapply list_elem_of_lookup_2.
Qed.

(** ** Stores in an instance *)

Lemma put_stpm_keeps_rest st b x : same_rest st (put_stpm st b x).
Proof. by split_and!. Qed.

(** Only its VLANs and its identifier change. *)
Lemma upd_stpm_spec f b m x :
  mgmt_ok m → m.(core).(stpm_heap) !! b = Some x →
  (f x).(STPM.ports) = x.(STPM.ports) → (f x).(STPM.vlan_id) = x.(STPM.vlan_id) →
  length (f x).(STPM.vlan_map).(bmp) = 512%nat →
  upd_stpm f (Some b) m = Done (m <| core := put_stpm m.(core) b (f x) |>) ∧
  mgmt_ok (m <| core := put_stpm m.(core) b (f x) |>).
Proof.
  intros M H Ep Ev El. unfold upd_stpm. cbn [deref obind]. rewrite (get_stpm_Some _ _ _ H).
  split; [done|]. assert (W := proj1 (mo_daemon _ M)). split; simpl; try apply M.
  - apply (daemon_ok_rest m.(core)); [by split_and!| | |apply M].
    + unfold wf. rewrite shape_put_stpm.
      by apply (wf_relabel _ W b (sshape x) (sshape (f x)) (shape_stpm _ _ _ H)).
    + rewrite shape_put_stpm. exact (proj1 (proj2 (mo_daemon _ M))).
  - intros c y [[<- <-]|[_ Hc]]%lookup_insert_Some; [done|]. by eapply (mo_maps _ M).
Qed.

Lemma maps_put_stpm st b x : maps (put_stpm st b x) = <[b := x.(STPM.vlan_map)]> (maps st).
Proof. unfold maps. simpl. by rewrite fmap_insert. Qed.

(** Its other instances, its number and the slots stay. *)
Lemma put_stpm_instance st b x c :
  is_Some (st.(stpm_heap) !! b) → is_Some ((put_stpm st b x).(stpm_heap) !! c) ↔ is_Some (st.(stpm_heap) !! c).
Proof.
  intros Hb. simpl. destruct (decide (b = c)) as [<-|]; [by rewrite lookup_insert_eq|by rewrite lookup_insert_ne].
Qed.

(** ** What the loops over the ports rely on

    The platform, the slots that are taken and the instances there are. *)

Record slots_kept (st st' : STP_T) : Prop := {
  sk_product : st'.(productId) = st.(productId);
  sk_distributed : st'.(stp_is_distributed) = st.(stp_is_distributed);
  sk_slot : st'.(stp_slot_id) = st.(stp_slot_id);
  sk_slots : ∀ i, is_Some (st.(g_CISTPORT) !! i) → is_Some (st'.(g_CISTPORT) !! i) }.

#[export] Instance slots_kept_preorder : PreOrder slots_kept.
Proof. split; [by intros st; split|]. intros a b c [] []. split; try congruence; auto. Qed.

Record like (st st' : STP_T) : Prop := {
  lk_kept : slots_kept st st';
  lk_instances : ∀ b, is_Some (st.(stpm_heap) !! b) → is_Some (st'.(stpm_heap) !! b) }.

#[export] Instance like_preorder : PreOrder like.
Proof.
  split; [by intros st; split|]. intros a b c [] []. split; [by etransitivity|auto].
Qed.

Lemma keeps_like st st' : keeps st st' → like st st'.
Proof. intros K. split; [by split; apply K|]. intros b. by apply keeps_instance. Qed.

Lemma put_stpm_like st b x : like st (put_stpm st b x).
Proof.
  split; try done. intros c Hc. simpl. destruct (decide (b = c)) as [<-|];
    [by rewrite lookup_insert_eq|by rewrite lookup_insert_ne].
Qed.

(** Only the engine's part changes. *)
Definition core_step (m m' : MGMT_T) : Prop :=
  m' = m <| core := m'.(core) |> ∧ like m.(core) m'.(core).

#[export] Instance core_step_preorder : PreOrder core_step.
Proof.
  split; [intros m; split; [by destruct m|done]|]. intros a b c [E1 L1] [E2 L2].
  split; [|by etransitivity]. rewrite E2, E1. done.
Qed.

Lemma core_step_intro m st : like m.(core) st → core_step m (m <| core := st |>).
Proof. by split. Qed.

Lemma core_step_tables m m' : core_step m m' →
  m'.(g_VID2MSTID) = m.(g_VID2MSTID) ∧ m'.(g_VlanPBMP) = m.(g_VlanPBMP) ∧
  m'.(g_stp_state) = m.(g_stp_state) ∧ m'.(current_mode) = m.(current_mode).
Proof. intros [-> _]. done. Qed.

(** The port a bit stands for can be added to the instance. *)
Definition bit_known (st : STP_T) (b VID : Z) (bm : BITMAP_T) (byte bit : nat) : Prop :=
  match stp_bitmap_get_portindex_from_bmp st bm (Z.of_nat byte) (Z.of_nat bit) with
  | Done idx => idx = -1 ∨ idx = -2 ∨
      addport_ok st b (u32 idx) VID ∧ bad_index (stp_port_global_index_parse st (u32 idx)) = false
  | _ => True
  end.

Definition ports_known (st : STP_T) (b VID : Z) (bm : BITMAP_T) : Prop :=
  Forall (fun byte => Forall (bit_known st b VID bm byte) (seq 0 BIT_OF_BYTE)) (seq 0 NUMBER_OF_BYTES).

Lemma bit_known_like st st' b VID bm byte bit :
  slots_kept st st' → bit_known st b VID bm byte bit → bit_known st' b VID bm byte bit.
Proof.
  intros [E1 E2 E3 Hs]. unfold bit_known, stp_bitmap_get_portindex_from_bmp, addport_ok, stp_port_global_index_parse.
  rewrite E1, E2, E3. destruct (obind _ _); [|done..].
  intros [->|[->|((? & ? & Hslot) & ?)]]; [by left|by right; left|right; right].
  split_and!; [done..| |done]. intros Hb. by apply Hs, Hslot.
Qed.

Lemma ports_known_like st st' b VID bm :
  slots_kept st st' → ports_known st b VID bm → ports_known st' b VID bm.
Proof.
  intros L. apply Forall_impl. intros byte. apply Forall_impl. intros bit. by apply bit_known_like.
Qed.

Lemma portindex_total st bm byte bit :
  length bm = 9%nat → (byte ≤ 8)%nat →
  ∃ idx, stp_bitmap_get_portindex_from_bmp st bm (Z.of_nat byte) (Z.of_nat bit) = Done idx.
Proof.
  intros Hl Hb. unfold stp_bitmap_get_portindex_from_bmp.
  destruct (part_Some bm (Z.of_nat byte)) as (v & -> & _); [lia|done|lia|]. cbn [obind].
  repeat (case_match; eauto).
Qed.

(** ** Stores in the VLAN map of an instance *)

Lemma upd_vlan_map_spec f VID b m x :
  mgmt_ok m → VID < 4096 → m.(core).(stpm_heap) !! b = Some x →
  (∀ v, length (f v).(bmp) = length v.(bmp)) →
  wp (upd_vlan_map f VID (Some b) m) (fun m' =>
    mgmt_ok m' ∧ core_step m m' ∧ maps m'.(core) = alter f b (maps m.(core)) ∧
    lists m'.(core) = lists m.(core)).
Proof.
  intros M Hv H Hf. unfold upd_vlan_map, vlan_store.
  assert (Hlt : VID / 8 < 512) by (apply Z.div_lt_upper_bound; lia).
  rewrite (proj2 (Z.ltb_lt _ _) Hlt). cbn [obind].
  destruct (upd_stpm_spec (fun stpm => stpm <| STPM.vlan_map := f stpm.(STPM.vlan_map) |>) b m x)
    as [-> M']; try done.
  { simpl. rewrite Hf. by eapply (mo_maps _ M). }
  apply wp_Done. split_and!; [done|apply core_step_intro, put_stpm_like|..].
  - etransitivity; [apply maps_put_stpm|]. apply map_eq. intros c. destruct (decide (b = c)) as [<-|].
    + rewrite lookup_insert_eq, lookup_alter_eq. unfold maps. by rewrite lookup_fmap, H.
    + by rewrite lookup_insert_ne, lookup_alter_ne.
  - unfold lists. simpl. rewrite fmap_insert. apply insert_id. by rewrite lookup_fmap, H.
Qed.

Lemma length_map_add VID v : length (map_add_vlan VID v).(bmp) = length v.(bmp).
Proof. apply length_alter. Qed.
Lemma length_map_del VID v : length (map_del_vlan VID v).(bmp) = length v.(bmp).
Proof. apply length_alter. Qed.

Lemma set_cist_map_spec m VID isAdd :
  mgmt_ok m → VID < 4096 →
  wp (stp_mgmt_set_cist_vlan_map m VID isAdd) (fun '(m', rc) => rc = STP_OK ∧ mgmt_ok m' ∧ core_step m m' ∧
    maps m'.(core) = alter (if isAdd then map_del_vlan VID else map_add_vlan VID) STP_CIST_ID (maps m.(core)) ∧
    lists m'.(core) = lists m.(core)).
Proof.
  intros M Hv. unfold stp_mgmt_set_cist_vlan_map. rewrite (mo_cist _ M).
  destruct (mgmt_cist _ M) as [x Hx]. apply wp_bind.
  eapply wp_mono; [apply (upd_vlan_map_spec _ VID _ m x M Hv Hx)|].
  - intros v. destruct isAdd; [apply length_map_del|apply length_map_add].
  - intros m' (? & ? & ? & ?). by split_and!.
Qed.

(** ** The loops over the ports of a VLAN *)

(** Recording a request in [stp_ports]. *)
Lemma ports_entry_spec idx st :
  keeps st (stp_ports_entry idx st) ∧ (daemon_ok st → daemon_ok (stp_ports_entry idx st)).
Proof.
  unfold stp_ports_entry. case_match; [done|]. split; [split; try done; by apply adds_emit|done].
Qed.

Lemma info_array_spec b st :
  b ≤ STP_MSTI_MAX → keeps st (access INFO_ARRAY MAX_MST_ID (b + 1) st) ∧
  (daemon_ok st → daemon_ok (access INFO_ARRAY MAX_MST_ID (b + 1) st)).
Proof.
  intros Hb. unfold STP_MSTI_MAX in Hb. split; [|apply access_daemon]. apply access_keeps.
  unfold MAX_MST_ID. intros H. split; [done|lia].
Qed.

Lemma record_mstid_spec b idx st :
  b ≤ STP_MSTI_MAX → keeps st (record_mstid b idx st) ∧ (daemon_ok st → daemon_ok (record_mstid b idx st)).
Proof.
  intros Hb. destruct (ports_entry_spec idx st) as [K1 D1].
  destruct (info_array_spec b (stp_ports_entry idx st) Hb) as [K2 D2].
  split; [by etransitivity|auto].
Qed.

Section Loops.
Context (wan_if : Z → Z → Z → option (Z * Z)) (uninit : Z) (bm : BITMAP_T) (Hbm : length bm = 9%nat).

Lemma add_bits_safe fuel b VID byte bits st :
  daemon_ok st → is_Some (st.(stpm_heap) !! b) → (byte ≤ 8)%nat →
  Forall (bit_known st b VID bm byte) bits →
  wp (add_bits wan_if fuel bm b VID (Z.of_nat byte) bits st) (fun '(st', r) =>
    daemon_ok st' ∧ keeps st st' ∧ r = None).
Proof.
  revert st. induction bits as [|bit bits IH]; intros st Ok Hb Hle HF; cbn [add_bits]; [done|].
  inversion_clear HF as [|? ? Hk HF']. destruct (portindex_total st bm byte bit Hbm Hle) as [idx E].
  unfold bit_known in Hk. rewrite E in *. cbn [obind].
  destruct (Z.eqb_spec idx (-2)); [done|]. destruct (Z.eqb_spec idx (-1)); [by apply IH|].
  destruct Hk as [?|[?|[Ha Hbad]]]; [done..|]. destruct (Hb) as [x Hx].
  rewrite (get_stpm_Some _ _ _ Hx). cbn [obind]. rewrite (wf_stpm_vlan _ _ _ (proj1 Ok) Hx).
  apply wp_bind. eapply wp_mono; [by apply (addport_safe wan_if fuel)|].
  intros [st0 rc] (Ok0 & K0 & Hrc). rewrite (Hrc Hb Hbad). cbn [negb Z.eqb].
  assert (Hb64 : b ≤ STP_MSTI_MAX) by apply (wf_vlan _ (proj1 Ok) b _ (shape_stpm _ _ _ Hx)).
  set (st1 := match st0.(port_speed_s) with Some _ => record_mstid b idx st0 | None => st0 end).
  assert (daemon_ok st1 ∧ keeps st st1) as [Ok1 K1].
  { destruct (record_mstid_spec b idx st0 Hb64) as [Kr Dr]. unfold st1.
    case_match; [split; [auto|by etransitivity]|done]. }
  eapply wp_mono; [apply IH; [done|by apply (keeps_instance st st1 b K1)|done|]|].
  - eapply Forall_impl; [|exact HF']. intros c. apply bit_known_like. by apply lk_kept, keeps_like.
  - intros [st2 r] (? & ? & ?). split_and!; [done| |done]. by etransitivity.
Qed.

Lemma add_bytes_safe fuel b VID bytes st :
  daemon_ok st → is_Some (st.(stpm_heap) !! b) → Forall (fun byte => (byte ≤ 8)%nat) bytes →
  Forall (fun byte => Forall (bit_known st b VID bm byte) (seq 0 BIT_OF_BYTE)) bytes →
  wp (add_bytes wan_if fuel bm b VID bytes st) (fun '(st', r) =>
    daemon_ok st' ∧ keeps st st' ∧ r = None).
Proof.
  revert st. induction bytes as [|byte bytes IH]; intros st Ok Hb Hle HF; cbn [add_bytes]; [done|].
  inversion_clear HF as [|? ? Hk HF']. inversion_clear Hle as [|? ? Hl Hle'].
  apply wp_bind. eapply wp_mono; [by apply add_bits_safe|]. intros [st1 r] (Ok1 & K1 & ->).
  eapply wp_mono; [apply IH; [done|by apply (keeps_instance st st1 b K1)|done|]|].
  - eapply Forall_impl; [|exact HF']. intros byte'. apply Forall_impl.
    intros c. apply bit_known_like. by apply lk_kept, keeps_like.
  - intros [st2 r] (? & ? & ?). split_and!; [done| |done]. by etransitivity.
Qed.

(** No port leaves the CIST. *)
Lemma del_bits_cist VID byte bits st :
  daemon_ok st → is_Some (st.(stpm_heap) !! STP_CIST_ID) → (byte ≤ 8)%nat →
  del_bits uninit bm STP_CIST_ID VID (Z.of_nat byte) bits st STP_OK = Done (st, STP_OK).
Proof.
  intros Ok [x Hx] Hle. induction bits as [|bit bits IH]; cbn [del_bits]; [done|].
  destruct (portindex_total st bm byte bit Hbm Hle) as [idx ->]. cbn [obind].
  destruct (idx =? -1); [done|]. rewrite (get_stpm_Some _ _ _ Hx). cbn [obind].
  rewrite (wf_stpm_vlan _ _ _ (proj1 Ok) Hx).
  destruct (wp_elim _ _ (findport_spec st STP_CIST_ID (u32 idx) (proj1 Ok))) as (r & Er & _). rewrite Er. cbn [obind].
  destruct r as [p|]; [|done]. unfold stp_port_mst_delport.
  unfold stp_port_mst_findport in Er. destruct (bad_index _); [done|]. done.
Qed.

Lemma del_bytes_cist VID bytes st :
  daemon_ok st → is_Some (st.(stpm_heap) !! STP_CIST_ID) → Forall (fun byte => (byte ≤ 8)%nat) bytes →
  del_bytes uninit bm STP_CIST_ID VID bytes st STP_OK = Done (st, STP_OK).
Proof.
  intros Ok Hx HF. induction bytes as [|byte bytes IH]; cbn [del_bytes]; [done|].
  inversion_clear HF as [|? ? Hb HF']. rewrite del_bits_cist by done. by apply IH.
Qed.

(** An instance without ports is left alone. *)
Lemma del_bits_empty b VID byte bits st x iRet :
  daemon_ok st → st.(stpm_heap) !! b = Some x → x.(STPM.ports) = [] → (byte ≤ 8)%nat →
  del_bits uninit bm b VID (Z.of_nat byte) bits st iRet = Done (st, iRet).
Proof.
  intros Ok Hx He Hle. induction bits as [|bit bits IH]; cbn [del_bits]; [done|].
  destruct (portindex_total st bm byte bit Hbm Hle) as [idx ->]. cbn [obind].
  destruct (idx =? -1); [done|]. rewrite (get_stpm_Some _ _ _ Hx). cbn [obind].
  rewrite (wf_stpm_vlan _ _ _ (proj1 Ok) Hx).
  destruct (wp_elim _ _ (findport_spec st b (u32 idx) (proj1 Ok))) as (r & -> & Hr). cbn [obind].
  destruct r as [p|]; [|done]. destruct (Hr p eq_refl) as [<- [port Hp]].
  destruct (wf_port_member _ _ _ (proj1 Ok) Hp) as (_ & _ & y & Hy & Hin).
  rewrite Hx in Hy. injection Hy as <-. rewrite He in Hin. by apply not_elem_of_nil in Hin.
Qed.

Lemma del_bytes_empty b VID bytes st x :
  daemon_ok st → st.(stpm_heap) !! b = Some x → x.(STPM.ports) = [] →
  Forall (fun byte => (byte ≤ 8)%nat) bytes →
  del_bytes uninit bm b VID bytes st STP_OK = Done (st, STP_OK).
Proof.
  intros Ok Hx He HF. induction bytes as [|byte bytes IH]; cbn [del_bytes]; [done|].
  inversion_clear HF as [|? ? Hb HF']. erewrite del_bits_empty by done. by apply IH.
Qed.

Lemma del_bits_safe b VID byte bits st iRet :
  daemon_ok st → VID < 4096 → is_Some (st.(stpm_heap) !! b) → (byte ≤ 8)%nat →
  wp (del_bits uninit bm b VID (Z.of_nat byte) bits st iRet) (fun '(st', _) => daemon_ok st' ∧ keeps st st').
Proof.
  intros Ok Hv. revert st iRet Ok. induction bits as [|bit bits IH]; intros st iRet Ok Hb Hle; cbn [del_bits]; [done|].
  destruct (portindex_total st bm byte bit Hbm Hle) as [idx ->]. cbn [obind].
  destruct (idx =? -1); [by apply IH|]. destruct (Hb) as [x Hx]. rewrite (get_stpm_Some _ _ _ Hx). cbn [obind].
  destruct (wp_elim _ _ (findport_spec st x.(STPM.vlan_id) (u32 idx) (proj1 Ok))) as (r & -> & _). cbn [obind].
  destruct r as [p|]; [|by apply IH].
  apply wp_bind. eapply wp_mono; [by apply (delport_safe uninit)|]. intros [st1 rc] [Ok1 K1].
  case_match; [done|]. eapply wp_mono; [apply IH; [done|by apply (keeps_instance st st1 b K1)|done]|].
  intros [st2 r2] [? ?]. split; [done|]. by etransitivity.
Qed.

Lemma del_bytes_safe b VID bytes st iRet :
  daemon_ok st → VID < 4096 → is_Some (st.(stpm_heap) !! b) → Forall (fun byte => (byte ≤ 8)%nat) bytes →
  wp (del_bytes uninit bm b VID bytes st iRet) (fun '(st', _) => daemon_ok st' ∧ keeps st st').
Proof.
  intros Ok Hv. revert st iRet Ok. induction bytes as [|byte bytes IH]; intros st iRet Ok Hb HF; cbn [del_bytes]; [done|].
  inversion_clear HF as [|? ? Hle HF'].
  apply wp_bind. eapply wp_mono; [by apply del_bits_safe|]. intros [st1 rc] [Ok1 K1].
  case_match; [done|]. eapply wp_mono; [apply IH; [done|by apply (keeps_instance st st1 b K1)|done]|].
  intros [st2 r2] [? ?]. split; [done|]. by etransitivity.
Qed.
End Loops.

Lemma all_bytes : Forall (fun byte => (byte ≤ 8)%nat) (seq 0 NUMBER_OF_BYTES).
Proof. repeat constructor. Qed.

(** ** The digest *)

(** The digest of the CIST is that of the table. *)
Definition digest_current (m : MGMT_T) : Prop :=
  ∀ x, m.(core).(stpm_heap) !! STP_CIST_ID = Some x →
    x.(STPM.MstConfigId).(ConfigurationDigest) =
    Rfc.hmac_md5 STP_UM_KEY (vlan_mst_map_table m.(g_VID2MSTID)).

Lemma vlan_table_bytes t : Forall is_byte (vlan_mst_map_table t).
Proof.
  unfold vlan_mst_map_table. apply Forall_app. split; [by repeat constructor|].
  apply Forall_app. split; [|by repeat constructor].
  generalize (take 4094 (drop 1 t)) as l. induction l as [|x l IH]; [constructor|].
  change (Forall is_byte (be_bytes 2 x ++ (l ≫= be_bytes 2))). apply Forall_app. split; [apply be_bytes_byte|done].
Qed.

Lemma length_vlan_table t : length t = 4096%nat → length (vlan_mst_map_table t) = (2 * 4096)%nat.
Proof.
  intros Hl. assert (E : ∀ l : list Z, length (l ≫= be_bytes 2) = (2 * length l)%nat).
  { induction l as [|x l IH]; [done|].
    change ((x :: l) ≫= be_bytes 2) with (be_bytes 2 x ++ (l ≫= be_bytes 2)).
    rewrite length_app, length_be_bytes, IH. simpl. lia. }
  unfold vlan_mst_map_table. rewrite !length_app, E, length_take, length_drop, Hl. done.
Qed.

Section Digest.
Context (junk : list Z) (Hjunk : length junk = 64%nat) (Hbytes : Forall is_byte junk).

Lemma calc_digest_spec m :
  mgmt_ok m → wp (stp_mgmt_calc_configid_digest junk m (Some STP_CIST_ID)) (fun m' =>
    mgmt_ok m' ∧ core_step m m' ∧ maps m'.(core) = maps m.(core) ∧ digest_current m').
Proof.
  intros M. unfold stp_mgmt_calc_configid_digest.
  rewrite get_digest_hmac; [|done|done|apply vlan_table_bytes|by repeat constructor|by vm_compute; lia|].
  2: { rewrite length_vlan_table by apply M. done. }
  cbn [obind]. destruct (mgmt_cist _ M) as [x Hx].
  match goal with |- wp (upd_stpm ?f _ _) _ => destruct (upd_stpm_spec f STP_CIST_ID m x) as [-> M']; try done end.
  { exact (mo_maps _ M _ _ Hx). }
  apply wp_Done. split_and!; [done|apply core_step_intro, put_stpm_like| |].
  - etransitivity; [apply maps_put_stpm|]. apply insert_id. unfold maps. by rewrite lookup_fmap, Hx.
  - intros y Hy. simpl in Hy. rewrite lookup_insert_eq in Hy. by injection Hy as <-.
Qed.
End Digest.

(** ** Adding a VLAN to an instance *)

(** What the maps become. *)
Definition joined (b VID : Z) (ms : gmap Z VLAN_MAP_T) : gmap Z VLAN_MAP_T :=
  let ms := alter (map_add_vlan VID) b ms in
  if b =? STP_CIST_ID then ms else alter (map_del_vlan VID) STP_CIST_ID ms.

Definition left_to_cist (b VID : Z) (ms : gmap Z VLAN_MAP_T) : gmap Z VLAN_MAP_T :=
  let ms := alter (map_del_vlan VID) b ms in
  if b =? STP_CIST_ID then ms else alter (map_add_vlan VID) STP_CIST_ID ms.

(** A VLAN number. *)
Definition vid_ok (VID : Z) : Prop := 1 ≤ VID ≤ STP_MAX_VID.

(** The state with an entry of the table. *)
Definition entered (m m' : MGMT_T) (VID b : Z) : Prop :=
  m' = m <| core := m'.(core) |> <| g_VID2MSTID := <[Z.to_nat VID := b]> m.(g_VID2MSTID) |>.

Section Vlans.
Context (wan_if : Z → Z → Z → option (Z * Z)).

Lemma map_vlan_spec m b VID :
  mgmt_ok m → vid_ok VID → is_Some (m.(core).(stpm_heap) !! b) →
  wp (map_vlan m b VID) (fun m' => mgmt_ok m' ∧ core_step m m' ∧
    maps m'.(core) = joined b VID (maps m.(core))).
Proof.
  intros M [H1 H2] [x Hx]. unfold map_vlan, STP_MAX_VID in *. destruct (Z.eqb_spec VID 0); [lia|].
  apply wp_bind. eapply wp_mono; [apply (upd_vlan_map_spec _ VID b m x M ltac:(lia) Hx)|].
  { intros v. apply length_map_add. }
  intros m1 (M1 & S1 & E1 & _). destruct (lk_instances _ _ (proj2 S1) b ltac:(by exists x)) as [x1 Hx1].
  rewrite (get_stpm_Some _ _ _ Hx1). cbn [obind].
  rewrite (wf_stpm_vlan _ _ _ (proj1 (mo_daemon _ M1)) Hx1). unfold joined. rewrite <- E1.
  destruct (b =? STP_CIST_ID); [done|]. apply wp_bind.
  eapply wp_mono; [by apply (set_cist_map_spec m1 VID true M1); lia|].
  intros [m2 rc] (_ & M2 & S2 & E2 & _). split_and!; [done| |done]. by etransitivity.
Qed.

Lemma stpm_add_vlan_spec fuel m b VID bm :
  mgmt_ok m → vid_ok VID → is_Some (m.(core).(stpm_heap) !! b) →
  vid_ports m VID = Done bm → ports_known m.(core) b VID bm →
  wp (stp_mgmt_stpm_add_vlan wan_if fuel m (Some b) VID) (fun '(m', rc) => rc = STP_OK ∧
    mgmt_ok m' ∧ like m.(core) m'.(core) ∧ entered m m' VID b ∧
    maps m'.(core) = joined b VID (maps m.(core))).
Proof.
  intros M Hv Hb Hbm Hk. unfold stp_mgmt_stpm_add_vlan. destruct (Hv) as [H1 H2].
  destruct (Z.ltb_spec STP_MAX_VID VID); [lia|].
  apply wp_bind. eapply wp_mono; [by apply map_vlan_spec|]. intros m1 (M1 & S1 & E1).
  assert (Hbm1 : vid_ports m1 VID = Done bm).
  { unfold vid_ports. rewrite (proj1 (proj2 (core_step_tables _ _ S1))). exact Hbm. }
  unfold STP_MAX_VID in *. destruct (vid_ports_ok m1 VID M1 ltac:(lia)) as (bm' & E & Hl).
  rewrite Hbm1 in E. injection E as <-. rewrite Hbm1. cbn [obind].
  apply wp_bind, in_core_wp.
  eapply wp_mono; [apply (add_bytes_safe wan_if bm Hl fuel b VID); [apply M1| |apply all_bytes|]|].
  { by apply (lk_instances _ _ (proj2 S1)). }
  { exact (ports_known_like _ _ _ _ _ (lk_kept _ _ (proj2 S1)) Hk). }
  intros [st2 r] (Ok2 & K2 & ->). set (m2 := m1 <| core := st2 |>).
  assert (M2 : mgmt_ok m2) by (by apply mgmt_ok_core).
  destruct (lk_instances _ _ (keeps_like _ _ K2) b) as [x2 Hx2].
  { by apply (lk_instances _ _ (proj2 S1)). }
  change (core m2) with st2. rewrite (get_stpm_Some _ _ _ Hx2). cbn [obind].
  rewrite (wf_stpm_vlan _ _ _ (proj1 Ok2) Hx2).
  destruct (set_vid_mstid_ok m2 VID b M2 ltac:(lia)) as [-> M3]. cbn [obind].
  apply wp_Done. split_and!; [done|exact M3| | |].
  - transitivity (core m1); [apply S1|by apply keeps_like].
  - unfold entered, m2. clear -S1. destruct m, m1, S1 as [E _]. simpl in E. by injection E as -> -> -> ->.
  - rewrite <- E1. by apply keeps_maps.
Qed.
End Vlans.

(** ** Removing a VLAN from an instance *)

Section Removal.
Context (uninit : Z).

Lemma stpm_del_vlan_cist fuel m VID :
  mgmt_ok m → vid_ok VID →
  wp (stp_mgmt_stpm_del_vlan uninit fuel m (Some STP_CIST_ID) VID) (fun '(m', rc) => rc = STP_OK ∧
    mgmt_ok m' ∧ like m.(core) m'.(core) ∧ entered m m' VID STP_CIST_ID ∧
    maps m'.(core) = left_to_cist STP_CIST_ID VID (maps m.(core))).
Proof.
  intros M Hv. unfold stp_mgmt_stpm_del_vlan. destruct (Hv) as [H1 H2].
  destruct (Z.ltb_spec STP_MAX_VID VID); [lia|]. unfold STP_MAX_VID in *.
  destruct (mgmt_cist _ M) as [x Hx]. apply wp_bind.
  eapply wp_mono; [apply (upd_vlan_map_spec _ VID STP_CIST_ID m x M ltac:(lia) Hx)|].
  { intros v. apply length_map_del. }
  intros m1 (M1 & S1 & E1 & _). destruct (mgmt_cist _ M1) as [x1 Hx1].
  rewrite (get_stpm_Some _ _ _ Hx1). cbn [obind].
  assert (Ev : (x1.(STPM.vlan_id) =? STP_CIST_ID) = true).
  { by rewrite (wf_stpm_vlan _ _ _ (proj1 (mo_daemon _ M1)) Hx1). }
  rewrite Ev. cbn [obind]. destruct (vid_ports_ok m1 VID M1 ltac:(lia)) as (bm & -> & Hl). cbn [obind].
  unfold in_core. rewrite del_bytes_cist; [|done|apply M1|by exists x1|apply all_bytes]. cbn [obind negb].
  change (core (m1 <| core := m1.(core) |>)) with m1.(core).
  change (negb (STP_OK =? STP_OK)) with false. cbv iota.
  rewrite (get_stpm_Some _ _ _ Hx1). cbn [obind]. rewrite Ev, andb_false_r. cbn [obind].
  assert (Em : m1 <| core := m1.(core) |> <| core := m1.(core) |> = m1) by (by destruct m1).
  change (set core (core m1) (set core (core m1) m1)) with (m1 <| core := m1.(core) |> <| core := m1.(core) |>).
  rewrite Em. destruct (set_vid_mstid_ok m1 VID STP_CIST_ID M1 ltac:(lia)) as [-> M2]. cbn [obind].
  apply wp_Done. split_and!; [done|exact M2|apply S1| |done].
  unfold entered. clear -S1. destruct m, m1, S1 as [E _]. simpl in E. by injection E as -> -> -> ->.
Qed.

(** When the VLAN is the last of an MSTI, the MSTI must have no port: else its
    deletion is that of [delete_ports]. *)
Definition removable (st : STP_T) (b : Z) : Prop :=
  ∀ x, st.(stpm_heap) !! b = Some x →
    u32 (x.(STPM.vlan_map).(ulcount) - 1) ≠ 0 ∨ x.(STPM.ports) = [].

Lemma delete_instance_ok fuel m b x :
  mgmt_ok m → m.(core).(stpm_heap) !! b = Some x → x.(STPM.ports) = [] → b ≠ STP_CIST_ID →
  safe (stp_stpm_delete fuel m.(core) b) (fun st => mgmt_ok (m <| core := st |>) ∧
    slots_kept m.(core) st ∧ ∀ c, c ≠ b → is_Some (m.(core).(stpm_heap) !! c) → is_Some (st.(stpm_heap) !! c)).
Proof.
  intros M Hx He Hb. eapply safe_mono; [by apply (stpm_delete_safe fuel _ b x (mo_daemon _ M))|].
  intros st (Ok & _ & Ec & Hin & Hout & E1 & E2 & E3 & E4 & E5 & E6 & E7).
  split; [|by split; [split; [..|intros i; by rewrite E4]|]].
  destruct M as [D C V P B L T A]. split; try done; simpl; [congruence| |rewrite E5; auto|by eapply adds_Forall].
  intros c y Hy. destruct (Hin c y Hy) as (z & Hz & E). rewrite <- (L c z Hz).
  exact (f_equal (fun s => length s.(sh_map).(bmp)) E).
Qed.

(** The instance's own entry of the maps. *)
Lemma maps_lookup st b x : st.(stpm_heap) !! b = Some x → maps st !! b = Some x.(STPM.vlan_map).
Proof. intros H. unfold maps. by rewrite lookup_fmap, H. Qed.

Lemma lists_lookup st b x : st.(stpm_heap) !! b = Some x → lists st !! b = Some x.(STPM.ports).
Proof. intros H. unfold lists. by rewrite lookup_fmap, H. Qed.

Lemma stpm_del_vlan_msti fuel m b VID :
  mgmt_ok m → vid_ok VID → is_Some (m.(core).(stpm_heap) !! b) → b ≠ STP_CIST_ID → removable m.(core) b →
  safe (stp_mgmt_stpm_del_vlan uninit fuel m (Some b) VID) (fun '(m', _) => mgmt_ok m' ∧
    slots_kept m.(core) m'.(core) ∧ m'.(g_VlanPBMP) = m.(g_VlanPBMP) ∧
    ∀ c, c ≠ b → is_Some (m.(core).(stpm_heap) !! c) → is_Some (m'.(core).(stpm_heap) !! c)).
Proof.
  intros M Hv [x Hx] Hb Hr. unfold stp_mgmt_stpm_del_vlan. destruct (Hv) as [H1 H2].
  destruct (Z.ltb_spec STP_MAX_VID VID); [lia|]. unfold STP_MAX_VID in *.
  assert (Hcb : (b =? STP_CIST_ID) = false) by (by apply Z.eqb_neq).
  apply safe_bind, safe_wp. eapply wp_mono; [apply (upd_vlan_map_spec _ VID b m x M ltac:(lia) Hx)|].
  { intros v. apply length_map_del. }
  intros m1 (M1 & S1 & E1 & L1). destruct (lk_instances _ _ (proj2 S1) b ltac:(by exists x)) as [x1 Hx1].
  rewrite (get_stpm_Some _ _ _ Hx1). cbn [obind].
  rewrite (wf_stpm_vlan _ _ _ (proj1 (mo_daemon _ M1)) Hx1), Hcb.
  apply safe_bind, safe_wp, wp_bind.
  eapply wp_mono; [by apply (set_cist_map_spec m1 VID false M1); lia|].
  intros [m2 rc] (_ & M2 & S2 & E2 & L2). apply wp_Done.
  destruct (lk_instances _ _ (proj2 S2) b ltac:(by exists x1)) as [x2 Hx2].
  assert (Emap : x2.(STPM.vlan_map) = map_del_vlan VID x.(STPM.vlan_map)).
  { apply maps_lookup in Hx, Hx2. rewrite E2, lookup_alter_ne in Hx2 by done.
    rewrite E1, lookup_alter_eq, Hx in Hx2. by injection Hx2. }
  assert (El : x2.(STPM.ports) = x.(STPM.ports)).
  { apply lists_lookup in Hx, Hx2. rewrite L2, L1, Hx in Hx2. by injection Hx2. }
  destruct (vid_ports_ok m2 VID M2 ltac:(lia)) as (bm & -> & Hl). cbn [obind].
  apply safe_bind, safe_wp, in_core_wp.
  eapply (wp_mono _ (fun '(st, _) => daemon_ok st ∧ keeps m2.(core) st ∧
    ∀ y, st.(stpm_heap) !! b = Some y → y.(STPM.vlan_map) = x2.(STPM.vlan_map) ∧
      (u32 (x.(STPM.vlan_map).(ulcount) - 1) ≠ 0 ∨ y.(STPM.ports) = []))).
  { destruct (Hr x Hx) as [Hc|He].
    - eapply wp_mono; [apply (del_bytes_safe uninit bm Hl b); [apply M2|lia|by exists x2|apply all_bytes]|].
      intros [st rc'] [Ok K]. split_and!; [done..|]. intros y Hy. split; [|by left].
      apply maps_lookup in Hy, Hx2. rewrite (keeps_maps _ _ K), Hx2 in Hy. by injection Hy.
    - rewrite (del_bytes_empty uninit bm Hl b VID _ _ x2 (mo_daemon _ M2) Hx2 (eq_trans El He) all_bytes).
      apply wp_Done. split_and!; [apply M2|done|]. intros y Hy. rewrite Hx2 in Hy. injection Hy as <-.
      split; [done|]. right. congruence. }
  intros [st3 rc3] (Ok3 & K3 & H3). set (m3 := m2 <| core := st3 |>).
  assert (M3 : mgmt_ok m3) by (by apply mgmt_ok_core).
  assert (L : like m.(core) st3).
  { etransitivity; [apply S1|]. etransitivity; [apply S2|]. by apply keeps_like. }
  assert (Et : m2.(g_VlanPBMP) = m.(g_VlanPBMP)).
  { destruct (core_step_tables _ _ S2) as (_ & -> & _). by destruct (core_step_tables _ _ S1) as (_ & -> & _). }
  case_match; [split_and!; [exact M3|apply L|done|intros c _; apply (lk_instances _ _ L)]|]. apply safe_bind.
  destruct (proj2 (keeps_instance _ _ b K3) ltac:(by exists x2)) as [y Hy]. destruct (H3 y Hy) as [Ey Hc].
  change (core m3) with st3. rewrite (get_stpm_Some _ _ _ Hy). simpl.
  apply safe_bind. eapply (safe_mono _ (fun st => mgmt_ok (m3 <| core := st |>) ∧
    slots_kept st3 st ∧ ∀ c, c ≠ b → is_Some (st3.(stpm_heap) !! c) → is_Some (st.(stpm_heap) !! c))).
  { destruct (Z.eqb_spec y.(STPM.vlan_map).(ulcount) 0) as [E0|]; [|by split_and!].
    rewrite (wf_stpm_vlan _ _ _ (proj1 Ok3) Hy), Hcb. simpl.
    destruct Hc as [Hc|He]; [|by apply (delete_instance_ok fuel m3 b y)].
    rewrite Ey, Emap in E0. done. }
  intros st4 (M4 & K4 & I4). destruct (set_vid_mstid_ok (m3 <| core := st4 |>) VID STP_CIST_ID M4 ltac:(lia)) as [E M5].
  apply safe_bind, safe_wp. refine (wp_intro _ _ _ E _). split_and!; [exact M5| |done|].
  - simpl. transitivity st3; [apply L|done].
  - intros c Hcb' Hin. simpl. apply I4; [done|]. by apply (lk_instances _ _ L).
Qed.
End Removal.

(** ** Moving a VLAN from the CIST to an MSTI *)

(** The maps with a map for the instance, empty when it is new. *)
Definition maps_with (b : Z) (ms : gmap Z VLAN_MAP_T) : gmap Z VLAN_MAP_T :=
  match ms !! b with Some _ => ms | None => <[b := zero_vlan_map]> ms end.

Lemma maps_with_instance st l b x :
  maps (with_instance st l b x) = <[b := x.(STPM.vlan_map)]> (maps st).
Proof. unfold maps, with_instance. simpl. by rewrite fmap_insert. Qed.

Lemma with_instance_like st st0 l b x : retraced st st0 → like st (with_instance st0 l b x).
Proof.
  intros [t ->]. split; try done. intros c Hc. simpl. destruct (decide (b = c)) as [<-|];
    [by rewrite lookup_insert_eq|by rewrite lookup_insert_ne].
Qed.

Lemma find_or_create_spec m MSTID :
  mgmt_ok m → 0 ≤ MSTID → wp (find_or_create m MSTID) (fun '(m', r) =>
    match r with
    | None => m' = m ∧ STP_MSTI_MAX < MSTID
    | Some b => b = MSTID ∧ mgmt_ok m' ∧ core_step m m' ∧ is_Some (m'.(core).(stpm_heap) !! MSTID) ∧
        (∀ c, c ≠ MSTID → m'.(core).(stpm_heap) !! c = m.(core).(stpm_heap) !! c) ∧
        maps m'.(core) = maps_with MSTID (maps m.(core))
    end).
Proof.
  intros M H0. unfold find_or_create. rewrite (get_instance_spec _ _ (proj1 (mo_daemon _ M))). cbn [obind].
  case_decide as Hd.
  { destruct (Hd) as [x Hx]. split_and!; try done. unfold maps_with. by rewrite (maps_lookup _ _ _ Hx). }
  assert (Hn : m.(core).(stpm_heap) !! MSTID = None) by (by apply eq_None_not_Some).
  apply in_core_wp. eapply wp_mono; [by apply (mst_create_spec m.(core) MSTID _ (mo_daemon _ M))|].
  intros [st [b|]] (Ok & A' & Hr).
  - destruct Hr as (-> & l & x & st0 & [t ->] & Es & _ & ->).
    split_and!; [done| |by apply core_step_intro, with_instance_like; exists t|..].
    + destruct M as [D C V P B L T A]. split; try done; [|by eapply adds_Forall].
      intros c y Hy. simpl in Hy.
      apply lookup_insert_Some in Hy as [[<- <-]|[_ Hy]]; [|by eapply L].
      exact (f_equal (fun s => length s.(sh_map).(bmp)) Es).
    + simpl. rewrite lookup_insert_eq. eauto.
    + intros c Hc. simpl. by rewrite lookup_insert_ne.
    + unfold maps_with. assert (En : maps m.(core) !! MSTID = None) by (unfold maps; by rewrite lookup_fmap, Hn).
      rewrite En. etransitivity; [apply maps_with_instance|]. f_equal. exact (f_equal sh_map Es).
  - destruct Hr as [-> [?|[_ Hc]]]; [split; [by destruct m|done]|].
    by rewrite (mo_cist _ M) in Hc.
Qed.

(** The maps after the move: the code clears the bit of the CIST twice, and
    lowers its count twice. *)
Definition moved (b VID : Z) (ms : gmap Z VLAN_MAP_T) : gmap Z VLAN_MAP_T :=
  joined b VID (left_to_cist STP_CIST_ID VID (maps_with b ms)).

Lemma digest_keeps m st : keeps m.(core) st → digest_current m → digest_current (m <| core := st |>).
Proof.
  intros K D x Hx. simpl in Hx. pose proof (kp_maps _ _ K STP_CIST_ID) as E. rewrite Hx in E.
  destruct (m.(core).(stpm_heap) !! STP_CIST_ID) as [y|] eqn:Hy; [|done].
  simpl in E. injection E as _ E. etransitivity; [exact (f_equal ConfigurationDigest E)|]. exact (D y Hy).
Qed.

Section Move.
Context (junk : list Z) (Hjunk : length junk = 64%nat) (Hbytes : Forall is_byte junk).
Context (uninit : Z) (wan_if : Z → Z → Z → option (Z * Z)).

(** The move fails nowhere, and does not loop unless the instance is to be
    started. *)
Definition move_result (m : MGMT_T) (MSTID VID : Z) (r : outcome (MGMT_T * Z)) : Prop :=
  match r with
  | Done (m', rc) => mgmt_ok m' ∧ digest_current m' ∧
      m'.(g_VID2MSTID) = <[Z.to_nat VID := MSTID]> m.(g_VID2MSTID) ∧
      maps m'.(core) = moved MSTID VID (maps m.(core)) ∧
      (m.(g_stp_state) = STP_DISABLED → rc = STP_OK)
  | Segv => False
  | OutOfFuel => m.(g_stp_state) = STP_ENABLED
  end.

Lemma update_instance_spec fuel m MSTID VID :
  mgmt_ok m → vid_ok VID → m.(g_VID2MSTID) !! Z.to_nat VID = Some STP_CIST_ID →
  0 < MSTID ≤ STP_MSTI_MAX →
  (∀ bm, vid_ports m VID = Done bm → ports_known m.(core) MSTID VID bm) →
  move_result m MSTID VID (stp_mgmt_stpm_update_instance junk uninit wan_if fuel m MSTID VID).
Proof.
  intros M Hv Hold HM Hk. unfold stp_mgmt_stpm_update_instance, vid_mstid. rewrite Hold. cbn [deref obind].
  unfold STP_CIST_ID, STP_MSTI_MAX in HM. destruct (Z.eqb_spec MSTID STP_CIST_ID) as [E|Hne]; [unfold STP_CIST_ID in E; lia|].
  destruct (wp_elim _ _ (find_or_create_spec m MSTID M ltac:(lia))) as ([m1 r] & -> & Hr). cbn [obind].
  destruct r as [b|]; [|unfold STP_MSTI_MAX in Hr; lia]. destruct Hr as (-> & M1 & S1 & Hb1 & _ & E1).
  destruct (mgmt_cist _ M1) as [c Hc].
  rewrite (get_instance_spec _ _ (proj1 (mo_daemon _ M1))), decide_True by (by exists c). cbn [obind].
  destruct (wp_elim _ _ (stpm_del_vlan_cist uninit fuel m1 VID M1 Hv)) as ([m2 rc2] & -> & -> & M2 & L2 & T2 & E2).
  cbn [obind]. change (negb (STP_OK =? STP_OK)) with false. cbv iota.
  destruct (vid_ports_ok m2 VID M2) as (bm & Hbm & _); [destruct Hv; unfold STP_MAX_VID in *; lia|].
  assert (Hbm0 : vid_ports m VID = Done bm).
  { rewrite <- Hbm. unfold vid_ports. rewrite T2. simpl. by rewrite (proj1 (proj2 (core_step_tables _ _ S1))). }
  destruct (wp_elim _ _ (stpm_add_vlan_spec wan_if fuel m2 MSTID VID bm M2 Hv (lk_instances _ _ L2 _ Hb1) Hbm
    (ports_known_like _ _ _ _ _ (lk_kept _ _ (transitivity (proj2 S1) L2)) (Hk bm Hbm0))))
    as ([m3 rc3] & -> & -> & M3 & L3 & T3 & E3).
  cbn [obind]. change (negb (STP_OK =? STP_OK)) with false. cbv iota. rewrite (mo_cist _ M3).
  destruct (wp_elim _ _ (calc_digest_spec junk Hjunk Hbytes m3 M3)) as (m4 & -> & M4 & S4 & E4 & D4). cbn [obind].
  assert (Et : m4.(g_VID2MSTID) = <[Z.to_nat VID := MSTID]> m.(g_VID2MSTID) ∧ m4.(g_stp_state) = m.(g_stp_state)).
  { destruct (core_step_tables _ _ S4) as (-> & _ & -> & _). rewrite T3. simpl. rewrite T2. simpl.
    destruct (core_step_tables _ _ S1) as (-> & _ & -> & _). split; [|done]. by rewrite list_insert_insert_eq. }
  assert (Em : maps m4.(core) = moved MSTID VID (maps m.(core))).
  { rewrite E4, E3, E2, E1. unfold moved. done. }
  destruct Et as [Et Eg]. destruct m4.(g_stp_state) eqn:Est; simpl; [by split_and!|].
  assert (Hs : safe (stp_stpm_enable fuel m4.(core) MSTID STP_ENABLED) (fun r => frame m4.(core) r.1)).
  { apply stpm_enable_safe; [apply (daemon_start_ok _ MSTID (mo_daemon _ M4))|];
      apply (lk_instances _ _ (proj2 S4)), (lk_instances _ _ L3), (lk_instances _ _ L2), Hb1. }
  unfold in_core. destruct (stp_stpm_enable _ _ _ _) as [[st rc]| |]; simpl in *; [|done..].
  pose proof (frame_keeps _ _ Hs) as K. split_and!.
  - apply mgmt_ok_core; [done|by eapply daemon_ok_frame; [|apply M4]|done].
  - by apply digest_keeps.
  - exact Et.
  - rewrite <- Em. by apply keeps_maps.
  - congruence.
Qed.
End Move.

(** ** Creating the CIST *)

(** A bridge without instances and ports. *)
Record empty_core (st : STP_T) : Prop := {
  ec_bridges : st.(bridges) = [];
  ec_cist : st.(g_CISTBRIDGE) = None;
  ec_stpms : st.(stpm_heap) = ∅;
  ec_ports : st.(port_heap) = ∅;
  ec_slots : st.(g_CISTPORT) = ∅;
  ec_cur : st.(g_curBPDU) = None;
  ec_tables : tables_ok st;
  ec_links : links_ok st;
  ec_trace : Forall daemon_event st.(trace) }.

Lemma empty_core_ok st : empty_core st → daemon_ok st.
Proof.
  intros []. assert (E : shape st = mkShape [] None ∅ ∅ ∅ st.(productId) st.(stp_is_distributed)).
  { unfold shape. rewrite ec_bridges0, ec_cist0, ec_stpms0, ec_ports0, ec_slots0. by rewrite !fmap_empty. }
  split_and!; [|unfold chained|done..].
  - unfold wf. rewrite E. split; simpl; try apply NoDup_nil_2; try (by intros ? ?%elem_of_nil);
      by intros; simplify_map_eq.
  - rewrite E. intros q x. simpl. by rewrite lookup_empty.
Qed.

(** The tables of VLANs. *)
Definition vlan_tables_ok (m : MGMT_T) : Prop :=
  length m.(g_VID2MSTID) = 4096%nat ∧ length m.(g_VlanPBMP) = 4096%nat ∧
  ∀ bm, bm ∈ m.(g_VlanPBMP) → length bm = 9%nat.

Definition all_vlans : VLAN_MAP_T := mkVlanMap (repeat 0xff 512) STP_MAX_VID.

Section Create.
Context (junk : list Z) (Hjunk : length junk = 64%nat) (Hbytes : Forall is_byte junk).

Lemma create_cist_spec m :
  empty_core m.(core) → vlan_tables_ok m → (m.(core).(g_flag) = true → is_Some m.(core).(port_speed_s)) →
  wp (stp_mgmt_stpm_create_cist junk m) (fun '(m', rc) => rc = STP_OK ∧
    mgmt_ok m' ∧ digest_current m' ∧ core_step m m' ∧ maps m'.(core) = {[STP_CIST_ID := all_vlans]}).
Proof.
  intros Em (V & P & B) T. assert (Ok := empty_core_ok _ Em). destruct Em as [Eb Ec Es Ep Esl Eq _ _ A].
  unfold stp_mgmt_stpm_create_cist. rewrite Ec.
  assert (Hn : m.(core).(stpm_heap) !! STP_CIST_ID = None) by (by rewrite Es, lookup_empty).
  apply wp_bind, in_core_wp. eapply wp_mono; [by apply (mst_create_spec m.(core) STP_CIST_ID _ Ok)|].
  intros [st1 [b|]] (Ok1 & A1 & Hr); [|destruct Hr as [_ [H|[H _]]]; done].
  destruct Hr as (-> & l & x & st0 & [t ->] & Ex & _ & ->).
  set (m1 := m <| core := with_instance (m.(core) <| trace := t |>) l STP_CIST_ID x |>).
  assert (Hx : m1.(core).(stpm_heap) !! STP_CIST_ID = Some x) by (simpl; by rewrite lookup_insert_eq).
  assert (M1 : mgmt_ok m1).
  { split; try done; [|by eapply adds_Forall]. intros c y Hy. simpl in Hy. rewrite Es in Hy.
    apply lookup_insert_Some in Hy as [[<- <-]|[_ Hy]]; [|by rewrite lookup_empty in Hy].
    exact (f_equal (fun s => length s.(sh_map).(bmp)) Ex). }
  match goal with |- wp (obind _ (upd_stpm ?f _ _)) _ =>
    destruct (upd_stpm_spec f STP_CIST_ID m1 x M1 Hx) as [E2 M2]; [done|done|done|] end.
  fold m1. rewrite E2. cbn [obind]. clear E2.
  match goal with M2 : mgmt_ok ?m2 |- _ => set (m2' := m2) in * end.
  apply wp_bind. eapply wp_mono; [by apply calc_digest_spec|]. intros m3 (M3 & S3 & E3 & D3).
  destruct (mgmt_cist _ M3) as [x3 Hx3].
  match goal with |- wp (obind _ (upd_stpm ?f _ _)) _ =>
    destruct (upd_stpm_spec f STP_CIST_ID m3 x3 M3 Hx3) as [E4 M4]; [done|done|exact (mo_maps _ M3 _ _ Hx3)|] end.
  rewrite E4. cbn [obind]. apply wp_Done. split_and!; [done|exact M4| | |].
  - intros y Hy. simpl in Hy. rewrite lookup_insert_eq in Hy. injection Hy as <-. exact (D3 x3 Hx3).
  - transitivity m3; [transitivity m2'; [transitivity m1|done]|apply core_step_intro, put_stpm_like];
      apply core_step_intro; [by apply with_instance_like; exists t|apply put_stpm_like].
  - etransitivity; [apply maps_put_stpm|]. simpl STPM.vlan_map.
    rewrite insert_id by (by apply maps_lookup). rewrite E3.
    etransitivity; [apply maps_put_stpm|]. etransitivity; [apply f_equal, maps_with_instance|].
    unfold maps. simpl. rewrite Es, fmap_empty, insert_insert_eq. done.
Qed.

(** The daemon when it has started: it has done nothing yet. *)
Definition fresh (m : MGMT_T) : Prop :=
  empty_core (m.(core) <| enabled_ports := repeat 0 9 |>) ∧ vlan_tables_ok m ∧
  m.(core).(g_flag) = false ∧ m.(core).(trace) = [].

Lemma bridge_start_spec m :
  fresh m → wp (stp_bridge_start junk m) (fun '(m', rc) => rc = STP_OK ∧ mgmt_ok m' ∧ digest_current m' ∧
    (m'.(g_VID2MSTID) = m.(g_VID2MSTID) ∧ m'.(g_VlanPBMP) = m.(g_VlanPBMP) ∧
     m'.(g_stp_state) = m.(g_stp_state)) ∧ maps m'.(core) = {[STP_CIST_ID := all_vlans]}).
Proof.
  intros (E & T & G & _). unfold stp_bridge_start. apply wp_bind. eapply wp_mono; [apply create_cist_spec; [done..|simpl; congruence]|].
  intros [m' rc] (-> & M & D & S & Em). apply wp_Done.
  destruct (core_step_tables _ _ S) as (? & ? & ? & _). by split_and!.
Qed.
End Create.

(** ** Moving a VLAN between any two instances *)

Section Between.
Context (junk : list Z) (Hjunk : length junk = 64%nat) (Hbytes : Forall is_byte junk).
Context (uninit : Z) (wan_if : Z → Z → Z → option (Z * Z)).

Lemma stpm_del_vlan_safe fuel m b VID :
  mgmt_ok m → vid_ok VID → is_Some (m.(core).(stpm_heap) !! b) →
  (b ≠ STP_CIST_ID → removable m.(core) b) →
  safe (stp_mgmt_stpm_del_vlan uninit fuel m (Some b) VID) (fun '(m', _) => mgmt_ok m' ∧
    slots_kept m.(core) m'.(core) ∧ m'.(g_VlanPBMP) = m.(g_VlanPBMP) ∧
    ∀ c, c ≠ b → is_Some (m.(core).(stpm_heap) !! c) → is_Some (m'.(core).(stpm_heap) !! c)).
Proof.
  intros M Hv Hb Hr. destruct (decide (b = STP_CIST_ID)) as [->|Hne]; [|by apply stpm_del_vlan_msti; auto].
  apply safe_wp. eapply wp_mono; [by apply stpm_del_vlan_cist|].
  intros [m' rc] (_ & M' & L & T & _). split_and!; [done|apply L|by rewrite T|].
  intros c _. apply (lk_instances _ _ L).
Qed.

(** The last steps: the VLAN is added, the digest renewed and the instance
    started. *)
Lemma finish_update_safe fuel m' b :
  mgmt_ok m' → is_Some (m'.(core).(stpm_heap) !! b) →
  safe (let* m := stp_mgmt_calc_configid_digest junk m' m'.(core).(g_CISTBRIDGE) in
        if m.(g_stp_state) =e STP_ENABLED then
          in_core (fun st => stp_stpm_enable fuel st b m.(g_stp_state)) m
        else Done (m, STP_OK)) (fun '(m', _) => mgmt_ok m').
Proof.
  intros M Hb. rewrite (mo_cist _ M). apply safe_bind, safe_wp.
  eapply wp_mono; [by apply calc_digest_spec|]. intros m4 (M4 & S4 & _).
  case_match; [|done]. apply safe_bind.
  assert (Hb4 := lk_instances _ _ (proj2 S4) _ Hb).
  eapply safe_mono; [apply stpm_enable_safe; [by apply (daemon_start_ok _ b (mo_daemon _ M4))|done]|].
  intros [st rc] F. apply mgmt_ok_core; [done|by eapply daemon_ok_frame; [|apply M4]|by apply frame_keeps].
Qed.

Lemma update_instance_safe fuel m MSTID VID :
  mgmt_ok m → vid_ok VID → 0 ≤ MSTID →
  (∀ bm, vid_ports m VID = Done bm → ports_known m.(core) MSTID VID bm) →
  (∀ old, m.(g_VID2MSTID) !! Z.to_nat VID = Some old → old ≠ STP_CIST_ID → removable m.(core) old) →
  safe (stp_mgmt_stpm_update_instance junk uninit wan_if fuel m MSTID VID) (fun '(m', _) => mgmt_ok m').
Proof.
  intros M Hv H0 Hk Hr. unfold stp_mgmt_stpm_update_instance, vid_mstid.
  assert (HV : 0 ≤ VID < 4096) by (destruct Hv; unfold STP_MAX_VID in *; lia).
  destruct (vid_lookup _ _ (mo_vids _ M) HV) as [old Hold]. rewrite Hold. cbn [deref obind].
  destruct (Z.eqb_spec MSTID old) as [->|Hne]; [done|].
  apply safe_bind, safe_wp. eapply wp_mono; [by apply find_or_create_spec|].
  intros [m1 [b|]]; [|by intros [-> _]]. intros (-> & M1 & S1 & Hb1 & I1 & _).
  rewrite (get_instance_spec _ _ (proj1 (mo_daemon _ M1))). cbn [obind].
  case_decide as Hd; [|done]. apply safe_bind.
  eapply safe_mono; [apply (stpm_del_vlan_safe fuel m1 old VID); [done..|]|].
  { intros Hc x Hx. rewrite I1 in Hx by congruence. by apply (Hr old). }
  intros [m2 rc2] (M2 & K2 & P2 & I2). case_match; [done|].
  destruct (vid_ports_ok m2 VID M2 HV) as (bm & Hbm & _).
  assert (Hbm0 : vid_ports m VID = Done bm).
  { rewrite <- Hbm. unfold vid_ports. rewrite P2. by destruct (core_step_tables _ _ S1) as (_ & -> & _). }
  assert (Hk2 : ports_known m2.(core) MSTID VID bm).
  { apply (ports_known_like m.(core)); [|by apply Hk]. transitivity (core m1); [apply S1|done]. }
  apply safe_bind, safe_wp. eapply wp_mono; [apply (stpm_add_vlan_spec wan_if fuel m2 MSTID VID bm); [done..| |done|done]|].
  { by apply I2. }
  intros [m3 rc3] (-> & M3 & L3 & _). change (negb (STP_OK =? STP_OK)) with false. cbv iota.
  apply finish_update_safe; [done|]. apply (lk_instances _ _ L3). by apply I2.
Qed.
End Between.
