(* ===== verification/StpClear.v ===== *)
(** * Deleting everything

    [stp_mgmt_stpm_delete_all] deletes every port of every instance, then the
    instance, starting with the CIST, so that slots and chains dangle in
    between; it returns with nothing left.  Then the whole of disabling the
    protocol. *)

From Stdlib Require Import ZArith Lia.
From stdpp Require Import base gmap list option.
From S2P Require Import Prelude StpTypes StpTo StpHeap StpStatmch StpPort StpRoletrns StpTransmit StpFrame StpStpm StpSafety StpIn StpMgmt StpCommand StpManage StpDaemon StpMgmtSafety.

(** ** The lists *)

(** What the deletion loops rely on; CIST ports and their slots may be gone. *)
Record lists_ok (st : STP_T) : Prop := {
  lo_distinct : NoDup st.(bridges);
  lo_bridges : ∀ b, b ∈ st.(bridges) ↔ is_Some (st.(stpm_heap) !! b);
  lo_id : ∀ b x, st.(stpm_heap) !! b = Some x → x.(STPM.vlan_id) = b;
  lo_ports : ∀ b x, st.(stpm_heap) !! b = Some x → NoDup x.(STPM.ports);
  lo_list : ∀ b x q, st.(stpm_heap) !! b = Some x → q ∈ x.(STPM.ports) →
    q.1 = b ∧ is_Some (st.(port_heap) !! q);
  lo_owner : ∀ q port, st.(port_heap) !! q = Some port → port.(owner) = q.1 ∧ port.(port_index) = q.2 ∧
    ∃ x, st.(stpm_heap) !! q.1 = Some x ∧ q ∈ x.(STPM.ports);
  lo_cist : ∀ b, st.(g_CISTBRIDGE) = Some b → b = STP_CIST_ID ∧ b ∈ st.(bridges) }.

Lemma wf_lists_ok st : wf st → lists_ok st.
Proof.
  intros W. split.
  - apply (wf_distinct _ W).
  - intros b. split; [by apply instances_exist|]. intros [x Hx].
    by destruct (wf_vlan _ W b _ (shape_stpm _ _ _ Hx)) as (_ & _ & ?).
  - intros b x Hx. by apply (wf_stpm_vlan _ _ _ W Hx).
  - intros b x Hx. by eapply wf_list_nodup.
  - intros b x q Hx Hq. destruct (wf_on_list _ _ _ _ W Hx Hq) as (? & y & ?). eauto.
  - intros q port Hq. by apply wf_port_member.
  - intros b Hb. destruct (wf_cist _ W b Hb) as [-> [y Hy]]. split; [done|].
    by destruct (wf_vlan _ W _ _ Hy) as (_ & _ & ?).
Qed.

(** The parts of the state deletion does not touch. *)
Definition aside (st st' : STP_T) : Prop :=
  st'.(port_speed_s) = st.(port_speed_s) ∧ st'.(port_duplex_mode_nodes) = st.(port_duplex_mode_nodes) ∧
  st'.(g_curBPDU) = st.(g_curBPDU) ∧ st'.(enabled_ports) = st.(enabled_ports) ∧
  st'.(g_flag) = st.(g_flag) ∧ adds daemon_event st st'.

#[export] Instance aside_preorder : PreOrder aside.
Proof.
  split; [by intros st|]. intros a b c (?&?&?&?&?&?) (?&?&?&?&?&?).
  split_and!; [congruence..|by etransitivity].
Qed.

(** A loop over the list of an instance needs only its ports. *)
Lemma unlink_index_lists st b l idx :
  (∀ q, q ∈ l → q.1 = b ∧ ∃ port, st.(port_heap) !! q = Some port ∧ port.(port_index) = q.2) →
  NoDup l → (b, idx) ∈ l →
  ∃ l', unlink_index st l idx = Done (Some l') ∧ NoDup l' ∧ length l = S (length l') ∧
    (∀ q, q ∈ l' ↔ q ≠ (b, idx) ∧ q ∈ l).
Proof.
  induction l as [|q l IH]; intros Hl Hn Hin; simpl; [by apply not_elem_of_nil in Hin|].
  destruct (Hl q ltac:(left)) as [Eb (port & H & Ei)]. rewrite (get_port_Some _ _ _ H). cbn [obind].
  rewrite Ei. inversion_clear Hn as [|? ? Hq Hn'].
  destruct (Z.eqb_spec q.2 idx) as [E|Hne].
  - assert (Eq : q = (b, idx)) by (destruct q; simpl in *; congruence).
    exists l. split_and!; [done..|]. intros r. rewrite elem_of_cons. naive_solver.
  - apply elem_of_cons in Hin as [<-|Hin]; [done|].
    destruct IH as (l' & -> & Hd & Hlen & Hy); [intros; apply Hl; by right|done|done|]. cbn [obind].
    exists (q :: l'). split_and!; [done| |simpl; lia|].
    + constructor; [|done]. by intros [_ ?]%Hy.
    + intros r. rewrite !elem_of_cons, Hy. split; [|naive_solver].
      intros [->|[? ?]]; [|by split; [|right]]. split; [by intros ->|by left].
Qed.

(** Deleting one port: the list of its instance gets shorter. *)
Lemma port_delete_lists st p b x :
  lists_ok st → st.(stpm_heap) !! b = Some x → p ∈ x.(STPM.ports) →
  wp (stp_port_delete st p) (fun st' => lists_ok st' ∧ aside st st' ∧ st'.(bridges) = st.(bridges) ∧
    ∃ y, st'.(stpm_heap) !! b = Some y ∧ length x.(STPM.ports) = S (length y.(STPM.ports)) ∧
      ∀ c, c ≠ b → st'.(stpm_heap) !! c = st.(stpm_heap) !! c).
Proof.
  intros [D B I P L O C] Hx Hin. destruct (L b x p Hx Hin) as [Eb [port Hp]].
  destruct (O p port Hp) as (Eo & Ei & _). unfold stp_port_delete.
  rewrite (get_port_Some _ _ _ Hp). cbn [obind]. rewrite Eo, Eb, (get_stpm_Some _ _ _ Hx). cbn [obind].
  assert (Ep : p = (b, p.2)) by (rewrite <- Eb; by destruct p). rewrite Ei.
  destruct (unlink_index_lists st b x.(STPM.ports) p.2) as (l & -> & Hn & Hlen & Hl).
  { intros q Hq. destruct (L b x q Hx Hq) as [? [y Hy]]. split; [done|]. exists y. split; [done|]. by destruct (O q y Hy) as (_ & ? & _). }
  { by eapply P. }
  { by rewrite <- Ep. }
  cbn [obind]. apply wp_Done. rewrite <- Ep in Hl. split; [|split; [by split_and!; [..|apply adds_emit]|]; split; [done|]].
  2: { exists (x <| STPM.ports := l |>). simpl. rewrite lookup_insert_eq. split_and!; [done..|].
       intros c Hc. by rewrite lookup_insert_ne. }
  split; simpl; try done.
  - intros c. rewrite (B c). destruct (decide (b = c)) as [<-|]; [rewrite lookup_insert_eq, Hx; split; eauto|by rewrite lookup_insert_ne].
  - intros c y [[<- <-]|[_ Hy]]%lookup_insert_Some; [exact (I _ _ Hx)|by apply I].
  - intros c y [[<- <-]|[_ Hy]]%lookup_insert_Some; [done|by eapply P].
  - intros c y q [[<- <-]|[Hc Hy]]%lookup_insert_Some Hq.
    + apply Hl in Hq as [Hne Hq]. rewrite lookup_delete_ne by done. by apply (L b x).
    + destruct (L c y q Hy Hq) as [E ?]. split; [done|]. rewrite lookup_delete_ne; [done|]. intros ->. congruence.
  - intros q y [Hne Hy]%lookup_delete_Some. destruct (O q y Hy) as (? & ? & z & Hz & Hq). split_and!; [done..|].
    destruct (decide (b = q.1)) as [->|].
    + rewrite lookup_insert_eq. eexists. split; [done|]. apply Hl. split; [done|]. simpl. congruence.
    + rewrite lookup_insert_ne by done. eauto.
Qed.

(** ** The loops *)

Lemma delete_all_ports_spec fuel st b x :
  lists_ok st → st.(stpm_heap) !! b = Some x →
  match delete_all_ports fuel st b with
  | Done st' => lists_ok st' ∧ aside st st' ∧ st'.(bridges) = st.(bridges) ∧
      (∃ y, st'.(stpm_heap) !! b = Some y ∧ y.(STPM.ports) = []) ∧
      ∀ c, c ≠ b → st'.(stpm_heap) !! c = st.(stpm_heap) !! c
  | Segv => False
  | OutOfFuel => (fuel ≤ length x.(STPM.ports))%nat
  end.
Proof.
  revert st x. induction fuel as [|fuel IH]; intros st x Lo Hx; cbn [delete_all_ports]; [lia|].
  rewrite (get_stpm_Some _ _ _ Hx). cbn [obind]. destruct x.(STPM.ports) as [|p l] eqn:Ep.
  { split_and!; [done..| |done]. by exists x. }
  assert (Hin : p ∈ x.(STPM.ports)) by (rewrite Ep; left).
  destruct (lo_list _ Lo b x p Hx Hin) as [_ [port Hp]]. rewrite (get_port_Some _ _ _ Hp). cbn [obind].
  destruct (wp_elim _ _ (port_delete_lists st p b x Lo Hx Hin)) as (st1 & -> & Lo1 & A1 & B1 & y & Hy & Hlen & Ho).
  cbn [obind]. specialize (IH st1 y Lo1 Hy). destruct (delete_all_ports fuel st1 b) as [st2| |]; [|done|].
  - destruct IH as (Lo2 & A2 & B2 & Hb & Ho2). split_and!; [done|by etransitivity|congruence|done|].
    intros c Hc. by rewrite Ho2, Ho.
  - rewrite Ep in Hlen. simpl in *. lia.
Qed.

(** Stopping an instance changes nothing the loops rely on. *)
Lemma disable_lists fuel st b x :
  lists_ok st → st.(stpm_heap) !! b = Some x →
  wp (stp_stpm_enable fuel st b STP_DISABLED) (fun '(st', _) => lists_ok st' ∧ aside st st' ∧
    st'.(bridges) = st.(bridges) ∧ st'.(port_heap) = st.(port_heap) ∧
    (∃ y, st'.(stpm_heap) !! b = Some y ∧ y.(STPM.ports) = x.(STPM.ports) ∧ y.(STPM.vlan_id) = b) ∧
    ∀ c, c ≠ b → st'.(stpm_heap) !! c = st.(stpm_heap) !! c).
Proof.
  intros Lo Hx. unfold stp_stpm_enable. rewrite (get_stpm_Some _ _ _ Hx). cbn [obind].
  assert (Ei := lo_id _ Lo b x Hx). case_match.
  { apply wp_Done. split_and!; [done..| |done]. by exists x. }
  unfold stp_stpm_stop, set_admin_state. rewrite (get_stpm_Some _ _ _ Hx). cbn [obind].
  rewrite get_put_stpm. cbn [obind]. apply wp_Done. set (x' := _ <| STPM.admin_state := _ |>).
  assert (E : (put_stpm (put_stpm st b x') b x').(stpm_heap) = <[b := x']> st.(stpm_heap))
    by (simpl; by rewrite insert_insert_eq).
  destruct Lo as [D B I P L O C]. split_and!; try done.
  - split; rewrite ?E; try done.
    + intros c. rewrite (B c). destruct (decide (b = c)) as [<-|];
        [rewrite lookup_insert_eq, Hx; split; eauto|by rewrite lookup_insert_ne].
    + intros c y [[<- <-]|[_ Hy]]%lookup_insert_Some; [exact Ei|by apply I].
    + intros c y [[<- <-]|[_ Hy]]%lookup_insert_Some; [exact (P _ _ Hx)|by eapply P].
    + intros c y q [[<- <-]|[_ Hy]]%lookup_insert_Some; [apply (L _ _ q Hx)|by apply L].
    + intros q port Hq. destruct (O q port Hq) as (? & ? & z & Hz & Hin). split_and!; [done..|].
      destruct (decide (b = q.1)) as [->|]; [rewrite lookup_insert_eq|rewrite lookup_insert_ne by done; eauto].
      eexists. split; [done|]. simpl. congruence.
  - rewrite E, lookup_insert_eq. by exists x'.
  - intros c Hc. rewrite E. by rewrite lookup_insert_ne.
Qed.

Lemma unlink_head st b l x :
  st.(stpm_heap) !! b = Some x → x.(STPM.vlan_id) = b → unlink_stpm st (b :: l) b = Done (Some l).
Proof. intros Hx E. simpl. rewrite (get_stpm_Some _ _ _ Hx). cbn [obind]. by rewrite E, Z.eqb_refl. Qed.

(** The first instance, without ports, goes. *)
Lemma delete_first_spec fuel st b l x :
  lists_ok st → st.(bridges) = b :: l → st.(stpm_heap) !! b = Some x → x.(STPM.ports) = [] →
  wp (stp_stpm_delete fuel st b) (fun st' => lists_ok st' ∧ aside st st' ∧ st'.(bridges) = l ∧
    ∀ c y, st'.(stpm_heap) !! c = Some y → st.(stpm_heap) !! c = Some y).
Proof.
  intros Lo Eb Hx He. unfold stp_stpm_delete. apply wp_bind.
  eapply wp_mono; [by apply disable_lists|]. intros [st1 rc] (Lo1 & A1 & B1 & P1 & (y & Hy & Ep & Ei) & H1).
  rewrite (get_stpm_Some _ _ _ Hy). cbn [obind]. rewrite Ep, He. cbn [delete_ports obind]. rewrite Ei, B1, Eb.
  rewrite (unlink_head _ _ _ _ Hy Ei). cbn [obind].
  assert (Hsub : ∀ c z, delete b st1.(stpm_heap) !! c = Some z → st1.(stpm_heap) !! c = Some z ∧ c ≠ b).
  { intros c z [? ?]%lookup_delete_Some. by split. }
  destruct Lo1 as [D B I P L O C]. rewrite B1, Eb in *. inversion_clear D as [|? ? Hb D'].
  assert (HO : ∀ q port, st1.(port_heap) !! q = Some port → q.1 ≠ b).
  { intros q port Hq E. destruct (O q port Hq) as (_ & _ & z & Hz & Hin). rewrite E, Hy in Hz.
    injection Hz as <-. rewrite Ep, He in Hin. by apply not_elem_of_nil in Hin. }
  destruct (Z.eqb_spec b STP_CIST_ID) as [Hc|Hc]; apply wp_Done; (split_and!; [split|..]); simpl; try done.
  all: try (intros c z [Hz ?]%Hsub; by apply I || by eapply P).
  all: try (intros c z q [Hz ?]%Hsub; by apply L).
  all: try (intros q port Hq; destruct (O q port Hq) as (? & ? & z & Hz & Hin); split_and!; [done..|];
    rewrite lookup_delete_ne by (intros E; by apply (HO q port Hq)); eauto).
  all: try (intros c z [Hz ?]%Hsub; rewrite H1 in Hz; done).
  all: try (intros c; specialize (B c); destruct (decide (c = b)) as [->|Hcb];
    [rewrite lookup_delete_eq; split; [done|by intros []]|
     rewrite lookup_delete_ne by done; rewrite <- B, elem_of_cons; naive_solver]).
  intros c Ec. destruct (C c Ec) as [-> Hin]. split; [done|]. apply elem_of_cons in Hin as [E|?]; [|done].
  by destruct Hc.
Qed.

Lemma delete_all_instances_spec fuel st N :
  lists_ok st → (∀ b x, st.(stpm_heap) !! b = Some x → length x.(STPM.ports) ≤ N)%nat →
  match delete_all_instances fuel st with
  | Done st' => aside st st' ∧ st'.(bridges) = [] ∧ st'.(g_CISTBRIDGE) = None ∧
      st'.(stpm_heap) = ∅ ∧ st'.(port_heap) = ∅
  | Segv => False
  | OutOfFuel => (fuel ≤ length st.(bridges) + N)%nat
  end.
Proof.
  revert st. induction fuel as [|fuel IH]; intros st Lo HN; cbn [delete_all_instances]; [lia|].
  destruct st.(bridges) as [|b l] eqn:Eb.
  { destruct Lo as [D B I P L O C]. rewrite Eb in *.
    assert (E : st.(stpm_heap) = ∅).
    { apply map_empty. intros c. apply eq_None_not_Some. intros Hc. by apply B, not_elem_of_nil in Hc. }
    split_and!; [done..| |done|].
    - destruct st.(g_CISTBRIDGE) as [c|]; [|done]. destruct (C c eq_refl) as [_ Hc]. by apply not_elem_of_nil in Hc.
    - apply map_empty. intros q. apply eq_None_not_Some. intros [port Hq].
      destruct (O q port Hq) as (_ & _ & z & Hz & _). by rewrite E, lookup_empty in Hz. }
  destruct (proj1 (lo_bridges _ Lo b) ltac:(rewrite Eb; left)) as [x Hx].
  pose proof (delete_all_ports_spec (S fuel) st b x Lo Hx) as H.
  destruct (delete_all_ports (S fuel) st b) as [st1| |]; cbn [obind]; [|done|].
  2: { pose proof (HN b x Hx). simpl in *. lia. }
  destruct H as (Lo1 & A1 & B1 & (y & Hy & He) & Ho). rewrite Eb in B1.
  destruct (wp_elim _ _ (delete_first_spec (S fuel) st1 b l y Lo1 B1 Hy He)) as (st2 & -> & Lo2 & A2 & B2 & Hs).
  cbn [obind]. specialize (IH st2 Lo2). rewrite B2 in IH.
  assert (HN2 : ∀ c z, st2.(stpm_heap) !! c = Some z → (length z.(STPM.ports) ≤ N)%nat).
  { intros c z Hz. apply Hs in Hz. destruct (decide (c = b)) as [->|].
    - rewrite Hy in Hz. injection Hz as <-. rewrite He. simpl. lia.
    - rewrite Ho in Hz by done. by eapply HN. }
  specialize (IH HN2). destruct (delete_all_instances fuel st2) as [st3| |]; [|done|simpl; lia].
  destruct IH as (A3 & ?). split; [|done]. etransitivity; [exact A1|]. by etransitivity.
Qed.

(** ** Everything *)

(** No list is longer than the number of ports there are. *)
Lemma list_bound st b x :
  lists_ok st → st.(stpm_heap) !! b = Some x → (length x.(STPM.ports) ≤ size st.(port_heap))%nat.
Proof.
  intros Lo Hx. rewrite <- length_map_to_list, <- (length_fmap (fst : PORT_REF * PORT_T → PORT_REF)).
  apply submseteq_length, NoDup_submseteq; [by eapply lo_ports|].
  intros q Hq. destruct (lo_list _ Lo b x q Hx Hq) as [_ [port Hp]].
  apply list_elem_of_fmap. exists (q, port). split; [done|]. by apply elem_of_map_to_list.
Qed.

(** As many rounds are enough as there are instances and ports. *)
Definition rounds (st : STP_T) : nat := S (length st.(bridges) + size st.(port_heap)).

(** What is left, with the tables of VLANs. *)
Definition cleared (m m' : MGMT_T) : Prop :=
  empty_core m'.(core) ∧ vlan_tables_ok m' ∧
  m'.(g_VlanPBMP) = clear_VlanPBMP m.(g_VlanPBMP) ∧ m'.(g_VID2MSTID) = clear_VID2MSTID m.(g_VID2MSTID).

Lemma clear_tables_ok m m' :
  vlan_tables_ok m → m'.(g_VlanPBMP) = clear_VlanPBMP m.(g_VlanPBMP) →
  m'.(g_VID2MSTID) = clear_VID2MSTID m.(g_VID2MSTID) → vlan_tables_ok m'.
Proof.
  intros (V & P & B) EP EV. split_and!.
  - rewrite EV. unfold clear_VID2MSTID. by rewrite length_app, repeat_length, <- length_app, take_drop.
  - rewrite EP. unfold clear_VlanPBMP. by rewrite length_imap.
  - intros bm Hin. rewrite EP in Hin. apply list_elem_of_lookup_1 in Hin as [i Hi].
    unfold clear_VlanPBMP in Hi. rewrite list_lookup_imap in Hi.
    destruct (m.(g_VlanPBMP) !! i) as [old|] eqn:E; [|done]. injection Hi as <-.
    assert (L : length old = 9%nat) by (apply B; by eapply list_elem_of_lookup_2).
    do 2 (case_match; [try done|]); [|done]. simpl. rewrite length_drop, L. done.
Qed.

Lemma delete_all_spec fuel m :
  wf m.(core) → tables_ok m.(core) → m.(core).(g_curBPDU) = None → vlan_tables_ok m →
  Forall daemon_event m.(core).(trace) →
  match stp_mgmt_stpm_delete_all fuel m with
  | Done m' => cleared m m'
  | Segv => False
  | OutOfFuel => (fuel < rounds m.(core))%nat
  end.
Proof.
  intros W T C V A. unfold stp_mgmt_stpm_delete_all. assert (Lo := wf_lists_ok _ W).
  pose proof (delete_all_instances_spec fuel m.(core) _ Lo (fun b x => list_bound _ b x Lo)) as H.
  destruct (delete_all_instances fuel m.(core)) as [st| |]; cbn [obind]; [|done|unfold rounds; lia].
  destruct H as ((E1 & E2 & E3 & _ & E4 & E5) & Eb & Ec & Es & Ep).
  assert (Hc : cleared m (m <| core := st <| g_CISTPORT := ∅ |> <| enabled_ports := stp_bitmap_clear
    (st <| g_CISTPORT := ∅ |>).(enabled_ports) |> |> <| g_VlanPBMP := clear_VlanPBMP m.(g_VlanPBMP) |>
    <| g_VID2MSTID := clear_VID2MSTID m.(g_VID2MSTID) |>)).
  { split_and!; [|by eapply clear_tables_ok|done..]. split; simpl; try congruence; [|done|by eapply adds_Forall].
    unfold tables_ok in *. simpl. by rewrite E1, E2. }
  exact Hc.
Qed.
