(* ===== verification/StpRequest.v ===== *)
(** * Requests

    What the main loop of the daemon ([stp_bridge_main_loop]) and the functions
    the management interface calls do with one input, as a step from a state of
    the daemon to the next: [serve].  [request_ok] is what each input must
    respect for the step to be defined, and [reachable] the states of a daemon
    that got only such inputs. *)

From Stdlib Require Import ZArith Lia.
From stdpp Require Import base gmap list option.
From S2P Require Import Prelude StpTypes StpBpdu StpTo StpHeap StpStatmch StpPort StpRoletrns StpTransmit StpStpm StpIn StpMgmt StpCommand StpUid StpDaemon StpMgmtSafety.

Inductive REQUEST :=
  | UID_DATAGRAM (datagram : list Z)
  | NPD_MESSAGE (message : list Z)
  | ONE_SECOND
  | STPM_ENABLE
  | STPM_DISABLE
  | PORT_ENABLE (info : option bool) (port_index lkState speed : Z) (isWAN : bool) (slot port : Z)
  | PORT_DISABLE (info : option bool) (port_index lkState speed : Z) (isWAN : bool) (slot port : Z)
  | BRIDGE_CFG (mstid value val_mask : Z)
  | FORCE_VERSION (fvers : Z)
  | PORT_CFG (recorded : bool) (mstid port_index value val_mask : Z)
  | VLAN_TO_INSTANCE (vid mstid : Z)
  | INIT_VLAN (vid : Z) (ports : BITMAP_T)
  | ADD_VLAN (vid : Z) (ports : BITMAP_T)
  | REGION_NAME (name : list Z)
  | REVISION (value : Z)
  | SET_RUNNING_MODE (mode : RUNNING_MODE).

Section Serve.
(** Indeterminate values: the buffer of an MD5 context, the type of a rejected
    frame, the result of functions without a [return]; and what sysfs says of
    WAN interfaces. *)
Variable junk : list Z.
Variable junk_type : Z.
Variable uninit : Z.
Variable wan_if : Z → Z → Z → option (Z * Z).
Variable wan_br : Z → Z → option (Z * Z).

(** A frame of the switch.  Its buffer is freed, then two of its fields are
    printed. *)
Definition stp_uid_read_socket (fuel : nat) (st : STP_T) (datagram : list Z) : outcome (STP_T * Z) :=
  if bool_decide (datagram = []) then Done (st, 0)
  else
    let* '(port_index, bpdu, len) := uid_message datagram in
    let* '(st, _) := stp_in_rx_bpdu junk_type fuel st port_index 0 0 bpdu len in
    Done (access FREED 0 1 st, 0).

(** The cases of [stp_npd_read_socket]; the results are only logged. *)
Definition npd_serve (fuel : nat) (m : MGMT_T) (cmd : NPD_CMD) : outcome (MGMT_T * Z) :=
  match cmd with
  | INTERFACE_ADD vid idx isWan => stp_npd_cmd_add_port wan_if fuel m vid idx isWan
  | INTERFACE_DEL vid idx => stp_npd_cmd_del_port uninit m vid idx
  | VLAN_ADD_ON_MST vid untagbmp tagbmp =>
      stp_npd_cmd_add_vlan_on_mst junk wan_if fuel m vid untagbmp tagbmp
  | VLAN_DEL_ON_MST vid => stp_npd_cmd_del_vlan_on_mst junk uninit fuel m vid
  | LINK_CHANGE_EVENT idx state speed duplex wan slot port =>
      in_core (fun st => stp_npd_cmd_set_param_by_link_state wan_br fuel st idx state speed duplex
        wan slot port) m
  | STP_GET_SYS_MAC mac => Done (m <| core := stp_npd_sys_mac m.(core) mac |>, 0)
  | OTHER_CMD => Done (m, 0)
  end.

Definition stp_npd_read_socket (fuel : nat) (m : MGMT_T) (message : list Z) : outcome (MGMT_T * Z) :=
  if bool_decide (message = []) then Done (m, 0)
  else
    let* cmd := npd_cmd message in
    let* '(m, _) := npd_serve fuel m cmd in
    Done (m, 0).

Definition serve (fuel : nat) (m : MGMT_T) (r : REQUEST) : outcome (MGMT_T * Z) :=
  match r with
  | UID_DATAGRAM d => in_core (fun st => stp_uid_read_socket fuel st d) m
  | NPD_MESSAGE msg => stp_npd_read_socket fuel m msg
  | ONE_SECOND => in_core (stp_in_one_second fuel) m
  | STPM_ENABLE => stp_param_set_stpm_enable fuel m
  | STPM_DISABLE => stp_param_set_stpm_disable junk fuel m
  | PORT_ENABLE info idx lk speed wan slot port =>
      in_core (fun st => stp_param_set_stpm_port_enable wan_br info fuel st idx lk speed wan slot port) m
  | PORT_DISABLE info idx lk speed wan slot port =>
      in_core (fun st => stp_param_set_stpm_port_disable wan_br info fuel st idx lk speed wan slot port) m
  | BRIDGE_CFG mstid value mask =>
      in_core (fun st => stp_param_set_bridge_cfg_value uninit fuel st mstid value mask) m
  | FORCE_VERSION fvers => stp_param_set_bridge_fvers uninit fuel m fvers
  | PORT_CFG recorded mstid idx value mask =>
      in_core (fun st => stp_param_set_port_cfg_value uninit recorded fuel st mstid idx value mask) m
  | VLAN_TO_INSTANCE vid mstid =>
      stp_param_set_vlan_to_instance junk uninit wan_if fuel m vid mstid
  | INIT_VLAN vid ports =>
      let* m := stp_param_mstp_init_vlan_info m vid ports in Done (m, 0)
  | ADD_VLAN vid ports => stp_param_add_vlan_to_mstp junk wan_if fuel m vid ports
  | REGION_NAME name => in_core (fun st => stp_param_set_bridge_region_name st name) m
  | REVISION value => in_core (fun st => stp_param_set_bridge_revision st value) m
  | SET_RUNNING_MODE mode => Done (stp_param_set_running_mode m mode, 0)
  end.

(** ** What inputs must respect *)

(** The index is within the tables and the bitmaps. *)
Definition port_fits (st : STP_T) (idx : Z) : bool :=
  index_ok st.(productId) st.(stp_is_distributed) idx && (idx <? PORT_INDEX_MAX) &&
  (let '(index, _) := bit_position st.(productId) st.(stp_is_distributed) idx in
   (0 <=? index) && (index <=? 8)).

(** The VLAN may leave its instance. *)
Definition leaving_ok (m : MGMT_T) (vid : Z) : Prop :=
  ∀ old, m.(g_VID2MSTID) !! Z.to_nat vid = Some old → old ≠ STP_CIST_ID → removable m.(core) old.

Definition cmd_ok (m : MGMT_T) (cmd : NPD_CMD) : Prop :=
  match cmd with
  | INTERFACE_ADD vid idx _ => port_fits m.(core) idx = true ∧
      (vid_mstid m vid ≠ Done STP_CIST_ID →
       is_Some (m.(core).(g_CISTPORT) !! stp_port_global_index_parse m.(core) idx))
  | INTERFACE_DEL _ idx => port_fits m.(core) idx = true
  | VLAN_ADD_ON_MST vid u t => ports_known m.(core) STP_CIST_ID vid (cmd_bitmap u t)
  | VLAN_DEL_ON_MST vid => leaving_ok m vid
  | LINK_CHANGE_EVENT idx _ speed duplex _ _ _ =>
      port_fits m.(core) idx = true ∧ 0 ≤ speed ≤ 6 ∧ 0 ≤ duplex ≤ 1
  | STP_GET_SYS_MAC _ | OTHER_CMD => True
  end.

(** The configuration of the CIST is one that may be stored. *)
Definition cist_cfg_ok (st : STP_T) : Prop :=
  ∀ x, st.(stpm_heap) !! STP_CIST_ID = Some x →
    stp_in_check_stpm_config (stp_in_stpm_get_cfg x) STP_CIST_ID = 0.

Definition request_ok (m : MGMT_T) (r : REQUEST) : Prop :=
  match r with
  | UID_DATAGRAM d => uid_message d ≠ Segv
  | NPD_MESSAGE msg => ∀ cmd, npd_cmd msg = Done cmd → cmd_ok m cmd
  | STPM_DISABLE => m.(core).(g_flag) = true → cist_cfg_ok m.(core)
  | PORT_ENABLE _ idx _ speed _ _ _ => port_fits m.(core) idx = true ∧ 0 ≤ speed ≤ 6
  | PORT_DISABLE _ idx _ _ _ _ _ => 0 ≤ idx < PORT_INDEX_MAX
  | VLAN_TO_INSTANCE vid mstid => vid_ok vid ∧ leaving_ok m vid ∧
      ∀ bm, vid_ports m vid = Done bm → ports_known m.(core) (u16 mstid) vid bm
  | INIT_VLAN vid ports => 0 ≤ vid < 4096 ∧ length ports = 9%nat
  | ADD_VLAN vid ports => vid_ok vid ∧ length ports = 9%nat ∧ ports_known m.(core) STP_CIST_ID vid ports
  | REGION_NAME name => (length name < 32)%nat
  | _ => True
  end.

(** The states of a daemon that was started and then served such inputs. *)
Inductive reachable : MGMT_T → Prop :=
  | reach_start m m' rc : fresh m → stp_bridge_start junk m = Done (m', rc) → reachable m'
  | reach_serve fuel m r m' rc :
      reachable m → request_ok m r → serve fuel m r = Done (m', rc) → reachable m'.
End Serve.
