(* ===== verification/StpExample.v ===== *)
(** * A concrete bridge

    A decidable form of well-formedness, and a bridge built with the daemon's
    own functions: the CIST with ports 1 and 2, and the instance 1 with port 1,
    started.  The witnesses of the theorems run on it. *)

From Stdlib Require Import ZArith Lia.
From stdpp Require Import base gmap list option sets.
From S2P Require Import Prelude StpTypes StpBpdu StpVector StpTo StpHeap StpStatmch StpPort StpTransmit StpFrame StpReceive StpStpm StpIn.

(** ** Deciding well-formedness *)

Definition port_wf (s : SHAPE) (q : PORT_REF) (x : PSHAPE) : Prop :=
  x.(sh_owner) = q.1 ∧ x.(sh_index) = q.2 ∧ x.(sh_mstid) = q.1 ∧
  match s.(sh_stpms) !! q.1 with Some b => q ∈ b.(sh_list) | None => False end ∧
  x.(sh_migrate) = bool_decide (q.1 = STP_CIST_ID) ∧
  (if bool_decide (q.1 = STP_CIST_ID)
   then x.(sh_transmit) && x.(sh_p2p) && x.(sh_edge) && x.(sh_receive) else true) = true ∧
  Forall (fun r => r.1 ≠ STP_CIST_ID ∧ is_Some (s.(sh_ports) !! r)) x.(sh_next) ∧
  NoDup (x.(sh_next).*1) ∧
  map_Forall (fun q' x' => q = q' ∨ Forall (fun r => r ∉ x'.(sh_next)) x.(sh_next)) s.(sh_ports) ∧
  index_ok s.(sh_product) s.(sh_distributed) q.2 = true ∧
  bad_index (index_parse s.(sh_product) s.(sh_distributed) q.2) = false ∧
  is_Some (s.(sh_cistport) !! index_parse s.(sh_product) s.(sh_distributed) q.2).

Definition wf_check (s : SHAPE) : Prop :=
  (Forall (fun b => is_Some (s.(sh_stpms) !! b)) s.(sh_bridges) ∧ NoDup s.(sh_bridges)) ∧
  match s.(sh_cist) with
  | Some b => b = STP_CIST_ID ∧ is_Some (s.(sh_stpms) !! b)
  | None => True
  end ∧
  map_Forall (fun b x => s.(sh_cist) = Some STP_CIST_ID ∧
    (x.(sh_vlan) = b ∧ 0 ≤ b ≤ STP_MSTI_MAX ∧ b ∈ s.(sh_bridges)) ∧ NoDup x.(sh_list) ∧
    Forall (fun q => q.1 = b ∧ is_Some (s.(sh_ports) !! q)) x.(sh_list)) s.(sh_stpms) ∧
  map_Forall (port_wf s) s.(sh_ports) ∧
  map_Forall (fun _ q => q.1 = STP_CIST_ID ∧ is_Some (s.(sh_ports) !! q)) s.(sh_cistport).

#[export] Instance port_wf_dec s q x : Decision (port_wf s q x).
Proof. unfold port_wf. destruct (s.(sh_stpms) !! q.1); apply _. Defined.

#[export] Instance wf_check_dec s : Decision (wf_check s).
Proof. unfold wf_check. destruct s.(sh_cist); apply _. Defined.

Lemma wf_check_ok st : wf_check (shape st) → wf st.
Proof.
  intros ([Hb Hd] & Hc & Hs & Hp & Ha). set (s := shape st) in *.
  assert (HP : ∀ q x, s.(sh_ports) !! q = Some x → port_wf s q x) by (intros q x; apply Hp).
  split; fold s.
  - intros b Hin. by eapply (proj1 (Forall_forall _ _) Hb).
  - exact Hd.
  - intros b E. by rewrite E in Hc.
  - intros b x E. by apply Hs in E as (? & _).
  - intros b x E. by apply Hs in E as (_ & ? & _).
  - intros b x q E Hq. apply Hs in E as (_ & _ & _ & E). by apply (proj1 (Forall_forall _ _) E).
  - intros b x E. by apply Hs in E as (_ & _ & ? & _).
  - intros q x E. destruct (HP q x E) as (? & ? & ? & Hl & _). split_and!; [done..|].
    destruct (s.(sh_stpms) !! q.1) as [b|]; [|done]. by exists b.
  - intros q x E Eq. destruct (HP q x E) as (_ & _ & _ & _ & Hm & Ho & _).
    rewrite bool_decide_true in Hm, Ho by done. apply andb_true_iff in Ho as [Ho ?].
    apply andb_true_iff in Ho as [Ho ?]. apply andb_true_iff in Ho as [? ?]. done.
  - intros q x E Em. destruct (HP q x E) as (_ & _ & _ & _ & Hm & _).
    rewrite Em in Hm. symmetry in Hm. by apply bool_decide_eq_true in Hm.
  - intros q x r E Hr. destruct (HP q x E) as (_ & _ & _ & _ & _ & _ & Hn & _).
    by apply (proj1 (Forall_forall _ _) Hn).
  - intros q x E. by destruct (HP q x E) as (_ & _ & _ & _ & _ & _ & _ & ? & _).
  - intros q1 q2 x1 x2 r E1 E2 H1 H2. destruct (HP q1 x1 E1) as (_ & _ & _ & _ & _ & _ & _ & _ & Ht & _).
    destruct (Ht q2 x2 E2) as [?|Hd']; [done|]. by destruct (proj1 (Forall_forall _ _) Hd' r).
  - intros i q E. by apply Ha in E.
  - intros q x E. by destruct (HP q x E) as (_ & _ & _ & _ & _ & _ & _ & _ & _ & ? & ? & ?).
Qed.

(** Evaluates the decision. *)
Ltac decide_wf := apply wf_check_ok, (bool_decide_unpack _); vm_compute; exact I.

(** ** The bridge *)

Definition blank : STP_T := {|
  bridges := []; g_CISTBRIDGE := None; stpm_heap := ∅; port_heap := ∅; g_CISTPORT := ∅;
  g_curBPDU := None; sttrans_count := 0; g_flag := true; productId := PRODUCT_ID_AX5K;
  stp_is_distributed := false; stp_slot_id := 0; sysMac := [0; 0x1f; 0x64; 1; 2; 3];
  enabled_ports := repeat 0xff 9; port_speed_s := None; port_duplex_mode_nodes := None;
  trace := [] |}.

Definition no_wan (_ _ _ : Z) : option (Z * Z) := None.

Definition enable_cfg : UID_STP_CFG_T :=
  mkStpCfg BR_CFG_STATE STP_ENABLED 0 0 0 0 0 0 0.

(** The instances and their ports, not yet started, on a switch with this
    address. *)
Definition build (mac : list Z) : outcome STP_T :=
  let* '(st, _) := stp_stpm_mst_create (blank <| sysMac := mac |>) STP_CIST_ID 5 in
  let* '(st, _) := stp_port_mst_addport no_wan 0 st STP_CIST_ID 1 1 false in
  let* '(st, _) := stp_port_mst_addport no_wan 0 st STP_CIST_ID 2 1 false in
  let* '(st, _) := stp_stpm_mst_create st 1 32 in
  let* '(st, _) := stp_port_mst_addport no_wan 0 st 1 1 10 false in
  Done st.

(** Both instances enabled. *)
Definition start (mac : list Z) : outcome (STP_T * Z) :=
  let* st := build mac in
  let* '(st, r1) := stp_in_stpm_set_cfg 60 st STP_CIST_ID enable_cfg in
  let* '(st, r2) := stp_in_stpm_set_cfg 60 st 1 enable_cfg in
  Done (st, r1 + r2).

Definition value {A} (d : A) (m : outcome A) : A := match m with Done a => a | _ => d end.

Definition ex_mac : list Z := [0; 0x1f; 0x64; 1; 2; 3].
Definition ex_built : STP_T := Eval vm_compute in value blank (build ex_mac).
Definition ex_st : STP_T := Eval vm_compute in (value (blank, -1) (start ex_mac)).1.

(** The last frame a bridge has sent, and its length. *)
Fixpoint last_frame (t : list EVENT) : list Z * Z :=
  match t with
  | [] => ([], 0)
  | TX_BPDU _ bpdu len :: _ => (bpdu, len)
  | _ :: t' => last_frame t'
  end.

(** A frame of a bridge with a smaller address, in a receive buffer. *)
Definition ex_frame : list Z * Z :=
  Eval vm_compute in
    let '(bpdu, len) := last_frame (value (blank, -1) (start [0; 0x1f; 0x64; 1; 2; 1])).1.(trace) in
    (bpdu ++ repeat 0 40, len).

(** The first bridge, after it has received this frame on port 2. *)
Definition ex_heard : STP_T :=
  Eval vm_compute in (value (blank, -1) (stp_in_rx_bpdu 0 60 ex_st 2 0 0 ex_frame.1 ex_frame.2)).1.

(** Its ports and instances. *)
Definition ex_port (q : PORT_REF) : PORT_T := default calloc_port (ex_st.(port_heap) !! q).
Definition ex_stpm (b : Z) : STPM_T := default (calloc_stpm 0) (ex_st.(stpm_heap) !! b).

(** Evaluates a decidable proposition. *)
Ltac by_decision := apply (bool_decide_unpack _); vm_compute; exact I.
(** Evaluates both sides of an equation. *)
Ltac by_compute := vm_compute; reflexivity.

(** Every step of the construction succeeds. *)
Lemma ex_start_ok : start ex_mac = Done (ex_st, 0).
Proof. by_compute. Qed.

Lemma ex_heard_ok : stp_in_rx_bpdu 0 60 ex_st 2 0 0 ex_frame.1 ex_frame.2 = Done (ex_heard, 0).
Proof. by_compute. Qed.
