(* ===== verification/StpCodec.v ===== *)
(** * Properties of the protocol data

    Priority vectors are ordered lexicographically, and what a bridge encodes
    in a message or a frame is what its neighbour decodes. *)

From Stdlib Require Import ZArith Lia.
From stdpp Require Import base gmap list option.
From S2P Require Import Prelude StpTypes StpBpdu StpVector StpTo StpHeap StpStatmch StpPort StpTransmit StpReceive StpStpm StpIn StpExample.

#[local] Arguments be_bytes : simpl never.
#[local] Arguments be_val : simpl never.
#[local] Arguments take : simpl never.

(** ** Sample data of the witnesses *)

Definition br1 : BRIDGE_ID := mkBridgeId 32768 [0; 0x1f; 0x64; 1; 2; 3].
Definition br2 : BRIDGE_ID := mkBridgeId 32768 [0; 0x1f; 0x64; 1; 2; 4].
Definition vec1 : PRIO_VECTOR_T := mkVector br1 20000 br1 0 br1 0x8001 0x8002.
Definition vec2 : PRIO_VECTOR_T := mkVector br1 20000 br1 0 br2 0x8001 0x8002.
Definition vec3 : PRIO_VECTOR_T := mkVector br2 0 br1 0 br2 0x8001 0x8002.

(** A vector as the protocol may carry it: its costs are any 32-bit number. *)
Definition u32_vector (v : PRIO_VECTOR_T) : Prop :=
  wf_bridge_id v.(root_bridge) ∧ 0 ≤ v.(root_path_cost) < 2 ^ 32 ∧
  wf_bridge_id v.(region_root_bridge) ∧ 0 ≤ v.(region_root_path_cost) < 2 ^ 32 ∧
  wf_bridge_id v.(design_bridge) ∧ 0 ≤ v.(design_port) < 65536 ∧
  0 ≤ v.(bridge_port) < 65536.

#[export] Instance is_byte_dec b : Decision (is_byte b).
Proof. unfold is_byte. apply _. Defined.
#[export] Instance wf_bridge_id_dec b : Decision (wf_bridge_id b).
Proof. unfold wf_bridge_id. apply _. Defined.
#[export] Instance wf_vector_dec v : Decision (wf_vector v).
Proof. unfold wf_vector. apply _. Defined.
#[export] Instance u32_vector_dec v : Decision (u32_vector v).
Proof. unfold u32_vector. apply _. Defined.


(** ** The order *)

(** C21: [stp_vector_compare] implements the lexicographic order of IEEE 802.1Q
    13.9 on priority vectors whose path costs are below [2^31]: the sign of its
    result is the order of the components, most significant first. *)
Theorem vector_compare_lexicographic v1 v2 :
  wf_vector v1 → wf_vector v2 →
  Z.sgn (stp_vector_compare v1 v2) = sign_of (lex (vector_key v1) (vector_key v2)).
Proof. exact (compare_sign v1 v2). Qed.

Lemma vector_compare_lexicographic_witness :
  wf_vector vec1 ∧ wf_vector vec2 ∧
  Z.sgn (stp_vector_compare vec1 vec2) = sign_of (lex (vector_key vec1) (vector_key vec2)).
Proof.
  assert (H1 : wf_vector vec1) by by_decision.
  assert (H2 : wf_vector vec2) by by_decision.
  exact (conj H1 (conj H2 (vector_compare_lexicographic vec1 vec2 H1 H2))).
Defined.

(** on those vectors the comparison is a strict total order: it is zero only
    on equal vectors, changes sign when its arguments are exchanged, and is
    transitive.  A best vector is therefore unique. *)
Theorem vector_compare_total_order v1 v2 v3 :
  wf_vector v1 → wf_vector v2 → wf_vector v3 →
  (stp_vector_compare v1 v2 = 0 ↔ v1 = v2) ∧
  stp_vector_compare v2 v1 = - stp_vector_compare v1 v2 ∧
  (stp_vector_compare v1 v2 < 0 → stp_vector_compare v2 v3 < 0 → stp_vector_compare v1 v3 < 0).
Proof.
  intros H1 H2 H3. split_and!; [by apply compare_eq|by apply compare_opp|by apply compare_trans].
Qed.

Lemma vector_compare_total_order_witness :
  stp_vector_compare vec1 vec2 < 0 ∧ stp_vector_compare vec2 vec3 < 0 ∧
  stp_vector_compare vec1 vec3 < 0.
Proof.
  assert (H1 : wf_vector vec1) by by_decision.
  assert (H2 : wf_vector vec2) by by_decision.
  assert (H3 : wf_vector vec3) by by_decision.
  assert (H12 : stp_vector_compare vec1 vec2 < 0) by reflexivity.
  assert (H23 : stp_vector_compare vec2 vec3 < 0) by reflexivity.
  exact (conj H12 (conj H23
    (proj2 (proj2 (vector_compare_total_order vec1 vec2 vec3 H1 H2 H3)) H12 H23))).
Defined.

(** without the bound on the costs the comparison is not an order: the
    difference of two [unsigned long] costs is stored in an [int], and a vector
    of cost [2^31] or more can compare as better than one of cost 0, in a cycle
    of three vectors that differ only in their path cost. *)
Theorem vector_compare_cyclic :
  ∃ v1 v2 v3, u32_vector v1 ∧ u32_vector v2 ∧ u32_vector v3 ∧
    v1.(root_path_cost) < v2.(root_path_cost) < v3.(root_path_cost) ∧
    stp_vector_compare v1 v2 < 0 ∧ stp_vector_compare v2 v3 < 0 ∧ stp_vector_compare v3 v1 < 0.
Proof.
  exists vec1, (vec1 <| root_path_cost := 2000000000 |>), (vec1 <| root_path_cost := 4000000000 |>).
  by_decision.
Qed.

(** ** Configuration messages *)

(** What a configuration message carries of a vector. *)
Definition same_message (v w : PRIO_VECTOR_T) : Prop :=
  v.(root_bridge) = w.(root_bridge) ∧ v.(root_path_cost) = w.(root_path_cost) ∧
  v.(design_bridge) = w.(design_bridge) ∧ v.(design_port) = w.(design_port).

Lemma short_roundtrip z : 0 ≤ z < 65536 → stp_vector_get_short (stp_vector_set_short z) = z.
Proof.
  intros H. unfold stp_vector_get_short, stp_vector_set_short.
  rewrite take_ge by (by rewrite length_be_bytes). by apply be_val_bytes2.
Qed.

Lemma long_roundtrip z : 0 ≤ z < 2 ^ 32 → be_val (take 4 (be_bytes 4 z)) = z.
Proof.
  intros H. rewrite take_ge by (by rewrite length_be_bytes). by apply be_val_bytes4.
Qed.

(** Encoding a vector in a configuration message and decoding it gives back
    the root, its path cost, the designated bridge and the designated port, and
    leaves the members the message does not carry as they were. *)
Theorem vector_message_roundtrip v b w :
  u32_vector v →
  let r := stp_vector_get_vector (stp_vector_set_vector v b) w in
  same_message r v ∧ r.(region_root_bridge) = w.(region_root_bridge) ∧
  r.(region_root_path_cost) = w.(region_root_path_cost) ∧ r.(bridge_port) = w.(bridge_port).
Proof.
  intros (H1 & H2 & _ & _ & H5 & H6 & _). unfold same_message. simpl.
  rewrite !get_set_bridge_id, long_roundtrip, short_roundtrip by done. done.
Qed.

Lemma vector_message_roundtrip_witness :
  u32_vector vec1 ∧
  same_message (stp_vector_get_vector (stp_vector_set_vector vec1 zero_body) vec3) vec1.
Proof.
  assert (H : u32_vector vec1) by by_decision.
  exact (conj H (proj1 (vector_message_roundtrip vec1 zero_body vec3 H))).
Defined.

(** The four timers of a message survive encoding and decoding when they are
    below 256 seconds, and are reduced modulo 256 otherwise; the hop count,
    which the message does not carry, is kept; two sets of timers compare equal
    only when they are the same. *)
Theorem times_message_roundtrip t b w :
  let r := stp_times_get (stp_times_set t b) w in
  r = mkTimes (t.(MessageAge) mod 256) (t.(MaxAge) mod 256) (t.(ForwardDelay) mod 256)
        (t.(HelloTime) mod 256) w.(RemainingHops) ∧
  (stp_times_compare r t = 0 ↔
     0 ≤ t.(MessageAge) < 256 ∧ 0 ≤ t.(MaxAge) < 256 ∧ 0 ≤ t.(ForwardDelay) < 256 ∧
     0 ≤ t.(HelloTime) < 256 ∧ w.(RemainingHops) = t.(RemainingHops)).
Proof.
  assert (M : ∀ x, x mod 256 = x ↔ 0 ≤ x < 256).
  { intros x. pose proof (Z.mod_pos_bound x 256). split; [lia|apply Z.mod_small]. }
  intros r. assert (E : r = mkTimes (t.(MessageAge) mod 256) (t.(MaxAge) mod 256)
    (t.(ForwardDelay) mod 256) (t.(HelloTime) mod 256) w.(RemainingHops)).
  { unfold r, stp_times_get, stp_times_set. simpl. by rewrite !get_set_time. }
  split; [exact E|]. rewrite times_compare_eq, E, <- !M. destruct t. simpl.
  split; [by injection 1 as ? ? ? ? ?|by intros (-> & -> & -> & -> & ->)].
Qed.

(** ** What a bridge sends, its neighbour decodes

    The frames built by [stp_transmit.c], read back by [stp_receive.c]: the
    layout of the structures of [stp_bpdu.h], then the vectors and times of the
    CIST and of an MSTI. *)

#[local] Arguments be_bytes : simpl never.
#[local] Arguments be_val : simpl never.
#[local] Arguments take : simpl never.
#[local] Arguments stp_vector_get_bridge_id : simpl never.
#[local] Arguments stp_vector_set_bridge_id : simpl never.

(** ** Layout *)

(** The arrays of the variable part of an MSTP frame have their declared
    lengths. *)
Definition frame_sized (h : FRAME_HEADER_T) (b : BPDU_BODY_T) (c : MSTP_CIST_T) : Prop :=
  length h.(src_mac) = 6%nat ∧ length h.(len8023) = 2%nat ∧ body_sized b ∧
  length c.(cist_version_3_length) = 2%nat ∧ length c.(cist_MSTCID) = 51%nat ∧
  length c.(cist_inter_path_cost) = 4%nat ∧ length c.(cist_bridge) = 8%nat.

Lemma length_header_bytes h :
  length h.(src_mac) = 6%nat → length h.(len8023) = 2%nat → length (header_bytes h) = 21%nat.
Proof. intros H1 H2. unfold header_bytes. rewrite !length_app, H1, H2. done. Qed.

(** Moves a read to its window: every part before it has a known length. *)
Ltac seek :=
  repeat first [rewrite rd_skip by (cbn [length]; lia) | rewrite rd8_skip by (cbn [length]; lia)];
  match goal with
  | |- context [rd _ ?o ?n] => replace o with 0%nat by (cbn [length]; lia); apply rd_head; lia
  | |- context [rd8 _ ?o] => replace o with 0%nat by (cbn [length]; lia); apply rd8_head
  end.

Section Layout.
Context (h : FRAME_HEADER_T) (b : BPDU_BODY_T) (c : MSTP_CIST_T) (room : list Z).
Hypothesis Hs : frame_sized h b c.

Lemma rd_body_frame : rd_body (mstp_frame h b c room) = Done b.
Proof.
  destruct Hs as (H1 & H2 & (B1 & B2 & B3 & B4 & B5 & B6 & B7 & B8) & _).
  pose proof (length_header_bytes h H1 H2) as Hh.
  unfold rd_body, mstp_frame, body_bytes. rewrite <- !app_assoc.
  generalize ([0] ++ c.(cist_version_3_length) ++ c.(cist_MSTCID) ++ c.(cist_inter_path_cost) ++
    c.(cist_bridge) ++ [c.(cist_remaining_hops)] ++ room) as rest. intros rest.
  unfold off_flags, off_root_id, off_root_path_cost, off_bridge_id, off_port_id, off_message_age,
    off_max_age, off_hello_time, off_forward_delay.
  do 9 (eapply obind_to; [seek|cbv beta]). by destruct b.
Qed.

(** The members after the body. *)
Lemma rd_cist_frame :
  let mem := mstp_frame h b c room in
  rd8 mem off_ver_1_len = Done 0 ∧
  rd mem off_version_3_length 2 = Done c.(cist_version_3_length) ∧
  rd mem off_MSTCID 51 = Done c.(cist_MSTCID) ∧
  rd mem off_cist_inter_path_cost 4 = Done c.(cist_inter_path_cost) ∧
  rd mem off_cist_bridge_id 8 = Done c.(cist_bridge) ∧
  rd8 mem off_cist_remaining_hops = Done c.(cist_remaining_hops).
Proof.
  destruct Hs as (H1 & H2 & B & C1 & C2 & C3 & C4).
  pose proof (length_header_bytes h H1 H2) as Hh. pose proof (length_body_bytes b B) as Hb.
  unfold mstp_frame, off_ver_1_len, off_version_3_length, off_MSTCID, off_cist_inter_path_cost,
    off_cist_bridge_id, off_cist_remaining_hops. cbv zeta.
  split_and!; seek.
Qed.

(** The members of the header. *)
Lemma rd_header_frame :
  let mem := mstp_frame h b c room in
  rd mem off_len8023 2 = Done h.(len8023) ∧ rd8 mem off_dsap = Done BPDU_L_SAP ∧
  rd8 mem off_ssap = Done BPDU_L_SAP ∧ rd8 mem off_llc = Done LLC_UI ∧
  rd8 mem off_protocol = Done 0 ∧ rd8 mem (off_protocol + 1) = Done 0 ∧
  rd8 mem off_version = Done h.(hdr_version) ∧ rd8 mem off_bpdu_type = Done h.(hdr_bpdu_type).
Proof.
  destruct Hs as (H1 & H2 & _). unfold mstp_frame, header_bytes. rewrite <- !app_assoc.
  cbv zeta. split; [unfold off_len8023; seek|].
  split_and!; unfold off_dsap, off_ssap, off_llc, off_protocol, off_version, off_bpdu_type;
    do 3 rewrite rd8_skip by (cbn [length]; lia); cbn [length]; rewrite H1, H2; done.
Qed.

(** The messages start where [MCfgMsg] is. *)
Lemma skip_frame off : (119 ≤ off)%nat →
  (∀ n, rd (mstp_frame h b c room) off n = rd room (off - 119) n) ∧
  rd8 (mstp_frame h b c room) off = rd8 room (off - 119).
Proof.
  intros Ho. destruct Hs as (H1 & H2 & B & C1 & C2 & C3 & C4).
  pose proof (length_header_bytes h H1 H2) as Hh. pose proof (length_body_bytes b B) as Hb.
  unfold mstp_frame. split; [intros n; rewrite !rd_skip by (cbn [length]; lia)|
    rewrite !rd8_skip by (cbn [length]; lia)]; f_equal; cbn [length]; lia.
Qed.
End Layout.

(** ** The frame of a port *)

(** What the sender's data satisfies: sized arrays, numbers of their width. *)
Record sender_ok (st : STP_T) (port : PORT_T) (stpm : STPM_T) : Prop := {
  so_mac : (6 ≤ length st.(sysMac))%nat;
  so_cfgid : length (mst_cfg_id_bytes stpm.(STPM.MstConfigId)) = 51%nat;
  so_brid : wf_bridge_id stpm.(STPM.BrId);
  so_prio : u32_vector port.(portPrio);
  so_portid : 0 ≤ port.(port_id) < 65536;
  so_version : stpm.(STPM.ForceVersion) = 3;
  so_stp : port.(admin_non_stp) = false;
  so_plain : port.(configDigestSnp) = false }.

(** The frame, from the configuration messages of its MSTI ports. *)
Definition port_flags (port : PORT_T) : Z :=
  Z.lor (mstp_flags port) (Z.shiftl (mstp_role_code port.(role)) PORT_ROLE_OFFS).

Definition port_body (port : PORT_T) : BPDU_BODY_T :=
  (stp_transmit_build_config_bpdu_mstp port zero_body) <| flags := port_flags port |>.

Definition port_cist (stpm : STPM_T) (port : PORT_T) (n : nat) : MSTP_CIST_T :=
  {| cist_version_3_length := be_bytes 2 (u16 (64 + 16 * Z.of_nat n));
     cist_MSTCID := mst_cfg_id_bytes stpm.(STPM.MstConfigId);
     cist_region_root := [];
     cist_inter_path_cost := be_bytes 4 port.(portPrio).(region_root_path_cost);
     cist_bridge := stp_vector_set_bridge_id stpm.(STPM.BrId);
     cist_remaining_hops := port.(portTimes).(RemainingHops) |}.

Definition port_header (st : STP_T) (n : nat) : FRAME_HEADER_T :=
  mkHeader (take 6 st.(sysMac)) (be_bytes 2 (105 + 16 * Z.of_nat n)) BPDU_VERSION_MULTI_ID BPDU_RSTP.

Definition port_room (msgs : list MSTI_CFG_MSG_T) : list Z :=
  concat (msti_bytes <$> msgs) ++ repeat 0 (16 * (64 - length msgs)).

Definition port_frame (st : STP_T) (stpm : STPM_T) (port : PORT_T) (msgs : list MSTI_CFG_MSG_T)
    : list Z :=
  mstp_frame (port_header st (length msgs)) (port_body port) (port_cist stpm port (length msgs))
    (port_room msgs).

Definition port_frame_len (msgs : list MSTI_CFG_MSG_T) : Z := 119 + 16 * Z.of_nat (length msgs).

(** Its way out of the daemon. *)
Definition tx_event (port : PORT_T) (frame : list Z) (len : Z) : EVENT :=
  if port.(isWAN) then TX_WAN port.(slot_no) port.(port_no) None frame len
  else TX_BPDU port.(port_index) frame len.

(** [txMstp] sends this frame, then at most notifies topology changes. *)
Lemma txMstp_frame st p port stpm :
  wf st → st.(port_heap) !! p = Some port → st.(stpm_heap) !! port.(owner) = Some stpm →
  sender_ok st port stpm →
  ∃ msgs, chain_msgs stp_vector_set_mst_vector st port.(nextMst) = Done msgs ∧
    (length msgs = length port.(nextMst) ∧ length msgs ≤ 64)%nat ∧
    wp (stp_transmit_txMstp st p) (fun st' => ∃ ev, count_tx ev = 0%nat ∧
      st'.(trace) = ev ++
        tx_event port (port_frame st stpm port msgs) (port_frame_len msgs) :: st.(trace)).
Proof.
  intros Hwf Hp Hb [S1 S2 S3 S4 S5 S6 S7 S8].
  destruct (chain_msgs_total p st port Hwf Hp stp_vector_set_mst_vector) as (msgs & Em & El).
  pose proof (wf_chain_length st p port Hwf Hp) as Hl.
  exists msgs. split; [done|]. split; [by rewrite El|].
  unfold stp_transmit_txMstp. rewrite (get_port_Some _ _ _ Hp). cbn [obind].
  rewrite S7, (get_stpm_Some _ _ _ Hb). cbn [obind]. rewrite S6, S8.
  change (3 <=? 1) with false. change (3 <=? 3) with true. cbn match.
  rewrite Em. cbn [obind]. unfold msti_room. rewrite length_fmap, decide_True by lia.
  cbn [obind]. unfold mstp_pkt_len. change (3 <? 3) with false. cbn match.
  assert (E16 : u16 (SIZE_HDR + SIZE_BODY + 3 + u16 (64 + 16 * Z.of_nat (length msgs))) =
                102 + 16 * Z.of_nat (length msgs)).
  { unfold SIZE_HDR, SIZE_BODY. rewrite !u16_small by (rewrite ?u16_small; lia). lia. }
  rewrite E16. unfold stp_transmit_build_bpdu_header.
  change (BPDU_MSTP =? BPDU_RSTP) with false. change (BPDU_MSTP =? BPDU_MSTP) with true.
  cbn match. replace (102 + 16 * Z.of_nat (length msgs) + 3) with (105 + 16 * Z.of_nat (length msgs)) by lia.
  rewrite (u16_small (105 + _)) by lia.
  match goal with |- context [notify_tc _ _ ?s] => set (st1 := s) end.
  unfold SIZE_MAC_ETH in st1. subst st1.
  replace (102 + 16 * Z.of_nat (length msgs) + 17) with (port_frame_len msgs) by (unfold port_frame_len; lia).
  match goal with |- context [stp_to_tx_bpdu _ _ _ ?b ?z ?n ?w ?s ?k] =>
    destruct (tx_bpdu_traced True st port.(port_index) 1 b z n w s k) as (ev & e & -> & Ee & Hc & _) end.
  { unfold tx_fits, SIZE_MSTP_BPDU, port_frame_len. lia. }
  assert (E1 : e = tx_event port (port_frame st stpm port msgs) (port_frame_len msgs)).
  { rewrite Ee. unfold tx_event, port_frame. by destruct port.(isWAN). }
  rewrite E1. clear e Ee E1.
  set (st1 := traced _ st).
  assert (Et : st1.(trace) = ev ++ tx_event port (port_frame st stpm port msgs) (port_frame_len msgs) :: st.(trace)).
  { unfold st1, traced. simpl. by rewrite <- app_assoc. }
  unfold notify_tc. destruct (_ || _).
  - destruct (notify_tcn_spec stpm.(STPM.ports) st1) as (ev' & -> & Hev & _).
    { intros q Hq. destruct (wf_on_list _ _ _ _ Hwf Hb Hq) as (_ & x & Hx). by exists x. }
    apply wp_Done. exists (ev' ++ ev). split; [by rewrite count_tx_app, Hev, Hc|].
    change (trace (traced ev' st1)) with (ev' ++ trace st1). by rewrite Et, <- app_assoc.
  - apply wp_Done. by exists ev.
Qed.

Lemma port_frame_sized st port stpm n :
  sender_ok st port stpm → frame_sized (port_header st n) (port_body port) (port_cist stpm port n).
Proof.
  intros [S1 S2 S3 (V1 & _ & V3 & _ & V5 & _) S5 S6 S7 S8].
  unfold frame_sized, body_sized. split_and!; simpl;
    first [by apply length_set_bridge_id | by apply length_be_bytes | rewrite length_take; lia | done].
Qed.

Lemma rd16_of mem off x : rd mem off 2 = Done (be_bytes 2 x) → 0 ≤ x < 65536 → rd16 mem off = Done x.
Proof. intros E H. unfold rd16. rewrite E. simpl. by rewrite be_val_bytes2. Qed.

Lemma rd32_of mem off x : rd mem off 4 = Done (be_bytes 4 x) → 0 ≤ x < 2 ^ 32 → rd32 mem off = Done x.
Proof. intros E H. unfold rd32. rewrite E. simpl. by rewrite be_val_bytes4. Qed.

(** The header check of a neighbour accepts it as an MSTP frame. *)
Lemma port_frame_accepted st port stpm msgs pad rport :
  sender_ok st port stpm → (length msgs ≤ 64)%nat → rport.(configDigestSnp) = false →
  stp_in_check_bpdu_header rport (port_frame st stpm port msgs ++ pad) (port_frame_len msgs) =
    Done (0, Some BPDU_MSTP).
Proof.
  intros Hs Hl Hc. pose proof (port_frame_sized st port stpm (length msgs) Hs) as Hf.
  destruct (rd_header_frame _ _ _ (port_room msgs) Hf) as (R1 & R2 & R3 & R4 & R5 & R6 & R7 & R8).
  destruct (rd_cist_frame _ _ _ (port_room msgs) Hf) as (C1 & C2 & _).
  unfold stp_in_check_bpdu_header, port_frame, port_frame_len. set (n := Z.of_nat (length msgs)).
  assert (Hn : 0 ≤ n ≤ 64) by lia. rewrite Hc. cbn [v3_off].
  rewrite (rd16_of _ off_len8023 (105 + 16 * n)) by (solve [by apply rd_prefix|lia]).
  rewrite (rd16_of _ off_version_3_length (u16 (64 + 16 * n)))
    by (solve [by apply rd_prefix|apply u16_range]).
  rewrite (rd8_prefix _ pad _ _ R2), (rd8_prefix _ pad _ _ R3), (rd8_prefix _ pad _ _ R4),
    (rd8_prefix _ pad _ _ R5), (rd8_prefix _ pad _ _ R6), (rd8_prefix _ pad _ _ R7),
    (rd8_prefix _ pad _ _ R8), (rd8_prefix _ pad _ _ C1).
  cbn [obind]. rewrite u16_small by lia. replace (64 + 16 * n - 64) with (n * 16) by lia.
  rewrite Z.quot_mul by lia. unfold MIN_BPDU.
  repeat match goal with
  | |- context [?a <? ?b] => first
      [rewrite (proj2 (Z.ltb_ge a b)) by lia | rewrite (proj2 (Z.ltb_lt a b)) by lia]
  | |- context [?a <=? ?b] => first
      [rewrite (proj2 (Z.leb_le a b)) by lia | rewrite (proj2 (Z.leb_gt a b)) by lia]
  end; done.
Qed.

(** ** Decoding the CIST part *)

Lemma rd_body_prefix mem pad b : rd_body mem = Done b → rd_body (mem ++ pad) = Done b.
Proof.
  unfold rd_body. intros H. done_inv. subst.
  repeat match goal with
  | E : rd8 mem ?o = Done _ |- _ => rewrite (rd8_prefix _ pad _ _ E); clear E; cbn [obind]
  | E : rd mem ?o _ = Done _ |- _ => rewrite (rd_prefix _ pad _ _ _ E); clear E; cbn [obind]
  end. done.
Qed.

(** The vector and times a neighbour reads in the frame of [port]: those of the
    port, with the identifiers of the sending bridge and port. *)
Definition decoded_prio (stpm : STPM_T) (port rport : PORT_T) : PRIO_VECTOR_T :=
  mkVector port.(portPrio).(root_bridge) port.(portPrio).(root_path_cost)
    port.(portPrio).(region_root_bridge)
    (if rport.(rcvdInternal) then port.(portPrio).(region_root_path_cost) else 0)
    stpm.(STPM.BrId) port.(port_id) rport.(port_id).

Definition decoded_times (t : TIMEVALUES_T) : TIMEVALUES_T :=
  mkTimes (t.(MessageAge) mod 256) (t.(MaxAge) mod 256) (t.(ForwardDelay) mod 256)
    (t.(HelloTime) mod 256) t.(RemainingHops).

Lemma port_frame_decoded st port stpm msgs pad rst p rport :
  sender_ok st port stpm → (length msgs ≤ 64)%nat →
  rst.(port_heap) !! p = Some rport → rport.(configDigestSnp) = false →
  let mem := port_frame st stpm port msgs ++ pad in
  rst.(g_curBPDU) = Some (mkBpduRecord mem BPDU_MSTP false) →
  stp_receive_setRcvdMsgs rst p =
    receive_mstis mem false p (put_port rst p (rport <| rcvdMsg := true |>
      <| msgPrio := decoded_prio stpm port rport |>
      <| msgTimes := decoded_times port.(portTimes) |>)).
Proof.
  intros Hs Hl Hp Hc mem Hcur. pose proof (port_frame_sized st port stpm (length msgs) Hs) as Hf.
  destruct (rd_cist_frame _ _ _ (port_room msgs) Hf) as (_ & _ & _ & C4 & C5 & C6).
  pose proof (rd_body_frame _ _ _ (port_room msgs) Hf) as Rb.
  destruct Hs as [_ _ S3 (V1 & V2 & V3 & V4 & V5 & V6 & V7) S5 _ _ _].
  unfold stp_receive_setRcvdMsgs, stp_in_get_cur_bpdu. rewrite Hcur. cbn [rec_bytes rec_type].
  rewrite (get_port_Some _ _ _ Hp). cbn [obind].
  change ((rport <| rcvdMsg := true |>).(configDigestSnp)) with rport.(configDigestSnp).
  change ((rport <| rcvdMsg := true |>).(rcvdInternal)) with rport.(rcvdInternal).
  rewrite Hc. change (BPDU_MSTP =? BPDU_MSTP) with true. cbn match.
  eapply obind_to; [by apply rd_body_prefix|]. cbv beta.
  eapply obind_to; [by apply rd_prefix|]. cbv beta.
  eapply (obind_to _ _ (if rport.(rcvdInternal) then port.(portPrio).(region_root_path_cost) else 0)).
  { destruct rport.(rcvdInternal); [|done]. by apply rd32_of; [apply rd_prefix|]. }
  eapply obind_to; [by apply rd8_prefix|]. cbv beta.
  do 3 f_equal; unfold port_body, stp_transmit_build_config_bpdu_mstp, mstp_body.
  - unfold decoded_times, stp_times_get, stp_times_set. simpl. by rewrite !get_set_time.
  - unfold decoded_prio. simpl.
    rewrite !get_set_bridge_id, be_val_bytes4, be_val_bytes2 by done. done.
Qed.

(** ** Decoding an MSTI message *)

(** Window [k] of record [i] in an array of records of [w] bytes. *)
Lemma concat_drop {A} (w : nat) (l : list (list A)) i :
  Forall (fun x => length x = w) l → drop (w * i) (concat l) = concat (drop i l).
Proof.
  revert l. induction i as [|i IH]; intros l H.
  { rewrite Nat.mul_0_r. done. }
  destruct H as [|x l Hx Hl]; [by destruct (w * S i)%nat|]. simpl.
  rewrite drop_app_ge by nia. rewrite <- (IH l Hl). f_equal. nia.
Qed.

Lemma length_concat_same {A} (w : nat) (l : list (list A)) :
  Forall (fun x => length x = w) l → length (concat l) = (w * length l)%nat.
Proof. induction 1 as [|x l Hx Hl IH]; simpl; [lia|]. rewrite length_app, IH. nia. Qed.

Lemma rd_record w l z i x k n :
  Forall (fun x => length x = w) l → l !! i = Some x → (k + n ≤ w)%nat →
  rd (concat l ++ z) (w * i + k) n = rd x k n.
Proof.
  intros Hl Hi Hk.
  assert (Hx : length x = w) by (by eapply (proj1 (Forall_lookup _ _) Hl)).
  assert (Hlt : (w * i + w ≤ length (concat l))%nat).
  { rewrite (length_concat_same w l Hl). apply lookup_lt_Some in Hi. nia. }
  unfold rd. rewrite length_app. rewrite !decide_True by lia. f_equal.
  rewrite drop_app_le by lia. rewrite <- drop_drop, (concat_drop w l i Hl).
  rewrite (drop_S l x i Hi). simpl. rewrite drop_app_le by lia. rewrite <- app_assoc.
  by rewrite take_app_le by (rewrite length_drop; lia).
Qed.

Lemma rd8_record w l z i x k :
  Forall (fun x => length x = w) l → l !! i = Some x → (k < w)%nat →
  rd8 (concat l ++ z) (w * i + k) = rd8 x k.
Proof.
  intros Hl Hi Hk.
  assert (Hx : length x = w) by (by eapply (proj1 (Forall_lookup _ _) Hl)).
  assert (Hlt : (w * i + w ≤ length (concat l))%nat).
  { rewrite (length_concat_same w l Hl). apply lookup_lt_Some in Hi. nia. }
  unfold rd8. f_equal. rewrite lookup_app_l by lia.
  rewrite <- lookup_drop, (concat_drop w l i Hl), (drop_S l x i Hi). simpl.
  by rewrite lookup_app_l by lia.
Qed.

(** Nibbles of a 16-bit number. *)
Lemma nibble_roundtrip x :
  Z.land 0xf000 (Z.shiftl (Z.land (Z.shiftr (Z.land x 0xf000) 8) 0xf0) 8) = Z.land x 0xf000.
Proof.
  change 0xf000 with (Z.shiftl 240 8). apply Z.bits_inj'. intros n Hn.
  rewrite !Z.land_spec, !Z.shiftl_spec by lia. destruct (Z.ltb_spec n 8) as [H|H].
  - rewrite !(Z.testbit_neg_r _ (n - 8)) by lia. symmetry. apply andb_false_r.
  - rewrite !Z.land_spec, Z.shiftr_spec, !Z.land_spec, Z.shiftl_spec by lia.
    replace (n - 8 + 8) with n by lia.
    by destruct (Z.testbit x n), (Z.testbit 240 (n - 8)).
Qed.

Lemma split_nibble x : 0 ≤ x < 65536 → Z.land x 0xf000 + Z.land x 0xfff = x.
Proof.
  intros H. rewrite <- Z.add_lor_land, <- Z.land_lor_distr_r.
  replace (Z.land (Z.land x 0xf000) (Z.land x 0xfff)) with 0.
  2:{ rewrite <- Z.land_assoc, (Z.land_comm 0xf000), <- Z.land_assoc. simpl (Z.land 4095 _).
      by rewrite !Z.land_0_r. }
  rewrite Z.add_0_r. change (Z.lor 0xf000 0xfff) with (Z.ones 16).
  rewrite Z.land_ones by lia. by apply Z.mod_small.
Qed.

(** What the sender's MSTI port satisfies beside the CIST port of the frame:
    the instance's number [mstid] is the system extension of its bridge
    identifiers, and both ports are of the same bridge and have the same
    number. *)
Record msti_sender_ok (stpm : STPM_T) (port : PORT_T) (mstid : Z) (mstpm : STPM_T) (mport : PORT_T)
    : Prop := {
  mo_id : Z.land mport.(portPrio).(region_root_bridge).(prio) 0xfff = mstid;
  mo_brid : Z.land mstpm.(STPM.BrId).(prio) 0xfff = mstid;
  mo_prio : 0 ≤ mstpm.(STPM.BrId).(prio) < 65536;
  mo_addr : mstpm.(STPM.BrId).(addr) = stpm.(STPM.BrId).(addr);
  mo_number : Z.land port.(port_id) 0xfff = Z.land mport.(port_id) 0xfff;
  mo_portid : 0 ≤ mport.(port_id) < 65536;
  mo_root : wf_bridge_id mport.(portPrio).(region_root_bridge);
  mo_cost : 0 ≤ mport.(portPrio).(region_root_path_cost) < 2 ^ 32 }.

Definition decoded_msti_prio (mstpm : STPM_T) (mport rmport : PORT_T) : PRIO_VECTOR_T :=
  mkVector rmport.(msgPrio).(root_bridge) rmport.(msgPrio).(root_path_cost)
    mport.(portPrio).(region_root_bridge) mport.(portPrio).(region_root_path_cost)
    mstpm.(STPM.BrId) mport.(port_id) rmport.(port_id).

Section Msti.
Context (st : STP_T) (stpm : STPM_T) (port : PORT_T) (msgs : list MSTI_CFG_MSG_T)
  (pad : list Z) (i : nat) (mstid : Z) (mstpm : STPM_T) (mport : PORT_T).
Hypotheses (Hs : sender_ok st port stpm) (Hm : msti_sender_ok stpm port mstid mstpm mport)
  (Hw : Forall (fun m => length (msti_bytes m) = 16%nat) msgs)
  (Hi : msgs !! i = Some (stp_vector_set_mst_vector mstpm mport)).
Let mem := port_frame st stpm port msgs ++ pad.

(** A read inside message [i]. *)
Lemma rd_msti k n l : (k + n ≤ 16)%nat →
  rd (msti_bytes (stp_vector_set_mst_vector mstpm mport)) k n = Done l →
  rd mem (off_MCfgMsg i + k) n = Done l.
Proof.
  intros Hk E. apply rd_prefix. unfold port_frame.
  rewrite (proj1 (skip_frame _ _ _ _ (port_frame_sized st port stpm (length msgs) Hs)
    (off_MCfgMsg i + k) ltac:(unfold off_MCfgMsg; lia)) n).
  replace (off_MCfgMsg i + k - 119)%nat with (16 * i + k)%nat by (unfold off_MCfgMsg; lia).
  unfold port_room. erewrite (rd_record 16); [exact E| |by rewrite list_lookup_fmap, Hi|lia].
  by apply Forall_fmap.
Qed.

Lemma rd8_msti k x : (k < 16)%nat →
  rd8 (msti_bytes (stp_vector_set_mst_vector mstpm mport)) k = Done x →
  rd8 mem (off_MCfgMsg i + k) = Done x.
Proof.
  intros Hk E. apply rd8_prefix. unfold port_frame.
  rewrite (proj2 (skip_frame _ _ _ _ (port_frame_sized st port stpm (length msgs) Hs)
    (off_MCfgMsg i + k) ltac:(unfold off_MCfgMsg; lia))).
  replace (off_MCfgMsg i + k - 119)%nat with (16 * i + k)%nat by (unfold off_MCfgMsg; lia).
  unfold port_room. erewrite (rd8_record 16); [exact E| |by rewrite list_lookup_fmap, Hi|lia].
  by apply Forall_fmap.
Qed.

(** The members of the message. *)
Lemma msti_fields :
  rd8 mem (off_MCfgMsg i) = Done (msti_port_flags mport) ∧
  rd16 mem (off_MCfgMsg i + 1) = Done mport.(portPrio).(region_root_bridge).(prio) ∧
  rd mem (off_MCfgMsg i + 1) 8 =
    Done (stp_vector_set_bridge_id mport.(portPrio).(region_root_bridge)) ∧
  rd32 mem (off_MCfgMsg i + 9) = Done mport.(portPrio).(region_root_path_cost) ∧
  rd8 mem (off_MCfgMsg i + 13) = Done (Z.shiftr (Z.land mstpm.(STPM.BrId).(prio) 0xf000) 8) ∧
  rd8 mem (off_MCfgMsg i + 14) = Done (Z.shiftr (Z.land mport.(port_id) 0xf000) 8) ∧
  rd8 mem (off_MCfgMsg i + 15) = Done mport.(portTimes).(RemainingHops).
Proof.
  destruct Hm as [_ _ _ _ _ _ M7 M8].
  pose proof (length_set_bridge_id _ M7) as L8.
  pose proof (length_be_bytes 4 mport.(portPrio).(region_root_path_cost)) as L4.
  assert (B : msti_bytes (stp_vector_set_mst_vector mstpm mport) =
    [msti_port_flags mport] ++ stp_vector_set_bridge_id mport.(portPrio).(region_root_bridge) ++
    be_bytes 4 mport.(portPrio).(region_root_path_cost) ++
    [Z.shiftr (Z.land mstpm.(STPM.BrId).(prio) 0xf000) 8] ++
    [Z.shiftr (Z.land mport.(port_id) 0xf000) 8] ++ [mport.(portTimes).(RemainingHops)]) by done.
  split_and!.
  - rewrite <- (Nat.add_0_r (off_MCfgMsg i)). apply rd8_msti; [lia|]. rewrite B. done.
  - apply rd16_of; [apply rd_msti; [lia|]|apply M7]. rewrite B. unfold stp_vector_set_bridge_id.
    rewrite <- !app_assoc. rewrite rd_skip by done. by apply rd_head.
  - apply rd_msti; [lia|]. rewrite B. seek.
  - apply rd32_of; [apply rd_msti; [lia|]|done]. rewrite B. seek.
  - apply rd8_msti; [lia|]. rewrite B. seek.
  - apply rd8_msti; [lia|]. rewrite B. seek.
  - apply rd8_msti; [lia|]. rewrite B.
    do 5 rewrite rd8_skip by (cbn [length]; lia). cbn [length]. rewrite L8, L4. done.
Qed.

Lemma frame_port_id : rd16 mem off_port_id = Done port.(port_id).
Proof.
  pose proof (rd_body_frame _ _ _ (port_room msgs)
    (port_frame_sized st port stpm (length msgs) Hs)) as E.
  unfold rd_body in E. done_inv. subst.
  apply rd16_of; [apply rd_prefix|apply Hs].
  done.
Qed.

(** The vector read is the one the sender's MSTI port holds. *)
Lemma get_mst_vector_frame v :
  stp_vector_get_mst_vector mem i false v =
    Done (v <| region_root_bridge := mport.(portPrio).(region_root_bridge) |>
            <| region_root_path_cost := mport.(portPrio).(region_root_path_cost) |>
            <| design_bridge := mstpm.(STPM.BrId)
                 <| prio := Z.land mstpm.(STPM.BrId).(prio) 0xf000 |> |>
            <| design_port := mport.(port_id) |>).
Proof.
  destruct msti_fields as (_ & _ & F3 & F4 & F5 & F6 & _).
  destruct (rd_cist_frame _ _ _ (port_room msgs)
    (port_frame_sized st port stpm (length msgs) Hs)) as (_ & _ & _ & _ & C5 & _).
  destruct Hm as [M1 M2 M3 M4 M5 M6 M7 M8].
  unfold stp_vector_get_mst_vector. rewrite F3, F4. cbn [obind].
  eapply obind_to; [by apply rd_prefix|]. cbv beta. rewrite F5, frame_port_id, F6. cbn [obind].
  rewrite !nibble_roundtrip, M5, (Z.add_comm (Z.land mport.(port_id) _)), split_nibble by done.
  rewrite get_set_bridge_id by done. unfold port_cist. cbn [cist_bridge].
  rewrite get_set_bridge_id by apply Hs. do 2 f_equal.
  destruct mstpm.(STPM.BrId), stpm.(STPM.BrId). simpl in M4 |- *. by subst.
Qed.

Lemma receive_msti_frame rst p rport q rmport :
  rst.(port_heap) !! p = Some rport → rst.(port_heap) !! q = Some rmport →
  stp_port_mst_findport rst mstid rport.(port_index) = Done (Some q) →
  receive_msti mem false p i rst =
    Done (put_port rst q (rmport <| rcvdMsg := true |> <| msgBpduType := rport.(msgBpduType) |>
      <| msgPrio := decoded_msti_prio mstpm mport rmport |>
      <| msgFlags := msti_port_flags mport |>
      <| msgTimes := mkTimes 0 0 0 0 mport.(portTimes).(RemainingHops) |>)).
Proof.
  intros Hp Hq Hf. destruct msti_fields as (F1 & F2 & _ & _ & _ & _ & F7).
  destruct Hm as [M1 M2 M3 M4 M5 M6 M7 M8].
  unfold receive_msti. rewrite (get_port_Some _ _ _ Hp). cbn [obind].
  rewrite F2. cbn [obind]. rewrite M1, Hf. cbn [obind].
  rewrite (get_port_Some _ _ _ Hq). cbn [obind].
  rewrite get_mst_vector_frame. cbn [obind]. rewrite F1. cbn [obind].
  unfold stp_vector_get_mst_timers. rewrite F7. cbn [obind]. do 4 f_equal.
  unfold decoded_msti_prio. simpl. f_equal.
  assert (E : Z.land 0xfff mstid = mstid).
  { rewrite <- M2 at 2. rewrite <- M2. by rewrite Z.land_comm, <- Z.land_assoc, Z.land_diag. }
  rewrite E, <- M2, split_nibble, u16_small by lia. by destruct mstpm.(STPM.BrId).
Qed.
End Msti.

(** ** Properties *)

(** C15: [stp_transmit_txMstp] on a plain MSTP port sends exactly one frame, whose
    length is that of the structure cut after its last MSTI message, and the
    header check of any neighbour that is not in Cisco mode accepts the received
    bytes, whatever follows them in its buffer, as an MSTP BPDU. *)
Theorem mstp_frame_is_accepted st p port stpm :
  wf st → st.(port_heap) !! p = Some port → st.(stpm_heap) !! port.(owner) = Some stpm →
  sender_ok st port stpm → port.(isWAN) = false →
  ∃ msgs, chain_msgs stp_vector_set_mst_vector st port.(nextMst) = Done msgs ∧
    wp (stp_transmit_txMstp st p) (fun st' => ∃ ev, count_tx ev = 0%nat ∧
      st'.(trace) = ev ++
        TX_BPDU port.(port_index) (port_frame st stpm port msgs) (port_frame_len msgs) ::
        st.(trace)) ∧
    ∀ rport pad, rport.(configDigestSnp) = false →
      stp_in_check_bpdu_header rport (port_frame st stpm port msgs ++ pad) (port_frame_len msgs) =
        Done (0, Some BPDU_MSTP).
Proof.
  intros Hwf Hp Hb Hs Hw. destruct (txMstp_frame st p port stpm Hwf Hp Hb Hs) as (msgs & Em & [_ El] & Ht).
  unfold tx_event in Ht. rewrite Hw in Ht. exists msgs. split_and!; [done..|]. intros rport pad Hc. by apply port_frame_accepted.
Qed.

(** C18: decoding the frame of a neighbour's port, [stp_receive_setRcvdMsgs] gives
    the receiving CIST port the priority vector and the times of the sending
    port: its root and regional root with their costs (the internal cost inside
    a region only), the identifiers of the sending bridge and port, the timers
    modulo 256 and the hop count; then it goes on with the MSTI messages. *)
Theorem mstp_cist_message_decoded st port stpm msgs pad rst p rport :
  sender_ok st port stpm → (length msgs ≤ 64)%nat →
  rst.(port_heap) !! p = Some rport → rport.(configDigestSnp) = false →
  let mem := port_frame st stpm port msgs ++ pad in
  rst.(g_curBPDU) = Some (mkBpduRecord mem BPDU_MSTP false) →
  stp_receive_setRcvdMsgs rst p =
    receive_mstis mem false p (put_port rst p (rport <| rcvdMsg := true |>
      <| msgPrio := decoded_prio stpm port rport |>
      <| msgTimes := decoded_times port.(portTimes) |>)).
Proof. exact (port_frame_decoded st port stpm msgs pad rst p rport). Qed.

(** C19: decoding the [i]-th MSTI message of the frame stores, in the receiving
    port of the same instance, the vector of the sender's MSTI port, although
    the message carries only four bits of its bridge and port priorities: the
    rest is recovered from the CIST part of the frame.  No other port changes. *)
Theorem mstp_msti_message_decoded st stpm port msgs pad i mstid mstpm mport rst p rport q rmport :
  sender_ok st port stpm → msti_sender_ok stpm port mstid mstpm mport →
  Forall (fun m => length (msti_bytes m) = 16%nat) msgs →
  msgs !! i = Some (stp_vector_set_mst_vector mstpm mport) →
  rst.(port_heap) !! p = Some rport → rst.(port_heap) !! q = Some rmport →
  stp_port_mst_findport rst mstid rport.(port_index) = Done (Some q) →
  receive_msti (port_frame st stpm port msgs ++ pad) false p i rst =
    Done (put_port rst q (rmport <| rcvdMsg := true |> <| msgBpduType := rport.(msgBpduType) |>
      <| msgPrio := decoded_msti_prio mstpm mport rmport |>
      <| msgFlags := msti_port_flags mport |>
      <| msgTimes := mkTimes 0 0 0 0 mport.(portTimes).(RemainingHops) |>)).
Proof.
  intros Hs Hm Hw Hi. exact (receive_msti_frame st stpm port msgs pad i mstid mstpm mport Hs Hm Hw Hi
    rst p rport q rmport).
Qed.

(** The witnesses send from port 1 of the example bridge to port 2 of another
    bridge like it. *)
Definition ex_msgs : list MSTI_CFG_MSG_T :=
  value [] (chain_msgs stp_vector_set_mst_vector ex_st [(1, 1)]).

Definition ex_rst : STP_T :=
  stp_in_set_cur_bpdu (Some (mkBpduRecord
    (port_frame ex_st (ex_stpm 0) (ex_port (0, 1)) ex_msgs ++ repeat 0 40) BPDU_MSTP false)) ex_st.

Lemma ex_sender : sender_ok ex_st (ex_port (0, 1)) (ex_stpm 0).
Proof. split; by_decision. Qed.

Lemma ex_msti_sender :
  msti_sender_ok (ex_stpm 0) (ex_port (0, 1)) 1 (ex_stpm 1) (ex_port (1, 1)).
Proof. split; by_decision. Qed.

Lemma mstp_frame_is_accepted_witness :
  ∃ msgs, length msgs = 1%nat ∧
    stp_in_check_bpdu_header (ex_port (0, 2))
      (port_frame ex_st (ex_stpm 0) (ex_port (0, 1)) msgs) (port_frame_len msgs) =
        Done (0, Some BPDU_MSTP).
Proof.
  assert (W : wf ex_st) by decide_wf.
  destruct (mstp_frame_is_accepted ex_st (0, 1) (ex_port (0, 1)) (ex_stpm 0) W
    ltac:(by_compute) ltac:(by_compute) ex_sender ltac:(by_compute)) as (msgs & E & _ & H).
  exists msgs. split.
  - pose proof (eq_refl : chain_msgs stp_vector_set_mst_vector ex_st (ex_port (0, 1)).(nextMst)
      = Done ex_msgs) as E'.
    rewrite E' in E. injection E as <-. reflexivity.
  - specialize (H (ex_port (0, 2)) [] ltac:(by_compute)). rewrite app_nil_r in H. exact H.
Defined.

Lemma mstp_cist_message_decoded_witness :
  stp_receive_setRcvdMsgs ex_rst (0, 2) = Done (put_port ex_rst (0, 2)
    ((ex_port (0, 2)) <| rcvdMsg := true |>
      <| msgPrio := decoded_prio (ex_stpm 0) (ex_port (0, 1)) (ex_port (0, 2)) |>
      <| msgTimes := mkTimes 0 20 15 2 20 |>)).
Proof.
  etransitivity.
  - exact (mstp_cist_message_decoded ex_st (ex_port (0, 1)) (ex_stpm 0) ex_msgs (repeat 0 40)
      ex_rst (0, 2) (ex_port (0, 2)) ex_sender ltac:(by_decision) ltac:(by_compute)
      ltac:(by_compute) ltac:(by_compute)).
  - by_compute.
Defined.

Lemma mstp_msti_message_decoded_witness :
  ∃ st', receive_msti (port_frame ex_st (ex_stpm 0) (ex_port (0, 1)) ex_msgs ++ []) false
    (0, 1) 0 ex_rst = Done st' ∧
  (fun x => x.(msgPrio).(design_bridge)) <$> st'.(port_heap) !! (1, 1) =
    Some (ex_stpm 1).(STPM.BrId).
Proof.
  eexists. split.
  - refine (mstp_msti_message_decoded ex_st (ex_stpm 0) (ex_port (0, 1)) ex_msgs [] 0 1
      (ex_stpm 1) (ex_port (1, 1)) ex_rst (0, 1) (ex_port (0, 1)) (1, 1) (ex_port (1, 1))
      ex_sender ex_msti_sender _ _ _ _ _); first [by_decision | by_compute].
  - by_compute.
Defined.
