(* ===== verification/StpMachineProps.v ===== *)
(** * Properties of the state machines

    Role transitions first, then the other machines of a port and the transmit
    machine.

    The machine of [stp_roletrns.c] refines the step relation [rt_step]; it
    terminates unless the root's [ForwardDelay] is zero; and a port it blocks
    neither learns nor forwards. *)

From Stdlib Require Import ZArith Lia.
From stdpp Require Import base gmap list option.
From S2P Require Import Prelude StpTypes StpTo StpHeap StpStatmch StpMachines StpPort StpRoletrns StpTopoch StpPortinfo StpRolesel StpTransmit StpFrame StpReceive StpStpm StpExample.

Import RoletrnsState.

(** ** One turn *)

Lemma rt_own_mach FD HT2 s port : (rt_own FD HT2 s port).(roletrns) = port.(roletrns).
Proof. destruct s; try done. cbn [rt_own]. by destruct (_ <>e _). Qed.

(** What the turn of a port in state [s] makes of it: the effect of [s], then
    [s'], pending when [c]. *)
Definition rt_next (FD HT : Z) (p : PORT_REF) (port : PORT_T) (st' : STP_T) : Prop :=
  let s := port.(roletrns).(State) in
  let port1 := rt_own FD (2 * HT) s port in
  ∃ x y s' (c : bool),
    st'.(port_heap) !! p =
      Some (newinfo x y port1 <| roletrns := mkMach s' c |>) ∧
    if c then rt_step FD (2 * HT) port1 s s' else s' = s.

Lemma rt_body FD HT p st port :
  rt_ready FD HT p st → st.(port_heap) !! p = Some port →
  wp (change_state_body (roletrns_machine p) st)
    (fun st' => rt_ready FD HT p st' ∧ rt_next FD HT p port st').
Proof.
  intros R H. unfold roletrns_machine.
  destruct (wp_elim _ _ (rt_enter_spec FD HT p st port R H)) as (st1 & He & R1 & x & y & H1).
  set (s := port.(roletrns).(State)) in *. set (port1 := rt_own FD (2 * HT) s port) in *.
  set (port2 := newinfo x y port1) in *.
  assert (E1 : mach_get roletrns_field port2 = Some port.(roletrns))
    by (exact (f_equal Some (rt_own_mach FD (2 * HT) s port))).
  set (st2 := idle_after roletrns_field st1 p port2 s).
  assert (H2 : st2.(port_heap) !! p = Some (mach_put roletrns_field (mkMach s false) port2))
    by apply idle_after_lookup.
  assert (R2 : rt_ready FD HT p st2) by (by eapply rt_put).
  destruct (rt_check_spec FD HT p st2 _ R2 H2) as [Ec|(s' & Ec & Hs)].
  - rewrite (body_stay roletrns_field _ _ p st st1 port2 _ He H1 E1 _ Ec).
    apply wp_Done. split; [done|]. by exists x, y, s, false.
  - rewrite (body_hop roletrns_field _ _ p st st1 port2 _ He H1 E1 s' Ec).
    apply wp_Done. split; [by eapply rt_put|].
    exists x, y, s', true. split; [apply put_port_lookup|]. by apply rt_step_fields in Hs.
Qed.

(** ** Blocking *)

(** A port that forwards also learns, and a blocked port does neither: the
    states [BLOCKED_PORT] and [BACKUP_PORT], and [BLOCK_PORT] once entered. *)
Definition blocked (m : STATE_MACH_T STATES) : bool :=
  match m.(State) with
  | BLOCKED_PORT | BACKUP_PORT => true
  | BLOCK_PORT => negb m.(changeState)
  | _ => false
  end.

Definition blocking_inv (port : PORT_T) : Prop :=
  (port.(forward) = true → port.(learn) = true) ∧
  (blocked port.(roletrns) = true → port.(learn) = false ∧ port.(forward) = false).

Lemma step_to_blocked FD HT2 port s s' :
  rt_step FD HT2 port s s' → blocked (mkMach s' true) = true →
  s = BLOCK_PORT ∨ s = BLOCKED_PORT ∨ s = BACKUP_PORT.
Proof.
  destruct 1; simpl; auto; intros Hb; try discriminate.
  by destruct (selectedRole port).
Qed.

(** A port about to be entered in [FORWARD] learns. *)
Definition rt_inv (port : PORT_T) : Prop :=
  blocking_inv port ∧ (port.(roletrns).(State) = FORWARD → port.(learn) = true).

Lemma rt_own_inv FD HT2 port :
  rt_inv port → port.(roletrns).(changeState) = true →
  let s := port.(roletrns).(State) in let port1 := rt_own FD HT2 s port in
  (port1.(forward) = true → port1.(learn) = true) ∧
  (s = BLOCK_PORT ∨ s = BLOCKED_PORT ∨ s = BACKUP_PORT →
   port1.(learn) = false ∧ port1.(forward) = false).
Proof.
  intros [[I1 I2] I3] Hc. unfold blocked in I2. rewrite Hc in I2. simpl.
  destruct port.(roletrns).(State); cbn [rt_own]; try (destruct (_ <>e _)); simpl;
    split; intros; try (by destruct_or?); naive_solver.
Qed.

Lemma rt_next_inv FD HT p port st' :
  rt_inv port → port.(roletrns).(changeState) = true → rt_next FD HT p port st' →
  ∃ port', st'.(port_heap) !! p = Some port' ∧ rt_inv port'.
Proof.
  intros I Hc (x & y & s' & c & H' & Hs). eexists. split; [exact H'|].
  destruct (rt_own_inv FD (2 * HT) port I Hc) as [J1 J2].
  set (port1 := rt_own _ _ _ port) in *. change (((forward port1 = true → learn port1 = true) ∧
    (blocked (mkMach s' c) = true → learn port1 = false ∧ forward port1 = false)) ∧
    (s' = FORWARD → learn port1 = true)).
  destruct c.
  - split; [split; [done|]|].
    + intros Hb. apply J2. by eapply step_to_blocked.
    + intros ->. inversion Hs; subst; try done. by destruct (selectedRole port1).
  - subst s'. split; [split; [done|]|].
    + intros Hb. apply J2. revert Hb. unfold blocked. simpl.
      destruct port.(roletrns).(State); naive_solver.
    + intros E. unfold port1. rewrite E. cbn [rt_own]. destruct I as [_ I3]. by apply I3 in E.
Qed.

(** ** The loop without forward delay *)

(** A root port that neither learns nor forwards yet, when the root's
    [ForwardDelay] is zero, so that [rrWhile] always equals it. *)
Record rerooting (port : PORT_T) : Prop := {
  re_state : port.(roletrns).(State) = REROOT ∨ port.(roletrns).(State) = REROOTED ∨
             port.(roletrns).(State) = ACTIVE_PORT;
  re_idle : idle port = false;
  re_role : port.(role) = RootPort ∧ port.(selectedRole) = RootPort;
  re_sync : port.(synced) = true ∧ port.(sync) = false;
  re_agree : port.(agree) = true ∧ port.(proposed) = false;
  re_learn : port.(learn) = false ∧ port.(forward) = false;
  re_timer : port.(rrWhile) = 0 }.

Lemma rerooting_own HT2 port :
  rerooting port → rerooting (rt_own 0 HT2 port.(roletrns).(State) port).
Proof.
  intros [H1 H2 [H3 H3'] H4 H5 H6 H7]. destruct H1 as [E|[E|E]]; rewrite E; split; simpl; auto.
Qed.

(** Such a port always hops: between [REROOT] and [REROOTED]. *)
Lemma rerooting_check HT p st port :
  rt_ready 0 HT p st → st.(port_heap) !! p = Some port → rerooting port →
  ∃ s, MSTP_roletrns_check_conditions st p = hop roletrns_field st p s ∧
    (s = REROOT ∨ s = REROOTED ∨ s = ACTIVE_PORT).
Proof.
  intros [[W _] T] H [H1 H2 [H3 H3'] [H4 H4'] [H5 H5'] [H6 H6'] H7].
  destruct (the_cist st 0 HT T) as (stpm & Es & Ef & _).
  unfold MSTP_roletrns_check_conditions.
  rewrite (mach_of_Done roletrns_field st p port port.(roletrns) H eq_refl). cbn [obind].
  rewrite Es. cbn [obind]. unfold idle in H2. apply orb_false_iff in H2 as [H2 H2'].
  apply negb_false_iff in H2. rewrite H3, H3', bool_decide_true by done.
  destruct H1 as [E|[E|E]]; rewrite E; simpl; [exists ACTIVE_PORT; auto..|].
  unfold active_port_conditions. rewrite Ef, H2, H2', H3, H4, H4', H5, H5', H6, H6', H7.
  cbn [negb]. rewrite !andb_false_r. cbn [orb andb].
  destruct (all_synced_total st p port W H) as [a ->]. cbn [obind]. rewrite !andb_false_r.
  destruct (may_progress_total st p port a W H) as (ok & -> & _). cbn [obind andb].
  change (0 =? 0) with true. change (RootPort =e RootPort) with true. cbn [negb andb].
  destruct port.(reRoot); cbn [negb andb orb]; [exists REROOTED|exists REROOT]; auto.
Qed.

Lemma rerooting_turn HT p st :
  rt_ready 0 HT p st →
  (∃ port, st.(port_heap) !! p = Some port ∧ rerooting port ∧
     port.(roletrns).(changeState) = true) →
  wp (change_state_body (roletrns_machine p) st) (fun st' => rt_ready 0 HT p st' ∧
    ∃ port, st'.(port_heap) !! p = Some port ∧ rerooting port ∧
      port.(roletrns).(changeState) = true).
Proof.
  intros R (port & H & L & _). unfold roletrns_machine.
  destruct (wp_elim _ _ (rt_enter_spec 0 HT p st port R H)) as (st1 & He & R1 & x & y & H1).
  set (s := port.(roletrns).(State)) in *. set (port2 := newinfo x y _) in *.
  assert (E1 : mach_get roletrns_field port2 = Some port.(roletrns))
    by (exact (f_equal Some (rt_own_mach 0 (2 * HT) s port))).
  assert (L2 : rerooting port2).
  { destruct (rerooting_own (2 * HT) port L) as [A B C D E F G]. by split. }
  assert (Hr : ∀ m, m.(State) = REROOT ∨ m.(State) = REROOTED ∨ m.(State) = ACTIVE_PORT →
    rerooting (mach_put roletrns_field m port2)).
  { intros m Hm. destruct L2 as [A B C D E F G]. by split. }
  set (st2 := idle_after roletrns_field st1 p port2 s).
  assert (H2 : st2.(port_heap) !! p = Some (mach_put roletrns_field (mkMach s false) port2))
    by apply idle_after_lookup.
  assert (R2 : rt_ready 0 HT p st2) by (by eapply rt_put).
  destruct (rerooting_check HT p st2 _ R2 H2) as (s' & Ec & Hs); [apply Hr, L|].
  rewrite (body_hop roletrns_field _ _ p st st1 port2 _ He H1 E1 s' Ec).
  apply wp_Done. split; [by eapply rt_put|]. eexists. split; [apply put_port_lookup|].
  split; [by apply Hr|done].
Qed.

(** ** Properties *)

Lemma roletrns_mu_bound FD HT2 s port : (roletrns_mu FD HT2 s port ≤ 135)%nat.
Proof.
  assert (H : (mu_role FD HT2 s (rt_own FD HT2 s port) ≤ 135)%nat).
  { unfold mu_role. pose proof (mu_active_bound FD (rt_own FD HT2 s port)).
    destruct (_ <>e _), s; try lia; destruct (_ && _); lia. }
  unfold roletrns_mu. destruct s; try lia; destruct (idle port); lia.
Qed.

Lemma rt_mu_at_bound FD HT p st :
  (mu_at roletrns_field (roletrns_mu FD (2 * HT)) p st ≤ 135)%nat.
Proof.
  unfold mu_at. destruct (st.(port_heap) !! p) as [port|]; [|lia]. simpl. apply roletrns_mu_bound.
Qed.

(** C10: the code of the role transitions machine refines its step relation.  A
    turn of [stp_statmch_change_state] on a port in state [s] returns; it leaves
    the port as [rt_own] says, up to the two [newInfo] flags, and then either
    stays in [s] or asks for a state [s'] with [rt_step]. *)
Theorem roletrns_refines_steps FD HT p st port :
  rt_ready FD HT p st → st.(port_heap) !! p = Some port →
  wp (change_state_body (roletrns_machine p) st)
    (fun st' => rt_ready FD HT p st' ∧ rt_next FD HT p port st').
Proof. exact (rt_body FD HT p st port). Qed.

(** C34: unless the root's [ForwardDelay] is zero, the role transitions machine
    returns after at most 137 turns, from every state and whatever the flags of
    the port are, with no transition pending. *)
Theorem roletrns_terminates FD HT p st :
  FD ≠ 0 → rt_ready FD HT p st →
  wp (stp_statmch_change_state 137 (roletrns_machine p) st)
    (fun '(st', _) => rt_ready FD HT p st' ∧ get_changeState (roletrns_machine p) st' = Done false).
Proof.
  intros HF R. pose proof (roletrns_terminating FD HT p HF) as T.
  eapply (change_state_returns (roletrns_machine p) (rt_ready FD HT p) _ 135);
    [exact R|apply rt_mu_at_bound|lia].
Qed.

(** When the root's [ForwardDelay] is zero, as a received BPDU can make it,
    the machine of a root port that does not learn yet never returns: it hops
    between [REROOT] and [REROOTED] for ever. *)
Theorem roletrns_diverges_without_forward_delay HT p st port :
  rt_ready 0 HT p st → st.(port_heap) !! p = Some port → rerooting port →
  port.(roletrns).(changeState) = true →
  ∀ fuel, stp_statmch_change_state fuel (roletrns_machine p) st = OutOfFuel.
Proof.
  intros R H L Hc fuel.
  apply (change_state_diverges (roletrns_machine p) (fun st => rt_ready 0 HT p st ∧
    ∃ port, st.(port_heap) !! p = Some port ∧ rerooting port ∧ port.(roletrns).(changeState) = true));
    [|split; [done|by exists port]].
  intros w [Rw (q & Hq & Lq & Cq)]. split; [|by apply rerooting_turn; [|exists q]].
  simpl. by erewrite (get_changeState_Done roletrns_field w p q q.(roletrns) Hq eq_refl), Cq.
Qed.

(** Blocking is an invariant of the machine.  When it returns, a port that
    forwards learns, and a port in one of the blocking states does neither. *)
Theorem roletrns_blocked_port_is_silent FD HT p st port :
  FD ≠ 0 → rt_ready FD HT p st → st.(port_heap) !! p = Some port → rt_inv port →
  wp (stp_statmch_change_state 137 (roletrns_machine p) st)
    (fun '(st', _) => ∃ port', st'.(port_heap) !! p = Some port' ∧ blocking_inv port' ∧
       port'.(roletrns).(changeState) = false).
Proof.
  intros HF R H I. pose proof (roletrns_terminating FD HT p HF) as T.
  pose proof (change_state_returns (roletrns_machine p) (rt_ready FD HT p) _ 135 137 st R
    (rt_mu_at_bound FD HT p st) ltac:(lia)) as Hw.
  destruct (wp_elim _ _ Hw) as ([st' n] & E & _ & Hq). rewrite E.
  assert (J : ∃ port', st'.(port_heap) !! p = Some port' ∧ rt_inv port').
  { eapply (change_state_loop_inv (roletrns_machine p) (fun w => rt_ready FD HT p w ∧
      ∃ q, w.(port_heap) !! p = Some q ∧ rt_inv q)); [|split; [exact R|by exists port]|exact E].
    intros w w' [Rw (q & Hw' & Iq)] Hg Eb.
    destruct (wp_use _ _ _ (rt_body FD HT p w q Rw Hw') Eb) as [R' N]. split; [done|].
    eapply rt_next_inv; [done| |exact N]. simpl in Hg.
    erewrite (get_changeState_Done roletrns_field w p q q.(roletrns) Hw' eq_refl) in Hg.
    by injection Hg. }
  destruct J as (port' & H' & I' & _). exists port'. split_and!; [done..|]. simpl in Hq.
  erewrite (get_changeState_Done roletrns_field st' p port' port'.(roletrns) H' eq_refl) in Hq.
  by injection Hq.
Qed.

(** *** Witnesses *)

Lemma ex_rt_ready : rt_ready 15 2 (0, 1) ex_st.
Proof.
  split; [split; [decide_wf|by_decision]|]. exists 0, (ex_stpm 0). split_and!; by_compute.
Qed.

(** Port 1 elected root of a tree whose [ForwardDelay] is zero. *)
Definition ex_reroot : STP_T :=
  put_port (put_stpm ex_st 0 ((ex_stpm 0) <| STPM.rootTimes := mkTimes 0 20 0 2 20 |>)) (0, 1)
    ((ex_port (0, 1)) <| role := RootPort |> <| selectedRole := RootPort |> <| selected := true |>
       <| updtInfo := false |> <| synced := true |> <| sync := false |> <| agree := true |>
       <| proposed := false |> <| learn := false |> <| forward := false |> <| rrWhile := 0 |>
       <| roletrns := mkMach ACTIVE_PORT true |>).

Lemma roletrns_refines_steps_witness :
  wp (change_state_body (roletrns_machine (0, 1)) ex_st)
    (fun st' => rt_ready 15 2 (0, 1) st' ∧ rt_next 15 2 (0, 1) (ex_port (0, 1)) st').
Proof. exact (roletrns_refines_steps 15 2 (0, 1) ex_st _ ex_rt_ready ltac:(by_compute)). Defined.

Lemma roletrns_terminates_witness :
  rt_ready 15 2 (0, 1) ex_st ∧
  wp (stp_statmch_change_state 137 (roletrns_machine (0, 1)) ex_st) (fun '(st', _) =>
    rt_ready 15 2 (0, 1) st' ∧ get_changeState (roletrns_machine (0, 1)) st' = Done false).
Proof.
  exact (conj ex_rt_ready (roletrns_terminates 15 2 (0, 1) ex_st ltac:(done) ex_rt_ready)).
Defined.

Lemma roletrns_diverges_without_forward_delay_witness :
  get_changeState (roletrns_machine (0, 1)) ex_reroot = Done true ∧
  ∀ fuel, stp_statmch_change_state fuel (roletrns_machine (0, 1)) ex_reroot = OutOfFuel.
Proof.
  split; [by_compute|].
  apply (roletrns_diverges_without_forward_delay 2 (0, 1) ex_reroot
    (default calloc_port (ex_reroot.(port_heap) !! (0, 1)))).
  - split; [split; [decide_wf|by_decision]|].
    exists 0, ((ex_stpm 0) <| STPM.rootTimes := mkTimes 0 20 0 2 20 |>). split_and!; by_compute.
  - by_compute.
  - split; try by_compute. do 2 right. by_compute. all: split; by_compute.
  - by_compute.
Defined.

Lemma roletrns_blocked_port_is_silent_witness :
  wp (stp_statmch_change_state 137 (roletrns_machine (0, 1)) ex_st)
    (fun '(st', _) => ∃ port', st'.(port_heap) !! (0, 1) = Some port' ∧ blocking_inv port' ∧
       port'.(roletrns).(changeState) = false).
Proof.
  apply (roletrns_blocked_port_is_silent 15 2 (0, 1) ex_st (ex_port (0, 1)) ltac:(done) ex_rt_ready);
    [by_compute|]. split; [split|]; vm_compute; intros; try done; congruence.
Defined.

(** ** The other machines of a port

    The machines of a port return from every state; the state transition
    machine brings [learning] and [forwarding] to what role transitions asked. *)

(** ** Port state transitions *)

Module Sttrans.
Import SttransState.

(** The state after [s], pending or not. *)
Definition next (s : STATES) (port : PORT_T) : STATE_MACH_T STATES :=
  match s with
  | BEGIN => mkMach DISCARDING true
  | DISCARDING => if port.(learn) then mkMach LEARNING true else mkMach DISCARDING false
  | LEARNING =>
      if port.(forward) then mkMach FORWARDING true
      else if port.(learn) then mkMach LEARNING false else mkMach DISCARDING true
  | FORWARDING => if port.(forward) then mkMach FORWARDING false else mkMach DISCARDING true
  end.

Lemma body p st port :
  ready p st → st.(port_heap) !! p = Some port →
  wp (change_state_body (sttrans_machine p) st) (fun st' => ready p st' ∧
    st'.(port_heap) !! p =
      Some ((entered port) <| sttrans := next port.(sttrans).(State) port |>)).
Proof.
  intros R H. unfold sttrans_machine.
  destruct (wp_elim _ _ (sttrans_enter_spec p st port H)) as (st1 & He & S1 & H1).
  set (s := port.(sttrans).(State)).
  assert (L1 : st1.(port_heap) !! p = Some (entered port)) by (by rewrite H1, lookup_insert_eq).
  assert (E1 : mach_get sttrans_field (entered port) = Some port.(sttrans))
    by (unfold entered; by destruct port.(sttrans).(State)).
  set (st2 := idle_after sttrans_field st1 p (entered port) s).
  assert (L2 : st2.(port_heap) !! p = Some (mach_put sttrans_field (mkMach s false) (entered port)))
    by apply idle_after_lookup.
  assert (R1 : ready p st1) by (by eapply ready_same).
  assert (R2 : ready p st2) by (by eapply ready_put).
  assert (C : (∃ st3, MSTP_sttrans_check_conditions st2 p = Done (st3, false) ∧
      same_shape st2 st3 ∧ st3.(port_heap) = st2.(port_heap) ∧ next s port = mkMach s false) ∨
    ∃ s', MSTP_sttrans_check_conditions st2 p = hop sttrans_field st2 p s' ∧
      next s port = mkMach s' true).
  { unfold MSTP_sttrans_check_conditions.
    rewrite (mach_of_Done sttrans_field _ _ _ _ L2 eq_refl). cbn [obind].
    change ((mach_put sttrans_field (mkMach s false) (entered port)).(learn)) with (entered port).(learn).
    change ((mach_put sttrans_field (mkMach s false) (entered port)).(forward)) with (entered port).(forward).
    assert (El : (entered port).(learn) = port.(learn)) by (unfold entered; by case_match).
    assert (Ef : (entered port).(forward) = port.(forward)) by (unfold entered; by case_match).
    change ((mach_put sttrans_field (mkMach s false) (entered port)).(sttrans).(State)) with s.
    rewrite El, Ef. unfold next.
    assert (Stay : ∀ m, m = mkMach s false → ∃ st3, Done (st2, false) = Done (st3, false) ∧
      same_shape st2 st3 ∧ st3.(port_heap) = st2.(port_heap) ∧ m = mkMach s false) by (by exists st2).
    destruct s; [right; eauto| |destruct port.(forward), port.(learn); simpl; eauto
                              |destruct port.(forward); simpl; eauto].
    destruct port.(learn); [right; rewrite !andb_false_r; eauto|left].
    eexists. split; [done|]. case_match; [|by split_and!]. split_and!; [| |done].
    - change (same_shape st2 (stp_sttrans_sendStpStatetoNpd
        (mach_put sttrans_field (mkMach DISCARDING false) (entered port)) st2)). apply send_shape.
    - apply (send_heap (mach_put sttrans_field (mkMach DISCARDING false) (entered port)) st2). }
  destruct C as [(st3 & Ec & S3 & H3 & ->)|(s' & Ec & ->)].
  - rewrite (body_stay sttrans_field _ _ p st st1 _ _ He L1 E1 _ Ec). apply wp_Done.
    split; [by eapply ready_same|]. by rewrite H3.
  - rewrite (body_hop sttrans_field _ _ p st st1 _ _ He L1 E1 s' Ec). apply wp_Done.
    split; [by eapply ready_put|]. apply put_port_lookup.
Qed.

(** The flags match the state that was entered last. *)
Definition inv (port : PORT_T) : Prop :=
  let c := port.(sttrans).(changeState) in
  match port.(sttrans).(State) with
  | BEGIN => c = true
  | DISCARDING => c = true ∨ port.(learning) = false ∧ port.(forwarding) = false
  | LEARNING => port.(forwarding) = false ∧ (c = true ∨ port.(learning) = true)
  | FORWARDING => port.(learning) = true ∧ (c = true ∨ port.(forwarding) = true)
  end.

(** ... and, once the machine is at rest, what was asked for. *)
Definition settled (port : PORT_T) : Prop :=
  port.(sttrans).(changeState) = false →
  match port.(sttrans).(State) with
  | BEGIN => False
  | DISCARDING => port.(learn) = false
  | LEARNING => port.(learn) = true ∧ port.(forward) = false
  | FORWARDING => port.(forward) = true
  end.

Lemma turn_inv port :
  inv port → let port' := (entered port) <| sttrans := next port.(sttrans).(State) port |> in
  inv port' ∧ settled port' ∧ port'.(learn) = port.(learn) ∧ port'.(forward) = port.(forward).
Proof.
  unfold inv, settled, entered, next. intros I.
  destruct port.(sttrans).(State); simpl; destruct port.(learn) eqn:?, port.(forward) eqn:?; simpl;
    naive_solver.
Qed.

Lemma settled_flags port :
  inv port → settled port → port.(sttrans).(changeState) = false →
  (port.(forward) = true → port.(learn) = true) →
  port.(learning) = port.(learn) ∧ port.(forwarding) = port.(forward).
Proof.
  unfold inv, settled. intros I S E Hf. rewrite E in *. specialize (S eq_refl).
  destruct port.(sttrans).(State); [done| | |]; destruct port.(learn) eqn:?, port.(forward) eqn:?;
    naive_solver.
Qed.
End Sttrans.

(** the port state transition machine carries out what role transitions
    decided.  When it runs on a port whose flags match its state and that asks
    to forward only if it asks to learn, it returns with [learning] equal to
    [learn] and [forwarding] equal to [forward], at rest, and the requests
    unchanged. *)
Theorem sttrans_carries_out_decision p st port :
  ready p st → st.(port_heap) !! p = Some port → Sttrans.inv port →
  port.(sttrans).(changeState) = true → (port.(forward) = true → port.(learn) = true) →
  wp (stp_statmch_change_state 6 (sttrans_machine p) st) (fun '(st', _) =>
    ∃ port', st'.(port_heap) !! p = Some port' ∧ port'.(sttrans).(changeState) = false ∧
      port'.(learn) = port.(learn) ∧ port'.(forward) = port.(forward) ∧
      port'.(learning) = port.(learn) ∧ port'.(forwarding) = port.(forward)).
Proof.
  intros R H I Hc Hf.
  assert (B : (mu_at sttrans_field sttrans_mu p st ≤ 4)%nat).
  { unfold mu_at. rewrite H. simpl. unfold sttrans_mu. repeat case_match; lia. }
  destruct (wp_elim _ _ (change_state_returns (sttrans_machine p) (ready p) _ 4 6 st R B ltac:(lia)))
    as ([st' n] & E & _ & Hq). rewrite E.
  assert (J : ready p st' ∧ ∃ q, st'.(port_heap) !! p = Some q ∧ Sttrans.inv q ∧ Sttrans.settled q ∧
    q.(learn) = port.(learn) ∧ q.(forward) = port.(forward)).
  { eapply (change_state_loop_inv (sttrans_machine p) (fun w => ready p w ∧ ∃ q,
      w.(port_heap) !! p = Some q ∧ Sttrans.inv q ∧ Sttrans.settled q ∧
      q.(learn) = port.(learn) ∧ q.(forward) = port.(forward))); [| |exact E].
    - intros w w' [Rw (q & Hw & Iq & _ & E1 & E2)] _ Eb.
      destruct (wp_use _ _ _ (Sttrans.body p w q Rw Hw) Eb) as [R' H'].
      destruct (Sttrans.turn_inv q Iq) as (J1 & J2 & J3 & J4).
      split; [done|]. eexists. split; [exact H'|]. rewrite J3, J4. done.
    - split; [done|]. exists port. split_and!; try done. unfold Sttrans.settled. by rewrite Hc. }
  destruct J as [_ (q & Hq' & Iq & Sq & E1 & E2)]. exists q. split; [done|]. simpl in Hq.
  rewrite (get_changeState_Done sttrans_field st' p q q.(sttrans) Hq' eq_refl) in Hq.
  injection Hq as Hq. rewrite <- E1, <- E2. split_and!; try done;
    apply (Sttrans.settled_flags q Iq Sq Hq); by rewrite E1, E2.
Qed.

(** ** Termination *)

Lemma mu_at_le {S} (f : MACH_FIELD S) mu p st B :
  (∀ s port, mu s port ≤ B)%nat → (mu_at f mu p st ≤ B)%nat.
Proof. intros H. unfold mu_at. repeat case_match; [apply H|lia..]. Qed.

Lemma info_mu_le s port : (info_mu s port ≤ 17)%nat.
Proof.
  unfold info_mu. destruct (updtInfo _), (rcvdMsg _); simpl; repeat case_match; lia.
Qed.

Lemma topoch_mu_le s port : (topoch_mu s port ≤ 20)%nat.
Proof.
  unfold topoch_mu.
  destruct (rcvdTcn _ || rcvdTc _), (tcProp _), (rcvdTcAck _), (is_active_role _); simpl;
    destruct s; lia.
Qed.

(** the machines that only a CIST port owns return: edge detection after at
    most 6 turns, point-to-point detection after 5, protocol migration after 9,
    and reception after 3, whatever frame waits, as long as it passed the header
    check. *)
Theorem cist_port_machines_terminate p st :
  cist_ready p st → tables_ok st → receive_ready p st →
  wp (stp_statmch_change_state 7 (edge_machine p) st) (fun '(st', _) =>
    cist_ready p st' ∧ get_changeState (edge_machine p) st' = Done false) ∧
  wp (stp_statmch_change_state 6 (p2p_machine p) st) (fun '(st', _) =>
    p2p_ready p st' ∧ get_changeState (p2p_machine p) st' = Done false) ∧
  wp (stp_statmch_change_state 10 (migrate_machine p) st) (fun '(st', _) =>
    cist_ready p st' ∧ get_changeState (migrate_machine p) st' = Done false) ∧
  wp (stp_statmch_change_state 4 (receive_machine p) st) (fun '(st', _) =>
    receive_ready p st' ∧ get_changeState (receive_machine p) st' = Done false).
Proof.
  intros R T Rr. split_and!.
  - eapply (change_state_returns (edge_machine p) _ _ 5); [done| |lia].
    apply mu_at_le. intros s q. unfold edge_mu. repeat case_match; lia.
  - eapply (change_state_returns (p2p_machine p) (p2p_ready p) _ 4); [done| |lia].
    apply mu_at_le. intros s q. unfold p2p_mu. repeat case_match; lia.
  - eapply (change_state_returns (migrate_machine p) _ _ 8); [done| |lia].
    apply mu_at_le. intros s q. unfold migrate_mu. repeat case_match; lia.
  - eapply (change_state_returns (receive_machine p) _ _ 2); [done| |lia].
    apply mu_at_le. intros s q. unfold receive_mu. repeat case_match; lia.
Qed.

(** C35: the machines of every port return: path cost after at most 8 turns, state
    transitions after 5, port information after 18, and topology change after 21.
    Two conditions on the state: the port is [topoch_ready], that is, it exists and
    has [rcvdTcn] or [rcvdTcAck] set only when it is a port of the CIST (on an MSTI
    port the topology change machine would enter [INACTIVE] again for ever, which
    does not clear them there), and the tables of speeds and duplex modes are [tables_ok].  The other
    fields of the port, and the state each machine is in, hold anything. *)
Theorem port_machines_terminate p st :
  topoch_ready p st → tables_ok st →
  wp (stp_statmch_change_state 9 (pcost_machine p) st) (fun '(st', _) =>
    pcost_ready p st' ∧ get_changeState (pcost_machine p) st' = Done false) ∧
  wp (stp_statmch_change_state 6 (sttrans_machine p) st) (fun '(st', _) =>
    ready p st' ∧ get_changeState (sttrans_machine p) st' = Done false) ∧
  wp (stp_statmch_change_state 19 (info_machine p) st) (fun '(st', _) =>
    ready p st' ∧ get_changeState (info_machine p) st' = Done false) ∧
  wp (stp_statmch_change_state 22 (topoch_machine p) st) (fun '(st', _) =>
    topoch_ready p st' ∧ get_changeState (topoch_machine p) st' = Done false).
Proof.
  intros R T. split_and!.
  - eapply (change_state_returns (pcost_machine p) (pcost_ready p) _ 7); [split; [apply R|done]| |lia].
    apply mu_at_le. intros s q. unfold pcost_mu. repeat case_match; lia.
  - eapply (change_state_returns (sttrans_machine p) _ _ 4); [apply R| |lia].
    apply mu_at_le. intros s q. unfold sttrans_mu. repeat case_match; lia.
  - eapply (change_state_returns (info_machine p) _ _ 17); [apply R| |lia].
    apply mu_at_le, info_mu_le.
  - eapply (change_state_returns (topoch_machine p) _ _ 20); [done| |lia].
    apply mu_at_le, topoch_mu_le.
Qed.

(** *** Witnesses *)

Lemma ex_ready : ready (0, 1) ex_st.
Proof. split; [decide_wf|by_decision]. Qed.

Lemma ex_tables : tables_ok ex_st.
Proof. split; intros; discriminate. Qed.

(** Port 1 allowed to learn and to forward. *)
Definition ex_forward : STP_T :=
  put_port ex_st (0, 1) ((ex_port (0, 1)) <| learn := true |> <| forward := true |>
    <| sttrans := mkMach SttransState.LEARNING true |>).

Lemma sttrans_carries_out_decision_witness :
  wp (stp_statmch_change_state 6 (sttrans_machine (0, 1)) ex_forward) (fun '(st', _) =>
    ∃ port', st'.(port_heap) !! (0, 1) = Some port' ∧ port'.(sttrans).(changeState) = false ∧
      port'.(learn) = true ∧ port'.(forward) = true ∧
      port'.(learning) = true ∧ port'.(forwarding) = true).
Proof.
  refine (sttrans_carries_out_decision (0, 1) ex_forward ((ex_port (0, 1)) <| learn := true |>
    <| forward := true |> <| sttrans := mkMach SttransState.LEARNING true |>) _ _ _ _ _).
  - split; [decide_wf|by_decision].
  - by_compute.
  - split; [by_compute|left; by_compute].
  - by_compute.
  - done.
Defined.

Lemma cist_port_machines_terminate_witness :
  wp (stp_statmch_change_state 7 (edge_machine (0, 1)) ex_st) (fun '(st', _) =>
    cist_ready (0, 1) st' ∧ get_changeState (edge_machine (0, 1)) st' = Done false).
Proof.
  assert (R : cist_ready (0, 1) ex_st) by (split; [exact ex_ready|done]).
  assert (Rr : receive_ready (0, 1) ex_st) by (split; [exact R|intros; discriminate]).
  exact (proj1 (cist_port_machines_terminate (0, 1) ex_st R ex_tables Rr)).
Defined.

Lemma port_machines_terminate_witness :
  wp (stp_statmch_change_state 9 (pcost_machine (0, 1)) ex_st) (fun '(st', _) =>
    pcost_ready (0, 1) st' ∧ get_changeState (pcost_machine (0, 1)) st' = Done false).
Proof.
  assert (R : topoch_ready (0, 1) ex_st) by (split; [exact ex_ready|intros ? _ []; done]).
  exact (proj1 (port_machines_terminate (0, 1) ex_st R ex_tables)).
Defined.

(** ** The transmit machine

    It never sends more than [TxHoldCount] frames before the clock ticks, and
    it returns unless the root's [HelloTime] is zero. *)

Import TransmitState.

(** ** The loop without hello time *)

(** A port that may transmit, whose timer [helloWhen] has run out. *)
Record polling (p : PORT_REF) (st : STP_T) : Prop := {
  po_ready : transmit_ready 0 p st;
  po_found : stp_port_mst_findport st STP_CIST_ID p.2 = Done (Some p);
  po_port : ∃ port m, st.(port_heap) !! p = Some port ∧ port.(transmit) = Some m ∧
    m.(changeState) = true ∧ (m.(State) = IDLE ∨ m.(State) = TRANSMIT_PERIODIC) ∧
    port.(selected) = true ∧ port.(updtInfo) = false ∧ port.(adminEnable) = true ∧
    port.(admin_non_stp) = false ∧ port.(helloWhen) = 0 }.

(** The CIST port of an index depends on the shape only. *)
Lemma findport_cist_shape st st' idx :
  same_shape st st' →
  stp_port_mst_findport st' STP_CIST_ID idx = stp_port_mst_findport st STP_CIST_ID idx.
Proof.
  intros E. pose proof (f_equal sh_cistport E) as E1. pose proof (f_equal sh_product E) as E2.
  pose proof (f_equal sh_distributed E) as E3. simpl in E1, E2, E3.
  unfold stp_port_mst_findport, stp_port_global_index_parse. rewrite <- E1, <- E2, <- E3.
  by repeat case_match.
Qed.

Lemma polling_next p st port :
  ready p st → stp_port_mst_findport st STP_CIST_ID p.2 = Done (Some p) →
  st.(port_heap) !! p = Some port → port.(selected) = true → port.(updtInfo) = false →
  port.(adminEnable) = true → port.(admin_non_stp) = false → port.(helloWhen) = 0 →
  transmit_next st port = Done (Some TRANSMIT_PERIODIC).
Proof.
  intros [W _] Hf H H1 H2 H3 H4 H5. unfold transmit_next.
  destruct (wf_port_owner _ _ _ W H) as (_ & -> & _).
  unfold stp_transmit_ifselectedAndnotupdtInfoInAnyMstPort. rewrite Hf. cbn [obind].
  rewrite (get_port_Some _ _ _ H). cbn [obind any_port]. rewrite (get_port_Some _ _ _ H).
  cbn [obind]. rewrite H1, H2. cbn [negb andb obind]. rewrite H3, H4, H5. done.
Qed.

Lemma polling_turn p st :
  polling p st → wp (change_state_body (transmit_machine p) st) (polling p).
Proof.
  intros [R Hf (port & m & H & E & Hc & Hst & H1 & H2 & H3 & H4 & H5)].
  destruct (R) as [[Rr Hp] (stpm & Hs & Hel)].
  destruct (wp_elim _ _ (transmit_enter_spec p st port m stpm Rr H E Hs)) as (st1 & He & He1).
  destruct (entered_transmit_shape _ _ _ _ _ _ H He1) as [S1 B1]. rewrite Hel in He1.
  destruct He1 as (c & b & k & ev & Est1 & _).
  set (port1 := transmit_own 0 c b k m.(State) port) in *.
  assert (L1 : st1.(port_heap) !! p = Some port1) by (rewrite Est1; apply put_port_lookup).
  assert (E1 : mach_get transmit_field port1 = Some m)
    by (unfold port1; destruct Hst as [-> | ->]; done).
  assert (F1 : port1.(selected) = true ∧ port1.(updtInfo) = false ∧ port1.(adminEnable) = true ∧
    port1.(admin_non_stp) = false ∧ port1.(helloWhen) = 0)
    by (unfold port1; destruct Hst as [-> | ->]; done).
  assert (Put : ∀ s, s = IDLE ∨ s = TRANSMIT_PERIODIC →
    polling p (put_port st1 p (mach_put transmit_field (mkMach s true) port1))).
  { intros s Hs'. set (m' := mkMach s true).
    assert (S2 : same_shape st (put_port st1 p (mach_put transmit_field m' port1)))
      by (etransitivity; [exact S1|exact (mach_put_present transmit_field st1 p port1 m m' L1 E1)]).
    split; [by eapply transmit_ready_same|by rewrite (findport_cist_shape st)|].
    exists (mach_put transmit_field m' port1), m'. rewrite put_port_lookup.
    destruct F1 as (? & ? & ? & ? & ?). by split_and!. }
  set (st2 := idle_after transmit_field st1 p port1 m.(State)).
  assert (L2 : st2.(port_heap) !! p = Some (mach_put transmit_field (mkMach m.(State) false) port1))
    by apply idle_after_lookup.
  assert (S2 : same_shape st st2)
    by (etransitivity; [exact S1|exact (idle_after_shape transmit_field p st1 port1 m L1 E1)]).
  assert (C2 : ∃ s, MSTP_transmit_check_conditions st2 p = hop transmit_field st2 p s ∧
    (s = IDLE ∨ s = TRANSMIT_PERIODIC)).
  { unfold MSTP_transmit_check_conditions.
    rewrite (mach_of_Done transmit_field _ _ _ _ L2 eq_refl). cbn [obind].
    destruct Hst as [Es|Es]; rewrite Es in L2 |- *; cbn [State]; [|exists IDLE; auto].
    rewrite (polling_next p st2 _ (ready_same _ _ _ S2 Rr)
      (eq_trans (findport_cist_shape st st2 p.2 S2) Hf) L2); try apply F1.
    cbn [obind]. exists TRANSMIT_PERIODIC; auto. }
  destruct C2 as (s & Ec & Hs'). unfold transmit_machine.
  rewrite (body_hop transmit_field _ _ p st st1 port1 m He L1 E1 s Ec).
  by apply Put.
Qed.

(** ** Properties *)

Lemma transmit_mu_bound p st port :
  st.(port_heap) !! p = Some port →
  (mu_at transmit_field transmit_mu p st ≤ 15 + 3 * Z.to_nat (TxHoldCount - port.(txCount)))%nat.
Proof.
  intros H. unfold mu_at. rewrite H. case_match; [|lia]. unfold transmit_mu.
  cbv zeta. destruct (port.(helloWhen) =? 0), (State _); lia.
Qed.

(** C38: unless the root's [HelloTime] is zero the transmit machine of a CIST port
    returns, at rest; the number of its turns is bounded by the room left below
    [TxHoldCount]. *)
Theorem transmit_terminates hello p st port :
  hello ≠ 0 → transmit_ready hello p st → st.(port_heap) !! p = Some port →
  wp (stp_statmch_change_state (17 + 3 * Z.to_nat (TxHoldCount - port.(txCount)))
        (transmit_machine p) st)
    (fun '(st', _) => transmit_ready hello p st' ∧
       get_changeState (transmit_machine p) st' = Done false).
Proof.
  intros Hh R H. pose proof (transmit_terminating hello p Hh) as T.
  eapply (change_state_returns (transmit_machine p) (transmit_ready hello p) _ _ _ st R);
    [by apply transmit_mu_bound|lia].
Qed.

(** When the root's [HelloTime] is zero, as a received BPDU can make it, the
    transmit machine of an enabled port never returns: [helloWhen] is zero again
    as soon as it is set, and the machine hops between [IDLE] and
    [TRANSMIT_PERIODIC] for ever. *)
Theorem transmit_diverges_without_hello_time p st :
  polling p st → ∀ fuel, stp_statmch_change_state fuel (transmit_machine p) st = OutOfFuel.
Proof.
  intros P fuel. apply (change_state_diverges (transmit_machine p) (polling p)); [|done].
  intros w Pw. split; [|by apply polling_turn].
  destruct (po_port _ _ Pw) as (port & m & H & E & Hc & _). simpl.
  by rewrite (get_changeState_Done transmit_field w p port m H E), Hc.
Qed.

(** the transmit machine counts what it sends: one run of it adds to the
    trace at most as many frames as it adds to [txCount], and leaves [txCount] at
    most [TxHoldCount].  A port therefore sends at most [TxHoldCount - txCount]
    frames before the clock lowers its counter. *)
Theorem transmit_rate_is_limited fuel p st st' port m n :
  cist_ready p st → st.(port_heap) !! p = Some port → port.(transmit) = Some m →
  held m.(State) port →
  stp_statmch_change_state fuel (transmit_machine p) st = Done (st', n) →
  ∃ port', st'.(port_heap) !! p = Some port' ∧ port'.(txCount) ≤ TxHoldCount ∧
    Z.of_nat (count_tx st'.(trace)) - Z.of_nat (count_tx st.(trace)) ≤
      port'.(txCount) - port.(txCount).
Proof.
  intros R H E Hh Hrun.
  assert (J : cist_ready p st' ∧ rate_inv (uncounted st port) p st').
  { eapply (change_state_loop_inv (transmit_machine p)
      (fun w => cist_ready p w ∧ rate_inv (uncounted st port) p w)); [| |exact Hrun].
    - intros w w' [Rw Iw] _ Eb. exact (transmit_turn_rate _ p w w' Rw Iw Eb).
    - split; [done|]. exists port, m. by split_and!. }
  destruct J as [_ (port' & m' & H' & _ & (_ & _ & Hc & _) & Hu)].
  exists port'. split_and!; [done..|]. unfold uncounted in Hu. lia.
Qed.

(** *** Witnesses *)

Lemma ex_cist_ready : cist_ready (0, 1) ex_st.
Proof. split; [split; [decide_wf|by_decision]|done]. Qed.

Lemma ex_transmit_ready : transmit_ready 2 (0, 1) ex_st.
Proof. split; [exact ex_cist_ready|]. exists (ex_stpm 0). split; by_compute. Qed.

Lemma transmit_terminates_witness :
  wp (stp_statmch_change_state 26 (transmit_machine (0, 1)) ex_st)
    (fun '(st', _) => transmit_ready 2 (0, 1) st' ∧
       get_changeState (transmit_machine (0, 1)) st' = Done false).
Proof.
  assert (E : (17 + 3 * Z.to_nat (TxHoldCount - (ex_port (0, 1)%Z).(txCount)) = 17)%nat) by by_compute.
  pose proof (transmit_terminates 2 (0, 1) ex_st (ex_port (0, 1)) ltac:(done) ex_transmit_ready
    ltac:(by_compute)) as H.
  rewrite E in H.
  destruct (wp_elim _ _ H) as (r & Er & Hr). unfold stp_statmch_change_state in *.
  by rewrite (change_state_loop_mono _ _ 26 _ _ _ Er ltac:(lia)).
Defined.

(** The bridge after a root with [HelloTime] zero was accepted. *)
Definition ex_polling : STP_T :=
  put_port (put_stpm ex_st 0 ((ex_stpm 0) <| STPM.rootTimes := mkTimes 0 20 15 0 20 |>)) (0, 1)
    ((ex_port (0, 1)) <| transmit := Some (mkMach IDLE true) |> <| helloWhen := 0 |>).

Lemma transmit_diverges_without_hello_time_witness :
  get_changeState (transmit_machine (0, 1)) ex_polling = Done true ∧
  ∀ fuel, stp_statmch_change_state fuel (transmit_machine (0, 1)) ex_polling = OutOfFuel.
Proof.
  split; [by_compute|].
  apply (transmit_diverges_without_hello_time (0, 1) ex_polling). split.
  - split; [split; [split; [decide_wf|by_decision]|done]|].
    exists ((ex_stpm 0) <| STPM.rootTimes := mkTimes 0 20 15 0 20 |>). split; by_compute.
  - by_compute.
  - exists (default calloc_port (ex_polling.(port_heap) !! (0, 1))), (mkMach IDLE true).
    split_and!; try by_compute. left. by_compute.
Defined.

(** A run in which a frame is sent. *)
Definition ex_sending : STP_T :=
  put_port ex_st (0, 1) ((ex_port (0, 1)) <| transmit := Some (mkMach IDLE true) |>
    <| newInfoCist := true |> <| helloWhen := 2 |> <| txCount := 2 |>).

Lemma transmit_rate_is_limited_witness :
  ∃ st' n, stp_statmch_change_state 30 (transmit_machine (0, 1)) ex_sending = Done (st', n) ∧
    count_tx st'.(trace) = S (count_tx ex_sending.(trace)) ∧
    ∃ port', st'.(port_heap) !! (0, 1) = Some port' ∧ port'.(txCount) ≤ TxHoldCount.
Proof.
  pose (port := (ex_port (0, 1)) <| transmit := Some (mkMach IDLE true) |>
    <| newInfoCist := true |> <| helloWhen := 2 |> <| txCount := 2 |>).
  destruct (stp_statmch_change_state 30 (transmit_machine (0, 1)) ex_sending)
    as [[st' n]| |] eqn:E; [|by vm_compute in E..].
  exists st', n. split; [done|]. split.
  - transitivity (count_tx (value (ex_sending, 0) (stp_statmch_change_state 30
      (transmit_machine (0, 1)) ex_sending)).1.(trace)); [rewrite E; reflexivity|by_compute].
  - assert (R : cist_ready (0, 1) ex_sending) by (split; [split; [decide_wf|by_decision]|done]).
    assert (H : ex_sending.(port_heap) !! (0, 1) = Some port) by by_compute.
    assert (Hh : held IDLE port) by (split_and!; [done|done|by_decision|done]).
    destruct (transmit_rate_is_limited 30 (0, 1) ex_sending st' port (mkMach IDLE true) n R H
      eq_refl Hh E) as (port' & H' & Hc & _).
    exists port'. exact (conj H' Hc).
Defined.
