(* ===== verification/StpRoleselProps.v ===== *)
(** * Properties of port role selection

    The root vector an instance elects is the best of its own and of those its
    ports offer; the port that offered it, and no other, is the root port. *)

From Stdlib Require Import ZArith Lia.
From stdpp Require Import base gmap list option.
From S2P Require Import Prelude StpTypes StpVector StpHeap StpStatmch StpPort StpRolesel StpStpm StpIn StpExample StpCodec.
Import RoleselState.

(** ** The election *)

(** The root identifier an instance starts the election with: the CIST its own,
    an MSTI none. *)
Definition initial_root (b : Z) (stpm : STPM_T) : BRIDGE_ID :=
  if b =? STP_CIST_ID then stpm.(STPM.BrId) else null_br.

Lemma updtRolesXst_elects st b stpm :
  wf st → st.(stpm_heap) !! b = Some stpm →
  wp (stp_rolesel_updtRolesXst st b) (fun st' =>
    st'.(stpm_heap) !! b = Some (elected_stpm st (initial_root b stpm) stpm)).
Proof.
  intros W H. unfold stp_rolesel_updtRolesXst. rewrite (get_stpm_Some _ _ _ H). cbn [obind].
  rewrite (wf_stpm_vlan _ _ _ W H), Z.eqb_sym. unfold initial_root.
  destruct (Z.eqb_spec b STP_CIST_ID) as [->|Hb].
  - eapply wp_mono; [by apply updtRolesCist_spec|]. cbv zeta. intros st' (_ & -> & _).
    apply lookup_insert_eq.
  - eapply wp_mono; [by apply updtRolesMsti_spec|]. cbv zeta. intros st' (_ & -> & _).
    apply lookup_insert_eq.
Qed.

Lemma elected_in st root_br stpm :
  elected st root_br stpm = own_offer root_br stpm ∨
  ∃ q, q ∈ stpm.(STPM.ports) ∧ offer st stpm q = Some (elected st root_br stpm).
Proof.
  destruct (best_in (own_offer root_br stpm) (omap (offer st stpm) stpm.(STPM.ports))) as [E|E];
    [by left|right]. apply list_elem_of_omap in E as (q & Hq & E). by exists q.
Qed.

(** The vectors that take part in the election of an instance are within the
    range of the comparison. *)
Definition comparable (st : STP_T) (b : Z) (stpm : STPM_T) : Prop :=
  wf_offer (own_offer (initial_root b stpm) stpm) ∧
  ∀ q v, q ∈ stpm.(STPM.ports) → offer st stpm q = Some v → wf_offer v.

Lemma elected_le st b stpm v :
  comparable st b stpm →
  (v = own_offer (initial_root b stpm) stpm ∨
   ∃ q, q ∈ stpm.(STPM.ports) ∧ offer st stpm q = Some v) →
  stp_vector_compare (elected st (initial_root b stpm) stpm).1 v.1 ≤ 0.
Proof.
  intros [Ho Hq] Hv. apply best_le; [done| |].
  - apply Forall_forall. intros x Hx. apply list_elem_of_In, list_elem_of_omap in Hx as (q & Hin & E).
    by eapply Hq.
  - destruct Hv as [->|(q & Hin & E)]; [left|right]. apply list_elem_of_omap. by exists q.
Qed.

(** ** The root port *)

(** Ports of an instance have different identifiers, none of them zero, and the
    vector a port has received names the port. *)
Definition identified (st : STP_T) (stpm : STPM_T) : Prop :=
  (∀ q r x y, q ∈ stpm.(STPM.ports) → r ∈ stpm.(STPM.ports) →
     st.(port_heap) !! q = Some x → st.(port_heap) !! r = Some y →
     x.(port_id) = y.(port_id) → q = r) ∧
  (∀ q x, q ∈ stpm.(STPM.ports) → st.(port_heap) !! q = Some x →
     x.(port_id) ≠ 0 ∧ (x.(infoIs) = Received → x.(portPrio).(bridge_port) = x.(port_id))).

Lemma offer_inv st stpm q v :
  offer st stpm q = Some v → ∃ x, st.(port_heap) !! q = Some x ∧ x.(infoIs) = Received ∧
    x.(admin_non_stp) = false ∧ v.1.(bridge_port) = x.(portPrio).(bridge_port).
Proof.
  unfold offer. intros E. destruct (st.(port_heap) !! q) as [x|]; [|done]. exists x.
  destruct (offers_root st stpm x) as [[]| |] eqn:Eo; try done. injection E as <-.
  unfold offers_root in Eo. destruct x.(admin_non_stp); [done|].
  destruct x.(infoIs); try done. split_and!; [done..|].
  unfold root_path_prio. simpl. by destruct (_ && _).
Qed.

Lemma setRole_selected r port : (stp_rolesel_setRoleSelected r port).(selectedRole) = r.
Proof. unfold stp_rolesel_setRoleSelected. by repeat case_match. Qed.

Lemma select_role_root stpm port :
  (select_role stpm port).(selectedRole) = RootPort ↔
  port.(infoIs) = Received ∧ stpm.(STPM.rootPortId) = port.(port_id).
Proof.
  unfold select_role. destruct port.(infoIs) eqn:Ei;
    repeat case_match; bool_facts; simpl; rewrite ?setRole_selected; naive_solver.
Qed.

Lemma set_designated_keeps cist stpm port :
  let port' := set_designated cist stpm port in
  port'.(infoIs) = port.(infoIs) ∧ port'.(port_id) = port.(port_id) ∧
  port'.(admin_non_stp) = port.(admin_non_stp).
Proof. unfold set_designated. by destruct port.(admin_non_stp) eqn:E. Qed.

(** The port selected as root port is the one whose offer was elected. *)
Lemma root_port_offer st stpm q port :
  identified st stpm → q ∈ stpm.(STPM.ports) → st.(port_heap) !! q = Some port →
  port.(admin_non_stp) = false →
  let stpm' := elected_stpm st stpm.(STPM.BrId) stpm in
  (role_result stpm' (set_designated true stpm' port)).(selectedRole) = RootPort ↔
  offer st stpm q = Some (elected st stpm.(STPM.BrId) stpm).
Proof.
  intros [Hd Hn] Hq H Hs stpm'.
  destruct (set_designated_keeps true stpm' port) as (E1 & E2 & E3).
  unfold role_result. rewrite E3, Hs, select_role_root, E1, E2.
  change (stpm'.(STPM.rootPortId)) with (elected st stpm.(STPM.BrId) stpm).1.(bridge_port).
  split.
  - intros [Hi Hp]. destruct (elected_in st stpm.(STPM.BrId) stpm) as [E|(r & Hr & E)].
    + rewrite E in Hp. simpl in Hp. by destruct (Hn q port Hq H) as [Hz _].
    + destruct (offer_inv _ _ _ _ E) as (x & Hx & Hxi & _ & Eb).
      destruct (Hn r x Hr Hx) as [_ Hb]. specialize (Hb Hxi).
      rewrite (Hd q r port x Hq Hr H Hx); [done|]. congruence.
  - intros E. destruct (offer_inv _ _ _ _ E) as (x & Hx & Hxi & _ & Eb).
    rewrite H in Hx. injection Hx as <-. destruct (Hn q port Hq H) as [_ Hb].
    split; [done|]. rewrite Eb. by apply Hb.
Qed.

(** ** Properties *)

(** C9: role selection elects the best vector.  After
    [stp_rolesel_updtRolesXst], for the CIST and for an MSTI alike, the root
    vector and times of the instance are its own or those offered by one of its
    ports, and the vector is no worse than any of these.  The vectors are
    [comparable]: their path costs are below 2^31, since beyond the comparison by
    signed difference is no order. *)
Theorem elected_root_is_best st b stpm :
  wf st → st.(stpm_heap) !! b = Some stpm → comparable st b stpm →
  wp (stp_rolesel_updtRolesXst st b) (fun st' => ∃ stpm', st'.(stpm_heap) !! b = Some stpm' ∧
    let own := own_offer (initial_root b stpm) stpm in
    let root := (stpm'.(STPM.rootPrio), stpm'.(STPM.rootTimes)) in
    (root = own ∨ ∃ q, q ∈ stpm.(STPM.ports) ∧ offer st stpm q = Some root) ∧
    stp_vector_compare root.1 own.1 ≤ 0 ∧
    ∀ q v, q ∈ stpm.(STPM.ports) → offer st stpm q = Some v →
      stp_vector_compare root.1 v.1 ≤ 0).
Proof.
  intros W H C. eapply wp_mono; [by apply updtRolesXst_elects|]. intros st' ->. eexists.
  split; [done|]. cbv zeta. change (STPM.rootPrio (elected_stpm st ?r stpm)) with (elected st r stpm).1.
  change (STPM.rootTimes (elected_stpm st ?r stpm)) with (elected st r stpm).2.
  rewrite <- surjective_pairing. split_and!; [apply elected_in|apply elected_le; by auto|].
  intros q v Hq E. apply elected_le; [done|]. right. by exists q.
Qed.

(** C36: the root port of the CIST is the port whose offer was elected, and only
    that port: after [stp_rolesel_updtRolesCist] a port that takes part in the
    protocol has the role Root exactly when the elected root vector is the one
    it offered.  There is at most one, and none when the bridge is the root.  The
    ports are [identified]: their identifiers are different and not zero, and the
    vector a port has received names the identifier the port has now.  That is not so
    when the priority of a port has been changed since ([PT_CFG_PRIO] sets the
    identifier, leaves the vector and selects the roles at once). *)
Theorem cist_root_port_is_the_elected_one st stpm :
  wf st → st.(stpm_heap) !! STP_CIST_ID = Some stpm → identified st stpm →
  let root := elected st stpm.(STPM.BrId) stpm in
  wp (stp_rolesel_updtRolesCist st STP_CIST_ID) (fun st' =>
    ∀ q port, q ∈ stpm.(STPM.ports) → st.(port_heap) !! q = Some port →
      port.(admin_non_stp) = false →
      ∃ port', st'.(port_heap) !! q = Some port' ∧
        (port'.(selectedRole) = RootPort ↔ offer st stpm q = Some root)).
Proof.
  intros W H I root. eapply wp_mono; [by apply updtRolesCist_spec|]. cbv zeta.
  intros st' (_ & _ & Hp) q port Hq Hl Hs. eexists. split; [by apply Hp|].
  by apply root_port_offer.
Qed.

(** the role selection machine returns after at most four turns, and when it
    has run in state [RECEIVE] every port of the instance is selected and none
    asks for a reselection, so that the machines that wait for [selected] see
    the roles of one and the same election. *)
Theorem rolesel_selects_every_port st b stpm :
  wf st → st.(stpm_heap) !! b = Some stpm →
  wp (stp_statmch_change_state 5 (rolesel_machine b) st) (fun '(st', _) =>
    rolesel_ready b st' ∧ get_changeState (rolesel_machine b) st' = Done false) ∧
  (stpm.(STPM.rolesel).(State) = RECEIVE →
   wp (MSTP_rolesel_enter_state st b) (fun st' => ∀ q, q ∈ stpm.(STPM.ports) →
     ∃ port', st'.(port_heap) !! q = Some port' ∧
       port'.(selected) = true ∧ port'.(reselect) = false)).
Proof.
  intros W H. split.
  - eapply (change_state_returns (rolesel_machine b) (rolesel_ready b) (rolesel_mu b) 3); [by split; eauto| |lia].
    unfold rolesel_mu. repeat case_match; lia.
  - intros E. eapply wp_mono; [by eapply rolesel_receive_spec|].
    intros st' (_ & _ & st1 & _ & H1 & _ & H') q Hq.
    destruct (wf_on_list _ _ _ _ W H Hq) as (_ & port & Hport).
    specialize (H1 q Hq). rewrite Hport in H1. simpl in H1. eexists.
    split; [by apply (H' q _ Hq H1)|]. split; [done|].
    exact (new_role_keeps st1 b stpm q (port <| reselect := false |>)).
Qed.

(** *** Witnesses *)

#[local] Opaque wp.

Definition heard_stpm : STPM_T := default (calloc_stpm 0) (ex_heard.(stpm_heap) !! 0).
Definition heard_port (q : PORT_REF) : PORT_T :=
  default calloc_port (ex_heard.(port_heap) !! q).

Lemma heard_ports q : q ∈ heard_stpm.(STPM.ports) → q = (0, 2) ∨ q = (0, 1).
Proof.
  intros H. assert (E : heard_stpm.(STPM.ports) = [(0, 2); (0, 1)]) by by_compute. rewrite E in H. set_solver.
Qed.

Lemma heard_wf : wf ex_heard.
Proof. decide_wf. Qed.

Lemma heard_offers q v :
  q ∈ heard_stpm.(STPM.ports) → offer ex_heard heard_stpm q = Some v →
  q = (0, 2) ∧ offer ex_heard heard_stpm (0, 2) = Some v ∧ wf_offer v.
Proof.
  intros [-> | ->]%heard_ports E; [|by vm_compute in E]. split; [done|]. split; [done|].
  vm_compute in E. injection E as <-. by_decision.
Qed.

Lemma heard_comparable : comparable ex_heard 0 heard_stpm.
Proof. split; [by_decision|]. intros q v Hq E. by apply (heard_offers q v Hq E). Qed.

Lemma heard_identified : identified ex_heard heard_stpm.
Proof.
  split.
  - intros q r x y [-> | ->]%heard_ports [-> | ->]%heard_ports Hx Hy E; try done;
      vm_compute in Hx, Hy; injection Hx as <-; injection Hy as <-; discriminate E.
  - intros q x [-> | ->]%heard_ports Hx; vm_compute in Hx; injection Hx as <-; (split; [done|by intros]).
Qed.

Lemma elected_root_is_best_witness :
  wp (stp_rolesel_updtRolesXst ex_heard 0) (fun st' => ∃ stpm', st'.(stpm_heap) !! 0 = Some stpm' ∧
    stp_vector_compare stpm'.(STPM.rootPrio) (own_offer heard_stpm.(STPM.BrId) heard_stpm).1 ≤ 0).
Proof.
  pose proof (elected_root_is_best ex_heard 0 heard_stpm heard_wf ltac:(by_compute)
    heard_comparable) as H.
  cbv zeta in H. refine (wp_mono _ _ _ H _). intros st' (stpm' & E & _ & Hc & _). exists stpm'. split; [exact E|exact Hc].
Defined.

Lemma cist_root_port_is_the_elected_one_witness :
  wp (stp_rolesel_updtRolesCist ex_heard STP_CIST_ID) (fun st' =>
    (∃ port', st'.(port_heap) !! (0, 2) = Some port' ∧ port'.(selectedRole) = RootPort) ∧
    ∃ port', st'.(port_heap) !! (0, 1) = Some port' ∧ port'.(selectedRole) ≠ RootPort).
Proof.
  pose proof (cist_root_port_is_the_elected_one ex_heard heard_stpm heard_wf ltac:(by_compute)
    heard_identified) as H.
  cbv zeta in H. refine (wp_mono _ _ _ H _). intros st' Hst.
  destruct (Hst (0, 2) (heard_port (0, 2)) ltac:(by_decision) ltac:(by_compute) ltac:(by_compute))
    as (x & Hx & [_ Ex]).
  destruct (Hst (0, 1) (heard_port (0, 1)) ltac:(by_decision) ltac:(by_compute) ltac:(by_compute))
    as (y & Hy & [Ey _]).
  split; [exists x|exists y]; (split; [exact Hx || exact Hy|]).
  - apply Ex. by_compute.
  - intros E. specialize (Ey E). by vm_compute in Ey.
Defined.

Lemma rolesel_selects_every_port_witness :
  heard_stpm.(STPM.rolesel).(State) = RECEIVE ∧
  wp (MSTP_rolesel_enter_state ex_heard 0) (fun st' =>
    ∃ port', st'.(port_heap) !! (0, 1) = Some port' ∧ port'.(selected) = true).
Proof.
  assert (E : heard_stpm.(STPM.rolesel).(State) = RECEIVE) by by_compute.
  split; [exact E|].
  pose proof (proj2 (rolesel_selects_every_port ex_heard 0 heard_stpm heard_wf ltac:(by_compute)) E) as H.
  cbv zeta in H. refine (wp_mono _ _ _ H _). intros st' Hst.
  destruct (Hst (0, 1) ltac:(by_decision)) as (x & Hx & Hs & _). exists x. exact (conj Hx Hs).
Defined.
