(* ===== verification/StpInProps.v ===== *)
(** * Properties of the daemon's inputs

    Reception stays in a buffer with room for the largest frame; the configuration
    of an instance is stored only when it is consistent. *)

From Stdlib Require Import ZArith Lia.
From stdpp Require Import base gmap list option.
From S2P Require Import Prelude StpTypes StpBpdu StpVector StpTo StpHeap StpStatmch StpPort StpRoletrns StpTransmit StpFrame StpReceive StpStpm StpSafety StpIn StpExample.

(** ** The header check *)

(** What a caller may rely on: the type is written exactly when the code is 0,
    and an MSTP frame announces at most 64 messages. *)
Definition header_result (port : PORT_T) (bpdu : list Z) (r : Z * option Z) : Prop :=
  (r.1 = 0 ↔ is_Some r.2) ∧
  (r.2 = Some BPDU_MSTP → ∀ v, rd16 bpdu (v3_off port.(configDigestSnp)) = Done v →
     49 ≤ v < 64 + 16 * 65).

Lemma quot_range v : 0 ≤ Z.quot (v - 64) 16 ≤ 64 → 49 ≤ v < 64 + 16 * 65.
Proof.
  intros H. pose proof (Z.quot_rem' (v - 64) 16).
  destruct (Z.le_gt_cases 0 (v - 64)).
  - pose proof (Z.rem_bound_pos (v - 64) 16 ltac:(lia) ltac:(lia)). lia.
  - pose proof (Z.rem_bound_pos_neg (v - 64) 16 ltac:(lia) ltac:(lia)). lia.
Qed.

Lemma check_header_spec port bpdu len :
  (frame_room ≤ length bpdu)%nat →
  wp (stp_in_check_bpdu_header port bpdu len) (header_result port bpdu).
Proof.
  unfold frame_room. intros Hl. unfold stp_in_check_bpdu_header.
  assert (R : ∀ c t, (c = 0 ↔ is_Some t) → t ≠ Some BPDU_MSTP → header_result port bpdu (c, t))
    by (intros c t Hc Ht; split; [exact Hc|intros E; by destruct Ht]).
  assert (Rej : ∀ c, c ≠ 0 → header_result port bpdu (c, None))
    by (intros c Hc; apply R; [split; [done|by intros []]|done]).
  assert (Acc : ∀ t, t ≠ BPDU_MSTP → header_result port bpdu (0, Some t))
    by (intros t Ht; apply R; [split; [by eexists|done]|congruence]).
  assert (B : (v3_off port.(configDigestSnp) + 2 ≤ length bpdu)%nat).
  { unfold v3_off, off_cisco_version_3_length, off_version_3_length. destruct (configDigestSnp port); lia. }
  case_match; [by apply Rej|].
  apply wp_bind, wp_rd16; [unfold off_len8023; lia|]. intros len8023.
  do 3 (case_match; [by apply Rej|]).
  do 3 (apply wp_bind, wp_rd8; [unfold off_dsap, off_ssap, off_llc; lia|]; intros ? _).
  case_match; [by apply Rej|].
  do 2 (apply wp_bind, wp_rd8; [unfold off_protocol; lia|]; intros ? _).
  case_match; [by apply Rej|].
  apply wp_bind, wp_rd8; [unfold off_bpdu_type; lia|]. intros type _.
  case_match; [case_match; [by apply Acc|by apply Rej]|].
  case_match; [case_match; [by apply Acc|by apply Rej]|].
  case_match; [|by apply Rej].
  apply wp_bind, wp_rd8; [unfold off_version; lia|]. intros version _.
  case_match; [by apply Acc|]. case_match; [|by apply Rej].
  destruct (wp_elim (rd16 bpdu (v3_off port.(configDigestSnp))) (fun _ => True)) as (v & Ev & _);
    [by apply wp_rd16|]. rewrite Ev. cbn [obind].
  apply wp_bind, wp_rd8; [unfold off_ver_1_len; lia|]. intros ver1 _. cbv zeta.
  case_match; [by apply Acc|]. case_match eqn:Em; [|by apply Rej].
  split; [by split; [by eexists|done]|]. intros _ v' Ev'. rewrite Ev in Ev'. injection Ev' as <-.
  bool_facts. apply quot_range. lia.
Qed.

(** ** Reception *)

Lemma frame_set_cur c st st' :
  frame st st' → frame (stp_in_set_cur_bpdu c st) (stp_in_set_cur_bpdu c st').
Proof. by intros []. Qed.

Lemma set_cur_none st : st.(g_curBPDU) = None → stp_in_set_cur_bpdu None st = st.
Proof. intros H. unfold stp_in_set_cur_bpdu. destruct st. simpl in *. by subst. Qed.

Lemma set_cur_ok p c st : cist_port_ok p st → cist_port_ok p (stp_in_set_cur_bpdu c st).
Proof. done. Qed.

Lemma classify_total st port stpm bpdu t :
  st.(stpm_heap) !! port.(owner) = Some stpm →
  wp (rx_classify st port bpdu t) (fun '(port', _) =>
    pshape port' = pshape port ∧ port'.(configDigestSnp) = port.(configDigestSnp) ∧
    port'.(owner) = port.(owner)).
Proof.
  intros H. unfold rx_classify. repeat case_match; try done.
  change ((port <| rx_rstp_bpdu_cnt := _ |>).(owner)) with port.(owner).
  rewrite (get_stpm_Some _ _ _ H). cbn [obind]. by case_match.
Qed.

(** What handing a frame to a port promises: the engine's frame, the current
    frame apart, and a state the receive machine can run on. *)
Lemma portinfo_rx_safe junk st p bpdu len :
  cist_port_ok p st → st.(g_curBPDU) = None → (frame_room ≤ length bpdu)%nat → junk ≠ BPDU_MSTP →
  wp (stp_portinfo_rx_bpdu junk st p bpdu len) (fun '(st', ret) =>
    frame st (stp_in_set_cur_bpdu None st') ∧ (ret = 0 → receive_ok p st')).
Proof.
  intros Ok Hn Hl Hj. destruct (Ok) as [[[W Ok'] [port H]] Hp]. unfold stp_portinfo_rx_bpdu.
  destruct (wf_port_owner _ _ _ W H) as (Ho & _ & stpm & Hs). rewrite <- Ho in Hs.
  assert (Sp : shaped st p port) by (by exists port).
  rewrite (get_port_Some _ _ _ H). cbn [obind].
  apply wp_bind. eapply wp_mono; [by apply check_header_spec|]. intros [ret w] [Hr Hm]. simpl in Hr, Hm.
  assert (Keep : ∀ s, frame st s → frame st (stp_in_set_cur_bpdu None s)).
  { intros s F. rewrite set_cur_none; [done|]. by rewrite (fr_cur _ _ F). }
  case_match; [split; [apply Keep; reflexivity|done]|].
  apply wp_bind. eapply wp_mono; [by eapply classify_total|]. intros [port1 ok] (Es & Ec & Eo).
  assert (F1 : ∀ x, pshape x = pshape port1 → frame st (put_port st p x)).
  { intros x Ex. eapply put_frame; [reflexivity|done|by rewrite Ex]. }
  destruct ok; cbn [negb]; [|split; [apply Keep; by apply F1|done]].
  unfold frame_room in Hl.
  apply wp_bind, wp_rd8; [unfold off_version; lia|]. intros v _.
  apply wp_bind, wp_rd8; [unfold off_bpdu_type; lia|]. intros t _.
  apply wp_bind, wp_rd8; [unfold off_flags; lia|]. intros f _. cbv zeta.
  set (st1 := put_port st p _). assert (G1 : frame st st1) by (by apply F1).
  set (rec := mkBpduRecord bpdu (default junk w) port1.(configDigestSnp)).
  assert (Fin : ∀ s ev, Forall plain ev → s = traced ev st1 → wp (Done (stp_in_set_cur_bpdu (Some rec) s, 0))
    (fun '(st', ret) => frame st (stp_in_set_cur_bpdu None st') ∧ (ret = 0 → receive_ok p st'))).
  { intros s ev Hpl ->. apply wp_Done.
    assert (F : frame st (traced ev st1)) by (by apply traced_frame; [apply plain_engine|]).
    split; [exact (Keep _ F)|]. intros _.
    assert (C : cist_port_ok p (stp_in_set_cur_bpdu (Some rec) (traced ev st1)))
      by (apply set_cur_ok; by eapply cist_port_ok_frame).
    split; [done|]. split; [by apply cist_ok_ready|]. intros cur q Ecur Eq.
    injection Ecur as <-. simpl in Eq. unfold st1, put_port in Eq. simpl in Eq.
    rewrite lookup_insert_eq in Eq. injection Eq as <-. split; [|done]. split; [simpl; unfold frame_room; lia|].
    simpl. intros Et. rewrite Ec. apply Hm. destruct w as [t'|]; simpl in Et; [by subst|done]. }
  case_match; [|by apply (Fin st1 []); [constructor|]].
  unfold rx_notify_tcn. apply wp_bind.
  destruct (same_stpm _ _ _ _ (fr_shape _ _ G1) Hs) as (stpm1 & Hs1 & _). rewrite Eo.
  rewrite (get_stpm_Some _ _ _ Hs1). cbn [obind].
  destruct (notify_tcn_spec stpm1.(STPM.ports) st1) as (ev & -> & _ & Hpl).
  { intros q Hq. destruct (wf_on_list st1 _ _ _ (wf_same _ _ (fr_shape _ _ G1) W) Hs1 Hq) as (_ & x & Hx).
    by exists x. }
  by apply (Fin _ ev).
Qed.

Lemma rx_bpdu_safe junk fuel st idx slot portno bpdu len :
  engine_ok st → st.(g_curBPDU) = None → (frame_room ≤ length bpdu)%nat → junk ≠ BPDU_MSTP →
  safe (stp_in_rx_bpdu junk fuel st idx slot portno bpdu len) (fun '(st', _) => frame st st').
Proof.
  intros Ok Hn Hl Hj. destruct (the_cist_ok st Ok) as (stpm & Hc & Hs & R).
  unfold stp_in_rx_bpdu. rewrite Hc. rewrite (get_stpm_Some _ _ _ Hs). cbn [obind].
  case_match; [exact (reflexivity st)|].
  assert (Hex : ∀ q, q ∈ stpm.(STPM.ports) → is_Some (st.(port_heap) !! q))
    by (intros q Hq; apply (proj1 (stpm_ports_ok _ _ _ _ R Hs Hq))).
  apply safe_bind. eapply (safe_mono _ (fun r => ∀ q, r = Some q → q ∈ stpm.(STPM.ports))).
  { apply safe_wp. case_match; (eapply wp_mono; [by apply find_port_total|]); intros r Hr q Eq;
      by destruct (Hr q Eq). }
  intros [p|] Hp; [|exact (reflexivity st)]. specialize (Hp p eq_refl).
  destruct (stpm_ports_ok _ _ _ _ R Hs Hp) as [Rp Ep]. destruct (proj2 Rp) as [port HP].
  assert (Sp : shaped st p port) by (by exists port).
  rewrite (get_port_Some _ _ _ HP). cbn [obind].
  case_match; [simpl; eapply put_frame; [reflexivity|done|done]|].
  match goal with |- context [put_port st p ?x] => set (port1 := x) end.
  assert (E1 : pshape port1 = pshape port) by (unfold port1; by case_match).
  assert (F1 : frame st (put_port st p port1)) by (by eapply put_frame).
  (* the flags of the port and of its chain *)
  assert (Hedge : wp (if port1.(operEdge) then upd_ports (p :: port1.(nextMst))
      (fun q => q <| operEdge := false |>) (put_port st p port1) else Done (put_port st p port1))
    (frame st)).
  { destruct port1.(operEdge); [|done].
    assert (Hq : ∀ q, q ∈ p :: port1.(nextMst) → is_Some ((put_port st p port1).(port_heap) !! q)).
    { intros q [->|Hq]%elem_of_cons; [by exists port1; apply put_port_lookup|].
      assert (E2 : port1.(nextMst) = port.(nextMst)) by (unfold port1; by case_match).
      rewrite E2 in Hq. destruct (wf_nextMst _ _ _ _ (proj1 Ok) HP Hq) as (_ & x & Hx).
      destruct (same_port _ _ _ _ (fr_shape _ _ F1) Hx) as (y & Hy & _). by exists y. }
    pose proof (upd_ports_map _ (fun q => q <| operEdge := false |>) _ Hq) as Hu.
    eapply wp_intro; [exact Hu|]. by eapply upd_ports_frame; [exact F1| |exact Hu]. }
  apply safe_bind, safe_wp. eapply wp_mono; [exact Hedge|]. intros st2 F2.
  destruct (same_port _ _ _ _ (fr_shape _ _ F2) HP) as (port2 & H2 & E2).
  pose (heard := fun q : PORT_T => q <| wasInitBpdu := true |>).
  pose proof (upd_port_alter st2 p heard port2 H2) as Hu.
  apply safe_bind, safe_wp. eapply wp_intro; [exact Hu|].
  pose proof (upd_port_frame st st2 _ p heard F2 (fun _ => eq_refl) Hu) as F3.
  set (st3 := st2 <| port_heap := _ |>) in *.
  assert (C3 : cist_port_ok p st3) by (eapply cist_port_ok_frame; [exact F3|by split]).
  assert (N3 : st3.(g_curBPDU) = None) by (by rewrite (fr_cur _ _ F3)).
  apply safe_bind, safe_wp. unfold stp_port_rx_bpdu.
  eapply wp_mono; [by apply portinfo_rx_safe|]. intros [st4 ret] [F4 Hr].
  assert (F5 : frame st (stp_in_set_cur_bpdu None st4)) by (by etransitivity).
  apply safe_bind. destruct (Z.eqb_spec ret 0) as [->|_]; [|exact F5].
  specialize (Hr eq_refl). eapply safe_mono; [apply mst_update_safe; [apply Hr|done]|].
  intros st5 F6. simpl. etransitivity; [exact F5|by apply frame_set_cur].
Qed.

(** ** Configuration *)

(** The ranges of IEEE 802.1D 17.14 that a configuration must respect; the
    timers are those of the CIST. *)
Definition cfg_ok (c : UID_STP_CFG_T) (mstid : Z) : Prop :=
  0 ≤ c.(bridge_priority) ≤ 61440 ∧ 6 ≤ c.(maxhops) ≤ 40 ∧
  (mstid = STP_CIST_ID →
   1 ≤ c.(cfg_hello_time) ≤ 10 ∧ 6 ≤ c.(cfg_max_age) ≤ 40 ∧ 4 ≤ c.(cfg_forward_delay) ≤ 30 ∧
   2 * (c.(cfg_hello_time) + 1) ≤ c.(cfg_max_age) ≤ 2 * (c.(cfg_forward_delay) - 1)).

Lemma check_config_spec c mstid : stp_in_check_stpm_config c mstid = 0 ↔ cfg_ok c mstid.
Proof.
  unfold stp_in_check_stpm_config, cfg_ok, MIN_BR_PRIO, MAX_BR_PRIO, MIN_REMAINING_HOPS,
    MAX_REMAINING_HOPS, MIN_BR_HELLOT, MAX_BR_HELLOT, MIN_BR_MAXAGE, MAX_BR_MAXAGE, MIN_BR_FWDELAY,
    MAX_BR_FWDELAY, STP_CIST_ID.
  repeat case_match; bool_facts; (split; [intros E; try (by vm_compute in E)|intros (? & ? & HH)]); try done; try split_and!; lia.
Qed.

(** The configuration a request asks for. *)
Definition requested (this : STPM_T) (uid : UID_STP_CFG_T) : UID_STP_CFG_T :=
  merge_cfg (stp_in_stpm_get_cfg this) uid.

(** Only [mcheck] of some ports may differ. *)
Definition only_mcheck (st st' : STP_T) : Prop :=
  st'.(stpm_heap) = st.(stpm_heap) ∧ st'.(trace) = st.(trace) ∧
  ∀ q port, st.(port_heap) !! q = Some port →
    ∃ c, st'.(port_heap) !! q = Some (port <| mcheck := c |>).

Lemma mcheck_loop_spec st b stpm (on : bool) :
  wf st → st.(stpm_heap) !! b = Some stpm →
  ∃ st', (if on then upd_ports stpm.(STPM.ports) (fun port => port <| mcheck := true |>) st
          else Done st) = Done st' ∧ only_mcheck st st' ∧ same_shape st st'.
Proof.
  intros W H.
  destruct on.
  2:{ exists st. split; [done|]. split; [|done]. unfold only_mcheck. split_and!; [done..|].
      intros q port Hq. exists port.(mcheck). by rewrite Hq. }
  rewrite upd_ports_map by (intros q Hq; destruct (wf_on_list _ _ _ _ W H Hq) as (_ & x & ?); by exists x).
  eexists. split; [done|]. split; [|by apply map_ports_shape].
  unfold only_mcheck. split_and!; [done..|]. intros q port Hq. simpl. destruct (decide (q ∈ stpm.(STPM.ports))) as [Hin|Hin].
  - exists true. rewrite map_ports_in by (done || by eapply wf_list_nodup). by rewrite Hq.
  - exists port.(mcheck). rewrite map_ports_notin by done. by rewrite Hq.
Qed.

(** ** Properties *)

(** [stp_in_check_bpdu_header] never reads outside a receive buffer that has
    room for an MSTP frame; it writes the type of the frame exactly when it
    returns 0, and it accepts a frame as MSTP only when the length field
    announces at most 64 MSTI messages. *)
Theorem header_check_bounds_messages port bpdu len :
  (frame_room ≤ length bpdu)%nat →
  wp (stp_in_check_bpdu_header port bpdu len) (header_result port bpdu).
Proof. exact (check_header_spec port bpdu len). Qed.

(** C12: receiving any bytes on any port, in a buffer with room for the largest
    MSTP frame, as the socket of the switch has, keeps the bridge well formed, when
    it is and the tables of speeds and duplex modes hold values of their enumerations
    ([engine_ok]):
    [stp_in_rx_bpdu], with all the state machines it runs, follows no NULL or
    dangling pointer of the bridge and reads nothing outside that buffer,
    provided the type of a frame the header check rejects, which is never
    assigned, is not by chance that of an MSTP frame.  The accesses outside other
    blocks, when it answers, are those of the engine.  The buffer of a frame of
    the kernel has less room, and is not covered. *)
Theorem reception_stays_in_a_full_buffer junk fuel st idx slot portno bpdu len :
  engine_ok st → st.(g_curBPDU) = None → (frame_room ≤ length bpdu)%nat → junk ≠ BPDU_MSTP →
  safe (stp_in_rx_bpdu junk fuel st idx slot portno bpdu len) (fun '(st', _) =>
    frame st st' ∧ adds (engine_event (crowded st)) st st').
Proof.
  intros Ok Hn Hl Hj. eapply safe_mono; [by apply rx_bpdu_safe|].
  intros [st' r] F. split; [done|apply (fr_trace _ _ F)].
Qed.

(** A frame with an impossible 802.3 length and an impossible number of MSTI
    messages. *)
Definition bad_frame : list Z :=
  <[12%nat := 255]> (<[13%nat := 255]> (<[53%nat := 255]> (<[54%nat := 255]> ex_frame.1))).

(** the caller of the header check rejects only negative codes, while the
    malformed frames get positive ones.  Such a frame is processed with an
    indeterminate type: it can become the bridge's root information, and if the
    type happens to be that of an MSTP frame, the decoder reads outside the
    buffer. *)
Theorem malformed_frame_is_processed :
  stp_in_check_bpdu_header (ex_port (0, 2)) bad_frame ex_frame.2 =
    Done (STP_Big_len8023_Format, None) ∧
  (∃ st' port', stp_in_rx_bpdu BPDU_RSTP 60 ex_st 2 0 0 bad_frame ex_frame.2 = Done (st', 0) ∧
     st'.(port_heap) !! (0, 2) = Some port' ∧ port'.(role) = RootPort ∧ port'.(infoIs) = Received) ∧
  stp_in_rx_bpdu BPDU_MSTP 60 ex_st 2 0 0 bad_frame ex_frame.2 = Segv.
Proof.
  split; [by_compute|]. split; [|by_compute].
  destruct (stp_in_rx_bpdu BPDU_RSTP 60 ex_st 2 0 0 bad_frame ex_frame.2) as [[st' r]| |] eqn:E;
    [|by vm_compute in E..].
  set (view := fun s : STP_T => (fun x => (x.(role), x.(infoIs))) <$> s.(port_heap) !! (0, 2)).
  assert (V : (r, view st') = (0, Some (RootPort, Received))).
  { transitivity ((fun '(s, r) => (r, view s)) (value (ex_st, -1)
      (stp_in_rx_bpdu BPDU_RSTP 60 ex_st 2 0 0 bad_frame ex_frame.2)));
      [rewrite E; reflexivity|by_compute]. }
  injection V as -> V. apply fmap_Some in V as (port' & H & V). injection V as V1 V2.
  exists st', port'. split_and!; congruence.
Qed.

(** [stp_in_check_stpm_config] accepts exactly the configurations within the
    ranges of IEEE 802.1D: priority and hop count for every instance, and for the
    CIST also the timers with the relation
    [2 * (Hello + 1) <= MaxAge <= 2 * (ForwardDelay - 1)]. *)
Theorem config_check_is_exact c mstid :
  stp_in_check_stpm_config c mstid = 0 ↔ cfg_ok c mstid.
Proof. exact (check_config_spec c mstid). Qed.

(** a configuration that fails the check is not stored: no instance changes
    and nothing is sent; of the ports at most [mcheck] is changed, which is set
    before the check. *)
Theorem rejected_config_changes_nothing fuel st b stpm uid :
  wf st → st.(stpm_heap) !! b = Some stpm → ~ cfg_ok (requested stpm uid) b →
  ∃ st' rc, stp_in_stpm_set_cfg fuel st b uid = Done (st', rc) ∧ rc ≠ 0 ∧ only_mcheck st st'.
Proof.
  intros W H Hc. unfold stp_in_stpm_set_cfg. rewrite (get_stpm_Some _ _ _ H). cbn [obind].
  destruct (mcheck_loop_spec st b stpm (in_mask BR_CFG_FORCE_VER uid.(field_mask) &&
    (DEF_FORCE_VERS <=? uid.(force_version))) W H) as (st' & -> & Ho & _). cbn [obind].
  rewrite (wf_stpm_vlan _ _ _ W H). fold (requested stpm uid).
  rewrite <- check_config_spec in Hc. rewrite (proj2 (Z.eqb_neq _ _) Hc). cbn [negb].
  eexists _, _. split; [done|]. by split.
Qed.

(** A request to disable an instance drops every other field it carries:
    [field_mask &= ! BR_CFG_STATE] clears the whole mask, and the function
    returns with the configuration of the instance unchanged. *)
Theorem disable_request_drops_other_fields fuel st b stpm uid :
  wf st → st.(stpm_heap) !! b = Some stpm → cfg_ok (requested stpm uid) b →
  in_mask BR_CFG_STATE uid.(field_mask) = true → uid.(stp_enabled) = STP_DISABLED →
  ∃ st', stp_in_stpm_set_cfg fuel st b uid = Done (st', 0) ∧
    st'.(stpm_heap) !! b = Some (stpm <| STPM.admin_state := STP_DISABLED |>).
Proof.
  intros W H Hc Hm He. unfold stp_in_stpm_set_cfg. rewrite (get_stpm_Some _ _ _ H). cbn [obind].
  destruct (mcheck_loop_spec st b stpm (in_mask BR_CFG_FORCE_VER uid.(field_mask) &&
    (DEF_FORCE_VERS <=? uid.(force_version))) W H) as (st' & -> & (Hs & _) & _). cbn [obind].
  rewrite (wf_stpm_vlan _ _ _ W H). fold (requested stpm uid).
  rewrite (proj2 (check_config_spec _ _) Hc), Hm, He. rewrite bool_decide_true by done.
  change (negb (0 =? 0)) with false. cbn [andb].
  assert (H' : st'.(stpm_heap) !! b = Some stpm) by (by rewrite Hs).
  unfold stp_stpm_enable. rewrite (get_stpm_Some _ _ _ H'). cbn [obind]. case_bool_decide as E.
  - exists st'. split; [done|]. rewrite H', E. by destruct stpm.
  - unfold stp_stpm_stop, set_admin_state. rewrite (get_stpm_Some _ _ _ H'). cbn [obind].
    rewrite get_put_stpm. cbn [obind]. eexists. split; [done|]. simpl. apply lookup_insert_eq.
Qed.

Lemma land_range x m k : 0 ≤ x → 0 ≤ m < 2 ^ k → 0 ≤ Z.land x m ≤ m.
Proof.
  intros Hx Hm. split; [apply Z.land_nonneg; by left|].
  destruct (Z.eq_dec m 0) as [->|Hm0]; [by rewrite Z.land_0_r|].
  apply Z.ldiff_le; [lia|]. apply Z.bits_inj'. intros n Hn.
  rewrite Z.ldiff_spec, Z.land_spec, Z.bits_0. by destruct (Z.testbit x n), (Z.testbit m n).
Qed.

(** an accepted configuration of the stopped CIST is in force afterwards:
    reading the configuration gives back the requested timers, hop count and
    protocol version, and of the priority the four bits that can be set, beside
    the low bits the bridge identifier had. *)
Theorem accepted_config_reads_back fuel st stpm uid :
  wf st → st.(stpm_heap) !! STP_CIST_ID = Some stpm → stpm.(STPM.admin_state) = STP_DISABLED →
  in_mask BR_CFG_STATE uid.(field_mask) = false →
  cfg_ok (requested stpm uid) STP_CIST_ID →
  0 ≤ stpm.(STPM.BrId).(prio) < 65536 →
  ∃ st' stpm', stp_in_stpm_set_cfg fuel st STP_CIST_ID uid = Done (st', 0) ∧
    st'.(stpm_heap) !! STP_CIST_ID = Some stpm' ∧
    let got := stp_in_stpm_get_cfg stpm' in let req := requested stpm uid in
    got.(cfg_max_age) = req.(cfg_max_age) ∧ got.(cfg_hello_time) = req.(cfg_hello_time) ∧
    got.(cfg_forward_delay) = req.(cfg_forward_delay) ∧ got.(maxhops) = req.(maxhops) ∧
    got.(force_version) = req.(force_version) ∧
    got.(bridge_priority) = Z.land stpm.(STPM.BrId).(prio) 0xfff + Z.land req.(bridge_priority) 0xf000.
Proof.
  intros W H Ha Hm Hc Hp. unfold stp_in_stpm_set_cfg. rewrite (get_stpm_Some _ _ _ H). cbn [obind].
  destruct (mcheck_loop_spec st STP_CIST_ID stpm (in_mask BR_CFG_FORCE_VER uid.(field_mask) &&
    (DEF_FORCE_VERS <=? uid.(force_version))) W H) as (st' & -> & (Hs & _) & _). cbn [obind].
  rewrite (wf_stpm_vlan _ _ _ W H). fold (requested stpm uid).
  rewrite (proj2 (check_config_spec _ _) Hc), Hm. change (negb (0 =? 0)) with false. cbn [andb obind].
  change (negb (0 =? 0)) with false. cbn match. rewrite get_put_stpm. cbn [obind].
  change ((store_cfg (requested stpm uid) stpm).(STPM.admin_state)) with stpm.(STPM.admin_state).
  rewrite Ha. change (STP_DISABLED <>e STP_DISABLED) with false. cbn match.
  eexists _, _. split; [done|]. split; [apply lookup_insert_eq|]. cbv zeta.
  destruct Hc as (C1 & C2 & C3). destruct (C3 eq_refl) as (C4 & C5 & C6 & _).
  pose proof (land_range stpm.(STPM.BrId).(prio) 0xfff 16 ltac:(lia) ltac:(lia)).
  pose proof (land_range (requested stpm uid).(bridge_priority) 0xf000 16 ltac:(lia) ltac:(lia)).
  unfold stp_in_stpm_get_cfg, store_cfg. cbn -[u16 u8 Z.land requested Z.add].
  split_and!; try done; first [apply u16_small; lia|apply u8_small; lia].
Qed.

(** *** Witnesses *)

Lemma ex_engine_ok : engine_ok ex_st.
Proof. split_and!; [decide_wf|split; intros; discriminate|by eexists]. Qed.

Lemma header_check_bounds_messages_witness :
  (frame_room ≤ length ex_frame.1)%nat ∧
  wp (stp_in_check_bpdu_header (ex_port (0, 2)) ex_frame.1 ex_frame.2)
    (header_result (ex_port (0, 2)) ex_frame.1).
Proof.
  assert (H : (frame_room ≤ length ex_frame.1)%nat) by by_decision.
  exact (conj H (header_check_bounds_messages (ex_port (0, 2)) ex_frame.1 ex_frame.2 H)).
Defined.

Lemma reception_stays_in_a_full_buffer_witness :
  safe (stp_in_rx_bpdu 0 60 ex_st 2 0 0 ex_frame.1 ex_frame.2) (fun '(st', _) =>
    frame ex_st st' ∧ adds (engine_event (crowded ex_st)) ex_st st').
Proof.
  exact (reception_stays_in_a_full_buffer 0 60 ex_st 2 0 0 ex_frame.1 ex_frame.2 ex_engine_ok eq_refl
    ltac:(by_decision) ltac:(done)).
Defined.

Definition built_stpm : STPM_T := default (calloc_stpm 0) (ex_built.(stpm_heap) !! 0).
(** Priority 4096 and ForwardDelay 16; and an inconsistent MaxAge of 40. *)
Definition good_cfg : UID_STP_CFG_T := mkStpCfg 0x12 STP_DISABLED 4096 0 0 16 0 0 0.
Definition wrong_cfg : UID_STP_CFG_T := mkStpCfg 0x4 STP_DISABLED 0 40 0 0 0 0 0.
Definition disable_cfg : UID_STP_CFG_T := mkStpCfg 0x13 STP_DISABLED 4096 0 0 16 0 0 0.

Lemma built_wf : wf ex_built.
Proof. decide_wf. Qed.

Lemma rejected_config_changes_nothing_witness :
  ∃ st' rc, stp_in_stpm_set_cfg 60 ex_built 0 wrong_cfg = Done (st', rc) ∧ rc ≠ 0 ∧
    only_mcheck ex_built st'.
Proof.
  refine (rejected_config_changes_nothing 60 ex_built 0 built_stpm wrong_cfg built_wf
    ltac:(by_compute) _).
  intros E. rewrite <- check_config_spec in E. by vm_compute in E.
Defined.

Lemma disable_request_drops_other_fields_witness :
  ∃ st', stp_in_stpm_set_cfg 60 ex_st 0 disable_cfg = Done (st', 0) ∧
    st'.(stpm_heap) !! 0 = Some ((ex_stpm 0) <| STPM.admin_state := STP_DISABLED |>).
Proof.
  refine (disable_request_drops_other_fields 60 ex_st 0 (ex_stpm 0) disable_cfg
    (proj1 ex_engine_ok) ltac:(by_compute) _ ltac:(by_compute) ltac:(by_compute)).
  rewrite <- check_config_spec. by_compute.
Defined.

Lemma accepted_config_reads_back_witness :
  ∃ st' stpm', stp_in_stpm_set_cfg 60 ex_built 0 good_cfg = Done (st', 0) ∧
    st'.(stpm_heap) !! 0 = Some stpm' ∧
    (stp_in_stpm_get_cfg stpm').(cfg_forward_delay) = 16.
Proof.
  assert (Hc : cfg_ok (requested built_stpm good_cfg) 0) by (rewrite <- check_config_spec; by_compute).
  destruct (accepted_config_reads_back 60 ex_built built_stpm good_cfg built_wf ltac:(by_compute)
    ltac:(by_compute) ltac:(by_compute) Hc ltac:(by_decision)) as (st' & stpm' & E & H & _ & _ & Hf & _).
  exists st', stpm'. split; [exact E|]. split; [exact H|]. rewrite Hf. by_compute.
Defined.
