(* ===== verification/StpRequestSafety.v ===== *)
(** * Memory safety of requests

    Every request that respects [request_ok] keeps the state of a running daemon
    well formed, and fails nowhere: each handler is taken apart into the steps
    whose safety the files before this one show. *)

From Stdlib Require Import ZArith Lia.
From stdpp Require Import base gmap list option.
From S2P Require Import Prelude StpTypes StpMd5 StpBpdu StpVector StpTo StpHeap StpStatmch StpPort StpRoletrns StpTransmit StpFrame StpReceive StpStpm StpSafety StpIn StpMgmt StpCommand StpUid StpManage StpDaemon StpMd5Props StpMgmtSafety StpClear StpRequest StpInProps.

(** The condition of the next test. *)
Ltac safe_if :=
  match goal with |- safe (if ?c then _ else _) _ => destruct c eqn:? end.

(** ** Steps of the engine's part *)

(** What a handler may do to it. *)
Definition kept (st st' : STP_T) : Prop := daemon_ok st' ∧ keeps st st'.

Lemma kept_refl st : daemon_ok st → kept st st.
Proof. by split. Qed.

Lemma kept_trans a b c : kept a b → kept b c → kept a c.
Proof. intros [_ K] [D K']. split; [done|]. by etransitivity. Qed.

Lemma kept_frame st st' : daemon_ok st → frame st st' → kept st st'.
Proof. intros D F. split; [by eapply daemon_ok_frame|by apply frame_keeps]. Qed.

Lemma kept_after st s s' : kept st s → frame s s' → kept st s'.
Proof. intros K F. eapply kept_trans; [exact K|]. apply kept_frame; [apply K|done]. Qed.

Lemma mgmt_start m : mgmt_ok m → start_ok m.(core).
Proof. intros M. destruct (mgmt_cist _ M) as [x Hx]. eapply daemon_start_ok; [apply M|by exists x]. Qed.

(** A CIST there was is still there, so that the engine may run. *)
Lemma kept_start st st' : start_ok st → is_Some (st.(stpm_heap) !! STP_CIST_ID) → kept st st' →
  start_ok st' ∧ is_Some (st'.(stpm_heap) !! STP_CIST_ID).
Proof.
  intros _ Hc [D K]. apply (keeps_instance st st' _ K) in Hc. split; [|done].
  by eapply daemon_start_ok.
Qed.

Lemma mgmt_ok_kept m st : mgmt_ok m → kept m.(core) st → mgmt_ok (m <| core := st |>).
Proof. intros M [D K]. by apply mgmt_ok_core. Qed.

Lemma in_core_safe {A} (f : STP_T → outcome (STP_T * A)) m :
  mgmt_ok m → safe (f m.(core)) (fun r => kept m.(core) r.1) →
  safe (in_core f m) (fun '(m', _) => mgmt_ok m').
Proof.
  intros M H. unfold in_core. apply safe_bind. eapply safe_mono; [exact H|].
  intros [st a] K. by apply mgmt_ok_kept.
Qed.

Lemma in_core_frame {A} (f : STP_T → outcome (STP_T * A)) m :
  mgmt_ok m → safe (f m.(core)) (fun r => frame m.(core) r.1) →
  safe (in_core f m) (fun '(m', _) => mgmt_ok m').
Proof.
  intros M H. apply in_core_safe; [done|]. eapply safe_mono; [exact H|]. intros r. apply kept_frame, M.
Qed.

(** ** Stores in the tables *)

Lemma links_kept st l : daemon_ok st → length l = 9%nat → kept st (st <| enabled_ports := l |>).
Proof. intros (W & C & T & _ & N) Hl. split; [by split_and!|by split]. Qed.

Lemma speed_kept st t idx speed :
  daemon_ok st → st.(port_speed_s) = Some t → 0 ≤ speed ≤ 6 →
  kept st (st <| port_speed_s := Some (<[idx := (idx, speed)]> t) |>).
Proof.
  intros (W & C & [T1 T2] & L & N) Ht Hs. split; [|split; try done; intros _; by eexists].
  split_and!; try done. split; [|done].
  intros t' i k s [= <-] [[_ [= _ <-]]|[_ Hi]]%lookup_insert_Some; [done|by eapply T1].
Qed.

Lemma duplex_kept st t idx mode :
  daemon_ok st → st.(port_duplex_mode_nodes) = Some t → 0 ≤ mode ≤ 1 →
  kept st (st <| port_duplex_mode_nodes := Some (<[idx := mode]> t) |>).
Proof.
  intros (W & C & [T1 T2] & L & N) Ht Hs. split; [|by split]. split_and!; try done. split; [done|].
  intros t' i s [= <-] [[_ <-]|[_ Hi]]%lookup_insert_Some; [done|by eapply T2].
Qed.

Lemma port_init_kept st : daemon_ok st → kept st (stp_in_port_global_init st).
Proof.
  intros (W & C & [T1 T2] & L & N).
  split; [|split; try done; intros [t Et]; simpl; rewrite Et; by exists t]. split_and!; try done.
  split; simpl.
  - intros t i k s. destruct st.(port_speed_s) eqn:E; [apply T1|]. intros [= <-] H.
    by rewrite lookup_empty in H.
  - intros t i s. destruct st.(port_duplex_mode_nodes) eqn:E; [apply T2|]. intros [= <-] H.
    by rewrite lookup_empty in H.
Qed.

Lemma port_fits_bits st bm idx :
  port_fits st idx = true → length bm = 9%nat →
  wp (stp_bitmap_set_bit st bm idx) (fun bm' => length bm' = 9%nat) ∧
  wp (stp_bitmap_clear_bit st bm idx) (fun bm' => length bm' = 9%nat).
Proof.
  unfold port_fits, stp_bitmap_set_bit, stp_bitmap_clear_bit.
  destruct (bit_position _ _ _) as [index byte]. intros H Hl. bool_facts.
  destruct (part_Some bm index) as (v & -> & _); [done..|]. cbn [obind].
  split; case_match; simpl; by rewrite ?length_insert.
Qed.

Lemma port_fits_index st idx : port_fits st idx = true →
  index_ok st.(productId) st.(stp_is_distributed) idx = true ∧ 0 ≤ idx < PORT_INDEX_MAX.
Proof.
  unfold port_fits. intros H. apply andb_true_iff in H as [H _]. apply andb_true_iff in H as [Hi Hm].
  destruct (index_ok_range _ _ _ Hi) as [Hr _]. apply Z.ltb_lt in Hm. split; [done|]. lia.
Qed.

(** ** Link events *)

Section Links.
Context (wan_br : Z → Z → option (Z * Z)).

Lemma in_enable_port_safe fuel st idx enable link speed wan slot portno :
  start_ok st → daemon_ok st → is_Some st.(port_speed_s) →
  0 ≤ idx < PORT_INDEX_MAX → (enable = true → 0 ≤ speed ≤ 6) →
  safe (stp_in_enable_port_on_stpm wan_br fuel st idx enable link speed wan slot portno)
    (fun r => kept st r.1).
Proof.
  intros Os D Ht Hi Hs. unfold stp_in_enable_port_on_stpm. apply safe_bind.
  eapply (safe_mono _ (fun st' => kept st st' ∧ start_ok st')).
  - destruct enable; [|by split; [apply kept_refl|]]. assert (Hr := Hs eq_refl).
    destruct st.(port_speed_s) as [t|] eqn:Et; [|by split; [apply kept_refl|]].
    destruct (Z.leb_spec 0 idx); [|lia]. destruct (Z.ltb_spec idx PORT_INDEX_MAX); [|lia]. simpl.
    assert (K := speed_kept st t idx speed D Et Hr). split; [done|].
    destruct Os as [(W & _ & C) (L & N)]. destruct K as [(_ & _ & T & _) _]. by split_and!.
  - intros st' [K Os']. eapply safe_mono; [apply enable_port_safe; [done| |done]|].
    + by apply (kp_tables _ _ (proj2 K)).
    + intros r. by apply kept_after.
Qed.

Lemma duplex_mode_safe st idx mode :
  daemon_ok st → 0 ≤ idx < PORT_INDEX_MAX → 0 ≤ mode ≤ 1 →
  wp (stp_param_set_port_duplex_mode st idx mode) (fun r => kept st r.1).
Proof.
  intros D Hi Hm. unfold stp_param_set_port_duplex_mode.
  destruct st.(port_duplex_mode_nodes) as [t|] eqn:Et; [|by apply kept_refl].
  destruct (Z.leb_spec 0 idx); [|lia]. destruct (Z.ltb_spec idx PORT_INDEX_MAX); [|lia]. simpl.
  assert (K := duplex_kept st t idx mode D Et Hm). case_match; [|exact K].
  apply wp_bind. eapply wp_mono; [apply each_enabled_port_safe; [apply K|done]|].
  intros st' F. apply wp_Done. by eapply kept_after.
Qed.

Lemma link_state_safe fuel st idx state speed duplex wan slot portno :
  start_ok st → daemon_ok st → is_Some (st.(stpm_heap) !! STP_CIST_ID) →
  (st.(g_flag) = true → is_Some st.(port_speed_s)) →
  port_fits st idx = true → 0 ≤ speed ≤ 6 → 0 ≤ duplex ≤ 1 →
  safe (stp_npd_cmd_set_param_by_link_state wan_br fuel st idx state speed duplex wan slot portno)
    (fun r => kept st r.1).
Proof.
  intros Os D Hc Ht Hf Hs Hd. unfold stp_npd_cmd_set_param_by_link_state.
  destruct (port_fits_bits st st.(enabled_ports) idx Hf) as [H1 H2]; [apply D|].
  apply safe_bind, safe_wp.
  assert (H : wp (if state =? LINK_PORT_UP_E then stp_bitmap_set_bit st st.(enabled_ports) idx
    else stp_bitmap_clear_bit st st.(enabled_ports) idx) (fun bm => length bm = 9%nat)) by (by case_match).
  eapply wp_mono; [exact H|]. intros links Hl. assert (K := links_kept st links D Hl).
  destruct (kept_start _ _ Os Hc K) as [Os' Hc']. safe_if; [exact K|].
  destruct (port_fits_index _ _ Hf) as [_ Hi]. apply safe_bind. bool_facts.
  eapply safe_mono; [apply in_enable_port_safe; [done|apply K|by apply Ht|done..]|].
  intros [st1 rc] K1. cbn [fst] in K1. apply safe_bind, safe_wp.
  eapply wp_mono; [apply duplex_mode_safe; [apply K1|done..]|].
  intros [st2 rc'] K2. simpl in *. eapply kept_trans; [exact K|]. by eapply kept_trans.
Qed.

(** Enabling and disabling a port. *)
Lemma port_enable_safe info fuel st idx lk speed wan slot portno :
  start_ok st → daemon_ok st → is_Some (st.(stpm_heap) !! STP_CIST_ID) →
  (st.(g_flag) = true → is_Some st.(port_speed_s)) →
  port_fits st idx = true → 0 ≤ speed ≤ 6 →
  safe (stp_param_set_stpm_port_enable wan_br info fuel st idx lk speed wan slot portno)
    (fun r => kept st r.1).
Proof.
  intros Os D Hc Ht Hf Hs. unfold stp_param_set_stpm_port_enable.
  safe_if; [by apply kept_refl|]. destruct info as [en|]; [|by apply kept_refl]. bool_facts.
  destruct (port_fits_index _ _ Hf) as [_ Hi]. rewrite ports_entry_in by done.
  destruct (port_fits_bits st st.(enabled_ports) idx Hf) as [H1 _]; [apply D|].
  apply safe_bind, safe_wp.
  assert (Hw : wp (if lk =? 0 then stp_bitmap_set_bit st st.(enabled_ports) idx
    else Done st.(enabled_ports)) (fun bm => length bm = 9%nat)) by (case_match; [done|apply D]).
  eapply wp_mono; [exact Hw|]. intros links Hl. assert (K := links_kept st links D Hl).
  destruct (kept_start _ _ Os Hc K) as [Os' Hc']. destruct en; [exact K|].
  apply safe_bind. eapply safe_mono; [apply in_enable_port_safe; [done|apply K|by apply Ht|done..]|].
  intros [st1 rc] K1. simpl in *. by eapply kept_trans.
Qed.

Lemma port_disable_safe info fuel st idx lk speed wan slot portno :
  start_ok st → daemon_ok st → (st.(g_flag) = true → is_Some st.(port_speed_s)) →
  0 ≤ idx < PORT_INDEX_MAX →
  safe (stp_param_set_stpm_port_disable wan_br info fuel st idx lk speed wan slot portno)
    (fun r => kept st r.1).
Proof.
  intros Os D Ht Hi. unfold stp_param_set_stpm_port_disable.
  safe_if; [by apply kept_refl|]. destruct info as [en|]; [|by apply kept_refl]. bool_facts.
  rewrite ports_entry_in by done. safe_if; [by apply kept_refl|]. apply safe_bind.
  eapply safe_mono; [apply in_enable_port_safe; [done|done|by apply Ht|done..]|]. intros [st1 rc] K1. exact K1.
Qed.
End Links.

(** ** Parameters *)

Section Params.
Context (uninit : Z).

Lemma set_cfg_instances_safe fuel st0 l uid st :
  start_ok st0 → (∀ b, b ∈ l → is_Some (st0.(stpm_heap) !! b)) → frame st0 st →
  safe (set_cfg_instances uninit fuel st l uid) (fun r => frame st0 r.1).
Proof.
  revert st. induction l as [|b l IH]; intros st Os Hl F; cbn [set_cfg_instances]; [done|].
  apply safe_bind. destruct (Hl b ltac:(left)) as [x Hx].
  destruct (same_stpm _ _ _ _ (fr_shape _ _ F) Hx) as (y & Hy & _).
  eapply safe_mono; [apply set_cfg_safe; [by eapply start_ok_frame|by exists y]|].
  intros [st1 rc] F1. simpl in F1. assert (F2 := transitivity F F1). case_match; [exact F2|].
  apply IH; [done| |done]. intros c Hc. apply Hl. by right.
Qed.

Lemma bridge_cfg_safe fuel st mstid value mask :
  start_ok st → safe (stp_param_set_bridge_cfg_value uninit fuel st mstid value mask) (fun r => frame st r.1).
Proof.
  intros Os. assert (W := proj1 (proj1 Os)). unfold stp_param_set_bridge_cfg_value.
  destruct (bridge_cfg value mask) as [uid|]; [|exact (reflexivity st)]. case_match.
  { apply set_cfg_instances_safe; [done| |done]. intros b. by apply instances_exist. }
  rewrite (get_instance_spec st mstid W). cbn [obind].
  case_decide as Hd; [|exact (reflexivity st)]. apply safe_bind.
  eapply safe_mono; [by apply set_cfg_safe|]. intros [st1 rc] F. by case_match.
Qed.

Lemma port_cfg_chain_safe fuel st0 l uid st rc :
  start_ok st0 → (∀ q, q ∈ l → is_Some (st0.(port_heap) !! q)) → frame st0 st →
  safe (set_port_cfg_chain fuel st l uid rc) (fun r => frame st0 r.1).
Proof.
  revert st rc. induction l as [|q l IH]; intros st rc Os Hl F; cbn [set_port_cfg_chain]; [done|].
  apply safe_bind. destruct (Hl q ltac:(left)) as [x Hx].
  destruct (same_port _ _ _ _ (fr_shape _ _ F) Hx) as (y & Hy & _).
  eapply safe_mono; [apply set_port_cfg_safe; [by eapply start_ok_frame|by exists y]|].
  intros [st1 rc1] F1. simpl in F1. apply IH; [done| |by etransitivity].
  intros c Hc. apply Hl. by right.
Qed.

Lemma chain_after_incl p l q : q ∈ chain_after p l → q ∈ l.
Proof.
  induction l as [|r l IH]; simpl; [done|]. case_match; [by right|]. intros Hq. right. by apply IH.
Qed.

Lemma rest_of_chain_spec st p :
  wf st → chained (shape st) → is_Some (st.(port_heap) !! p) →
  wp (rest_of_chain st p) (fun l => ∀ q, q ∈ l → is_Some (st.(port_heap) !! q)).
Proof.
  intros W C [port H]. unfold rest_of_chain. destruct (Z.eqb_spec p.1 STP_CIST_ID) as [|Hne].
  - rewrite (get_port_Some _ _ _ H). intros q Hq. by destruct (wf_nextMst _ _ _ _ W H Hq).
  - destruct (C p _ (shape_port _ _ _ H) Hne) as (c & y & Hc & Hy & _).
    apply shape_port_inv in Hy as (head & Hh & ->).
    change (st.(g_CISTPORT) !! stp_port_global_index_parse st p.2 = Some c) in Hc. rewrite Hc.
    cbn [deref obind]. rewrite (get_port_Some _ _ _ Hh). intros q Hq%chain_after_incl.
    by destruct (wf_nextMst _ _ _ _ W Hh Hq).
Qed.

(** What was asked of a port is recorded. *)
Lemma record_port_kept mstid idx mask st :
  daemon_ok st → mstid ≤ STP_MSTI_MAX → kept st (record_port_cfg mstid idx mask st).
Proof.
  intros D Hm. destruct (ports_entry_spec idx st) as [K1 D1]. unfold record_port_cfg.
  destruct (info_array_spec mstid (stp_ports_entry idx st) Hm) as [K2 D2].
  eapply kept_trans; [exact (conj (D1 D) K1)|]. eapply kept_trans; [exact (conj (D2 (D1 D)) K2)|].
  case_match; [|by apply kept_refl, D2, D1].
  destruct (info_array_spec mstid (access INFO_ARRAY MAX_MST_ID (mstid + 1) (stp_ports_entry idx st)) Hm)
    as [K3 D3]. split; [auto|done].
Qed.

Lemma port_cfg_safe recorded fuel st mstid idx value mask :
  daemon_ok st → start_ok st →
  safe (stp_param_set_port_cfg_value uninit recorded fuel st mstid idx value mask) (fun r => kept st r.1).
Proof.
  intros D Os. assert (W := proj1 D). unfold stp_param_set_port_cfg_value.
  destruct (port_cfg value mask) as [uid|]; [|by apply kept_refl].
  destruct (wp_elim _ _ (findport_spec st mstid idx W)) as (r & -> & Hr). cbn [obind].
  destruct r as [p|]; [|by apply kept_refl]. destruct (Hr p eq_refl) as [Ep Hp].
  apply safe_bind. eapply safe_mono; [by apply set_port_cfg_safe|]. intros [st1 rc1] F1. simpl in F1.
  assert (D1 := daemon_ok_frame _ _ F1 D). apply safe_bind.
  eapply (safe_mono _ (fun r => frame st r.1)).
  - case_match; [|done]. destruct (Hp) as [x Hx].
    destruct (same_port _ _ _ _ (fr_shape _ _ F1) Hx) as (y & Hy & _).
    apply safe_bind, safe_wp. eapply wp_mono; [apply rest_of_chain_spec; [apply D1|apply D1|by exists y]|].
    intros l Hl. eapply safe_mono; [apply (port_cfg_chain_safe fuel st1); [by eapply start_ok_frame|done|done]|].
    intros r F2. by etransitivity.
  - intros [st2 rc2] F2. simpl in F2. assert (K2 := kept_frame _ _ D F2). case_match; [|exact K2].
    destruct (frame_port _ _ p F2 Hp) as [y Hy]. rewrite (get_port_Some _ _ _ Hy). cbn [obind].
    assert (Hm : mstid ≤ STP_MSTI_MAX).
    { destruct Hp as [x Hx]. destruct (wf_port_owner _ _ _ W Hx) as (_ & _ & stpm & Hs).
      rewrite Ep in Hs. apply (wf_vlan _ W _ _ (shape_stpm _ _ _ Hs)). }
    case_match; (eapply kept_trans; [exact K2|]); (apply record_port_kept; [apply K2|done]).
Qed.
End Params.

(** ** Enabling and disabling the protocol *)

Lemma enable_instances_safe fuel l ret st0 st :
  start_ok st0 → is_Some (st0.(stpm_heap) !! STP_CIST_ID) →
  (∀ b, b ∈ l → is_Some (st0.(stpm_heap) !! b)) → kept st0 st →
  (l = [] → is_Some st.(port_speed_s)) →
  safe (enable_instances fuel l ret st) (fun r => kept st0 r.1 ∧ is_Some r.1.(port_speed_s)).
Proof.
  intros Os Hc. revert ret st. induction l as [|b l IH]; intros ret st Hl K Ht; cbn [enable_instances]; [by split; [|apply Ht]|].
  apply safe_bind. assert (K1 := kept_trans _ _ _ K (port_init_kept st (proj1 K))).
  destruct (kept_start _ _ Os Hc K1) as [Os1 _].
  eapply safe_mono; [apply set_cfg_safe; [done|]|].
  - apply (keeps_instance _ _ b (proj2 K1)). apply Hl. by left.
  - intros [st1 rc] F. simpl in F. apply IH; [intros c Hin; apply Hl; by right|by eapply kept_after|].
    intros _. apply (kp_tables _ _ (frame_keeps _ _ F)). simpl. case_match; by eexists.
Qed.

Lemma mgmt_ok_switch m g s :
  mgmt_ok m → (g = true → is_Some m.(core).(port_speed_s)) → mgmt_ok (m <| core := m.(core) <| g_flag := g |> |> <| g_stp_state := s |>).
Proof. intros [D C V P B L T A] G. by split. Qed.

Lemma stpm_enable_request fuel m :
  mgmt_ok m → safe (stp_param_set_stpm_enable fuel m) (fun '(m', _) => mgmt_ok m').
Proof.
  intros M. unfold stp_param_set_stpm_enable. safe_if; [done|]. apply safe_bind.
  assert (Os := mgmt_start _ M). destruct (mgmt_cist _ M) as [x Hx].
  unfold in_core, stp_in_global_enable. apply safe_bind. eapply safe_mono.
  - apply (enable_instances_safe fuel _ 0 m.(core)); [done|by exists x| |by apply kept_refl, M|].
    + intros b. apply instances_exist, (mo_daemon _ M).
    + intros E. exfalso. apply (not_elem_of_nil STP_CIST_ID). rewrite <- E.
      by destruct (wf_vlan _ (proj1 (mo_daemon _ M)) _ _ (shape_stpm _ _ _ Hx)) as (_ & _ & ?).
  - intros [st rc] [K Ht]. assert (M1 := mgmt_ok_kept _ _ M K). simpl. safe_if; [|done].
    exact (mgmt_ok_switch (m <| core := st |>) true STP_ENABLED M1 (fun _ => Ht)).
Qed.

(** Stopping the CIST succeeds, and changes nothing the deletion relies on. *)
Lemma cist_stop_spec fuel st x :
  daemon_ok st → st.(stpm_heap) !! STP_CIST_ID = Some x →
  stp_in_check_stpm_config (stp_in_stpm_get_cfg x) STP_CIST_ID = 0 →
  wp (stp_in_stpm_set_cfg fuel st STP_CIST_ID (state_cfg STP_DISABLED)) (fun '(st', rc) => frame st st' ∧ rc = 0).
Proof.
  intros D Hx Hcfg. unfold stp_in_stpm_set_cfg. rewrite (get_stpm_Some _ _ _ Hx). cbn [obind].
  change (merge_cfg (stp_in_stpm_get_cfg x) (state_cfg STP_DISABLED)) with (stp_in_stpm_get_cfg x).
  rewrite (wf_stpm_vlan _ _ _ (proj1 D) Hx), Hcfg.
  change (in_mask BR_CFG_FORCE_VER (field_mask (state_cfg STP_DISABLED))) with false.
  change (in_mask BR_CFG_STATE (field_mask (state_cfg STP_DISABLED)) &&
    (stp_enabled (state_cfg STP_DISABLED) =e STP_DISABLED)) with true.
  change (negb (0 =? 0)) with false. cbn [andb obind]. cbv iota.
  unfold stp_stpm_enable. rewrite (get_stpm_Some _ _ _ Hx). cbn [obind]. case_match; [done|].
  apply wp_bind. eapply wp_mono; [by apply set_admin_state_safe; exists x|]. intros st1 F1.
  destruct (same_stpm _ _ _ _ (fr_shape _ _ F1) Hx) as (y & Hy & _).
  apply wp_bind. eapply wp_mono; [by apply set_admin_state_safe; exists y|]. intros st2 F2.
  apply wp_Done. split; [by etransitivity|done].
Qed.

Section Disable.
Context (junk : list Z) (Hjunk : length junk = 64%nat) (Hbytes : Forall is_byte junk).

Lemma stpm_disable_request fuel m :
  mgmt_ok m → (m.(core).(g_flag) = true → cist_cfg_ok m.(core)) →
  safe (stp_param_set_stpm_disable junk fuel m) (fun '(m', _) => mgmt_ok m').
Proof.
  intros M Hok. unfold stp_param_set_stpm_disable. destruct m.(core).(g_flag) eqn:Eg; simpl; [|done].
  apply safe_bind. unfold stp_in_global_disable. rewrite (mo_cist _ M).
  destruct (mgmt_cist _ M) as [x Hx].
  destruct (wp_elim _ _ (cist_stop_spec fuel _ x (mo_daemon _ M) Hx (Hok eq_refl x Hx))) as ([st rc] & -> & F & ->).
  cbn [obind]. set (m1 := m <| core := stp_in_port_global_destroy st |>).
  assert (D := daemon_ok_frame _ _ F (mo_daemon _ M)).
  pose proof (delete_all_spec fuel m1) as H.
  destruct (stp_mgmt_stpm_delete_all fuel m1) as [m2| |]; cbn [obind]; [| |done].
  all: assert (A1 : Forall daemon_event m1.(core).(trace))
    by (eapply adds_Forall; [apply (kp_trace _ _ (frame_keeps _ _ F))|apply M]).
  2: { apply H; [apply D|by split|apply D| |done]. destruct M. by split_and!. }
  destruct H as (E & T & _); [apply D|by split|apply D| |done|].
  { destruct M. by split_and!. }
  simpl. apply safe_bind, safe_wp.
  eapply wp_mono; [apply create_cist_spec; [done|done| | |done]|].
  - destruct E. by split.
  - done.
  - intros [m3 rc] (-> & M3 & _). exact M3.
Qed.
End Disable.

(** ** VLANs *)

Lemma npd_vlan_ok vid : npd_vlan vid = true → vid_ok vid.
Proof. unfold npd_vlan, vid_ok. intros H. bool_facts. lia. Qed.

Lemma vid_ok_table vid : vid_ok vid → 0 ≤ vid < 4096.
Proof. unfold vid_ok, STP_MAX_VID. lia. Qed.

Lemma set_vid_ports_lookup m VID bm m' :
  mgmt_ok m → 0 ≤ VID < 4096 → set_vid_ports m VID bm = Done m' → vid_ports m' VID = Done bm.
Proof.
  intros M Hv. destruct (vid_lookup _ _ (mo_ports _ M) Hv) as [x E].
  unfold set_vid_ports, vid_ports. rewrite E. intros [= <-]. simpl.
  rewrite list_lookup_insert_eq; [done|]. by eapply lookup_lt_Some.
Qed.

(** The CIST exists, so that the digest is not computed again. *)
Lemma build_digest_nothing junk m : mgmt_ok m →
  stp_mgmt_build_configid_digest junk m = Done (m, STP_Nothing_To_Do).
Proof. intros M. unfold stp_mgmt_build_configid_digest. by rewrite (mo_cist _ M). Qed.

Lemma port_fits_keeps st st' idx : keeps st st' → port_fits st' idx = port_fits st idx.
Proof. intros K. unfold port_fits. by rewrite (kp_product _ _ K), (kp_distributed _ _ K). Qed.

Lemma region_name_request m name :
  mgmt_ok m → (length name < 32)%nat →
  wp (in_core (fun st => stp_param_set_bridge_region_name st name) m) (fun '(m', _) => mgmt_ok m').
Proof.
  intros M Hl. apply in_core_wp. unfold stp_param_set_bridge_region_name. rewrite (mo_cist _ M).
  destruct (mgmt_cist _ M) as [x Hx]. rewrite (get_stpm_Some _ _ _ Hx). cbn [obind].
  destruct (Nat.ltb_spec (length name) 32); [|lia]. apply wp_Done.
  match goal with |- mgmt_ok (_ <| core := put_stpm _ _ (set STPM.MstConfigId ?g _) |>) =>
    destruct (upd_stpm_spec (set STPM.MstConfigId g) STP_CIST_ID m x M Hx) as [_ M'];
      [done|done|exact (mo_maps _ M _ _ Hx)|exact M'] end.
Qed.

Lemma revision_request m value :
  mgmt_ok m →
  wp (in_core (fun st => stp_param_set_bridge_revision st value) m) (fun '(m', _) => mgmt_ok m').
Proof.
  intros M. apply in_core_wp. unfold stp_param_set_bridge_revision. rewrite (mo_cist _ M).
  destruct (mgmt_cist _ M) as [x Hx]. rewrite (get_stpm_Some _ _ _ Hx). cbn [obind]. apply wp_Done.
  match goal with |- mgmt_ok (_ <| core := put_stpm _ _ (set STPM.MstConfigId ?g _) |>) =>
    destruct (upd_stpm_spec (set STPM.MstConfigId g) STP_CIST_ID m x M Hx) as [_ M'];
      [done|done|exact (mo_maps _ M _ _ Hx)|exact M'] end.
Qed.
Section VlanRequests.
Context (junk : list Z) (Hjunk : length junk = 64%nat) (Hbytes : Forall is_byte junk).
Context (uninit : Z) (wan_if : Z → Z → Z → option (Z * Z)).

Lemma add_vlan_request fuel m vid ports :
  mgmt_ok m → vid_ok vid → length ports = 9%nat → ports_known m.(core) STP_CIST_ID vid ports →
  wp (stp_in_add_vlan_to_cist junk wan_if fuel m vid ports) (fun '(m', _) => mgmt_ok m').
Proof.
  intros M Hv Hl Hk. assert (Hv' := vid_ok_table _ Hv).
  unfold stp_in_add_vlan_to_cist, stp_mgmt_init_vlanpbmp.
  destruct (wp_elim _ _ (set_vid_ports_ok m vid ports M Hv' Hl)) as (m1 & E & M1 & Ec & _).
  rewrite E. cbn [obind]. rewrite (mo_cist _ M1). apply wp_bind. destruct (mgmt_cist _ M1) as [x Hx].
  eapply wp_mono; [apply (stpm_add_vlan_spec wan_if fuel m1 STP_CIST_ID vid ports M1 Hv)|].
  - by exists x.
  - exact (set_vid_ports_lookup m vid ports m1 M Hv' E).
  - by rewrite Ec.
  - intros [m2 rc] (-> & M2 & _). by rewrite (build_digest_nothing junk m2 M2).
Qed.

Lemma del_vlan_request fuel m vid :
  mgmt_ok m → vid_ok vid → leaving_ok m vid →
  safe (stp_in_del_vlan_from_cist junk uninit fuel m vid) (fun '(m', _) => mgmt_ok m').
Proof.
  intros M Hv Hr. unfold stp_in_del_vlan_from_cist, stp_mgmt_get_mstid, vid_mstid.
  destruct (vid_lookup _ _ (mo_vids _ M) (vid_ok_table _ Hv)) as [old E]. rewrite E. cbn [deref obind].
  destruct (Z.eqb_spec old STP_CIST_ID) as [|Hne]; [done|].
  rewrite (get_instance_spec _ _ (proj1 (mo_daemon _ M))). cbn [obind].
  case_decide as Hd; [|done]. apply safe_bind.
  eapply safe_mono; [apply (stpm_del_vlan_safe uninit fuel m old vid); [done..|]|].
  { intros _. by apply Hr. }
  intros [m1 rc] (M1 & _). safe_if; [done|]. by rewrite (build_digest_nothing junk m1 M1).
Qed.

Lemma upd_vid_ports_ok f m vid idx :
  mgmt_ok m → vid_ok vid →
  (∀ bm, length bm = 9%nat → wp (f m.(core) bm idx) (fun bm' => length bm' = 9%nat)) →
  wp (upd_vid_ports f m vid idx) mgmt_ok.
Proof.
  intros M Hv Hf. unfold upd_vid_ports.
  destruct (vid_ports_ok m vid M (vid_ok_table _ Hv)) as (bm & -> & Hl). cbn [obind].
  apply wp_bind. eapply wp_mono; [by apply Hf|]. intros bm' Hl'.
  eapply wp_mono; [apply set_vid_ports_ok; [done|by apply vid_ok_table|done]|]. by intros m' [? _].
Qed.

Lemma add_port_request fuel m vid idx isWan :
  mgmt_ok m → cmd_ok m (INTERFACE_ADD vid idx isWan) →
  wp (stp_npd_cmd_add_port wan_if fuel m vid idx isWan) (fun '(m', _) => mgmt_ok m').
Proof.
  intros M [Hf Hs]. unfold stp_npd_cmd_add_port. case_match; [done|].
  destruct (npd_vlan vid) eqn:Ev; [|done]. apply npd_vlan_ok in Ev. simpl. apply wp_bind.
  destruct (port_fits_index _ _ Hf) as [Hi _].
  eapply (wp_mono _ (fun '(m1, _) => mgmt_ok m1 ∧ port_fits m1.(core) idx = true)).
  - unfold stp_in_add_port_to_mstp, stp_mgmt_get_mstid.
    destruct (vid_lookup _ _ (mo_vids _ M) (vid_ok_table _ Ev)) as [b E].
    assert (Eb : vid_mstid m vid = Done b) by (unfold vid_mstid; by rewrite E).
    rewrite Eb in *. cbn [obind]. destruct (Z.eqb_spec b STP_CIST_ID) as [|Hne]; [done|].
    apply wp_bind. apply in_core_wp.
    eapply wp_mono; [apply (addport_safe wan_if fuel m.(core) b idx vid isWan (mo_daemon _ M))|].
    { split_and!; [exact (proj2 (vid_ok_table _ Ev))|done|]. intros _. apply Hs. congruence. }
    intros [st rc] (D & K & _). apply wp_Done. split; [by apply mgmt_ok_core|]. simpl.
    by rewrite (port_fits_keeps _ _ _ K).
  - intros [m1 rc] [M1 Hf1]. apply wp_bind.
    eapply wp_mono; [apply upd_vid_ports_ok; [done|done|]|done].
    intros bm Hl. by apply port_fits_bits.
Qed.

Lemma del_port_request m vid idx :
  mgmt_ok m → cmd_ok m (INTERFACE_DEL vid idx) →
  wp (stp_npd_cmd_del_port uninit m vid idx) (fun '(m', _) => mgmt_ok m').
Proof.
  intros M Hf. unfold stp_npd_cmd_del_port. case_match; [done|].
  destruct (npd_vlan vid) eqn:Ev; [|done]. apply npd_vlan_ok in Ev. simpl. apply wp_bind.
  eapply (wp_mono _ (fun '(m1, _) => mgmt_ok m1 ∧ port_fits m1.(core) idx = true)).
  - unfold stp_in_del_port_from_mstp, stp_mgmt_get_mstid, vid_mstid.
    destruct (vid_lookup _ _ (mo_vids _ M) (vid_ok_table _ Ev)) as [b E]. rewrite E. cbn [deref obind].
    case_match; [done|]. apply wp_bind, in_core_wp.
    eapply wp_mono; [apply (delport_safe uninit m.(core) b idx vid (mo_daemon _ M))|].
    { exact (proj2 (vid_ok_table _ Ev)). }
    intros [st rc] (D & K). apply wp_Done. split; [by apply mgmt_ok_core|]. simpl.
    by rewrite (port_fits_keeps _ _ _ K).
  - intros [m1 rc] [M1 Hf1]. apply wp_bind.
    eapply wp_mono; [apply upd_vid_ports_ok; [done|done|]|done].
    intros bm Hl. by apply port_fits_bits.
Qed.

Lemma vlan_del_request fuel m vid :
  mgmt_ok m → leaving_ok m vid →
  safe (stp_npd_cmd_del_vlan_on_mst junk uninit fuel m vid) (fun '(m', _) => mgmt_ok m').
Proof.
  intros M Hr. unfold stp_npd_cmd_del_vlan_on_mst. safe_if; [done|].
  destruct (npd_vlan vid) eqn:Ev; [|done]. apply npd_vlan_ok in Ev. simpl. apply safe_bind.
  eapply safe_mono; [by apply del_vlan_request|]. intros [m1 rc] M1. apply safe_wp.
  assert (H1 : vid_ok 1) by (unfold vid_ok, STP_MAX_VID; lia).
  destruct (vid_ports_ok m1 1 M1 (vid_ok_table _ H1)) as (bm1 & -> & L1).
  destruct (vid_ports_ok m1 vid M1 (vid_ok_table _ Ev)) as (bm & -> & L2). cbn [obind].
  apply wp_bind. eapply wp_mono; [apply set_vid_ports_ok; [done|by apply vid_ok_table|]|].
  { unfold stp_bitmap_portbmp_add. by rewrite length_zip_with, L1, L2. }
  intros m2 (M2 & _). destruct (vid_ports_ok m2 vid M2 (vid_ok_table _ Ev)) as (bm' & -> & L3). cbn [obind].
  apply wp_bind. eapply wp_mono; [apply set_vid_ports_ok; [done|by apply vid_ok_table|done]|].
  by intros m3 [? _].
Qed.

End VlanRequests.

(** ** Datagrams *)

Lemma length_received size d : length (received size d) = size.
Proof. unfold received. rewrite length_app, length_take, repeat_length. lia. Qed.

(** The receive buffer has room for every frame the decoder reads. *)
Lemma uid_message_room d port_index bpdu len :
  uid_message d = Done (port_index, bpdu, len) → (frame_room ≤ length bpdu)%nat.
Proof.
  unfold uid_message. intros H. do 3 (apply obind_Done in H as (? & _ & H)). injection H as _ <- _.
  rewrite length_drop, length_received. unfold frame_room, MAX_UID_MSG_SIZE, uid_msg_size. lia.
Qed.

(** Reading four bytes does not run out of fuel. *)
Lemma uid_message_fuel d : uid_message d ≠ OutOfFuel.
Proof.
  unfold uid_message, rd32, rd. repeat (case_decide; cbn [obind]; try done).
Qed.

Lemma npd_cmd_total message : ∃ cmd, npd_cmd message = Done cmd.
Proof.
  destruct (wp_elim (npd_cmd message) (fun _ => True)) as (cmd & E & _); [|by exists cmd].
  assert (L := length_received npd_cmd_size message). unfold npd_cmd. cbv zeta.
  set (m := received npd_cmd_size message) in *. unfold npd_cmd_size in L.
  apply wp_bind, wp_rd32; [lia|]. intros t. apply wp_bind, wp_rd16; [lia|]. intros vid.
  repeat case_match; repeat (apply wp_bind, wp_rd32; [lia|]; intros ?); try done.
  by apply wp_bind, wp_rd; [lia|].
Qed.

Section Requests.
Context (junk : list Z) (Hjunk : length junk = 64%nat) (Hbytes : Forall is_byte junk).
Context (junk_type uninit : Z) (Htype : junk_type ≠ BPDU_MSTP).
Context (wan_if : Z → Z → Z → option (Z * Z)) (wan_br : Z → Z → option (Z * Z)).

Lemma uid_datagram_safe fuel st d :
  daemon_ok st → start_ok st → uid_message d ≠ Segv →
  safe (stp_uid_read_socket junk_type fuel st d) (fun r => kept st r.1).
Proof.
  intros D (Ok & L & N) Hd. unfold stp_uid_read_socket. case_bool_decide; [by apply kept_refl|].
  pose proof (uid_message_fuel d). destruct (uid_message d) as [[[pi bpdu] len]| |] eqn:E; [|done..].
  cbn [obind]. apply safe_bind.
  eapply safe_mono; [apply rx_bpdu_safe; [done|done|by eapply uid_message_room|done]|].
  intros [st' rc] F. eapply kept_trans; [by apply kept_frame|]. split; [|by apply access_keeps].
  by apply access_daemon, (daemon_ok_frame _ _ F).
Qed.

Lemma npd_serve_safe fuel m cmd :
  mgmt_ok m → cmd_ok m cmd →
  safe (npd_serve junk uninit wan_if wan_br fuel m cmd) (fun '(m', _) => mgmt_ok m').
Proof.
  intros M Hc. assert (Os := mgmt_start _ M). destruct (mgmt_cist _ M) as [x Hx].
  destruct cmd; simpl npd_serve.
  - by apply safe_wp, add_port_request.
  - by apply safe_wp, del_port_request.
  - apply safe_wp. unfold stp_npd_cmd_add_vlan_on_mst. case_match; [done|].
    destruct (npd_vlan vid) eqn:Ev; [|done]. by apply add_vlan_request; [|apply npd_vlan_ok| |].
  - by apply vlan_del_request.
  - apply in_core_safe; [done|]. destruct Hc as (Hf & Hs & Hd).
    apply link_state_safe; [done|apply M|by exists x|apply M|done..].
  - destruct M. by split.
  - exact M.
Qed.

Lemma serve_safe fuel m r :
  mgmt_ok m → request_ok m r →
  safe (serve junk junk_type uninit wan_if wan_br fuel m r) (fun '(m', _) => mgmt_ok m').
Proof.
  intros M Hr. assert (Os := mgmt_start _ M). assert (D := mo_daemon _ M).
  destruct (mgmt_cist _ M) as [x Hx].
  destruct r; cbn [serve request_ok] in *.
  - apply in_core_safe; [done|]. by apply uid_datagram_safe.
  - unfold stp_npd_read_socket. case_bool_decide; [done|].
    destruct (npd_cmd_total message) as [cmd E]. rewrite E. cbn [obind].
    apply safe_bind. eapply safe_mono; [apply npd_serve_safe; [done|by apply Hr]|]. by intros [m' rc].
  - apply in_core_frame; [done|]. unfold stp_in_one_second. apply safe_bind.
    eapply safe_mono; [apply one_second_safe; apply Os|]. by intros [st n].
  - by apply stpm_enable_request.
  - by apply stpm_disable_request.
  - apply in_core_safe; [done|]. destruct Hr. apply port_enable_safe; [done|done|by exists x|apply M|done..].
  - apply in_core_safe; [done|]. apply port_disable_safe; [done|done|apply M|done].
  - apply in_core_frame; [done|]. by apply bridge_cfg_safe.
  - unfold stp_param_set_bridge_fvers. apply in_core_frame.
    + destruct M. by repeat case_match; split.
    + repeat case_match; by apply bridge_cfg_safe.
  - apply in_core_safe; [done|]. by apply port_cfg_safe.
  - destruct Hr as (Hv & Hl & Hk). unfold stp_param_set_vlan_to_instance, stp_in_set_vlan_2_instance.
    apply (update_instance_safe junk Hjunk Hbytes); try done. apply u16_range.
  - unfold stp_param_mstp_init_vlan_info, stp_mgmt_init_vlanpbmp. apply safe_bind, safe_wp.
    destruct Hr. eapply wp_mono; [by apply set_vid_ports_ok|]. by intros m' [? _].
  - destruct Hr as (? & ? & ?). unfold stp_param_add_vlan_to_mstp. by apply safe_wp, add_vlan_request.
  - by apply safe_wp, region_name_request.
  - by apply safe_wp, revision_request.
  - destruct M. by split.
Qed.
End Requests.
