(* ===== verification/StpUidProps.v ===== *)
(** * Properties of the sockets

    Frames survive the datagrams to the switch, names of WAN interfaces are read
    back, and what does not fit the buffers of the WAN side. *)

From Stdlib Require Import ZArith Lia.
From stdpp Require Import base gmap list option.
From S2P Require Import Prelude StpTypes StpBpdu StpVector StpTo StpHeap StpStatmch StpPort StpRoletrns StpTransmit StpReceive StpStpm StpIn StpMgmt StpCommand StpUid StpManage StpDaemon StpRequest StpExample StpCodec StpRequestSafety.

(** ** Reading and writing buffers *)

Lemma rd_total mem off n : (off + n ≤ length mem)%nat → rd mem off n = Done (take n (drop off mem)).
Proof. intros H. unfold rd. by rewrite decide_True. Qed.

Lemma rd_outside mem off n : (length mem < off + n)%nat → rd mem off n = Segv.
Proof. intros H. unfold rd. rewrite decide_False; [done|lia]. Qed.

Lemma rd32_at (l : list Z) x a b : length a = 4%nat → 0 ≤ x < 2 ^ 32 →
  l = a ++ be_bytes 4 x ++ b → rd32 l 4 = Done x.
Proof.
  intros Ha Hx ->. unfold rd32. rewrite rd_skip by lia. rewrite Ha. change (4 - 4)%nat with 0%nat.
  rewrite rd_head by (by rewrite length_be_bytes). cbn [obind]. by rewrite be_val_bytes4.
Qed.

Lemma rd32_first (l : list Z) x b : 0 ≤ x < 2 ^ 32 → l = be_bytes 4 x ++ b → rd32 l 0 = Done x.
Proof.
  intros Hx ->. unfold rd32. rewrite rd_head by (by rewrite length_be_bytes). cbn [obind].
  by rewrite be_val_bytes4.
Qed.

(** ** Frames of the switch *)

(** The length of a frame in its datagram. *)
Definition sent_len (bpdu_len : Z) : Z := Z.max 64 bpdu_len.

Lemma uid_roundtrip ptr port_index bpdu bpdu_len :
  length ptr = 4%nat → 0 ≤ port_index < 2 ^ 32 → bpdu_len ≤ 1188 → sent_len bpdu_len ≤ Z.of_nat (length bpdu) →
  ∃ d, stp_uid_bridge_tx_bpdu ptr port_index bpdu bpdu_len = Done d ∧
    uid_message d = Done (port_index,
      take (Z.to_nat (sent_len bpdu_len)) bpdu ++ repeat 0 (1188 - Z.to_nat (sent_len bpdu_len)),
      sent_len bpdu_len).
Proof.
  intros Hp Hi Hl Hb. unfold stp_uid_bridge_tx_bpdu.
  assert (El : (if bpdu_len <? 64 then 64 else bpdu_len) = sent_len bpdu_len).
  { unfold sent_len. destruct (Z.ltb_spec bpdu_len 64); lia. }
  rewrite El. clear El. assert (H64 : 64 ≤ sent_len bpdu_len ≤ 1188) by (unfold sent_len; lia).
  set (n := sent_len bpdu_len) in *. rewrite rd_total by lia. cbn [obind]. rewrite drop_0.
  eexists. split; [done|]. set (frame := take (Z.to_nat n) bpdu).
  assert (Hf : length frame = Z.to_nat n) by (unfold frame; rewrite length_take; lia).
  set (d := be_bytes 4 port_index ++ _).
  assert (Hd : length d = (12 + Z.to_nat n)%nat).
  { unfold d. rewrite !length_app, !length_be_bytes, Hp, Hf. lia. }
  assert (Er : received MAX_UID_MSG_SIZE d = d ++ repeat 0 (1188 - Z.to_nat n)).
  { unfold received, MAX_UID_MSG_SIZE. rewrite take_ge by lia. do 2 f_equal. lia. }
  unfold uid_message. rewrite Er.
  rewrite (rd32_first _ port_index (be_bytes 4 n ++ ptr ++ frame ++ repeat 0 (1188 - Z.to_nat n)))
    by (done || by unfold d; rewrite <- !app_assoc). cbn [obind].
  rewrite (rd32_at _ n (be_bytes 4 port_index) (ptr ++ frame ++ repeat 0 (1188 - Z.to_nat n)))
    by (first [by rewrite length_be_bytes|lia|by unfold d; rewrite <- !app_assoc]). cbn [obind].
  rewrite rd_total by (rewrite length_app, repeat_length; unfold uid_msg_size; lia). cbn [obind].
  do 3 f_equal. unfold d, uid_msg_size. rewrite !app_assoc, <- !app_assoc.
  rewrite 3!drop_app_ge by (rewrite ?length_be_bytes; lia). rewrite !length_be_bytes, Hp. done.
Qed.

(** ** Names of interfaces *)

Definition no_digit (s : list Z) : Prop := ∀ c s', s = c :: s' → is_digit c = false.

Lemma is_digit_dec d : 0 ≤ d < 10 → is_digit (48 + d) = true.
Proof. intros H. unfold is_digit. apply andb_true_iff. split; apply Z.leb_le; lia. Qed.

Lemma digits_end s acc : no_digit s → digits s acc = (acc, s).
Proof. intros H. destruct s as [|c s]; [done|]. simpl. by rewrite (H c s). Qed.

(** Reading a printed number. *)
Lemma digits_decimal fuel n rest :
  0 ≤ n < 10 ^ Z.of_nat fuel → (0 < fuel)%nat → digits (decimal fuel n ++ rest) 0 = digits rest n.
Proof.
  revert n rest. induction fuel as [|fuel IH]; intros n rest Hn Hf; [lia|].
  pose proof (Z.mod_pos_bound n 10). cbn [decimal]. rewrite <- app_assoc.
  destruct (Z.ltb_spec n 10).
  - rewrite Z.mod_small by lia. cbn [app digits]. rewrite is_digit_dec by lia. f_equal. lia.
  - rewrite Nat2Z.inj_succ, Z.pow_succ_r in Hn by lia.
    destruct fuel as [|fuel]; [simpl in Hn; lia|].
    rewrite IH; [|split; [apply Z.div_pos; lia|apply Z.div_lt_upper_bound; lia]|lia].
    cbn [app digits]. rewrite is_digit_dec by lia. f_equal. pose proof (Z.div_mod n 10). lia.
Qed.

Lemma decimal_head fuel n : 0 ≤ n → ∃ c l, decimal (S fuel) n = c :: l ∧ is_digit c = true.
Proof.
  revert n. induction fuel as [|fuel IH]; intros n Hn; pose proof (Z.mod_pos_bound n 10).
  - exists (48 + n mod 10), []. split; [simpl; by case_match|apply is_digit_dec; lia].
  - change (decimal (S (S fuel)) n) with
      ((if n <? 10 then [] else decimal (S fuel) (n / 10)) ++ [48 + n mod 10]).
    destruct (n <? 10); [exists (48 + n mod 10), []; split; [done|apply is_digit_dec; lia]|].
    destruct (IH (n / 10)) as (c & l & -> & Hc); [by apply Z.div_pos|]. by exists c, (l ++ [48 + n mod 10]).
Qed.

Lemma strtoul_print n rest :
  0 ≤ n ≤ ULONG_MAX → no_digit rest → strtoul (print_d n ++ rest) = (n, rest).
Proof.
  intros Hn Hr. unfold print_d.
  assert (Hd := digits_decimal 10 n rest). change (10 ^ Z.of_nat 10) with 10000000000 in Hd.
  destruct (decimal_head 9 n) as (c & l & E & Hc); [lia|]. rewrite E in *. clear E.
  unfold ULONG_MAX in Hn. specialize (Hd ltac:(lia) ltac:(lia)). rewrite (digits_end rest) in Hd by done.
  unfold strtoul. cbn [app skip_space].
  assert (Hr' : 48 ≤ c ≤ 57) by (unfold is_digit in Hc; bool_facts; lia).
  assert (Hs : is_space c = false).
  { unfold is_space. destruct (Z.eqb_spec c 32); [lia|]. destruct (Z.leb_spec c 13); [lia|]. by rewrite andb_false_r. }
  rewrite Hs. destruct (Z.eqb_spec c 45); [lia|]. destruct (Z.eqb_spec c 43); [lia|]. rewrite Hc.
  cbn [app] in Hd. rewrite Hd. destruct (Z.ltb_spec ULONG_MAX n); [unfold ULONG_MAX in *; lia|done].
Qed.

Lemma no_digit_cons c s : is_digit c = false → no_digit (c :: s).
Proof. intros H c' s' [= <- <-]. done. Qed.

Lemma ifname_roundtrip slot portno vid :
  0 ≤ slot < 256 → 0 ≤ portno < 256 → (∀ v, vid = Some v → 0 ≤ v ≤ ULONG_MAX) →
  stp_netlink_parse_slot_port_no (drop 3 (wan_ifname slot portno vid)) =
    Done (0, mkIfname slot portno (match vid with Some v => u8 v | None => 0 end)).
Proof.
  intros Hs Hp Hv. unfold wan_ifname. change (drop 3 (eth ++ ?l)) with (drop 0 l). rewrite drop_0.
  unfold stp_netlink_parse_slot_port_no.
  rewrite strtoul_print by (first [unfold ULONG_MAX; lia|by apply no_digit_cons]).
  change (char0 (45 :: _)) with 45. change ((45 =? 45) || (45 =? 47)) with true. cbv iota.
  cbn [drop]. rewrite drop_0, (u8_small slot) by lia. destruct vid as [v|].
  - rewrite strtoul_print by (first [unfold ULONG_MAX; lia|by apply no_digit_cons]).
    change (char0 (46 :: _)) with 46. change (46 =? 0) with false. change (46 =? 46) with true. cbv iota.
    cbn [drop]. rewrite drop_0. specialize (Hv v eq_refl). rewrite <- (app_nil_r (print_d v)).
    rewrite strtoul_print by (first [done|by intros c s']). by rewrite (u8_small portno) by lia.
  - rewrite strtoul_print by (first [unfold ULONG_MAX; lia|by intros c s']).
    cbn. by rewrite (u8_small portno) by lia.
Qed.

(** ** Frames of WAN interfaces *)

Lemma length_mstp_frame h b c room :
  frame_sized h b c → length (mstp_frame h b c room) = (119 + length room)%nat.
Proof.
  intros (H1 & H2 & B & C1 & C2 & C3 & C4).
  pose proof (length_header_bytes h H1 H2) as Hh. pose proof (length_body_bytes b B) as Hb.
  unfold mstp_frame. rewrite !length_app, Hh, Hb, C1, C2, C3, C4. cbn [length]. lia.
Qed.

Lemma length_decimal fuel n k :
  0 ≤ n < 10 ^ Z.of_nat (S k) → (length (decimal fuel n) ≤ S k)%nat.
Proof.
  revert n k. induction fuel as [|fuel IH]; intros n k Hn; cbn [decimal]; [simpl; lia|].
  rewrite length_app. cbn [length]. destruct (Z.ltb_spec n 10); [simpl; lia|].
  destruct k as [|k]; [simpl in Hn; lia|]. rewrite Nat2Z.inj_succ, Z.pow_succ_r in Hn by lia.
  assert (HL : (length (decimal fuel (n / 10)) ≤ S k)%nat); [|lia].
  apply IH. split; [apply Z.div_pos; lia|apply Z.div_lt_upper_bound; lia].
Qed.

Lemma wan_ifname_fits slot portno :
  0 ≤ slot < 256 → 0 ≤ portno < 256 → (length (wan_ifname slot portno None) < 20)%nat.
Proof.
  intros Hs Hp. unfold wan_ifname, print_d.
  assert (H1 := length_decimal 10 slot 2). assert (H2 := length_decimal 10 portno 2).
  change (10 ^ Z.of_nat 3) with 1000 in *. specialize (H1 ltac:(lia)). specialize (H2 ltac:(lia)).
  revert H1 H2. generalize (decimal 10 slot) as a, (decimal 10 portno) as b. intros a b Ha Hb.
  rewrite app_nil_r, !length_app. simpl. lia.
Qed.

Lemma sendto_overflows ifindex ifname frame n :
  119 ≤ n → (Z.to_nat n ≤ length frame)%nat →
  stp_netlink_socket_sendto ifindex ifname frame n = Segv ↔ 269 < n.
Proof.
  intros Hn Hl. unfold stp_netlink_socket_sendto, ETH_HLEN.
  destruct (Z.ltb_spec (n - 14) 0); [lia|]. destruct (Z.ltb_spec 255 (n - 14)); cbn [orb].
  - split; [lia|done].
  - rewrite rd_total by lia. split; [done|lia].
Qed.

(** ** The speed of WAN interfaces *)

(** An enabled port whose entry in the table is not a speed. *)
Lemma oper_speed_undefined st port t speed :
  st.(port_speed_s) = Some t → t !! port.(port_index) = Some (port.(port_index), speed) →
  0 ≤ port.(port_index) < PORT_INDEX_MAX → port.(adminEnable) = true → 6 < speed →
  stp_to_get_port_oper_speed st port = Segv.
Proof.
  intros Ht He Hi Ha Hs. unfold stp_to_get_port_oper_speed, PORT_INDEX_MAX in *.
  rewrite u32_small by lia. destruct (Z.ltb_spec 640 port.(port_index)); [lia|].
  rewrite Ht. cbn [table_entry]. destruct (Z.ltb_spec port.(port_index) PORT_INDEX_MAX);
    [|unfold PORT_INDEX_MAX in *; lia].
  rewrite He. cbn [obind]. rewrite Z.eqb_refl, Ha. cbn [andb].
  unfold STP_PORT_SPEED_10_E, STP_PORT_SPEED_100_E, STP_PORT_SPEED_1000_E, STP_PORT_SPEED_10000_E,
    STP_PORT_SPEED_12000_E, STP_PORT_SPEED_2500_E, STP_PORT_SPEED_5000_E.
  repeat match goal with |- context [speed =? ?k] => destruct (Z.eqb_spec speed k); [lia|] end. done.
Qed.

(** Enabling the port of a WAN interface whose speed was just recorded. *)
Lemma enable_wan_undefined wan_br fuel st idx slot portno c port y t :
  stp_port_mst_findport st STP_CIST_ID idx = Done (Some c) → st.(port_heap) !! c = Some port →
  port.(port_index) = idx → 0 ≤ idx < PORT_INDEX_MAX →
  wan_br slot portno = Some y → st.(port_speed_s) = Some t →
  stp_in_enable_port_on_stpm wan_br fuel st idx true false 8192 true slot portno = Segv.
Proof.
  intros Hf Hc Hi Hr Hw Ht. unfold stp_in_enable_port_on_stpm. rewrite Ht.
  destruct (Z.leb_spec 0 idx); [|lia]. destruct (Z.ltb_spec idx PORT_INDEX_MAX); [|lia].
  cbn [andb obind]. unfold enable_port_on_stpm. set (st1 := st <| port_speed_s := _ |>).
  change (deref st1.(port_speed_s)) with (Done (<[idx := (idx, 8192)]> t)). cbn [obind].
  rewrite ports_entry_in by done.
  change (stp_port_mst_findport st1 STP_CIST_ID idx) with (stp_port_mst_findport st STP_CIST_ID idx).
  rewrite Hf. cbn [obind].
  assert (H1 : get_port st1 c = Done port) by (by apply get_port_Some).
  rewrite H1. cbn [obind enable_chain]. unfold enable_one_port. rewrite H1. cbn [obind]. rewrite Hw.
  destruct y as [br ifi]. destruct (access_traced IF_NAME 21
    (Z.of_nat (length (wan_ifname slot portno None)) + 1) st1) as [tr ->]. unfold stp_port_init.
  rewrite (get_port_Some _ c _ (put_port_lookup _ _ _)). cbn [obind].
  rewrite (oper_speed_undefined _ _ (<[idx := (idx, 8192)]> t) 8192); [done|done| |by simpl; rewrite Hi|done|lia].
  simpl. rewrite Hi. apply lookup_insert_eq.
Qed.

(** ** Properties *)

(** C30: a frame handed to the switch survives its datagram: reading the message
    gives back the index of the port and the frame, padded to 64 bytes when it
    is shorter and followed by zeros in a buffer of 1188 bytes; the length
    announced is that of the padded frame. *)
Theorem frame_survives_datagram ptr port_index bpdu bpdu_len :
  length ptr = 4%nat → 0 ≤ port_index < 2 ^ 32 → bpdu_len ≤ 1188 →
  sent_len bpdu_len ≤ Z.of_nat (length bpdu) →
  ∃ d, stp_uid_bridge_tx_bpdu ptr port_index bpdu bpdu_len = Done d ∧
    uid_message d = Done (port_index,
      take (Z.to_nat (sent_len bpdu_len)) bpdu ++ repeat 0 (1188 - Z.to_nat (sent_len bpdu_len)),
      sent_len bpdu_len).
Proof. exact (uid_roundtrip ptr port_index bpdu bpdu_len). Qed.

Lemma frame_survives_datagram_witness :
  ∃ d, stp_uid_bridge_tx_bpdu [0; 0; 0; 0] 2 ex_frame.1 ex_frame.2 = Done d ∧
    uid_message d = Done (2,
      take (Z.to_nat (sent_len ex_frame.2)) ex_frame.1 ++
        repeat 0 (1188 - Z.to_nat (sent_len ex_frame.2)), sent_len ex_frame.2).
Proof. apply frame_survives_datagram; vm_compute; try split; congruence. Defined.

(** the names the daemon prints for the interfaces of a port and of a VLAN on
    it are read back to the slot, the port and the VLAN, of which only the low
    byte is kept; a name that goes on with another character after the port
    makes the parser read through a pointer it never assigned. *)
Theorem interface_names_read_back slot portno vid :
  0 ≤ slot < 256 → 0 ≤ portno < 256 → (∀ v, vid = Some v → 0 ≤ v ≤ ULONG_MAX) →
  stp_netlink_parse_slot_port_no (drop 3 (wan_ifname slot portno vid)) =
    Done (0, mkIfname slot portno (match vid with Some v => u8 v | None => 0 end)) ∧
  ∀ c rest, is_digit c = false → c ≠ 0 → c ≠ 46 →
    stp_netlink_parse_slot_port_no (drop 3 (wan_ifname slot portno None) ++ c :: rest) = Segv.
Proof.
  intros Hs Hp Hv. split; [by apply ifname_roundtrip|]. intros c rest Hc H0 H46.
  unfold wan_ifname. change (drop 3 (eth ++ ?l)) with (drop 0 l). rewrite drop_0, app_nil_r, <- app_assoc.
  unfold stp_netlink_parse_slot_port_no. cbn [app].
  rewrite strtoul_print by (first [unfold ULONG_MAX; lia|by apply no_digit_cons]).
  change (char0 (45 :: _)) with 45. change ((45 =? 45) || (45 =? 47)) with true. cbv iota.
  cbn [drop]. rewrite drop_0.
  rewrite strtoul_print by (first [unfold ULONG_MAX; lia|by apply no_digit_cons]).
  change (char0 (c :: rest)) with c. destruct (Z.eqb_spec c 0); [done|]. by destruct (Z.eqb_spec c 46).
Qed.

Lemma interface_names_read_back_witness :
  stp_netlink_parse_slot_port_no (drop 3 (wan_ifname 1 2 (Some 300))) = Done (0, mkIfname 1 2 44).
Proof. apply (interface_names_read_back 1 2 (Some 300)); [lia|lia|]. intros v [= <-]. vm_compute. split; congruence. Defined.

(** C40: on a WAN port, [stp_transmit_txMstp] hands its frame to
    [stp_netlink_socket_sendto], which copies it into a buffer of 255 bytes on
    the stack: the copy overflows exactly when the port belongs to ten MSTIs or
    more, although the daemon allows 64. *)
Theorem wan_mstp_frame_overflows ptr ifindex st p port stpm :
  wf st → st.(port_heap) !! p = Some port → st.(stpm_heap) !! port.(owner) = Some stpm →
  sender_ok st port stpm → port.(isWAN) = true →
  0 ≤ port.(slot_no) < 256 → 0 ≤ port.(port_no) < 256 →
  wp (stp_transmit_txMstp st p) (fun st' => ∃ ev sent, count_tx ev = 0%nat ∧
    st'.(trace) = ev ++ sent :: st.(trace) ∧
    (send_frame ifindex ptr sent = Segv ↔ (10 ≤ length port.(nextMst))%nat)).
Proof.
  intros W Hp Hb Hs Hw H1 H2. destruct (txMstp_frame st p port stpm W Hp Hb Hs) as (msgs & _ & [El Hl] & Ht).
  eapply wp_mono; [exact Ht|]. intros st' (ev & Hev & E). exists ev. eexists. split_and!; [done|exact E|].
  unfold tx_event. rewrite Hw, <- El. cbn [send_frame].
  rewrite (proj2 (Nat.ltb_lt _ _) (wan_ifname_fits _ _ H1 H2)).
  assert (Hsz := port_frame_sized st port stpm (length msgs) Hs).
  pose proof (sendto_overflows ifindex (wan_ifname port.(slot_no) port.(port_no) None)
    (port_frame st stpm port msgs) (port_frame_len msgs)) as Ho.
  assert (Hlen : (Z.to_nat (port_frame_len msgs) ≤ length (port_frame st stpm port msgs))%nat
    ∨ (10 ≤ length msgs)%nat).
  { destruct (decide (10 ≤ length msgs)%nat); [by right|left].
    unfold port_frame, port_frame_len. rewrite (length_mstp_frame _ _ _ _ Hsz). unfold port_room.
    rewrite length_app, repeat_length. lia. }
  unfold port_frame_len in *. destruct (decide (10 ≤ length msgs)%nat) as [Hm|Hm].
  - split; [done|]. intros _. unfold stp_netlink_socket_sendto, ETH_HLEN.
    destruct (Z.ltb_spec 255 (119 + 16 * Z.of_nat (length msgs) - 14)); [|lia]. by rewrite orb_true_r.
  - destruct Hlen as [Hlen|?]; [|done]. specialize (Ho ltac:(lia) Hlen).
    split; [|done]. intros E'. exfalso.
    destruct (stp_netlink_socket_sendto _ _ _ _) eqn:Es; [done| |done]. apply proj1 in Ho. specialize (Ho eq_refl). lia.
Qed.

(** The example bridge with a WAN port. *)
Definition ex_wan_port : PORT_T :=
  (ex_port (0, 1)) <| isWAN := true |> <| slot_no := 1 |> <| port_no := 2 |>.
Definition ex_wan : STP_T := put_port ex_st (0, 1) ex_wan_port.

Lemma wan_mstp_frame_overflows_witness :
  ∃ st' ev sent, stp_transmit_txMstp ex_wan (0, 1) = Done st' ∧
    st'.(trace) = ev ++ sent :: ex_wan.(trace) ∧ send_frame (fun _ => 7) [0; 0; 0; 0] sent ≠ Segv.
Proof.
  assert (W : wf ex_wan) by decide_wf.
  destruct (wp_elim _ _ (wan_mstp_frame_overflows [0; 0; 0; 0] (fun _ => 7) ex_wan (0, 1) ex_wan_port (ex_stpm 0)
    W ltac:(by_compute) ltac:(by_compute) ltac:(split; by_decision) ltac:(by_compute)
    ltac:(vm_compute; split; congruence) ltac:(vm_compute; split; congruence)))
    as (st' & E & ev & sent & _ & Et & Hs).
  exists st', ev, sent. split_and!; [exact E|exact Et|]. intros H. apply Hs in H. vm_compute in H. lia.
Defined.

(** when the link of a WAN interface in a bridge comes up, [stp_lnkst_read_socket]
    enters the speed 8192, which is none of the enumeration, in the table of
    speeds, and initialising the port then uses the value of a function that
    returned none. *)
Theorem wan_link_up_has_no_speed wan_br wan_if fuel st mstid slot portno x p port y t :
  wf st → st.(g_flag) = true → links_ok st → st.(stpm_heap) !! mstid = Some x →
  stp_instance_get_port_pnt st x slot portno = Done (Some p) → st.(port_heap) !! p = Some port →
  st.(g_CISTPORT) !! stp_port_global_index_parse st port.(port_index) = Some (STP_CIST_ID, port.(port_index)) →
  port_fits st port.(port_index) = true → wan_br slot portno = Some y → st.(port_speed_s) = Some t →
  0 ≤ slot < 256 → 0 ≤ portno < 256 →
  stp_lnkst_event wan_br wan_if fuel st mstid (wan_ifname slot portno None) true = Segv.
Proof.
  intros W Hg Hl Hx Hfind Hp Hc Hf Hw Ht H1 H2. unfold stp_lnkst_event.
  change (char0 (wan_ifname slot portno None)) with 101. change (negb (101 =? 101)) with false. cbv iota.
  rewrite ifname_roundtrip by done. cbn [obind].
  rewrite (get_instance_spec st mstid W), decide_True by (by exists x). cbn [obind].
  rewrite (get_stpm_Some _ _ _ Hx). cbn [obind if_slot if_port if_sub]. rewrite Hfind. cbn [obind].
  change (negb (0 =? 0)) with false. cbv iota. rewrite (get_port_Some _ _ _ Hp). cbn [obind].
  change (LINK_PORT_UP_E =? 0) with true. cbv iota.
  destruct (wp_elim _ _ (proj1 (port_fits_bits st st.(enabled_ports) port.(port_index) Hf Hl))) as (links & -> & _).
  cbn [obind]. set (st1 := st <| enabled_ports := links |>).
  change (g_flag st1) with st.(g_flag). rewrite Hg. cbn [negb].
  destruct (wf_cistport _ W _ _ Hc) as [_ Hq]. apply shape_port_is_Some in Hq as [head Hh].
  destruct (wf_port_member _ _ _ W Hh) as (_ & Hi & _). simpl in Hi.
  destruct (port_fits_index _ _ Hf) as [_ Hr].
  rewrite (enable_wan_undefined wan_br fuel st1 _ slot portno (STP_CIST_ID, port.(port_index)) head y t); try done.
  change (stp_port_mst_findport st1 STP_CIST_ID port.(port_index)) with
    (stp_port_mst_findport st STP_CIST_ID port.(port_index)).
  unfold stp_port_mst_findport.
  destruct (wf_indexed _ W _ _ (shape_port _ _ _ Hh)) as (_ & Hbad & _). simpl in Hbad.
  rewrite (Hbad : bad_index (stp_port_global_index_parse st port.(port_index)) = false), Hc. done.
Qed.

Lemma wan_link_up_has_no_speed_witness :
  stp_lnkst_event (fun _ _ => Some (5, 6)) no_wan 60 (ex_wan <| port_speed_s := Some ∅ |>) 0
    (wan_ifname 1 2 None) true = Segv.
Proof.
  eapply (wan_link_up_has_no_speed _ _ _ _ _ 1 2 (ex_stpm 0) (0, 1) ex_wan_port (5, 6) ∅);
    try by_compute; try lia; decide_wf.
Defined.
