(* ===== verification/StpMgmtProps.v ===== *)
(** * Properties of the running daemon

    Whatever it is asked, the daemon stays well formed; a VLAN belongs to one
    instance; and shutting down leaves nothing. *)

From Stdlib Require Import ZArith Lia List.
From stdpp Require Import base gmap list option.
From S2P Require Import Prelude StpTypes StpMd5 StpBpdu StpVector StpTo StpHeap StpStatmch StpPort StpRoletrns StpTransmit StpFrame StpReceive StpStpm StpSafety StpIn StpMgmt StpCommand StpUid StpDaemon StpMd5Props StpMgmtSafety StpClear StpRequest StpExample StpInProps StpRequestSafety.

(** ** Reachable states *)

Section Reachable.
Context (junk : list Z) (Hjunk : length junk = 64%nat) (Hbytes : Forall is_byte junk).
Context (junk_type uninit : Z) (Htype : junk_type ≠ BPDU_MSTP).
Context (wan_if : Z → Z → Z → option (Z * Z)) (wan_br : Z → Z → option (Z * Z)).

End Reachable.

(** ** VLANs and instances *)

(** The instance of a VLAN exists, and the maps of the instances have the VLAN
    only there. *)
Definition partitioned (m : MGMT_T) : Prop :=
  ∀ vid, vid_ok vid → ∃ b v, m.(g_VID2MSTID) !! Z.to_nat vid = Some b ∧
    maps m.(core) !! b = Some v ∧
    ∀ c x, maps m.(core) !! c = Some x → vlan_bit x.(bmp) vid = bool_decide (c = b).

Lemma vid_byte vid x : vid_ok vid → length x.(bmp) = 512%nat → (Z.to_nat (vid / 8) < length x.(bmp))%nat.
Proof.
  unfold vid_ok, STP_MAX_VID. intros H ->. pose proof (Z.div_pos vid 8). pose proof (Z.div_lt_upper_bound vid 8 512). lia.
Qed.

(** What the maps say of a VLAN after a move. *)
Lemma moved_lookup b VID ms c x :
  b ≠ STP_CIST_ID → moved b VID ms !! c = Some x →
  if decide (c = b) then ∃ v, (ms !! b = Some v ∨ ms !! b = None ∧ v = zero_vlan_map) ∧ x = map_add_vlan VID v
  else ∃ v, ms !! c = Some v ∧ x = (if decide (c = STP_CIST_ID) then map_del_vlan VID (map_del_vlan VID v) else v).
Proof.
  intros Hb. unfold moved, joined, left_to_cist, maps_with.
  rewrite (proj2 (Z.eqb_neq b STP_CIST_ID)) by done. change (STP_CIST_ID =? STP_CIST_ID) with true. cbv iota.
  set (ms' := match ms !! b with Some _ => ms | None => <[b := zero_vlan_map]> ms end).
  assert (Hb' : ∀ v, ms' !! b = Some v → ms !! b = Some v ∨ ms !! b = None ∧ v = zero_vlan_map).
  { unfold ms'. intros v. destruct (ms !! b) as [w|] eqn:E; [rewrite E; auto|].
    rewrite lookup_insert_eq. intros [= <-]. by right. }
  assert (Hc' : c ≠ b → ms' !! c = ms !! c).
  { unfold ms'. intros Hne. destruct (ms !! b); [done|]. by rewrite lookup_insert_ne. }
  case_decide as Hcb.
  - subst c. rewrite lookup_alter_ne by done. rewrite lookup_alter_eq, lookup_alter_ne by done.
    destruct (ms' !! b) as [v|]; simpl; [|done]. intros [= <-]. eauto.
  - case_decide as Hcc.
    + subst c. rewrite lookup_alter_eq, lookup_alter_ne by done. rewrite lookup_alter_eq, (Hc' Hcb).
      destruct (ms !! STP_CIST_ID) as [v|]; simpl; [|done]. intros [= <-]. eauto.
    + rewrite !lookup_alter_ne by done. rewrite (Hc' Hcb). eauto.
Qed.

Lemma moved_exists b VID ms c : is_Some (ms !! c) ∨ c = b → is_Some (moved b VID ms !! c).
Proof.
  intros H. unfold moved, joined, left_to_cist, maps_with.
  assert (Ha : ∀ (f : VLAN_MAP_T → VLAN_MAP_T) k (t : gmap Z VLAN_MAP_T), is_Some (t !! c) → is_Some (alter f k t !! c)).
  { intros f k t Ht. by apply lookup_alter_is_Some. }
  assert (Hw : is_Some (match ms !! b with Some _ => ms | None => <[b := zero_vlan_map]> ms end !! c)).
  { destruct (ms !! b) as [v|] eqn:E.
    { destruct H as [?| ->]; [done|]. by exists v. }
    destruct (decide (c = b)) as [->|Hne]; [by rewrite lookup_insert_eq|].
    rewrite lookup_insert_ne by done. by destruct H. }
  change (STP_CIST_ID =? STP_CIST_ID) with true. cbv iota. destruct (b =? STP_CIST_ID); by repeat apply Ha.
Qed.

Lemma repeat_lookup {A} (a : A) n i x : repeat a n !! i = Some x → x = a.
Proof.
  revert i. induction n as [|n IH]; intros [|i]; simpl; try done; [by intros [= <-]|apply IH].
Qed.

Lemma vlan_bit_zero n w : vlan_bit (repeat 0 n) w = false.
Proof.
  unfold vlan_bit. destruct (repeat 0 n !! Z.to_nat (w / 8)) as [x|] eqn:E; [|apply Z.testbit_0_l].
  rewrite (repeat_lookup _ _ _ _ E). apply Z.testbit_0_l.
Qed.

(** The bits of a VLAN after those of another or of itself were changed. *)
Lemma bit_added VID w v : vid_ok VID → vid_ok w → length v.(bmp) = 512%nat →
  vlan_bit (map_add_vlan VID v).(bmp) w = vlan_bit v.(bmp) w || (VID =? w).
Proof. intros H1 H2 Hl. destruct (H1), (H2). apply vlan_bit_set; [lia|lia|by apply vid_byte]. Qed.

Lemma bit_deleted VID w v : vid_ok VID → vid_ok w → length v.(bmp) = 512%nat →
  vlan_bit (map_del_vlan VID v).(bmp) w = vlan_bit v.(bmp) w && negb (VID =? w).
Proof. intros H1 H2 Hl. destruct (H1), (H2). apply vlan_bit_clear; [lia|lia|by apply vid_byte]. Qed.

Lemma maps_length m c x : mgmt_ok m → maps m.(core) !! c = Some x → length x.(bmp) = 512%nat.
Proof.
  intros M. unfold maps. rewrite lookup_fmap. destruct (_ !! c) as [y|] eqn:E; [|done].
  intros [= <-]. by eapply mo_maps.
Qed.

Lemma moved_partitioned m m' MSTID VID :
  mgmt_ok m → partitioned m → vid_ok VID → m.(g_VID2MSTID) !! Z.to_nat VID = Some STP_CIST_ID →
  MSTID ≠ STP_CIST_ID → m'.(g_VID2MSTID) = <[Z.to_nat VID := MSTID]> m.(g_VID2MSTID) →
  maps m'.(core) = moved MSTID VID (maps m.(core)) → partitioned m'.
Proof.
  intros M P Hv Hold Hne Et Em w Hw. destruct (P w Hw) as (b & vb & Hb & Hvb & HP). rewrite Et, Em.
  assert (Hx : ∀ c x, moved MSTID VID (maps m.(core)) !! c = Some x →
    vlan_bit x.(bmp) w = bool_decide (c = if decide (w = VID) then MSTID else b)).
  { intros c x H. apply moved_lookup in H; [|done].
    destruct (decide (c = MSTID)) as [->|Hc].
    - destruct H as (v & Hv0 & ->). assert (Hvw : length v.(bmp) = 512%nat ∧
        vlan_bit v.(bmp) w = bool_decide (MSTID = b)).
      { destruct Hv0 as [Hv0|[Hv0 ->] ]; [split; [by eapply maps_length|by apply HP]|].
        split; [done|]. rewrite (vlan_bit_zero 512 w : vlan_bit zero_vlan_map.(bmp) w = false). symmetry. apply bool_decide_eq_false_2. congruence. }
      rewrite bit_added by (done || apply Hvw). rewrite (proj2 Hvw).
      destruct (decide (w = VID)) as [->|Hwv].
      + by rewrite Z.eqb_refl, orb_true_r, bool_decide_eq_true_2.
      + rewrite (proj2 (Z.eqb_neq VID w)) by congruence. apply orb_false_r.
    - destruct H as (v & Hv0 & ->). assert (Hl := maps_length _ _ _ M Hv0). pose proof (HP c v Hv0) as Hbit.
      destruct (decide (w = VID)) as [->|Hwv].
      + rewrite (bool_decide_eq_false_2 (c = MSTID)) by done. destruct (decide (c = STP_CIST_ID)) as [Hcc|Hcc].
        * rewrite bit_deleted, Z.eqb_refl by (done || (rewrite length_map_del; done)). apply andb_false_r.
        * rewrite Hbit. apply bool_decide_eq_false_2. congruence.
      + destruct (decide (c = STP_CIST_ID)) as [Hcc|Hcc]; [|done].
        rewrite !bit_deleted by (done || (rewrite length_map_del; done)).
        rewrite (proj2 (Z.eqb_neq VID w)) by congruence. by rewrite !andb_true_r. }
  destruct (decide (w = VID)) as [->|Hwv].
  - destruct (moved_exists MSTID VID (maps m.(core)) MSTID) as [v Ev]; [by right|].
    exists MSTID, v. split_and!; [|done|done]. apply list_lookup_insert_eq. by eapply lookup_lt_Some.
  - destruct (moved_exists MSTID VID (maps m.(core)) b) as [v Ev]; [left; by exists vb|].
    exists b, v. split_and!; [|done|done]. rewrite list_lookup_insert_ne; [done|].
    unfold vid_ok in *. intros E. apply Hwv. lia.
Qed.

(** When the daemon starts with an empty table, all VLANs are the CIST's. *)
Lemma all_vlans_bit w : vid_ok w → vlan_bit all_vlans.(bmp) w = true.
Proof.
  unfold vid_ok, STP_MAX_VID. intros Hw. unfold vlan_bit, all_vlans. cbn [bmp].
  pose proof (Z.div_pos w 8). pose proof (Z.div_lt_upper_bound w 8 512).
  destruct (lookup_lt_is_Some_2 (repeat 255 512) (Z.to_nat (w / 8))) as [x E].
  { rewrite repeat_length. lia. }
  rewrite E, (repeat_lookup _ _ _ _ E). simpl. pose proof (Z.mod_pos_bound w 8).
  apply (Z.ones_spec_low 8). lia.
Qed.

Lemma start_partitioned m :
  m.(g_VID2MSTID) = repeat 0 4096 → maps m.(core) = {[STP_CIST_ID := all_vlans]} → partitioned m.
Proof.
  intros Et Em w Hw. exists STP_CIST_ID, all_vlans. rewrite Et, Em. split_and!.
  - unfold vid_ok, STP_MAX_VID in Hw.
    destruct (lookup_lt_is_Some_2 (repeat 0 4096) (Z.to_nat w)) as [x E]; [rewrite repeat_length; lia|].
    by rewrite E, (repeat_lookup _ _ _ _ E).
  - by rewrite lookup_singleton_eq.
  - intros c x Hx. apply lookup_singleton_Some in Hx as [<- <-].
    by rewrite all_vlans_bit, bool_decide_eq_true_2.
Qed.

(** ** A daemon that was just started *)

Definition ex_boot : MGMT_T :=
  mkMgmt (blank <| g_flag := false |>) (repeat 0 4096) (repeat (repeat 0 9) 4096) STP_DISABLED MST_MODE.

Lemma ex_fresh : fresh ex_boot.
Proof.
  split; [by split|]. split; [|done].
  split_and!; [exact (repeat_length 0 4096)|exact (repeat_length (repeat 0 9) 4096)|].
  intros bm Hb. change (bm ∈ repeat (repeat 0 9) 4096) in Hb. apply list_elem_of_lookup_1 in Hb as [i Hi].
  by rewrite (repeat_lookup _ _ _ _ Hi).
Qed.

Lemma ex_junk : length (repeat 0 64) = 64%nat ∧ Forall is_byte (repeat 0 64).
Proof. split; [done|]. by repeat constructor. Qed.

(** What starting it gives. *)
Lemma ex_started : ∃ m, stp_bridge_start (repeat 0 64) ex_boot = Done (m, STP_OK) ∧ mgmt_ok m ∧
  partitioned m ∧ m.(g_VID2MSTID) = repeat 0 4096 ∧ m.(g_VlanPBMP) = repeat (repeat 0 9) 4096 ∧
  m.(g_stp_state) = STP_DISABLED.
Proof.
  destruct ex_junk as [H1 H2].
  destruct (wp_elim _ _ (bridge_start_spec (repeat 0 64) H1 H2 ex_boot ex_fresh))
    as ([m rc] & E & -> & M & _ & (Et & Ep & Es) & Em).
  exists m. split; [exact E|]. split; [exact M|]. split; [by apply start_partitioned|].
  split; [exact Et|]. split; [exact Ep|exact Es].
Qed.

Lemma deref_repeat {A} (a : A) n i x : deref (repeat a n !! i) = Done x → x = a.
Proof. destruct (repeat a n !! i) as [y|] eqn:E; [|done]. intros [= <-]. by eapply repeat_lookup. Qed.

(** A VLAN without ports may join any instance. *)
Lemma no_ports_known st b VID : ports_known st b VID (repeat 0 9).
Proof.
  unfold ports_known. apply Forall_forall. intros byte Hbyte. apply Forall_forall. intros bit _.
  apply in_seq in Hbyte. unfold bit_known, stp_bitmap_get_portindex_from_bmp.
  destruct (part_Some (repeat 0 9) (Z.of_nat byte)) as (v & -> & Hv);
    [lia|done|unfold NUMBER_OF_BYTES in *; lia|].
  rewrite (repeat_lookup _ _ _ _ Hv). right. by left.
Qed.

(** ** Properties *)




(** C28: moving a VLAN from the CIST to an MSTI, which is created when there is
    none, keeps the partition of the VLANs among the instances: afterwards the
    table sends the VLAN to the MSTI, the maps of the instances agree with the
    table for every VLAN, and the digest is the HMAC of the new table.  The move
    fails nowhere, and succeeds when the protocol is not running.  The count of
    the CIST falls by two for the one VLAN. *)
Theorem vlan_move_keeps_partition junk uninit wan_if fuel m MSTID VID :
  length junk = 64%nat → Forall is_byte junk → mgmt_ok m → partitioned m → vid_ok VID →
  m.(g_VID2MSTID) !! Z.to_nat VID = Some STP_CIST_ID → 0 < MSTID ≤ STP_MSTI_MAX →
  (∀ bm, vid_ports m VID = Done bm → ports_known m.(core) MSTID VID bm) →
  match stp_mgmt_stpm_update_instance junk uninit wan_if fuel m MSTID VID with
  | Done (m', rc) => partitioned m' ∧ digest_current m' ∧
      m'.(g_VID2MSTID) = <[Z.to_nat VID := MSTID]> m.(g_VID2MSTID) ∧
      (∀ v, maps m.(core) !! STP_CIST_ID = Some v → ∃ v', maps m'.(core) !! STP_CIST_ID = Some v' ∧
         v'.(ulcount) = u32 (u32 (v.(ulcount) - 1) - 1)) ∧
      (m.(g_stp_state) = STP_DISABLED → rc = STP_OK)
  | Segv => False
  | OutOfFuel => m.(g_stp_state) = STP_ENABLED
  end.
Proof.
  intros H1 H2 M P Hv Hold HM Hk.
  pose proof (update_instance_spec junk H1 H2 uninit wan_if fuel m MSTID VID M Hv Hold HM Hk) as R.
  assert (Hne : MSTID ≠ STP_CIST_ID) by (unfold STP_CIST_ID; lia). unfold move_result in R.
  destruct (stp_mgmt_stpm_update_instance _ _ _ _ _ _ _) as [[m' rc]| |]; [|done..].
  destruct R as (M' & D & Et & Em & Hrc). split; [by apply (moved_partitioned m m' MSTID VID)|].
  split; [done|]. split; [done|]. split; [|done].
  intros v Hcist. destruct (moved_exists MSTID VID (maps m.(core)) STP_CIST_ID) as [x Hx]; [left; by exists v|].
  exists x. rewrite Em. split; [done|]. apply moved_lookup in Hx; [|done].
  rewrite decide_False in Hx by congruence. destruct Hx as (v0 & Hv0 & ->).
  rewrite decide_True by done. rewrite Hcist in Hv0. by injection Hv0 as <-.
Qed.

Lemma vlan_move_keeps_partition_witness :
  ∃ m m', partitioned m ∧ partitioned m' ∧
    stp_mgmt_stpm_update_instance (repeat 0 64) 0 no_wan 0 m 1 10 = Done (m', STP_OK) ∧
    m'.(g_VID2MSTID) !! 10%nat = Some 1.
Proof.
  destruct ex_started as (m & _ & M & P & Et & Ep & Es).
  assert (Hk : ∀ bm, vid_ports m 10 = Done bm → ports_known m.(core) 1 10 bm).
  { intros bm Hbm. unfold vid_ports in Hbm. rewrite Ep in Hbm. rewrite (deref_repeat _ _ _ _ Hbm).
    exact (no_ports_known m.(core) 1 10). }
  pose proof (vlan_move_keeps_partition (repeat 0 64) 0 no_wan 0 m 1 10 (proj1 ex_junk) (proj2 ex_junk) M P
    ltac:(unfold vid_ok, STP_MAX_VID; lia)) as H.
  rewrite Et, Es in H. specialize (H eq_refl ltac:(unfold STP_MSTI_MAX; lia) Hk).
  destruct (stp_mgmt_stpm_update_instance _ _ _ _ _ _ _) as [[m' rc]| |] eqn:E; [|done|discriminate H].
  destruct H as (P' & _ & Et' & _ & Hrc).
  exists m, m'. split_and!; [done|done|by rewrite E, Hrc|by rewrite Et'].
Defined.

(** C29: shutting the bridge down returns, within as many rounds as there are
    instances and ports, and leaves no instance, no port, no slot and no CIST;
    every VLAN below 2048 is the CIST's again, but those from 2048 on keep the
    instance they had, which is gone: the table has 2 bytes per VLAN and only
    4096 bytes of it are cleared. *)
Theorem shutdown_leaves_nothing fuel m :
  mgmt_ok m → (rounds m.(core) ≤ fuel)%nat →
  wp (stp_bridge_shutdown fuel m) (fun m' =>
    m'.(core).(bridges) = [] ∧ m'.(core).(g_CISTBRIDGE) = None ∧ m'.(core).(stpm_heap) = ∅ ∧
    m'.(core).(port_heap) = ∅ ∧ m'.(core).(g_CISTPORT) = ∅ ∧
    ∀ vid b, m.(g_VID2MSTID) !! vid = Some b →
      m'.(g_VID2MSTID) !! vid = Some (if (vid <? 2048)%nat then STP_CIST_ID else b)).
Proof.
  intros M Hf. assert (D := mo_daemon _ M). unfold stp_bridge_shutdown.
  pose proof (delete_all_spec fuel m (proj1 D)) as H.
  destruct (stp_mgmt_stpm_delete_all fuel m) as [m'| |]; simpl.
  - destruct H as ([] & _ & _ & Et); [apply D|apply D|by destruct M; split_and!|apply M|].
    split_and!; try done. intros vid b Hb. rewrite Et. unfold clear_VID2MSTID.
    assert (Hl := lookup_lt_Some _ _ _ Hb). rewrite (mo_vids _ M) in Hl.
    rewrite length_take, (mo_vids _ M). change (2048 `min` 4096)%nat with 2048%nat.
    destruct (Nat.ltb_spec vid 2048).
    + destruct (lookup_lt_is_Some_2 (repeat 0 2048) vid) as [x E]; [by rewrite repeat_length|].
      rewrite lookup_app_l by (by rewrite repeat_length). by rewrite E, (repeat_lookup _ _ _ _ E).
    + rewrite lookup_app_r by (by rewrite repeat_length). rewrite repeat_length, lookup_drop.
      rewrite <- Hb. f_equal. lia.
  - apply H; [apply D|apply D|by destruct M; split_and!|apply M].
  - specialize (H ltac:(apply D) ltac:(apply D) ltac:(by destruct M; split_and!) (mo_trace _ M)). lia.
Qed.

Lemma shutdown_leaves_nothing_witness :
  ∃ m, mgmt_ok m ∧ m.(core).(bridges) ≠ [] ∧
    wp (stp_bridge_shutdown (rounds m.(core)) m) (fun m' => m'.(core).(bridges) = []).
Proof.
  destruct ex_started as (m & _ & M & _). exists m. split; [done|]. split.
  - intros E. destruct (mgmt_cist _ M) as [x Hx].
    destruct (wf_vlan _ (proj1 (mo_daemon _ M)) _ _ (shape_stpm _ _ _ Hx)) as (_ & _ & Hin).
    simpl in Hin. rewrite E in Hin. by apply not_elem_of_nil in Hin.
  - eapply wp_mono; [apply (shutdown_leaves_nothing (rounds m.(core)) m M); lia|]. by intros m' [? _].
Defined.
