(* ===== verification/StpEngineProps.v ===== *)
(** * Properties of the engine

    The update loop and the clock follow no bad pointer and leave blocks of memory
    only as [engine_event] says; what a tick does to the timers, when the update
    loop stops, and what deleting an instance does. *)

From Stdlib Require Import ZArith Lia.
From stdpp Require Import base gmap list option.
From S2P Require Import Prelude StpTypes StpBpdu StpVector StpTo StpHeap StpStatmch StpPort StpRoletrns StpTransmit StpFrame StpReceive StpStpm StpSafety StpIn StpExample StpInProps.

(** ** The update loop *)

(** When [stp_stpm_do_update] returns, the last thing it did was to check every
    machine of the instance, and none had to change state. *)
Lemma do_update_quiet fuel st b n st' n' :
  do_update_loop fuel st b n = Done (st', n') →
  ∃ st0, stp_stpm_iterate_machines st0 b check_callback true = Done (st', 0).
Proof.
  revert st n. induction fuel as [|fuel IH]; intros st n; simpl; [done|].
  intros ([st1 need] & E1 & E)%obind_Done. simpl in E. destruct (Z.eqb_spec need 0) as [->|_].
  - injection E as -> _. by exists st.
  - apply obind_Done in E as ([st2 k] & _ & E). by eapply IH.
Qed.

(** A run over the machines that returns 0 has had 0 from each. *)
Lemma run_check_quiet l : ∀ st n st',
  0 ≤ n → run_machines check_callback true l st n = Done (st', 0) →
  n = 0 ∧ ∀ s, s ∈ l → ∃ st1 st2, stp_statmch_check_condition (machine s) st1 = Done (st2, false).
Proof.
  induction l as [|s l IH]; intros st n st' Hn E; simpl in E.
  { injection E as _ ->. split; [done|]. by intros s ?%elem_of_nil. }
  apply obind_Done in E as ([st1 r] & E1 & E). unfold check_callback in E1.
  apply obind_Done in E1 as ([st1' r'] & E1 & E2). injection E2 as <- <-.
  destruct r'; simpl in E; [done|].
  destruct (IH st1' (n + 0) st' ltac:(lia) E) as [Hz Hl]. split; [lia|].
  intros s' [->|Hs']%elem_of_cons; [by eexists _, _|by apply Hl].
Qed.

(** ** Ticks *)

Lemma one_second_ticks st b stpm n :
  wf st → st.(stpm_heap) !! b = Some stpm → stpm.(STPM.admin_state) = STP_ENABLED →
  wp (one_second_stpm b (st, n)) (fun '(st', n') => n' = n + 1 ∧ same_shape st st' ∧
    (∀ q, q ∈ stpm.(STPM.ports) → st'.(port_heap) !! q = tick_port <$> st.(port_heap) !! q) ∧
    (∀ q, q ∉ stpm.(STPM.ports) → st'.(port_heap) !! q = st.(port_heap) !! q) ∧
    ∃ stpm', st'.(stpm_heap) = <[b := stpm']> st.(stpm_heap) ∧
      (stpm'.(STPM.Topo_Change) = 1 ↔
       ∃ q port, q ∈ stpm.(STPM.ports) ∧ st'.(port_heap) !! q = Some port ∧ port.(tcWhile) ≠ 0)).
Proof.
  intros W H Ha. unfold one_second_stpm. rewrite (get_stpm_Some _ _ _ H). cbn [obind].
  rewrite Ha. change (STP_ENABLED <>e STP_ENABLED) with false. cbn match.
  assert (Hex : ∀ q, q ∈ stpm.(STPM.ports) → is_Some (st.(port_heap) !! q))
    by (intros q Hq; destruct (wf_on_list _ _ _ _ W H Hq) as (_ & x & ?); by exists x).
  rewrite upd_ports_map by done. cbn [obind]. set (st1 := st <| port_heap := _ |>).
  assert (S1 : same_shape st st1) by (by apply map_ports_shape).
  assert (Hin : ∀ q, q ∈ stpm.(STPM.ports) → st1.(port_heap) !! q = tick_port <$> st.(port_heap) !! q)
    by (intros q Hq; apply map_ports_in; [by eapply wf_list_nodup|done]).
  assert (Hany : wp (stp_stpm_check_topoch st1 stpm) (fun tc => tc = true ↔
    ∃ q port, q ∈ stpm.(STPM.ports) ∧ st1.(port_heap) !! q = Some port ∧ port.(tcWhile) ≠ 0)).
  { unfold stp_stpm_check_topoch.
    assert (Hex1 : ∀ q, q ∈ stpm.(STPM.ports) → is_Some (st1.(port_heap) !! q))
      by (intros q Hq; rewrite Hin by done; destruct (Hex q Hq) as [x ->]; by eexists).
    clear Hin Hex. revert Hex1. generalize stpm.(STPM.ports) as l. induction l as [|q l IH]; intros Hex1.
    { simpl. split; [done|]. by intros (q & port & ?%elem_of_nil & _). }
    simpl. destruct (Hex1 q ltac:(left)) as [x Hx]. rewrite (get_port_Some _ _ _ Hx). cbn [obind].
    destruct (Z.eqb_spec x.(tcWhile) 0) as [E|E]; simpl.
    - eapply wp_mono; [apply IH; intros; apply Hex1; by right|]. intros r ->. split.
      + intros (q' & port & Hq' & ?). exists q', port. split; [by right|done].
      + intros (q' & port & [->|Hq']%elem_of_cons & Hp & Ht); [|by exists q', port].
        change (st1.(port_heap) !! q = Some port) in Hp. congruence.
    - split; [intros _; exists q, x; split; [left|done]|done]. }
  apply wp_bind. eapply wp_mono; [exact Hany|]. intros tc Htc. cbv zeta.
  match goal with |- context [put_stpm st1 b ?x] => set (stpm' := x) end.
  apply wp_Done. split; [done|]. split.
  { etransitivity; [exact S1|]. apply (put_stpm_shape st1 b stpm); [done|].
    unfold stpm'. by destruct tc. }
  split; [exact Hin|]. split; [intros q Hq; by apply map_ports_notin|].
  exists stpm'. split; [done|]. rewrite <- Htc. unfold stpm'. by destruct tc.
Qed.

(** ** Deletion *)

(** The loop that deletes the ports steps over the list two at a time. *)
Lemma delete_ports_odd l : ∀ st b st', Nat.Odd (length l) → delete_ports st b l ≠ Done st'.
Proof.
  assert (Hn : ∀ n l st b st', (length l ≤ n)%nat → Nat.Odd (length l) → delete_ports st b l ≠ Done st').
  { induction n as [|n IH]; intros [|q [|r l']] st b st' Hl Ho; simpl in *; try (by destruct Ho; lia); try lia.
    - by destruct (stp_port_delete st q).
    - intros (st1 & _ & E)%obind_Done. apply obind_Done in E as (this & _ & E).
      eapply (IH l' _ _ _ ltac:(lia)); [|exact E]. by apply Nat.Odd_succ_succ. }
  intros. by eapply Hn.
Qed.

Lemma disable_keeps_ports fuel st b stpm st' rc :
  st.(stpm_heap) !! b = Some stpm → stp_stpm_enable fuel st b STP_DISABLED = Done (st', rc) →
  ∃ stpm', st'.(stpm_heap) !! b = Some stpm' ∧ stpm'.(STPM.ports) = stpm.(STPM.ports).
Proof.
  intros H E. unfold stp_stpm_enable in E. rewrite (get_stpm_Some _ _ _ H) in E. cbn [obind] in E.
  case_match; [injection E as <- _; by exists stpm|].
  unfold stp_stpm_stop, set_admin_state in E. rewrite (get_stpm_Some _ _ _ H) in E. cbn [obind] in E.
  rewrite get_put_stpm in E. cbn [obind] in E. injection E as <- _.
  eexists. simpl. rewrite lookup_insert_eq. done.
Qed.

(** ** Look-up of ports *)

(** Finding a port depends on the shape only. *)
Lemma find_in_chain_shape st st' b chain :
  same_shape st st' → find_in_chain st' b chain = find_in_chain st b chain.
Proof.
  intros E. induction chain as [|q chain IH]; simpl; [done|]. unfold get_port.
  destruct (st.(port_heap) !! q) as [port|] eqn:Hq.
  - destruct (same_port _ _ _ _ E Hq) as (port' & Hq' & Ep). rewrite Hq'. cbn [deref obind].
    pose proof (f_equal sh_owner Ep) as Eo. simpl in Eo. rewrite Eo. unfold get_stpm.
    destruct (st.(stpm_heap) !! port.(owner)) as [stpm|] eqn:Hs.
    + destruct (same_stpm _ _ _ _ E Hs) as (stpm' & Hs' & Es). rewrite Hs'. cbn [deref obind].
      pose proof (f_equal sh_vlan Es) as Ev. simpl in Ev. rewrite Ev. by destruct (_ =? _).
    + destruct (st'.(stpm_heap) !! port.(owner)) as [stpm'|] eqn:Hs'; [|done].
      destruct (same_stpm _ _ _ _ (symmetry E) Hs') as (? & ? & _). congruence.
  - destruct (st'.(port_heap) !! q) as [port'|] eqn:Hq'; [|done].
    destruct (same_port _ _ _ _ (symmetry E) Hq') as (? & ? & _). congruence.
Qed.

Lemma findport_shape st st' b idx :
  same_shape st st' → stp_port_mst_findport st' b idx = stp_port_mst_findport st b idx.
Proof.
  intros E. pose proof (f_equal sh_cistport E) as E1. pose proof (f_equal sh_product E) as E2.
  pose proof (f_equal sh_distributed E) as E3. simpl in E1, E2, E3.
  unfold stp_port_mst_findport, stp_port_global_index_parse. rewrite <- E1, <- E2, <- E3.
  destruct (bad_index _); [done|].
  destruct (st.(g_CISTPORT) !! index_parse st.(productId) st.(stp_is_distributed) idx) as [c|]; [|done].
  destruct (STP_CIST_ID =? b); [done|]. unfold get_port.
  destruct (st.(port_heap) !! c) as [port|] eqn:Hc.
  - destruct (same_port _ _ _ _ E Hc) as (port' & Hc' & Ep). rewrite Hc'. cbn [deref obind].
    pose proof (f_equal sh_next Ep) as En. simpl in En. rewrite En. by apply find_in_chain_shape.
  - destruct (st'.(port_heap) !! c) as [port'|] eqn:Hc'; [|done].
    destruct (same_port _ _ _ _ (symmetry E) Hc') as (? & ? & _). congruence.
Qed.

(** ** VLANs of a port *)

Lemma clear_set_vlan m VID :
  0 ≤ VID → vlan_bit m VID = false → clear_vlan_bit VID (set_vlan_bit VID m) = m.
Proof.
  intros Hv Hb. unfold clear_vlan_bit, set_vlan_bit. apply list_eq. intros i.
  destruct (decide (i = Z.to_nat (VID / 8))) as [->|Hi].
  2:{ by rewrite !list_lookup_alter_ne. }
  rewrite !list_lookup_alter_eq. unfold vlan_bit in Hb.
  destruct (m !! Z.to_nat (VID / 8)) as [x|]; simpl in *; [|done]. f_equal.
  pose proof (Z.mod_pos_bound VID 8 ltac:(lia)).
  apply Z.bits_inj'. intros n Hn.
  rewrite Z.land_spec, Z.lor_spec, Z.lnot_spec by lia.
  rewrite Z.shiftl_1_l, Z.pow2_bits_eqb by lia.
  destruct (Z.eqb_spec (VID mod 8) n) as [<-|_]; [by rewrite Hb|].
  by rewrite orb_false_r, andb_true_r.
Qed.

Lemma add_del_vlan wan_if fuel uninit st b idx VID p port :
  bad_index (stp_port_global_index_parse st idx) = false → STP_CIST_ID < b ≤ STP_MSTI_MAX →
  stp_port_mst_findport st b idx = Done (Some p) → st.(port_heap) !! p = Some port →
  0 ≤ VID < 4096 → vlan_bit port.(vlan_map).(bmp) VID = false → 1 ≤ port.(vlan_map).(ulcount) < 2 ^ 32 - 1 →
  ∃ st1, stp_port_mst_addport wan_if fuel st b idx VID false = Done (st1, STP_OK) ∧
    stp_port_mst_delport uninit st1 b idx VID = Done (st, uninit).
Proof.
  intros Hi Hb Hf Hp Hv Hbit Hc. unfold STP_CIST_ID, STP_MSTI_MAX in *.
  unfold stp_port_mst_addport. rewrite Hi, Hf. unfold STP_MSTI_MAX.
  rewrite (proj2 (Z.ltb_ge 64 b)) by lia. cbn [orb obind].
  assert (Hs : ∀ A (a : A), vlan_store VID a = Done a).
  { intros A a. unfold vlan_store. pose proof (Z.div_lt_upper_bound VID 8 512).
    by rewrite (proj2 (Z.ltb_lt (VID / 8) 512)) by lia. }
  rewrite (get_port_Some _ _ _ Hp). cbn [obind]. rewrite Hs. cbn [obind]. eexists. split; [done|].
  set (port1 := add_port_vlan VID false port). set (st1 := put_port st p port1).
  assert (E : same_shape st st1) by (by eapply put_port_shape).
  unfold stp_port_mst_delport. change (stp_port_global_index_parse st1 idx)
    with (stp_port_global_index_parse st idx). rewrite Hi. unfold STP_MSTI_MAX, STP_CIST_ID.
  rewrite (proj2 (Z.ltb_ge 64 b)), (proj2 (Z.eqb_neq b 0)) by lia. cbn [orb].
  rewrite (findport_shape st st1 b idx E), Hf. cbn [obind].
  rewrite (get_port_Some st1 p port1) by apply put_port_lookup. cbn [obind]. rewrite Hs. cbn [obind].
  assert (Ec : u32 ((port1.(vlan_map)).(ulcount) - 1) = port.(vlan_map).(ulcount)).
  { simpl. rewrite !u32_small; [lia|lia|rewrite u32_small; lia]. }
  rewrite Ec. rewrite (proj2 (Z.eqb_neq port.(vlan_map).(ulcount) 0)) by lia. cbn [negb].
  do 2 f_equal. change (bmp (vlan_map port1)) with (set_vlan_bit VID port.(vlan_map).(bmp)).
  unfold st1. rewrite put_put_port. rewrite clear_set_vlan by (done || lia).
  etransitivity; [|by apply (put_port_id st p port)]. f_equal.
Qed.

(** ** Properties *)

(** C2: what the engine can do wrong with memory.  On a well-formed bridge with a
    CIST, whatever its ports, priorities, timers and flags hold and whatever the
    fuel, when the tables of speeds and duplex modes hold values of their
    enumerations ([engine_ok]) and the frame being processed, if there is one, is
    that of a CIST port, has passed the header check and lies in a buffer with room
    for the largest ([receive_arg_ok]),
    [stp_stpm_mst_update] and [stp_stpm_one_second] follow no NULL or dangling
    pointer of the bridge, read nothing outside a frame that passed the header
    check, and leave every pointer of the bridge as it was.  Every other access
    outside a block is recorded, and is of one of three kinds: 81 bytes read from
    the block of 53 of a short BPDU that is sent, the name of a WAN interface that
    does not fit its array of 20 or 21 bytes, and, only when some port belongs to
    six MSTIs or more, a BPDU of a WAN port that does not fit the buffer of 255
    bytes.  What an overrun spoils is not followed further. *)
Theorem engine_has_known_overruns_only fuel st port :
  engine_ok st → receive_arg_ok port st →
  safe (stp_stpm_mst_update fuel st port)
    (fun st' => frame st st' ∧ adds (engine_event (crowded st)) st st') ∧
  (st.(g_curBPDU) = None → safe (stp_stpm_one_second fuel st)
    (fun r => frame st r.1 ∧ adds (engine_event (crowded st)) st r.1)).
Proof.
  intros Ok Ha. split.
  - eapply safe_mono; [by apply mst_update_safe|]. intros st' F. split; [done|apply (fr_trace _ _ F)].
  - intros Hn. eapply safe_mono; [by apply one_second_safe|].
    intros r F. split; [done|apply (fr_trace _ _ F)].
Qed.

(** when the update of an instance returns, it has reached rest: its last
    pass checked every machine of the instance, its role selection machine and
    those of its ports, and no machine had to change state. *)
Theorem update_returns_at_rest fuel st b st' n :
  stp_stpm_do_update fuel st b = Done (st', n) →
  ∃ st0 l, stpm_machines st0 b = Done l ∧
    stp_stpm_iterate_machines st0 b check_callback true = Done (st', 0) ∧
    ∀ s, s ∈ l → ∃ st1 st2, stp_statmch_check_condition (machine s) st1 = Done (st2, false).
Proof.
  intros (st0 & E)%do_update_quiet. exists st0.
  pose proof E as E'. unfold stp_stpm_iterate_machines in E'. apply obind_Done in E' as (l & El & Er).
  exists l. split_and!; [done..|]. by apply (run_check_quiet l st0 0 st').
Qed.

(** one second of an enabled instance lowers each timer of each of its ports
    by one unless it is zero already, counts the instance, touches no other port
    and no other instance, and records whether some port's topology change timer
    still runs. *)
Theorem one_second_ticks_every_port st b stpm n :
  wf st → st.(stpm_heap) !! b = Some stpm → stpm.(STPM.admin_state) = STP_ENABLED →
  wp (one_second_stpm b (st, n)) (fun '(st', n') => n' = n + 1 ∧ same_shape st st' ∧
    (∀ q, q ∈ stpm.(STPM.ports) → st'.(port_heap) !! q = tick_port <$> st.(port_heap) !! q) ∧
    (∀ q, q ∉ stpm.(STPM.ports) → st'.(port_heap) !! q = st.(port_heap) !! q) ∧
    ∃ stpm', st'.(stpm_heap) = <[b := stpm']> st.(stpm_heap) ∧
      (stpm'.(STPM.Topo_Change) = 1 ↔
       ∃ q port, q ∈ stpm.(STPM.ports) ∧ st'.(port_heap) !! q = Some port ∧ port.(tcWhile) ≠ 0)).
Proof. exact (one_second_ticks st b stpm n). Qed.

(** an instance with an odd number of ports cannot be deleted:
    [stp_stpm_delete] never returns normally, because its loop takes two steps
    through the list of ports in each turn and dereferences the NULL at its
    end. *)
Theorem delete_crashes_on_odd_ports fuel st b stpm st' :
  st.(stpm_heap) !! b = Some stpm → Nat.Odd (length stpm.(STPM.ports)) →
  stp_stpm_delete fuel st b ≠ Done st'.
Proof.
  intros H Ho E. unfold stp_stpm_delete in E. apply obind_Done in E as ([st1 rc] & E1 & E).
  destruct (disable_keeps_ports _ _ _ _ _ _ H E1) as (stpm1 & H1 & Ep).
  rewrite (get_stpm_Some _ _ _ H1) in E. cbn [obind] in E. rewrite Ep in E.
  apply obind_Done in E as (st2 & E2 & _). by apply (delete_ports_odd _ _ _ _ Ho) in E2.
Qed.

(** adding a VLAN to an MSTI port and deleting it again restores the bridge,
    when the port stays for another VLAN; the code that [stp_port_mst_delport]
    returns then is that of an uninitialised variable. *)
Theorem add_and_delete_vlan_roundtrip wan_if fuel uninit st b idx VID p port :
  bad_index (stp_port_global_index_parse st idx) = false → STP_CIST_ID < b ≤ STP_MSTI_MAX →
  stp_port_mst_findport st b idx = Done (Some p) → st.(port_heap) !! p = Some port →
  0 ≤ VID < 4096 → vlan_bit port.(vlan_map).(bmp) VID = false → 1 ≤ port.(vlan_map).(ulcount) < 2 ^ 32 - 1 →
  ∃ st1, stp_port_mst_addport wan_if fuel st b idx VID false = Done (st1, STP_OK) ∧
    stp_port_mst_delport uninit st1 b idx VID = Done (st, uninit).
Proof. exact (add_del_vlan wan_if fuel uninit st b idx VID p port). Qed.

(** looking a port up in a well-formed bridge always returns, whatever the
    instance and index asked for, and what it returns is an existing port of
    that instance. *)
Theorem findport_is_sound st b idx :
  wf st → wp (stp_port_mst_findport st b idx) (fun r =>
    ∀ q, r = Some q → q.1 = b ∧ is_Some (st.(port_heap) !! q)).
Proof. exact (findport_spec st b idx). Qed.

(** *** Witnesses *)

Lemma engine_has_known_overruns_only_witness :
  safe (stp_stpm_mst_update 60 ex_st None)
    (fun st' => frame ex_st st' ∧ adds (engine_event (crowded ex_st)) ex_st st') ∧
  safe (stp_stpm_one_second 60 ex_st)
    (fun r => frame ex_st r.1 ∧ adds (engine_event (crowded ex_st)) ex_st r.1).
Proof.
  destruct (engine_has_known_overruns_only 60 ex_st None ex_engine_ok eq_refl) as [H1 H2].
  exact (conj H1 (H2 eq_refl)).
Defined.

Lemma update_returns_at_rest_witness :
  ∃ st' n st0, stp_stpm_do_update 60 ex_st 0 = Done (st', n) ∧
    stp_stpm_iterate_machines st0 0 check_callback true = Done (st', 0).
Proof.
  destruct (stp_stpm_do_update 60 ex_st 0) as [[st' n]| |] eqn:E; [|by vm_compute in E..].
  destruct (update_returns_at_rest 60 ex_st 0 st' n E) as (st0 & l & _ & H & _).
  exists st', n, st0. exact (conj eq_refl H).
Defined.

Lemma one_second_ticks_every_port_witness :
  wp (one_second_stpm 0 (ex_st, 0)) (fun '(st', n') => n' = 1 ∧
    st'.(port_heap) !! (0, 1) = Some (tick_port (ex_port (0, 1)))).
Proof.
  pose proof (one_second_ticks_every_port ex_st 0 (ex_stpm 0) 0 (proj1 ex_engine_ok)
    ltac:(by_compute) ltac:(by_compute)) as H.
  refine (wp_mono _ _ _ H _). intros [st' n'] (-> & _ & Ht & _). split; [reflexivity|].
  rewrite (Ht (0, 1) ltac:(by_decision)). by_compute.
Defined.

Lemma delete_crashes_on_odd_ports_witness :
  stp_stpm_delete 60 ex_st 1 = Segv ∧ ∀ st', stp_stpm_delete 60 ex_st 1 ≠ Done st'.
Proof.
  split; [by_compute|]. intros st'. refine (delete_crashes_on_odd_ports 60 ex_st 1 (ex_stpm 1) st' ltac:(by_compute) _).
  exists 0%nat. by_compute.
Defined.

Lemma add_and_delete_vlan_roundtrip_witness :
  ∃ st1, stp_port_mst_addport no_wan 0 ex_st 1 1 20 false = Done (st1, STP_OK) ∧
    stp_port_mst_delport 77 st1 1 1 20 = Done (ex_st, 77).
Proof.
  refine (add_and_delete_vlan_roundtrip no_wan 0 77 ex_st 1 1 20 (1, 1) (ex_port (1, 1))
    _ _ _ _ _ _ _); first [by_compute | by_decision].
Defined.

Lemma findport_is_sound_witness :
  wp (stp_port_mst_findport ex_st 1 1) (fun r =>
    ∀ q, r = Some q → q.1 = 1 ∧ is_Some (ex_st.(port_heap) !! q)).
Proof. exact (findport_is_sound ex_st 1 1 (proj1 ex_engine_ok)). Defined.
