(* ===== verification/Chain.v ===== *)
(** * Hash tables of linked nodes

    The tables of the DHCP snooping daemon are arrays of heads of singly linked
    lists, and a binding is linked into two of them.  A heap is a finite map
    from pointers to nodes, an array of heads a finite map in which a missing
    entry is a NULL head.  A [Link] is one of the pointer fields of a node.

    [chain] relates a head to the list of the pointers met from it, [hashed] an
    array of heads to the set of the nodes it holds.  The walks the code makes
    over a list ([find_loop], [unlink_loop], [count_loop]) are proved against
    them, so that their clients reason about sets of nodes.  A list that ends
    visits no node twice, so as many turns as the heap has nodes are enough. *)

From Stdlib Require Import ZArith Lia.
From stdpp Require Import base gmap list option.
From S2P Require Import Prelude.

Record Link (N : Type) := mkLink {
  nxt : N → option positive;
  set_nxt : option positive → N → N }.
Arguments nxt {N} _ _.
Arguments set_nxt {N} _ _ _.

Class LinkLaw {N} (L : Link N) : Prop :=
  nxt_set_nxt : ∀ o x, L.(nxt) (L.(set_nxt) o x) = o.

Section Chain.
Context {N : Type} (L : Link N).
Implicit Types (h : gmap positive N) (heads : gmap Z positive) (p q : positive).

(** [heads[k] = o] *)
Definition set_head heads (k : Z) (o : option positive) : gmap Z positive :=
  partial_alter (fun _ => o) k heads.

(** [while (tmp) { if (test) break; tmp = tmp->next; }], with the value of [tmp]
    at the end. *)
Fixpoint find_loop (test : N → outcome bool) (fuel : nat) h (tmp : option positive)
    : outcome (option positive) :=
  match fuel with
  | O => OutOfFuel
  | S fuel' =>
      match tmp with
      | None => Done None
      | Some p =>
          let* x := deref (h !! p : option N) in
          let* b := test x in
          if (b : bool) then Done (Some p) else find_loop test fuel' h (L.(nxt) x)
      end
  end.

(** [while (tmp && tmp->next) { if (tmp->next == item) { tmp->next = item->next;
    return; } tmp = tmp->next; }]: the heap if [item] was found. *)
Fixpoint unlink_loop (fuel : nat) (item : positive) h (tmp : option positive)
    : outcome (option (gmap positive N)) :=
  match fuel with
  | O => OutOfFuel
  | S fuel' =>
      match tmp with
      | None => Done None
      | Some p =>
          let* x := deref (h !! p : option N) in
          match L.(nxt) x with
          | None => Done None
          | Some q =>
              if decide (q = item) then
                let* y := deref (h !! item) in
                Done (Some (<[p := L.(set_nxt) (L.(nxt) y) x]> h))
              else unlink_loop fuel' item h (Some q)
          end
      end
  end.

(** [if (heads[k] == item) heads[k] = item->next; else] the loop above.  The
    boolean tells whether [item] was found. *)
Definition unlink h heads (k : Z) (item : positive)
    : outcome (gmap positive N * gmap Z positive * bool) :=
  if decide (heads !! k = Some item) then
    let* y := deref (h !! item) in
    Done (h, set_head heads k (L.(nxt) y), true)
  else
    let* o := unlink_loop (S (size h)) item h (heads !! k) in
    match o with
    | Some h' => Done (h', heads, true)
    | None => Done (h, heads, false)
    end.

(** The nodes of a list, in order. *)
Fixpoint walk (fuel : nat) h (tmp : option positive) : outcome (list positive) :=
  match fuel with
  | O => OutOfFuel
  | S fuel' =>
      match tmp with
      | None => Done []
      | Some p =>
          let* x := deref (h !! p : option N) in
          let* l := walk fuel' h (L.(nxt) x) in
          Done (p :: l)
      end
  end.

(** ** Chains *)

Fixpoint chain h (hd : option positive) (l : list positive) : Prop :=
  match l with
  | [] => hd = None
  | p :: l' => hd = Some p ∧ ∃ x, h !! p = Some x ∧ chain h (L.(nxt) x) l'
  end.

Lemma chain_det h hd l1 l2 : chain h hd l1 → chain h hd l2 → l1 = l2.
Proof.
  revert hd l2. induction l1 as [|p l1 IH]; intros hd [|q l2]; simpl; [done|naive_solver|naive_solver|].
  intros (-> & x & Ex & H1) (Eq & y & Ey & H2). simplify_eq. f_equal. by eapply IH.
Qed.

Lemma chain_elem h hd l p : chain h hd l → p ∈ l → is_Some (h !! p).
Proof.
  revert hd. induction l as [|q l IH]; intros hd; simpl; [by intros _ ?%not_elem_of_nil|].
  intros (-> & x & Ex & H) [->|Hp]%elem_of_cons; [by eexists|by eapply IH].
Qed.

(** The rest of a chain after one of its nodes is a chain. *)
Lemma chain_split h hd l1 p l2 :
  chain h hd (l1 ++ p :: l2) →
  ∃ x, h !! p = Some x ∧ chain h (L.(nxt) x) l2.
Proof.
  revert hd. induction l1 as [|q l1 IH]; intros hd; simpl.
  - intros (-> & x & Ex & H). eauto.
  - intros (-> & x & Ex & H). by eapply IH.
Qed.

Lemma chain_NoDup h hd l : chain h hd l → NoDup l.
Proof.
  revert hd. induction l as [|p l IH]; intros hd; simpl; [constructor|].
  intros (-> & x & Ex & H). constructor; [|by eapply IH].
  intros (l1 & l2 & ->)%list_elem_of_split.
  destruct (chain_split _ _ _ _ _ H) as (y & Ey & H2). simplify_eq.
  assert (E := chain_det _ _ _ _ H H2). apply (f_equal length) in E.
  rewrite length_app in E; simpl in E; lia.
Qed.

Lemma chain_fuel h hd l : chain h hd l → (length l ≤ size h)%nat.
Proof.
  intros H. rewrite <- size_dom, <- (size_list_to_set (C := gset positive) l) by by eapply chain_NoDup.
  apply subseteq_size. intros p Hp%elem_of_list_to_set. apply elem_of_dom. by eapply chain_elem.
Qed.

(** A chain only depends on the links of its nodes. *)
Lemma chain_frame h h' hd l :
  (∀ p x, p ∈ l → h !! p = Some x → ∃ x', h' !! p = Some x' ∧ L.(nxt) x' = L.(nxt) x) →
  chain h hd l → chain h' hd l.
Proof.
  revert hd. induction l as [|p l IH]; intros hd Hf; simpl; [done|].
  intros (-> & x & Ex & H). split; [done|].
  destruct (Hf p x) as (x' & Ex' & En); [left|done|]. exists x'; split; [done|].
  rewrite En. apply IH; [|done]. intros q y Hq. apply Hf. by right.
Qed.

(** ** The loops on a chain *)

Lemma wp_find_loop test h hd l fuel (Q : option positive → Prop) :
  chain h hd l → (length l < fuel)%nat →
  (∀ p x, p ∈ l → h !! p = Some x → wp (test x) (fun _ => True)) →
  (∀ p x, p ∈ l → h !! p = Some x → test x = Done true → Q (Some p)) →
  ((∀ p x, p ∈ l → h !! p = Some x → test x = Done false) → Q None) →
  wp (find_loop test fuel h hd) Q.
Proof.
  revert hd fuel. induction l as [|p l IH]; intros hd [|fuel] Hc Hl Ht Hs Hn; simpl in *; try lia.
  - subst hd. apply Hn. by intros p x ?%not_elem_of_nil.
  - destruct Hc as (-> & x & Ex & Hc). rewrite Ex; simpl.
    destruct (test x) as [[]| |] eqn:Et; simpl;
      [by eapply Hs; [left|..]| |by specialize (Ht p x (list_elem_of_here _ _) Ex); rewrite Et in Ht..].
    eapply IH; [done|lia|..].
    + intros q y Hq; apply Ht; by right.
    + intros q y Hq; apply Hs; by right.
    + intros Hl'. apply Hn. intros q y [->|Hq]%elem_of_cons E; [congruence|by eapply Hl'].
Qed.

Lemma wp_walk h hd l fuel (Q : list positive → Prop) :
  chain h hd l → (length l < fuel)%nat → Q l → wp (walk fuel h hd) Q.
Proof.
  revert hd fuel Q. induction l as [|p l IH]; intros hd [|fuel] Q Hc Hl HQ; simpl in *; try lia.
  - by subst hd.
  - destruct Hc as (-> & x & Ex & Hc). rewrite Ex; simpl.
    apply wp_bind. eapply IH; [done|lia|done].
Qed.

Lemma wp_unlink_loop h l hd fuel item p0 x0 (Q : option (gmap positive N) → Prop) :
  hd = Some p0 → h !! p0 = Some x0 → chain h (L.(nxt) x0) l → (length l < fuel)%nat →
  (item ∉ l → Q None) →
  (∀ l1 l2 p x y, p0 :: l = l1 ++ p :: item :: l2 → h !! p = Some x → h !! item = Some y →
     Q (Some (<[p := L.(set_nxt) (L.(nxt) y) x]> h))) →
  wp (unlink_loop fuel item h hd) Q.
Proof.
  revert hd fuel p0 x0. induction l as [|q l IH]; intros hd [|fuel] p0 x0 -> Ex Hc Hl Hn Hs; simpl in *; try lia.
  - rewrite Ex; simpl. rewrite Hc. apply Hn, not_elem_of_nil.
  - destruct Hc as (Eq & y & Ey & Hc). rewrite Ex; simpl. rewrite Eq.
    destruct (decide (q = item)) as [->|Hne].
    + rewrite Ey; simpl. by apply (Hs [] l).
    + eapply (IH _ fuel q y); [done|done|done|lia|..].
      * intros Hi. apply Hn. by apply not_elem_of_cons.
      * intros l1 l2 p x z E. apply (Hs (p0 :: l1) l2). by rewrite E.
Qed.

(** ** Unlinking *)

Context {LL : LinkLaw L}.

(** Taking out the node after [p]. *)
Lemma chain_unlink h hd l1 p item l2 x y :
  chain h hd (l1 ++ p :: item :: l2) → h !! p = Some x → h !! item = Some y →
  chain (<[p := L.(set_nxt) (L.(nxt) y) x]> h) hd (l1 ++ p :: l2).
Proof.
  intros Hc Ex Ey. assert (Hn := chain_NoDup _ _ _ Hc).
  revert hd Hc Hn. induction l1 as [|q l1 IH]; intros hd; simpl.
  - intros (-> & x' & Ex' & E & y' & Ey' & Hc) [Hp [Hi Hn]%list.NoDup_cons]%list.NoDup_cons. simplify_eq.
    split; [done|]. eexists; split; [by rewrite lookup_insert_eq|].
    rewrite nxt_set_nxt. eapply chain_frame; [|done]. intros q z Hq Ez. exists z.
    rewrite lookup_insert_ne; [done|]. intros ->. apply Hp. by right.
  - intros (-> & z & Ez & Hc) [Hq Hn]%list.NoDup_cons. split; [done|]. exists z.
    rewrite lookup_insert_ne by (intros ->; apply Hq, elem_of_app; right; left).
    split; [done|]. by apply IH.
Qed.

(** ** Hash tables *)

(** [hashed key h heads S]: the lists of [heads] hold exactly the nodes of [S],
    each in the list of its key. *)
Definition hashed (key : N → Z) h heads (S : gset positive) : Prop :=
  S ⊆ dom h ∧
  ∃ B : Z → list positive, ∀ k,
    chain h (heads !! k) (B k) ∧
    ∀ p x, h !! p = Some x → p ∈ B k ↔ p ∈ S ∧ key x = k.

Lemma hashed_empty key : hashed key ∅ ∅ ∅.
Proof.
  split; [done|]. exists (fun _ => []). intros k. split; [done|].
  intros p x. by rewrite lookup_empty.
Qed.

(** A hash table only depends on the links and the keys of its nodes. *)
Lemma hashed_frame key h h' heads S :
  (∀ p x, p ∈ S → h !! p = Some x →
     ∃ x', h' !! p = Some x' ∧ L.(nxt) x' = L.(nxt) x ∧ key x' = key x) →
  hashed key h heads S → hashed key h' heads S.
Proof.
  intros Hf [Hd (B & HB)]. split.
  - intros p Hp. destruct (proj1 (elem_of_dom _ _) (Hd p Hp)) as [x Ex].
    destruct (Hf p x Hp Ex) as (x' & Ex' & _). apply elem_of_dom. by eexists.
  - exists B. intros k. destruct (HB k) as [Hc Hk]. split.
    + eapply chain_frame; [|done]. intros p x Hp Ex.
      destruct (proj1 (Hk p x Ex) Hp) as [HS _].
      destruct (Hf p x HS Ex) as (x' & ? & ? & ?). eauto.
    + intros p x' Ex'. split.
      * intros Hp. destruct (chain_elem _ _ _ _ Hc Hp) as [x Ex].
        destruct (proj1 (Hk p x Ex) Hp) as [HS Ek]. split; [done|].
        destruct (Hf p x HS Ex) as (x'' & ? & _ & E). congruence.
      * intros [HS Ek]. destruct (proj1 (elem_of_dom _ _) (Hd p HS)) as [x Ex].
        apply (Hk p x Ex). split; [done|].
        destruct (Hf p x HS Ex) as (x'' & ? & _ & E). congruence.
Qed.

(** The walk over the list of [k] finds a node of the set that satisfies the
    test, or there is none. *)
Lemma wp_hashed_find key test h heads S k (Q : option positive → Prop) :
  hashed key h heads S →
  (∀ p x, p ∈ S → h !! p = Some x → wp (test x) (fun _ => True)) →
  (∀ p x, p ∈ S → h !! p = Some x → key x = k → test x = Done true → Q (Some p)) →
  ((∀ p x, p ∈ S → h !! p = Some x → key x = k → test x = Done false) → Q None) →
  wp (find_loop test (Datatypes.S (size h)) h (heads !! k)) Q.
Proof.
  intros [Hd (B & HB)] Ht Hs Hn. destruct (HB k) as [Hc Hk].
  assert (Hl := chain_fuel _ _ _ Hc).
  eapply wp_find_loop; [done|lia|..].
  - intros p x Hp Ex. apply (Ht p x); [by apply (Hk p x Ex)|done].
  - intros p x Hp Ex. destruct (proj1 (Hk p x Ex) Hp). by apply (Hs p x).
  - intros Hall. apply Hn. intros p x HS Ex Ek. apply (Hall p x); [|done]. by apply (Hk p x Ex).
Qed.

(** [item->next = heads[k]; heads[k] = item;] *)
Lemma hashed_push key h heads S p x x' :
  (∀ o x, key (L.(set_nxt) o x) = key x) →
  hashed key h heads S → p ∉ S → x' = L.(set_nxt) (heads !! key x) x →
  hashed key (<[p := x']> h) (set_head heads (key x) (Some p)) ({[p]} ∪ S).
Proof.
  intros Hkey [Hd (B & HB)] Hp ->. split; [set_solver|].
  exists (fun k => if decide (k = key x) then p :: B k else B k). intros k.
  destruct (HB k) as [Hc Hk].
  assert (HpB : p ∉ B k).
  { intros H. destruct (chain_elem _ _ _ _ Hc H) as [y Ey]. by destruct (proj1 (Hk p y Ey) H). }
  assert (Hc' : chain (<[p := L.(set_nxt) (heads !! key x) x]> h) (heads !! k) (B k)).
  { eapply chain_frame; [|done]. intros q y Hq Ey. exists y.
    by rewrite lookup_insert_ne by congruence. }
  unfold set_head. split.
  - destruct (decide (k = key x)) as [->|Hne].
    + simpl. rewrite lookup_partial_alter_eq. split; [done|]. eexists.
      rewrite lookup_insert_eq. split; [done|]. by rewrite nxt_set_nxt.
    + by rewrite lookup_partial_alter_ne by congruence.
  - intros q y. destruct (decide (q = p)) as [->|Hne].
    + rewrite lookup_insert_eq. intros [= <-]. rewrite Hkey.
      destruct (decide (k = key x)) as [->|Hk']; set_solver.
    + rewrite lookup_insert_ne by done. intros Ey. specialize (Hk q y Ey).
      destruct (decide (k = key x)); set_solver.
Qed.

(** Only links differ. *)
Definition links_only h h' : Prop :=
  ∀ p, option_Forall2 (fun x x' => x' = x ∨ ∃ o, x' = L.(set_nxt) o x) (h !! p) (h' !! p).

Lemma links_only_refl h : links_only h h.
Proof. intros p. destruct (h !! p); constructor; by left. Qed.

Lemma links_only_insert h p x o : h !! p = Some x → links_only h (<[p := L.(set_nxt) o x]> h).
Proof.
  intros Ex q. destruct (decide (q = p)) as [->|Hne].
  - rewrite lookup_insert_eq, Ex. constructor. right. by eexists.
  - rewrite lookup_insert_ne by done. apply links_only_refl.
Qed.

Lemma links_only_dom h h' : links_only h h' → dom h' = dom h.
Proof.
  intros H. apply set_eq. intros p. rewrite !elem_of_dom. specialize (H p).
  inversion H; by rewrite ?is_Some_alt.
Qed.

(** Replacing the list of [k] by one without [item]. *)
Lemma hashed_replace key h h' heads heads' S k item l :
  hashed key h heads S →
  (∀ o x, key (L.(set_nxt) o x) = key x) →
  links_only h h' →
  (∀ q x, h !! q = Some x → key x ≠ k → h' !! q = Some x) →
  (∀ k', k' ≠ k → heads' !! k' = heads !! k') →
  chain h' (heads' !! k) l →
  (∀ p x, h !! p = Some x → p ∈ l ↔ p ∈ S ∧ key x = k ∧ p ≠ item) →
  (∀ y, h !! item = Some y → key y = k) →
  hashed key h' heads' (S ∖ {[item]}).
Proof.
  intros [Hd (B & HB)] Hkey Hlo Hch Hh Hc Hl Hit. split.
  { rewrite (links_only_dom h h') by done. set_solver. }
  exists (fun k' => if decide (k' = k) then l else B k'). intros k'.
  assert (Hback : ∀ p x', h' !! p = Some x' → ∃ x, h !! p = Some x ∧ key x' = key x).
  { intros p x' E. specialize (Hlo p). rewrite E in Hlo.
    inversion Hlo as [x ? Hx Ex|]; subst. exists x. split; [done|].
    destruct Hx as [->|[o ->]]; [done|apply Hkey]. }
  destruct (decide (k' = k)) as [->|Hne].
  - split; [done|]. intros p x' E. destruct (Hback p x' E) as (x & Ex & ->).
    rewrite (Hl p x Ex). set_solver.
  - destruct (HB k') as [Hc' Hk']. rewrite Hh by done. split.
    + eapply chain_frame; [|done]. intros p x Hp Ex. exists x. split; [|done].
      apply Hch; [done|]. destruct (proj1 (Hk' p x Ex) Hp) as [_ ->]. done.
    + intros p x' E. destruct (Hback p x' E) as (x & Ex & ->). rewrite (Hk' p x Ex).
      split; [|set_solver]. intros [HS Ek]. split; [|done].
      apply elem_of_difference. split; [done|]. intros ->%elem_of_singleton.
      apply Hne. rewrite <- Ek. by apply Hit.
Qed.

Lemma wp_unlink key h heads S k item y (Q : gmap positive N * gmap Z positive * bool → Prop) :
  hashed key h heads S → (∀ o x, key (L.(set_nxt) o x) = key x) →
  h !! item = Some y → key y = k →
  (∀ h' heads', item ∈ S → hashed key h' heads' (S ∖ {[item]}) → links_only h h' →
     h' !! item = Some y → Q (h', heads', true)) →
  (item ∉ S → Q (h, heads, false)) →
  wp (unlink h heads k item) Q.
Proof.
  intros HH Hkey Ey Ek Hin Hout. assert (HH' := HH). destruct HH' as [Hd (B & HB)].
  destruct (HB k) as [Hc Hk]. assert (Hlen := chain_fuel _ _ _ Hc).
  assert (Hnd := chain_NoDup _ _ _ Hc). unfold unlink.
  destruct (decide (heads !! k = Some item)) as [E|E].
  - rewrite Ey; simpl. destruct (B k) as [|p l] eqn:EB; [simpl in Hc; congruence|].
    destruct Hc as (E' & z & Ez & Hc). assert (p = item) as -> by congruence.
    assert (z = y) as -> by congruence. apply list.NoDup_cons in Hnd as [Hi Hnd].
    apply Hin; [apply (Hk item y Ey); left| |apply links_only_refl|done].
    eapply hashed_replace with (k := k) (l := l); eauto using links_only_refl.
    + intros k' Hk'. unfold set_head. by rewrite lookup_partial_alter_ne.
    + unfold set_head. by rewrite lookup_partial_alter_eq.
    + intros p x Ex. specialize (Hk p x Ex). rewrite elem_of_cons in Hk.
      split; [intros Hp; destruct (proj1 Hk (or_intror Hp)); split_and!; [done|done|by intros ->]|].
      intros (? & ? & ?). destruct (proj2 Hk (conj H H0)); [congruence|done].
    + intros z Ez'. congruence.
  - apply wp_bind. destruct (B k) as [|p0 l] eqn:EB; simpl in Hc.
    + rewrite Hc. simpl. apply Hout. intros Hi. apply (not_elem_of_nil item), (Hk item y Ey). by split.
    + destruct Hc as (E0 & x0 & Ex0 & Hc). simpl in Hlen.
      eapply wp_unlink_loop; [exact E0|exact Ex0|exact Hc|lia|..].
      * intros Hi. apply Hout. intros HS. assert (Hm := proj2 (Hk item y Ey) (conj HS Ek)).
        apply elem_of_cons in Hm as [<-|?]; congruence.
      * intros l1 l2 p x y' El Ex Ey'. simplify_eq. simpl.
        assert (Hpi : p ∈ B (key y) ∧ item ∈ B (key y)).
        { rewrite EB, El. split; apply elem_of_app; right; [left|right; left]. }
        destruct Hpi as [Hp Hi]. rewrite EB in Hp, Hi.
        destruct (proj1 (Hk item y Ey) Hi) as [HiS _].
        destruct (proj1 (Hk p x Ex) Hp) as [HpS Hpk].
        rewrite El in Hnd. assert (Hpne : p ≠ item).
        { intros ->. apply list.NoDup_app in Hnd as (_ & _ & Hnd). apply list.NoDup_cons in Hnd as [Hx _].
          apply Hx. left. }
        apply Hin; [done| |by apply links_only_insert|by rewrite lookup_insert_ne].
        eapply hashed_replace with (k := key y) (l := l1 ++ p :: l2); eauto.
        -- by apply links_only_insert.
        -- intros q z Ez Hz. rewrite lookup_insert_ne; [done|]. intros <-. congruence.
        -- eapply (chain_unlink h _ l1 p item l2 x y); [|done|done].
           rewrite <- El. simpl. eauto.
        -- intros q z Ez. rewrite El in Hk. specialize (Hk q z Ez).
           rewrite elem_of_app, !elem_of_cons in Hk. rewrite elem_of_app, elem_of_cons.
           assert (Hni : (item ∉ l1) ∧ (item ∉ l2)).
           { apply list.NoDup_app in Hnd as (_ & Hx & Hnd). split.
             - intros H1. apply (Hx item H1). right; left.
             - by do 2 apply list.NoDup_cons in Hnd as [? Hnd]. }
           destruct Hni as [N1 N2]. split.
           ++ intros Hq. assert (q ≠ item) by (destruct Hq as [?|[->|?]]; congruence). naive_solver.
           ++ intros (HqS & Hqk & Hqi). destruct (proj2 Hk (conj HqS Hqk)) as [?|[->|[?|?]]]; tauto.
        -- intros z Ez. congruence.
Qed.

End Chain.
