(* ===== verification/DhcpTbl.v ===== *)
(** * The binding tables of the DHCP snooping daemon ([dhcp_snp_tbl.c])

    The daemon keeps one table of bindings for IPv4 and one for IPv6.  The C file
    has every operation twice, with [dhcp_] and [dhcpv6_] names, which differ in
    how an address is compared, tested and hashed; here each is written once over
    the class [ADDR] of those three, with an instance for each family.

    A binding is found by its MAC address through [g_DHCP_Snp_Hash_Table] and by
    its IP address through [g_DHCP_Snp_Hash_Table_ip], two arrays of 1024 linked
    lists.  The checks for a NULL argument and for a hash value out of range,
    which no caller can trigger, are left out; allocations succeed.  The SQLite
    copy of the table is compiled out ([DHCP_SNP_SQLITE3]): its functions return
    success. *)

From Stdlib Require Import ZArith Lia.
From stdpp Require Import base gmap list option.
From S2P Require Import Prelude Chain.

(** ** Constants *)

Definition DHCP_SNP_RETURN_CODE_OK : Z := 0x160000.
Definition DHCP_SNP_RETURN_CODE_ERROR : Z := 0x160001.
Definition DHCP_SNP_RETURN_CODE_ALREADY_SET : Z := 0x160002.
Definition DHCP_SNP_RETURN_CODE_ENABLE_GBL : Z := 0x160003.
Definition DHCP_SNP_RETURN_CODE_NOT_ENABLE_GBL : Z := 0x160004.
Definition DHCP_SNP_RETURN_CODE_NOT_FOUND : Z := 0x160009.
Definition DHCP_SNP_RETURN_CODE_PKT_DROP : Z := 0x16000a.
Definition DHCP_SNP_RETURN_CODE_PARAM_NULL : Z := 0x16000b.
Definition DHCP_SNP_RETURN_CODE_EN_INTF : Z := 0x160014.
Definition DHCP_SNP_RETURN_CODE_EN_ANTI_ARP : Z := 0x160017.
Definition DHCP_SNP_RETURN_CODE_EN_ADD_ROUTE : Z := 0x160018.

Definition NPD_DHCP_SNP_HASH_TABLE_SIZE : Z := 1024.
Definition NPD_DHCP_SNP_MAC_ADD_LEN : nat := 6.
Definition NPD_DHCP_SNP_REQUEST_TIMEOUT : Z := 60.

Definition NPD_DHCP_SNP_BIND_STATE_REQUEST : Z := 0.
Definition NPD_DHCP_SNP_BIND_STATE_BOUND : Z := 1.
Definition NPD_DHCP_SNP_BIND_TYPE_DYNAMIC : Z := 0.
Definition NPD_DHCP_SNP_BIND_TYPE_STATIC : Z := 1.

(** ** Addresses *)

(** What the operations of a table need of an address: whether it counts as
    missing, whether two are the same, and the word that is hashed. *)
Class ADDR (A : Type) := {
  zero_addr : A;
  no_addr : A → outcome bool;
  same_addr : A → A → outcome bool;
  addr_word : A → Z }.

(** An IPv4 address is an [unsigned int]. *)
#[export] Instance ADDR_V4 : ADDR Z := {|
  zero_addr := 0;
  no_addr a := Done (a =? 0);
  same_addr a b := Done (a =? b);
  addr_word a := a |}.

(** [strlen(s) == 0] on an array: the scan stops at the first zero byte, and
    leaves the array if there is none. *)
Fixpoint c_strlen (s : list Z) : outcome Z :=
  match s with
  | [] => Segv
  | c :: s' => if c =? 0 then Done 0 else let* n := c_strlen s' in Done (n + 1)
  end.

(** [!strcmp(s, t)] on arrays. *)
Fixpoint c_streq (s t : list Z) : outcome bool :=
  match s, t with
  | c :: s', d :: t' =>
      if negb (c =? d) then Done false else if c =? 0 then Done true else c_streq s' t'
  | _, _ => Segv
  end.

(** An IPv6 address is an array of 16 bytes, which the code tests with [strlen],
    compares with [strcmp], and hashes by its last four bytes. *)
Definition IPV6_ADDR : Type := list Z.

#[export] Instance ADDR_V6 : ADDR IPV6_ADDR := {|
  zero_addr := replicate 16 0;
  no_addr a := let* n := c_strlen a in Done (n =? 0);
  same_addr a b := c_streq a b;
  addr_word a := be_val (drop 12 a) |}.

(** ** Hash functions *)

Definition dhcp_snp_tbl_hash (mac : list Z) : Z :=
  let s i := nth i mac 0 in
  let accum := 0 in
  let accum := Z.lxor accum (Z.shiftl (s 0%nat) 16) in
  let accum := Z.lxor accum (Z.shiftl (s 1%nat) 8) in
  let accum := Z.lxor accum (s 2%nat) in
  let accum := Z.lxor accum (Z.shiftl (s 3%nat) 16) in
  let accum := Z.lxor accum (Z.shiftl (s 4%nat) 8) in
  let accum := Z.lxor accum (s 5%nat) in
  accum mod NPD_DHCP_SNP_HASH_TABLE_SIZE.

Definition dhcp_snp_tbl_ip_hash (ip : Z) : Z := ip mod NPD_DHCP_SNP_HASH_TABLE_SIZE.

(** [!memcmp(a, b, n)] on two [chaddr] arrays, which have six bytes. *)
Definition c_memeq (a b : list Z) (n : Z) : outcome bool :=
  if 6 <? n then Segv else Done (bool_decide (take (Z.to_nat n) a = take (Z.to_nat n) b)).

(** What the clocks show: [dhcp_snp_get_system_uptime()] and [time(0)]. *)
Record CLOCK : Type := mkClock { uptime : Z; wall : Z }.

(** ** Bindings *)

Section Items.
Context {A : Type}.

(** [NPD_DHCP_SNP_TBL_ITEM_T] *)
Record ITEM : Type := mkItem {
  next : option positive;
  ip_next : option positive;
  bind_type : Z;
  state : Z;
  haddr_len : Z;
  chaddr : list Z;
  vlanId : Z;
  ip_addr : A;
  lease_time : Z;
  sys_escape : Z;
  cur_expire : Z;
  ifindex : Z;
  flags : Z }.

Definition ITEM_eta (r : ITEM) : ITEM :=
  mkItem r.(next) r.(ip_next) r.(bind_type) r.(state) r.(haddr_len) r.(chaddr) r.(vlanId)
    r.(ip_addr) r.(lease_time) r.(sys_escape) r.(cur_expire) r.(ifindex) r.(flags).

#[export] Instance set_next : Setter next := ltac:(solve_setter ITEM_eta).
#[export] Instance set_ip_next : Setter ip_next := ltac:(solve_setter ITEM_eta).
#[export] Instance set_bind_type : Setter bind_type := ltac:(solve_setter ITEM_eta).
#[export] Instance set_state : Setter state := ltac:(solve_setter ITEM_eta).
#[export] Instance set_haddr_len : Setter haddr_len := ltac:(solve_setter ITEM_eta).
#[export] Instance set_chaddr : Setter chaddr := ltac:(solve_setter ITEM_eta).
#[export] Instance set_vlanId : Setter vlanId := ltac:(solve_setter ITEM_eta).
#[export] Instance set_ip_addr : Setter ip_addr := ltac:(solve_setter ITEM_eta).
#[export] Instance set_lease_time : Setter lease_time := ltac:(solve_setter ITEM_eta).
#[export] Instance set_sys_escape : Setter sys_escape := ltac:(solve_setter ITEM_eta).
#[export] Instance set_cur_expire : Setter cur_expire := ltac:(solve_setter ITEM_eta).
#[export] Instance set_ifindex : Setter ifindex := ltac:(solve_setter ITEM_eta).
#[export] Instance set_item_flags : Setter flags := ltac:(solve_setter ITEM_eta).

(** [NPD_DHCP_SNP_USER_ITEM_T] *)
Record USER : Type := mkUser {
  u_bind_type : Z;
  u_state : Z;
  u_haddr_len : Z;
  u_chaddr : list Z;
  u_vlanId : Z;
  u_ip_addr : A;
  u_lease_time : Z;
  u_ifindex : Z }.

Definition USER_eta (r : USER) : USER :=
  mkUser r.(u_bind_type) r.(u_state) r.(u_haddr_len) r.(u_chaddr) r.(u_vlanId) r.(u_ip_addr)
    r.(u_lease_time) r.(u_ifindex).

#[export] Instance set_u_bind_type : Setter u_bind_type := ltac:(solve_setter USER_eta).
#[export] Instance set_u_state : Setter u_state := ltac:(solve_setter USER_eta).
#[export] Instance set_u_haddr_len : Setter u_haddr_len := ltac:(solve_setter USER_eta).
#[export] Instance set_u_chaddr : Setter u_chaddr := ltac:(solve_setter USER_eta).
#[export] Instance set_u_vlanId : Setter u_vlanId := ltac:(solve_setter USER_eta).
#[export] Instance set_u_ip_addr : Setter u_ip_addr := ltac:(solve_setter USER_eta).
#[export] Instance set_u_lease_time : Setter u_lease_time := ltac:(solve_setter USER_eta).
#[export] Instance set_u_ifindex : Setter u_ifindex := ltac:(solve_setter USER_eta).

(** The two links of a binding. *)
Definition mac_link : Link ITEM := mkLink ITEM next (fun o x => x <| next := o |>).
Definition ip_link : Link ITEM := mkLink ITEM ip_next (fun o x => x <| ip_next := o |>).

#[export] Instance mac_link_law : LinkLaw mac_link.
Proof. by intros o []. Qed.
#[export] Instance ip_link_law : LinkLaw ip_link.
Proof. by intros o []. Qed.

(** The bindings and the two arrays of heads. *)
Record TBL : Type := mkTbl {
  heap : gmap positive ITEM;
  mac_hash : gmap Z positive;
  ip_hash : gmap Z positive }.

Definition TBL_eta (r : TBL) : TBL := mkTbl r.(heap) r.(mac_hash) r.(ip_hash).

#[export] Instance set_heap : Setter heap := ltac:(solve_setter TBL_eta).
#[export] Instance set_mac_hash : Setter mac_hash := ltac:(solve_setter TBL_eta).
#[export] Instance set_ip_hash : Setter ip_hash := ltac:(solve_setter TBL_eta).

End Items.
Arguments ITEM : clear implicits.
Arguments USER : clear implicits.
Arguments TBL : clear implicits.

(** ** Operations *)

Section Operations.
Context {A : Type} `{ADDR A}.
Implicit Types (t : TBL A) (u : USER A) (p : positive).

(** Turns enough for a walk over any list of the table. *)
Definition turns t : nat := S (size t.(heap)).

Definition get_item t p : outcome (ITEM A) := deref (t.(heap) !! p).
Definition put_item t p (x : ITEM A) : TBL A := t <| heap := <[p := x]> t.(heap) |>.

(** The loop over the array and its lists counts every node. *)
Definition count_hash (L : Link (ITEM A)) (heads : gmap Z positive) t : outcome Z :=
  foldM (fun key count =>
    let* l := walk L (turns t) t.(heap) (heads !! key) in
    Done (i32 (count + Z.of_nat (length l)))) (seqZ 0 NPD_DHCP_SNP_HASH_TABLE_SIZE) 0.

Definition dhcp_snp_tbl_mac_hash_foreach t : outcome Z := count_hash mac_link t.(mac_hash) t.
Definition dhcp_snp_tbl_ip_hash_foreach t : outcome Z := count_hash ip_link t.(ip_hash) t.

(** The bindings in the order of the array, at most [total] of them. *)
Definition dhcp_snp_copy_bind_table t (total : Z) : outcome (list (ITEM A)) :=
  if total <? 0 then Done []
  else
    foldM (fun key item =>
      let* l := walk mac_link (turns t) t.(heap) (t.(mac_hash) !! key) in
      foldM (fun p item =>
        if total <=? Z.of_nat (length item) then Done item
        else let* x := get_item t p in Done (item ++ [x])) l item)
      (seqZ 0 NPD_DHCP_SNP_HASH_TABLE_SIZE) [].

Definition dhcp_snp_tbl_item_find t u : outcome (option positive) :=
  let key := dhcp_snp_tbl_hash u.(u_chaddr) in
  find_loop mac_link (fun tempItem => Done (bool_decide (tempItem.(chaddr) = u.(u_chaddr))))
    (turns t) t.(heap) (t.(mac_hash) !! key).

Definition dhcp_snp_tbl_item_find_by_ip t (ipaddr : A) : outcome (option positive) :=
  let* b := no_addr ipaddr in
  if (b : bool) then Done None
  else
    let key := dhcp_snp_tbl_ip_hash (addr_word ipaddr) in
    find_loop ip_link (fun tempItem => same_addr tempItem.(ip_addr) ipaddr)
      (turns t) t.(heap) (t.(ip_hash) !! key).

Definition dhcp_snp_tbl_fill_item (c : CLOCK) u (item : ITEM A) : ITEM A :=
  item <| chaddr := u.(u_chaddr) |>
       <| haddr_len := u.(u_haddr_len) |>
       <| bind_type := u.(u_bind_type) |>
       <| state := u.(u_state) |>
       <| ifindex := u.(u_ifindex) |>
       <| ip_addr := u.(u_ip_addr) |>
       <| lease_time := u.(u_lease_time) |>
       <| vlanId := u.(u_vlanId) |>
       <| sys_escape := c.(wall) |>
       <| cur_expire := u32 (c.(uptime) + u.(u_lease_time)) |>.

(** [memset(item, 0, sizeof(NPD_DHCP_SNP_TBL_ITEM_T))] *)
Definition zero_item : ITEM A :=
  mkItem None None 0 0 0 (replicate 6 0) 0 zero_addr 0 0 0 0 0.

Definition dhcp_snp_tbl_item_insert (c : CLOCK) t u : TBL A * positive :=
  let item := fresh (dom t.(heap)) in
  let x := dhcp_snp_tbl_fill_item c u zero_item in
  let key := dhcp_snp_tbl_hash u.(u_chaddr) in
  let x := x <| next := t.(mac_hash) !! key |> in
  (t <| heap := <[item := x]> t.(heap) |>
     <| mac_hash := set_head t.(mac_hash) key (Some item) |>, item).

Definition dhcp_snp_tbl_item_delete_iphash t (item : positive) : outcome (TBL A * Z) :=
  let* x := get_item t item in
  let* b := no_addr x.(ip_addr) in
  if (b : bool) then Done (t, DHCP_SNP_RETURN_CODE_OK)
  else
    let key := dhcp_snp_tbl_ip_hash (addr_word x.(ip_addr)) in
    let* '(h, heads, found) := unlink ip_link t.(heap) t.(ip_hash) key item in
    let t := t <| heap := h |> <| ip_hash := heads |> in
    if (found : bool) then
      let* x := get_item t item in
      Done (put_item t item (x <| ip_next := None |>), DHCP_SNP_RETURN_CODE_OK)
    else Done (t, DHCP_SNP_RETURN_CODE_ERROR).

(** [while (tmp = find_by_ip(ip)) body(tmp);], where [body] returns [Some ret] to
    leave the function. *)
Fixpoint by_ip_loop (fuel : nat) (ip : A) (body : TBL A → positive → outcome (TBL A * option Z)) t
    : outcome (TBL A * option Z) :=
  match fuel with
  | O => OutOfFuel
  | S fuel' =>
      let* tmp := dhcp_snp_tbl_item_find_by_ip t ip in
      match tmp with
      | None => Done (t, None)
      | Some tmp =>
          let* '(t, ret) := body t tmp in
          match ret with
          | Some ret => Done (t, Some ret)
          | None => by_ip_loop fuel' ip body t
          end
      end
  end.

(** The body that only takes the binding out of the IP hash. *)
Definition drop_iphash t (tmp : positive) : outcome (TBL A * option Z) :=
  let* '(t, _) := dhcp_snp_tbl_item_delete_iphash t tmp in Done (t, None).

Definition dhcp_snp_tbl_item_insert_ip_hash t (item : positive) : outcome (TBL A) :=
  let* x := get_item t item in
  let* b := no_addr x.(ip_addr) in
  if (b : bool) then Done t
  else
    let* '(t, _) := by_ip_loop (turns t) x.(ip_addr) drop_iphash t in
    let* x := get_item t item in
    let key := dhcp_snp_tbl_ip_hash (addr_word x.(ip_addr)) in
    let t := put_item t item (x <| ip_next := t.(ip_hash) !! key |>) in
    Done (t <| ip_hash := set_head t.(ip_hash) key (Some item) |>).

Definition dhcp_snp_tbl_item_delete t (item : positive) : outcome (TBL A * Z) :=
  let* x := get_item t item in
  let* b := no_addr x.(ip_addr) in
  let* t :=
    if (b : bool) then Done t
    else let* '(t, _) := dhcp_snp_tbl_item_delete_iphash t item in Done t in
  let key := dhcp_snp_tbl_hash x.(chaddr) in
  let* '(h, heads, found) := unlink mac_link t.(heap) t.(mac_hash) key item in
  if (found : bool) then
    (* free(item) *)
    Done (t <| heap := delete item h |> <| mac_hash := heads |>, DHCP_SNP_RETURN_CODE_OK)
  else Done (t <| heap := h |> <| mac_hash := heads |>, DHCP_SNP_RETURN_CODE_ERROR).

Definition dhcp_snp_update_timestamp (c : CLOCK) t (item : positive) : outcome (TBL A) :=
  let* x := get_item t item in
  Done (put_item t item (x <| cur_expire := u32 (c.(uptime) + NPD_DHCP_SNP_REQUEST_TIMEOUT) |>)).

Definition dhcp_snp_tbl_fill_bind (c : CLOCK) u (item : ITEM A) : ITEM A :=
  let item :=
    if negb (NPD_DHCP_SNP_REQUEST_TIMEOUT =? u.(u_lease_time)) then
      item <| cur_expire := u32 (c.(uptime) + u.(u_lease_time)) |>
           <| lease_time := u.(u_lease_time) |>
    else item in
  item <| ifindex := u.(u_ifindex) |>
       <| state := u.(u_state) |>
       <| ip_addr := u.(u_ip_addr) |>
       <| sys_escape := c.(wall) |>.

Definition dhcp_snp_tbl_identity_item (item : ITEM A) u : outcome Z :=
  if negb (item.(vlanId) =? u.(u_vlanId)) || negb (item.(haddr_len) =? u.(u_haddr_len)) then
    Done DHCP_SNP_RETURN_CODE_ERROR
  else if negb (u.(u_ifindex) =? 0) && negb (item.(ifindex) =? u.(u_ifindex)) then
    Done DHCP_SNP_RETURN_CODE_ERROR
  else
    let* same := c_memeq item.(chaddr) u.(u_chaddr) item.(haddr_len) in
    if (same : bool) then Done DHCP_SNP_RETURN_CODE_OK else Done DHCP_SNP_RETURN_CODE_ERROR.

(** [dhcp_snp_tbl_destroy]: every list is freed through its [next] links, and
    both arrays are cleared.  Freeing a node twice is undefined. *)
Definition dhcp_snp_tbl_destroy t : outcome (TBL A) :=
  let* h :=
    foldM (fun i h =>
      let* l := walk mac_link (S (size h)) h (t.(mac_hash) !! i) in
      foldM (fun item h => let* _ := deref (h !! item) in Done (delete item h)) l h)
      (seqZ 0 NPD_DHCP_SNP_HASH_TABLE_SIZE) t.(heap) in
  Done (mkTbl h ∅ ∅).

(** Both arrays are cleared without freeing anything: the bindings that were
    there are lost, since no pointer to them is left. *)
Definition dhcp_snp_tbl_initialize : TBL A := mkTbl ∅ ∅ ∅.

End Operations.

(** ** The IPv6 table

    The C file writes these functions out a second time. *)

Definition dhcpv6_snp_tbl_mac_hash_foreach : TBL IPV6_ADDR → outcome Z := dhcp_snp_tbl_mac_hash_foreach.
Definition dhcpv6_snp_copy_bind_table : TBL IPV6_ADDR → Z → outcome (list (ITEM IPV6_ADDR)) :=
  dhcp_snp_copy_bind_table.
Definition dhcpv6_snp_tbl_item_find : TBL IPV6_ADDR → USER IPV6_ADDR → outcome (option positive) :=
  dhcp_snp_tbl_item_find.
Definition dhcpv6_snp_tbl_item_find_by_ip : TBL IPV6_ADDR → IPV6_ADDR → outcome (option positive) :=
  dhcp_snp_tbl_item_find_by_ip.
Definition dhcpv6_snp_tbl_fill_item : CLOCK → USER IPV6_ADDR → ITEM IPV6_ADDR → ITEM IPV6_ADDR :=
  dhcp_snp_tbl_fill_item.
Definition dhcpv6_snp_tbl_item_insert :
    CLOCK → TBL IPV6_ADDR → USER IPV6_ADDR → TBL IPV6_ADDR * positive :=
  dhcp_snp_tbl_item_insert.
Definition dhcp_snp_ipv6_tbl_item_insert_ip_hash : TBL IPV6_ADDR → positive → outcome (TBL IPV6_ADDR) :=
  dhcp_snp_tbl_item_insert_ip_hash.
Definition dhcpv6_snp_tbl_item_delete : TBL IPV6_ADDR → positive → outcome (TBL IPV6_ADDR * Z) :=
  dhcp_snp_tbl_item_delete.
Definition dhcpv6_snp_tbl_item_delete_iphash : TBL IPV6_ADDR → positive → outcome (TBL IPV6_ADDR * Z) :=
  dhcp_snp_tbl_item_delete_iphash.
Definition dhcpv6_snp_tbl_fill_bind : CLOCK → USER IPV6_ADDR → ITEM IPV6_ADDR → ITEM IPV6_ADDR :=
  dhcp_snp_tbl_fill_bind.
Definition dhcpv6_snp_tbl_identity_item : ITEM IPV6_ADDR → USER IPV6_ADDR → outcome Z :=
  dhcp_snp_tbl_identity_item.
