(* ===== verification/DhcpUnres.v ===== *)
(** * Clients the access station daemon has asked about ([dhcp_snp_tbl.c])

    [asd] sends the MAC addresses of its stations; the snooping daemon keeps them
    in a hash table of "unresolved" entries, and tells [asd] the IP address when
    it sees it assigned.  There is one table for IPv4 and one for IPv6.

    The IPv6 code has a slip in its types that matters: the [next] field of
    [struct unresolved_ipv6_table] is declared as a pointer to the IPv4 structure,
    whose [chaddr] is at offset 28 instead of 40.  [dhcpv6_snp_del_unresolved_node]
    compares [tmp->next->chaddr], hence the bytes at offset 28 of an IPv6 entry:
    the last four of its address and the first two of its interface index.
    [next_chaddr] is what that expression reads in either family. *)

From Stdlib Require Import ZArith Lia.
From stdpp Require Import base gmap list option.
From S2P Require Import Prelude Chain DhcpTbl.

Definition TBL_EXPIRED_TIME : Z := 300.

Section Entries.
Context {A : Type}.

(** [struct unresolved_table] *)
Record UNRES : Type := mkUnres {
  n_next : option positive;
  bssindex : Z;
  vrrpid : Z;
  local_flag : Z;
  n_ipaddr : A;
  n_ifindex : Z;
  expired : Z;
  n_chaddr : list Z }.

Definition UNRES_eta (r : UNRES) : UNRES :=
  mkUnres r.(n_next) r.(bssindex) r.(vrrpid) r.(local_flag) r.(n_ipaddr) r.(n_ifindex)
    r.(expired) r.(n_chaddr).

#[export] Instance set_n_next : Setter n_next := ltac:(solve_setter UNRES_eta).
#[export] Instance set_bssindex : Setter bssindex := ltac:(solve_setter UNRES_eta).
#[export] Instance set_vrrpid : Setter vrrpid := ltac:(solve_setter UNRES_eta).
#[export] Instance set_local_flag : Setter local_flag := ltac:(solve_setter UNRES_eta).
#[export] Instance set_n_ipaddr : Setter n_ipaddr := ltac:(solve_setter UNRES_eta).
#[export] Instance set_n_ifindex : Setter n_ifindex := ltac:(solve_setter UNRES_eta).
#[export] Instance set_expired : Setter expired := ltac:(solve_setter UNRES_eta).
#[export] Instance set_n_chaddr : Setter n_chaddr := ltac:(solve_setter UNRES_eta).

Definition unres_link : Link UNRES := mkLink UNRES n_next (fun o x => x <| n_next := o |>).

#[export] Instance unres_link_law : LinkLaw unres_link.
Proof. by intros o []. Qed.

(** [g_dhcp_snp_unresolved_hash] with its nodes *)
Record UTBL : Type := mkUtbl {
  u_heap : gmap positive UNRES;
  unresolved_hash : gmap Z positive }.

Definition UTBL_eta (r : UTBL) : UTBL := mkUtbl r.(u_heap) r.(unresolved_hash).

#[export] Instance set_u_heap : Setter u_heap := ltac:(solve_setter UTBL_eta).
#[export] Instance set_unresolved_hash : Setter unresolved_hash := ltac:(solve_setter UTBL_eta).
End Entries.
Arguments UNRES : clear implicits.
Arguments UTBL : clear implicits.

(** What [tmp->next->chaddr] reads. *)
Class NEXT_CHADDR (A : Type) := next_chaddr : UNRES A → list Z.
#[export] Instance NEXT_CHADDR_V4 : NEXT_CHADDR Z := fun x => x.(n_chaddr).
#[export] Instance NEXT_CHADDR_V6 : NEXT_CHADDR IPV6_ADDR := fun x =>
  drop 12 x.(n_ipaddr) ++ take 2 (be_bytes 4 x.(n_ifindex)).

Section Operations.
Context {A : Type} `{NEXT_CHADDR A}.
Implicit Types (t : UTBL A).

Definition u_turns t : nat := S (size t.(u_heap)).

Definition dhcp_snp_find_from_unresolved_table t (haddr : list Z) : outcome (option positive) :=
  let key := dhcp_snp_tbl_hash haddr in
  find_loop unres_link (fun table => Done (bool_decide (table.(n_chaddr) = haddr)))
    (u_turns t) t.(u_heap) (t.(unresolved_hash) !! key).

Definition dhcp_snp_add_unresolved_node (c : CLOCK) t (table : UNRES A) : outcome (UTBL A) :=
  let* tmp := dhcp_snp_find_from_unresolved_table t table.(n_chaddr) in
  match tmp with
  | Some tmp =>
      let* x := deref (t.(u_heap) !! tmp) in
      let x := x <| bssindex := table.(bssindex) |>
                 <| n_ipaddr := table.(n_ipaddr) |>
                 <| vrrpid := table.(vrrpid) |>
                 <| local_flag := table.(local_flag) |>
                 <| n_chaddr := table.(n_chaddr) |>
                 <| expired := u32 (c.(uptime) + TBL_EXPIRED_TIME) |> in
      Done (t <| u_heap := <[tmp := x]> t.(u_heap) |>)
  | None =>
      let tmp := fresh (dom t.(u_heap)) in
      let key := dhcp_snp_tbl_hash table.(n_chaddr) in
      let x := table <| expired := u32 (c.(uptime) + TBL_EXPIRED_TIME) |>
                     <| n_next := t.(unresolved_hash) !! key |> in
      Done (t <| u_heap := <[tmp := x]> t.(u_heap) |>
              <| unresolved_hash := set_head t.(unresolved_hash) key (Some tmp) |>)
  end.

(** [while (tmp && tmp->next) { if (!memcmp(tmp->next->chaddr, ...)) ... }] *)
Fixpoint del_unresolved_loop (fuel : nat) (mac : list Z) (h : gmap positive (UNRES A))
    (tmp : option positive) : outcome (gmap positive (UNRES A) * Z) :=
  match fuel with
  | O => OutOfFuel
  | S fuel' =>
      match tmp with
      | None => Done (h, -1)
      | Some p =>
          let* x := deref (h !! p) in
          match x.(n_next) with
          | None => Done (h, -1)
          | Some deltbl =>
              let* y := deref (h !! deltbl) in
              if bool_decide (next_chaddr y = mac) then
                Done (delete deltbl (<[p := x <| n_next := y.(n_next) |>]> h), 0)
              else del_unresolved_loop fuel' mac h (Some deltbl)
          end
      end
  end.

Definition dhcp_snp_del_unresolved_node t (mac : list Z) : outcome (UTBL A * Z) :=
  let key := dhcp_snp_tbl_hash mac in
  match t.(unresolved_hash) !! key with
  | None => Done (t, 0)
  | Some tmp =>
      let* x := deref (t.(u_heap) !! tmp) in
      if bool_decide (x.(n_chaddr) = mac) then
        Done (mkUtbl (delete tmp t.(u_heap)) (set_head t.(unresolved_hash) key x.(n_next)), 0)
      else
        let* '(h, ret) := del_unresolved_loop (u_turns t) mac t.(u_heap) (Some tmp) in
        Done (t <| u_heap := h |>, ret)
  end.

(** The first loop of the aging of one list: expired entries at its head. *)
Fixpoint age_head (fuel : nat) (cur_time : Z) (h : gmap positive (UNRES A)) (head : option positive)
    : outcome (gmap positive (UNRES A) * option positive) :=
  match fuel with
  | O => OutOfFuel
  | S fuel' =>
      let* p := deref head in
      let* x := deref (h !! p) in
      if x.(expired) <? cur_time then
        match x.(n_next) with
        | None => Done (delete p h, None)
        | Some q => age_head fuel' cur_time (delete p h) (Some q)
        end
      else Done (h, Some p)
  end.

(** The second: expired entries behind [tmp]. *)
Fixpoint age_tail (fuel : nat) (cur_time : Z) (h : gmap positive (UNRES A)) (tmp : positive)
    : outcome (gmap positive (UNRES A)) :=
  match fuel with
  | O => OutOfFuel
  | S fuel' =>
      let* x := deref (h !! tmp) in
      match x.(n_next) with
      | None => Done h
      | Some next =>
          let* y := deref (h !! next) in
          if y.(expired) <? cur_time then
            age_tail fuel' cur_time (delete next (<[tmp := x <| n_next := y.(n_next) |>]> h)) tmp
          else age_tail fuel' cur_time h next
      end
  end.

Definition age_bucket (cur_time : Z) (key : Z) t : outcome (UTBL A) :=
  match t.(unresolved_hash) !! key with
  | None => Done t
  | Some p =>
      let* '(h, head) := age_head (u_turns t) cur_time t.(u_heap) (Some p) in
      let t := mkUtbl h (set_head t.(unresolved_hash) key head) in
      match head with
      | None => Done t
      | Some tmp =>
          let* h := age_tail (u_turns t) cur_time t.(u_heap) tmp in
          Done (t <| u_heap := h |>)
      end
  end.

Definition dhcp_snp_asd_table_aging_mechanism (c : CLOCK) t : outcome (UTBL A) :=
  let cur_time := c.(uptime) in
  foldM (age_bucket cur_time) (seqZ 0 NPD_DHCP_SNP_HASH_TABLE_SIZE) t.

End Operations.

(** ** The IPv6 table *)

Definition dhcpv6_snp_find_from_unresolved_table : UTBL IPV6_ADDR → list Z → outcome (option positive) :=
  dhcp_snp_find_from_unresolved_table.
Definition dhcpv6_snp_add_unresolved_node :
    CLOCK → UTBL IPV6_ADDR → UNRES IPV6_ADDR → outcome (UTBL IPV6_ADDR) :=
  dhcp_snp_add_unresolved_node.
Definition dhcpv6_snp_del_unresolved_node : UTBL IPV6_ADDR → list Z → outcome (UTBL IPV6_ADDR * Z) :=
  dhcp_snp_del_unresolved_node.
Definition dhcpv6_snp_asd_table_aging_mechanism : CLOCK → UTBL IPV6_ADDR → outcome (UTBL IPV6_ADDR) :=
  dhcp_snp_asd_table_aging_mechanism.
