(* ===== verification/DhcpSnp.v ===== *)
(** * The DHCP snooping daemon: its state, and what happens to a binding
      ([dhcp_snp_tbl.c], [dhcp_snp_netlink.c], [dhcp_snp_com.c])

    Binding an address, aging, static bindings, telling [asd] and the portal, and
    switching the daemon on and off.  [ENV] holds what the kernel answers; what
    the daemon asks of the kernel and of other daemons is recorded in [trace].
    The [ebtables] calls have an empty body in the source ([#if 0]).  A netlink
    message is recorded by its content, not by its bytes. *)

From Stdlib Require Import ZArith Lia.
From stdpp Require Import base gmap list option.
From S2P Require Import Prelude Chain DhcpTbl DhcpUnres.

Definition NPD_DHCP_SNP_ENABLE : Z := 1.
Definition NPD_DHCP_SNP_DISABLE : Z := 0.
Definition MAX_HANSI_PROFILE : Z := 17.

(** ** The state *)

(** [struct dhcp_snp_listener] *)
Record LISTENER : Type := mkListener {
  fd : Z;
  no_arp : Z;
  add_router : Z;
  ifname : list Z }.

(** [struct dhcp_snp_static_table] *)
Record STATIC : Type := mkStatic {
  s_ipaddr : Z;
  s_chaddr : list Z;
  s_ifindex : Z }.

(** A [TableMsg] to [asd]: the socket it goes to and the fields that are set.  The
    name of the interface never is, since no entry is given an interface index. *)
Record ASD_MSG (A : Type) : Type := mkAsdMsg {
  m_index : Z;
  m_bssindex : Z;
  m_local : Z;
  m_ip : A;
  m_mac : list Z }.
Arguments mkAsdMsg {A} _ _ _ _ _.

Inductive EFFECT : Type :=
| IPNEIGH (add : bool) (ifindex ip : Z) (mac : list Z)
| STATIC_ROUTE (add : bool) (ifindex ip : Z)
| ARP_SOLICIT (ifindex : Z) (mac : list Z) (ip : Z)
| WRITE (fd : Z) (frame : list Z)
| NOTIFY_ASD (msg : ASD_MSG Z)
| NOTIFY_ASD_V6 (msg : ASD_MSG IPV6_ADDR)
| NOTIFY_PORTAL (ip : Z) (mac : list Z)
| NOTIFY_PORTAL_V6 (ip : IPV6_ADDR) (mac : list Z).

(** What the kernel answers.  [netlink_init] and [socket_enable] are the results of
    opening the netlink socket and those of the interfaces, the booleans whether a send, a write or a new socket works. *)
Record ENV : Type := mkEnv {
  clock : CLOCK;
  if_indextoname : Z → option (list Z);
  if_nametoindex : list Z → Z;
  netlink_init : Z;
  socket_enable : Z;
  sendmsg_ok : bool;
  write_ok : bool;
  asd_socket_ok : Z → bool;
  asd_send_ok : bool }.

Record SNP : Type := mkSnp {
  v4 : TBL Z;
  v6 : TBL IPV6_ADDR;
  static_table : list STATIC;
  unres4 : UTBL Z;
  unres6 : UTBL IPV6_ADDR;
  fd_table : gset Z;
  dhcp_snp_status : Z;
  dhcpsnp_ipneigh_on : bool;
  dhcp_snp_arp_proxy_enable : Z;
  dhcp_snp_notify_portal_enable : Z;
  sock_list : list LISTENER;
  sock_pack_buf : list Z;
  trace : list EFFECT }.

Definition SNP_eta (r : SNP) : SNP :=
  mkSnp r.(v4) r.(v6) r.(static_table) r.(unres4) r.(unres6) r.(fd_table) r.(dhcp_snp_status)
    r.(dhcpsnp_ipneigh_on) r.(dhcp_snp_arp_proxy_enable) r.(dhcp_snp_notify_portal_enable)
    r.(sock_list) r.(sock_pack_buf) r.(trace).

#[export] Instance set_v4 : Setter v4 := ltac:(solve_setter SNP_eta).
#[export] Instance set_v6 : Setter v6 := ltac:(solve_setter SNP_eta).
#[export] Instance set_static_table : Setter static_table := ltac:(solve_setter SNP_eta).
#[export] Instance set_unres4 : Setter unres4 := ltac:(solve_setter SNP_eta).
#[export] Instance set_unres6 : Setter unres6 := ltac:(solve_setter SNP_eta).
#[export] Instance set_fd_table : Setter fd_table := ltac:(solve_setter SNP_eta).
#[export] Instance set_dhcp_snp_status : Setter dhcp_snp_status := ltac:(solve_setter SNP_eta).
#[export] Instance set_dhcpsnp_ipneigh_on : Setter dhcpsnp_ipneigh_on := ltac:(solve_setter SNP_eta).
#[export] Instance set_arp_proxy_enable : Setter dhcp_snp_arp_proxy_enable := ltac:(solve_setter SNP_eta).
#[export] Instance set_notify_portal_enable : Setter dhcp_snp_notify_portal_enable := ltac:(solve_setter SNP_eta).
#[export] Instance set_sock_list : Setter sock_list := ltac:(solve_setter SNP_eta).
#[export] Instance set_sock_pack_buf : Setter sock_pack_buf := ltac:(solve_setter SNP_eta).
#[export] Instance set_snp_trace : Setter trace := ltac:(solve_setter SNP_eta).

Definition snp_emit (e : EFFECT) (s : SNP) : SNP := s <| trace := s.(trace) ++ [e] |>.

(** An operation of the IPv4 table, run on the daemon's state. *)
Definition in_v4 {R} (f : TBL Z → outcome (TBL Z * R)) (s : SNP) : outcome (SNP * R) :=
  let* '(t, r) := f s.(v4) in Done (s <| v4 := t |>, r).
Definition in_v6 {R} (f : TBL IPV6_ADDR → outcome (TBL IPV6_ADDR * R)) (s : SNP) : outcome (SNP * R) :=
  let* '(t, r) := f s.(v6) in Done (s <| v6 := t |>, r).

(** ** Addresses the daemon accepts *)

(** [0]: valid, [-1]: not. *)
Definition dhcp_snp_u32ip_check (ipaddr : Z) : Z :=
  if (Z.land ipaddr 0xFFFF0000 =? 0xA9FE0000)
     || (Z.land ipaddr 0xff000000 =? 0x7f000000)
     || (Z.land ipaddr 0xf0000000 =? 0xe0000000)
     || (Z.land ipaddr 0xf0000000 =? 0xf0000000)
     || (Z.land ipaddr 0xff000000 =? 0)
  then -1 else 0.

Section Daemon.
Variable env : ENV.

(** ** The kernel's tables ([dhcp_snp_netlink.c]) *)

Definition dhcp_snp_netlink_do_ipneigh (add : bool) (ifindex ipaddr : Z) (mac : list Z) (s : SNP) : SNP * Z :=
  if negb (env.(netlink_init) =? DHCP_SNP_RETURN_CODE_OK) then (s, env.(netlink_init))
  else if negb s.(dhcpsnp_ipneigh_on) then (s, DHCP_SNP_RETURN_CODE_OK)
  else
    match env.(if_indextoname) ifindex with
    | None => (s, DHCP_SNP_RETURN_CODE_OK)
    | Some _ =>
        if negb (dhcp_snp_u32ip_check ipaddr =? 0) then (s, DHCP_SNP_RETURN_CODE_ERROR)
        else if env.(sendmsg_ok) then (snp_emit (IPNEIGH add ifindex ipaddr mac) s, DHCP_SNP_RETURN_CODE_OK)
        else (s, DHCP_SNP_RETURN_CODE_ERROR)
    end.

Definition dhcp_snp_netlink_add_static_route (add : bool) (ifindex ipaddr : Z) (s : SNP) : SNP * Z :=
  if negb (env.(netlink_init) =? DHCP_SNP_RETURN_CODE_OK) then (s, env.(netlink_init))
  else
    match env.(if_indextoname) ifindex with
    | None => (s, DHCP_SNP_RETURN_CODE_OK)
    | Some _ =>
        if negb (dhcp_snp_u32ip_check ipaddr =? 0) then (s, DHCP_SNP_RETURN_CODE_ERROR)
        else if env.(sendmsg_ok) then (snp_emit (STATIC_ROUTE add ifindex ipaddr) s, DHCP_SNP_RETURN_CODE_OK)
        else (s, DHCP_SNP_RETURN_CODE_ERROR)
    end.

Definition dhcp_snp_netlink_ipneigh_ctrl (enable : Z) (s : SNP) : SNP :=
  s <| dhcpsnp_ipneigh_on := negb (enable =? 0) |>.

(** [0xFFFF == vlanId && BOUND == state]: the binding of a port without a VLAN,
    for which entries in the kernel's tables exist. *)
Definition cpu_bound (item : ITEM Z) : bool :=
  (0xFFFF =? item.(vlanId)) && (NPD_DHCP_SNP_BIND_STATE_BOUND =? item.(state)).

(** ** Binding an address *)

(** The body of the loop over the bindings that hold the address already. *)
Definition evict (u : USER Z) (node : LISTENER) (s : SNP) (tmp : positive) : outcome (SNP * option Z) :=
  let* x := get_item s.(v4) tmp in
  if negb (bool_decide (x.(chaddr) = u.(u_chaddr))) then
    let '(s, ret) :=
      if negb (node.(add_router) =? 0) && cpu_bound x then
        match env.(if_indextoname) x.(ifindex) with
        | None => (s, Some DHCP_SNP_RETURN_CODE_ERROR)
        | Some _ => (fst (dhcp_snp_netlink_add_static_route false x.(ifindex) x.(ip_addr) s), None)
        end
      else (s, None) in
    match ret with
    | Some ret => Done (s, Some ret)
    | None => let* '(s, _) := in_v4 (fun t => dhcp_snp_tbl_item_delete t tmp) s in Done (s, None)
    end
  else
    let* '(s, _) := in_v4 (fun t => dhcp_snp_tbl_item_delete_iphash t tmp) s in Done (s, None).

(** [while (tmp = dhcp_snp_tbl_item_find_by_ip(user->ip_addr)) ...] *)
Fixpoint evict_loop (fuel : nat) (u : USER Z) (node : LISTENER) (s : SNP) : outcome (SNP * option Z) :=
  match fuel with
  | O => OutOfFuel
  | S fuel' =>
      let* tmp := dhcp_snp_tbl_item_find_by_ip s.(v4) u.(u_ip_addr) in
      match tmp with
      | None => Done (s, None)
      | Some tmp =>
          let* '(s, ret) := evict u node s tmp in
          match ret with
          | Some ret => Done (s, Some ret)
          | None => evict_loop fuel' u node s
          end
      end
  end.

(** The entries of the kernel for the address the binding had: [Some ret] leaves
    the function. *)
Definition forget_old (item : ITEM Z) (node : LISTENER) (s : SNP) : SNP * option Z :=
  let '(s, ret) :=
    if negb (node.(no_arp) =? 0) && cpu_bound item then
      let '(s, ret) := dhcp_snp_netlink_do_ipneigh false item.(ifindex) item.(ip_addr) item.(chaddr) s in
      if negb (ret =? DHCP_SNP_RETURN_CODE_OK) then (s, Some ret) else (s, None)
    else (s, None) in
  match ret with
  | Some ret => (s, Some ret)
  | None =>
      if negb (node.(add_router) =? 0) && cpu_bound item then
        match env.(if_indextoname) item.(ifindex) with
        | None => (s, Some DHCP_SNP_RETURN_CODE_ERROR)
        | Some _ => (fst (dhcp_snp_netlink_add_static_route false item.(ifindex) item.(ip_addr) s), None)
        end
      else (s, None)
  end.

(** The entries for its new address; the result of the function. *)
Definition announce_new (item : ITEM Z) (node : LISTENER) (s : SNP) : SNP * Z :=
  let '(s, ret) :=
    if negb (node.(no_arp) =? 0) && (0xFFFF =? item.(vlanId)) then
      let '(s, ret) := dhcp_snp_netlink_do_ipneigh true item.(ifindex) item.(ip_addr) item.(chaddr) s in
      if negb (ret =? DHCP_SNP_RETURN_CODE_OK) then (s, Some ret)
      else (snp_emit (ARP_SOLICIT item.(ifindex) item.(chaddr) item.(ip_addr)) s, None)
    else (s, None) in
  match ret with
  | Some ret => (s, ret)
  | None =>
      if negb (node.(add_router) =? 0) && cpu_bound item then
        match env.(if_indextoname) item.(ifindex) with
        | None => (s, DHCP_SNP_RETURN_CODE_ERROR)
        | Some _ => (fst (dhcp_snp_netlink_add_static_route true item.(ifindex) item.(ip_addr) s),
                     DHCP_SNP_RETURN_CODE_OK)
        end
      else (s, DHCP_SNP_RETURN_CODE_OK)
  end.

Definition dhcp_snp_tbl_refresh_bind (u : USER Z) (item : positive) (node : LISTENER) (s : SNP)
    : outcome (SNP * Z) :=
  if negb (dhcp_snp_u32ip_check u.(u_ip_addr) =? 0) then Done (s, DHCP_SNP_RETURN_CODE_ERROR)
  else
    let* x := get_item s.(v4) item in
    let '(s, ret) := forget_old x node s in
    match ret with
    | Some ret => Done (s, ret)
    | None =>
        let* '(s, ret) :=
          if negb (u.(u_ip_addr) =? 0) then evict_loop (turns s.(v4)) u node s else Done (s, None) in
        match ret with
        | Some ret => Done (s, ret)
        | None =>
            let* x := get_item s.(v4) item in
            let* '(s, _) :=
              if negb (x.(ip_addr) =? 0) then in_v4 (fun t => dhcp_snp_tbl_item_delete_iphash t item) s
              else Done (s, DHCP_SNP_RETURN_CODE_OK) in
            let* x := get_item s.(v4) item in
            let x := dhcp_snp_tbl_fill_bind env.(clock) u x in
            let s := s <| v4 := put_item s.(v4) item x |> in
            let* t := if negb (x.(ip_addr) =? 0) then dhcp_snp_tbl_item_insert_ip_hash s.(v4) item
                      else Done s.(v4) in
            let s := s <| v4 := t |> in
            let* x := get_item s.(v4) item in
            Done (announce_new x node s)
        end
    end.

(** [dhcpv6_snp_tbl_refresh_bind]: the bindings that hold the address keep it,
    and only leave the IP hash; the kernel's tables are not touched.
    [check_ipv6_address] accepts every address. *)
Definition dhcpv6_snp_tbl_refresh_bind (u : USER IPV6_ADDR) (item : positive) (s : SNP)
    : outcome (SNP * Z) :=
  let t := s.(v6) in
  let* none := no_addr u.(u_ip_addr) in
  let* '(t, _) := if (none : bool) then Done (t, None) else by_ip_loop (turns t) u.(u_ip_addr) drop_iphash t in
  let* x := get_item t item in
  let* none := no_addr x.(ip_addr) in
  let* '(t, _) := if (none : bool) then Done (t, DHCP_SNP_RETURN_CODE_OK)
                  else dhcpv6_snp_tbl_item_delete_iphash t item in
  let* x := get_item t item in
  let x := dhcpv6_snp_tbl_fill_bind env.(clock) u x in
  let t := put_item t item x in
  let* none := no_addr x.(ip_addr) in
  let* t := if (none : bool) then Done t else dhcp_snp_ipv6_tbl_item_insert_ip_hash t item in
  Done (s <| v6 := t |>, DHCP_SNP_RETURN_CODE_OK).

(** [dhcp_snp_item_destroy], which nothing calls. *)
Definition dhcp_snp_item_destroy (item : positive) (s : SNP) : outcome (SNP * Z) :=
  let* x := get_item s.(v4) item in
  let s :=
    if negb (x.(ip_addr) =? 0) && cpu_bound x then
      fst (dhcp_snp_netlink_do_ipneigh false x.(ifindex) x.(ip_addr) x.(chaddr) s)
    else s in
  let* '(s, _) := in_v4 (fun t => dhcp_snp_tbl_item_delete t item) s in
  Done (s, 0).

(** ** Aging *)

(** One binding of the walk of [dhcp_snp_aging_mechanism]; [Some ret] leaves the
    function. *)
Definition age_item (cur_time : Z) (tempItem : positive) (x : ITEM Z) (s : SNP) : outcome (SNP * option Z) :=
  if (NPD_DHCP_SNP_BIND_TYPE_DYNAMIC =? x.(bind_type)) && (x.(cur_expire) <? cur_time) then
    let '(s, ret) :=
      if negb (x.(ip_addr) =? 0) && cpu_bound x then
        let '(s, _) := dhcp_snp_netlink_do_ipneigh false x.(ifindex) x.(ip_addr) x.(chaddr) s in
        match env.(if_indextoname) x.(ifindex) with
        | None => (s, Some DHCP_SNP_RETURN_CODE_ERROR)
        | Some _ => (fst (dhcp_snp_netlink_add_static_route false x.(ifindex) x.(ip_addr) s), None)
        end
      else (s, None) in
    match ret with
    | Some ret => Done (s, Some ret)
    | None => let* '(s, _) := in_v4 (fun t => dhcp_snp_tbl_item_delete t tempItem) s in Done (s, None)
    end
  else Done (s, None).

(** [while (tempItem) { next = tempItem->next; ...; tempItem = next; }] *)
Fixpoint age_list (fuel : nat) (cur_time : Z) (tempItem : option positive) (s : SNP)
    : outcome (SNP * option Z) :=
  match fuel with
  | O => OutOfFuel
  | S fuel' =>
      match tempItem with
      | None => Done (s, None)
      | Some p =>
          let* x := get_item s.(v4) p in
          let* '(s, ret) := age_item cur_time p x s in
          match ret with
          | Some ret => Done (s, Some ret)
          | None => age_list fuel' cur_time x.(next) s
          end
      end
  end.

(** [for (key ...)]: the loop over the lists, which a [return] leaves. *)
Fixpoint age_keys (keys : list Z) (cur_time : Z) (s : SNP) : outcome (SNP * Z) :=
  match keys with
  | [] => Done (s, 0)
  | key :: keys' =>
      let* '(s, ret) := age_list (turns s.(v4)) cur_time (s.(v4).(mac_hash) !! key) s in
      match ret with
      | Some ret => Done (s, ret)
      | None => age_keys keys' cur_time s
      end
  end.

Definition dhcp_snp_aging_mechanism (s : SNP) : outcome (SNP * Z) :=
  age_keys (seqZ 0 NPD_DHCP_SNP_HASH_TABLE_SIZE) env.(clock).(uptime) s.

Fixpoint age_list6 (fuel : nat) (cur_time : Z) (tempItem : option positive) (t : TBL IPV6_ADDR)
    : outcome (TBL IPV6_ADDR) :=
  match fuel with
  | O => OutOfFuel
  | S fuel' =>
      match tempItem with
      | None => Done t
      | Some p =>
          let* x := get_item t p in
          let* t :=
            if (NPD_DHCP_SNP_BIND_TYPE_DYNAMIC =? x.(bind_type)) && (x.(cur_expire) <? cur_time) then
              let* '(t, _) := dhcpv6_snp_tbl_item_delete t p in Done t
            else Done t in
          age_list6 fuel' cur_time x.(next) t
      end
  end.

Definition dhcpv6_snp_aging_mechanism (s : SNP) : outcome (SNP * Z) :=
  let* t := foldM (fun key t => age_list6 (turns t) env.(clock).(uptime) (t.(mac_hash) !! key) t)
              (seqZ 0 NPD_DHCP_SNP_HASH_TABLE_SIZE) s.(v6) in
  Done (s <| v6 := t |>, 0).

(** One round of the aging thread. *)
Definition dhcp_snp_tbl_thread_aging (s : SNP) : outcome SNP :=
  let* '(s, _) := dhcp_snp_aging_mechanism s in
  let* '(s, _) := dhcpv6_snp_aging_mechanism s in
  let* t := dhcp_snp_asd_table_aging_mechanism env.(clock) s.(unres4) in
  let s := s <| unres4 := t |> in
  let* t := dhcpv6_snp_asd_table_aging_mechanism env.(clock) s.(unres6) in
  Done (s <| unres6 := t |>).

(** ** Static bindings *)

Definition dhcp_snp_add_static_bindtable (ip : Z) (mac : list Z) (ifx : Z) (s : SNP) : SNP * Z :=
  if (ifx =? 0) || (ip =? 0) then (s, DHCP_SNP_RETURN_CODE_PARAM_NULL)
  else (s <| static_table := mkStatic ip mac ifx :: s.(static_table) |>, DHCP_SNP_RETURN_CODE_OK).

(** The first entry with the MAC address goes. *)
Fixpoint del_static (mac : list Z) (l : list STATIC) : list STATIC :=
  match l with
  | [] => []
  | e :: l' => if bool_decide (e.(s_chaddr) = mac) then l' else e :: del_static mac l'
  end.

Definition dhcp_snp_del_static_bindtable (ip : Z) (mac : list Z) (ifx : Z) (s : SNP) : SNP * Z :=
  if (ifx =? 0) || (ip =? 0) then (s, DHCP_SNP_RETURN_CODE_PARAM_NULL)
  else
    match s.(static_table) with
    | [] => (s, DHCP_SNP_RETURN_CODE_ERROR)
    | l => (s <| static_table := del_static mac l |>, DHCP_SNP_RETURN_CODE_OK)
    end.

Definition dhcp_snp_check_global_status (s : SNP) : Z :=
  if s.(dhcp_snp_status) =? NPD_DHCP_SNP_ENABLE then DHCP_SNP_RETURN_CODE_ENABLE_GBL
  else DHCP_SNP_RETURN_CODE_NOT_ENABLE_GBL.

(** The requests of the management interface, without their D-Bus parts. *)
Definition zero_user {A} `{ADDR A} : USER A := mkUser 0 0 0 (replicate 6 0) 0 zero_addr 0 0.

Definition dhcp_snp_dbus_add_wan_bind_table (ip : Z) (mac : list Z) (ifx : Z) (s : SNP)
    : outcome (SNP * Z) :=
  let user := zero_user <| u_ip_addr := ip |> <| u_chaddr := mac |> <| u_ifindex := ifx |>
    <| u_bind_type := NPD_DHCP_SNP_BIND_TYPE_STATIC |> <| u_state := NPD_DHCP_SNP_BIND_STATE_BOUND |> in
  let ret := dhcp_snp_check_global_status s in
  if ret =? DHCP_SNP_RETURN_CODE_ENABLE_GBL then
    let* found := dhcp_snp_tbl_item_find s.(v4) user in
    let* found :=
      match found with
      | Some p => Done (Some p)
      | None => dhcp_snp_tbl_item_find_by_ip s.(v4) ip
      end in
    match found with
    | Some _ => Done (s, DHCP_SNP_RETURN_CODE_ALREADY_SET)
    | None =>
        let '(t, item) := dhcp_snp_tbl_item_insert env.(clock) s.(v4) user in
        let* t := dhcp_snp_tbl_item_insert_ip_hash t item in
        let s := s <| v4 := t |> in
        Done (fst (dhcp_snp_add_static_bindtable ip mac ifx s), DHCP_SNP_RETURN_CODE_OK)
    end
  else Done (s, ret).

Definition dhcp_snp_dbus_del_wan_bind_table (mac : list Z) (s : SNP) : outcome (SNP * Z) :=
  let ret := dhcp_snp_check_global_status s in
  if ret =? DHCP_SNP_RETURN_CODE_ENABLE_GBL then
    let* found := dhcp_snp_tbl_item_find s.(v4) (zero_user <| u_chaddr := mac |>) in
    match found with
    | Some item =>
        let* x := get_item s.(v4) item in
        let '(s, _) := dhcp_snp_del_static_bindtable x.(ip_addr) x.(chaddr) x.(ifindex) s in
        let* '(s, _) :=
          if negb (x.(ip_addr) =? 0) then in_v4 (fun t => dhcp_snp_tbl_item_delete_iphash t item) s
          else Done (s, DHCP_SNP_RETURN_CODE_OK) in
        in_v4 (fun t => dhcp_snp_tbl_item_delete t item) s
    | None => Done (s, DHCP_SNP_RETURN_CODE_NOT_FOUND)
    end
  else Done (s, ret).

(** ** Telling [asd] and the portal *)

Definition TBL_INDEX (vrrpid local_flag : Z) : Z := u32 (vrrpid + local_flag * MAX_HANSI_PROFILE).

(** The cell of [fd_table] with this index, which has 34 of them: whether it
    holds a socket. *)
Definition fd_entry (s : SNP) (index : Z) : outcome bool :=
  if index <? MAX_HANSI_PROFILE * 2 then Done (bool_decide (index ∈ s.(fd_table))) else Segv.

Definition init_sock_unix_client_asd (vrrpid local_flag : Z) (s : SNP) : outcome (SNP * Z) :=
  let local_flag := if negb (local_flag =? 0) then 1 else 0 in
  let index := TBL_INDEX vrrpid local_flag in
  let* b := fd_entry s index in
  if (b : bool) then Done (s, 0)
  else if env.(asd_socket_ok) index then Done (s <| fd_table := {[index]} ∪ s.(fd_table) |>, 0)
  else Done (s, -1).

(** The first half of both [notify_asd]: a socket for the daemon [asd] that asked. *)
Definition asd_socket {A} (table : UNRES A) (s : SNP) : outcome (SNP * bool) :=
  let index := TBL_INDEX table.(vrrpid) table.(local_flag) in
  let* b := fd_entry s index in
  if (b : bool) then Done (s, true)
  else
    let* '(s, _) := init_sock_unix_client_asd table.(vrrpid) table.(local_flag) s in
    let* b := fd_entry s index in
    Done (s, b).

Definition fill_tablemsg {A} (table : UNRES A) : ASD_MSG A :=
  mkAsdMsg (TBL_INDEX table.(vrrpid) table.(local_flag)) table.(bssindex) table.(local_flag)
    table.(n_ipaddr) table.(n_chaddr).

Definition dhcp_snp_notify_asd (table : UNRES Z) (s : SNP) : outcome (SNP * Z) :=
  let* '(s, ok) := asd_socket table s in
  if negb ok then Done (s, -1)
  else if negb env.(asd_send_ok) then Done (s, -1)
  else
    let s := snp_emit (NOTIFY_ASD (fill_tablemsg table)) s in
    let* '(t, _) := dhcp_snp_del_unresolved_node s.(unres4) table.(n_chaddr) in
    Done (s <| unres4 := t |>, 0).

Definition dhcpv6_snp_notify_asd (table : UNRES IPV6_ADDR) (s : SNP) : outcome (SNP * Z) :=
  let* '(s, ok) := asd_socket table s in
  if negb ok then Done (s, -1)
  else if negb env.(asd_send_ok) then Done (s, -1)
  else
    let s := snp_emit (NOTIFY_ASD_V6 (fill_tablemsg table)) s in
    let* '(t, _) := dhcpv6_snp_del_unresolved_node s.(unres6) table.(n_chaddr) in
    Done (s <| unres6 := t |>, 0).

Definition dhcp_snp_initiative_notify_asd (haddr : list Z) (ipaddr : Z) (s : SNP) : outcome SNP :=
  let* table := dhcp_snp_find_from_unresolved_table s.(unres4) haddr in
  match table with
  | None => Done s
  | Some p =>
      let* x := deref (s.(unres4).(u_heap) !! p) in
      let x := x <| n_ipaddr := ipaddr |> in
      let s := s <| unres4 := s.(unres4) <| u_heap := <[p := x]> s.(unres4).(u_heap) |> |> in
      let* '(s, _) := dhcp_snp_notify_asd x s in Done s
  end.

Definition dhcpv6_snp_initiative_notify_asd (haddr : list Z) (ipaddr : IPV6_ADDR) (s : SNP) : outcome SNP :=
  let* table := dhcpv6_snp_find_from_unresolved_table s.(unres6) haddr in
  match table with
  | None => Done s
  | Some p =>
      let* x := deref (s.(unres6).(u_heap) !! p) in
      let x := x <| n_ipaddr := ipaddr |> in
      let s := s <| unres6 := s.(unres6) <| u_heap := <[p := x]> s.(unres6).(u_heap) |> |> in
      let* '(s, _) := dhcpv6_snp_notify_asd x s in Done s
  end.

(** What [asd] sends: a station, with the instance it belongs to. *)
Record STA_MSG : Type := mkStaMsg {
  sta_bssindex : Z;
  sta_vrrid : Z;
  sta_local : Z;
  sta_mac : list Z }.

(** [0]: accepted, [-1]: not. *)
Definition check_msg (msg : STA_MSG) : Z := if MAX_HANSI_PROFILE - 1 <? msg.(sta_vrrid) then -1 else 0.

Definition fill_unresolved_table_from_tableMsg {A} `{ADDR A} (msg : STA_MSG) : UNRES A :=
  mkUnres None msg.(sta_bssindex) msg.(sta_vrrid) msg.(sta_local) zero_addr 0 0 msg.(sta_mac).

Definition fill_ipv6_unresolved_table_from_tableMsg : STA_MSG → UNRES IPV6_ADDR :=
  fill_unresolved_table_from_tableMsg.

(** Both calls only file the station: answering from the bindings is [#if 0]. *)
Definition dhcp_snp_process_asd_interactive (table : UNRES Z) (s : SNP) : outcome SNP :=
  let* t := dhcp_snp_add_unresolved_node env.(clock) s.(unres4) table in
  Done (s <| unres4 := t |>).

Definition dhcpv6_snp_process_asd_interactive (table : UNRES IPV6_ADDR) (s : SNP) : outcome SNP :=
  let* t := dhcpv6_snp_add_unresolved_node env.(clock) s.(unres6) table in
  Done (s <| unres6 := t |>).

(** A message from [asd], as the loop of [dhcp_snp_asd_interactive] serves it. *)
Definition dhcp_snp_asd_interactive (msg : STA_MSG) (s : SNP) : outcome SNP :=
  if negb (check_msg msg =? 0) then Done s
  else if NPD_DHCP_SNP_DISABLE =? s.(dhcp_snp_status) then Done s
  else
    let* s := dhcp_snp_process_asd_interactive (fill_unresolved_table_from_tableMsg msg) s in
    dhcpv6_snp_process_asd_interactive (fill_ipv6_unresolved_table_from_tableMsg msg) s.

(** The answer a bound client would get at once: [#if 0] in the source, but the
    function is there. *)
Definition dhcp_snp_find_from_bind_table (mac : list Z) (s : SNP) : outcome (option (Z * Z) * Z) :=
  let* found := dhcp_snp_tbl_item_find s.(v4) (zero_user <| u_chaddr := mac |>) in
  match found with
  | None => Done (None, 0)
  | Some p =>
      let* x := get_item s.(v4) p in
      if (NPD_DHCP_SNP_BIND_STATE_BOUND =? x.(state)) && negb (x.(ip_addr) =? 0) then
        Done (Some (x.(ip_addr), x.(ifindex)), 1)
      else Done (None, -1)
  end.

Definition dhcpv6_snp_find_from_bind_table (mac : list Z) (s : SNP) : outcome (option (IPV6_ADDR * Z) * Z) :=
  let* found := dhcpv6_snp_tbl_item_find s.(v6) (zero_user <| u_chaddr := mac |>) in
  match found with
  | None => Done (None, 0)
  | Some p =>
      let* x := get_item s.(v6) p in
      let* found :=
        if NPD_DHCP_SNP_BIND_STATE_BOUND =? x.(state) then let* none := no_addr x.(ip_addr) in Done (negb none)
        else Done false in
      if (found : bool) then Done (Some (x.(ip_addr), x.(ifindex)), 1) else Done (None, -1)
  end.

(** ** Switching on and off ([dhcp_snp_com.c]) *)

Definition dhcp_snp_set_global_status (isEnable : Z) (s : SNP) : SNP :=
  s <| dhcp_snp_status := if negb (isEnable =? 0) then NPD_DHCP_SNP_ENABLE else NPD_DHCP_SNP_DISABLE |>.

(** [dhcp_snp_socket_global_enable], whose result is [socket_enable], and
    [_disable] open sockets and set flags of interfaces. *)
Definition dhcp_snp_enable (s : SNP) : SNP * Z :=
  let s := dhcp_snp_set_global_status NPD_DHCP_SNP_ENABLE s in
  let s := s <| v4 := dhcp_snp_tbl_initialize |> in
  if negb (env.(socket_enable) =? DHCP_SNP_RETURN_CODE_OK)
     && negb (env.(socket_enable) =? DHCP_SNP_RETURN_CODE_NOT_FOUND)
  then (s, DHCP_SNP_RETURN_CODE_ERROR) else (s, DHCP_SNP_RETURN_CODE_OK).

Definition dhcp_snp_disable (s : SNP) : outcome (SNP * Z) :=
  match s.(sock_list) with
  | _ :: _ => Done (s, DHCP_SNP_RETURN_CODE_EN_INTF)
  | [] =>
      let s := dhcp_snp_set_global_status NPD_DHCP_SNP_DISABLE s in
      let* t := dhcp_snp_tbl_destroy s.(v4) in
      Done (s <| v4 := t |>, DHCP_SNP_RETURN_CODE_OK)
  end.

End Daemon.
