(* ===== verification/DhcpOptions.v ===== *)
(** * Reading DHCP messages ([dhcp_snp_com.c], [dhcp_snp_pkt.h])

    A packet is read into [sock_pack_buf], an array of 1536 bytes.  A pointer into
    it is an offset; reading outside the array is a [Segv].  The structures are
    laid over it: the Ethernet header (14 bytes), the IP header (20 bytes, 40 for
    IPv6), the UDP header (8 bytes) and the DHCP message. *)

From Stdlib Require Import ZArith Lia.
From stdpp Require Import base gmap list option.
From S2P Require Import Prelude.

Definition DHCP_SNP_PACKET_SIZE : Z := 1536.
Definition NPD_DHCP_SNP_OPTION_LEN : Z := 1500.

Definition NPD_DHCP_BOOTREQUEST : Z := 1.
Definition NPD_DHCP_BOOTREPLY : Z := 2.
Definition NPD_DHCP_MESSAGE_TYPE : Z := 0x35.

Definition DHCP_PADDING : Z := 0x00.
Definition DHCP_LEASE_TIME : Z := 0x33.
Definition DHCP_OPTION_OVER : Z := 0x34.
Definition DHCP_END : Z := 0xFF.
Definition DHCPv6_IANA : Z := 0x03.
Definition DHCPv6_STATUS_CODE : Z := 0x0d.

Definition NPD_DHCP_SNP_OPTION_FIELD : Z := 0.
Definition NPD_DHCP_SNP_FILE_FIELD : Z := 1.
Definition NPD_DHCP_SNP_SNAME_FIELD : Z := 2.

(** ** Loads *)

Section Loads.
Variable buf : list Z.

Definition load (p : Z) : outcome Z :=
  if p <? 0 then Segv else deref (buf !! Z.to_nat p).

(** [memcpy(dst, buf + p, n)] *)
Definition load_bytes (p : Z) (n : nat) : outcome (list Z) :=
  let l := take n (drop (Z.to_nat p) buf) in
  if (p <? 0) || negb (Nat.eqb (length l) n) then Segv else Done l.

(** Big-endian loads, which need no [ntohs] on this target. *)
Definition load16 (p : Z) : outcome Z := let* l := load_bytes p 2 in Done (be_val l).
Definition load32 (p : Z) : outcome Z := let* l := load_bytes p 4 in Done (be_val l).
End Loads.

(** Offsets in a frame. *)
Definition ETH_SMAC : Z := 6.
Definition ETH_TYPE : Z := 12.
Definition ETH_LEN : Z := 14.
Definition DHCP_DATA : Z := 42.
Definition DHCPV6_DATA : Z := 62.

(** Offsets in a DHCP message. *)
Definition MSG_OP : Z := 0.
Definition MSG_HLEN : Z := 2.
Definition MSG_CIADDR : Z := 12.
Definition MSG_YIADDR : Z := 16.
Definition MSG_CHADDR : Z := 28.
Definition MSG_SNAME : Z := 44.
Definition MSG_FILE : Z := 108.
Definition MSG_OPTIONS : Z := 240.
Definition MSG6_OPTIONS : Z := 4.

(** ** Options *)

(** The variables of the loop of [dhcp_snp_get_option]. *)
Record SCAN : Type := mkScan {
  sc_optionptr : Z;
  sc_i : Z;
  sc_length : Z;
  sc_over : Z;
  sc_curr : Z }.

(** What one turn of the loop does: go on, or leave with a pointer or NULL. *)
Inductive SCAN_STEP : Type :=
| Go (s : SCAN)
| Found (p : Z)
| NotFound.

Definition scan_turn (buf : list Z) (packet code : Z) (s : SCAN) : outcome SCAN_STEP :=
  let p := s.(sc_optionptr) + s.(sc_i) in
  if s.(sc_length) <=? s.(sc_i) then Done NotFound
  else
    let* c := load buf p in
    if c =? code then
      let* len := load buf (p + 1) in
      if s.(sc_length) <=? s.(sc_i) + 1 + len then Done NotFound else Done (Found (p + 2))
    else if c =? DHCP_PADDING then
      Done (Go (mkScan s.(sc_optionptr) (s.(sc_i) + 1) s.(sc_length) s.(sc_over) s.(sc_curr)))
    else if c =? DHCP_OPTION_OVER then
      let* len := load buf (p + 1) in
      if s.(sc_length) <=? s.(sc_i) + 1 + len then Done NotFound
      else
        let* over := load buf (p + 3) in
        let* len1 := load buf (s.(sc_optionptr) + 1) in
        Done (Go (mkScan s.(sc_optionptr) (s.(sc_i) + (len1 + 2)) s.(sc_length) over s.(sc_curr)))
    else if c =? DHCP_END then
      if (s.(sc_curr) =? NPD_DHCP_SNP_OPTION_FIELD) && bit_set s.(sc_over) NPD_DHCP_SNP_FILE_FIELD then
        Done (Go (mkScan (packet + MSG_FILE) 0 128 s.(sc_over) NPD_DHCP_SNP_FILE_FIELD))
      else if (s.(sc_curr) =? NPD_DHCP_SNP_FILE_FIELD) && bit_set s.(sc_over) NPD_DHCP_SNP_SNAME_FIELD then
        Done (Go (mkScan (packet + MSG_SNAME) 0 64 s.(sc_over) NPD_DHCP_SNP_SNAME_FIELD))
      else Done NotFound
    else
      let* len := load buf (p + 1) in
      Done (Go (mkScan s.(sc_optionptr) (s.(sc_i) + (len + 2)) s.(sc_length) s.(sc_over) s.(sc_curr))).

Fixpoint scan_loop (fuel : nat) (buf : list Z) (packet code : Z) (s : SCAN) : outcome (option Z) :=
  match fuel with
  | O => OutOfFuel
  | S fuel' =>
      let* r := scan_turn buf packet code s in
      match r with
      | Go s => scan_loop fuel' buf packet code s
      | Found p => Done (Some p)
      | NotFound => Done None
      end
  end.

(** Every turn advances in one of the three fields, of 1500, 128 and 64 bytes. *)
Definition SCAN_FUEL : nat := 1700.

Definition dhcp_snp_get_option (buf : list Z) (packet code : Z) : outcome (option Z) :=
  scan_loop SCAN_FUEL buf packet code
    (mkScan (packet + MSG_OPTIONS) 0 NPD_DHCP_SNP_OPTION_LEN 0 NPD_DHCP_SNP_OPTION_FIELD).

(** The DHCPv6 loop looks at the low bytes of the code and of the length. *)
Fixpoint scan6_loop (fuel : nat) (buf : list Z) (optionptr code i : Z) : outcome (option Z) :=
  match fuel with
  | O => OutOfFuel
  | S fuel' =>
      if NPD_DHCP_SNP_OPTION_LEN <=? i then Done None
      else
        let* c := load buf (optionptr + i + 1) in
        let* len := load buf (optionptr + i + 3) in
        if c =? code then
          if NPD_DHCP_SNP_OPTION_LEN <=? i + 3 + len then Done None else Done (Some (optionptr + i + 4))
        else scan6_loop fuel' buf optionptr code (i + (len + 4))
  end.

Definition SCAN6_FUEL : nat := 400.

Definition dhcpv6_snp_get_option (buf : list Z) (packet code : Z) : outcome (option Z) :=
  scan6_loop SCAN6_FUEL buf (packet + MSG6_OPTIONS) code 0.

(** ** Kinds of frames ([dhcp_snp_listener.c]) *)

Definition ETHER_ARP : Z := 0x0806.
Definition ETHER_IP : Z := 0x0800.
Definition ETHER_IPv6 : Z := 0x86dd.
Definition IPVER4 : Z := 4.
Definition IPVER6 : Z := 6.
Definition IPPROTOCOL_UDP : Z := 0x11.
Definition DHCP_SERVER_PORT : Z := 0x43.
Definition DHCP_CLIENT_PORT : Z := 0x44.
Definition DHCPv6_SERVER_PORT : Z := 0x0223.
Definition DHCPv6_CLIENT_PORT : Z := 0x0222.
Definition ARP_OPCODE_REQUEST : Z := 1.

(** The ports of the UDP header at [l4]: client and server, in either direction. *)
Definition between_ports (buf : list Z) (l4 server client : Z) : outcome bool :=
  let* source := load16 buf l4 in
  let* dest := load16 buf (l4 + 2) in
  Done ((server =? dest) && (client =? source) || (server =? source) && (client =? dest)).

Definition dhcp_snp_listener_type_check (buf : list Z) : outcome bool :=
  let* b14 := load buf ETH_LEN in
  let l4 := ETH_LEN + 4 * Z.land b14 0xF in
  let* type := load16 buf ETH_TYPE in
  let* protocol := load buf (ETH_LEN + 9) in
  if (ETHER_IP =? type) && (IPVER4 =? Z.shiftr b14 4) && (IPPROTOCOL_UDP =? protocol) then
    between_ports buf l4 DHCP_SERVER_PORT DHCP_CLIENT_PORT
  else Done false.

Definition dhcp_snp_listener_dhcpv6_packet_check (buf : list Z) : outcome bool :=
  let* b14 := load buf ETH_LEN in
  let* type := load16 buf ETH_TYPE in
  let* next_hdr := load buf (ETH_LEN + 6) in
  if (ETHER_IPv6 =? type) && (IPVER6 =? Z.shiftr b14 4) && (IPPROTOCOL_UDP =? next_hdr) then
    between_ports buf (ETH_LEN + 40) DHCPv6_SERVER_PORT DHCPv6_CLIENT_PORT
  else Done false.

(** Offsets of the ARP packet in a frame. *)
Definition ARP_HWSIZE : Z := ETH_LEN + 4.
Definition ARP_OPCODE : Z := ETH_LEN + 6.
Definition ARP_SMAC : Z := ETH_LEN + 8.
Definition ARP_SIP : Z := ETH_LEN + 14.
Definition ARP_DMAC : Z := ETH_LEN + 18.
Definition ARP_DIP : Z := ETH_LEN + 24.

(** [0xFF == (dmac[0] & ... & dmac[5])] *)
Definition is_broadcast (buf : list Z) : outcome bool :=
  let* dmac := load_bytes buf 0 6 in Done (foldl Z.land 0xFF dmac =? 0xFF).

Definition dhcp_snp_listener_gratuitous_arp_check (buf : list Z) : outcome bool :=
  let* bcast := is_broadcast buf in
  if negb bcast then Done false
  else
    let* smac0 := load buf ETH_SMAC in
    if bit_set smac0 1 then Done false
    else
      let* type := load16 buf ETH_TYPE in
      let* opcode := load16 buf ARP_OPCODE in
      if (ETHER_ARP =? type) && (ARP_OPCODE_REQUEST =? opcode) then
        let* sip := load_bytes buf ARP_SIP 4 in
        let* dip := load_bytes buf ARP_DIP 4 in
        Done (bool_decide (sip = dip))
      else Done false.

Definition dhcp_snp_listener_arp_request_check (buf : list Z) : outcome bool :=
  let* bcast := is_broadcast buf in
  if negb bcast then Done false
  else
    let* type := load16 buf ETH_TYPE in
    let* opcode := load16 buf ARP_OPCODE in
    Done ((ETHER_ARP =? type) && (ARP_OPCODE_REQUEST =? opcode)).

(** ** The Internet checksum ([dhcp_snp_pkt.c])

    [sum] is an [int]; it cannot overflow on a packet that fits the buffer. *)

Fixpoint checksum_sum (l : list Z) (sum : Z) : Z :=
  match l with
  | a :: b :: l' => checksum_sum l' (i32 (sum + be_val [a; b]))
  | [a] => i32 (sum + be_val [a; 0])
  | [] => sum
  end.

(** [while (sum >> 16) sum = (sum & 0xffff) + (sum >> 16);] *)
Fixpoint checksum_fold (fuel : nat) (sum : Z) : outcome Z :=
  match fuel with
  | O => OutOfFuel
  | S fuel' =>
      if negb (Z.shiftr sum 16 =? 0) then
        checksum_fold fuel' (i32 (Z.land sum 0xffff + Z.shiftr sum 16))
      else Done sum
  end.

Definition dhcp_snp_checksum (l : list Z) : outcome Z :=
  let* sum := checksum_fold 4 (checksum_sum l 0) in
  Done (u16 (Z.lnot sum)).
