(* ===== verification/DhcpPkt.v ===== *)
(** * Packets of the DHCP snooping daemon ([dhcp_snp_pkt.c], [dhcp_snp_com.c],
      [dhcp_snp_listener.c])

    One handler per message of DHCP and DHCPv6 and per kind of ARP request, the
    functions that choose among them, and the loop over the sockets that have a
    packet.

    Option 82 is never switched on (the request that would is compiled out), so
    the part of [dhcp_snp_packet_rx_process] that handles it is not modelled.
    [dhcp_snp_is_trusted] trusts every port (the rest of it is compiled out). *)

From Stdlib Require Import ZArith Lia.
From stdpp Require Import base gmap list option.
From S2P Require Import Prelude Chain DhcpTbl DhcpUnres DhcpSnp DhcpOptions.

(** Message types. *)
Definition NPD_DHCP_DISCOVER : Z := 1.
Definition NPD_DHCP_OFFER : Z := 2.
Definition NPD_DHCP_REQUEST : Z := 3.
Definition NPD_DHCP_DECLINE : Z := 4.
Definition NPD_DHCP_ACK : Z := 5.
Definition NPD_DHCP_NAK : Z := 6.
Definition NPD_DHCP_RELEASE : Z := 7.
Definition NPD_DHCP_INFORM : Z := 8.

Definition NPD_DHCPv6_TYPE_SOLICIT : Z := 1.
Definition NPD_DHCPv6_TYPE_ADVERTISE : Z := 2.
Definition NPD_DHCPv6_TYPE_REQUEST : Z := 3.
Definition NPD_DHCPv6_TYPE_CONFIRM : Z := 4.
Definition NPD_DHCPv6_TYPE_RENEW : Z := 5.
Definition NPD_DHCPv6_TYPE_REPLY : Z := 7.
Definition NPD_DHCPv6_TYPE_RELEASE : Z := 8.
Definition NPD_DHCPv6_TYPE_DECLINE : Z := 9.

Section Handlers.
Variable env : ENV.

(** [if (DHCP_SNP_RETURN_CODE_OK != ret) return ret;] *)
Definition is_ok (ret : Z) : bool := ret =? DHCP_SNP_RETURN_CODE_OK.

(** ** IPv4 *)

Section V4.
Variable buf : list Z.
Variable vlanid ifx : Z.
(** The DHCP message, an offset in [buf]. *)
Variable packet : Z.

Definition dhcp_snp_get_item_from_pkt (type : Z) (user : USER Z) : outcome (USER Z * Z) :=
  let* hlen := load buf (packet + MSG_HLEN) in
  let* mac := load_bytes buf (packet + MSG_CHADDR) NPD_DHCP_SNP_MAC_ADD_LEN in
  let* op := load buf (packet + MSG_OP) in
  let user := user <| u_vlanId := vlanid |> <| u_haddr_len := hlen |>
                   <| u_chaddr := mac |> <| u_ifindex := ifx |> in
  if NPD_DHCP_BOOTREPLY =? op then
    let* yiaddr := load32 buf (packet + MSG_YIADDR) in
    let user := user <| u_ip_addr := yiaddr |> in
    let* temp := dhcp_snp_get_option buf packet DHCP_LEASE_TIME in
    match temp with
    | None => Done (user, DHCP_SNP_RETURN_CODE_ERROR)
    | Some temp =>
        let* lease := load32 buf temp in
        Done (user <| u_lease_time := lease |>, DHCP_SNP_RETURN_CODE_OK)
    end
  else if (NPD_DHCP_BOOTREQUEST =? op) && (NPD_DHCP_INFORM =? type) then
    let* ciaddr := load32 buf (packet + MSG_CIADDR) in
    Done (user <| u_ip_addr := ciaddr |> <| u_lease_time := NPD_DHCP_SNP_REQUEST_TIMEOUT |>,
          DHCP_SNP_RETURN_CODE_OK)
  else
    Done (user <| u_ip_addr := 0 |> <| u_lease_time := NPD_DHCP_SNP_REQUEST_TIMEOUT |>,
          DHCP_SNP_RETURN_CODE_OK).

(** [dhcp_snp_discovery_process] and [dhcp_snp_request_process], which differ in
    the type they pass on. *)
Definition insert_process (type : Z) (s : SNP) : outcome (SNP * Z) :=
  let* '(user, ret) := dhcp_snp_get_item_from_pkt type zero_user in
  if negb (is_ok ret) then Done (s, ret)
  else
    let* item := dhcp_snp_tbl_item_find s.(v4) user in
    match item with
    | Some _ => Done (s, DHCP_SNP_RETURN_CODE_OK)
    | None =>
        let user := user <| u_state := NPD_DHCP_SNP_BIND_STATE_REQUEST |> in
        let '(t, _) := dhcp_snp_tbl_item_insert env.(clock) s.(v4) user in
        Done (s <| v4 := t |>, DHCP_SNP_RETURN_CODE_OK)
    end.

Definition dhcp_snp_discovery_process : SNP → outcome (SNP * Z) := insert_process NPD_DHCP_DISCOVER.
Definition dhcp_snp_request_process : SNP → outcome (SNP * Z) := insert_process NPD_DHCP_REQUEST.

(** The broadcast of an offer is left as it is ([#if 0]). *)
Definition dhcp_snp_offer_process (s : SNP) : outcome (SNP * Z) := Done (s, DHCP_SNP_RETURN_CODE_OK).

Definition dhcp_snp_ack_process (node : LISTENER) (s : SNP) : outcome (SNP * Z) :=
  let* '(user, ret) := dhcp_snp_get_item_from_pkt NPD_DHCP_ACK zero_user in
  if negb (is_ok ret) then Done (s, ret)
  else
    let* item := dhcp_snp_tbl_item_find s.(v4) user in
    match item with
    | None => Done (s, DHCP_SNP_RETURN_CODE_OK)
    | Some item =>
        let* x := get_item s.(v4) item in
        if x.(bind_type) =? NPD_DHCP_SNP_BIND_TYPE_STATIC then Done (s, DHCP_SNP_RETURN_CODE_OK)
        else
          let user := user <| u_state := NPD_DHCP_SNP_BIND_STATE_BOUND |> in
          let* '(s, ret) := dhcp_snp_tbl_refresh_bind env user item node s in
          if negb (is_ok ret) then Done (s, DHCP_SNP_RETURN_CODE_ERROR)
          else
            let* x := get_item s.(v4) item in
            let* s := dhcp_snp_initiative_notify_asd env x.(chaddr) x.(ip_addr) s in
            let s :=
              if negb (s.(dhcp_snp_notify_portal_enable) =? 0) then
                snp_emit (NOTIFY_PORTAL x.(ip_addr) x.(chaddr)) s
              else s in
            Done (s, DHCP_SNP_RETURN_CODE_OK)
    end.

Definition dhcp_snp_nack_process (s : SNP) : outcome (SNP * Z) :=
  let* '(user, ret) := dhcp_snp_get_item_from_pkt NPD_DHCP_NAK zero_user in
  if negb (is_ok ret) then Done (s, ret)
  else
    let* item := dhcp_snp_tbl_item_find s.(v4) user in
    match item with
    | None => Done (s, DHCP_SNP_RETURN_CODE_OK)
    | Some item =>
        let* x := get_item s.(v4) item in
        if x.(bind_type) =? NPD_DHCP_SNP_BIND_TYPE_STATIC then Done (s, DHCP_SNP_RETURN_CODE_OK)
        else
          let* ret := dhcp_snp_tbl_identity_item x user in
          if negb (is_ok ret) then Done (s, DHCP_SNP_RETURN_CODE_OK)
          else if x.(bind_type) =? NPD_DHCP_SNP_BIND_TYPE_DYNAMIC then
            let* '(s, ret) := in_v4 (fun t => dhcp_snp_tbl_item_delete t item) s in
            if negb (is_ok ret) then Done (s, DHCP_SNP_RETURN_CODE_ERROR)
            else Done (s, DHCP_SNP_RETURN_CODE_OK)
          else Done (s, DHCP_SNP_RETURN_CODE_OK)
    end.

Definition dhcp_snp_release_process (node : LISTENER) (s : SNP) : outcome (SNP * Z) :=
  let* '(user, ret) := dhcp_snp_get_item_from_pkt NPD_DHCP_RELEASE zero_user in
  if negb (is_ok ret) then Done (s, ret)
  else
    let* item := dhcp_snp_tbl_item_find s.(v4) user in
    match item with
    | None => Done (s, DHCP_SNP_RETURN_CODE_OK)
    | Some item =>
        let* x := get_item s.(v4) item in
        if x.(bind_type) =? NPD_DHCP_SNP_BIND_TYPE_STATIC then Done (s, DHCP_SNP_RETURN_CODE_OK)
        else
          let* ret := dhcp_snp_tbl_identity_item x user in
          if negb (is_ok ret) then Done (s, DHCP_SNP_RETURN_CODE_OK)
          else if x.(bind_type) =? NPD_DHCP_SNP_BIND_TYPE_DYNAMIC then
            let s :=
              if negb (node.(no_arp) =? 0) && cpu_bound x then
                fst (dhcp_snp_netlink_do_ipneigh env false x.(ifindex) x.(ip_addr) x.(chaddr) s)
              else s in
            let '(s, ret) :=
              if negb (node.(add_router) =? 0) && cpu_bound x then
                match env.(if_indextoname) x.(ifindex) with
                | None => (s, Some DHCP_SNP_RETURN_CODE_ERROR)
                | Some _ => (fst (dhcp_snp_netlink_add_static_route env false x.(ifindex) x.(ip_addr) s), None)
                end
              else (s, None) in
            match ret with
            | Some ret => Done (s, ret)
            | None =>
                let* '(s, ret) := in_v4 (fun t => dhcp_snp_tbl_item_delete t item) s in
                if negb (is_ok ret) then Done (s, DHCP_SNP_RETURN_CODE_ERROR)
                else Done (s, DHCP_SNP_RETURN_CODE_OK)
            end
          else Done (s, DHCP_SNP_RETURN_CODE_OK)
    end.

(** A dynamic binding that is bound already is left alone by INFORM and by
    gratuitous ARP. *)
Definition already_bound (x : ITEM Z) : bool :=
  (NPD_DHCP_SNP_BIND_TYPE_DYNAMIC =? x.(bind_type)) && (NPD_DHCP_SNP_BIND_STATE_BOUND =? x.(state)).

Definition dhcp_snp_inform_process (node : LISTENER) (s : SNP) : outcome (SNP * Z) :=
  let* '(user, ret) := dhcp_snp_get_item_from_pkt NPD_DHCP_INFORM zero_user in
  if negb (is_ok ret) then Done (s, ret)
  else
    let* item := dhcp_snp_tbl_item_find s.(v4) user in
    match item with
    | None => Done (s, DHCP_SNP_RETURN_CODE_OK)
    | Some item =>
        let* x := get_item s.(v4) item in
        if x.(bind_type) =? NPD_DHCP_SNP_BIND_TYPE_STATIC then Done (s, DHCP_SNP_RETURN_CODE_OK)
        else if already_bound x then Done (s, DHCP_SNP_RETURN_CODE_OK)
        else
          let user := user <| u_state := NPD_DHCP_SNP_BIND_STATE_BOUND |> in
          let* '(s, ret) := dhcp_snp_tbl_refresh_bind env user item node s in
          if negb (is_ok ret) then Done (s, DHCP_SNP_RETURN_CODE_ERROR)
          else Done (s, DHCP_SNP_RETURN_CODE_OK)
    end.

(** ** ARP *)

Definition dhcp_snp_gratuitous_arp_process (node : LISTENER) (s : SNP) : outcome (SNP * Z) :=
  let* hwSize := load buf ARP_HWSIZE in
  let* smac := load_bytes buf ARP_SMAC NPD_DHCP_SNP_MAC_ADD_LEN in
  let* sip := load32 buf ARP_SIP in
  let user := zero_user <| u_ifindex := ifx |> <| u_vlanId := vlanid |> <| u_haddr_len := hwSize |>
    <| u_chaddr := smac |> <| u_ip_addr := sip |> <| u_lease_time := NPD_DHCP_SNP_REQUEST_TIMEOUT |> in
  if negb (dhcp_snp_u32ip_check sip =? 0) then Done (s, DHCP_SNP_RETURN_CODE_OK)
  else
    let* item := dhcp_snp_tbl_item_find s.(v4) user in
    match item with
    | None => Done (s, DHCP_SNP_RETURN_CODE_OK)
    | Some item =>
        let* x := get_item s.(v4) item in
        if x.(bind_type) =? NPD_DHCP_SNP_BIND_TYPE_STATIC then Done (s, DHCP_SNP_RETURN_CODE_OK)
        else if already_bound x then Done (s, DHCP_SNP_RETURN_CODE_OK)
        else if negb (x.(ip_addr) =? sip) then Done (s, DHCP_SNP_RETURN_CODE_OK)
        else
          let user := user <| u_state := NPD_DHCP_SNP_BIND_STATE_BOUND |> in
          let* '(s, ret) := dhcp_snp_tbl_refresh_bind env user item node s in
          if negb (is_ok ret) then Done (s, DHCP_SNP_RETURN_CODE_ERROR)
          else Done (s, DHCP_SNP_RETURN_CODE_OK)
    end.

(** [struct arp_packet], the answer for [mac] that has [ip]. *)
Definition arp_reply (tmac tip mac : list Z) (ip : Z) : list Z :=
  tmac ++ mac ++ be_bytes 2 0x0806 ++
  be_bytes 2 1 ++ be_bytes 2 0x0800 ++ [6; 4] ++ be_bytes 2 2 ++
  mac ++ be_bytes 4 ip ++ tmac ++ tip.

(** The result of [write] is compared with 0 in an unsigned variable: a failure
    goes unnoticed. *)
Definition dhcp_snp_arp_request_process (sock : Z) (s : SNP) : outcome (SNP * Z) :=
  if sock <? 0 then Done (s, DHCP_SNP_RETURN_CODE_PARAM_NULL)
  else if s.(dhcp_snp_arp_proxy_enable) =? 0 then Done (s, 0)
  else
    let* dip := load32 buf ARP_DIP in
    let* item := dhcp_snp_tbl_item_find_by_ip s.(v4) dip in
    match item with
    | None => Done (s, DHCP_SNP_RETURN_CODE_OK)
    | Some item =>
        let* x := get_item s.(v4) item in
        let* smac := load_bytes buf ARP_SMAC NPD_DHCP_SNP_MAC_ADD_LEN in
        let* sip := load_bytes buf ARP_SIP 4 in
        let reply := arp_reply smac sip x.(chaddr) dip in
        Done (if env.(write_ok) then snp_emit (WRITE sock reply) s else s, DHCP_SNP_RETURN_CODE_OK)
    end.

(** ** Dispatch *)

Definition dhcp_snp_handle (message : Z) (node : LISTENER) (s : SNP) : outcome (SNP * Z) :=
  if message =? NPD_DHCP_DISCOVER then dhcp_snp_discovery_process s
  else if message =? NPD_DHCP_OFFER then dhcp_snp_offer_process s
  else if message =? NPD_DHCP_REQUEST then dhcp_snp_request_process s
  else if message =? NPD_DHCP_ACK then dhcp_snp_ack_process node s
  else if message =? NPD_DHCP_NAK then dhcp_snp_nack_process s
  else if message =? NPD_DHCP_RELEASE then dhcp_snp_release_process node s
  else if message =? NPD_DHCP_INFORM then dhcp_snp_inform_process node s
  else Done (s, DHCP_SNP_RETURN_CODE_OK).
End V4.

Definition dhcp_snp_packet_rx_process (buf : list Z) (ifx vid : Z) (node : LISTENER) (s : SNP)
    : outcome (SNP * Z) :=
  if negb (s.(dhcp_snp_status) =? NPD_DHCP_SNP_ENABLE) then Done (s, DHCP_SNP_RETURN_CODE_OK)
  else
    let data := DHCP_DATA in
    let* message := dhcp_snp_get_option buf data NPD_DHCP_MESSAGE_TYPE in
    match message with
    | None => Done (s, DHCP_SNP_RETURN_CODE_PKT_DROP)
    | Some p =>
        let* message := load buf p in
        let* '(s, ret) := dhcp_snp_handle buf vid ifx data message node s in
        if negb (is_ok ret) then Done (s, DHCP_SNP_RETURN_CODE_PKT_DROP)
        else Done (s, DHCP_SNP_RETURN_CODE_OK)
    end.

(** ** IPv6 *)

Section V6.
Variable buf : list Z.
Variable vlanid ifx : Z.
Variable packet : Z.
(** The client's MAC address, from the Ethernet header. *)
Variable mac_2 : list Z.

Definition dhcpv6_snp_get_item_from_pkt (type : Z) (t : TBL IPV6_ADDR) (user : USER IPV6_ADDR)
    : outcome (USER IPV6_ADDR * Z) :=
  let user := user <| u_vlanId := vlanid |> <| u_haddr_len := 6 |>
                   <| u_chaddr := mac_2 |> <| u_ifindex := ifx |> in
  if (NPD_DHCPv6_TYPE_ADVERTISE =? type) || (NPD_DHCPv6_TYPE_REPLY =? type) then
    let* iana := dhcpv6_snp_get_option buf packet DHCPv6_IANA in
    match iana with
    | Some temp =>
        let* ip := load_bytes buf (temp + 16) 16 in
        let* lease := load32 buf (temp + 36) in
        Done (user <| u_ip_addr := ip |> <| u_lease_time := lease |>, DHCP_SNP_RETURN_CODE_OK)
    | None =>
        let* status := dhcpv6_snp_get_option buf packet DHCPv6_STATUS_CODE in
        match status with
        | None => Done (user, DHCP_SNP_RETURN_CODE_ERROR)
        | Some temp =>
            let* code := load buf (temp + 1) in
            if 0 =? code then
              let* item := dhcpv6_snp_tbl_item_find t user in
              match item with
              | Some p =>
                  let* x := get_item t p in
                  Done (user <| u_ip_addr := x.(ip_addr) |> <| u_lease_time := x.(lease_time) |>,
                        DHCP_SNP_RETURN_CODE_OK)
              | None => Done (user, DHCP_SNP_RETURN_CODE_OK)
              end
            else Done (user, DHCP_SNP_RETURN_CODE_ERROR)
        end
    end
  else if (NPD_DHCPv6_TYPE_CONFIRM =? type) || (NPD_DHCPv6_TYPE_RELEASE =? type) then
    let* iana := dhcpv6_snp_get_option buf packet DHCPv6_IANA in
    let* user :=
      match iana with
      | Some temp => let* ip := load_bytes buf (temp + 16) 16 in Done (user <| u_ip_addr := ip |>)
      | None => Done user
      end in
    Done (user <| u_lease_time := NPD_DHCP_SNP_REQUEST_TIMEOUT |>, DHCP_SNP_RETURN_CODE_OK)
  else
    Done (user <| u_ip_addr := zero_addr |> <| u_lease_time := NPD_DHCP_SNP_REQUEST_TIMEOUT |>,
          DHCP_SNP_RETURN_CODE_OK).

(** [dhcp_snp_solicit_process], [dhcpv6_snp_request_process] and
    [dhcpv6_snp_confirm_process]. *)
Definition insert6_process (type : Z) (s : SNP) : outcome (SNP * Z) :=
  let* '(user, ret) := dhcpv6_snp_get_item_from_pkt type s.(v6) zero_user in
  if negb (is_ok ret) then Done (s, ret)
  else
    let* item := dhcpv6_snp_tbl_item_find s.(v6) user in
    match item with
    | Some _ => Done (s, DHCP_SNP_RETURN_CODE_OK)
    | None =>
        let user := user <| u_state := NPD_DHCP_SNP_BIND_STATE_REQUEST |> in
        let '(t, _) := dhcpv6_snp_tbl_item_insert env.(clock) s.(v6) user in
        Done (s <| v6 := t |>, DHCP_SNP_RETURN_CODE_OK)
    end.

Definition dhcp_snp_solicit_process : SNP → outcome (SNP * Z) := insert6_process NPD_DHCPv6_TYPE_SOLICIT.
Definition dhcpv6_snp_request_process : SNP → outcome (SNP * Z) := insert6_process NPD_DHCPv6_TYPE_REQUEST.
Definition dhcpv6_snp_confirm_process : SNP → outcome (SNP * Z) := insert6_process NPD_DHCPv6_TYPE_CONFIRM.

Definition dhcp_snp_advertise_process (s : SNP) : outcome (SNP * Z) := Done (s, DHCP_SNP_RETURN_CODE_OK).

Definition dhcp_snp_reply_process (s : SNP) : outcome (SNP * Z) :=
  let* '(user, ret) := dhcpv6_snp_get_item_from_pkt NPD_DHCPv6_TYPE_REPLY s.(v6) zero_user in
  if negb (is_ok ret) then Done (s, ret)
  else
    let* item := dhcpv6_snp_tbl_item_find s.(v6) user in
    match item with
    | None => Done (s, DHCP_SNP_RETURN_CODE_OK)
    | Some item =>
        let* x := get_item s.(v6) item in
        if x.(bind_type) =? NPD_DHCP_SNP_BIND_TYPE_STATIC then Done (s, DHCP_SNP_RETURN_CODE_OK)
        else
          let user := user <| u_state := NPD_DHCP_SNP_BIND_STATE_BOUND |> in
          let* '(s, ret) := dhcpv6_snp_tbl_refresh_bind env user item s in
          if negb (is_ok ret) then Done (s, DHCP_SNP_RETURN_CODE_ERROR)
          else
            let* x := get_item s.(v6) item in
            let* none := no_addr x.(ip_addr) in
            let* s := if (none : bool) then Done s
                      else dhcpv6_snp_initiative_notify_asd env x.(chaddr) x.(ip_addr) s in
            let s :=
              if negb (s.(dhcp_snp_notify_portal_enable) =? 0) then
                snp_emit (NOTIFY_PORTAL_V6 x.(ip_addr) x.(chaddr)) s
              else s in
            Done (s, DHCP_SNP_RETURN_CODE_OK)
    end.

Definition dhcpv6_snp_release_process (s : SNP) : outcome (SNP * Z) :=
  let* '(user, ret) := dhcpv6_snp_get_item_from_pkt NPD_DHCPv6_TYPE_RELEASE s.(v6) zero_user in
  if negb (is_ok ret) then Done (s, ret)
  else
    let* item := dhcpv6_snp_tbl_item_find s.(v6) user in
    match item with
    | None => Done (s, DHCP_SNP_RETURN_CODE_OK)
    | Some item =>
        let* x := get_item s.(v6) item in
        if x.(bind_type) =? NPD_DHCP_SNP_BIND_TYPE_STATIC then Done (s, DHCP_SNP_RETURN_CODE_OK)
        else
          let* ret := dhcpv6_snp_tbl_identity_item x user in
          if negb (is_ok ret) then Done (s, DHCP_SNP_RETURN_CODE_OK)
          else if x.(bind_type) =? NPD_DHCP_SNP_BIND_TYPE_DYNAMIC then
            let* '(s, ret) := in_v6 (fun t => dhcpv6_snp_tbl_item_delete t item) s in
            if negb (is_ok ret) then Done (s, DHCP_SNP_RETURN_CODE_ERROR)
            else Done (s, DHCP_SNP_RETURN_CODE_OK)
          else Done (s, DHCP_SNP_RETURN_CODE_OK)
    end.
End V6.

(** A message of the client comes from its MAC address, one of the server goes to
    it. *)
Definition dhcp_snp_dhcpv6_packet_process (buf : list Z) (ifx vid : Z) (s : SNP) : outcome (SNP * Z) :=
  if negb (s.(dhcp_snp_status) =? NPD_DHCP_SNP_ENABLE) then Done (s, DHCP_SNP_RETURN_CODE_OK)
  else
    let data := DHCPV6_DATA in
    let* message_type := load buf data in
    let* dmac := load_bytes buf 0 6 in
    let* smac := load_bytes buf ETH_SMAC 6 in
    let* '(s, ret) :=
      if message_type =? NPD_DHCPv6_TYPE_SOLICIT then dhcp_snp_solicit_process buf vid ifx data smac s
      else if message_type =? NPD_DHCPv6_TYPE_ADVERTISE then dhcp_snp_advertise_process s
      else if message_type =? NPD_DHCPv6_TYPE_REQUEST then dhcpv6_snp_request_process buf vid ifx data smac s
      else if message_type =? NPD_DHCPv6_TYPE_REPLY then dhcp_snp_reply_process buf vid ifx data dmac s
      else if message_type =? NPD_DHCPv6_TYPE_RENEW then dhcpv6_snp_request_process buf vid ifx data smac s
      else if message_type =? NPD_DHCPv6_TYPE_RELEASE then dhcpv6_snp_release_process buf vid ifx data smac s
      else if message_type =? NPD_DHCPv6_TYPE_CONFIRM then dhcpv6_snp_confirm_process buf vid ifx data smac s
      else Done (s, DHCP_SNP_RETURN_CODE_OK) in
    if negb (is_ok ret) then Done (s, DHCP_SNP_RETURN_CODE_PKT_DROP)
    else Done (s, DHCP_SNP_RETURN_CODE_OK).

(** ** Sockets ([dhcp_snp_listener.c]) *)

(** [memset(sock_pack_buf, 0, DHCP_SNP_PACKET_SIZE)] *)
Definition clear_buf (s : SNP) : SNP :=
  s <| sock_pack_buf := replicate (Z.to_nat DHCP_SNP_PACKET_SIZE) 0 |>.

(** [read(fd, sock_pack_buf, DHCP_SNP_PACKET_SIZE)] of a frame: the rest of the
    array keeps what it had. *)
Definition read_frame (frame : list Z) (s : SNP) : SNP :=
  let data := take (Z.to_nat DHCP_SNP_PACKET_SIZE) frame in
  s <| sock_pack_buf := data ++ drop (length data) s.(sock_pack_buf) |>.

(** One readable socket.  [frame] is what [read] returns, empty for an error. *)
Definition read_socket (node : LISTENER) (frame : list Z) (s : SNP) : outcome (SNP * option Z) :=
  let ifx := env.(if_nametoindex) node.(ifname) in
  let vid := 0xFFFF in
  match frame with
  | [] => Done (clear_buf s, None)
  | _ =>
      let s := read_frame frame s in
      let buf := s.(sock_pack_buf) in
      let* gratuitous := dhcp_snp_listener_gratuitous_arp_check buf in
      if (gratuitous : bool) then
        let* '(s, ret) := dhcp_snp_gratuitous_arp_process buf vid ifx node s in
        Done (clear_buf s, Some ret)
      else
        let* arp := dhcp_snp_listener_arp_request_check buf in
        if (arp : bool) then
          let* '(s, ret) := dhcp_snp_arp_request_process buf node.(fd) s in
          Done (s, Some ret)
        else
          let* dhcpv6 := dhcp_snp_listener_dhcpv6_packet_check buf in
          if (dhcpv6 : bool) then
            let* '(s, ret) := dhcp_snp_dhcpv6_packet_process buf ifx vid s in
            Done (clear_buf s, Some ret)
          else
            let* dhcp := dhcp_snp_listener_type_check buf in
            if (dhcp : bool) then
              let* '(s, ret) := dhcp_snp_packet_rx_process buf ifx vid node s in
              Done (clear_buf s, Some ret)
            else Done (clear_buf s, None)
  end.

(** [ready fd]: the packet of the socket, if [FD_ISSET]. *)
Fixpoint read_sockets (ready : Z → option (list Z)) (l : list LISTENER) (ret : Z) (s : SNP)
    : outcome (SNP * Z) :=
  match l with
  | [] => Done (s, ret)
  | node :: l' =>
      match ready node.(fd) with
      | None => read_sockets ready l' ret s
      | Some frame =>
          let* '(s, r) := read_socket node frame s in
          read_sockets ready l' (default ret r) s
      end
  end.

Definition dhcp_snp_listener_read_sock (ready : Z → option (list Z)) (s : SNP) : outcome (SNP * Z) :=
  match s.(sock_list) with
  | [] => Done (s, DHCP_SNP_RETURN_CODE_NOT_FOUND)
  | l => read_sockets ready l DHCP_SNP_RETURN_CODE_OK s
  end.
End Handlers.

(** ** The list of listeners ([dhcp_snp_listener_handle]) *)

Inductive dhcpsnp_listener_op : Type :=
| DHCPSNP_LSTNER_ADD_E
| DHCPSNP_LSTNER_DEL_E
| DHCPSNP_LSTNER_UPDATE_E
| DHCPSNP_LSTNER_QUERY_E
| DHCPSNP_LSTNER_SET_NO_ARP
| DHCPSNP_LSTNER_SET_ADD_ROUTER.

Definition same_name (name : list Z) (node : LISTENER) : Prop := node.(ifname) = name.
#[export] Instance same_name_dec name node : Decision (same_name name node).
Proof. unfold same_name. apply _. Defined.

(** The first listener with the name, changed or taken out. *)
Fixpoint update_listener (name : list Z) (f : LISTENER → LISTENER) (l : list LISTENER) : list LISTENER :=
  match l with
  | [] => []
  | node :: l' => if decide (same_name name node) then f node :: l' else node :: update_listener name f l'
  end.

Fixpoint remove_listener (name : list Z) (l : list LISTENER) : list LISTENER :=
  match l with
  | [] => []
  | node :: l' => if decide (same_name name node) then l' else node :: remove_listener name l'
  end.

(** The result, and the descriptor stored in [listener->fd].  [flags_ok]: whether
    the interface flags can be reset when a listener goes. *)
Definition dhcp_snp_listener_handle (flags_ok : bool) (listener : LISTENER) (op : dhcpsnp_listener_op) (s : SNP)
    : SNP * Z * Z :=
  let l := s.(sock_list) in
  let name := listener.(ifname) in
  let found := snd <$> list_find (same_name name) l in
  match op, l with
  | DHCPSNP_LSTNER_ADD_E, _ =>
      match found with
      | Some _ => (s, DHCP_SNP_RETURN_CODE_ALREADY_SET, listener.(fd))
      | None => (s <| sock_list := listener :: l |>, DHCP_SNP_RETURN_CODE_OK, listener.(fd))
      end
  | _, [] => (s, DHCP_SNP_RETURN_CODE_NOT_FOUND, listener.(fd))
  | DHCPSNP_LSTNER_QUERY_E, _ =>
      match found with
      | Some node => (s, DHCP_SNP_RETURN_CODE_OK, node.(fd))
      | None => (s, DHCP_SNP_RETURN_CODE_NOT_FOUND, listener.(fd))
      end
  | DHCPSNP_LSTNER_DEL_E, _ =>
      match found with
      | None => (s, DHCP_SNP_RETURN_CODE_NOT_FOUND, listener.(fd))
      | Some node =>
          if negb (node.(no_arp) =? 0) then (s, DHCP_SNP_RETURN_CODE_EN_ANTI_ARP, listener.(fd))
          else if negb (node.(add_router) =? 0) then (s, DHCP_SNP_RETURN_CODE_EN_ADD_ROUTE, listener.(fd))
          else
            let s := s <| sock_list := remove_listener name l |> in
            if 0 <? node.(fd) then
              (s, if flags_ok then DHCP_SNP_RETURN_CODE_OK else DHCP_SNP_RETURN_CODE_ERROR, node.(fd))
            else (s, DHCP_SNP_RETURN_CODE_OK, listener.(fd))
      end
  | DHCPSNP_LSTNER_UPDATE_E, _ =>
      match found with
      | None => (s, DHCP_SNP_RETURN_CODE_NOT_FOUND, listener.(fd))
      | Some _ =>
          (s <| sock_list := update_listener name
             (fun n => mkListener listener.(fd) n.(no_arp) n.(add_router) n.(ifname)) l |>,
           DHCP_SNP_RETURN_CODE_OK, listener.(fd))
      end
  | DHCPSNP_LSTNER_SET_NO_ARP, _ =>
      match found with
      | None => (s, DHCP_SNP_RETURN_CODE_NOT_FOUND, listener.(fd))
      | Some _ =>
          (s <| sock_list := update_listener name
             (fun n => mkListener n.(fd) listener.(no_arp) n.(add_router) n.(ifname)) l |>,
           DHCP_SNP_RETURN_CODE_OK, listener.(fd))
      end
  | DHCPSNP_LSTNER_SET_ADD_ROUTER, _ =>
      match found with
      | None => (s, DHCP_SNP_RETURN_CODE_NOT_FOUND, listener.(fd))
      | Some _ =>
          (s <| sock_list := update_listener name
             (fun n => mkListener n.(fd) n.(no_arp) listener.(add_router) n.(ifname)) l |>,
           DHCP_SNP_RETURN_CODE_OK, listener.(fd))
      end
  end.
