(* ===== verification/DhcpTable.v ===== *)
(** * The binding tables keep their shape

    [tbl_ok t ips]: every list of the two arrays ends, the MAC lists hold every
    binding and the IP lists those of [ips], each in the list of its hash.  Every
    operation keeps it, returns, and changes the bindings as the lemmas say;
    [cores t] is the table without its links.  The class [ADDR_LAWS] is what this
    needs of an address family. *)

From Stdlib Require Import ZArith Lia.
From stdpp Require Import base gmap list option fin_maps.
From S2P Require Import Prelude Chain DhcpTbl DhcpUnres DhcpSnp.

(** [good]: addresses the functions of the family are defined on. *)
Class ADDR_LAWS (A : Type) `{ADDR A} := {
  good : A → Prop;
  good_zero : good zero_addr;
  no_zero : no_addr zero_addr = Done true;
  good_no : ∀ a, good a → wp (no_addr a) (fun _ => True);
  good_same : ∀ a b, good a → good b → wp (same_addr a b) (fun _ => True);
  same_refl : ∀ a, good a → same_addr a a = Done true;
  same_no : ∀ a b, same_addr a b = Done true → no_addr a = no_addr b }.

#[export, program] Instance ADDR_LAWS_V4 : ADDR_LAWS Z := {| good _ := True |}.
Next Obligation. done. Qed.
Next Obligation. done. Qed.
Next Obligation. done. Qed.
Next Obligation. done. Qed.
Next Obligation. intros a _. simpl. by rewrite Z.eqb_refl. Qed.
Next Obligation. intros a b [= ->%Z.eqb_eq]. done. Qed.

(** An IPv6 address has to contain a zero byte for [strlen] and [strcmp] to stay
    inside it. *)
Lemma c_strlen_ok (s : list Z) : 0 ∈ s → wp (c_strlen s) (fun n => 0 ≤ n).
Proof.
  induction s as [|c s IH]; simpl; [by intros ?%not_elem_of_nil|].
  destruct (Z.eqb_spec c 0) as [->|Hc]; simpl; [done|].
  intros [?|Hs]%elem_of_cons; [congruence|]. apply wp_bind.
  eapply wp_mono; [by apply IH|]. simpl. intros; lia.
Qed.

Lemma c_strlen_zero (s : list Z) : c_strlen s = Done 0 → ∃ s', s = 0 :: s'.
Proof.
  destruct s as [|c s]; simpl; [done|]. destruct (Z.eqb_spec c 0) as [->|Hc]; [by eauto|].
  intros (n & E & [= En])%obind_Done. exfalso.
  assert (Hn : ∀ s n, c_strlen s = Done n → 0 ≤ n); [|specialize (Hn _ _ E); lia].
  clear. induction s as [|c s IH]; intros n; simpl; [done|].
  destruct (c =? 0); [by intros [= <-]|]. intros (k & ?%IH & [= <-])%obind_Done. lia.
Qed.

Lemma c_streq_ok (s t : list Z) : length s = length t → 0 ∈ t → wp (c_streq s t) (fun _ => True).
Proof.
  revert t. induction s as [|c s IH]; intros [|d t] Hl; simpl in *; try done; [by intros ?%not_elem_of_nil|].
  destruct (Z.eqb_spec c d) as [->|Hc]; simpl; [|done].
  destruct (Z.eqb_spec d 0) as [->|Hd]; simpl; [done|].
  intros [?|Ht]%elem_of_cons; [congruence|]. apply IH; [lia|done].
Qed.

Lemma c_streq_refl (s : list Z) : 0 ∈ s → c_streq s s = Done true.
Proof.
  induction s as [|c s IH]; simpl; [by intros ?%not_elem_of_nil|]. rewrite Z.eqb_refl; simpl.
  destruct (Z.eqb_spec c 0) as [->|Hc]; [done|]. intros [?|?]%elem_of_cons; [congruence|auto].
Qed.

Lemma c_streq_strlen (s t : list Z) : c_streq s t = Done true → c_strlen s = c_strlen t.
Proof.
  revert t. induction s as [|c s IH]; intros [|d t]; simpl; try done.
  destruct (Z.eqb_spec c d) as [->|Hc]; simpl; [|done].
  destruct (Z.eqb_spec d 0); [done|]. intros E. by rewrite (IH t E).
Qed.

#[export, program] Instance ADDR_LAWS_V6 : ADDR_LAWS IPV6_ADDR :=
  {| good a := length a = 16%nat ∧ 0 ∈ a |}.
Next Obligation. split; [done|]. left. Qed.
Next Obligation. done. Qed.
Next Obligation. intros a [_ Ha]. simpl. apply wp_bind. eapply wp_mono; [by apply c_strlen_ok|done]. Qed.
Next Obligation. intros a b [La _] [Lb Hb]. simpl. apply c_streq_ok; [congruence|done]. Qed.
Next Obligation. intros a [_ Ha]. by apply c_streq_refl. Qed.
Next Obligation. intros a b E. simpl. by rewrite (c_streq_strlen a b E). Qed.

Section TblProps.
Context {A : Type} `{ADDR_LAWS A}.
Implicit Types (t : TBL A) (u : USER A) (x y : ITEM A) (p q : positive) (ips : gset positive).

Definition mac_key x : Z := dhcp_snp_tbl_hash x.(chaddr).
Definition ip_key x : Z := dhcp_snp_tbl_ip_hash (addr_word x.(ip_addr)).

Record tbl_ok t ips : Prop := {
  mac_ok : hashed mac_link mac_key t.(heap) t.(mac_hash) (dom t.(heap));
  ip_ok : hashed ip_link ip_key t.(heap) t.(ip_hash) ips;
  heap_good : ∀ p x, t.(heap) !! p = Some x → good x.(ip_addr);
  ips_addr : ∀ p x, p ∈ ips → t.(heap) !! p = Some x → no_addr x.(ip_addr) = Done false }.

(** A binding without its links. *)
Definition core x : ITEM A := x <| next := None |> <| ip_next := None |>.
Definition cores t : gmap positive (ITEM A) := core <$> t.(heap).

Lemma core_set_next o x : core (x <| next := o |>) = core x.
Proof. by destruct x. Qed.
Lemma core_set_ip_next o x : core (x <| ip_next := o |>) = core x.
Proof. by destruct x. Qed.
Lemma core_chaddr x : (core x).(chaddr) = x.(chaddr).
Proof. by destruct x. Qed.
Lemma core_ip_addr x : (core x).(ip_addr) = x.(ip_addr).
Proof. by destruct x. Qed.

Lemma lookup_cores t p x : t.(heap) !! p = Some x → cores t !! p = Some (core x).
Proof. intros E. unfold cores. by rewrite lookup_fmap, E. Qed.

Lemma lookup_cores_inv t p b : cores t !! p = Some b → ∃ x, t.(heap) !! p = Some x ∧ b = core x.
Proof. unfold cores. rewrite lookup_fmap. intros (x & ? & ?)%fmap_Some. eauto. Qed.

Lemma core_eq_fields x y : core x = core y →
  x.(chaddr) = y.(chaddr) ∧ x.(ip_addr) = y.(ip_addr).
Proof. intros E. split; [apply (f_equal chaddr) in E|apply (f_equal ip_addr) in E]; by destruct x, y. Qed.

Lemma cores_dom t : dom (cores t) = dom t.(heap).
Proof. unfold cores. apply dom_fmap_L. Qed.

(** The same bindings, seen from two tables. *)
Lemma cores_same t t' p x : cores t' = cores t → t.(heap) !! p = Some x →
  ∃ x', t'.(heap) !! p = Some x' ∧ core x' = core x.
Proof.
  intros E Ex. apply lookup_cores in Ex. rewrite <- E in Ex.
  apply lookup_cores_inv in Ex as (x' & ? & ?). eauto.
Qed.

Lemma tbl_ok_empty : tbl_ok (mkTbl ∅ ∅ ∅) ∅.
Proof.
  split; simpl.
  - rewrite dom_empty_L. apply hashed_empty.
  - apply hashed_empty.
  - intros p x; by rewrite lookup_empty.
  - intros p x ?. set_solver.
Qed.

(** ** Lookup *)

Lemma wp_item_find t ips u (Q : option positive → Prop) :
  tbl_ok t ips →
  (∀ p x, t.(heap) !! p = Some x → x.(chaddr) = u.(u_chaddr) → Q (Some p)) →
  ((∀ p x, t.(heap) !! p = Some x → x.(chaddr) ≠ u.(u_chaddr)) → Q None) →
  wp (dhcp_snp_tbl_item_find t u) Q.
Proof.
  intros Hok Hs Hn. unfold dhcp_snp_tbl_item_find.
  eapply wp_hashed_find; [apply Hok|done|..].
  - intros p x _ Ex _ [= E%bool_decide_eq_true]. eauto.
  - intros Hall. apply Hn. intros p x Ex E.
    specialize (Hall p x). rewrite bool_decide_true in Hall by done.
    discriminate Hall; [|done|].
    + apply elem_of_dom. by eexists.
    + unfold mac_key. by rewrite E.
Qed.

(** The bindings [p] of [ips] that the IP hash finds for [a]. *)
Definition matches (a : A) x : Prop :=
  ip_key x = dhcp_snp_tbl_ip_hash (addr_word a) ∧ same_addr x.(ip_addr) a = Done true.

Lemma wp_find_by_ip t ips a (Q : option positive → Prop) :
  tbl_ok t ips → good a →
  (∀ p x, p ∈ ips → t.(heap) !! p = Some x → matches a x → no_addr a = Done false → Q (Some p)) →
  ((∀ p x, p ∈ ips → t.(heap) !! p = Some x → ¬ matches a x) → Q None) →
  wp (dhcp_snp_tbl_item_find_by_ip t a) Q.
Proof.
  intros Hok Ha Hs Hn. unfold dhcp_snp_tbl_item_find_by_ip. apply wp_bind.
  destruct (wp_elim _ _ (good_no a Ha)) as ([] & E & _); rewrite E; simpl.
  - apply Hn. intros p x Hp Ex [_ Es]. pose proof (ips_addr t ips Hok p x Hp Ex) as En.
    rewrite (same_no _ _ Es) in En. congruence.
  - eapply wp_hashed_find; [apply Hok|..].
    + intros p x Hp Ex. apply good_same; [|done]. by eapply (heap_good t).
    + intros p x Hp Ex Ek Es. by eapply Hs; [..|split|].
    + intros Hall. apply Hn. intros p x Hp Ex [Ek Es]. specialize (Hall p x Hp Ex Ek). congruence.
Qed.

(** ** Taking a binding out of the IP hash *)

Lemma links_only_core (L : Link (ITEM A)) (h h' : gmap positive (ITEM A)) :
  (∀ o x, core (L.(set_nxt) o x) = core x) → links_only L h h' → core <$> h' = core <$> h.
Proof.
  intros HL Hlo. apply map_eq. intros p. rewrite !lookup_fmap. specialize (Hlo p).
  destruct Hlo as [x x' [->|[o ->]]|]; simpl; [done|by rewrite HL|done].
Qed.

(** What the change of one link keeps. *)
Lemma links_only_get (L : Link (ITEM A)) (h h' : gmap positive (ITEM A)) p x' :
  links_only L h h' → h' !! p = Some x' →
  ∃ x, h !! p = Some x ∧ (x' = x ∨ ∃ o, x' = L.(set_nxt) o x).
Proof. intros Hlo E. specialize (Hlo p). rewrite E in Hlo. inversion Hlo; subst. eauto. Qed.

Lemma ip_key_next o x : ip_key (x <| next := o |>) = ip_key x.
Proof. by destruct x. Qed.
Lemma ip_key_ip_next o x : ip_key (x <| ip_next := o |>) = ip_key x.
Proof. by destruct x. Qed.
Lemma mac_key_next o x : mac_key (x <| next := o |>) = mac_key x.
Proof. by destruct x. Qed.
Lemma mac_key_ip_next o x : mac_key (x <| ip_next := o |>) = mac_key x.
Proof. by destruct x. Qed.

(** The MAC lists do not depend on the IP links. *)
Lemma mac_hashed_ip_links h h' heads S :
  links_only ip_link h h' →
  hashed mac_link mac_key h heads S → hashed mac_link mac_key h' heads S.
Proof.
  intros Hlo. apply hashed_frame. intros p x _ Ex. specialize (Hlo p). rewrite Ex in Hlo.
  inversion Hlo as [? x' Hx E1 E2|]; subst. exists x'. split; [done|].
  destruct Hx as [->|[o ->]]; [done|]. by destruct x.
Qed.

(** The IP lists do not depend on the MAC links. *)
Lemma ip_hashed_mac_links h h' heads S :
  links_only mac_link h h' →
  hashed ip_link ip_key h heads S → hashed ip_link ip_key h' heads S.
Proof.
  intros Hlo. apply hashed_frame. intros p x _ Ex. specialize (Hlo p). rewrite Ex in Hlo.
  inversion Hlo as [? x' Hx E1 E2|]; subst. exists x'. split; [done|].
  destruct Hx as [->|[o ->]]; [done|]. by destruct x.
Qed.

(** [tbl_ok] from the hash tables and the cores. *)
Lemma tbl_ok_cores t t' ips ips' :
  tbl_ok t ips → ips' ⊆ ips → cores t' = cores t →
  hashed mac_link mac_key t'.(heap) t'.(mac_hash) (dom t'.(heap)) →
  hashed ip_link ip_key t'.(heap) t'.(ip_hash) ips' →
  tbl_ok t' ips'.
Proof.
  intros Hok Hs Ec Hm Hi. split; [done|done|..].
  - intros p x Ex. destruct (cores_same t' t p x (eq_sym Ec) Ex) as (x' & Ex' & E).
    apply core_eq_fields in E as [_ <-]. by eapply heap_good.
  - intros p x Hp Ex. destruct (cores_same t' t p x (eq_sym Ec) Ex) as (x' & Ex' & E).
    apply core_eq_fields in E as [_ <-]. eapply ips_addr; [done|by apply Hs|done].
Qed.

Lemma wp_delete_iphash t ips p (Q : TBL A * Z → Prop) :
  tbl_ok t ips → is_Some (t.(heap) !! p) →
  (∀ t' ret, tbl_ok t' (ips ∖ {[p]}) → cores t' = cores t → t'.(mac_hash) = t.(mac_hash) →
     Q (t', ret)) →
  wp (dhcp_snp_tbl_item_delete_iphash t p) Q.
Proof.
  intros Hok [x Ex] HQ. unfold dhcp_snp_tbl_item_delete_iphash, get_item.
  rewrite Ex; simpl. apply wp_bind.
  destruct (wp_elim _ _ (good_no _ (heap_good t ips Hok p x Ex))) as (b & E & _); rewrite E; simpl.
  assert (Hskip : p ∉ ips → ips = ips ∖ {[p]}) by set_solver.
  destruct b.
  - apply HQ; [|done|done]. rewrite <- Hskip; [done|]. intros Hp.
    pose proof (ips_addr t ips Hok p x Hp Ex). congruence.
  - apply wp_bind. eapply (wp_unlink ip_link ip_key _ _ _ _ _ x); [apply Hok|by intros; apply ip_key_ip_next|done|done|..].
    + intros h heads Hp Hh Hlo Ex'. simpl. rewrite Ex'; simpl.
      assert (Hlo' : links_only ip_link h (<[p := x <| ip_next := None |>]> h))
        by exact (links_only_insert ip_link h p x None Ex').
      assert (Ec : core <$> (<[p := x <| ip_next := None |>]> h) = core <$> t.(heap)).
      { rewrite (links_only_core ip_link h) by (done || apply core_set_ip_next).
        apply (links_only_core ip_link); [apply core_set_ip_next|done]. }
      apply HQ; [|exact Ec|done].
      eapply (tbl_ok_cores t); [done|set_solver|exact Ec| |]; simpl.
      * rewrite (links_only_dom _ _ _ Hlo'), (links_only_dom _ _ _ Hlo).
        eapply mac_hashed_ip_links; [done|]. eapply mac_hashed_ip_links; [done|]. apply Hok.
      * eapply hashed_frame; [|done]. intros q y Hq Ey. exists y.
        rewrite lookup_insert_ne by set_solver. done.
    + intros Hp. simpl. destruct t as [h mh ih]; simpl in *. apply HQ; [|done|done].
      by rewrite <- Hskip.
Qed.

(** ** Deleting and inserting *)

(** Freeing a node that is in no list. *)
Lemma hashed_free (L : Link (ITEM A)) key h heads (S : gset positive) p :
  p ∉ S → hashed L key h heads S → hashed L key (delete p h) heads S.
Proof.
  intros Hp. apply hashed_frame. intros q x Hq Ex. exists x.
  rewrite lookup_delete_ne by set_solver. done.
Qed.

Lemma cores_delete h p : core <$> delete p h = delete p (core <$> h : gmap positive (ITEM A)).
Proof. apply fmap_delete. Qed.

(** The second half of [dhcp_snp_tbl_item_delete]. *)
Lemma wp_item_free t ips p x (Q : TBL A * Z → Prop) :
  tbl_ok t ips → p ∉ ips → t.(heap) !! p = Some x →
  (∀ t', tbl_ok t' ips → cores t' = delete p (cores t) → Q (t', DHCP_SNP_RETURN_CODE_OK)) →
  wp (let* '(h, heads, found) := unlink mac_link t.(heap) t.(mac_hash) (mac_key x) p in
      if (found : bool) then
        Done (t <| heap := delete p h |> <| mac_hash := heads |>, DHCP_SNP_RETURN_CODE_OK)
      else Done (t <| heap := h |> <| mac_hash := heads |>, DHCP_SNP_RETURN_CODE_ERROR)) Q.
Proof.
  intros Hok Hp Ex HQ. apply wp_bind.
  eapply (wp_unlink mac_link mac_key _ _ _ _ _ x); [apply Hok|by intros; apply mac_key_next|done|done|..].
  - intros h heads _ Hh Hlo Ex'. simpl.
    assert (Ec : core <$> delete p h = delete p (cores t)).
    { rewrite cores_delete. f_equal. by apply (links_only_core mac_link); [apply core_set_next|]. }
    apply HQ; [|exact Ec]. assert (Ed : dom (delete p h) = dom t.(heap) ∖ {[p]}).
    { rewrite dom_delete_L. by rewrite (links_only_dom _ _ _ Hlo). }
    split; simpl.
    + rewrite Ed. apply hashed_free; [set_solver|done].
    + apply hashed_free; [done|]. eapply ip_hashed_mac_links; [done|apply Hok].
    + intros q y Ey. rewrite lookup_delete_Some in Ey. destruct Ey as [Hne Ey].
      destruct (links_only_get _ _ _ _ _ Hlo Ey) as (y0 & Ey0 & Hy).
      pose proof (heap_good t ips Hok q y0 Ey0) as Hg. by destruct Hy as [->|[o ->]]; destruct y0.
    + intros q y Hq Ey. rewrite lookup_delete_Some in Ey. destruct Ey as [Hne Ey].
      destruct (links_only_get _ _ _ _ _ Hlo Ey) as (y0 & Ey0 & Hy).
      pose proof (ips_addr t ips Hok q y0 Hq Ey0) as Hg. by destruct Hy as [->|[o ->]]; destruct y0.
  - intros Hd. destruct Hd. apply elem_of_dom. by eexists.
Qed.

Lemma wp_item_delete t ips p (Q : TBL A * Z → Prop) :
  tbl_ok t ips → is_Some (t.(heap) !! p) →
  (∀ t', tbl_ok t' (ips ∖ {[p]}) → cores t' = delete p (cores t) →
     Q (t', DHCP_SNP_RETURN_CODE_OK)) →
  wp (dhcp_snp_tbl_item_delete t p) Q.
Proof.
  intros Hok [x Ex] HQ. unfold dhcp_snp_tbl_item_delete, get_item. rewrite Ex; simpl. apply wp_bind.
  destruct (wp_elim _ _ (good_no _ (heap_good t ips Hok p x Ex))) as (b & E & _); rewrite E; simpl.
  apply wp_bind. destruct b; simpl.
  - assert (Hp : p ∉ ips) by (intros Hp; pose proof (ips_addr t ips Hok p x Hp Ex); congruence).
    eapply wp_item_free; [done|done|done|]. intros t' Hok' Ec. apply HQ; [|done].
    by replace (ips ∖ {[p]}) with ips by set_solver.
  - apply wp_bind. eapply wp_delete_iphash; [done|by eexists|]. intros t1 ret Hok1 Ec1 Em1. simpl.
    destruct (cores_same t t1 p x Ec1 Ex) as (x1 & Ex1 & E1).
    assert (Ek : dhcp_snp_tbl_hash (chaddr x) = mac_key x1).
    { apply core_eq_fields in E1 as [E1 _]. unfold mac_key. by rewrite E1. }
    rewrite Ek. eapply wp_item_free; [done|set_solver|done|]. intros t' Hok' Ec.
    apply HQ; [done|congruence].
Qed.

Definition new_core (c : CLOCK) u : ITEM A := core (dhcp_snp_tbl_fill_item c u zero_item).

Lemma item_insert_ok c t ips u :
  tbl_ok t ips → good u.(u_ip_addr) →
  let '(t', p) := dhcp_snp_tbl_item_insert c t u in
  (p ∉ dom t.(heap)) ∧ tbl_ok t' ips ∧ cores t' = <[p := new_core c u]> (cores t).
Proof.
  intros Hok Hg. unfold dhcp_snp_tbl_item_insert.
  set (p := fresh (dom t.(heap))). assert (Hp : p ∉ dom t.(heap)) by apply is_fresh.
  set (x := dhcp_snp_tbl_fill_item c u zero_item).
  assert (Hips : p ∉ ips) by (destruct (ip_ok t ips Hok); set_solver).
  split_and!; [done|split; simpl|].
  - rewrite dom_insert_L. apply (hashed_push mac_link mac_key _ _ _ p x); [intros; apply mac_key_next|apply Hok|done|done].
  - eapply hashed_frame; [|apply Hok]. intros q y Hq Ey. exists y.
    rewrite lookup_insert_ne by set_solver. done.
  - intros q y. destruct (decide (q = p)) as [->|Hne].
    + rewrite lookup_insert_eq. by intros [= <-].
    + rewrite lookup_insert_ne by done. apply (heap_good t ips Hok).
  - intros q y Hq. rewrite lookup_insert_ne by set_solver. by apply (ips_addr t ips Hok).
  - unfold cores; simpl. rewrite fmap_insert, core_set_next. reflexivity.
Qed.

(** ** The loop over the bindings of an address *)

(** [R n t]: the invariant, with a number that every turn decreases. *)
Lemma wp_by_ip_loop (R : nat → TBL A → Prop) a body (Q : TBL A * option Z → Prop) :
  (∀ n t, R n t →
     wp (dhcp_snp_tbl_item_find_by_ip t a) (fun o =>
       match o with
       | None => Q (t, None)
       | Some p => wp (body t p) (fun '(t', r) =>
           match r with
           | Some r => Q (t', Some r)
           | None => ∃ n', (n' < n)%nat ∧ R n' t'
           end)
       end)) →
  ∀ n fuel t, R n t → (n < fuel)%nat → wp (by_ip_loop fuel a body t) Q.
Proof.
  intros Hbody n fuel. revert n. induction fuel as [|fuel IH]; intros n t HR Hn; [lia|].
  simpl. apply wp_bind. eapply wp_mono; [by apply (Hbody n)|]. intros [p|]; [|done].
  intros Hb. apply wp_bind. eapply wp_mono; [exact Hb|]. intros [t' [r|]]; [done|].
  intros (n' & Hlt & HR'). apply (IH n'); [done|lia].
Qed.

Lemma ips_size t ips : tbl_ok t ips → (size ips < turns t)%nat.
Proof.
  intros Hok. unfold turns. rewrite <- size_dom.
  assert (ips ⊆ dom (heap t)) as Hs by apply (ip_ok t ips Hok).
  apply subseteq_size in Hs. lia.
Qed.

Lemma size_remove ips p : p ∈ ips → (size (ips ∖ {[p]}) < size ips)%nat.
Proof.
  intros Hp. apply subset_size. split; [set_solver|]. intros Hs. specialize (Hs p Hp). set_solver.
Qed.

(** [ips] without the bindings that match [a]. *)
Definition unmatched t (a : A) ips ips' : Prop :=
  ∀ p x, t.(heap) !! p = Some x → p ∈ ips' ↔ p ∈ ips ∧ ¬ matches a x.

Lemma matches_core a x y : core x = core y → matches a x → matches a y.
Proof. intros [_ E]%core_eq_fields. unfold matches, ip_key. by rewrite E. Qed.

(** [R]: some of the bindings that match have been dropped. *)
Lemma wp_drop_loop t ips a (Q : TBL A * option Z → Prop) :
  tbl_ok t ips → good a →
  (∀ t' ips', tbl_ok t' ips' → cores t' = cores t → t'.(mac_hash) = t.(mac_hash) →
     unmatched t a ips ips' → Q (t', None)) →
  wp (by_ip_loop (turns t) a drop_iphash t) Q.
Proof.
  intros Hok Ha HQ.
  eapply (wp_by_ip_loop (fun n t' => ∃ ips', n = size ips' ∧ tbl_ok t' ips' ∧ cores t' = cores t ∧
    t'.(mac_hash) = t.(mac_hash) ∧ ips' ⊆ ips ∧
    ∀ p x, t.(heap) !! p = Some x → p ∈ ips → p ∉ ips' → matches a x)); [|eauto 10|].
  - intros n t' (ips' & -> & Hok' & Ec & Em & Hsub & Hout). eapply wp_find_by_ip; [done|done|..].
    + intros p x Hp Ex Hm _. unfold drop_iphash. apply wp_bind.
      eapply wp_delete_iphash; [done|by eexists|]. intros t1 ret Hok1 Ec1 Em1. simpl.
      exists (size (ips' ∖ {[p]})). split; [by apply size_remove|]. exists (ips' ∖ {[p]}).
      split_and!; [done|done|congruence|congruence|set_solver|].
      intros q y Ey Hq Hq'. destruct (decide (q = p)) as [->|Hne]; [|apply (Hout q y Ey Hq); set_solver].
      destruct (cores_same t' t p x (eq_sym Ec) Ex) as (x' & Ex' & E).
      assert (x' = y) as -> by congruence. eapply matches_core; [symmetry; exact E|exact Hm].
    + intros Hall. apply (HQ t' ips'); [done|done|done|]. intros p x Ex. split.
      * intros Hp. split; [by apply Hsub|]. intros Hm.
        destruct (cores_same t t' p x Ec Ex) as (x' & Ex' & E).
        apply (Hall p x' Hp Ex'). eapply matches_core; [|done]. done.
      * intros [Hp Hm]. destruct (decide (p ∈ ips')) as [|Hp']; [done|]. destruct Hm. by eapply Hout.
  - exists ips. split_and!; eauto. intros p x _ Hp Hp'. done.
  - by apply ips_size.
Qed.

Lemma wp_insert_ip_hash t ips p x (Q : TBL A → Prop) :
  tbl_ok t ips → t.(heap) !! p = Some x →
  (no_addr x.(ip_addr) = Done true → Q t) →
  (no_addr x.(ip_addr) = Done false → ∀ t' ips', tbl_ok t' ips' → cores t' = cores t →
     (∀ q y, t.(heap) !! q = Some y →
        q ∈ ips' ↔ q = p ∨ q ∈ ips ∧ ¬ matches x.(ip_addr) y) → Q t') →
  wp (dhcp_snp_tbl_item_insert_ip_hash t p) Q.
Proof.
  intros Hok Ex Hno HQ. unfold dhcp_snp_tbl_item_insert_ip_hash, get_item. rewrite Ex; simpl.
  apply wp_bind. pose proof (heap_good t ips Hok p x Ex) as Hg.
  destruct (wp_elim _ _ (good_no _ Hg)) as ([] & E & _); rewrite E; simpl; [auto|].
  apply wp_bind. eapply wp_drop_loop; [done|done|]. intros t1 ips1 Hok1 Ec1 Em1 Hun. simpl.
  destruct (cores_same t t1 p x Ec1 Ex) as (x1 & Ex1 & E1). rewrite Ex1; simpl.
  change (dhcp_snp_tbl_ip_hash (addr_word x1.(ip_addr))) with (ip_key x1).
  assert (Hp : p ∉ ips1).
  { intros Hp. apply (Hun p x Ex) in Hp as [_ Hm]. apply Hm. split; [done|by apply same_refl]. }
  destruct (core_eq_fields _ _ E1) as [_ Ea].
  assert (Hlo : links_only ip_link t1.(heap) (<[p := x1 <| ip_next := t1.(ip_hash) !! ip_key x1 |>]> t1.(heap)))
    by exact (links_only_insert ip_link t1.(heap) p x1 _ Ex1).
  assert (Hpush : hashed ip_link ip_key
    (<[p := x1 <| ip_next := t1.(ip_hash) !! ip_key x1 |>]> t1.(heap))
    (set_head t1.(ip_hash) (ip_key x1) (Some p)) ({[p]} ∪ ips1)).
  { apply (hashed_push ip_link ip_key _ _ _ p x1); [intros; apply ip_key_ip_next|apply Hok1|done|done]. }
  assert (Ec : core <$> (<[p := x1 <| ip_next := t1.(ip_hash) !! ip_key x1 |>]> t1.(heap)) = cores t1).
  { apply (links_only_core ip_link); [apply core_set_ip_next|done]. }
  eapply (HQ E _ ({[p]} ∪ ips1)).
  - split; simpl.
    + rewrite (links_only_dom _ _ _ Hlo). eapply mac_hashed_ip_links; [done|apply Hok1].
    + exact Hpush.
    + intros q y Ey. destruct (links_only_get _ _ _ _ _ Hlo Ey) as (y0 & Ey0 & Hy).
      pose proof (heap_good t1 ips1 Hok1 q y0 Ey0) as Hgy. by destruct Hy as [->|[o ->]]; destruct y0.
    + intros q y Hq Ey. destruct (decide (q = p)) as [->|Hne].
      * rewrite lookup_insert_eq in Ey. injection Ey as <-. destruct x1; simpl in *. by rewrite Ea.
      * rewrite lookup_insert_ne in Ey by done. apply (ips_addr t1 ips1 Hok1 q y); [set_solver|done].
  - unfold put_item, cores; simpl. by rewrite Ec.
  - intros q y Ey. specialize (Hun q y Ey). set_solver.
Qed.

(** Changing the fields of a binding that are not links. *)
Lemma tbl_ok_put t ips p x x' :
  tbl_ok t ips → t.(heap) !! p = Some x →
  x'.(next) = x.(next) → x'.(ip_next) = x.(ip_next) → x'.(chaddr) = x.(chaddr) →
  good x'.(ip_addr) → x'.(ip_addr) = x.(ip_addr) ∨ (p ∉ ips) →
  tbl_ok (put_item t p x') ips ∧ cores (put_item t p x') = <[p := core x']> (cores t).
Proof.
  intros Hok Ex En Ein Ec Hg Hor. split; [split; simpl|].
  - rewrite dom_insert_L. replace ({[p]} ∪ dom t.(heap)) with (dom t.(heap)).
    2: { assert (p ∈ dom t.(heap)) by (apply elem_of_dom; by eexists). set_solver. }
    eapply hashed_frame; [|apply Hok]. intros q y _ Ey. destruct (decide (q = p)) as [->|Hne].
    + exists x'. rewrite lookup_insert_eq. unfold mac_key. rewrite Ec. simplify_eq. auto.
    + exists y. by rewrite lookup_insert_ne.
  - eapply hashed_frame; [|apply Hok]. intros q y Hq Ey. destruct (decide (q = p)) as [->|Hne].
    + exists x'. rewrite lookup_insert_eq. unfold ip_key. simplify_eq.
      destruct Hor as [->|?]; [auto|done].
    + exists y. by rewrite lookup_insert_ne.
  - intros q y. destruct (decide (q = p)) as [->|Hne].
    + rewrite lookup_insert_eq. by intros [= <-].
    + rewrite lookup_insert_ne by done. apply (heap_good t ips Hok).
  - intros q y Hq. destruct (decide (q = p)) as [->|Hne].
    + rewrite lookup_insert_eq. intros [= <-]. destruct Hor as [->|?]; [|done].
      by apply (ips_addr t ips Hok p).
    + rewrite lookup_insert_ne by done. by apply (ips_addr t ips Hok).
  - unfold cores, put_item; simpl. apply fmap_insert.
Qed.

(** ** Rewriting a binding *)

Lemma fill_bind_core c u x : core (dhcp_snp_tbl_fill_bind c u x) = dhcp_snp_tbl_fill_bind c u (core x).
Proof. unfold dhcp_snp_tbl_fill_bind. destruct (negb _); by destruct x. Qed.

Lemma fill_bind_fields c u x :
  let y := dhcp_snp_tbl_fill_bind c u x in
  y.(chaddr) = x.(chaddr) ∧ y.(ip_addr) = u.(u_ip_addr) ∧ y.(state) = u.(u_state) ∧
  y.(next) = x.(next) ∧ y.(ip_next) = x.(ip_next) ∧ y.(bind_type) = x.(bind_type).
Proof. unfold dhcp_snp_tbl_fill_bind. destruct (negb _); by destruct x. Qed.

End TblProps.

(** ** The IPv4 bindings as a finite map

    [table t]: the bindings of the table by MAC address, without links; the
    invariant [v4_ok] makes it a faithful view: no two bindings share a MAC
    address, the IP hash holds exactly the bound ones, and no two of them share an
    IP address. *)

(** ** The finite map *)

Section Map.
Context {A : Type} `{ADDR_LAWS A}.
Implicit Types (t : TBL A) (b : ITEM A) (m : gmap positive (ITEM A)) (mac : list Z).

Definition mac_uniq m : Prop :=
  ∀ p q b b', m !! p = Some b → m !! q = Some b' → b.(chaddr) = b'.(chaddr) → p = q.
Definition entry b : list Z * ITEM A := (b.(chaddr), b).
Definition table t : gmap (list Z) (ITEM A) :=
  list_to_map ((fun '(_, b) => entry b) <$> map_to_list (cores t)).

Lemma table_keys m : mac_uniq m →
  NoDup (((fun '(_, b) => entry b) <$> map_to_list m).*1).
Proof.
  intros Hu. rewrite <- list_fmap_compose. apply NoDup_fmap_2_strong; [|apply NoDup_map_to_list].
  intros [p b] [q b'] Hp%elem_of_map_to_list Hq%elem_of_map_to_list; simpl. intros E.
  assert (p = q) as -> by by eapply Hu. congruence.
Qed.

Lemma lookup_table t mac b : mac_uniq (cores t) →
  table t !! mac = Some b ↔ ∃ p, cores t !! p = Some b ∧ b.(chaddr) = mac.
Proof.
  intros Hu. unfold table. rewrite <- elem_of_list_to_map by by apply table_keys.
  rewrite list_elem_of_fmap. split.
  - intros ([p b'] & [= -> ->] & Hp%elem_of_map_to_list). eauto.
  - intros (p & Hp & <-). exists (p, b). split; [done|]. by apply elem_of_map_to_list.
Qed.

Lemma table_lookup_None t mac : mac_uniq (cores t) →
  table t !! mac = None ↔ ∀ p b, cores t !! p = Some b → b.(chaddr) ≠ mac.
Proof.
  intros Hu. split.
  - intros E p b Hp Eb. assert (table t !! mac = Some b) by (apply lookup_table; eauto). congruence.
  - intros Hn. destruct (table t !! mac) as [b|] eqn:E; [|done].
    apply lookup_table in E as (p & Hp & Eb); [|done]. by destruct (Hn p b Hp).
Qed.

Lemma table_chaddr t mac b : mac_uniq (cores t) → table t !! mac = Some b → b.(chaddr) = mac.
Proof. intros Hu (p & _ & E)%lookup_table; done. Qed.

(** Two tables with the same bindings. *)
Lemma table_cores t t' : cores t' = cores t → table t' = table t.
Proof. unfold table. by intros ->. Qed.

Lemma table_insert_new t t' p b : mac_uniq (cores t) →
  cores t !! p = None → table t !! b.(chaddr) = None → cores t' = <[p := b]> (cores t) →
  mac_uniq (cores t') ∧ table t' = <[b.(chaddr) := b]> (table t).
Proof.
  intros Hu Hp Hb Ec. pose proof (proj1 (table_lookup_None t _ Hu) Hb) as Hn.
  assert (Hu' : mac_uniq (cores t')).
  { rewrite Ec. intros q r x y. destruct (decide (q = p)) as [->|Hq], (decide (r = p)) as [->|Hr];
      rewrite ?lookup_insert_eq, ?lookup_insert_ne by done; try done.
    - intros [= <-] Ey E. destruct (Hn r y); congruence.
    - intros Ex [= <-] E. destruct (Hn q x); congruence.
    - apply Hu. }
  split; [done|]. apply map_eq. intros mac. apply option_eq. intros x.
  rewrite lookup_table by done. destruct (decide (mac = b.(chaddr))) as [->|Hne].
  - rewrite lookup_insert_eq. split.
    + intros (q & Eq & E). rewrite Ec in Eq. destruct (decide (q = p)) as [->|Hq].
      * by rewrite lookup_insert_eq in Eq.
      * rewrite lookup_insert_ne in Eq by done. by destruct (Hn q x).
    + intros [= <-]. exists p. rewrite Ec. by rewrite lookup_insert_eq.
  - rewrite lookup_insert_ne by done. rewrite lookup_table by done. rewrite Ec.
    split; intros (q & Eq & E); exists q; (split; [|done]).
    + destruct (decide (q = p)) as [->|Hq]; [rewrite lookup_insert_eq in Eq; congruence|].
      by rewrite lookup_insert_ne in Eq.
    + rewrite lookup_insert_ne; [done|]. intros ->. congruence.
Qed.

Lemma table_delete t t' p b : mac_uniq (cores t) →
  cores t !! p = Some b → cores t' = delete p (cores t) →
  mac_uniq (cores t') ∧ table t' = delete b.(chaddr) (table t).
Proof.
  intros Hu Hp Ec. assert (Hu' : mac_uniq (cores t')).
  { rewrite Ec. intros q r x y [_ Ex]%lookup_delete_Some [_ Ey]%lookup_delete_Some. by apply Hu. }
  split; [done|]. apply map_eq. intros mac. apply option_eq. intros x.
  rewrite lookup_delete_Some, !lookup_table by done. rewrite Ec. split.
  - intros (q & [Hq Eq]%lookup_delete_Some & E). split; [|eauto].
    intros Hm. apply Hq. eapply Hu; [done|done|congruence].
  - intros [Hne (q & Eq & E)]. exists q. split; [|done]. apply lookup_delete_Some. split; [|done].
    congruence.
Qed.

Lemma table_update t t' p b b' : mac_uniq (cores t) →
  cores t !! p = Some b → b'.(chaddr) = b.(chaddr) → cores t' = <[p := b']> (cores t) →
  mac_uniq (cores t') ∧ table t' = <[b.(chaddr) := b']> (table t).
Proof.
  intros Hu Hp Eb Ec. assert (Hu' : mac_uniq (cores t')).
  { rewrite Ec. intros q r x y.
    destruct (decide (q = p)) as [->|Hq], (decide (r = p)) as [->|Hr];
      rewrite ?lookup_insert_eq, ?lookup_insert_ne by done; try done.
    - intros [= <-] Ey E. eapply Hu; [done|done|congruence].
    - intros Ex [= <-] E. eapply Hu; [done|done|congruence].
    - apply Hu. }
  split; [done|]. apply map_eq. intros mac. apply option_eq. intros x.
  rewrite lookup_table by done. rewrite Ec. destruct (decide (mac = b.(chaddr))) as [->|Hne].
  - rewrite lookup_insert_eq. split.
    + intros (q & Eq & E). destruct (decide (q = p)) as [->|Hq]; [by rewrite lookup_insert_eq in Eq|].
      rewrite lookup_insert_ne in Eq by done. destruct Hq. by eapply Hu.
    + intros [= <-]. exists p. by rewrite lookup_insert_eq.
  - rewrite lookup_insert_ne by done. rewrite lookup_table by done.
    split; intros (q & Eq & E); exists q; (split; [|done]).
    + destruct (decide (q = p)) as [->|Hq]; [rewrite lookup_insert_eq in Eq; congruence|].
      by rewrite lookup_insert_ne in Eq.
    + rewrite lookup_insert_ne; [done|]. intros ->. congruence.
Qed.

Lemma table_filter t t' (P : ITEM A → Prop) `{∀ b, Decision (P b)} :
  mac_uniq (cores t) → cores t' = filter (fun '(_, b) => P b) (cores t) →
  mac_uniq (cores t') ∧ table t' = filter (fun '(_, b) => P b) (table t).
Proof.
  intros Hu Ec. assert (Hu' : mac_uniq (cores t')).
  { rewrite Ec. intros p q x y [Ex _]%map_lookup_filter_Some [Ey _]%map_lookup_filter_Some. by apply Hu. }
  split; [done|]. apply map_eq. intros mac. apply option_eq. intros x.
  rewrite map_lookup_filter_Some, !lookup_table by done. rewrite Ec.
  setoid_rewrite map_lookup_filter_Some. naive_solver.
Qed.

(** What [dhcp_snp_tbl_item_find] returns, on the map. *)
Lemma wp_map_find t ips (u : USER A) (Q : option positive → Prop) :
  tbl_ok t ips → mac_uniq (cores t) →
  (∀ p x, t.(heap) !! p = Some x → table t !! u.(u_chaddr) = Some (core x) → Q (Some p)) →
  (table t !! u.(u_chaddr) = None → Q None) →
  wp (dhcp_snp_tbl_item_find t u) Q.
Proof.
  intros Hok Hu Hs Hn. eapply wp_item_find; [done|..].
  - intros p x Ex E. apply (Hs p x Ex). apply lookup_table; [done|].
    exists p. split; [by apply lookup_cores|by rewrite core_chaddr].
  - intros Hall. apply Hn, table_lookup_None; [done|].
    intros p b (x & Ex & ->)%lookup_cores_inv. rewrite core_chaddr. by apply (Hall p).
Qed.

(** The invariant that both families share. *)
Record map_inv t (ips : gset positive) : Prop := {
  map_tbl : tbl_ok t ips;
  map_mac : mac_uniq (cores t) }.
Definition map_ok t : Prop := ∃ ips, map_inv t ips.

Lemma map_insert c t ips (u : USER A) :
  map_inv t ips → good u.(u_ip_addr) → table t !! u.(u_chaddr) = None →
  let '(t', p) := dhcp_snp_tbl_item_insert c t u in
  (p ∉ ips) ∧ map_inv t' ips ∧ cores t !! p = None ∧ cores t' = <[p := new_core c u]> (cores t) ∧
  table t' = <[u.(u_chaddr) := new_core c u]> (table t).
Proof.
  intros [Hok Hu] Hg Hn. pose proof (item_insert_ok c t ips u Hok Hg) as Hins.
  destruct (dhcp_snp_tbl_item_insert c t u) as [t' p]. destruct Hins as (Hp & Hok' & Ec).
  assert (Hpn : cores t !! p = None) by (apply not_elem_of_dom; by rewrite cores_dom).
  destruct (table_insert_new t t' p (new_core c u) Hu Hpn Hn Ec) as [Hu' Et].
  split_and!; [intros Hi; apply Hp; by apply (ip_ok _ _ Hok)|by split|done..].
Qed.

Lemma wp_map_delete t p x (Q : TBL A * Z → Prop) :
  map_ok t → t.(heap) !! p = Some x →
  (∀ t', map_ok t' → table t' = delete x.(chaddr) (table t) → Q (t', DHCP_SNP_RETURN_CODE_OK)) →
  wp (dhcp_snp_tbl_item_delete t p) Q.
Proof.
  intros (ips & Hok & Hu) Ex HQ. eapply wp_item_delete; [exact Hok|by eexists|]. intros t' Hok' Ec.
  destruct (table_delete t t' p (core x) Hu (lookup_cores _ _ _ Ex) Ec) as [Hu' Et].
  apply HQ; [by exists (ips ∖ {[p]})|]. by rewrite Et, core_chaddr.
Qed.
End Map.

(** ** The invariant of the IPv4 table *)

Implicit Types (t : TBL Z) (b : ITEM Z) (m : gmap positive (ITEM Z)) (mac : list Z).

(** A binding the IP hash should hold. *)
Definition bound b : Prop := b.(state) = NPD_DHCP_SNP_BIND_STATE_BOUND ∧ b.(ip_addr) ≠ 0.
#[export] Instance bound_dec b : Decision (bound b).
Proof. unfold bound. apply _. Defined.

Definition ip_uniq m : Prop :=
  ∀ p q b b', m !! p = Some b → m !! q = Some b' → bound b → bound b' →
    b.(ip_addr) = b'.(ip_addr) → p = q.

(** The addresses the daemon has bound are addresses it accepts. *)
Definition valid_bound b : Prop :=
  b.(state) = NPD_DHCP_SNP_BIND_STATE_BOUND → b.(bind_type) ≠ NPD_DHCP_SNP_BIND_TYPE_STATIC → dhcp_snp_u32ip_check b.(ip_addr) = 0.
Definition all_valid m : Prop := ∀ p b, m !! p = Some b → valid_bound b.

(** The table with its IP hash apart. *)
Record v4_inv t (ips : gset positive) : Prop := {
  inv_tbl : tbl_ok t ips;
  inv_ips : ∀ p b, cores t !! p = Some b → p ∈ ips ↔ bound b;
  inv_mac : mac_uniq (cores t);
  inv_ip : ip_uniq (cores t);
  inv_valid : all_valid (cores t) }.

Definition v4_ok t : Prop := ∃ ips, v4_inv t ips.

(** ** The invariant under the operations of the table *)

Lemma v4_empty : v4_inv (mkTbl ∅ ∅ ∅) ∅.
Proof.
  split; [apply tbl_ok_empty|..].
  - intros p b; unfold cores; simpl. by rewrite fmap_empty, lookup_empty.
  - intros p q b b'; unfold cores; simpl. by rewrite fmap_empty, lookup_empty.
  - intros p q b b'; unfold cores; simpl. by rewrite fmap_empty, lookup_empty.
  - intros p b; unfold cores; simpl. by rewrite fmap_empty, lookup_empty.
Qed.

Lemma v4_delete t t' ips p : v4_inv t ips →
  tbl_ok t' (ips ∖ {[p]}) → cores t' = delete p (cores t) → v4_inv t' (ips ∖ {[p]}).
Proof.
  intros Hinv Hok Ec. split; [done|..]; rewrite Ec.
  - intros q b [Hq Eq]%lookup_delete_Some. rewrite elem_of_difference, elem_of_singleton.
    rewrite (inv_ips t ips Hinv q b Eq). naive_solver.
  - intros q r x y [_ Ex]%lookup_delete_Some [_ Ey]%lookup_delete_Some. by eapply (inv_mac t ips).
  - intros q r x y [_ Ex]%lookup_delete_Some [_ Ey]%lookup_delete_Some. by eapply (inv_ip t ips).
  - intros q x [_ Ex]%lookup_delete_Some. by eapply (inv_valid t ips).
Qed.

Lemma wp_table_find t ips (u : USER Z) (Q : option positive → Prop) :
  v4_inv t ips →
  (∀ p x, t.(heap) !! p = Some x → table t !! u.(u_chaddr) = Some (core x) → Q (Some p)) →
  (table t !! u.(u_chaddr) = None → Q None) →
  wp (dhcp_snp_tbl_item_find t u) Q.
Proof. intros Hinv. eapply wp_map_find; apply Hinv. Qed.

(** [dhcp_snp_tbl_item_find_by_ip] finds the binding that is bound to the
    address. *)
Lemma wp_table_find_ip t ips a (Q : option positive → Prop) :
  v4_inv t ips →
  (∀ p x, t.(heap) !! p = Some x → p ∈ ips → bound (core x) → x.(ip_addr) = a → Q (Some p)) →
  ((∀ p b, cores t !! p = Some b → bound b → b.(ip_addr) ≠ a) → Q None) →
  wp (dhcp_snp_tbl_item_find_by_ip t a) Q.
Proof.
  intros Hinv Hs Hn. eapply wp_find_by_ip; [apply Hinv|done|..].
  - intros p x Hp Ex [_ [= E%Z.eqb_eq]] _. apply (Hs p x Ex Hp); [|done].
    by apply (inv_ips t ips Hinv p); [apply lookup_cores|].
  - intros Hall. apply Hn. intros p b (x & Ex & ->)%lookup_cores_inv Hb. rewrite core_ip_addr. intros <-.
    eapply (Hall p x); [|done|].
    + by apply (inv_ips t ips Hinv p (core x)); [apply lookup_cores|].
    + split; [done|]. simpl. by rewrite Z.eqb_refl.
Qed.
