(* ===== verification/DhcpBind.v ===== *)
(** * Binding an address

    [dhcp_snp_tbl_refresh_bind] on the finite map: the bindings of other clients
    that hold the address go ([spec_bind]), and the client's is rewritten.  It
    stops early, with the table as it was, only for an address that is not
    acceptable or when the kernel refuses ([kernel_ok] fails). *)

From Stdlib Require Import ZArith Lia.
From stdpp Require Import base gmap list option fin_maps.
From S2P Require Import Prelude Chain DhcpTbl DhcpUnres DhcpSnp DhcpTable.

Implicit Types (t : TBL Z) (b x : ITEM Z) (u : USER Z) (s : SNP) (node : LISTENER).
Implicit Types m : gmap positive (ITEM Z).

(** The kernel accepts what it is asked, and every interface has a name. *)
Definition kernel_ok (env : ENV) : Prop :=
  env.(netlink_init) = DHCP_SNP_RETURN_CODE_OK ∧ env.(sendmsg_ok) = true ∧
  ∀ i, is_Some (env.(if_indextoname) i).

(** Nothing but the record of effects has changed, or that and the IPv4 table. *)
Definition only_trace s s' : Prop := s' = s <| trace := s'.(trace) |>.
Definition only_v4 s s' : Prop := s' = s <| v4 := s'.(v4) |> <| trace := s'.(trace) |>.

Lemma only_trace_refl s : only_trace s s.
Proof. by destruct s. Qed.
Lemma only_trace_trans s1 s2 s3 : only_trace s1 s2 → only_trace s2 s3 → only_trace s1 s3.
Proof. unfold only_trace. intros E1 E2. rewrite E1 in E2. rewrite E2. by destruct s1. Qed.
Lemma only_trace_emit e s : only_trace s (snp_emit e s).
Proof. by destruct s. Qed.
Lemma only_trace_v4 s s' : only_trace s s' → s'.(v4) = s.(v4).
Proof. unfold only_trace. intros ->. by destruct s. Qed.
Lemma only_v4_refl s : only_v4 s s.
Proof. by destruct s. Qed.
Lemma only_v4_trans s1 s2 s3 : only_v4 s1 s2 → only_v4 s2 s3 → only_v4 s1 s3.
Proof. unfold only_v4. intros E1 E2. rewrite E1 in E2. rewrite E2. by destruct s1. Qed.
Lemma only_trace_only_v4 s s' : only_trace s s' → only_v4 s s'.
Proof. unfold only_trace, only_v4. intros ->. by destruct s. Qed.
Lemma only_v4_put s t : only_v4 s (s <| v4 := t |>).
Proof. by destruct s. Qed.
#[export] Hint Resolve only_trace_refl only_trace_emit only_v4_refl only_v4_put : stp.

(** ** The kernel's tables *)

Section Kernel.
Variable env : ENV.

Lemma ipneigh_only_trace add i ip mac s : only_trace s (fst (dhcp_snp_netlink_do_ipneigh env add i ip mac s)).
Proof.
  unfold dhcp_snp_netlink_do_ipneigh. destruct (negb _); simpl; auto with stp.
  destruct (negb _); simpl; auto with stp. destruct (if_indextoname env i); simpl; auto with stp.
  destruct (negb _); simpl; auto with stp. destruct (sendmsg_ok env); simpl; auto with stp.
Qed.

Lemma route_only_trace add i ip s : only_trace s (fst (dhcp_snp_netlink_add_static_route env add i ip s)).
Proof.
  unfold dhcp_snp_netlink_add_static_route. destruct (negb _); simpl; auto with stp.
  destruct (if_indextoname env i); simpl; auto with stp.
  destruct (negb _); simpl; auto with stp. destruct (sendmsg_ok env); simpl; auto with stp.
Qed.

Lemma ipneigh_ok add i ip mac s : kernel_ok env → dhcp_snp_u32ip_check ip = 0 →
  snd (dhcp_snp_netlink_do_ipneigh env add i ip mac s) = DHCP_SNP_RETURN_CODE_OK.
Proof.
  intros (Hn & Hs & Hi) Hip. unfold dhcp_snp_netlink_do_ipneigh. rewrite Hn, Hs, Hip; simpl.
  destruct (dhcpsnp_ipneigh_on s); simpl; [|done]. by destruct (Hi i) as [? ->].
Qed.

Lemma forget_old_spec x node s :
  let '(s', ret) := forget_old env x node s in
  only_trace s s' ∧
  (kernel_ok env → (cpu_bound x = true → dhcp_snp_u32ip_check x.(ip_addr) = 0) → ret = None) ∧
  (∀ r, ret = Some r → r ≠ DHCP_SNP_RETURN_CODE_OK).
Proof.
  unfold forget_old.
  pose proof (ipneigh_only_trace false x.(ifindex) x.(ip_addr) x.(chaddr) s) as T1.
  pose proof (ipneigh_ok false x.(ifindex) x.(ip_addr) x.(chaddr) s) as O1.
  destruct (dhcp_snp_netlink_do_ipneigh env false x.(ifindex) x.(ip_addr) x.(chaddr) s) as [s1 r1].
  simpl in *. destruct (cpu_bound x); rewrite ?andb_false_r, ?andb_true_r; [|by split_and!; auto with stp].
  assert (Hroute : ∀ s0, only_trace s s0 → let '(s', ret) :=
    (if negb (add_router node =? 0) then
       match if_indextoname env x.(ifindex) with
       | Some _ => (fst (dhcp_snp_netlink_add_static_route env false x.(ifindex) x.(ip_addr) s0), None)
       | None => (s0, Some DHCP_SNP_RETURN_CODE_ERROR)
       end else (s0, None)) in
    only_trace s s' ∧
    (kernel_ok env → (true = true → dhcp_snp_u32ip_check x.(ip_addr) = 0) → ret = None) ∧
    (∀ r, ret = Some r → r ≠ DHCP_SNP_RETURN_CODE_OK)).
  { intros s0 T0. destruct (negb _); [|by split_and!].
    destruct (if_indextoname env (ifindex x)) eqn:Ei; split_and!; try done.
    - eapply only_trace_trans; [done|apply route_only_trace].
    - intros (_ & _ & Hi). destruct (Hi x.(ifindex)); congruence.
    - by intros r [= <-]. }
  destruct (negb (no_arp node =? 0)); [|by apply Hroute; auto with stp].
  destruct (Z.eqb_spec r1 DHCP_SNP_RETURN_CODE_OK) as [->|Hr]; simpl; [by apply Hroute|].
  split_and!; [done|intros Hk Hv; by destruct Hr; apply O1; auto|by intros r [= <-]].
Qed.

Lemma announce_new_spec x node s :
  let '(s', ret) := announce_new env x node s in
  only_trace s s' ∧ (kernel_ok env → dhcp_snp_u32ip_check x.(ip_addr) = 0 → ret = DHCP_SNP_RETURN_CODE_OK).
Proof.
  unfold announce_new.
  pose proof (ipneigh_only_trace true x.(ifindex) x.(ip_addr) x.(chaddr) s) as T1.
  pose proof (ipneigh_ok true x.(ifindex) x.(ip_addr) x.(chaddr) s) as O1.
  destruct (dhcp_snp_netlink_do_ipneigh env true x.(ifindex) x.(ip_addr) x.(chaddr) s) as [s1 r1].
  simpl in *.
  assert (Hroute : ∀ s0, only_trace s s0 → let '(s', ret) :=
    (if negb (add_router node =? 0) && cpu_bound x then
       match if_indextoname env x.(ifindex) with
       | Some _ => (fst (dhcp_snp_netlink_add_static_route env true x.(ifindex) x.(ip_addr) s0),
                    DHCP_SNP_RETURN_CODE_OK)
       | None => (s0, DHCP_SNP_RETURN_CODE_ERROR)
       end else (s0, DHCP_SNP_RETURN_CODE_OK)) in
    only_trace s s' ∧ (kernel_ok env → dhcp_snp_u32ip_check x.(ip_addr) = 0 → ret = DHCP_SNP_RETURN_CODE_OK)).
  { intros s0 T0. destruct (_ && _); [|by split_and!].
    destruct (if_indextoname env (ifindex x)) eqn:Ei; split_and!; try done.
    - eapply only_trace_trans; [done|apply route_only_trace].
    - intros (_ & _ & Hi). destruct (Hi x.(ifindex)); congruence. }
  destruct (_ && (0xFFFF =? _)); [|by apply Hroute; auto with stp].
  destruct (Z.eqb_spec r1 DHCP_SNP_RETURN_CODE_OK) as [->|Hr]; simpl.
  - apply Hroute. eapply only_trace_trans; [done|apply only_trace_emit].
  - split; [done|]. intros Hk Hv. by destruct Hr; apply O1.
Qed.
End Kernel.

(** ** The specification *)

(** The bindings of other clients that hold the address of [u]. *)
Definition evicted u b : Prop := bound b ∧ b.(ip_addr) = u.(u_ip_addr) ∧ b.(chaddr) ≠ u.(u_chaddr).
#[export] Instance evicted_dec u b : Decision (evicted u b).
Proof. unfold evicted. apply _. Defined.

Definition spec_bind (c : CLOCK) u (m : gmap (list Z) (ITEM Z)) : gmap (list Z) (ITEM Z) :=
  match m !! u.(u_chaddr) with
  | None => m
  | Some b =>
      <[u.(u_chaddr) := dhcp_snp_tbl_fill_bind c u b]> (filter (fun '(_, b) => ¬ evicted u b) m)
  end.

(** ** Eviction *)

Section Evict.
Variable env : ENV.

(** While a binding [p0] is being rewritten, the IP hash may lack it. *)
Record during t (p0 : positive) (ips : gset positive) : Prop := {
  dur_tbl : tbl_ok t ips;
  dur_ips : ∀ p b, p ≠ p0 → cores t !! p = Some b → p ∈ ips ↔ bound b;
  dur_mac : mac_uniq (cores t);
  dur_ip : ip_uniq (cores t);
  dur_valid : all_valid (cores t) }.

Lemma v4_during t p0 ips : v4_inv t ips → during t p0 ips.
Proof. intros [Hok Hips Hm Hi Hv]. split; eauto. Qed.

Lemma during_drop t t' p0 ips :
  during t p0 ips → tbl_ok t' (ips ∖ {[p0]}) → cores t' = cores t → during t' p0 (ips ∖ {[p0]}).
Proof.
  intros [Hok Hips Hm Hi Hv] Hok' Ec. split; rewrite ?Ec; try done.
  intros p b Hp Eb. rewrite <- (Hips p b Hp Eb). set_solver.
Qed.

(** No other binding holds the address any more. *)
Definition alone t (p0 : positive) (a : Z) : Prop :=
  ∀ p b, cores t !! p = Some b → p ≠ p0 → bound b → b.(ip_addr) ≠ a.

(** After the loop: the others with the address are gone from [cores]. *)
Definition evict_post u (p0 : positive) s s' : Prop :=
  only_v4 s s' ∧
  ∃ ips', during s'.(v4) p0 ips' ∧ alone s'.(v4) p0 u.(u_ip_addr) ∧
    cores s'.(v4) = filter (fun '(_, b) => ¬ evicted u b) (cores s.(v4)).

Lemma filter_none u m : (∀ p b, m !! p = Some b → ¬ evicted u b) →
  filter (fun '(_, b) => ¬ evicted u b) m = m.
Proof. intros Hn. apply map_filter_id. intros p b Eb. by apply Hn in Eb. Qed.

Lemma filter_one u m p b : (∀ q b', m !! q = Some b' → evicted u b' → q = p) →
  m !! p = Some b → evicted u b →
  filter (fun '(_, b) => ¬ evicted u b) m = delete p m.
Proof.
  intros Hu Hp He. apply map_eq. intros q. apply option_eq. intros y.
  rewrite map_lookup_filter_Some, lookup_delete_Some. split.
  - intros [Ey Hy]. split; [|done]. intros ->. congruence.
  - intros [Hq Ey]. split; [done|]. intros Hy. apply Hq. symmetry. by eapply Hu.
Qed.

(** The loop when nothing is left to find: one more look. *)
Lemma wp_evict_done u node fuel s ips (Q : SNP * option Z → Prop) :
  tbl_ok s.(v4) ips →
  (∀ p b, p ∈ ips → cores s.(v4) !! p = Some b → b.(ip_addr) ≠ u.(u_ip_addr)) → Q (s, None) →
  wp (evict_loop env (S fuel) u node s) Q.
Proof.
  intros Hd Ha HQ. simpl. apply wp_bind. eapply wp_find_by_ip; [done|done|..].
  - intros p x Hp Ex [_ [= E%Z.eqb_eq]] _. exfalso.
    apply (Ha p (core x) Hp); [by apply lookup_cores|by rewrite core_ip_addr].
  - intros _. exact HQ.
Qed.

Lemma evict_kernel node x s :
  let r := (if negb (node.(add_router) =? 0) && cpu_bound x then
      match env.(if_indextoname) x.(ifindex) with
      | None => (s, Some DHCP_SNP_RETURN_CODE_ERROR)
      | Some _ => (fst (dhcp_snp_netlink_add_static_route env false x.(ifindex) x.(ip_addr) s), None)
      end
    else (s, None)) in
  only_trace s (fst r) ∧
  (∀ c, snd r = Some c → c ≠ DHCP_SNP_RETURN_CODE_OK ∧ ¬ kernel_ok env ∧ fst r = s).
Proof.
  simpl. destruct (_ && _); [|by split; [auto with stp|]].
  destruct (if_indextoname env (ifindex x)) eqn:Ei; simpl; (split; [auto using route_only_trace with stp|]).
  - done.
  - intros c [= <-]. split_and!; [done| |done]. intros (_ & _ & Hi). destruct (Hi x.(ifindex)); congruence.
Qed.

Section EvictLoop.
Variables (u : USER Z) (node : LISTENER) (s : SNP) (p0 : positive) (ips : gset positive) (x0 : ITEM Z).
Hypothesis Hinv : v4_inv s.(v4) ips.
Hypothesis Ex0 : s.(v4).(heap) !! p0 = Some x0.
Hypothesis Emac : x0.(chaddr) = u.(u_chaddr).

Lemma own_mac q b : cores s.(v4) !! q = Some b → b.(chaddr) = u.(u_chaddr) → q = p0.
Proof.
  intros Eb E. eapply (inv_mac _ _ Hinv); [done|by apply lookup_cores|]. by rewrite core_chaddr, E.
Qed.

(** The client itself holds the address: its binding only leaves the IP hash. *)
Lemma evict_own p x t' :
  s.(v4).(heap) !! p = Some x → bound (core x) → x.(ip_addr) = u.(u_ip_addr) →
  x.(chaddr) = u.(u_chaddr) → tbl_ok t' (ips ∖ {[p]}) → cores t' = cores s.(v4) →
  evict_post u p0 s (s <| v4 := t' |>) ∧
  ∀ q b, q ∈ ips ∖ {[p]} → cores t' !! q = Some b → b.(ip_addr) ≠ u.(u_ip_addr).
Proof.
  intros Ex Hb Ea Em Hok' Ec.
  assert (p = p0) as -> by (eapply own_mac; [by apply lookup_cores|by rewrite core_chaddr]).
  assert (Hothers : ∀ q b, cores s.(v4) !! q = Some b → bound b → b.(ip_addr) = u.(u_ip_addr) → q = p0).
  { intros q b Eb Hbb E. eapply (inv_ip _ _ Hinv); [done|by apply lookup_cores|done|done|].
    by rewrite core_ip_addr, E. }
  split; [split; [apply only_v4_put|]|].
  - exists (ips ∖ {[p0]}). simpl. split_and!.
    + eapply during_drop; [by apply v4_during|done|done].
    + intros q b. rewrite Ec. intros Eb Hq Hbb E. apply Hq. by eapply Hothers.
    + rewrite Ec. symmetry. apply filter_none. intros q b Eb (Hbb & E & Hne).
      apply Hne. rewrite (Hothers q b Eb Hbb E) in Eb.
      pose proof (lookup_cores _ _ _ Ex0). assert (b = core x0) as -> by congruence.
      by rewrite core_chaddr.
  - intros q b [Hq Hq']%elem_of_difference. rewrite Ec. intros Eb E. apply Hq', elem_of_singleton.
    eapply Hothers; [done| |done]. by apply (inv_ips _ _ Hinv q b Eb).
Qed.

(** Another client holds it: its binding is deleted. *)
Lemma evict_other p x s1 t' :
  s.(v4).(heap) !! p = Some x → bound (core x) → x.(ip_addr) = u.(u_ip_addr) →
  x.(chaddr) ≠ u.(u_chaddr) → only_trace s s1 →
  tbl_ok t' (ips ∖ {[p]}) → cores t' = delete p (cores s.(v4)) →
  evict_post u p0 s (s1 <| v4 := t' |>) ∧
  ∀ q b, q ∈ ips ∖ {[p]} → cores t' !! q = Some b → b.(ip_addr) ≠ u.(u_ip_addr).
Proof.
  intros Ex Hb Ea Em Ht Hok' Ec. pose proof (v4_delete _ _ _ p Hinv Hok' Ec) as Hinv'.
  pose proof (lookup_cores _ _ _ Ex) as Ex'.
  assert (Hothers : ∀ q b, cores s.(v4) !! q = Some b → bound b → b.(ip_addr) = u.(u_ip_addr) → q = p).
  { intros q b Eb Hbb E. eapply (inv_ip _ _ Hinv); [done|done|done|done|]. by rewrite core_ip_addr, E. }
  assert (Hal : ∀ q b, cores t' !! q = Some b → bound b → b.(ip_addr) ≠ u.(u_ip_addr)).
  { intros q b. rewrite Ec. intros [Hq Eb]%lookup_delete_Some Hbb E. apply Hq. symmetry.
    by eapply Hothers. }
  split; [split|].
  - eapply only_v4_trans; [by apply only_trace_only_v4|apply only_v4_put].
  - exists (ips ∖ {[p]}). simpl. split_and!; [by apply v4_during|intros q b Eb _; by apply (Hal q b)|].
    rewrite Ec. symmetry. eapply filter_one; [|exact Ex'|].
    + intros q b Eb (Hbb & E & _). by eapply (Hothers q b).
    + split_and!; [done|by rewrite core_ip_addr|by rewrite core_chaddr].
  - intros q b Hq Eb. apply (Hal q b Eb). by apply (inv_ips _ _ Hinv' q b Eb).
Qed.

Lemma wp_evict_loop (Q : SNP * option Z → Prop) :
  (¬ kernel_ok env → ∀ r, r ≠ DHCP_SNP_RETURN_CODE_OK → Q (s, Some r)) →
  (∀ s', evict_post u p0 s s' → Q (s', None)) →
  wp (evict_loop env (turns s.(v4)) u node s) Q.
Proof.
  intros Herr HQ. unfold turns.
  destruct (size s.(v4).(heap)) as [|n] eqn:Esz.
  { apply map_size_empty_inv in Esz. rewrite Esz in Ex0. by rewrite lookup_empty in Ex0. }
  cbn [evict_loop]. apply wp_bind. eapply wp_table_find_ip; [done|..].
  - intros p x Ex Hp Hb Ea. apply wp_bind. unfold evict, get_item. rewrite Ex. cbn [deref obind].
    destruct (decide (x.(chaddr) = u.(u_chaddr))) as [Em|Em].
    + rewrite bool_decide_true by done. cbn [negb]. apply wp_bind. unfold in_v4. apply wp_bind.
      eapply wp_delete_iphash; [apply Hinv|by eexists|]. intros t' ret Hok' Ec _. cbn [wp].
      destruct (evict_own p x t' Ex Hb Ea Em Hok' Ec) as [Hpost Hal].
      eapply (wp_evict_done u node n (s <| v4 := t' |>)); [exact Hok'|exact Hal|by apply HQ].
    + rewrite bool_decide_false by done. cbn [negb].
      pose proof (evict_kernel node x s) as Hr. cbv zeta in Hr.
      destruct (if negb (add_router node =? 0) && cpu_bound x then _ else _) as [s1 [c|]];
        simpl in Hr; destruct Hr as [Ht Hr].
      { destruct (Hr c eq_refl) as (Hc & Hk & ->). by apply Herr. }
      apply wp_bind. unfold in_v4. apply wp_bind. rewrite (only_trace_v4 _ _ Ht).
      eapply wp_item_delete; [apply Hinv|by eexists|]. intros t' Hok' Ec. cbn [wp].
      destruct (evict_other p x s1 t' Ex Hb Ea Em Ht Hok' Ec) as [Hpost Hal].
      eapply (wp_evict_done u node n (s1 <| v4 := t' |>)); [exact Hok'|exact Hal|by apply HQ].
  - intros Hnone. apply HQ. split; [apply only_v4_refl|]. exists ips.
    split_and!; [by apply v4_during|intros q b Eb _ Hbb; by apply (Hnone q b)|].
    symmetry. apply filter_none. intros q b Eb (Hbb & E & _). by apply (Hnone q b).
Qed.
End EvictLoop.
End Evict.

(** ** The binding is rewritten *)

Section Rewrite.
Variable env : ENV.
Variables (u : USER Z) (p0 : positive).
Hypothesis Hstate : u.(u_state) = NPD_DHCP_SNP_BIND_STATE_BOUND.
Hypothesis Hip : u.(u_ip_addr) ≠ 0.
Hypothesis Hvalid : dhcp_snp_u32ip_check u.(u_ip_addr) = 0.

Let fill := dhcp_snp_tbl_fill_bind env.(clock) u.

Lemma bound_fill b : bound (fill b).
Proof.
  destruct (fill_bind_fields env.(clock) u b) as (_ & Ei & Es & _). split; unfold fill; congruence.
Qed.

(** The second half of the function, from the deletion in the IP hash. *)
Lemma during_fill t ips b :
  during t p0 ips → alone t p0 u.(u_ip_addr) → cores t !! p0 = Some b →
  ∀ t' ips', tbl_ok t' ips' → cores t' = <[p0 := fill b]> (cores t) →
  (∀ q, q ∈ ips' → is_Some (cores t' !! q)) →
  (∀ q y, q ≠ p0 → cores t !! q = Some y → q ∈ ips' ↔ q ∈ ips) → p0 ∈ ips' →
  v4_inv t' ips' ∧ table t' = <[b.(chaddr) := fill b]> (table t).
Proof.
  intros Hd Ha Eb t' ips' Hok Ec _ Hips Hp0.
  destruct (fill_bind_fields env.(clock) u b) as (Em & Ei & Es & _ & _ & Et).
  destruct (table_update t t' p0 b (fill b) (dur_mac _ _ _ Hd) Eb Em Ec) as [Hu Etab].
  split; [|done]. split; [done| |done|..]; rewrite Ec.
  - intros q y. destruct (decide (q = p0)) as [->|Hq].
    + rewrite lookup_insert_eq. intros [= <-]. split; [intros _; apply bound_fill|done].
    + rewrite lookup_insert_ne by done. intros Ey. rewrite (Hips q y Hq Ey). by apply (dur_ips _ _ _ Hd).
  - intros q r x y. destruct (decide (q = p0)) as [->|Hq], (decide (r = p0)) as [->|Hr];
      rewrite ?lookup_insert_eq, ?lookup_insert_ne by done; try done.
    + intros [= <-] Ey _ Hb E. destruct (Ha r y Ey Hr Hb). by rewrite <- E, <- Ei.
    + intros Ex [= <-] Hb _ E. destruct (Ha q x Ex Hq Hb). by rewrite E, <- Ei.
    + apply (dur_ip _ _ _ Hd).
  - intros q y. destruct (decide (q = p0)) as [->|Hq].
    + rewrite lookup_insert_eq. intros [= <-] _ _. unfold fill. by rewrite Ei.
    + rewrite lookup_insert_ne by done. apply (dur_valid _ _ _ Hd).
Qed.

Lemma wp_fill_insert t ips x (Q : TBL Z → Prop) :
  during t p0 ips → alone t p0 u.(u_ip_addr) → p0 ∉ ips → t.(heap) !! p0 = Some x →
  (∀ t' ips' x', v4_inv t' ips' → table t' = <[x.(chaddr) := fill (core x)]> (table t) →
     t'.(heap) !! p0 = Some x' → core x' = fill (core x) → Q t') →
  wp (dhcp_snp_tbl_item_insert_ip_hash (put_item t p0 (fill x)) p0) Q.
Proof.
  intros Hd Ha Hp0 Ex HQ.
  destruct (fill_bind_fields env.(clock) u x) as (Em & Ei & Es & En & Ein & _).
  destruct (tbl_ok_put t ips p0 x (fill x) (dur_tbl _ _ _ Hd) Ex En Ein Em I (or_intror Hp0)) as [Hok Ec].
  eapply wp_insert_ip_hash; [exact Hok|by simpl; rewrite lookup_insert_eq|..].
  { intros [= E%Z.eqb_eq]. destruct Hip. unfold fill in E. congruence. }
  intros _ t' ips' Hok' Ec' Hips. simpl in Hips.
  assert (Ecf : cores t' = <[p0 := fill (core x)]> (cores t)).
  { rewrite Ec', Ec. f_equal. apply fill_bind_core. }
  assert (Hin : p0 ∈ ips') by (apply (Hips p0 (fill x)); [by rewrite lookup_insert_eq|by left]).
  assert (Hfin : v4_inv t' ips' ∧ table t' = <[(core x).(chaddr) := fill (core x)]> (table t)).
  { eapply during_fill; [done|done|by apply lookup_cores|done|exact Ecf|..|done].
    - intros q Hq. apply elem_of_dom. rewrite cores_dom.
      destruct (mac_ok _ _ Hok') as [_ _]. by apply (ip_ok _ _ Hok').
    - intros q y Hq (z & Ez & ->)%lookup_cores_inv.
      rewrite (Hips q z) by by rewrite lookup_insert_ne. split; [intros [?|[? _]]; done|].
      intros Hq'. right. split; [done|]. intros [_ [= E%Z.eqb_eq]].
      pose proof (lookup_cores _ _ _ Ez) as Ez'.
      apply (Ha q (core z) Ez' Hq); [by apply (dur_ips _ _ _ Hd q _ Hq Ez')|].
      rewrite core_ip_addr, E. exact Ei. }
  destruct Hfin as [Hinv Etab]. rewrite core_chaddr in Etab.
  assert (Ep : cores t' !! p0 = Some (fill (core x))) by (rewrite Ecf; apply lookup_insert_eq).
  apply lookup_cores_inv in Ep as (x' & Ex' & E). by eapply HQ.
Qed.

Hint Resolve only_trace_only_v4 : stp.

(** The function from the point where the binding has left the IP hash. *)
Definition rewrite_rest (node : LISTENER) s : outcome (SNP * Z) :=
  let* x := get_item s.(v4) p0 in
  let x := fill x in
  let s := s <| v4 := put_item s.(v4) p0 x |> in
  let* t := if negb (x.(ip_addr) =? 0) then dhcp_snp_tbl_item_insert_ip_hash s.(v4) p0
            else Done s.(v4) in
  let s := s <| v4 := t |> in
  let* x := get_item s.(v4) p0 in
  Done (announce_new env x node s).

Lemma wp_rewrite_rest node s ips x (Q : SNP * Z → Prop) :
  during s.(v4) p0 ips → alone s.(v4) p0 u.(u_ip_addr) → p0 ∉ ips → s.(v4).(heap) !! p0 = Some x →
  (∀ s' r x', only_v4 s s' → v4_ok s'.(v4) →
     table s'.(v4) = <[x.(chaddr) := fill (core x)]> (table s.(v4)) →
     s'.(v4).(heap) !! p0 = Some x' → core x' = fill (core x) →
     (kernel_ok env → r = DHCP_SNP_RETURN_CODE_OK) → Q (s', r)) →
  wp (rewrite_rest node s) Q.
Proof.
  intros Hd Ha Hp Ex HQ. unfold rewrite_rest.
  change (get_item (v4 s) p0) with (deref ((v4 s).(heap) !! p0)). rewrite Ex. cbn [deref obind].
  destruct (fill_bind_fields env.(clock) u x) as (_ & Ei & _).
  replace (negb (ip_addr (fill x) =? 0)) with true
    by (symmetry; unfold fill; rewrite Ei; apply negb_true_iff, Z.eqb_neq, Hip).
  apply wp_bind. eapply (wp_fill_insert s.(v4) ips x); [done|done|done|done|].
  intros t' ips' x' Hinv' Et' Ex' Ec'. apply wp_bind.
  change (get_item _ p0) with (deref (t'.(heap) !! p0)). rewrite Ex'. cbn [deref wp].
  change (s <| v4 := put_item (v4 s) p0 (fill x) |> <| v4 := t' |>) with (s <| v4 := t' |>).
  pose proof (announce_new_spec env x' node (s <| v4 := t' |>)) as Hann.
  destruct (announce_new env x' node (s <| v4 := t' |>)) as [s' r]. destruct Hann as (Ht & Hk).
  pose proof (only_trace_v4 _ _ Ht) as Ev; simpl in Ev.
  apply (HQ s' r x'); rewrite ?Ev; [|by exists ips'|done..|].
  - eapply only_v4_trans; [apply only_v4_put|eauto with stp].
  - intros Hkok. apply Hk; [done|]. rewrite <- (core_ip_addr x'), Ec'. unfold fill.
    by destruct (fill_bind_fields env.(clock) u (core x)) as (_ & -> & _).
Qed.

(** [dhcp_snp_tbl_refresh_bind] for the binding [p0] of the client. *)
Lemma wp_refresh_bind node s ips x (Q : SNP * Z → Prop) :
  v4_inv s.(v4) ips → s.(v4).(heap) !! p0 = Some x → x.(chaddr) = u.(u_chaddr) →
  x.(bind_type) ≠ NPD_DHCP_SNP_BIND_TYPE_STATIC →
  (¬ kernel_ok env → ∀ s' r, only_trace s s' → r ≠ DHCP_SNP_RETURN_CODE_OK → Q (s', r)) →
  (∀ s' r x', only_v4 s s' → v4_ok s'.(v4) → table s'.(v4) = spec_bind env.(clock) u (table s.(v4)) →
     s'.(v4).(heap) !! p0 = Some x' → core x' = fill (core x) →
     (kernel_ok env → r = DHCP_SNP_RETURN_CODE_OK) → Q (s', r)) →
  wp (dhcp_snp_tbl_refresh_bind env u p0 node s) Q.
Proof.
  intros Hinv Ex Emac Edyn Herr HQ. unfold dhcp_snp_tbl_refresh_bind. rewrite Hvalid.
  change (negb (0 =? 0)) with false. cbv iota.
  change (get_item (v4 s) p0) with (deref ((v4 s).(heap) !! p0)). rewrite Ex. cbn [deref obind].
  pose proof (forget_old_spec env x node s) as Hf.
  destruct (forget_old env x node s) as [s1 [r|]]; destruct Hf as (Ht & Hk & Hr).
  { apply Herr; [|done|by apply Hr]. intros Hkok. discriminate Hk; [done|].
    intros Hcpu. pose proof (inv_valid _ _ Hinv p0 (core x) (lookup_cores _ _ _ Ex)) as Hv.
    unfold cpu_bound in Hcpu. bool_facts. by destruct x; apply Hv. }
  apply wp_bind. replace (negb (u.(u_ip_addr) =? 0)) with true
    by (symmetry; apply negb_true_iff, Z.eqb_neq, Hip).
  assert (Hinv1 : v4_inv s1.(v4) ips) by by rewrite (only_trace_v4 _ _ Ht).
  assert (Ex1 : s1.(v4).(heap) !! p0 = Some x) by by rewrite (only_trace_v4 _ _ Ht).
  eapply (wp_evict_loop env u node s1 p0 ips x); [done|done|done|..].
  { intros Hnk r Hr'. by apply Herr. }
  intros s2 (Hv2 & ips2 & Hd2 & Ha2 & Ec2). cbv beta iota.
  assert (E2 : cores s2.(v4) !! p0 = Some (core x)).
  { rewrite Ec2. apply map_lookup_filter_Some. split; [by apply lookup_cores|].
    intros (_ & _ & Hne). apply Hne. by rewrite core_chaddr. }
  destruct (lookup_cores_inv _ _ _ E2) as (x2 & Ex2 & Ecx).
  change (get_item (v4 s2) p0) with (deref ((v4 s2).(heap) !! p0)). rewrite Ex2. cbn [deref obind].
  apply wp_bind.
  (* what the rest does is the rewriting of the specification *)
  assert (Hrest : ∀ s3 ips3, only_v4 s2 s3 → during s3.(v4) p0 ips3 → p0 ∉ ips3 →
    cores s3.(v4) = cores s2.(v4) → wp (rewrite_rest node s3) Q).
  { intros s3 ips3 Hv3 Hd3 Hp3 Ec3. destruct (cores_same _ _ p0 x2 Ec3 Ex2) as (x3 & Ex3 & Ecx3).
    apply (wp_rewrite_rest node s3 ips3 x3); [done| |done|done|].
    { intros p b. rewrite Ec3. apply Ha2. }
    rewrite Ecx3, <- Ecx. intros s' r x' Hv' Hok' Et' Ex' Ec' Hk'.
    apply (HQ s' r x'); [|done| |done..].
    { eapply only_v4_trans; [by apply only_trace_only_v4|]. eapply only_v4_trans; [done|].
      by eapply only_v4_trans. }
    rewrite Et'. unfold spec_bind.
    assert (Em3 : x3.(chaddr) = u.(u_chaddr)) by by rewrite <- (core_chaddr x3), Ecx3, <- Ecx, core_chaddr.
    assert (Etab : table s.(v4) !! u.(u_chaddr) = Some (core x)).
    { apply lookup_table; [apply Hinv|]. exists p0. split; [by apply lookup_cores|by rewrite core_chaddr]. }
    rewrite Etab, Em3. f_equal. rewrite (table_cores _ _ Ec3).
    apply (table_filter s.(v4) s2.(v4) (fun b => ¬ evicted u b) (inv_mac _ _ Hinv)).
    rewrite Ec2. by rewrite (only_trace_v4 _ _ Ht). }
  destruct (Z.eqb_spec x2.(ip_addr) 0) as [E0|E0]; cbn [negb].
  - cbn [wp]. apply (Hrest s2 ips2); [auto with stp|done| |done].
    intros Hp. pose proof (ips_addr _ _ (dur_tbl _ _ _ Hd2) p0 x2 Hp Ex2) as [= En%Z.eqb_neq]. done.
  - unfold in_v4. apply wp_bind. eapply wp_delete_iphash; [apply Hd2|by eexists|].
    intros t3 r3 Hok3 Ec3 _. cbn [wp].
    apply (Hrest (s2 <| v4 := t3 |>) (ips2 ∖ {[p0]})); [auto with stp| |set_solver|exact Ec3].
    by eapply during_drop.
Qed.
End Rewrite.
