(* ===== verification/DhcpUnresProps.v ===== *)
(** * The unresolved entries as a finite map

    [stations t]: the entries by MAC address, without links.  Looking up, adding,
    deleting and aging are the operations of a finite map on it; deletion only in
    the IPv4 table. *)

From Stdlib Require Import ZArith Lia.
From stdpp Require Import base gmap list option fin_maps.
From S2P Require Import Prelude Chain DhcpTbl DhcpUnres.

Section Props.
Context {A : Type}.
Implicit Types (t : UTBL A) (x y : UNRES A) (h : gmap positive (UNRES A)).

Definition u_key x : Z := dhcp_snp_tbl_hash x.(n_chaddr).
Definition ucore x : UNRES A := x <| n_next := None |>.
Definition ucores t : gmap positive (UNRES A) := ucore <$> t.(u_heap).

Definition umac_uniq h : Prop :=
  ∀ p q x y, h !! p = Some x → h !! q = Some y → x.(n_chaddr) = y.(n_chaddr) → p = q.

Record u_ok t : Prop := {
  u_hashed : hashed unres_link u_key t.(u_heap) t.(unresolved_hash) (dom t.(u_heap));
  u_uniq : umac_uniq t.(u_heap) }.

Lemma u_key_next o x : u_key (x <| n_next := o |>) = u_key x.
Proof. by destruct x. Qed.
Lemma ucore_next o x : ucore (x <| n_next := o |>) = ucore x.
Proof. by destruct x. Qed.

Lemma ucores_lookup t p x : t.(u_heap) !! p = Some x → ucores t !! p = Some (ucore x).
Proof. intros E. apply lookup_fmap_Some. eauto. Qed.
Lemma ucores_inv t p b : ucores t !! p = Some b → ∃ x, t.(u_heap) !! p = Some x ∧ b = ucore x.
Proof. intros (x & <- & E)%lookup_fmap_Some. eauto. Qed.
Lemma ucores_none t p : t.(u_heap) !! p = None → ucores t !! p = None.
Proof. intros E. destruct (ucores t !! p) eqn:Ep; [|done]. apply ucores_inv in Ep as (x & Ex & _). congruence. Qed.

Lemma u_ok_empty : u_ok (mkUtbl ∅ ∅).
Proof.
  split; simpl; [rewrite dom_empty_L; apply hashed_empty|].
  intros p q x y; by rewrite lookup_empty.
Qed.

Lemma wp_u_find t mac (Q : option positive → Prop) :
  u_ok t →
  (∀ p x, t.(u_heap) !! p = Some x → x.(n_chaddr) = mac → Q (Some p)) →
  ((∀ p x, t.(u_heap) !! p = Some x → x.(n_chaddr) ≠ mac) → Q None) →
  wp (dhcp_snp_find_from_unresolved_table t mac) Q.
Proof.
  intros Hok Hs Hn. eapply wp_hashed_find; [apply Hok|done|..].
  - intros p x _ Ex _ [= E%bool_decide_eq_true]. eauto.
  - intros Hall. apply Hn. intros p x Ex E. specialize (Hall p x).
    rewrite bool_decide_true in Hall by done.
    discriminate Hall; [apply elem_of_dom; by eexists|done|]. unfold u_key. by rewrite E.
Qed.

(** ** Removing entries of one list

    Aging takes the expired entries out of a list and deletion those of a client:
    what is left when [keep] says which ones stay. *)

Section Keep.
Variable keep : UNRES A → Prop.
Context `{keep_dec : ∀ x, Decision (keep x)}.

Definition keep_at h (p : positive) : Prop :=
  match h !! p with Some x => keep x | None => False end.
#[export] Instance keep_at_dec h p : Decision (keep_at h p).
Proof. unfold keep_at. destruct (h !! p); apply _. Defined.

(** The node is there, up to its link. *)
Definition u_kept h h' (p : positive) : Prop :=
  ∀ x, h !! p = Some x → ∃ o, h' !! p = Some (x <| n_next := o |>).

Lemma u_kept_refl h p : u_kept h h p.
Proof. intros x E. exists x.(n_next). by destruct x. Qed.

Lemma kept_eq h h' p : h' !! p = h !! p → u_kept h h' p.
Proof. intros E x Ex. rewrite E. by apply u_kept_refl. Qed.

Lemma u_kept_trans h1 h2 h3 p : u_kept h1 h2 p → u_kept h2 h3 p → u_kept h1 h3 p.
Proof. intros H1 H2 x E. destruct (H1 x E) as [o Eo]. destruct (H2 _ Eo) as [o' E']. exists o'. by destruct x. Qed.

(** [removed h h' l]: the nodes of [l] that [keep] excludes are gone, the others are
    kept, and the rest of the heap is as it was. *)
Definition removed h h' (l : list positive) : Prop :=
  (∀ p, p ∉ l → h' !! p = h !! p) ∧
  ∀ p, p ∈ l → if decide (keep_at h p) then u_kept h h' p else h' !! p = None.

Definition kept_key (key : Z) h : gmap positive (UNRES A) :=
  filter (fun '(_, x) => u_key x = key → keep x) h.

Hypothesis keep_next : ∀ o x, keep (x <| n_next := o |>) ↔ keep x.

Lemma ucore_fields x : u_key (ucore x) = u_key x ∧ (keep (ucore x) ↔ keep x).
Proof. split; [by destruct x|apply keep_next]. Qed.

Lemma kept_ucore h h' p x : h !! p = Some x → u_kept h h' p → ∃ x', h' !! p = Some x' ∧ ucore x' = ucore x.
Proof. intros Ex Hk. destruct (Hk x Ex) as [o Eo]. eexists; split; [done|]. apply ucore_next. Qed.

Section Bucket.
Variables (t : UTBL A) (key : Z) (l : list positive).
Hypothesis Hok : u_ok t.
Hypothesis Hl : ∀ p x, t.(u_heap) !! p = Some x → p ∈ l ↔ u_key x = key.

(** The heap after both loops, node by node. *)
Lemma removed_lookup h' p : removed t.(u_heap) h' l →
  (∀ x', h' !! p = Some x' → ∃ x, t.(u_heap) !! p = Some x ∧ (x' = x ∨ ∃ o, x' = x <| n_next := o |>) ∧
     (u_key x = key → keep x)) ∧
  (∀ x, t.(u_heap) !! p = Some x → (u_key x = key → keep x) →
     ∃ x', h' !! p = Some x' ∧ ucore x' = ucore x ∧ (u_key x ≠ key → x' = x)).
Proof.
  intros [Hout Hin]. destruct (decide (p ∈ l)) as [Hp|Hp].
  - specialize (Hin p Hp). destruct (decide (keep_at t.(u_heap) p)) as [Hv|Hv]; unfold keep_at in Hv.
    + destruct (t.(u_heap) !! p) as [x|] eqn:Ex; [|done].
      pose proof (proj1 (Hl p x Ex) Hp) as Ek. split.
      * intros x' Ex'. destruct (Hin x Ex) as [o Eo]. exists x. split_and!; [done| |done]. right. exists o. congruence.
      * intros y [= <-] _. destruct (kept_ucore _ _ _ _ Ex Hin) as (x' & ? & ?). exists x'. by split_and!.
    + split; [congruence|]. intros x Ex Hc. destruct Hv. rewrite Ex. by apply Hc, (Hl p x Ex).
  - rewrite Hout by done. split.
    + intros x' Ex'. exists x'. split_and!; [done|by left|]. intros Ek. by destruct Hp; apply (Hl p x').
    + intros x Ex _. by exists x.
Qed.

Lemma removed_ok h' hd L : removed t.(u_heap) h' l → chain unres_link h' hd L →
  (∀ q, q ∈ L ↔ q ∈ l ∧ keep_at t.(u_heap) q) →
  let t' := mkUtbl h' (set_head t.(unresolved_hash) key hd) in
  u_ok t' ∧ ucores t' = kept_key key (ucores t).
Proof.
  intros Ha Hc HL. assert (Hlook := fun p => removed_lookup h' p Ha). split; [split; simpl|].
  - split; [done|]. destruct (u_hashed _ Hok) as [Hd (B & HB)].
    exists (fun k => if decide (k = key) then L else B k). intros k. destruct (HB k) as [HcB HkB].
    unfold set_head. destruct (decide (k = key)) as [->|Hne].
    + rewrite lookup_partial_alter_eq. split; [done|]. intros p x' Ex'.
      destruct (proj1 (Hlook p) x' Ex') as (x & Ex & Hx & Hv). rewrite (HL p). unfold keep_at. rewrite Ex.
      assert (u_key x' = u_key x) as -> by (destruct Hx as [->|[o ->]]; [done|apply u_key_next]).
      rewrite (Hl p x Ex). split; [intros [? ?]|intros [_ ?]]; (split; [|by auto]); [|done].
      apply elem_of_dom. by eexists.
    + rewrite lookup_partial_alter_ne by done. split.
      * eapply chain_frame; [|exact HcB]. intros p x Hp Ex.
        destruct (proj1 (HkB p x Ex) Hp) as [_ Ek].
        destruct (proj2 (Hlook p) x Ex) as (x' & Ex' & _ & E); [congruence|]. exists x'. split; [done|].
        rewrite E by congruence. done.
      * intros p x' Ex'. destruct (proj1 (Hlook p) x' Ex') as (x & Ex & Hx & Hv).
        assert (u_key x' = u_key x) as -> by (destruct Hx as [->|[o ->]]; [done|apply u_key_next]).
        rewrite (HkB p x Ex). rewrite !elem_of_dom. split; intros [_ ?]; (split; [by eexists|done]).
  - intros p q x' y' Ex' Ey' E. destruct (proj1 (Hlook p) x' Ex') as (x & Ex & Hx & _).
    destruct (proj1 (Hlook q) y' Ey') as (y & Ey & Hy & _). eapply (u_uniq _ Hok); [done|done|].
    destruct Hx as [->|[o ->]], Hy as [->|[o' ->]]; by destruct x, y.
  - unfold ucores, kept_key; simpl. apply map_eq. intros p. apply option_eq. intros c.
    rewrite map_lookup_filter_Some, !lookup_fmap, !fmap_Some. split.
    + intros (x' & Ex' & ->). destruct (proj1 (Hlook p) x' Ex') as (x & Ex & Hx & Hv).
      assert (ucore x' = ucore x) as -> by (destruct Hx as [->|[o ->]]; [done|apply ucore_next]).
      split; [by exists x|]. destruct (ucore_fields x) as (-> & ->). done.
    + intros [(x & Ex & ->) Hn]. destruct (ucore_fields x) as (E1 & E2). rewrite E1, E2 in Hn.
      destruct (proj2 (Hlook p) x Ex) as (x' & Ex' & E & _); [done|].
      exists x'. by rewrite E.
Qed.
End Bucket.

End Keep.
#[local] Arguments keep_at_dec _ {_}.

(** ** Aging *)

Definition live (cur : Z) x : Prop := ¬ x.(expired) < cur.
#[export] Instance live_dec cur x : Decision (live cur x).
Proof. unfold live. apply _. Defined.

Lemma live_next cur o x : live cur (x <| n_next := o |>) ↔ live cur x.
Proof. by destruct x. Qed.

Lemma wp_age_head cur : ∀ fuel h p l (Q : _ → Prop),
  chain unres_link h (Some p) (p :: l) → (length (p :: l) ≤ fuel)%nat →
  (∀ h' hd d l', p :: l = d ++ l' → chain unres_link h' hd l' →
     (∀ q, q ∉ d → h' !! q = h !! q) → (∀ q, q ∈ d → ¬ keep_at (live cur) h q ∧ h' !! q = None) →
     (∀ q, head l' = Some q → keep_at (live cur) h q) → Q (h', hd)) →
  wp (age_head fuel cur h (Some p)) Q.
Proof.
  induction fuel as [|fuel IH]; intros h p l Q Hc Hl HQ; simpl in Hl; [lia|].
  pose proof (chain_NoDup _ _ _ _ Hc) as [Hp Hnd]%list.NoDup_cons.
  destruct Hc as (_ & x & Ex & Hc). cbn [age_head deref obind]. rewrite Ex. cbn [deref obind].
  assert (Hlive : keep_at (live cur) h p ↔ ¬ x.(expired) < cur) by (unfold keep_at; by rewrite Ex).
  destruct (Z.ltb_spec x.(expired) cur) as [He|He].
  - simpl in Hc. destruct x.(n_next) as [q|] eqn:En.
    + destruct l as [|q' l]; [done|]. assert (q' = q) as -> by (destruct Hc; congruence).
      assert (Hc' : chain unres_link (delete p h) (Some q) (q :: l)).
      { eapply chain_frame; [|exact Hc]. intros r z Hr Ez. exists z.
        rewrite lookup_delete_ne by (intros ->; done). done. }
      apply (IH (delete p h) q l); [done|simpl in *; lia|]. intros h' hd d l' E Hch Hout Hin Hhd.
      assert (Hpd : p ∉ q :: l) by done. rewrite E, elem_of_app in Hpd.
      apply (HQ h' hd (p :: d) l'); [by rewrite E|done|..].
      * intros r Hr. rewrite not_elem_of_cons in Hr. rewrite Hout by tauto. by rewrite lookup_delete_ne by naive_solver.
      * intros r [->|Hr]%elem_of_cons.
        -- rewrite Hlive, Hout by tauto. split; [lia|]. apply lookup_delete_eq.
        -- destruct (Hin r Hr) as [Hl1 Hl2]. split; [|done]. unfold keep_at in *.
           rewrite lookup_delete_ne in Hl1; [done|]. intros ->. tauto.
      * intros r Hr. specialize (Hhd r Hr). unfold keep_at in *.
        rewrite lookup_delete_ne in Hhd; [done|]. intros ->. destruct l'; simplify_eq/=.
        apply Hpd. right. left.
    + destruct l; [|simpl in Hc; naive_solver].
      apply (HQ (delete p h) None [p] []); [done|done|..|done].
      * intros q Hq. rewrite lookup_delete_ne; [done|]. intros ->. apply Hq. left.
      * intros q ->%list_elem_of_singleton. rewrite Hlive. split; [lia|]. apply lookup_delete_eq.
  - apply (HQ h (Some p) [] (p :: l)); [done| |done|by intros q ?%not_elem_of_nil|].
    + split; [done|]. eauto.
    + intros q [= <-]. rewrite Hlive. lia.
Qed.

Lemma wp_age_tail cur : ∀ l fuel h tmp (Q : _ → Prop),
  chain unres_link h (Some tmp) (tmp :: l) → (length (tmp :: l) ≤ fuel)%nat →
  (∀ h' l', chain unres_link h' (Some tmp) (tmp :: l') → u_kept h h' tmp →
     (∀ q, q ≠ tmp → q ∉ l → h' !! q = h !! q) →
     (∀ q, q ∈ l → if decide (keep_at (live cur) h q) then u_kept h h' q else h' !! q = None) →
     (∀ q, q ∈ l' ↔ q ∈ l ∧ keep_at (live cur) h q) → Q h') →
  wp (age_tail fuel cur h tmp) Q.
Proof.
  induction l as [|q l IH]; intros [|fuel] h tmp Q Hc Hl HQ; simpl in Hl; try lia;
    pose proof (chain_NoDup _ _ _ _ Hc) as Hnd; pose proof Hc as Hc0;
    destruct Hc as (_ & x & Ex & Hc); cbn [age_tail]; rewrite Ex; cbn [deref obind]; simpl in Hc.
  - rewrite Hc. apply (HQ h []); [done|apply u_kept_refl|done|by intros ? ?%not_elem_of_nil|].
    intros q. set_solver.
  - destruct Hc as (En & y & Ey & Hc). rewrite En, Ey. cbn [deref obind].
    apply list.NoDup_cons in Hnd as [Htmp [Hq Hnd]%list.NoDup_cons].
    rewrite not_elem_of_cons in Htmp. destruct Htmp as [Hne Htl].
    assert (Hlive : keep_at (live cur) h q ↔ ¬ y.(expired) < cur) by (unfold keep_at; by rewrite Ey).
    destruct (Z.ltb_spec y.(expired) cur) as [He|He].
    + set (h1 := delete q (<[tmp := x <| n_next := y.(n_next) |>]> h)).
      assert (Hother : ∀ r, r ≠ tmp → r ≠ q → h1 !! r = h !! r).
      { intros r Hr1 Hr2. unfold h1. by rewrite lookup_delete_ne, lookup_insert_ne by done. }
      assert (Htmp1 : h1 !! tmp = Some (x <| n_next := y.(n_next) |>)).
      { unfold h1. by rewrite lookup_delete_ne, lookup_insert_eq by done. }
      assert (Hla : ∀ r, r ≠ tmp → r ≠ q → keep_at (live cur) h1 r ↔ keep_at (live cur) h r).
      { intros r Hr1 Hr2. unfold keep_at. by rewrite Hother. }
      apply (IH fuel h1 tmp); [|simpl; lia|].
      * split; [done|]. eexists. split; [done|]. simpl.
        eapply chain_frame; [|exact Hc]. intros r z Hr Ez. exists z.
        rewrite Hother; [done|intros ->; done|intros ->; done].
      * intros h' l' Hch Hk Hout Hin Hl'. apply (HQ h' l'); [done|..].
        -- intros z Ez. assert (z = x) as -> by congruence. destruct (Hk _ Htmp1) as [o Eo]. exists o.
           rewrite Eo. by destruct x.
        -- intros r Hr1 Hr2. rewrite not_elem_of_cons in Hr2. destruct Hr2.
           rewrite Hout by done. by apply Hother.
        -- intros r [->|Hr]%elem_of_cons.
           ++ rewrite decide_False by (rewrite Hlive; lia). rewrite Hout by done. apply lookup_delete_eq.
           ++ assert (r ≠ tmp ∧ r ≠ q) as [R1 R2] by (split; intros ->; done).
              specialize (Hin r Hr). destruct (decide (keep_at (live cur) h r)) as [Hlr|Hlr].
              ** rewrite decide_True in Hin by by apply Hla. intros z Ez. apply Hin. by rewrite Hother.
              ** by rewrite decide_False in Hin by by rewrite Hla.
        -- intros r. rewrite (Hl' r), elem_of_cons. split.
           ++ intros [Hr Hv]. split; [tauto|]. apply Hla; [intros ->; done|intros ->; done|done].
           ++ intros [[->|Hr] Hv]; [destruct (proj1 Hlive Hv); lia|]. split; [done|].
              apply Hla; [intros ->; done|intros ->; done|done].
    + apply (IH fuel h q); [|simpl; lia|].
      * split; [done|]. eauto.
      * intros h' l' Hch Hk Hout Hin Hl'. apply (HQ h' (q :: l')).
        -- split; [done|]. exists x. rewrite Hout by done. split; [done|]. simpl. rewrite En. exact Hch.
        -- apply kept_eq. by apply Hout.
        -- intros r Hr1 Hr2. rewrite not_elem_of_cons in Hr2. destruct Hr2. by apply Hout.
        -- intros r [->|Hr]%elem_of_cons; [|by apply Hin]. by rewrite decide_True by (rewrite Hlive; lia).
        -- intros r. rewrite !elem_of_cons, (Hl' r). split.
           ++ intros [->|[? ?]]; [|tauto]. split; [tauto|]. rewrite Hlive. lia.
           ++ tauto.
Qed.

Lemma wp_age_bucket cur key t (Q : UTBL A → Prop) :
  u_ok t → (∀ t', u_ok t' → ucores t' = kept_key (live cur) key (ucores t) → Q t') →
  wp (age_bucket cur key t) Q.
Proof.
  intros Hok HQ. pose proof (u_hashed _ Hok) as [Hd (B & HB)]. destruct (HB key) as [Hc Hk].
  set (l := B key) in *. pose proof (chain_fuel _ _ _ _ Hc) as Hlen.
  assert (Hl : ∀ p x, t.(u_heap) !! p = Some x → p ∈ l ↔ u_key x = key).
  { intros p x Ex. rewrite (Hk p x Ex), elem_of_dom. split; [tauto|]. split; [by eexists|done]. }
  unfold age_bucket. destruct (t.(unresolved_hash) !! key) as [p|] eqn:Ep.
  - destruct l as [|p' l'] eqn:El; [done|]. assert (p' = p) as -> by (destruct Hc; congruence).
    apply wp_bind. unfold u_turns. eapply wp_age_head; [exact Hc|lia|].
    intros h1 hd d l1 E Hc1 Hout Hin Hhd. cbv beta iota.
    assert (Hdl : ∀ q, q ∈ p :: l' ↔ q ∈ d ∨ q ∈ l1) by (intros q; by rewrite E, elem_of_app).
    assert (Hnd : ∀ q, q ∈ l1 → q ∉ d).
    { intros q Hq Hq'. apply chain_NoDup in Hc. rewrite E in Hc. apply list.NoDup_app in Hc as (_ & Hx & _).
      by apply (Hx q). }
    destruct l1 as [|tmp l2]; simpl in Hc1.
    + subst hd. destruct (removed_ok (live cur) (live_next cur) t key (p :: l') Hok Hl h1 None []) as [Hok' Ec']; [|done| |by apply HQ].
      * split; [intros q Hq; apply Hout; set_solver|]. intros q Hq. rewrite Hdl in Hq.
        destruct Hq as [Hq|Hq]; [|by apply not_elem_of_nil in Hq].
        destruct (Hin q Hq). by rewrite decide_False.
      * intros q. rewrite Hdl. split; [by intros ?%not_elem_of_nil|]. intros [[Hq|Hq] Hv]; [|done].
        by destruct (proj1 (Hin q Hq)).
    + destruct Hc1 as (-> & x & Ex & Hc1). apply wp_bind.
      assert (Hla : ∀ q, q ∉ d → keep_at (live cur) h1 q ↔ keep_at (live cur) t.(u_heap) q).
      { intros q Hq. unfold keep_at. by rewrite Hout. }
      eapply wp_age_tail; [by split; [done|exists x; split; [exact Ex|exact Hc1]]| |].
      { simpl. assert (Hc1' : chain unres_link h1 (Some tmp) (tmp :: l2)) by (split; [done|by eauto]).
        apply chain_fuel in Hc1'. simpl in Hc1'. lia. }
      intros h2 L Hc2 Hkt Hout2 Hin2 HL. cbn [wp].
      destruct (removed_ok (live cur) (live_next cur) t key (p :: l') Hok Hl h2 (Some tmp) (tmp :: L)) as [Hok' Ec']; [|done| |by apply HQ].
      * assert (Htmpd : tmp ∉ d) by (apply Hnd; left).
        split.
        -- intros q Hq. rewrite Hdl, elem_of_cons in Hq. rewrite Hout2 by tauto. apply Hout. tauto.
        -- intros q Hq. rewrite Hdl, elem_of_cons in Hq. destruct Hq as [Hq|[->|Hq]].
           ++ destruct (Hin q Hq) as [Hv Hn]. rewrite decide_False by done. rewrite Hout2; [done|..].
              ** intros ->. done.
              ** intros Hq2. apply (Hnd q); [by right|done].
           ++ rewrite decide_True by by apply Hhd. eapply u_kept_trans; [apply kept_eq, Hout; done|done].
           ++ assert (Hqd : q ∉ d) by (apply Hnd; by right). specialize (Hin2 q Hq).
              destruct (decide (keep_at (live cur) (u_heap t) q)) as [Hv|Hv].
              ** rewrite decide_True in Hin2 by by apply Hla. eapply u_kept_trans; [by apply kept_eq, Hout|done].
              ** by rewrite decide_False in Hin2 by by rewrite Hla.
      * intros q. rewrite Hdl, !elem_of_cons, (HL q). split.
        -- intros [->|[Hq Hv]]; [split; [tauto|by apply Hhd]|]. split; [tauto|]. apply Hla; [apply Hnd; by right|done].
        -- intros [[Hq|[->|Hq]] Hv]; [by destruct (proj1 (Hin q Hq))|by left|]. right. split; [done|].
           apply Hla; [apply Hnd; by right|done].
  - destruct l as [|p l']; [|simpl in Hc; naive_solver]. apply HQ; [done|].
    unfold kept_key. symmetry. apply map_filter_id. intros p c Ecp Ek.
    unfold ucores in Ecp. rewrite lookup_fmap, fmap_Some in Ecp. destruct Ecp as (x & Ex & ->).
    rewrite (u_key_next None x : u_key (ucore x) = u_key x) in Ek.
    by apply (Hl p x) in Ek; [apply not_elem_of_nil in Ek|].
Qed.

(** All the lists, one after the other. *)
Lemma wp_unres_aging c t (Q : UTBL A → Prop) :
  u_ok t →
  (∀ t', u_ok t' → ucores t' = filter (fun '(_, x) => live c.(uptime) x) (ucores t) → Q t') →
  wp (dhcp_snp_asd_table_aging_mechanism c t) Q.
Proof.
  intros Hok HQ. unfold dhcp_snp_asd_table_aging_mechanism.
  assert (Hgen : ∀ keys t1, u_ok t1 → wp (foldM (age_bucket c.(uptime)) keys t1) (fun t' => u_ok t' ∧
    ucores t' = filter (fun '(_, x) => u_key x ∈ keys → live c.(uptime) x) (ucores t1))).
  { induction keys as [|k keys IH]; intros t1 Hok1; simpl.
    - split; [done|]. symmetry. apply map_filter_id. intros p x _ []%not_elem_of_nil.
    - apply wp_bind. apply wp_age_bucket; [done|]. intros t2 Hok2 E2.
      eapply wp_mono; [by apply IH|]. intros t3 [Hok3 E3]. split; [done|]. rewrite E3, E2.
      unfold kept_key. rewrite map_filter_filter. apply map_filter_ext. intros p x _.
      rewrite elem_of_cons. naive_solver. }
  eapply wp_mono; [by apply Hgen|]. intros t' [Hok' E]. apply HQ; [done|]. rewrite E.
  apply map_filter_ext. intros p x _. split; [|done]. intros Hx. apply Hx, elem_of_seqZ.
  apply Z.mod_pos_bound. done.
Qed.

(** ** Adding *)

(** The fields the code writes into an entry. *)
Definition station c (x : UNRES A) : UNRES A :=
  ucore (x <| expired := u32 (c.(uptime) + TBL_EXPIRED_TIME) |>).
(** Writing the fields of an entry, links and MAC address apart. *)
Lemma u_ok_put t p x x' :
  u_ok t → t.(u_heap) !! p = Some x → x'.(n_next) = x.(n_next) → x'.(n_chaddr) = x.(n_chaddr) →
  let t' := t <| u_heap := <[p := x']> t.(u_heap) |> in
  u_ok t' ∧ ucores t' = <[p := ucore x']> (ucores t).
Proof.
  intros Hok Ex En Ec. split; [split; simpl|unfold ucores; simpl; apply fmap_insert].
  - rewrite dom_insert_L. replace ({[p]} ∪ dom t.(u_heap)) with (dom t.(u_heap)).
    2: { assert (p ∈ dom t.(u_heap)) by (apply elem_of_dom; by eexists). set_solver. }
    eapply hashed_frame; [|apply Hok]. intros q y _ Ey. destruct (decide (q = p)) as [->|Hne].
    + exists x'. rewrite lookup_insert_eq. unfold u_key. rewrite Ec. simplify_eq. auto.
    + exists y. by rewrite lookup_insert_ne.
  - intros q r y z Ey Ez E.
    assert (Hb : ∀ q y, <[p := x']> t.(u_heap) !! q = Some y →
      ∃ y0, t.(u_heap) !! q = Some y0 ∧ y0.(n_chaddr) = y.(n_chaddr)).
    { intros q0 y0. destruct (decide (q0 = p)) as [->|Hne];
        [rewrite lookup_insert_eq; intros [= <-]; eauto|rewrite lookup_insert_ne by done; eauto]. }
    destruct (Hb q y Ey) as (y0 & ? & ?), (Hb r z Ez) as (z0 & ? & ?).
    eapply (u_uniq _ Hok); [done|done|congruence].
Qed.

Lemma wp_u_add c t table (Q : UTBL A → Prop) :
  u_ok t →
  (∀ t' p b, u_ok t' → ucores t' = <[p := b]> (ucores t) → b.(n_chaddr) = table.(n_chaddr) →
     match ucores t !! p with
     | Some b0 => b0.(n_chaddr) = table.(n_chaddr) ∧ b = station c table <| n_ifindex := b0.(n_ifindex) |>
     | None => (∀ q b0, ucores t !! q = Some b0 → b0.(n_chaddr) ≠ table.(n_chaddr)) ∧ b = station c table
     end → Q t') →
  wp (dhcp_snp_add_unresolved_node c t table) Q.
Proof.
  intros Hok HQ. unfold dhcp_snp_add_unresolved_node. apply wp_bind. apply wp_u_find; [done|..].
  - intros p x Ex E. rewrite Ex. cbn [deref obind wp].
    match goal with |- Q (t <| u_heap := <[_ := ?x']> _ |>) => set (y := x') end.
    destruct (u_ok_put t p x y) as [Hok' Ec]; [done|done|by destruct x|by destruct x, table|].
    apply (HQ _ p (ucore y)); [done|done|by destruct x, table|].
    rewrite (ucores_lookup _ _ _ Ex). split; [by destruct x|].
    unfold y. by destruct x, table.
  - intros Hn. cbn [wp]. set (p := fresh (dom t.(u_heap))). set (key := dhcp_snp_tbl_hash table.(n_chaddr)).
    assert (Hp : p ∉ dom t.(u_heap)) by apply is_fresh.
    assert (Hpn : t.(u_heap) !! p = None) by by apply not_elem_of_dom.
    set (x0 := table <| expired := u32 (c.(uptime) + TBL_EXPIRED_TIME) |>).
    eapply (HQ _ p (station c table)).
    + split; simpl.
      * rewrite dom_insert_L.
        change key with (u_key x0).
        apply (hashed_push unres_link u_key _ _ _ p x0); [intros; apply u_key_next|apply Hok|done|done].
      * intros q r y z. destruct (decide (q = p)) as [->|Hq], (decide (r = p)) as [->|Hr];
          rewrite ?lookup_insert_eq, ?lookup_insert_ne by done; [done|..|apply (u_uniq _ Hok)].
        -- intros [= <-] Ez E. by destruct (Hn r z).
        -- intros Ey [= <-] E. by destruct (Hn q y).
    + unfold ucores; simpl. by rewrite fmap_insert.
    + by destruct table.
    + rewrite (ucores_none _ _ Hpn). split; [|done].
      intros q b0 (y & Ey & ->)%ucores_inv E. apply (Hn q y Ey). by destruct y.
Qed.

(** ** Deleting *)

Section Delete.
Context `{NEXT_CHADDR A}.

Definition other mac x : Prop := x.(n_chaddr) ≠ mac.
#[local] Instance other_dec mac x : Decision (other mac x).
Proof. unfold other. apply _. Defined.

Lemma wp_del_loop mac : ∀ l fuel h tmp x (Q : _ → Prop),
  h !! tmp = Some x → chain unres_link h x.(n_next) l → (length l < fuel)%nat →
  ((∀ q y, q ∈ l → h !! q = Some y → next_chaddr y ≠ mac) → Q (h, -1)) →
  (∀ l1 l2 p q y z, tmp :: l = l1 ++ p :: q :: l2 → h !! p = Some y → h !! q = Some z →
     next_chaddr z = mac → Q (delete q (<[p := y <| n_next := z.(n_next) |>]> h), 0)) →
  wp (del_unresolved_loop fuel mac h (Some tmp)) Q.
Proof.
  induction l as [|q l IH]; intros [|fuel] h tmp x Q Ex Hc Hl Hn Hs; simpl in Hl; try lia;
    cbn [del_unresolved_loop]; rewrite Ex; cbn [deref obind]; simpl in Hc.
  - rewrite Hc. apply Hn. by intros ? ? ?%not_elem_of_nil.
  - destruct Hc as (-> & y & Ey & Hc). rewrite Ey. cbn [deref obind].
    destruct (bool_decide_reflect (next_chaddr y = mac)) as [E|E].
    + by apply (Hs [] l tmp q x y).
    + eapply (IH fuel h q y); [done|done|lia|..].
      * intros Hall. apply Hn. intros r z [->|Hr]%elem_of_cons Ez; [congruence|by eapply Hall].
      * intros l1 l2 p r z w El. apply (Hs (tmp :: l1) l2 p r z w). simpl. by rewrite El.
Qed.

Lemma set_head_same (heads : gmap Z positive) key : set_head heads key (heads !! key) = heads.
Proof.
  unfold set_head. apply map_eq. intros k. destruct (decide (k = key)) as [->|].
  - by rewrite lookup_partial_alter_eq.
  - by rewrite lookup_partial_alter_ne.
Qed.

Lemma kept_key_other mac h : kept_key (other mac) (dhcp_snp_tbl_hash mac) h = filter (fun '(_, x) => other mac x) h.
Proof.
  apply map_filter_ext. intros p x _. split; [|done]. intros Hk E. apply Hk; [|done].
  unfold u_key. by rewrite E.
Qed.

Section One.
Variables (t : UTBL A) (mac : list Z) (l : list positive) (q : positive) (z : UNRES A).
Hypothesis Hok : u_ok t.
Hypothesis Hl : ∀ p x, t.(u_heap) !! p = Some x → p ∈ l ↔ u_key x = dhcp_snp_tbl_hash mac.
Hypothesis Hin : ∀ p, p ∈ l → is_Some (t.(u_heap) !! p).
Hypothesis Ez : t.(u_heap) !! q = Some z.
Hypothesis Em : z.(n_chaddr) = mac.

Lemma other_next o x : other mac (x <| n_next := o |>) ↔ other mac x.
Proof. by destruct x. Qed.

(** The node [q] of the client has been taken out of its list and freed. *)
Lemma del_ok h' hd L :
  h' !! q = None → (∀ p, p ∉ l → h' !! p = t.(u_heap) !! p) →
  (∀ p, p ≠ q → u_kept t.(u_heap) h' p) → chain unres_link h' hd L → (∀ r, r ∈ L ↔ r ∈ l ∧ r ≠ q) →
  let t' := mkUtbl h' (set_head t.(unresolved_hash) (dhcp_snp_tbl_hash mac) hd) in
  u_ok t' ∧ ucores t' = filter (fun '(_, x) => other mac x) (ucores t).
Proof.
  intros Hq Hout Hk Hc HL. assert (Hkeep : ∀ p, p ∈ l → keep_at (other mac) t.(u_heap) p ↔ p ≠ q).
  { intros p Hp. unfold keep_at, other. destruct (Hin p Hp) as [x Ex]. rewrite Ex.
    split; [intros Hx ->; congruence|]. intros Hne E. apply Hne.
    eapply (u_uniq _ Hok); [done|done|congruence]. }
  rewrite <- kept_key_other. eapply removed_ok; [exact other_next|done|exact Hl|split; [done|]|done|].
  - intros p Hp. specialize (Hkeep p Hp). case_decide as Hd; [by apply Hk, Hkeep|].
    destruct (decide (p = q)) as [->|Hne]; [done|]. tauto.
  - intros r. rewrite (HL r). split; intros [Hr ?]; (split; [done|]); by apply Hkeep.
Qed.
End One.

(** One node of the client's list goes, the one the comparison picks, or none. *)
Section Del.
Variables (t : UTBL A) (mac : list Z) (Q : UTBL A * Z → Prop).
Hypothesis Hok : u_ok t.
Hypothesis Hdel : ∀ t' q z, u_ok t' → t.(u_heap) !! q = Some z → u_key z = dhcp_snp_tbl_hash mac →
  z.(n_chaddr) = mac ∨ next_chaddr z = mac →
  ucores t' = filter (fun '(_, x) => other z.(n_chaddr) x) (ucores t) → Q (t', 0).
Hypothesis Hnone :
  (∀ q y, t.(u_heap) !! q = Some y → u_key y = dhcp_snp_tbl_hash mac →
     y.(n_chaddr) ≠ mac ∨ next_chaddr y ≠ mac) → ∀ ret, Q (t, ret).

Variables (l : list positive) (tmp : positive) (x : UNRES A).
Hypothesis Hl : ∀ p x, t.(u_heap) !! p = Some x → p ∈ tmp :: l ↔ u_key x = dhcp_snp_tbl_hash mac.
Hypothesis Hin : ∀ p, p ∈ tmp :: l → is_Some (t.(u_heap) !! p).
Hypothesis Et : t.(unresolved_hash) !! dhcp_snp_tbl_hash mac = Some tmp.
Hypothesis Ex : t.(u_heap) !! tmp = Some x.
Hypothesis Hc : chain unres_link t.(u_heap) x.(n_next) l.
Hypothesis Hnd : NoDup (tmp :: l).

Lemma key_of q z : q ∈ tmp :: l → t.(u_heap) !! q = Some z → dhcp_snp_tbl_hash z.(n_chaddr) = dhcp_snp_tbl_hash mac.
Proof. intros Hq Ez. by apply (Hl q z Ez). Qed.

Lemma del_head : x.(n_chaddr) = mac →
  Q (mkUtbl (delete tmp t.(u_heap)) (set_head t.(unresolved_hash) (dhcp_snp_tbl_hash mac) x.(n_next)), 0).
Proof.
  intros Em. apply list.NoDup_cons in Hnd as [Htmp _].
  destruct (del_ok t mac (tmp :: l) tmp x Hok Hl Hin Ex Em (delete tmp t.(u_heap)) x.(n_next) l)
    as [Hok' Ec]; [by apply lookup_delete_eq| | | | |].
  - intros p Hp. rewrite lookup_delete_ne; [done|]. intros ->. apply Hp. left.
  - intros p Hp. apply kept_eq. by apply lookup_delete_ne.
  - eapply chain_frame; [|exact Hc]. intros p y Hp Ey. exists y.
    rewrite lookup_delete_ne; [done|]. by intros ->.
  - intros r. rewrite elem_of_cons. split; [intros Hr; split; [tauto|by intros ->]|tauto].
  - eapply Hdel; [done|exact Ex|eapply key_of; [by left|done]|by left|by rewrite Em].
Qed.

Lemma del_behind l1 l2 p q y z :
  tmp :: l = l1 ++ p :: q :: l2 → t.(u_heap) !! p = Some y → t.(u_heap) !! q = Some z → next_chaddr z = mac →
  Q (t <| u_heap := delete q (<[p := y <| n_next := z.(n_next) |>]> t.(u_heap)) |>, 0).
Proof.
  intros El Ey Ez Emz. rewrite El in Hnd.
  apply list.NoDup_app in Hnd as (_ & Hd1 & [Hpq Hnd']%list.NoDup_cons).
  apply list.NoDup_cons in Hnd' as [Hql2 _].
  assert (Hpne : p ≠ q) by (intros ->; apply Hpq; left).
  assert (Hql : q ∉ l1 ++ p :: l2).
  { rewrite elem_of_app, elem_of_cons. intros [Hq|[->|?]]; [|done|done]. apply (Hd1 q Hq). right; left. }
  assert (Hqm : q ∈ tmp :: l) by (rewrite El, elem_of_app, !elem_of_cons; tauto).
  pose proof (key_of q z Hqm Ez) as Ek. rewrite <- Ek in Hl, Et.
  destruct (del_ok t z.(n_chaddr) (tmp :: l) q z Hok Hl Hin Ez eq_refl
    (delete q (<[p := y <| n_next := z.(n_next) |>]> t.(u_heap))) (Some tmp) (l1 ++ p :: l2))
    as [Hok' Ec]; [by apply lookup_delete_eq|..].
  - intros r Hr. rewrite El, elem_of_app, !elem_of_cons in Hr.
    rewrite lookup_delete_ne, lookup_insert_ne by (intros ->; tauto). done.
  - intros r Hr. destruct (decide (r = p)) as [->|Hrp].
    + intros w Ew. exists z.(n_next). rewrite lookup_delete_ne, lookup_insert_eq by done. congruence.
    + apply kept_eq. by rewrite lookup_delete_ne, lookup_insert_ne by done.
  - assert (Hc1 : chain unres_link t.(u_heap) (Some tmp) (l1 ++ p :: q :: l2)).
    { rewrite <- El. split; [done|]. eauto. }
    eapply chain_frame; [|eapply (chain_unlink unres_link); [exact Hc1|exact Ey|exact Ez]].
    intros r w Hr Ew. exists w. rewrite lookup_delete_ne by (intros ->; done). done.
  - intros r. rewrite El, !elem_of_app, !elem_of_cons.
    rewrite elem_of_app, elem_of_cons in Hql. split; [intros Hr; split; [tauto|intros ->; tauto]|tauto].
  - rewrite <- Et in Hok', Ec. rewrite set_head_same in Hok', Ec. destruct t as [h0 heads0]. simpl in *.
    eapply (Hdel _ q z); [exact Hok'|exact Ez|exact Ek|by right|exact Ec].
Qed.
End Del.

Lemma wp_u_del_gen t mac (Q : UTBL A * Z → Prop) :
  u_ok t →
  (∀ t' q z, u_ok t' → t.(u_heap) !! q = Some z → u_key z = dhcp_snp_tbl_hash mac →
     z.(n_chaddr) = mac ∨ next_chaddr z = mac →
     ucores t' = filter (fun '(_, x) => other z.(n_chaddr) x) (ucores t) → Q (t', 0)) →
  ((∀ q y, t.(u_heap) !! q = Some y → u_key y = dhcp_snp_tbl_hash mac →
     y.(n_chaddr) ≠ mac ∨ next_chaddr y ≠ mac) → ∀ ret, Q (t, ret)) →
  wp (dhcp_snp_del_unresolved_node t mac) Q.
Proof.
  intros Hok Hdel Hnone. pose proof (u_hashed _ Hok) as [Hd (B & HB)].
  destruct (HB (dhcp_snp_tbl_hash mac)) as [Hc Hk]. pose proof (chain_fuel _ _ _ _ Hc) as Hlen.
  assert (Hl : ∀ p x, t.(u_heap) !! p = Some x → p ∈ B (dhcp_snp_tbl_hash mac) ↔ u_key x = dhcp_snp_tbl_hash mac).
  { intros p x Ex. rewrite (Hk p x Ex), elem_of_dom. split; [tauto|]. split; [by eexists|done]. }
  assert (Hin : ∀ p, p ∈ B (dhcp_snp_tbl_hash mac) → is_Some (t.(u_heap) !! p)) by (intros p; by eapply chain_elem).
  pose proof (chain_NoDup _ _ _ _ Hc) as Hnd.
  unfold dhcp_snp_del_unresolved_node.
  destruct (t.(unresolved_hash) !! dhcp_snp_tbl_hash mac) as [tmp|] eqn:Et;
    destruct (B (dhcp_snp_tbl_hash mac)) as [|p l]; simpl in Hc;
    [done| | |by destruct Hc].
  - destruct Hc as (E & x & Ex & Hc). assert (p = tmp) as -> by congruence.
    rewrite Ex. cbn [deref obind]. destruct (bool_decide_reflect (x.(n_chaddr) = mac)) as [Em|Em].
    + by eapply del_head.
    + apply wp_bind. simpl in Hlen. eapply (wp_del_loop mac l _ _ tmp x); [done|done|unfold u_turns; lia|..].
      * intros Hn. replace (t <| u_heap := u_heap t |>) with t by by destruct t. apply Hnone.
        intros q y Ey Ek. apply (Hl q y Ey) in Ek. apply elem_of_cons in Ek as [->|Hq].
        -- left. congruence.
        -- right. by eapply Hn.
      * intros l1 l2 p q y z El Ey Ez Emz. cbn [wp]. by eapply del_behind.
  - apply Hnone. intros q y Ey Ek. apply (Hl q y Ey) in Ek. by apply not_elem_of_nil in Ek.
Qed.

(** Behind the head, an entry that no [next->chaddr] shows is not found. *)
Lemma u_del_misses t mac p x :
  u_ok t → t.(u_heap) !! p = Some x → x.(n_chaddr) = mac →
  t.(unresolved_hash) !! dhcp_snp_tbl_hash mac ≠ Some p →
  (∀ q y, t.(u_heap) !! q = Some y → next_chaddr y ≠ mac) →
  dhcp_snp_del_unresolved_node t mac = Done (t, -1).
Proof.
  intros Hok Ep Em Hhead Hno. pose proof (u_hashed _ Hok) as [_ (B & HB)].
  destruct (HB (dhcp_snp_tbl_hash mac)) as [Hc Hk]. pose proof (chain_fuel _ _ _ _ Hc) as Hlen.
  assert (Hp : p ∈ B (dhcp_snp_tbl_hash mac)).
  { apply (Hk p x Ep). split; [apply elem_of_dom; by eexists|]. unfold u_key. by rewrite Em. }
  unfold dhcp_snp_del_unresolved_node.
  destruct (B (dhcp_snp_tbl_hash mac)) as [|tmp l]; [by apply not_elem_of_nil in Hp|].
  simpl in Hc. destruct Hc as (Et & y & Ey & Hc). rewrite Et, Ey. cbn [deref obind].
  rewrite bool_decide_false.
  2: { intros Ey'. apply Hhead. rewrite Et. f_equal. eapply (u_uniq _ Hok); [done|done|congruence]. }
  simpl in Hlen.
  destruct (wp_elim (del_unresolved_loop (u_turns t) mac t.(u_heap) (Some tmp)) (λ r, r = (t.(u_heap), -1)))
    as (r & -> & ->).
  { eapply (wp_del_loop mac l); [done|done|unfold u_turns; lia|done|].
    intros l1 l2 a q b z _ _ Ez Emz. by destruct (Hno q z Ez). }
  cbn [obind]. by destruct t.
Qed.

(** Where [next->chaddr] reads the MAC address, deletion is that of the map. *)
Lemma wp_u_del t mac (Q : UTBL A * Z → Prop) :
  (∀ x, next_chaddr x = x.(n_chaddr)) → u_ok t →
  (∀ t' ret, u_ok t' → ucores t' = filter (fun '(_, x) => other mac x) (ucores t) → Q (t', ret)) →
  wp (dhcp_snp_del_unresolved_node t mac) Q.
Proof.
  intros Hr Hok HQ. apply wp_u_del_gen; [done|..].
  - intros t' q z Hok' Ez Ek Em Ec. apply HQ; [done|].
    assert (z.(n_chaddr) = mac) as Ez' by (rewrite Hr in Em; tauto). by rewrite <- Ez'.
  - intros Hn ret. apply HQ; [done|]. symmetry. apply map_filter_id.
    intros p c (x & Ex & ->)%ucores_inv E. assert (Em : x.(n_chaddr) = mac) by by destruct x.
    destruct (Hn p x Ex); [unfold u_key; by f_equal|done|by rewrite Hr in *].
Qed.
End Delete.
End Props.
