(* ===== verification/DhcpHandle.v ===== *)
(** * The messages of DHCP refine a finite map of bindings

    [snoop]: what a message of an IPv4 client does to the bindings, as a function
    on the map.  [handle_post] relates a run of a handler to it: the invariant
    [snp_ok] is kept, and the table is that of [snoop], or the kernel refused, the
    result is an error and the table is what it was. *)

From Stdlib Require Import ZArith Lia.
From stdpp Require Import base gmap list option fin_maps.
From S2P Require Import Prelude Chain DhcpTbl DhcpUnres DhcpSnp DhcpOptions DhcpPkt.
From S2P Require Import DhcpTable DhcpBind DhcpUnresProps.

(** ** The specification *)

Section Spec.
Context {A : Type} `{ADDR_LAWS A}.
Implicit Types (b x : ITEM A) (u : USER A) (m : gmap (list Z) (ITEM A)).

(** [dhcp_snp_tbl_identity_item], for a binding with the client's MAC address. *)
Definition identical u b : Prop :=
  b.(vlanId) = u.(u_vlanId) ∧ b.(haddr_len) = u.(u_haddr_len) ∧
  (u.(u_ifindex) = 0 ∨ b.(ifindex) = u.(u_ifindex)).
#[export] Instance identical_dec u b : Decision (identical u b).
Proof. unfold identical. apply _. Defined.

Definition is_static b : Prop := b.(bind_type) = NPD_DHCP_SNP_BIND_TYPE_STATIC.
Definition is_dynamic b : Prop := b.(bind_type) = NPD_DHCP_SNP_BIND_TYPE_DYNAMIC.
#[export] Instance is_static_dec b : Decision (is_static b).
Proof. unfold is_static. apply _. Defined.
#[export] Instance is_dynamic_dec b : Decision (is_dynamic b).
Proof. unfold is_dynamic. apply _. Defined.

Definition as_bound u : USER A := u <| u_state := NPD_DHCP_SNP_BIND_STATE_BOUND |>.
Definition as_request u : USER A := u <| u_state := NPD_DHCP_SNP_BIND_STATE_REQUEST |>.

(** DISCOVER and REQUEST: a client that is not known gets a binding. *)
Definition spec_insert c u m :=
  match m !! u.(u_chaddr) with
  | Some _ => m
  | None => <[u.(u_chaddr) := new_core c (as_request u)]> m
  end.

(** NAK and RELEASE: the binding of the client goes. *)
Definition spec_remove u m :=
  match m !! u.(u_chaddr) with
  | Some b => if decide (is_dynamic b ∧ identical u b) then delete u.(u_chaddr) m else m
  | None => m
  end.

Lemma core_fields x :
  let b := core x in
  b.(bind_type) = x.(bind_type) ∧ b.(state) = x.(state) ∧ b.(vlanId) = x.(vlanId) ∧
  b.(haddr_len) = x.(haddr_len) ∧ b.(ifindex) = x.(ifindex) ∧ b.(chaddr) = x.(chaddr).
Proof. by destruct x. Qed.

(** The comparison of a binding with the client, whose MAC addresses agree. *)
Lemma identity_spec u x :
  x.(chaddr) = u.(u_chaddr) → u.(u_haddr_len) ≤ 6 →
  ∃ r, dhcp_snp_tbl_identity_item x u = Done r ∧ is_ok r = bool_decide (identical u (core x)).
Proof.
  intros Em Hl. assert (Hid : identical u (core x) ↔ x.(vlanId) = u.(u_vlanId) ∧
    x.(haddr_len) = u.(u_haddr_len) ∧ (u.(u_ifindex) = 0 ∨ x.(ifindex) = u.(u_ifindex))) by by destruct x.
  unfold dhcp_snp_tbl_identity_item.
  destruct (Z.eqb_spec x.(vlanId) u.(u_vlanId)) as [E1|E1]; simpl;
    [|eexists; split; [done|]; rewrite bool_decide_false by (rewrite Hid; tauto); done].
  destruct (Z.eqb_spec x.(haddr_len) u.(u_haddr_len)) as [E2|E2]; simpl;
    [|eexists; split; [done|]; rewrite bool_decide_false by (rewrite Hid; tauto); done].
  destruct (Z.eqb_spec u.(u_ifindex) 0) as [E3|E3]; simpl;
    [|destruct (Z.eqb_spec x.(ifindex) u.(u_ifindex)) as [E4|E4]; simpl;
      [|eexists; split; [done|]; rewrite bool_decide_false by (rewrite Hid; tauto); done]];
    (unfold c_memeq; rewrite (proj2 (Z.ltb_ge 6 x.(haddr_len))) by lia; cbn [obind];
     rewrite Em, (bool_decide_true (_ = _)) by done;
     eexists; split; [done|]; rewrite bool_decide_true by (rewrite Hid; tauto); done).
Qed.
End Spec.

Implicit Types (t : TBL Z) (b x : ITEM Z) (u : USER Z) (s : SNP) (node : LISTENER).
Implicit Types m : gmap (list Z) (ITEM Z).

Definition acceptable (a : Z) : Prop := dhcp_snp_u32ip_check a = 0.
#[export] Instance acceptable_dec a : Decision (acceptable a).
Proof. unfold acceptable. apply _. Defined.

(** ACK and INFORM: the client is bound to the address. *)
Definition spec_ack c u m :=
  match m !! u.(u_chaddr) with
  | Some b => if decide (¬ is_static b ∧ acceptable u.(u_ip_addr)) then spec_bind c (as_bound u) m else m
  | None => m
  end.

Definition spec_inform c u m :=
  match m !! u.(u_chaddr) with
  | Some b => if already_bound b then m else spec_ack c u m
  | None => m
  end.

Definition snoop c (message : Z) u m :=
  if message =? NPD_DHCP_DISCOVER then spec_insert c u m
  else if message =? NPD_DHCP_REQUEST then spec_insert c u m
  else if message =? NPD_DHCP_ACK then spec_ack c u m
  else if message =? NPD_DHCP_NAK then spec_remove u m
  else if message =? NPD_DHCP_RELEASE then spec_remove u m
  else if message =? NPD_DHCP_INFORM then spec_inform c u m
  else m.

(** ** The invariant *)

(** Entries that come from [check_msg] with the flag of a HANSI instance: their
    index is inside [fd_table]. *)
Definition u_safe {A} (t : UTBL A) : Prop :=
  ∀ p (b : UNRES A), ucores t !! p = Some b → 0 ≤ b.(vrrpid) < MAX_HANSI_PROFILE ∧ 0 ≤ b.(local_flag) ≤ 1.

Record snp_ok s : Prop := {
  ok_v4 : v4_ok s.(v4);
  ok_unres : u_ok s.(unres4);
  ok_safe : u_safe s.(unres4) }.

Lemma snp_ok_only_v4 s s' : snp_ok s → only_v4 s s' → v4_ok s'.(v4) → snp_ok s'.
Proof. unfold only_v4. intros [_ Hu Hs] E Hv. split; [done|rewrite E; by destruct s..]. Qed.

Lemma snp_ok_put_v4 s t : snp_ok s → v4_ok t → snp_ok (s <| v4 := t |>).
Proof. intros [_ Hu Hs] Hv. split; [done|by destruct s..]. Qed.

(** Only the IPv4 half of the state has changed, the record of effects and the
    sockets to [asd]. *)
Definition half4 s s' : Prop :=
  s' = s <| v4 := s'.(v4) |> <| unres4 := s'.(unres4) |> <| fd_table := s'.(fd_table) |>
         <| trace := s'.(trace) |>.

Lemma half4_refl s : half4 s s.
Proof. by destruct s. Qed.
Lemma half4_trans s1 s2 s3 : half4 s1 s2 → half4 s2 s3 → half4 s1 s3.
Proof. unfold half4. intros E1 E2. rewrite E1 in E2. rewrite E2. by destruct s1. Qed.
Lemma only_v4_half4 s s' : only_v4 s s' → half4 s s'.
Proof. unfold only_v4, half4. intros E. rewrite E. by destruct s. Qed.
Lemma only_trace_half4 s s' : only_trace s s' → half4 s s'.
Proof. intros. by apply only_v4_half4, only_trace_only_v4. Qed.
Lemma half4_emit e s : half4 s (snp_emit e s).
Proof. by destruct s. Qed.
#[export] Hint Resolve half4_refl only_v4_half4 only_trace_half4 half4_emit : stp.

(** What a handler promises. *)
Definition handle_post (env : ENV) s (spec : gmap (list Z) (ITEM Z) → gmap (list Z) (ITEM Z))
    (r : SNP * Z) : Prop :=
  let '(s', ret) := r in
  snp_ok s' ∧ half4 s s' ∧
  (table s'.(v4) = spec (table s.(v4)) ∨
   ¬ kernel_ok env ∧ ret ≠ DHCP_SNP_RETURN_CODE_OK ∧ table s'.(v4) = table s.(v4)).

Lemma handle_same env s spec ret :
  snp_ok s → spec (table s.(v4)) = table s.(v4) → handle_post env s spec (s, ret).
Proof. intros Hs E. split_and!; [done|auto with stp|by left]. Qed.

(** ** Telling [asd] *)

Section Notify.
Variable env : ENV.

Lemma fd_entry_ok s index : index < MAX_HANSI_PROFILE * 2 →
  fd_entry s index = Done (bool_decide (index ∈ s.(fd_table))).
Proof. intros Hi. unfold fd_entry. by rewrite (proj2 (Z.ltb_lt _ _) Hi). Qed.

Lemma tbl_index_small v l : 0 ≤ v < MAX_HANSI_PROFILE → 0 ≤ l ≤ 1 → TBL_INDEX v l < MAX_HANSI_PROFILE * 2.
Proof. unfold TBL_INDEX, u32, MAX_HANSI_PROFILE. intros Hv Hl. rewrite Z.mod_small; lia. Qed.

Lemma wp_asd_socket {A} (x : UNRES A) s (Q : SNP * bool → Prop) :
  0 ≤ x.(vrrpid) < MAX_HANSI_PROFILE → 0 ≤ x.(local_flag) ≤ 1 →
  (∀ fds (b : bool), Q (s <| fd_table := fds |>, b)) → wp (asd_socket env x s) Q.
Proof.
  intros Hv Hl HQ. pose proof (tbl_index_small _ _ Hv Hl) as Hi.
  assert (Hself : s <| fd_table := s.(fd_table) |> = s) by by destruct s.
  unfold asd_socket. rewrite fd_entry_ok by done. cbn [obind]. case_bool_decide.
  { rewrite <- Hself at 1. apply HQ. }
  unfold init_sock_unix_client_asd.
  assert (Hi' : TBL_INDEX x.(vrrpid) (if negb (x.(local_flag) =? 0) then 1 else 0) < MAX_HANSI_PROFILE * 2).
  { apply tbl_index_small; [done|]. destruct (negb _); lia. }
  rewrite fd_entry_ok by done. cbn [obind].
  destruct (bool_decide _); cbn [obind]; [|destruct (asd_socket_ok env _)]; cbn [obind];
    rewrite fd_entry_ok by done; cbn [obind wp]; try apply HQ; rewrite <- Hself at 1; apply HQ.
Qed.

(** The entry of the client is used and deleted; the bindings are not touched. *)
Lemma wp_initiative_notify mac ip s (Q : SNP → Prop) :
  snp_ok s → (∀ s', s'.(v4) = s.(v4) → snp_ok s' → half4 s s' → Q s') →
  wp (dhcp_snp_initiative_notify_asd env mac ip s) Q.
Proof.
  intros Hs HQ. unfold dhcp_snp_initiative_notify_asd. apply wp_bind.
  apply wp_u_find; [apply Hs| |by intros _; apply HQ; auto with stp].
  intros p x Ex Em. rewrite Ex. cbn [deref obind].
  pose proof (ok_safe s Hs p _ (ucores_lookup _ _ _ Ex)) as Hsafe.
  assert (Hx : 0 ≤ x.(vrrpid) < MAX_HANSI_PROFILE ∧ 0 ≤ x.(local_flag) ≤ 1) by by destruct x.
  set (x' := x <| n_ipaddr := ip |>).
  destruct (u_ok_put s.(unres4) p x x' (ok_unres s Hs) Ex) as [Hok Ec]; [by destruct x..|].
  set (t1 := s.(unres4) <| u_heap := <[p := x']> s.(unres4).(u_heap) |>) in *.
  assert (Hsafe1 : u_safe t1).
  { intros q b. rewrite Ec. destruct (decide (q = p)) as [->|Hq].
    - rewrite lookup_insert_eq. intros [= <-]. by destruct x.
    - rewrite lookup_insert_ne by done. apply (ok_safe s Hs). }
  assert (Hput : ∀ fds tr, snp_ok (s <| unres4 := t1 |> <| fd_table := fds |> <| trace := tr |>)).
  { intros fds tr. split; [apply Hs|done|done]. }
  apply wp_bind. unfold dhcp_snp_notify_asd. apply wp_bind.
  apply wp_asd_socket; [destruct x; apply Hx|destruct x; apply Hx|]. intros fds ok.
  assert (Hdone : wp (Done (s <| unres4 := t1 |> <| fd_table := fds |>)) Q).
  { apply HQ; [by destruct s| |by destruct s]. specialize (Hput fds s.(trace)). by destruct s. }
  destruct ok; cbn [negb]; [|exact Hdone].
  destruct (asd_send_ok env); cbn [negb]; [|exact Hdone].
  apply wp_bind. eapply wp_u_del; [done|exact Hok|]. intros t' ret Hok' Ec'. cbn [wp].
  apply HQ; [by destruct s| |by destruct s]. split; [apply Hs|exact Hok'|].
  intros q b. simpl. rewrite Ec'. intros [Eb _]%map_lookup_filter_Some. by apply Hsafe1 in Eb.
Qed.
End Notify.

(** ** The handlers *)

(** A new binding, not bound yet. *)
Lemma v4_insert c t ips u :
  v4_inv t ips → table t !! u.(u_chaddr) = None → u.(u_state) = NPD_DHCP_SNP_BIND_STATE_REQUEST →
  let '(t', _) := dhcp_snp_tbl_item_insert c t u in
  v4_inv t' ips ∧ table t' = <[u.(u_chaddr) := new_core c u]> (table t).
Proof.
  intros Hinv Hn Hst.
  pose proof (map_insert c t ips u (Build_map_inv _ _ (inv_tbl _ _ Hinv) (inv_mac _ _ Hinv)) I Hn) as Hins.
  destruct (dhcp_snp_tbl_item_insert c t u) as [t' p]. destruct Hins as (Hips & [Hok Hu] & Hpn & Ec & Et).
  assert (Hnb : (new_core c u).(state) = NPD_DHCP_SNP_BIND_STATE_REQUEST) by exact Hst.
  split; [|exact Et]. split; [done| |done|..]; rewrite Ec.
  - intros q b. destruct (decide (q = p)) as [->|Hq].
    + rewrite lookup_insert_eq. intros [= <-]. split; [done|]. intros [Hb _]. by rewrite Hnb in Hb.
    + rewrite lookup_insert_ne by done. apply (inv_ips _ _ Hinv).
  - intros q r b b'. destruct (decide (q = p)) as [->|Hq], (decide (r = p)) as [->|Hr];
      rewrite ?lookup_insert_eq, ?lookup_insert_ne by done; [done|..|apply (inv_ip _ _ Hinv)].
    + intros [= <-] _ [Hb _]. by rewrite Hnb in Hb.
    + intros _ [= <-] _ [Hb _]. by rewrite Hnb in Hb.
  - intros q b. destruct (decide (q = p)) as [->|Hq].
    + rewrite lookup_insert_eq. intros [= <-] Hb. by rewrite Hnb in Hb.
    + rewrite lookup_insert_ne by done. apply (inv_valid _ _ Hinv).
Qed.

(** Taking a binding out of the table. *)
Lemma wp_in_v4_delete s p x (Q : SNP * Z → Prop) :
  snp_ok s → s.(v4).(heap) !! p = Some x →
  (∀ s', snp_ok s' → table s'.(v4) = delete x.(chaddr) (table s.(v4)) →
     s' = s <| v4 := s'.(v4) |> → Q (s', DHCP_SNP_RETURN_CODE_OK)) →
  wp (in_v4 (fun t => dhcp_snp_tbl_item_delete t p) s) Q.
Proof.
  intros Hs Ex HQ. destruct (ok_v4 s Hs) as [ips Hinv]. unfold in_v4. apply wp_bind.
  eapply wp_item_delete; [apply Hinv|by eexists|]. intros t' Hok' Ec. cbn [wp].
  pose proof (v4_delete _ _ _ p Hinv Hok' Ec) as Hinv'.
  apply HQ; [apply snp_ok_put_v4; [done|by eexists]| |by destruct s].
  rewrite <- (core_chaddr x). eapply table_delete; [apply Hinv|by apply lookup_cores|done].
Qed.

Section Handlers.
Variable env : ENV.
Variables (buf : list Z) (vid ifx packet : Z) (node : LISTENER) (u : USER Z).

Definition parsed (type : Z) : Prop :=
  dhcp_snp_get_item_from_pkt buf vid ifx packet type zero_user = Done (u, DHCP_SNP_RETURN_CODE_OK).

(** The binding of the client, if there is one. *)
Lemma wp_client s (Q : SNP * Z → Prop) (k : positive → outcome (SNP * Z)) (z : outcome (SNP * Z)) :
  snp_ok s →
  (∀ p x ips, v4_inv s.(v4) ips → s.(v4).(heap) !! p = Some x → x.(chaddr) = u.(u_chaddr) →
     table s.(v4) !! u.(u_chaddr) = Some (core x) → wp (k p) Q) →
  (∀ ips, v4_inv s.(v4) ips → table s.(v4) !! u.(u_chaddr) = None → wp z Q) →
  wp (let* item := dhcp_snp_tbl_item_find s.(v4) u in
      match item with Some p => k p | None => z end) Q.
Proof.
  intros Hs Hk Hz. destruct (ok_v4 s Hs) as [ips Hinv]. apply wp_bind.
  eapply wp_table_find; [done|..].
  - intros p x Ex Et. apply (Hk p x ips Hinv Ex); [|done].
    rewrite <- (core_chaddr x). by eapply table_chaddr; [apply Hinv|].
  - by apply (Hz ips).
Qed.

Lemma insert_ok type s :
  parsed type → snp_ok s →
  wp (insert_process env buf vid ifx packet type s) (handle_post env s (spec_insert env.(clock) u)).
Proof.
  intros Hget Hs. unfold insert_process. rewrite Hget. cbn [obind is_ok negb].
  change (negb (DHCP_SNP_RETURN_CODE_OK =? DHCP_SNP_RETURN_CODE_OK)) with false. cbv iota.
  apply wp_client; [done|..].
  - intros p x ips _ _ _ Et. apply handle_same; [done|]. unfold spec_insert. by rewrite Et.
  - intros ips Hinv Et. pose proof (v4_insert env.(clock) s.(v4) ips (as_request u) Hinv) as Hins.
    change (u <| u_state := NPD_DHCP_SNP_BIND_STATE_REQUEST |>) with (as_request u).
    destruct (dhcp_snp_tbl_item_insert env.(clock) s.(v4) (as_request u)) as [t' q].
    destruct Hins as [Hinv' Et']; [by destruct u|by destruct u|].
    split_and!; [apply snp_ok_put_v4; [done|by exists ips]|by destruct s|]. left. unfold spec_insert. rewrite Et. simpl.
    rewrite Et'. by destruct u.
Qed.

(** What is behind [identity_item] in NAK and RELEASE. *)
Lemma delete_ok p x s s' :
  snp_ok s → s.(v4).(heap) !! p = Some x → x.(chaddr) = u.(u_chaddr) →
  table s.(v4) !! u.(u_chaddr) = Some (core x) → is_dynamic (core x) → identical u (core x) →
  only_trace s s' →
  wp (let* '(s, ret) := in_v4 (fun t => dhcp_snp_tbl_item_delete t p) s' in
      if negb (is_ok ret) then Done (s, DHCP_SNP_RETURN_CODE_ERROR)
      else Done (s, DHCP_SNP_RETURN_CODE_OK)) (handle_post env s (spec_remove u)).
Proof.
  intros Hs Ex Em Et Hd Hid Ht. pose proof (only_trace_v4 _ _ Ht) as Ev.
  assert (Hs' : snp_ok s').
  { eapply snp_ok_only_v4; [exact Hs|by apply only_trace_only_v4|]. rewrite Ev. apply Hs. }
  apply wp_bind. eapply wp_in_v4_delete; [exact Hs'|by rewrite Ev|]. rewrite Ev.
  intros s2 Hs2 Et2 E2. cbn [wp]. change (negb (is_ok DHCP_SNP_RETURN_CODE_OK)) with false. cbv iota.
  split_and!; [done|eapply half4_trans; [by apply only_trace_half4|rewrite E2; by destruct s']|]. left. unfold spec_remove. rewrite Et, decide_True by done. by rewrite Et2, Em.
Qed.

(** The guards of NAK and RELEASE, in front of the deletion [k]. *)
Lemma wp_removable s (k : positive → ITEM Z → outcome (SNP * Z)) :
  u.(u_haddr_len) ≤ 6 → snp_ok s →
  (∀ p x, s.(v4).(heap) !! p = Some x → x.(chaddr) = u.(u_chaddr) →
     table s.(v4) !! u.(u_chaddr) = Some (core x) → is_dynamic (core x) → identical u (core x) →
     wp (k p x) (handle_post env s (spec_remove u))) →
  wp (let* item := dhcp_snp_tbl_item_find s.(v4) u in
      match item with
      | None => Done (s, DHCP_SNP_RETURN_CODE_OK)
      | Some item =>
          let* x := get_item s.(v4) item in
          if x.(bind_type) =? NPD_DHCP_SNP_BIND_TYPE_STATIC then Done (s, DHCP_SNP_RETURN_CODE_OK)
          else
            let* ret := dhcp_snp_tbl_identity_item x u in
            if negb (is_ok ret) then Done (s, DHCP_SNP_RETURN_CODE_OK)
            else if x.(bind_type) =? NPD_DHCP_SNP_BIND_TYPE_DYNAMIC then k item x
            else Done (s, DHCP_SNP_RETURN_CODE_OK)
      end) (handle_post env s (spec_remove u)).
Proof.
  intros Hl Hs Hk.
  apply wp_client; [done|..].
  - intros p x ips Hinv Ex Em Et.
    assert (Hsame : ¬ (is_dynamic (core x) ∧ identical u (core x)) →
      wp (Done (s, DHCP_SNP_RETURN_CODE_OK)) (handle_post env s (spec_remove u))).
    { intros Hn. apply handle_same; [done|]. unfold spec_remove. by rewrite Et, decide_False. }
    unfold get_item. rewrite Ex. cbn [deref obind].
    destruct (Z.eqb_spec x.(bind_type) NPD_DHCP_SNP_BIND_TYPE_STATIC) as [Est|Est].
    { apply Hsame. intros [Hd _]. unfold is_dynamic in Hd. destruct x; simpl in *; by rewrite Hd in Est. }
    destruct (identity_spec u x Em Hl) as (r & -> & Hr). cbn [obind]. rewrite Hr.
    case_bool_decide as Hid; cbn [negb]; [|apply Hsame; tauto].
    destruct (Z.eqb_spec x.(bind_type) NPD_DHCP_SNP_BIND_TYPE_DYNAMIC) as [Ed|Ed].
    + apply Hk; [done|done|done|by destruct x|done].
    + apply Hsame. intros [Hd _]. destruct x; by apply Ed.
  - intros ips Hinv Et. apply handle_same; [done|]. unfold spec_remove. by rewrite Et.
Qed.

Lemma nack_ok s :
  parsed NPD_DHCP_NAK → u.(u_haddr_len) ≤ 6 → snp_ok s →
  wp (dhcp_snp_nack_process buf vid ifx packet s) (handle_post env s (spec_remove u)).
Proof.
  intros Hget Hl Hs. unfold dhcp_snp_nack_process. rewrite Hget. cbn [obind].
  change (negb (is_ok DHCP_SNP_RETURN_CODE_OK)) with false. cbv iota.
  apply (wp_removable s (fun p _ => _)); [done|done|].
  intros p x Ex Em Et Hd Hid. eapply delete_ok; [done|done|done|done|done|done|auto with stp].
Qed.

Lemma release_ok s :
  parsed NPD_DHCP_RELEASE → u.(u_haddr_len) ≤ 6 → snp_ok s →
  wp (dhcp_snp_release_process env buf vid ifx packet node s) (handle_post env s (spec_remove u)).
Proof.
  intros Hget Hl Hs. unfold dhcp_snp_release_process. rewrite Hget. cbn [obind].
  change (negb (is_ok DHCP_SNP_RETURN_CODE_OK)) with false. cbv iota.
  apply (wp_removable s (fun p x => _)); [done|done|].
  intros p x Ex Em Et Hd Hid. cbv beta zeta.
  set (s1 := if negb (node.(no_arp) =? 0) && cpu_bound x then _ else s).
  assert (Ht : only_trace s s1).
  { unfold s1. destruct (_ && _); [apply ipneigh_only_trace|auto with stp]. }
  pose proof (evict_kernel env node x s1) as Hr. cbv zeta in Hr.
  destruct (if negb (add_router node =? 0) && cpu_bound x then _ else _) as [s2 [c|]];
    simpl in Hr; destruct Hr as [Ht2 Hr].
  - destruct (Hr c eq_refl) as (Hc & Hk & ->). split_and!.
    + eapply snp_ok_only_v4; [exact Hs|by apply only_trace_only_v4|].
      rewrite (only_trace_v4 _ _ Ht). apply Hs.
    + auto with stp.
    + right. by rewrite (only_trace_v4 _ _ Ht).
  - eapply delete_ok; [done|done|done|done|done|done|by eapply only_trace_trans].
Qed.

(** The binding itself, for ACK, INFORM and gratuitous ARP. *)
Lemma bind_ok p x ips s :
  v4_inv s.(v4) ips → snp_ok s → s.(v4).(heap) !! p = Some x → x.(chaddr) = u.(u_chaddr) →
  table s.(v4) !! u.(u_chaddr) = Some (core x) → ¬ is_static (core x) →
  wp (dhcp_snp_tbl_refresh_bind env (as_bound u) p node s) (fun '(s', ret) =>
    handle_post env s (spec_ack env.(clock) u) (s', ret) ∧ only_v4 s s' ∧
    (ret = DHCP_SNP_RETURN_CODE_OK → is_Some (s'.(v4).(heap) !! p)) ∧
    (kernel_ok env → acceptable u.(u_ip_addr) → ret = DHCP_SNP_RETURN_CODE_OK)).
Proof.
  intros Hinv Hs Ex Em Et Hns. destruct (decide (acceptable u.(u_ip_addr))) as [Ha|Ha].
  - assert (Hip : u.(u_ip_addr) ≠ 0).
    { intros E. unfold acceptable in Ha. by rewrite E in Ha. }
    eapply (wp_refresh_bind env (as_bound u)); [done|exact Hip|exact Ha|exact Hinv|exact Ex|
      by destruct u|intros E; apply Hns; by destruct x|..].
    + intros Hk s' r Ht Hr. split_and!; [|by apply only_trace_only_v4|done|done]. split_and!.
      * eapply snp_ok_only_v4; [exact Hs|by apply only_trace_only_v4|].
        rewrite (only_trace_v4 _ _ Ht). apply Hs.
      * auto with stp.
      * right. by rewrite (only_trace_v4 _ _ Ht).
    + intros s' r x' Hv Hok Et' Ex' _ Hk. split_and!; [|done|by eexists|by intros ? _; apply Hk].
      split_and!; [by eapply snp_ok_only_v4|auto with stp|]. left. unfold spec_ack. by rewrite Et, decide_True, Et'.
  - unfold dhcp_snp_tbl_refresh_bind.
    assert (E : (dhcp_snp_u32ip_check (as_bound u).(u_ip_addr) =? 0) = false).
    { apply Z.eqb_neq. by destruct u. }
    rewrite E. cbn [negb wp]. split_and!; [|auto with stp|done|done].
    apply handle_same; [done|]. unfold spec_ack. rewrite Et, decide_False; [done|tauto].
Qed.

(** The guards of ACK and INFORM, in front of the binding [k]. *)
Lemma wp_bindable s spec (skip : ITEM Z → bool) (k : positive → outcome (SNP * Z)) :
  snp_ok s →
  (∀ m, m !! u.(u_chaddr) = None → spec m = m) →
  (∀ m b, m !! u.(u_chaddr) = Some b → is_static b ∨ skip b = true → spec m = m) →
  (∀ x, skip (core x) = skip x) →
  (∀ p x ips, v4_inv s.(v4) ips → s.(v4).(heap) !! p = Some x → x.(chaddr) = u.(u_chaddr) →
     table s.(v4) !! u.(u_chaddr) = Some (core x) → ¬ is_static (core x) → skip x = false →
     wp (k p) (handle_post env s spec)) →
  wp (let* item := dhcp_snp_tbl_item_find s.(v4) u in
      match item with
      | None => Done (s, DHCP_SNP_RETURN_CODE_OK)
      | Some item =>
          let* x := get_item s.(v4) item in
          if x.(bind_type) =? NPD_DHCP_SNP_BIND_TYPE_STATIC then Done (s, DHCP_SNP_RETURN_CODE_OK)
          else if skip x then Done (s, DHCP_SNP_RETURN_CODE_OK)
          else k item
      end) (handle_post env s spec).
Proof.
  intros Hs Hnone Hsome Hskip Hk. apply wp_client; [done|..].
  - intros p x ips Hinv Ex Em Et. unfold get_item. rewrite Ex. cbn [deref obind].
    destruct (Z.eqb_spec x.(bind_type) NPD_DHCP_SNP_BIND_TYPE_STATIC) as [Est|Est].
    { apply handle_same; [done|]. eapply Hsome; [done|]. left. by destruct x. }
    destruct (skip x) eqn:Esk.
    { apply handle_same; [done|]. eapply Hsome; [done|]. right. by rewrite Hskip. }
    eapply Hk; [done|done|done|done| |done]. intros E. apply Est. by destruct x.
  - intros ips Hinv Et. apply handle_same; [done|]. by apply Hnone.
Qed.

(** ACK and INFORM once [spec] agrees with [spec_ack] on the table. *)
Lemma handle_post_eq s spec spec' r :
  spec (table s.(v4)) = spec' (table s.(v4)) → handle_post env s spec r → handle_post env s spec' r.
Proof. destruct r as [s' ret]. intros E (Hs & Hh & [Et|Hk]); split_and!; [done|done|left; congruence|done|done|by right]. Qed.

Lemma spec_ack_static c m b : m !! u.(u_chaddr) = Some b → is_static b → spec_ack c u m = m.
Proof. intros E Hs. unfold spec_ack. rewrite E, decide_False; [done|tauto]. Qed.

Lemma ack_ok s :
  parsed NPD_DHCP_ACK → snp_ok s →
  wp (dhcp_snp_ack_process env buf vid ifx packet node s) (handle_post env s (spec_ack env.(clock) u)).
Proof.
  intros Hget Hs. unfold dhcp_snp_ack_process. rewrite Hget. cbn [obind].
  change (negb (is_ok DHCP_SNP_RETURN_CODE_OK)) with false. cbv iota.
  apply (wp_bindable s _ (fun _ => false)); [done|..|done|].
  - intros m E. unfold spec_ack. by rewrite E.
  - intros m b E [Hb|?]; [by eapply spec_ack_static|done].
  - intros p x ips Hinv Ex Em Et Hns _. apply wp_bind.
    eapply wp_mono; [by eapply bind_ok|]. intros [s1 r1] (Hpost & Hv & Hp & _).
    unfold is_ok. destruct (Z.eqb_spec r1 DHCP_SNP_RETURN_CODE_OK) as [->|Hr]; cbn [negb].
    2: { destruct Hpost as (Hs1 & Hh & Hor). split_and!; [done|done|]. destruct Hor as [?|(? & ? & ?)]; [by left|by right]. }
    destruct (Hp eq_refl) as [x1 Ex1]. unfold get_item. rewrite Ex1. cbn [deref obind].
    apply wp_bind. destruct Hpost as (Hs1 & Hh & Hor).
    apply wp_initiative_notify; [done|]. intros s2 Ev2 Hs2 Hh2.
    pose proof (half4_trans _ _ _ Hh Hh2) as Hh'.
    destruct Hor as [Et1|(_ & ? & _)]; [|done].
    destruct (negb _); split_and!;
      [destruct Hs2; by split|eapply half4_trans; [done|apply half4_emit]|left; cbn; by rewrite Ev2|done|done|left; by rewrite Ev2].
Qed.

Lemma inform_ok s :
  parsed NPD_DHCP_INFORM → snp_ok s →
  wp (dhcp_snp_inform_process env buf vid ifx packet node s) (handle_post env s (spec_inform env.(clock) u)).
Proof.
  intros Hget Hs. unfold dhcp_snp_inform_process. rewrite Hget. cbn [obind].
  change (negb (is_ok DHCP_SNP_RETURN_CODE_OK)) with false. cbv iota.
  apply (wp_bindable s _ already_bound); [done|..|by intros []|].
  - intros m E. unfold spec_inform. by rewrite E.
  - intros m b E Hb. unfold spec_inform. rewrite E. destruct (already_bound b) eqn:Eb; [done|].
    destruct Hb as [Hb|?]; [by eapply spec_ack_static|done].
  - intros p x ips Hinv Ex Em Et Hns Hsk. apply wp_bind.
    eapply wp_mono; [by eapply bind_ok|]. intros [s1 r1] (Hpost & _).
    apply (handle_post_eq _ _ (spec_inform env.(clock) u)) in Hpost.
    2: { unfold spec_inform. rewrite Et. by replace (already_bound (core x)) with false by done. }
    unfold is_ok. destruct Hpost as (Hs1 & Hh & Hor).
    destruct (Z.eqb_spec r1 DHCP_SNP_RETURN_CODE_OK) as [->|Hr]; cbn [negb]; (split_and!; [done|done|]).
    + destruct Hor as [?|(? & ? & ?)]; [by left|done].
    + destruct Hor as [?|(? & ? & ?)]; [by left|by right].
Qed.

(** The dispatch on the message type. *)
Lemma wp_handle message s :
  parsed message → u.(u_haddr_len) ≤ 6 → snp_ok s →
  wp (dhcp_snp_handle env buf vid ifx packet message node s)
     (handle_post env s (snoop env.(clock) message u)).
Proof.
  intros Hget Hl Hs. unfold dhcp_snp_handle, snoop.
  destruct (Z.eqb_spec message NPD_DHCP_DISCOVER) as [->|_]; [by apply insert_ok|].
  destruct (Z.eqb_spec message NPD_DHCP_OFFER) as [->|_]; [by apply handle_same|].
  destruct (Z.eqb_spec message NPD_DHCP_REQUEST) as [->|_]; [by apply insert_ok|].
  destruct (Z.eqb_spec message NPD_DHCP_ACK) as [->|_]; [by apply ack_ok|].
  destruct (Z.eqb_spec message NPD_DHCP_NAK) as [->|_]; [by apply nack_ok|].
  destruct (Z.eqb_spec message NPD_DHCP_RELEASE) as [->|_]; [by apply release_ok|].
  destruct (Z.eqb_spec message NPD_DHCP_INFORM) as [->|_]; [by apply inform_ok|].
  by apply handle_same.
Qed.

(** A message that cannot be parsed is not looked at further. *)
Lemma handle_unparsed message s user r :
  dhcp_snp_get_item_from_pkt buf vid ifx packet message zero_user = Done (user, r) → is_ok r = false →
  ∃ ret, dhcp_snp_handle env buf vid ifx packet message node s = Done (s, ret).
Proof.
  intros Hget Hr. unfold dhcp_snp_handle, dhcp_snp_discovery_process, dhcp_snp_request_process, insert_process,
    dhcp_snp_offer_process, dhcp_snp_ack_process, dhcp_snp_nack_process, dhcp_snp_release_process, dhcp_snp_inform_process.
  repeat match goal with |- context [message =? ?t] => destruct (Z.eqb_spec message t) as [->|_] end;
    rewrite ?Hget; cbn [obind]; rewrite ?Hr; eauto.
Qed.
End Handlers.
