(* ===== verification/DhcpAging.v ===== *)
(** * Aging removes exactly what has expired

    A round of the aging thread walks every list of every table and takes out the
    dynamic bindings, and the unresolved entries, whose time has passed, while it
    holds the pointer to the next node. *)

From Stdlib Require Import ZArith Lia.
From stdpp Require Import base gmap list option fin_maps.
From S2P Require Import Prelude Chain DhcpTbl DhcpUnres DhcpSnp DhcpTable.
From S2P Require Import DhcpBind DhcpUnresProps DhcpHandle.

(** ** What unlinking a node does to the links *)

Section Unlink.
Context {N : Type} (L : Link N).

(** Only the node in front of [item] changes. *)
Definition relinked (h h' : gmap positive N) (item : positive) : Prop :=
  h' = h ∨ ∃ p x o, h !! p = Some x ∧ L.(nxt) x = Some item ∧ h' = <[p := L.(set_nxt) o x]> h.

Lemma unlink_loop_relinked item : ∀ fuel h tmp h',
  unlink_loop L fuel item h tmp = Done (Some h') → relinked h h' item.
Proof.
  induction fuel as [|fuel IH]; intros h tmp h'; simpl; [done|]. destruct tmp as [p|]; [|done].
  intros (x & Ex & E)%obind_Done. destruct (h !! p) as [x'|] eqn:Ep; [|done]. injection Ex as ->.
  destruct (nxt L x) as [q|] eqn:En; [|done]. destruct (decide (q = item)) as [->|_]; [|by eapply IH].
  apply obind_Done in E as (y & _ & [= <-]). right. eauto 10.
Qed.

Lemma unlink_relinked h heads k item h' heads' b :
  unlink L h heads k item = Done (h', heads', b) → relinked h h' item.
Proof.
  unfold unlink. case_decide.
  - intros (y & _ & [= <- _ _])%obind_Done. by left.
  - intros (o & E & Eo)%obind_Done. destruct o as [h1|]; simplify_eq; [|by left].
    by eapply unlink_loop_relinked.
Qed.
End Unlink.

Section Next.
Context {A : Type} `{ADDR_LAWS A}.
Implicit Types (t : TBL A) (x y : ITEM A) (p q : positive) (ips : gset positive).

(** The list a node continues with is not changed by the deletion of [p]. *)
Definition next_kept t t' p : Prop :=
  ∀ q y, q ≠ p → t.(heap) !! q = Some y → y.(next) ≠ Some p →
    ∃ y', t'.(heap) !! q = Some y' ∧ y'.(next) = y.(next).

Lemma delete_iphash_next t p t' r q y :
  dhcp_snp_tbl_item_delete_iphash t p = Done (t', r) → t.(heap) !! q = Some y →
  ∃ y', t'.(heap) !! q = Some y' ∧ y'.(next) = y.(next).
Proof.
  unfold dhcp_snp_tbl_item_delete_iphash, get_item. intros (x & Ex & E)%obind_Done Ey.
  apply obind_Done in E as ([] & _ & E); [simplify_eq; eauto|].
  apply obind_Done in E as ([[h heads] found] & Eu%unlink_relinked & E).
  assert (Hh : ∃ y1, h !! q = Some y1 ∧ y1.(next) = y.(next)).
  { destruct Eu as [->|(p1 & x1 & o & Ex1 & _ & ->)]; [by eauto|].
    destruct (decide (q = p1)) as [->|Hq]; [|rewrite lookup_insert_ne by done; by eauto].
    rewrite lookup_insert_eq. eexists; split; [done|]. by assert (x1 = y) as -> by congruence; destruct y. }
  destruct Hh as (y1 & Ey1 & En). destruct found; [|simplify_eq; simpl; eauto].
  apply obind_Done in E as (z & Ez & [= <- _]). simpl in *.
  destruct (h !! p) as [z'|] eqn:Ep; [|done]. injection Ez as ->.
  destruct (decide (q = p)) as [->|Hq].
  - rewrite lookup_insert_eq. eexists; split; [done|]. rewrite <- En.
    by assert (z = y1) as -> by congruence; destruct y1.
  - rewrite lookup_insert_ne by done. eauto.
Qed.

Lemma item_delete_next t p t' r : dhcp_snp_tbl_item_delete t p = Done (t', r) → next_kept t t' p.
Proof.
  unfold dhcp_snp_tbl_item_delete. intros (x & Ex & E)%obind_Done q y Hq Ey Hn.
  apply obind_Done in E as (b & _ & E). apply obind_Done in E as (t1 & Et & E).
  assert (Ht1 : ∃ y1, t1.(heap) !! q = Some y1 ∧ y1.(next) = y.(next)).
  { destruct b; [simplify_eq; eauto|]. apply obind_Done in Et as ([t2 r2] & Et & [= <-]).
    by eapply delete_iphash_next. }
  destruct Ht1 as (y1 & Ey1 & En). apply obind_Done in E as ([[h heads] found] & Eu%unlink_relinked & E).
  assert (Hh : h !! q = Some y1).
  { destruct Eu as [->|(p1 & x1 & o & Ex1 & Enx & ->)]; [done|].
    rewrite lookup_insert_ne; [done|]. intros ->. simpl in Enx. congruence. }
  exists y1. destruct found; simplify_eq; simpl; [rewrite lookup_delete_ne by done|]; done.
Qed.

(** [wp_item_delete], and the walk can go on behind [p]. *)
Lemma wp_item_delete_next t ips p x l (Q : TBL A * Z → Prop) :
  tbl_ok t ips → t.(heap) !! p = Some x → chain mac_link t.(heap) (Some p) (p :: l) →
  (∀ t', tbl_ok t' (ips ∖ {[p]}) → cores t' = delete p (cores t) →
     chain mac_link t'.(heap) x.(next) l → Q (t', DHCP_SNP_RETURN_CODE_OK)) →
  wp (dhcp_snp_tbl_item_delete t p) Q.
Proof.
  intros Hok Ex Hc HQ. destruct (wp_elim _ _ (wp_item_delete t ips p
    (fun '(t', r) => tbl_ok t' (ips ∖ {[p]}) ∧ cores t' = delete p (cores t) ∧ r = DHCP_SNP_RETURN_CODE_OK)
    Hok ltac:(by eexists) ltac:(by intros))) as ([t' r] & E & Hok' & Ec & ->).
  rewrite E. apply HQ; [done|done|]. pose proof (item_delete_next _ _ _ _ E) as Hn.
  pose proof (chain_NoDup _ _ _ _ Hc) as [Hp Hnd]%list.NoDup_cons.
  destruct Hc as (_ & x' & Ex' & Hc). assert (x' = x) as -> by congruence.
  eapply chain_frame; [|exact Hc]. intros q y Hq Ey. apply Hn; [by intros ->|done|].
  intros Eq. apply Hp. clear -Hc Hq Ey Eq. revert Hc.
  change (next x) with (nxt mac_link x). generalize (nxt mac_link x). induction l as [|r l IH]; intros hd.
  - by apply not_elem_of_nil in Hq.
  - intros (-> & z & Ez & Hc). destruct (decide (q = r)) as [->|Hne].
    + assert (z = y) as -> by congruence. right. destruct l; simpl in Hc; [congruence|].
      destruct Hc as [Hc _]. simpl in Hc. rewrite Eq in Hc. injection Hc as ->. left.
    + right. eapply IH; [|exact Hc]. set_solver.
Qed.
End Next.

(** ** What is left after a walk *)

Section Shrunk.
Context {A : Type} `{ADDR_LAWS A}.
Implicit Types (t : TBL A) (x y b : ITEM A) (p q : positive) (ips : gset positive).

Definition stale (cur : Z) b : Prop :=
  b.(bind_type) = NPD_DHCP_SNP_BIND_TYPE_DYNAMIC ∧ b.(cur_expire) < cur.
#[export] Instance stale_dec cur b : Decision (stale cur b).
Proof. unfold stale. apply _. Defined.

Lemma stale_core cur x : stale cur (core x) ↔ stale cur x.
Proof. by destruct x. Qed.

Lemma stale_test cur x :
  (NPD_DHCP_SNP_BIND_TYPE_DYNAMIC =? x.(bind_type)) && (x.(cur_expire) <? cur) = bool_decide (stale cur x).
Proof.
  apply eq_true_iff_eq. rewrite andb_true_iff, Z.eqb_eq, Z.ltb_lt, bool_decide_eq_true.
  unfold stale. intuition congruence.
Qed.

(** Only stale bindings have gone. *)
Record shrunk (cur : Z) t t' : Prop := {
  shrunk_sub : cores t' ⊆ cores t;
  shrunk_stale : ∀ p b, cores t !! p = Some b → cores t' !! p = None → stale cur b }.

(** And none of [l] is left. *)
Definition swept (cur : Z) t' (l : list positive) : Prop :=
  ∀ p b, p ∈ l → cores t' !! p = Some b → ¬ stale cur b.

Lemma shrunk_refl cur t : shrunk cur t t.
Proof. split; [done|congruence]. Qed.

Lemma shrunk_trans cur t1 t2 t3 : shrunk cur t1 t2 → shrunk cur t2 t3 → shrunk cur t1 t3.
Proof.
  intros [S1 H1] [S2 H2]. split; [by etrans|]. intros p b E1 E3.
  destruct (cores t2 !! p) as [b2|] eqn:E2; [|by eapply H1].
  assert (b2 = b) as -> by (apply (lookup_weaken _ _ _ _ E2) in S1; congruence). by eapply H2.
Qed.

Lemma shrunk_delete cur t t' p b :
  cores t' = delete p (cores t) → cores t !! p = Some b → stale cur b → shrunk cur t t'.
Proof.
  intros Ec Eb Hs. split; rewrite Ec; [apply delete_subseteq|]. intros q b' Eq.
  destruct (decide (q = p)) as [->|Hne]; [by assert (b' = b) as -> by congruence|].
  rewrite lookup_delete_ne; [congruence|done].
Qed.

(** No stale binding is left in the lists of [keys]. *)
Definition swept_keys (cur : Z) t' (keys : list Z) : Prop :=
  ∀ p b, cores t' !! p = Some b → mac_key b ∈ keys → ¬ stale cur b.

Lemma swept_keys_shrunk cur t1 t2 keys : swept_keys cur t1 keys → shrunk cur t1 t2 → swept_keys cur t2 keys.
Proof. intros Hs [Hsub _] p b Eb. eapply Hs. by eapply lookup_weaken. Qed.

(** The list of a key, as the walk meets it. *)
Lemma key_list t ips key : tbl_ok t ips →
  ∃ l, chain mac_link t.(heap) (t.(mac_hash) !! key) l ∧ (length l < turns t)%nat ∧
    ∀ p b, cores t !! p = Some b → p ∈ l ↔ mac_key b = key.
Proof.
  intros Hok. destruct (mac_ok t ips Hok) as [_ (B & HB)]. destruct (HB key) as [Hc Hk].
  exists (B key). split_and!; [done|pose proof (chain_fuel _ _ _ _ Hc); unfold turns; lia|].
  intros p b (x & Ex & ->)%lookup_cores_inv. rewrite (Hk p x Ex).
  assert (E : mac_key (core x) = mac_key x) by by destruct x. rewrite E.
  split; [tauto|]. split; [apply elem_of_dom; by eexists|done].
Qed.

Lemma swept_list_key cur t t' l key keys :
  (∀ p b, cores t !! p = Some b → p ∈ l ↔ mac_key b = key) →
  shrunk cur t t' → swept cur t' l → swept_keys cur t' keys → swept_keys cur t' (key :: keys).
Proof.
  intros Hl Hs Hsw Hk p b Eb [E|Hin]%elem_of_cons; [|by eapply Hk].
  eapply Hsw; [|done]. eapply Hl; [|exact E]. eapply lookup_weaken; [done|apply Hs].
Qed.

(** Every list swept: the stale bindings are filtered out. *)
Lemma swept_filter cur t t' :
  shrunk cur t t' → swept_keys cur t' (seqZ 0 NPD_DHCP_SNP_HASH_TABLE_SIZE) →
  cores t' = filter (fun '(_, b) => ¬ stale cur b) (cores t).
Proof.
  intros Hs Hl. apply map_eq. intros p. apply option_eq. intros b.
  rewrite map_lookup_filter_Some. split.
  - intros Eb. split; [by eapply lookup_weaken, shrunk_sub|]. eapply Hl; [done|].
    apply elem_of_seqZ. by apply Z.mod_pos_bound.
  - intros [Eb Hn]. destruct (cores t' !! p) as [b'|] eqn:E'.
    + pose proof (lookup_weaken _ _ _ _ E' (shrunk_sub _ _ _ Hs)). congruence.
    + destruct Hn. by eapply shrunk_stale.
Qed.
End Shrunk.

(** ** IPv6 *)

Lemma wp_age_list6 cur : ∀ l fuel t tmp (Q : TBL IPV6_ADDR → Prop),
  map_ok t → chain mac_link t.(heap) tmp l → (length l < fuel)%nat →
  (∀ t', map_ok t' → shrunk cur t t' → swept cur t' l → Q t') → wp (age_list6 fuel cur tmp t) Q.
Proof.
  induction l as [|p l IH]; intros [|fuel] t tmp Q [ips [Hok Hu]] Hc Hl HQ; simpl in Hl; try lia; cbn [age_list6].
  - simpl in Hc. subst tmp. apply HQ; [by exists ips|apply shrunk_refl|by intros ? ? ?%not_elem_of_nil].
  - assert (tmp = Some p) as -> by by destruct Hc. pose proof Hc as (_ & x & Ex & Hc').
    unfold get_item at 1. rewrite Ex. cbn [deref obind]. rewrite stale_test. apply wp_bind.
    pose proof (lookup_cores _ _ _ Ex) as Exc.
    case_bool_decide as Hst.
    + apply wp_bind. eapply wp_item_delete_next; [done|done|done|]. intros t' Hok' Ec Hc2. cbn [wp].
      assert (Hs : shrunk cur t t') by (eapply shrunk_delete; [done|done|by apply stale_core]).
      apply IH; [|done|lia|]. 1: { eexists. split; [done|]. by eapply table_delete. } intros t2 Hok2 Hs2 Hsw.
      apply HQ; [done|by eapply shrunk_trans|]. intros q b [->|Hq]%elem_of_cons; [|by apply Hsw].
      intros Eb. pose proof (lookup_weaken _ _ _ _ Eb (shrunk_sub _ _ _ Hs2)) as Eb'.
      by rewrite Ec, lookup_delete_eq in Eb'.
    + cbn [wp]. apply IH; [by exists ips|exact Hc'|lia|]. intros t2 Hok2 Hs2 Hsw.
      apply HQ; [done|done|]. intros q b [->|Hq]%elem_of_cons; [|by apply Hsw].
      intros Eb. pose proof (lookup_weaken _ _ _ _ Eb (shrunk_sub _ _ _ Hs2)) as Eb'.
      assert (b = core x) as -> by congruence. by rewrite stale_core.
Qed.

Lemma wp_aging6 env s (Q : SNP * Z → Prop) :
  map_ok s.(v6) →
  (∀ t', map_ok t' →
     cores t' = filter (fun '(_, b) => ¬ stale env.(clock).(uptime) b) (cores s.(v6)) →
     Q (s <| v6 := t' |>, 0)) →
  wp (dhcpv6_snp_aging_mechanism env s) Q.
Proof.
  intros Hok HQ. unfold dhcpv6_snp_aging_mechanism. set (cur := env.(clock).(uptime)). apply wp_bind.
  assert (Hgen : ∀ keys t, map_ok t → wp (foldM (fun key t => age_list6 (turns t) cur (t.(mac_hash) !! key) t) keys t)
    (fun t' => map_ok t' ∧ shrunk cur t t' ∧ swept_keys cur t' keys)).
  { induction keys as [|key keys IH]; intros t Ht; cbn [foldM wp].
    - split_and!; [done|apply shrunk_refl|by intros ? ? ? ?%not_elem_of_nil].
    - apply wp_bind. destruct Ht as [ips Ht]. destruct (key_list t ips key (map_tbl _ _ Ht)) as (l & Hc & Hl & Hin).
      eapply wp_age_list6; [by eexists|exact Hc|exact Hl|]. intros t1 Ht1 Hs1 Hsw1.
      eapply wp_mono; [by apply IH|]. intros t2 (Ht2 & Hs2 & Hsw2).
      pose proof (shrunk_trans _ _ _ _ Hs1 Hs2) as Hs. split_and!; [done|done|].
      eapply swept_list_key; [exact Hin|done| |done].
      intros p b Hp Eb. eapply Hsw1; [done|]. eapply lookup_weaken; [done|apply Hs2]. }
  eapply wp_mono; [by apply Hgen|]. intros t' (Ht' & Hs & Hsw). apply HQ; [done|by apply swept_filter].
Qed.

(** ** IPv4 *)

Section V4.
Variable env : ENV.
#[local] Abbreviation cur := env.(clock).(uptime).

(** What the kernel is told before an IPv4 binding goes. *)
Lemma age_kernel x s :
  let r := (if negb (x.(ip_addr) =? 0) && cpu_bound x then
        let '(s, _) := dhcp_snp_netlink_do_ipneigh env false x.(ifindex) x.(ip_addr) x.(chaddr) s in
        match env.(if_indextoname) x.(ifindex) with
        | None => (s, Some DHCP_SNP_RETURN_CODE_ERROR)
        | Some _ => (fst (dhcp_snp_netlink_add_static_route env false x.(ifindex) x.(ip_addr) s), None)
        end
      else (s, None)) in
  only_trace s (fst r) ∧
  (∀ c, snd r = Some c → c ≠ DHCP_SNP_RETURN_CODE_OK ∧ ¬ kernel_ok env).
Proof.
  cbv zeta. destruct (_ && _); [|by split; [auto with stp|]].
  pose proof (ipneigh_only_trace env false x.(ifindex) x.(ip_addr) x.(chaddr) s) as T1.
  destruct (dhcp_snp_netlink_do_ipneigh _ _ _ _ _ _) as [s1 r1]. simpl in T1.
  destruct (if_indextoname env (ifindex x)) eqn:Ei; simpl.
  - split; [|done]. eapply only_trace_trans; [done|apply route_only_trace].
  - split; [done|]. intros c [= <-]. split; [done|]. intros (_ & _ & Hi). destruct (Hi x.(ifindex)); congruence.
Qed.

(** What a walk has done so far. *)
Definition aged_from s s' : Prop := only_v4 s s' ∧ v4_ok s'.(v4) ∧ shrunk cur s.(v4) s'.(v4).

Lemma aged_from_refl s : v4_ok s.(v4) → aged_from s s.
Proof. intros H. split_and!; [auto with stp|done|apply shrunk_refl]. Qed.

Lemma aged_from_trans s1 s2 s3 : aged_from s1 s2 → aged_from s2 s3 → aged_from s1 s3.
Proof.
  intros (V1 & _ & S1) (V2 & O2 & S2).
  split_and!; [by eapply only_v4_trans|done|by eapply shrunk_trans].
Qed.

Lemma aged_from_trace s s' : v4_ok s.(v4) → only_trace s s' → aged_from s s'.
Proof.
  intros Hok Ht. pose proof (only_trace_v4 _ _ Ht) as E.
  split_and!; [by apply only_trace_only_v4|by rewrite E|rewrite E; apply shrunk_refl].
Qed.

Lemma wp_age_item p x l s (Q : SNP * option Z → Prop) :
  v4_ok s.(v4) → s.(v4).(heap) !! p = Some x → chain mac_link s.(v4).(heap) (Some p) (p :: l) →
  (∀ s', aged_from s s' → swept cur s'.(v4) [p] → chain mac_link s'.(v4).(heap) x.(next) l → Q (s', None)) →
  (∀ s' r, aged_from s s' → ¬ kernel_ok env → Q (s', Some r)) →
  wp (age_item env cur p x s) Q.
Proof.
  intros Hok Ex Hc Hgo Hstop. pose proof (lookup_cores _ _ _ Ex) as Exc.
  unfold age_item. rewrite stale_test. case_bool_decide as Hst.
  - pose proof (age_kernel x s) as Hk. cbv zeta in Hk. destruct Hok as [ips Hinv].
    destruct (if _ && _ then _ else _) as [s1 [r|]]; simpl in Hk; destruct Hk as [Ht Hr].
    { apply Hstop; [apply aged_from_trace; [by exists ips|done]|by apply (Hr r)]. }
    pose proof (only_trace_v4 _ _ Ht) as E1.
    apply wp_bind. unfold in_v4. apply wp_bind. rewrite E1.
    eapply wp_item_delete_next; [apply Hinv|done|done|]. intros t' Hok' Ec Hc'. cbn [wp].
    pose proof (v4_delete _ _ _ p Hinv Hok' Ec) as Hinv'.
    apply Hgo; [|intros q b ->%list_elem_of_singleton; simpl; by rewrite Ec, lookup_delete_eq|exact Hc'].
    split_and!; [eapply only_v4_trans; [by apply only_trace_only_v4|auto with stp]|by eexists|].
    eapply shrunk_delete; [exact Ec|done|by apply stale_core].
  - apply Hgo; [by apply aged_from_refl| |by destruct Hc as (_ & x' & Ex' & ?); simplify_eq].
    intros q b ->%list_elem_of_singleton Eb. assert (b = core x) as -> by congruence. by rewrite stale_core.
Qed.

Lemma wp_age_list : ∀ l fuel s tmp (Q : SNP * option Z → Prop),
  v4_ok s.(v4) → chain mac_link s.(v4).(heap) tmp l → (length l < fuel)%nat →
  (∀ s', aged_from s s' → swept cur s'.(v4) l → Q (s', None)) →
  (∀ s' r, aged_from s s' → ¬ kernel_ok env → Q (s', Some r)) →
  wp (age_list env fuel cur tmp s) Q.
Proof.
  induction l as [|p l IH]; intros [|fuel] s tmp Q Hok Hc Hl Hgo Hstop; simpl in Hl; try lia; cbn [age_list].
  - simpl in Hc. subst tmp. apply Hgo; [by apply aged_from_refl|by intros ? ? ?%not_elem_of_nil].
  - assert (tmp = Some p) as -> by by destruct Hc. pose proof Hc as (_ & x & Ex & _).
    unfold get_item. rewrite Ex. cbn [deref obind]. apply wp_bind.
    eapply wp_age_item; [done|exact Ex|exact Hc| |intros s' r Ha Hk; by apply Hstop].
    intros s1 Ha1 Hsw1 Hc1. cbv beta iota. pose proof Ha1 as (_ & Hok1 & _).
    apply IH; [done|exact Hc1|lia| |].
    + intros s2 Ha2 Hsw2. apply Hgo; [by eapply aged_from_trans|].
      intros q b [->|Hq]%elem_of_cons Eb; [|by eapply Hsw2]. destruct Ha2 as (_ & _ & Hs2).
      eapply Hsw1; [by left|]. eapply lookup_weaken; [done|apply Hs2].
    + intros s2 r Ha2 Hk. apply Hstop; [by eapply aged_from_trans|done].
Qed.

Lemma wp_age_keys : ∀ keys s (Q : SNP * Z → Prop),
  v4_ok s.(v4) →
  (∀ s', aged_from s s' → swept_keys cur s'.(v4) keys → Q (s', 0)) →
  (∀ s' r, aged_from s s' → ¬ kernel_ok env → Q (s', r)) →
  wp (age_keys env keys cur s) Q.
Proof.
  induction keys as [|key keys IH]; intros s Q Hok Hgo Hstop; cbn [age_keys].
  - apply Hgo; [by apply aged_from_refl|by intros ? ? ? ?%not_elem_of_nil].
  - apply wp_bind. pose proof Hok as [ips Hinv].
    destruct (key_list s.(v4) ips key (inv_tbl _ _ Hinv)) as (l & Hc & Hl & Hin).
    eapply wp_age_list; [done|exact Hc|exact Hl| |by intros s' r Ha Hk; apply Hstop].
    intros s1 Ha1 Hsw1. cbv beta iota. pose proof Ha1 as (_ & Hok1 & Hs1). apply IH; [done| |].
    + intros s2 Ha2 Hsw2. pose proof (aged_from_trans _ _ _ Ha1 Ha2) as Ha. apply Hgo; [done|].
      destruct Ha as (_ & _ & Hs). eapply swept_list_key; [exact Hin|done| |done].
      destruct Ha2 as (_ & _ & Hs2). intros p b Hp Eb. eapply Hsw1; [done|].
      eapply lookup_weaken; [done|apply Hs2].
    + intros s2 r Ha2 Hk. apply Hstop; [by eapply aged_from_trans|done].
Qed.

(** On the map; when an interface has gone the walk ends early. *)
Lemma wp_aging s (Q : SNP * Z → Prop) :
  snp_ok s →
  (∀ s', only_v4 s s' → snp_ok s' →
     table s'.(v4) = filter (fun '(_, b) => ¬ stale cur b) (table s.(v4)) → Q (s', 0)) →
  (∀ s' r, only_v4 s s' → snp_ok s' → ¬ kernel_ok env → table s'.(v4) ⊆ table s.(v4) →
     (∀ mac b, table s.(v4) !! mac = Some b → table s'.(v4) !! mac = None → stale cur b) → Q (s', r)) →
  wp (dhcp_snp_aging_mechanism env s) Q.
Proof.
  intros Hs Hgo Hstop. pose proof (ok_v4 s Hs) as [ips Hinv]. unfold dhcp_snp_aging_mechanism.
  apply wp_age_keys; [by exists ips|..].
  - intros s' (Hv & Hok & Hsh) Hsw. apply Hgo; [done|by eapply snp_ok_only_v4|].
    eapply (table_filter s.(v4) s'.(v4) (fun b => ¬ stale cur b)); [apply Hinv|by apply swept_filter].
  - intros s' r (Hv & Hok & Hsh) Hk. pose proof Hok as [ips' Hinv'].
    apply Hstop; [done|by eapply snp_ok_only_v4|done|..].
    + apply map_subseteq_spec. intros mac b (p & Ep & Em)%lookup_table; [|apply Hinv'].
      apply lookup_table; [apply Hinv|]. exists p. split; [|done]. eapply lookup_weaken; [done|apply Hsh].
    + intros mac b (p & Ep & Em)%lookup_table Hn; [|apply Hinv].
      eapply (shrunk_stale _ _ _ Hsh); [done|]. destruct (cores s'.(v4) !! p) as [b'|] eqn:E'; [|done].
      assert (b' = b) as ->.
      { pose proof (lookup_weaken _ _ _ _ E' (shrunk_sub _ _ _ Hsh)). congruence. }
      exfalso. assert (table s'.(v4) !! mac = Some b); [|congruence].
      apply lookup_table; [apply Hinv'|eauto].
Qed.

(** ** An interface that has gone *)

Section Stuck.
Variables (p0 : positive) (b0 : ITEM Z).
Hypothesis Hstale : stale cur b0.
Hypothesis Hcpu : cpu_bound b0 = true.
Hypothesis Hip : b0.(ip_addr) ≠ 0.
Hypothesis Hgone : env.(if_indextoname) b0.(ifindex) = None.

(** The binding itself, and those of the lists behind its own. *)
Definition spared (p : positive) (b : ITEM Z) : Prop := p = p0 ∨ mac_key b0 < mac_key b.
Definition spares s s' : Prop :=
  v4_ok s'.(v4) ∧ ∀ p b, cores s.(v4) !! p = Some b → spared p b → cores s'.(v4) !! p = Some b.

Lemma spares_trans s1 s2 s3 : spares s1 s2 → spares s2 s3 → spares s1 s3.
Proof. intros [_ H1] [Hok H2]. split; [done|]. eauto. Qed.

Lemma spares_trace s s' : v4_ok s.(v4) → only_trace s s' → spares s s'.
Proof. intros Hok Ht. unfold spares. by rewrite (only_trace_v4 _ _ Ht). Qed.

Lemma age_item_stuck x s :
  v4_ok s.(v4) → core x = b0 →
  wp (age_item env cur p0 x s) (fun '(s', o) => spares s s' ∧ o = Some DHCP_SNP_RETURN_CODE_ERROR).
Proof.
  intros Hok <-. rewrite core_ip_addr in Hip. destruct (core_fields x) as (_ & _ & _ & _ & Ei & _).
  rewrite Ei in Hgone. unfold age_item. rewrite stale_test, bool_decide_true by by apply stale_core.
  assert (E : cpu_bound x = true) by by destruct x. rewrite E, (proj2 (Z.eqb_neq _ _) Hip). cbn [negb andb].
  pose proof (ipneigh_only_trace env false x.(ifindex) x.(ip_addr) x.(chaddr) s) as T1.
  destruct (dhcp_snp_netlink_do_ipneigh _ _ _ _ _ _) as [s1 r1]. rewrite Hgone. cbn [wp].
  split; [by apply spares_trace|done].
Qed.

Lemma age_item_spares p x l s :
  v4_ok s.(v4) → s.(v4).(heap) !! p = Some x → chain mac_link s.(v4).(heap) (Some p) (p :: l) →
  p ≠ p0 → mac_key (core x) ≤ mac_key b0 →
  wp (age_item env cur p x s) (fun '(s', o) => spares s s' ∧
    match o with
    | None => chain mac_link s'.(v4).(heap) x.(next) l ∧ cores s'.(v4) ⊆ cores s.(v4)
    | Some r => r = DHCP_SNP_RETURN_CODE_ERROR
    end).
Proof.
  intros Hok Ex Hc Hp Hk. unfold age_item. rewrite stale_test. case_bool_decide as Hst.
  - pose proof (age_kernel x s) as Hkern. cbv zeta in Hkern.
    assert (Herr : ∀ r, snd (if negb (x.(ip_addr) =? 0) && cpu_bound x then
        let '(s, _) := dhcp_snp_netlink_do_ipneigh env false x.(ifindex) x.(ip_addr) x.(chaddr) s in
        match env.(if_indextoname) x.(ifindex) with
        | None => (s, Some DHCP_SNP_RETURN_CODE_ERROR)
        | Some _ => (fst (dhcp_snp_netlink_add_static_route env false x.(ifindex) x.(ip_addr) s), None)
        end else (s, None)) = Some r → r = DHCP_SNP_RETURN_CODE_ERROR).
    { intros r. destruct (_ && _); [|done]. destruct (dhcp_snp_netlink_do_ipneigh _ _ _ _ _ _).
      destruct (env.(if_indextoname) x.(ifindex)); [done|]. by intros [= <-]. }
    destruct Hok as [ips Hinv].
    destruct (if _ && _ then _ else _) as [s1 [r|]]; simpl in Hkern, Herr; destruct Hkern as [Ht _].
    { split; [apply spares_trace; [by exists ips|done]|by apply Herr]. }
    pose proof (only_trace_v4 _ _ Ht) as E1.
    apply wp_bind. unfold in_v4. apply wp_bind. rewrite E1.
    eapply wp_item_delete_next; [apply Hinv|done|done|]. intros t' Hok' Ec Hc'. cbn [wp].
    pose proof (v4_delete _ _ _ p Hinv Hok' Ec) as Hinv'.
    split; [split; [by eexists|]|split; [exact Hc'|simpl; rewrite Ec; apply delete_subseteq]].
    intros q b Eb Hq. simpl. rewrite Ec. rewrite lookup_delete_ne; [done|]. intros <-.
    pose proof (lookup_cores _ _ _ Ex) as Exc. assert (b = core x) as -> by congruence.
    destruct Hq as [->|Hlt]; [done|lia].
  - split; [split; [done|by intros]|]. split; [|done]. by destruct Hc as (_ & x' & Ex' & ?); simplify_eq.
Qed.

Lemma age_list_stuck : ∀ l fuel s tmp,
  v4_ok s.(v4) → chain mac_link s.(v4).(heap) tmp l → (length l < fuel)%nat →
  cores s.(v4) !! p0 = Some b0 →
  (∀ p b, p ∈ l → cores s.(v4) !! p = Some b → mac_key b ≤ mac_key b0) →
  wp (age_list env fuel cur tmp s) (fun '(s', o) => spares s s' ∧
    (∀ r, o = Some r → r = DHCP_SNP_RETURN_CODE_ERROR) ∧ (p0 ∈ l → o ≠ None)).
Proof.
  induction l as [|p l IH]; intros [|fuel] s tmp Hok Hc Hl Hp0 Hle; simpl in Hl; try lia; cbn [age_list].
  - simpl in Hc. subst tmp. split_and!; [by split|done|by intros ?%not_elem_of_nil].
  - assert (tmp = Some p) as -> by by destruct Hc. pose proof Hc as (_ & x & Ex & _).
    pose proof (lookup_cores _ _ _ Ex) as Exc.
    unfold get_item. rewrite Ex. cbn [deref obind]. apply wp_bind.
    destruct (decide (p = p0)) as [->|Hne].
    + eapply wp_mono; [apply age_item_stuck; [done|congruence]|]. intros [s1 o] [Hs1 ->].
      split_and!; [done|by intros r [= <-]|done].
    + eapply wp_mono; [eapply age_item_spares; [done|exact Ex|exact Hc|done|]|].
      { eapply Hle; [by left|exact Exc]. }
      intros [s1 [r|]] [Hs1 Ho].
      { split_and!; [done|intros r' [= <-]; exact Ho|done]. }
      destruct Ho as [Hc1 Hsub]. eapply wp_mono.
      { apply IH; [apply Hs1|exact Hc1|lia|apply Hs1; [done|by left]|].
        intros q b Hq Eb. eapply Hle; [by right|]. by eapply lookup_weaken. }
      intros [s2 o] (Hs2 & Hr & Hin). split_and!; [by eapply spares_trans|done|].
      intros [?|?]%elem_of_cons; [congruence|by apply Hin].
Qed.

Lemma age_keys_stuck ks2 : ∀ ks1 s,
  v4_ok s.(v4) → cores s.(v4) !! p0 = Some b0 → Forall (fun k => k ≤ mac_key b0) ks1 →
  wp (age_keys env (ks1 ++ mac_key b0 :: ks2) cur s) (fun '(s', r) => spares s s' ∧ r = DHCP_SNP_RETURN_CODE_ERROR).
Proof.
  induction ks1 as [|key ks1 IH]; intros s Hok Hp0 Hks; cbn [app age_keys]; apply wp_bind;
    pose proof Hok as [ips Hinv].
  - destruct (key_list s.(v4) ips (mac_key b0) (inv_tbl _ _ Hinv)) as (l & Hc & Hl & Hin).
    eapply wp_mono; [apply (age_list_stuck l); [done|exact Hc|exact Hl|done|]|].
    { intros p b Hp Eb. apply (Hin p b Eb) in Hp. lia. }
    intros [s1 [r|]] (Hs1 & Hr & Hn); [by split; [|apply Hr]|]. destruct Hn; [|done]. by apply (Hin p0 b0).
  - apply list.Forall_cons in Hks as [Hkey Hks].
    destruct (key_list s.(v4) ips key (inv_tbl _ _ Hinv)) as (l & Hc & Hl & Hin).
    eapply wp_mono; [apply (age_list_stuck l); [done|exact Hc|exact Hl|done|]|].
    { intros p b Hp Eb. apply (Hin p b Eb) in Hp. lia. }
    intros [s1 [r|]] (Hs1 & Hr & Hn); [by split; [|apply Hr]|].
    eapply wp_mono; [apply IH; [apply Hs1|apply Hs1; [done|by left]|done]|].
    intros [s2 r] [Hs2 ->]. split; [by eapply spares_trans|done].
Qed.

Lemma aging_stuck s :
  snp_ok s → cores s.(v4) !! p0 = Some b0 →
  wp (dhcp_snp_aging_mechanism env s) (fun '(s', r) =>
    r = DHCP_SNP_RETURN_CODE_ERROR ∧ v4_ok s'.(v4) ∧
    ∀ mac b, table s.(v4) !! mac = Some b → mac = b0.(chaddr) ∨ dhcp_snp_tbl_hash b0.(chaddr) < dhcp_snp_tbl_hash mac →
      table s'.(v4) !! mac = Some b).
Proof.
  intros Hs Hp0. destruct (ok_v4 s Hs) as [ips Hinv]. unfold dhcp_snp_aging_mechanism.
  assert (Hk0 : 0 ≤ mac_key b0 < NPD_DHCP_SNP_HASH_TABLE_SIZE) by by apply Z.mod_pos_bound.
  assert (E : seqZ 0 NPD_DHCP_SNP_HASH_TABLE_SIZE =
    seqZ 0 (mac_key b0) ++ mac_key b0 :: seqZ (Z.succ (mac_key b0)) (NPD_DHCP_SNP_HASH_TABLE_SIZE - mac_key b0 - 1)).
  { replace NPD_DHCP_SNP_HASH_TABLE_SIZE with (mac_key b0 + (NPD_DHCP_SNP_HASH_TABLE_SIZE - mac_key b0)) at 1 by lia.
    rewrite seqZ_app by lia. f_equal. rewrite seqZ_cons by lia. f_equal; f_equal; lia. }
  rewrite E. eapply wp_mono; [apply age_keys_stuck; [by exists ips|done|]|].
  { apply Forall_forall. intros k [? ?]%elem_of_seqZ. lia. }
  intros [s' r] [[[ips' Hinv'] Hsp] ->]. split_and!; [done|by exists ips'|].
  intros mac b (p & Ep & Em)%lookup_table Hor; [|apply Hinv]. apply lookup_table; [apply Hinv'|].
  exists p. split; [|done]. apply Hsp; [done|]. destruct Hor as [Emac|Hlt].
  - left. eapply (inv_mac _ _ Hinv); [done|done|congruence].
  - right. unfold mac_key. by rewrite Em.
Qed.
End Stuck.
End V4.
