(* ===== verification/DhcpV6.v ===== *)
(** * The messages of DHCPv6 on the finite map of IPv6 bindings

    The IPv6 handlers are those of IPv4 without the kernel: [snoop6] is what a
    message does to the bindings.  Addresses have to contain a zero byte, since
    the code treats them as strings. *)

From Stdlib Require Import ZArith Lia.
From stdpp Require Import base gmap list option fin_maps.
From S2P Require Import Prelude Chain DhcpTbl DhcpUnres DhcpSnp DhcpOptions DhcpPkt.
From S2P Require Import DhcpTable DhcpBind DhcpUnresProps DhcpHandle.

Implicit Types (t : TBL IPV6_ADDR) (b x : ITEM IPV6_ADDR) (u : USER IPV6_ADDR) (s : SNP).
Implicit Types m : gmap (list Z) (ITEM IPV6_ADDR).

(** ** The specification *)

(** REPLY: the client has the address; other bindings that hold it keep it. *)
Definition spec_reply c u m :=
  match m !! u.(u_chaddr) with
  | Some b => if decide (is_static b) then m
              else <[u.(u_chaddr) := dhcp_snp_tbl_fill_bind c (as_bound u) b]> m
  | None => m
  end.

Definition snoop6 c (message : Z) u m :=
  if message =? NPD_DHCPv6_TYPE_SOLICIT then spec_insert c u m
  else if message =? NPD_DHCPv6_TYPE_REQUEST then spec_insert c u m
  else if message =? NPD_DHCPv6_TYPE_CONFIRM then spec_insert c u m
  else if message =? NPD_DHCPv6_TYPE_REPLY then spec_reply c u m
  else if message =? NPD_DHCPv6_TYPE_RELEASE then spec_remove u m
  else m.

Record snp6_ok s : Prop := {
  ok6_v6 : map_ok s.(v6);
  ok6_unres : u_ok s.(unres6);
  ok6_safe : u_safe s.(unres6) }.

(** Only the IPv6 half of the state has changed, the record of effects and the
    sockets to [asd]. *)
Definition only_v6 s s' : Prop :=
  s' = s <| v6 := s'.(v6) |> <| unres6 := s'.(unres6) |> <| fd_table := s'.(fd_table) |>
         <| trace := s'.(trace) |>.

Lemma only_v6_trans s1 s2 s3 : only_v6 s1 s2 → only_v6 s2 s3 → only_v6 s1 s3.
Proof. unfold only_v6. intros E1 E2. rewrite E1 in E2. rewrite E2. by destruct s1. Qed.
Lemma only_v6_emit e s : only_v6 s (snp_emit e s).
Proof. by destruct s. Qed.

Definition handle6_post s (spec : gmap (list Z) (ITEM IPV6_ADDR) → gmap (list Z) (ITEM IPV6_ADDR))
    (r : SNP * Z) : Prop :=
  snp6_ok r.1 ∧ only_v6 s r.1 ∧ table r.1.(v6) = spec (table s.(v6)) ∧ r.2 = DHCP_SNP_RETURN_CODE_OK.

Lemma handle6_same s spec : snp6_ok s → spec (table s.(v6)) = table s.(v6) →
  handle6_post s spec (s, DHCP_SNP_RETURN_CODE_OK).
Proof. intros Hs E. split_and!; [done|by destruct s|done|done]. Qed.

Lemma handle6_put s spec t : snp6_ok s → map_ok t → table t = spec (table s.(v6)) →
  handle6_post s spec (s <| v6 := t |>, DHCP_SNP_RETURN_CODE_OK).
Proof. intros [_ Hu Hsf] Ht E. split_and!; [by split|by destruct s|done|done]. Qed.

Section Handlers.
Variable env : ENV.

(** ** Binding *)

Lemma wp_refresh_bind6 u p x ips s (Q : SNP * Z → Prop) :
  map_inv s.(v6) ips → s.(v6).(heap) !! p = Some x → x.(chaddr) = u.(u_chaddr) → good u.(u_ip_addr) →
  (∀ t' x', map_ok t' →
     table t' = <[u.(u_chaddr) := dhcp_snp_tbl_fill_bind env.(clock) u (core x)]> (table s.(v6)) →
     t'.(heap) !! p = Some x' → core x' = dhcp_snp_tbl_fill_bind env.(clock) u (core x) →
     Q (s <| v6 := t' |>, DHCP_SNP_RETURN_CODE_OK)) →
  wp (dhcpv6_snp_tbl_refresh_bind env u p s) Q.
Proof.
  intros [Hok Hu] Ex Em Hg HQ.
  unfold dhcpv6_snp_tbl_refresh_bind, dhcpv6_snp_tbl_fill_bind.
  assert (Hno : ∀ a, good a → ∃ b : bool, no_addr a = Done b).
  { intros a Ha. destruct (wp_elim _ _ (good_no a Ha)) as (b & E & _). eauto. }
  destruct (Hno _ Hg) as [b Eb]. rewrite Eb. cbn [obind]. apply wp_bind.
  (* the bindings that hold the address leave the IP hash *)
  assert (Hdrop : wp (if b then Done (s.(v6), None) else by_ip_loop (turns s.(v6)) u.(u_ip_addr) drop_iphash s.(v6))
    (fun '(t1, _) => ∃ ips1, tbl_ok t1 ips1 ∧ cores t1 = cores s.(v6))).
  { destruct b; [by exists ips|]. eapply wp_drop_loop; [exact Hok|exact Hg|]. intros t1 ips1 ? ? _ _. eauto. }
  eapply wp_mono; [exact Hdrop|]. intros [t1 r1] (ips1 & Hok1 & Ec1).
  destruct (cores_same _ t1 p x Ec1 Ex) as (x1 & Ex1 & E1).
  change (get_item t1 p) with (deref (t1.(heap) !! p)). rewrite Ex1. cbn [deref obind].
  destruct (Hno _ (heap_good _ _ Hok1 p x1 Ex1)) as [b1 Eb1]. rewrite Eb1. cbn [obind]. apply wp_bind.
  (* so does the client's *)
  assert (Hdel : wp (if b1 then Done (t1, DHCP_SNP_RETURN_CODE_OK) else dhcp_snp_tbl_item_delete_iphash t1 p)
    (fun '(t2, _) => ∃ ips2, tbl_ok t2 ips2 ∧ cores t2 = cores s.(v6) ∧ (p ∉ ips2))).
  { destruct b1; cbn [wp].
    - exists ips1. split_and!; [done|done|]. intros Hp. pose proof (ips_addr _ _ Hok1 p x1 Hp Ex1). congruence.
    - eapply wp_delete_iphash; [exact Hok1|by eexists|]. intros t2 r2 Hok2 Ec2 _. exists (ips1 ∖ {[p]}).
      split_and!; [done|congruence|set_solver]. }
  eapply wp_mono; [exact Hdel|]. intros [t2 r2] (ips2 & Hok2 & Ec2 & Hp2).
  destruct (cores_same _ t2 p x Ec2 Ex) as (x2 & Ex2 & E2).
  change (get_item t2 p) with (deref (t2.(heap) !! p)). rewrite Ex2. cbn [deref obind].
  (* it is rewritten *)
  set (x3 := dhcp_snp_tbl_fill_bind env.(clock) u x2).
  destruct (fill_bind_fields env.(clock) u x2) as (Em3 & Ei3 & _ & En3 & Ein3 & _). fold x3 in Em3, Ei3, En3, Ein3.
  assert (Hg3 : good x3.(ip_addr)) by by rewrite Ei3.
  destruct (tbl_ok_put t2 ips2 p x2 x3 Hok2 Ex2 En3 Ein3 Em3 Hg3 (or_intror Hp2)) as [Hok3 Ec3].
  assert (Ecf : cores (put_item t2 p x3) = <[p := dhcp_snp_tbl_fill_bind env.(clock) u (core x)]> (cores s.(v6))).
  { rewrite Ec3, Ec2. f_equal. unfold x3. rewrite fill_bind_core. by rewrite E2. }
  assert (Hfin : ∀ t4 ips4, tbl_ok t4 ips4 → cores t4 = cores (put_item t2 p x3) →
    Q (s <| v6 := t4 |>, DHCP_SNP_RETURN_CODE_OK)).
  { intros t4 ips4 Hok4 Ec4. rewrite Ecf in Ec4.
    destruct (fill_bind_fields env.(clock) u (core x)) as (Em4 & _).
    destruct (table_update s.(v6) t4 p (core x) _ Hu (lookup_cores _ _ _ Ex) Em4 Ec4) as [Hu4 Et4].
    assert (Ep4 : cores t4 !! p = Some (dhcp_snp_tbl_fill_bind env.(clock) u (core x))) by (rewrite Ec4; apply lookup_insert_eq).
    apply lookup_cores_inv in Ep4 as (x4 & Ex4 & E4).
    apply (HQ t4 x4); [by exists ips4|by rewrite Et4, core_chaddr, Em|done|done]. }
  destruct (Hno _ Hg3) as [b3 Eb3]. rewrite Eb3. cbn [obind]. apply wp_bind.
  destruct b3; cbn [wp]; [by apply (Hfin _ ips2)|].
  eapply wp_insert_ip_hash; [exact Hok3|by simpl; rewrite lookup_insert_eq|congruence|].
  intros _ t4 ips4 Hok4 Ec4 _. cbn [wp]. by apply (Hfin t4 ips4).
Qed.

(** ** Telling [asd] *)

Lemma wp_initiative_notify6 mac ip s (Q : SNP → Prop) :
  snp6_ok s → (∀ s', s'.(v6) = s.(v6) → snp6_ok s' → only_v6 s s' → Q s') →
  wp (dhcpv6_snp_initiative_notify_asd env mac ip s) Q.
Proof.
  intros Hs HQ. assert (Hself : only_v6 s s) by by destruct s.
  unfold dhcpv6_snp_initiative_notify_asd. apply wp_bind.
  apply wp_u_find; [apply Hs| |by intros _; apply HQ].
  intros p x Ex Em. rewrite Ex. cbn [deref obind].
  pose proof (ok6_safe s Hs p _ (ucores_lookup _ _ _ Ex)) as Hsafe.
  assert (Hx : 0 ≤ x.(vrrpid) < MAX_HANSI_PROFILE ∧ 0 ≤ x.(local_flag) ≤ 1) by by destruct x.
  set (x' := x <| n_ipaddr := ip |>).
  destruct (u_ok_put s.(unres6) p x x' (ok6_unres s Hs) Ex) as [Hok Ec]; [by destruct x|by destruct x|].
  set (t1 := s.(unres6) <| u_heap := <[p := x']> s.(unres6).(u_heap) |>) in *.
  assert (Hsafe1 : u_safe t1).
  { intros q b. rewrite Ec. destruct (decide (q = p)) as [->|Hq].
    - rewrite lookup_insert_eq. intros [= <-]. by destruct x.
    - rewrite lookup_insert_ne by done. apply (ok6_safe s Hs). }
  assert (Hput : ∀ (t' : UTBL IPV6_ADDR) fds tr, u_ok t' → u_safe t' →
    wp (Done (s <| unres6 := t' |> <| fd_table := fds |> <| trace := tr |>)) Q).
  { intros t' fds tr Ht Hsf. apply HQ; [done|split; [apply Hs|done|done]|by destruct s]. }
  apply wp_bind. unfold dhcpv6_snp_notify_asd. apply wp_bind.
  apply wp_asd_socket; [destruct x; apply Hx|destruct x; apply Hx|]. intros fds ok.
  pose proof (Hput t1 fds s.(trace) Hok Hsafe1) as Hdone.
  destruct ok; cbn [negb]; [|exact Hdone].
  destruct (asd_send_ok env); cbn [negb]; [|exact Hdone].
  apply wp_bind. eapply wp_u_del_gen; [exact Hok|..].
  - intros t' q z Hok' _ _ _ Ec'. apply (Hput t' fds _ Hok').
    intros r b. rewrite Ec'. intros [Eb _]%map_lookup_filter_Some. by apply Hsafe1 in Eb.
  - intros _ ret. by apply (Hput t1 fds _ Hok).
Qed.

(** ** The handlers *)

Section Messages.
Variables (buf : list Z) (vid ifx packet : Z) (mac : list Z) (u : USER IPV6_ADDR).

Definition parsed6 (type : Z) s : Prop :=
  dhcpv6_snp_get_item_from_pkt buf vid ifx packet mac type s.(v6) zero_user = Done (u, DHCP_SNP_RETURN_CODE_OK).

Lemma wp_client6 s (Q : SNP * Z → Prop) (k : positive → outcome (SNP * Z)) (z : outcome (SNP * Z)) :
  snp6_ok s →
  (∀ p x ips, map_inv s.(v6) ips → s.(v6).(heap) !! p = Some x → x.(chaddr) = u.(u_chaddr) →
     table s.(v6) !! u.(u_chaddr) = Some (core x) → wp (k p) Q) →
  (∀ ips, map_inv s.(v6) ips → table s.(v6) !! u.(u_chaddr) = None → wp z Q) →
  wp (let* item := dhcp_snp_tbl_item_find s.(v6) u in
      match item with Some p => k p | None => z end) Q.
Proof.
  intros Hs Hk Hz. destruct (ok6_v6 s Hs) as [ips Hinv]. apply wp_bind.
  eapply wp_map_find; [apply Hinv|apply Hinv|..].
  - intros p x Ex Et. apply (Hk p x ips Hinv Ex); [|done].
    rewrite <- (core_chaddr x). by eapply table_chaddr; [apply Hinv|].
  - by apply (Hz ips).
Qed.

Lemma insert6_ok type s :
  parsed6 type s → snp6_ok s → good u.(u_ip_addr) →
  wp (insert6_process env buf vid ifx packet mac type s) (handle6_post s (spec_insert env.(clock) u)).
Proof.
  intros Hget Hs Hg. unfold insert6_process, dhcpv6_snp_tbl_item_insert. rewrite Hget. cbn [obind].
  change (negb (is_ok DHCP_SNP_RETURN_CODE_OK)) with false. cbv iota.
  apply wp_client6; [done|..].
  - intros p x ips _ _ _ Et. apply handle6_same; [done|]. unfold spec_insert. by rewrite Et.
  - intros ips Hinv Et. pose proof (map_insert env.(clock) s.(v6) ips (as_request u) Hinv Hg) as Hins.
    change (u <| u_state := NPD_DHCP_SNP_BIND_STATE_REQUEST |>) with (as_request u).
    destruct (dhcp_snp_tbl_item_insert env.(clock) s.(v6) (as_request u)) as [t' q].
    destruct Hins as (_ & Hinv' & _ & _ & Et'); [by destruct u|].
    apply handle6_put; [done|by exists ips|]. unfold spec_insert. rewrite Et, Et'. by destruct u.
Qed.

Lemma reply_ok s :
  parsed6 NPD_DHCPv6_TYPE_REPLY s → snp6_ok s → good u.(u_ip_addr) →
  wp (dhcp_snp_reply_process env buf vid ifx packet mac s) (handle6_post s (spec_reply env.(clock) u)).
Proof.
  intros Hget Hs Hg. unfold dhcp_snp_reply_process. rewrite Hget. cbn [obind].
  change (negb (is_ok DHCP_SNP_RETURN_CODE_OK)) with false. cbv iota.
  apply wp_client6; [done|..].
  2: { intros ips _ Et. apply handle6_same; [done|]. unfold spec_reply. by rewrite Et. }
  intros p x ips Hinv Ex Em Et. change (get_item s.(v6) p) with (deref (s.(v6).(heap) !! p)). rewrite Ex. cbn [deref obind].
  destruct (Z.eqb_spec x.(bind_type) NPD_DHCP_SNP_BIND_TYPE_STATIC) as [Est|Est].
  { apply handle6_same; [done|]. unfold spec_reply. rewrite Et, decide_True; [done|by destruct x]. }
  change (u <| u_state := NPD_DHCP_SNP_BIND_STATE_BOUND |>) with (as_bound u).
  apply wp_bind. eapply wp_refresh_bind6; [exact Hinv|exact Ex|exact Em|exact Hg|].
  intros t' x' Ht' Et' Ex' Ec'. change (negb (is_ok DHCP_SNP_RETURN_CODE_OK)) with false. cbv iota.
  change (get_item _ p) with (deref (t'.(heap) !! p)). rewrite Ex'. cbn [deref obind].
  assert (Etab : table t' = spec_reply env.(clock) u (table s.(v6))).
  { unfold spec_reply. rewrite Et, decide_False; [done|]. intros E. apply Est. by destruct x. }
  destruct (handle6_put s _ t' Hs Ht' Etab) as (Hs' & Hv' & _). simpl in Hs', Hv'.
  assert (Hno : ∃ b : bool, no_addr x'.(ip_addr) = Done b).
  { destruct Ht' as [ips' [Hok' _]]. destruct (wp_elim _ _ (good_no _ (heap_good _ _ Hok' p x' Ex'))) as (b & E & _). eauto. }
  destruct Hno as [b Eb]. rewrite Eb. cbn [obind]. apply wp_bind.
  assert (Hend : ∀ s2, s2.(v6) = t' → snp6_ok s2 → only_v6 s s2 →
    wp (Done (if negb (dhcp_snp_notify_portal_enable s2 =? 0)
              then snp_emit (NOTIFY_PORTAL_V6 x'.(ip_addr) x'.(chaddr)) s2 else s2, DHCP_SNP_RETURN_CODE_OK))
       (handle6_post s (spec_reply env.(clock) u))).
  { intros s2 E2 [Ha Hb Hc] Hv2.
    destruct (negb _); split_and!; simpl; try done;
      [eapply only_v6_trans; [done|apply only_v6_emit]|by rewrite E2|by rewrite E2]. }
  destruct b; cbn [wp]; [by apply Hend|].
  apply wp_initiative_notify6; [done|]. intros s2 E2 Hs2 Hv2. apply Hend; [done|done|].
  exact (only_v6_trans _ _ _ Hv' Hv2).
Qed.

Lemma release6_ok s :
  parsed6 NPD_DHCPv6_TYPE_RELEASE s → snp6_ok s → u.(u_haddr_len) ≤ 6 →
  wp (dhcpv6_snp_release_process buf vid ifx packet mac s) (handle6_post s (spec_remove u)).
Proof.
  intros Hget Hs Hl. unfold dhcpv6_snp_release_process, dhcpv6_snp_tbl_identity_item, dhcpv6_snp_tbl_item_delete. rewrite Hget. cbn [obind].
  change (negb (is_ok DHCP_SNP_RETURN_CODE_OK)) with false. cbv iota.
  apply wp_client6; [done|..].
  2: { intros ips _ Et. apply handle6_same; [done|]. unfold spec_remove. by rewrite Et. }
  intros p x ips Hinv Ex Em Et.
  assert (Hsame : ¬ (is_dynamic (core x) ∧ identical u (core x)) →
    wp (Done (s, DHCP_SNP_RETURN_CODE_OK)) (handle6_post s (spec_remove u))).
  { intros Hn. apply handle6_same; [done|]. unfold spec_remove. by rewrite Et, decide_False. }
  unfold get_item. rewrite Ex. cbn [deref obind].
  destruct (Z.eqb_spec x.(bind_type) NPD_DHCP_SNP_BIND_TYPE_STATIC) as [Est|Est].
  { apply Hsame. intros [Hd _]. unfold is_dynamic in Hd. destruct x; simpl in *; by rewrite Hd in Est. }
  destruct (identity_spec u x Em Hl) as (r & -> & Hr). cbn [obind]. rewrite Hr.
  case_bool_decide as Hid; cbn [negb]; [|apply Hsame; tauto].
  destruct (Z.eqb_spec x.(bind_type) NPD_DHCP_SNP_BIND_TYPE_DYNAMIC) as [Ed|Ed].
  2: { apply Hsame. intros [Hd _]. destruct x; by apply Ed. }
  apply wp_bind. unfold in_v6. apply wp_bind.
  eapply wp_map_delete; [by exists ips|exact Ex|]. intros t' Ht' Et'. cbn [wp].
  change (negb (is_ok DHCP_SNP_RETURN_CODE_OK)) with false. cbv iota.
  apply handle6_put; [done|done|]. unfold spec_remove. rewrite Et, decide_True; [by rewrite Et', Em|].
  split; [by destruct x|done].
Qed.
End Messages.
End Handlers.
