(* ===== verification/DhcpAdmin.v ===== *)
(** * ARP, static bindings, stations and switching off

    What else changes the IPv4 bindings or reads them, on the finite map. *)

From Stdlib Require Import ZArith Lia.
From stdpp Require Import base gmap list option fin_maps.
From S2P Require Import Prelude Chain DhcpTbl DhcpUnres DhcpSnp DhcpOptions DhcpPkt.
From S2P Require Import DhcpTable DhcpBind DhcpUnresProps DhcpHandle DhcpV6.

Implicit Types (t : TBL Z) (b x : ITEM Z) (u : USER Z) (s : SNP) (node : LISTENER) (mac : list Z).

(** ** The table is freed *)

Section Destroy.
Context {A : Type} `{ADDR_LAWS A}.
Implicit Types (h : gmap positive (ITEM A)).

(** The nodes whose list has not been freed yet. *)
Definition unfreed (keys : list Z) h : gmap positive (ITEM A) :=
  filter (fun '(_, x) => mac_key x ∈ keys) h.

Lemma wp_free_list l : ∀ h (Q : gmap positive (ITEM A) → Prop),
  NoDup l → (∀ p, p ∈ l → is_Some (h !! p)) →
  (∀ h', (∀ p, h' !! p = if decide (p ∈ l) then None else h !! p) → Q h') →
  wp (foldM (fun item h => let* _ := deref (h !! item) in Done (delete item h)) l h) Q.
Proof.
  induction l as [|p l IH]; intros h Q Hnd Hin HQ; cbn [foldM wp].
  - apply HQ. intros p. rewrite decide_False by apply not_elem_of_nil. done.
  - apply list.NoDup_cons in Hnd as [Hp Hnd]. destruct (Hin p ltac:(left)) as [x Ex]. rewrite Ex.
    cbn [deref obind]. apply IH; [done| |].
    + intros q Hq. rewrite lookup_delete_ne by (intros ->; done). apply Hin. by right.
    + intros h' Hh. apply HQ. intros q. rewrite Hh. destruct (decide (q ∈ l)) as [Hq|Hq].
      * by rewrite decide_True by by right.
      * destruct (decide (q = p)) as [->|Hne].
        -- rewrite decide_True by left. apply lookup_delete_eq.
        -- rewrite decide_False by by rewrite elem_of_cons; intros [?|?]. by apply lookup_delete_ne.
Qed.

(** Every node is freed, and freed once. *)
Lemma wp_destroy (t : TBL A) ips (Q : TBL A → Prop) :
  tbl_ok t ips → Q (mkTbl ∅ ∅ ∅) → wp (dhcp_snp_tbl_destroy t) Q.
Proof.
  intros Hok HQ. unfold dhcp_snp_tbl_destroy. apply wp_bind.
  destruct (mac_ok t ips Hok) as [_ (B & HB)].
  assert (Hgen : ∀ keys, NoDup keys → wp (foldM (fun i h =>
      let* l := walk mac_link (S (size h)) h (t.(mac_hash) !! i) in
      foldM (fun item h => let* _ := deref (h !! item) in Done (delete item h)) l h)
    keys (unfreed keys t.(heap))) (fun h => h = ∅)).
  { induction keys as [|key keys IH]; intros Hnd; cbn [foldM wp].
    - unfold unfreed. apply map_empty. intros p. apply map_lookup_filter_None. right.
      intros x _ []%not_elem_of_nil.
    - apply list.NoDup_cons in Hnd as [Hkey Hnd]. destruct (HB key) as [Hc Hk].
      assert (Hc' : chain mac_link (unfreed (key :: keys) t.(heap)) (t.(mac_hash) !! key) (B key)).
      { eapply chain_frame; [|exact Hc]. intros p x Hp Ex. exists x. split; [|done].
        apply map_lookup_filter_Some. split; [done|]. apply (Hk p x Ex) in Hp as [_ ->]. left. }
      apply wp_bind. apply wp_bind. pose proof (chain_fuel _ _ _ _ Hc') as Hl.
      eapply wp_walk; [exact Hc'|lia|]. apply wp_free_list; [by eapply chain_NoDup|..].
      { intros p Hp. by eapply chain_elem. }
      intros h' Hh. replace h' with (unfreed keys t.(heap)); [by apply IH|].
      apply map_eq. intros p. rewrite Hh. unfold unfreed. apply option_eq. intros x.
      destruct (decide (p ∈ B key)) as [Hp|Hp].
      + split; [|done]. intros [Ex Hx]%map_lookup_filter_Some. apply (Hk p x Ex) in Hp as [_ E]. congruence.
      + rewrite !map_lookup_filter_Some, elem_of_cons. split; [tauto|]. intros [Ex [E|?]]; [|done].
        destruct Hp. apply (Hk p x Ex). split; [apply elem_of_dom; by eexists|done]. }
  replace t.(heap) with (unfreed (seqZ 0 NPD_DHCP_SNP_HASH_TABLE_SIZE) t.(heap)) at 1.
  - eapply wp_mono; [apply Hgen, NoDup_seqZ|]. intros h ->. exact HQ.
  - unfold unfreed. apply map_filter_id. intros p x _. apply elem_of_seqZ. by apply Z.mod_pos_bound.
Qed.
End Destroy.

Lemma wp_disable s (Q : SNP * Z → Prop) :
  snp_ok s →
  (s.(sock_list) ≠ [] → Q (s, DHCP_SNP_RETURN_CODE_EN_INTF)) →
  (s.(sock_list) = [] →
     Q (dhcp_snp_set_global_status NPD_DHCP_SNP_DISABLE s <| v4 := mkTbl ∅ ∅ ∅ |>, DHCP_SNP_RETURN_CODE_OK)) →
  wp (dhcp_snp_disable s) Q.
Proof.
  intros Hs Hno HQ. unfold dhcp_snp_disable. destruct s.(sock_list) as [|n l] eqn:E; [|by apply Hno].
  destruct (ok_v4 s Hs) as [ips Hinv]. apply wp_bind.
  eapply wp_destroy; [apply Hinv|]. cbn [wp]. by apply HQ.
Qed.

(** ** Static bindings *)

Definition static_user (ip : Z) mac (ifx : Z) : USER Z :=
  zero_user <| u_ip_addr := ip |> <| u_chaddr := mac |> <| u_ifindex := ifx |>
    <| u_bind_type := NPD_DHCP_SNP_BIND_TYPE_STATIC |> <| u_state := NPD_DHCP_SNP_BIND_STATE_BOUND |>.

(** Nobody is bound to the address. *)
Definition unused t (ip : Z) : Prop := ∀ mac b, table t !! mac = Some b → bound b → b.(ip_addr) ≠ ip.

Lemma unused_cores t ip : mac_uniq (cores t) →
  unused t ip ↔ ∀ p b, cores t !! p = Some b → bound b → b.(ip_addr) ≠ ip.
Proof.
  intros Hu. split.
  - intros H p b Eb. apply (H b.(chaddr)). apply lookup_table; [done|eauto].
  - intros H mac b (p & Eb & _)%lookup_table; [|done]. by apply (H p).
Qed.

(** A new binding that is bound: the table and the IP hash get it. *)
Lemma wp_insert_bound c t ips u (Q : TBL Z → Prop) :
  v4_inv t ips → table t !! u.(u_chaddr) = None → unused t u.(u_ip_addr) → u.(u_ip_addr) ≠ 0 →
  u.(u_state) = NPD_DHCP_SNP_BIND_STATE_BOUND → u.(u_bind_type) = NPD_DHCP_SNP_BIND_TYPE_STATIC →
  (∀ t', v4_ok t' → table t' = <[u.(u_chaddr) := new_core c u]> (table t) → Q t') →
  wp (let '(t', item) := dhcp_snp_tbl_item_insert c t u in dhcp_snp_tbl_item_insert_ip_hash t' item) Q.
Proof.
  intros Hinv Hn Hun Hip Hst Hty HQ. rewrite (unused_cores t _ (inv_mac _ _ Hinv)) in Hun.
  pose proof (map_insert c t ips u (Build_map_inv _ _ (inv_tbl _ _ Hinv) (inv_mac _ _ Hinv)) I Hn) as Hins.
  destruct (dhcp_snp_tbl_item_insert c t u) as [t' p]. destruct Hins as (Hips & [Hok Hu] & Hpn & Ec & Et).
  assert (Ep : cores t' !! p = Some (new_core c u)) by (rewrite Ec; apply lookup_insert_eq).
  destruct (lookup_cores_inv _ _ _ Ep) as (x & Ex & Ecx).
  assert (Exip : x.(ip_addr) = u.(u_ip_addr)) by by rewrite <- (core_ip_addr x), <- Ecx.
  assert (Hb : bound (new_core c u)) by by split.
  eapply wp_insert_ip_hash; [exact Hok|exact Ex|rewrite Exip; by intros [= E%Z.eqb_eq]|].
  intros _ t2 ips2 Hok2 Ec2 Hips2. rewrite Ec in Ec2.
  assert (Hother : ∀ q b, q ≠ p → cores t !! q = Some b → q ∈ ips2 ↔ q ∈ ips).
  { intros q b Hq Eb. assert (Eb' : cores t' !! q = Some b) by by rewrite Ec, lookup_insert_ne.
    destruct (lookup_cores_inv _ _ _ Eb') as (y & Ey & ->). rewrite (Hips2 q y Ey). split; [tauto|].
    intros Hqi. right. split; [done|]. intros [_ [= E%Z.eqb_eq]].
    apply (Hun q _ Eb); [by apply (inv_ips _ _ Hinv q _ Eb)|]. rewrite core_ip_addr. congruence. }
  apply HQ; [|by rewrite (table_cores t' t2) by congruence]. exists ips2. split; [done| |by rewrite Ec2, <- Ec|..]; rewrite Ec2.
  - intros q b. destruct (decide (q = p)) as [->|Hq].
    + rewrite lookup_insert_eq. intros [= <-]. split; [done|]. intros _. apply (Hips2 p x Ex). by left.
    + rewrite lookup_insert_ne by done. intros Eb. rewrite (Hother q b Hq Eb). by apply (inv_ips _ _ Hinv).
  - intros q r b b'. destruct (decide (q = p)) as [->|Hq], (decide (r = p)) as [->|Hr];
      rewrite ?lookup_insert_eq, ?lookup_insert_ne by done; [done|..|apply (inv_ip _ _ Hinv)].
    + intros [= <-] Eb _ Hb' E. destruct (Hun r b' Eb Hb'). by rewrite <- E.
    + intros Eb [= <-] Hb' _ E. by destruct (Hun q b Eb Hb').
  - intros q b. destruct (decide (q = p)) as [->|Hq].
    + rewrite lookup_insert_eq. intros [= <-] _ Hd. by destruct Hd.
    + rewrite lookup_insert_ne by done. apply (inv_valid _ _ Hinv).
Qed.

Section Admin.
Variable env : ENV.

(** The request is refused when the client or the address is known. *)
Lemma wp_wan_add ip mac ifx s (Q : SNP * Z → Prop) :
  snp_ok s → s.(dhcp_snp_status) = NPD_DHCP_SNP_ENABLE → ip ≠ 0 → ifx ≠ 0 →
  (is_Some (table s.(v4) !! mac) ∨ ¬ unused s.(v4) ip → Q (s, DHCP_SNP_RETURN_CODE_ALREADY_SET)) →
  (table s.(v4) !! mac = None → unused s.(v4) ip → ∀ t, v4_ok t →
     table t = <[mac := new_core env.(clock) (static_user ip mac ifx)]> (table s.(v4)) →
     Q (s <| v4 := t |> <| static_table := mkStatic ip mac ifx :: s.(static_table) |>, DHCP_SNP_RETURN_CODE_OK)) →
  wp (dhcp_snp_dbus_add_wan_bind_table env ip mac ifx s) Q.
Proof.
  intros Hs Hen Hip Hif Hknown Hnew. unfold dhcp_snp_dbus_add_wan_bind_table, dhcp_snp_check_global_status.
  rewrite Hen. change (NPD_DHCP_SNP_ENABLE =? NPD_DHCP_SNP_ENABLE) with true. cbv iota.
  change (DHCP_SNP_RETURN_CODE_ENABLE_GBL =? DHCP_SNP_RETURN_CODE_ENABLE_GBL) with true. cbv iota zeta.
  fold (static_user ip mac ifx). destruct (ok_v4 s Hs) as [ips Hinv].
  apply wp_bind. eapply wp_table_find; [exact Hinv|..].
  { intros p x _ Et. apply Hknown. left. by eexists. }
  intros Hn. cbn [obind]. apply wp_bind. eapply wp_table_find_ip; [exact Hinv|..].
  { intros p x Ex _ Hb Ea. apply Hknown. right. rewrite (unused_cores _ _ (inv_mac _ _ Hinv)).
    intros Hun. apply (Hun p (core x)); [by apply lookup_cores|done|by rewrite core_ip_addr]. }
  intros Hun%(unused_cores _ _ (inv_mac _ _ Hinv)). 
  assert (Hw := wp_insert_bound env.(clock) s.(v4) ips (static_user ip mac ifx)
    (fun t => v4_ok t ∧ table t = <[mac := new_core env.(clock) (static_user ip mac ifx)]> (table s.(v4)))
    Hinv Hn Hun Hip eq_refl eq_refl ltac:(by intros)).
  destruct (dhcp_snp_tbl_item_insert _ _ _) as [t1 p]. apply wp_bind.
  eapply wp_mono; [exact Hw|]. intros t [Hok Et]. cbn [wp]. unfold dhcp_snp_add_static_bindtable.
  rewrite !(proj2 (Z.eqb_neq _ 0)) by done. by apply Hnew.
Qed.

Lemma wp_wan_del mac s (Q : SNP * Z → Prop) :
  snp_ok s → s.(dhcp_snp_status) = NPD_DHCP_SNP_ENABLE →
  (table s.(v4) !! mac = None → Q (s, DHCP_SNP_RETURN_CODE_NOT_FOUND)) →
  (∀ b t, table s.(v4) !! mac = Some b → v4_ok t → table t = delete mac (table s.(v4)) →
     Q ((fst (dhcp_snp_del_static_bindtable b.(ip_addr) mac b.(ifindex) s)) <| v4 := t |>, DHCP_SNP_RETURN_CODE_OK)) →
  wp (dhcp_snp_dbus_del_wan_bind_table mac s) Q.
Proof.
  intros Hs Hen Hnone Hdel. unfold dhcp_snp_dbus_del_wan_bind_table, dhcp_snp_check_global_status.
  rewrite Hen. change (NPD_DHCP_SNP_ENABLE =? NPD_DHCP_SNP_ENABLE) with true. cbv iota.
  change (DHCP_SNP_RETURN_CODE_ENABLE_GBL =? DHCP_SNP_RETURN_CODE_ENABLE_GBL) with true. cbv iota.
  destruct (ok_v4 s Hs) as [ips Hinv]. apply wp_bind. eapply wp_table_find; [exact Hinv|..]; [|done].
  intros p x Ex Et. change (u_chaddr (zero_user <| u_chaddr := mac |>)) with mac in Et.
  pose proof (table_chaddr _ _ _ (inv_mac _ _ Hinv) Et) as Em. rewrite core_chaddr in Em.
  change (get_item s.(v4) p) with (deref (s.(v4).(heap) !! p)). rewrite Ex. cbn [deref obind]. rewrite Em.
  assert (Ev : (fst (dhcp_snp_del_static_bindtable x.(ip_addr) mac x.(ifindex) s)).(v4) = s.(v4)).
  { unfold dhcp_snp_del_static_bindtable. destruct (_ || _); [done|]. by destruct s.(static_table). }
  specialize (Hdel (core x)). destruct (core_fields x) as (_ & _ & _ & _ & Ei & _).
  rewrite core_ip_addr, Ei in Hdel.
  destruct (dhcp_snp_del_static_bindtable x.(ip_addr) mac x.(ifindex) s) as [s1 r1]. simpl in Ev, Hdel.
  apply wp_bind. assert (Hd : wp (if negb (x.(ip_addr) =? 0)
      then in_v4 (fun t => dhcp_snp_tbl_item_delete_iphash t p) s1 else Done (s1, DHCP_SNP_RETURN_CODE_OK))
    (fun '(s2, _) => ∃ t2 ips2, s2 = s1 <| v4 := t2 |> ∧ tbl_ok t2 ips2 ∧ cores t2 = cores s.(v4) ∧
       ips2 ∖ {[p]} = ips ∖ {[p]})).
  { destruct (negb _).
    - unfold in_v4. apply wp_bind. rewrite Ev. eapply wp_delete_iphash; [apply Hinv|by eexists|].
      intros t2 r2 Hok2 Ec2 _. cbn [wp]. exists t2, (ips ∖ {[p]}). split_and!; [done..|set_solver].
    - exists s1.(v4), ips. split_and!; [by destruct s1|rewrite Ev; apply Hinv|by rewrite Ev|done]. }
  eapply wp_mono; [exact Hd|]. intros [s2 r2] (t2 & ips2 & -> & Hok2 & Ec2 & Eips).
  unfold in_v4. apply wp_bind.
  change (v4 (s1 <| v4 := t2 |>)) with t2.
  destruct (cores_same s.(v4) t2 p x Ec2 Ex) as (x2 & Ex2 & _).
  eapply wp_item_delete; [exact Hok2|by eexists|]. intros t3 Hok3 Ec3. cbn [wp].
  rewrite Eips in Hok3. rewrite Ec2 in Ec3. pose proof (v4_delete _ _ _ p Hinv Hok3 Ec3) as Hinv3.
  destruct (table_delete s.(v4) t3 p (core x) (inv_mac _ _ Hinv) (lookup_cores _ _ _ Ex) Ec3) as [_ Et3].
  rewrite core_chaddr, Em in Et3.
  change (s1 <| v4 := t2 |> <| v4 := t3 |>) with (s1 <| v4 := t3 |>). by apply Hdel; [|eexists|].
Qed.
End Admin.

(** ** ARP *)

(** The bound binding of an address. *)
Definition bound_to t (ip : Z) b : Prop := table t !! b.(chaddr) = Some b ∧ bound b ∧ b.(ip_addr) = ip.

Lemma bound_to_unique t ips ip b b' : v4_inv t ips → bound_to t ip b → bound_to t ip b' → b = b'.
Proof.
  intros Hinv (Et & Hb & Ei) (Et' & Hb' & Ei').
  apply lookup_table in Et as (p & Ep & _); [|apply Hinv].
  apply lookup_table in Et' as (q & Eq & _); [|apply Hinv].
  assert (p = q) as -> by (eapply (inv_ip _ _ Hinv); [done|done|done|done|congruence]). congruence.
Qed.

Section Arp.
Variable env : ENV.
Variables (buf : list Z).

Lemma wp_arp_request sock dip sip smac s (Q : SNP * Z → Prop) :
  v4_ok s.(v4) → 0 ≤ sock → s.(dhcp_snp_arp_proxy_enable) ≠ 0 →
  load32 buf ARP_DIP = Done dip → load_bytes buf ARP_SMAC 6 = Done smac → load_bytes buf ARP_SIP 4 = Done sip →
  (∀ b, bound_to s.(v4) dip b →
     Q (if env.(write_ok) then snp_emit (WRITE sock (arp_reply smac sip b.(chaddr) dip)) s else s,
        DHCP_SNP_RETURN_CODE_OK)) →
  ((∀ b, ¬ bound_to s.(v4) dip b) → Q (s, DHCP_SNP_RETURN_CODE_OK)) →
  wp (dhcp_snp_arp_request_process env buf sock s) Q.
Proof.
  intros [ips Hinv] Hsock Hon Hdip Hsmac Hsip Hsome Hnone. unfold dhcp_snp_arp_request_process.
  rewrite (proj2 (Z.ltb_ge _ _)), (proj2 (Z.eqb_neq _ 0)) by done. rewrite Hdip. cbn [obind]. apply wp_bind.
  eapply wp_table_find_ip; [exact Hinv|..].
  - intros p x Ex _ Hb Ea. unfold get_item. rewrite Ex. cbn [deref obind].
    change NPD_DHCP_SNP_MAC_ADD_LEN with 6%nat. rewrite Hsmac, Hsip. cbn [obind wp].
    rewrite <- (core_chaddr x). apply Hsome. split_and!; [|done|by rewrite core_ip_addr].
    apply lookup_table; [apply Hinv|]. exists p. split; [by apply lookup_cores|done].
  - intros Hn. apply Hnone. intros b (Et & Hb & Ei). apply lookup_table in Et as (p & Ep & _); [|apply Hinv].
    by apply (Hn p b).
Qed.

(** Gratuitous ARP: only a client that has asked, with the address it announces,
    and is not bound yet. *)
Definition spec_garp (c : CLOCK) u (m : gmap (list Z) (ITEM Z)) :=
  match m !! u.(u_chaddr) with
  | Some b => if already_bound b then m
              else if decide (b.(ip_addr) = u.(u_ip_addr)) then spec_ack c u m else m
  | None => m
  end.
End Arp.

Section Garp.
Variable env : ENV.

(** What [dhcp_snp_gratuitous_arp_process] reads from the frame. *)
Definition garp_user (buf : list Z) (vid ifx : Z) : outcome (USER Z) :=
  let* hwSize := load buf ARP_HWSIZE in
  let* smac := load_bytes buf ARP_SMAC NPD_DHCP_SNP_MAC_ADD_LEN in
  let* sip := load32 buf ARP_SIP in
  Done (zero_user <| u_ifindex := ifx |> <| u_vlanId := vid |> <| u_haddr_len := hwSize |>
    <| u_chaddr := smac |> <| u_ip_addr := sip |> <| u_lease_time := NPD_DHCP_SNP_REQUEST_TIMEOUT |>).

Lemma garp_ok buf vid ifx node u s :
  garp_user buf vid ifx = Done u → snp_ok s →
  wp (dhcp_snp_gratuitous_arp_process env buf vid ifx node s) (handle_post env s (spec_garp env.(clock) u)).
Proof.
  unfold garp_user. intros (hw & Ehw & E)%obind_Done Hs.
  apply obind_Done in E as (smac & Esmac & E). apply obind_Done in E as (sip & Esip & [= Eu]).
  unfold dhcp_snp_gratuitous_arp_process. rewrite Ehw, Esmac, Esip. cbn [obind]. rewrite Eu.
  assert (Eip : u.(u_ip_addr) = sip) by by rewrite <- Eu.
  destruct (negb (dhcp_snp_u32ip_check sip =? 0)) eqn:Ecz.
  { apply handle_same; [done|]. unfold spec_garp. destruct (_ !! _) as [b|] eqn:Eb; [|done].
    destruct (already_bound b); [done|]. case_decide; [|done]. unfold spec_ack. rewrite Eb, decide_False; [done|].
    intros [_ Ha]. unfold acceptable in Ha. rewrite Eip in Ha. by rewrite Ha in Ecz. }
  apply wp_client; [done|..].
  2: { intros ips _ Et. apply handle_same; [done|]. unfold spec_garp. by rewrite Et. }
  intros p x ips Hinv Ex Em Et. unfold get_item. rewrite Ex. cbn [deref obind].
  assert (Hskip : spec_garp env.(clock) u (table s.(v4)) = table s.(v4) →
    wp (Done (s, DHCP_SNP_RETURN_CODE_OK)) (handle_post env s (spec_garp env.(clock) u))) by by apply handle_same.
  destruct (Z.eqb_spec x.(bind_type) NPD_DHCP_SNP_BIND_TYPE_STATIC) as [Est|Est].
  { apply Hskip. unfold spec_garp. rewrite Et. destruct (already_bound _); [done|]. case_decide; [|done].
    eapply spec_ack_static; [exact Et|by destruct x]. }
  destruct (already_bound x) eqn:Eab.
  { apply Hskip. unfold spec_garp. rewrite Et. by replace (already_bound (core x)) with true by by destruct x. }
  destruct (Z.eqb_spec x.(ip_addr) sip) as [Ea|Ea]; cbn [negb].
  2: { apply Hskip. unfold spec_garp. rewrite Et, decide_False; [by destruct (already_bound _)|].
       by rewrite core_ip_addr, Eip. }
  apply wp_bind. eapply wp_mono.
  { eapply (bind_ok env node u p x); [exact Hinv|done|exact Ex|exact Em|exact Et|]. intros E'. apply Est. by destruct x. }
  intros [s1 r1] (Hpost & _). apply (handle_post_eq _ _ _ (spec_garp env.(clock) u)) in Hpost.
  2: { unfold spec_garp. rewrite Et, decide_True by by rewrite core_ip_addr, Eip.
       by replace (already_bound (core x)) with false by by destruct x. }
  unfold is_ok. destruct Hpost as (Hs1 & Hh & Hor).
  destruct (Z.eqb_spec r1 DHCP_SNP_RETURN_CODE_OK) as [->|Hr]; cbn [negb]; (split_and!; [done|done|]).
  - destruct Hor as [?|(? & ? & ?)]; [by left|done].
  - destruct Hor as [?|(? & ? & ?)]; [by left|by right].
Qed.
End Garp.
