(* ===== verification/DhcpOptionsProps.v ===== *)
(** * Options and the checksum

    The scan for an option ends; on options as RFC 2132 writes them it finds the
    first with the code; on a message without an END it leaves the array.  The
    checksum is the one of RFC 1071. *)

From Stdlib Require Import ZArith Lia.
From stdpp Require Import base gmap list option.
From S2P Require Import Prelude Checksum DhcpOptions.

(** ** Loads *)

Lemma load_app (pre post : list Z) (b : Z) p : p = Z.of_nat (length pre) → load (pre ++ b :: post) p = Done b.
Proof.
  intros ->. unfold load. rewrite (proj2 (Z.ltb_ge _ _)) by lia. rewrite Nat2Z.id.
  by rewrite list_lookup_middle.
Qed.

Lemma load_byte buf p b : Forall is_byte buf → load buf p = Done b → is_byte b.
Proof.
  intros Hb. unfold load. destruct (p <? 0); [done|]. destruct (buf !! _) as [c|] eqn:E; [|done].
  intros [= <-]. eapply Forall_lookup_1; [exact Hb|exact E].
Qed.

(** ** The scan ends *)

(** The turns that are left: the rest of the field, and the fields to come. *)
Definition scan_left (s : SCAN) : Z :=
  Z.max 0 (s.(sc_length) - s.(sc_i)) +
  (if s.(sc_curr) =? NPD_DHCP_SNP_OPTION_FIELD then 194
   else if s.(sc_curr) =? NPD_DHCP_SNP_FILE_FIELD then 65 else 0).

Lemma scan_turn_left buf packet code s s' :
  Forall is_byte buf → scan_turn buf packet code s = Done (Go s') → 0 ≤ scan_left s' < scan_left s.
Proof.
  intros Hb. assert (Hl : ∀ p n, load buf p = Done n → 0 ≤ n) by (intros p n E%load_byte; [apply E|done]).
  unfold scan_turn. destruct (Z.leb_spec s.(sc_length) s.(sc_i)) as [|Hi]; [done|].
  intros (c & Ec & E)%obind_Done.
  assert (Hf : 0 ≤ if s.(sc_curr) =? NPD_DHCP_SNP_OPTION_FIELD then 194
    else if s.(sc_curr) =? NPD_DHCP_SNP_FILE_FIELD then 65 else 0) by (repeat case_match; lia).
  destruct (c =? code).
  { apply obind_Done in E as (len & ? & E). by destruct (_ <=? _). }
  destruct (c =? DHCP_PADDING); [injection E as <-; unfold scan_left; simpl; lia|].
  destruct (c =? DHCP_OPTION_OVER).
  { apply obind_Done in E as (len & ? & E). destruct (_ <=? _); [done|].
    apply obind_Done in E as (over & ? & E). apply obind_Done in E as (len1 & ?%Hl & E).
    injection E as <-. unfold scan_left; simpl. lia. }
  destruct (c =? DHCP_END).
  { unfold scan_left. destruct (Z.eqb_spec s.(sc_curr) NPD_DHCP_SNP_OPTION_FIELD) as [E0|E0].
    - destruct (bit_set s.(sc_over) NPD_DHCP_SNP_FILE_FIELD); simpl in E.
      + injection E as <-. simpl. change (NPD_DHCP_SNP_FILE_FIELD =? NPD_DHCP_SNP_OPTION_FIELD) with false.
        change (NPD_DHCP_SNP_FILE_FIELD =? NPD_DHCP_SNP_FILE_FIELD) with true. cbv iota. lia.
      + rewrite E0 in E. by destruct (bit_set _ _).
    - simpl in E. destruct (Z.eqb_spec s.(sc_curr) NPD_DHCP_SNP_FILE_FIELD) as [E1|E1]; [|done].
      destruct (bit_set _ _); [|done]. injection E as <-. simpl.
      change (NPD_DHCP_SNP_SNAME_FIELD =? NPD_DHCP_SNP_OPTION_FIELD) with false.
      change (NPD_DHCP_SNP_SNAME_FIELD =? NPD_DHCP_SNP_FILE_FIELD) with false. cbv iota. lia. }
  apply obind_Done in E as (len & ?%Hl & E). injection E as <-. unfold scan_left; simpl. lia.
Qed.

Lemma scan_loop_ends buf packet code : Forall is_byte buf →
  ∀ fuel s, scan_left s < Z.of_nat fuel → scan_loop fuel buf packet code s ≠ OutOfFuel.
Proof.
  intros Hb. induction fuel as [|fuel IH]; intros s Hs.
  - exfalso. unfold scan_left in Hs. repeat case_match; lia.
  - cbn [scan_loop]. destruct (scan_turn buf packet code s) as [[s'|p|]| |] eqn:E; cbn [obind]; try done.
    + apply IH. apply scan_turn_left in E; [lia|done].
    + exfalso. revert E. unfold scan_turn.
      assert (Hload : ∀ p, load buf p ≠ OutOfFuel).
      { intros p. unfold load. destruct (p <? 0); [done|]. by destruct (buf !! _). }
      assert (Hb1 : ∀ {T} p (k : Z → outcome T), (∀ b, k b ≠ OutOfFuel) → obind k (load buf p) ≠ OutOfFuel).
      { intros T p k Hk. specialize (Hload p). destruct (load buf p); [apply Hk|done|done]. }
      destruct (_ <=? _); [done|]. apply Hb1. intros c.
      repeat (done || case_match || (apply Hb1; intros ?)).
Qed.

(** ** Options as they are written *)

Definition tlv (o : Z * list Z) : list Z := o.1 :: Z.of_nat (length o.2) :: o.2.
Definition options (l : list (Z * list Z)) : list Z := concat (tlv <$> l) ++ [DHCP_END].

(** A code that the scan does not treat in a special way. *)
Definition plain (c : Z) : Prop := c ≠ DHCP_PADDING ∧ c ≠ DHCP_OPTION_OVER ∧ c ≠ DHCP_END.
#[export] Instance plain_dec c : Decision (plain c).
Proof. unfold plain. apply _. Defined.

(** The value of the first option with the code. *)
Definition option_of (code : Z) (l : list (Z * list Z)) : option (list Z) :=
  snd <$> (snd <$> list_find (fun o => o.1 = code) l).

(** [p] points at [v], which is behind its length. *)
Definition points_at (buf : list Z) (p : Z) (v : list Z) : Prop :=
  load_bytes buf p (length v) = Done v ∧ load buf (p - 1) = Done (Z.of_nat (length v)).

Lemma option_of_cons code c v l :
  option_of code ((c, v) :: l) = if decide (c = code) then Some v else option_of code l.
Proof.
  unfold option_of. cbn [list_find]. cbn. destruct (decide (c = code)); [done|].
  by destruct (list_find _ l) as [[]|].
Qed.

Lemma length_options_cons c v l :
  Z.of_nat (length (options ((c, v) :: l))) = 2 + Z.of_nat (length v) + Z.of_nat (length (options l)).
Proof. unfold options. rewrite fmap_cons. cbn [concat]. rewrite !length_app. unfold tlv at 1. cbn [length fst snd]. lia. Qed.

Section Find.
Variables (code packet : Z) (pre0 : list Z).
Hypothesis Hcode : plain code.

(** From the middle of the options on. *)
Lemma scan_find : ∀ l pre post fuel i,
  Z.of_nat (length pre) = packet + MSG_OPTIONS + i → 0 ≤ i →
  i + Z.of_nat (length (options l)) ≤ NPD_DHCP_SNP_OPTION_LEN →
  Forall (fun o => plain o.1) l → (length l < fuel)%nat →
  wp (scan_loop fuel (pre ++ options l ++ post) packet code
        (mkScan (packet + MSG_OPTIONS) i NPD_DHCP_SNP_OPTION_LEN 0 NPD_DHCP_SNP_OPTION_FIELD))
     (fun r => match option_of code l with
               | Some v => ∃ p, r = Some p ∧ points_at (pre ++ options l ++ post) p v
               | None => r = None
               end).
Proof.
  destruct Hcode as (Hc1 & Hc2 & Hc3).
  induction l as [|[c v] l IH]; intros pre post [|fuel] i Hp Hi Hlen Hl Hf; simpl in Hf; try lia;
    cbn [scan_loop]; unfold scan_turn; cbn [sc_optionptr sc_i sc_length sc_over sc_curr].
  - rewrite (proj2 (Z.leb_gt _ _)) by (unfold options in Hlen; simpl in Hlen; lia).
    change (options [] ++ post) with (DHCP_END :: post). rewrite (load_app pre post DHCP_END (packet + MSG_OPTIONS + i)) by lia. cbn [obind].
    rewrite (proj2 (Z.eqb_neq DHCP_END code)) by congruence. done.
  - apply list.Forall_cons in Hl as [(Hp1 & Hp2 & Hp3) Hl]. rewrite length_options_cons in Hlen. simpl in Hp1, Hp2, Hp3.
    rewrite (proj2 (Z.leb_gt _ _)) by lia. rewrite option_of_cons.
    assert (E : pre ++ options ((c, v) :: l) ++ post = pre ++ c :: Z.of_nat (length v) :: v ++ options l ++ post).
    { unfold options, tlv. simpl. by rewrite <- !app_assoc. }
    assert (E1 : pre ++ options ((c, v) :: l) ++ post = (pre ++ [c]) ++ Z.of_nat (length v) :: v ++ options l ++ post).
    { by rewrite E, <- app_assoc. }
    assert (E2 : pre ++ options ((c, v) :: l) ++ post = (pre ++ [c; Z.of_nat (length v)] ++ v) ++ options l ++ post).
    { by rewrite E, <- !app_assoc. }
    assert (Hload : load (pre ++ options ((c, v) :: l) ++ post) (packet + MSG_OPTIONS + i) = Done c).
    { rewrite E. apply load_app. lia. }
    rewrite Hload. cbn [obind].
    assert (Hlen1 : load (pre ++ options ((c, v) :: l) ++ post) (packet + MSG_OPTIONS + i + 1) = Done (Z.of_nat (length v))).
    { rewrite E1. apply load_app. rewrite length_app. simpl. lia. }
    destruct (Z.eqb_spec c code) as [->|Hne].
    + rewrite decide_True by done. rewrite Hlen1. cbn [obind].
      assert (0 < Z.of_nat (length (options l))) by (unfold options; rewrite length_app; simpl; lia).
      rewrite (proj2 (Z.leb_gt _ _)) by lia. cbn [obind wp]. eexists; split; [done|]. split.
      * assert (E3 : pre ++ options ((code, v) :: l) ++ post = (pre ++ [code; Z.of_nat (length v)]) ++ v ++ options l ++ post)
          by by rewrite E, <- app_assoc.
        unfold load_bytes. rewrite E3.
        replace (Z.to_nat (packet + MSG_OPTIONS + i + 2)) with (length (pre ++ [code; Z.of_nat (length v)]))
          by (rewrite length_app; simpl; lia).
        rewrite drop_app_length, take_app_length.
        rewrite Nat.eqb_refl, (proj2 (Z.ltb_ge _ _)) by lia. done.
      * rewrite <- Hlen1. f_equal. lia.
    + rewrite decide_False by done. rewrite !(proj2 (Z.eqb_neq c _)) by done. rewrite Hlen1. cbn [obind].
      rewrite E2. apply IH; [rewrite !length_app; simpl; lia|lia|lia|done|lia].
Qed.
End Find.

(** ** No END *)

(** Only padding up to the end of the array: the scan goes on behind it. *)
Lemma scan_padding buf packet code : plain code → 0 ≤ packet →
  ∀ n fuel i, n = Z.to_nat (Z.of_nat (length buf) - (packet + MSG_OPTIONS + i)) →
  0 ≤ i → packet + MSG_OPTIONS + i ≤ Z.of_nat (length buf) < packet + MSG_OPTIONS + NPD_DHCP_SNP_OPTION_LEN →
  (∀ p, packet + MSG_OPTIONS + i ≤ p < Z.of_nat (length buf) → load buf p = Done DHCP_PADDING) →
  (n < fuel)%nat →
  scan_loop fuel buf packet code
    (mkScan (packet + MSG_OPTIONS) i NPD_DHCP_SNP_OPTION_LEN 0 NPD_DHCP_SNP_OPTION_FIELD) = Segv.
Proof.
  intros (Hc & _ & _) Hpk. induction n as [|n IH]; intros [|fuel] i Hn Hi Hb Hz Hf; try lia;
    cbn [scan_loop]; unfold scan_turn; cbn [sc_optionptr sc_i sc_length sc_over sc_curr];
    rewrite (proj2 (Z.leb_gt _ _)) by lia.
  - assert (Hload : load buf (packet + MSG_OPTIONS + i) = Segv); [|by rewrite Hload].
    unfold load. rewrite (proj2 (Z.ltb_ge _ _)) by (unfold MSG_OPTIONS in *; lia).
    rewrite lookup_ge_None_2 by lia. done.
  - rewrite (Hz (packet + MSG_OPTIONS + i)) by lia. cbn [obind]. rewrite (proj2 (Z.eqb_neq DHCP_PADDING code)) by congruence.
    change (DHCP_PADDING =? DHCP_PADDING) with true. cbv iota. cbn [obind].
    apply IH; [lia|lia|lia| |lia]. intros p Hp. apply Hz. lia.
Qed.

(** ** The checksum *)

Lemma checksum_sum_words l sum :
  Forall is_byte l → 0 ≤ sum → sum + 65535 * Z.of_nat (length l) < 2 ^ 31 →
  checksum_sum l sum = sum + sum16 l.
Proof.
  revert sum. induction l as [|a|a b l IH] using list_pairs_ind; intros sum Hb Hs Hl;
    cbn [checksum_sum sum16 length] in *; [lia|..].
  - apply Forall_inv in Hb. unfold is_byte in Hb. unfold be_val, be_val_aux. rewrite i32_small; lia.
  - apply list.Forall_cons in Hb as [Ha [Hb Hl']%list.Forall_cons]. unfold is_byte in Ha, Hb.
    unfold be_val, be_val_aux. rewrite i32_small by lia. rewrite IH; [lia|done|lia|lia].
Qed.

Lemma checksum_fold_S f n : checksum_fold (S f) n =
  if negb (Z.shiftr n 16 =? 0) then checksum_fold f (i32 (Z.land n 0xffff + Z.shiftr n 16)) else Done n.
Proof. done. Qed.

Lemma wp_checksum_fold n : 0 ≤ n < 2 ^ 31 → wp (checksum_fold 4 n) (ones n).
Proof.
  assert (H1 : ∀ f n, 0 ≤ n < 65536 → wp (checksum_fold (S f) n) (ones n)).
  { intros f m Hm. rewrite checksum_fold_S. rewrite Z.shiftr_div_pow2, Z.div_small by (change (2 ^ 16) with 65536; lia).
    cbn [Z.eqb negb wp]. split_and!; [lia|lia|by rewrite Z.sub_diag|done]. }
  assert (H2 : ∀ f n, 0 ≤ n < 2 ^ 17 - 1 → wp (checksum_fold (S (S f)) n) (ones n)).
  { intros f m Hm. destruct (decide (m < 65536)) as [|Hm']; [apply H1; lia|]. rewrite checksum_fold_S.
    destruct (negb (Z.shiftr m 16 =? 0)) eqn:E; cbv iota.
    2: { apply negb_false_iff, Z.eqb_eq in E. rewrite Z.shiftr_div_pow2 in E by lia.
         change (2 ^ 16) with 65536 in E. pose proof (Z.div_le_lower_bound m 65536 1). lia. }
    destruct (fold_step m ltac:(lia)) as (-> & Hp & Em & H0 & _).
    eapply wp_mono; [apply H1|intros c; by apply (ones_step _ _ _ _ Em)].
    assert (Es : Z.shiftr m 16 = 1).
    { rewrite Z.shiftr_div_pow2 by lia. change (2 ^ 16) with 65536. symmetry.
      apply (Z.div_unique m 65536 1 (m - 65536)); lia. }
    rewrite Es in *. lia. }
  intros Hn. rewrite checksum_fold_S. destruct (negb (Z.shiftr n 16 =? 0)) eqn:E; cbv iota.
  2: { apply negb_false_iff, Z.eqb_eq in E. rewrite Z.shiftr_div_pow2 in E by lia.
       change (2 ^ 16) with 65536 in E. cbn [wp]. split_and!; [lia| |by rewrite Z.sub_diag|done].
       pose proof (Z.div_le_lower_bound n 65536 1). lia. }
  destruct (fold_step n Hn) as (-> & Hp & En & H0 & Hle).
  assert (Z.shiftr n 16 < 2 ^ 15).
  { rewrite Z.shiftr_div_pow2 by lia. apply Z.div_lt_upper_bound; lia. }
  eapply wp_mono; [apply H2; lia|intros c; by apply (ones_step _ _ _ _ En)].
Qed.

Lemma wp_checksum l :
  Forall is_byte l → Z.of_nat (length l) ≤ 32767 →
  wp (dhcp_snp_checksum l) (fun c => 0 ≤ c < 65536 ∧ ones (sum16 l) (65535 - c)).
Proof.
  intros Hb Hl. unfold dhcp_snp_checksum. rewrite checksum_sum_words by (done || lia). apply wp_bind.
  pose proof (sum16_bounds l Hb). eapply wp_mono; [apply wp_checksum_fold; lia|].
  intros c Hc. pose proof Hc as (Hr & _). cbn [wp].
  assert (E : u16 (Z.lnot c) = 65535 - c).
  { unfold u16. unfold Z.lnot. symmetry. apply (Z.mod_unique_pos _ _ (-1)); change (2 ^ 16) with 65536; lia. }
  rewrite E. split; [lia|]. by replace (65535 - (65535 - c)) with c by lia.
Qed.
