(* ===== verification/DhcpRun.v ===== *)
(** * The DHCP snooping daemon, one input after the other

    [snp_serve]: a frame on one of the sockets, a round of aging, a station reported
    by [asd], a request of the management interface.  [snooper_ok] holds at the
    start and is kept by every input that [input_ok] admits; [input_ok] leaves out
    the frames whose options lead the scan out of the buffer, hardware addresses
    of more than six bytes, and IPv6 addresses without a zero byte. *)

From Stdlib Require Import ZArith Lia.
From stdpp Require Import base gmap list option fin_maps.
From S2P Require Import Prelude Chain DhcpTbl DhcpUnres DhcpSnp DhcpOptions DhcpPkt.
From S2P Require Import DhcpTable DhcpBind DhcpUnresProps DhcpHandle DhcpAging.
From S2P Require Import DhcpV6 DhcpAdmin DhcpOptionsProps.

Implicit Types (s : SNP) (node : LISTENER).

(** ** The buffer *)

Definition buf_ok (buf : list Z) : Prop := length buf = Z.to_nat DHCP_SNP_PACKET_SIZE ∧ Forall is_byte buf.

Section Buffer.
Variable buf : list Z.
Hypothesis Hbuf : buf_ok buf.

Lemma wp_load p (Q : Z → Prop) : 0 ≤ p < DHCP_SNP_PACKET_SIZE → (∀ b, is_byte b → Q b) → wp (load buf p) Q.
Proof.
  destruct Hbuf as [Hl Hb]. intros Hp HQ. unfold load. rewrite (proj2 (Z.ltb_ge _ _)) by lia.
  destruct (buf !! Z.to_nat p) as [b|] eqn:E.
  - apply HQ. eapply Forall_lookup_1; [exact Hb|exact E].
  - apply lookup_ge_None_1 in E. lia.
Qed.

Lemma wp_load_bytes p n (Q : list Z → Prop) :
  0 ≤ p → p + Z.of_nat n ≤ DHCP_SNP_PACKET_SIZE → (∀ l, length l = n → Q l) → wp (load_bytes buf p n) Q.
Proof.
  destruct Hbuf as [Hl _]. intros Hp Hn HQ. unfold load_bytes. rewrite (proj2 (Z.ltb_ge _ _)) by lia.
  assert (E : length (take n (drop (Z.to_nat p) buf)) = n) by (rewrite length_take, length_drop; lia).
  rewrite (proj2 (Nat.eqb_eq _ _) E). apply HQ, E.
Qed.

Lemma wp_load16 p (Q : Z → Prop) :
  0 ≤ p → p + 2 ≤ DHCP_SNP_PACKET_SIZE → (∀ z, Q z) → wp (load16 buf p) Q.
Proof. intros Hp Hn HQ. unfold load16. apply wp_bind, wp_load_bytes; [done|lia|]. intros l _. apply HQ. Qed.

Lemma wp_load32 p (Q : Z → Prop) :
  0 ≤ p → p + 4 ≤ DHCP_SNP_PACKET_SIZE → (∀ z, Q z) → wp (load32 buf p) Q.
Proof. intros Hp Hn HQ. unfold load32. apply wp_bind, wp_load_bytes; [done|lia|]. intros l _. apply HQ. Qed.

(** The checks that classify a frame stay inside the buffer. *)
Lemma wp_between_ports l4 a b (Q : bool → Prop) :
  0 ≤ l4 → l4 + 4 ≤ DHCP_SNP_PACKET_SIZE → (∀ r, Q r) → wp (between_ports buf l4 a b) Q.
Proof.
  intros H0 H1 HQ. unfold between_ports. apply wp_bind, wp_load16; [lia|lia|]. intros src.
  apply wp_bind, wp_load16; [lia|lia|]. intros dst. apply HQ.
Qed.

Lemma wp_type_check (Q : bool → Prop) : (∀ r, Q r) → wp (dhcp_snp_listener_type_check buf) Q.
Proof.
  intros HQ. unfold dhcp_snp_listener_type_check. apply wp_bind, wp_load; [done|]. intros b14 _.
  apply wp_bind, wp_load16; [done|done|]. intros type. apply wp_bind, wp_load; [done|]. intros proto _.
  destruct (_ && _); [|apply HQ].
  pose proof (Z.land_ones b14 4 ltac:(lia) : Z.land b14 0xF = _) as E. rewrite E.
  pose proof (Z.mod_pos_bound b14 (2 ^ 4) ltac:(lia)).
  apply wp_between_ports; [unfold ETH_LEN; lia|unfold ETH_LEN, DHCP_SNP_PACKET_SIZE; lia|apply HQ].
Qed.

Lemma wp_dhcpv6_check (Q : bool → Prop) : (∀ r, Q r) → wp (dhcp_snp_listener_dhcpv6_packet_check buf) Q.
Proof.
  intros HQ. unfold dhcp_snp_listener_dhcpv6_packet_check. apply wp_bind, wp_load; [done|]. intros b14 _.
  apply wp_bind, wp_load16; [done|done|]. intros type. apply wp_bind, wp_load; [done|]. intros nh _.
  destruct (_ && _); [|apply HQ]. by apply wp_between_ports.
Qed.

Lemma wp_broadcast (Q : bool → Prop) : (∀ r, Q r) → wp (is_broadcast buf) Q.
Proof. intros HQ. unfold is_broadcast. apply wp_bind, wp_load_bytes; [done|done|]. intros l _. apply HQ. Qed.

Lemma wp_gratuitous_check (Q : bool → Prop) : (∀ r, Q r) → wp (dhcp_snp_listener_gratuitous_arp_check buf) Q.
Proof.
  intros HQ. unfold dhcp_snp_listener_gratuitous_arp_check. apply wp_bind, wp_broadcast. intros [|]; [|apply HQ].
  cbn [negb]. apply wp_bind, wp_load; [done|]. intros smac0 _. destruct (bit_set _ _); [apply HQ|].
  apply wp_bind, wp_load16; [done|done|]. intros type. apply wp_bind, wp_load16; [done|done|]. intros op.
  destruct (_ && _); [|apply HQ]. apply wp_bind, wp_load_bytes; [done|done|]. intros sip _.
  apply wp_bind, wp_load_bytes; [done|done|]. intros dip _. apply HQ.
Qed.

Lemma wp_request_check (Q : bool → Prop) : (∀ r, Q r) → wp (dhcp_snp_listener_arp_request_check buf) Q.
Proof.
  intros HQ. unfold dhcp_snp_listener_arp_request_check. apply wp_bind, wp_broadcast. intros [|]; [|apply HQ].
  cbn [negb]. apply wp_bind, wp_load16; [done|done|]. intros type. apply wp_bind, wp_load16; [done|done|].
  intros op. apply HQ.
Qed.

Lemma wp_garp_user vid ifx : wp (garp_user buf vid ifx) (fun _ => True).
Proof.
  unfold garp_user. apply wp_bind, wp_load; [done|]. intros hw _. apply wp_bind, wp_load_bytes; [done|done|].
  intros smac _. apply wp_bind, wp_load32; [done|done|]. done.
Qed.
End Buffer.

Lemma read_frame_ok frame s : buf_ok s.(sock_pack_buf) → Forall is_byte frame → buf_ok (read_frame frame s).(sock_pack_buf).
Proof.
  intros [Hl Hb] Hf. unfold read_frame. simpl. split.
  - rewrite length_app, length_drop, length_take. lia.
  - apply Forall_app. split; [by apply Forall_take|by apply Forall_drop].
Qed.

Lemma clear_buf_ok s : buf_ok (clear_buf s).(sock_pack_buf).
Proof. split; [apply length_replicate|]. apply Forall_replicate. unfold is_byte. lia. Qed.

(** ** The invariant *)

Record snooper_ok s : Prop := {
  dok_v4 : snp_ok s;
  dok_v6 : snp6_ok s;
  dok_buf : buf_ok s.(sock_pack_buf) }.

Lemma daemon_ok_half4 s s' : snooper_ok s → snp_ok s' → half4 s s' → snooper_ok s'.
Proof. intros [_ [H6 Hu Hs] Hb] H4 E. split; [done|split|]; rewrite E; by destruct s. Qed.

Lemma daemon_ok_v6 s s' : snooper_ok s → snp6_ok s' → only_v6 s s' → snooper_ok s'.
Proof. intros [[H4 Hu Hs] _ Hb] H6 E. split; [split|done|]; rewrite E; by destruct s. Qed.

(** ** Frames *)

(** The messages whose handler reads the client and the lease from the packet. *)
Definition handled (message : Z) : Prop :=
  message ∈ [NPD_DHCP_DISCOVER; NPD_DHCP_REQUEST; NPD_DHCP_ACK; NPD_DHCP_NAK; NPD_DHCP_RELEASE; NPD_DHCP_INFORM].
#[export] Instance handled_dec message : Decision (handled message).
Proof. unfold handled. apply _. Defined.

(** The scans for the options end inside the buffer, and the hardware address
    fits its array. *)
Definition packet_ok (buf : list Z) (vid ifx : Z) : Prop :=
  ∃ o, dhcp_snp_get_option buf DHCP_DATA NPD_DHCP_MESSAGE_TYPE = Done o ∧
    match o with
    | None => True
    | Some p => ∃ message, load buf p = Done message ∧
        (handled message → ∃ u ret, dhcp_snp_get_item_from_pkt buf vid ifx DHCP_DATA message zero_user = Done (u, ret) ∧
           u.(u_haddr_len) ≤ 6)
    end.

Lemma handle_error env buf vid ifx packet message node u ret s :
  handled message → dhcp_snp_get_item_from_pkt buf vid ifx packet message zero_user = Done (u, ret) →
  is_ok ret = false → dhcp_snp_handle env buf vid ifx packet message node s = Done (s, ret).
Proof.
  intros Hh Hget Hret. unfold handled in Hh. rewrite !elem_of_cons in Hh.
  destruct Hh as [->|[->|[->|[->|[->|[->|[]%not_elem_of_nil]]]]]]; unfold dhcp_snp_handle; cbn;
    unfold dhcp_snp_discovery_process, dhcp_snp_request_process, insert_process, dhcp_snp_ack_process,
      dhcp_snp_nack_process, dhcp_snp_release_process, dhcp_snp_inform_process;
    rewrite Hget; cbn [obind]; by rewrite Hret.
Qed.

Lemma handle_other env buf vid ifx packet message node s :
  ¬ handled message → dhcp_snp_handle env buf vid ifx packet message node s = Done (s, DHCP_SNP_RETURN_CODE_OK).
Proof.
  unfold handled. rewrite !elem_of_cons. intros Hn. unfold dhcp_snp_handle.
  repeat match goal with |- context [message =? ?z] => destruct (Z.eqb_spec message z); [try (exfalso; tauto); done|] end.
  done.
Qed.

Lemma wp_packet env buf ifx vid node s :
  snooper_ok s → packet_ok buf vid ifx →
  wp (dhcp_snp_packet_rx_process env buf ifx vid node s) (fun '(s', _) => snooper_ok s').
Proof.
  intros Hs (o & Eo & Ho). unfold dhcp_snp_packet_rx_process. destruct (negb _); [done|]. rewrite Eo. cbn [obind].
  destruct o as [p|]; [|done]. destruct Ho as (message & Em & Ho). rewrite Em. cbn [obind].
  assert (Hend : ∀ s1 ret, snooper_ok s1 →
    wp (if negb (is_ok ret) then Done (s1, DHCP_SNP_RETURN_CODE_PKT_DROP) else Done (s1, DHCP_SNP_RETURN_CODE_OK))
       (fun '(s', _) => snooper_ok s')) by (intros; by destruct (negb _)).
  apply wp_bind. destruct (decide (handled message)) as [Hh|Hh].
  - destruct (Ho Hh) as (u & ret & Hget & Hl). destruct (is_ok ret) eqn:Eret.
    + unfold is_ok in Eret. apply Z.eqb_eq in Eret. subst ret.
      eapply wp_mono; [apply (wp_handle env buf vid ifx DHCP_DATA node u message s Hget Hl), Hs|].
      intros [s1 r1] (Hs1 & Hh1 & _). apply Hend. by eapply daemon_ok_half4.
    + rewrite (handle_error _ _ _ _ _ _ _ _ _ _ Hh Hget Eret). by apply Hend.
  - rewrite (handle_other _ _ _ _ _ _ _ _ Hh). by apply Hend.
Qed.

(** ** DHCPv6 frames *)

(** The handler that reads the packet, and the address it takes for the client's. *)
Definition handled6 (message : Z) (smac dmac : list Z) : option (Z * list Z) :=
  if message =? NPD_DHCPv6_TYPE_SOLICIT then Some (NPD_DHCPv6_TYPE_SOLICIT, smac)
  else if message =? NPD_DHCPv6_TYPE_ADVERTISE then None
  else if message =? NPD_DHCPv6_TYPE_REQUEST then Some (NPD_DHCPv6_TYPE_REQUEST, smac)
  else if message =? NPD_DHCPv6_TYPE_REPLY then Some (NPD_DHCPv6_TYPE_REPLY, dmac)
  else if message =? NPD_DHCPv6_TYPE_RENEW then Some (NPD_DHCPv6_TYPE_REQUEST, smac)
  else if message =? NPD_DHCPv6_TYPE_RELEASE then Some (NPD_DHCPv6_TYPE_RELEASE, smac)
  else if message =? NPD_DHCPv6_TYPE_CONFIRM then Some (NPD_DHCPv6_TYPE_CONFIRM, smac)
  else None.

Definition packet6_ok (buf : list Z) (vid ifx : Z) s : Prop :=
  ∀ message dmac smac, load buf DHCPV6_DATA = Done message → load_bytes buf 0 6 = Done dmac →
    load_bytes buf ETH_SMAC 6 = Done smac →
    match handled6 message smac dmac with
    | None => True
    | Some (type, mac) => ∃ u ret,
        dhcpv6_snp_get_item_from_pkt buf vid ifx DHCPV6_DATA mac type s.(v6) zero_user = Done (u, ret) ∧
        good u.(u_ip_addr)
    end.

Lemma get_item6_hlen buf vid ifx packet mac type t u ret :
  dhcpv6_snp_get_item_from_pkt buf vid ifx packet mac type t zero_user = Done (u, ret) → u.(u_haddr_len) = 6.
Proof.
  unfold dhcpv6_snp_get_item_from_pkt. destruct (_ || _).
  - intros ([temp|] & _ & E)%obind_Done.
    + apply obind_Done in E as (ip & _ & E). apply obind_Done in E as (lease & _ & [= <- _]). done.
    + apply obind_Done in E as ([temp|] & _ & E); [|by injection E as <-].
      apply obind_Done in E as (code & _ & E). destruct (0 =? code); [|by injection E as <-].
      apply obind_Done in E as ([p|] & _ & E); [|by injection E as <-].
      by apply obind_Done in E as (x & _ & [= <- _]).
  - destruct (_ || _); [|by intros [= <- _]]. intros (iana & _ & E)%obind_Done.
    apply obind_Done in E as (user & E1 & [= <- _]). destruct iana; [|by injection E1 as <-].
    by apply obind_Done in E1 as (ip & _ & [= <-]).
Qed.

(** The handler that [handled6] names, by its type. *)
Definition process6 env buf vid ifx (type : Z) mac s : outcome (SNP * Z) :=
  if type =? NPD_DHCPv6_TYPE_REPLY then dhcp_snp_reply_process env buf vid ifx DHCPV6_DATA mac s
  else if type =? NPD_DHCPv6_TYPE_RELEASE then dhcpv6_snp_release_process buf vid ifx DHCPV6_DATA mac s
  else insert6_process env buf vid ifx DHCPV6_DATA mac type s.

Definition types6 : list Z :=
  [NPD_DHCPv6_TYPE_SOLICIT; NPD_DHCPv6_TYPE_REQUEST; NPD_DHCPv6_TYPE_CONFIRM; NPD_DHCPv6_TYPE_REPLY; NPD_DHCPv6_TYPE_RELEASE].

Lemma process6_error env buf vid ifx type mac u ret s :
  type ∈ types6 →
  dhcpv6_snp_get_item_from_pkt buf vid ifx DHCPV6_DATA mac type s.(v6) zero_user = Done (u, ret) →
  is_ok ret = false → process6 env buf vid ifx type mac s = Done (s, ret).
Proof.
  unfold types6. rewrite !elem_of_cons. intros Ht Hget Hret.
  destruct Ht as [->|[->|[->|[->|[->|[]%not_elem_of_nil]]]]]; unfold process6; cbn;
    unfold dhcp_snp_reply_process, dhcpv6_snp_release_process, insert6_process;
    rewrite Hget; cbn [obind]; by rewrite Hret.
Qed.

(** A handler, when the packet is read without an error. *)
Lemma process6_ok env buf vid ifx type mac u s :
  type ∈ types6 → snp6_ok s →
  dhcpv6_snp_get_item_from_pkt buf vid ifx DHCPV6_DATA mac type s.(v6) zero_user = Done (u, DHCP_SNP_RETURN_CODE_OK) →
  good u.(u_ip_addr) →
  wp (process6 env buf vid ifx type mac s) (handle6_post s (snoop6 env.(clock) type u)).
Proof.
  unfold types6. rewrite !elem_of_cons. intros Ht Hs Hget Hg. pose proof (get_item6_hlen _ _ _ _ _ _ _ _ _ Hget) as Hl.
  destruct Ht as [->|[->|[->|[->|[->|[]%not_elem_of_nil]]]]]; unfold process6, snoop6; cbn.
  - by eapply insert6_ok.
  - by eapply insert6_ok.
  - by eapply insert6_ok.
  - by eapply reply_ok.
  - eapply release6_ok; [done|done|lia].
Qed.

Lemma handled6_types message smac dmac type mac : handled6 message smac dmac = Some (type, mac) → type ∈ types6.
Proof.
  unfold handled6, types6. rewrite !elem_of_cons. intros E.
  repeat (destruct (message =? _); [first [discriminate E|injection E as <- _; tauto]|]). done.
Qed.

(** The chain of tests is [handled6]. *)
Lemma packet6_dispatch env buf ifx vid message smac dmac s :
  (if message =? NPD_DHCPv6_TYPE_SOLICIT then dhcp_snp_solicit_process env buf vid ifx DHCPV6_DATA smac s
   else if message =? NPD_DHCPv6_TYPE_ADVERTISE then dhcp_snp_advertise_process s
   else if message =? NPD_DHCPv6_TYPE_REQUEST then dhcpv6_snp_request_process env buf vid ifx DHCPV6_DATA smac s
   else if message =? NPD_DHCPv6_TYPE_REPLY then dhcp_snp_reply_process env buf vid ifx DHCPV6_DATA dmac s
   else if message =? NPD_DHCPv6_TYPE_RENEW then dhcpv6_snp_request_process env buf vid ifx DHCPV6_DATA smac s
   else if message =? NPD_DHCPv6_TYPE_RELEASE then dhcpv6_snp_release_process buf vid ifx DHCPV6_DATA smac s
   else if message =? NPD_DHCPv6_TYPE_CONFIRM then dhcpv6_snp_confirm_process env buf vid ifx DHCPV6_DATA smac s
   else Done (s, DHCP_SNP_RETURN_CODE_OK)) =
  match handled6 message smac dmac with
  | None => Done (s, DHCP_SNP_RETURN_CODE_OK)
  | Some (type, mac) => process6 env buf vid ifx type mac s
  end.
Proof. unfold handled6. by repeat destruct (message =? _). Qed.

Lemma wp_packet6 env buf ifx vid s :
  buf_ok buf → snooper_ok s → packet6_ok buf vid ifx s →
  wp (dhcp_snp_dhcpv6_packet_process env buf ifx vid s) (fun '(s', _) => snooper_ok s').
Proof.
  intros Hbuf Hs Hp. unfold dhcp_snp_dhcpv6_packet_process. destruct (negb _); [done|].
  assert (Hdone : ∀ {T} (m : outcome T), wp m (fun _ => True) → ∃ a, m = Done a).
  { intros T m Hm. destruct (wp_elim _ _ Hm) as (a & E & _). eauto. }
  destruct (Hdone _ _ (wp_load buf Hbuf DHCPV6_DATA (fun _ => True) ltac:(done) ltac:(done))) as [message Em].
  destruct (Hdone _ _ (wp_load_bytes buf Hbuf 0 6 (fun _ => True) ltac:(done) ltac:(done) ltac:(done))) as [dmac Ed].
  destruct (Hdone _ _ (wp_load_bytes buf Hbuf ETH_SMAC 6 (fun _ => True) ltac:(done) ltac:(done) ltac:(done))) as [smac Es].
  rewrite Em, Ed, Es. cbn [obind]. rewrite packet6_dispatch. specialize (Hp message dmac smac Em Ed Es).
  assert (Hend : ∀ s1 ret, snooper_ok s1 →
    wp (if negb (is_ok ret) then Done (s1, DHCP_SNP_RETURN_CODE_PKT_DROP) else Done (s1, DHCP_SNP_RETURN_CODE_OK))
       (fun '(s', _) => snooper_ok s')) by (intros; by destruct (negb _)).
  apply wp_bind. destruct (handled6 message smac dmac) as [[type mac]|] eqn:Eh; [|by apply Hend].
  apply handled6_types in Eh. destruct Hp as (u & ret & Hget & Hg). destruct (is_ok ret) eqn:Eret.
  - unfold is_ok in Eret. apply Z.eqb_eq in Eret. subst ret.
    eapply wp_mono; [eapply process6_ok; [done|apply Hs|exact Hget|exact Hg]|].
    intros [s1 r1] (Hs1 & Hv1 & _). apply Hend. by eapply daemon_ok_v6.
  - rewrite (process6_error _ _ _ _ _ _ _ _ _ Eh Hget Eret). by apply Hend.
Qed.

(** ** One readable socket *)

(** What the frame needs, by the way it is classified. *)
Definition sock_frame_ok env node frame s : Prop :=
  let s := read_frame frame s in
  let buf := s.(sock_pack_buf) in
  let ifx := env.(if_nametoindex) node.(ifname) in
  Forall is_byte frame ∧
  (dhcp_snp_listener_type_check buf = Done true → packet_ok buf 0xFFFF ifx) ∧
  (dhcp_snp_listener_dhcpv6_packet_check buf = Done true → packet6_ok buf 0xFFFF ifx s).

Lemma daemon_ok_buf s s' : snooper_ok s →
  buf_ok s'.(sock_pack_buf) → s' = s <| sock_pack_buf := s'.(sock_pack_buf) |> → snooper_ok s'.
Proof.
  intros [[H4 Hu4 Hs4] [H6 Hu6 Hs6] _] Hb E.
  split; [split|split|done]; rewrite E; by destruct s.
Qed.

Lemma daemon_ok_clear s : snooper_ok s → snooper_ok (clear_buf s).
Proof. intros Hs. eapply daemon_ok_buf; [done|apply clear_buf_ok|by destruct s]. Qed.

Lemma wp_arp_request_ok env buf sock s :
  buf_ok buf → snooper_ok s → wp (dhcp_snp_arp_request_process env buf sock s) (fun '(s', _) => snooper_ok s').
Proof.
  intros Hbuf Hs. unfold dhcp_snp_arp_request_process. destruct (sock <? 0); [done|].
  destruct (_ =? 0); [done|]. apply wp_bind, (wp_load32 buf Hbuf); [done|done|]. intros dip.
  destruct (ok_v4 s (dok_v4 s Hs)) as [ips Hinv]. apply wp_bind.
  eapply wp_table_find_ip; [exact Hinv| |done]. intros p x Ex _ _ _. unfold get_item. rewrite Ex. cbn [deref obind].
  apply wp_bind, (wp_load_bytes buf Hbuf); [done|done|]. intros smac _.
  apply wp_bind, (wp_load_bytes buf Hbuf); [done|done|]. intros sip _. cbn [wp].
  destruct (write_ok env); [|done]. eapply daemon_ok_half4; [done| |apply half4_emit].
  destruct (dok_v4 s Hs). by split.
Qed.

Lemma wp_read_socket env node frame s :
  snooper_ok s → sock_frame_ok env node frame s →
  wp (read_socket env node frame s) (fun '(s', _) => snooper_ok s').
Proof.
  intros Hs (Hf & Hd4 & Hd6). unfold read_socket.
  destruct frame as [|c frame']; [by apply daemon_ok_clear|]. set (frame := c :: frame') in *.
  assert (Hs1 : snooper_ok (read_frame frame s)).
  { eapply daemon_ok_buf; [exact Hs|apply read_frame_ok; [apply Hs|done]|by destruct s]. }
  set (s1 := read_frame frame s) in *. pose proof (dok_buf s1 Hs1) as Hbuf.
  apply wp_bind, (wp_gratuitous_check _ Hbuf). intros [|]; cbv iota.
  { apply wp_bind. destruct (wp_elim _ _ (wp_garp_user _ Hbuf 0xFFFF (if_nametoindex env (ifname node)))) as (u & Eu & _).
    eapply wp_mono; [apply (garp_ok env _ _ _ node u s1 Eu), Hs1|]. intros [s2 r2] (Hs2 & Hh2 & _).
    apply daemon_ok_clear. by eapply daemon_ok_half4. }
  apply wp_bind, (wp_request_check _ Hbuf). intros [|]; cbv iota.
  { apply wp_bind. eapply wp_mono; [by apply wp_arp_request_ok|]. by intros [s2 r2]. }
  apply wp_bind. destruct (wp_elim _ _ (wp_dhcpv6_check _ Hbuf (fun _ => True) ltac:(done))) as (b6 & E6 & _).
  rewrite E6. cbn [wp]. destruct b6; cbv iota.
  { apply wp_bind. eapply wp_mono; [by apply wp_packet6; [| |apply Hd6]|]. intros [s2 r2] Hs2. by apply daemon_ok_clear. }
  apply wp_bind. destruct (wp_elim _ _ (wp_type_check _ Hbuf (fun _ => True) ltac:(done))) as (b4 & E4 & _).
  rewrite E4. cbn [wp]. destruct b4; cbv iota.
  { apply wp_bind. eapply wp_mono; [by apply wp_packet; [|apply Hd4]|]. intros [s2 r2] Hs2. by apply daemon_ok_clear. }
  by apply daemon_ok_clear.
Qed.

(** ** Stations *)

(** [asd] numbers its instances from 0 to 16 and says 0 or 1. *)
Definition station_ok (msg : STA_MSG) : Prop := 0 ≤ msg.(sta_vrrid) ∧ 0 ≤ msg.(sta_local) ≤ 1.

Lemma wp_add_station {A} `{ADDR A} c (t : UTBL A) msg (Q : UTBL A → Prop) :
  u_ok t → u_safe t → 0 ≤ msg.(sta_vrrid) < MAX_HANSI_PROFILE → 0 ≤ msg.(sta_local) ≤ 1 →
  (∀ t', u_ok t' → u_safe t' → Q t') →
  wp (dhcp_snp_add_unresolved_node c t (fill_unresolved_table_from_tableMsg msg)) Q.
Proof.
  intros Hok Hsafe Hv Hl HQ. apply wp_u_add; [done|]. intros t' p b Hok' Ec _ Hb. apply HQ; [done|].
  intros q b'. rewrite Ec. destruct (decide (q = p)) as [->|Hq].
  - rewrite lookup_insert_eq. intros [= <-]. destruct (ucores t !! p); destruct Hb as [_ ->]; done.
  - rewrite lookup_insert_ne by done. apply Hsafe.
Qed.

Lemma wp_station env msg s :
  station_ok msg → snooper_ok s → wp (dhcp_snp_asd_interactive env msg s) snooper_ok.
Proof.
  intros [Hv Hl] Hs. unfold dhcp_snp_asd_interactive. unfold check_msg.
  destruct (Z.ltb_spec (MAX_HANSI_PROFILE - 1) msg.(sta_vrrid)) as [|Hv']; [done|].
  change (negb (0 =? 0)) with false. cbv iota. destruct (_ =? _); [done|].
  destruct Hs as [[H4 Hu4 Hs4] [H6 Hu6 Hs6] Hb].
  apply wp_bind. unfold dhcp_snp_process_asd_interactive. apply wp_bind.
  apply wp_add_station; [done|done|lia|lia|]. intros t4 Ht4 Hst4. cbn [wp].
  unfold dhcpv6_snp_process_asd_interactive. apply wp_bind.
  apply wp_add_station; [done|done|lia|lia|]. intros t6 Ht6 Hst6. cbn [wp].
  by split; [split|split|].
Qed.

(** ** A round of aging *)

Lemma u_safe_filter {A} (t t' : UTBL A) (P : UNRES A → Prop) `{∀ x, Decision (P x)} :
  ucores t' = filter (fun '(_, x) => P x) (ucores t) → u_safe t → u_safe t'.
Proof. intros E Hs p b. rewrite E. intros [Eb _]%map_lookup_filter_Some. by eapply Hs. Qed.

(** After the IPv4 table: the other three. *)
Lemma wp_aging_rest env s (Q : SNP → Prop) :
  snooper_ok s →
  (∀ s', snooper_ok s' → s'.(v4) = s.(v4) →
     table s'.(v6) = filter (fun '(_, b) => ¬ stale env.(clock).(uptime) b) (table s.(v6)) →
     ucores s'.(unres4) = filter (fun '(_, x) => live env.(clock).(uptime) x) (ucores s.(unres4)) →
     ucores s'.(unres6) = filter (fun '(_, x) => live env.(clock).(uptime) x) (ucores s.(unres6)) → Q s') →
  wp (let* '(s, _) := dhcpv6_snp_aging_mechanism env s in
      let* t := dhcp_snp_asd_table_aging_mechanism env.(clock) s.(unres4) in
      let s := s <| unres4 := t |> in
      let* t := dhcp_snp_asd_table_aging_mechanism env.(clock) s.(unres6) in
      Done (s <| unres6 := t |>)) Q.
Proof.
  intros [[H4 Hu4 Hs4] [H6 Hu6 Hs6] Hb] HQ. apply wp_bind, wp_aging6; [done|]. intros t6 Ht6 Ec6.
  apply wp_bind, wp_unres_aging; [done|]. intros t4 Ht4 Ec4. cbv zeta.
  apply wp_bind, wp_unres_aging; [done|]. intros t6' Ht6' Ec6'. cbn [wp].
  apply HQ; [split; [split|split|]; simpl; try done; by eapply u_safe_filter|done| |done|done].
  destruct H6 as [ips6 Hi6].
  by apply (table_filter s.(v6) t6 (fun b => ¬ stale env.(clock).(uptime) b) (map_mac _ _ Hi6)).
Qed.

Lemma wp_aging_round env s (Q : SNP → Prop) :
  snooper_ok s →
  (∀ s', snooper_ok s' →
     (kernel_ok env → table s'.(v4) = filter (fun '(_, b) => ¬ stale env.(clock).(uptime) b) (table s.(v4))) →
     (∀ mac b, table s.(v4) !! mac = Some b → ¬ stale env.(clock).(uptime) b → table s'.(v4) !! mac = Some b) →
     table s'.(v4) ⊆ table s.(v4) →
     table s'.(v6) = filter (fun '(_, b) => ¬ stale env.(clock).(uptime) b) (table s.(v6)) →
     ucores s'.(unres4) = filter (fun '(_, x) => live env.(clock).(uptime) x) (ucores s.(unres4)) →
     ucores s'.(unres6) = filter (fun '(_, x) => live env.(clock).(uptime) x) (ucores s.(unres6)) → Q s') →
  wp (dhcp_snp_tbl_thread_aging env s) Q.
Proof.
  intros Hs HQ. unfold dhcp_snp_tbl_thread_aging. apply wp_bind, wp_aging; [apply Hs|..].
  - intros s1 Hv1 Hs1 Et. pose proof (daemon_ok_half4 _ _ Hs Hs1 (only_v4_half4 _ _ Hv1)) as Hd1.
    apply wp_aging_rest; [done|]. intros s2 Hs2 Ev2 Et6 Eu4 Eu6. unfold only_v4 in Hv1.
    apply HQ; [done|by intros _; rewrite Ev2|..|by rewrite Et6, Hv1|by rewrite Eu4, Hv1|by rewrite Eu6, Hv1].
    + intros mac b Eb Hn. rewrite Ev2, Et. by apply map_lookup_filter_Some.
    + rewrite Ev2, Et. apply map_filter_subseteq.
  - intros s1 r Hv1 Hs1 Hk Hsub Hst. pose proof (daemon_ok_half4 _ _ Hs Hs1 (only_v4_half4 _ _ Hv1)) as Hd1.
    apply wp_aging_rest; [done|]. intros s2 Hs2 Ev2 Et6 Eu4 Eu6. unfold only_v4 in Hv1.
    apply HQ; [done|done|..|by rewrite Et6, Hv1|by rewrite Eu4, Hv1|by rewrite Eu6, Hv1].
    + intros mac b Eb Hn. rewrite Ev2. destruct (table s1.(v4) !! mac) as [b'|] eqn:E'.
      * pose proof (lookup_weaken _ _ _ _ E' Hsub). congruence.
      * by destruct Hn; eapply Hst.
    + by rewrite Ev2.
Qed.

(** ** Inputs *)

Inductive SNP_INPUT : Type :=
| FRAME (node : LISTENER) (frame : list Z)
| AGING
| STATION (msg : STA_MSG)
| ADD_WAN (ip : Z) (mac : list Z) (ifx : Z)
| DEL_WAN (mac : list Z)
| LISTEN (flags_ok : bool) (listener : LISTENER) (op : dhcpsnp_listener_op)
| ENABLE
| DISABLE.

Definition snp_serve (env : ENV) (i : SNP_INPUT) (s : SNP) : outcome SNP :=
  match i with
  | FRAME node frame => let* '(s, _) := read_socket env node frame s in Done s
  | AGING => dhcp_snp_tbl_thread_aging env s
  | STATION msg => dhcp_snp_asd_interactive env msg s
  | ADD_WAN ip mac ifx => let* '(s, _) := dhcp_snp_dbus_add_wan_bind_table env ip mac ifx s in Done s
  | DEL_WAN mac => let* '(s, _) := dhcp_snp_dbus_del_wan_bind_table mac s in Done s
  | LISTEN flags_ok listener op => let '(s, _, _) := dhcp_snp_listener_handle flags_ok listener op s in Done s
  | ENABLE => Done (fst (dhcp_snp_enable env s))
  | DISABLE => let* '(s, _) := dhcp_snp_disable s in Done s
  end.

Definition input_ok (env : ENV) (i : SNP_INPUT) (s : SNP) : Prop :=
  match i with
  | FRAME node frame => sock_frame_ok env node frame s
  | STATION msg => station_ok msg
  | ADD_WAN ip _ ifx => ip ≠ 0 ∧ ifx ≠ 0
  | _ => True
  end.

(** The state after start, with zeroed tables. *)
Definition dhcp_snp_start : SNP :=
  mkSnp (mkTbl ∅ ∅ ∅) (mkTbl ∅ ∅ ∅) [] (mkUtbl ∅ ∅) (mkUtbl ∅ ∅) ∅ NPD_DHCP_SNP_DISABLE false 0 0 []
    (replicate (Z.to_nat DHCP_SNP_PACKET_SIZE) 0) [].

Inductive snp_reachable : SNP → Prop :=
| snp_reach_start : snp_reachable dhcp_snp_start
| snp_reach_step env i s s' : snp_reachable s → input_ok env i s → snp_serve env i s = Done s' → snp_reachable s'.

Lemma snp_start_ok : snooper_ok dhcp_snp_start.
Proof.
  assert (Hu : ∀ A, u_safe (A := A) (mkUtbl ∅ ∅)).
  { intros A p b. unfold ucores; simpl. by rewrite fmap_empty, lookup_empty. }
  split; [split|split|].
  - by exists ∅; apply v4_empty.
  - apply u_ok_empty.
  - apply Hu.
  - exists ∅. split; [apply tbl_ok_empty|]. intros p q x y. unfold cores; simpl. by rewrite fmap_empty, lookup_empty.
  - apply u_ok_empty.
  - apply Hu.
  - by apply (clear_buf_ok dhcp_snp_start).
Qed.

(** A request that leaves the fields of the invariant alone but the IPv4 table. *)
Lemma daemon_ok_fields s s' : snooper_ok s → v4_ok s'.(v4) →
  (s'.(v6), s'.(unres4), s'.(unres6), s'.(sock_pack_buf)) = (s.(v6), s.(unres4), s.(unres6), s.(sock_pack_buf)) →
  snooper_ok s'.
Proof.
  intros [[_ Hu4 Hs4] [H6 Hu6 Hs6] Hb] H4 [= E6 E4 Eu Eb].
  split; [split|split|]; [done|by rewrite E4|by rewrite E4|by rewrite E6|by rewrite Eu|by rewrite Eu|by rewrite Eb].
Qed.

Lemma del_static_fields ip mac ifx s :
  let s' := fst (dhcp_snp_del_static_bindtable ip mac ifx s) in
  (s'.(v6), s'.(unres4), s'.(unres6), s'.(sock_pack_buf)) = (s.(v6), s.(unres4), s.(unres6), s.(sock_pack_buf)).
Proof. unfold dhcp_snp_del_static_bindtable. destruct (_ || _); [done|]. by destruct s.(static_table). Qed.

Lemma listener_fields flags_ok listener op s :
  let s' := fst (fst (dhcp_snp_listener_handle flags_ok listener op s)) in
  s'.(v4) = s.(v4) ∧
  (s'.(v6), s'.(unres4), s'.(unres6), s'.(sock_pack_buf)) = (s.(v6), s.(unres4), s.(unres6), s.(sock_pack_buf)).
Proof.
  unfold dhcp_snp_listener_handle. cbv zeta. destruct (snd <$> list_find _ _) as [n|], op, (sock_list s); try done;
    repeat (destruct (negb _); [done|]); by destruct (_ <? _).
Qed.

Lemma snp_serve_ok env i s : snooper_ok s → input_ok env i s → wp (snp_serve env i s) snooper_ok.
Proof.
  intros Hs Hi. pose proof (ok_v4 s (dok_v4 s Hs)) as Hv4.
  destruct i as [node frame| |msg|ip mac ifx|mac|flags_ok listener op| |]; cbn [snp_serve input_ok] in *.
  - apply wp_bind. eapply wp_mono; [by apply wp_read_socket|]. by intros [s' r].
  - apply wp_aging_round; [done|]. by intros.
  - by apply wp_station.
  - destruct Hi as [Hip Hif]. apply wp_bind.
    destruct (decide (s.(dhcp_snp_status) = NPD_DHCP_SNP_ENABLE)) as [Hen|Hen].
    + apply wp_wan_add; [apply Hs|done|done|done|done|]. intros _ _ t Ht _. cbn [wp]. by eapply daemon_ok_fields.
    + unfold dhcp_snp_dbus_add_wan_bind_table, dhcp_snp_check_global_status.
      by rewrite (proj2 (Z.eqb_neq _ _) Hen).
  - apply wp_bind. destruct (decide (s.(dhcp_snp_status) = NPD_DHCP_SNP_ENABLE)) as [Hen|Hen].
    + apply wp_wan_del; [apply Hs|done|done|]. intros b t _ Ht _. cbn [wp].
      eapply daemon_ok_fields; [exact Hs|exact Ht|]. by apply (del_static_fields b.(ip_addr) mac b.(ifindex) s).
    + unfold dhcp_snp_dbus_del_wan_bind_table, dhcp_snp_check_global_status.
      by rewrite (proj2 (Z.eqb_neq _ _) Hen).
  - pose proof (listener_fields flags_ok listener op s) as [E4 E].
    destruct (dhcp_snp_listener_handle flags_ok listener op s) as [[s' r] fd']. cbn [wp].
    simpl in E4, E. eapply daemon_ok_fields; [exact Hs|by rewrite E4|exact E].
  - unfold dhcp_snp_enable. cbn [wp]. destruct (_ && _); cbn [fst];
      (eapply daemon_ok_fields; [exact Hs|exists ∅; apply v4_empty|done]).
  - apply wp_bind, wp_disable; [apply Hs|done|]. intros _. cbn [wp].
    eapply daemon_ok_fields; [exact Hs|exists ∅; apply v4_empty|done].
Qed.

Lemma snp_reachable_ok s : snp_reachable s → snooper_ok s.
Proof.
  induction 1 as [|env i s s' _ IH Hi E]; [apply snp_start_ok|]. eapply wp_use; [by apply snp_serve_ok|exact E].
Qed.
