(* ===== verification/DhcpExample.v ===== *)
(** * A run of the DHCP snooping daemon

    Frames byte by byte, and the states of a small network: a client that has
    asked, one that is bound, a static binding.  The witnesses of the theorems
    evaluate on them. *)

From Stdlib Require Import ZArith Lia.
From stdpp Require Import base gmap list option.
From S2P Require Import Prelude Chain DhcpTbl DhcpUnres DhcpSnp DhcpOptions DhcpPkt.
From S2P Require Import DhcpTable DhcpBind DhcpUnresProps DhcpHandle DhcpAging.
From S2P Require Import DhcpV6 DhcpAdmin DhcpOptionsProps DhcpRun.

(** A kernel that works, at [now] seconds after boot. *)
Definition env_at (now : Z) : ENV :=
  mkEnv (mkClock now 1000000) (fun _ => Some [101; 116; 104; 48]) (fun _ => 5)
    DHCP_SNP_RETURN_CODE_OK DHCP_SNP_RETURN_CODE_OK true true (fun _ => true) true.

(** One whose interface 5 has gone. *)
Definition env_gone (now : Z) : ENV :=
  mkEnv (mkClock now 1000000) (fun _ => None) (fun _ => 5)
    DHCP_SNP_RETURN_CODE_OK DHCP_SNP_RETURN_CODE_OK true true (fun _ => true) true.

Definition node0 : LISTENER := mkListener 7 1 1 [101; 116; 104; 48].

Definition mac_a : list Z := [0; 17; 34; 51; 68; 85].
Definition mac_b : list Z := [0; 17; 34; 51; 68; 86].
(** In the list of [mac_a]. *)
Definition mac_c : list Z := [0; 17; 34; 51; 72; 85].
Definition broadcast : list Z := replicate 6 255.

(** 192.168.1.10 *)
Definition ip_1 : Z := 0xc0a8010a.

(** ** Frames *)

Definition dhcp_message (op ciaddr yiaddr : Z) (mac : list Z) (opts : list (Z * list Z)) : list Z :=
  [op; 1; 6; 0] ++ replicate 8 0 ++ be_bytes 4 ciaddr ++ be_bytes 4 yiaddr ++ replicate 8 0 ++
  mac ++ replicate 10 0 ++ replicate 64 0 ++ replicate 128 0 ++ [99; 130; 83; 99] ++ options opts.

Definition udp_frame (dmac smac : list Z) (sport dport : Z) (data : list Z) : list Z :=
  dmac ++ smac ++ be_bytes 2 0x0800 ++
  [0x45; 0] ++ replicate 7 0 ++ [0x11] ++ replicate 10 0 ++
  be_bytes 2 sport ++ be_bytes 2 dport ++ replicate 4 0 ++ data.

Definition type_option (message : Z) : Z * list Z := (NPD_DHCP_MESSAGE_TYPE, [message]).
Definition lease_option (lease : Z) : Z * list Z := (DHCP_LEASE_TIME, be_bytes 4 lease).

Definition discover (mac : list Z) : list Z :=
  udp_frame broadcast mac DHCP_CLIENT_PORT DHCP_SERVER_PORT
    (dhcp_message NPD_DHCP_BOOTREQUEST 0 0 mac [type_option NPD_DHCP_DISCOVER]).
Definition ack (mac : list Z) (ip lease : Z) : list Z :=
  udp_frame mac mac_b DHCP_SERVER_PORT DHCP_CLIENT_PORT
    (dhcp_message NPD_DHCP_BOOTREPLY 0 ip mac [type_option NPD_DHCP_ACK; lease_option lease]).
Definition release (mac : list Z) : list Z :=
  udp_frame broadcast mac DHCP_CLIENT_PORT DHCP_SERVER_PORT
    (dhcp_message NPD_DHCP_BOOTREQUEST 0 0 mac [type_option NPD_DHCP_RELEASE]).
Definition arp_request (mac : list Z) (sip dip : Z) : list Z :=
  broadcast ++ mac ++ be_bytes 2 0x0806 ++ [0; 1; 8; 0; 6; 4; 0; 1] ++ mac ++ be_bytes 4 sip ++
  replicate 6 0 ++ be_bytes 4 dip.

(** The buffer after a frame has been read into it. *)
Definition in_buffer (frame : list Z) : list Z :=
  frame ++ replicate (Z.to_nat DHCP_SNP_PACKET_SIZE - length frame) 0.

(** ** Runs *)

Fixpoint run (l : list (ENV * SNP_INPUT)) (s : SNP) : outcome SNP :=
  match l with
  | [] => Done s
  | (env, i) :: l' => let* s := snp_serve env i s in run l' s
  end.

Definition get_done {A} (d : A) (m : outcome A) : A := match m with Done a => a | _ => d end.

Definition snp_ready : list (ENV * SNP_INPUT) :=
  [(env_at 100, ENABLE); (env_at 100, LISTEN true node0 DHCPSNP_LSTNER_ADD_E)].
Definition asked : list (ENV * SNP_INPUT) := snp_ready ++ [(env_at 110, FRAME node0 (discover mac_a))].
Definition bound_a : list (ENV * SNP_INPUT) := asked ++ [(env_at 111, FRAME node0 (ack mac_a ip_1 3600))].

Definition s_ready : SNP := get_done dhcp_snp_start (run snp_ready dhcp_snp_start).
Definition s_asked : SNP := get_done dhcp_snp_start (run asked dhcp_snp_start).
Definition s_bound : SNP := get_done dhcp_snp_start (run bound_a dhcp_snp_start).

(** The inputs of a run respect [input_ok]. *)
Fixpoint run_ok (l : list (ENV * SNP_INPUT)) (s : SNP) : Prop :=
  match l with
  | [] => True
  | (env, i) :: l' => input_ok env i s ∧ run_ok l' (get_done dhcp_snp_start (snp_serve env i s))
  end.

Lemma run_reachable l : ∀ s, snp_reachable s → run_ok l s → snp_reachable (get_done dhcp_snp_start (run l s)).
Proof.
  induction l as [|[env i] l IH]; intros s Hs; cbn [run run_ok]; [done|]. intros [Hi Hl].
  destruct (snp_serve env i s) as [s'| |] eqn:E; cbn [obind get_done] in *; [|apply snp_reach_start|apply snp_reach_start].
  apply IH; [|done]. by eapply snp_reach_step.
Qed.

Ltac packet_reads :=
  intros _; eexists; split; [vm_compute; reflexivity|]; cbv beta iota;
  try (eexists; split; [vm_compute; reflexivity|]; intros _;
       do 2 eexists; split; [vm_compute; reflexivity|vm_compute; discriminate]).
Ltac packet6_reads :=
  let Em := fresh in let Ed := fresh in let Es := fresh in
  intros _ ? ? ? Em Ed Es; vm_compute in Em, Ed, Es;
  injection Em as <-; injection Ed as <-; injection Es as <-;
  match goal with |- context [handled6 ?m ?s ?d] =>
    let r := eval vm_compute in (handled6 m s d) in change (handled6 m s d) with r end; cbv iota;
  try (do 2 eexists; split; [vm_compute; reflexivity|];
       split; [reflexivity|by apply (bool_decide_unpack _); vm_compute]).
Ltac no_packet := let H := fresh in intros H; exfalso; vm_compute in H; discriminate H.
Ltac frame_reads :=
  split; [by apply (bool_decide_unpack _); vm_compute|];
  split; [first [no_packet|packet_reads]|first [no_packet|packet6_reads]].

Lemma asked_ok : run_ok asked dhcp_snp_start.
Proof. split; [done|]. split; [done|]. split; [frame_reads|done]. Qed.

Lemma bound_ok : run_ok bound_a dhcp_snp_start.
Proof. split; [done|]. split; [done|]. split; [frame_reads|]. split; [frame_reads|done]. Qed.

(** ** IPv6 *)

(** 2001:db8::1 *)
Definition ip6_1 : IPV6_ADDR := [32; 1; 13; 184; 0; 0; 0; 0; 0; 0; 0; 0; 0; 0; 0; 1].

Definition dhcpv6_frame (dmac smac : list Z) (message : Z) (opts : list Z) : list Z :=
  dmac ++ smac ++ be_bytes 2 0x86dd ++ [0x60] ++ replicate 5 0 ++ [0x11] ++ replicate 33 0 ++
  be_bytes 2 0x0223 ++ be_bytes 2 0x0222 ++ replicate 4 0 ++ [message; 0; 0; 1] ++ opts.

(** IA_NA (40 bytes) with one address and its lifetimes. *)
Definition iana_option (ip : IPV6_ADDR) (lease : Z) : list Z :=
  be_bytes 2 3 ++ be_bytes 2 40 ++ replicate 12 0 ++ be_bytes 2 5 ++ be_bytes 2 24 ++ ip ++
  be_bytes 4 lease ++ be_bytes 4 lease.

Definition solicited : list (ENV * SNP_INPUT) :=
  snp_ready ++ [(env_at 110, FRAME node0 (dhcpv6_frame broadcast mac_a NPD_DHCPv6_TYPE_SOLICIT []))].
Definition s_solicited : SNP := get_done dhcp_snp_start (run solicited dhcp_snp_start).

Lemma solicited_ok : run_ok solicited dhcp_snp_start.
Proof. split; [done|]. split; [done|]. split; [frame_reads|done]. Qed.
