(* ===== verification/DhcpProps.v ===== *)
(** * The DHCP snooping daemon: its properties *)

From Stdlib Require Import ZArith Lia.
From stdpp Require Import base gmap list option fin_maps.
From S2P Require Import Prelude Checksum Chain DhcpTbl DhcpUnres DhcpSnp DhcpOptions DhcpPkt.
From S2P Require Import DhcpTable DhcpBind DhcpUnresProps DhcpHandle DhcpAging.
From S2P Require Import DhcpV6 DhcpAdmin DhcpOptionsProps DhcpRun DhcpExample.

(** C5: From its start, whatever frames, rounds of aging, stations, listeners and
    management requests the daemon gets that respect [input_ok], with every answer
    of the kernel, serving the next one returns, the four tables keep their shape,
    and no two clients are bound to the same IPv4 address. *)
Theorem dhcp_daemon_stays_sound env i s :
  snp_reachable s → input_ok env i s →
  wp (snp_serve env i s) (fun s' =>
    snooper_ok s' ∧ ∀ ip b b', bound_to s'.(v4) ip b → bound_to s'.(v4) ip b' → b = b').
Proof.
  intros Hr Hi. eapply wp_mono; [by apply snp_serve_ok; [apply snp_reachable_ok|]|]. intros s' Hs'. split; [done|].
  intros ip b b'. destruct (ok_v4 s' (dok_v4 s' Hs')) as [ips Hinv]. by apply (bound_to_unique _ ips).
Qed.

Lemma dhcp_daemon_stays_sound_witness :
  wp (snp_serve (env_at 111) (FRAME node0 (ack mac_a ip_1 3600)) s_asked) (fun s' =>
    snooper_ok s' ∧ ∀ ip b b', bound_to s'.(v4) ip b → bound_to s'.(v4) ip b' → b = b').
Proof.
  apply dhcp_daemon_stays_sound.
  - apply (run_reachable asked dhcp_snp_start snp_reach_start asked_ok).
  - frame_reads.
Defined.

(** C6: A DHCP message, to a daemon that is enabled, does to the IPv4 bindings what
    [snoop] does to the finite map from MAC addresses to bindings: DISCOVER and
    REQUEST add an unknown client, ACK and INFORM bind it and evict the other holders
    of the address, NAK and RELEASE remove it, and every other type leaves the map
    alone.  When the kernel refuses, the map is that of [snoop] or the one before, and
    in the second case the packet is reported as dropped.  A message that cannot be
    parsed, such as the answer of a server without a lease time, changes nothing at
    all; an ordinary NAK is one.  The length of the hardware address in a message that
    is parsed is at most 6: the code does not check it. *)
Theorem dhcp_message_refines_map env buf vid ifx node s p message u r :
  snp_ok s → s.(dhcp_snp_status) = NPD_DHCP_SNP_ENABLE →
  dhcp_snp_get_option buf DHCP_DATA NPD_DHCP_MESSAGE_TYPE = Done (Some p) → load buf p = Done message →
  dhcp_snp_get_item_from_pkt buf vid ifx DHCP_DATA message zero_user = Done (u, r) →
  (r = DHCP_SNP_RETURN_CODE_OK → u.(u_haddr_len) ≤ 6) →
  wp (dhcp_snp_packet_rx_process env buf ifx vid node s) (fun '(s', ret) =>
    if is_ok r then
      snp_ok s' ∧ half4 s s' ∧
      (table s'.(v4) = snoop env.(clock) message u (table s.(v4)) ∨
       ¬ kernel_ok env ∧ ret = DHCP_SNP_RETURN_CODE_PKT_DROP ∧ table s'.(v4) = table s.(v4))
    else s' = s).
Proof.
  intros Hs Hen Eo Em Hget Hl. unfold dhcp_snp_packet_rx_process. rewrite Hen, Eo. cbn [obind].
  change (negb (NPD_DHCP_SNP_ENABLE =? NPD_DHCP_SNP_ENABLE)) with false. cbv iota. rewrite Em. cbn [obind].
  destruct (is_ok r) eqn:Er.
  - assert (r = DHCP_SNP_RETURN_CODE_OK) as -> by (by apply Z.eqb_eq). specialize (Hl eq_refl).
    apply wp_bind. eapply wp_mono; [apply (wp_handle env buf vid ifx DHCP_DATA node u message s Hget Hl Hs)|].
    intros [s' ret] (Hs' & Hh & Hor). unfold is_ok.
    destruct (Z.eqb_spec ret DHCP_SNP_RETURN_CODE_OK) as [->|Hr]; cbn [negb wp]; (split_and!; [done|done|]);
      destruct Hor as [?|(? & ? & ?)]; auto. done.
  - destruct (handle_unparsed env buf vid ifx DHCP_DATA node message s u r Hget Er) as [ret ->]. cbn [obind].
    by destruct (negb (is_ok ret)).
Qed.

Lemma dhcp_message_refines_map_witness :
  ∃ u, wp (dhcp_snp_packet_rx_process (env_at 111) (in_buffer (ack mac_a ip_1 3600)) 5 0xFFFF node0 s_asked) (fun '(s', ret) =>
    snp_ok s' ∧ half4 s_asked s' ∧
    (table s'.(v4) = snoop (env_at 111).(clock) NPD_DHCP_ACK u (table s_asked.(v4)) ∨
     ¬ kernel_ok (env_at 111) ∧ ret = DHCP_SNP_RETURN_CODE_PKT_DROP ∧ table s'.(v4) = table s_asked.(v4))).
Proof.
  eexists. eapply (dhcp_message_refines_map _ _ _ _ _ _ _ _ _ DHCP_SNP_RETURN_CODE_OK).
  - apply dok_v4, snp_reachable_ok, (run_reachable asked dhcp_snp_start snp_reach_start asked_ok).
  - vm_compute. reflexivity.
  - vm_compute. reflexivity.
  - vm_compute. reflexivity.
  - vm_compute. reflexivity.
  - intros _. vm_compute. discriminate.
Defined.

(** C13: A DHCPv6 message does to the IPv6 bindings what [snoop6] does to the map,
    whatever the kernel answers, provided its address contains a zero byte; unlike
    in IPv4 the other holders of an address keep it. *)
Theorem dhcpv6_message_refines_map env buf vid ifx s message dmac smac type mac u :
  snp6_ok s → s.(dhcp_snp_status) = NPD_DHCP_SNP_ENABLE →
  load buf DHCPV6_DATA = Done message → load_bytes buf 0 6 = Done dmac → load_bytes buf ETH_SMAC 6 = Done smac →
  handled6 message smac dmac = Some (type, mac) →
  dhcpv6_snp_get_item_from_pkt buf vid ifx DHCPV6_DATA mac type s.(v6) zero_user = Done (u, DHCP_SNP_RETURN_CODE_OK) →
  length u.(u_ip_addr) = 16%nat ∧ 0 ∈ u.(u_ip_addr) →
  wp (dhcp_snp_dhcpv6_packet_process env buf ifx vid s) (fun '(s', ret) =>
    ret = DHCP_SNP_RETURN_CODE_OK ∧ snp6_ok s' ∧ only_v6 s s' ∧
    table s'.(v6) = snoop6 env.(clock) type u (table s.(v6))).
Proof.
  intros Hs Hen Em Ed Es Eh Hget Hg. unfold dhcp_snp_dhcpv6_packet_process. rewrite Hen.
  change (negb (NPD_DHCP_SNP_ENABLE =? NPD_DHCP_SNP_ENABLE)) with false. cbv iota.
  rewrite Em, Ed, Es. cbn [obind]. rewrite packet6_dispatch, Eh. apply wp_bind.
  eapply wp_mono; [eapply process6_ok; [by eapply handled6_types|done|exact Hget|exact Hg]|].
  intros [s' ret] (Hs' & Hv' & Et & Er). simpl in *. subst ret. by split_and!.
Qed.

Lemma dhcpv6_message_refines_map_witness :
  ∃ u, wp (dhcp_snp_dhcpv6_packet_process (env_at 111)
         (in_buffer (dhcpv6_frame mac_a mac_b NPD_DHCPv6_TYPE_REPLY (iana_option ip6_1 3600))) 5 0xFFFF s_solicited)
    (fun '(s', ret) =>
       ret = DHCP_SNP_RETURN_CODE_OK ∧ snp6_ok s' ∧ only_v6 s_solicited s' ∧
       table s'.(v6) = snoop6 (env_at 111).(clock) NPD_DHCPv6_TYPE_REPLY u (table s_solicited.(v6))).
Proof.
  eexists. eapply dhcpv6_message_refines_map.
  - apply dok_v6, snp_reachable_ok, (run_reachable solicited dhcp_snp_start snp_reach_start solicited_ok).
  - vm_compute. reflexivity.
  - vm_compute. reflexivity.
  - vm_compute. reflexivity.
  - vm_compute. reflexivity.
  - vm_compute. reflexivity.
  - vm_compute. reflexivity.
  - split; [reflexivity|]. by apply (bool_decide_unpack _); vm_compute.
Defined.

(** C22: With the ARP proxy on, an ARP request is answered with the MAC address of
    the one client bound to the address asked for, and with nothing when there is
    none; the tables do not change. *)
Theorem arp_answer_is_the_bound_client env buf sock dip sip smac s :
  v4_ok s.(v4) → 0 ≤ sock → s.(dhcp_snp_arp_proxy_enable) ≠ 0 → env.(write_ok) = true →
  load32 buf ARP_DIP = Done dip → load_bytes buf ARP_SMAC 6 = Done smac → load_bytes buf ARP_SIP 4 = Done sip →
  wp (dhcp_snp_arp_request_process env buf sock s) (fun '(s', ret) =>
    ret = DHCP_SNP_RETURN_CODE_OK ∧
    ((∃ b, bound_to s.(v4) dip b ∧ s' = snp_emit (WRITE sock (arp_reply smac sip b.(chaddr) dip)) s) ∨
     (∀ b, ¬ bound_to s.(v4) dip b) ∧ s' = s)).
Proof.
  intros Hok Hsock Hon Hw Hd Hm Hs. eapply wp_arp_request; [done|done|done|exact Hd|exact Hm|exact Hs|..].
  - intros b Hb. rewrite Hw. split; [done|]. left. eauto.
  - intros Hn. split; [done|]. by right.
Qed.

Lemma proxy_v4 s z : (s <| dhcp_snp_arp_proxy_enable := z |>).(v4) = s.(v4).
Proof. done. Qed.

Definition s_proxy : SNP := s_bound <| dhcp_snp_arp_proxy_enable := 1 |>.

Lemma arp_answer_is_the_bound_client_witness :
  wp (dhcp_snp_arp_request_process (env_at 112) (in_buffer (arp_request mac_b 0xc0a80114 ip_1)) 7 s_proxy) (fun '(s', ret) =>
    ret = DHCP_SNP_RETURN_CODE_OK ∧
    ((∃ b, bound_to s_proxy.(v4) ip_1 b ∧ s' = snp_emit (WRITE 7 (arp_reply mac_b [192; 168; 1; 20] b.(chaddr) ip_1)) s_proxy) ∨
     (∀ b, ¬ bound_to s_proxy.(v4) ip_1 b) ∧ s' = s_proxy)).
Proof.
  apply (arp_answer_is_the_bound_client (env_at 112) (in_buffer (arp_request mac_b 0xc0a80114 ip_1)) 7 ip_1
    [192; 168; 1; 20] mac_b s_proxy).
  - unfold s_proxy. rewrite proxy_v4.
    apply ok_v4, dok_v4, snp_reachable_ok, (run_reachable bound_a dhcp_snp_start snp_reach_start bound_ok).
  - lia.
  - vm_compute. discriminate.
  - reflexivity.
  - vm_compute. reflexivity.
  - vm_compute. reflexivity.
  - vm_compute. reflexivity.
Defined.

(** C14: A round of the aging thread with a kernel that answers removes from each
    of the four tables exactly the entries whose time has passed: the stale
    dynamic bindings of both families and the stations that have waited too
    long.  The walk holds the pointer to the next node across each deletion. *)
Theorem aging_removes_exactly_the_stale env s :
  snooper_ok s → kernel_ok env →
  wp (dhcp_snp_tbl_thread_aging env s) (fun s' =>
    let now := env.(clock).(uptime) in
    snooper_ok s' ∧
    table s'.(v4) = filter (fun '(_, b) => ¬ stale now b) (table s.(v4)) ∧
    table s'.(v6) = filter (fun '(_, b) => ¬ stale now b) (table s.(v6)) ∧
    ucores s'.(unres4) = filter (fun '(_, x) => live now x) (ucores s.(unres4)) ∧
    ucores s'.(unres6) = filter (fun '(_, x) => live now x) (ucores s.(unres6))).
Proof. intros Hs Hk. apply wp_aging_round; [done|]. intros s' Hs' H4 _ _ H6 Hu4 Hu6. split_and!; auto. Qed.

Lemma aging_removes_exactly_the_stale_witness :
  wp (dhcp_snp_tbl_thread_aging (env_at 4000) s_bound) (fun s' =>
    let now := (env_at 4000).(clock).(uptime) in
    snooper_ok s' ∧
    table s'.(v4) = filter (fun '(_, b) => ¬ stale now b) (table s_bound.(v4)) ∧
    table s'.(v6) = filter (fun '(_, b) => ¬ stale now b) (table s_bound.(v6)) ∧
    ucores s'.(unres4) = filter (fun '(_, x) => live now x) (ucores s_bound.(unres4)) ∧
    ucores s'.(unres6) = filter (fun '(_, x) => live now x) (ucores s_bound.(unres6))).
Proof.
  apply aging_removes_exactly_the_stale.
  - apply snp_reachable_ok, (run_reachable bound_a dhcp_snp_start snp_reach_start bound_ok).
  - split_and!; [done|done|by intros i; eexists].
Defined.

(** When the interface of a stale bound client has gone, every round of aging
    ends at its binding with an error: the binding stays for ever, and so does
    every binding, stale or not, in the lists behind its own. *)
Theorem gone_interface_stops_aging env s mac b :
  snp_ok s → table s.(v4) !! mac = Some b → stale env.(clock).(uptime) b → cpu_bound b = true →
  b.(ip_addr) ≠ 0 → env.(if_indextoname) b.(ifindex) = None →
  wp (dhcp_snp_aging_mechanism env s) (fun '(s', ret) =>
    ret = DHCP_SNP_RETURN_CODE_ERROR ∧
    ∀ mac' b', table s.(v4) !! mac' = Some b' → mac' = mac ∨ dhcp_snp_tbl_hash mac < dhcp_snp_tbl_hash mac' →
      table s'.(v4) !! mac' = Some b').
Proof.
  intros Hs Eb Hst Hcpu Hip Hgone. destruct (ok_v4 s Hs) as [ips Hinv].
  apply lookup_table in Eb as (p & Ep & Em); [|apply Hinv].
  eapply wp_mono; [by apply (aging_stuck env p b)|]. intros [s' ret] (-> & _ & H). split; [done|].
  intros mac' b' Eb' Hor. apply H; [done|]. by rewrite Em.
Qed.

Lemma gone_interface_stops_aging_witness :
  wp (dhcp_snp_aging_mechanism (env_gone 4000) s_bound) (fun '(s', ret) =>
    ret = DHCP_SNP_RETURN_CODE_ERROR ∧
    ∀ mac' b', table s_bound.(v4) !! mac' = Some b' → mac' = mac_a ∨ dhcp_snp_tbl_hash mac_a < dhcp_snp_tbl_hash mac' →
      table s'.(v4) !! mac' = Some b').
Proof.
  eapply (gone_interface_stops_aging (env_gone 4000) s_bound mac_a).
  - apply dok_v4, snp_reachable_ok, (run_reachable bound_a dhcp_snp_start snp_reach_start bound_ok).
  - vm_compute. reflexivity.
  - split; [reflexivity|]. vm_compute. reflexivity.
  - vm_compute. reflexivity.
  - vm_compute. discriminate.
  - reflexivity.
Defined.

(** ** Options and the checksum *)

(** C25: On a message whose options are written as RFC 2132 says (code, length,
    value, closed by END, none of the codes special), the scan returns a pointer
    to the value of the first option with the code, and NULL when there is none. *)
Theorem option_is_found pre post packet code l :
  Z.of_nat (length pre) = packet + MSG_OPTIONS → plain code → Forall (fun o => plain o.1) l →
  Z.of_nat (length (options l)) ≤ NPD_DHCP_SNP_OPTION_LEN →
  wp (dhcp_snp_get_option (pre ++ options l ++ post) packet code) (fun r =>
    match option_of code l with
    | Some v => ∃ p, r = Some p ∧ points_at (pre ++ options l ++ post) p v
    | None => r = None
    end).
Proof.
  intros Hp Hc Hl Hlen. unfold dhcp_snp_get_option.
  apply (scan_find code packet Hc); [lia|done|lia|done|].
  (* an option takes two bytes at least *)
  assert (H2 : (2 * length l ≤ length (options l))%nat).
  { clear. induction l as [|[c v] l IH]; [simpl; lia|]. pose proof (length_options_cons c v l). cbn [length]. lia. }
  unfold SCAN_FUEL, NPD_DHCP_SNP_OPTION_LEN in *. lia.
Qed.

Lemma option_is_found_witness :
  wp (dhcp_snp_get_option (replicate 240 0 ++ options [type_option 5; lease_option 3600] ++ []) 0 DHCP_LEASE_TIME) (fun r =>
    match option_of DHCP_LEASE_TIME [type_option 5; lease_option 3600] with
    | Some v => ∃ p, r = Some p ∧ points_at (replicate 240 0 ++ options [type_option 5; lease_option 3600] ++ []) p v
    | None => r = None
    end).
Proof.
  apply option_is_found.
  - reflexivity.
  - split_and!; vm_compute; discriminate.
  - repeat constructor; vm_compute; discriminate.
  - vm_compute. discriminate.
Defined.

(** The scan for an option ends within 1700 turns on every packet and for
    every code. *)
Theorem option_scan_ends buf packet code :
  Forall is_byte buf → dhcp_snp_get_option buf packet code ≠ OutOfFuel.
Proof. intros Hb. apply scan_loop_ends; [done|]. vm_compute. reflexivity. Qed.

Lemma option_scan_ends_witness :
  dhcp_snp_get_option (in_buffer (discover mac_a)) DHCP_DATA DHCP_LEASE_TIME ≠ OutOfFuel.
Proof. apply option_scan_ends. by apply (bool_decide_unpack _); vm_compute. Defined.

(** A frame to the DHCP ports that has no END option, such as a plain BOOTP
    message, is scanned beyond the end of the receive buffer: with nothing but
    padding after the magic cookie, every search for an option leaves the array. *)
Theorem option_scan_leaves_buffer buf code :
  Z.of_nat (length buf) = DHCP_SNP_PACKET_SIZE → plain code →
  (∀ p, DHCP_DATA + MSG_OPTIONS ≤ p < DHCP_SNP_PACKET_SIZE → load buf p = Done DHCP_PADDING) →
  dhcp_snp_get_option buf DHCP_DATA code = Segv.
Proof.
  intros Hlen Hc Hz. unfold dhcp_snp_get_option.
  eapply (scan_padding buf DHCP_DATA code Hc); [done|reflexivity|done|rewrite Hlen; done| |].
  - intros p Hp. apply Hz. by rewrite <- Hlen, <- (Z.add_0_r (DHCP_DATA + MSG_OPTIONS)).
  - rewrite Hlen. vm_compute. lia.
Qed.

Lemma option_scan_leaves_buffer_witness :
  dhcp_snp_get_option (replicate 1536 0) DHCP_DATA NPD_DHCP_MESSAGE_TYPE = Segv.
Proof.
  apply option_scan_leaves_buffer.
  - reflexivity.
  - split_and!; vm_compute; discriminate.
  - intros p Hp. unfold load. rewrite (proj2 (Z.ltb_ge _ _)) by (unfold DHCP_DATA, MSG_OPTIONS in Hp; lia).
    unfold DHCP_SNP_PACKET_SIZE in Hp. rewrite lookup_replicate_2 by lia. reflexivity.
Defined.

(** The checksum is the one of RFC 1071: together with the sum of the 16-bit
    words it gives zero in one's complement arithmetic, so that a receiver that
    sums the packet with its checksum finds zero. *)
Theorem checksum_verifies l :
  Forall is_byte l → Nat.Even (length l) → Z.of_nat (length l) ≤ 32000 →
  wp (dhcp_snp_checksum l) (fun c =>
    0 ≤ c < 65536 ∧ (sum16 l + c) mod 65535 = 0 ∧ dhcp_snp_checksum (l ++ be_bytes 2 c) = Done 0).
Proof.
  intros Hb He Hl. eapply wp_mono; [apply wp_checksum; [done|lia]|]. intros c [Hc Ho].
  assert (Hb' : Forall is_byte (l ++ be_bytes 2 c)) by (apply Forall_app; split; [done|apply be_bytes_byte]).
  destruct (wp_elim _ _ (wp_checksum (l ++ be_bytes 2 c) Hb' ltac:(rewrite length_app; simpl; lia))) as (c' & -> & Hc' & Ho').
  rewrite sum16_even, sum16_be_bytes in Ho' by done.
  destruct (ones_verify (sum16 l) c c') as [Hm ->]; try done. by apply sum16_bounds.
Qed.

Lemma checksum_verifies_witness :
  wp (dhcp_snp_checksum [69; 0; 0; 28; 0; 1]) (fun c =>
    0 ≤ c < 65536 ∧ (sum16 [69; 0; 0; 28; 0; 1] + c) mod 65535 = 0 ∧
    dhcp_snp_checksum ([69; 0; 0; 28; 0; 1] ++ be_bytes 2 c) = Done 0).
Proof.
  apply checksum_verifies.
  - by apply (bool_decide_unpack _); vm_compute.
  - by exists 3%nat.
  - vm_compute. discriminate.
Defined.

(** ** Requests *)

(** C32: Adding a static binding for an unknown client and an unused address and
    deleting it again succeeds and restores the IPv4 bindings and the list of
    static ones. *)
Theorem wan_bind_roundtrip env ip mac ifx s :
  snp_ok s → s.(dhcp_snp_status) = NPD_DHCP_SNP_ENABLE → ip ≠ 0 → ifx ≠ 0 →
  table s.(v4) !! mac = None → unused s.(v4) ip →
  wp (let* '(s1, r1) := dhcp_snp_dbus_add_wan_bind_table env ip mac ifx s in
      let* '(s2, r2) := dhcp_snp_dbus_del_wan_bind_table mac s1 in Done (s1, r1, s2, r2)) (fun '(s1, r1, s2, r2) =>
    r1 = DHCP_SNP_RETURN_CODE_OK ∧
    table s1.(v4) = <[mac := new_core env.(clock) (static_user ip mac ifx)]> (table s.(v4)) ∧
    r2 = DHCP_SNP_RETURN_CODE_OK ∧ table s2.(v4) = table s.(v4) ∧ s2.(static_table) = s.(static_table)).
Proof.
  intros Hs Hen Hip Hif Hn Hun. apply wp_bind, wp_wan_add; [done|done|done|done|by intros [[? ?]|?]; congruence|].
  intros _ _ t Ht Et. set (s1 := s <| v4 := t |> <| static_table := _ |>).
  assert (Hs1 : snp_ok s1) by (destruct Hs; by split).
  apply wp_bind, wp_wan_del; [done|done|..].
  { change (v4 s1) with t. by rewrite Et, lookup_insert_eq. }
  intros b t2. change (v4 s1) with t. rewrite Et, lookup_insert_eq. intros [= <-] Ht2 Et2. cbn [wp].
  split_and!; [done|done|done|simpl; rewrite Et2; by apply delete_insert_id|].
  unfold dhcp_snp_del_static_bindtable. change (new_core (clock env) (static_user ip mac ifx)).(ifindex) with ifx.
  change (new_core (clock env) (static_user ip mac ifx)).(ip_addr) with ip.
  rewrite !(proj2 (Z.eqb_neq _ 0)) by done. simpl. by rewrite bool_decide_true by done.
Qed.

Lemma wan_bind_roundtrip_witness :
  wp (let* '(s1, r1) := dhcp_snp_dbus_add_wan_bind_table (env_at 112) 0xc0a80163 mac_b 5 s_bound in
      let* '(s2, r2) := dhcp_snp_dbus_del_wan_bind_table mac_b s1 in Done (s1, r1, s2, r2)) (fun '(s1, r1, s2, r2) =>
    r1 = DHCP_SNP_RETURN_CODE_OK ∧
    table s1.(v4) = <[mac_b := new_core (env_at 112).(clock) (static_user 0xc0a80163 mac_b 5)]> (table s_bound.(v4)) ∧
    r2 = DHCP_SNP_RETURN_CODE_OK ∧ table s2.(v4) = table s_bound.(v4) ∧ s2.(static_table) = s_bound.(static_table)).
Proof.
  apply (wan_bind_roundtrip (env_at 112) 0xc0a80163 mac_b 5 s_bound).
  - apply dok_v4, snp_reachable_ok, (run_reachable bound_a dhcp_snp_start snp_reach_start bound_ok).
  - vm_compute. reflexivity.
  - lia.
  - lia.
  - vm_compute. reflexivity.
  - apply (bool_decide_unpack (map_Forall (fun _ b => bound b → b.(ip_addr) ≠ 0xc0a80163) (table s_bound.(v4)))).
    by vm_compute.
Defined.

(** C33: Switching the daemon off when no socket is open returns, frees every IPv4
    binding exactly once (a second [free] of a node would be undefined) and leaves
    both arrays empty; the IPv6 bindings stay. *)
Theorem disable_frees_every_binding s :
  snp_ok s → s.(sock_list) = [] →
  wp (dhcp_snp_disable s) (fun '(s', ret) =>
    ret = DHCP_SNP_RETURN_CODE_OK ∧ s'.(v4) = mkTbl ∅ ∅ ∅ ∧ s'.(v6) = s.(v6) ∧
    s'.(dhcp_snp_status) = NPD_DHCP_SNP_DISABLE).
Proof. intros Hs Hl. by apply wp_disable. Qed.

Definition s_closed : SNP := get_done dhcp_snp_start
  (run (bound_a ++ [(env_at 120, LISTEN true (mkListener 7 0 0 node0.(ifname)) DHCPSNP_LSTNER_SET_NO_ARP);
                    (env_at 120, LISTEN true (mkListener 7 0 0 node0.(ifname)) DHCPSNP_LSTNER_SET_ADD_ROUTER);
                    (env_at 120, LISTEN true node0 DHCPSNP_LSTNER_DEL_E)]) dhcp_snp_start).

Lemma disable_frees_every_binding_witness :
  wp (dhcp_snp_disable s_closed) (fun '(s', ret) =>
    ret = DHCP_SNP_RETURN_CODE_OK ∧ s'.(v4) = mkTbl ∅ ∅ ∅ ∧ s'.(v6) = s_closed.(v6) ∧
    s'.(dhcp_snp_status) = NPD_DHCP_SNP_DISABLE).
Proof.
  apply disable_frees_every_binding.
  - apply dok_v4, snp_reachable_ok, run_reachable; [apply snp_reach_start|].
    split; [done|]. split; [done|]. split; [frame_reads|]. split; [frame_reads|]. by repeat split.
  - vm_compute. reflexivity.
Defined.

(** C31: The stations [asd] reports are kept as a map from MAC addresses: adding one
    changes its entry or makes a new one and leaves the others, and deleting one
    from the IPv4 table removes its entry and no other. *)
Theorem stations_are_a_map c (t : UTBL Z) (x : UNRES Z) :
  u_ok t →
  wp (dhcp_snp_add_unresolved_node c t x) (fun t1 => u_ok t1 ∧
    ∃ p b, ucores t1 = <[p := b]> (ucores t) ∧ b.(n_chaddr) = x.(n_chaddr) ∧
      b.(expired) = u32 (c.(uptime) + TBL_EXPIRED_TIME) ∧
      (∀ q b', ucores t1 !! q = Some b' → b'.(n_chaddr) = x.(n_chaddr) → q = p) ∧
      wp (dhcp_snp_del_unresolved_node t1 x.(n_chaddr)) (fun '(t2, _) => u_ok t2 ∧
        ucores t2 = filter (fun '(_, b) => b.(n_chaddr) ≠ x.(n_chaddr)) (ucores t))).
Proof.
  intros Hok. apply wp_u_add; [done|]. intros t1 p b Hok1 Ec Em Hb. split; [done|]. exists p, b.
  split_and!; [done|done|by destruct (ucores t !! p); destruct Hb as [_ ->]|..].
  - intros q b' Eq Emq. destruct (ucores_inv _ _ _ Eq) as (y & Ey & ->).
    assert (Ep : ucores t1 !! p = Some b) by (rewrite Ec; apply lookup_insert_eq).
    destruct (ucores_inv _ _ _ Ep) as (z & Ez & ->). eapply (u_uniq _ Hok1); [done|done|].
    transitivity x.(n_chaddr); [by destruct y|by destruct z].
  - eapply wp_u_del; [done|done|]. intros t2 ret Hok2 Ec2. split; [done|]. rewrite Ec2, Ec.
    apply map_eq. intros q. apply option_eq. intros b'. rewrite !map_lookup_filter_Some.
    destruct (decide (q = p)) as [->|Hq].
    + rewrite lookup_insert_eq. split; [intros [[= <-] Ho]; by destruct Ho|].
      intros [Eb Hn]. rewrite Eb in Hb. by destruct Hb as [? _].
    + by rewrite lookup_insert_ne by done.
Qed.

Definition s_station : SNP := get_done dhcp_snp_start
  (run (snp_ready ++ [(env_at 105, STATION (mkStaMsg 3 1 0 mac_c))]) dhcp_snp_start).

Lemma stations_are_a_map_witness :
  let x : UNRES Z := fill_unresolved_table_from_tableMsg (mkStaMsg 4 1 0 mac_a) in
  wp (dhcp_snp_add_unresolved_node (env_at 106).(clock) s_station.(unres4) x) (fun t1 => u_ok t1 ∧
    ∃ p b, ucores t1 = <[p := b]> (ucores s_station.(unres4)) ∧ b.(n_chaddr) = x.(n_chaddr) ∧
      b.(expired) = u32 ((env_at 106).(clock).(uptime) + TBL_EXPIRED_TIME) ∧
      (∀ q b', ucores t1 !! q = Some b' → b'.(n_chaddr) = x.(n_chaddr) → q = p) ∧
      wp (dhcp_snp_del_unresolved_node t1 x.(n_chaddr)) (fun '(t2, _) => u_ok t2 ∧
        ucores t2 = filter (fun '(_, b) => b.(n_chaddr) ≠ x.(n_chaddr)) (ucores s_station.(unres4)))).
Proof.
  apply stations_are_a_map. apply ok_unres, dok_v4, snp_reachable_ok, run_reachable; [apply snp_reach_start|].
  split; [done|]. split; [done|]. split; [|done]. split; vm_compute; [discriminate|by split].
Defined.

(** The IPv6 table of stations compares the wrong bytes behind the head of a
    list: a station that is not at the head cannot be deleted, unless the end of
    its neighbour's address happens to spell its MAC address. *)
Theorem ipv6_station_is_not_deleted (t : UTBL IPV6_ADDR) p x mac :
  u_ok t → t.(u_heap) !! p = Some x → x.(n_chaddr) = mac →
  t.(unresolved_hash) !! dhcp_snp_tbl_hash mac ≠ Some p →
  (∀ q y, t.(u_heap) !! q = Some y → drop 12 y.(n_ipaddr) ++ take 2 (be_bytes 4 y.(n_ifindex)) ≠ mac) →
  dhcpv6_snp_del_unresolved_node t mac = Done (t, -1).
Proof.
  intros Hok Ep Em Hhead Hno. by apply (u_del_misses t mac p x).
Qed.

Definition s_two_stations : SNP := get_done dhcp_snp_start
  (run (snp_ready ++ [(env_at 105, STATION (mkStaMsg 4 1 0 mac_a)); (env_at 106, STATION (mkStaMsg 3 1 0 mac_c))])
     dhcp_snp_start).

Lemma ipv6_station_is_not_deleted_witness :
  dhcpv6_snp_del_unresolved_node s_two_stations.(unres6) mac_a = Done (s_two_stations.(unres6), -1).
Proof.
  eapply (ipv6_station_is_not_deleted _ 1).
  - apply ok6_unres, dok_v6, snp_reachable_ok, run_reachable; [apply snp_reach_start|].
    split; [done|]. split; [done|].
    split; [split; vm_compute; [discriminate|by split]|].
    split; [split; vm_compute; [discriminate|by split]|done].
  - vm_compute. reflexivity.
  - reflexivity.
  - vm_compute. discriminate.
  - by apply (map_Forall_to_list (λ _ y, drop 12 y.(n_ipaddr) ++ take 2 (be_bytes 4 y.(n_ifindex)) ≠ mac_a)),
      (bool_decide_unpack _).
Defined.

(** A static binding does not survive a server's answer to another client: an
    ACK that gives its address to a second, known MAC address deletes it, and the
    list of static bindings still has it. *)
Theorem static_binding_is_evicted env buf vid ifx node s p u b w :
  snp_ok s → kernel_ok env → s.(dhcp_snp_status) = NPD_DHCP_SNP_ENABLE →
  dhcp_snp_get_option buf DHCP_DATA NPD_DHCP_MESSAGE_TYPE = Done (Some p) → load buf p = Done NPD_DHCP_ACK →
  dhcp_snp_get_item_from_pkt buf vid ifx DHCP_DATA NPD_DHCP_ACK zero_user = Done (u, DHCP_SNP_RETURN_CODE_OK) →
  u.(u_haddr_len) ≤ 6 → acceptable u.(u_ip_addr) →
  table s.(v4) !! u.(u_chaddr) = Some b → is_dynamic b →
  bound_to s.(v4) u.(u_ip_addr) w → is_static w → w.(chaddr) ≠ u.(u_chaddr) →
  wp (dhcp_snp_packet_rx_process env buf ifx vid node s) (fun '(s', _) =>
    table s'.(v4) !! w.(chaddr) = None ∧ s'.(static_table) = s.(static_table)).
Proof.
  intros Hs Hk Hen Eo Em Hget Hl Hacc Eb Hdyn (Ew & Hw & Ei) Hst Hne.
  unfold dhcp_snp_packet_rx_process. rewrite Hen, Eo. cbn [obind].
  change (negb (NPD_DHCP_SNP_ENABLE =? NPD_DHCP_SNP_ENABLE)) with false. cbv iota. rewrite Em. cbn [obind].
  apply wp_bind. eapply wp_mono; [apply (wp_handle env buf vid ifx DHCP_DATA node u _ s Hget Hl Hs)|].
  intros [s' ret] (_ & Hh & [Et|(Hn & _)]); [|done].
  assert (Ens : ¬ is_static b) by (unfold is_static; by rewrite Hdyn).
  assert (table s'.(v4) !! w.(chaddr) = None).
  { rewrite Et. unfold snoop. simpl. unfold spec_ack. rewrite Eb, decide_True by done. unfold spec_bind.
    change (u_chaddr (as_bound u)) with (u_chaddr u). rewrite Eb, lookup_insert_ne by done.
    apply map_lookup_filter_None. right. intros w' Ew'. assert (w' = w) as -> by congruence.
    intros Hev. apply Hev. by split_and!. }
  assert (s'.(static_table) = s.(static_table)) by (rewrite Hh; by destruct s).
  destruct (is_ok ret); by split.
Qed.

Definition s_static : SNP := get_done dhcp_snp_start
  (run (snp_ready ++ [(env_at 105, ADD_WAN ip_1 mac_b 5); (env_at 110, FRAME node0 (discover mac_a))]) dhcp_snp_start).

Definition static_b : ITEM Z := mkItem None None NPD_DHCP_SNP_BIND_TYPE_STATIC NPD_DHCP_SNP_BIND_STATE_BOUND
  0 mac_b 0 ip_1 0 1000000 105 5 0.

Lemma static_binding_is_evicted_witness :
  wp (dhcp_snp_packet_rx_process (env_at 111) (in_buffer (ack mac_a ip_1 3600)) 5 0xFFFF node0 s_static)
    (fun '(s', _) => table s'.(v4) !! static_b.(chaddr) = None ∧ s'.(static_table) = s_static.(static_table)).
Proof.
  eapply (static_binding_is_evicted _ _ _ _ _ _ _ _ _ static_b).
  - apply dok_v4, snp_reachable_ok, run_reachable; [apply snp_reach_start|].
    split; [done|]. split; [done|]. split; [by repeat split|]. split; [frame_reads|done].
  - split; [done|]. split; [done|]. intros i. by eexists.
  - vm_compute. reflexivity.
  - vm_compute. reflexivity.
  - vm_compute. reflexivity.
  - vm_compute. reflexivity.
  - vm_compute. discriminate.
  - vm_compute. reflexivity.
  - vm_compute. reflexivity.
  - vm_compute. reflexivity.
  - split; [vm_compute; reflexivity|]. split; [vm_compute; done|vm_compute; reflexivity].
  - vm_compute. reflexivity.
  - vm_compute. discriminate.
Defined.

(** Binding an IPv6 address of which no byte is zero reads beyond the address,
    because the code takes its length with [strlen]. *)
Theorem full_ipv6_address_overreads env (u : USER IPV6_ADDR) p s :
  0 ∉ u.(u_ip_addr) → dhcpv6_snp_tbl_refresh_bind env u p s = Segv.
Proof.
  intros Hz. assert (E : c_strlen u.(u_ip_addr) = Segv).
  { induction u.(u_ip_addr) as [|c l IH]; [done|]. cbn [c_strlen]. rewrite not_elem_of_cons in Hz.
    rewrite (proj2 (Z.eqb_neq c 0)) by (intros ->; tauto). by rewrite IH by tauto. }
  unfold dhcpv6_snp_tbl_refresh_bind. simpl. by rewrite E.
Qed.

Lemma full_ipv6_address_overreads_witness :
  dhcpv6_snp_tbl_refresh_bind (env_at 111) (zero_user <| u_ip_addr := replicate 16 1 |>) 1 s_solicited = Segv.
Proof. apply full_ipv6_address_overreads. by apply (bool_decide_unpack _); vm_compute. Defined.

(** The flag of a HANSI instance is used as [asd] sent it: a station whose flag
    is not 0 or 1 makes the lookup of its socket leave [fd_table]. *)
Theorem station_flag_overruns_sockets env {A} (x : UNRES A) s :
  0 ≤ x.(vrrpid) < MAX_HANSI_PROFILE → 2 ≤ x.(local_flag) < 256 → asd_socket env x s = Segv.
Proof.
  intros Hv Hl. unfold asd_socket, fd_entry, TBL_INDEX. unfold MAX_HANSI_PROFILE in *.
  rewrite u32_small by lia. by rewrite (proj2 (Z.ltb_ge _ _)) by lia.
Qed.

Lemma station_flag_overruns_sockets_witness :
  asd_socket (env_at 111) (fill_unresolved_table_from_tableMsg (mkStaMsg 3 1 2 mac_a) : UNRES Z) s_ready = Segv.
Proof. apply station_flag_overruns_sockets; vm_compute; split; (discriminate || reflexivity). Defined.
