(* ===== verification/DList.v ===== *)
(** * Doubly linked lists

    The IGMP snooping daemon links its nodes in both directions, and marks the
    two ends of a list in three ways: a node that points to itself (the table of
    the switch), a NULL pointer (the groups of a VLAN), the index -1 (the VLANs
    with groups).  [enc p o] is what node [p] holds for the neighbour [o]; the
    lemmas below are about any such encoding.

    [dseg h pv ps nx]: the nodes [ps] are linked in this order in the heap [h],
    [pv] precedes the first and [nx] follows the last. *)

From Stdlib Require Import ZArith Lia.
From stdpp Require Import base gmap list option.
From S2P Require Import Prelude.

Record DLink (K N L : Type) := mkDLink {
  d_nxt : N → L;
  d_prv : N → L;
  d_set_nxt : L → N → N;
  d_set_prv : L → N → N;
  enc : K → option K → L }.
Arguments d_nxt {K N L} _ _.
Arguments d_prv {K N L} _ _.
Arguments d_set_nxt {K N L} _ _ _.
Arguments d_set_prv {K N L} _ _ _.
Arguments enc {K N L} _ _ _.

Class DLinkLaw {K N L} (D : DLink K N L) : Prop := {
  nxt_set_d_nxt : ∀ l x, D.(d_nxt) (D.(d_set_nxt) l x) = l;
  prv_set_d_nxt : ∀ l x, D.(d_prv) (D.(d_set_nxt) l x) = D.(d_prv) x;
  nxt_set_d_prv : ∀ l x, D.(d_nxt) (D.(d_set_prv) l x) = D.(d_nxt) x;
  prv_set_d_prv : ∀ l x, D.(d_prv) (D.(d_set_prv) l x) = l }.

(** The neighbours of a segment that lies between [pv] and [nx]. *)
Definition hed {K} (ps : list K) (nx : option K) : option K :=
  match ps with [] => nx | q :: _ => Some q end.
Fixpoint lst {K} (pv : option K) (ps : list K) : option K :=
  match ps with [] => pv | q :: ps' => lst (Some q) ps' end.

Lemma hed_app {K} (a b : list K) nx : hed (a ++ b) nx = hed a (hed b nx).
Proof. by destruct a. Qed.

Lemma lst_app {K} (a b : list K) pv : lst pv (a ++ b) = lst (lst pv a) b.
Proof. revert pv. induction a as [|p a IH]; simpl; auto. Qed.

Lemma lst_elem {K} (ps : list K) pv p : lst pv ps = Some p → p ∈ ps ∨ pv = Some p.
Proof.
  revert pv. induction ps as [|q ps IH]; simpl; intros pv E; [by right|].
  destruct (IH _ E) as [?|[= ->]]; left; [by right|left].
Qed.

Section Segments.
Context {K N L : Type} `{Countable K} (D : DLink K N L) {DL : DLinkLaw D}.
Implicit Types (h : gmap K N) (ps a b : list K) (pv nx : option K) (p q : K).

Fixpoint dseg h pv ps nx : Prop :=
  match ps with
  | [] => True
  | p :: ps' =>
      (∃ x, h !! p = Some x ∧ D.(d_prv) x = D.(enc) p pv ∧ D.(d_nxt) x = D.(enc) p (hed ps' nx))
      ∧ dseg h (Some p) ps' nx
  end.

Lemma dseg_app h pv a b nx :
  dseg h pv (a ++ b) nx ↔ dseg h pv a (hed b nx) ∧ dseg h (lst pv a) b nx.
Proof.
  revert pv. induction a as [|p a IH]; intros pv; simpl; [tauto|].
  rewrite IH, hed_app. tauto.
Qed.

Lemma dseg_elem h pv ps nx p : dseg h pv ps nx → p ∈ ps → is_Some (h !! p).
Proof.
  revert pv. induction ps as [|q ps IH]; intros pv; simpl; [by intros _ ?%not_elem_of_nil|].
  intros ((x & Ex & _) & Hd) [->|Hp]%elem_of_cons; [by eexists|by eapply IH].
Qed.

(** The node after [a]. *)
Lemma dseg_mid h pv a p b nx :
  dseg h pv (a ++ p :: b) nx →
  ∃ x, h !! p = Some x ∧ D.(d_prv) x = D.(enc) p (lst pv a) ∧ D.(d_nxt) x = D.(enc) p (hed b nx).
Proof. intros [_ [Hx _]]%dseg_app. exact Hx. Qed.

(** A segment only depends on the links of its nodes. *)
Lemma dseg_frame h h' pv ps nx :
  (∀ p x, p ∈ ps → h !! p = Some x →
     ∃ x', h' !! p = Some x' ∧ D.(d_nxt) x' = D.(d_nxt) x ∧ D.(d_prv) x' = D.(d_prv) x) →
  dseg h pv ps nx → dseg h' pv ps nx.
Proof.
  revert pv. induction ps as [|p ps IH]; intros pv Hf; simpl; [done|].
  intros ((x & Ex & Hp & Hn) & Hd). split.
  - destruct (Hf p x) as (x' & Ex' & En & Ep); [left|done|]. exists x'. by rewrite En, Ep.
  - apply IH; [|done]. intros q y Hq. apply Hf. by right.
Qed.

Lemma dseg_insert_ne h pv ps nx p x : p ∉ ps → dseg h pv ps nx → dseg (<[p := x]> h) pv ps nx.
Proof.
  intros Hp. apply dseg_frame. intros q y Hq Ey. exists y. by rewrite lookup_insert_ne by congruence.
Qed.

Lemma dseg_delete_ne h pv ps nx p : p ∉ ps → dseg h pv ps nx → dseg (delete p h) pv ps nx.
Proof.
  intros Hp. apply dseg_frame. intros q y Hq Ey. exists y. by rewrite lookup_delete_ne by congruence.
Qed.

(** ** Changing the neighbours of a segment *)

(** [o->next = next], [o->prev = prev], nothing when there is no node [o]. *)
Definition set_nxt_of h (o nx : option K) : gmap K N :=
  match o with Some q => alter (D.(d_set_nxt) (D.(enc) q nx)) q h | None => h end.
Definition set_prv_of h (o pv : option K) : gmap K N :=
  match o with Some q => alter (D.(d_set_prv) (D.(enc) q pv)) q h | None => h end.

Lemma set_nxt_of_lookup_ne h o nx p : o ≠ Some p → set_nxt_of h o nx !! p = h !! p.
Proof. destruct o; simpl; [|done]. intros. rewrite lookup_alter_ne; congruence. Qed.
Lemma set_prv_of_lookup_ne h o pv p : o ≠ Some p → set_prv_of h o pv !! p = h !! p.
Proof. destruct o; simpl; [|done]. intros. rewrite lookup_alter_ne; congruence. Qed.

Lemma lst_elem_None ps p : lst None ps = Some p → p ∈ ps.
Proof. by intros [?|?]%lst_elem. Qed.
Lemma hed_elem ps p : hed ps None = Some p → p ∈ ps.
Proof. destruct ps; simpl; [done|]. intros [= ->]. left. Qed.

Lemma dseg_set_nxt h a nx nx' :
  NoDup a → dseg h None a nx → dseg (set_nxt_of h (lst None a) nx') None a nx'.
Proof.
  destruct a as [|p a _] using rev_ind; [done|]. intros [_ [Hp _]]%list.NoDup_app.
  rewrite lst_app. simpl. rewrite !dseg_app. simpl. intros [Ha ((x & Ex & Hpv & Hnx) & _)].
  assert (p ∉ a) as Hp' by (intros Hi; apply (Hp p Hi); left). split.
  - eapply dseg_frame; [|exact Ha]. intros q y Hq Ey. exists y. split; [|done].
    rewrite lookup_alter_ne by congruence. done.
  - split; [|done]. exists (D.(d_set_nxt) (D.(enc) p nx') x).
    rewrite lookup_alter_eq, Ex; simpl. rewrite prv_set_d_nxt, nxt_set_d_nxt. done.
Qed.

Lemma dseg_set_prv h b pv pv' :
  NoDup b → dseg h pv b None → dseg (set_prv_of h (hed b None) pv') pv' b None.
Proof.
  destruct b as [|p b]; [done|]. intros [Hp _]%list.NoDup_cons. simpl. intros [(x & Ex & Hpv & Hnx) Hb]. split.
  - exists (D.(d_set_prv) (D.(enc) p pv') x). rewrite lookup_alter_eq, Ex; simpl.
    rewrite prv_set_d_prv, nxt_set_d_prv. done.
  - eapply dseg_frame; [|exact Hb]. intros q y Hq Ey. exists y. split; [|done].
    rewrite lookup_alter_ne by congruence. done.
Qed.

(** Two parts of a list, each with a new neighbour, make a list again. *)
Lemma dseg_join h a b oa ob pv nx :
  NoDup (a ++ b) → (∀ q, ob = Some q → q ∈ b) → (∀ q, oa = Some q → q ∈ a) →
  dseg (set_nxt_of h oa nx) None a (hed b None) → dseg (set_prv_of h ob pv) (lst None a) b None →
  dseg (set_prv_of (set_nxt_of h oa nx) ob pv) None (a ++ b) None.
Proof.
  intros (_ & Hab & _)%list.NoDup_app Hob Hoa Ha Hb. apply dseg_app. split.
  - eapply dseg_frame; [|exact Ha]. intros q x Hq Ex. exists x. split; [|done].
    rewrite set_prv_of_lookup_ne; [done|]. intros ->. eapply Hab; [exact Hq|by apply Hob].
  - eapply dseg_frame; [|exact Hb]. intros q x Hq Ex. exists x. split; [|done].
    assert (Hne : oa ≠ Some q) by (intros ->; eapply Hab; [by apply Hoa|exact Hq]).
    destruct (decide (ob = Some q)) as [->|Hne']; simpl in *.
    + rewrite lookup_alter_eq in *. rewrite set_nxt_of_lookup_ne by done. done.
    + rewrite set_prv_of_lookup_ne in * by done. by rewrite set_nxt_of_lookup_ne.
Qed.

(** Taking out the node [p]. *)
Definition unlink_between h (pv nx : option K) : gmap K N := set_prv_of (set_nxt_of h pv nx) nx pv.

Lemma dseg_unlink h a p b :
  NoDup (a ++ p :: b) → dseg h None (a ++ p :: b) None →
  dseg (unlink_between h (lst None a) (hed b None)) None (a ++ b) None.
Proof.
  intros Hn [Ha Hb]%dseg_app. simpl in Hb. destruct Hb as [_ Hb].
  assert (Hn' : NoDup (a ++ b)).
  { apply list.NoDup_app in Hn as (Na & Hd & Nb).
    apply list.NoDup_cons in Nb as [_ Nb]. apply list.NoDup_app. split_and!; [done| |done].
    intros x Hx Hx'. apply (Hd x Hx). by right. }
  assert (Hn'' := Hn'). apply list.NoDup_app in Hn'' as (Na & _ & Nb).
  apply dseg_join; [done| | | |].
  - intros q. apply hed_elem.
  - intros q. apply lst_elem_None.
  - by eapply dseg_set_nxt.
  - by eapply dseg_set_prv.
Qed.

(** Putting the node [p] in, which already holds its neighbours. *)
Lemma dseg_link h a p b x :
  NoDup (a ++ p :: b) → dseg h None (a ++ b) None → h !! p = Some x →
  D.(d_prv) x = D.(enc) p (lst None a) → D.(d_nxt) x = D.(enc) p (hed b None) →
  dseg (set_prv_of (set_nxt_of h (lst None a) (Some p)) (hed b None) (Some p)) None (a ++ p :: b) None.
Proof.
  intros Hn [Ha Hb]%dseg_app Ex Hpv Hnx. apply list.NoDup_app in Hn as (Na & Hd & Nb).
  apply list.NoDup_cons in Nb as [Np Nb].
  assert (Hpa : p ∉ a) by (intros Hp; apply (Hd p Hp); left).
  apply dseg_app. split; [|simpl; split].
  - eapply dseg_frame; [|by eapply (dseg_set_nxt h a _ (Some p))]. intros q y Hq Ey. exists y. split; [|done].
    rewrite set_prv_of_lookup_ne; [done|]. intros Eb%hed_elem. apply (Hd q Hq). by right.
  - exists x. rewrite set_prv_of_lookup_ne, set_nxt_of_lookup_ne; [done| |].
    + intros E%lst_elem_None. done.
    + intros E%hed_elem. done.
  - eapply dseg_frame; [|by eapply (dseg_set_prv h b _ (Some p))]. intros q y Hq Ey. exists y. split; [|done].
    assert (Hne : lst None a ≠ Some q) by (intros Ea%lst_elem_None; apply (Hd q Ea); by right).
    destruct (decide (hed b None = Some q)) as [E|E].
    + rewrite E in *. simpl in *. rewrite lookup_alter_eq in *. by rewrite set_nxt_of_lookup_ne.
    + rewrite set_prv_of_lookup_ne in * by done. by rewrite set_nxt_of_lookup_ne.
Qed.

(** Relinking keeps what does not depend on the links. *)
Section Data.
Context {X : Type} (f : N → X).
Hypothesis f_nxt : ∀ l x, f (D.(d_set_nxt) l x) = f x.
Hypothesis f_prv : ∀ l x, f (D.(d_set_prv) l x) = f x.

Lemma set_nxt_of_data h o nx p : f <$> set_nxt_of h o nx !! p = f <$> h !! p.
Proof.
  destruct o as [q|]; simpl; [|done]. destruct (decide (q = p)) as [->|Hne].
  - rewrite lookup_alter_eq. destruct (h !! p); simpl; [by rewrite f_nxt|done].
  - by rewrite lookup_alter_ne.
Qed.

Lemma set_prv_of_data h o pv p : f <$> set_prv_of h o pv !! p = f <$> h !! p.
Proof.
  destruct o as [q|]; simpl; [|done]. destruct (decide (q = p)) as [->|Hne].
  - rewrite lookup_alter_eq. destruct (h !! p); simpl; [by rewrite f_prv|done].
  - by rewrite lookup_alter_ne.
Qed.

Lemma unlink_between_data h pv nx p : f <$> unlink_between h pv nx !! p = f <$> h !! p.
Proof. unfold unlink_between. by rewrite set_prv_of_data, set_nxt_of_data. Qed.
End Data.

(** Two lookups with the same data. *)
Lemma fmap_eq_Some {A B} (f : A → B) (o o' : option A) x :
  f <$> o' = f <$> o → o = Some x → ∃ x', o' = Some x' ∧ f x' = f x.
Proof. intros E ->. destruct o' as [x'|]; simpl in E; [|done]. injection E as E. by exists x'. Qed.

(** What unlinking and linking leave of a heap. *)
Lemma unlink_between_dom h pv nx : dom (unlink_between h pv nx) = dom h.
Proof.
  unfold unlink_between, set_prv_of, set_nxt_of. destruct pv, nx; rewrite ?dom_alter_L; done.
Qed.

End Segments.
