(* ===== verification/IgmpL2mc.v ===== *)
(** * The multicast table of the IGMP snooping daemon ([igmp_snoop_hw.c],
      [mld_snoop_hw.c])

    What the daemon has asked the switch to forward: one entry per VLAN, group and
    port, in a doubly linked list whose ends point to themselves.  IGMP and MLD
    keep their entries in the same list and have the same four operations on it,
    which differ in the field that holds the group; here each operation is
    written once over the class [GROUP] of group addresses.  An entry is
    allocated with [malloc], so the group field of the other family keeps the
    content of the block, [junk].  Allocations succeed. *)

From Stdlib Require Import ZArith Lia.
From stdpp Require Import base gmap list option.
From S2P Require Import Prelude DList.

Definition IGMPSNP_RETURN_CODE_BASE : Z := 0x80000.
Definition IGMPSNP_RETURN_CODE_OK : Z := IGMPSNP_RETURN_CODE_BASE.
Definition IGMPSNP_RETURN_CODE_ERROR : Z := IGMPSNP_RETURN_CODE_BASE + 0x1.
Definition IGMPSNP_RETURN_CODE_OUT_RANGE : Z := IGMPSNP_RETURN_CODE_BASE + 0x5.

Definition IGMP_SNP_GRP_MAX : Z := 1023.
Definition SIZE_OF_IPV6_ADDR : nat := 8.
(** An address of words that are zero, as [memset] leaves it. *)
Definition no_v6 : list Z := [0; 0; 0; 0; 0; 0; 0; 0].

(** ** Entries *)

(** [struct _l2mc_list].  The links are never NULL. *)
Record l2mc_list : Type := mkL2mc {
  l2_next : positive;
  l2_prev : positive;
  ulGroup : Z;
  ulGroupv6 : list Z;
  ulVlanId : Z;
  ulVlanIdx : Z;
  ulIndex : Z }.

Definition l2mc_list_eta (r : l2mc_list) : l2mc_list :=
  mkL2mc r.(l2_next) r.(l2_prev) r.(ulGroup) r.(ulGroupv6) r.(ulVlanId) r.(ulVlanIdx) r.(ulIndex).

#[export] Instance set_l2_next : Setter l2_next := ltac:(solve_setter l2mc_list_eta).
#[export] Instance set_l2_prev : Setter l2_prev := ltac:(solve_setter l2mc_list_eta).
#[export] Instance set_ulGroup : Setter ulGroup := ltac:(solve_setter l2mc_list_eta).
#[export] Instance set_ulGroupv6 : Setter ulGroupv6 := ltac:(solve_setter l2mc_list_eta).
#[export] Instance set_ulVlanId : Setter ulVlanId := ltac:(solve_setter l2mc_list_eta).
#[export] Instance set_ulVlanIdx : Setter ulVlanIdx := ltac:(solve_setter l2mc_list_eta).
#[export] Instance set_ulIndex : Setter ulIndex := ltac:(solve_setter l2mc_list_eta).

(** A node at an end of the list is its own neighbour. *)
Definition l2_dlink : DLink positive l2mc_list positive := mkDLink _ _ _
  l2_next l2_prev (fun p x => x <| l2_next := p |>) (fun p x => x <| l2_prev := p |>)
  (fun p o => default p o).

#[export] Instance l2_dlink_law : DLinkLaw l2_dlink.
Proof. by split; intros l []. Qed.

(** [l2mc_list_head] with the blocks reachable from it. *)
Record L2MC : Type := mkL2MC {
  l2_heap : gmap positive l2mc_list;
  stListHead : option positive;
  ulListNodeCount : Z }.

Definition L2MC_eta (r : L2MC) : L2MC := mkL2MC r.(l2_heap) r.(stListHead) r.(ulListNodeCount).

#[export] Instance set_l2_heap : Setter l2_heap := ltac:(solve_setter L2MC_eta).
#[export] Instance set_stListHead : Setter stListHead := ltac:(solve_setter L2MC_eta).
#[export] Instance set_ulListNodeCount : Setter ulListNodeCount := ltac:(solve_setter L2MC_eta).

Definition empty_l2mc : L2MC := mkL2MC ∅ None 0.

(** ** Group addresses *)

(** The group field of an entry, how it is compared, and the group field's store. *)
Class GROUP (G : Type) := {
  l2_group : l2mc_list → G;
  l2_set_group : G → l2mc_list → l2mc_list;
  same_group : G → G → bool }.

#[export] Instance GROUP_IGMP : GROUP Z := {|
  l2_group := ulGroup;
  l2_set_group g x := x <| ulGroup := g |>;
  same_group := Z.eqb |}.

(** [MLD_RETURN_CODE_EQUAL == mld_compare_ipv6addr(a, b)]: the first eight words
    are the same. *)
Fixpoint compare_words (n : nat) (a b : list Z) : bool :=
  match n, a, b with
  | O, _, _ => true
  | S n', x :: a', y :: b' => (x =? y) && compare_words n' a' b'
  | _, _, _ => false
  end.
Definition mld_compare_ipv6addr (addr1 addr2 : list Z) : bool := compare_words SIZE_OF_IPV6_ADDR addr1 addr2.

#[export] Instance GROUP_MLD : GROUP (list Z) := {|
  l2_group := ulGroupv6;
  l2_set_group g x := x <| ulGroupv6 := g |>;
  same_group := mld_compare_ipv6addr |}.

(** [igmp_snoop_pkt], [mld_snoop_pkt]: the argument of most functions. *)
Record PKT (G : Type) : Type := mkPkt {
  pkt_type : Z;
  pkt_ifindex : Z;
  pkt_vlan_id : Z;
  pkt_group_id : Z;
  pkt_saddr : G;
  groupadd : G;
  retranscnt : Z }.
Arguments mkPkt {G} _ _ _ _ _ _ _.
Arguments pkt_type {G} _.
Arguments pkt_ifindex {G} _.
Arguments pkt_vlan_id {G} _.
Arguments pkt_group_id {G} _.
Arguments pkt_saddr {G} _.
Arguments groupadd {G} _.
Arguments retranscnt {G} _.

(** ** Operations *)

Section Operations.
Context {G : Type} `{GROUP G}.
Variable junk : l2mc_list.
Implicit Types (t : L2MC) (pkt : PKT G) (p : positive).

(** The tests of the loops: the entry of the packet, an entry of its group. *)
Definition l2_same_group pkt (x : l2mc_list) : bool :=
  same_group (l2_group x) pkt.(groupadd) && (x.(ulVlanId) =? u32 pkt.(pkt_vlan_id))
  && (x.(ulVlanIdx) =? pkt.(pkt_group_id)).
Definition l2_same_entry pkt (x : l2mc_list) : bool :=
  l2_same_group pkt x && (x.(ulIndex) =? pkt.(pkt_ifindex)).

Inductive SCAN : Type :=
| Found (p : positive)
| NotFound
| OutOfRange.

(** [while (pstTemp)], with [lCount] counting up to the limit: [left] turns are
    left.  The list is left at the node that is its own successor. *)
Fixpoint l2mc_scan (test : l2mc_list → bool) (left : nat) (h : gmap positive l2mc_list) p : outcome SCAN :=
  match left with
  | O => Done OutOfRange
  | S left' =>
      let* x := deref (h !! p) in
      if test x then Done (Found p)
      else if decide (p = x.(l2_next)) then Done NotFound
      else l2mc_scan test left' h x.(l2_next)
  end.

Definition l2mc_turns : nat := Z.to_nat (IGMP_SNP_GRP_MAX + 1).
#[global] Arguments l2mc_turns : simpl never.

(** A new entry for the packet, without its links. *)
Definition l2mc_entry pkt : l2mc_list :=
  (l2_set_group pkt.(groupadd) junk)
    <| ulIndex := pkt.(pkt_ifindex) |>
    <| ulVlanId := u32 pkt.(pkt_vlan_id) |>
    <| ulVlanIdx := pkt.(pkt_group_id) |>.

Definition L2mc_Entry_Insert t pkt : outcome (L2MC * Z) :=
  match t.(stListHead) with
  | Some head =>
      let* r := l2mc_scan (l2_same_entry pkt) l2mc_turns t.(l2_heap) head in
      match r with
      | OutOfRange => Done (t, IGMPSNP_RETURN_CODE_OUT_RANGE)
      | Found _ => Done (t, IGMPSNP_RETURN_CODE_OK)
      | NotFound =>
          if IGMP_SNP_GRP_MAX + 1 <=? t.(ulListNodeCount) then Done (t, IGMPSNP_RETURN_CODE_OUT_RANGE)
          else
            let p := fresh (dom t.(l2_heap)) in
            let* y := deref (t.(l2_heap) !! head) in
            Done (mkL2MC
                    (<[p := (l2mc_entry pkt) <| l2_next := head |> <| l2_prev := p |>]>
                       (<[head := y <| l2_prev := p |>]> t.(l2_heap)))
                    (Some p) (u32 (t.(ulListNodeCount) + 1)),
                  IGMPSNP_RETURN_CODE_OK)
      end
  | None =>
      let p := fresh (dom t.(l2_heap)) in
      Done (mkL2MC (<[p := (l2mc_entry pkt) <| l2_next := p |> <| l2_prev := p |>]> t.(l2_heap)) (Some p) 1,
            IGMPSNP_RETURN_CODE_OK)
  end.

(** The index of the group in the switch, 0 when it has none.  The group
    identifier is not compared. *)
Definition L2mc_Entry_GetVidx t (vid : Z) (group : G) : outcome (Z * Z) :=
  match t.(stListHead) with
  | None => Done (IGMPSNP_RETURN_CODE_ERROR, 0)
  | Some head =>
      let* r := l2mc_scan (fun x => (x.(ulVlanId) =? vid) && same_group (l2_group x) group)
                  l2mc_turns t.(l2_heap) head in
      match r with
      | OutOfRange => Done (IGMPSNP_RETURN_CODE_OUT_RANGE, 0)
      | NotFound => Done (IGMPSNP_RETURN_CODE_ERROR, 0)
      | Found p => let* x := deref (t.(l2_heap) !! p) in Done (IGMPSNP_RETURN_CODE_OK, x.(ulVlanIdx))
      end
  end.

(** Taking the node [p] out of the list.  [last_link] is what is stored when [p]
    is the last of several nodes: [L2mc_Entry_Group_Delete_All] stores into the
    node itself. *)
Definition l2mc_unlink (last_link : l2mc_list → gmap positive l2mc_list → outcome (gmap positive l2mc_list))
    t p : outcome L2MC :=
  let* x := deref (t.(l2_heap) !! p) in
  if bool_decide (p = x.(l2_prev)) && bool_decide (p = x.(l2_next)) then Done t
  else if decide (p = x.(l2_prev)) then
    let* y := deref (t.(l2_heap) !! x.(l2_next)) in
    Done (t <| l2_heap := <[x.(l2_next) := y <| l2_prev := x.(l2_next) |>]> t.(l2_heap) |>
            <| stListHead := Some x.(l2_next) |>)
  else if decide (p = x.(l2_next)) then
    let* h := last_link x t.(l2_heap) in Done (t <| l2_heap := h |>)
  else
    let* y := deref (t.(l2_heap) !! x.(l2_prev)) in
    let h := <[x.(l2_prev) := y <| l2_next := x.(l2_next) |>]> t.(l2_heap) in
    let* z := deref (h !! x.(l2_next)) in
    Done (t <| l2_heap := <[x.(l2_next) := z <| l2_prev := x.(l2_prev) |>]> h |>).

(** [pstL2mcEntry->prev->next = pstL2mcEntry->prev] *)
Definition cut_last (x : l2mc_list) (h : gmap positive l2mc_list) : outcome (gmap positive l2mc_list) :=
  let* y := deref (h !! x.(l2_prev)) in
  Done (<[x.(l2_prev) := y <| l2_next := x.(l2_prev) |>]> h).

(** [free(pstL2mcEntry)] and the count. *)
Definition l2mc_free t p : L2MC :=
  let t := t <| l2_heap := delete p t.(l2_heap) |> <| ulListNodeCount := u32 (t.(ulListNodeCount) - 1) |> in
  if 0 =? t.(ulListNodeCount) then t <| stListHead := None |> else t.

Definition L2mc_Entry_Node_Delete t pkt : outcome (L2MC * Z) :=
  match t.(stListHead) with
  | None => Done (t, IGMPSNP_RETURN_CODE_OK)
  | Some head =>
      let* r := l2mc_scan (l2_same_entry pkt) l2mc_turns t.(l2_heap) head in
      match r with
      | OutOfRange => Done (t, IGMPSNP_RETURN_CODE_OUT_RANGE)
      | NotFound => Done (t, IGMPSNP_RETURN_CODE_OK)
      | Found p => let* t := l2mc_unlink cut_last t p in Done (l2mc_free t p, IGMPSNP_RETURN_CODE_OK)
      end
  end.

(** The loop of [L2mc_Entry_Group_Delete]: it ends at the last node, before that
    node is deleted. *)
Fixpoint group_delete_loop pkt (left : nat) t p : outcome (L2MC * Z) :=
  match left with
  | O => Done (t, IGMPSNP_RETURN_CODE_OUT_RANGE)
  | S left' =>
      let* x := deref (t.(l2_heap) !! p) in
      if decide (p = x.(l2_next)) then Done (t, IGMPSNP_RETURN_CODE_OK)
      else if l2_same_group pkt x then
        let* t := l2mc_unlink cut_last t p in
        let t := l2mc_free t p in
        if 0 =? t.(ulListNodeCount) then Done (t, IGMPSNP_RETURN_CODE_OK)
        else group_delete_loop pkt left' t x.(l2_next)
      else group_delete_loop pkt left' t x.(l2_next)
  end.

Definition L2mc_Entry_Group_Delete t pkt : outcome (L2MC * Z) :=
  match t.(stListHead) with
  | None => Done (t, IGMPSNP_RETURN_CODE_OK)
  | Some head => group_delete_loop pkt l2mc_turns t head
  end.
End Operations.

(** The loop of [L2mc_Entry_Group_Delete_All].  A last node of several would be
    linked to its predecessor in vain: the walk starts at the head, so every node
    is the first when it is taken out. *)
Definition cut_self (p : positive) (x : l2mc_list) (h : gmap positive l2mc_list) : outcome (gmap positive l2mc_list) :=
  Done (<[p := x <| l2_next := x.(l2_prev) |>]> h).

Fixpoint delete_all_loop (left : nat) (t : L2MC) (p : positive) : outcome (L2MC * Z) :=
  match left with
  | O => Done (t, IGMPSNP_RETURN_CODE_ERROR)
  | S left' =>
      let* x := deref (t.(l2_heap) !! p) in
      let* t := l2mc_unlink (cut_self p) t p in
      let t := l2mc_free t p in
      if 0 =? t.(ulListNodeCount) then Done (t, IGMPSNP_RETURN_CODE_OK)
      else delete_all_loop left' t x.(l2_next)
  end.

Definition L2mc_Entry_Group_Delete_All (t : L2MC) : outcome (L2MC * Z) :=
  match t.(stListHead) with
  | None => Done (t, IGMPSNP_RETURN_CODE_OK)
  | Some head => delete_all_loop l2mc_turns t head
  end.

(** The functions of [mld_snoop_hw.c], on group addresses of eight words. *)
Definition mld_L2mc_Entry_Insert : l2mc_list → L2MC → PKT (list Z) → outcome (L2MC * Z) :=
  L2mc_Entry_Insert (G := list Z).
Definition mld_L2mc_Entry_GetVidx : L2MC → Z → list Z → outcome (Z * Z) := L2mc_Entry_GetVidx (G := list Z).
Definition mld_L2mc_Entry_Node_Delete : L2MC → PKT (list Z) → outcome (L2MC * Z) :=
  L2mc_Entry_Node_Delete (G := list Z).
Definition mld_L2mc_Entry_Group_Delete : L2MC → PKT (list Z) → outcome (L2MC * Z) :=
  L2mc_Entry_Group_Delete (G := list Z).
Definition mld_L2mc_Entry_Group_Delete_All : L2MC → outcome (L2MC * Z) := L2mc_Entry_Group_Delete_All.
