(* ===== verification/IgmpL2mcProps.v ===== *)
(** * The multicast table against lists of entries

    [l2mc_repr t l]: the linked table [t] holds the entries [l], in this order;
    an entry is a node whose links are erased.  Every operation is proved to do on
    the nodes what a function on lists does on the entries. *)

From Stdlib Require Import ZArith Lia.
From stdpp Require Import base gmap list option.
From S2P Require Import Prelude DList IgmpL2mc.

Definition erase (x : l2mc_list) : l2mc_list := x <| l2_next := 1%positive |> <| l2_prev := 1%positive |>.

(** ** What the operations do to a list of entries *)

Fixpoint remove_first {A} (test : A → bool) (l : list A) : list A :=
  match l with
  | [] => []
  | x :: l' => if test x then l' else x :: remove_first test l'
  end.

(** All that pass the test are removed, except the last element of the list. *)
Fixpoint remove_but_last {A} (test : A → bool) (l : list A) : list A :=
  match l with
  | [] => []
  | [x] => [x]
  | x :: l' => if test x then remove_but_last test l' else x :: remove_but_last test l'
  end.

Section Spec.
Context {G : Type} `{GROUP G}.
Variable junk : l2mc_list.
Implicit Types (pkt : PKT G) (l : list l2mc_list).

Definition spec_insert pkt l : list l2mc_list * Z :=
  if existsb (l2_same_entry pkt) l then (l, IGMPSNP_RETURN_CODE_OK)
  else if IGMP_SNP_GRP_MAX + 1 <=? Z.of_nat (length l) then (l, IGMPSNP_RETURN_CODE_OUT_RANGE)
  else (erase (l2mc_entry junk pkt) :: l, IGMPSNP_RETURN_CODE_OK).
End Spec.

(** ** Representation *)

Record l2mc_nodes (t : L2MC) (ps : list positive) : Prop := {
  l2n_nodup : NoDup ps;
  l2n_links : dseg l2_dlink t.(l2_heap) None ps None;
  l2n_dom : ∀ p, is_Some (t.(l2_heap) !! p) → p ∈ ps;
  l2n_head : t.(stListHead) = hed ps None;
  l2n_count : t.(ulListNodeCount) = Z.of_nat (length ps);
  l2n_bound : (length ps ≤ l2mc_turns)%nat }.

Definition holds (h : gmap positive l2mc_list) (p : positive) (e : l2mc_list) : Prop :=
  ∃ x, h !! p = Some x ∧ erase x = e.

Definition l2mc_repr (t : L2MC) (l : list l2mc_list) : Prop :=
  ∃ ps, l2mc_nodes t ps ∧ Forall2 (holds t.(l2_heap)) ps l.

Lemma l2mc_repr_empty : l2mc_repr empty_l2mc [].
Proof.
  exists []. split; [|constructor]. split; simpl; try done; [constructor|..|lia].
  intros p [x E]. by rewrite lookup_empty in E.
Qed.

(** What the two families have in common. *)
Class GroupLaw (G : Type) `{GROUP G} : Prop := {
  l2_group_links : ∀ a b y, l2_group (y <| l2_next := a |> <| l2_prev := b |>) = l2_group y;
  l2_set_group_links : ∀ g y, l2_next (l2_set_group g y) = l2_next y ∧ l2_prev (l2_set_group g y) = l2_prev y }.
#[export] Instance GroupLaw_IGMP : GroupLaw Z.
Proof. split; [by intros a b []|by intros g []]. Qed.
#[export] Instance GroupLaw_MLD : GroupLaw (list Z).
Proof. split; [by intros a b []|by intros g []]. Qed.

(** Entries are compared by their data. *)
Section Tests.
Context {G : Type} `{GroupLaw G}.

Lemma l2_same_group_erase (pkt : PKT G) x : l2_same_group pkt (erase x) = l2_same_group pkt x.
Proof. unfold l2_same_group, erase. rewrite l2_group_links. by destruct x. Qed.

Lemma l2_same_entry_erase (pkt : PKT G) x : l2_same_entry pkt (erase x) = l2_same_entry pkt x.
Proof. unfold l2_same_entry. rewrite l2_same_group_erase. by destruct x. Qed.
End Tests.

Lemma holds_insert_ne h p q x e : p ≠ q → holds h p e → holds (<[q := x]> h) p e.
Proof. intros Hne (y & Ey & He). exists y. by rewrite lookup_insert_ne. Qed.

Lemma holds_delete_ne h p q e : p ≠ q → holds h p e → holds (delete q h) p e.
Proof. intros Hne (y & Ey & He). exists y. by rewrite lookup_delete_ne. Qed.

(** Relinking keeps the data. *)
Lemma holds_unlink h pv nx p e : holds h p e → holds (unlink_between l2_dlink h pv nx) p e.
Proof.
  intros (x & Ex & <-). unfold holds. eapply fmap_eq_Some; [|exact Ex].
  apply unlink_between_data; by intros l [].
Qed.

(** ** The scan *)

Section Scan.
Variable test : l2mc_list → bool.
Variable h : gmap positive l2mc_list.

Definition scanned (ps : list positive) (r : SCAN) : Prop :=
  match r with
  | Found q => ∃ a b x, ps = a ++ q :: b ∧ h !! q = Some x ∧ test x = true ∧
                 ∀ p y, p ∈ a → h !! p = Some y → test y = false
  | NotFound => ∀ p y, p ∈ ps → h !! p = Some y → test y = false
  | OutOfRange => False
  end.

Lemma wp_scan left pv p ps :
  NoDup (p :: ps) → dseg l2_dlink h pv (p :: ps) None → (length (p :: ps) ≤ left)%nat →
  wp (l2mc_scan test left h p) (scanned (p :: ps)).
Proof.
  revert left pv p. induction ps as [|q ps IH]; intros [|left] pv p Hn Hd Hl; simpl in Hl; try lia.
  - destruct Hd as [(x & Ex & _ & Hx) _]. simpl in *. rewrite Ex; simpl. destruct (test x) eqn:Et.
    + simpl. exists [], [], x. split_and!; [done..|]. by intros p' y ?%not_elem_of_nil.
    + rewrite Hx, decide_True by done. simpl. intros p' y ->%list_elem_of_singleton E. congruence.
  - destruct Hd as [(x & Ex & _ & Hx) Hd]. simpl in Hx. cbn [l2mc_scan]. rewrite Ex; cbn [deref obind].
    apply list.NoDup_cons in Hn as [Hp Hn]. destruct (test x) eqn:Et.
    + simpl. exists [], (q :: ps), x. split_and!; [done..|]. by intros p' y ?%not_elem_of_nil.
    + rewrite Hx, decide_False by (intros ->; apply Hp; left).
      eapply wp_mono; [apply (IH left (Some p) q); [done|done|simpl; lia]|]. intros [r| |]; simpl; [|..|done].
      * intros (a & b & y & E & Ey & Ht & Ha). exists (p :: a), b, y. rewrite E. split_and!; [done..|].
        intros p' z [->|Hp']%elem_of_cons Ez; [congruence|by eapply Ha].
      * intros Ha p' z [->|Hp']%elem_of_cons Ez; [congruence|by eapply Ha].
Qed.
End Scan.

Lemma existsb_forall2 {A} (test : A → bool) (f : A → A) h ps l :
  (∀ x, test (f x) = test x) →
  Forall2 (fun (p : positive) e => ∃ x : A, h !! p = Some x ∧ f x = e) ps l →
  (∀ p y, p ∈ ps → (h : gmap positive A) !! p = Some y → test y = false) → existsb test l = false.
Proof.
  intros Hf. induction 1 as [|p e ps l (x & Ex & <-) _ IH]; intros Ht; simpl; [done|].
  rewrite Hf, (Ht p x) by (done || left). simpl. apply IH. intros q y Hq. apply Ht. by right.
Qed.

(** ** Unlinking *)

Lemma alter_Some {A} (f : A → A) (m : gmap positive A) k x :
  m !! k = Some x → alter f k m = <[k := f x]> m.
Proof.
  intros E. apply map_eq. intros i. destruct (decide (i = k)) as [->|Hne].
  - by rewrite lookup_alter_eq, lookup_insert_eq, E.
  - by rewrite lookup_alter_ne, lookup_insert_ne by done.
Qed.

Lemma lst_None {K} (a : list K) : lst None a = None → a = [].
Proof.
  destruct a as [|q a]; [done|]. simpl. revert q.
  induction a as [|r a IH]; simpl; intros q E; [done|exfalso; by specialize (IH r E)].
Qed.

(** The head once [p], between [a] and [b], has been taken out. *)
Definition new_head (a b : list positive) (o : option positive) : option positive :=
  match a, b with [], q :: _ => Some q | _, _ => o end.

(** The stores of the code are those of [unlink_between]. *)
Lemma wp_l2mc_unlink h hd c a p b (Q : L2MC → Prop) :
  NoDup (a ++ p :: b) → dseg l2_dlink h None (a ++ p :: b) None →
  Q (mkL2MC (unlink_between l2_dlink h (lst None a) (hed b None)) (new_head a b hd) c) →
  wp (l2mc_unlink cut_last (mkL2MC h hd c) p) Q.
Proof.
  intros Hn Hd HQ. destruct (dseg_mid _ _ _ _ _ _ _ Hd) as (x & Ex & Hp & Hx). simpl in Hp, Hx.
  apply list.NoDup_app in Hn as (_ & Hna & Hnb). apply list.NoDup_cons in Hnb as [Hnb _].
  assert (Hb : ∀ q, hed b None = Some q → p ≠ q ∧ ∃ y, h !! q = Some y).
  { intros q Hq%hed_elem. split; [by intros ->|].
    eapply dseg_elem; [exact Hd|]. apply elem_of_app; right; by right. }
  assert (Ha : ∀ q, lst None a = Some q → p ≠ q ∧ ∃ y, h !! q = Some y).
  { intros q Hq%lst_elem_None. split; [intros ->; apply (Hna q Hq); left|].
    eapply dseg_elem; [exact Hd|]. apply elem_of_app; by left. }
  unfold l2mc_unlink; simpl. rewrite Ex; simpl. unfold unlink_between, set_prv_of, set_nxt_of in HQ; simpl in HQ.
  destruct (lst None a) as [q|] eqn:Ea; simpl in Hp; rewrite Hp.
  - destruct (Ha q eq_refl) as (Hq & y & Ey). rewrite (bool_decide_eq_false_2 (p = q)), decide_False by done.
    assert (Ea' : new_head a b hd = hd) by (by destruct a). rewrite Ea' in HQ. simpl.
    destruct (hed b None) as [r|] eqn:Eb; simpl in Hx, HQ; rewrite Hx.
    + destruct (Hb r eq_refl) as (Hr & z & Ez). rewrite decide_False, Ey by done. simpl.
      rewrite (alter_Some _ h q y Ey) in HQ.
      assert (Hz : is_Some (<[q := y <| l2_next := r |>]> h !! r)).
      { destruct (decide (r = q)) as [->|Hrq]; [rewrite lookup_insert_eq|rewrite lookup_insert_ne by done]; eauto. }
      destruct Hz as [z' Ez']. rewrite (alter_Some _ _ _ _ Ez') in HQ. rewrite Ez'. exact HQ.
    + rewrite decide_True by done. unfold cut_last. rewrite Hp, Ey. simpl.
      rewrite (alter_Some _ h q y Ey) in HQ. exact HQ.
  - apply lst_None in Ea as ->. rewrite (bool_decide_eq_true_2 (p = p)), decide_True by done. simpl in *.
    destruct b as [|r b]; simpl in *; rewrite Hx.
    + by rewrite bool_decide_eq_true_2.
    + destruct (Hb r eq_refl) as (Hr & z & Ez). rewrite bool_decide_eq_false_2, Ez by done. simpl.
      rewrite (alter_Some _ h r z Ez) in HQ. exact HQ.
Qed.

(** Unlinking and freeing a node. *)
Lemma wp_l2mc_delete t a p b :
  l2mc_nodes t (a ++ p :: b) →
  wp (l2mc_unlink cut_last t p) (fun t' =>
    l2mc_nodes (l2mc_free t' p) (a ++ b) ∧
    ∀ q e, q ≠ p → holds t.(l2_heap) q e → holds (l2mc_free t' p).(l2_heap) q e).
Proof.
  intros [Hn Hd Hdom Hh Hc Hl]. destruct t as [h hd c]; simpl in *.
  eapply wp_l2mc_unlink; [exact Hn|exact Hd|]. split.
  2:{ intros q e Hq He. unfold l2mc_free; simpl. destruct (0 =? _); by apply holds_delete_ne, holds_unlink. }
  assert (Hlen : length (a ++ p :: b) = S (length (a ++ b))) by (rewrite !length_app; simpl; lia).
  assert (Hp : p ∉ a ++ b) by (rewrite <- Permutation_middle in Hn; by apply list.NoDup_cons in Hn as [Hn _]).
  assert (Hn' : NoDup (a ++ b)) by (rewrite <- Permutation_middle in Hn; by apply list.NoDup_cons in Hn as [_ Hn]).
  assert (Hc' : u32 (c - 1) = Z.of_nat (length (a ++ b))).
  { rewrite Hc, Hlen. rewrite u32_small; [lia|]. unfold l2mc_turns, IGMP_SNP_GRP_MAX in Hl. lia. }
  unfold l2mc_free; simpl. rewrite Hc'.
  assert (Hheads : (if 0 =? Z.of_nat (length (a ++ b)) then None else new_head a b hd) = hed (a ++ b) None).
  { destruct a as [|q a]; simpl in *; [destruct b; done|]. by rewrite Hh. }
  assert (Hg : l2mc_nodes (mkL2MC (delete p (unlink_between l2_dlink h (lst None a) (hed b None)))
                  (hed (a ++ b) None) (Z.of_nat (length (a ++ b)))) (a ++ b)).
  { split; simpl; [done| | |done|done|lia].
    - apply dseg_delete_ne; [done|]. by apply dseg_unlink with (p := p).
    - intros q Hq. assert (Hqp : q ≠ p) by (intros ->; rewrite lookup_delete_eq in Hq; by destruct Hq).
      rewrite lookup_delete_ne in Hq by done.
      assert (Hq' : q ∈ dom h) by (rewrite <- (unlink_between_dom l2_dlink h (lst None a) (hed b None)); by apply elem_of_dom).
      apply elem_of_dom, Hdom in Hq'. rewrite elem_of_app, elem_of_cons in Hq'. rewrite elem_of_app. tauto. }
  rewrite <- Hheads in Hg. by destruct (0 =? _).
Qed.

(** ** The operations *)

Section Operations.
Context {G : Type} `{GroupLaw G}.
Variable junk : l2mc_list.
Implicit Types (t : L2MC) (pkt : PKT G) (l : list l2mc_list) (ps : list positive).

(** The scan of a table that holds [ps]. *)
Lemma wp_scan_table test t ps p :
  l2mc_nodes t ps → hed ps None = Some p →
  wp (l2mc_scan test l2mc_turns t.(l2_heap) p) (scanned test t.(l2_heap) ps).
Proof.
  intros [Hn Hd _ _ _ Hl] Hp. destruct ps as [|q ps]; [done|]. injection Hp as ->.
  by apply wp_scan with (pv := None).
Qed.

Lemma scanned_false test h ps l :
  (∀ x, test (erase x) = test x) → Forall2 (holds h) ps l →
  (∀ p y, p ∈ ps → h !! p = Some y → test y = false) → existsb test l = false ∧ remove_first test l = l.
Proof.
  intros Hf. induction 1 as [|p e ps l Hp _ IH]; intros Ht; simpl; [done|]. destruct Hp as (x & Ex & <-).
  rewrite Hf, (Ht p x) by (done || left). destruct IH as [-> ->]; [|done].
  intros q y Hq. apply Ht. by right.
Qed.

(** The entries around the node that was found. *)
Lemma scanned_found test h ps l q :
  (∀ x, test (erase x) = test x) → Forall2 (holds h) ps l → scanned test h ps (Found q) →
  ∃ a b la lb, ps = a ++ q :: b ∧ Forall2 (holds h) a la ∧ Forall2 (holds h) b lb ∧
    remove_first test l = la ++ lb ∧ existsb test l = true.
Proof.
  intros Hf HF (a & b & x & -> & Ex & Et & Ha). apply Forall2_app_inv_l in HF as (la & l2 & Hla & Hl2 & ->).
  apply Forall2_cons_inv_l in Hl2 as (e & lb & (y & Ey & <-) & Hlb & ->). assert (y = x) as -> by congruence.
  exists a, b, la, lb. split_and!; try done.
  - clear Hlb. revert Ha. induction Hla as [|p e a la Hz Hla IH]; intros Ha; simpl.
    + by rewrite Hf, Et.
    + destruct Hz as (z & Ez & <-). rewrite Hf, (Ha p z) by (done || left). f_equal. apply IH. intros p' y' Hp'. apply Ha. by right.
  - apply existsb_exists. exists (erase x). split; [|by rewrite Hf]. apply in_or_app. right. left. done.
Qed.

Lemma l2mc_entry_links pkt a b : erase ((l2mc_entry junk pkt) <| l2_next := a |> <| l2_prev := b |>) = erase (l2mc_entry junk pkt).
Proof. by destruct (l2mc_entry junk pkt). Qed.

Lemma fresh_node t ps : l2mc_nodes t ps → (fresh (dom t.(l2_heap)) ∉ ps) ∧ t.(l2_heap) !! fresh (dom t.(l2_heap)) = None.
Proof.
  intros Hn. assert (Hf := is_fresh (dom t.(l2_heap))). split.
  - intros Hp. apply Hf, elem_of_dom. eapply dseg_elem; [apply Hn|exact Hp].
  - by apply not_elem_of_dom.
Qed.

Lemma holds_fresh h p x ps l : p ∉ ps → Forall2 (holds h) ps l → Forall2 (holds (<[p := x]> h)) ps l.
Proof.
  intros Hp. induction 1 as [|q e ps l Hq _ IH]; constructor.
  - apply holds_insert_ne; [intros ->; apply Hp; left|done].
  - apply IH. intros Hp'. apply Hp. by right.
Qed.

Lemma wp_insert t l pkt :
  l2mc_repr t l →
  wp (L2mc_Entry_Insert junk t pkt) (fun '(t', r) =>
    l2mc_repr t' (fst (spec_insert junk pkt l)) ∧ r = snd (spec_insert junk pkt l)).
Proof.
  intros (ps & Hn & HF). unfold L2mc_Entry_Insert, spec_insert.
  destruct (fresh_node t ps Hn) as [Hfr Hfn]. set (p := fresh _) in *.
  assert (Hlen := Forall2_length HF). assert (Hn' := Hn). destruct Hn' as [Hnd Hd Hdom Hh Hc Hl].
  destruct ps as [|head ps].
  - simpl in *. rewrite Hh. destruct l; [|done]. simpl. split; [|done].
    exists [p]. split; [split; simpl|].
    + apply NoDup_singleton.
    + split; [|done]. eexists. rewrite lookup_insert_eq. split; [done|]. simpl. by destruct (l2mc_entry junk pkt).
    + intros q Hq. destruct (decide (q = p)) as [->|Hne]; [left|].
      rewrite lookup_insert_ne in Hq by done. apply Hdom in Hq. by apply not_elem_of_nil in Hq.
    + done.
    + done.
    + unfold l2mc_turns, IGMP_SNP_GRP_MAX. lia.
    + simpl. constructor; [|constructor]. eexists. rewrite lookup_insert_eq. split; [done|]. apply l2mc_entry_links.
  - rewrite Hh. cbn [hed]. apply wp_bind. eapply wp_mono; [eapply wp_scan_table; [exact Hn|done]|].
    intros [q| |] Hs; [| |done].
    + destruct (scanned_found _ _ _ l _ (l2_same_entry_erase pkt) HF Hs) as (a & b & la & lb & _ & _ & _ & _ & ->).
      simpl. split; [|done]. by exists (head :: ps).
    + destruct (scanned_false _ _ _ l (l2_same_entry_erase pkt) HF Hs) as [-> _].
      rewrite Hc, Hlen. destruct (Z.leb_spec (IGMP_SNP_GRP_MAX + 1) (Z.of_nat (length l))) as [Hmax|Hmax].
      { simpl. split; [|done]. by exists (head :: ps). }
      destruct (dseg_elem _ _ _ _ _ head Hd) as [y Ey]; [left|]. rewrite Ey. cbn [deref obind wp fst snd].
      split; [|done]. assert (Hph : head ≠ p) by (intros ->; apply Hfr; left).
      exists (p :: head :: ps). split; [split|]; cbn [l2_heap stListHead ulListNodeCount].
      * by apply list.NoDup_cons.
      * set (x := (l2mc_entry junk pkt) <| l2_next := head |> <| l2_prev := p |>).
        assert (Eh : <[p := x]> (<[head := y <| l2_prev := p |>]> t.(l2_heap))
                   = set_prv_of l2_dlink (set_nxt_of l2_dlink (<[p := x]> t.(l2_heap)) (lst None []) (Some p)) (hed (head :: ps) None) (Some p)).
        { simpl. rewrite insert_insert_ne by congruence. apply map_eq. intros k.
          destruct (decide (k = head)) as [->|Hk].
          - rewrite lookup_insert_eq, lookup_alter_eq, lookup_insert_ne, Ey by congruence. done.
          - by rewrite lookup_insert_ne, lookup_alter_ne by congruence. }
        rewrite Eh. apply (dseg_link l2_dlink _ [] p (head :: ps) x).
        -- by apply list.NoDup_cons.
        -- by apply dseg_insert_ne.
        -- by rewrite lookup_insert_eq.
        -- by destruct (l2mc_entry junk pkt).
        -- by destruct (l2mc_entry junk pkt).
      * intros q Hq. destruct (decide (q = p)) as [->|Hqp]; [left|]. rewrite lookup_insert_ne in Hq by done.
        right. apply Hdom. destruct (decide (q = head)) as [->|Hqh]; [by rewrite Ey; eexists|].
        by rewrite lookup_insert_ne in Hq.
      * done.
      * rewrite u32_small; [cbn [length] in *; lia|]. cbn [length] in *. unfold l2mc_turns, IGMP_SNP_GRP_MAX in *. lia.
      * cbn [length] in *. unfold l2mc_turns, IGMP_SNP_GRP_MAX in *. lia.
      * constructor.
        -- eexists. rewrite lookup_insert_eq. split; [done|]. apply l2mc_entry_links.
        -- apply holds_fresh; [done|]. apply Forall2_cons_inv_l in HF as (e & l' & (z & Ez & <-) & HF' & ->). assert (z = y) as -> by congruence.
           apply list.NoDup_cons in Hnd as [Hhead Hnd]. constructor; [|by apply holds_fresh].
           eexists. rewrite lookup_insert_eq. split; [done|]. by destruct y.
Qed.

Lemma Forall2_holds_mono h h' p ps l :
  p ∉ ps → (∀ q e, q ≠ p → holds h q e → holds h' q e) → Forall2 (holds h) ps l → Forall2 (holds h') ps l.
Proof.
  intros Hp Hh. induction 1 as [|q e ps l Hq _ IH]; constructor.
  - apply Hh; [intros ->; apply Hp; left|done].
  - apply IH. intros Hp'. apply Hp. by right.
Qed.

(** Deleting the node of one entry. *)
Lemma wp_delete_entry t a p b la lb :
  l2mc_nodes t (a ++ p :: b) → Forall2 (holds t.(l2_heap)) a la → Forall2 (holds t.(l2_heap)) b lb →
  wp (l2mc_unlink cut_last t p) (fun t' =>
    let t' := l2mc_free t' p in
    l2mc_nodes t' (a ++ b) ∧ Forall2 (holds t'.(l2_heap)) a la ∧ Forall2 (holds t'.(l2_heap)) b lb).
Proof.
  intros Hn Ha Hb. eapply wp_mono; [by eapply wp_l2mc_delete|]. cbv zeta. intros t' [Hn' Hh].
  assert (Hp : p ∉ a ++ b).
  { destruct Hn as [Hn _ _ _ _ _]. rewrite <- Permutation_middle in Hn. by apply list.NoDup_cons in Hn as [Hn _]. }
  split_and!; [done|..]; (eapply Forall2_holds_mono; [|exact Hh|done]); set_solver.
Qed.

Lemma wp_node_delete t l pkt :
  l2mc_repr t l →
  wp (L2mc_Entry_Node_Delete t pkt) (fun '(t', r) =>
    l2mc_repr t' (remove_first (l2_same_entry pkt) l) ∧ r = IGMPSNP_RETURN_CODE_OK).
Proof.
  intros (ps & Hn & HF). unfold L2mc_Entry_Node_Delete. rewrite (l2n_head _ _ Hn).
  destruct ps as [|head ps]; cbn [hed].
  { apply Forall2_nil_inv_l in HF as ->. split; [|done]. by exists []. }
  apply wp_bind. eapply wp_mono; [eapply wp_scan_table; [exact Hn|done]|]. intros [p| |] Hs; [| |done].
  - destruct (scanned_found _ _ _ l _ (l2_same_entry_erase pkt) HF Hs) as (a & b & la & lb & E & Ha & Hb & -> & _).
    rewrite E in Hn. apply wp_bind. eapply wp_mono; [by eapply wp_delete_entry|]. cbv zeta.
    intros t' (Hn' & Ha' & Hb'). simpl. split; [|done]. exists (a ++ b). split; [done|]. by apply Forall2_app.
  - destruct (scanned_false _ _ _ l (l2_same_entry_erase pkt) HF Hs) as [_ ->].
    simpl. split; [|done]. by exists (head :: ps).
Qed.

(** The loop that deletes a group, with the nodes [a] behind it. *)
Lemma wp_group_delete_loop pkt left t a p b la l :
  l2mc_nodes t (a ++ p :: b) → Forall2 (holds t.(l2_heap)) a la → Forall2 (holds t.(l2_heap)) (p :: b) l →
  (length (p :: b) ≤ left)%nat →
  wp (group_delete_loop pkt left t p) (fun '(t', r) =>
    l2mc_repr t' (la ++ remove_but_last (l2_same_group pkt) l) ∧ r = IGMPSNP_RETURN_CODE_OK).
Proof.
  revert left t a p la l. induction b as [|q b IH]; intros [|left] t a p la l Hn Ha HF Hl; cbn [length] in Hl; try lia;
    apply Forall2_cons_inv_l in HF as (e & l' & (x & Ex & <-) & HF & ->); cbn [group_delete_loop];
    rewrite Ex; cbn [deref obind];
    destruct (dseg_mid _ _ _ _ _ _ _ (l2n_links _ _ Hn)) as (x' & Ex' & _ & Hx);
    assert (x' = x) as -> by congruence; cbn [l2_dlink d_nxt enc hed] in Hx; simpl in Hx.
  - apply Forall2_nil_inv_l in HF as ->. rewrite Hx, decide_True by done. simpl. split; [|done].
    exists (a ++ [p]). split; [done|]. apply Forall2_app; [done|]. constructor; [by exists x|constructor].
  - assert (Hpq : p ≠ q).
    { destruct Hn as [Hn _ _ _ _ _]. apply list.NoDup_app in Hn as (_ & _ & Hn).
      apply list.NoDup_cons in Hn as [Hn _]. intros ->. apply Hn. left. }
    rewrite Hx, decide_False by done. assert (HF' := HF). apply Forall2_cons_inv_l in HF' as (e' & l'' & _ & _ & ->).
    cbn [remove_but_last]. rewrite l2_same_group_erase. destruct (l2_same_group pkt x).
    + apply wp_bind. eapply wp_mono; [by eapply wp_delete_entry|]. cbv zeta. intros t' (Hn' & Ha' & HF'). rewrite (l2n_count _ _ Hn'). rewrite length_app. cbn [length].
      rewrite (proj2 (Z.eqb_neq 0 _)) by lia.
      by apply (IH left _ a q la (e' :: l'')); [..|cbn [length]; lia].
    + eapply wp_mono; [apply (IH left t (a ++ [p]) q (la ++ [erase x]) (e' :: l''))|].
      * by rewrite <- app_assoc.
      * apply Forall2_app; [done|]. constructor; [by exists x|constructor].
      * done.
      * cbn [length]. lia.
      * intros [t' r]. by rewrite <- app_assoc.
Qed.

Lemma wp_group_delete t l pkt :
  l2mc_repr t l →
  wp (L2mc_Entry_Group_Delete t pkt) (fun '(t', r) =>
    l2mc_repr t' (remove_but_last (l2_same_group pkt) l) ∧ r = IGMPSNP_RETURN_CODE_OK).
Proof.
  intros (ps & Hn & HF). unfold L2mc_Entry_Group_Delete. rewrite (l2n_head _ _ Hn).
  destruct ps as [|head ps]; cbn [hed].
  { apply Forall2_nil_inv_l in HF as ->. split; [|done]. by exists []. }
  apply (wp_group_delete_loop pkt _ t [] head ps [] l); [exact Hn|constructor|exact HF|apply Hn].
Qed.

(** The index is that of the first entry of the group in the VLAN. *)
Lemma wp_getvidx t l vid group :
  l2mc_repr t l →
  wp (L2mc_Entry_GetVidx t vid group) (fun '(r, vidx) =>
    match List.find (fun x => (x.(ulVlanId) =? vid) && same_group (l2_group x) group) l with
    | Some x => r = IGMPSNP_RETURN_CODE_OK ∧ vidx = x.(ulVlanIdx)
    | None => r = IGMPSNP_RETURN_CODE_ERROR ∧ vidx = 0
    end).
Proof.
  intros (ps & Hn & HF). unfold L2mc_Entry_GetVidx. rewrite (l2n_head _ _ Hn).
  set (test := fun x => _ && _). destruct ps as [|head ps]; cbn [hed].
  { by apply Forall2_nil_inv_l in HF as ->. }
  assert (Hte : ∀ x, test (erase x) = test x).
  { intros x. unfold test, erase. rewrite l2_group_links. by destruct x. }
  apply wp_bind. eapply wp_mono; [eapply wp_scan_table; [exact Hn|done]|]. intros [p| |] Hs; [| |done].
  - destruct Hs as (a & b & x & E & Ex & Et & Ha). rewrite Ex. simpl.
    rewrite E in HF. apply Forall2_app_inv_l in HF as (la & l2 & Hla & Hl2 & ->).
    apply Forall2_cons_inv_l in Hl2 as (e & lb & (y & Ey & <-) & Hlb & ->). assert (y = x) as -> by congruence.
    assert (Ef : List.find test (la ++ erase x :: lb) = Some (erase x)).
    { revert Ha. clear -Hla Et Hte. induction Hla as [|p e a la Hz Hla IH]; intros Ha; simpl.
      - by rewrite Hte, Et.
      - destruct Hz as (z & Ez & <-). rewrite Hte, (Ha p z) by (done || left). apply IH.
        intros p' y' Hp'. apply Ha. by right. }
    rewrite Ef. by destruct x.
  - assert (Ef : List.find test l = None).
    { clear -HF Hte Hs. revert Hs. induction HF as [|p e ps' l Hz HF IH]; intros Hs; simpl; [done|].
      destruct Hz as (z & Ez & <-). rewrite Hte, (Hs p z) by (done || left). apply IH.
      intros q y Hq. apply Hs. by right. }
    by rewrite Ef.
Qed.
End Operations.

(** The head is unlinked as by the other operations. *)
Lemma wp_delete_all_loop left t p ps :
  l2mc_nodes t (p :: ps) → (length (p :: ps) ≤ left)%nat →
  wp (delete_all_loop left t p) (fun '(t', r) => l2mc_nodes t' [] ∧ r = IGMPSNP_RETURN_CODE_OK).
Proof.
  revert left t p. induction ps as [|q ps IH]; intros [|left] t p Hn Hl; cbn [length] in Hl; try lia;
    cbn [delete_all_loop]; destruct (dseg_mid _ _ _ [] p _ _ (l2n_links _ _ Hn)) as (x & Ex & Hp & Hx);
    simpl in Hp, Hx; rewrite Ex; cbn [deref obind];
    assert (Eu : l2mc_unlink (cut_self p) t p = l2mc_unlink cut_last t p)
      by (unfold l2mc_unlink; rewrite Ex; cbn [deref obind]; rewrite Hp, !decide_True by done; done);
    rewrite Eu; apply wp_bind; (eapply wp_mono; [by eapply (wp_l2mc_delete t [] p)|]); cbv zeta; intros t' [Hn' _]; simpl in Hn'.
  - rewrite (l2n_count _ _ Hn'). simpl. done.
  - rewrite (l2n_count _ _ Hn'). cbn [length]. rewrite (proj2 (Z.eqb_neq 0 _)) by lia.
    rewrite Hx. apply IH; [done|cbn [length]; lia].
Qed.

Lemma wp_delete_all t l :
  l2mc_repr t l →
  wp (L2mc_Entry_Group_Delete_All t) (fun '(t', r) => l2mc_repr t' [] ∧ r = IGMPSNP_RETURN_CODE_OK).
Proof.
  intros (ps & Hn & HF). unfold L2mc_Entry_Group_Delete_All. rewrite (l2n_head _ _ Hn).
  destruct ps as [|head ps]; cbn [hed].
  { split; [|done]. exists []. split; [done|constructor]. }
  eapply wp_mono; [apply (wp_delete_all_loop _ t head ps); [done|apply Hn]|].
  intros [t' r] [Hn' ->]. split; [|done]. exists []. split; [done|constructor].
Qed.
