(* ===== verification/IgmpSnp.v ===== *)
(** * The state of the IGMP snooping daemon, and its lists
      ([igmp_snoop_inter.h], [igmp_snoop_main.c], [igmp_snoop_hw.c])

    The daemon learns which ports of a VLAN want which multicast groups.  A VLAN
    with groups is a [MC_group_vlan] in the array [mcgroup_vlan_queue], linked by
    index in both directions; its groups are [MC_group]s in the heap, linked by
    pointer in both directions; a group has a list of member ports, a VLAN a list
    of router ports.  A pointer to a [MC_group_vlan] is its index in the array, a
    pointer to a [MC_group] its place in the heap.

    The lists that are linked in one direction and to which no pointer outlives
    the function that follows it are Rocq lists; a pointer into one is a position.
    The list of router ports of a VLAN can end in a freed node ([RDangling]).

    [env] holds what the outside answers.  Allocations succeed. *)

From Stdlib Require Import ZArith Lia.
From stdpp Require Import base gmap list option.
From S2P Require Import Prelude DList IgmpL2mc.

(** ** Constants *)

Definition IGMPSNP_RETURN_CODE_ALREADY_SET : Z := IGMPSNP_RETURN_CODE_BASE + 0x2.
Definition IGMPSNP_RETURN_CODE_NOT_ENABLE_GBL : Z := IGMPSNP_RETURN_CODE_BASE + 0x4.
Definition IGMPSNP_RETURN_CODE_SAME_VALUE : Z := IGMPSNP_RETURN_CODE_BASE + 0x6.
Definition IGMPSNP_RETURN_CODE_MC_VLAN_NOT_EXIST : Z := IGMPSNP_RETURN_CODE_BASE + 0x7.
Definition IGMPSNP_RETURN_CODE_VLAN_NOT_EXIST : Z := IGMPSNP_RETURN_CODE_BASE + 0x8.
Definition IGMPSNP_RETURN_CODE_NOTENABLE_PORT : Z := IGMPSNP_RETURN_CODE_BASE + 0xE.
Definition IGMPSNP_RETURN_CODE_ROUTE_PORT_EXIST : Z := IGMPSNP_RETURN_CODE_BASE + 0x10.
Definition IGMPSNP_RETURN_CODE_ROUTE_PORT_NOTEXIST : Z := IGMPSNP_RETURN_CODE_BASE + 0x11.
Definition IGMPSNP_RETURN_CODE_NOTROUTE_PORT : Z := IGMPSNP_RETURN_CODE_BASE + 0x12.
Definition IGMPSNP_RETURN_CODE_NO_SUCH_PORT : Z := IGMPSNP_RETURN_CODE_BASE + 0x14.
Definition IGMPSNP_RETURN_CODE_GROUP_NOTEXIST : Z := IGMPSNP_RETURN_CODE_BASE + 0x15.
Definition IGMPSNP_RETURN_CODE_ERROR_HW : Z := IGMPSNP_RETURN_CODE_BASE + 0x16.
Definition IGMPSNP_RETURN_CODE_ERROR_SW : Z := IGMPSNP_RETURN_CODE_BASE + 0x17.
Definition IGMPSNP_RETURN_CODE_NULL_PTR : Z := IGMPSNP_RETURN_CODE_BASE + 0x19.
Definition IGMPSNP_RETURN_CODE_ADD_TIMER_ERROR : Z := IGMPSNP_RETURN_CODE_BASE + 0x23.

Definition IGMP_SNOOP_NO : Z := 0.
Definition IGMP_SNOOP_YES : Z := 1.
Definition IGMP_SNOOP_OK : Z := 0.
Definition IGMP_GENERAL_GUERY_MAX : Z := 4096.

Definition IGMP_SNP_GROUP_NOMEMBER : Z := 0x00.
Definition IGMP_SNP_CHECK_MEMBER : Z := 0x01.
Definition IGMP_SNP_HAS_MEMBER : Z := 0x02.
Definition IGMP_SNP_V1_MEMBER : Z := 0x04.

(** [enum igmpmodaddtype], [IGMP_SYS_SET_INIT] and [IGMP_SYS_SET_STOP]. *)
Definition IGMP_ADDR_ADD : Z := 0.
Definition IGMP_ADDR_DEL : Z := 1.
Definition IGMP_ADDR_RMV : Z := 2.
Definition IGMP_SYS_SET : Z := 3.
Definition IGMP_SYS_SET_INIT : Z := 1.
Definition IGMP_SYS_SET_STOP : Z := 2.

Definition is_ok (ret : Z) : bool := ret =? IGMPSNP_RETURN_CODE_OK.

(** ** Data *)

(** [struct MC_port_state]: a member port of a group.  A timer is the number of
    ticks left, 0 when it is not running. *)
Record MC_port_state : Type := mkPort {
  ps_ifindex : Z;
  membertimer_id : Z;
  hosttimer_id : Z;
  ps_state : Z }.

Definition MC_port_state_eta (r : MC_port_state) : MC_port_state :=
  mkPort r.(ps_ifindex) r.(membertimer_id) r.(hosttimer_id) r.(ps_state).
#[export] Instance set_ps_ifindex : Setter ps_ifindex := ltac:(solve_setter MC_port_state_eta).
#[export] Instance set_membertimer_id : Setter membertimer_id := ltac:(solve_setter MC_port_state_eta).
#[export] Instance set_hosttimer_id : Setter hosttimer_id := ltac:(solve_setter MC_port_state_eta).
#[export] Instance set_ps_state : Setter ps_state := ltac:(solve_setter MC_port_state_eta).

(** [igmp_router_entry]: a router port of a VLAN with groups. *)
Record igmp_router_entry : Type := mkRouter {
  mroute_ifindex : Z;
  re_saddr : Z;
  re_saddrv6 : list Z;
  re_timer_id : Z }.

Definition igmp_router_entry_eta (r : igmp_router_entry) : igmp_router_entry :=
  mkRouter r.(mroute_ifindex) r.(re_saddr) r.(re_saddrv6) r.(re_timer_id).
#[export] Instance set_mroute_ifindex : Setter mroute_ifindex := ltac:(solve_setter igmp_router_entry_eta).
#[export] Instance set_re_saddr : Setter re_saddr := ltac:(solve_setter igmp_router_entry_eta).
#[export] Instance set_re_saddrv6 : Setter re_saddrv6 := ltac:(solve_setter igmp_router_entry_eta).
#[export] Instance set_re_timer_id : Setter re_timer_id := ltac:(solve_setter igmp_router_entry_eta).

(** A list of router entries: it ends in NULL or in a pointer to freed memory. *)
Inductive RLIST : Type :=
| RNil
| RDangling
| RCons (e : igmp_router_entry) (next : RLIST).

(** The entries met by a walk to the end. *)
Fixpoint rwalk (l : RLIST) : outcome (list igmp_router_entry) :=
  match l with
  | RNil => Done []
  | RDangling => Segv
  | RCons e l' => let* r := rwalk l' in Done (e :: r)
  end.

Fixpoint rlist (l : list igmp_router_entry) : RLIST :=
  match l with [] => RNil | e :: l' => RCons e (rlist l') end.

Definition rnull (l : RLIST) : bool := match l with RNil => true | _ => false end.

(** [MC_group] *)
Record MC_group : Type := mkGroup {
  g_next : option positive;
  g_prev : option positive;
  MC_ipadd : Z;
  MC_v6ipadd : list Z;
  report_ipadd : Z;
  report_v6ipadd : list Z;
  g_vid : Z;
  ver_flag : Z;
  grouplifetime : Z;
  grouplifetimer_id : Z;
  resposetime : Z;
  resposetime_id : Z;
  portstatelist : list MC_port_state;
  router_reporttimer : Z;
  mgroup_id : Z }.

Definition MC_group_eta (r : MC_group) : MC_group :=
  mkGroup r.(g_next) r.(g_prev) r.(MC_ipadd) r.(MC_v6ipadd) r.(report_ipadd) r.(report_v6ipadd) r.(g_vid) r.(ver_flag)
    r.(grouplifetime) r.(grouplifetimer_id) r.(resposetime) r.(resposetime_id) r.(portstatelist)
    r.(router_reporttimer) r.(mgroup_id).
#[export] Instance set_g_next : Setter g_next := ltac:(solve_setter MC_group_eta).
#[export] Instance set_g_prev : Setter g_prev := ltac:(solve_setter MC_group_eta).
#[export] Instance set_MC_ipadd : Setter MC_ipadd := ltac:(solve_setter MC_group_eta).
#[export] Instance set_report_ipadd : Setter report_ipadd := ltac:(solve_setter MC_group_eta).
#[export] Instance set_report_v6ipadd : Setter report_v6ipadd := ltac:(solve_setter MC_group_eta).
#[export] Instance set_g_vid : Setter g_vid := ltac:(solve_setter MC_group_eta).
#[export] Instance set_grouplifetimer_id : Setter grouplifetimer_id := ltac:(solve_setter MC_group_eta).
#[export] Instance set_resposetime : Setter resposetime := ltac:(solve_setter MC_group_eta).
#[export] Instance set_resposetime_id : Setter resposetime_id := ltac:(solve_setter MC_group_eta).
#[export] Instance set_portstatelist : Setter portstatelist := ltac:(solve_setter MC_group_eta).
#[export] Instance set_router_reporttimer : Setter router_reporttimer := ltac:(solve_setter MC_group_eta).
#[export] Instance set_mgroup_id : Setter mgroup_id := ltac:(solve_setter MC_group_eta).

Definition g_dlink : DLink positive MC_group (option positive) := mkDLink _ _ _
  g_next g_prev (fun o x => x <| g_next := o |>) (fun o x => x <| g_prev := o |>) (fun _ o => o).
#[export] Instance g_dlink_law : DLinkLaw g_dlink.
Proof. by split; intros l []. Qed.

(** [MC_group_vlan] *)
Record MC_group_vlan : Type := mkVlan {
  v_next : Z;
  v_prev : Z;
  vlan_id : Z;
  firstgroup : option positive;
  v_saddr : Z;
  v_saddrv6 : list Z;
  querytimeinterval : Z;
  querytimer_id : Z;
  mcgvlanlife : Z;
  routerlist : RLIST }.

Definition MC_group_vlan_eta (r : MC_group_vlan) : MC_group_vlan :=
  mkVlan r.(v_next) r.(v_prev) r.(vlan_id) r.(firstgroup) r.(v_saddr) r.(v_saddrv6) r.(querytimeinterval)
    r.(querytimer_id) r.(mcgvlanlife) r.(routerlist).
#[export] Instance set_v_next : Setter v_next := ltac:(solve_setter MC_group_vlan_eta).
#[export] Instance set_v_prev : Setter v_prev := ltac:(solve_setter MC_group_vlan_eta).
#[export] Instance set_vlan_id : Setter vlan_id := ltac:(solve_setter MC_group_vlan_eta).
#[export] Instance set_firstgroup : Setter firstgroup := ltac:(solve_setter MC_group_vlan_eta).
#[export] Instance set_querytimeinterval : Setter querytimeinterval := ltac:(solve_setter MC_group_vlan_eta).
#[export] Instance set_querytimer_id : Setter querytimer_id := ltac:(solve_setter MC_group_vlan_eta).
#[export] Instance set_mcgvlanlife : Setter mcgvlanlife := ltac:(solve_setter MC_group_vlan_eta).
#[export] Instance set_routerlist : Setter routerlist := ltac:(solve_setter MC_group_vlan_eta).

(** The links are indices, -1 at the ends. *)
Definition v_dlink : DLink Z MC_group_vlan Z := mkDLink _ _ _
  v_next v_prev (fun i x => x <| v_next := i |>) (fun i x => x <| v_prev := i |>)
  (fun _ o => default (-1) o).
#[export] Instance v_dlink_law : DLinkLaw v_dlink.
Proof. by split; intros l []. Qed.

(** [igmp_vlan_port_list], [igmp_vlan_list]: the ports of the VLANs. *)
Record igmp_vlan_port_list : Type := mkVlanPort { vp_ifindex : Z; trunkflag : Z }.
Record igmp_vlan_list : Type := mkVlanList { vl_vlan_id : Z; first_port : list igmp_vlan_port_list }.

(** [igmp_routerport]: the router ports, configured or learnt, of all VLANs. *)
Record igmp_routerport : Type := mkRouterPort {
  rp_vlan_id : Z;
  rp_ifindex : Z;
  routeport_saddr : Z;
  routeport_saddrv6 : list Z }.

(** [igmp_reporter_port] with its [member_port_list]. *)
Record igmp_reporter_port : Type := mkReporter { r_vlan_id : Z; portlist : list Z }.

(** ** Effects and surroundings *)

(** [OVER_READ room len]: [len] bytes are read of a block that has [room], fewer. *)
Inductive EFFECT : Type :=
| NOTIFY_NPD (mod_type vlan_id ifindex group reserve : Z)
| NOTIFY_NPD_V6 (mod_type vlan_id ifindex : Z) (group : list Z) (reserve : Z)
| SEND_SKB (ifindex vlan_id nlmsg_len : Z) (frame : list Z)
| OVER_READ (room len : Z).

(** Whether the switch daemon and the packet socket take messages, [rand()], the
    content of a fresh block and of an automatic variable before it is set. *)
Record ENV : Type := mkEnv {
  npd_ok : bool;
  kernel_fd_ok : bool;
  rand : nat → Z;
  junk_entry : l2mc_list;
  junk_word : Z;
  junk_v6 : list Z }.

(** ** The state *)

(** [timer_element]: [tm_func] names the function, [tm_data] is its argument, the
    packet of one of the two families.  The
    timers are linked in one direction; the links can form a cycle, so that they
    are kept as they are, by place in the heap. *)
Inductive TIMER_FUNC : Type := GLOBAL_TIMER | RXMT_TIMEOUT | RESP_TIMEOUT | MLD_RXMT_TIMEOUT | MLD_RESP_TIMEOUT.
Inductive TIMER_DATA : Type := IGMP_DATA (pkt : PKT Z) | MLD_DATA (pkt : PKT (list Z)).
Record timer_element : Type := mkTimer {
  tm_next : option positive;
  tm_id : Z;
  tm_type : Z;
  tm_priority : Z;
  tm_expires : Z;
  tm_current : Z;
  tm_data : option TIMER_DATA;
  tm_func : TIMER_FUNC }.

Definition timer_element_eta (r : timer_element) : timer_element :=
  mkTimer r.(tm_next) r.(tm_id) r.(tm_type) r.(tm_priority) r.(tm_expires) r.(tm_current) r.(tm_data) r.(tm_func).
#[export] Instance set_tm_next : Setter tm_next := ltac:(solve_setter timer_element_eta).
#[export] Instance set_tm_id : Setter tm_id := ltac:(solve_setter timer_element_eta).
#[export] Instance set_tm_current : Setter tm_current := ltac:(solve_setter timer_element_eta).
#[export] Instance set_tm_data : Setter tm_data := ltac:(solve_setter timer_element_eta).

Record timer_list : Type := mkTimers {
  first_timer : option positive;
  tl_nodes : gmap positive timer_element;
  tl_cnt : Z;
  tl_lock : Z }.

Definition timer_list_eta (r : timer_list) : timer_list :=
  mkTimers r.(first_timer) r.(tl_nodes) r.(tl_cnt) r.(tl_lock).
#[export] Instance set_first_timer : Setter first_timer := ltac:(solve_setter timer_list_eta).
#[export] Instance set_tl_nodes : Setter tl_nodes := ltac:(solve_setter timer_list_eta).
#[export] Instance set_tl_cnt : Setter tl_cnt := ltac:(solve_setter timer_list_eta).
#[export] Instance set_tl_lock : Setter tl_lock := ltac:(solve_setter timer_list_eta).

Record IGS : Type := mkIgs {
  p_l2mc : L2MC;
  mcgroup_vlan_queue : gmap Z MC_group_vlan;
  first_mcgroupvlan_idx : Z;
  groups : gmap positive MC_group;
  igmp_groupcount : Z;
  mld_groupcount : Z;
  p_vlanlist : list igmp_vlan_list;
  igmp_vlancount : Z;
  p_routerlist : list igmp_routerport;
  p_reporterlist : list igmp_reporter_port;
  p_queryportlist : list Z;
  igmp_genquerytime : gmap Z Z;
  igmp_router_timeout : Z;
  igmp_robust_variable : Z;
  igmp_query_interval : Z;
  igmp_rxmt_interval : Z;
  igmp_resp_interval : Z;
  igmp_grouplife : Z;
  igmp_vlanlife : Z;
  igmp_snoop_enable : Z;
  mld_snoop_enable : Z;
  queryRxFlag : Z;
  sysMac : option (list Z);
  igmp_timer_list : timer_list;
  rand_count : nat;
  trace : list EFFECT }.

Definition IGS_eta (r : IGS) : IGS :=
  mkIgs r.(p_l2mc) r.(mcgroup_vlan_queue) r.(first_mcgroupvlan_idx) r.(groups) r.(igmp_groupcount)
    r.(mld_groupcount) r.(p_vlanlist) r.(igmp_vlancount) r.(p_routerlist) r.(p_reporterlist)
    r.(p_queryportlist) r.(igmp_genquerytime) r.(igmp_router_timeout) r.(igmp_robust_variable)
    r.(igmp_query_interval) r.(igmp_rxmt_interval) r.(igmp_resp_interval) r.(igmp_grouplife)
    r.(igmp_vlanlife) r.(igmp_snoop_enable) r.(mld_snoop_enable) r.(queryRxFlag) r.(sysMac)
    r.(igmp_timer_list) r.(rand_count) r.(trace).
#[export] Instance set_p_l2mc : Setter p_l2mc := ltac:(solve_setter IGS_eta).
#[export] Instance set_queue : Setter mcgroup_vlan_queue := ltac:(solve_setter IGS_eta).
#[export] Instance set_first_idx : Setter first_mcgroupvlan_idx := ltac:(solve_setter IGS_eta).
#[export] Instance set_groups : Setter groups := ltac:(solve_setter IGS_eta).
#[export] Instance set_igmp_groupcount : Setter igmp_groupcount := ltac:(solve_setter IGS_eta).
#[export] Instance set_mld_groupcount : Setter mld_groupcount := ltac:(solve_setter IGS_eta).
#[export] Instance set_p_vlanlist : Setter p_vlanlist := ltac:(solve_setter IGS_eta).
#[export] Instance set_igmp_vlancount : Setter igmp_vlancount := ltac:(solve_setter IGS_eta).
#[export] Instance set_p_routerlist : Setter p_routerlist := ltac:(solve_setter IGS_eta).
#[export] Instance set_p_reporterlist : Setter p_reporterlist := ltac:(solve_setter IGS_eta).
#[export] Instance set_igmp_genquerytime : Setter igmp_genquerytime := ltac:(solve_setter IGS_eta).
#[export] Instance set_robust_variable : Setter igmp_robust_variable := ltac:(solve_setter IGS_eta).
#[export] Instance set_query_interval : Setter igmp_query_interval := ltac:(solve_setter IGS_eta).
#[export] Instance set_resp_interval : Setter igmp_resp_interval := ltac:(solve_setter IGS_eta).
#[export] Instance set_grouplife : Setter igmp_grouplife := ltac:(solve_setter IGS_eta).
#[export] Instance set_vlanlife : Setter igmp_vlanlife := ltac:(solve_setter IGS_eta).
#[export] Instance set_snoop_enable : Setter igmp_snoop_enable := ltac:(solve_setter IGS_eta).
#[export] Instance set_mld_snoop_enable : Setter mld_snoop_enable := ltac:(solve_setter IGS_eta).
#[export] Instance set_queryRxFlag : Setter queryRxFlag := ltac:(solve_setter IGS_eta).
#[export] Instance set_sysMac : Setter sysMac := ltac:(solve_setter IGS_eta).
#[export] Instance set_igmp_timer_list : Setter igmp_timer_list := ltac:(solve_setter IGS_eta).
#[export] Instance set_rand_count : Setter rand_count := ltac:(solve_setter IGS_eta).
#[export] Instance set_igs_trace : Setter trace := ltac:(solve_setter IGS_eta).

Definition igs_emit (e : EFFECT) (s : IGS) : IGS := s <| trace := s.(trace) ++ [e] |>.

(** [GET_VLAN_POINT_BY_INDEX]: a pointer is the index of its node. *)
Definition GET_VLAN_POINT_BY_INDEX (s : IGS) (index : Z) : option Z :=
  if (0 <=? index) && (index <? IGMP_GENERAL_GUERY_MAX) then
    match s.(mcgroup_vlan_queue) !! index with Some _ => Some index | None => None end
  else None.

Definition get_vlan (s : IGS) (p : Z) : outcome MC_group_vlan := deref (s.(mcgroup_vlan_queue) !! p).
Definition put_vlan (p : Z) (v : MC_group_vlan) (s : IGS) : IGS :=
  s <| mcgroup_vlan_queue := <[p := v]> s.(mcgroup_vlan_queue) |>.
Definition get_group (s : IGS) (p : positive) : outcome MC_group := deref (s.(groups) !! p).
Definition put_group (p : positive) (g : MC_group) (s : IGS) : IGS :=
  s <| groups := <[p := g]> s.(groups) |>.

(** What the switch daemon has been told. *)
Definition notice (e : EFFECT) : bool :=
  match e with NOTIFY_NPD _ _ _ _ _ | NOTIFY_NPD_V6 _ _ _ _ _ => true | SEND_SKB _ _ _ _ | OVER_READ _ _ => false end.
Definition notices (s : IGS) : list EFFECT := List.filter notice s.(trace).
