(* ===== verification/IgmpList.v ===== *)
(** * The simple lists of the IGMP snooping daemon ([igmp_snoop_hw.c],
      [igmp_snoop_main.c])

    VLANs and their ports, configured router ports, reporter ports, and the member
    ports of a group.  A function that takes a flag (add, delete, query) in the
    source keeps it here. *)

From Stdlib Require Import ZArith Lia.
From stdpp Require Import base gmap list option.
From S2P Require Import Prelude DList IgmpL2mc IgmpSnp.

(** [enum igmpportstate] *)
Inductive igmpportstate : Type := IGMP_PORT_ADD | IGMP_PORT_DEL | IGMP_PORT_QUERY.

(** ** VLANs and ports *)

Definition same_vlan (vid : Z) (v : igmp_vlan_list) : bool := v.(vl_vlan_id) =? u32 vid.
Definition has_port (ifindex : Z) (v : igmp_vlan_list) : bool :=
  existsb (fun p => p.(vp_ifindex) =? ifindex) v.(first_port).

(** The second component is what is stored in [*ret], if anything. *)
Definition igmp_vlanisused (l : list igmp_vlan_list) (vid : Z) : Z * option Z :=
  match l with
  | [] => (IGMPSNP_RETURN_CODE_NULL_PTR, None)
  | _ => (IGMPSNP_RETURN_CODE_OK, Some (if existsb (same_vlan vid) l then 1 else 0))
  end.

Definition igmp_is_vlan_ifindex (l : list igmp_vlan_list) (vid ifindex : Z) : Z :=
  match l with
  | [] => IGMPSNP_RETURN_CODE_NULL_PTR
  | _ => if existsb (fun v => same_vlan vid v && has_port ifindex v) l then IGMPSNP_RETURN_CODE_OK
         else IGMPSNP_RETURN_CODE_NOTENABLE_PORT
  end.

(** The VLANs of a port, one for each time it is listed. *)
Definition igmp_get_vid_by_port (l : list igmp_vlan_list) (ifindex : Z) : Z * list Z :=
  match l with
  | [] => (IGMPSNP_RETURN_CODE_ERROR, [])
  | _ => (IGMPSNP_RETURN_CODE_OK,
          flat_map (fun v => map (fun _ => v.(vl_vlan_id))
                     (List.filter (fun p => p.(vp_ifindex) =? ifindex) v.(first_port))) l)
  end.

Definition igmp_getifindex_byvlanid (l : list igmp_vlan_list) (vid : Z) : Z * option Z :=
  match l with
  | [] => (IGMPSNP_RETURN_CODE_NULL_PTR, None)
  | _ =>
      match List.find (same_vlan vid) l with
      | Some v =>
          match v.(first_port) with
          | p :: _ => (IGMPSNP_RETURN_CODE_OK, Some p.(vp_ifindex))
          | [] => (IGMPSNP_RETURN_CODE_ERROR, Some 0)
          end
      | None => (IGMPSNP_RETURN_CODE_VLAN_NOT_EXIST, Some 0)
      end
  end.

(** The port after the first one with this index. *)
Fixpoint next_port (ifindex : Z) (l : list igmp_vlan_port_list) : option Z :=
  match l with
  | [] => None
  | p :: l' =>
      if p.(vp_ifindex) =? ifindex then match l' with q :: _ => Some q.(vp_ifindex) | [] => None end
      else next_port ifindex l'
  end.

(** [Some next]: [IGMPSNP_RETURN_CODE_OK] with [next] in [*nextifindex]. *)
Definition igmp_get_nextifindex_byifindex (l : list igmp_vlan_list) (vid ifindex : Z) : option Z :=
  match List.find (same_vlan vid) l with
  | Some v => next_port ifindex v.(first_port)
  | None => None
  end.

Definition igmp_snp_get_vlan_mbrs_igmpvlanlist (l : list igmp_vlan_list) (vid : Z) : Z * list Z :=
  match l with
  | [] => (IGMPSNP_RETURN_CODE_NULL_PTR, [])
  | _ =>
      let mbrs := flat_map (fun v => map vp_ifindex v.(first_port))
                    (List.filter (fun v => v.(vl_vlan_id) =? vid) l) in
      (match mbrs with [] => IGMPSNP_RETURN_CODE_ERROR | _ => IGMPSNP_RETURN_CODE_OK end, mbrs)
  end.

(** The trunk of a port is the port itself, when its flag is set. *)
Definition IFM_PhyIsMerged2TrunkApi (l : list igmp_vlan_list) (vid ifindex : Z) : option Z :=
  match List.find (fun v => same_vlan vid v && has_port ifindex v) l with
  | Some v =>
      match List.find (fun p => p.(vp_ifindex) =? ifindex) v.(first_port) with
      | Some p => if p.(trunkflag) =? 0 then None else Some p.(vp_ifindex)
      | None => None
      end
  | None => None
  end.

(** The interface a handler works with. *)
Definition trunk_or_port (l : list igmp_vlan_list) (vid ifindex : Z) : Z :=
  match IFM_PhyIsMerged2TrunkApi l vid ifindex with Some t => t | None => ifindex end.

Definition igmp_vlanportrelation (ifindex vid : Z) : Z * Z := (IGMPSNP_RETURN_CODE_OK, 0).
Definition igmp_getifstatus (ifindex : Z) : Z := 1.
Definition igmp_getmaxgroupcnt (ifindex : Z) : Z := IGMP_SNP_GRP_MAX.
Definition igmp_getvlan_addr (vid : Z) : Z := IGMPSNP_RETURN_CODE_ERROR.

(** [while (t_port) if (t_port->ifindex == ifindex) return ...;]: the pointer is
    advanced outside this loop. *)
Fixpoint is_trunk_ports (fuel : nat) (ifindex : Z) (t_port : option igmp_vlan_port_list) : outcome (option Z) :=
  match fuel with
  | O => OutOfFuel
  | S fuel' =>
      match t_port with
      | None => Done None
      | Some p =>
          if p.(vp_ifindex) =? ifindex then Done (Some (if p.(trunkflag) =? 0 then 0 else 1))
          else is_trunk_ports fuel' ifindex t_port
      end
  end.
Fixpoint IFM_isTrunkIf_loop (fuel : nat) (vid ifindex : Z) (l : list igmp_vlan_list) : outcome Z :=
  match l with
  | [] => Done 0
  | v :: l' =>
      if same_vlan vid v then
        match v.(first_port) with
        | [] => IFM_isTrunkIf_loop fuel vid ifindex l'
        | p :: _ =>
            let* r := is_trunk_ports fuel ifindex (Some p) in
            match r with Some z => Done z | None => IFM_isTrunkIf_loop fuel vid ifindex l' end
        end
      else IFM_isTrunkIf_loop fuel vid ifindex l'
  end.
Definition IFM_isTrunkIf (fuel : nat) (l : list igmp_vlan_list) (vid ifindex : Z) : outcome Z :=
  match l with [] => Done 1 | _ => IFM_isTrunkIf_loop fuel vid ifindex l end.

(** ** Changing the VLANs *)

Definition Igmp_Event_AddVlan (vid : Z) (s : IGS) : IGS * Z :=
  if 4094 <? vid then (s, IGMPSNP_RETURN_CODE_OUT_RANGE)
  else if existsb (fun v => v.(vl_vlan_id) =? vid) s.(p_vlanlist) then (s, IGMPSNP_RETURN_CODE_ALREADY_SET)
  else (s <| p_vlanlist := s.(p_vlanlist) ++ [mkVlanList vid []] |>
          <| igmp_vlancount := u32 (s.(igmp_vlancount) + 1) |>, IGMPSNP_RETURN_CODE_OK).

(** The walk to the VLAN reads [t_vlan->vlan_id] before it tests [t_vlan].  [None]:
    the end of the function is reached without a [return]. *)
Fixpoint add_port (vid ifindex : Z) (l : list igmp_vlan_list) : outcome (list igmp_vlan_list * option Z) :=
  match l with
  | [] => Segv
  | v :: l' =>
      if same_vlan vid v then
        if has_port ifindex v then Done (l, Some IGMPSNP_RETURN_CODE_ALREADY_SET)
        else Done (mkVlanList v.(vl_vlan_id) (v.(first_port) ++ [mkVlanPort ifindex 0]) :: l', None)
      else let* '(l', r) := add_port vid ifindex l' in Done (v :: l', r)
  end.

Definition Igmp_Event_VlanAddPort (vid ifindex : Z) (s : IGS) : outcome (IGS * option Z) :=
  match s.(p_vlanlist) with
  | [] => Done (s, Some IGMPSNP_RETURN_CODE_NULL_PTR)
  | l => let* '(l, r) := add_port vid ifindex l in Done (s <| p_vlanlist := l |>, r)
  end.

Definition Igmp_Event_PortUp (vid port_index : Z) (s : IGS) : outcome (IGS * option Z) :=
  Igmp_Event_VlanAddPort vid port_index s.

(** The first port of a VLAN is removed together with all the others. *)
Fixpoint remove_port (ifindex : Z) (l : list igmp_vlan_port_list) : list igmp_vlan_port_list :=
  match l with
  | [] => []
  | p :: l' => if p.(vp_ifindex) =? ifindex then l' else p :: remove_port ifindex l'
  end.
Fixpoint port_delete (vid ifindex : Z) (l : list igmp_vlan_list) : list igmp_vlan_list * Z :=
  match l with
  | [] => ([], IGMPSNP_RETURN_CODE_ERROR)
  | v :: l' =>
      if same_vlan vid v then
        if has_port ifindex v then
          let ports :=
            match v.(first_port) with
            | p :: _ => if p.(vp_ifindex) =? ifindex then [] else remove_port ifindex v.(first_port)
            | [] => []
            end in
          (mkVlanList v.(vl_vlan_id) ports :: l', IGMPSNP_RETURN_CODE_OK)
        else (l, IGMPSNP_RETURN_CODE_ERROR)
      else let '(l', r) := port_delete vid ifindex l' in (v :: l', r)
  end.
Definition igmp_snp_vlan_port_delete (vid ifindex : Z) (s : IGS) : IGS * Z :=
  match s.(p_vlanlist) with
  | [] => (s, IGMPSNP_RETURN_CODE_OK)
  | l => let '(l, r) := port_delete vid ifindex l in (s <| p_vlanlist := l |>, r)
  end.

(** ** Router ports

    The entries of a VLAN stand together when they are added one by one.  A
    pointer is a position. *)

Definition rp_same_vlan (vid : Z) (r : igmp_routerport) : bool := r.(rp_vlan_id) =? vid.

(** Position of the first entry from [from] on that passes the test. *)
Fixpoint find_from {A} (test : A → bool) (from : nat) (l : list A) : option nat :=
  match l with
  | [] => None
  | x :: l' =>
      match from with
      | O => if test x then Some O else S <$> find_from test O l'
      | S from' => S <$> find_from test from' l'
      end
  end.

(** [IGMP_PORT_QUERY]: the next entry of the VLAN after the cursor. *)
Definition query_router (vid : Z) (cursor : option nat) (l : list igmp_routerport) : option nat :=
  find_from (rp_same_vlan vid) (match cursor with None => O | Some i => S i end) l.

(** [igmp_snp_route_port_add]: the walk over the entries of the VLAN from the
    first of them, and the insertion behind the last of the run. *)
Fixpoint route_port_add (vid ifindex : Z) (l : list igmp_routerport) : list igmp_routerport * nat * Z :=
  match l with
  | [] => ([mkRouterPort vid ifindex 0 no_v6], O, IGMPSNP_RETURN_CODE_OK)
  | r :: l' =>
      if rp_same_vlan vid r then
        if r.(rp_ifindex) =? ifindex then (l, O, IGMPSNP_RETURN_CODE_ROUTE_PORT_EXIST)
        else let '(l', i, ret) := route_port_add vid ifindex l' in (r :: l', S i, ret)
      else (mkRouterPort vid ifindex 0 no_v6 :: l, O, IGMPSNP_RETURN_CODE_OK)
  end.

(** [IGMP_PORT_ADD]: the entry of the port. *)
Fixpoint add_router (vid ifindex : Z) (l : list igmp_routerport) : list igmp_routerport * nat * Z :=
  match l with
  | [] => ([mkRouterPort vid ifindex 0 no_v6], O, IGMPSNP_RETURN_CODE_OK)
  | r :: l' =>
      if rp_same_vlan vid r then route_port_add vid ifindex l
      else let '(l', i, ret) := add_router vid ifindex l' in (r :: l', S i, ret)
  end.

(** [IGMP_PORT_DEL]: within the first run of the VLAN. *)
Fixpoint del_router_run (vid ifindex : Z) (l : list igmp_routerport) : list igmp_routerport * Z :=
  match l with
  | [] => ([], IGMPSNP_RETURN_CODE_NOTROUTE_PORT)
  | r :: l' =>
      if rp_same_vlan vid r then
        if r.(rp_ifindex) =? ifindex then (l', IGMPSNP_RETURN_CODE_OK)
        else let '(l', ret) := del_router_run vid ifindex l' in (r :: l', ret)
      else (l, IGMPSNP_RETURN_CODE_NOTROUTE_PORT)
  end.
Fixpoint del_router (vid ifindex : Z) (l : list igmp_routerport) : list igmp_routerport * Z :=
  match l with
  | [] => ([], IGMPSNP_RETURN_CODE_ERROR)
  | r :: l' =>
      if rp_same_vlan vid r then del_router_run vid ifindex l
      else let '(l', ret) := del_router vid ifindex l' in (r :: l', ret)
  end.

(** The list, [*ppRouter] and the result. *)
Definition igmp_snp_searchrouterportlist (vid ifindex : Z) (enFlag : igmpportstate) (cursor : option nat)
    (l : list igmp_routerport) : list igmp_routerport * option nat * Z :=
  match enFlag with
  | IGMP_PORT_QUERY => (l, query_router vid cursor l, IGMPSNP_RETURN_CODE_OK)
  | IGMP_PORT_ADD => let '(l, i, ret) := add_router vid ifindex l in (l, Some i, ret)
  | IGMP_PORT_DEL => let '(l, ret) := del_router vid ifindex l in (l, cursor, ret)
  end.

(** ** Reporter ports *)

(** Deleting a member port; [None]: it was the only one, and its entry goes too. *)
Fixpoint remove_z (z : Z) (l : list Z) : list Z :=
  match l with [] => [] | x :: l' => if x =? z then l' else x :: remove_z z l' end.

Fixpoint reporter_update (vid : Z) (f : igmp_reporter_port → outcome (option igmp_reporter_port * Z))
    (l : list igmp_reporter_port) : outcome (option (list igmp_reporter_port * Z)) :=
  match l with
  | [] => Done None
  | r :: l' =>
      if r.(r_vlan_id) =? vid then
        let* '(r, ret) := f r in
        Done (Some (match r with Some r => r :: l' | None => l' end, ret))
      else
        let* o := reporter_update vid f l' in
        Done (match o with Some (l', ret) => Some (r :: l', ret) | None => None end)
  end.

Definition reporter_del (ifindex : Z) (r : igmp_reporter_port) : outcome (option igmp_reporter_port * Z) :=
  if existsb (Z.eqb ifindex) r.(portlist) then
    Done (match r.(portlist) with
          | [_] => None
          | l => Some (mkReporter r.(r_vlan_id) (remove_z ifindex l))
          end, IGMPSNP_RETURN_CODE_OK)
  else Done (Some r, IGMPSNP_RETURN_CODE_NULL_PTR).

(** A new port is stored behind the last one, which has to exist. *)
Definition reporter_add (ifindex : Z) (r : igmp_reporter_port) : outcome (option igmp_reporter_port * Z) :=
  if existsb (Z.eqb ifindex) r.(portlist) then Done (Some r, IGMPSNP_RETURN_CODE_ALREADY_SET)
  else
    match r.(portlist) with
    | [] => Segv
    | l => Done (Some (mkReporter r.(r_vlan_id) (l ++ [ifindex])), IGMPSNP_RETURN_CODE_OK)
    end.

(** The list, the member ports of [*ppReporter], and the result. *)
Definition igmp_snp_searchreporterlist (vid ifindex : Z) (enFlag : igmpportstate) (l : list igmp_reporter_port)
    : outcome (list igmp_reporter_port * option (list Z) * Z) :=
  match enFlag with
  | IGMP_PORT_QUERY =>
      Done (l, portlist <$> List.find (fun r => r.(r_vlan_id) =? vid) l, IGMPSNP_RETURN_CODE_OK)
  | IGMP_PORT_DEL =>
      let* o := reporter_update vid (reporter_del ifindex) l in
      Done (match o with
            | Some (l, ret) => (l, None, ret)
            | None => (l, None, IGMPSNP_RETURN_CODE_NO_SUCH_PORT)
            end)
  | IGMP_PORT_ADD =>
      let* o := reporter_update vid (reporter_add ifindex) l in
      Done (match o with
            | Some (l, ret) => (l, None, ret)
            | None => (mkReporter vid [ifindex] :: l, Some [ifindex], IGMPSNP_RETURN_CODE_OK)
            end)
  end.

Fixpoint del_reporter (vid : Z) (l : list igmp_reporter_port) : list igmp_reporter_port :=
  match l with [] => [] | r :: l' => if r.(r_vlan_id) =? vid then l' else r :: del_reporter vid l' end.
Definition Igmp_Snoop_Del_Reporter_ByVlan (vid : Z) (s : IGS) : IGS :=
  s <| p_reporterlist := del_reporter (u16 vid) s.(p_reporterlist) |>.

(** [true]: [IGMPSNP_RETURN_CODE_ERROR]. *)
Definition Igmp_Snoop_IF_Recv_Is_Report_Discard (vid ifindex : Z) (s : IGS) : outcome bool :=
  let* '(_, ports, ret) := igmp_snp_searchreporterlist vid 0 IGMP_PORT_QUERY s.(p_reporterlist) in
  if is_ok ret then Done (match ports with Some l => existsb (Z.eqb ifindex) l | None => false end)
  else Done true.

(** ** Member ports of a group

    [igmp_snp_searchportstatelist] on the list of a group: the list, the position
    of [*ppPortState] and the result. *)

Definition member_interval (s : IGS) : Z :=
  u32 (s.(igmp_robust_variable) * s.(igmp_query_interval) + s.(igmp_resp_interval)).

Fixpoint port_pos (ifindex : Z) (l : list MC_port_state) : option nat :=
  match l with
  | [] => None
  | p :: l' => if p.(ps_ifindex) =? ifindex then Some O else S <$> port_pos ifindex l'
  end.
Fixpoint del_port_state (ifindex : Z) (l : list MC_port_state) : list MC_port_state :=
  match l with
  | [] => []
  | p :: l' => if p.(ps_ifindex) =? ifindex then l' else p :: del_port_state ifindex l'
  end.

Definition igmp_snp_searchportstatelist (s : IGS) (l : list MC_port_state) (ifindex : Z) (enFlag : igmpportstate)
    : list MC_port_state * option nat * Z :=
  match port_pos ifindex l with
  | Some i =>
      match enFlag with
      | IGMP_PORT_DEL => (del_port_state ifindex l, None, IGMPSNP_RETURN_CODE_OK)
      | IGMP_PORT_ADD =>
          (alter (fun p => p <| membertimer_id := member_interval s |>) i l, Some i, IGMPSNP_RETURN_CODE_OK)
      | IGMP_PORT_QUERY => (l, Some i, IGMP_SNOOP_OK)
      end
  | None =>
      match enFlag with
      | IGMP_PORT_QUERY => (l, None, IGMPSNP_RETURN_CODE_OK)
      | IGMP_PORT_ADD => (mkPort ifindex 0 0 IGMP_SNP_GROUP_NOMEMBER :: l, Some O, IGMPSNP_RETURN_CODE_OK)
      | IGMP_PORT_DEL => (l, None, IGMPSNP_RETURN_CODE_NO_SUCH_PORT)
      end
  end.
