(* ===== verification/IgmpGroup.v ===== *)
(** * VLANs with groups ([igmp_snoop_main.c], [igmp_snoop_hw.c])

    Telling the switch, finding a group, creating and deleting groups and the
    VLANs that hold them.  The walks over the index links and over the groups take
    fuel: more turns than there are slots and nodes, so that they run out only
    on a walk that never ends. *)

From Stdlib Require Import ZArith Lia.
From stdpp Require Import base gmap list option.
From S2P Require Import Prelude DList IgmpL2mc IgmpSnp IgmpList.

Definition queue_turns : nat := Z.to_nat 4100.
#[global] Arguments queue_turns : simpl never.
Definition group_turns (s : IGS) : nat := S (size s.(groups)).

Section Groups.
Variable env : ENV.

(** ** The switch ([igmp_snoop_hw.c]) *)

(** [igmp_notify_msg] with [send_msg_npd]. *)
Definition igmp_notify_msg (pkt : PKT Z) (arg : Z) (s : IGS) : IGS * Z :=
  if (arg =? IGMP_ADDR_ADD) || (arg =? IGMP_ADDR_DEL) || (arg =? IGMP_ADDR_RMV) || (arg =? IGMP_SYS_SET) then
    let reserve := if arg =? IGMP_SYS_SET then pkt.(pkt_type) else pkt.(pkt_group_id) in
    if env.(npd_ok) then
      (igs_emit (NOTIFY_NPD arg pkt.(pkt_vlan_id) pkt.(pkt_ifindex) pkt.(groupadd) reserve) s, IGMPSNP_RETURN_CODE_OK)
    else (s, IGMPSNP_RETURN_CODE_ERROR)
  else (s, IGMPSNP_RETURN_CODE_ERROR).

Definition mld_notify_msg (pkt : PKT (list Z)) (arg : Z) (s : IGS) : IGS * Z :=
  if (arg =? IGMP_ADDR_ADD) || (arg =? IGMP_ADDR_DEL) || (arg =? IGMP_ADDR_RMV) || (arg =? IGMP_SYS_SET) then
    let reserve := if arg =? IGMP_SYS_SET then pkt.(pkt_type) else pkt.(pkt_group_id) in
    if env.(npd_ok) then
      (igs_emit (NOTIFY_NPD_V6 arg pkt.(pkt_vlan_id) pkt.(pkt_ifindex) pkt.(groupadd) reserve) s, IGMPSNP_RETURN_CODE_OK)
    else (s, IGMPSNP_RETURN_CODE_ERROR)
  else (s, IGMPSNP_RETURN_CODE_ERROR).

(** An operation of the multicast table on the state.  Its result is dropped: the
    caller returns that of the notification. *)
Definition in_l2mc (f : L2MC → outcome (L2MC * Z)) (s : IGS) : outcome IGS :=
  let* '(t, _) := f s.(p_l2mc) in Done (s <| p_l2mc := t |>).

Definition igmp_snp_mod_addr (pkt : PKT Z) (arg : Z) (s : IGS) : outcome (IGS * Z) :=
  if arg =? IGMP_ADDR_ADD then
    let* s := in_l2mc (fun t => L2mc_Entry_Insert env.(junk_entry) t pkt) s in Done (igmp_notify_msg pkt arg s)
  else if arg =? IGMP_ADDR_DEL then
    let* s := in_l2mc (fun t => L2mc_Entry_Node_Delete t pkt) s in Done (igmp_notify_msg pkt arg s)
  else if arg =? IGMP_ADDR_RMV then
    let* s := in_l2mc (fun t => L2mc_Entry_Group_Delete t pkt) s in Done (igmp_notify_msg pkt arg s)
  else if (arg =? IGMP_SYS_SET) && (pkt.(pkt_type) =? IGMP_SYS_SET_INIT) then Done (igmp_notify_msg pkt arg s)
  else if (arg =? IGMP_SYS_SET) && (pkt.(pkt_type) =? IGMP_SYS_SET_STOP) then
    let* s := in_l2mc L2mc_Entry_Group_Delete_All s in Done (igmp_notify_msg pkt arg s)
  else Done (s, IGMPSNP_RETURN_CODE_ERROR).

Definition mld_snp_mod_addr (pkt : PKT (list Z)) (arg : Z) (s : IGS) : outcome (IGS * Z) :=
  if arg =? IGMP_ADDR_ADD then
    let* s := in_l2mc (fun t => mld_L2mc_Entry_Insert env.(junk_entry) t pkt) s in Done (mld_notify_msg pkt arg s)
  else if arg =? IGMP_ADDR_DEL then
    let* s := in_l2mc (fun t => mld_L2mc_Entry_Node_Delete t pkt) s in Done (mld_notify_msg pkt arg s)
  else if arg =? IGMP_ADDR_RMV then
    let* s := in_l2mc (fun t => mld_L2mc_Entry_Group_Delete t pkt) s in Done (mld_notify_msg pkt arg s)
  else if (arg =? IGMP_SYS_SET) && (pkt.(pkt_type) =? IGMP_SYS_SET_INIT) then Done (mld_notify_msg pkt arg s)
  else if (arg =? IGMP_SYS_SET) && (pkt.(pkt_type) =? IGMP_SYS_SET_STOP) then
    let* s := in_l2mc mld_L2mc_Entry_Group_Delete_All s in Done (mld_notify_msg pkt arg s)
  else Done (s, IGMPSNP_RETURN_CODE_ERROR).

(** ** Deleting a group *)

(** Taking the group [p], which is [g], out of the list of the VLAN [idx]. *)
Definition group_unlink (idx : Z) (g : MC_group) (s : IGS) : outcome IGS :=
  match g.(g_next), g.(g_prev) with
  | Some n, Some q =>
      let* x := get_group s n in
      let s := put_group n (x <| g_prev := Some q |>) s in
      let* y := get_group s q in
      Done (put_group q (y <| g_next := Some n |>) s)
  | None, Some q => let* y := get_group s q in Done (put_group q (y <| g_next := None |>) s)
  | Some n, None =>
      let* v := get_vlan s idx in
      let s := put_vlan idx (v <| firstgroup := Some n |>) s in
      let* x := get_group s n in
      Done (put_group n (x <| g_prev := None |>) s)
  | None, None =>
      let* v := get_vlan s idx in
      Done (put_vlan idx (v <| firstgroup := None |> <| querytimer_id := 0 |>) s)
  end.

Definition free_group (p : positive) (s : IGS) : IGS := s <| groups := delete p s.(groups) |>.

(** The state and [*ppNextGroup]. *)
Definition igmp_snp_delgroup (idx : Z) (p : positive) (s : IGS) : outcome (IGS * option positive) :=
  let* g := get_group s p in
  let pkt := mkPkt IGMP_ADDR_RMV 0 g.(g_vid) g.(mgroup_id) 0 g.(MC_ipadd) 0 in
  let* '(s, _) := igmp_snp_mod_addr pkt IGMP_ADDR_RMV s in
  let* s := group_unlink idx g s in
  let s := free_group p s in
  Done (if 0 <? s.(igmp_groupcount) then s <| igmp_groupcount := s.(igmp_groupcount) - 1 |> else s, g.(g_next)).

Definition mld_snp_delgroup (idx : Z) (p : positive) (s : IGS) : outcome (IGS * option positive) :=
  let* g := get_group s p in
  let pkt := mkPkt IGMP_ADDR_RMV 0 g.(g_vid) g.(mgroup_id) no_v6 g.(MC_v6ipadd) 0 in
  let* '(s, _) := mld_snp_mod_addr pkt IGMP_ADDR_RMV s in
  let* s := group_unlink idx g s in
  let s := free_group p s in
  Done (if 0 <? s.(mld_groupcount) then s <| mld_groupcount := s.(mld_groupcount) - 1 |> else s, g.(g_next)).

(** A group without an IPv4 address belongs to MLD. *)
Definition delgroup (idx : Z) (p : positive) (s : IGS) : outcome (IGS * option positive) :=
  let* g := get_group s p in
  if 0 =? g.(MC_ipadd) then mld_snp_delgroup idx p s else igmp_snp_delgroup idx p s.

(** ** Deleting a VLAN *)

Fixpoint del_groups (fuel : nat) (del : positive → IGS → outcome (IGS * option positive))
    (p : option positive) (s : IGS) : outcome IGS :=
  match fuel with
  | O => OutOfFuel
  | S fuel' =>
      match p with
      | None => Done s
      | Some p => let* '(s, next) := del p s in del_groups fuel' del next s
      end
  end.

(** The node leaves the index list and its slot. *)
Definition vlan_unlink (idx : Z) (s : IGS) : outcome IGS :=
  let* v := get_vlan s idx in
  let clear s := s <| mcgroup_vlan_queue := delete idx s.(mcgroup_vlan_queue) |> in
  if (v.(v_next) =? -1) && (v.(v_prev) =? -1) then Done ((clear s) <| first_mcgroupvlan_idx := -1 |>)
  else
    let* s :=
      if negb (v.(v_next) =? -1) then
        let* n := deref (GET_VLAN_POINT_BY_INDEX s v.(v_next)) in
        let* x := get_vlan s n in Done (put_vlan n (x <| v_prev := v.(v_prev) |>) s)
      else Done s in
    let* s :=
      if negb (v.(v_prev) =? -1) then
        let* q := deref (GET_VLAN_POINT_BY_INDEX s v.(v_prev)) in
        let* x := get_vlan s q in Done (put_vlan q (x <| v_next := v.(v_next) |>) s)
      else Done (s <| first_mcgroupvlan_idx := v.(v_next) |>) in
    Done (clear s).

(** The groups, the router entries and the node itself. *)
Definition del_vlan_node (del : Z → positive → IGS → outcome (IGS * option positive)) (idx : Z) (s : IGS)
    : outcome IGS :=
  let* v := get_vlan s idx in
  let* s := del_groups (group_turns s) (del idx) v.(firstgroup) s in
  let* v := get_vlan s idx in
  let* _ := rwalk v.(routerlist) in
  let s := put_vlan idx (v <| routerlist := RNil |> <| querytimer_id := 0 |>) s in
  vlan_unlink idx s.

(** At the last node of the list the walk stays where it is. *)
Fixpoint del_vlan_loop (fuel : nat) (del : Z → positive → IGS → outcome (IGS * option positive)) (vid vlan_idx : Z)
    (p : option Z) (s : IGS) : outcome IGS :=
  match fuel with
  | O => OutOfFuel
  | S fuel' =>
      match p with
      | None => Done s
      | Some p =>
          let* v := get_vlan s p in
          if vid =? v.(vlan_id) then del_vlan_node del p s
          else
            let vlan_idx := if negb (v.(v_next) =? -1) then v.(v_next) else vlan_idx in
            del_vlan_loop fuel' del vid vlan_idx (GET_VLAN_POINT_BY_INDEX s vlan_idx) s
      end
  end.

Definition igmp_snp_del_mcgroupvlan_fuel (fuel : nat) (vid : Z) (s : IGS) : outcome IGS :=
  let vlan_idx := s.(first_mcgroupvlan_idx) in
  del_vlan_loop fuel delgroup vid vlan_idx (GET_VLAN_POINT_BY_INDEX s vlan_idx) s.
Definition igmp_snp_del_mcgroupvlan (vid : Z) (s : IGS) : outcome IGS :=
  igmp_snp_del_mcgroupvlan_fuel queue_turns vid s.
Definition mld_snp_del_mcgroupvlan (vid : Z) (s : IGS) : outcome IGS :=
  let vlan_idx := s.(first_mcgroupvlan_idx) in
  del_vlan_loop queue_turns mld_snp_delgroup vid vlan_idx (GET_VLAN_POINT_BY_INDEX s vlan_idx) s.

(** ** Finding a group *)

Definition igmp_snp_groupcheck (vid : Z) (s : IGS) : outcome (IGS * Z) :=
  if default 0 (snd (igmp_vlanisused s.(p_vlanlist) vid)) =? 0 then
    let* s := igmp_snp_del_mcgroupvlan vid s in Done (s, IGMPSNP_RETURN_CODE_VLAN_NOT_EXIST)
  else Done (s, IGMPSNP_RETURN_CODE_OK).

Fixpoint find_group (fuel : nat) (s : IGS) (ulGroup : Z) (p : option positive) : outcome (option positive) :=
  match fuel with
  | O => OutOfFuel
  | S fuel' =>
      match p with
      | None => Done None
      | Some p =>
          let* g := get_group s p in
          if negb (g.(MC_ipadd) =? ulGroup) then find_group fuel' s ulGroup g.(g_next) else Done (Some p)
      end
  end.

(** The VLAN, if it has groups. *)
Fixpoint find_vlan (fuel : nat) (s : IGS) (vid : Z) (p : option Z) : outcome (option Z) :=
  match fuel with
  | O => OutOfFuel
  | S fuel' =>
      match p with
      | None => Done None
      | Some p =>
          let* v := get_vlan s p in
          if negb (v.(vlan_id) =? vid) then find_vlan fuel' s vid (GET_VLAN_POINT_BY_INDEX s v.(v_next))
          else Done (Some p)
      end
  end.

Definition first_vlan (s : IGS) : option Z := GET_VLAN_POINT_BY_INDEX s s.(first_mcgroupvlan_idx).

(** The result, [*ppMcGroup] (NULL before the call) and [*ppPrevGroupVlan]. *)
Definition igmp_snp_searchvlangroup (vid ulGroup : Z) (s : IGS)
    : outcome (IGS * Z * option positive * option Z) :=
  let pCurrent := first_vlan s in
  let* '(s, ret) := igmp_snp_groupcheck vid s in
  if negb (is_ok ret) then Done (s, IGMPSNP_RETURN_CODE_VLAN_NOT_EXIST, None, pCurrent)
  else
    let* o := find_vlan queue_turns s vid pCurrent in
    match o with
    | None => Done (s, IGMPSNP_RETURN_CODE_OK, None, None)
    | Some p =>
        let* v := get_vlan s p in
        let* g := find_group (group_turns s) s ulGroup v.(firstgroup) in
        Done (s, IGMPSNP_RETURN_CODE_OK, g, Some p)
    end.

(** ** The identifier of a new group *)

(** [nEqualCnt[id] = id] for the groups of a VLAN: the identifiers in use. *)
Fixpoint group_ids (fuel : nat) (s : IGS) (p : option positive) (used : gset Z) : outcome (gset Z) :=
  match fuel with
  | O => OutOfFuel
  | S fuel' =>
      match p with
      | None => Done used
      | Some p =>
          let* g := get_group s p in
          if (0 <=? g.(mgroup_id)) && (g.(mgroup_id) <? IGMP_SNP_GRP_MAX) then
            group_ids fuel' s g.(g_next) ({[g.(mgroup_id)]} ∪ used)
          else Segv
      end
  end.
Fixpoint vlan_group_ids (fuel : nat) (s : IGS) (p : option Z) (used : gset Z) : outcome (gset Z) :=
  match fuel with
  | O => OutOfFuel
  | S fuel' =>
      match p with
      | None => Done used
      | Some p =>
          let* v := get_vlan s p in
          let* used := group_ids (group_turns s) s v.(firstgroup) used in
          vlan_group_ids fuel' s (GET_VLAN_POINT_BY_INDEX s v.(v_next)) used
      end
  end.

(** The least number from [i] on, of [n] numbers, that is not in use. *)
Fixpoint unused_id (used : gset Z) (i : Z) (n : nat) : option Z :=
  match n with
  | O => None
  | S n' => if decide (i ∈ used) then unused_id used (i + 1) n' else Some i
  end.

(** [*nonUsedGroupCnt], when the result is OK. *)
Definition igmp_searchvlangroup_by_groupcount (s : IGS) : outcome (option Z) :=
  let gpcount := if negb (s.(igmp_snoop_enable) =? 0) then s.(igmp_groupcount)
                 else if negb (s.(mld_snoop_enable) =? 0) then s.(mld_groupcount) else 0 in
  if IGMP_SNP_GRP_MAX <=? gpcount then Done None
  else
    let* used := vlan_group_ids queue_turns s (first_vlan s) ∅ in
    Done (Some (default gpcount (unused_id used 1 (Z.to_nat gpcount)))).

(** ** Creating a group *)

(** [memset(p, 0, n)] on a block of [m] bytes from [malloc]: the C library of the
    target rounds a block of [m] bytes, with its header of four, up to a multiple
    of eight, and the bytes up to there belong to it. *)
Definition memset_block (m n : Z) : outcome unit :=
  if n <=? (m + 4 + 7) / 8 * 8 - 4 then Done () else Segv.

Definition sizeof_igmp_router_entry : Z := 32.
Definition sizeof_igmp_routerport : Z := 36.

(** The router ports of the VLAN, from the cursor on, as router entries. *)
Fixpoint router_entries (fuel : nat) (vid : Z) (cursor : option nat) (l : list igmp_routerport)
    : outcome (list igmp_router_entry) :=
  match fuel with
  | O => OutOfFuel
  | S fuel' =>
      match query_router vid cursor l with
      | None => Done []
      | Some i =>
          let* r := deref (l !! i) in
          let* _ := memset_block sizeof_igmp_router_entry sizeof_igmp_routerport in
          let* rest := router_entries fuel' vid (Some i) l in
          Done (mkRouter r.(rp_ifindex) r.(routeport_saddr) no_v6 0 :: rest)
      end
  end.

(** The first free slot from [i] on, at most the size of the array. *)
Fixpoint free_slot (n : nat) (s : IGS) (i : Z) : Z :=
  match n with
  | O => i
  | S n' => match s.(mcgroup_vlan_queue) !! i with None => i | Some _ => free_slot n' s (i + 1) end
  end.
Definition first_free_slot (s : IGS) : Z := free_slot (Z.to_nat IGMP_GENERAL_GUERY_MAX) s 0.

(** The next slot from [i] on that is taken. *)
Fixpoint taken_slot (n : nat) (s : IGS) (i : Z) : option Z :=
  match n with
  | O => None
  | S n' =>
      match GET_VLAN_POINT_BY_INDEX s i with Some _ => Some i | None => taken_slot n' s (i + 1) end
  end.

(** The links of the new node in slot [tmp]. *)
Definition queue_link (tmp : Z) (s : IGS) : outcome IGS :=
  let* v := get_vlan s tmp in
  let s := put_vlan tmp (v <| v_next := -1 |>) s in
  let* s :=
    match GET_VLAN_POINT_BY_INDEX s (tmp - 1) with
    | Some q =>
        let* x := get_vlan s q in
        let s := put_vlan q (x <| v_next := tmp |>) s in
        let* v := get_vlan s tmp in Done (put_vlan tmp (v <| v_prev := tmp - 1 |>) s)
    | None => let* v := get_vlan s tmp in Done (put_vlan tmp (v <| v_prev := -1 |>) s)
    end in
  match taken_slot (Z.to_nat (IGMP_GENERAL_GUERY_MAX - (tmp + 1))) s (tmp + 1) with
  | Some n =>
      let* v := get_vlan s tmp in
      let s := put_vlan tmp (v <| v_next := n |>) s in
      let* x := get_vlan s n in Done (put_vlan n (x <| v_prev := tmp |>) s)
  | None => Done s
  end.

(** The node of the VLAN: the one that was found, or a new one.  Without a node
    that was found, the array is written behind its end when it is full.  When
    the node found is of another VLAN and the array is full, the new node gets no
    slot: it is kept at the index behind the array, which no index reaches. *)
Definition vlan_node (vid : Z) (node : MC_group_vlan) (prev : option Z) (s : IGS) : outcome (IGS * Z * bool) :=
  match prev with
  | Some q =>
      let* v := get_vlan s q in
      if v.(vlan_id) =? vid then Done (s, q, false)
      else
        let tmp := first_free_slot s in
        let* s := queue_link tmp (put_vlan tmp node s) in
        let* v := get_vlan s q in
        Done (put_vlan q (v <| v_next := tmp |>) s, tmp, true)
  | None =>
      let tmp := first_free_slot s in
      if IGMP_GENERAL_GUERY_MAX <=? tmp then Segv
      else
        let s := put_vlan tmp node s in
        let s := if tmp =? 0 then s <| first_mcgroupvlan_idx := 0 |> else s in
        let* s := queue_link tmp s in
        Done (s, tmp, true)
  end.

(** The new group [p] in front of the list of the VLAN. *)
Definition group_link_front (idx : Z) (v : MC_group_vlan) (p : positive) (g : MC_group) (s : IGS) : outcome IGS :=
  let s := put_group p (g <| g_next := v.(firstgroup) |>) s in
  let* s :=
    match v.(firstgroup) with
    | Some q => let* x := get_group s q in Done (put_group q (x <| g_prev := Some p |>) s)
    | None => Done s
    end in
  Done (put_vlan idx (v <| firstgroup := Some p |>) s).

(** What [igmp_creat_group_node] and [mld_creat_group_node] do with the new group and
    the router entries of a new node; they differ in the counter they increment.  The
    result: [*ppMcGroup] and [*ppPrevGroupVlan]. *)
Definition insert_group (vid : Z) (pGroup : MC_group) (routers : list igmp_router_entry) (count_up : IGS → IGS)
    (prev : option Z) (s : IGS) : outcome (IGS * option (positive * Z)) :=
  let p := fresh (dom s.(groups)) in
  let* '(s, idx, usIsCreate) := vlan_node vid (mkVlan 0 0 0 None 0 no_v6 0 0 0 (rlist routers)) prev s in
  let* v := get_vlan s idx in
  let* s := group_link_front idx v p pGroup s in
  let s := count_up s in
  let* id := igmp_searchvlangroup_by_groupcount s in
  let* g := get_group s p in
  let s := put_group p (g <| mgroup_id := default 0 id |>) s in
  let* v := get_vlan s idx in
  let v := if (usIsCreate : bool) then v <| vlan_id := vid |> <| querytimeinterval := s.(igmp_query_interval) |>
                                         <| mcgvlanlife := s.(igmp_vlanlife) |> else v in
  let v := if v.(querytimer_id) =? 0 then v <| querytimer_id := s.(igmp_query_interval) |> else v in
  Done (put_vlan idx v s, Some (p, idx)).

(** [None]: there are too many groups. *)
Definition igmp_creat_group_node (vid ulGroup usIfIndex : Z) (prev : option Z) (s : IGS)
    : outcome (IGS * option (positive * Z)) :=
  if igmp_getmaxgroupcnt usIfIndex <? s.(igmp_groupcount) then Done (s, None)
  else
    let pGroup := mkGroup None None ulGroup no_v6 0 no_v6 vid 0 s.(igmp_grouplife) s.(igmp_grouplife)
                    0 0 [] 0 0 in
    let* routers := router_entries (S (length s.(p_routerlist))) vid None s.(p_routerlist) in
    insert_group vid pGroup routers (fun s => s <| igmp_groupcount := u32 (s.(igmp_groupcount) + 1) |>) prev s.

(** ** Requests of the management interface *)

Definition igmp_del_spec_mcgroup_dbus (vid groupaddr : Z) (s : IGS) : outcome (IGS * option Z) :=
  if s.(igmp_snoop_enable) =? 0 then Done (s, Some IGMPSNP_RETURN_CODE_NOT_ENABLE_GBL)
  else if groupaddr =? 0 then let* s := igmp_snp_del_mcgroupvlan vid s in Done (s, None)
  else
    let* '(s, ret, g, v) := igmp_snp_searchvlangroup vid groupaddr s in
    if negb (is_ok ret) then Done (s, Some IGMPSNP_RETURN_CODE_GROUP_NOTEXIST)
    else
      match v, g with
      | None, _ => Done (s, Some IGMPSNP_RETURN_CODE_VLAN_NOT_EXIST)
      | Some _, None => Done (s, Some IGMPSNP_RETURN_CODE_GROUP_NOTEXIST)
      | Some idx, Some p =>
          let* '(s, _) := igmp_snp_delgroup idx p s in
          let* v := get_vlan s idx in
          let* s := match v.(firstgroup) with
                    | None => igmp_snp_del_mcgroupvlan v.(vlan_id) s
                    | Some _ => Done s
                    end in
          Done (s, Some IGMPSNP_RETURN_CODE_OK)
      end.

Fixpoint del_all_loop (fuel : nat) (p : option Z) (s : IGS) : outcome IGS :=
  match fuel with
  | O => OutOfFuel
  | S fuel' =>
      match p with
      | None => Done s
      | Some p =>
          let* v := get_vlan s p in
          let* s := igmp_snp_del_mcgroupvlan v.(vlan_id) s in
          del_all_loop fuel' (GET_VLAN_POINT_BY_INDEX s v.(v_next)) s
      end
  end.
Definition igmp_del_all_mcgvlan_dbus (s : IGS) : outcome (IGS * Z) :=
  if s.(igmp_snoop_enable) =? 0 then Done (s, IGMPSNP_RETURN_CODE_NOT_ENABLE_GBL)
  else
    let* s := del_all_loop queue_turns (first_vlan s) s in
    Done (s <| first_mcgroupvlan_idx := -1 |>, IGMPSNP_RETURN_CODE_OK).
End Groups.
