(* ===== verification/IgmpGroupProps.v ===== *)
(** * The VLANs with groups: the invariant and the walks

    [core_ok s]: the slots of the array that are taken are linked in increasing
    order, every VLAN has its groups, and no other, in its list, and no two of
    them have the same address.  [group_table s] is what the structure stands for:
    a finite map from VLAN and address to the group, without its links. *)

From Stdlib Require Import ZArith Lia.
From Stdlib Require Import Sorting.Sorted.
From stdpp Require Import base gmap list option fin_maps.
From S2P Require Import Prelude DList IgmpL2mc IgmpSnp IgmpList IgmpGroup.

Implicit Types (s : IGS) (v : MC_group_vlan) (g : MC_group) (p : positive).

(** ** The invariant *)

Record queue_ok s (order : list Z) : Prop := {
  q_sorted : StronglySorted Z.lt order;
  q_range : ∀ i, i ∈ order → 0 ≤ i < IGMP_GENERAL_GUERY_MAX;
  q_dom : ∀ i, is_Some (s.(mcgroup_vlan_queue) !! i) → i ∈ order;
  q_links : dseg v_dlink s.(mcgroup_vlan_queue) None order None;
  q_first : s.(first_mcgroupvlan_idx) = default (-1) (hed order None) }.

(** The list of groups of a VLAN. *)
Record vlan_groups s v (ps : list positive) : Prop := {
  vg_nodup : NoDup ps;
  vg_links : dseg g_dlink s.(groups) None ps None;
  vg_first : v.(firstgroup) = hed ps None;
  vg_all : ∀ p g, s.(groups) !! p = Some g → p ∈ ps ↔ g.(g_vid) = v.(vlan_id) }.

Record core_ok s : Prop := {
  co_queue : ∃ order, queue_ok s order;
  co_vids : ∀ i j v w, s.(mcgroup_vlan_queue) !! i = Some v → s.(mcgroup_vlan_queue) !! j = Some w →
              v.(vlan_id) = w.(vlan_id) → i = j;
  co_groups : ∀ i v, s.(mcgroup_vlan_queue) !! i = Some v → ∃ ps, vlan_groups s v ps;
  co_owned : ∀ p g, s.(groups) !! p = Some g → ∃ i v, s.(mcgroup_vlan_queue) !! i = Some v ∧ v.(vlan_id) = g.(g_vid);
  co_addr : ∀ p q g h, s.(groups) !! p = Some g → s.(groups) !! q = Some h →
              g.(g_vid) = h.(g_vid) → g.(MC_ipadd) = h.(MC_ipadd) → p = q;
  co_routers : ∀ i v, s.(mcgroup_vlan_queue) !! i = Some v → ∃ l, v.(routerlist) = rlist l }.

(** Everything the invariant reads. *)
Definition same_core s s' : Prop :=
  s'.(mcgroup_vlan_queue) = s.(mcgroup_vlan_queue) ∧ s'.(first_mcgroupvlan_idx) = s.(first_mcgroupvlan_idx)
  ∧ s'.(groups) = s.(groups).

Lemma same_core_refl s : same_core s s.
Proof. done. Qed.
Lemma same_core_trans s1 s2 s3 : same_core s1 s2 → same_core s2 s3 → same_core s1 s3.
Proof. intros (?&?&?) (?&?&?). split_and!; congruence. Qed.
#[export] Hint Resolve same_core_refl : stp.

Lemma core_ok_same s s' : same_core s s' → core_ok s → core_ok s'.
Proof.
  intros (Eq & Ef & Eg) [[order [H1 H2 H3 H4 H5]] Hv Hg Ho Ha Hr]. split.
  - exists order. split; rewrite ?Eq, ?Ef; done.
  - by rewrite Eq.
  - intros i v. rewrite Eq. intros Ei. destruct (Hg i v Ei) as (ps & [A B C E]).
    exists ps. split; rewrite ?Eg; done.
  - rewrite Eg, Eq. done.
  - by rewrite Eg.
  - by rewrite Eq.
Qed.

(** ** The map of the groups *)

Definition g_erase g : MC_group := g <| g_next := None |> <| g_prev := None |>.
Definition g_key g : Z * Z := (g.(g_vid), g.(MC_ipadd)).

Definition group_table s : gmap (Z * Z) MC_group :=
  list_to_map ((fun pg => (g_key pg.2, g_erase pg.2)) <$> map_to_list s.(groups)).

Lemma group_table_lookup s k x :
  core_ok s → group_table s !! k = Some x ↔ ∃ p g, s.(groups) !! p = Some g ∧ g_key g = k ∧ g_erase g = x.
Proof.
  intros H. unfold group_table. rewrite <- elem_of_list_to_map.
  - rewrite list_elem_of_fmap. split.
    + intros ([p g] & E & Hp%elem_of_map_to_list). injection E as -> ->. by exists p, g.
    + intros (p & g & E & <- & <-). exists (p, g). split; [done|]. by apply elem_of_map_to_list.
  - rewrite <- list_fmap_compose. apply NoDup_fmap_2_strong; [|apply NoDup_map_to_list].
    intros [p g] [q h] Hp%elem_of_map_to_list Hq%elem_of_map_to_list E. simpl in E.
    injection E as Ev Ea. assert (p = q) as <- by (eapply (co_addr s H); eauto). simplify_eq. done.
Qed.

(** ** Walks over the slots *)

Section Walks.
Variables (s : IGS) (order : list Z).
Hypothesis Hq : queue_ok s order.

Lemma q_nodup : NoDup order.
Proof.
  destruct Hq as [Hs _ _ _ _]. clear -Hs. induction Hs as [|i l Hs IH Hi]; constructor; [|done].
  intros Hin. rewrite Forall_forall in Hi. specialize (Hi i Hin). lia.
Qed.

Lemma q_elem i : i ∈ order → is_Some (s.(mcgroup_vlan_queue) !! i).
Proof. intros Hi. eapply dseg_elem; [apply Hq|done]. Qed.

Lemma get_index i : i ∈ order → GET_VLAN_POINT_BY_INDEX s i = Some i.
Proof.
  intros Hi. unfold GET_VLAN_POINT_BY_INDEX. destruct (q_range _ _ Hq i Hi) as [H1 H2].
  rewrite (proj2 (Z.leb_le _ _) H1), (proj2 (Z.ltb_lt _ _) H2). destruct (q_elem i Hi) as [v ->]. done.
Qed.

Lemma get_none i : i ∉ order → GET_VLAN_POINT_BY_INDEX s i = None.
Proof.
  intros Hi. unfold GET_VLAN_POINT_BY_INDEX. destruct (_ && _); [|done].
  destruct (s.(mcgroup_vlan_queue) !! i) eqn:E; [|done]. destruct Hi. apply (q_dom _ _ Hq). by eexists.
Qed.

(** The link of a node leads to the next slot of the order. *)
Lemma get_link b : (∀ i, i ∈ b → i ∈ order) → GET_VLAN_POINT_BY_INDEX s (default (-1) (hed b None)) = hed b None.
Proof.
  intros Hb. destruct b as [|i b]; simpl; [done|]. apply get_index, Hb. left.
Qed.

Lemma first_vlan_hed : first_vlan s = hed order None.
Proof. unfold first_vlan. rewrite (q_first _ _ Hq). by apply get_link. Qed.

Lemma order_vlan a i b : order = a ++ i :: b →
  ∃ v, s.(mcgroup_vlan_queue) !! i = Some v ∧ v.(v_prev) = default (-1) (lst None a) ∧ v.(v_next) = default (-1) (hed b None).
Proof. intros E. assert (Hd := q_links _ _ Hq). rewrite E in Hd. by apply dseg_mid in Hd. Qed.

(** There are fewer slots than turns. *)
Lemma order_length : (length order < queue_turns)%nat.
Proof.
  assert (Hsub : order ⊆+ seqZ 0 IGMP_GENERAL_GUERY_MAX).
  { apply NoDup_submseteq; [apply q_nodup|]. intros i Hi. apply elem_of_seqZ.
    destruct (q_range _ _ Hq i Hi). lia. }
  apply submseteq_length in Hsub. rewrite length_seqZ in Hsub.
  unfold queue_turns, IGMP_GENERAL_GUERY_MAX in *. lia.
Qed.

Lemma wp_find_vlan vid fuel a b (Q : option Z → Prop) :
  order = a ++ b → (length b < fuel)%nat →
  (∀ i v, i ∈ b → s.(mcgroup_vlan_queue) !! i = Some v → v.(vlan_id) = vid → Q (Some i)) →
  ((∀ i v, i ∈ b → s.(mcgroup_vlan_queue) !! i = Some v → v.(vlan_id) ≠ vid) → Q None) →
  wp (find_vlan fuel s vid (hed b None)) Q.
Proof.
  revert a fuel. induction b as [|i b IH]; intros a [|fuel] E Hl Hf Hn; simpl in Hl; try lia.
  - simpl. apply Hn. by intros i v ?%not_elem_of_nil.
  - simpl. destruct (order_vlan a i b E) as (v & Ev & _ & En). unfold get_vlan. rewrite Ev; simpl.
    destruct (Z.eqb_spec (vlan_id v) vid) as [Eq|Ne]; simpl.
    + apply (Hf i v); [left|done|done].
    + rewrite En, get_link.
      2:{ intros j Hj. rewrite E. apply elem_of_app. right; by right. }
      apply (IH (a ++ [i])); [by rewrite <- app_assoc|lia|..].
      * intros j w Hj. apply Hf. by right.
      * intros Hb. apply Hn. intros j w [->|Hj]%elem_of_cons Ew; [congruence|by eapply Hb].
Qed.
End Walks.

Lemma core_find_vlan s vid (Q : option Z → Prop) :
  core_ok s →
  (∀ i v, s.(mcgroup_vlan_queue) !! i = Some v → v.(vlan_id) = vid → Q (Some i)) →
  ((∀ i v, s.(mcgroup_vlan_queue) !! i = Some v → v.(vlan_id) ≠ vid) → Q None) →
  wp (find_vlan queue_turns s vid (first_vlan s)) Q.
Proof.
  intros [[order Hq] _ _ _ _ _] Hf Hn. rewrite (first_vlan_hed s order Hq).
  eapply (wp_find_vlan s order Hq vid _ []); [done|by eapply order_length| |].
  - intros i v _. apply Hf.
  - intros H. apply Hn. intros i v Ei. apply (H i v); [|done]. apply (q_dom _ _ Hq). by eexists.
Qed.

(** ** Walks over the groups of a VLAN *)

Lemma groups_length s v ps : vlan_groups s v ps → (length ps < group_turns s)%nat.
Proof.
  intros [Hn Hd _ _]. unfold group_turns.
  enough (length ps ≤ size s.(groups))%nat by lia.
  rewrite <- size_dom, <- (size_list_to_set (C := gset positive) ps) by done.
  apply subseteq_size. intros p Hp%elem_of_list_to_set. apply elem_of_dom. by eapply dseg_elem.
Qed.

Lemma wp_find_group s ulGroup fuel pv ps (Q : option positive → Prop) :
  dseg g_dlink s.(groups) pv ps None → (length ps < fuel)%nat →
  (∀ p g, p ∈ ps → s.(groups) !! p = Some g → g.(MC_ipadd) = ulGroup → Q (Some p)) →
  ((∀ p g, p ∈ ps → s.(groups) !! p = Some g → g.(MC_ipadd) ≠ ulGroup) → Q None) →
  wp (find_group fuel s ulGroup (hed ps None)) Q.
Proof.
  revert pv fuel. induction ps as [|p ps IH]; intros pv [|fuel] Hd Hl Hf Hn; simpl in Hl; try lia.
  - simpl. apply Hn. by intros p g ?%not_elem_of_nil.
  - destruct Hd as [(g & Eg & _ & En) Hd]. simpl in En |- *. unfold get_group. rewrite Eg; simpl.
    destruct (Z.eqb_spec (MC_ipadd g) ulGroup) as [Ea|Na]; simpl.
    + apply (Hf p g); [left|done|done].
    + rewrite En. apply (IH (Some p)); [done|lia|..].
      * intros q h Hq. apply Hf. by right.
      * intros Hb. apply Hn. intros q h [->|Hq]%elem_of_cons Eh; [congruence|by eapply Hb].
Qed.

(** What the search reports about a VLAN that is in use. *)
Definition searched s (vid ulGroup : Z) (g : option positive) (v : option Z) : Prop :=
  match v with
  | None => g = None ∧ ∀ i w, s.(mcgroup_vlan_queue) !! i = Some w → w.(vlan_id) ≠ vid
  | Some i => ∃ w, s.(mcgroup_vlan_queue) !! i = Some w ∧ w.(vlan_id) = vid ∧
      match g with
      | Some p => ∃ x, s.(groups) !! p = Some x ∧ g_key x = (vid, ulGroup)
      | None => ∀ p x, s.(groups) !! p = Some x → g_key x ≠ (vid, ulGroup)
      end
  end.

Definition vlan_used s (vid : Z) : Prop := existsb (same_vlan vid) s.(p_vlanlist) = true.

Lemma vlanisused_yes s vid : vlan_used s vid → default 0 (snd (igmp_vlanisused s.(p_vlanlist) vid)) = 1.
Proof.
  unfold vlan_used, igmp_vlanisused. destruct (p_vlanlist s) as [|v l] eqn:E; [done|]. by intros ->.
Qed.

Section Search.
Variable env : ENV.

Lemma wp_groupcheck s vid (Q : IGS * Z → Prop) :
  vlan_used s vid → Q (s, IGMPSNP_RETURN_CODE_OK) → wp (igmp_snp_groupcheck env vid s) Q.
Proof. intros Hu HQ. unfold igmp_snp_groupcheck. by rewrite vlanisused_yes. Qed.

Lemma wp_searchvlangroup s vid ulGroup (Q : IGS * Z * option positive * option Z → Prop) :
  core_ok s → vlan_used s vid →
  (∀ og ov, searched s vid ulGroup og ov → Q (s, IGMPSNP_RETURN_CODE_OK, og, ov)) →
  wp (igmp_snp_searchvlangroup env vid ulGroup s) Q.
Proof.
  intros Hc Hu HQ. unfold igmp_snp_searchvlangroup. apply wp_bind, wp_groupcheck; [done|]. cbn [is_ok negb].
  apply wp_bind. apply (core_find_vlan s vid _ Hc).
  - intros i v Ei Ev. unfold get_vlan. rewrite Ei; cbn [deref obind].
    destruct (co_groups s Hc i v Ei) as (ps & Hg). rewrite (vg_first _ _ _ Hg). apply wp_bind.
    apply (wp_find_group s ulGroup _ None ps); [apply Hg|by eapply groups_length|..].
    + intros p g Hp Eg Ea. apply HQ. exists v. split_and!; [done..|]. exists g. split; [done|].
      unfold g_key. by rewrite Ea, (proj1 (vg_all _ _ _ Hg p g Eg) Hp), Ev.
    + intros Hn. apply HQ. exists v. split_and!; [done..|]. intros p g Eg [= Egv Ega].
      apply (Hn p g); [|done|done]. apply (vg_all _ _ _ Hg p g Eg). congruence.
  - intros Hn. by apply HQ.
Qed.
End Search.

(** ** Changing the data of a group *)

(** The same place in the lists, the same VLAN and address. *)
Definition same_place g g' : Prop :=
  g'.(g_next) = g.(g_next) ∧ g'.(g_prev) = g.(g_prev) ∧ g_key g' = g_key g.

Lemma vlan_groups_frame s s' v ps :
  (∀ p, option_Forall2 same_place (s.(groups) !! p) (s'.(groups) !! p)) →
  vlan_groups s v ps → vlan_groups s' v ps.
Proof.
  intros Hg [H1 H2 H3 H4]. split; [done| |done|].
  - eapply dseg_frame; [|exact H2]. intros p g Hp Eg. specialize (Hg p). rewrite Eg in Hg.
    inversion Hg as [? g' (En & Ep & _) E1 E2|]; subst. exists g'. simpl. by rewrite En, Ep.
  - intros p g' Eg'. specialize (Hg p). rewrite Eg' in Hg. inversion Hg as [g ? (_ & _ & Ek) E1 E2|]; subst.
    injection Ek as Ev _. rewrite Ev. apply H4. done.
Qed.

Lemma core_update_group s p g g' :
  core_ok s → s.(groups) !! p = Some g → same_place g g' → core_ok (put_group p g' s).
Proof.
  intros [[order Hq] Hv Hg Ho Ha Hr] Eg Hs.
  assert (Hall : ∀ q, option_Forall2 same_place (s.(groups) !! q) ((put_group p g' s).(groups) !! q)).
  { intros q. simpl. destruct (decide (q = p)) as [->|Hne].
    - rewrite lookup_insert_eq, Eg. by constructor.
    - rewrite lookup_insert_ne by done. destruct (groups s !! q); by constructor. }
  assert (Hback : ∀ q h, (put_group p g' s).(groups) !! q = Some h → ∃ h0, s.(groups) !! q = Some h0 ∧ g_key h = g_key h0).
  { intros q h E. specialize (Hall q). rewrite E in Hall. inversion Hall as [h0 ? (_ & _ & Ek) E1 E2|]; subst. by exists h0. }
  split; simpl.
  - exists order. by destruct Hq.
  - done.
  - intros i v Ei. destruct (Hg i v Ei) as (ps & Hp). exists ps. by apply (vlan_groups_frame s).
  - intros q h Eh. destruct (Hback q h Eh) as (h0 & Eh0 & [= -> _]). by eapply Ho.
  - intros q r h k Eh Ek. destruct (Hback q h Eh) as (h0 & Eh0 & [= -> ->]). destruct (Hback r k Ek) as (k0 & Ek0 & [= -> ->]).
    by eapply Ha.
  - done.
Qed.

Lemma table_ext s m :
  core_ok s → (∀ k x, m !! k = Some x ↔ ∃ p g, s.(groups) !! p = Some g ∧ g_key g = k ∧ g_erase g = x) →
  group_table s = m.
Proof. intros Hc Hm. apply map_eq. intros k. apply option_eq. intros x. rewrite group_table_lookup by done. by rewrite Hm. Qed.

Lemma table_update_group s p g g' :
  core_ok s → s.(groups) !! p = Some g → same_place g g' →
  group_table (put_group p g' s) = <[g_key g := g_erase g']> (group_table s).
Proof.
  intros Hc Eg Hs. assert (Hc' := core_update_group s p g g' Hc Eg Hs). apply table_ext; [done|]. intros k x.
  destruct Hs as (_ & _ & Ek). destruct (decide (k = g_key g)) as [->|Hne].
  - rewrite lookup_insert_eq. split.
    + intros [= <-]. exists p, g'. simpl. by rewrite lookup_insert_eq.
    + intros (q & h & Eh & Ekh & <-). simpl in Eh. destruct (decide (q = p)) as [->|Hqp].
      * rewrite lookup_insert_eq in Eh. congruence.
      * rewrite lookup_insert_ne in Eh by done. injection Ekh as E1 E2.
        destruct Hqp. by apply (co_addr s Hc q p h g).
  - rewrite lookup_insert_ne by done. rewrite group_table_lookup by done. split.
    + intros (q & h & Eh & <- & <-). exists q, h. simpl. rewrite lookup_insert_ne; [done|]. intros ->. congruence.
    + intros (q & h & Eh & <- & <-). simpl in Eh. destruct (decide (q = p)) as [->|Hqp].
      * rewrite lookup_insert_eq in Eh. congruence.
      * rewrite lookup_insert_ne in Eh by done. eauto.
Qed.

(** ** Changing the data of a VLAN *)

Definition same_slot v v' : Prop :=
  v'.(v_next) = v.(v_next) ∧ v'.(v_prev) = v.(v_prev) ∧ v'.(vlan_id) = v.(vlan_id) ∧ v'.(firstgroup) = v.(firstgroup).

Lemma queue_ok_put s order i v v' :
  queue_ok s order → s.(mcgroup_vlan_queue) !! i = Some v → v'.(v_next) = v.(v_next) → v'.(v_prev) = v.(v_prev) →
  queue_ok (put_vlan i v' s) order.
Proof.
  intros [H1 H2 H3 H4 H5] Ei En Ep. split; simpl; try done.
  - intros j Hj. apply H3. destruct (decide (j = i)) as [->|Hne]; [by eexists|]. by rewrite lookup_insert_ne in Hj.
  - eapply dseg_frame; [|exact H4]. intros j w Hj Ej. destruct (decide (j = i)) as [->|Hne].
    + simplify_eq. exists v'. by rewrite lookup_insert_eq.
    + exists w. by rewrite lookup_insert_ne.
Qed.

Lemma core_update_vlan s i v v' :
  core_ok s → s.(mcgroup_vlan_queue) !! i = Some v → same_slot v v' → (∃ l, v'.(routerlist) = rlist l) →
  core_ok (put_vlan i v' s).
Proof.
  intros [[order Hq] Hv Hg Ho Ha Hr] Ei (En & Ep & Evid & Ef) Hl.
  assert (Hback : ∀ j w, (put_vlan i v' s).(mcgroup_vlan_queue) !! j = Some w →
            ∃ w0, s.(mcgroup_vlan_queue) !! j = Some w0 ∧ w.(vlan_id) = w0.(vlan_id) ∧ w.(firstgroup) = w0.(firstgroup)
                  ∧ ((∃ l, w0.(routerlist) = rlist l) → ∃ l, w.(routerlist) = rlist l)).
  { intros j w E. simpl in E. destruct (decide (j = i)) as [->|Hne].
    - rewrite lookup_insert_eq in E. simplify_eq. exists v. done.
    - rewrite lookup_insert_ne in E by done. by exists w. }
  split.
  - exists order. by apply (queue_ok_put s order i v).
  - intros j k w x Ej Ek. destruct (Hback j w Ej) as (w0 & ? & -> & _). destruct (Hback k x Ek) as (x0 & ? & -> & _).
    by eapply Hv.
  - intros j w Ej. destruct (Hback j w Ej) as (w0 & Ew0 & E1 & E2 & _). destruct (Hg j w0 Ew0) as (ps & [G1 G2 G3 G4]).
    exists ps. split; [done|done|congruence|]. intros p g Eg. rewrite E1. by apply G4.
  - intros p g Eg. destruct (Ho p g Eg) as (j & w & Ej & Ew). destruct (decide (j = i)) as [->|Hne].
    + exists i, v'. simpl. rewrite lookup_insert_eq. split; [done|]. congruence.
    + exists j, w. simpl. by rewrite lookup_insert_ne.
  - done.
  - intros j w Ej. destruct (Hback j w Ej) as (w0 & Ew0 & _ & _ & H). apply H. by eapply Hr.
Qed.

Lemma table_put_vlan s i v : group_table (put_vlan i v s) = group_table s.
Proof. done. Qed.

(** What is left alone by the operations on VLANs with groups. *)
Definition rest s : IGS :=
  s <| p_l2mc := empty_l2mc |> <| mcgroup_vlan_queue := ∅ |> <| first_mcgroupvlan_idx := 0 |> <| groups := ∅ |>
    <| igmp_groupcount := 0 |> <| mld_groupcount := 0 |> <| trace := [] |>.
