(* ===== verification/IgmpInv.v ===== *)
(** * Deleting groups and VLANs, and the invariant of the daemon

    Every operation keeps [core_ok], and does to [group_table] what its name says. *)

From Stdlib Require Import ZArith Lia Sorting.Sorted.
From stdpp Require Import base gmap list option fin_maps.
From S2P Require Import Prelude DList IgmpL2mc IgmpL2mcProps IgmpSnp IgmpList IgmpGroup IgmpGroupProps.

Implicit Types (s : IGS) (v : MC_group_vlan) (g : MC_group) (p : positive).

(** ** The list of a VLAN without the group between [a] and [b] *)

Definition unlinked_vlan v (a b : list positive) : MC_group_vlan :=
  match a, b with
  | [], [] => v <| firstgroup := None |> <| querytimer_id := 0 |>
  | [], q :: _ => v <| firstgroup := Some q |>
  | _, _ => v
  end.

Definition with_lists s (gs : gmap positive MC_group) (q : gmap Z MC_group_vlan) : IGS :=
  s <| groups := gs |> <| mcgroup_vlan_queue := q |>.

Lemma wp_group_unlink s idx v p g a b (Q : IGS → Prop) :
  s.(mcgroup_vlan_queue) !! idx = Some v → s.(groups) !! p = Some g →
  NoDup (a ++ p :: b) → dseg g_dlink s.(groups) None (a ++ p :: b) None →
  Q (with_lists s (unlink_between g_dlink s.(groups) (lst None a) (hed b None))
       (<[idx := unlinked_vlan v a b]> s.(mcgroup_vlan_queue))) →
  wp (group_unlink idx g s) Q.
Proof.
  intros Ev Eg Hn Hd HQ. destruct (dseg_mid _ _ _ _ _ _ _ Hd) as (g' & Eg' & Hp & Hx).
  assert (g' = g) as -> by congruence. simpl in Hp, Hx.
  assert (Hb : ∀ q, hed b None = Some q → ∃ y, s.(groups) !! q = Some y).
  { intros q Hq%hed_elem. eapply dseg_elem; [exact Hd|]. apply elem_of_app; right; by right. }
  assert (Ha : ∀ q, lst None a = Some q → ∃ y, s.(groups) !! q = Some y).
  { intros q Hq%lst_elem_None. eapply dseg_elem; [exact Hd|]. apply elem_of_app; by left. }
  unfold group_unlink, get_group, get_vlan. rewrite Hp, Hx.
  unfold unlink_between, set_prv_of, set_nxt_of in HQ. simpl in HQ.
  destruct (lst None a) as [q|] eqn:Ea.
  - destruct (Ha q eq_refl) as [y Ey].
    assert (Eu : <[idx := unlinked_vlan v a b]> (mcgroup_vlan_queue s) = mcgroup_vlan_queue s).
    { destruct a; [done|]. by apply insert_id. }
    rewrite Eu in HQ. destruct (hed b None) as [r|] eqn:Eb.
    + assert (Hqr : q ≠ r).
      { intros ->. apply lst_elem_None in Ea. apply hed_elem in Eb. apply list.NoDup_app in Hn as (_ & Hn & _).
        apply (Hn r Ea). by right. }
      destruct (Hb r eq_refl) as [z Ez]. rewrite Ez; simpl. rewrite lookup_insert_ne, Ey by done. simpl.
      rewrite (alter_Some _ _ _ _ Ey) in HQ.
      rewrite (alter_Some _ (<[q := _]> _) r z) in HQ by (by rewrite lookup_insert_ne).
      rewrite insert_insert_ne in HQ by done. destruct s; exact HQ.
    + rewrite Ey; simpl. rewrite (alter_Some _ _ _ _ Ey) in HQ. destruct s; exact HQ.
  - apply lst_None in Ea as ->. destruct b as [|r b]; cbn [hed] in *.
    + rewrite Ev; simpl. destruct s; exact HQ.
    + destruct (Hb r eq_refl) as [z Ez]. rewrite Ev; simpl. rewrite Ez; simpl.
      rewrite (alter_Some _ _ _ _ Ez) in HQ. destruct s; exact HQ.
Qed.

(** Unlinking changes nothing but links. *)
Lemma unlink_same h pv nx (p : positive) (x : MC_group) :
  h !! p = Some x → ∃ x', unlink_between g_dlink h pv nx !! p = Some x' ∧ g_key x' = g_key x ∧ g_erase x' = g_erase x.
Proof.
  intros E.
  destruct (fmap_eq_Some (fun y => (g_key y, g_erase y)) (h !! p) (unlink_between g_dlink h pv nx !! p) x) as (x' & Ex' & Ee);
    [apply unlink_between_data; by intros l []|done|].
  exists x'. split; [done|]. split; [exact (f_equal fst Ee)|exact (f_equal snd Ee)].
Qed.

(** The groups that are left once [p] is gone. *)
Lemma unlink_left h a b p q (x : MC_group) :
  q ≠ p → delete p (unlink_between g_dlink h (lst None a) (hed b None)) !! q = Some x →
  ∃ x0, h !! q = Some x0 ∧ g_key x = g_key x0 ∧ g_erase x = g_erase x0.
Proof.
  intros Hq E. rewrite lookup_delete_ne in E by done.
  assert (Hd : q ∈ dom h) by (rewrite <- (unlink_between_dom g_dlink h (lst None a) (hed b None)); by apply elem_of_dom; eexists).
  apply elem_of_dom in Hd as [x0 E0]. destruct (unlink_same h (lst None a) (hed b None) q x0 E0) as (x' & Ex' & ? & ?).
  exists x0. assert (x = x') as -> by congruence. done.
Qed.

(** Without the group [p]. *)
Definition without_group s idx v p (a b : list positive) : IGS :=
  with_lists s (delete p (unlink_between g_dlink s.(groups) (lst None a) (hed b None)))
    (<[idx := unlinked_vlan v a b]> s.(mcgroup_vlan_queue)).

Lemma unlinked_same v a b :
  let v' := unlinked_vlan v a b in
  v'.(v_next) = v.(v_next) ∧ v'.(v_prev) = v.(v_prev) ∧ v'.(vlan_id) = v.(vlan_id) ∧ v'.(routerlist) = v.(routerlist).
Proof. cbv zeta. destruct a, b; by destruct v. Qed.

Lemma unlinked_first v a p b : v.(firstgroup) = hed (a ++ p :: b) None → (unlinked_vlan v a b).(firstgroup) = hed (a ++ b) None.
Proof. destruct a, b; destruct v; simpl; congruence. Qed.

Section Without.
Variables (s : IGS) (idx : Z) (v : MC_group_vlan) (p : positive) (g : MC_group) (a b : list positive).
Hypothesis Hc : core_ok s.
Hypothesis Ev : s.(mcgroup_vlan_queue) !! idx = Some v.
Hypothesis Eg : s.(groups) !! p = Some g.
Hypothesis Hv : vlan_groups s v (a ++ p :: b).

Let s' := without_group s idx v p a b.

Lemma without_back q x : s'.(groups) !! q = Some x →
  q ≠ p ∧ ∃ x0, s.(groups) !! q = Some x0 ∧ g_key x = g_key x0 ∧ g_erase x = g_erase x0.
Proof.
  intros E. destruct (decide (q = p)) as [->|Hne].
  - unfold s', without_group in E. simpl in E. by rewrite lookup_delete_eq in E.
  - split; [done|]. exact (unlink_left (groups s) a b p q x Hne E).
Qed.

Lemma without_forth q x0 : q ≠ p → s.(groups) !! q = Some x0 →
  ∃ x, s'.(groups) !! q = Some x ∧ g_key x = g_key x0 ∧ g_erase x = g_erase x0.
Proof. intros Hq E0. simpl. rewrite lookup_delete_ne by done. by apply unlink_same. Qed.

Lemma without_vlan j w : s'.(mcgroup_vlan_queue) !! j = Some w →
  ∃ w0, s.(mcgroup_vlan_queue) !! j = Some w0 ∧ w.(vlan_id) = w0.(vlan_id) ∧ w.(routerlist) = w0.(routerlist)
        ∧ (j = idx ∧ w = unlinked_vlan v a b ∧ w0 = v ∨ j ≠ idx ∧ w = w0).
Proof.
  intros E. simpl in E. destruct (decide (j = idx)) as [->|Hne].
  - rewrite lookup_insert_eq in E. injection E as <-. exists v.
    destruct (unlinked_same v a b) as (_ & _ & ? & ?). split_and!; [done..|]. by left.
  - rewrite lookup_insert_ne in E by done. exists w. split_and!; [done..|]. by right.
Qed.

Lemma without_groups : vlan_groups s' (unlinked_vlan v a b) (a ++ b).
Proof.
  assert (Hn := vg_nodup _ _ _ Hv). assert (Hn' := Hn). rewrite <- Permutation_middle in Hn'.
  apply list.NoDup_cons in Hn' as [Hp Hnab]. split; [done| |by eapply unlinked_first, Hv|].
  - simpl. apply dseg_delete_ne; [done|]. apply (dseg_unlink g_dlink _ a p b Hn (vg_links _ _ _ Hv)).
  - intros q x Eq. destruct (without_back q x Eq) as (Hqp & x0 & Ex0 & [= -> _] & _).
    destruct (unlinked_same v a b) as (_ & _ & -> & _).
    rewrite <- (vg_all _ _ _ Hv q x0 Ex0). rewrite !elem_of_app, elem_of_cons. tauto.
Qed.

Lemma without_core : core_ok s'.
Proof.
  destruct Hc as [[order Hq] Hvid Hg Ho Ha Hr]. destruct (unlinked_same v a b) as (En & Ep & Evid & Er).
  assert (Hn := vg_nodup _ _ _ Hv). assert (Hn' := Hn). rewrite <- Permutation_middle in Hn'.
  apply list.NoDup_cons in Hn' as [Hp Hnab]. split.
  - exists order. assert (H := queue_ok_put s order idx v (unlinked_vlan v a b) Hq Ev En Ep). by destruct H.
  - intros j k w x Ej Ek. destruct (without_vlan j w Ej) as (w0 & ? & -> & _). destruct (without_vlan k x Ek) as (x0 & ? & -> & _).
    by eapply Hvid.
  - intros j w Ej. destruct (without_vlan j w Ej) as (w0 & Ew0 & Ewv & _ & [(-> & -> & ->)|(Hne & ->)]).
    + exists (a ++ b). apply without_groups.
    + destruct (Hg j w0 Ew0) as (ps & Hps). exists ps.
      assert (Hpn : p ∉ ps).
      { intros Hpi. apply Hne. apply (Hvid j idx w0 v); [done|done|].
        rewrite <- (proj1 (vg_all _ _ _ Hps p g Eg) Hpi). apply (vg_all _ _ _ Hv p g Eg).
        apply elem_of_app. right. left. }
      destruct Hps as [G1 G2 G3 G4]. split; [done| |done|].
      * simpl. apply dseg_delete_ne; [done|]. eapply dseg_frame; [|exact G2]. intros q x Hqi Ex.
        exists x. split; [|done]. unfold unlink_between. rewrite set_prv_of_lookup_ne, set_nxt_of_lookup_ne; [done|..].
        -- intros Eq%lst_elem_None. apply Hne. apply (Hvid j idx w0 v); [done|done|].
           rewrite <- (proj1 (G4 q x Ex) Hqi). apply (vg_all _ _ _ Hv q x Ex). apply elem_of_app. by left.
        -- intros Eq%hed_elem. apply Hne. apply (Hvid j idx w0 v); [done|done|].
           rewrite <- (proj1 (G4 q x Ex) Hqi). apply (vg_all _ _ _ Hv q x Ex). apply elem_of_app. right; by right.
      * intros q x Eq. destruct (without_back q x Eq) as (Hqp & x0 & Ex0 & [= -> _] & _). by apply G4.
  - intros q x Eq. destruct (without_back q x Eq) as (_ & x0 & Ex0 & [= -> _] & _).
    destruct (Ho q x0 Ex0) as (j & w & Ej & Ew). destruct (decide (j = idx)) as [->|Hne].
    + exists idx, (unlinked_vlan v a b). simpl. rewrite lookup_insert_eq. split; [done|]. congruence.
    + exists j, w. simpl. by rewrite lookup_insert_ne.
  - intros q r x y Eq Er'. destruct (without_back q x Eq) as (_ & x0 & Ex0 & [= -> ->] & _).
    destruct (without_back r y Er') as (_ & y0 & Ey0 & [= -> ->] & _). by eapply Ha.
  - intros j w Ej. destruct (without_vlan j w Ej) as (w0 & Ew0 & _ & -> & _). by eapply Hr.
Qed.

Lemma without_table : group_table s' = delete (g_key g) (group_table s).
Proof.
  apply table_ext; [apply without_core|]. intros k x. destruct (decide (k = g_key g)) as [->|Hne].
  - rewrite lookup_delete_eq. split; [done|]. intros (q & y & Eq & Ek & _).
    destruct (without_back q y Eq) as (Hqp & y0 & Ey0 & E & _). rewrite E in Ek. injection Ek as E1 E2.
    destruct Hqp. by apply (co_addr s Hc q p y0 g).
  - rewrite lookup_delete_ne, group_table_lookup by done. split.
    + intros (q & y & Eq & <- & <-). destruct (without_forth q y) as (y' & Ey' & Ek & Ee); [intros ->; congruence|done|].
      by exists q, y'.
    + intros (q & y & Eq & <- & <-). destruct (without_back q y Eq) as (_ & y0 & Ey0 & -> & ->). by exists q, y0.
Qed.

Lemma without_size : size s'.(groups) = (size s.(groups) - 1)%nat.
Proof.
  simpl. rewrite map_size_delete. rewrite <- !size_dom.
  rewrite unlink_between_dom. destruct (unlink_same (groups s) (lst None a) (hed b None) p g Eg) as (x & -> & _). lia.
Qed.
End Without.

(** ** The switch *)

Section Ops.
Variable env : ENV.

(** What a request does to the entries of the table. *)
Definition l2_op (arg : Z) (pkt : PKT Z) (l : list l2mc_list) : list l2mc_list :=
  if arg =? IGMP_ADDR_ADD then fst (spec_insert env.(junk_entry) pkt l)
  else if arg =? IGMP_ADDR_DEL then remove_first (l2_same_entry pkt) l
  else remove_but_last (l2_same_group pkt) l.

Lemma wp_mod_addr pkt arg s l (Q : IGS * Z → Prop) :
  l2mc_repr s.(p_l2mc) l → 0 ≤ arg ≤ 2 →
  (∀ t, l2mc_repr t (l2_op arg pkt l) → Q (igmp_notify_msg env pkt arg (s <| p_l2mc := t |>))) →
  wp (igmp_snp_mod_addr env pkt arg s) Q.
Proof.
  intros Hl Harg HQ. assert (arg = 0 ∨ arg = 1 ∨ arg = 2) as [->|[->| ->]] by lia; unfold igmp_snp_mod_addr, in_l2mc; simpl.
  - eapply wp_bind, wp_bind, wp_mono; [by apply wp_insert|]. intros [t r] [Ht _]. by apply HQ.
  - eapply wp_bind, wp_bind, wp_mono; [by apply wp_node_delete|]. intros [t r] [Ht _]. by apply HQ.
  - eapply wp_bind, wp_bind, wp_mono; [by apply wp_group_delete|]. intros [t r] [Ht _]. by apply HQ.
Qed.

Lemma notify_shape pkt arg s : ∃ tr r, igmp_notify_msg env pkt arg s = (s <| trace := tr |>, r).
Proof.
  assert (H : s = s <| trace := s.(trace) |>) by (by destruct s).
  unfold igmp_notify_msg, igs_emit. destruct (_ || _); [destruct (npd_ok env)|]; eauto.
  all: exists s.(trace), IGMPSNP_RETURN_CODE_ERROR; by rewrite H at 1.
Qed.
End Ops.

(** ** The invariant of the IGMP snooping daemon, and the deletion of groups

    [igs_ok] adds to [core_ok] what the daemon counts and numbers: the number of
    groups, their identifiers in the switch, the member ports, the VLANs.  It is
    about a daemon that snoops IGMP, where every group has an IPv4 address. *)

Record group_fine g : Prop := {
  gf_addr : g.(MC_ipadd) ≠ 0;
  gf_id : 0 ≤ g.(mgroup_id) < IGMP_SNP_GRP_MAX;
  gf_ports : NoDup (ps_ifindex <$> g.(portstatelist)) }.

Record vlans_fine (l : list igmp_vlan_list) : Prop := {
  vf_range : ∀ w, w ∈ l → 0 ≤ w.(vl_vlan_id) ≤ 4094;
  vf_nodup : NoDup (vl_vlan_id <$> l);
  vf_ports : ∀ w, w ∈ l → NoDup (vp_ifindex <$> w.(first_port)) }.

Record igs_ok s : Prop := {
  io_core : core_ok s;
  io_l2 : ∃ l, l2mc_repr s.(p_l2mc) l;
  io_count : s.(igmp_groupcount) = Z.of_nat (size s.(groups));
  io_bound : (size s.(groups) ≤ 1024)%nat;
  io_fine : ∀ p g, s.(groups) !! p = Some g → group_fine g;
  io_vids : ∀ i v, s.(mcgroup_vlan_queue) !! i = Some v → 0 ≤ v.(vlan_id) ≤ 4094;
  io_distinct : ∀ p q g h, s.(groups) !! p = Some g → s.(groups) !! q = Some h →
                  g.(mgroup_id) = h.(mgroup_id) → g.(mgroup_id) ≠ 0 → p = q;
  io_vlans : vlans_fine s.(p_vlanlist);
  io_on : s.(igmp_snoop_enable) ≠ 0 }.

Lemma rest_vlanlist s s' : rest s' = rest s → s'.(p_vlanlist) = s.(p_vlanlist).
Proof. intros E. apply (f_equal p_vlanlist) in E. by destruct s, s'. Qed.
Lemma rest_routerlist s s' : rest s' = rest s → s'.(p_routerlist) = s.(p_routerlist).
Proof. intros E. apply (f_equal p_routerlist) in E. by destruct s, s'. Qed.
Lemma rest_enable s s' : rest s' = rest s → s'.(igmp_snoop_enable) = s.(igmp_snoop_enable).
Proof. intros E. apply (f_equal igmp_snoop_enable) in E. by destruct s, s'. Qed.

(** The data of a group that is not its links. *)
Lemma fine_erase g g' : g_erase g' = g_erase g → group_fine g → group_fine g'.
Proof.
  intros E [H1 H2 H3]. split.
  - apply (f_equal MC_ipadd) in E. destruct g, g'; simpl in *. congruence.
  - apply (f_equal mgroup_id) in E. destruct g, g'; simpl in *. by subst.
  - apply (f_equal portstatelist) in E. destruct g, g'; simpl in *. by subst.
Qed.
Lemma id_erase g g' : g_erase g' = g_erase g → g'.(mgroup_id) = g.(mgroup_id).
Proof. intros E. apply (f_equal mgroup_id) in E. by destruct g, g'. Qed.

(** Changes of what the invariant does not read. *)
Lemma igs_ok_same s s' :
  same_core s s' → (∃ l, l2mc_repr s'.(p_l2mc) l) → s'.(igmp_groupcount) = s.(igmp_groupcount) →
  s'.(p_vlanlist) = s.(p_vlanlist) → s'.(igmp_snoop_enable) = s.(igmp_snoop_enable) → igs_ok s → igs_ok s'.
Proof.
  intros Hs Hl Ec Ev Ee [H1 H2 H3 H4 H5 H6 H7 H8 H9]. assert (Hs' := Hs). destruct Hs' as (Eq & Ef & Eg).
  split; rewrite ?Eq, ?Eg, ?Ec, ?Ev, ?Ee; try done. by eapply core_ok_same.
Qed.

Section Deletion.
Variable env : ENV.

(** The state after [igmp_snp_delgroup]. *)
Definition group_deleted s s' idx v g (a b : list positive) : Prop :=
  igs_ok s' ∧ group_table s' = delete (g_key g) (group_table s) ∧
  vlan_groups s' (unlinked_vlan v a b) (a ++ b) ∧
  s'.(mcgroup_vlan_queue) = <[idx := unlinked_vlan v a b]> s.(mcgroup_vlan_queue) ∧
  rest s' = rest s.

Lemma without_deleted s idx v p g a b t tr l :
  igs_ok s → s.(mcgroup_vlan_queue) !! idx = Some v → s.(groups) !! p = Some g → vlan_groups s v (a ++ p :: b) →
  l2mc_repr t l →
  group_deleted s ((without_group (s <| p_l2mc := t |> <| trace := tr |>) idx v p a b)
                     <| igmp_groupcount := s.(igmp_groupcount) - 1 |>) idx v g a b.
Proof.
  intros Hok Ev Eg Hv Ht. set (s1 := s <| p_l2mc := t |> <| trace := tr |>).
  assert (Hc1 : core_ok s1) by (eapply (core_ok_same s); [done|apply Hok]).
  assert (Hv1 : vlan_groups s1 v (a ++ p :: b)) by (by destruct Hv).
  set (s2 := without_group s1 idx v p a b).
  assert (Hcore : core_ok s2) by (by eapply without_core).
  assert (Htab : group_table s2 = delete (g_key g) (group_table s1)) by (by eapply without_table).
  assert (Hgr : vlan_groups s2 (unlinked_vlan v a b) (a ++ b)) by (by eapply without_groups).
  assert (Hsz : size s2.(groups) = (size s1.(groups) - 1)%nat) by (by eapply without_size).
  assert (Hpos : (0 < size s.(groups))%nat).
  { destruct (size s.(groups)) eqn:E; [|lia]. apply map_size_empty_iff in E. by rewrite E, lookup_empty in Eg. }
  assert (Hback : ∀ q x, s2.(groups) !! q = Some x → ∃ x0, s.(groups) !! q = Some x0 ∧ g_erase x = g_erase x0).
  { intros q x E. destruct (without_back s1 idx v p a b q x E) as (_ & x0 & ? & _ & ?). eauto. }
  change (groups s1) with (groups s) in Hsz. split_and!; try done.
  - split.
    + eapply core_ok_same; [|exact Hcore]. done.
    + by exists l.
    + simpl. change (groups _) with (groups s2) || idtac. rewrite (io_count s Hok).
      change (size (delete p (unlink_between g_dlink (groups s) (lst None a) (hed b None)))) with (size (groups s2)).
      rewrite Hsz. lia.
    + change (groups _) with (groups s2). rewrite Hsz. destruct Hok. lia.
    + intros q x E. destruct (Hback q x E) as (x0 & E0 & Ee). eapply fine_erase; [exact Ee|]. by eapply io_fine.
    + intros j w E. destruct (without_vlan s1 idx v p a b Ev j w E) as (w0 & Ew0 & -> & _). by eapply (io_vids s Hok).
    + intros q r x y Eq Er Eid Hid. destruct (Hback q x Eq) as (x0 & Ex0 & Eex). destruct (Hback r y Er) as (y0 & Ey0 & Eey).
      rewrite (id_erase _ _ Eex) in Eid, Hid. rewrite (id_erase _ _ Eey) in Eid. by eapply (io_distinct s Hok).
    + apply Hok.
    + apply Hok.
  - by destruct Hgr.
Qed.

Lemma wp_igmp_delgroup s idx v p g a b (Q : IGS * option positive → Prop) :
  igs_ok s → s.(mcgroup_vlan_queue) !! idx = Some v → s.(groups) !! p = Some g → vlan_groups s v (a ++ p :: b) →
  (∀ s', group_deleted s s' idx v g a b → Q (s', hed b None)) →
  wp (igmp_snp_delgroup env idx p s) Q.
Proof.
  intros Hok Ev Eg Hv HQ. unfold igmp_snp_delgroup, get_group. rewrite Eg; cbn [deref obind].
  destruct (io_l2 s Hok) as [l Hl]. apply wp_bind. eapply wp_mod_addr; [exact Hl|unfold IGMP_ADDR_RMV; lia|].
  intros t Ht. destruct (notify_shape env (mkPkt IGMP_ADDR_RMV 0 (g_vid g) (mgroup_id g) 0 (MC_ipadd g) 0) IGMP_ADDR_RMV (s <| p_l2mc := t |>))
    as (tr & r & ->). cbn [wp].
  apply wp_bind. eapply (wp_group_unlink _ idx v p g a b); [exact Ev|exact Eg|apply Hv|apply Hv|].
  assert (Hn : g.(g_next) = hed b None).
  { destruct (dseg_mid _ _ _ _ _ _ _ (vg_links _ _ _ Hv)) as (g' & Eg' & _ & En). assert (g' = g) as -> by congruence. exact En. }
  rewrite Hn. cbn [wp].
  assert (Hpos : 0 < igmp_groupcount s).
  { rewrite (io_count s Hok). destruct (size s.(groups)) eqn:E; [|lia]. apply map_size_empty_iff in E.
    by rewrite E, lookup_empty in Eg. }
  change (igmp_groupcount (free_group _ _)) with (igmp_groupcount s). rewrite (proj2 (Z.ltb_lt _ _) Hpos).
  apply HQ. eapply (without_deleted s idx v p g a b t tr); eauto.
Qed.

Lemma wp_delgroup s idx v p g a b (Q : IGS * option positive → Prop) :
  igs_ok s → s.(mcgroup_vlan_queue) !! idx = Some v → s.(groups) !! p = Some g → vlan_groups s v (a ++ p :: b) →
  (∀ s', group_deleted s s' idx v g a b → Q (s', hed b None)) →
  wp (delgroup env idx p s) Q.
Proof.
  intros Hok Ev Eg Hv HQ. unfold delgroup, get_group. rewrite Eg; cbn [deref obind].
  rewrite (proj2 (Z.eqb_neq 0 _)) by (intros E; by apply (gf_addr _ (io_fine s Hok p g Eg))).
  by eapply wp_igmp_delgroup.
Qed.

(** ** All groups of a VLAN *)

(** The state without the groups of the VLAN, whose node is now [v']. *)
Definition groups_deleted s s' idx v : Prop :=
  igs_ok s' ∧ rest s' = rest s ∧
  (∀ k, k.1 ≠ v.(vlan_id) → group_table s' !! k = group_table s !! k) ∧
  (∀ j, j ≠ idx → s'.(mcgroup_vlan_queue) !! j = s.(mcgroup_vlan_queue) !! j) ∧
  ∃ v', s'.(mcgroup_vlan_queue) !! idx = Some v' ∧ vlan_groups s' v' [] ∧
        v'.(vlan_id) = v.(vlan_id) ∧ v'.(routerlist) = v.(routerlist).

Lemma wp_del_groups fuel s idx v ps (Q : IGS → Prop) :
  igs_ok s → s.(mcgroup_vlan_queue) !! idx = Some v → vlan_groups s v ps → (length ps < fuel)%nat →
  (∀ s', groups_deleted s s' idx v → Q s') →
  wp (del_groups fuel (delgroup env idx) (hed ps None) s) Q.
Proof.
  revert s v fuel. induction ps as [|p ps IH]; intros s v [|fuel] Hok Ev Hv Hl HQ; simpl in Hl; try lia.
  - simpl. apply HQ. split_and!; try done. by exists v.
  - cbn [del_groups hed]. destruct (dseg_elem _ _ _ _ _ p (vg_links _ _ _ Hv)) as [g Eg]; [left|].
    apply wp_bind. eapply (wp_delgroup s idx v p g [] ps); [done..|]. intros s1 (Hok1 & Ht1 & Hv1 & Eq1 & Er1).
    destruct (unlinked_same v [] ps) as (_ & _ & Evid & Erl).
    eapply (IH s1 (unlinked_vlan v [] ps)); [done| |done|lia|].
    + by rewrite Eq1, lookup_insert_eq.
    + intros s2 (Hok2 & Er2 & Ht2 & Ej2 & v' & Ev' & Hv' & Evid' & Erl'). apply HQ. split_and!.
      * done.
      * congruence.
      * intros k Hk. rewrite Ht2 by congruence. rewrite Ht1, lookup_delete_ne; [done|].
        intros <-. apply Hk. simpl. apply (vg_all _ _ _ Hv p g Eg). left.
      * intros j Hj. rewrite Ej2, Eq1, lookup_insert_ne by done. done.
      * exists v'. split_and!; [done|done|congruence|congruence].
Qed.

(** ** The node of a VLAN *)

(** The walk over the router entries. *)
Lemma rwalk_rlist l : rwalk (rlist l) = Done l.
Proof. induction l as [|e l IH]; simpl; [done|]. by rewrite IH. Qed.

Definition without_vlan_node s idx (a b : list Z) : IGS :=
  s <| mcgroup_vlan_queue := delete idx (unlink_between v_dlink s.(mcgroup_vlan_queue) (lst None a) (hed b None)) |>
    <| first_mcgroupvlan_idx := default (-1) (hed (a ++ b) None) |>.

Lemma alter_Some_Z {A} (f : A → A) (m : gmap Z A) k x : m !! k = Some x → alter f k m = <[k := f x]> m.
Proof.
  intros E. apply map_eq. intros i. destruct (decide (i = k)) as [->|Hne].
  - by rewrite lookup_alter_eq, lookup_insert_eq, E.
  - by rewrite lookup_alter_ne, lookup_insert_ne by done.
Qed.

Lemma wp_vlan_unlink s idx a b (Q : IGS → Prop) :
  queue_ok s (a ++ idx :: b) → Q (without_vlan_node s idx a b) → wp (vlan_unlink idx s) Q.
Proof.
  intros Hq HQ. destruct (order_vlan s _ Hq a idx b eq_refl) as (v & Ev & Ep & En).
  assert (Hn := q_nodup s _ Hq). assert (Hd := q_links _ _ Hq). assert (Hr := q_range _ _ Hq). assert (Hf := q_first _ _ Hq).
  unfold vlan_unlink, get_vlan. rewrite Ev; cbn [deref obind]. rewrite Ep, En.
  unfold without_vlan_node, unlink_between, set_prv_of, set_nxt_of in HQ. simpl in HQ.
  assert (Hb : ∀ q, hed b None = Some q → q ∈ a ++ idx :: b ∧ q ≠ -1 ∧ q ≠ idx ∧ ∃ y, s.(mcgroup_vlan_queue) !! q = Some y).
  { intros q Hq'%hed_elem. assert (Hi : q ∈ a ++ idx :: b) by (apply elem_of_app; right; by right).
    split_and!; [done|specialize (Hr q Hi); lia| |by eapply dseg_elem].
    intros ->. apply list.NoDup_app in Hn as (_ & _ & Hn). by apply list.NoDup_cons in Hn as [Hn _]. }
  assert (Ha : ∀ q, lst None a = Some q → q ∈ a ++ idx :: b ∧ q ≠ -1 ∧ q ≠ idx ∧ ∃ y, s.(mcgroup_vlan_queue) !! q = Some y).
  { intros q Hq'%lst_elem_None. assert (Hi : q ∈ a ++ idx :: b) by (apply elem_of_app; by left).
    split_and!; [done|specialize (Hr q Hi); lia| |by eapply dseg_elem].
    intros ->. apply list.NoDup_app in Hn as (_ & Hn & _). apply (Hn idx Hq'). left. }
  destruct (hed b None) as [r|] eqn:Eb; cbn [default from_option id].
  - destruct (Hb r eq_refl) as (Hri & Hr1 & Hri' & z & Ez). rewrite (proj2 (Z.eqb_neq r (-1))) by done. cbn [andb negb].
    rewrite (get_index s _ Hq r Hri); cbn [deref obind]. rewrite Ez; cbn [deref obind].
    destruct (lst None a) as [q|] eqn:Ea; cbn [default from_option id].
    + destruct (Ha q eq_refl) as (Hqi & Hq1 & Hqi' & y & Ey). rewrite (proj2 (Z.eqb_neq q (-1))) by done. cbn [negb].
      assert (Hqr : q ≠ r).
      { intros ->. apply lst_elem_None in Ea. apply hed_elem in Eb. apply list.NoDup_app in Hn as (_ & Hn & _).
        apply (Hn r Ea). by right. }
      set (s1 := put_vlan r _ s).
      assert (Hget : GET_VLAN_POINT_BY_INDEX s1 q = Some q).
      { assert (Hq1' : queue_ok s (a ++ idx :: b)) by done. unfold GET_VLAN_POINT_BY_INDEX. specialize (Hr q Hqi).
        rewrite (proj2 (Z.leb_le _ _)), (proj2 (Z.ltb_lt _ _)) by lia. simpl. by rewrite lookup_insert_ne, Ey. }
      rewrite Hget; cbn [deref obind]. simpl. rewrite lookup_insert_ne, Ey by done. simpl.
      assert (Ehd : default (-1) (hed (a ++ b) None) = s.(first_mcgroupvlan_idx)).
      { rewrite Hf. destruct a; [done|]. done. }
      rewrite Ehd in HQ. rewrite (alter_Some_Z _ _ _ _ Ey) in HQ.
      rewrite (alter_Some_Z _ (<[q := _]> _) r z) in HQ by (by rewrite lookup_insert_ne).
      rewrite insert_insert_ne by done. destruct s; exact HQ.
    + apply lst_None in Ea as ->. simpl. rewrite (alter_Some_Z _ _ _ _ Ez) in HQ.
      simpl in HQ. rewrite Eb in HQ. destruct s; exact HQ.
  - destruct b; [|done]. simpl. destruct (lst None a) as [q|] eqn:Ea; cbn [default from_option id].
    + destruct (Ha q eq_refl) as (Hqi & Hq1 & Hqi' & y & Ey). rewrite (proj2 (Z.eqb_neq q (-1))) by done. simpl.
      rewrite (get_index s _ Hq q Hqi). simpl. rewrite Ey. simpl.
      assert (Ehd : default (-1) (hed (a ++ []) None) = s.(first_mcgroupvlan_idx)).
      { rewrite Hf. destruct a; [done|]. done. }
      rewrite Ehd in HQ. rewrite (alter_Some_Z _ _ _ _ Ey) in HQ. destruct s; exact HQ.
    + apply lst_None in Ea as ->. simpl. destruct s; exact HQ.
Qed.

(** The data of a VLAN that is not its links. *)
Definition v_erase v : MC_group_vlan := v <| v_next := 0 |> <| v_prev := 0 |>.

Lemma v_erase_fields v v' : v_erase v' = v_erase v →
  v'.(vlan_id) = v.(vlan_id) ∧ v'.(firstgroup) = v.(firstgroup) ∧ v'.(routerlist) = v.(routerlist).
Proof.
  intros E. assert (E1 := f_equal vlan_id E). assert (E2 := f_equal firstgroup E).
  assert (E3 := f_equal routerlist E). by destruct v, v'.
Qed.

Section WithoutNode.
Variables (s : IGS) (idx : Z) (v : MC_group_vlan) (a b : list Z).
Hypothesis Hok : igs_ok s.
Hypothesis Hq : queue_ok s (a ++ idx :: b).
Hypothesis Ev : s.(mcgroup_vlan_queue) !! idx = Some v.
Hypothesis Hv : vlan_groups s v [].

Let s' := without_vlan_node s idx a b.

Lemma node_back j w : s'.(mcgroup_vlan_queue) !! j = Some w →
  j ≠ idx ∧ ∃ w0, s.(mcgroup_vlan_queue) !! j = Some w0 ∧ v_erase w0 = v_erase w.
Proof.
  intros E. destruct (decide (j = idx)) as [->|Hne]; simpl in E; [by rewrite lookup_delete_eq in E|].
  split; [done|]. rewrite lookup_delete_ne in E by done.
  eapply fmap_eq_Some; [|exact E]. symmetry. apply unlink_between_data; by intros l [].
Qed.

Lemma node_forth j w0 : j ≠ idx → s.(mcgroup_vlan_queue) !! j = Some w0 →
  ∃ w, s'.(mcgroup_vlan_queue) !! j = Some w ∧ v_erase w = v_erase w0.
Proof.
  intros Hne E. simpl. rewrite lookup_delete_ne by done.
  eapply fmap_eq_Some; [|exact E]. apply unlink_between_data; by intros l [].
Qed.

Lemma without_node_queue : queue_ok s' (a ++ b).
Proof.
  assert (Hn := q_nodup s _ Hq). assert (Hn' := Hn). rewrite <- Permutation_middle in Hn'.
  apply list.NoDup_cons in Hn' as [Hi _]. destruct Hq as [H1 H2 H3 H4 H5]. split.
  - clear -H1. induction a as [|x l IH]; simpl in *; [by inversion H1|].
    inversion H1 as [|? ? Hs Hf]; subst. constructor; [by apply IH|].
    rewrite Forall_app in Hf |- *. destruct Hf as [Hf1 Hf2]. split; [done|]. by inversion Hf2.
  - intros i Hi'. apply H2. rewrite elem_of_app in Hi' |- *. rewrite elem_of_cons. tauto.
  - intros i [w Ew]. destruct (node_back i w Ew) as (Hne & w0 & Ew0 & _).
    assert (Hi' : i ∈ a ++ idx :: b) by (apply H3; by eexists).
    rewrite elem_of_app, elem_of_cons in Hi'. rewrite elem_of_app. tauto.
  - simpl. apply dseg_delete_ne; [done|]. apply (dseg_unlink v_dlink _ a idx b Hn H4).
  - done.
Qed.

Lemma without_node_ok : igs_ok s'.
Proof.
  destruct Hok as [[_ Hvid Hg Ho Ha Hr] H2 H3 H4 H5 H6 H7 H8 H9]. split; try done.
  - split.
    + exists (a ++ b). apply without_node_queue.
    + intros i j w x Ei Ej Ewx. destruct (node_back i w Ei) as (_ & w0 & Ew0 & Ee). destruct (node_back j x Ej) as (_ & x0 & Ex0 & Ee').
      apply v_erase_fields in Ee as (E1 & _). apply v_erase_fields in Ee' as (E1' & _).
      apply (Hvid i j w0 x0); [done|done|congruence].
    + intros i w Ei. destruct (node_back i w Ei) as (_ & w0 & Ew0 & Ee). apply v_erase_fields in Ee as (E1 & E2 & _).
      destruct (Hg i w0 Ew0) as (ps & [G1 G2 G3 G4]). exists ps. split; [done|done|congruence|]. rewrite <- E1. done.
    + intros p g Eg. destruct (Ho p g Eg) as (j & w & Ej & Ew). assert (Hj : j ≠ idx).
      { intros ->. assert (w = v) as -> by congruence. apply (not_elem_of_nil p). apply (vg_all _ _ _ Hv p g Eg). congruence. }
      destruct (node_forth j w Hj Ej) as (w' & Ew' & Ee). apply v_erase_fields in Ee as (E1 & _).
      exists j, w'. split; [done|congruence].
    + done.
    + intros i w Ei. destruct (node_back i w Ei) as (_ & w0 & Ew0 & Ee). apply v_erase_fields in Ee as (_ & _ & E3).
      rewrite <- E3. by eapply Hr.
  - intros i w Ei. destruct (node_back i w Ei) as (_ & w0 & Ew0 & Ee). apply v_erase_fields in Ee as (E1 & _).
    rewrite <- E1. by eapply H6.
Qed.

(** The VLAN is gone. *)
Lemma without_node_gone j w : s'.(mcgroup_vlan_queue) !! j = Some w → w.(vlan_id) ≠ v.(vlan_id).
Proof.
  intros E Ew. destruct (node_back j w E) as (Hne & w0 & Ew0 & Ee). apply v_erase_fields in Ee as (E1 & _).
  apply Hne. apply (co_vids s (io_core s Hok) j idx w0 v); [done|done|congruence].
Qed.
End WithoutNode.

(** ** Deleting a VLAN *)

Definition vlan_gone s (vid : Z) : Prop := ∀ j w, s.(mcgroup_vlan_queue) !! j = Some w → w.(vlan_id) ≠ vid.

Definition vlan_deleted s s' (vid : Z) : Prop :=
  igs_ok s' ∧ rest s' = rest s ∧ vlan_gone s' vid ∧
  group_table s' = filter (fun kx => kx.1.1 ≠ vid) (group_table s) ∧
  ∀ j w, s'.(mcgroup_vlan_queue) !! j = Some w → ∃ w0, s.(mcgroup_vlan_queue) !! j = Some w0 ∧ v_erase w0 = v_erase w.

(** No VLAN, no group. *)
Lemma gone_table s vid k : core_ok s → vlan_gone s vid → k.1 = vid → group_table s !! k = None.
Proof.
  intros Hc Hg <-. destruct (group_table s !! k) eqn:E; [|done].
  apply group_table_lookup in E as (p & g & Eg & <- & _); [|done].
  destruct (co_owned s Hc p g Eg) as (i & v & Ei & Ev). by destruct (Hg i v Ei).
Qed.

Lemma wp_del_vlan_node s idx v (Q : IGS → Prop) :
  igs_ok s → s.(mcgroup_vlan_queue) !! idx = Some v →
  (∀ s', vlan_deleted s s' v.(vlan_id) → Q s') → wp (del_vlan_node (delgroup env) idx s) Q.
Proof.
  intros Hok Ev HQ. destruct (co_groups s (io_core s Hok) idx v Ev) as (ps & Hps).
  unfold del_vlan_node, get_vlan. rewrite Ev; cbn [deref obind]. rewrite (vg_first _ _ _ Hps).
  apply wp_bind. eapply (wp_del_groups _ s idx v ps); [done|done|done|by eapply groups_length|].
  intros s1 (Hok1 & Er1 & Ht1 & Ej1 & v1 & Ev1 & Hv1 & Evid & Erl). rewrite Ev1; cbn [deref obind].
  destruct (co_routers s1 (io_core s1 Hok1) idx v1 Ev1) as [l El]. rewrite El, rwalk_rlist; cbn [obind].
  set (v2 := v1 <| routerlist := RNil |> <| querytimer_id := 0 |>). set (s2 := put_vlan idx v2 s1).
  assert (Hok2 : igs_ok s2).
  { assert (Hc2 : core_ok s2) by (eapply (core_update_vlan s1 idx v1); [apply Hok1|done|done|by exists []]).
    destruct Hok1 as [_ A2 A3 A4 A5 A6 A7 A8 A9]. split; try done. intros j w Ej. simpl in Ej.
    destruct (decide (j = idx)) as [->|Hne]; [|rewrite lookup_insert_ne in Ej by done; by eapply A6].
    rewrite lookup_insert_eq in Ej. injection Ej as <-. by eapply (A6 idx v1). }
  assert (Hv2 : vlan_groups s2 v2 []) by (by destruct Hv1).
  assert (Ev2 : s2.(mcgroup_vlan_queue) !! idx = Some v2) by (simpl; by rewrite lookup_insert_eq).
  destruct (co_queue s2 (io_core s2 Hok2)) as [order Hq].
  assert (Hi : idx ∈ order) by (apply (q_dom _ _ Hq); by eexists).
  apply list_elem_of_split in Hi as (a & b & ->). eapply wp_vlan_unlink; [exact Hq|].
  assert (Hok3 := without_node_ok s2 idx v2 a b Hok2 Hq Ev2 Hv2).
  assert (Hgone : vlan_gone (without_vlan_node s2 idx a b) (vlan_id v)).
  { intros j w Ej. rewrite <- Evid. by eapply (without_node_gone s2 idx v2 a b). }
  apply HQ. split_and!; [done| |done| |].
  - rewrite <- Er1. by destruct s1.
  - apply map_eq. intros k. destruct (decide (k.1 = vlan_id v)) as [Hk|Hk].
    + rewrite (gone_table _ _ k (io_core _ Hok3) Hgone Hk). symmetry. apply map_lookup_filter_None. right.
      intros x _ Hx. by apply Hx.
    + change (group_table (without_vlan_node s2 idx a b)) with (group_table s1). rewrite Ht1 by done.
      destruct (group_table s !! k) as [x|] eqn:Ex; symmetry.
      * by apply map_lookup_filter_Some.
      * apply map_lookup_filter_None. by left.
  - intros j w Ej. destruct (node_back s2 idx a b j w Ej) as (Hne & w0 & Ew0 & Ee). exists w0. split; [|done].
    simpl in Ew0. rewrite lookup_insert_ne in Ew0 by done. by rewrite <- Ej1.
Qed.
End Deletion.

(** ** Deleting a VLAN with its groups

    [igmp_snp_del_mcgroupvlan] takes the VLAN and all its groups out of the map and
    leaves everything else; when other VLANs have groups and this one has none it
    never ends. *)

Section VlanDel.
Variable env : ENV.

Lemma wp_del_vlan_loop s order vid fuel a b vlan_idx (Q : IGS → Prop) :
  igs_ok s → queue_ok s order → order = a ++ b → (length b < fuel)%nat →
  (∃ i v, i ∈ b ∧ s.(mcgroup_vlan_queue) !! i = Some v ∧ v.(vlan_id) = vid) →
  (∀ s', vlan_deleted s s' vid → Q s') →
  wp (del_vlan_loop fuel (delgroup env) vid vlan_idx (hed b None) s) Q.
Proof.
  intros Hok Hq. revert a fuel vlan_idx. induction b as [|i b IH]; intros a [|fuel] vlan_idx E Hl (t & w & Ht & Ew & Evid) HQ;
    simpl in Hl; try lia; [by apply not_elem_of_nil in Ht|].
  destruct (order_vlan s order Hq a i b E) as (v & Ev & _ & En).
  cbn [del_vlan_loop hed]. unfold get_vlan. rewrite Ev; cbn [deref obind].
  destruct (Z.eqb_spec vid (vlan_id v)) as [Ei|Ni].
  - eapply wp_del_vlan_node; [done..|]. by rewrite <- Ei.
  - assert (Hb : t ∈ b) by (apply elem_of_cons in Ht as [->|]; [congruence|done]).
    rewrite En. destruct b as [|j b]; [by apply not_elem_of_nil in Hb|]. cbn [hed default from_option id].
    assert (Hj : j ∈ order) by (rewrite E; apply elem_of_app; right; right; left).
    destruct (q_range s order Hq j Hj). rewrite (proj2 (Z.eqb_neq j (-1))) by lia. cbn [negb].
    rewrite (get_index s order Hq j Hj). apply (IH (a ++ [i]) fuel j); [by rewrite <- app_assoc|simpl in *; lia| |done].
    by exists t, w.
Qed.

(** Deleting the VLAN removes it and its groups. *)
Lemma wp_del_mcgroupvlan s vid (Q : IGS → Prop) :
  igs_ok s → ¬ vlan_gone s vid → (∀ s', vlan_deleted s s' vid → Q s') →
  wp (igmp_snp_del_mcgroupvlan env vid s) Q.
Proof.
  intros Hok Hn HQ. destruct (co_queue s (io_core s Hok)) as [order Hq].
  unfold igmp_snp_del_mcgroupvlan, igmp_snp_del_mcgroupvlan_fuel.
  change (GET_VLAN_POINT_BY_INDEX s (first_mcgroupvlan_idx s)) with (first_vlan s). rewrite (first_vlan_hed s order Hq).
  eapply (wp_del_vlan_loop s order vid _ []); [done|done|done|by eapply order_length| |done].
  destruct (decide (Exists (fun iv => iv.2.(vlan_id) = vid) (map_to_list s.(mcgroup_vlan_queue)))) as [(iv & Hi & Hv)%Exists_exists|Hno].
  - destruct iv as [i v]. apply elem_of_map_to_list in Hi. exists i, v. split_and!; [|done..]. apply (q_dom _ _ Hq). by eexists.
  - destruct Hn. intros j w Ej Ew. apply Hno, Exists_exists. exists (j, w). split; [by apply elem_of_map_to_list|done].
Qed.

(** Nothing to delete, and no VLAN to stay at. *)
Lemma wp_del_mcgroupvlan_empty s vid (Q : IGS → Prop) :
  igs_ok s → s.(mcgroup_vlan_queue) = ∅ → Q s → wp (igmp_snp_del_mcgroupvlan env vid s) Q.
Proof.
  intros Hok He HQ. unfold igmp_snp_del_mcgroupvlan, igmp_snp_del_mcgroupvlan_fuel.
  change (GET_VLAN_POINT_BY_INDEX s (first_mcgroupvlan_idx s)) with (first_vlan s).
  unfold first_vlan, GET_VLAN_POINT_BY_INDEX. rewrite He, lookup_empty.
  destruct (_ && _); done.
Qed.

(** The walk to a VLAN that is not there stays at the last node. *)
Lemma del_vlan_loop_stays s order vid del a i b : queue_ok s order → order = a ++ i :: b →
  vlan_gone s vid → ∀ fuel, del_vlan_loop fuel del vid i (Some i) s = OutOfFuel.
Proof.
  intros Hq E Hg fuel. revert a i b E. induction fuel as [|fuel IH]; intros a i b E; [done|].
  destruct (order_vlan s order Hq a i b E) as (v & Ev & _ & En). cbn [del_vlan_loop].
  unfold get_vlan. rewrite Ev; cbn [deref obind].
  rewrite (proj2 (Z.eqb_neq vid _)) by (intros ->; by apply (Hg i v)). rewrite En.
  destruct b as [|j b]; cbn [hed default from_option id].
  - rewrite Z.eqb_refl. cbn [negb]. rewrite (get_index s order Hq i) by (rewrite E; apply elem_of_app; right; left). by eapply IH.
  - assert (Hj : j ∈ order) by (rewrite E; apply elem_of_app; right; right; left).
    destruct (q_range s order Hq j Hj). rewrite (proj2 (Z.eqb_neq j (-1))) by lia. cbn [negb].
    rewrite (get_index s order Hq j Hj). apply (IH (a ++ [i]) j b). by rewrite <- app_assoc.
Qed.

Lemma del_mcgroupvlan_absent s vid fuel : core_ok s → s.(mcgroup_vlan_queue) ≠ ∅ → vlan_gone s vid →
  igmp_snp_del_mcgroupvlan_fuel env fuel vid s = OutOfFuel.
Proof.
  intros Hc Hne Hg. destruct (co_queue s Hc) as [order Hq].
  unfold igmp_snp_del_mcgroupvlan_fuel.
  change (GET_VLAN_POINT_BY_INDEX s (first_mcgroupvlan_idx s)) with (first_vlan s).
  rewrite (first_vlan_hed s order Hq), (q_first s order Hq). destruct order as [|i b].
  - destruct Hne. apply map_eq. intros k. rewrite lookup_empty. destruct (mcgroup_vlan_queue s !! k) eqn:E; [|done].
    destruct (not_elem_of_nil k). apply (q_dom _ _ Hq). by eexists.
  - by apply (del_vlan_loop_stays s (i :: b) vid _ [] i b).
Qed.
End VlanDel.
