(* ===== verification/IgmpTimer.v ===== *)
(** * The timers of the IGMP snooping daemon ([igmp_snoop_com.c])

    The list is ordered by type and priority as the insertion leaves it.  The walks
    take as many turns as there are timers and one more: they run out of them only
    on a cycle. *)

From Stdlib Require Import ZArith Lia.
From stdpp Require Import base gmap list option.
From S2P Require Import Prelude DList IgmpL2mc IgmpSnp.

Definition TIMER_TYPE_LOOP : Z := 1.
Definition TIMER_TYPE_NOLOOP : Z := 2.
Definition TIMER_TYPE_MAX : Z := 10.
Definition TIMER_PRIORI_LOW : Z := 0.
Definition TIMER_PRIORI_NORMAL : Z := 1.
Definition TIMER_PRIORI_HIGH : Z := 2.
Definition TIMER_LIST_MAX : Z := 256.

Definition timer_turns (head : timer_list) : nat := S (size head.(tl_nodes)).

Definition create_timer (type pri interval : Z) (func : TIMER_FUNC) (data : option TIMER_DATA) : Z + timer_element :=
  if TIMER_TYPE_MAX <? type then inl IGMPSNP_RETURN_CODE_OUT_RANGE
  else if TIMER_PRIORI_HIGH <? pri then inl IGMPSNP_RETURN_CODE_OUT_RANGE
  else inr (mkTimer None 0 type pri interval 0 data func).

(** Whether a timer has this identifier. *)
Fixpoint timer_has_id (fuel : nat) (nodes : gmap positive timer_element) (id : Z) (p : option positive) : outcome bool :=
  match fuel with
  | O => OutOfFuel
  | S fuel' =>
      match p with
      | None => Done false
      | Some p =>
          let* x := deref (nodes !! p) in
          if x.(tm_id) =? id then Done true else timer_has_id fuel' nodes id x.(tm_next)
      end
  end.

(** [rand()] is called until the number is new; it is as soon as [rand] gives more
    different numbers than there are timers.  The identifier and the number of
    calls. *)
Fixpoint timer_new_id (fuel : nat) (env : ENV) (head : timer_list) (n : nat) : outcome (Z * nat) :=
  match fuel with
  | O => OutOfFuel
  | S fuel' =>
      let id := env.(rand) n in
      let* used := timer_has_id (timer_turns head) head.(tl_nodes) id head.(first_timer) in
      if (used : bool) then timer_new_id fuel' env head (S n) else Done (id, S n)
  end.

(** [while (test(tnext)) { tprev = tnext; tnext = tnext->next; if (NULL == tnext) break; }] *)
Fixpoint timer_skip (fuel : nat) (nodes : gmap positive timer_element) (test : timer_element → bool)
    (tprev tnext : positive) : outcome (positive * option positive) :=
  match fuel with
  | O => OutOfFuel
  | S fuel' =>
      let* x := deref (nodes !! tnext) in
      if test x then
        match x.(tm_next) with
        | None => Done (tnext, None)
        | Some n => timer_skip fuel' nodes test tnext n
        end
      else Done (tprev, Some tnext)
  end.

(** Behind [tprev], before [tnext]. *)
Definition timer_link (q tprev : positive) (tnext : option positive) (head : timer_list) : outcome timer_list :=
  let* x := deref (head.(tl_nodes) !! tprev) in
  let nodes := <[tprev := x <| tm_next := Some q |>]> head.(tl_nodes) in
  let* y := deref (nodes !! q) in
  Done (head <| tl_nodes := <[q := y <| tm_next := tnext |>]> nodes |>).

(** The list, the result, the identifier and the calls of [rand] so far.  When the
    walk over the types reaches the end, the new timer keeps its link. *)
Definition add_timer (env : ENV) (n : nat) (head : timer_list) (new_timer : timer_element)
    : outcome (timer_list * Z * option Z * nat) :=
  let head := head <| tl_lock := 0 |> in
  if TIMER_LIST_MAX - 1 <=? head.(tl_cnt) then
    Done (head <| tl_lock := 1 |>, IGMPSNP_RETURN_CODE_OUT_RANGE, None, S n)
  else
    let* '(timer_id, n) := timer_new_id (S (timer_turns head)) env head n in
    let q := fresh (dom head.(tl_nodes)) in
    let new_timer := new_timer <| tm_id := timer_id |> in
    let put h := h <| tl_nodes := <[q := new_timer]> h.(tl_nodes) |> in
    let* head :=
      match head.(first_timer) with
      | None => Done ((put head) <| first_timer := Some q |> <| tl_cnt := 1 |>)
      | Some first =>
          let* '(tprev, tnext) :=
            timer_skip (timer_turns head) head.(tl_nodes) (fun x => new_timer.(tm_type) <? x.(tm_type)) first first in
          let* head :=
            match tnext with
            | None => timer_link q tprev new_timer.(tm_next) (put head)
            | Some t =>
                let* '(tprev, tnext) :=
                  timer_skip (timer_turns head) head.(tl_nodes)
                    (fun x => new_timer.(tm_priority) <=? x.(tm_priority)) tprev t in
                timer_link q tprev tnext (put head)
            end in
          Done (head <| tl_cnt := u32 (head.(tl_cnt) + 1) |>)
      end in
    Done (head <| tl_lock := 1 |>, IGMPSNP_RETURN_CODE_OK, Some timer_id, n).

(** The timer with the identifier, and the one before it. *)
Fixpoint timer_find (fuel : nat) (nodes : gmap positive timer_element) (id : Z) (tprev tnext : option positive)
    : outcome (option (option positive * positive)) :=
  match fuel with
  | O => OutOfFuel
  | S fuel' =>
      match tnext with
      | None => Done None
      | Some t =>
          let* x := deref (nodes !! t) in
          if x.(tm_id) =? id then Done (Some (tprev, t)) else timer_find fuel' nodes id (Some t) x.(tm_next)
      end
  end.

Definition del_timer (head : timer_list) (timer_id : Z) : outcome (timer_list * Z) :=
  if timer_id =? 0 then Done (head, -1)
  else
    let head := head <| tl_lock := 0 |> in
    let* o := timer_find (timer_turns head) head.(tl_nodes) timer_id None head.(first_timer) in
    match o with
    | None => Done (head, -1)
    | Some (tprev, t) =>
        let* x := deref (head.(tl_nodes) !! t) in
        let* head :=
          match tprev with
          | Some q =>
              let* y := deref (head.(tl_nodes) !! q) in
              Done (head <| tl_nodes := <[q := y <| tm_next := x.(tm_next) |>]> head.(tl_nodes) |>)
          | None => Done (head <| first_timer := x.(tm_next) |>)
          end in
        let cnt := u32 (head.(tl_cnt) - 1) in
        let head := head <| tl_lock := 1 |> <| tl_nodes := delete t head.(tl_nodes) |> <| tl_cnt := cnt |> in
        Done (if cnt =? 0 then head <| first_timer := None |> else head, IGMPSNP_RETURN_CODE_OK)
    end.

Fixpoint del_timers (cnt : nat) (head : timer_list) : outcome timer_list :=
  match cnt with
  | O => Done head
  | S cnt' =>
      let* head :=
        match head.(first_timer) with
        | Some t => let* x := deref (head.(tl_nodes) !! t) in
                    let* '(head, _) := del_timer head x.(tm_id) in Done head
        | None => Done head
        end in
      del_timers cnt' head
  end.
Definition del_all_timer (head : timer_list) : outcome (timer_list * Z) :=
  let* head := del_timers (Z.to_nat head.(tl_cnt)) head in Done (head, IGMPSNP_RETURN_CODE_OK).

(** Creating a timer and adding it; [None]: [add_timer] failed. *)
Definition start_timer (env : ENV) (interval : Z) (func : TIMER_FUNC) (data : TIMER_DATA) (s : IGS) : outcome (IGS * option Z) :=
  match create_timer TIMER_TYPE_NOLOOP TIMER_PRIORI_NORMAL interval func (Some data) with
  | inl _ => Done (s, None)
  | inr new_timer =>
      let* '(head, _, id, n) := add_timer env s.(rand_count) s.(igmp_timer_list) new_timer in
      Done (s <| igmp_timer_list := head |> <| rand_count := n |>, id)
  end.
