(* ===== verification/IgmpFrame.v ===== *)
(** * Frames of the IGMP snooping daemon ([igmp_snoop_main.c])

    The message from the kernel ([igmp_skb]), the frames the daemon builds, and the
    ports it sends them to.  The daemon passes [sizeof(struct igmp_skb)], 152 bytes,
    to the kernel, also of a block that has fewer: [OVER_READ] records the size of
    the block, [SEND_SKB] the bytes of the frame itself.  The daemon stores most
    fields of a header without [htons]; the bytes are those of a big-endian
    machine. *)

From Stdlib Require Import ZArith Lia.
From stdpp Require Import base gmap list option.
From S2P Require Import Prelude DList IgmpL2mc IgmpSnp IgmpList.

(** ** Constants *)

Definition IGMP_TIMEOUT_RXMT : Z := 6.
Definition IGMP_TIMEOUT_RESP : Z := 7.
Definition IGMP_MSG_GEN_QUERY : Z := 9.
Definition IGMP_MSG_GS_QUERY : Z := 10.
Definition IGMP_MSG_REPORT : Z := 11.
Definition IGMP_MSG_LEAVE : Z := 12.
Definition IGMP_MSG_V1_REPORT : Z := 13.

Definition IGMP_MEMSHIP_QUERY : Z := 0x11.
Definition IGMP_V1_MEMSHIP_REPORT : Z := 0x12.
Definition IGMP_V2_MEMSHIP_REPORT : Z := 0x16.
Definition IGMP_V2_LEAVE_GROUP : Z := 0x17.
Definition IGMP_V3_MEMSHIP_REPORT : Z := 0x22.

Definition IGMP_ALL_SYSTEM_ADDR : Z := 0xE0000001.
Definition IGMP_ALL_ROUTER_ADDR : Z := 0xE0000002.
Definition IGMP_V2_TIME_SCALE : Z := 100.
Definition IGMP_V2_SEC_2_MILL : Z := 10.
Definition IGMP_V2_QUERY_RESP_INTERVAL : Z := 500.
Definition IGMP_V1_ROUTER_PRESENT_TIMEOUT : Z := 400.
Definition IPPROTO_IGMP : Z := 2.
Definition IPPROTO_PIM : Z := 103.

(** ** The message from the kernel *)

(** [struct igmp_skb]; [skb_buf] has [IGMP_SNP_PKT_BUFSIZE] bytes. *)
Definition IGMP_SNP_PKT_BUFSIZE : nat := 128.
Definition sizeof_igmp_skb : Z := 152.
Record igmp_skb : Type := mkSkb {
  nlmsg_type : Z;
  nlmsg_flags : Z;
  skb_ifindex : Z;
  skb_vlan_id : Z;
  skb_buf : list Z }.

(** [struct igmp_info]: what the handlers use of it.  [i_saddr] is the source in
    the IP header. *)
Record igmp_info : Type := mkInfo { i_ifindex : Z; i_vlan_id : Z; i_saddr : Z; i_data : igmp_skb }.

(** [n] bytes of the buffer from [off] on. *)
Definition skb_load (buf : list Z) (off n : nat) : outcome (list Z) :=
  if decide (off + n ≤ length buf)%nat then Done (take n (drop off buf)) else Segv.
Definition skb_load_be (buf : list Z) (off n : nat) : outcome Z := let* l := skb_load buf off n in Done (be_val l).

(** ** Addresses and checksums *)

Definition igmp_snp_addr_check (Group : Z) : Z :=
  if (Group <? 0xE0000000) || (0xEFFFFFFF <? Group) then IGMPSNP_RETURN_CODE_OUT_RANGE
  else if (0xE0000000 <=? Group) && (Group <=? 0xE00000FF) then IGMPSNP_RETURN_CODE_OUT_RANGE
  else IGMPSNP_RETURN_CODE_OK.

(** The 16-bit words; an odd byte is the first one of a word. *)
Fixpoint cksum_words (l : list Z) (sum : Z) : Z :=
  match l with
  | a :: b :: l' => cksum_words l' (i32 (sum + be_val [a; b]))
  | [a] => i32 (sum + be_val [a; 0])
  | [] => sum
  end.
Definition inet_cksum (l : list Z) : Z :=
  let sum := cksum_words l 0 in
  let sum := i32 (Z.shiftr sum 16 + Z.land sum 0xffff) in
  let sum := i32 (sum + Z.shiftr sum 16) in
  u16 (Z.lnot (u16 sum)).

(** ** Building a frame *)

(** Whether a message has no option field. *)
Definition plain_message (type : Z) : bool :=
  (type =? IGMP_MSG_GEN_QUERY) || (type =? IGMP_MSG_GS_QUERY) || (type =? IGMP_MSG_V1_REPORT).

Definition igmp_snp_file_option_field : list Z := [0x94; 0x04; 0x00; 0x00].

(** Type, code and group of the IGMP header, and the destination. *)
Definition igmp_fields (pkt : PKT Z) (s : IGS) : Z * Z * Z * Z :=
  let type := pkt.(pkt_type) in
  let g := pkt.(groupadd) in
  if type =? IGMP_MSG_GEN_QUERY then
    (IGMP_MEMSHIP_QUERY, u8 (s.(igmp_resp_interval) * IGMP_V2_SEC_2_MILL), 0, IGMP_ALL_SYSTEM_ADDR)
  else if type =? IGMP_MSG_GS_QUERY then (IGMP_MEMSHIP_QUERY, u8 (s.(igmp_rxmt_interval) / IGMP_V2_TIME_SCALE), g, g)
  else if type =? IGMP_MSG_REPORT then (IGMP_V2_MEMSHIP_REPORT, 0, g, g)
  else if type =? IGMP_MSG_V1_REPORT then (IGMP_V1_MEMSHIP_REPORT, 0, g, g)
  else if type =? IGMP_MSG_LEAVE then (IGMP_V2_LEAVE_GROUP, 0, g, IGMP_ALL_ROUTER_ADDR)
  else (0, 0, g, 0).

Definition igmp_header (type code group cksum : Z) : list Z := [type; code] ++ be_bytes 2 cksum ++ be_bytes 4 group.

(** The IP header with its options. *)
Definition ip_header (options : list Z) (saddr daddr check : Z) : list Z :=
  let hlen := 20 + Z.of_nat (length options) in
  [Z.lor 0x40 (Z.shiftr hlen 2); 0] ++ be_bytes 2 (hlen + 8) ++ be_bytes 2 1 ++ be_bytes 2 0
  ++ [1; IPPROTO_IGMP] ++ be_bytes 2 check ++ be_bytes 4 saddr ++ be_bytes 4 daddr ++ options.

Definition ether_header (s : IGS) (daddr : Z) : list Z :=
  [0x01; 0x00; 0x5e; Z.land (Z.shiftr daddr 16) 0x7F; Z.land (Z.shiftr daddr 8) 0xFF; Z.land daddr 0xFF]
  ++ match s.(sysMac) with None => [0x00; 0x1f; 0x64; 0x00; 0x00; 0x01] | Some m => m end
  ++ be_bytes 2 0x0800.

Definition igmp_frame (pkt : PKT Z) (s : IGS) : list Z :=
  let options := if plain_message pkt.(pkt_type) then [] else igmp_snp_file_option_field in
  let '(type, code, group, daddr) := igmp_fields pkt s in
  let igmp := igmp_header type code group (inet_cksum (igmp_header type code group 0)) in
  let ip := ip_header options pkt.(pkt_saddr) daddr (inet_cksum (ip_header options pkt.(pkt_saddr) daddr 0)) in
  ether_header s daddr ++ ip ++ igmp.

(** ** Sending *)

Section Send.
Variable env : ENV.

(** [room] is the size of the block [msg_skb] points to. *)
Definition Igmp_Snoop_Send_Packet (frame : list Z) (room datalen vlan_id ifindex : Z) (s : IGS) : IGS :=
  if env.(kernel_fd_ok) then
    let s := if room <? sizeof_igmp_skb then igs_emit (OVER_READ room sizeof_igmp_skb) s else s in
    igs_emit (SEND_SKB ifindex vlan_id datalen frame) s
  else s.

(** More turns than ports: a port with the index of an earlier one is not reached. *)
Definition port_turns (s : IGS) : nat := S (S (length (flat_map first_port s.(p_vlanlist)))).

(** The ports of a VLAN from [unIfIndex] on, but for [skip]. *)
Fixpoint port_walk (fuel : nat) (vid skip : Z) (f : Z → IGS → outcome IGS) (unIfIndex : Z) (s : IGS) : outcome IGS :=
  match fuel with
  | O => OutOfFuel
  | S fuel' =>
      if unIfIndex <? 0 then Done s
      else
        let* s := if unIfIndex =? skip then Done s else f unIfIndex s in
        let next := match igmp_get_nextifindex_byifindex s.(p_vlanlist) vid unIfIndex with
                    | Some n => i32 n
                    | None => -1
                    end in
        port_walk fuel' vid skip f next s
  end.

(** [None]: there is no first port. *)
Definition vlan_port_walk (vid skip : Z) (f : Z → IGS → outcome IGS) (s : IGS) : option (outcome IGS) :=
  match igmp_getifindex_byvlanid s.(p_vlanlist) vid with
  | (ret, Some first) => if is_ok ret then Some (port_walk (port_turns s) vid skip f (i32 first) s) else None
  | (_, None) => None
  end.

(** A port is sent to when its link is up, and when it is listed if there is a list. *)
Definition query_port_ok (s : IGS) (ifindex : Z) : bool :=
  match s.(p_queryportlist) with
  | [] => igmp_getifstatus ifindex =? 1
  | l => existsb (Z.eqb ifindex) l && (igmp_getifstatus ifindex =? 1)
  end.

Definition Igmp_Snoop_Send_Igmp (pkt : PKT Z) (s : IGS) : outcome (IGS * Z) :=
  let ulBufLen := if plain_message pkt.(pkt_type) then 28 else 32 in
  let datalen := 14 + ulBufLen + 8 + 16 in
  let vid := pkt.(pkt_vlan_id) in
  let ifindex := pkt.(pkt_ifindex) in
  let send i s := Igmp_Snoop_Send_Packet (igmp_frame pkt s) datalen datalen vid i s in
  if pkt.(pkt_type) =? IGMP_MSG_GEN_QUERY then
    match vlan_port_walk vid ifindex (fun i s => Done (if igmp_getifstatus i =? 1 then send i s else s)) s with
    | None => Done (s, IGMPSNP_RETURN_CODE_ERROR)
    | Some m => let* s := m in Done (s, IGMPSNP_RETURN_CODE_OK)
    end
  else if pkt.(pkt_type) =? IGMP_MSG_GS_QUERY then
    Done (if query_port_ok s ifindex then send ifindex s else s, IGMPSNP_RETURN_CODE_OK)
  else Done (if igmp_getifstatus ifindex =? 1 then send ifindex s else s, IGMPSNP_RETURN_CODE_OK).

Definition igmp_snp_routerleave (lVid usIfIndex ulGroup ulSaddr : Z) (s : IGS) : outcome (IGS * Z) :=
  Igmp_Snoop_Send_Igmp (mkPkt IGMP_MSG_LEAVE usIfIndex lVid 0 ulSaddr ulGroup 0) s.

Definition igmp_snp_routerreport (lVid usIfIndex ulGroup : Z) (sk_info : igmp_info) (s : IGS) : outcome (IGS * Z) :=
  Igmp_Snoop_Send_Igmp (mkPkt IGMP_MSG_REPORT usIfIndex lVid 0 sk_info.(i_saddr) ulGroup 0) s.

(** The message goes to the other ports of the VLAN as it came. *)
Definition igmp_snp_flood (sk_info : igmp_info) (lVid usIfIndex : Z) (s : IGS) : outcome (IGS * Z) :=
  let send i s := Igmp_Snoop_Send_Packet sk_info.(i_data).(skb_buf) sizeof_igmp_skb sizeof_igmp_skb lVid i s in
  match vlan_port_walk lVid usIfIndex (fun i s => Done (if query_port_ok s i then send i s else s)) s with
  | None => Done (s, IGMPSNP_RETURN_CODE_ERROR)
  | Some m => let* s := m in Done (s, IGMPSNP_RETURN_CODE_OK)
  end.
End Send.
