(* ===== verification/IgmpRecv.v ===== *)
(** * Receiving IGMP and PIM messages ([igmp_snoop_main.c]) *)

From Stdlib Require Import ZArith Lia.
From stdpp Require Import base gmap list option.
From S2P Require Import Prelude DList IgmpL2mc IgmpSnp IgmpList IgmpGroup IgmpTimer IgmpFrame.

Definition upd_group (p : positive) (f : MC_group → MC_group) (s : IGS) : outcome IGS :=
  let* g := get_group s p in Done (put_group p (f g) s).
Definition upd_vlan (i : Z) (f : MC_group_vlan → MC_group_vlan) (s : IGS) : outcome IGS :=
  let* v := get_vlan s i in Done (put_vlan i (f v) s).

(** The member port at position [i] of the list of the group. *)
Definition upd_member (p : positive) (i : nat) (f : MC_port_state → MC_port_state) : IGS → outcome IGS :=
  upd_group p (fun g => g <| portstatelist := alter f i g.(portstatelist) |>).

Section Recv.
Variable env : ENV.

(** ** Reports *)

(** A member port of the group [p]: the search adds it, the switch is told about a
    new one, the life timer of the group stops.  [inl]: the result with which the
    caller returns; [inr]: the position of the port. *)
Definition report_port (lVid ulGroup ifindex error : Z) (p : positive) (s : IGS) : outcome (IGS * (Z + nat)) :=
  let* g := get_group s p in
  let '(l, o, lRet) := igmp_snp_searchportstatelist s g.(portstatelist) ifindex IGMP_PORT_ADD in
  let s := put_group p (g <| portstatelist := l |>) s in
  match o with
  | Some i =>
      if negb (is_ok lRet) then Done (s, inl IGMPSNP_RETURN_CODE_ERROR)
      else
        let* port := deref (l !! i) in
        let* '(s, lRet) :=
          if port.(ps_state) =? IGMP_SNP_GROUP_NOMEMBER then
            igmp_snp_mod_addr env (mkPkt IGMP_ADDR_ADD ifindex lVid g.(mgroup_id) 0 ulGroup 0) IGMP_ADDR_ADD s
          else Done (s, IGMPSNP_RETURN_CODE_OK) in
        if negb (is_ok lRet) then Done (s, inl error)
        else
          let* s := upd_group p (fun g => g <| grouplifetimer_id := 0 |>) s in
          let* s := upd_member p i (fun port => if port.(ps_state) =? IGMP_SNP_V1_MEMBER then port
                                             else port <| ps_state := IGMP_SNP_HAS_MEMBER |>) s in
          Done (s, inr i)
  | None => Done (s, inl IGMPSNP_RETURN_CODE_ERROR)
  end.

(** The reporter ports of the VLAN, but for the port of the message. *)
Fixpoint reporter_ports (lVid ulGroup ulIfIndex : Z) (p : positive) (l : list Z) (s : IGS) : outcome (IGS * option Z) :=
  match l with
  | [] => Done (s, None)
  | i :: l' =>
      if negb (ulIfIndex =? i) then
        let* '(s, r) := report_port lVid ulGroup i IGMPSNP_RETURN_CODE_ERROR_HW p s in
        match r with inl e => Done (s, Some e) | inr _ => reporter_ports lVid ulGroup ulIfIndex p l' s end
      else reporter_ports lVid ulGroup ulIfIndex p l' s
  end.

(** The first report of a group is passed on to the router ports. *)
Definition report_routers (lVid ulGroup : Z) (sk_info : igmp_info) (p : positive) (idx : Z) (s : IGS) : outcome IGS :=
  let* g := get_group s p in
  match g.(portstatelist) with
  | [] =>
      let* v := get_vlan s idx in
      let* routers := rwalk v.(routerlist) in
      let* s := foldM (fun r s => let* '(s, _) := igmp_snp_routerreport env lVid r.(mroute_ifindex) ulGroup sk_info s in Done s)
                  routers s in
      upd_group p (fun g => g <| router_reporttimer := 100 |>) s
  | _ => Done s
  end.

(** What follows once the group is there. *)
Definition report_group (ulGroup lVid ulType ulIfIndex : Z) (sk_info : igmp_info) (p : positive) (idx : Z) (s : IGS)
    : outcome (IGS * Z) :=
  let* s := report_routers lVid ulGroup sk_info p idx s in
  let* '(_, pReporter, ret) := igmp_snp_searchreporterlist lVid 0 IGMP_PORT_QUERY s.(p_reporterlist) in
  if negb (is_ok ret) then Done (s, IGMPSNP_RETURN_CODE_ERROR)
  else
    let* '(s, e) := reporter_ports lVid ulGroup ulIfIndex p (default [] pReporter) s in
    match e with
    | Some e => Done (s, e)
    | None =>
        let* '(s, r) := report_port lVid ulGroup ulIfIndex IGMPSNP_RETURN_CODE_ERROR p s in
        match r with
        | inl e => Done (s, e)
        | inr i =>
            let* discard := Igmp_Snoop_IF_Recv_Is_Report_Discard lVid ulIfIndex s in
            if (discard : bool) then Done (s, IGMPSNP_RETURN_CODE_ERROR)
            else
              let* s := upd_member p i (fun port => port <| membertimer_id := member_interval s |>) s in
              let* s :=
                if IGMP_V1_MEMSHIP_REPORT =? ulType then
                  upd_member p i (fun port => port <| ps_state := IGMP_SNP_V1_MEMBER |>
                                                 <| hosttimer_id := IGMP_V1_ROUTER_PRESENT_TIMEOUT |>) s
                else Done s in
              let* s := upd_group p (fun g => g <| report_ipadd := sk_info.(i_saddr) |>) s in
              Done (s, IGMPSNP_RETURN_CODE_OK)
        end
    end.

Definition igmp_recv_report (usIfIndex ulGroup lVid ulType : Z) (sk_info : igmp_info) (s : IGS) : outcome (IGS * Z) :=
  if negb (is_ok (igmp_snp_addr_check ulGroup)) then Done (s, IGMPSNP_RETURN_CODE_OK)
  else
    let* '(s, ret, pMcGroup, pPrevGroupVlan) := igmp_snp_searchvlangroup env lVid ulGroup s in
    if negb (is_ok ret) then Done (s, IGMPSNP_RETURN_CODE_VLAN_NOT_EXIST)
    else
      let ulIfIndex := trunk_or_port s.(p_vlanlist) lVid usIfIndex in
      match pMcGroup with
      | Some p =>
          let* idx := deref pPrevGroupVlan in
          report_group ulGroup lVid ulType ulIfIndex sk_info p idx s
      | None =>
          let* '(s, o) := igmp_creat_group_node lVid ulGroup ulIfIndex pPrevGroupVlan s in
          match o with
          | None => Done (s, IGMPSNP_RETURN_CODE_ERROR)
          | Some (p, idx) => report_group ulGroup lVid ulType ulIfIndex sk_info p idx s
          end
      end.

(** ** Leaves *)

Definition igmp_recv_leave (usIfIndex ulGroup lVid : Z) (s : IGS) : outcome (IGS * Z) :=
  if negb (is_ok (igmp_snp_addr_check ulGroup)) then Done (s, IGMPSNP_RETURN_CODE_OK)
  else
    let* '(s, ret, pMcGroup, pPrevGroupVlan) := igmp_snp_searchvlangroup env lVid ulGroup s in
    if negb (is_ok ret) then Done (s, IGMPSNP_RETURN_CODE_ERROR)
    else
      match pMcGroup with
      | None => Done (s, IGMPSNP_RETURN_CODE_GROUP_NOTEXIST)
      | Some p =>
          let ulIfIndex := trunk_or_port s.(p_vlanlist) lVid usIfIndex in
          let* discard := Igmp_Snoop_IF_Recv_Is_Report_Discard lVid ulIfIndex s in
          if (discard : bool) then Done (s, IGMPSNP_RETURN_CODE_ERROR)
          else
            let* g := get_group s p in
            match igmp_snp_searchportstatelist s g.(portstatelist) ulIfIndex IGMP_PORT_QUERY with
            | (_, None, _) => Done (s, IGMPSNP_RETURN_CODE_OK)
            | (_, Some i, _) =>
                let* s := upd_member p i (fun port => port <| ps_state := IGMP_SNP_CHECK_MEMBER |>) s in
                let* idx := deref pPrevGroupVlan in
                let* v := get_vlan s idx in
                let* '(s, ret) := Igmp_Snoop_Send_Igmp env (mkPkt IGMP_MSG_GS_QUERY ulIfIndex lVid 0 v.(v_saddr) ulGroup 0) s in
                if negb (is_ok ret) then Done (s, IGMPSNP_RETURN_CODE_ERROR)
                else
                  let* '(ret, ulVidx) := L2mc_Entry_GetVidx s.(p_l2mc) lVid ulGroup in
                  if negb (is_ok ret) then Done (s, IGMPSNP_RETURN_CODE_ERROR)
                  else
                    let pkt := mkPkt IGMP_TIMEOUT_RXMT ulIfIndex lVid ulVidx 0 ulGroup (u16 (s.(igmp_robust_variable) - 1)) in
                    let* '(s, id) := start_timer env s.(igmp_rxmt_interval) RXMT_TIMEOUT (IGMP_DATA pkt) s in
                    Done (s, match id with Some _ => IGMPSNP_RETURN_CODE_OK | None => IGMPSNP_RETURN_CODE_ADD_TIMER_ERROR end)
            end
      end.

(** ** Queries *)

(** The entry of the router port, or a new one at the end of the list. *)
Fixpoint router_upsert (ifindex : Z) (set : igmp_router_entry → igmp_router_entry) (l : RLIST) : outcome RLIST :=
  match l with
  | RDangling => Segv
  | RNil => Done (RCons (set (mkRouter ifindex 0 no_v6 0)) RNil)
  | RCons e l' =>
      if e.(mroute_ifindex) =? ifindex then Done (RCons (set e) l')
      else let* l' := router_upsert ifindex set l' in Done (RCons e l')
  end.
Definition router_learn (ifindex saddr timeout : Z) : RLIST → outcome RLIST :=
  router_upsert ifindex (fun e => e <| re_saddr := saddr |> <| re_timer_id := timeout |>).

(** The timer of a response to a query. *)
Definition resp_timer (vid group ifindex interval : Z) (s : IGS) : outcome (IGS * option Z) :=
  start_timer env interval RESP_TIMEOUT (IGMP_DATA (mkPkt IGMP_TIMEOUT_RESP ifindex vid 0 0 group 0)) s.

(** [rand() % (LONG)m] *)
Definition igmp_rand_mod (m : Z) (s : IGS) : outcome (IGS * Z) :=
  if i32 m =? 0 then Segv
  else Done (s <| rand_count := S s.(rand_count) |>, u32 (Z.rem (env.(rand) s.(rand_count)) (i32 m))).

Definition resp_interval (maxresptime : Z) : Z :=
  if 0 <? maxresptime then maxresptime * IGMP_V2_TIME_SCALE else IGMP_V2_QUERY_RESP_INTERVAL * 1000.

(** The router port becomes known to the VLAN. *)
Definition query_learn (vid ifindex saddr : Z) (idx : Z) (s : IGS) : outcome IGS :=
  let '(l, o, _) := igmp_snp_searchrouterportlist vid ifindex IGMP_PORT_ADD None s.(p_routerlist) in
  let s := s <| p_routerlist := l |> in
  match o with
  | None => Done s
  | Some i =>
      let s := s <| p_routerlist := alter (fun r => mkRouterPort r.(rp_vlan_id) r.(rp_ifindex) saddr r.(routeport_saddrv6)) i l |> in
      let* v := get_vlan s idx in
      let* rl := router_learn ifindex saddr s.(igmp_router_timeout) v.(routerlist) in
      Done (put_vlan idx (v <| routerlist := rl |>) s)
  end.

(** The group of the query answers after a random time. *)
Definition query_group (vid group ifindex maxresptime : Z) (p : positive) (s : IGS) : outcome (IGS * Z) :=
  let* g := get_group s p in
  match g.(portstatelist) with
  | [] => Done (s, IGMPSNP_RETURN_CODE_OK)
  | _ =>
      let* '(s, t) := igmp_rand_mod (resp_interval maxresptime) s in
      let* s := upd_group p (fun g => g <| resposetime := t |>) s in
      let* '(s, id) := resp_timer vid group ifindex t s in
      match id with
      | None => Done (s, IGMPSNP_RETURN_CODE_ADD_TIMER_ERROR)
      | Some id => let* s := upd_group p (fun g => g <| resposetime_id := id |>) s in Done (s, IGMPSNP_RETURN_CODE_OK)
      end
  end.

(** A general query that found a group, one without an IPv4 address.  The interval
    that was drawn is not used. *)
Definition query_vlan (vid ifindex : Z) (p : positive) (idx : Z) (s : IGS) : outcome (IGS * Z) :=
  let* v := get_vlan s idx in
  match v.(firstgroup) with
  | None => Done (s, IGMPSNP_RETURN_CODE_OK)
  | Some _ =>
      let* g := get_group s p in
      let* '(s, _) := igmp_rand_mod g.(resposetime) s in
      let* '(s, id) := resp_timer vid 0 ifindex g.(resposetime) s in
      Done (s, match id with Some _ => IGMPSNP_RETURN_CODE_OK | None => IGMPSNP_RETURN_CODE_ADD_TIMER_ERROR end)
  end.

Definition igmp_recv_query (ifindex maxresptime group lVid : Z) (sk_info : igmp_info) (s : IGS) : outcome (IGS * Z) :=
  if negb (group =? 0) && negb (is_ok (igmp_snp_addr_check group)) then Done (s, IGMPSNP_RETURN_CODE_ERROR)
  else
    let s := if s.(queryRxFlag) =? IGMP_SNOOP_NO then s <| queryRxFlag := IGMP_SNOOP_YES |> else s in
    let* '(s, ret, t_mcgroup, t_mcgroupvlan) := igmp_snp_searchvlangroup env lVid group s in
    if negb (is_ok ret) then Done (s, IGMPSNP_RETURN_CODE_ERROR)
    else
      let t_ifindex := trunk_or_port s.(p_vlanlist) lVid ifindex in
      let flood := let* '(s, _) := igmp_snp_flood env sk_info lVid t_ifindex s in Done (s, IGMPSNP_RETURN_CODE_OK) in
      match t_mcgroupvlan with
      | None => flood
      | Some idx =>
          let* v := get_vlan s idx in
          if negb (v.(vlan_id) =? lVid) && (group =? 0) then flood
          else if negb (from_option (fun _ => true) false t_mcgroup) && (group =? 0) then flood
          else
            let* s := query_learn lVid t_ifindex sk_info.(i_saddr) idx s in
            match t_mcgroup with
            | Some p =>
                if negb (group =? 0) then query_group lVid group t_ifindex maxresptime p s
                else if v.(vlan_id) =? lVid then query_vlan lVid t_ifindex p idx s
                else Done (s, IGMPSNP_RETURN_CODE_OK)
            | None => Done (s, IGMPSNP_RETURN_CODE_OK)
            end
      end.

Definition igmp_recv_unknown (sk_info : igmp_info) (s : IGS) : outcome (IGS * Z) :=
  let* '(s, _) := igmp_snp_flood env sk_info sk_info.(i_vlan_id) sk_info.(i_ifindex) s in Done (s, IGMPSNP_RETURN_CODE_OK).

(** ** PIM *)

(** A source becomes a router port of the VLAN, unless the list of all router ports
    has one of this VLAN already. *)
Definition igmp_snp_pim_msghandle (ulGoup ulIfindex lVid ulSrcAddr : Z) (s : IGS) : outcome (IGS * Z) :=
  let* '(s, ret, _, pPrevGroupVlan) := igmp_snp_searchvlangroup env lVid ulGoup s in
  if negb (is_ok ret) then Done (s, IGMPSNP_RETURN_CODE_ERROR)
  else
    let ulIfindex := trunk_or_port s.(p_vlanlist) lVid ulIfindex in
    match pPrevGroupVlan with
    | None => Done (s, IGMPSNP_RETURN_CODE_OK)
    | Some idx =>
        let '(_, pRouter, _) := igmp_snp_searchrouterportlist lVid ulIfindex IGMP_PORT_QUERY None s.(p_routerlist) in
        match pRouter with
        | Some _ => Done (s, IGMPSNP_RETURN_CODE_OK)
        | None =>
            if ulSrcAddr =? 0 then Done (s, IGMPSNP_RETURN_CODE_OK)
            else
              let* v := get_vlan s idx in
              let* rl := router_learn ulIfindex ulSrcAddr s.(igmp_router_timeout) v.(routerlist) in
              Done (put_vlan idx (v <| routerlist := rl |>) s, IGMPSNP_RETURN_CODE_OK)
        end
    end.

(** The IP header is read eight bytes too far; port and VLAN are read from the
    Ethernet addresses. *)
Definition pim_recv_msg (msg_skb : igmp_skb) (s : IGS) : outcome (IGS * Z) :=
  let buf := msg_skb.(skb_buf) in
  let ip := 22%nat in
  let* ulSrcaddr := skb_load_be buf (ip + 12) 4 in
  let* b := skb_load_be buf ip 1 in
  let* hdr := skb_load buf ip (4 * Z.to_nat (Z.land b 0xF)) in
  if negb (inet_cksum hdr =? 0) then Done (s, IGMPSNP_RETURN_CODE_ERROR_SW)
  else
    let* pim := skb_load buf (ip + 20) 4 in
    if negb (inet_cksum pim =? 0) then Done (s, IGMPSNP_RETURN_CODE_ERROR_SW)
    else
      let* ifindex := skb_load_be buf 0 4 in
      let* lVid := skb_load_be buf 4 4 in
      let* t := skb_load_be buf (ip + 20) 1 in
      if Z.land t 0xF =? 0 then
        if (Z.shiftr t 4 =? 1) || (Z.shiftr t 4 =? 2) then
          let* '(s, _) := igmp_snp_pim_msghandle 0 ifindex (i32 lVid) ulSrcaddr s in Done (s, IGMPSNP_RETURN_CODE_OK)
        else Done (s, IGMPSNP_RETURN_CODE_ERROR)
      else Done (s, IGMPSNP_RETURN_CODE_OK).

(** ** Messages *)

(** The group of a message: of the only record of a version 3 report. *)
Definition message_group (buf : list Z) (igmp : nat) (type : Z) : outcome (option Z) :=
  if negb (type =? IGMP_V3_MEMSHIP_REPORT) then let* g := skb_load_be buf (igmp + 4) 4 in Done (Some g)
  else
    let* n := skb_load_be buf (igmp + 6) 2 in
    if 1 <? n then Done None else let* g := skb_load_be buf (igmp + 12) 4 in Done (Some g).

Definition igmp_skb_proc (msg_skb : igmp_skb) (s : IGS) : outcome (IGS * Z) :=
  let buf := msg_skb.(skb_buf) in
  let vid := msg_skb.(skb_vlan_id) in
  let ifindex := msg_skb.(skb_ifindex) in
  if negb (default IGMPSNP_RETURN_CODE_OK (snd (igmp_vlanisused s.(p_vlanlist) vid)) =? 1) then Done (s, IGMPSNP_RETURN_CODE_ERROR)
  else if negb (is_ok (igmp_is_vlan_ifindex s.(p_vlanlist) vid ifindex)) then Done (s, IGMPSNP_RETURN_CODE_ERROR)
  else
    let ip := if snd (igmp_vlanportrelation ifindex vid) =? 1 then 18%nat else 14%nat in
    let* protocol := skb_load_be buf (ip + 9) 1 in
    if protocol =? IPPROTO_PIM then let* '(s, _) := pim_recv_msg msg_skb s in Done (s, IGMPSNP_RETURN_CODE_OK)
    else
      let* b := skb_load_be buf ip 1 in
      let igmp := (ip + 4 * Z.to_nat (Z.land b 0xF))%nat in
      let* type := skb_load_be buf igmp 1 in
      let* code := skb_load_be buf (igmp + 1) 1 in
      let* o := message_group buf igmp type in
      match o with
      | None => Done (s, IGMPSNP_RETURN_CODE_ERROR)
      | Some group_ip =>
          let* ttl := skb_load_be buf (ip + 8) 1 in
          let* saddr := skb_load_be buf (ip + 12) 4 in
          if negb (ttl =? 1) then Done (s, IGMPSNP_RETURN_CODE_ERROR_SW)
          else
            let info := mkInfo ifindex vid saddr msg_skb in
            let* '(s, _) :=
              if type =? IGMP_MEMSHIP_QUERY then igmp_recv_query ifindex code group_ip vid info s
              else if (type =? IGMP_V3_MEMSHIP_REPORT) || (type =? IGMP_V1_MEMSHIP_REPORT) || (type =? IGMP_V2_MEMSHIP_REPORT)
              then igmp_recv_report ifindex group_ip vid type info s
              else if type =? IGMP_V2_LEAVE_GROUP then igmp_recv_leave ifindex group_ip vid s
              else igmp_recv_unknown info s in
            Done (s, IGMPSNP_RETURN_CODE_OK)
      end.

(** A multicast packet of a group that the switch does not know. *)
Definition igmp_recv_pktdata_proc (msg_skb : igmp_skb) (s : IGS) : outcome (IGS * Z) :=
  let buf := msg_skb.(skb_buf) in
  let vid := msg_skb.(skb_vlan_id) in
  let ifindex := msg_skb.(skb_ifindex) in
  let* tag := skb_load_be buf 12 2 in
  let ip := if tag =? 0x8100 then 18%nat else 14%nat in
  let* ulGroup := skb_load_be buf (ip + 16) 4 in
  let* ttl := skb_load_be buf (ip + 8) 1 in
  if ttl <? 1 then Done (s, IGMPSNP_RETURN_CODE_ERROR)
  else
    let* b := skb_load_be buf ip 1 in
    let* hdr := skb_load buf ip (4 * Z.to_nat (Z.land b 0xF)) in
    if negb (inet_cksum hdr =? 0) then Done (s, IGMPSNP_RETURN_CODE_ERROR)
    else
      let* '(s, ret, pMcGroup, pPrevGroupVlan) := igmp_snp_searchvlangroup env vid ulGroup s in
      if negb (is_ok ret) then Done (s, IGMPSNP_RETURN_CODE_GROUP_NOTEXIST)
      else
        match pMcGroup with
        | Some _ => Done (s, IGMPSNP_RETURN_CODE_OK)
        | None =>
            let* '(s, o) := igmp_creat_group_node vid ulGroup ifindex pPrevGroupVlan s in
            match o with
            | None => Done (s, IGMPSNP_RETURN_CODE_ERROR)
            | Some (p, _) =>
                let* g := get_group s p in
                let* '(s, lRet) :=
                  igmp_snp_mod_addr env (mkPkt IGMP_ADDR_ADD ifindex vid g.(mgroup_id) 0 ulGroup 0) IGMP_ADDR_ADD s in
                if negb (is_ok lRet) then Done (s, IGMPSNP_RETURN_CODE_ERROR_HW)
                else
                  let* s := upd_group p (fun g => g <| grouplifetimer_id := g.(grouplifetime) |>) s in
                  Done (s, IGMPSNP_RETURN_CODE_OK)
            end
        end.
End Recv.
