(* ===== verification/Mld.v ===== *)
(** * MLD snooping ([mld_snoop_main.c])

    The daemon snoops MLD for IPv6 as it snoops IGMP for IPv4, on the same state: a
    group of MLD has an IPv6 address and no IPv4 address.  An IPv6 address is a list
    of eight 16-bit words, as the code has it; [mld_copy_ipv6addr] is assignment.
    The functions that write a frame leave out [htons]: the bytes are those of a
    big-endian machine, where [ntohs] is the identity. *)

From Stdlib Require Import ZArith Lia.
From stdpp Require Import base gmap list option.
From S2P Require Import Prelude DList IgmpL2mc IgmpSnp IgmpList IgmpGroup IgmpTimer IgmpFrame IgmpRecv.

(** ** Constants and addresses *)

Definition MLD_MEMSHIP_QUERY : Z := 0x82.
Definition MLD_V1_MEMSHIP_REPORT : Z := 0x83.
Definition MLD_V1_LEAVE_GROUP : Z := 0x84.
Definition MLD_V2_MEMSHIP_REPORT : Z := 0x8F.

(** [enum mldpkttype]; the first values are those of IGMP. *)
Definition MLD_TIMEOUT_RXMT : Z := 6.
Definition MLD_MSG_GEN_QUERY : Z := 9.
Definition MLD_MSG_GS_QUERY : Z := 10.
Definition MLD_MSG_REPORT : Z := 11.
Definition MLD_MSG_LEAVE : Z := 12.
Definition MLD_MSG_V2_REPORT : Z := 13.

Definition IPV6_HEADER_LEN : nat := 40.
Definition MLD_IPV6_OPTION_LEN : nat := 8.
Definition MLD_HOP_LIMIT : Z := 1.

Definition all_system_addr : list Z := [0xFF02; 0; 0; 0; 0; 0; 0; 0x01].
Definition all_route_addr : list Z := [0xFF02; 0; 0; 0; 0; 0; 0; 0x02].
Definition all_mldv2_route_addr : list Z := [0xFF02; 0; 0; 0; 0; 0; 0; 0x16].

(** The words of a string of bytes, and back. *)
Fixpoint v6_words (l : list Z) : list Z :=
  match l with a :: b :: l' => be_val [a; b] :: v6_words l' | _ => [] end.
Definition v6_bytes (a : list Z) : list Z := flat_map (be_bytes 2) a.

(** [MLD_RETURN_CODE_EQUAL == mld_v6addr_equal_0(group)] *)
Definition mld_v6addr_equal_0 (group : list Z) : bool := mld_compare_ipv6addr group no_v6.

(** Every word through [ntohs], and the words in the opposite order. *)
Definition mld_ntohs (group : list Z) : list Z := rev group.

Definition mld_snp_addr_check (group : list Z) : Z :=
  let w := default 0 (head group) in
  if (w <? 0xFF00) || (0xFF7F <? w) then IGMPSNP_RETURN_CODE_OUT_RANGE
  else if (0xFF00 <=? w) && (w <? 0xFF10) then IGMPSNP_RETURN_CODE_OUT_RANGE
  else IGMPSNP_RETURN_CODE_OK.

(** [struct mld_info]: what the handlers use of it.  [mi_saddr] is the source in the
    IPv6 header. *)
Record mld_info : Type := mkMldInfo { mi_ifindex : Z; mi_vlan_id : Z; mi_saddr : list Z; mi_data : igmp_skb }.

(** An address of the buffer. *)
Definition skb_load_v6 (buf : list Z) (off : nat) : outcome (list Z) := let* l := skb_load buf off 16 in Done (v6_words l).

(** ** Building a frame *)

(** The router alert option in its hop-by-hop header. *)
Definition mld_snp_file_option_field : list Z := [0x3A; 0x00; 0x05; 0x02; 0x00; 0x00; 0x01; 0x00].

(** [struct mld] and [struct mldv2] *)
Definition mld_header (type cksum maxresp : Z) (group : list Z) : list Z :=
  [type; 0] ++ be_bytes 2 cksum ++ be_bytes 2 maxresp ++ be_bytes 2 0 ++ v6_bytes group.
Definition mldv2_header (checksum naddrc rec_type numofsrc : Z) (group : list Z) : list Z :=
  [MLD_V2_MEMSHIP_REPORT; 0] ++ be_bytes 2 checksum ++ be_bytes 2 0 ++ be_bytes 2 naddrc
  ++ [rec_type; 0] ++ be_bytes 2 numofsrc ++ v6_bytes group.

(** Type, response time and destination of a message that is not of version 2. *)
Definition mld_fields (pkt : PKT (list Z)) (s : IGS) : option (Z * Z * list Z) :=
  let type := pkt.(pkt_type) in
  if type =? MLD_MSG_GEN_QUERY then Some (MLD_MEMSHIP_QUERY, u16 (s.(igmp_resp_interval) * IGMP_V2_SEC_2_MILL), all_system_addr)
  else if type =? MLD_MSG_GS_QUERY then Some (MLD_MEMSHIP_QUERY, u16 (s.(igmp_rxmt_interval) / IGMP_V2_TIME_SCALE), all_system_addr)
  else if type =? MLD_MSG_REPORT then Some (MLD_V1_MEMSHIP_REPORT, 0, pkt.(groupadd))
  else if type =? MLD_MSG_LEAVE then Some (MLD_V1_LEAVE_GROUP, 0, all_route_addr)
  else None.

(** The message and its destination.  The checksum is computed before the group is
    stored, and without a pseudo header.  A type without a message leaves the
    pointer to it NULL. *)
Definition mld_message (pkt : PKT (list Z)) (s : IGS) : outcome (list Z * list Z) :=
  if pkt.(pkt_type) =? MLD_MSG_V2_REPORT then
    let checksum := inet_cksum (mldv2_header 0 0 0 0 no_v6) in
    Done (mldv2_header checksum 1 0x04 1 pkt.(groupadd), all_mldv2_route_addr)
  else
    match mld_fields pkt s with
    | None => Segv
    | Some (type, maxresp, daddr) =>
        Done (mld_header type (inet_cksum (mld_header type 0 maxresp no_v6)) maxresp pkt.(groupadd), daddr)
    end.

Definition ipv6_header (payload_len : Z) (saddr daddr : list Z) : list Z :=
  [0x60; 0; 0; 0] ++ be_bytes 2 payload_len ++ [0; MLD_HOP_LIMIT] ++ v6_bytes saddr ++ v6_bytes daddr.

Definition ether_header_v6 (s : IGS) (daddr : list Z) : list Z :=
  [0x33; 0x33] ++ v6_bytes (drop 6 daddr)
  ++ match s.(sysMac) with None => [0x33; 0x33; 0x00; 0x00; 0x00; 0x01] | Some m => m end
  ++ be_bytes 2 0x86DD.

Definition mld_frame (pkt : PKT (list Z)) (s : IGS) : outcome (list Z) :=
  let* '(mld, daddr) := mld_message pkt s in
  let payload_len := Z.of_nat (length mld + MLD_IPV6_OPTION_LEN) in
  Done (ether_header_v6 s daddr ++ ipv6_header payload_len pkt.(pkt_saddr) daddr ++ mld_snp_file_option_field ++ mld).

Section Mld.
Variable env : ENV.

(** ** Sending *)

(** [ulBufLen] *)
Definition mld_buf_len (type : Z) : Z :=
  if (type =? MLD_MSG_GEN_QUERY) || (type =? MLD_MSG_GS_QUERY) || (type =? MLD_MSG_REPORT) || (type =? MLD_MSG_LEAVE)
  then 72 else 76.

Definition mld_Snoop_Send_mld (pkt : PKT (list Z)) (s : IGS) : outcome (IGS * Z) :=
  let* frame := mld_frame pkt s in
  let datalen := 14 + mld_buf_len pkt.(pkt_type) + 8 + 16 in
  let vid := pkt.(pkt_vlan_id) in
  let ifindex := pkt.(pkt_ifindex) in
  let send i s := Igmp_Snoop_Send_Packet env frame datalen datalen vid i s in
  if pkt.(pkt_type) =? MLD_MSG_GEN_QUERY then
    match vlan_port_walk vid ifindex (fun i s => Done (if igmp_getifstatus i =? 1 then send i s else s)) s with
    | None => Done (s, IGMPSNP_RETURN_CODE_ERROR)
    | Some m => let* s := m in Done (s, IGMPSNP_RETURN_CODE_OK)
    end
  else if pkt.(pkt_type) =? IGMP_MSG_GS_QUERY then
    Done (if query_port_ok s ifindex then send ifindex s else s, IGMPSNP_RETURN_CODE_OK)
  else Done (if igmp_getifstatus ifindex =? 1 then send ifindex s else s, IGMPSNP_RETURN_CODE_OK).

Definition mld_snp_routerleave (lVid usIfIndex : Z) (ulGroup ulSaddr : list Z) (s : IGS) : outcome (IGS * Z) :=
  mld_Snoop_Send_mld (mkPkt MLD_MSG_LEAVE usIfIndex lVid 0 ulSaddr ulGroup 0) s.

Definition mld_snp_routerreport (lVid usIfIndex : Z) (ulGroup : list Z) (sk_info : mld_info) (s : IGS) : outcome (IGS * Z) :=
  mld_Snoop_Send_mld (mkPkt MLD_MSG_REPORT usIfIndex lVid 0 sk_info.(mi_saddr) ulGroup 0) s.

Definition mld_snp_flood (sk_info : mld_info) (lVid usIfIndex : Z) (s : IGS) : outcome (IGS * Z) :=
  let send i s := Igmp_Snoop_Send_Packet env sk_info.(mi_data).(skb_buf) sizeof_igmp_skb sizeof_igmp_skb lVid i s in
  match vlan_port_walk lVid usIfIndex (fun i s => Done (if query_port_ok s i then send i s else s)) s with
  | None => Done (s, IGMPSNP_RETURN_CODE_ERROR)
  | Some m => let* s := m in Done (s, IGMPSNP_RETURN_CODE_OK)
  end.

(** ** Groups *)

Definition mld_snp_groupcheck (vid : Z) (s : IGS) : outcome (IGS * Z) :=
  if default 0 (snd (igmp_vlanisused s.(p_vlanlist) vid)) =? 0 then
    let* s := mld_snp_del_mcgroupvlan env vid s in Done (s, IGMPSNP_RETURN_CODE_VLAN_NOT_EXIST)
  else Done (s, IGMPSNP_RETURN_CODE_OK).

Fixpoint mld_find_group (fuel : nat) (s : IGS) (ulGroup : list Z) (p : option positive) : outcome (option positive) :=
  match fuel with
  | O => OutOfFuel
  | S fuel' =>
      match p with
      | None => Done None
      | Some p =>
          let* g := get_group s p in
          if mld_compare_ipv6addr g.(MC_v6ipadd) ulGroup then Done (Some p) else mld_find_group fuel' s ulGroup g.(g_next)
      end
  end.

(** The result, [*ppMcGroup] (NULL before the call) and [*ppPrevGroupVlan]. *)
Definition mld_snp_searchvlangroup (vid : Z) (ulGroup : list Z) (s : IGS) : outcome (IGS * Z * option positive * option Z) :=
  let pCurrent := first_vlan s in
  let* '(s, ret) := mld_snp_groupcheck vid s in
  if negb (is_ok ret) then Done (s, IGMPSNP_RETURN_CODE_VLAN_NOT_EXIST, None, pCurrent)
  else
    let* o := find_vlan queue_turns s vid pCurrent in
    match o with
    | None => Done (s, IGMPSNP_RETURN_CODE_OK, None, None)
    | Some p =>
        let* v := get_vlan s p in
        let* g := mld_find_group (group_turns s) s ulGroup v.(firstgroup) in
        Done (s, IGMPSNP_RETURN_CODE_OK, g, Some p)
    end.

(** The router ports of the VLAN as router entries; here the block is cleared with
    its own size. *)
Fixpoint mld_router_entries (fuel : nat) (vid : Z) (cursor : option nat) (l : list igmp_routerport)
    : outcome (list igmp_router_entry) :=
  match fuel with
  | O => OutOfFuel
  | S fuel' =>
      match query_router vid cursor l with
      | None => Done []
      | Some i =>
          let* r := deref (l !! i) in
          let* rest := mld_router_entries fuel' vid (Some i) l in
          Done (mkRouter r.(rp_ifindex) 0 r.(routeport_saddrv6) 0 :: rest)
      end
  end.

(** [None]: there are too many groups. *)
Definition mld_creat_group_node (vid : Z) (ulGroup : list Z) (usIfIndex : Z) (prev : option Z) (s : IGS)
    : outcome (IGS * option (positive * Z)) :=
  if igmp_getmaxgroupcnt usIfIndex <? s.(mld_groupcount) then Done (s, None)
  else
    let pGroup := mkGroup None None 0 ulGroup 0 no_v6 vid 0 s.(igmp_grouplife) s.(igmp_grouplife) 0 0 [] 0 0 in
    let* routers := mld_router_entries (S (length s.(p_routerlist))) vid None s.(p_routerlist) in
    insert_group vid pGroup routers (fun s => s <| mld_groupcount := u32 (s.(mld_groupcount) + 1) |>) prev s.

(** ** Reports *)

(** As [report_port]. *)
Definition mld_report_port (lVid : Z) (ulGroup : list Z) (ifindex error : Z) (p : positive) (s : IGS) : outcome (IGS * (Z + nat)) :=
  let* g := get_group s p in
  let '(l, o, lRet) := igmp_snp_searchportstatelist s g.(portstatelist) ifindex IGMP_PORT_ADD in
  let s := put_group p (g <| portstatelist := l |>) s in
  match o with
  | Some i =>
      if negb (is_ok lRet) then Done (s, inl IGMPSNP_RETURN_CODE_ERROR)
      else
        let* port := deref (l !! i) in
        let* '(s, lRet) :=
          if port.(ps_state) =? IGMP_SNP_GROUP_NOMEMBER then
            mld_snp_mod_addr env (mkPkt IGMP_ADDR_ADD ifindex lVid g.(mgroup_id) no_v6 ulGroup 0) IGMP_ADDR_ADD s
          else Done (s, IGMPSNP_RETURN_CODE_OK) in
        if negb (is_ok lRet) then Done (s, inl error)
        else
          let* s := upd_group p (fun g => g <| grouplifetimer_id := 0 |>) s in
          let* s := upd_member p i (fun port => port <| ps_state := IGMP_SNP_HAS_MEMBER |>) s in
          Done (s, inr i)
  | None => Done (s, inl IGMPSNP_RETURN_CODE_ERROR)
  end.

Fixpoint mld_reporter_ports (lVid : Z) (ulGroup : list Z) (ulIfIndex : Z) (p : positive) (l : list Z) (s : IGS)
    : outcome (IGS * option Z) :=
  match l with
  | [] => Done (s, None)
  | i :: l' =>
      if negb (ulIfIndex =? i) then
        let* '(s, r) := mld_report_port lVid ulGroup i IGMPSNP_RETURN_CODE_ERROR_HW p s in
        match r with inl e => Done (s, Some e) | inr _ => mld_reporter_ports lVid ulGroup ulIfIndex p l' s end
      else mld_reporter_ports lVid ulGroup ulIfIndex p l' s
  end.

Definition mld_report_routers (lVid : Z) (ulGroup : list Z) (sk_info : mld_info) (p : positive) (idx : Z) (s : IGS) : outcome IGS :=
  let* g := get_group s p in
  match g.(portstatelist) with
  | [] =>
      let* v := get_vlan s idx in
      let* routers := rwalk v.(routerlist) in
      let* s := foldM (fun r s => let* '(s, _) := mld_snp_routerreport lVid r.(mroute_ifindex) ulGroup sk_info s in Done s)
                  routers s in
      upd_group p (fun g => g <| router_reporttimer := 100 |>) s
  | _ => Done s
  end.

(** What follows once the group is there.  The source of the report is kept with its
    words in the opposite order. *)
Definition mld_report_group (ulGroup : list Z) (lVid ulIfIndex : Z) (sk_info : mld_info) (p : positive) (idx : Z) (s : IGS)
    : outcome (IGS * Z) :=
  let* s := mld_report_routers lVid ulGroup sk_info p idx s in
  let* '(_, pReporter, ret) := igmp_snp_searchreporterlist lVid 0 IGMP_PORT_QUERY s.(p_reporterlist) in
  if negb (is_ok ret) then Done (s, IGMPSNP_RETURN_CODE_ERROR)
  else
    let* '(s, e) := mld_reporter_ports lVid ulGroup ulIfIndex p (default [] pReporter) s in
    match e with
    | Some e => Done (s, e)
    | None =>
        let* '(s, r) := mld_report_port lVid ulGroup ulIfIndex IGMPSNP_RETURN_CODE_ERROR p s in
        match r with
        | inl e => Done (s, e)
        | inr i =>
            let* discard := Igmp_Snoop_IF_Recv_Is_Report_Discard lVid ulIfIndex s in
            if (discard : bool) then Done (s, IGMPSNP_RETURN_CODE_ERROR)
            else
              let* s := upd_member p i (fun port => port <| membertimer_id := member_interval s |>) s in
              let* s := upd_group p (fun g => g <| report_v6ipadd := mld_ntohs sk_info.(mi_saddr) |>) s in
              Done (s, IGMPSNP_RETURN_CODE_OK)
        end
    end.

Definition mld_recv_report (usIfIndex : Z) (ulGroup : list Z) (lVid ulType : Z) (sk_info : mld_info) (s : IGS) : outcome (IGS * Z) :=
  if negb (is_ok (mld_snp_addr_check ulGroup)) then Done (s, IGMPSNP_RETURN_CODE_OK)
  else
    let* '(s, ret, pMcGroup, pPrevGroupVlan) := mld_snp_searchvlangroup lVid ulGroup s in
    if negb (is_ok ret) then Done (s, IGMPSNP_RETURN_CODE_VLAN_NOT_EXIST)
    else
      let ulIfIndex := trunk_or_port s.(p_vlanlist) lVid usIfIndex in
      match pMcGroup with
      | Some p =>
          let* idx := deref pPrevGroupVlan in
          mld_report_group ulGroup lVid ulIfIndex sk_info p idx s
      | None =>
          let* '(s, o) := mld_creat_group_node lVid ulGroup ulIfIndex pPrevGroupVlan s in
          match o with
          | None => Done (s, IGMPSNP_RETURN_CODE_ERROR)
          | Some (p, idx) => mld_report_group ulGroup lVid ulIfIndex sk_info p idx s
          end
      end.

(** ** Leaves *)

Definition mld_recv_leave (usIfIndex : Z) (ulGroup : list Z) (lVid : Z) (s : IGS) : outcome (IGS * Z) :=
  if negb (is_ok (mld_snp_addr_check ulGroup)) then Done (s, IGMPSNP_RETURN_CODE_OK)
  else
    let* '(s, ret, pMcGroup, pPrevGroupVlan) := mld_snp_searchvlangroup lVid ulGroup s in
    if negb (is_ok ret) then Done (s, IGMPSNP_RETURN_CODE_ERROR)
    else
      match pMcGroup with
      | None => Done (s, IGMPSNP_RETURN_CODE_GROUP_NOTEXIST)
      | Some p =>
          let ulIfIndex := trunk_or_port s.(p_vlanlist) lVid usIfIndex in
          let* discard := Igmp_Snoop_IF_Recv_Is_Report_Discard lVid ulIfIndex s in
          if (discard : bool) then Done (s, IGMPSNP_RETURN_CODE_ERROR)
          else
            let* g := get_group s p in
            match igmp_snp_searchportstatelist s g.(portstatelist) ulIfIndex IGMP_PORT_QUERY with
            | (_, None, _) => Done (s, IGMPSNP_RETURN_CODE_OK)
            | (_, Some i, _) =>
                let* s := upd_member p i (fun port => port <| ps_state := IGMP_SNP_CHECK_MEMBER |>) s in
                let* idx := deref pPrevGroupVlan in
                let* v := get_vlan s idx in
                let* '(s, ret) := mld_Snoop_Send_mld (mkPkt MLD_MSG_GS_QUERY ulIfIndex lVid 0 v.(v_saddrv6) ulGroup 0) s in
                if negb (is_ok ret) then Done (s, IGMPSNP_RETURN_CODE_ERROR)
                else
                  let* '(ret, ulVidx) := mld_L2mc_Entry_GetVidx s.(p_l2mc) lVid ulGroup in
                  if negb (is_ok ret) then Done (s, IGMPSNP_RETURN_CODE_ERROR)
                  else
                    let pkt := mkPkt MLD_TIMEOUT_RXMT ulIfIndex lVid ulVidx no_v6 ulGroup (u16 (s.(igmp_robust_variable) - 1)) in
                    let* '(s, id) := start_timer env s.(igmp_rxmt_interval) MLD_RXMT_TIMEOUT (MLD_DATA pkt) s in
                    Done (s, match id with Some _ => IGMPSNP_RETURN_CODE_OK | None => IGMPSNP_RETURN_CODE_ADD_TIMER_ERROR end)
            end
      end.

(** ** Queries *)

Definition mld_router_learn (ifindex : Z) (saddr : list Z) (timeout : Z) : RLIST → outcome RLIST :=
  router_upsert ifindex (fun e => e <| re_saddrv6 := saddr |> <| re_timer_id := timeout |>).

Definition mld_resp_timer (vid : Z) (group : list Z) (ifindex interval : Z) (s : IGS) : outcome (IGS * option Z) :=
  start_timer env interval MLD_RESP_TIMEOUT (MLD_DATA (mkPkt IGMP_TIMEOUT_RESP ifindex vid 0 no_v6 group 0)) s.

Definition mld_query_learn (vid ifindex : Z) (saddr : list Z) (idx : Z) (s : IGS) : outcome IGS :=
  let '(l, o, _) := igmp_snp_searchrouterportlist vid ifindex IGMP_PORT_ADD None s.(p_routerlist) in
  let s := s <| p_routerlist := l |> in
  match o with
  | None => Done s
  | Some i =>
      let s := s <| p_routerlist := alter (fun r => mkRouterPort r.(rp_vlan_id) r.(rp_ifindex) r.(routeport_saddr) saddr) i l |> in
      let* v := get_vlan s idx in
      let* rl := mld_router_learn ifindex saddr s.(igmp_router_timeout) v.(routerlist) in
      Done (put_vlan idx (v <| routerlist := rl |>) s)
  end.

Definition mld_query_group (vid : Z) (group : list Z) (ifindex maxresptime : Z) (p : positive) (s : IGS) : outcome (IGS * Z) :=
  let* g := get_group s p in
  match g.(portstatelist) with
  | [] => Done (s, IGMPSNP_RETURN_CODE_OK)
  | _ =>
      let* '(s, t) := igmp_rand_mod env (resp_interval maxresptime) s in
      let* s := upd_group p (fun g => g <| resposetime := t |>) s in
      let* '(s, id) := mld_resp_timer vid group ifindex t s in
      match id with
      | None => Done (s, IGMPSNP_RETURN_CODE_ADD_TIMER_ERROR)
      | Some id => let* s := upd_group p (fun g => g <| resposetime_id := id |>) s in Done (s, IGMPSNP_RETURN_CODE_OK)
      end
  end.

(** A general query that found a group, one without an IPv6 address. *)
Definition mld_query_vlan (vid ifindex : Z) (p : positive) (idx : Z) (s : IGS) : outcome (IGS * Z) :=
  let* v := get_vlan s idx in
  match v.(firstgroup) with
  | None => Done (s, IGMPSNP_RETURN_CODE_OK)
  | Some _ =>
      let* g := get_group s p in
      let* '(s, _) := igmp_rand_mod env g.(resposetime) s in
      let* '(s, id) := mld_resp_timer vid no_v6 ifindex g.(resposetime) s in
      Done (s, match id with Some _ => IGMPSNP_RETURN_CODE_OK | None => IGMPSNP_RETURN_CODE_ADD_TIMER_ERROR end)
  end.

Definition mld_recv_query (ifindex maxresptime : Z) (group : list Z) (vlan_id : Z) (sk_info : mld_info) (s : IGS) : outcome (IGS * Z) :=
  let general := mld_v6addr_equal_0 group in
  if negb general && negb (is_ok (mld_snp_addr_check group)) then Done (s, IGMPSNP_RETURN_CODE_ERROR)
  else
    let s := if s.(queryRxFlag) =? IGMP_SNOOP_NO then s <| queryRxFlag := IGMP_SNOOP_YES |> else s in
    let* '(s, ret, t_mcgroup, t_mcgroupvlan) := mld_snp_searchvlangroup vlan_id group s in
    if negb (is_ok ret) then Done (s, IGMPSNP_RETURN_CODE_ERROR)
    else
      let t_ifindex := trunk_or_port s.(p_vlanlist) vlan_id ifindex in
      let flood := let* '(s, _) := mld_snp_flood sk_info vlan_id t_ifindex s in Done (s, IGMPSNP_RETURN_CODE_OK) in
      match t_mcgroupvlan with
      | None => flood
      | Some idx =>
          let* v := get_vlan s idx in
          if negb (v.(IgmpSnp.vlan_id) =? vlan_id) && general then flood
          else if negb (from_option (fun _ => true) false t_mcgroup) && general then flood
          else
            let* s := mld_query_learn vlan_id t_ifindex sk_info.(mi_saddr) idx s in
            match t_mcgroup with
            | Some p =>
                if negb general then mld_query_group vlan_id group t_ifindex maxresptime p s
                else if v.(IgmpSnp.vlan_id) =? vlan_id then mld_query_vlan vlan_id t_ifindex p idx s
                else Done (s, IGMPSNP_RETURN_CODE_OK)
            | None => Done (s, IGMPSNP_RETURN_CODE_OK)
            end
      end.

Definition mld_recv_unknown (sk_info : mld_info) (s : IGS) : outcome (IGS * Z) :=
  let* '(s, _) := mld_snp_flood sk_info sk_info.(mi_vlan_id) sk_info.(mi_ifindex) s in Done (s, IGMPSNP_RETURN_CODE_OK).

(** ** PIM *)

(** A source becomes a router port of the VLAN, unless the list of all router ports
    has one of this VLAN already. *)
Definition mld_snp_pim_msghandle (ulGoup : list Z) (ulIfindex lVid : Z) (ulSrcAddr : list Z) (s : IGS) : outcome (IGS * Z) :=
  let* '(s, ret, _, pPrevGroupVlan) := mld_snp_searchvlangroup lVid ulGoup s in
  if negb (is_ok ret) then Done (s, IGMPSNP_RETURN_CODE_ERROR)
  else
    let ulIfindex := trunk_or_port s.(p_vlanlist) lVid ulIfindex in
    match pPrevGroupVlan with
    | None => Done (s, IGMPSNP_RETURN_CODE_OK)
    | Some idx =>
        let '(_, pRouter, _) := igmp_snp_searchrouterportlist lVid ulIfindex IGMP_PORT_QUERY None s.(p_routerlist) in
        match pRouter with
        | Some _ => Done (s, IGMPSNP_RETURN_CODE_OK)
        | None =>
            let* v := get_vlan s idx in
            let* rl := mld_router_learn ulIfindex ulSrcAddr s.(igmp_router_timeout) v.(routerlist) in
            Done (put_vlan idx (v <| routerlist := rl |>) s, IGMPSNP_RETURN_CODE_OK)
        end
    end.

Definition mld_pim_recv_msg (msg_skb : igmp_skb) (s : IGS) : outcome (IGS * Z) :=
  let buf := msg_skb.(skb_buf) in
  let ip := 14%nat in
  let* ulSrcaddr := skb_load_v6 buf (ip + 8) in
  let* pim := skb_load buf (ip + IPV6_HEADER_LEN) 4 in
  if negb (inet_cksum pim =? 0) then Done (s, IGMPSNP_RETURN_CODE_ERROR_SW)
  else
    let* t := skb_load_be buf (ip + IPV6_HEADER_LEN) 1 in
    if Z.land t 0xF =? 0 then
      if (Z.shiftr t 4 =? 1) || (Z.shiftr t 4 =? 2) then
        let* '(s, _) := mld_snp_pim_msghandle no_v6 msg_skb.(skb_ifindex) msg_skb.(skb_vlan_id) ulSrcaddr s in
        Done (s, IGMPSNP_RETURN_CODE_OK)
      else Done (s, IGMPSNP_RETURN_CODE_ERROR)
    else Done (s, IGMPSNP_RETURN_CODE_OK).

(** ** Messages *)

(** The group of a message: of the only record of a version 2 report, which is looked
    for behind the option whether there is one or not. *)
Definition mld_message_group (buf : list Z) (ip mld : nat) (type : Z) : outcome (option (list Z)) :=
  if negb (type =? MLD_V2_MEMSHIP_REPORT) then let* g := skb_load_v6 buf (mld + 8) in Done (Some g)
  else
    let v2 := (ip + IPV6_HEADER_LEN + MLD_IPV6_OPTION_LEN)%nat in
    let* n := skb_load_be buf (v2 + 6) 2 in
    if 1 <? n then Done None else let* g := skb_load_v6 buf (v2 + 12) in Done (Some g).

(** The handler of the type; the index of the port is kept in 16 bits. *)
Definition mld_deliver (type maxresp : Z) (group saddr : list Z) (msg_skb : igmp_skb) (s : IGS) : outcome (IGS * Z) :=
  let vid := msg_skb.(skb_vlan_id) in
  let ifindex := u16 msg_skb.(skb_ifindex) in
  let info := mkMldInfo msg_skb.(skb_ifindex) vid saddr msg_skb in
  let* '(s, _) :=
    if type =? MLD_MEMSHIP_QUERY then mld_recv_query ifindex maxresp group vid info s
    else if (type =? MLD_V2_MEMSHIP_REPORT) || (type =? MLD_V1_MEMSHIP_REPORT)
    then mld_recv_report ifindex group vid type info s
    else if type =? MLD_V1_LEAVE_GROUP then mld_recv_leave ifindex group vid s
    else mld_recv_unknown info s in
  Done (s, IGMPSNP_RETURN_CODE_OK).

Definition mld_skb_proc (msg_skb : igmp_skb) (s : IGS) : outcome (IGS * Z) :=
  let buf := msg_skb.(skb_buf) in
  let vid := msg_skb.(skb_vlan_id) in
  let ifindex := msg_skb.(skb_ifindex) in
  if negb (default IGMPSNP_RETURN_CODE_OK (snd (igmp_vlanisused s.(p_vlanlist) vid)) =? 1) then Done (s, IGMPSNP_RETURN_CODE_ERROR)
  else if negb (is_ok (igmp_is_vlan_ifindex s.(p_vlanlist) vid ifindex)) then Done (s, IGMPSNP_RETURN_CODE_ERROR)
  else
    let ip := if snd (igmp_vlanportrelation ifindex vid) =? 1 then 18%nat else 14%nat in
    let* nexthdr := skb_load_be buf (ip + 6) 1 in
    if nexthdr =? IPPROTO_PIM then let* '(s, _) := mld_pim_recv_msg msg_skb s in Done (s, IGMPSNP_RETURN_CODE_OK)
    else
      let mld := if nexthdr =? 0 then (ip + IPV6_HEADER_LEN + MLD_IPV6_OPTION_LEN)%nat else (ip + IPV6_HEADER_LEN)%nat in
      let* type := skb_load_be buf mld 1 in
      let* o := mld_message_group buf ip mld type in
      match o with
      | None => Done (s, IGMPSNP_RETURN_CODE_ERROR)
      | Some group_ip =>
          let* hop_limit := skb_load_be buf (ip + 7) 1 in
          if negb (hop_limit =? 1) then Done (s, IGMPSNP_RETURN_CODE_ERROR_SW)
          else
            let* maxresp := skb_load_be buf (mld + 4) 2 in
            let* saddr := skb_load_v6 buf (ip + 8) in
            mld_deliver type maxresp group_ip saddr msg_skb s
      end.

(** A multicast packet of a group that the switch does not know. *)
Definition mld_recv_pktdata_proc (msg_skb : igmp_skb) (s : IGS) : outcome (IGS * Z) :=
  let buf := msg_skb.(skb_buf) in
  let vid := msg_skb.(skb_vlan_id) in
  let ifindex := msg_skb.(skb_ifindex) in
  let* tag := skb_load_be buf 12 2 in
  let ip := if tag =? 0x8100 then 18%nat else 14%nat in
  let* ulGroup := skb_load_v6 buf (ip + 24) in
  let* hop_limit := skb_load_be buf (ip + 7) 1 in
  if hop_limit <? 1 then Done (s, IGMPSNP_RETURN_CODE_ERROR)
  else
    let* '(s, ret, pMcGroup, pPrevGroupVlan) := mld_snp_searchvlangroup vid ulGroup s in
    if negb (is_ok ret) then Done (s, IGMPSNP_RETURN_CODE_GROUP_NOTEXIST)
    else
      match pMcGroup with
      | Some _ => Done (s, IGMPSNP_RETURN_CODE_OK)
      | None =>
          let* '(s, o) := mld_creat_group_node vid ulGroup ifindex pPrevGroupVlan s in
          match o with
          | None => Done (s, IGMPSNP_RETURN_CODE_ERROR)
          | Some (p, _) =>
              let* g := get_group s p in
              let* '(s, lRet) :=
                mld_snp_mod_addr env (mkPkt IGMP_ADDR_ADD ifindex vid g.(mgroup_id) no_v6 ulGroup 0) IGMP_ADDR_ADD s in
              if negb (is_ok lRet) then Done (s, IGMPSNP_RETURN_CODE_ERROR_HW)
              else
                let* s := upd_group p (fun g => g <| grouplifetimer_id := g.(grouplifetime) |>) s in
                Done (s, IGMPSNP_RETURN_CODE_OK)
          end
      end.

(** ** Timeouts *)

(** General queries.  Without a router port the source address is not set. *)
Definition mld_Event_GenQuery_Timeout (p_vlan : option Z) (s : IGS) : outcome (IGS * Z) :=
  match p_vlan with
  | None => Done (s, IGMPSNP_RETURN_CODE_NULL_PTR)
  | Some idx =>
      let* v := get_vlan s idx in
      let* routers := rwalk v.(routerlist) in
      let query ifindex saddr s :=
        let* '(s, _) := mld_Snoop_Send_mld (mkPkt MLD_MSG_GEN_QUERY ifindex v.(vlan_id) 0 saddr no_v6 0) s in Done s in
      let* s := match routers with
                | [] => query 0xffff env.(junk_v6) s
                | _ => foldM (fun r s => query r.(mroute_ifindex) r.(re_saddrv6) s) routers s
                end in
      Done (s, IGMPSNP_RETURN_CODE_OK)
  end.

(** What a group reports to the router port that asked. *)
Definition mld_group_reports (g : MC_group) (ifindex : Z) (routers : list igmp_router_entry) (s : IGS) : outcome IGS :=
  let type := if g.(ver_flag) =? IGMP_SNOOP_YES then MLD_MSG_REPORT else MLD_MSG_V2_REPORT in
  foldM (fun r s =>
           if ifindex =? r.(mroute_ifindex) then
             let pkt := mkPkt type r.(mroute_ifindex) g.(g_vid) 0 g.(report_v6ipadd) g.(MC_v6ipadd) 0 in
             let* '(s, _) := mld_Snoop_Send_mld pkt s in Done s
           else Done s) routers s.

Definition mld_resp_group (ifindex : Z) (rl : RLIST) (p : positive) (s : IGS) : outcome IGS :=
  let* g := get_group s p in
  match g.(portstatelist) with
  | [] => if g.(grouplifetimer_id) =? 0 then Done (put_group p (g <| grouplifetimer_id := s.(igmp_grouplife) |>) s) else Done s
  | _ => let* routers := rwalk rl in mld_group_reports g ifindex routers s
  end.
Fixpoint mld_resp_groups (fuel : nat) (ifindex : Z) (rl : RLIST) (p : option positive) (s : IGS) : outcome IGS :=
  match fuel with
  | O => OutOfFuel
  | S fuel' =>
      match p with
      | None => Done s
      | Some p =>
          let* s := mld_resp_group ifindex rl p s in
          let* g := get_group s p in
          mld_resp_groups fuel' ifindex rl g.(g_next) s
      end
  end.

Definition mld_Event_Resp_Timeout (data : option (PKT (list Z))) (s : IGS) : outcome IGS :=
  match data with
  | None => Done s
  | Some pPkt =>
      let* pMcVlan := find_vlan queue_turns s pPkt.(pkt_vlan_id) (first_vlan s) in
      match pMcVlan with
      | None => Done s
      | Some idx =>
          let* v := get_vlan s idx in
          if mld_v6addr_equal_0 pPkt.(groupadd)
          then mld_resp_groups (group_turns s) pPkt.(pkt_ifindex) v.(routerlist) v.(firstgroup) s
          else
            let* '(s, ret, pMcGroup, _) := mld_snp_searchvlangroup pPkt.(pkt_vlan_id) pPkt.(groupadd) s in
            if negb (is_ok ret) then Done s
            else
              match pMcGroup with
              | None => Done s
              | Some p => mld_resp_group pPkt.(pkt_ifindex) v.(routerlist) p s
              end
      end
  end.

(** The last member is gone.  [false]: the VLAN has no port, and the function
    returns. *)
Definition mld_rxmt_leave (pPkt : PKT (list Z)) (idx : Z) (s : IGS) : outcome (IGS * bool) :=
  let vid := pPkt.(pkt_vlan_id) in
  let leave ifindex s :=
    let* '(s, _) := mld_snp_routerleave vid ifindex pPkt.(groupadd) pPkt.(pkt_saddr) s in Done s in
  let* v := get_vlan s idx in
  let* routers := rwalk v.(routerlist) in
  match routers with
  | [] =>
      match vlan_port_walk vid pPkt.(pkt_ifindex) (fun i s => if igmp_getifstatus i =? 1 then leave i s else Done s) s with
      | None => Done (s, false)
      | Some m => let* s := m in Done (s, true)
      end
  | _ => let* s := foldM (fun r s => leave r.(mroute_ifindex) s) routers s in Done (s, true)
  end.

Definition mld_rxmt_drop (pPkt : PKT (list Z)) (p : positive) (idx : Z) (s : IGS) : outcome (IGS * bool) :=
  let ifindex := pPkt.(pkt_ifindex) in
  let pkt := mkPkt IGMP_ADDR_DEL ifindex pPkt.(pkt_vlan_id) pPkt.(pkt_group_id) no_v6 pPkt.(groupadd) 0 in
  let* '(s, _) := mld_snp_mod_addr env pkt IGMP_ADDR_DEL s in
  let* g := get_group s p in
  let '(l, _, _) := igmp_snp_searchportstatelist s g.(portstatelist) ifindex IGMP_PORT_DEL in
  let s := put_group p (g <| portstatelist := l |>) s in
  match l with
  | [] =>
      let* '(s, go) := mld_rxmt_leave pPkt idx s in
      if (go : bool) then let* s := upd_group p (fun g => g <| grouplifetimer_id := s.(igmp_grouplife) |>) s in Done (s, true)
      else Done (s, false)
  | _ => Done (s, true)
  end.

(** One more query; the state, the count that is left, [lRet] and the new timer;
    [None]: there is no timer, return. *)
Definition mld_rxmt_query (pPkt : PKT (list Z)) (idx lRet : Z) (s : IGS) : outcome (IGS * option (Z * Z * Z)) :=
  if pPkt.(retranscnt) =? 0 then Done (s, Some (0, lRet, 0))
  else
    let* v := get_vlan s idx in
    let* '(s, lRet) :=
      mld_Snoop_Send_mld (mkPkt MLD_MSG_GS_QUERY pPkt.(pkt_ifindex) pPkt.(pkt_vlan_id) 0 v.(v_saddrv6) pPkt.(groupadd) 0) s in
    let cnt := u16 (pPkt.(retranscnt) - 1) in
    if cnt =? 0 then Done (s, Some (cnt, lRet, 0))
    else
      let pkt := mkPkt pPkt.(pkt_type) pPkt.(pkt_ifindex) pPkt.(pkt_vlan_id) pPkt.(pkt_group_id) pPkt.(pkt_saddr) pPkt.(groupadd) cnt in
      let* '(s, id) := start_timer env s.(igmp_rxmt_interval) MLD_RXMT_TIMEOUT (MLD_DATA pkt) s in
      Done (s, match id with Some id => Some (cnt, IGMPSNP_RETURN_CODE_OK, id) | None => None end).

Definition mld_Event_Rxmt_Timeout (data : option (PKT (list Z))) (s : IGS) : outcome IGS :=
  match data with
  | None => Done s
  | Some pPkt =>
      let* '(s, lRet, pMcGroup, pPrevGroupVlan) := mld_snp_searchvlangroup pPkt.(pkt_vlan_id) pPkt.(groupadd) s in
      if negb (is_ok lRet) then Done s
      else
        match pMcGroup with
        | None => Done s
        | Some p =>
            let* idx := deref pPrevGroupVlan in
            let* g := get_group s p in
            let '(_, pstPort, _) := igmp_snp_searchportstatelist s g.(portstatelist) pPkt.(pkt_ifindex) IGMP_PORT_QUERY in
            match pstPort with
            | None => Done s
            | Some i =>
                let* port := deref (g.(portstatelist) !! i) in
                if negb (port.(ps_state) =? IGMP_SNP_CHECK_MEMBER) then Done s
                else
                  let* '(s, o) := mld_rxmt_query pPkt idx lRet s in
                  match o with
                  | None => Done s
                  | Some (cnt, lRet, ulTimerId) =>
                      if (0 =? cnt) || negb (is_ok lRet) || (0 =? ulTimerId) then
                        let* '(s, go) := mld_rxmt_drop pPkt p idx s in
                        if (go : bool) && negb (0 =? ulTimerId) then
                          let* '(head, _) := del_timer s.(igmp_timer_list) ulTimerId in
                          Done (s <| igmp_timer_list := head |>)
                        else Done s
                      else Done s
                  end
            end
        end
  end.
End Mld.
