(* ===== verification/IgmpDevice.v ===== *)
(** * Timers, events and management of the IGMP snooping daemon ([igmp_snoop_main.c],
      [igmp_snoop_hw.c], [igmp_snoop_cli.c])

    The timeouts, the events the switch daemon reports, and the tick that runs the
    timers.  A pointer that a handler keeps over calls that can free its object is
    looked up again in the state, so that its use after the object is gone is
    [Segv].  The management sets router ports and intervals, and switches snooping
    on and off. *)

From Stdlib Require Import ZArith Lia.
From stdpp Require Import base gmap list option.
From S2P Require Import Prelude DList IgmpL2mc IgmpSnp IgmpList IgmpGroup IgmpTimer IgmpFrame IgmpRecv Mld.

Section Events.
Variable env : ENV.

(** ** Timeouts *)

(** General queries, on every port of the VLAN but one: a router port, or a port that
    does not exist. *)
Definition Igmp_Event_GenQuery_Timeout (p_vlan : option Z) (s : IGS) : outcome (IGS * Z) :=
  match p_vlan with
  | None => Done (s, IGMPSNP_RETURN_CODE_NULL_PTR)
  | Some idx =>
      let* v := get_vlan s idx in
      let* routers := rwalk v.(routerlist) in
      let query ifindex saddr s :=
        let* '(s, _) := Igmp_Snoop_Send_Igmp env (mkPkt IGMP_MSG_GEN_QUERY ifindex v.(vlan_id) 0 saddr 0 0) s in Done s in
      let* s := match routers with
                | [] => query 0xffff 0 s
                | _ => foldM (fun r s => query r.(mroute_ifindex) r.(re_saddr) s) routers s
                end in
      Done (s, IGMPSNP_RETURN_CODE_OK)
  end.

(** The VLAN goes with its last group. *)
Definition Igmp_Event_GroupLife_Timeout (idx : Z) (p : positive) (s : IGS) : outcome (IGS * Z) :=
  let* '(s, _) := igmp_snp_delgroup env idx p s in
  let* v := get_vlan s idx in
  let* s := match v.(firstgroup) with
            | None => igmp_snp_del_mcgroupvlan env v.(vlan_id) s
            | Some _ => Done s
            end in
  Done (s, IGMPSNP_RETURN_CODE_OK).
Definition mld_Event_GroupLife_Timeout (idx : Z) (p : positive) (s : IGS) : outcome (IGS * Z) :=
  let* '(s, _) := mld_snp_delgroup env idx p s in
  let* v := get_vlan s idx in
  let* s := match v.(firstgroup) with
            | None => mld_snp_del_mcgroupvlan env v.(vlan_id) s
            | Some _ => Done s
            end in
  Done (s, IGMPSNP_RETURN_CODE_OK).

(** What a group reports to the router ports that pass the test. *)
Definition group_reports (g : MC_group) (test : igmp_router_entry → bool) (routers : list igmp_router_entry) (s : IGS)
    : outcome IGS :=
  let type := if g.(ver_flag) =? IGMP_SNOOP_NO then IGMP_MSG_REPORT else IGMP_MSG_V1_REPORT in
  foldM (fun r s =>
           if test r then
             let pkt := mkPkt type r.(mroute_ifindex) g.(g_vid) 0 g.(report_ipadd) g.(MC_ipadd) 0 in
             let* '(s, _) := Igmp_Snoop_Send_Igmp env pkt s in Done s
           else Done s) routers s.

Definition Igmp_Event_Proxy_Timeout (idx : Z) (p : positive) (s : IGS) : outcome (IGS * Z) :=
  let* g := get_group s p in
  let* s :=
    match g.(portstatelist) with
    | [] => upd_group p (fun g => g <| router_reporttimer := 0 |>) s
    | _ =>
        let* v := get_vlan s idx in
        let* routers := rwalk v.(routerlist) in
        group_reports g (fun _ => true) routers s
    end in
  Done (s, IGMPSNP_RETURN_CODE_OK).

(** A member port leaves the group, and the table of the switch. *)
Definition drop_port (idx : Z) (p : positive) (ifindex : Z)
    (mod_addr : MC_group → MC_group_vlan → IGS → outcome (IGS * Z)) (s : IGS) : outcome (IGS * Z) :=
  let* g := get_group s p in
  let '(l, _, _) := igmp_snp_searchportstatelist s g.(portstatelist) ifindex IGMP_PORT_DEL in
  let s := put_group p (g <| portstatelist := l |>) s in
  let* v := get_vlan s idx in
  let* '(s, _) := mod_addr g v s in
  let* s := match l with
            | [] => upd_group p (fun g => g <| grouplifetimer_id := s.(igmp_grouplife) |>) s
            | _ => Done s
            end in
  Done (s, IGMPSNP_RETURN_CODE_OK).
Definition Igmp_Event_GroupMember_Timeout (idx : Z) (p : positive) (ifindex : Z) : IGS → outcome (IGS * Z) :=
  drop_port idx p ifindex (fun g v =>
    igmp_snp_mod_addr env (mkPkt IGMP_ADDR_DEL ifindex v.(vlan_id) g.(mgroup_id) 0 g.(MC_ipadd) 0) IGMP_ADDR_DEL).
Definition mld_Event_GroupMember_Timeout (idx : Z) (p : positive) (ifindex : Z) : IGS → outcome (IGS * Z) :=
  drop_port idx p ifindex (fun g v =>
    mld_snp_mod_addr env (mkPkt IGMP_ADDR_DEL ifindex v.(vlan_id) g.(mgroup_id) no_v6 g.(MC_v6ipadd) 0) IGMP_ADDR_DEL).

(** The answer of a group: reports to the router port that asked, or the life timer. *)
Definition resp_group (ifindex : Z) (rl : RLIST) (p : positive) (s : IGS) : outcome IGS :=
  let* g := get_group s p in
  match g.(portstatelist) with
  | [] => if g.(grouplifetimer_id) =? 0 then Done (put_group p (g <| grouplifetimer_id := s.(igmp_grouplife) |>) s) else Done s
  | _ =>
      let* routers := rwalk rl in
      group_reports g (fun r => ifindex =? r.(mroute_ifindex)) routers s
  end.
Fixpoint resp_groups (fuel : nat) (ifindex : Z) (rl : RLIST) (p : option positive) (s : IGS)
    : outcome IGS :=
  match fuel with
  | O => OutOfFuel
  | S fuel' =>
      match p with
      | None => Done s
      | Some p =>
          let* s := resp_group ifindex rl p s in
          let* g := get_group s p in
          resp_groups fuel' ifindex rl g.(g_next) s
      end
  end.

(** The state; the argument of the timer is freed on every way out. *)
Definition Igmp_Event_Resp_Timeout (data : option (PKT Z)) (s : IGS) : outcome IGS :=
  match data with
  | None => Done s
  | Some pPkt =>
      let* pMcVlan := find_vlan queue_turns s pPkt.(pkt_vlan_id) (first_vlan s) in
      match pMcVlan with
      | None => Done s
      | Some idx =>
          let* v := get_vlan s idx in
          if 0 =? pPkt.(groupadd) then resp_groups (group_turns s) pPkt.(pkt_ifindex) v.(routerlist) v.(firstgroup) s
          else
            let* '(s, ret, pMcGroup, _) := igmp_snp_searchvlangroup env pPkt.(pkt_vlan_id) pPkt.(groupadd) s in
            if negb (is_ok ret) then Done s
            else
              match pMcGroup with
              | None => Done s
              | Some p => resp_group pPkt.(pkt_ifindex) v.(routerlist) p s
              end
      end
  end.

(** The last member is gone: the routers, or every other port of the VLAN, hear of
    it.  [false]: the VLAN has no port, and the function returns. *)
Definition rxmt_leave (pPkt : PKT Z) (idx : Z) (s : IGS) : outcome (IGS * bool) :=
  let vid := pPkt.(pkt_vlan_id) in
  let leave ifindex s :=
    let* '(s, _) := igmp_snp_routerleave env vid ifindex pPkt.(groupadd) pPkt.(pkt_saddr) s in Done s in
  let* v := get_vlan s idx in
  let* routers := rwalk v.(routerlist) in
  match routers with
  | [] =>
      match vlan_port_walk vid pPkt.(pkt_ifindex) (fun i s => if igmp_getifstatus i =? 1 then leave i s else Done s) s with
      | None => Done (s, false)
      | Some m => let* s := m in Done (s, true)
      end
  | _ => let* s := foldM (fun r s => leave r.(mroute_ifindex) s) routers s in Done (s, true)
  end.

(** The port did not answer: it leaves the group. *)
Definition rxmt_drop (pPkt : PKT Z) (p : positive) (idx : Z) (s : IGS) : outcome (IGS * bool) :=
  let ifindex := pPkt.(pkt_ifindex) in
  let pkt := mkPkt IGMP_ADDR_DEL ifindex pPkt.(pkt_vlan_id) pPkt.(pkt_group_id) 0 pPkt.(groupadd) 0 in
  let* '(s, _) := igmp_snp_mod_addr env pkt IGMP_ADDR_DEL s in
  let* g := get_group s p in
  let '(l, _, _) := igmp_snp_searchportstatelist s g.(portstatelist) ifindex IGMP_PORT_DEL in
  let s := put_group p (g <| portstatelist := l |>) s in
  match l with
  | [] =>
      let* '(s, go) := rxmt_leave pPkt idx s in
      if (go : bool) then let* s := upd_group p (fun g => g <| grouplifetimer_id := s.(igmp_grouplife) |>) s in Done (s, true)
      else Done (s, false)
  | _ => Done (s, true)
  end.

Definition Igmp_Event_Rxmt_Timeout (data : option (PKT Z)) (s : IGS) : outcome IGS :=
  match data with
  | None => Done s
  | Some pPkt =>
      let* '(s, lRet, pMcGroup, pPrevGroupVlan) := igmp_snp_searchvlangroup env pPkt.(pkt_vlan_id) pPkt.(groupadd) s in
      if negb (is_ok lRet) then Done s
      else
        match pMcGroup with
        | None => Done s
        | Some p =>
            let* idx := deref pPrevGroupVlan in
            let* g := get_group s p in
            let '(_, pstPort, _) := igmp_snp_searchportstatelist s g.(portstatelist) pPkt.(pkt_ifindex) IGMP_PORT_QUERY in
            match pstPort with
            | None => Done s
            | Some i =>
                let* port := deref (g.(portstatelist) !! i) in
                if negb (port.(ps_state) =? IGMP_SNP_CHECK_MEMBER) then Done s
                else
                  (* the state, the count that is left, [lRet], the new timer; [None]: no timer, return *)
                  let* '(s, o) :=
                    if negb (pPkt.(retranscnt) =? 0) then
                      let* v := get_vlan s idx in
                      let* '(s, lRet) := Igmp_Snoop_Send_Igmp env
                        (mkPkt IGMP_MSG_GS_QUERY pPkt.(pkt_ifindex) pPkt.(pkt_vlan_id) 0 v.(v_saddr) pPkt.(groupadd) 0) s in
                      let cnt := u16 (pPkt.(retranscnt) - 1) in
                      if negb (cnt =? 0) then
                        let pkt := mkPkt pPkt.(pkt_type) pPkt.(pkt_ifindex) pPkt.(pkt_vlan_id) pPkt.(pkt_group_id)
                                     pPkt.(pkt_saddr) pPkt.(groupadd) cnt in
                        let* '(s, id) := start_timer env s.(igmp_rxmt_interval) RXMT_TIMEOUT (IGMP_DATA pkt) s in
                        Done (s, match id with Some id => Some (cnt, IGMPSNP_RETURN_CODE_OK, id) | None => None end)
                      else Done (s, Some (cnt, lRet, 0))
                    else Done (s, Some (0, lRet, 0)) in
                  match o with
                  | None => Done s
                  | Some (cnt, lRet, ulTimerId) =>
                      if (0 =? cnt) || negb (is_ok lRet) || (0 =? ulTimerId) then
                        let* '(s, go) := rxmt_drop pPkt p idx s in
                        if (go : bool) && negb (0 =? ulTimerId) then
                          let* '(head, _) := del_timer s.(igmp_timer_list) ulTimerId in
                          Done (s <| igmp_timer_list := head |>)
                        else Done s
                      else Done s
                  end
            end
        end
  end.

(** ** The global timer *)

Definition tick_query (idx : Z) (s : IGS) : outcome IGS :=
  let* v := get_vlan s idx in
  if v.(vlan_id) =? 0 then Done s
  else
    let* s :=
      if (v.(querytimer_id) =? 1) && (default 0 (s.(igmp_genquerytime) !! v.(vlan_id)) <=? 1) then
        let* '(s, _) := Igmp_Event_GenQuery_Timeout (Some idx) s in
        let* '(s, _) := mld_Event_GenQuery_Timeout env (Some idx) s in
        let* s := upd_vlan idx (fun v => v <| querytimer_id := s.(igmp_query_interval) |>) s in
        Done (s <| igmp_genquerytime := <[v.(vlan_id) := i32 s.(igmp_query_interval)]> s.(igmp_genquerytime) |>)
      else Done s in
    upd_vlan idx (fun v => v <| querytimer_id := u32 (v.(querytimer_id) - 1) |>) s.

(** Router entries.  [prev] is the entry before the current one, as the code keeps
    it: after an entry was freed it is the current entry itself.  The list pointer
    follows the current entry only when it points to it: an entry that expires behind
    the first one is freed and stays in the list. *)
Fixpoint tick_routers (first : bool) (l : RLIST) : outcome RLIST :=
  match l with
  | RNil => Done RNil
  | RDangling => Segv
  | RCons e l' =>
      if 0 <? e.(re_timer_id) then
        if e.(re_timer_id) =? 1 then
          let* l' := tick_routers first l' in
          Done (if first then l' else RDangling)
        else
          let* l' := tick_routers false l' in Done (RCons (e <| re_timer_id := e.(re_timer_id) - 1 |>) l')
      else let* l' := tick_routers false l' in Done (RCons e l')
  end.

(** The member ports.  A port whose timer runs out is removed by the event; the next
    one was read before. *)
Fixpoint tick_ports (fuel : nat) (idx : Z) (p : positive) (i : nat) (s : IGS) : outcome IGS :=
  match fuel with
  | O => OutOfFuel
  | S fuel' =>
      let* g := get_group s p in
      match g.(portstatelist) !! i with
      | None => Done s
      | Some port =>
          if port.(membertimer_id) =? 1 then
            let* '(s, _) :=
              if 0 =? g.(MC_ipadd) then mld_Event_GroupMember_Timeout idx p port.(ps_ifindex) s
              else Igmp_Event_GroupMember_Timeout idx p port.(ps_ifindex) s in
            tick_ports fuel' idx p i s
          else
            let* s := if port.(membertimer_id) =? 0 then Done s
                      else upd_member p i (fun q => q <| membertimer_id := q.(membertimer_id) - 1 |>) s in
            let* s :=
              if port.(hosttimer_id) =? 0 then Done s
              else if port.(hosttimer_id) =? 1 then
                upd_member p i (fun q => q <| hosttimer_id := 0 |> <| ps_state := IGMP_SNP_HAS_MEMBER |>) s
              else upd_member p i (fun q => q <| hosttimer_id := q.(hosttimer_id) - 1 |>) s in
            tick_ports fuel' idx p (S i) s
      end
  end.

(** The groups.  The event that deletes a group can free the VLAN; the walk goes on
    with the next group. *)
Fixpoint tick_groups (fuel : nat) (idx : Z) (o : option positive) (s : IGS) : outcome IGS :=
  match fuel with
  | O => OutOfFuel
  | S fuel' =>
      match o with
      | None => Done s
      | Some p =>
          let* g := get_group s p in
          if g.(grouplifetimer_id) =? 1 then
            let* '(s, _) := if 0 =? g.(MC_ipadd) then mld_Event_GroupLife_Timeout idx p s
                            else Igmp_Event_GroupLife_Timeout idx p s in
            tick_groups fuel' idx g.(g_next) s
          else
            let* s := if 0 <? g.(grouplifetimer_id)
                      then upd_group p (fun g => g <| grouplifetimer_id := g.(grouplifetimer_id) - 1 |>) s else Done s in
            let* s := tick_ports (S (length g.(portstatelist))) idx p 0 s in
            let* g := get_group s p in
            tick_groups fuel' idx g.(g_next) s
      end
  end.

Definition tick_vlan (idx : Z) (s : IGS) : outcome IGS :=
  let* s := tick_query idx s in
  let* v := get_vlan s idx in
  let* rl := tick_routers true v.(routerlist) in
  let s := put_vlan idx (v <| routerlist := rl |>) s in
  tick_groups (group_turns s) idx v.(firstgroup) s.

Fixpoint tick_vlans (fuel : nat) (o : option Z) (s : IGS) : outcome IGS :=
  match fuel with
  | O => OutOfFuel
  | S fuel' =>
      match o with
      | None => Done s
      | Some idx =>
          let* v := get_vlan s idx in
          let* s := tick_vlan idx s in
          tick_vlans fuel' (GET_VLAN_POINT_BY_INDEX s v.(v_next)) s
      end
  end.

Definition igmp_snp_global_timer_func (s : IGS) : outcome IGS :=
  let s := s <| igmp_genquerytime := (fun t => if 0 <? t then t - 1 else t) <$> s.(igmp_genquerytime) |> in
  tick_vlans queue_turns (first_vlan s) s.
End Events.

(** ** The surface of the daemon

    Events of the switch daemon, router ports and intervals set by the management,
    switching snooping on and off, messages of the kernel, and the thread of the
    timers. *)

Definition IGMPSNP_EVENT_DEV_UP : Z := 0x1.
Definition IGMPSNP_EVENT_DEV_DOWN : Z := 0x2.
Definition IGMPSNP_EVENT_DEV_REGISTER : Z := 0x3.
Definition IGMPSNP_EVENT_DEV_UNREGISTER : Z := 0x4.
Definition IGMPSNP_EVENT_DEV_VLANADDIF : Z := 0x5.
Definition IGMPSNP_EVENT_DEV_VLANDELIF : Z := 0x6.
Definition IGMPSNP_EVENT_DEV_MCROUTER_PORT_UP : Z := 0xf.
Definition IGMPSNP_EVENT_DEV_MCROUTER_PORT_DOWN : Z := 0x10.
Definition IGMPSNP_EVENT_DEV_SYS_MAC_NOTI : Z := 0x11.

(** [dev_notify_msg] *)
Record dev_notify_msg : Type := mkDev { d_vlan_id : Z; d_ifindex : Z; sys_mac : list Z }.

Definition IGMP_SNP_ISENABLE (s : IGS) : bool := negb (s.(igmp_snoop_enable) =? 0).
Definition MLD_SNP_ISENABLE (s : IGS) : bool := negb (s.(mld_snoop_enable) =? 0).
Definition snooping_off (s : IGS) : bool := negb (IGMP_SNP_ISENABLE s) && negb (MLD_SNP_ISENABLE s).

(** The first router entry of a port leaves the list.  [None]: it has none. *)
Fixpoint router_remove (ifindex : Z) (l : RLIST) : outcome (option RLIST) :=
  match l with
  | RNil => Done None
  | RDangling => Segv
  | RCons e l' =>
      if e.(mroute_ifindex) =? ifindex then Done (Some l')
      else
        let* o := router_remove ifindex l' in
        Done (match o with Some l' => Some (RCons e l') | None => None end)
  end.
Fixpoint router_append (e : igmp_router_entry) (l : RLIST) : outcome RLIST :=
  match l with
  | RNil => Done (RCons e RNil)
  | RDangling => Segv
  | RCons x l' => let* l' := router_append e l' in Done (RCons x l')
  end.

Section Device.
Variable env : ENV.

(** ** Ports and VLANs *)

(** The port leaves a group.  [group_id] is what the message to the switch carries. *)
Definition port_leaves (vid ifindex : Z) (group_id : MC_group → Z) (p : positive) (s : IGS) : outcome IGS :=
  let* g := get_group s p in
  let '(l, _, lRet) := igmp_snp_searchportstatelist s g.(portstatelist) ifindex IGMP_PORT_DEL in
  let g := g <| portstatelist := l |> in
  let g := match l with [] => g <| grouplifetimer_id := s.(igmp_grouplife) |> | _ => g end in
  let s := put_group p g s in
  if is_ok lRet then
    if 0 =? g.(MC_ipadd) then
      let* '(s, _) := mld_snp_mod_addr env (mkPkt IGMP_ADDR_DEL ifindex vid (group_id g) no_v6 g.(MC_v6ipadd) 0) IGMP_ADDR_DEL s in
      Done s
    else
      let* '(s, _) := igmp_snp_mod_addr env (mkPkt IGMP_ADDR_DEL ifindex vid (group_id g) 0 g.(MC_ipadd) 0) IGMP_ADDR_DEL s in
      Done s
  else Done s.

(** Every group of the VLAN; [false]: the port is a reporter port, and the event
    ends. *)
Fixpoint down_groups (fuel : nat) (vid ifindex : Z) (p : option positive) (s : IGS) : outcome (IGS * bool) :=
  match fuel with
  | O => OutOfFuel
  | S fuel' =>
      match p with
      | None => Done (s, true)
      | Some p =>
          let* discard := Igmp_Snoop_IF_Recv_Is_Report_Discard vid ifindex s in
          if (discard : bool) then Done (s, false)
          else
            let* s := port_leaves vid ifindex (fun _ => env.(junk_word)) p s in
            let* g := get_group s p in
            down_groups fuel' vid ifindex g.(g_next) s
      end
  end.

(** The VLANs of the port, all of them when the message names none.  The last
    component is the VLAN the walk stopped at; [None]: the event has returned. *)
Fixpoint down_vlans (fuel : nat) (vid ifindex : Z) (o : option Z) (s : IGS) : outcome (IGS * option (option Z)) :=
  match fuel with
  | O => OutOfFuel
  | S fuel' =>
      match o with
      | None => Done (s, Some None)
      | Some idx =>
          let* v := get_vlan s idx in
          if negb (vid =? 0) && negb (v.(vlan_id) =? vid) then
            if v.(v_next) =? -1 then Done (s, Some (Some idx))
            else down_vlans fuel' vid ifindex (GET_VLAN_POINT_BY_INDEX s v.(v_next)) s
          else
            let* rl := router_remove ifindex v.(routerlist) in
            let s := match rl with Some rl => put_vlan idx (v <| routerlist := rl |>) s | None => s end in
            let* '(s, go) := down_groups (group_turns s) v.(vlan_id) ifindex v.(firstgroup) s in
            if negb go then Done (s, None)
            else if v.(v_next) =? -1 then Done (s, Some (Some idx))
            else down_vlans fuel' vid ifindex (GET_VLAN_POINT_BY_INDEX s v.(v_next)) s
      end
  end.

Definition Igmp_Event_PortDown (vid ifindex : Z) (s : IGS) : outcome (IGS * Z) :=
  let* '(s, o) := down_vlans queue_turns vid ifindex (first_vlan s) s in
  match o with
  | None => Done (s, IGMPSNP_RETURN_CODE_OK)
  | Some o =>
      let* '(s, _) := Igmp_Event_GenQuery_Timeout env o s in
      let* '(s, _) := mld_Event_GenQuery_Timeout env o s in
      Done (s, IGMPSNP_RETURN_CODE_OK)
  end.

Fixpoint leave_groups (fuel : nat) (vid ifindex : Z) (p : option positive) (s : IGS) : outcome IGS :=
  match fuel with
  | O => OutOfFuel
  | S fuel' =>
      match p with
      | None => Done s
      | Some p =>
          let* s := port_leaves vid ifindex mgroup_id p s in
          let* g := get_group s p in
          leave_groups fuel' vid ifindex g.(g_next) s
      end
  end.

Definition Igmp_Event_VlanDelPort (vid ifindex : Z) (s : IGS) : outcome (IGS * Z) :=
  let '(s, _) := igmp_snp_vlan_port_delete vid ifindex s in
  let '(rl, _, _) := igmp_snp_searchrouterportlist vid ifindex IGMP_PORT_DEL None s.(p_routerlist) in
  let s := s <| p_routerlist := rl |> in
  let* '(reporters, _, _) := igmp_snp_searchreporterlist vid ifindex IGMP_PORT_DEL s.(p_reporterlist) in
  let s := s <| p_reporterlist := reporters |> in
  let* '(s, lRet, _, pPrevGroupVlan) := igmp_snp_searchvlangroup env vid 0 s in
  if negb (is_ok lRet) then Done (s, IGMPSNP_RETURN_CODE_ERROR)
  else
    match pPrevGroupVlan with
    | None => Done (s, IGMPSNP_RETURN_CODE_VLAN_NOT_EXIST)
    | Some idx =>
        let* v := get_vlan s idx in
        if negb (v.(vlan_id) =? vid) then Done (s, IGMPSNP_RETURN_CODE_VLAN_NOT_EXIST)
        else
          let* rl := router_remove ifindex v.(routerlist) in
          let s := match rl with Some rl => put_vlan idx (v <| routerlist := rl |>) s | None => s end in
          let* s := leave_groups (group_turns s) vid ifindex v.(firstgroup) s in
          Done (s, IGMPSNP_RETURN_CODE_OK)
    end.

(** The first VLAN takes the list of all VLANs with it. *)
Fixpoint remove_vlan (vid : Z) (l : list igmp_vlan_list) : list igmp_vlan_list :=
  match l with
  | [] => []
  | w :: l' => if w.(vl_vlan_id) =? vid then l' else w :: remove_vlan vid l'
  end.
Definition Igmp_Event_DelVlan (vid : Z) (s : IGS) : outcome (IGS * Z) :=
  if existsb (fun w => w.(vl_vlan_id) =? vid) s.(p_vlanlist) then
    let s :=
      match s.(p_vlanlist) with
      | w :: l =>
          if w.(vl_vlan_id) =? vid then s <| p_vlanlist := [] |> <| igmp_vlancount := 0 |>
          else s <| p_vlanlist := w :: remove_vlan vid l |> <| igmp_vlancount := u32 (s.(igmp_vlancount) - 1) |>
      | [] => s
      end in
    let* s := igmp_snp_del_mcgroupvlan env vid s in
    Done (Igmp_Snoop_Del_Reporter_ByVlan vid s, IGMPSNP_RETURN_CODE_OK)
  else Done (s, IGMPSNP_RETURN_CODE_OK).

(** ** Router ports ([igmp_snoop_cli.c]) *)

Definition igmp_add_routeport (vid ifindex group : Z) (s : IGS) : outcome (IGS * Z) :=
  let '(rl, _, ret) := igmp_snp_searchrouterportlist vid ifindex IGMP_PORT_ADD None s.(p_routerlist) in
  let s := s <| p_routerlist := rl |> in
  if negb (is_ok ret) then Done (s, ret)
  else
    let* '(s, ret, _, t_gpvlan) := igmp_snp_searchvlangroup env vid group s in
    match t_gpvlan with
    | Some idx =>
        if negb (is_ok ret) then Done (s, IGMPSNP_RETURN_CODE_ERROR)
        else
          let* v := get_vlan s idx in
          let* rl := router_append (mkRouter ifindex 0 no_v6 0) v.(routerlist) in
          Done (put_vlan idx (v <| routerlist := rl |>) s, IGMPSNP_RETURN_CODE_OK)
    | None => Done (s, IGMPSNP_RETURN_CODE_ERROR)
    end.

Definition igmp_del_routeport (vid ifindex group : Z) (s : IGS) : outcome (IGS * Z) :=
  let '(rl, _, ret) := igmp_snp_searchrouterportlist vid ifindex IGMP_PORT_DEL None s.(p_routerlist) in
  let s := s <| p_routerlist := rl |> in
  if negb (is_ok ret) then Done (s, ret)
  else
    let* '(s, ret, _, t_gpvlan) := igmp_snp_searchvlangroup env vid group s in
    match t_gpvlan with
    | Some idx =>
        if negb (is_ok ret) then Done (s, IGMPSNP_RETURN_CODE_ERROR)
        else
          let* v := get_vlan s idx in
          let* o := router_remove ifindex v.(routerlist) in
          match o with
          | Some rl => Done (put_vlan idx (v <| routerlist := rl |>) s, IGMPSNP_RETURN_CODE_OK)
          | None => Done (s, IGMPSNP_RETURN_CODE_ROUTE_PORT_NOTEXIST)
          end
    | None => Done (s, IGMPSNP_RETURN_CODE_ERROR)
    end.

Definition Igmp_Event_AddRouterPort (vid port_index : Z) (s : IGS) : outcome (IGS * Z) :=
  if snooping_off s then Done (s, IGMPSNP_RETURN_CODE_NOT_ENABLE_GBL)
  else if 0 =? vid then Done (s, IGMPSNP_RETURN_CODE_VLAN_NOT_EXIST)
  else igmp_add_routeport vid port_index 0 s.
Definition Igmp_Event_DelRouterPort (vid port_index : Z) (s : IGS) : outcome (IGS * Z) :=
  if snooping_off s then Done (s, IGMPSNP_RETURN_CODE_NOT_ENABLE_GBL)
  else if 0 =? vid then Done (s, IGMPSNP_RETURN_CODE_VLAN_NOT_EXIST)
  else igmp_del_routeport vid port_index 0 s.

Definition Igmp_Event_SysMac_Get (macAddr : list Z) (s : IGS) : IGS := s <| sysMac := Some macAddr |>.

(** ** Events of the switch daemon *)

Definition igmp_snp_device_event (event : Z) (ptr : dev_notify_msg) (s : IGS) : outcome (IGS * Z) :=
  let vid := ptr.(d_vlan_id) in
  let ifindex := ptr.(d_ifindex) in
  let port_ret := igmp_is_vlan_ifindex s.(p_vlanlist) vid ifindex in
  let used := default 0 (snd (igmp_vlanisused s.(p_vlanlist) vid)) in
  let ok (m : outcome (IGS * Z)) := let* '(s, _) := m in Done (s, IGMPSNP_RETURN_CODE_OK) in
  if event =? IGMPSNP_EVENT_DEV_DOWN then
    if negb (is_ok port_ret) then Done (s, IGMPSNP_RETURN_CODE_ERROR) else ok (Igmp_Event_PortDown 0 ifindex s)
  else if event =? IGMPSNP_EVENT_DEV_REGISTER then
    ok (Done (if used =? 0 then Igmp_Event_AddVlan (u16 vid) s else (s, IGMPSNP_RETURN_CODE_OK)))
  else if event =? IGMPSNP_EVENT_DEV_UNREGISTER then
    ok (if used =? 1 then Igmp_Event_DelVlan vid s else Done (s, IGMPSNP_RETURN_CODE_OK))
  else if event =? IGMPSNP_EVENT_DEV_VLANADDIF then
    if port_ret =? IGMPSNP_RETURN_CODE_NOTENABLE_PORT then
      let* '(s, _) := Igmp_Event_VlanAddPort vid ifindex s in Done (s, IGMPSNP_RETURN_CODE_OK)
    else Done (s, IGMPSNP_RETURN_CODE_OK)
  else if event =? IGMPSNP_EVENT_DEV_VLANDELIF then
    ok (if is_ok port_ret then Igmp_Event_VlanDelPort vid ifindex s else Done (s, IGMPSNP_RETURN_CODE_OK))
  else if event =? IGMPSNP_EVENT_DEV_MCROUTER_PORT_UP then
    ok (if is_ok port_ret then Igmp_Event_AddRouterPort (u16 vid) ifindex s else Done (s, IGMPSNP_RETURN_CODE_OK))
  else if event =? IGMPSNP_EVENT_DEV_MCROUTER_PORT_DOWN then
    ok (if is_ok port_ret then Igmp_Event_DelRouterPort (u16 vid) ifindex s else Done (s, IGMPSNP_RETURN_CODE_OK))
  else if event =? IGMPSNP_EVENT_DEV_SYS_MAC_NOTI then
    Done (Igmp_Event_SysMac_Get ptr.(sys_mac) s, IGMPSNP_RETURN_CODE_OK)
  else Done (s, IGMPSNP_RETURN_CODE_OK).

(** ** On and off *)

Definition init_igmp_snp_timer (s : IGS) : outcome (IGS * bool) :=
  match create_timer TIMER_TYPE_LOOP TIMER_PRIORI_NORMAL 500 GLOBAL_TIMER None with
  | inl _ => Done (s, false)
  | inr new_timer =>
      let* '(head, ret, _, n) := add_timer env s.(rand_count) s.(igmp_timer_list) new_timer in
      Done (s <| igmp_timer_list := head |> <| rand_count := n |>, is_ok ret)
  end.

(** The nodes of the array are dropped, the groups stay allocated, and the index of
    the first node keeps its value. *)
Definition igmp_enable_init (s : IGS) : outcome (IGS * Z) :=
  let* '(s, ret) := igmp_snp_mod_addr env (mkPkt IGMP_SYS_SET_INIT 0 0 0 0 0 0) IGMP_SYS_SET s in
  if negb (is_ok ret) then Done (s, IGMPSNP_RETURN_CODE_ERROR)
  else
    let* '(s, b) := init_igmp_snp_timer s in
    if negb b then Done (s, IGMPSNP_RETURN_CODE_ERROR)
    else Done (s <| mcgroup_vlan_queue := ∅ |>, IGMPSNP_RETURN_CODE_OK).

(** The slots from the first one on, up to a free one; behind the array the walk is
    undefined. *)
Fixpoint stop_slots (n : nat) (tmp : Z) (s : IGS) : outcome IGS :=
  match n with
  | O => Segv
  | S n' =>
      match s.(mcgroup_vlan_queue) !! tmp with
      | None => Done s
      | Some v =>
          let* s := igmp_snp_del_mcgroupvlan env v.(vlan_id) s in
          stop_slots n' (tmp + 1) (s <| mcgroup_vlan_queue := delete tmp s.(mcgroup_vlan_queue) |>)
      end
  end.

(** The configured router ports stay: the pointer to them is compared, not set. *)
Definition igmp_snp_stop (s : IGS) : outcome (IGS * Z) :=
  let* '(s, ret) := igmp_snp_mod_addr env (mkPkt IGMP_SYS_SET_STOP 0 0 0 0 0 0) IGMP_SYS_SET s in
  if negb (is_ok ret) then Done (s <| igmp_snoop_enable := IGMP_SNOOP_YES |>, IGMPSNP_RETURN_CODE_ERROR)
  else
    let* s :=
      if negb (s.(igmp_timer_list).(tl_cnt) =? 0) then
        let* '(head, _) := del_all_timer s.(igmp_timer_list) in Done (s <| igmp_timer_list := head |>)
      else Done s in
    let* s := stop_slots (Z.to_nat IGMP_GENERAL_GUERY_MAX) 0 s in
    Done (s <| first_mcgroupvlan_idx := -1 |> <| igmp_snoop_enable := IGMP_SNOOP_NO |>, IGMPSNP_RETURN_CODE_OK).

Definition igmp_set_enable (flag : Z) (s : IGS) : outcome (IGS * Z) :=
  if s.(mld_snoop_enable) =? 1 then Done (s, IGMPSNP_RETURN_CODE_ERROR_SW)
  else
    let* '(s, ret) := if negb (flag =? 0) then igmp_enable_init s else igmp_snp_stop s in
    Done (if is_ok ret then s <| igmp_snoop_enable := flag |> else s, ret).
Definition igmp_snp_set_enable_dbus (s : IGS) : outcome (IGS * Z) :=
  if IGMP_SNP_ISENABLE s then Done (s, IGMPSNP_RETURN_CODE_ALREADY_SET) else igmp_set_enable IGMP_SNOOP_YES s.
Definition igmp_snp_set_disable_dbus (s : IGS) : outcome (IGS * Z) :=
  if IGMP_SNP_ISENABLE s then igmp_set_enable IGMP_SNOOP_NO s else Done (s, IGMPSNP_RETURN_CODE_ALREADY_SET).

Definition mld_enable_init (s : IGS) : outcome (IGS * Z) :=
  let* '(s, ret) := mld_snp_mod_addr env (mkPkt IGMP_SYS_SET_INIT 0 0 0 no_v6 no_v6 0) IGMP_SYS_SET s in
  if negb (is_ok ret) then Done (s, IGMPSNP_RETURN_CODE_ERROR)
  else
    let* '(s, b) := init_igmp_snp_timer s in
    if negb b then Done (s, IGMPSNP_RETURN_CODE_ERROR)
    else Done (s <| mcgroup_vlan_queue := ∅ |>, IGMPSNP_RETURN_CODE_OK).

(** As [igmp_snp_stop]; the VLANs are deleted by the function of IGMP. *)
Definition mld_snp_stop (s : IGS) : outcome (IGS * Z) :=
  let* '(s, ret) := mld_snp_mod_addr env (mkPkt IGMP_SYS_SET_STOP 0 0 0 no_v6 no_v6 0) IGMP_SYS_SET s in
  if negb (is_ok ret) then Done (s <| mld_snoop_enable := IGMP_SNOOP_YES |>, IGMPSNP_RETURN_CODE_ERROR)
  else
    let* s :=
      if negb (s.(igmp_timer_list).(tl_cnt) =? 0) then
        let* '(head, _) := del_all_timer s.(igmp_timer_list) in Done (s <| igmp_timer_list := head |>)
      else Done s in
    let* s := stop_slots (Z.to_nat IGMP_GENERAL_GUERY_MAX) 0 s in
    Done (s <| first_mcgroupvlan_idx := -1 |> <| mld_snoop_enable := IGMP_SNOOP_NO |>, IGMPSNP_RETURN_CODE_OK).

(** A failure is not reported. *)
Definition mld_set_enable (flag : Z) (s : IGS) : outcome (IGS * Z) :=
  if s.(igmp_snoop_enable) =? 1 then Done (s, IGMPSNP_RETURN_CODE_ERROR_SW)
  else
    let* '(s, ret) := if negb (flag =? 0) then mld_enable_init s else mld_snp_stop s in
    Done (if is_ok ret then s <| mld_snoop_enable := flag |> else s, IGMPSNP_RETURN_CODE_OK).
Definition mld_snp_set_enable_dbus (s : IGS) : outcome (IGS * Z) :=
  if MLD_SNP_ISENABLE s then Done (s, IGMPSNP_RETURN_CODE_ALREADY_SET) else mld_set_enable IGMP_SNOOP_YES s.
Definition mld_snp_set_disable_dbus (s : IGS) : outcome (IGS * Z) :=
  if MLD_SNP_ISENABLE s then mld_set_enable IGMP_SNOOP_NO s else Done (s, IGMPSNP_RETURN_CODE_ALREADY_SET).

(** ** Intervals *)

Definition set_interval (low high current timeout : Z) (set : IGS → IGS) (s : IGS) : IGS * Z :=
  if snooping_off s then (s, IGMPSNP_RETURN_CODE_NOT_ENABLE_GBL)
  else if (timeout <=? high) && (low <=? timeout) then
    if current =? timeout then (s, IGMPSNP_RETURN_CODE_SAME_VALUE) else (set s, IGMPSNP_RETURN_CODE_OK)
  else (s, IGMPSNP_RETURN_CODE_OUT_RANGE).
Definition igmp_set_vlanlife_timerinterval_dbus (t : Z) (s : IGS) : IGS * Z :=
  set_interval 10000 100000 s.(igmp_vlanlife) t (fun s => s <| igmp_vlanlife := t |>) s.
Definition igmp_set_grouplife_timerinterval_dbus (t : Z) (s : IGS) : IGS * Z :=
  set_interval 1000 50000 s.(igmp_grouplife) t (fun s => s <| igmp_grouplife := t |>) s.
Definition igmp_set_query_timerinterval_dbus (t : Z) (s : IGS) : IGS * Z :=
  set_interval 1000 10000 s.(igmp_query_interval) t (fun s => s <| igmp_query_interval := t |>) s.
Definition igmp_set_resp_timerinterval_dbus (t : Z) (s : IGS) : IGS * Z :=
  set_interval 100 1000 s.(igmp_resp_interval) t (fun s => s <| igmp_resp_interval := t |>) s.
Definition igmp_set_robust_timerinterval_dbus (t : Z) (s : IGS) : IGS * Z :=
  set_interval 1 100 s.(igmp_robust_variable) t (fun s => s <| igmp_robust_variable := t |>) s.

(** The interval of retransmissions cannot be changed. *)
Definition VLAN_LIFETIME : Z := 1.
Definition GROUP_LIFETIME : Z := 2.
Definition ROBUST_VARIABLE : Z := 3.
Definition QUERY_INTERVAL : Z := 4.
Definition RESP_INTERVAL : Z := 5.
Definition igmp_snp_config_timer_dbus (type timeout : Z) (s : IGS) : IGS * Z :=
  if type =? VLAN_LIFETIME then igmp_set_vlanlife_timerinterval_dbus timeout s
  else if type =? GROUP_LIFETIME then igmp_set_grouplife_timerinterval_dbus timeout s
  else if type =? ROBUST_VARIABLE then igmp_set_robust_timerinterval_dbus timeout s
  else if type =? QUERY_INTERVAL then igmp_set_query_timerinterval_dbus timeout s
  else if type =? RESP_INTERVAL then igmp_set_resp_timerinterval_dbus timeout s
  else (s, IGMPSNP_RETURN_CODE_OK).

(** ** Messages of the kernel *)

Definition IGMP_SNP_TYPE_PACKET_MSG : Z := 2.
Definition IGMP_SNP_FLAG_PKT_UNKNOWN : Z := 1.
Definition IGMP_SNP_FLAG_PKT_IGMP : Z := 2.
Definition MLD_SNP_TYPE_PACKET_MSG : Z := 5.

Definition MLD_SNP_FLAG_PKT_UNKNOWN : Z := 4.
Definition MLD_SNP_FLAG_PKT_MLD : Z := 5.

Definition igmp_message_proc (msg_skb : igmp_skb) (s : IGS) : outcome (IGS * Z) :=
  if snooping_off s then Done (s, IGMPSNP_RETURN_CODE_NOT_ENABLE_GBL)
  else
    let* s :=
      if msg_skb.(nlmsg_type) =? IGMP_SNP_TYPE_PACKET_MSG then
        if s.(igmp_snoop_enable) =? 0 then Done s
        else if msg_skb.(nlmsg_flags) =? IGMP_SNP_FLAG_PKT_UNKNOWN then
          let* '(s, _) := igmp_recv_pktdata_proc env msg_skb s in Done s
        else if msg_skb.(nlmsg_flags) =? IGMP_SNP_FLAG_PKT_IGMP then
          let* '(s, _) := igmp_skb_proc env msg_skb s in Done s
        else Done s
      else if msg_skb.(nlmsg_type) =? MLD_SNP_TYPE_PACKET_MSG then
        if s.(mld_snoop_enable) =? 0 then Done s
        else if msg_skb.(nlmsg_flags) =? MLD_SNP_FLAG_PKT_UNKNOWN then
          let* '(s, _) := mld_recv_pktdata_proc env msg_skb s in Done s
        else if msg_skb.(nlmsg_flags) =? MLD_SNP_FLAG_PKT_MLD then
          let* '(s, _) := mld_skb_proc env msg_skb s in Done s
        else Done s
      else Done s in
    Done (s, IGMPSNP_RETURN_CODE_OK).

(** ** The thread of the timers *)

(** A packet of the wrong family would be read as one of the other; no timer is
    created with one. *)
Definition run_timer (x : timer_element) (s : IGS) : outcome IGS :=
  match x.(tm_func), x.(tm_data) with
  | GLOBAL_TIMER, _ => igmp_snp_global_timer_func env s
  | _, None => Done s
  | RXMT_TIMEOUT, Some (IGMP_DATA pkt) => Igmp_Event_Rxmt_Timeout env (Some pkt) s
  | RESP_TIMEOUT, Some (IGMP_DATA pkt) => Igmp_Event_Resp_Timeout env (Some pkt) s
  | MLD_RXMT_TIMEOUT, Some (MLD_DATA pkt) => mld_Event_Rxmt_Timeout env (Some pkt) s
  | MLD_RESP_TIMEOUT, Some (MLD_DATA pkt) => mld_Event_Resp_Timeout env (Some pkt) s
  | _, _ => Segv
  end.

Definition upd_timer (t : positive) (f : timer_element → timer_element) (s : IGS) : outcome IGS :=
  let h := s.(igmp_timer_list) in
  let* x := deref (h.(tl_nodes) !! t) in
  Done (s <| igmp_timer_list := h <| tl_nodes := <[t := f x]> h.(tl_nodes) |> |>).

(** One walk.  The fuel bounds the number of timers met, those added meanwhile
    among them. *)
Fixpoint timer_walk (fuel : nat) (o : option positive) (s : IGS) : outcome IGS :=
  match fuel with
  | O => OutOfFuel
  | S fuel' =>
      match o with
      | None => Done s
      | Some t =>
          let* x := deref (s.(igmp_timer_list).(tl_nodes) !! t) in
          let current := u32 (x.(tm_current) + 1) in
          let* s := upd_timer t (fun x => x <| tm_current := current |>) s in
          if current =? x.(tm_expires) then
            let* s := run_timer x s in
            let* x := deref (s.(igmp_timer_list).(tl_nodes) !! t) in
            if x.(tm_type) =? TIMER_TYPE_NOLOOP then
              let* '(head, _) := del_timer (s.(igmp_timer_list) <| tl_lock := 1 |>) x.(tm_id) in
              timer_walk fuel' x.(tm_next) (s <| igmp_timer_list := head <| tl_lock := 0 |> |>)
            else
              let* s := upd_timer t (fun x => x <| tm_current := 0 |>) s in
              timer_walk fuel' x.(tm_next) s
          else timer_walk fuel' x.(tm_next) s
      end
  end.

(** One turn of the thread. *)
Definition create_timer_thread (fuel : nat) (s : IGS) : outcome IGS :=
  if snooping_off s then Done s
  else
    let s := s <| igmp_timer_list := s.(igmp_timer_list) <| tl_lock := 0 |> |> in
    let* s := timer_walk fuel s.(igmp_timer_list).(first_timer) s in
    Done (s <| igmp_timer_list := s.(igmp_timer_list) <| tl_lock := 1 |> |>).
End Device.
