(* ===== verification/IgmpCreate.v ===== *)
(** * Creating a group, and first a node for its VLAN

    [vlan_node] finds the first free slot of the array and links it between the taken
    slots around it, so that the index list stays sorted. *)

From Stdlib Require Import ZArith Lia Sorting.Sorted.
From stdpp Require Import base gmap list option fin_maps fin_map_dom.
From S2P Require Import Prelude DList IgmpL2mc IgmpL2mcProps IgmpSnp IgmpList IgmpGroup IgmpGroupProps IgmpInv.

Implicit Types (s : IGS) (v : MC_group_vlan) (g : MC_group) (p : positive).

(** ** The configured router ports of a VLAN *)

Lemma find_from_spec {A} (test : A → bool) from l i : find_from test from l = Some i →
  (from ≤ i < length l)%nat ∧ is_Some (l !! i).
Proof.
  revert from i. induction l as [|x l IH]; intros from i E; simpl in E; [done|].
  destruct from as [|from].
  - destruct (test x).
    + injection E as <-. split; [simpl; lia|by eexists].
    + destruct (find_from test 0 l) as [j|] eqn:Ej; [|done]. injection E as <-.
      destruct (IH 0%nat j Ej). split; [simpl; lia|done].
  - destruct (find_from test from l) as [j|] eqn:Ej; [|done]. injection E as <-.
    destruct (IH from j Ej). split; [simpl; lia|done].
Qed.

(** The walk ends, and the block of a router entry is not overrun. *)
Lemma router_entries_ok fuel vid cursor l :
  (length l - match cursor with None => 0 | Some i => S i end < fuel)%nat → ∃ r, router_entries fuel vid cursor l = Done r.
Proof.
  revert cursor. induction fuel as [|fuel IH]; intros cursor Hl; [lia|]. cbn [router_entries].
  unfold query_router. destruct (find_from _ _ l) as [i|] eqn:E; [|by eexists].
  destruct (find_from_spec _ _ _ _ E) as [Hi [r Er]]. rewrite Er. cbn [deref obind].
  destruct (IH (Some i)) as [rest Er']; [lia|]. rewrite Er'. by eexists.
Qed.

(** ** Sorted lists *)

Lemma sorted_split (t : Z) l : StronglySorted Z.lt l →
  ∃ a b, l = a ++ b ∧ (∀ x, x ∈ a → x < t) ∧ (∀ x, x ∈ b → t <= x).
Proof.
  induction 1 as [|x l Hs (a & b & -> & Ha & Hb) Hx].
  - exists [], []. split_and!; [done|by intros ? ?%not_elem_of_nil..].
  - rewrite Forall_forall in Hx. destruct (decide (x < t)) as [Hlt|Hge].
    + exists (x :: a), b. split_and!; [done| |done]. intros y [->|Hy]%elem_of_cons; [done|by apply Ha].
    + exists [], (x :: a ++ b). split_and!; [done|by intros ? ?%not_elem_of_nil|].
      intros y [->|Hy]%elem_of_cons; [lia|]. specialize (Hx y Hy). lia.
Qed.

Lemma sorted_lst l pv : StronglySorted Z.lt l → ∀ x, x ∈ l → ∃ m, lst pv l = Some m ∧ x <= m.
Proof.
  intros Hs. revert pv. induction Hs as [|y l Hs IH Hy]; intros pv x Hx; [by apply not_elem_of_nil in Hx|].
  rewrite Forall_forall in Hy. cbn [lst]. apply elem_of_cons in Hx as [->|Hx]; [|by apply IH].
  destruct l as [|z l]; [exists y; split; [done|lia]|].
  destruct (IH (Some y) z) as (m & Em & Hm); [left|]. exists m. split; [done|].
  specialize (Hy z). assert (y < z) by (apply Hy; left). lia.
Qed.

Lemma sorted_hed l : StronglySorted Z.lt l → ∀ x, x ∈ l → ∃ m, hed l None = Some m ∧ m <= x.
Proof.
  destruct 1 as [|y l Hs Hy]; intros x Hx; [by apply not_elem_of_nil in Hx|].
  rewrite Forall_forall in Hy. exists y. split; [done|].
  apply elem_of_cons in Hx as [->|Hx]; [lia|]. specialize (Hy x Hx). lia.
Qed.

Lemma sorted_app_inv a b : StronglySorted Z.lt (a ++ b) → StronglySorted Z.lt a ∧ StronglySorted Z.lt b.
Proof.
  induction a as [|x a IH]; simpl; [split; [constructor|done]|].
  inversion 1 as [|? ? Hs Hf]; subst. destruct (IH Hs). split; [|done]. constructor; [done|].
  by apply Forall_app in Hf as [? _].
Qed.

Lemma sorted_insert (t : Z) a b : StronglySorted Z.lt (a ++ b) → (∀ x, x ∈ a → x < t) → (∀ x, x ∈ b → t < x) →
  StronglySorted Z.lt (a ++ t :: b).
Proof.
  intros Hs Ha Hb. induction a as [|x a IH]; simpl in *.
  - constructor; [done|]. by apply Forall_forall.
  - inversion Hs as [|? ? Hs' Hf]; subst. constructor.
    + apply IH; [done|]. intros y Hy. apply Ha. by right.
    + apply Forall_app in Hf as [Hf1 Hf2]. apply Forall_app. split; [done|]. constructor; [|done]. apply Ha. left.
Qed.

(** ** The first free slot *)

Lemma free_slot_spec n s i :
  let r := free_slot n s i in
  i <= r <= i + Z.of_nat n ∧ (∀ j, i <= j < r → is_Some (s.(mcgroup_vlan_queue) !! j)) ∧
  (r < i + Z.of_nat n → s.(mcgroup_vlan_queue) !! r = None).
Proof.
  revert i. induction n as [|n IH]; intros i; cbn [free_slot]; cbv zeta.
  - split_and!; [lia|lia|lia|lia].
  - destruct (s.(mcgroup_vlan_queue) !! i) as [v|] eqn:E; cbv zeta in IH.
    + destruct (IH (i + 1)) as (H1 & H2 & H3). split_and!; [lia|lia| |].
      * intros j Hj. destruct (decide (j = i)) as [->|Hne]; [by eexists|]. apply H2. lia.
      * intros Hr. apply H3. lia.
    + split_and!; [lia|lia| |done]. intros j Hj. lia.
Qed.

Lemma taken_slot_spec n s i :
  match taken_slot n s i with
  | Some r => i <= r < i + Z.of_nat n ∧ is_Some (GET_VLAN_POINT_BY_INDEX s r) ∧
              ∀ j, i <= j < r → GET_VLAN_POINT_BY_INDEX s j = None
  | None => ∀ j, i <= j < i + Z.of_nat n → GET_VLAN_POINT_BY_INDEX s j = None
  end.
Proof.
  revert i. induction n as [|n IH]; intros i; cbn [taken_slot].
  - intros j Hj. lia.
  - destruct (GET_VLAN_POINT_BY_INDEX s i) as [r|] eqn:E.
    + split_and!; [lia|lia|by eexists|]. intros j Hj. lia.
    + specialize (IH (i + 1)). destruct (taken_slot n s (i + 1)) as [r|].
      * destruct IH as (H1 & H2 & H3). split_and!; [lia|lia|done|]. intros j Hj.
        destruct (decide (j = i)) as [->|Hne]; [done|]. apply H3. lia.
      * intros j Hj. destruct (decide (j = i)) as [->|Hne]; [done|]. apply IH. lia.
Qed.

(** Where the new node goes: behind [a], before [b]. *)
Record slot_at s (tmp : Z) (a b : list Z) : Prop := {
  sl_range : 0 <= tmp < IGMP_GENERAL_GUERY_MAX;
  sl_queue : queue_ok s (a ++ b);
  sl_before : ∀ x, x ∈ a → x < tmp;
  sl_all : ∀ x, 0 <= x < tmp → x ∈ a;
  sl_after : ∀ x, x ∈ b → tmp < x }.

Lemma first_free_slot_at s order : queue_ok s order → (length order < 4096)%nat →
  ∃ a b, order = a ++ b ∧ slot_at s (first_free_slot s) a b.
Proof.
  intros Hq Hl. unfold first_free_slot. set (n := Z.to_nat IGMP_GENERAL_GUERY_MAX).
  destruct (free_slot_spec n s 0) as (H1 & H2 & H3). set (tmp := free_slot n s 0) in *.
  assert (Hn : Z.of_nat n = 4096) by (unfold n, IGMP_GENERAL_GUERY_MAX; lia).
  assert (Hlt : tmp < 4096).
  { destruct (decide (tmp < 4096)) as [|Hge]; [done|]. exfalso.
    assert (Hsub : seqZ 0 4096 ⊆+ order).
    { apply NoDup_submseteq; [apply NoDup_seqZ|]. intros j Hj%elem_of_seqZ. apply (q_dom _ _ Hq), H2. lia. }
    apply submseteq_length in Hsub. rewrite length_seqZ in Hsub. lia. }
  destruct (sorted_split tmp order (q_sorted _ _ Hq)) as (a & b & -> & Ha & Hb). exists a, b. split; [done|].
  assert (Hnone : tmp ∉ a ++ b).
  { intros Hi. destruct (q_elem s _ Hq tmp Hi) as [v Ev]. rewrite H3 in Ev by lia. done. }
  split; [unfold IGMP_GENERAL_GUERY_MAX; lia|done|done| |].
  - intros x Hx. assert (Hi : x ∈ a ++ b) by (apply (q_dom _ _ Hq), H2; lia).
    apply elem_of_app in Hi as [|Hi]; [done|]. specialize (Hb x Hi). lia.
  - intros x Hx. specialize (Hb x Hx). assert (x ≠ tmp) by (intros ->; apply Hnone, elem_of_app; by right). lia.
Qed.

(** ** Linking the slot *)

Lemma queue_put i v t : (put_vlan i v t).(mcgroup_vlan_queue) = <[i := v]> t.(mcgroup_vlan_queue).
Proof. done. Qed.
Lemma queue_first t i : (t <| first_mcgroupvlan_idx := i |>).(mcgroup_vlan_queue) = t.(mcgroup_vlan_queue).
Proof. done. Qed.

Ltac slot_simpl := cbn [deref obind]; repeat first [rewrite queue_put | rewrite queue_first].

Definition linked_node (node : MC_group_vlan) (a b : list Z) : MC_group_vlan :=
  node <| v_next := default (-1) (hed b None) |> <| v_prev := default (-1) (lst None a) |>.

Definition linked_queue s (tmp : Z) (node : MC_group_vlan) (a b : list Z) : gmap Z MC_group_vlan :=
  set_prv_of v_dlink
    (set_nxt_of v_dlink (<[tmp := linked_node node a b]> s.(mcgroup_vlan_queue)) (lst None a) (Some tmp))
    (hed b None) (Some tmp).

Section Slot.
Variables (s : IGS) (tmp : Z) (a b : list Z).
Hypothesis Hs : slot_at s tmp a b.

Lemma slot_free : tmp ∉ a ++ b.
Proof.
  intros [Hi|Hi]%elem_of_app; [specialize (sl_before _ _ _ _ Hs _ Hi)|specialize (sl_after _ _ _ _ Hs _ Hi)]; lia.
Qed.

Lemma slot_before : lst None a = if tmp =? 0 then None else Some (tmp - 1).
Proof.
  destruct (Z.eqb_spec tmp 0) as [E|E].
  - destruct a as [|x l] eqn:Ea; [done|]. exfalso. assert (Hx : x ∈ a) by (rewrite Ea; left).
    assert (x < tmp) by (apply (sl_before _ _ _ _ Hs); rewrite <- Ea; done).
    destruct (q_range _ _ (sl_queue _ _ _ _ Hs) x); [apply elem_of_app; left; by rewrite <- Ea|]. lia.
  - assert (Hsa := proj1 (sorted_app_inv _ _ (q_sorted _ _ (sl_queue _ _ _ _ Hs)))).
    destruct (sl_range _ _ _ _ Hs).
    assert (Hin : tmp - 1 ∈ a) by (apply (sl_all _ _ _ _ Hs); lia).
    destruct (sorted_lst a None Hsa _ Hin) as (m & Em & Hm). rewrite Em. apply lst_elem_None in Em.
    specialize (sl_before _ _ _ _ Hs _ Em). intros. f_equal. lia.
Qed.

(** Whether a slot is taken, seen through the new node. *)
Lemma slot_get t (x : Z) :
  x ≠ tmp → (∀ j, j ≠ tmp → is_Some (t.(mcgroup_vlan_queue) !! j) ↔ is_Some (s.(mcgroup_vlan_queue) !! j)) →
  GET_VLAN_POINT_BY_INDEX t x = GET_VLAN_POINT_BY_INDEX s x.
Proof.
  intros Hx Ht. unfold GET_VLAN_POINT_BY_INDEX. destruct (_ && _); [|done]. specialize (Ht x Hx).
  destruct (t.(mcgroup_vlan_queue) !! x) eqn:E1, (s.(mcgroup_vlan_queue) !! x) eqn:E2; try done.
  - destruct (proj1 Ht) as [? ?]; [by eexists|congruence].
  - destruct (proj2 Ht) as [? ?]; [by eexists|congruence].
Qed.

Lemma slot_get_prev t :
  (∀ j, j ≠ tmp → is_Some (t.(mcgroup_vlan_queue) !! j) ↔ is_Some (s.(mcgroup_vlan_queue) !! j)) →
  GET_VLAN_POINT_BY_INDEX t (tmp - 1) = lst None a.
Proof.
  intros Ht. rewrite slot_get by (lia || done). rewrite slot_before. destruct (Z.eqb_spec tmp 0) as [E|E].
  - rewrite E. done.
  - apply (get_index s _ (sl_queue _ _ _ _ Hs)), elem_of_app. left. apply (sl_all _ _ _ _ Hs).
    destruct (sl_range _ _ _ _ Hs). lia.
Qed.

Lemma slot_get_next t :
  (∀ j, j ≠ tmp → is_Some (t.(mcgroup_vlan_queue) !! j) ↔ is_Some (s.(mcgroup_vlan_queue) !! j)) →
  taken_slot (Z.to_nat (IGMP_GENERAL_GUERY_MAX - (tmp + 1))) t (tmp + 1) = hed b None.
Proof.
  intros Ht. assert (Hq := sl_queue _ _ _ _ Hs). destruct (sl_range _ _ _ _ Hs) as [Hr1 Hr2].
  assert (Hsb := proj2 (sorted_app_inv _ _ (q_sorted _ _ Hq))).
  assert (Hin : ∀ j, tmp < j → is_Some (GET_VLAN_POINT_BY_INDEX t j) ↔ j ∈ b).
  { intros j Hj. rewrite slot_get by (lia || done). split.
    - intros Hg. destruct (decide (j ∈ a ++ b)) as [[Hi|Hi]%elem_of_app|Hn]; [|done|].
      + specialize (sl_before _ _ _ _ Hs _ Hi). lia.
      + rewrite (get_none s _ Hq j Hn) in Hg. by destruct Hg.
    - intros Hb. rewrite (get_index s _ Hq j) by (apply elem_of_app; by right). by eexists. }
  assert (Hspec := taken_slot_spec (Z.to_nat (IGMP_GENERAL_GUERY_MAX - (tmp + 1))) t (tmp + 1)).
  destruct (taken_slot _ t (tmp + 1)) as [r|].
  - destruct Hspec as (H1 & H2 & H3). apply Hin in H2; [|lia].
    destruct (sorted_hed b Hsb r H2) as (m & Em & Hm). rewrite Em. f_equal.
    assert (Hmb := hed_elem _ _ Em). specialize (sl_after _ _ _ _ Hs _ Hmb). intros Hlt.
    destruct (decide (m = r)) as [|Hne]; [done|]. exfalso.
    assert (Hi : is_Some (GET_VLAN_POINT_BY_INDEX t m)) by (apply Hin; [lia|done]).
    rewrite H3 in Hi by lia. by destruct Hi.
  - destruct (hed b None) as [m|] eqn:Em; [|done]. exfalso. assert (Hmb := hed_elem _ _ Em).
    specialize (sl_after _ _ _ _ Hs _ Hmb). intros Hlt.
    assert (Hi : is_Some (GET_VLAN_POINT_BY_INDEX t m)) by (apply Hin; [lia|done]).
    destruct (q_range _ _ Hq m) as [_ Hm]; [apply elem_of_app; by right|].
    rewrite Hspec in Hi by lia. by destruct Hi.
Qed.

(** The state once the new node is linked; the index of the first node is [z]. *)
Definition linked_slot (node : MC_group_vlan) (z : Z) : IGS :=
  s <| mcgroup_vlan_queue := linked_queue s tmp node a b |> <| first_mcgroupvlan_idx := z |>.

Lemma taken_insert (m : gmap Z MC_group_vlan) (k : Z) x : is_Some (m !! k) → ∀ j, is_Some (<[k := x]> m !! j) ↔ is_Some (m !! j).
Proof.
  intros Hk j. destruct (decide (j = k)) as [->|Hne]; [|by rewrite lookup_insert_ne].
  rewrite lookup_insert_eq. split; [done|]. by eexists.
Qed.

Lemma slot_state node z (Q : IGS → Prop) : Q (linked_slot node z) → ∀ st,
  st = s <| mcgroup_vlan_queue := mcgroup_vlan_queue st |> <| first_mcgroupvlan_idx := z |> →
  mcgroup_vlan_queue st = linked_queue s tmp node a b → Q st.
Proof. intros HQ st -> Eq. unfold linked_slot in HQ. rewrite <- Eq in HQ. exact HQ. Qed.

Lemma wp_queue_link node z (Q : IGS → Prop) :
  Q (linked_slot node z) → wp (queue_link tmp ((put_vlan tmp node s) <| first_mcgroupvlan_idx := z |>)) Q.
Proof.
  intros HQ. assert (Hfree := slot_free). assert (Hq := sl_queue _ _ _ _ Hs). assert (Hnd := q_nodup s _ Hq).
  assert (Ha : ∀ q, lst None a = Some q → q ≠ tmp ∧ ∃ y, s.(mcgroup_vlan_queue) !! q = Some y).
  { intros q Hq'%lst_elem_None. assert (Hi : q ∈ a ++ b) by (apply elem_of_app; by left). split; [by intros ->|].
    by apply (q_elem s _ Hq). }
  assert (Hb : ∀ q, hed b None = Some q → q ≠ tmp ∧ ∃ y, s.(mcgroup_vlan_queue) !! q = Some y).
  { intros q Hq'%hed_elem. assert (Hi : q ∈ a ++ b) by (apply elem_of_app; by right). split; [by intros ->|].
    by apply (q_elem s _ Hq). }
  assert (Hab : ∀ q r, lst None a = Some q → hed b None = Some r → q ≠ r).
  { intros q r Hq'%lst_elem_None Hr%hed_elem ->. apply list.NoDup_app in Hnd as (_ & Hnd & _). by apply (Hnd r). }
  unfold queue_link. assert (Hts := slot_get_next).
  set (ts := taken_slot _) in *. clearbody ts. unfold get_vlan. slot_simpl.
  rewrite lookup_insert_eq. slot_simpl.
  rewrite slot_get_prev.
  2:{ intros j Hj. slot_simpl. rewrite !lookup_insert_ne by done. done. }
  destruct (lst None a) as [q|] eqn:Ea.
  - destruct (Ha q eq_refl) as (Hqt & y & Ey). slot_simpl. rewrite !lookup_insert_ne, Ey by done. slot_simpl.
    rewrite lookup_insert_ne, lookup_insert_eq by done. slot_simpl. rewrite Hts.
    2:{ intros j Hj. slot_simpl. rewrite lookup_insert_ne by done. rewrite taken_insert.
        - by rewrite !lookup_insert_ne.
        - rewrite !lookup_insert_ne by done. by eexists. }
    assert (Eqt : tmp - 1 = q).
    { assert (E := slot_before). rewrite Ea in E. destruct (tmp =? 0); [done|]. by injection E as ->. }
    rewrite Eqt. destruct (hed b None) as [r|] eqn:Eb.
    + destruct (Hb r eq_refl) as (Hrt & w & Ew). specialize (Hab q r eq_refl eq_refl). slot_simpl.
      rewrite lookup_insert_eq. slot_simpl. rewrite !lookup_insert_ne, Ew by done. slot_simpl.
      eapply (slot_state _ _ Q HQ); [reflexivity|]. slot_simpl.
      unfold linked_queue, linked_node, set_prv_of, set_nxt_of. rewrite Ea, Eb. simpl. apply map_eq. intros j.
      destruct (decide (j = tmp)) as [->|]; [|destruct (decide (j = q)) as [->|]; [|destruct (decide (j = r)) as [->|]]];
        simplify_map_eq; done.
    + slot_simpl. eapply (slot_state _ _ Q HQ); [reflexivity|]. slot_simpl.
      unfold linked_queue, linked_node, set_prv_of, set_nxt_of. rewrite Ea, Eb. simpl. apply map_eq. intros j.
      destruct (decide (j = tmp)) as [->|]; [|destruct (decide (j = q)) as [->|]]; simplify_map_eq; done.
  - slot_simpl. rewrite lookup_insert_eq. slot_simpl. rewrite Hts.
    2:{ intros j Hj. simpl. by rewrite !lookup_insert_ne. }
    destruct (hed b None) as [r|] eqn:Eb.
    + destruct (Hb r eq_refl) as (Hrt & w & Ew). slot_simpl.
      rewrite lookup_insert_eq. slot_simpl. rewrite !lookup_insert_ne, Ew by done. slot_simpl.
      eapply (slot_state _ _ Q HQ); [reflexivity|]. slot_simpl.
      unfold linked_queue, linked_node, set_prv_of, set_nxt_of. rewrite Ea, Eb. simpl. apply map_eq. intros j.
      destruct (decide (j = tmp)) as [->|]; [|destruct (decide (j = r)) as [->|]]; simplify_map_eq; done.
    + slot_simpl. eapply (slot_state _ _ Q HQ); [reflexivity|]. slot_simpl.
      unfold linked_queue, linked_node, set_prv_of, set_nxt_of. rewrite Ea, Eb. simpl. apply map_eq. intros j. destruct (decide (j = tmp)) as [->|]; simplify_map_eq; done.
Qed.

(** What linking leaves of the nodes. *)
Lemma linked_self node : linked_queue s tmp node a b !! tmp = Some (linked_node node a b).
Proof.
  assert (Hfree := slot_free). unfold linked_queue. rewrite set_prv_of_lookup_ne, set_nxt_of_lookup_ne.
  - by rewrite lookup_insert_eq.
  - intros Hl%lst_elem_None. apply Hfree, elem_of_app. by left.
  - intros Hh%hed_elem. apply Hfree, elem_of_app. by right.
Qed.

Lemma linked_data node j : j ≠ tmp →
  v_erase <$> linked_queue s tmp node a b !! j = v_erase <$> s.(mcgroup_vlan_queue) !! j.
Proof.
  intros Hj. unfold linked_queue. rewrite (set_prv_of_data v_dlink v_erase), (set_nxt_of_data v_dlink v_erase) by (by intros l []).
  by rewrite lookup_insert_ne.
Qed.

(** The data of the node can be set later. *)
Lemma linked_put node node' :
  <[tmp := linked_node node' a b]> (linked_queue s tmp node a b) = linked_queue s tmp node' a b.
Proof.
  assert (Hfree := slot_free).
  assert (Ha : lst None a ≠ Some tmp) by (intros Hl%lst_elem_None; apply Hfree, elem_of_app; by left).
  assert (Hb : hed b None ≠ Some tmp) by (intros Hh%hed_elem; apply Hfree, elem_of_app; by right).
  unfold linked_queue, set_prv_of, set_nxt_of.
  destruct (lst None a) as [q|], (hed b None) as [r|]; rewrite ?alter_insert_ne by congruence;
    by rewrite insert_insert_eq.
Qed.

(** The index of the first node, as the code leaves it. *)
Definition slot_first : Z := if tmp =? 0 then 0 else s.(first_mcgroupvlan_idx).

Lemma linked_queue_ok node : queue_ok (linked_slot node slot_first) (a ++ tmp :: b).
Proof.
  assert (Hfree := slot_free). destruct (sl_queue _ _ _ _ Hs) as [H1 H2 H3 H4 H5].
  assert (Hnd := q_nodup s _ (sl_queue _ _ _ _ Hs)).
  assert (Hn : NoDup (a ++ tmp :: b)) by (rewrite <- Permutation_middle; by constructor).
  split.
  - apply sorted_insert; [done|apply Hs|apply Hs].
  - intros i Hi. rewrite elem_of_app, elem_of_cons in Hi. destruct (sl_range _ _ _ _ Hs).
    destruct Hi as [Hi|[->|Hi]]; [|lia|]; apply H2, elem_of_app; auto.
  - intros i [w Ew]. destruct (decide (i = tmp)) as [->|Hne]; [apply elem_of_app; right; left|].
    destruct (fmap_eq_Some v_erase _ (s.(mcgroup_vlan_queue) !! i) w (eq_sym (linked_data node i Hne)) Ew) as (w0 & Ew0 & _).
    assert (Hi : i ∈ a ++ b) by (apply H3; by eexists). rewrite elem_of_app in Hi.
    rewrite elem_of_app, elem_of_cons. tauto.
  - apply (dseg_link v_dlink _ a tmp b (linked_node node a b)); [done| |by rewrite lookup_insert_eq|done|done].
    by apply dseg_insert_ne.
  - unfold linked_slot, slot_first. cbn [first_mcgroupvlan_idx set set_first_idx].
    assert (E := slot_before). destruct (Z.eqb_spec tmp 0) as [E0|E0].
    + apply lst_None in E. rewrite E, E0. done.
    + rewrite H5. destruct a as [|x l]; [done|]. done.
Qed.
End Slot.

Lemma linked_slot_state s tmp a b node z (s1 := linked_slot s tmp a b node z) :
  s1 = s <| mcgroup_vlan_queue := s1.(mcgroup_vlan_queue) |> <| first_mcgroupvlan_idx := s1.(first_mcgroupvlan_idx) |>.
Proof. unfold s1, linked_slot. cbn [mcgroup_vlan_queue first_mcgroupvlan_idx set set_queue set_first_idx]. reflexivity. Qed.

(** From here on the queue is known by the lemmas above. *)
#[global] Opaque linked_queue.

(** ** Creating a group

    [igmp_creat_group_node] puts a new group in front of the list of its VLAN, which
    gets a node when it has none, and gives the group the least identifier that no
    other group has. *)

(** ** A new node *)

Section NewVlan.
Variables (s : IGS) (tmp : Z) (a b : list Z) (node : MC_group_vlan).
Hypothesis Hc : core_ok s.
Hypothesis Hs : slot_at s tmp a b.
Hypothesis Hf : node.(firstgroup) = None.
Hypothesis Hr : ∃ l, node.(routerlist) = rlist l.
Hypothesis Hg : vlan_gone s node.(vlan_id).

Let s' := linked_slot s tmp a b node (slot_first s tmp).

Lemma new_back j w : s'.(mcgroup_vlan_queue) !! j = Some w →
  j = tmp ∧ w = linked_node node a b ∨
  j ≠ tmp ∧ ∃ w0, s.(mcgroup_vlan_queue) !! j = Some w0 ∧ v_erase w0 = v_erase w.
Proof.
  intros Ew. destruct (decide (j = tmp)) as [->|Hne].
  - left. split; [done|]. unfold s', linked_slot in Ew. cbn in Ew. rewrite (linked_self s tmp a b Hs) in Ew. congruence.
  - right. split; [done|]. unfold s', linked_slot in Ew. cbn in Ew.
    exact (fmap_eq_Some v_erase _ _ w (eq_sym (linked_data s tmp a b node j Hne)) Ew).
Qed.

Lemma new_forth j w0 : j ≠ tmp → s.(mcgroup_vlan_queue) !! j = Some w0 →
  ∃ w, s'.(mcgroup_vlan_queue) !! j = Some w ∧ v_erase w = v_erase w0.
Proof.
  intros Hne E. exact (fmap_eq_Some v_erase _ _ w0 (linked_data s tmp a b node j Hne) E).
Qed.

Lemma new_vlan_core : core_ok s'.
Proof.
  assert (Hfree : s.(mcgroup_vlan_queue) !! tmp = None).
  { destruct (s.(mcgroup_vlan_queue) !! tmp) eqn:E; [|done]. destruct (slot_free s tmp a b Hs).
    apply (q_dom _ _ (sl_queue _ _ _ _ Hs)). by eexists. }
  destruct Hc as [_ Hvid Hgr Ho Ha Hro]. split.
  - exists (a ++ tmp :: b). by apply linked_queue_ok.
  - intros i j v w Ei Ej Evw.
    destruct (new_back i v Ei) as [[-> ->]|(Hi & v0 & Ev0 & Ee)], (new_back j w Ej) as [[-> ->]|(Hj & w0 & Ew0 & Ee')]; try done.
    + apply v_erase_fields in Ee' as (E1 & _). destruct (Hg j w0 Ew0). by rewrite E1.
    + apply v_erase_fields in Ee as (E1 & _). destruct (Hg i v0 Ev0). by rewrite E1.
    + apply v_erase_fields in Ee as (E1 & _). apply v_erase_fields in Ee' as (E1' & _).
      apply (Hvid i j v0 w0); [done|done|congruence].
  - intros i v Ei. destruct (new_back i v Ei) as [[-> ->]|(Hi & v0 & Ev0 & Ee)].
    + exists []. split; [constructor|done|done|]. intros p g Eg. split; [by intros ?%not_elem_of_nil|].
      intros Evg. destruct (Ho p g Eg) as (j & w & Ej & Ew). destruct (Hg j w Ej). etransitivity; [exact Ew|exact Evg].
    + apply v_erase_fields in Ee as (E1 & E2 & _). destruct (Hgr i v0 Ev0) as (ps & [G1 G2 G3 G4]).
      exists ps. split; [done|done|congruence|]. intros p g Eg. rewrite <- E1. by apply G4.
  - intros p g Eg. destruct (Ho p g Eg) as (j & w & Ej & Ew).
    assert (Hj : j ≠ tmp) by (intros ->; congruence).
    destruct (new_forth j w Hj Ej) as (w' & Ew' & Ee). apply v_erase_fields in Ee as (E1 & _).
    exists j, w'. split; [done|congruence].
  - exact Ha.
  - intros i v Ei. destruct (new_back i v Ei) as [[-> ->]|(Hi & v0 & Ev0 & Ee)]; [done|].
    apply v_erase_fields in Ee as (_ & _ & E3). rewrite <- E3. by eapply Hro.
Qed.
End NewVlan.

(** ** A new group *)

(** The group in front of the list of the VLAN. *)
Definition add_group s idx v p g : IGS :=
  with_lists s
    (<[p := g <| g_next := v.(firstgroup) |> <| g_prev := None |>]> (set_prv_of g_dlink s.(groups) v.(firstgroup) (Some p)))
    (<[idx := v <| firstgroup := Some p |>]> s.(mcgroup_vlan_queue)).

Lemma prv_data h o pv q :
  (fun y => (g_key y, g_erase y)) <$> set_prv_of g_dlink h o pv !! q = (fun y => (g_key y, g_erase y)) <$> h !! q.
Proof. apply (set_prv_of_data g_dlink (fun y => (g_key y, g_erase y))). by intros l []. Qed.

Section NewGroup.
Variables (s : IGS) (idx : Z) (v : MC_group_vlan) (p : positive) (g : MC_group).
Hypothesis Hc : core_ok s.
Hypothesis Ev : s.(mcgroup_vlan_queue) !! idx = Some v.
Hypothesis Ep : s.(groups) !! p = None.
Hypothesis Hv : g.(g_vid) = v.(vlan_id).
Hypothesis Hk : ∀ q h, s.(groups) !! q = Some h → g_key h ≠ g_key g.

Let s' := add_group s idx v p g.

Lemma add_back q x : s'.(groups) !! q = Some x →
  q = p ∧ x = g <| g_next := v.(firstgroup) |> <| g_prev := None |> ∨
  q ≠ p ∧ ∃ x0, s.(groups) !! q = Some x0 ∧ g_key x0 = g_key x ∧ g_erase x0 = g_erase x.
Proof.
  intros E. unfold s', add_group in E. cbn in E. destruct (decide (q = p)) as [->|Hne].
  - rewrite lookup_insert_eq in E. left. split; [done|congruence].
  - rewrite lookup_insert_ne in E by done. right. split; [done|].
    destruct (fmap_eq_Some (fun y => (g_key y, g_erase y)) _ (s.(groups) !! q) x
                (eq_sym (prv_data s.(groups) v.(firstgroup) (Some p) q)) E)
      as (x0 & Ex0 & Ee).
    exists x0. split; [done|]. split; [exact (f_equal fst Ee)|exact (f_equal snd Ee)].
Qed.

Lemma add_forth q x0 : s.(groups) !! q = Some x0 →
  ∃ x, s'.(groups) !! q = Some x ∧ g_key x = g_key x0 ∧ g_erase x = g_erase x0.
Proof.
  intros E. assert (Hne : q ≠ p) by (intros ->; congruence). unfold s', add_group. cbn. rewrite lookup_insert_ne by done.
  destruct (fmap_eq_Some (fun y => (g_key y, g_erase y)) (s.(groups) !! q) _ x0
              (prv_data s.(groups) v.(firstgroup) (Some p) q) E) as (x & Ex & Ee).
  exists x. split; [done|]. split; [exact (f_equal fst Ee)|exact (f_equal snd Ee)].
Qed.

Lemma add_vlan j w : s'.(mcgroup_vlan_queue) !! j = Some w →
  ∃ w0, s.(mcgroup_vlan_queue) !! j = Some w0 ∧ w.(vlan_id) = w0.(vlan_id) ∧ w.(routerlist) = w0.(routerlist)
        ∧ (j = idx ∧ w = v <| firstgroup := Some p |> ∧ w0 = v ∨ j ≠ idx ∧ w = w0).
Proof.
  intros E. unfold s', add_group in E. cbn in E. destruct (decide (j = idx)) as [->|Hne].
  - rewrite lookup_insert_eq in E. injection E as <-. exists v. split_and!; [done..|]. by left.
  - rewrite lookup_insert_ne in E by done. exists w. split_and!; [done..|]. by right.
Qed.

Lemma add_groups ps : vlan_groups s v ps → vlan_groups s' (v <| firstgroup := Some p |>) (p :: ps).
Proof.
  intros [H1 H2 H3 H4]. assert (Hp : p ∉ ps).
  { intros Hi. destruct (dseg_elem _ _ _ _ _ p H2 Hi) as [? ?]. congruence. }
  split; [by constructor| |done|].
  - assert (Hl := dseg_link g_dlink (<[p := g <| g_next := v.(firstgroup) |> <| g_prev := None |>]> s.(groups)) [] p ps
                    (g <| g_next := v.(firstgroup) |> <| g_prev := None |>)).
    unfold s', add_group. cbn -[dseg].
    assert (Eq : <[p := g <| g_next := v.(firstgroup) |> <| g_prev := None |>]> (set_prv_of g_dlink s.(groups) v.(firstgroup) (Some p))
            = set_prv_of g_dlink (<[p := g <| g_next := v.(firstgroup) |> <| g_prev := None |>]> s.(groups)) (hed ps None) (Some p)).
    { rewrite H3. unfold set_prv_of. destruct (hed ps None) as [q|] eqn:Eh; [|done].
      rewrite alter_insert_ne; [done|]. intros ->. apply Hp. by apply hed_elem. }
    rewrite Eq. apply Hl; [by constructor| |by rewrite lookup_insert_eq|done|by rewrite <- H3].
    by apply dseg_insert_ne.
  - intros q x Eq. rewrite elem_of_cons. cbn [vlan_id set set_firstgroup].
    destruct (add_back q x Eq) as [[-> ->]|(Hne & x0 & Ex0 & [= Evv _] & _)].
    + split; [intros _; exact Hv|by left].
    + rewrite <- Evv, <- (H4 q x0 Ex0). tauto.
Qed.

Lemma add_core : core_ok s'.
Proof.
  destruct Hc as [[order Hq] Hvid Hgr Ho Ha Hro]. split.
  - exists order. set (v' := v <| firstgroup := Some p |>).
    assert (H := queue_ok_put s order idx v v' Hq Ev eq_refl eq_refl).
    by destruct H.
  - intros j k w x Ej Ek. destruct (add_vlan j w Ej) as (w0 & ? & -> & _). destruct (add_vlan k x Ek) as (x0 & ? & -> & _).
    by eapply Hvid.
  - intros j w Ej. destruct (add_vlan j w Ej) as (w0 & Ew0 & Ewv & _ & [(-> & -> & ->)|(Hne & ->)]).
    + destruct (Hgr idx v Ev) as (ps & Hps). exists (p :: ps). by apply add_groups.
    + destruct (Hgr j w0 Ew0) as (ps & [G1 G2 G3 G4]). exists ps. split; [done| |done|].
      * assert (Hout : ∀ q x, q ∈ ps → s.(groups) !! q = Some x → v.(firstgroup) ≠ Some q).
        { intros q x Hi Ex Ef. destruct (Hgr idx v Ev) as (qs & [Q1 Q2 Q3 Q4]). rewrite Q3 in Ef. apply hed_elem in Ef.
          apply Hne. apply (Hvid j idx w0 v); [done|done|].
          rewrite <- (proj1 (G4 q x Ex) Hi). by apply (Q4 q x Ex). }
        eapply dseg_frame; [|exact G2]. intros q x Hi Ex. exists x. split; [|done].
        unfold s', add_group. cbn. rewrite lookup_insert_ne by (intros ->; congruence).
        rewrite set_prv_of_lookup_ne; [done|]. by eapply Hout.
      * intros q x Eq. destruct (add_back q x Eq) as [[-> ->]|(Hqp & x0 & Ex0 & [= Evv _] & _)].
        -- split; [intros Hi; destruct (dseg_elem _ _ _ _ _ p G2 Hi) as [? ?]; congruence|].
           intros Evg. destruct Hne. apply (Hvid j idx w0 v); [done|done|]. cbn in Evg. congruence.
        -- rewrite <- Evv. by apply G4.
  - intros q x Eq. destruct (add_back q x Eq) as [[-> ->]|(_ & x0 & Ex0 & [= Evv _] & _)].
    + exists idx, (v <| firstgroup := Some p |>). unfold s', add_group. cbn. by rewrite lookup_insert_eq.
    + destruct (Ho q x0 Ex0) as (j & w & Ej & Ew). rewrite <- Evv. destruct (decide (j = idx)) as [->|Hne].
      * exists idx, (v <| firstgroup := Some p |>). unfold s', add_group. cbn. rewrite lookup_insert_eq. split; [done|].
        assert (w = v) as -> by congruence. done.
      * exists j, w. unfold s', add_group. cbn. by rewrite lookup_insert_ne.
  - intros q r x y Eq Er Evv Eaa.
    destruct (add_back q x Eq) as [[-> ->]|(_ & x0 & Ex0 & Ekx & _)], (add_back r y Er) as [[-> ->]|(_ & y0 & Ey0 & Eky & _)]; try done.
    + destruct (Hk r y0 Ey0). rewrite Eky. unfold g_key. f_equal; symmetry; assumption.
    + destruct (Hk q x0 Ex0). rewrite Ekx. unfold g_key. f_equal; assumption.
    + injection Ekx as ? ?. injection Eky as ? ?. apply (Ha q r x0 y0); congruence.
  - intros j w Ej. destruct (add_vlan j w Ej) as (w0 & Ew0 & _ & -> & _). by eapply Hro.
Qed.

Lemma add_table : group_table s' = <[g_key g := g_erase g]> (group_table s).
Proof.
  apply table_ext; [apply add_core|]. intros k x. destruct (decide (k = g_key g)) as [->|Hne].
  - rewrite lookup_insert_eq. split.
    + intros [= <-]. exists p, (g <| g_next := v.(firstgroup) |> <| g_prev := None |>). split; [|done].
      unfold s', add_group. cbn. by rewrite lookup_insert_eq.
    + intros (q & y & Eq & Ek & <-). destruct (add_back q y Eq) as [[-> ->]|(_ & y0 & Ey0 & Ek' & _)]; [done|].
      destruct (Hk q y0 Ey0). congruence.
  - rewrite lookup_insert_ne, group_table_lookup by done. split.
    + intros (q & y & Eq & <- & <-). destruct (add_forth q y Eq) as (y' & Ey' & Ek & Ee). by exists q, y'.
    + intros (q & y & Eq & <- & <-). destruct (add_back q y Eq) as [[-> ->]|(_ & y0 & Ey0 & <- & <-)]; [done|by exists q, y0].
Qed.

Lemma add_size : size s'.(groups) = S (size s.(groups)).
Proof.
  unfold s', add_group. cbn. rewrite map_size_insert_None.
  - f_equal. rewrite <- !size_dom. unfold set_prv_of. destruct (firstgroup v); by rewrite ?dom_alter_L.
  - rewrite <- not_elem_of_dom. unfold set_prv_of. destruct (firstgroup v); rewrite ?dom_alter_L; by rewrite not_elem_of_dom.
Qed.
End NewGroup.

(** ** The identifier of a new group, and the whole of its creation *)

(** ** The identifiers in use *)

Section Ids.
Variable s : IGS.

(** [u] holds no more than the identifiers of groups. *)
Definition ids_sound (u : gset Z) : Prop := ∀ i, i ∈ u → ∃ p g, s.(groups) !! p = Some g ∧ g.(mgroup_id) = i.
Definition ids_fine : Prop := ∀ p g, s.(groups) !! p = Some g → 0 ≤ g.(mgroup_id) < IGMP_SNP_GRP_MAX.

Lemma wp_group_ids fuel pv ps u :
  ids_fine → dseg g_dlink s.(groups) pv ps None → (length ps < fuel)%nat → ids_sound u →
  wp (group_ids fuel s (hed ps None) u) (fun u' =>
    ids_sound u' ∧ u ⊆ u' ∧ ∀ p g, p ∈ ps → s.(groups) !! p = Some g → g.(mgroup_id) ∈ u').
Proof.
  intros Hf. revert pv fuel u. induction ps as [|p ps IH]; intros pv [|fuel] u Hd Hl Hu; simpl in Hl; try lia.
  - split_and!; [done|done|]. by intros p g ?%not_elem_of_nil.
  - destruct Hd as [(g & Eg & _ & En) Hd]. cbn [group_ids hed]. unfold get_group. rewrite Eg; cbn [deref obind].
    destruct (Hf p g Eg) as [Hi1 Hi2]. rewrite (proj2 (Z.leb_le _ _) Hi1), (proj2 (Z.ltb_lt _ _) Hi2). cbn [andb].
    simpl in En. rewrite En. eapply wp_mono; [eapply (IH (Some p)); [done|lia|]|].
    + intros i [->%elem_of_singleton|Hi]%elem_of_union; [by exists p, g|by apply Hu].
    + intros u' (H1 & H2 & H3). split_and!; [done|set_solver|].
      intros q h [->|Hq]%elem_of_cons Eh; [|by eapply H3]. assert (h = g) as -> by congruence. set_solver.
Qed.

Variable order : list Z.
Hypothesis Hq : queue_ok s order.
Hypothesis Hf : ids_fine.

(** [own i p]: the group [p] is in the list of the VLAN in slot [i]. *)
Variable own : Z → positive → Prop.
Hypothesis Hlists : ∀ i v, s.(mcgroup_vlan_queue) !! i = Some v →
  ∃ ps, dseg g_dlink s.(groups) None ps None ∧ v.(firstgroup) = hed ps None ∧ (length ps < group_turns s)%nat ∧
        ∀ p, own i p → p ∈ ps.

Lemma wp_vlan_group_ids fuel a b u :
  order = a ++ b → (length b < fuel)%nat → ids_sound u →
  wp (vlan_group_ids fuel s (hed b None) u) (fun u' =>
    ids_sound u' ∧ u ⊆ u' ∧ ∀ i p g, i ∈ b → own i p → s.(groups) !! p = Some g → g.(mgroup_id) ∈ u').
Proof.
  revert a fuel u. induction b as [|i b IH]; intros a [|fuel] u E Hl Hu; simpl in Hl; try lia.
  - split_and!; [done|done|]. by intros i p g ?%not_elem_of_nil.
  - destruct (order_vlan s order Hq a i b E) as (v & Ev & _ & En). cbn [vlan_group_ids hed].
    unfold get_vlan. rewrite Ev; cbn [deref obind]. destruct (Hlists i v Ev) as (ps & Hd & Hh & Hlen & Hown).
    rewrite Hh. apply wp_bind. eapply wp_mono; [by eapply wp_group_ids|]. intros u1 (H1 & H2 & H3).
    rewrite En, (get_link s order Hq).
    2:{ intros j Hj. rewrite E. apply elem_of_app. right; by right. }
    eapply wp_mono; [apply (IH (a ++ [i])); [by rewrite <- app_assoc|lia|done]|].
    intros u2 (K1 & K2 & K3). split_and!; [done|set_solver|].
    intros j p g [->|Hj]%elem_of_cons Ho Eg; [|by eapply K3]. apply K2. eapply H3; [by apply Hown|done].
Qed.

(** Every group is in a list, so every identifier is found. *)
Lemma wp_all_ids :
  (∀ p g, s.(groups) !! p = Some g → ∃ i, is_Some (s.(mcgroup_vlan_queue) !! i) ∧ own i p) →
  wp (vlan_group_ids queue_turns s (first_vlan s) ∅) (fun u =>
    ids_sound u ∧ ∀ p g, s.(groups) !! p = Some g → g.(mgroup_id) ∈ u).
Proof.
  intros Hall. rewrite (first_vlan_hed s order Hq).
  eapply wp_mono; [apply (wp_vlan_group_ids _ [] order ∅); [done|by apply (order_length s)|]|].
  - intros i Hi. by apply not_elem_of_empty in Hi.
  - intros u (H1 & _ & H3). split; [done|]. intros p g Eg. destruct (Hall p g Eg) as (i & Hi & Ho).
    eapply H3; [by apply (q_dom _ _ Hq)|done|done].
Qed.
End Ids.

(** ** The least identifier that is not in use *)

Lemma unused_spec u i n :
  match unused_id u i n with
  | Some k => i <= k < i + Z.of_nat n ∧ k ∉ u
  | None => ∀ k, i <= k < i + Z.of_nat n → k ∈ u
  end.
Proof.
  revert i. induction n as [|n IH]; intros i; cbn [unused_id]; [intros k Hk; lia|].
  destruct (decide (i ∈ u)) as [Hi|Hi]; [|split; [lia|done]].
  specialize (IH (i + 1)). destruct (unused_id u (i + 1) n).
  - destruct IH. split; [lia|done].
  - intros k Hk. destruct (decide (k = i)) as [->|Hne]; [done|]. apply IH. lia.
Qed.

(** With an identifier 0 among those of [n] groups, one of 1..n is not in use. *)
Lemma unused_found s u p g : ids_sound s u → s.(groups) !! p = Some g → g.(mgroup_id) = 0 →
  let n := size s.(groups) in ∃ k, unused_id u 1 n = Some k ∧ 1 <= k <= Z.of_nat n ∧ k ∉ u.
Proof.
  intros Hu Eg Eid n. assert (H := unused_spec u 1 n). destruct (unused_id u 1 n) as [k|].
  { exists k. destruct H. split_and!; [done|lia|lia|done]. }
  exfalso. set (ids := (fun pg => mgroup_id pg.2) <$> map_to_list s.(groups)).
  assert (Hsub : 0 :: seqZ 1 (Z.of_nat n) ⊆+ ids).
  { apply NoDup_submseteq.
    - constructor; [|apply NoDup_seqZ]. rewrite elem_of_seqZ. lia.
    - intros i Hi. assert (Hg : ∃ q h, s.(groups) !! q = Some h ∧ h.(mgroup_id) = i).
      { apply elem_of_cons in Hi as [->|Hi%elem_of_seqZ]; [by exists p, g|]. apply Hu, H. lia. }
      destruct Hg as (q & h & Eh & <-). unfold ids. apply list_elem_of_fmap. exists (q, h). split; [done|].
      by apply elem_of_map_to_list. }
  apply submseteq_length in Hsub. unfold ids in Hsub. rewrite length_fmap, length_map_to_list in Hsub.
  cbn [length] in Hsub. rewrite length_seqZ in Hsub. unfold n in Hsub. lia.
Qed.

(** What the search returns on a state with a new group that has no identifier yet. *)
Lemma wp_groupcount s (own : Z → positive → Prop) order p g (Q : option Z → Prop) :
  queue_ok s order → ids_fine s → s.(igmp_snoop_enable) ≠ 0 → s.(igmp_groupcount) = Z.of_nat (size s.(groups)) →
  (∀ i v, s.(mcgroup_vlan_queue) !! i = Some v →
     ∃ ps, dseg g_dlink s.(groups) None ps None ∧ v.(firstgroup) = hed ps None ∧ (length ps < group_turns s)%nat ∧
           ∀ p, own i p → p ∈ ps) →
  (∀ p g, s.(groups) !! p = Some g → ∃ i, is_Some (s.(mcgroup_vlan_queue) !! i) ∧ own i p) →
  s.(groups) !! p = Some g → g.(mgroup_id) = 0 →
  (∀ o, (0 ≤ default 0 o < IGMP_SNP_GRP_MAX) →
        (default 0 o ≠ 0 → ∀ q h, s.(groups) !! q = Some h → h.(mgroup_id) ≠ default 0 o) → Q o) →
  wp (igmp_searchvlangroup_by_groupcount s) Q.
Proof.
  intros Hq Hf Hon Hcnt Hl Hall Eg Eid HQ. unfold igmp_searchvlangroup_by_groupcount.
  rewrite (proj2 (Z.eqb_neq _ _) Hon). cbn [negb]. rewrite Hcnt.
  destruct (Z.leb_spec IGMP_SNP_GRP_MAX (Z.of_nat (size s.(groups)))) as [Hge|Hlt].
  { apply HQ; [unfold IGMP_SNP_GRP_MAX; simpl; lia|done]. }
  apply wp_bind. eapply wp_mono; [by eapply wp_all_ids|]. intros u [Hu1 Hu2]. cbn [wp].
  rewrite Nat2Z.id. destruct (unused_found s u p g Hu1 Eg Eid) as (k & -> & Hk & Hku). cbn [default from_option id].
  apply HQ; cbn [default from_option id]; [lia|]. intros _ q h Eh <-. apply Hku. by eapply Hu2.
Qed.
