(* ===== verification/IgmpNewGroup.v ===== *)
(** * The whole of [igmp_creat_group_node] *)

From Stdlib Require Import ZArith Lia.
From Stdlib Require Import Sorting.Sorted.
From stdpp Require Import base gmap list option fin_maps.
From S2P Require Import Prelude DList IgmpL2mc IgmpL2mcProps IgmpSnp IgmpList IgmpGroup IgmpGroupProps IgmpInv IgmpCreate.

Implicit Types (s : IGS) (v : MC_group_vlan) (g : MC_group) (p : positive).

(** ** The node *)

(** There are fewer VLANs than slots. *)
Lemma order_small s order : igs_ok s → queue_ok s order → (length order < 4096)%nat.
Proof.
  intros Hok Hq. set (vid i := default 0 (vlan_id <$> s.(mcgroup_vlan_queue) !! i)).
  assert (Hsub : vid <$> order ⊆+ seqZ 0 4095).
  { apply NoDup_submseteq.
    - apply NoDup_fmap_2_strong; [|by eapply q_nodup]. intros i j Hi Hj E.
      destruct (q_elem s _ Hq i Hi) as [v Ev], (q_elem s _ Hq j Hj) as [w Ew]. unfold vid in E. rewrite Ev, Ew in E.
      by eapply (co_vids s (io_core s Hok)).
    - intros k (i & -> & Hi)%list_elem_of_fmap. destruct (q_elem s _ Hq i Hi) as [v Ev]. unfold vid. rewrite Ev.
      cbn. apply elem_of_seqZ. assert (H := io_vids s Hok i v Ev). lia. }
  apply submseteq_length in Hsub. rewrite length_fmap, length_seqZ in Hsub. lia.
Qed.

(** The node [v] in slot [idx] is that of the VLAN, or becomes it with the next
    write. *)
Record node_ready s s1 (vid idx : Z) (created : bool) v : Prop := {
  nr_state : s1 = s <| mcgroup_vlan_queue := s1.(mcgroup_vlan_queue) |> <| first_mcgroupvlan_idx := s1.(first_mcgroupvlan_idx) |>;
  nr_slot : s1.(mcgroup_vlan_queue) !! idx = Some v;
  nr_vid : created = false → v.(vlan_id) = vid;
  nr_routers : ∃ l, v.(routerlist) = rlist l;
  nr_vids : ∀ j w, j ≠ idx → s1.(mcgroup_vlan_queue) !! j = Some w → 0 ≤ w.(vlan_id) ≤ 4094;
  nr_core : ∀ x, x.(v_next) = v.(v_next) → x.(v_prev) = v.(v_prev) → x.(firstgroup) = v.(firstgroup) →
              x.(vlan_id) = vid → (∃ l, x.(routerlist) = rlist l) → core_ok (put_vlan idx x s1) }.

Lemma put_linked s tmp a b node x z :
  slot_at s tmp a b → x.(v_next) = (linked_node node a b).(v_next) → x.(v_prev) = (linked_node node a b).(v_prev) →
  put_vlan tmp x (linked_slot s tmp a b node z) = linked_slot s tmp a b x z.
Proof.
  intros Hs En Ep. assert (Ex : x = linked_node x a b) by (destruct x; simpl in *; by subst).
  unfold put_vlan, linked_slot. rewrite <- (linked_put s tmp a b Hs node x), <- Ex. done.
Qed.

Lemma wp_vlan_node s vid node ov (Q : IGS * Z * bool → Prop) :
  igs_ok s → (match ov with Some i => ∃ w, s.(mcgroup_vlan_queue) !! i = Some w ∧ w.(vlan_id) = vid | None => vlan_gone s vid end) →
  node.(firstgroup) = None → (∃ l, node.(routerlist) = rlist l) →
  (∀ s1 idx created v, node_ready s s1 vid idx created v → Q (s1, idx, created)) →
  wp (vlan_node vid node ov s) Q.
Proof.
  intros Hok Hov Hf Hr HQ. assert (Hc := io_core s Hok). unfold vlan_node. destruct ov as [q|].
  - destruct Hov as (w & Ew & Evid). unfold get_vlan. rewrite Ew; cbn [deref obind].
    rewrite (proj2 (Z.eqb_eq _ _) Evid). cbn [wp]. apply (HQ s q false w). split.
    + by destruct s.
    + done.
    + done.
    + by eapply (co_routers s Hc).
    + intros j x _ Ej. by eapply (io_vids s Hok).
    + intros x E1 E2 E3 E4 E5. eapply core_update_vlan; [done|exact Ew|split_and!; congruence|done].
  - destruct (co_queue s Hc) as [order Hq].
    destruct (first_free_slot_at s order Hq (order_small s order Hok Hq)) as (a & b & -> & Hs).
    set (tmp := first_free_slot s) in *. destruct (sl_range _ _ _ _ Hs) as [Hr1 Hr2].
    rewrite (proj2 (Z.leb_gt _ _) Hr2). cbv zeta.
    assert (Est : (if tmp =? 0 then (put_vlan tmp node s) <| first_mcgroupvlan_idx := 0 |> else put_vlan tmp node s)
              = (put_vlan tmp node s) <| first_mcgroupvlan_idx := slot_first s tmp |>).
    { unfold slot_first. destruct (tmp =? 0); [done|]. by destruct s. }
    rewrite Est. apply wp_bind, (wp_queue_link s tmp a b Hs). cbn [wp].
    apply (HQ _ tmp true (linked_node node a b)). split.
    + apply linked_slot_state.
    + apply (linked_self s tmp a b Hs).
    + done.
    + done.
    + intros j w Hj Ew. destruct (fmap_eq_Some v_erase _ _ w (eq_sym (linked_data s tmp a b node j Hj)) Ew) as (w0 & Ew0 & Ee).
      apply v_erase_fields in Ee as (E1 & _). rewrite <- E1. by eapply (io_vids s Hok).
    + intros x E1 E2 E3 E4 E5. rewrite (put_linked s tmp a b node x) by done.
      apply new_vlan_core; [done|done|by rewrite E3|done|]. by rewrite E4.
Qed.

(** ** The group *)

(** The state of [s] with a group more. *)
Record group_created s s' (vid ulGroup : Z) (v6 : list Z) p (idx : Z) : Prop := {
  gc_ok : igs_ok s';
  gc_rest : rest s' = rest s;
  gc_l2 : s'.(p_l2mc) = s.(p_l2mc);
  gc_trace : s'.(trace) = s.(trace);
  gc_group : ∃ g, s'.(groups) !! p = Some g ∧ g_key g = (vid, ulGroup) ∧ g.(portstatelist) = [] ∧
                  g.(MC_v6ipadd) = v6 ∧ group_table s' = <[(vid, ulGroup) := g_erase g]> (group_table s);
  gc_vlan : ∃ v, s'.(mcgroup_vlan_queue) !! idx = Some v ∧ v.(vlan_id) = vid }.

Section Done.
Variables (s s1 s' : IGS) (vid idx : Z) (created : bool) (v x : MC_group_vlan) (p : positive) (g : MC_group).
Hypothesis Hok : igs_ok s.
Hypothesis Hready : node_ready s s1 vid idx created v.
Hypothesis Hvid : 0 ≤ vid ≤ 4094.
Hypothesis Hsize : (size s.(groups) ≤ 1023)%nat.
Hypothesis Ep : s.(groups) !! p = None.
Hypothesis Hgv : g.(g_vid) = vid.
Hypothesis Hfine : group_fine g.
Hypothesis Hports : g.(portstatelist) = [].
Hypothesis Hkey : ∀ q h, s.(groups) !! q = Some h → g_key h ≠ g_key g.
Hypothesis Hid : g.(mgroup_id) ≠ 0 → ∀ q h, s.(groups) !! q = Some h → h.(mgroup_id) ≠ g.(mgroup_id).
Hypothesis Hx : x.(v_next) = v.(v_next) ∧ x.(v_prev) = v.(v_prev) ∧ x.(firstgroup) = v.(firstgroup) ∧ x.(vlan_id) = vid ∧
                ∃ l, x.(routerlist) = rlist l.
Hypothesis Hgroups : s'.(groups) =
  <[p := g <| g_next := v.(firstgroup) |> <| g_prev := None |>]> (set_prv_of g_dlink s.(groups) v.(firstgroup) (Some p)).
Hypothesis Hqueue : s'.(mcgroup_vlan_queue) = <[idx := x <| firstgroup := Some p |>]> s1.(mcgroup_vlan_queue).
Hypothesis Hfirst : s'.(first_mcgroupvlan_idx) = s1.(first_mcgroupvlan_idx).
Hypothesis Hcount : s'.(igmp_groupcount) = s.(igmp_groupcount) + 1.
Hypothesis Hrest : rest s' = rest s.
Hypothesis Hl2 : s'.(p_l2mc) = s.(p_l2mc).
Hypothesis Htr : s'.(trace) = s.(trace).

Let s2 := put_vlan idx x s1.

Lemma created_groups : s1.(groups) = s.(groups).
Proof. rewrite (nr_state _ _ _ _ _ _ Hready). done. Qed.

Lemma created_same : same_core (add_group s2 idx x p g) s'.
Proof.
  destruct Hx as (_ & _ & Ef & _). split_and!.
  - rewrite Hqueue. unfold add_group, with_lists, s2, put_vlan. cbn [mcgroup_vlan_queue set set_queue set_groups].
    by rewrite insert_insert_eq.
  - rewrite Hfirst. done.
  - rewrite Hgroups. unfold add_group, with_lists, s2, put_vlan. cbn [groups set set_queue set_groups].
    by rewrite created_groups, Ef.
Qed.

Lemma created_hyps : core_ok s2 ∧ s2.(mcgroup_vlan_queue) !! idx = Some x ∧ s2.(groups) = s.(groups).
Proof.
  destruct Hx as (E1 & E2 & E3 & E4 & E5). split_and!.
  - by apply (nr_core _ _ _ _ _ _ Hready).
  - unfold s2, put_vlan. cbn [mcgroup_vlan_queue set set_queue]. by rewrite lookup_insert_eq.
  - rewrite <- created_groups. done.
Qed.

Lemma created_core : core_ok s' ∧ group_table s' = <[g_key g := g_erase g]> (group_table s) ∧
                     size s'.(groups) = S (size s.(groups)).
Proof.
  destruct created_hyps as (Hc & Ex & Eg). destruct Hx as (_ & _ & _ & E4 & _).
  assert (Ep2 : s2.(groups) !! p = None) by (by rewrite Eg).
  assert (Hgv2 : g.(g_vid) = x.(vlan_id)) by congruence.
  assert (Hk2 : ∀ q h, s2.(groups) !! q = Some h → g_key h ≠ g_key g) by (by rewrite Eg).
  destruct created_same as (Sq & Sf & Sg). split_and!.
  - eapply core_ok_same; [apply created_same|]. by apply add_core.
  - unfold group_table. rewrite Sg. change (group_table (add_group s2 idx x p g) = <[g_key g := g_erase g]> (group_table s)).
    rewrite (add_table s2 idx x p g) by done. unfold group_table. by rewrite Eg.
  - rewrite Sg, add_size by done. by rewrite Eg.
Qed.

Lemma created_back q h : s'.(groups) !! q = Some h →
  q = p ∧ g_erase h = g_erase g ∨ q ≠ p ∧ ∃ h0, s.(groups) !! q = Some h0 ∧ g_erase h0 = g_erase h.
Proof.
  intros E. destruct created_same as (_ & _ & Sg). rewrite Sg in E. destruct created_hyps as (_ & _ & Eg).
  destruct (add_back s2 idx x p g q h E) as [[-> ->]|(Hne & h0 & Eh0 & _ & Ee)]; [left|right].
  - done.
  - split; [done|]. exists h0. by rewrite <- Eg.
Qed.

Lemma creat_done : group_created s s' vid g.(MC_ipadd) g.(MC_v6ipadd) p idx.
Proof.
  destruct created_core as (Hc & Ht & Hs). destruct created_hyps as (_ & _ & Eg).
  destruct Hok as [H1 H2 H3 H4 H5 H6 H7 H8 H9]. split; [|done|done|done| |].
  - split.
    + done.
    + by rewrite Hl2.
    + rewrite Hcount, Hs, H3. lia.
    + lia.
    + intros q h E. destruct (created_back q h E) as [[_ Ee]|(_ & h0 & Eh0 & Ee)]; eapply fine_erase; [exact Ee|done|by symmetry|by eapply H5].
    + intros j w Ej. rewrite Hqueue in Ej. destruct (decide (j = idx)) as [->|Hne].
      * rewrite lookup_insert_eq in Ej. injection Ej as <-. destruct Hx as (_ & _ & _ & E4 & _). cbn. lia.
      * rewrite lookup_insert_ne in Ej by done. by eapply (nr_vids _ _ _ _ _ _ Hready).
    + intros q r y z Eq Er Eid Hid0.
      destruct (created_back q y Eq) as [[-> Ey]|(Hq & y0 & Ey0 & Ey)], (created_back r z Er) as [[-> Ez]|(Hr & z0 & Ez0 & Ez)]; try done.
      * rewrite (id_erase _ _ Ey) in Eid, Hid0. rewrite <- (id_erase _ _ Ez) in Eid.
        destruct (Hid Hid0 r z0 Ez0). done.
      * rewrite <- (id_erase _ _ Ey) in Eid. rewrite (id_erase _ _ Ez) in Eid. rewrite <- (id_erase _ _ Ey) in Hid0.
        destruct (Hid ltac:(congruence) q y0 Ey0). done.
      * rewrite <- (id_erase _ _ Ey) in Eid, Hid0. rewrite <- (id_erase _ _ Ez) in Eid. by eapply H7.
    + rewrite (rest_vlanlist s s' Hrest). done.
    + rewrite (rest_enable s s' Hrest). done.
  - exists (g <| g_next := v.(firstgroup) |> <| g_prev := None |>). split_and!; [|unfold g_key; cbn; by rewrite Hgv|done|done|].
    + rewrite Hgroups. by rewrite lookup_insert_eq.
    + rewrite Ht. unfold g_key. by rewrite Hgv.
  - exists (x <| firstgroup := Some p |>). split; [|apply Hx]. rewrite Hqueue. by rewrite lookup_insert_eq.
Qed.
End Done.

(** ** The operation *)

Lemma groups_put_group p g s : (put_group p g s).(groups) = <[p := g]> s.(groups).
Proof. done. Qed.
Lemma queue_put_group p g s : (put_group p g s).(mcgroup_vlan_queue) = s.(mcgroup_vlan_queue).
Proof. done. Qed.
Lemma groups_put_vlan i v s : (put_vlan i v s).(groups) = s.(groups).
Proof. done. Qed.
Lemma groups_count s n : (s <| igmp_groupcount := n |>).(groups) = s.(groups).
Proof. done. Qed.
Lemma queue_count s n : (s <| igmp_groupcount := n |>).(mcgroup_vlan_queue) = s.(mcgroup_vlan_queue).
Proof. done. Qed.
Create Rewrite HintDb igs.
#[export] Hint Rewrite groups_put_group queue_put_group groups_put_vlan groups_count queue_count queue_put : igs.

Section Creat.
Variables (s s1 : IGS) (vid idx : Z) (created : bool) (v : MC_group_vlan) (p : positive) (g : MC_group).
Hypothesis Hok : igs_ok s.
Hypothesis Hready : node_ready s s1 vid idx created v.
Hypothesis Hvid : 0 ≤ vid ≤ 4094.
Hypothesis Hsize : (size s.(groups) ≤ 1023)%nat.
Hypothesis Ep : s.(groups) !! p = None.
Hypothesis Hgv : g.(g_vid) = vid.
Hypothesis Hfine : group_fine g.
Hypothesis Hports : g.(portstatelist) = [].
Hypothesis Hkey : ∀ q h, s.(groups) !! q = Some h → g_key h ≠ g_key g.
Hypothesis Hid0 : g.(mgroup_id) = 0.
Hypothesis Hlinks : g.(g_next) = None ∧ g.(g_prev) = None.

Definition front_groups : gmap positive MC_group :=
  <[p := g <| g_next := v.(firstgroup) |> <| g_prev := None |>]> (set_prv_of g_dlink s.(groups) v.(firstgroup) (Some p)).

Lemma wp_link_front (Q : IGS → Prop) :
  Q (s1 <| groups := front_groups |> <| mcgroup_vlan_queue := <[idx := v <| firstgroup := Some p |>]> s1.(mcgroup_vlan_queue) |>) →
  wp (group_link_front idx v p g s1) Q.
Proof.
  intros HQ. assert (Eg := created_groups s s1 vid idx created v Hready).
  assert (Eg0 : g <| g_next := v.(firstgroup) |> <| g_prev := None |> = g <| g_next := v.(firstgroup) |>).
  { destruct Hlinks as [_ H]. destruct g; simpl in *. by subst. }
  unfold front_groups in HQ. rewrite Eg0 in HQ. unfold group_link_front. destruct v.(firstgroup) as [q|] eqn:Ef; cbn [set_prv_of] in HQ.
  - assert (Hq : ∃ x, s.(groups) !! q = Some x).
    { set (w := v <| vlan_id := vid |>). assert (Hc : core_ok (put_vlan idx w s1)).
      { apply (nr_core _ _ _ _ _ _ Hready); try done. apply (nr_routers _ _ _ _ _ _ Hready). }
      destruct (co_groups _ Hc idx w) as (ps & Hps); [rewrite queue_put; by rewrite lookup_insert_eq|].
      assert (Eh : w.(firstgroup) = hed ps None) by apply Hps. cbn in Eh. rewrite Ef in Eh. symmetry in Eh.
      destruct (dseg_elem _ _ _ _ _ q (vg_links _ _ _ Hps)) as [x Ex]; [by apply hed_elem|]. exists x.
      rewrite groups_put_vlan, Eg in Ex. exact Ex. }
    destruct Hq as [x Ex]. assert (Hqp : q ≠ p) by (intros ->; congruence).
    unfold get_group. rewrite groups_put_group, lookup_insert_ne, Eg, Ex by done. cbn [deref obind wp].
    rewrite (alter_Some _ _ _ _ Ex) in HQ. rewrite insert_insert_ne in HQ by done. cbn in HQ.
    unfold put_vlan, put_group. cbn [groups mcgroup_vlan_queue set set_queue set_groups]. rewrite Eg. exact HQ.
  - cbn [obind wp]. unfold put_vlan, put_group. cbn [groups mcgroup_vlan_queue set set_queue set_groups]. rewrite Eg. exact HQ.
Qed.

(** The state in which the identifier is looked for. *)
Definition front_state : IGS :=
  s1 <| groups := front_groups |> <| mcgroup_vlan_queue := <[idx := v <| firstgroup := Some p |>]> s1.(mcgroup_vlan_queue) |>
     <| igmp_groupcount := s.(igmp_groupcount) + 1 |>.

Let w := v <| vlan_id := vid |>.
Let W := add_group (put_vlan idx w s1) idx w p g.

Lemma front_W : core_ok W ∧ W.(groups) = front_groups ∧ size front_groups = S (size s.(groups)) ∧
  <[idx := v <| firstgroup := Some p |>]> W.(mcgroup_vlan_queue) = <[idx := v <| firstgroup := Some p |>]> s1.(mcgroup_vlan_queue).
Proof.
  assert (Eg := created_groups s s1 vid idx created v Hready).
  assert (Hc : core_ok (put_vlan idx w s1)).
  { apply (nr_core _ _ _ _ _ _ Hready); try done. apply (nr_routers _ _ _ _ _ _ Hready). }
  assert (EW : W.(groups) = front_groups).
  { unfold W, add_group, with_lists, front_groups. cbn [groups set set_groups set_queue]. by rewrite groups_put_vlan, Eg. }
  assert (HW : size W.(groups) = S (size s.(groups))).
  { unfold W. rewrite add_size by (rewrite groups_put_vlan, Eg; done). by rewrite groups_put_vlan, Eg. }
  split_and!; [|done|by rewrite <- EW|].
  - apply add_core; [done|rewrite queue_put; by rewrite lookup_insert_eq|by rewrite groups_put_vlan, Eg|done|].
    by rewrite groups_put_vlan, Eg.
  - unfold W, add_group, with_lists. cbn [mcgroup_vlan_queue set set_groups set_queue].
    rewrite queue_put, !insert_insert_eq. done.
Qed.

Lemma wp_front_id (Q : option Z → Prop) :
  (∀ o, 0 ≤ default 0 o < IGMP_SNP_GRP_MAX →
        (default 0 o ≠ 0 → ∀ q h, s.(groups) !! q = Some h → h.(mgroup_id) ≠ default 0 o) → Q o) →
  wp (igmp_searchvlangroup_by_groupcount front_state) Q.
Proof.
  intros HQ. destruct front_W as (Hc & EW & Hsz & EQ).
  assert (Eg := created_groups s s1 vid idx created v Hready).
  assert (Fg : front_state.(groups) = W.(groups)) by (rewrite EW; done).
  assert (Fq : front_state.(mcgroup_vlan_queue) = <[idx := v <| firstgroup := Some p |>]> W.(mcgroup_vlan_queue)) by (rewrite EQ; done).
  assert (Hwi : W.(mcgroup_vlan_queue) !! idx = Some (w <| firstgroup := Some p |>)).
  { unfold W, add_group, with_lists. cbn [mcgroup_vlan_queue set set_groups set_queue]. by rewrite lookup_insert_eq. }
  assert (Hback : ∀ i x, front_state.(mcgroup_vlan_queue) !! i = Some x →
            ∃ y, W.(mcgroup_vlan_queue) !! i = Some y ∧ x.(firstgroup) = y.(firstgroup)).
  { intros i x. rewrite Fq. destruct (decide (i = idx)) as [->|Hne].
    - rewrite lookup_insert_eq. intros [= <-]. by eexists.
    - rewrite lookup_insert_ne by done. eauto. }
  destruct (co_queue W Hc) as [order Hq].
  assert (Hpid : ∃ x, front_state.(groups) !! p = Some x ∧ x.(mgroup_id) = 0).
  { rewrite Fg, EW. unfold front_groups. rewrite lookup_insert_eq. eexists. split; [done|]. exact Hid0. }
  destruct Hpid as (x & Ex & Exid).
  apply (wp_groupcount front_state (fun i q => ∃ h y, W.(groups) !! q = Some h ∧ W.(mcgroup_vlan_queue) !! i = Some y ∧ y.(vlan_id) = h.(g_vid))
           order p x); [| | | | | |done|done|].
  - assert (H : queue_ok (put_vlan idx (v <| firstgroup := Some p |>) W) order) by (by eapply queue_ok_put).
    destruct H as [A1 A2 A3 A4 A5]. rewrite queue_put in A3, A4. rewrite <- Fq in A3, A4. split; [done|done|done|done|].
    exact A5.
  - intros q h Eh. rewrite Fg in Eh. destruct (add_back _ idx w p g q h Eh) as [[-> ->]|(_ & h0 & Eh0 & _ & Ee)].
    + cbn. rewrite Hid0. unfold IGMP_SNP_GRP_MAX. lia.
    + rewrite groups_put_vlan, Eg in Eh0. rewrite <- (id_erase _ _ Ee). by apply (io_fine s Hok q h0).
  - unfold front_state. cbn. rewrite (nr_state _ _ _ _ _ _ Hready). apply Hok.
  - rewrite Fg, EW, Hsz. unfold front_state. cbn [igmp_groupcount set set_igmp_groupcount]. rewrite (io_count s Hok). lia.
  - intros i y Ei. destruct (Hback i y Ei) as (y' & Ey' & Ef). destruct (co_groups W Hc i y' Ey') as (ps & Hps).
    exists ps. split_and!; [rewrite Fg; apply Hps|rewrite Ef; apply Hps| |].
    + unfold group_turns. rewrite Fg. exact (groups_length W y' ps Hps).
    + intros q (h & z & Eh & Ez & Ev). assert (z = y') as -> by congruence. by apply (vg_all _ _ _ Hps q h Eh).
  - intros q h Eh. rewrite Fg in Eh. destruct (co_owned W Hc q h Eh) as (i & z & Ez & Ev). exists i. split.
    + rewrite Fq. destruct (decide (i = idx)) as [->|Hne]; [rewrite lookup_insert_eq|rewrite lookup_insert_ne by done]; by eexists.
    + by exists h, z.
  - intros o H1 H2. apply HQ; [done|]. intros Ho q h Eh. rewrite <- Eg in Eh.
    destruct (add_forth (put_vlan idx w s1) idx w p g ltac:(by rewrite groups_put_vlan, Eg) q h Eh) as (h' & Eh' & _ & Ee).
    rewrite <- (id_erase _ _ Ee). eapply H2; [done|]. rewrite Fg. exact Eh'.
Qed.
End Creat.

Lemma wp_insert_group s vid g routers ov (Q : IGS * option (positive * Z) → Prop) :
  igs_ok s → 0 ≤ vid ≤ 4094 → g.(g_vid) = vid → group_fine g → g.(mgroup_id) = 0 → g.(portstatelist) = [] →
  g.(g_next) = None ∧ g.(g_prev) = None → searched s vid g.(MC_ipadd) None ov → (size s.(groups) ≤ 1023)%nat →
  (∀ s' p idx, group_created s s' vid g.(MC_ipadd) g.(MC_v6ipadd) p idx → Q (s', Some (p, idx))) →
  wp (insert_group vid g routers (fun s => s <| igmp_groupcount := u32 (s.(igmp_groupcount) + 1) |>) ov s) Q.
Proof.
  intros Hok Hvid Hgv Hfine Hid0 Hports Hlinks Hse Hsize HQ. unfold insert_group.
  assert (Hcnt := io_count s Hok). set (p := fresh (dom s.(groups))).
  assert (Ep : s.(groups) !! p = None) by (apply not_elem_of_dom, is_fresh).
  assert (Hkey : ∀ q h, s.(groups) !! q = Some h → g_key h ≠ g_key g).
  { intros q h Eh. unfold searched in Hse. destruct ov as [i|].
    - destruct Hse as (w & _ & _ & Hn). unfold g_key at 2. rewrite Hgv. by apply (Hn q h).
    - destruct Hse as [_ Hn]. intros [= Ev _]. destruct (co_owned s (io_core s Hok) q h Eh) as (i & w & Ei & Ew).
      destruct (Hn i w Ei). congruence. }
  apply wp_bind, wp_vlan_node; [done| |done|by eexists|].
  { unfold searched in Hse. destruct ov as [i|]; [destruct Hse as (w & ? & ? & _); eauto|]. by destruct Hse. }
  intros s1 idx created v Hready. cbv beta iota zeta.
  assert (Ev1 : get_vlan s1 idx = Done v) by (unfold get_vlan; by rewrite (nr_slot _ _ _ _ _ _ Hready)).
  rewrite Ev1. cbn [obind].
  apply wp_bind. eapply (wp_link_front s s1 vid idx created v p g); [done..|].
  change (igmp_groupcount (_ <| groups := _ |> <| mcgroup_vlan_queue := _ |>)) with (igmp_groupcount s1).
  assert (Ec : igmp_groupcount s1 = igmp_groupcount s) by (by rewrite (nr_state _ _ _ _ _ _ Hready)).
  rewrite Ec, u32_small by lia. fold (front_state s s1 idx v p g). cbv zeta.
  apply wp_bind. eapply (wp_front_id s s1 vid idx created v p g); [done..|]. intros o Ho1 Ho2.
  set (t := front_state s s1 idx v p g). unfold get_group.
  assert (Et : t.(groups) !! p = Some (g <| g_next := v.(firstgroup) |> <| g_prev := None |>)).
  { unfold t, front_state, front_groups. cbn [groups set set_groups set_queue set_igmp_groupcount]. by rewrite lookup_insert_eq. }
  rewrite Et. cbn [deref obind]. unfold get_vlan. rewrite queue_put_group.
  assert (Eq : t.(mcgroup_vlan_queue) = <[idx := v <| firstgroup := Some p |>]> s1.(mcgroup_vlan_queue)) by done.
  rewrite Eq, lookup_insert_eq. cbn [deref obind wp].
  match goal with |- Q (put_vlan idx ?y _, _) => set (v2 := y) end.
  set (g2 := g <| mgroup_id := default 0 o |>).
  apply HQ. change (MC_ipadd g) with (MC_ipadd g2). change (MC_v6ipadd g) with (MC_v6ipadd g2).
  assert (Hv2 : v2.(v_next) = v.(v_next) ∧ v2.(v_prev) = v.(v_prev) ∧ v2.(firstgroup) = Some p ∧ v2.(vlan_id) = vid ∧ v2.(routerlist) = v.(routerlist)).
  { assert (Hcr := nr_vid _ _ _ _ _ _ Hready). unfold v2. destruct created; destruct (_ =? 0); split_and!; try done; by apply Hcr. }
  destruct Hv2 as (E1 & E2 & E3 & E4 & E5).
  apply (creat_done s s1 _ vid idx created v (v2 <| firstgroup := v.(firstgroup) |>) p g2); try done.
  - destruct Hfine as [Hf1 _ Hf3]. by split.
  - split_and!; [done..|exact E4|]. cbn. rewrite E5. apply (nr_routers _ _ _ _ _ _ Hready).
  - rewrite groups_put_vlan, groups_put_group. unfold t, front_state, front_groups.
    cbn [groups set set_groups set_queue set_igmp_groupcount]. rewrite insert_insert_eq. done.
  - rewrite queue_put, queue_put_group, Eq, insert_insert_eq. f_equal. clear -E3. destruct v2; cbn in *. by subst.
  - unfold t, front_state; rewrite (nr_state _ _ _ _ _ _ Hready); done.
  - unfold t, front_state; rewrite (nr_state _ _ _ _ _ _ Hready); done.
  - unfold t, front_state; rewrite (nr_state _ _ _ _ _ _ Hready); done.
Qed.

Lemma wp_creat_group_node s vid ulGroup usIfIndex ov (Q : IGS * option (positive * Z) → Prop) :
  igs_ok s → 0 ≤ vid ≤ 4094 → ulGroup ≠ 0 → searched s vid ulGroup None ov → (size s.(groups) ≤ 1023)%nat →
  (∀ s' p idx, group_created s s' vid ulGroup no_v6 p idx → Q (s', Some (p, idx))) →
  wp (igmp_creat_group_node vid ulGroup usIfIndex ov s) Q.
Proof.
  intros Hok Hvid Hip Hse Hsize HQ. unfold igmp_creat_group_node.
  assert (Hcnt := io_count s Hok). rewrite (proj2 (Z.ltb_ge _ _)) by (unfold igmp_getmaxgroupcnt, IGMP_SNP_GRP_MAX; lia).
  cbv zeta. destruct (router_entries_ok (S (length s.(p_routerlist))) vid None s.(p_routerlist)) as [routers Er]; [lia|].
  rewrite Er. cbn [obind]. apply wp_insert_group; try done.
  split; [exact Hip|unfold IGMP_SNP_GRP_MAX; cbn; lia|constructor].
Qed.
