(* ===== verification/IgmpFrameProps.v ===== *)
(** * Frames: their bytes, their checksums, and how they are read

    The frames the daemon builds are bytes, their two checksums verify, and a daemon
    that receives one hands its handlers the fields it was built from.  No message
    makes the daemon read outside its buffer.  And what the handlers of IGMP add to
    the trace ([grows]). *)

From Stdlib Require Import ZArith Lia.
From stdpp Require Import base gmap list option.
From S2P Require Import Prelude Checksum DList IgmpL2mc IgmpSnp IgmpList IgmpGroup IgmpTimer IgmpFrame IgmpRecv.

(** ** The checksum *)

Lemma cksum_words_sum l sum :
  Forall is_byte l → 0 ≤ sum → sum + 65535 * Z.of_nat (length l) < 2 ^ 31 → cksum_words l sum = sum + sum16 l.
Proof.
  revert sum. induction l as [|a|a b l IH] using list_pairs_ind; intros sum Hb Hs Hl;
    cbn [cksum_words sum16 length] in *; [lia|..].
  - apply Forall_inv in Hb. unfold is_byte in Hb. unfold be_val, be_val_aux. rewrite i32_small; lia.
  - apply list.Forall_cons in Hb as [Ha [Hb Hl']%list.Forall_cons]. unfold is_byte in Ha, Hb.
    unfold be_val, be_val_aux. rewrite i32_small by lia. rewrite IH; [lia|done|lia|lia].
Qed.

Lemma inet_cksum_ones l :
  Forall is_byte l → Z.of_nat (length l) ≤ 32767 → 0 ≤ inet_cksum l < 65536 ∧ ones (sum16 l) (65535 - inet_cksum l).
Proof.
  intros Hb Hl. pose proof (sum16_bounds l Hb) as Hs. unfold inet_cksum. rewrite cksum_words_sum by (done || lia).
  rewrite Z.add_0_l. destruct (fold_step (sum16 l) ltac:(lia)) as (E1 & Hp & E & H0 & Hle).
  rewrite (Z.add_comm (Z.shiftr _ 16)), E1. set (n1 := Z.land _ _ + _) in *.
  assert (H16 : Z.shiftr (sum16 l) 16 < 2 ^ 15).
  { rewrite Z.shiftr_div_pow2 by lia. apply Z.div_lt_upper_bound; lia. }
  assert (Ho : ones n1 (u16 (i32 (n1 + Z.shiftr n1 16))) ∧ 0 ≤ u16 (i32 (n1 + Z.shiftr n1 16)) < 65536).
  { rewrite Z.shiftr_div_pow2 by lia. change (2 ^ 16) with 65536. unfold u16. change (2 ^ 16) with 65536.
    destruct (Z.lt_ge_cases n1 65536) as [Hn|Hn].
    - rewrite (Z.div_small n1 65536), Z.add_0_r, i32_small, Z.mod_small by lia.
      split; [split_and!; [lia|lia|by rewrite Z.sub_diag|done]|lia].
    - assert (Ed : n1 / 65536 = 1) by (symmetry; apply (Z.div_unique n1 65536 1 (n1 - 65536)); lia).
      rewrite Ed, i32_small by lia.
      assert (Em : (n1 + 1) mod 65536 = n1 - 65535) by (symmetry; apply (Z.mod_unique (n1 + 1) 65536 1); lia).
      rewrite Em. split; [|lia]. split_and!; [lia|lia| |lia].
      replace (n1 - 65535 - n1) with (-1 * 65535) by lia. by rewrite Z.mod_mul. }
  destruct Ho as [Ho Hr]. set (c := u16 (i32 _)) in *.
  assert (El : u16 (Z.lnot c) = 65535 - c).
  { unfold u16, Z.lnot. symmetry. apply (Z.mod_unique_pos _ _ (-1)); change (2 ^ 16) with 65536; lia. }
  rewrite El. split; [lia|]. replace (65535 - (65535 - c)) with c by lia. by eapply ones_step.
Qed.

(** A header with its checksum in place of two zero bytes verifies. *)
Lemma inet_cksum_verifies a b :
  Nat.Even (length a) → Forall is_byte a → Forall is_byte b → Z.of_nat (length (a ++ b)) ≤ 32000 →
  inet_cksum (a ++ be_bytes 2 (inet_cksum (a ++ be_bytes 2 0 ++ b)) ++ b) = 0.
Proof.
  intros He Ha Hb Hl. rewrite length_app in Hl.
  assert (Hby : ∀ c, Forall is_byte (a ++ be_bytes 2 c ++ b)).
  { intros c. rewrite !Forall_app. split_and!; [done|apply be_bytes_byte|done]. }
  assert (Hlen : ∀ c, Z.of_nat (length (a ++ be_bytes 2 c ++ b)) ≤ 32767).
  { intros c. rewrite !length_app, length_be_bytes. lia. }
  assert (Hsum : ∀ c, 0 ≤ c < 65536 → sum16 (a ++ be_bytes 2 c ++ b) = sum16 (a ++ be_bytes 2 0 ++ b) + c).
  { intros c Hc. rewrite !(sum16_even a) by done. rewrite !(sum16_even (be_bytes 2 _)) by (rewrite length_be_bytes; by exists 1%nat).
    rewrite sum16_be_bytes by done. change (sum16 (be_bytes 2 0)) with 0. lia. }
  destruct (inet_cksum_ones _ (Hby 0) (Hlen 0)) as [Hc Ho]. set (c := inet_cksum (a ++ be_bytes 2 0 ++ b)) in *.
  destruct (inet_cksum_ones _ (Hby c) (Hlen c)) as [Hc' Ho']. rewrite Hsum in Ho' by done.
  assert (Hs : 0 ≤ sum16 (a ++ be_bytes 2 0 ++ b)) by (by apply sum16_bounds).
  apply (ones_verify _ _ _ Hs Hc Ho Hc' Ho').
Qed.

(** ** The frame *)

Ltac byte_const := done || (unfold is_byte; split; [by vm_compute|reflexivity]).

(** The address of the switch is an Ethernet address. *)
Definition mac_fine (s : IGS) : Prop :=
  match s.(sysMac) with None => True | Some m => Forall is_byte m ∧ length m = 6%nat end.

Lemma land_byte a m : 0 ≤ m < 256 → is_byte (Z.land a m).
Proof.
  intros Hm. unfold is_byte. assert (H0 : 0 ≤ Z.land a m) by (apply Z.land_nonneg; lia). split; [done|].
  assert (Z.land a m = Z.land (Z.land a m) (Z.ones 8)) as ->.
  { rewrite <- Z.land_assoc. f_equal. rewrite Z.land_ones by lia. rewrite Z.mod_small; [done|]. change (2 ^ 8) with 256. lia. }
  rewrite Z.land_ones by lia. apply Z.mod_pos_bound. lia.
Qed.

Lemma ether_header_typed s daddr : mac_fine s → Forall is_byte (ether_header s daddr) ∧ length (ether_header s daddr) = 14%nat.
Proof.
  intros Hm. unfold ether_header, mac_fine in *. rewrite !Forall_app, !length_app, length_be_bytes.
  assert (Hd : Forall is_byte [0x01; 0x00; 0x5e; Z.land (Z.shiftr daddr 16) 0x7F; Z.land (Z.shiftr daddr 8) 0xFF; Z.land daddr 0xFF]).
  { repeat constructor; try (by apply land_byte; lia); unfold is_byte; lia. }
  destruct (sysMac s) as [m|].
  - destruct Hm as [Hm ->]. split_and!; [done|done|apply be_bytes_byte|done].
  - split_and!; [done| |apply be_bytes_byte|done]. repeat constructor; byte_const.
Qed.

Definition frame_options (pkt : PKT Z) : list Z := if plain_message pkt.(pkt_type) then [] else igmp_snp_file_option_field.

Lemma frame_options_typed pkt : Forall is_byte (frame_options pkt).
Proof. unfold frame_options. destruct (plain_message _); repeat constructor; byte_const. Qed.

(** The IP header as the bytes before the checksum and those behind it. *)
Definition ip_front (options : list Z) : list Z :=
  let hlen := 20 + Z.of_nat (length options) in
  [Z.lor 0x40 (Z.shiftr hlen 2); 0] ++ be_bytes 2 (hlen + 8) ++ be_bytes 2 1 ++ be_bytes 2 0 ++ [1; IPPROTO_IGMP].
Definition ip_back (options : list Z) (saddr daddr : Z) : list Z := be_bytes 4 saddr ++ be_bytes 4 daddr ++ options.

Lemma ip_header_split options saddr daddr check :
  ip_header options saddr daddr check = ip_front options ++ be_bytes 2 check ++ ip_back options saddr daddr.
Proof. unfold ip_header, ip_front, ip_back. by rewrite <- !app_assoc. Qed.

Lemma ip_front_typed pkt : Forall is_byte (ip_front (frame_options pkt)) ∧ length (ip_front (frame_options pkt)) = 10%nat.
Proof.
  unfold ip_front. split; [|by rewrite !length_app, !length_be_bytes]. rewrite !Forall_app.
  split_and!; try apply be_bytes_byte; unfold frame_options; destruct (plain_message (pkt_type pkt)); repeat constructor; byte_const.
Qed.
Lemma ip_back_typed pkt saddr daddr : Forall is_byte (ip_back (frame_options pkt) saddr daddr).
Proof. unfold ip_back. rewrite !Forall_app. split_and!; try apply be_bytes_byte. apply frame_options_typed. Qed.

Lemma ip_header_typed pkt saddr daddr check :
  Forall is_byte (ip_header (frame_options pkt) saddr daddr check) ∧
  length (ip_header (frame_options pkt) saddr daddr check) = (20 + length (frame_options pkt))%nat.
Proof.
  rewrite ip_header_split. split.
  - rewrite !Forall_app. split_and!; [apply ip_front_typed|apply be_bytes_byte|apply ip_back_typed].
  - rewrite !length_app, (proj2 (ip_front_typed pkt)). unfold ip_back. rewrite !length_app, !length_be_bytes. lia.
Qed.

Lemma igmp_fields_typed pkt s : let '(type, code, _, _) := igmp_fields pkt s in is_byte type ∧ is_byte code.
Proof.
  unfold igmp_fields. repeat case_match; simplify_eq; split; try apply u8_range; byte_const.
Qed.

Lemma igmp_header_typed pkt s check :
  let '(type, code, group, _) := igmp_fields pkt s in
  Forall is_byte (igmp_header type code group check) ∧ length (igmp_header type code group check) = 8%nat.
Proof.
  assert (H := igmp_fields_typed pkt s). destruct (igmp_fields pkt s) as [[[type code] group] daddr]. destruct H.
  unfold igmp_header. rewrite !length_app, !length_be_bytes. split; [|done]. rewrite !Forall_app.
  split_and!; [by do 2 (apply list.Forall_cons; split; [done|])|apply be_bytes_byte..].
Qed.

Lemma igmp_frame_unfold pkt s :
  igmp_frame pkt s =
  let '(type, code, group, daddr) := igmp_fields pkt s in
  ether_header s daddr
  ++ ip_header (frame_options pkt) pkt.(pkt_saddr) daddr (inet_cksum (ip_header (frame_options pkt) pkt.(pkt_saddr) daddr 0))
  ++ igmp_header type code group (inet_cksum (igmp_header type code group 0)).
Proof. unfold igmp_frame, frame_options. by destruct (igmp_fields pkt s) as [[[type code] group] daddr]. Qed.

Lemma frame_typed pkt s : mac_fine s →
  Forall is_byte (igmp_frame pkt s) ∧ length (igmp_frame pkt s) = (42 + length (frame_options pkt))%nat.
Proof.
  intros Hm. rewrite igmp_frame_unfold. assert (H := igmp_header_typed pkt s).
  destruct (igmp_fields pkt s) as [[[type code] group] daddr]. rewrite !Forall_app, !length_app.
  destruct (ether_header_typed s daddr Hm) as [? ->].
  destruct (ip_header_typed pkt (pkt_saddr pkt) daddr (inet_cksum (ip_header (frame_options pkt) (pkt_saddr pkt) daddr 0))) as [? ->].
  destruct (H (inet_cksum (igmp_header type code group 0))) as [? ->]. split; [done|lia].
Qed.

Lemma frame_verifies pkt s : mac_fine s →
  let n := (20 + length (frame_options pkt))%nat in
  inet_cksum (take n (drop 14 (igmp_frame pkt s))) = 0 ∧ inet_cksum (drop (14 + n) (igmp_frame pkt s)) = 0.
Proof.
  cbv zeta. intros Hm. rewrite igmp_frame_unfold. assert (H := igmp_header_typed pkt s).
  destruct (igmp_fields pkt s) as [[[type code] group] daddr].
  destruct (ether_header_typed s daddr Hm) as [_ He]. set (E := ether_header s daddr) in *.
  destruct (ip_header_typed pkt (pkt_saddr pkt) daddr (inet_cksum (ip_header (frame_options pkt) (pkt_saddr pkt) daddr 0))) as [_ Hl].
  rewrite (drop_app_length' E _ 14), take_app_length', (drop_app_add' E _ 14), drop_app_length' by done.
  assert (Ho : (length (frame_options pkt) ≤ 4)%nat) by (unfold frame_options; destruct (plain_message _); simpl; lia).
  split.
  - rewrite !ip_header_split. apply inet_cksum_verifies; [|apply ip_front_typed|apply ip_back_typed|].
    + rewrite (proj2 (ip_front_typed pkt)). by exists 5%nat.
    + rewrite length_app, (proj2 (ip_front_typed pkt)). unfold ip_back. rewrite !length_app, !length_be_bytes. lia.
  - unfold igmp_header. apply inet_cksum_verifies; [by exists 1%nat| |apply be_bytes_byte|].
    + destruct (H 0) as [Hb _]. unfold igmp_header in Hb. by apply Forall_app in Hb as [Hb _].
    + rewrite length_app, length_be_bytes. simpl. lia.
Qed.

(** ** Reading a message *)

Lemma skb_load_app a b c off n : length a = off → length b = n → skb_load (a ++ b ++ c) off n = Done b.
Proof.
  intros <- <-. unfold skb_load. rewrite !length_app. rewrite decide_True by lia.
  by rewrite drop_app_length, take_app_length.
Qed.

Lemma skb_load_ok buf off n : (off + n ≤ length buf)%nat → Forall is_byte buf → ∃ l, skb_load buf off n = Done l ∧ Forall is_byte l ∧ length l = n.
Proof.
  intros Hl Hb. unfold skb_load. rewrite decide_True by lia. eexists. split; [done|]. split.
  - by apply Forall_take, Forall_drop.
  - rewrite length_take, length_drop. lia.
Qed.

Lemma be_val_aux_range l acc : Forall is_byte l → 0 ≤ acc → acc * 2 ^ (8 * Z.of_nat (length l)) ≤ be_val_aux acc l < (acc + 1) * 2 ^ (8 * Z.of_nat (length l)).
Proof.
  revert acc. induction l as [|b l IH]; intros acc Hb Ha; cbn [be_val_aux length].
  - simpl. lia.
  - apply list.Forall_cons in Hb as [Hb Hl]. unfold is_byte in Hb. specialize (IH (acc * 256 + b) Hl ltac:(lia)).
    replace (8 * Z.of_nat (S (length l))) with (8 + 8 * Z.of_nat (length l)) by lia. rewrite Z.pow_add_r by lia.
    change (2 ^ 8) with 256. nia.
Qed.

Lemma skb_load_be_ok buf off n :
  (off + n ≤ length buf)%nat → Forall is_byte buf → ∃ v, skb_load_be buf off n = Done v ∧ 0 ≤ v < 2 ^ (8 * Z.of_nat n).
Proof.
  intros Hl Hb. unfold skb_load_be. destruct (skb_load_ok buf off n Hl Hb) as (l & -> & Hbl & <-). exists (be_val l). split; [done|].
  pose proof (be_val_aux_range l 0 Hbl ltac:(lia)). unfold be_val. lia.
Qed.

Lemma nibble b : 0 ≤ b → (4 * Z.to_nat (Z.land b 0xF) ≤ 60)%nat.
Proof. intros Hb. rewrite (Z.land_ones b 4 ltac:(lia) : Z.land b 0xF = _). pose proof (Z.mod_pos_bound b (2 ^ 4) ltac:(lia)). lia. Qed.

Section Deliver.
Variable env : ENV.

(** The handler of a message with these fields. *)
Definition deliver (type code group saddr : Z) (skb : igmp_skb) (s : IGS) : outcome (IGS * Z) :=
  let vid := skb.(skb_vlan_id) in
  let ifindex := skb.(skb_ifindex) in
  let info := mkInfo ifindex vid saddr skb in
  let* '(s, _) :=
    if type =? IGMP_MEMSHIP_QUERY then igmp_recv_query env ifindex code group vid info s
    else if (type =? IGMP_V3_MEMSHIP_REPORT) || (type =? IGMP_V1_MEMSHIP_REPORT) || (type =? IGMP_V2_MEMSHIP_REPORT)
    then igmp_recv_report env ifindex group vid type info s
    else if type =? IGMP_V2_LEAVE_GROUP then igmp_recv_leave env ifindex group vid s
    else igmp_recv_unknown env info s in
  Done (s, IGMPSNP_RETURN_CODE_OK).

(** The VLAN is known and the port belongs to it. *)
Definition port_known (s : IGS) (skb : igmp_skb) : Prop :=
  default IGMPSNP_RETURN_CODE_OK (snd (igmp_vlanisused s.(p_vlanlist) skb.(skb_vlan_id))) = 1 ∧
  is_ok (igmp_is_vlan_ifindex s.(p_vlanlist) skb.(skb_vlan_id) skb.(skb_ifindex)) = true.
Lemma load_skip a b k n : skb_load (a ++ b) (length a + k) n = skb_load b k n.
Proof.
  unfold skb_load. rewrite length_app, drop_app_add.
  destruct (decide (k + n ≤ length b)%nat) as [H|H]; [by rewrite decide_True by lia|by rewrite decide_False by lia].
Qed.
Lemma load_be_skip a b off k n : off = (length a + k)%nat → skb_load_be (a ++ b) off n = skb_load_be b k n.
Proof. intros ->. unfold skb_load_be. by rewrite load_skip. Qed.

(** Reading the IP header of a frame. *)
Lemma read_ip_header pkt saddr daddr check rest :
  let buf := ip_header (frame_options pkt) saddr daddr check ++ rest in
  0 ≤ saddr < 2 ^ 32 →
  ∃ b, skb_load_be buf 0 1 = Done b ∧ (4 * Z.to_nat (Z.land b 0xF) = 20 + length (frame_options pkt))%nat ∧
    skb_load_be buf 8 1 = Done 1 ∧ skb_load_be buf 9 1 = Done IPPROTO_IGMP ∧ skb_load_be buf 12 4 = Done saddr.
Proof.
  cbv zeta. intros Hs. assert (Es := be_val_bytes4 saddr Hs). unfold ip_header, frame_options.
  destruct (plain_message (pkt_type pkt)); unfold igmp_snp_file_option_field;
    cbn [be_bytes app length]; unfold skb_load_be, skb_load;
    (eexists; rewrite !decide_True by (cbn [length]; lia); cbn [take drop obind]; split_and!;
       try reflexivity; exact (f_equal Done Es)).
Qed.

Lemma read_igmp_header type code group check rest :
  let buf := igmp_header type code group check ++ rest in
  is_byte type → is_byte code → 0 ≤ group < 2 ^ 32 →
  skb_load_be buf 0 1 = Done type ∧ skb_load_be buf 1 1 = Done code ∧ skb_load_be buf 4 4 = Done group.
Proof.
  cbv zeta. intros Ht Hc Hg. assert (Eg := be_val_bytes4 group Hg). unfold igmp_header.
  cbn [be_bytes app]. unfold skb_load_be, skb_load. rewrite !decide_True by (cbn [length]; lia). cbn [take drop obind].
  split_and!; [reflexivity..|exact (f_equal Done Eg)].
Qed.

Lemma igmp_fields_group pkt s : 0 ≤ pkt.(groupadd) < 2 ^ 32 →
  let '(type, _, group, _) := igmp_fields pkt s in (type =? IGMP_V3_MEMSHIP_REPORT) = false ∧ 0 ≤ group < 2 ^ 32.
Proof. intros Hg. unfold igmp_fields. repeat case_match; simplify_eq; split; done || lia. Qed.

Lemma skb_proc_frame pkt s0 pad skb s :
  mac_fine s0 → 0 ≤ pkt.(groupadd) < 2 ^ 32 → 0 ≤ pkt.(pkt_saddr) < 2 ^ 32 → port_known s skb →
  skb.(skb_buf) = igmp_frame pkt s0 ++ pad →
  igmp_skb_proc env skb s =
    let '(type, code, group, _) := igmp_fields pkt s0 in deliver type code group pkt.(pkt_saddr) skb s.
Proof.
  intros Hm Hg Hs [Hu Hi] Hbuf. rewrite igmp_frame_unfold in Hbuf.
  assert (Hf := igmp_fields_group pkt s0 Hg). assert (Hb := igmp_fields_typed pkt s0).
  destruct (igmp_fields pkt s0) as [[[type code] group] daddr]. destruct Hf as [H3 Hgr], Hb as [Ht Hc].
  set (check1 := inet_cksum (ip_header _ _ _ _)) in Hbuf. set (check2 := inet_cksum (igmp_header _ _ _ _)) in Hbuf.
  destruct (ether_header_typed s0 daddr Hm) as [_ He]. set (E := ether_header s0 daddr) in *.
  destruct (ip_header_typed pkt (pkt_saddr pkt) daddr check1) as [_ Hl].
  clearbody check1 check2.
  set (I := ip_header (frame_options pkt) (pkt_saddr pkt) daddr check1) in *.
  set (G := igmp_header type code group check2) in *.
  assert (Hip : ∀ k n, skb_load_be (skb_buf skb) (14 + k) n = skb_load_be (I ++ G ++ pad) k n).
  { intros k n. rewrite Hbuf, <- !app_assoc. apply load_be_skip. by rewrite He. }
  assert (Hig : ∀ k n, skb_load_be (skb_buf skb) (14 + (20 + length (frame_options pkt)) + k) n = skb_load_be (G ++ pad) k n).
  { intros k n. rewrite Hbuf. replace ((E ++ I ++ G) ++ pad) with ((E ++ I) ++ G ++ pad) by (by rewrite <- !app_assoc).
    apply load_be_skip. rewrite length_app, He, Hl. lia. }
  destruct (read_ip_header pkt (pkt_saddr pkt) daddr check1 (G ++ pad) Hs) as (b & Rb & Eb & Rttl & Rp & Rs).
  destruct (read_igmp_header type code group check2 pad Ht Hc Hgr) as (Rt & Rc & Rg).
  fold I in Rb, Rttl, Rp, Rs. fold G in Rt, Rc, Rg.
  unfold igmp_skb_proc. rewrite Hu, Hi. cbn [negb igmp_vlanportrelation snd]. change (1 =? 1) with true. change (0 =? 1) with false.
  cbn [negb]. rewrite (Hip 9%nat), Rp. cbn [obind]. change (IPPROTO_IGMP =? IPPROTO_PIM) with false. cbv iota.
  assert (Hb0 : skb_load_be (skb_buf skb) 14 1 = Done b) by (rewrite <- Rb; apply (Hip 0%nat)).
  rewrite Hb0. cbn [obind]. rewrite Eb.
  set (off := (14 + (20 + length (frame_options pkt)))%nat) in *.
  assert (R0 : skb_load_be (skb_buf skb) off 1 = Done type) by (rewrite <- Rt, <- Hig; f_equal; lia).
  rewrite R0, Hig, Rc. cbn [obind]. unfold message_group. rewrite H3. cbn [negb]. rewrite Hig, Rg. cbn [obind].
  rewrite (Hip 8%nat), Rttl, (Hip 12%nat), Rs. unfold deliver. rewrite H3. reflexivity.
Qed.

(** ** Any message *)

(** What can become of a message: it is refused, a router learnt from PIM, or a
    handler runs on fields that fit their widths. *)
Definition message_outcome (skb : igmp_skb) s (o : outcome (IGS * Z)) : Prop :=
  (∃ e, o = Done (s, e)) ∨
  (skb_load_be skb.(skb_buf) 23 1 = Done IPPROTO_PIM ∧
   ∃ ifindex vid saddr, 0 ≤ ifindex < 2 ^ 32 ∧ - 2 ^ 31 ≤ vid < 2 ^ 31 ∧ 0 ≤ saddr < 2 ^ 32 ∧
     o = let* '(s, _) := igmp_snp_pim_msghandle env 0 ifindex vid saddr s in Done (s, IGMPSNP_RETURN_CODE_OK)) ∨
  (port_known s skb ∧ ∃ type code group saddr, is_byte type ∧ is_byte code ∧ 0 ≤ group < 2 ^ 32 ∧ 0 ≤ saddr < 2 ^ 32 ∧
     o = deliver type code group saddr skb s).

(** What has been read. *)
Ltac read_be off v H := match goal with |- context[skb_load_be ?buf off ?n] =>
  destruct (skb_load_be_ok buf off n) as (v & -> & H); [lia|done|]; cbn [obind] end.

Lemma pim_outcome skb s :
  skb_load_be skb.(skb_buf) 23 1 = Done IPPROTO_PIM →
  length skb.(skb_buf) = IGMP_SNP_PKT_BUFSIZE → Forall is_byte skb.(skb_buf) →
  message_outcome skb s (let* '(s, _) := pim_recv_msg env skb s in Done (s, IGMPSNP_RETURN_CODE_OK)).
Proof.
  intros Hpim Hl Hb. unfold IGMP_SNP_PKT_BUFSIZE in Hl. unfold pim_recv_msg. cbv zeta. read_be (22 + 12)%nat saddr Hs. read_be 22%nat b Hbr.
  assert (Hn := nibble b (proj1 Hbr)).
  destruct (skb_load_ok (skb_buf skb) 22 (4 * Z.to_nat (Z.land b 0xF))) as (hdr & -> & _ & _); [lia|done|]. cbn [obind].
  destruct (negb _); [left; eauto|].
  destruct (skb_load_ok (skb_buf skb) 42 4) as (pim & E & _ & _); [lia|done|]. change (22 + 20)%nat with 42%nat in *. rewrite E. cbn [obind].
  destruct (negb _); [left; eauto|]. read_be 0%nat ifindex Hi. read_be 4%nat vid Hv. read_be 42%nat t Ht.
  destruct (_ =? 0); [|left; eauto]. destruct (_ || _); [|left; eauto].
  right. left. split; [done|]. exists ifindex, (i32 vid), saddr. unfold i32. split_and!; try lia; pose proof (Z.mod_pos_bound (vid + 2 ^ 31) (2 ^ 32) ltac:(lia)); try lia.
  by destruct (igmp_snp_pim_msghandle _ _ _ _ _ _) as [[? ?]| |].
Qed.

Lemma message_group_read buf igmp type :
  length buf = IGMP_SNP_PKT_BUFSIZE → Forall is_byte buf → (igmp ≤ 78)%nat →
  ∃ o, message_group buf igmp type = Done o ∧ ∀ g, o = Some g → 0 ≤ g < 2 ^ 32.
Proof.
  intros Hl Hb Hi. unfold IGMP_SNP_PKT_BUFSIZE in Hl. unfold message_group. destruct (negb _).
  - read_be (igmp + 4)%nat g Hg. exists (Some g). split; [done|]. intros h [= <-]. exact Hg.
  - read_be (igmp + 6)%nat n Hn. destruct (1 <? n); [by exists None|]. read_be (igmp + 12)%nat g Hg. exists (Some g). split; [done|]. intros h [= <-]. exact Hg.
Qed.

Lemma skb_proc_outcome skb s :
  length skb.(skb_buf) = IGMP_SNP_PKT_BUFSIZE → Forall is_byte skb.(skb_buf) →
  message_outcome skb s (igmp_skb_proc env skb s).
Proof.
  intros Hl Hb. assert (Hl' := Hl). unfold IGMP_SNP_PKT_BUFSIZE in Hl. unfold igmp_skb_proc. cbv zeta.
  destruct (Z.eqb_spec (default IGMPSNP_RETURN_CODE_OK (snd (igmp_vlanisused s.(p_vlanlist) skb.(skb_vlan_id)))) 1) as [Hu|_];
    [|left; eauto].
  destruct (is_ok (igmp_is_vlan_ifindex (p_vlanlist s) (skb_vlan_id skb) (skb_ifindex skb))) eqn:Hi; [|left; eauto].
  cbn [negb igmp_vlanportrelation snd]. change (0 =? 1) with false. cbv iota.
  destruct (skb_load_be_ok (skb_buf skb) 23 1) as (protocol & Ep & _); [lia|done|]. change (14 + 9)%nat with 23%nat.
  rewrite Ep. cbn [obind]. destruct (Z.eqb_spec protocol IPPROTO_PIM) as [->|_]; [by apply pim_outcome|].
  read_be 14%nat b Hbr. assert (Hn := nibble b (proj1 Hbr)). set (igmp := (14 + 4 * Z.to_nat (Z.land b 0xF))%nat).
  assert (Hig : (igmp ≤ 74)%nat) by (unfold igmp; lia). clearbody igmp. clear Hn.
  read_be igmp type Ht. read_be (igmp + 1)%nat code Hc.
  destruct (message_group_read (skb_buf skb) igmp type Hl' Hb ltac:(lia)) as (o & -> & Ho). cbn [obind].
  destruct o as [group|]; [|left; eauto]. read_be (14 + 8)%nat ttl Httl. read_be (14 + 12)%nat saddr Hs.
  destruct (negb (ttl =? 1)); [left; eauto|]. right. right. split; [by split|]. exists type, code, group, saddr.
  unfold is_byte. change (8 * Z.of_nat 1) with 8 in *. split_and!; try lia; try (by apply Ho). reflexivity.
Qed.
End Deliver.

(** ** Walking over the ports of a VLAN

    The walk asks for the port after an index again and again; it ends because the
    indices of the ports of a VLAN are different.  Nothing but the trace changes. *)

Implicit Types (s : IGS).

(** The ports of the VLANs have different indices, which are 32-bit numbers. *)
Definition ports_fine (l : list igmp_vlan_list) : Prop :=
  ∀ v, v ∈ l → NoDup (vp_ifindex <$> v.(first_port)) ∧ ∀ q, q ∈ v.(first_port) → 0 ≤ q.(vp_ifindex) < 2 ^ 32.

(** Only messages have been sent, none of them to the switch daemon. *)
Definition only_sent s s' : Prop := ∃ tr, s' = s <| trace := tr |> ∧ List.filter notice tr = notices s.

Lemma only_sent_refl s : only_sent s s.
Proof. exists s.(trace). by destruct s. Qed.
Lemma only_sent_trans s1 s2 s3 : only_sent s1 s2 → only_sent s2 s3 → only_sent s1 s3.
Proof. intros (t & -> & E) (t' & -> & E'). exists t'. split; [done|]. by rewrite E'. Qed.

Lemma next_port_after a q b :
  NoDup (vp_ifindex <$> a ++ q :: b) → next_port q.(vp_ifindex) (a ++ q :: b) = vp_ifindex <$> hed b None.
Proof.
  induction a as [|x a IH]; intros Hn; cbn.
  - rewrite Z.eqb_refl. by destruct b.
  - cbn in Hn. apply list.NoDup_cons in Hn as [Hx Hn]. rewrite (proj2 (Z.eqb_neq _ _)); [by apply IH|].
    intros E. apply Hx. rewrite E. apply list_elem_of_fmap. exists q. split; [done|]. apply elem_of_app. right; left.
Qed.

Section Walk.
Variables (vid skip : Z) (f : Z → IGS → outcome IGS).
Hypothesis Hf : ∀ i s, wp (f i s) (only_sent s).

Lemma wp_port_walk fuel v a q b s :
  List.find (same_vlan vid) s.(p_vlanlist) = Some v → v.(first_port) = a ++ q :: b →
  NoDup (vp_ifindex <$> v.(first_port)) → (∀ q, q ∈ v.(first_port) → 0 ≤ q.(vp_ifindex) < 2 ^ 32) →
  (length (q :: b) < fuel)%nat → wp (port_walk fuel vid skip f (i32 q.(vp_ifindex)) s) (only_sent s).
Proof.
  intros Hv Hp Hn Hr. revert a q s fuel Hv Hp. induction b as [|r b IH]; intros a q s [|fuel] Hv Hp Hl; cbn in Hl; try lia;
    cbn [port_walk]; (destruct (Z.ltb_spec (i32 (vp_ifindex q)) 0) as [_|Hpos]; [apply only_sent_refl|]);
    assert (Hq : 0 ≤ vp_ifindex q < 2 ^ 32) by (apply Hr; rewrite Hp; apply elem_of_app; right; left);
    assert (Ei : i32 (vp_ifindex q) = vp_ifindex q) by (unfold i32 in *; destruct (Z.lt_ge_cases (vp_ifindex q) (2 ^ 31));
      [rewrite Z.mod_small by lia; lia|
       rewrite (Z.mod_eq _ (2 ^ 32)) in Hpos by lia; assert ((vp_ifindex q + 2 ^ 31) / 2 ^ 32 = 1) as Ed
         by (symmetry; apply (Z.div_unique _ _ 1 (vp_ifindex q - 2 ^ 31)); lia); rewrite Ed in Hpos; lia]);
    rewrite Ei; apply wp_bind; (eapply wp_mono with (P := only_sent s); [by destruct (_ =? skip); [apply only_sent_refl|apply Hf]|]);
    intros s1 (tr & -> & Etr); change (p_vlanlist (s <| trace := tr |>)) with (p_vlanlist s);
    unfold igmp_get_nextifindex_byifindex; rewrite Hv, Hp, next_port_after by (by rewrite <- Hp); cbn [hed fmap option_fmap option_map].
  - destruct fuel as [|fuel]; [lia|]. cbn [port_walk]. change (-1 <? 0) with true. cbn [wp]. exists tr. by split.
  - eapply wp_mono; [apply (IH (a ++ [q]) r (s <| trace := tr |>) fuel); [done|by rewrite <- app_assoc|cbn; lia]|].
    intros s2 Hs2. eapply only_sent_trans; [|exact Hs2]. exists tr. by split.
Qed.

Lemma vlan_port_walk_shape s : ports_fine s.(p_vlanlist) →
  match vlan_port_walk vid skip f s with None => True | Some m => wp m (only_sent s) end.
Proof.
  intros Hfine. unfold vlan_port_walk, igmp_getifindex_byvlanid. destruct (p_vlanlist s) as [|w l] eqn:El; [done|].
  rewrite <- El. destruct (List.find (same_vlan vid) (p_vlanlist s)) as [v|] eqn:Ev; [|done].
  destruct (first_port v) as [|q b] eqn:Ep; [done|]. change (is_ok IGMPSNP_RETURN_CODE_OK) with true. cbv iota.
  assert (Hv : v ∈ p_vlanlist s) by (apply list_elem_of_In; eapply find_some; exact Ev).
  destruct (Hfine v) as [Hn Hr]; [by rewrite El in Hv|].
  apply (wp_port_walk _ v [] q b s); [done|done|done|done|]. unfold port_turns.
  assert (Hin : (length (first_port v) ≤ length (flat_map first_port (p_vlanlist s)))%nat).
  { apply list_elem_of_In in Hv. clear -Hv. induction (p_vlanlist s) as [|x l IH]; [done|]. cbn. rewrite length_app.
    destruct Hv as [->|Hv]; [lia|]. specialize (IH Hv). lia. }
  rewrite Ep in Hin. cbn [length] in *. lia.
Qed.
End Walk.

Section Flood.
Variable env : ENV.

Lemma send_packet_sent frame room datalen vid ifindex s :
  only_sent s (Igmp_Snoop_Send_Packet env frame room datalen vid ifindex s).
Proof.
  unfold Igmp_Snoop_Send_Packet, igs_emit. destruct (kernel_fd_ok env); [|apply only_sent_refl].
  destruct (room <? sizeof_igmp_skb); eexists; (split; [done|]); cbn [trace set set_igs_trace];
    by rewrite !List.filter_app; cbn; rewrite ?app_nil_r.
Qed.

Lemma wp_flood sk_info vid ifindex s : ports_fine s.(p_vlanlist) →
  wp (igmp_snp_flood env sk_info vid ifindex s) (fun '(s', _) => only_sent s s').
Proof.
  intros Hfine. unfold igmp_snp_flood. set (f := fun i s => _).
  assert (H := vlan_port_walk_shape vid ifindex f ltac:(intros i s1; unfold f; cbn [wp]; destruct (query_port_ok _ _);
    [apply send_packet_sent|apply only_sent_refl]) s Hfine).
  destruct (vlan_port_walk vid ifindex f s) as [m|]; [|cbn; apply only_sent_refl].
  apply wp_bind. eapply wp_mono; [exact H|]. done.
Qed.
End Flood.

(** ** What the handlers add to the trace

    Whatever a handler does, it only adds effects, and those it adds satisfy [P]:
    every message to the switch daemon and every frame does, and so do the reads of
    more bytes than there are that building a frame comes with. *)

Class HasState (A : Type) := state_of : A → IGS.
#[export] Instance igs_state : HasState IGS := id.
#[export] Instance prod_state {A B} `{HasState A} : HasState (A * B) := fun x => state_of (fst x).

Definition grew (P : EFFECT → Prop) s s' : Prop := ∃ ev, s'.(trace) = s.(trace) ++ ev ∧ Forall P ev.
Definition grows (P : EFFECT → Prop) s {A} `{HasState A} (o : outcome A) : Prop := ∀ x, o = Done x → grew P s (state_of x).

(** The blocks of the frames the daemon builds. *)
Definition short_block (rooms : list Z) (e : EFFECT) : Prop :=
  match e with OVER_READ room len => room ∈ rooms ∧ len = sizeof_igmp_skb | _ => True end.

Section Grow.
Variable P : EFFECT → Prop.
Variable s0 : IGS.
Hypothesis P_notify : ∀ a b c d e, P (NOTIFY_NPD a b c d e).
Hypothesis P_notify6 : ∀ a b c d e, P (NOTIFY_NPD_V6 a b c d e).
Hypothesis P_send : ∀ a b c d, P (SEND_SKB a b c d).

Lemma grew_refl : grew P s0 s0.
Proof. exists []. by rewrite app_nil_r. Qed.
Lemma grew_same s s' : grew P s0 s → s'.(trace) = s.(trace) → grew P s0 s'.
Proof. intros (ev & E & H) E'. exists ev. split; [congruence|done]. Qed.
Lemma grew_emit s e : grew P s0 s → P e → grew P s0 (igs_emit e s).
Proof.
  intros (ev & E & H) He. exists (ev ++ [e]). unfold igs_emit. cbn [trace set set_igs_trace]. rewrite E, app_assoc.
  split; [done|]. apply Forall_app. split; [done|by constructor].
Qed.

Lemma grows_Done {A} `{HasState A} (a : A) : grew P s0 (state_of a) → grows P s0 (Done a).
Proof. by intros Hg x [= <-]. Qed.
Lemma grows_bind {A B} `{HasState A} `{HasState B} (m : outcome A) (k : A → outcome B) :
  grows P s0 m → (∀ a, grew P s0 (state_of a) → grows P s0 (k a)) → grows P s0 (obind k m).
Proof. intros Hm Hk. destruct m as [a| |]; [|done..]. apply Hk, Hm. done. Qed.
Lemma grows_read {A B} `{HasState B} (m : outcome A) (k : A → outcome B) :
  (∀ a, grows P s0 (k a)) → grows P s0 (obind k m).
Proof. intros Hk. destruct m as [a| |]; [apply Hk|done..]. Qed.
Lemma grows_fail {A} `{HasState A} (m : outcome A) : (∀ a, m ≠ Done a) → grows P s0 m.
Proof. intros Hm x E. by destruct (Hm x). Qed.
Lemma grows_foldM {X} (f : X → IGS → outcome IGS) l s :
  (∀ x s, grew P s0 s → grows P s0 (f x s)) → grew P s0 s → grows P s0 (foldM f l s).
Proof.
  intros Hf. revert s. induction l as [|x l IH]; intros s Hs; cbn [foldM]; [by apply grows_Done|].
  refine (grows_bind _ _ _ _); [by apply Hf|exact IH].
Qed.
End Grow.

(** Together with total correctness. *)
Lemma wp_grows {A} `{HasState A} (P : EFFECT → Prop) s (o : outcome A) (Q : A → Prop) :
  wp o Q → grows P s o → wp o (fun x => Q x ∧ grew P s (state_of x)).
Proof. destruct o as [x| |]; [|done..]. intros HQ Hg. split; [exact HQ|by apply Hg]. Qed.


(** The steps of a handler: what changes besides the trace is left alone, a step with
    a lemma in the database [grow] is taken by it, any other one reads. *)
Ltac grow_bind := refine (grows_bind _ _ _ _ _ _).
Ltac grew_close :=
  cbn [state_of igs_state prod_state fst snd id] in *;
  first [ eassumption
        | match goal with H : grew _ _ ?s |- grew _ _ _ => solve [apply (grew_same _ _ s _ H); reflexivity] end
        | apply grew_emit; [grew_close|solve [auto with grow nocore]]
        | match goal with |- grew _ _ (match ?x with _ => _ end) => destruct x; grew_close end
        | apply grew_refl ].
Create HintDb grow.
#[export] Hint Extern 1 (grew _ _ _) => grew_close : grow.
Ltac grow_step :=
  match goal with
  | |- grows _ _ Segv => by apply grows_fail
  | |- grows _ _ OutOfFuel => by apply grows_fail
  | |- grows _ _ (Done _) => first [apply grows_Done; solve [grew_close] | solve [eauto 4 with grow nocore]]
  | |- grows _ _ (obind _ _) =>
      first [ grow_bind; [solve [repeat grow_step]|intros ? ?] | apply grows_read; intros ? ]
  | |- grows _ _ (match ?x with _ => _ end) => destruct x
  | |- grows _ _ _ => solve [eauto 4 with grow nocore]
  end.
Ltac grow := cbv zeta; repeat grow_step.

Section Handlers.
Variable P : EFFECT → Prop.
Variables (s0 : IGS) (env : ENV).
Hypothesis P_notify : ∀ a b c d e, P (NOTIFY_NPD a b c d e).
Hypothesis P_notify6 : ∀ a b c d e, P (NOTIFY_NPD_V6 a b c d e).
Hypothesis P_send : ∀ a b c d, P (SEND_SKB a b c d).
Hint Resolve P_notify P_notify6 P_send : grow.

Lemma grow_notify pkt arg s : grew P s0 s → grows P s0 (Done (igmp_notify_msg env pkt arg s)).
Proof. intros H. unfold igmp_notify_msg. destruct (_ || _ || _ || _), (npd_ok env); grow. Qed.
Hint Resolve grow_notify : grow.
Lemma grow_mod_addr pkt arg s : grew P s0 s → grows P s0 (igmp_snp_mod_addr env pkt arg s).
Proof. intros H. unfold igmp_snp_mod_addr, in_l2mc. grow. Qed.
Hint Resolve grow_mod_addr : grow.

(** *** Groups *)

Lemma grow_unlink idx g s : grew P s0 s → grows P s0 (group_unlink idx g s).
Proof. intros H. unfold group_unlink. grow. Qed.
Lemma grow_vlan_unlink idx s : grew P s0 s → grows P s0 (vlan_unlink idx s).
Proof. intros H. unfold vlan_unlink. grow. Qed.
Hint Resolve grow_unlink grow_vlan_unlink : grow.
Lemma grow_delgroup4 idx p s : grew P s0 s → grows P s0 (igmp_snp_delgroup env idx p s).
Proof. intros H. unfold igmp_snp_delgroup. grow. Qed.
Lemma grow_notify6 pkt arg s : grew P s0 s → grows P s0 (Done (mld_notify_msg env pkt arg s)).
Proof. intros H. unfold mld_notify_msg. destruct (_ || _ || _ || _), (npd_ok env); grow. Qed.
Hint Resolve grow_notify6 : grow.
Lemma grow_mod_addr6 pkt arg s : grew P s0 s → grows P s0 (mld_snp_mod_addr env pkt arg s).
Proof. intros H. unfold mld_snp_mod_addr, in_l2mc. grow. Qed.
Hint Resolve grow_mod_addr6 : grow.
Lemma grow_delgroup6 idx p s : grew P s0 s → grows P s0 (mld_snp_delgroup env idx p s).
Proof. intros H. unfold mld_snp_delgroup. grow. Qed.
Hint Resolve grow_delgroup4 grow_delgroup6 : grow.
Lemma grow_delgroup idx p s : grew P s0 s → grows P s0 (delgroup env idx p s).
Proof. intros H. unfold delgroup. grow. Qed.

Section Del.
Variable del : Z → positive → IGS → outcome (IGS * option positive).
Hypothesis Hdel : ∀ idx p s, grew P s0 s → grows P s0 (del idx p s).
Hint Resolve Hdel : grow.
Lemma grow_del_groups fuel idx o s : grew P s0 s → grows P s0 (del_groups fuel (del idx) o s).
Proof. revert o s. induction fuel as [|n IH]; intros o s H; cbn [del_groups]; grow. Qed.
Hint Resolve grow_del_groups : grow.
Lemma grow_del_vlan_loop fuel vid i o s : grew P s0 s → grows P s0 (del_vlan_loop fuel del vid i o s).
Proof. revert i o. induction fuel as [|n IH]; intros i o H; cbn [del_vlan_loop]; unfold del_vlan_node; grow. Qed.
End Del.
Hint Resolve grow_delgroup grow_del_vlan_loop : grow.

Lemma grow_search vid ulGroup s : grew P s0 s → grows P s0 (igmp_snp_searchvlangroup env vid ulGroup s).
Proof.
  intros H. unfold igmp_snp_searchvlangroup, igmp_snp_groupcheck, igmp_snp_del_mcgroupvlan, igmp_snp_del_mcgroupvlan_fuel. grow.
Qed.
Lemma grow_queue_link tmp s : grew P s0 s → grows P s0 (queue_link tmp s).
Proof. intros H. unfold queue_link. grow. Qed.
Hint Resolve grow_search grow_queue_link : grow.
Lemma grow_vlan_node vid node prev s : grew P s0 s → grows P s0 (vlan_node vid node prev s).
Proof. intros H. unfold vlan_node. grow. Qed.
Lemma grow_link_front idx v p g s : grew P s0 s → grows P s0 (group_link_front idx v p g s).
Proof. intros H. unfold group_link_front. grow. Qed.
Hint Resolve grow_vlan_node grow_link_front : grow.
Lemma grow_insert_group vid g routers up prev s :
  (∀ s, (up s).(trace) = s.(trace)) → grew P s0 s → grows P s0 (insert_group vid g routers up prev s).
Proof.
  intros Hup H. unfold insert_group. grow_step. destruct a as [[s1 idx] b]. grow_step. grow_step.
  assert (Hu : grew P s0 (up a0)) by (apply (grew_same P s0 a0); [grew_close|apply Hup]). grow.
Qed.
Lemma grow_creat vid ulGroup ifindex prev s : grew P s0 s → grows P s0 (igmp_creat_group_node vid ulGroup ifindex prev s).
Proof.
  intros H. unfold igmp_creat_group_node. destruct (_ <? _); [grow|]. apply grows_read. intros routers. by apply grow_insert_group.
Qed.
Hint Resolve grow_creat : grow.

(** *** Sending *)

Lemma grow_walk vid skip f s m : (∀ i s, grew P s0 s → grows P s0 (f i s)) → grew P s0 s → vlan_port_walk vid skip f s = Some m → grows P s0 m.
Proof.
  intros Hf H. unfold vlan_port_walk. destruct (igmp_getifindex_byvlanid _ _) as [ret [first|]]; [|done].
  destruct (is_ok ret); [|done]. intros E. apply (inj Some) in E. subst m.
  generalize (port_turns s), (i32 first). intros fuel. revert s H.
  induction fuel as [|n IH]; intros s H i; cbn [port_walk]; grow.
Qed.
Lemma grow_send frame room datalen vid i s :
  (room < sizeof_igmp_skb → P (OVER_READ room sizeof_igmp_skb)) → grew P s0 s →
  grew P s0 (Igmp_Snoop_Send_Packet env frame room datalen vid i s).
Proof.
  intros Hr H. unfold Igmp_Snoop_Send_Packet. destruct (kernel_fd_ok env); [|done].
  apply grew_emit; [|done]. destruct (Z.ltb_spec room sizeof_igmp_skb); [|done]. by apply grew_emit; [|apply Hr].
Qed.
Lemma grow_flood info vid ifindex s : grew P s0 s → grows P s0 (igmp_snp_flood env info vid ifindex s).
Proof.
  intros H. unfold igmp_snp_flood. cbv zeta. destruct (vlan_port_walk _ _ _ s) as [m|] eqn:Em; [|grow].
  grow_bind; [|intros; grow]. eapply grow_walk; [|exact H|exact Em]. intros i s1 H1. apply grows_Done.
  destruct (query_port_ok s1 i); [|done]. apply grow_send; [lia|done].
Qed.
Hint Resolve grow_flood : grow.

Lemma grow_start_timer interval func data s : grew P s0 s → grows P s0 (start_timer env interval func data s).
Proof. intros H. unfold start_timer. grow. Qed.
Hint Resolve grow_start_timer : grow.

(** *** IGMP messages *)

Section Igmp.
Hypothesis P_66 : P (OVER_READ 66 sizeof_igmp_skb).
Hypothesis P_70 : P (OVER_READ 70 sizeof_igmp_skb).

Lemma grow_send_igmp pkt s : grew P s0 s → grows P s0 (Igmp_Snoop_Send_Igmp env pkt s).
Proof.
  intros H. assert (Hs : ∀ frame datalen vid i s, grew P s0 s →
    grew P s0 (Igmp_Snoop_Send_Packet env frame (14 + (if plain_message (pkt_type pkt) then 28 else 32) + 8 + 16) datalen vid i s)).
  { intros. apply grow_send; [|done]. by destruct (plain_message _). }
  unfold Igmp_Snoop_Send_Igmp. cbv zeta. destruct (_ =? _).
  - destruct (vlan_port_walk _ _ _ s) as [m|] eqn:Em; [|grow]. grow_bind; [|intros; grow].
    eapply grow_walk; [|exact H|exact Em]. intros i s1 H1. apply grows_Done. destruct (_ =? _); [by apply Hs|done].
  - destruct (_ =? _); apply grows_Done; cbn [state_of igs_state prod_state fst id];
      [destruct (query_port_ok _ _)|destruct (_ =? _)]; try done; by apply Hs.
Qed.
Hint Resolve grow_send_igmp : grow.

Lemma grow_report_port vid ulGroup ifindex error p s : grew P s0 s → grows P s0 (report_port env vid ulGroup ifindex error p s).
Proof. intros H. unfold report_port, upd_member, upd_group. grow. Qed.
Hint Resolve grow_report_port : grow.
Lemma grow_reporter_ports vid ulGroup ifindex p l s : grew P s0 s → grows P s0 (reporter_ports env vid ulGroup ifindex p l s).
Proof. revert s. induction l as [|i l IH]; intros s H; cbn [reporter_ports]; grow. Qed.
Lemma grow_report_routers vid ulGroup info p idx s : grew P s0 s → grows P s0 (report_routers env vid ulGroup info p idx s).
Proof.
  intros H. unfold report_routers, upd_group, igmp_snp_routerreport. do 4 grow_step; try solve [grow].
  grow_bind; [|intros; grow]. apply grows_foldM; [|done]. intros r s1 H1. grow.
Qed.
Hint Resolve grow_reporter_ports grow_report_routers : grow.
Lemma grow_report_group ulGroup vid type ifindex info p idx s : grew P s0 s → grows P s0 (report_group env ulGroup vid type ifindex info p idx s).
Proof. intros H. unfold report_group, upd_member, upd_group. grow. Qed.
Hint Resolve grow_report_group : grow.
Lemma grow_report ifindex ulGroup vid type info s : grew P s0 s → grows P s0 (igmp_recv_report env ifindex ulGroup vid type info s).
Proof. intros H. unfold igmp_recv_report. grow. Qed.
Lemma grow_leave ifindex ulGroup vid s : grew P s0 s → grows P s0 (igmp_recv_leave env ifindex ulGroup vid s).
Proof. intros H. unfold igmp_recv_leave, upd_member, upd_group. grow. Qed.
Lemma grow_query_learn vid ifindex saddr idx s : grew P s0 s → grows P s0 (query_learn vid ifindex saddr idx s).
Proof. intros H. unfold query_learn. grow. Qed.
Lemma grow_query_group vid group ifindex maxresp p s : grew P s0 s → grows P s0 (query_group env vid group ifindex maxresp p s).
Proof. intros H. unfold query_group, resp_timer, igmp_rand_mod, upd_group. grow. Qed.
Lemma grow_query_vlan vid ifindex p idx s : grew P s0 s → grows P s0 (query_vlan env vid ifindex p idx s).
Proof. intros H. unfold query_vlan, resp_timer, igmp_rand_mod, upd_group. grow. Qed.
Hint Resolve grow_report grow_leave grow_query_learn grow_query_group grow_query_vlan : grow.
Lemma grow_query ifindex maxresp group vid info s : grew P s0 s → grows P s0 (igmp_recv_query env ifindex maxresp group vid info s).
Proof.
  intros H. unfold igmp_recv_query. destruct (_ && _); [grow|]. cbv zeta.
  assert (H1 : grew P s0 (if queryRxFlag s =? IGMP_SNOOP_NO then s <| queryRxFlag := IGMP_SNOOP_YES |> else s)) by (destruct (_ =? _); grew_close).
  revert H1. generalize (if queryRxFlag s =? IGMP_SNOOP_NO then s <| queryRxFlag := IGMP_SNOOP_YES |> else s). intros s1 H1. grow.
Qed.
Lemma grow_unknown info s : grew P s0 s → grows P s0 (igmp_recv_unknown env info s).
Proof. intros H. unfold igmp_recv_unknown. grow. Qed.
Lemma grow_pim_recv skb s : grew P s0 s → grows P s0 (pim_recv_msg env skb s).
Proof. intros H. unfold pim_recv_msg, igmp_snp_pim_msghandle. grow. Qed.
Hint Resolve grow_query grow_unknown grow_pim_recv : grow.
Lemma grow_skb_proc skb s : grew P s0 s → grows P s0 (igmp_skb_proc env skb s).
Proof. intros H. unfold igmp_skb_proc. grow. Qed.
End Igmp.
End Handlers.
#[export] Hint Resolve grow_mod_addr6 grow_delgroup6 grow_del_vlan_loop grow_insert_group grow_start_timer : grow.
