(* ===== verification/IgmpReport.v ===== *)
(** * What a membership report does

    [igmp_recv_report] refines an operation on the map of the groups: the group of
    the report, created when it is new, gets the port of the report among its
    members; everything else in the map stays.  When the group did not have the port,
    the table of the switch gets it and the switch daemon is told. *)

From Stdlib Require Import ZArith Lia.
From stdpp Require Import base gmap list option fin_maps.
From S2P Require Import Prelude DList IgmpL2mc IgmpL2mcProps IgmpSnp IgmpList IgmpGroup IgmpGroupProps IgmpInv IgmpTimer IgmpFrame IgmpRecv IgmpNewGroup IgmpFrameProps.

Implicit Types (s : IGS) (v : MC_group_vlan) (g : MC_group) (p : positive).

(** ** Changing one group *)

Record group_changed s s' p g g' : Prop := {
  ch_ok : igs_ok s';
  ch_rest : rest s' = rest s;
  ch_group : s'.(groups) !! p = Some g';
  ch_place : same_place g g';
  ch_table : group_table s' = <[g_key g := g_erase g']> (group_table s);
  ch_queue : s'.(mcgroup_vlan_queue) = s.(mcgroup_vlan_queue) }.

Lemma changed_trans s1 s2 s3 p g1 g2 g3 :
  group_changed s1 s2 p g1 g2 → group_changed s2 s3 p g2 g3 → group_changed s1 s3 p g1 g3.
Proof.
  intros [A1 A2 A3 (P1 & P2 & P3) A5 A6] [B1 B2 B3 (Q1 & Q2 & Q3) B5 B6]. split; try done; try congruence.
  - split_and!; congruence.
  - rewrite B5, A5, P3. by rewrite insert_insert_eq.
Qed.

Lemma changed_put s p g g' :
  igs_ok s → s.(groups) !! p = Some g → same_place g g' → group_fine g' → g'.(mgroup_id) = g.(mgroup_id) →
  group_changed s (put_group p g' s) p g g'.
Proof.
  intros Hok Eg Hpl Hf Hid. assert (Hc := core_update_group s p g g' (io_core s Hok) Eg Hpl). split; try done.
  - destruct Hok as [H1 H2 H3 H4 H5 H6 H7 H8 H9].
    assert (Hs : size (put_group p g' s).(groups) = size s.(groups)).
    { rewrite groups_put_group, map_size_insert_Some; [done|by eexists]. }
    assert (Hback : ∀ q h, (put_group p g' s).(groups) !! q = Some h →
              ∃ h0, s.(groups) !! q = Some h0 ∧ h.(mgroup_id) = h0.(mgroup_id)).
    { intros q h E. rewrite groups_put_group in E. destruct (decide (q = p)) as [->|Hne].
      - rewrite lookup_insert_eq in E. exists g. split; [done|congruence].
      - rewrite lookup_insert_ne in E by done. by exists h. }
    split; try done.
    + rewrite Hs. exact H3.
    + by rewrite Hs.
    + intros q h E. rewrite groups_put_group in E. destruct (decide (q = p)) as [->|Hne].
      * rewrite lookup_insert_eq in E. congruence.
      * rewrite lookup_insert_ne in E by done. by eapply H5.
    + intros q r h k Eq Er Eid Hne. destruct (Hback q h Eq) as (h0 & Eh0 & E1), (Hback r k Er) as (k0 & Ek0 & E2).
      apply (H7 q r h0 k0); congruence.
  - rewrite groups_put_group. by rewrite lookup_insert_eq.
  - by apply table_update_group, Hpl; [apply Hok|].
Qed.

(** Changes outside the groups. *)
Lemma changed_outside s p g t l tr :
  igs_ok s → s.(groups) !! p = Some g → l2mc_repr t l → group_changed s (s <| p_l2mc := t |> <| trace := tr |>) p g g.
Proof.
  intros Hok Eg Ht. split; try done.
  - eapply (igs_ok_same s); [done|by exists l|done..|exact Hok].
  - change (group_table s = <[g_key g := g_erase g]> (group_table s)). rewrite insert_id; [done|].
    apply group_table_lookup; [apply Hok|]. eauto.
Qed.

Lemma changed_trace s p g tr : igs_ok s → s.(groups) !! p = Some g → group_changed s (s <| trace := tr |>) p g g.
Proof.
  intros Hok Eg. destruct (io_l2 s Hok) as [l Hl].
  assert (E : s <| trace := tr |> = s <| p_l2mc := s.(p_l2mc) |> <| trace := tr |>) by (by destruct s).
  rewrite E. by eapply changed_outside.
Qed.

(** ** Member ports *)

Definition reported (interval : Z) (old : bool) (port : MC_port_state) : MC_port_state :=
  let port := port <| membertimer_id := interval |> in
  if old then port <| ps_state := IGMP_SNP_V1_MEMBER |> <| hosttimer_id := IGMP_V1_ROUTER_PRESENT_TIMEOUT |>
  else if port.(ps_state) =? IGMP_SNP_V1_MEMBER then port else port <| ps_state := IGMP_SNP_HAS_MEMBER |>.

(** The member ports after a report of the port. *)
Definition join_port (interval : Z) (old : bool) (ifindex : Z) (l : list MC_port_state) : list MC_port_state :=
  match port_pos ifindex l with
  | Some i => alter (reported interval old) i l
  | None => reported interval old (mkPort ifindex 0 0 IGMP_SNP_GROUP_NOMEMBER) :: l
  end.

(** Whether the switch does not know the port as a member. *)
Definition port_is_new (ifindex : Z) (l : list MC_port_state) : bool :=
  match port_pos ifindex l with
  | Some i => match l !! i with Some port => port.(ps_state) =? IGMP_SNP_GROUP_NOMEMBER | None => true end
  | None => true
  end.

Lemma port_pos_Some ifindex l i : port_pos ifindex l = Some i → ∃ port, l !! i = Some port ∧ port.(ps_ifindex) = ifindex.
Proof.
  revert i. induction l as [|x l IH]; intros i E; simpl in E; [done|].
  destruct (Z.eqb_spec (ps_ifindex x) ifindex) as [Ex|Nx].
  - injection E as <-. by exists x.
  - destruct (port_pos ifindex l) as [j|]; [|done]. injection E as <-. by apply IH.
Qed.

Lemma port_pos_None ifindex l : port_pos ifindex l = None → ifindex ∉ (ps_ifindex <$> l).
Proof.
  induction l as [|x l IH]; intros E; simpl in E; [apply not_elem_of_nil|].
  destruct (Z.eqb_spec (ps_ifindex x) ifindex) as [Ex|Nx]; [done|].
  destruct (port_pos ifindex l); [done|]. cbn. rewrite elem_of_cons. intros [->|H]; [done|]. by apply IH.
Qed.

Lemma alter_ifindex f i (l : list MC_port_state) :
  (∀ port, (f port).(ps_ifindex) = port.(ps_ifindex)) → ps_ifindex <$> alter f i l = ps_ifindex <$> l.
Proof.
  intros Hf. revert i. induction l as [|x l IH]; intros [|i]; cbn; try done.
  - by rewrite Hf.
  - by rewrite IH.
Qed.

(** What the search with [IGMP_PORT_ADD] returns. *)
Lemma search_add s l ifindex :
  let '(l', o, ret) := igmp_snp_searchportstatelist s l ifindex IGMP_PORT_ADD in
  ret = IGMPSNP_RETURN_CODE_OK ∧
  ∃ i port, o = Some i ∧ l' !! i = Some port ∧ (port.(ps_state) =? IGMP_SNP_GROUP_NOMEMBER) = port_is_new ifindex l ∧
    (NoDup (ps_ifindex <$> l) → NoDup (ps_ifindex <$> l')) ∧
    ∀ f old, (∀ q, f q = reported (member_interval s) old q) → alter f i l' = join_port (member_interval s) old ifindex l.
Proof.
  unfold igmp_snp_searchportstatelist, join_port, port_is_new. destruct (port_pos ifindex l) as [i|] eqn:Ei.
  - destruct (port_pos_Some _ _ _ Ei) as (port & Ep & _). split; [done|].
    exists i, (port <| membertimer_id := member_interval s |>). split_and!; [done| | | |].
    + by rewrite list_lookup_alter_eq, Ep.
    + by rewrite Ep.
    + by rewrite alter_ifindex.
    + intros f old Hf. rewrite list_alter_alter_eq. apply list_alter_ext; [|done]. intros q _. simpl. rewrite Hf.
      unfold reported. done.
  - split; [done|]. eexists 0%nat, _. split_and!; [done|done|done| |].
    + intros Hn. cbn. constructor; [by apply port_pos_None|done].
    + intros f old Hf. cbn. by rewrite Hf.
Qed.

(** ** The switch *)

(** The table and the switch daemon see nothing of the step. *)
Definition same_switch s s' : Prop := s'.(p_l2mc) = s.(p_l2mc) ∧ notices s' = notices s.

Lemma same_switch_trans s1 s2 s3 : same_switch s1 s2 → same_switch s2 s3 → same_switch s1 s3.
Proof. intros [A B] [C D]. split; congruence. Qed.

Section Report.
Variable env : ENV.

(** What the report does to the table of the switch. *)
Definition l2_join (pkt : PKT Z) (new : bool) (l : list l2mc_list) : list l2mc_list :=
  if new then fst (spec_insert env.(junk_entry) pkt l) else l.

(** A new member port gets into the table, and the switch daemon is told about it,
    once and about nothing else. *)
Definition switch_joined s s' (vid ifindex ulGroup id : Z) (new : bool) : Prop :=
  (∀ t, l2mc_repr s.(p_l2mc) t →
     l2mc_repr s'.(p_l2mc) (l2_join (mkPkt IGMP_ADDR_ADD ifindex vid id 0 ulGroup 0) new t)) ∧
  notices s' = notices s ++ (if new then [NOTIFY_NPD IGMP_ADDR_ADD vid ifindex ulGroup id] else []).

Lemma joined_same s1 s2 s3 s4 vid ifindex ulGroup id new :
  same_switch s1 s2 → switch_joined s2 s3 vid ifindex ulGroup id new → same_switch s3 s4 →
  switch_joined s1 s4 vid ifindex ulGroup id new.
Proof.
  intros [A1 A2] [B1 B2] [C1 C2]. split; [|congruence]. intros t Ht. rewrite C1. apply B1. by rewrite A1.
Qed.

(** The group while the report is processed: [F] is what has happened to the port. *)
Definition with_port g l i (F : MC_port_state → MC_port_state) : MC_group :=
  g <| portstatelist := alter F i l |> <| grouplifetimer_id := 0 |>.

Lemma wp_upd_member s p g l i F f (Q : IGS → Prop) :
  igs_ok s → s.(groups) !! p = Some (with_port g l i F) → (∀ q, (f q).(ps_ifindex) = q.(ps_ifindex)) →
  (∀ s', group_changed s s' p (with_port g l i F) (with_port g l i (f ∘ F)) → same_switch s s' → Q s') →
  wp (upd_member p i f s) Q.
Proof.
  intros Hok Eg Hf HQ. unfold upd_member, upd_group, get_group. rewrite Eg. cbn [deref obind wp].
  apply HQ; [|done].
  assert (E : (with_port g l i F) <| portstatelist := alter f i (portstatelist (with_port g l i F)) |> = with_port g l i (f ∘ F)).
  { unfold with_port. cbn. by rewrite list_alter_alter_eq. }
  rewrite E. assert (Hfine := io_fine s Hok _ _ Eg). apply changed_put; [done|done|done| |done].
  destruct Hfine as [H1 H2 H3]. split; [done|done|]. rewrite <- E. cbn [portstatelist set set_portstatelist].
  by rewrite alter_ifindex.
Qed.

Lemma wp_report_port s vid ulGroup ifindex error p g (Q : IGS * (Z + nat) → Prop) :
  igs_ok s → env.(npd_ok) = true → s.(groups) !! p = Some g →
  (∀ s' l i F, group_changed s s' p g (with_port g l i F) →
     switch_joined s s' vid ifindex ulGroup g.(mgroup_id) (port_is_new ifindex g.(portstatelist)) →
     (∀ f old, (∀ q, f q = reported (member_interval s) old q) →
        alter f i l = join_port (member_interval s) old ifindex g.(portstatelist)) →
     (∀ q, F q = if q.(ps_state) =? IGMP_SNP_V1_MEMBER then q else q <| ps_state := IGMP_SNP_HAS_MEMBER |>) →
     Q (s', inr i)) →
  wp (report_port env vid ulGroup ifindex error p s) Q.
Proof.
  intros Hok Hnpd Eg HQ. unfold report_port, get_group. rewrite Eg. cbn [deref obind].
  assert (Hadd := search_add s g.(portstatelist) ifindex).
  destruct (igmp_snp_searchportstatelist s (portstatelist g) ifindex IGMP_PORT_ADD) as [[l o] ret].
  destruct Hadd as (-> & i & port & -> & Ep & Est & Hnd & Hjoin). rewrite Ep. cbn [deref obind]. rewrite Est.
  assert (Hfine := io_fine s Hok _ _ Eg).
  set (g1 := g <| portstatelist := l |>). set (pkt := mkPkt IGMP_ADDR_ADD _ _ _ _ _ _).
  assert (C1 : group_changed s (put_group p g1 s) p g g1).
  { apply changed_put; [done|done|done| |done]. destruct Hfine. split; [done|done|]. by apply Hnd. }
  set (s1 := put_group p g1 s) in *.
  (* the switch *)
  assert (Hl2 : wp (if port_is_new ifindex (portstatelist g) then igmp_snp_mod_addr env pkt IGMP_ADDR_ADD s1
                    else Done (s1, IGMPSNP_RETURN_CODE_OK))
            (fun '(s2, r) => r = IGMPSNP_RETURN_CODE_OK ∧ group_changed s1 s2 p g1 g1 ∧
               switch_joined s1 s2 vid ifindex ulGroup g.(mgroup_id) (port_is_new ifindex (portstatelist g)))).
  { destruct (io_l2 s1 (ch_ok _ _ _ _ _ C1)) as [l0 Hl0]. destruct (port_is_new ifindex (portstatelist g)).
    - unfold igmp_snp_mod_addr, in_l2mc. cbn [Z.eqb]. rewrite Z.eqb_refl.
      destruct (wp_elim _ _ (wp_insert env.(junk_entry) s1.(p_l2mc) l0 pkt Hl0)) as ([t r] & Er & Ht & _).
      rewrite Er. cbn [obind wp]. unfold igmp_notify_msg. rewrite Z.eqb_refl. cbn [orb]. rewrite Hnpd.
      split; [done|]. split.
      + unfold igs_emit. eapply changed_outside; [apply C1|apply C1|exact Ht].
      + split; [|unfold notices; cbn [trace igs_emit set set_igs_trace]; by rewrite List.filter_app].
        intros t' Ht'. destruct (wp_elim _ _ (wp_insert env.(junk_entry) s1.(p_l2mc) t' pkt Ht')) as ([t2 r2] & Er2 & Ht2 & _).
        rewrite Er in Er2. injection Er2 as <- _. exact Ht2.
    - split; [done|]. split; [|split; [done|by rewrite app_nil_r]].
      assert (C := changed_trace s1 p g1 s1.(trace) (ch_ok _ _ _ _ _ C1) (ch_group _ _ _ _ _ C1)). by destruct s1. }
  apply wp_bind. eapply wp_mono; [exact Hl2|]. intros [s2 r] (-> & C2 & Ht2). cbv beta iota.
  change (negb (is_ok IGMPSNP_RETURN_CODE_OK)) with false. cbv iota.
  unfold upd_group at 1, get_group. rewrite (ch_group _ _ _ _ _ C2). cbn [deref obind].
  assert (E2 : g1 <| grouplifetimer_id := 0 |> = with_port g l i id).
  { unfold with_port, g1. by rewrite list_alter_id. }
  rewrite E2. assert (C3 : group_changed s2 (put_group p (with_port g l i id) s2) p g1 (with_port g l i id)).
  { rewrite <- E2. apply changed_put; [apply C2|apply C2|done| |done]. destruct (io_fine _ (ch_ok _ _ _ _ _ C2) _ _ (ch_group _ _ _ _ _ C2)).
    by split. }
  set (s3 := put_group p (with_port g l i id) s2) in *.
  apply wp_bind. eapply wp_upd_member; [apply C3|apply C3| |].
  { intros q. cbv beta. destruct (ps_state q =? IGMP_SNP_V1_MEMBER); done. }
  intros s4 C4 E4. cbn [wp]. eapply (HQ s4 l i _).
  - eapply changed_trans; [exact C1|]. eapply changed_trans; [exact C2|]. eapply changed_trans; [exact C3|exact C4].
  - eapply joined_same; [|exact Ht2|exact E4]; by split.
  - intros f old Hf. by apply Hjoin.
  - intros q. done.
Qed.

(** ** Passing the report on *)

Lemma send_igmp_shape pkt s : pkt.(pkt_type) ≠ IGMP_MSG_GEN_QUERY →
  ∃ tr r, Igmp_Snoop_Send_Igmp env pkt s = Done (s <| trace := tr |>, r) ∧ List.filter notice tr = notices s.
Proof.
  intros Ht. assert (H : s = s <| trace := s.(trace) |>) by (by destruct s).
  assert (Hs := send_packet_sent env).
  unfold Igmp_Snoop_Send_Igmp. rewrite (proj2 (Z.eqb_neq _ _) Ht).
  destruct (pkt_type pkt =? IGMP_MSG_GS_QUERY).
  - destruct (query_port_ok s (pkt_ifindex pkt)).
    + edestruct Hs as (tr & -> & E). eauto.
    + exists s.(trace), IGMPSNP_RETURN_CODE_OK. by rewrite <- H.
  - change (igmp_getifstatus (pkt_ifindex pkt) =? 1) with true. cbv iota.
    edestruct Hs as (tr & -> & E). eauto.
Qed.

Lemma routers_shape vid ulGroup info routers s :
  ∃ tr, foldM (fun r s => let* '(s, _) := igmp_snp_routerreport env vid r.(mroute_ifindex) ulGroup info s in Done s) routers s
        = Done (s <| trace := tr |>) ∧ List.filter notice tr = notices s.
Proof.
  revert s. induction routers as [|r l IH]; intros s; cbn [foldM].
  - exists s.(trace). by destruct s.
  - destruct (send_igmp_shape (mkPkt IGMP_MSG_REPORT r.(mroute_ifindex) vid 0 info.(i_saddr) ulGroup 0) s) as (tr & ret & E & En); [done|].
    assert (E' : igmp_snp_routerreport env vid (mroute_ifindex r) ulGroup info s = Done (s <| trace := tr |>, ret)) by exact E.
    rewrite E'. cbn [obind]. destruct (IH (s <| trace := tr |>)) as (tr' & -> & En').
    exists tr'. split; [done|]. rewrite En'. exact En.
Qed.

Lemma wp_report_routers s vid ulGroup info p idx g v (Q : IGS → Prop) :
  igs_ok s → s.(groups) !! p = Some g → s.(mcgroup_vlan_queue) !! idx = Some v →
  (∀ s' g', group_changed s s' p g g' → same_switch s s' → g'.(portstatelist) = g.(portstatelist) →
     g'.(mgroup_id) = g.(mgroup_id) → Q s') →
  wp (report_routers env vid ulGroup info p idx s) Q.
Proof.
  intros Hok Eg Ev HQ. unfold report_routers, get_group, get_vlan. rewrite Eg. cbn [deref obind].
  assert (C0 : group_changed s s p g g).
  { assert (C := changed_trace s p g s.(trace) Hok Eg). by destruct s. }
  destruct (portstatelist g) eqn:Epl; [|by eapply HQ].
  rewrite Ev. cbn [deref obind]. destruct (co_routers s (io_core s Hok) idx v Ev) as [l El]. rewrite El, rwalk_rlist. cbn [obind].
  destruct (routers_shape vid ulGroup info l s) as (tr & -> & En). cbn [obind].
  assert (C1 := changed_trace s p g tr Hok Eg). set (s1 := s <| trace := tr |>) in *.
  unfold upd_group, get_group. rewrite (ch_group _ _ _ _ _ C1). cbn [deref obind wp].
  set (g1 := g <| router_reporttimer := 100 |>).
  assert (C2 : group_changed s1 (put_group p g1 s1) p g g1).
  { apply changed_put; [apply C1|apply C1|done| |done]. destruct (io_fine s Hok p g Eg). by split. }
  eapply (HQ _ g1); [by eapply changed_trans|done|done|done].
Qed.

(** ** The report of a group that is there *)

Lemma rest_reporterlist s s' : rest s' = rest s → s'.(p_reporterlist) = s.(p_reporterlist).
Proof. intros E. apply (f_equal p_reporterlist) in E. by destruct s, s'. Qed.
Lemma rest_interval s s' : rest s' = rest s → member_interval s' = member_interval s.
Proof. intros E. unfold member_interval. apply (f_equal (fun t => (igmp_robust_variable t, igmp_query_interval t, igmp_resp_interval t))) in E.
  destruct s, s'. cbn in *. by injection E as -> -> ->. Qed.

(** What the group is after the report. *)
Record joined s g g' (old : bool) (ifindex saddr : Z) : Prop := {
  j_ports : g'.(portstatelist) = join_port (member_interval s) old ifindex g.(portstatelist);
  j_timer : g'.(grouplifetimer_id) = 0;
  j_saddr : g'.(report_ipadd) = saddr;
  j_id : g'.(mgroup_id) = g.(mgroup_id) }.

Lemma wp_report_group s ulGroup vid ulType ifindex info p idx g v (Q : IGS * Z → Prop) :
  igs_ok s → env.(npd_ok) = true → s.(p_reporterlist) = [] →
  s.(groups) !! p = Some g → s.(mcgroup_vlan_queue) !! idx = Some v →
  (∀ s' g', group_changed s s' p g g' → joined s g g' (IGMP_V1_MEMSHIP_REPORT =? ulType) ifindex info.(i_saddr) →
     switch_joined s s' vid ifindex ulGroup g.(mgroup_id) (port_is_new ifindex g.(portstatelist)) →
     Q (s', IGMPSNP_RETURN_CODE_OK)) →
  wp (report_group env ulGroup vid ulType ifindex info p idx s) Q.
Proof.
  intros Hok Hnpd Hrep Eg Ev HQ. unfold report_group. apply wp_bind. eapply wp_report_routers; [done..|].
  intros s1 g1 C1 El1 Ep1 Eid1. assert (Hr1 : s1.(p_reporterlist) = []).
  { rewrite <- Hrep. by apply rest_reporterlist, C1. }
  rewrite Hr1. cbn [igmp_snp_searchreporterlist List.find fmap option_fmap option_map obind default from_option id reporter_ports].
  change (negb (is_ok IGMPSNP_RETURN_CODE_OK)) with false. cbv iota.
  apply wp_bind. eapply wp_report_port; [apply C1|done|apply C1|]. intros s2 l i F C2 Ht2 Hj HF. cbv beta iota.
  assert (Hr2 : s2.(p_reporterlist) = []) by (rewrite <- Hr1; by apply rest_reporterlist, C2).
  unfold Igmp_Snoop_IF_Recv_Is_Report_Discard. rewrite Hr2.
  cbn [igmp_snp_searchreporterlist List.find fmap option_fmap option_map obind].
  change (is_ok IGMPSNP_RETURN_CODE_OK) with true. cbv iota. cbn [obind].
  assert (HFi : ∀ q, (F q).(ps_ifindex) = q.(ps_ifindex)).
  { intros q. rewrite HF. destruct (ps_state q =? IGMP_SNP_V1_MEMBER); done. }
  apply wp_bind. eapply wp_upd_member; [apply C2|apply C2|done|]. intros s3 C3 El3.
  set (F3 := (fun port => port <| membertimer_id := member_interval s2 |>) ∘ F) in *.
  assert (Hi : member_interval s2 = member_interval s).
  { rewrite (rest_interval s1 s2) by apply C2. by apply rest_interval, C1. }
  assert (Hi1 : member_interval s1 = member_interval s) by (by apply rest_interval, C1).
  set (old := IGMP_V1_MEMSHIP_REPORT =? ulType).
  assert (H4 : wp (if old then upd_member p i (fun port => port <| ps_state := IGMP_SNP_V1_MEMBER |>
                                                              <| hosttimer_id := IGMP_V1_ROUTER_PRESENT_TIMEOUT |>) s3 else Done s3)
            (fun s4 => ∃ F4, group_changed s3 s4 p (with_port g1 l i F3) (with_port g1 l i F4) ∧ same_switch s3 s4 ∧
                             ∀ q, F4 q = reported (member_interval s1) old q)).
  { assert (HF3 : ∀ q, F3 q = reported (member_interval s1) false q).
    { intros q. unfold F3, reported. cbn. rewrite HF, Hi, Hi1. by destruct (ps_state q =? IGMP_SNP_V1_MEMBER). }
    destruct old.
    - eapply wp_upd_member; [apply C3|apply C3|done|]. intros s4 C4 El4. eexists. split_and!; [exact C4|done|].
      intros q. cbn. rewrite HF3. unfold reported. cbn. by destruct (ps_state q =? IGMP_SNP_V1_MEMBER).
    - exists F3. split_and!; [|done|done].
      assert (C := changed_trace s3 p _ s3.(trace) (ch_ok _ _ _ _ _ C3) (ch_group _ _ _ _ _ C3)). by destruct s3. }
  apply wp_bind. eapply wp_mono; [exact H4|]. intros s4 (F4 & C4 & El4 & HF4).
  unfold upd_group, get_group. rewrite (ch_group _ _ _ _ _ C4). cbn [deref obind wp].
  set (g5 := (with_port g1 l i F4) <| report_ipadd := i_saddr info |>).
  assert (C5 : group_changed s4 (put_group p g5 s4) p (with_port g1 l i F4) g5).
  { apply changed_put; [apply C4|apply C4|done| |done]. destruct (io_fine _ (ch_ok _ _ _ _ _ C4) _ _ (ch_group _ _ _ _ _ C4)). by split. }
  apply (HQ _ g5).
  - eapply changed_trans; [exact C1|]. eapply changed_trans; [exact C2|]. eapply changed_trans; [exact C3|].
    eapply changed_trans; [exact C4|exact C5].
  - split; [|done|done|exact Eid1]. cbn. rewrite (Hj F4 old HF4), Hi1, Ep1. done.
  - rewrite <- Eid1, <- Ep1. eapply joined_same; [exact El1|exact Ht2|].
    eapply same_switch_trans; [exact El3|]. eapply same_switch_trans; [exact El4|by split].
Qed.

(** ** The whole report *)

(** The state after a report: the group [g], the one of the map or a new one without
    ports, has become [g']; the switch knows the port. *)
Definition reported_state s s' (vid ulGroup ulType ifindex saddr : Z) : Prop :=
  igs_ok s' ∧ rest s' = rest s ∧ ∃ g g',
    match group_table s !! (vid, ulGroup) with Some x => x = g | None => g.(portstatelist) = [] end ∧
    g_key g' = (vid, ulGroup) ∧ joined s g g' (IGMP_V1_MEMSHIP_REPORT =? ulType) ifindex saddr ∧
    group_table s' = <[(vid, ulGroup) := g']> (group_table s) ∧
    switch_joined s s' vid ifindex ulGroup g.(mgroup_id) (port_is_new ifindex g.(portstatelist)).

(** No group is created when there are 1024. *)
Definition table_full s (vid ulGroup : Z) : Prop :=
  size s.(groups) = 1024%nat ∧ group_table s !! (vid, ulGroup) = None.

Lemma searched_none s vid ulGroup ov : core_ok s → searched s vid ulGroup None ov → group_table s !! (vid, ulGroup) = None.
Proof.
  intros Hc Hse. destruct (group_table s !! (vid, ulGroup)) as [x|] eqn:E; [|done]. exfalso.
  apply group_table_lookup in E as (q & h & Eh & Ekh & _); [|done]. unfold searched in Hse. destruct ov as [i|].
  - destruct Hse as (w & _ & _ & Hn). by apply (Hn q h).
  - destruct Hse as [_ Hn]. injection Ekh as Evh _. destruct (co_owned s Hc q h Eh) as (i & w & Ei & Ew).
    apply (Hn i w Ei). congruence.
Qed.

Lemma wp_recv_report s usIfIndex ulGroup vid ulType info :
  igs_ok s → env.(npd_ok) = true → s.(p_reporterlist) = [] → vlan_used s vid → 0 ≤ vid ≤ 4094 →
  is_ok (igmp_snp_addr_check ulGroup) = true →
  wp (igmp_recv_report env usIfIndex ulGroup vid ulType info s) (fun '(s', r) =>
    (table_full s vid ulGroup ∧ r = IGMPSNP_RETURN_CODE_ERROR ∧ s' = s) ∨
    (r = IGMPSNP_RETURN_CODE_OK ∧
     reported_state s s' vid ulGroup ulType (trunk_or_port s.(p_vlanlist) vid usIfIndex) info.(i_saddr))).
Proof.
  intros Hok Hnpd Hrep Hused Hvid Haddr. unfold igmp_recv_report. rewrite Haddr. cbn [negb].
  apply wp_bind, wp_searchvlangroup; [apply Hok|done|]. intros og ov Hse.
  change (negb (is_ok IGMPSNP_RETURN_CODE_OK)) with false. cbv iota.
  set (ifindex := trunk_or_port _ _ _). destruct og as [p|].
  - destruct ov as [idx|]; [|by destruct Hse]. destruct Hse as (w & Ew & Evid & g & Eg & Ek). cbn [deref obind].
    eapply wp_report_group; [done..|]. intros s' g' C Hj Hl. right. split; [done|]. split; [apply C|]. split; [apply C|].
    exists (g_erase g), (g_erase g').
    assert (Et : group_table s !! (vid, ulGroup) = Some (g_erase g)) by (apply group_table_lookup; [apply Hok|eauto]).
    rewrite Et. split_and!; [done| | | |done].
    + rewrite <- Ek. destruct (ch_place _ _ _ _ _ C) as (_ & _ & E). exact E.
    + by destruct Hj.
    + rewrite <- Ek. apply C.
  - assert (Hnone := searched_none s vid ulGroup ov (io_core s Hok) Hse).
    destruct (decide (size s.(groups) = 1024%nat)) as [Hfull|Hnf].
    { unfold igmp_creat_group_node. rewrite (io_count s Hok), Hfull. change (igmp_getmaxgroupcnt _ <? _) with true.
      cbn [obind wp]. left. done. }
    assert (Hsize := io_bound s Hok).
    apply wp_bind, wp_creat_group_node; [done|done| |done|lia|].
    { intros ->. done. }
    intros s1 p idx [Hok1 Hr1 El1 Etr1 (g & Eg & Ek & Epl & _ & Et1) (v & Ev & Evid)]. cbv beta iota.
    assert (Hrep1 : s1.(p_reporterlist) = []) by (rewrite <- Hrep; by apply rest_reporterlist).
    eapply wp_report_group; [done..|]. intros s' g' C Hj Hl. right. split; [done|]. split; [apply C|].
    split; [rewrite <- Hr1; apply C|]. exists (g_erase g), (g_erase g').
    rewrite Hnone. split_and!; [exact Epl| | | |].
    + rewrite <- Ek. destruct (ch_place _ _ _ _ _ C) as (_ & _ & E). exact E.
    + destruct Hj as [J1 J2 J3 J4]. split; [|done|done|done]. rewrite <- (rest_interval s s1) by done. exact J1.
    + rewrite (ch_table _ _ _ _ _ C), Et1, Ek. by rewrite insert_insert_eq.
    + eapply joined_same; [|exact Hl|by split]. split; [done|]. unfold notices. by rewrite Etr1.
Qed.
End Report.
