(* ===== verification/IgmpTimerProps.v ===== *)
(** * The list of timers stays a list

    The daemon's own timers have type LOOP or NOLOOP and priority NORMAL, so that a
    new one goes to the end; the list stays linear, whatever identifiers [rand]
    gives, as long as it does not repeat itself for 257 calls. *)

From Stdlib Require Import ZArith Lia.
From stdpp Require Import base gmap list option fin_maps fin_map_dom.
From S2P Require Import Prelude DList IgmpL2mc IgmpSnp IgmpTimer.

Implicit Types (h : timer_list) (nodes : gmap positive timer_element) (l : list positive).

(** ** A linear list *)

Fixpoint tchain nodes (p : option positive) l : Prop :=
  match l with
  | [] => p = None
  | q :: l' => p = Some q ∧ ∃ x, nodes !! q = Some x ∧ tchain nodes x.(tm_next) l'
  end.

Record timers_linear h l : Prop := {
  tl_nodup : NoDup l;
  tl_links : tchain h.(tl_nodes) h.(first_timer) l;
  tl_dom : ∀ p, is_Some (h.(tl_nodes) !! p) → p ∈ l;
  tl_kinds : ∀ p x, h.(tl_nodes) !! p = Some x → x.(tm_type) ≤ TIMER_TYPE_NOLOOP ∧ TIMER_PRIORI_NORMAL ≤ x.(tm_priority);
  tl_count : h.(tl_cnt) = Z.of_nat (length l);
  tl_bound : (length l ≤ 255)%nat }.

Definition timers_ok h : Prop := ∃ l, timers_linear h l.

(** [rand] does not repeat itself for as many calls as there can be timers. *)
Definition rand_varied (env : ENV) : Prop := ∀ n, NoDup (env.(rand) <$> seq n 257).

Lemma tchain_elem nodes p l q : tchain nodes p l → q ∈ l → ∃ x, nodes !! q = Some x.
Proof.
  revert p. induction l as [|r l IH]; intros p; cbn; [by intros _ ?%not_elem_of_nil|].
  intros (_ & x & Ex & Hc) [->|Hq]%elem_of_cons; [by exists x|by eapply IH].
Qed.

Lemma tchain_frame nodes nodes' p l :
  (∀ q, q ∈ l → nodes' !! q = nodes !! q) → tchain nodes p l → tchain nodes' p l.
Proof.
  revert p. induction l as [|q l IH]; intros p Hf; cbn; [done|]. intros (-> & x & Ex & Hc). split; [done|].
  exists x. split; [by rewrite Hf by left|]. apply IH; [|done]. intros r Hr. apply Hf. by right.
Qed.

Lemma timers_turns h l : timers_linear h l → (length l < timer_turns h)%nat.
Proof.
  intros [Hn Hl _ _ _ _]. unfold timer_turns. apply Nat.lt_succ_r. rewrite <- size_dom.
  rewrite <- (size_list_to_set (C := gset positive) l Hn). apply subseteq_size. intros p Hp%elem_of_list_to_set.
  apply elem_of_dom. by apply (tchain_elem _ _ _ _ Hl).
Qed.

(** ** A new identifier *)

Lemma wp_has_id nodes p l fuel id (Q : bool → Prop) :
  tchain nodes p l → (length l < fuel)%nat →
  (∀ b, (b = true → ∃ q x, q ∈ l ∧ nodes !! q = Some x ∧ x.(tm_id) = id) → Q b) →
  wp (timer_has_id fuel nodes id p) Q.
Proof.
  revert p fuel Q. induction l as [|q l IH]; intros p [|fuel] Q Hc Hl HQ; cbn in Hl; try lia; cbn in Hc; cbn [timer_has_id].
  - rewrite Hc. by apply HQ.
  - destruct Hc as (-> & x & Ex & Hc). rewrite Ex. cbn [deref obind].
    destruct (Z.eqb_spec (tm_id x) id) as [E|N]; [apply HQ; intros _; exists q, x; split_and!; [left|done..]|].
    eapply IH; [done|lia|]. intros b Hb. apply HQ. intros Hb'. destruct (Hb Hb') as (r & y & ? & ? & ?).
    exists r, y. split_and!; [by right|done..].
Qed.

(** Among one more value than there are timers, one is new. *)
Lemma some_new (ids : list Z) (vs : list Z) : NoDup vs → (length ids < length vs)%nat → ∃ v, v ∈ vs ∧ v ∉ ids.
Proof.
  intros Hn Hl. destruct (decide (Exists (fun v => v ∉ ids) vs)) as [(v & ? & ?)%Exists_exists|Hno]; [by exists v|].
  exfalso. assert (Hs : vs ⊆+ ids).
  { apply NoDup_submseteq; [done|]. intros v Hv. destruct (decide (v ∈ ids)); [done|]. destruct Hno. apply Exists_exists. by exists v. }
  apply submseteq_length in Hs. lia.
Qed.

Lemma wp_new_id env h l fuel n (Q : Z * nat → Prop) :
  timers_linear h l →
  (∃ k, (k < fuel)%nat ∧ ∀ q x, h.(tl_nodes) !! q = Some x → x.(tm_id) ≠ env.(rand) (n + k)) →
  (∀ id m, Q (id, m)) → wp (timer_new_id fuel env h n) Q.
Proof.
  intros Hh. revert n. induction fuel as [|fuel IH]; intros n (k & Hk & Hnew) HQ; [lia|]. cbn [timer_new_id].
  apply wp_bind. eapply wp_has_id; [apply Hh|by eapply timers_turns|]. intros b Hb. destruct b; [|by apply HQ].
  destruct (Hb eq_refl) as (q & x & _ & Ex & E). destruct k as [|k].
  { exfalso. apply (Hnew q x Ex). by rewrite Nat.add_0_r. }
  apply IH; [|done]. exists k. split; [lia|]. intros r y Ey. replace (S n + k)%nat with (n + S k)%nat by lia. by apply (Hnew r y).
Qed.

Lemma rand_new env h l n : rand_varied env → timers_linear h l →
  ∃ k, (k < S (timer_turns h))%nat ∧ ∀ q x, h.(tl_nodes) !! q = Some x → x.(tm_id) ≠ env.(rand) (n + k).
Proof.
  intros Hr Hh. set (ids := (fun q => default 0 (tm_id <$> h.(tl_nodes) !! q)) <$> l).
  assert (Hlen := timers_turns h l Hh). assert (Hb := tl_bound _ _ Hh).
  assert (Hn : NoDup (env.(rand) <$> seq n (S (length l)))).
  { specialize (Hr n). replace 257%nat with (S (length l) + (256 - length l))%nat in Hr by lia.
    rewrite seq_app, fmap_app in Hr. by apply list.NoDup_app in Hr as (? & _). }
  destruct (some_new ids _ Hn) as (v & Hv & Hi).
  { unfold ids. rewrite !length_fmap, length_seq. lia. }
  apply list_elem_of_fmap in Hv as (m & -> & Hm). apply elem_of_seq in Hm. exists (m - n)%nat. split; [lia|].
  intros q x Ex E. apply Hi. apply list_elem_of_fmap. exists q. rewrite Ex. cbn. split; [|apply Hh; by eexists].
  rewrite E. f_equal. lia.
Qed.

(** ** The end of the list *)

Lemma skip_to_end nodes t l fuel test tprev :
  tchain nodes (Some t) (t :: l) → (length l < fuel)%nat → (∀ q x, nodes !! q = Some x → test x = true) →
  ∃ last front, t :: l = front ++ [last] ∧ timer_skip fuel nodes test tprev t = Done (last, None).
Proof.
  revert t fuel tprev. induction l as [|r l IH]; intros t [|fuel] tprev Hc Hl Ht; cbn in Hl; try lia;
    destruct Hc as (_ & x & Ex & Hc); cbn [timer_skip]; rewrite Ex; cbn [deref obind]; rewrite (Ht t x Ex).
  - cbn in Hc. rewrite Hc. exists t, []. done.
  - assert (Hc' := Hc). destruct Hc' as (E & _). rewrite E in *.
    destruct (IH r fuel t Hc ltac:(lia) Ht) as (last & front & El & Es). exists last, (t :: front). split; [|done].
    rewrite El. done.
Qed.

(** A new node behind the last one. *)
Lemma tchain_snoc nodes p front last q x y :
  NoDup (front ++ [last]) → q ∉ front ++ [last] → tchain nodes p (front ++ [last]) → nodes !! last = Some x →
  tchain (<[q := y <| tm_next := None |>]> (<[last := x <| tm_next := Some q |>]> nodes)) p ((front ++ [last]) ++ [q]).
Proof.
  intros Hn Hq Hc Ex. assert (Hql : q ≠ last) by (intros ->; apply Hq; set_solver).
  revert p Hn Hq Hc. induction front as [|r front IH]; intros p Hn Hq Hc; cbn in *.
  - destruct Hc as (-> & x' & Ex' & _). split; [done|]. eexists. rewrite lookup_insert_ne, lookup_insert_eq by done.
    split; [done|]. cbn. split; [done|]. eexists. rewrite lookup_insert_eq. split; [done|]. done.
  - destruct Hc as (-> & z & Ez & Hc). apply list.NoDup_cons in Hn as [Hr Hn]. split; [done|]. exists z.
    rewrite !lookup_insert_ne by set_solver. split; [done|]. apply IH; [done|set_solver|done].
Qed.

Section Add.
Variable env : ENV.
Hypothesis Hrand : rand_varied env.

(** Adding a timer of the daemon. *)
Lemma wp_add_timer h n x (Q : timer_list * Z * option Z * nat → Prop) :
  timers_ok h → x.(tm_type) = TIMER_TYPE_NOLOOP → x.(tm_priority) = TIMER_PRIORI_NORMAL → x.(tm_next) = None →
  (∀ h' r id m, timers_ok h' → Q (h', r, id, m)) → wp (add_timer env n h x) Q.
Proof.
  intros [l Hh] Ht Hp Hnx HQ. unfold add_timer. set (h0 := h <| tl_lock := 0 |>).
  assert (Hh0 : timers_linear h0 l) by (by destruct Hh).
  destruct (Z.leb_spec (TIMER_LIST_MAX - 1) (tl_cnt h0)) as [Hmax|Hmax].
  { cbn [wp]. apply HQ. exists l. by destruct Hh. }
  assert (Hlen : (length l < 255)%nat) by (rewrite (tl_count _ _ Hh0) in Hmax; unfold TIMER_LIST_MAX in Hmax; lia).
  apply wp_bind. eapply wp_new_id; [exact Hh0|by eapply rand_new|]. intros id m. cbv beta iota zeta.
  set (y := x <| tm_id := id |>). set (q := fresh (dom (tl_nodes h0))).
  assert (Hqn : h0.(tl_nodes) !! q = None) by (apply not_elem_of_dom, is_fresh).
  assert (Hq : q ∉ l). { intros Hq. destruct (tchain_elem _ _ _ _ (tl_links _ _ Hh0) Hq) as [z Ez]. congruence. }
  assert (Hk : ∀ p z, <[q := y]> h0.(tl_nodes) !! p = Some z → z.(tm_type) ≤ TIMER_TYPE_NOLOOP ∧ TIMER_PRIORI_NORMAL ≤ z.(tm_priority)).
  { intros p z Ez. destruct (decide (p = q)) as [->|Hne].
    - rewrite lookup_insert_eq in Ez. injection Ez as <-. unfold y. cbn. rewrite Ht, Hp. done.
    - rewrite lookup_insert_ne in Ez by done. by apply (tl_kinds _ _ Hh0 p). }
  destruct (first_timer h0) as [t|] eqn:Ef.
  2: { cbn [obind wp]. apply HQ. exists [q]. assert (El : l = []).
       { destruct l; [done|]. destruct (tl_links _ _ Hh0) as [E _]. congruence. }
       subst l. split; cbn; try done.
       - apply NoDup_singleton.
       - split; [done|]. exists y. rewrite lookup_insert_eq. split; [done|]. exact Hnx.
       - intros p Hp'. destruct (decide (p = q)) as [->|Hne]; [left|]. cbn in Hp'. rewrite lookup_insert_ne in Hp' by done.
         apply (tl_dom _ _ Hh0) in Hp'. by apply not_elem_of_nil in Hp'. }
  destruct l as [|t' l]; [by rewrite (tl_links _ _ Hh0) in Ef|].
  assert (Hc := tl_links _ _ Hh0). rewrite Ef in Hc. assert (t' = t) as -> by (destruct Hc; congruence).
  assert (Hturns := timers_turns h0 _ Hh0). cbn [length] in *.
  destruct (tchain_elem _ _ _ t Hc) as [x0 Ex0]; [left|].
  assert (E1 : timer_skip (timer_turns h0) h0.(tl_nodes) (fun z => tm_type y <? tm_type z) t t = Done (t, Some t)).
  { destruct (timer_turns h0) as [|k]; [lia|]. cbn [timer_skip]. rewrite Ex0. cbn [deref obind].
    rewrite (proj2 (Z.ltb_ge _ _)); [done|]. unfold y. cbn. rewrite Ht. by apply (tl_kinds _ _ Hh0 t). }
  rewrite E1. cbn [obind].
  destruct (skip_to_end h0.(tl_nodes) t l (timer_turns h0) (fun z => tm_priority y <=? tm_priority z) t) as (last & front & El & Es);
    [done|lia| |].
  { intros p z Ez. apply Z.leb_le. unfold y. cbn. rewrite Hp. by apply (tl_kinds _ _ Hh0 p). }
  rewrite Es. cbn [obind]. rewrite El in *.
  destruct (tchain_elem _ _ _ last Hc) as [z Ez]; [apply elem_of_app; right; left|].
  assert (Hql : q ≠ last) by (intros ->; congruence).
  unfold timer_link. cbn [tl_nodes set set_tl_nodes]. rewrite lookup_insert_ne, Ez by done. cbn [deref obind].
  rewrite lookup_insert_ne, lookup_insert_eq by done. cbn [deref obind wp]. apply HQ.
  exists ((front ++ [last]) ++ [q]). assert (Hlf := f_equal length El). rewrite length_app in Hlf. cbn [length] in Hlf.
  split; cbn [tl_nodes first_timer tl_cnt set set_tl_nodes set_tl_cnt set_tl_lock].
  - apply list.NoDup_app. split_and!; [apply Hh0| |apply NoDup_singleton]. intros p Hp' ->%list_elem_of_singleton. done.
  - assert (Hh1 := tl_nodup _ _ Hh0). change (first_timer (h0 <| tl_nodes := _ |>)) with (first_timer h0). rewrite Ef.
    apply (tchain_frame (<[q := y <| tm_next := None |>]> (<[last := z <| tm_next := Some q |>]> h0.(tl_nodes)))).
    + intros p _. destruct (decide (p = q)) as [->|Hne]; [by rewrite !lookup_insert_eq|]. rewrite !(lookup_insert_ne _ q) by done.
      destruct (decide (p = last)) as [->|Hnl]; [by rewrite !lookup_insert_eq|]. by rewrite !lookup_insert_ne by done.
    + by apply tchain_snoc.
  - intros p [w Hw]. rewrite elem_of_app. destruct (decide (p = q)) as [->|Hne]; [right; left|]. left. apply (tl_dom _ _ Hh0).
    rewrite lookup_insert_ne in Hw by done. destruct (decide (p = last)) as [->|Hnl]; [by exists z|].
    rewrite !lookup_insert_ne in Hw by done. by exists w.
  - intros p w Hw. destruct (decide (p = q)) as [->|Hne].
    + rewrite lookup_insert_eq in Hw. injection Hw as <-. cbn. rewrite Ht, Hp. done.
    + rewrite lookup_insert_ne in Hw by done. destruct (decide (p = last)) as [->|Hnl].
      * rewrite lookup_insert_eq in Hw. injection Hw as <-. exact (tl_kinds _ _ Hh0 last z Ez).
      * rewrite lookup_insert_ne in Hw by done. by apply (Hk p).
  - change (tl_cnt (h0 <| tl_nodes := _ |>)) with (tl_cnt h0). rewrite (tl_count _ _ Hh0).
    rewrite !length_app in *. cbn [length] in *. rewrite u32_small; lia.
  - rewrite !length_app. cbn [length]. lia.
Qed.

Lemma wp_start_timer s interval func data (Q : IGS * option Z → Prop) :
  timers_ok s.(igmp_timer_list) →
  (∀ h n id, timers_ok h → Q (s <| igmp_timer_list := h |> <| rand_count := n |>, id)) →
  wp (start_timer env interval func data s) Q.
Proof.
  intros Ht HQ. unfold start_timer, create_timer.
  change (TIMER_TYPE_MAX <? TIMER_TYPE_NOLOOP) with false. change (TIMER_PRIORI_HIGH <? TIMER_PRIORI_NORMAL) with false.
  cbv iota. apply wp_bind, wp_add_timer; [done..|]. intros h r id m Hh. cbn [wp]. by apply HQ.
Qed.
End Add.
