(* ===== verification/IgmpSafe.v ===== *)
(** * IGMP messages keep the daemon well formed

    Reports, leaves, queries and messages of an unknown type, on any port, in any
    order: the daemon returns from each, its lists keep their shape, and it reads
    behind the end of a block only when it sends a frame it has built.  PIM messages
    are judged by the wrong bytes: dropped, or a walk that does not end. *)

From Stdlib Require Import ZArith Lia.
From stdpp Require Import base gmap list option fin_maps.
From S2P Require Import Prelude DList IgmpL2mc IgmpL2mcProps IgmpSnp IgmpList IgmpGroup IgmpGroupProps IgmpInv IgmpTimer IgmpFrame IgmpRecv IgmpReport IgmpTimerProps IgmpFrameProps.

Implicit Types (s : IGS) (v : MC_group_vlan) (g : MC_group) (p : positive).

(** The daemon without reporter ports. *)
Record igmp_ok s : Prop := {
  do_igs : igs_ok s;
  do_timers : timers_ok s.(igmp_timer_list);
  do_reporters : s.(p_reporterlist) = [];
  do_ports : ports_fine s.(p_vlanlist) }.

(** ** Steps that keep it *)

Lemma daemon_rest s s' : igmp_ok s → igs_ok s' → rest s' = rest s → igmp_ok s'.
Proof.
  intros [_ H2 H3 H4] Hok E. assert (Et := f_equal igmp_timer_list E). change (igmp_timer_list s' = igmp_timer_list s) in Et.
  split; [done|by rewrite Et|by rewrite (rest_reporterlist s s')|by rewrite (rest_vlanlist s s')].
Qed.

(** What the messages change besides the groups and the switch. *)
Lemma daemon_outside s s' :
  igmp_ok s → same_core s s' → s'.(p_l2mc) = s.(p_l2mc) → s'.(igmp_groupcount) = s.(igmp_groupcount) →
  s'.(p_vlanlist) = s.(p_vlanlist) → s'.(igmp_snoop_enable) = s.(igmp_snoop_enable) →
  s'.(p_reporterlist) = s.(p_reporterlist) → timers_ok s'.(igmp_timer_list) → igmp_ok s'.
Proof.
  intros [H1 H2 H3 H4] Hc El Ec Ev Ee Er Ht. split; [|done|congruence|by rewrite Ev].
  eapply igs_ok_same; [done| |done..]. rewrite El. apply H1.
Qed.

Lemma daemon_sent s s' : igmp_ok s → only_sent s s' → igmp_ok s'.
Proof. intros Hd (tr & -> & _). eapply daemon_outside; [exact Hd|done..|apply Hd]. Qed.

Lemma daemon_timer s h n : igmp_ok s → timers_ok h → igmp_ok (s <| igmp_timer_list := h |> <| rand_count := n |>).
Proof. intros Hd Hh. by eapply daemon_outside. Qed.

Lemma daemon_group s p g g' :
  igmp_ok s → s.(groups) !! p = Some g → same_place g g' → group_fine g' → g'.(mgroup_id) = g.(mgroup_id) →
  igmp_ok (put_group p g' s).
Proof.
  intros Hd Eg Hp Hf Hi. assert (C := changed_put s p g g' (do_igs s Hd) Eg Hp Hf Hi).
  eapply daemon_rest; [exact Hd|apply C|apply C].
Qed.

Lemma daemon_router s i v l :
  igmp_ok s → s.(mcgroup_vlan_queue) !! i = Some v → igmp_ok (put_vlan i (v <| routerlist := rlist l |>) s).
Proof.
  intros Hd Ev. set (v' := v <| routerlist := rlist l |>). eapply daemon_rest; [exact Hd| |done].
  destruct (do_igs s Hd) as [H1 H2 H3 H4 H5 H6 H7 H8 H9]. split; try done.
  - apply (core_update_vlan s i v v'); [done|done|done|]. by exists l.
  - intros j w Ej. cbn in Ej. destruct (decide (j = i)) as [->|Hne].
    + rewrite lookup_insert_eq in Ej. injection Ej as <-. by apply (H6 i v).
    + rewrite lookup_insert_ne in Ej by done. by apply (H6 j).
Qed.

Lemma router_learn_list ifindex saddr timeout l : ∃ l', router_learn ifindex saddr timeout (rlist l) = Done (rlist l').
Proof.
  unfold router_learn. induction l as [|e l [l' IH]]; cbn.
  - by eexists [_].
  - destruct (_ =? _); [by eexists (_ :: _)|]. rewrite IH. cbn. by eexists (_ :: _).
Qed.

(** The search leaves the state alone. *)
Lemma daemon_search env s vid ulGroup (Q : IGS * Z * option positive * option Z → Prop) :
  igmp_ok s → vlan_used s vid →
  (∀ og ov, searched s vid ulGroup og ov → Q (s, IGMPSNP_RETURN_CODE_OK, og, ov)) →
  wp (igmp_snp_searchvlangroup env vid ulGroup s) Q.
Proof. intros Hd. apply wp_searchvlangroup, Hd. Qed.

Section Handlers.
Variable env : ENV.
Hypothesis Hnpd : env.(npd_ok) = true.
Hypothesis Hrand : rand_varied env.

Definition keeps (o : outcome (IGS * Z)) : Prop := wp o (fun '(s, _) => igmp_ok s).

Lemma daemon_upd_member s p g i f (Q : IGS → Prop) :
  igmp_ok s → s.(groups) !! p = Some g → (∀ q, (f q).(ps_ifindex) = q.(ps_ifindex)) →
  (∀ s', igmp_ok s' → s' = put_group p (g <| portstatelist := alter f i g.(portstatelist) |>) s → Q s') →
  wp (upd_member p i f s) Q.
Proof.
  intros Hd Eg Hf HQ. unfold upd_member, upd_group, get_group. rewrite Eg. cbn [deref obind wp]. apply HQ; [|done].
  destruct (io_fine s (do_igs s Hd) p g Eg) as [H1 H2 H3]. apply (daemon_group s p g); [done|done|done| |done].
  split; [done|done|]. cbn. by rewrite alter_ifindex.
Qed.

Lemma report_keeps s usIfIndex ulGroup vid ulType info :
  igmp_ok s → vlan_used s vid → 0 ≤ vid ≤ 4094 → keeps (igmp_recv_report env usIfIndex ulGroup vid ulType info s).
Proof.
  intros Hd Hu Hv. destruct (is_ok (igmp_snp_addr_check ulGroup)) eqn:Ea.
  - eapply wp_mono; [apply wp_recv_report; try done; apply Hd|]. intros [s' r] [(_ & _ & ->)|(_ & Hok & Hr & _)]; [done|].
    by apply (daemon_rest s).
  - unfold keeps, igmp_recv_report. rewrite Ea. exact Hd.
Qed.

Lemma leave_keeps s usIfIndex ulGroup vid :
  igmp_ok s → vlan_used s vid → keeps (igmp_recv_leave env usIfIndex ulGroup vid s).
Proof.
  intros Hd Hu. unfold keeps, igmp_recv_leave. destruct (negb _); [exact Hd|].
  apply wp_bind, daemon_search; [done..|]. intros og ov Hse. cbv beta iota.
  change (negb (is_ok IGMPSNP_RETURN_CODE_OK)) with false. cbv iota. destruct og as [p|]; [|exact Hd].
  destruct ov as [idx|]; [|by destruct Hse]. destruct Hse as (w & Ew & _ & g & Eg & _).
  unfold Igmp_Snoop_IF_Recv_Is_Report_Discard. rewrite (do_reporters s Hd).
  cbn [igmp_snp_searchreporterlist List.find fmap option_fmap option_map obind].
  change (is_ok IGMPSNP_RETURN_CODE_OK) with true. cbv iota. cbn [obind].
  unfold get_group. rewrite Eg. cbn [deref obind]. set (ifindex := trunk_or_port _ _ _).
  destruct (igmp_snp_searchportstatelist s (portstatelist g) ifindex IGMP_PORT_QUERY) as [[l o] r] eqn:Es.
  destruct o as [i|]; [|exact Hd]. apply wp_bind. eapply daemon_upd_member; [exact Hd|exact Eg|done|].
  intros s1 Hd1 ->. unfold get_vlan. change (mcgroup_vlan_queue (put_group _ _ s)) with (mcgroup_vlan_queue s). rewrite Ew.
  cbn [deref obind]. set (s1 := put_group p _ s) in *.
  destruct (send_igmp_shape env (mkPkt IGMP_MSG_GS_QUERY ifindex vid 0 (v_saddr w) ulGroup 0) s1) as (tr & ret & Esend & En); [done|].
  rewrite Esend. cbn [obind]. assert (Hd2 : igmp_ok (s1 <| trace := tr |>)) by (eapply daemon_sent; [exact Hd1|exists tr; by split]).
  set (s2 := s1 <| trace := tr |>) in *. destruct (negb _); [exact Hd2|].
  destruct (io_l2 s2 (do_igs s2 Hd2)) as [t Ht]. apply wp_bind. eapply wp_mono; [apply (wp_getvidx s2.(p_l2mc) t vid ulGroup Ht)|].
  intros [ret' vidx] _. destruct (negb _); [exact Hd2|]. apply wp_bind, wp_start_timer; [done|apply Hd2|].
  intros h n id Hh. cbn [wp]. by apply daemon_timer.
Qed.

Lemma query_learn_keeps s vid ifindex saddr idx w (Q : IGS → Prop) :
  igmp_ok s → s.(mcgroup_vlan_queue) !! idx = Some w →
  (∀ s', igmp_ok s' → s'.(groups) = s.(groups) → Q s') → wp (query_learn vid ifindex saddr idx s) Q.
Proof.
  intros Hd Ew HQ. unfold query_learn. destruct (igmp_snp_searchrouterportlist _ _ _ _ _) as [[l o] r].
  assert (Hr : ∀ l, igmp_ok (s <| p_routerlist := l |>)) by (intros l'; eapply daemon_outside; [exact Hd|done..|apply Hd]).
  destruct o as [i|]; [|by apply HQ]. unfold get_vlan.
  change (mcgroup_vlan_queue (_ <| p_routerlist := _ |>)) with (mcgroup_vlan_queue s).
  rewrite Ew. cbn [deref obind]. destruct (co_routers s (io_core s (do_igs s Hd)) idx w Ew) as [rl ->].
  destruct (router_learn_list ifindex saddr (igmp_router_timeout s) rl) as [rl' E].
  change (igmp_router_timeout (_ <| p_routerlist := _ |>)) with (igmp_router_timeout s). rewrite E. cbn [obind wp].
  apply HQ; [|done]. apply daemon_router; [apply Hr|exact Ew].
Qed.

Lemma resp_interval_pos code : is_byte code → i32 (resp_interval code) ≠ 0.
Proof.
  intros Hc. unfold is_byte in Hc. unfold resp_interval, IGMP_V2_TIME_SCALE, IGMP_V2_QUERY_RESP_INTERVAL.
  destruct (Z.ltb_spec 0 code); rewrite i32_small; lia.
Qed.

Lemma query_group_keeps s vid group ifindex code p g :
  igmp_ok s → s.(groups) !! p = Some g → is_byte code → keeps (query_group env vid group ifindex code p s).
Proof.
  intros Hd Eg Hc. unfold keeps, query_group, get_group. rewrite Eg. cbn [deref obind].
  destruct (portstatelist g); [exact Hd|]. unfold igmp_rand_mod.
  rewrite (proj2 (Z.eqb_neq _ _) (resp_interval_pos code Hc)). cbn [obind]. set (t := u32 _).
  set (s1 := s <| rand_count := S (rand_count s) |>).
  assert (Hd1 : igmp_ok s1) by (eapply daemon_outside; [exact Hd|done..|apply Hd]).
  assert (Hf := io_fine s (do_igs s Hd) p g Eg). unfold upd_group, get_group.
  change (groups s1) with (groups s). rewrite Eg. cbn [deref obind].
  set (g1 := g <| resposetime := t |>). assert (Hd2 : igmp_ok (put_group p g1 s1)).
  { apply (daemon_group s1 p g); [done|done|done| |done]. by destruct Hf. }
  apply wp_bind, wp_start_timer; [done|apply Hd2|]. intros h n id Hh. cbv beta iota.
  assert (Hd3 := daemon_timer _ h n Hd2 Hh). destruct id as [id|]; [|exact Hd3].
  set (s3 := _ <| rand_count := n |>) in *.
  assert (E3 : s3.(groups) !! p = Some g1) by (change (<[p := g1]> s.(groups) !! p = Some g1); by rewrite lookup_insert_eq).
  rewrite E3. cbn [deref obind wp]. apply (daemon_group s3 p g1); [done|done|done| |done]. by destruct Hf.
Qed.

Lemma flood_keeps s info vid ifindex : igmp_ok s →
  keeps (let* '(s, _) := igmp_snp_flood env info vid ifindex s in Done (s, IGMPSNP_RETURN_CODE_OK)).
Proof.
  intros Hd. apply wp_bind. eapply wp_mono; [apply wp_flood, Hd|]. intros [s' r] Hs. cbn [wp]. by apply (daemon_sent s).
Qed.

Lemma query_keeps s ifindex code group vid info :
  igmp_ok s → vlan_used s vid → is_byte code → keeps (igmp_recv_query env ifindex code group vid info s).
Proof.
  intros Hd Hu Hc. unfold keeps, igmp_recv_query. destruct (_ && _); [exact Hd|].
  assert (Hd1 : igmp_ok (if queryRxFlag s =? IGMP_SNOOP_NO then s <| queryRxFlag := IGMP_SNOOP_YES |> else s) ∧
                vlan_used (if queryRxFlag s =? IGMP_SNOOP_NO then s <| queryRxFlag := IGMP_SNOOP_YES |> else s) vid).
  { destruct (_ =? _); [|done]. split; [|done]. eapply daemon_outside; [exact Hd|done..|apply Hd]. }
  clear Hd Hu. revert Hd1. generalize (if queryRxFlag s =? IGMP_SNOOP_NO then s <| queryRxFlag := IGMP_SNOOP_YES |> else s).
  clear s. intros s [Hd Hu]. apply wp_bind, daemon_search; [done..|]. intros og ov Hse. cbv beta iota zeta.
  change (negb (is_ok IGMPSNP_RETURN_CODE_OK)) with false. cbv iota.
  destruct ov as [idx|]; [|by apply flood_keeps]. destruct Hse as (w & Ew & Evid & Hg).
  unfold get_vlan. rewrite Ew. cbn [deref obind]. rewrite Evid, Z.eqb_refl. cbn [negb andb].
  destruct og as [p|]; cbn [from_option negb andb].
  - destruct Hg as (g & Eg & [= _ Ea]). apply wp_bind. eapply query_learn_keeps; [exact Hd|exact Ew|]. intros s1 Hd1 E1.
    destruct (Z.eqb_spec group 0) as [->|Hn]; cbn [negb].
    + destruct (gf_addr g (io_fine s (do_igs s Hd) p g Eg) Ea).
    + eapply query_group_keeps; [done|by rewrite E1|done].
  - destruct (group =? 0); [by apply flood_keeps|].
    apply wp_bind. eapply query_learn_keeps; [exact Hd|exact Ew|]. intros s1 Hd1 E1. exact Hd1.
Qed.

(** ** Any IGMP message *)

Record skb_fine (skb : igmp_skb) : Prop := {
  sf_length : length skb.(skb_buf) = IGMP_SNP_PKT_BUFSIZE;
  sf_bytes : Forall is_byte skb.(skb_buf);
  sf_vlan : 0 ≤ skb.(skb_vlan_id) < 2 ^ 32 }.

Lemma known_vlan s skb : igmp_ok s → skb_fine skb → port_known s skb →
  vlan_used s skb.(skb_vlan_id) ∧ 0 ≤ skb.(skb_vlan_id) ≤ 4094.
Proof.
  intros Hd Hf [Hu _]. assert (H : vlan_used s (skb_vlan_id skb)).
  { unfold vlan_used. unfold igmp_vlanisused in Hu. destruct (p_vlanlist s) as [|v l]; [done|]. cbn [snd default from_option id] in Hu.
    by destruct (existsb _ _). }
  split; [done|]. apply existsb_exists in H as (v & Hv%list_elem_of_In & E). apply Z.eqb_eq in E.
  assert (Hr := vf_range _ (io_vlans s (do_igs s Hd)) v Hv). rewrite E, u32_small in Hr by apply Hf. exact Hr.
Qed.

Lemma unknown_keeps s info : igmp_ok s → keeps (igmp_recv_unknown env info s).
Proof. apply flood_keeps. Qed.

Lemma deliver_keeps s type code group saddr skb :
  igmp_ok s → skb_fine skb → port_known s skb → is_byte code → keeps (deliver env type code group saddr skb s).
Proof.
  intros Hd Hf Hk Hc. destruct (known_vlan s skb Hd Hf Hk) as [Hu Hv]. unfold keeps, deliver. apply wp_bind.
  set (info := mkInfo _ _ _ _).
  assert (H : keeps (if type =? IGMP_MEMSHIP_QUERY then igmp_recv_query env (skb_ifindex skb) code group (skb_vlan_id skb) info s
     else if (type =? IGMP_V3_MEMSHIP_REPORT) || (type =? IGMP_V1_MEMSHIP_REPORT) || (type =? IGMP_V2_MEMSHIP_REPORT)
     then igmp_recv_report env (skb_ifindex skb) group (skb_vlan_id skb) type info s
     else if type =? IGMP_V2_LEAVE_GROUP then igmp_recv_leave env (skb_ifindex skb) group (skb_vlan_id skb) s
     else igmp_recv_unknown env info s)).
  { destruct (_ =? _); [by apply query_keeps|]. destruct (_ || _ || _); [by apply report_keeps|].
    destruct (_ =? _); [by apply leave_keeps|by apply unknown_keeps]. }
  eapply wp_mono; [exact H|]. by intros [s' r].
Qed.

Lemma message_keeps s skb :
  igmp_ok s → skb_fine skb → skb_load_be skb.(skb_buf) 23 1 ≠ Done IPPROTO_PIM → keeps (igmp_skb_proc env skb s).
Proof.
  intros Hd Hf Hp. destruct (skb_proc_outcome env skb s (sf_length _ Hf) (sf_bytes _ Hf)) as [(e & ->)|[(Hpim & _)|(Hk & H)]]; [exact Hd|done|].
  destruct H as (type & code & group & saddr & _ & Hc & _ & _ & ->). by apply deliver_keeps.
Qed.

(** Messages one after the other. *)
Definition igmp_messages (skbs : list igmp_skb) (s : IGS) : outcome IGS :=
  foldM (fun skb s => let* '(s, _) := igmp_skb_proc env skb s in Done s) skbs s.

(** Of its own frames the daemon sends more bytes than there are; it reads nothing else
    that is not there. *)
Lemma messages_grow skbs s :
  grows (short_block [66; 70]) s (igmp_messages skbs s).
Proof.
  apply grows_foldM; [|apply grew_refl]. intros skb s1 H1. grow_bind; [|intros; grow].
  apply grow_skb_proc; try done; cbn; (split; [set_solver|done]).
Qed.

Lemma messages_keep skbs s :
  igmp_ok s → Forall (fun skb => skb_fine skb ∧ skb_load_be skb.(skb_buf) 23 1 ≠ Done IPPROTO_PIM) skbs →
  wp (igmp_messages skbs s) (fun s' => igmp_ok s' ∧ grew (short_block [66; 70]) s s').
Proof.
  intros Hd H. apply wp_grows; [|apply messages_grow]. revert s Hd. induction H as [|skb skbs [Hf Hp] _ IH]; intros s Hd; [exact Hd|].
  unfold igmp_messages. cbn [foldM]. apply wp_bind, wp_bind. eapply wp_mono; [by apply message_keeps|]. intros [s' r] Hd'. by apply IH.
Qed.

(** ** A general query *)

(** No group and no router port comes of it. *)
Lemma general_query s ifindex code vid info :
  igmp_ok s → vlan_used s vid →
  wp (igmp_recv_query env ifindex code 0 vid info s) (fun '(s', r) =>
    r = IGMPSNP_RETURN_CODE_OK ∧
    only_sent (s <| queryRxFlag := if queryRxFlag s =? IGMP_SNOOP_NO then IGMP_SNOOP_YES else queryRxFlag s |>) s').
Proof.
  intros Hd Hu. unfold igmp_recv_query. cbn [Z.eqb negb andb].
  set (s1 := s <| queryRxFlag := if queryRxFlag s =? IGMP_SNOOP_NO then IGMP_SNOOP_YES else queryRxFlag s |>).
  assert (E : (if queryRxFlag s =? IGMP_SNOOP_NO then s <| queryRxFlag := IGMP_SNOOP_YES |> else s) = s1).
  { unfold s1. destruct (_ =? _); [done|]. by destruct s. }
  rewrite E. assert (Hd1 : igmp_ok s1) by (eapply daemon_outside; [exact Hd|done..|apply Hd]).
  assert (Hfl : wp (let* '(s, _) := igmp_snp_flood env info vid (trunk_or_port (p_vlanlist s1) vid ifindex) s1 in
                    Done (s, IGMPSNP_RETURN_CODE_OK)) (fun '(s', r) => r = IGMPSNP_RETURN_CODE_OK ∧ only_sent s1 s')).
  { apply wp_bind. eapply wp_mono; [apply wp_flood, Hd1|]. intros [s' r] Hs. by split. }
  apply wp_bind, daemon_search; [done..|]. intros og ov Hse. cbv beta iota zeta.
  change (negb (is_ok IGMPSNP_RETURN_CODE_OK)) with false. cbv iota.
  destruct ov as [idx|]; [|exact Hfl]. destruct Hse as (w & Ew & Evid & Hg).
  unfold get_vlan. rewrite Ew. cbn [deref obind]. rewrite Evid, Z.eqb_refl. cbn [negb andb].
  destruct og as [p|]; cbn [from_option negb andb]; [|exact Hfl].
  destruct Hg as (g & Eg & [= _ Ea]). destruct (gf_addr g (io_fine s1 (do_igs s1 Hd1) p g Eg) Ea).
Qed.

(** ** PIM *)

(** The daemon reads the IP header of a PIM message and what follows it eight bytes
    too far.  The two checksums it computes are right there. *)
Definition passes_shifted (skb : igmp_skb) : Prop :=
  ∃ b hdr pim, skb_load_be skb.(skb_buf) 22 1 = Done b ∧
    skb_load skb.(skb_buf) 22 (4 * Z.to_nat (Z.land b 0xF)) = Done hdr ∧ inet_cksum hdr = 0 ∧
    skb_load skb.(skb_buf) 42 4 = Done pim ∧ inet_cksum pim = 0.

(** The bytes read there are those of a hello; the port and the VLAN are read from the
    Ethernet addresses.  A hello as a router sends it is not such a message: these
    bytes are chosen. *)
Record shifted_pim_hello (skb : igmp_skb) (ifindex vid saddr : Z) : Prop := {
  ph_saddr : skb_load_be skb.(skb_buf) 34 4 = Done saddr;
  ph_sums : passes_shifted skb;
  ph_ifindex : skb_load_be skb.(skb_buf) 0 4 = Done ifindex;
  ph_vid : skb_load_be skb.(skb_buf) 4 4 = Done vid;
  ph_type : skb_load_be skb.(skb_buf) 42 1 = Done 0x20 }.

(** A PIM message goes to [pim_recv_msg]. *)
Lemma pim_proc s skb : port_known s skb → skb_load_be skb.(skb_buf) 23 1 = Done IPPROTO_PIM →
  igmp_skb_proc env skb s = let* '(s, _) := pim_recv_msg env skb s in Done (s, IGMPSNP_RETURN_CODE_OK).
Proof.
  intros [Hu Hi] H. unfold igmp_skb_proc. cbv zeta. rewrite Hu, Hi. cbn [negb igmp_vlanportrelation snd].
  change (0 =? 1) with false. change (1 =? 1) with true. cbn [negb]. change (14 + 9)%nat with 23%nat. rewrite H. cbn [obind].
  by rewrite Z.eqb_refl.
Qed.

(** An ordinary one is dropped. *)
Lemma pim_dropped s skb :
  skb_fine skb → port_known s skb → skb_load_be skb.(skb_buf) 23 1 = Done IPPROTO_PIM → ¬ passes_shifted skb →
  igmp_skb_proc env skb s = Done (s, IGMPSNP_RETURN_CODE_OK).
Proof.
  intros Hf Hk Hp Hn. rewrite (pim_proc s skb Hk Hp). assert (Hl := sf_length _ Hf). assert (Hb := sf_bytes _ Hf).
  unfold IGMP_SNP_PKT_BUFSIZE in Hl. unfold pim_recv_msg. cbv zeta.
  destruct (skb_load_be_ok (skb_buf skb) (22 + 12) 4) as (saddr & -> & _); [lia|done|]. cbn [obind].
  destruct (skb_load_be_ok (skb_buf skb) 22 1) as (b & Eb & Hbr); [lia|done|]. rewrite Eb. cbn [obind].
  assert (Hnib := nibble b (proj1 Hbr)).
  destruct (skb_load_ok (skb_buf skb) 22 (4 * Z.to_nat (Z.land b 0xF))) as (hdr & Eh & _); [lia|done|]. rewrite Eh. cbn [obind].
  destruct (Z.eqb_spec (inet_cksum hdr) 0) as [Ch|_]; [|done]. cbn [negb]. change (22 + 20)%nat with 42%nat.
  destruct (skb_load_ok (skb_buf skb) 42 4) as (pim & Ep & _); [lia|done|]. rewrite Ep. cbn [obind].
  destruct (Z.eqb_spec (inet_cksum pim) 0) as [Cp|_]; [|done]. destruct Hn. by exists b, hdr, pim.
Qed.

Lemma groupcheck_hangs s vid : core_ok s → s.(mcgroup_vlan_queue) ≠ ∅ → vlan_gone s vid → ¬ vlan_used s vid →
  p_vlanlist s ≠ [] → igmp_snp_groupcheck env vid s = OutOfFuel.
Proof.
  intros Hok Hne Hg Hu Hl. unfold igmp_snp_groupcheck, igmp_vlanisused.
  unfold vlan_used in Hu. destruct (p_vlanlist s) as [|v l] eqn:E; [done|]. cbn [snd default from_option id].
  destruct (existsb _ _); [done|]. cbn [Z.eqb]. unfold igmp_snp_del_mcgroupvlan.
  by rewrite del_mcgroupvlan_absent.
Qed.

Lemma pim_hangs s skb ifindex vid saddr :
  core_ok s → s.(mcgroup_vlan_queue) ≠ ∅ → port_known s skb → skb_load_be skb.(skb_buf) 23 1 = Done IPPROTO_PIM →
  shifted_pim_hello skb ifindex vid saddr → vlan_gone s (i32 vid) → ¬ vlan_used s (i32 vid) →
  igmp_skb_proc env skb s = OutOfFuel.
Proof.
  intros Hok Hne Hk Hp [H2 (b & hdr & pim & H3 & H4 & H5 & H6 & H7) H8 H9 H10] Hg Hnu.
  assert (Hl : p_vlanlist s ≠ []) by (destruct Hk as [Hu _]; intros E; rewrite E in Hu; done).
  rewrite (pim_proc s skb Hk Hp). unfold pim_recv_msg. cbv zeta. change (22 + 12)%nat with 34%nat. rewrite H2. cbn [obind].
  rewrite H3. cbn [obind]. rewrite H4. cbn [obind]. rewrite H5. change (22 + 20)%nat with 42%nat. cbn [Z.eqb negb].
  rewrite H6. cbn [obind]. rewrite H7. cbn [Z.eqb negb]. rewrite H8. cbn [obind]. rewrite H9. cbn [obind]. rewrite H10. cbn [obind].
  change (Z.land 0x20 0xF =? 0) with true. change ((Z.shiftr 0x20 4 =? 1) || (Z.shiftr 0x20 4 =? 2)) with true. cbv iota.
  unfold igmp_snp_pim_msghandle, igmp_snp_searchvlangroup. by rewrite groupcheck_hangs.
Qed.
End Handlers.
