(* ===== verification/IgmpSwitch.v ===== *)
(** * The table of the switch under any sequence of requests

    IGMP and MLD share the multicast table.  [requests] runs a sequence of
    [igmp_snp_mod_addr] and [mld_snp_mod_addr]; [list_run] is what it does to the list
    of entries. *)

From Stdlib Require Import ZArith Lia.
From stdpp Require Import base gmap list option.
From S2P Require Import Prelude DList IgmpL2mc IgmpL2mcProps IgmpSnp IgmpGroup IgmpGroupProps IgmpInv.

Implicit Types (s : IGS) (l : list l2mc_list).

Inductive SWITCH_REQUEST : Type :=
| IGMP_REQUEST (arg : Z) (pkt : PKT Z)
| MLD_REQUEST (arg : Z) (pkt : PKT (list Z)).

Section Switch.
Variable env : ENV.

Definition request (r : SWITCH_REQUEST) s : outcome IGS :=
  match r with
  | IGMP_REQUEST arg pkt => let* '(s, _) := igmp_snp_mod_addr env pkt arg s in Done s
  | MLD_REQUEST arg pkt => let* '(s, _) := mld_snp_mod_addr env pkt arg s in Done s
  end.
Definition requests (rs : list SWITCH_REQUEST) s : outcome IGS := foldM request rs s.

(** What a request does to the entries. *)
Definition list_request {G} `{GROUP G} (arg : Z) (pkt : PKT G) l : list l2mc_list :=
  if arg =? IGMP_ADDR_ADD then fst (spec_insert env.(junk_entry) pkt l)
  else if arg =? IGMP_ADDR_DEL then remove_first (l2_same_entry pkt) l
  else if arg =? IGMP_ADDR_RMV then remove_but_last (l2_same_group pkt) l
  else if (arg =? IGMP_SYS_SET) && (pkt.(pkt_type) =? IGMP_SYS_SET_STOP) then []
  else l.
Definition list_step l (r : SWITCH_REQUEST) : list l2mc_list :=
  match r with
  | IGMP_REQUEST arg pkt => list_request arg pkt l
  | MLD_REQUEST arg pkt => list_request arg pkt l
  end.
Definition list_run (rs : list SWITCH_REQUEST) l : list l2mc_list := foldl list_step l rs.

(** Only the table and the messages change. *)
Definition only_table s s' : Prop := ∃ t tr, s' = s <| p_l2mc := t |> <| trace := tr |>.

Lemma only_table_trans s1 s2 s3 : only_table s1 s2 → only_table s2 s3 → only_table s1 s3.
Proof. intros (t & tr & ->) (t' & tr' & ->). by exists t', tr'. Qed.

(** One turn: an operation of the table and a notification. *)
Definition served (l' : list l2mc_list) s (o : outcome (IGS * Z)) : Prop :=
  wp o (fun '(s', _) => l2mc_repr s'.(p_l2mc) l' ∧ only_table s s').

Lemma served_change f (notify : IGS → IGS * Z) s l' :
  wp (f s.(p_l2mc)) (fun '(t, _) => l2mc_repr t l') →
  (∀ s1, ∃ tr r, notify s1 = (s1 <| trace := tr |>, r)) →
  served l' s (let* s1 := in_l2mc f s in Done (notify s1)).
Proof.
  intros Hf Hn. destruct (wp_elim _ _ Hf) as ([t r] & E & Ht). unfold served, in_l2mc. rewrite E. cbn [obind].
  destruct (Hn (s <| p_l2mc := t |>)) as (tr & r' & ->). cbn [wp]. split; [exact Ht|by exists t, tr].
Qed.

Lemma served_notify (notify : IGS → IGS * Z) s l :
  l2mc_repr s.(p_l2mc) l → (∀ s1, ∃ tr r, notify s1 = (s1 <| trace := tr |>, r)) → served l s (Done (notify s)).
Proof.
  intros Hl Hn. destruct (Hn s) as (tr & r & ->). cbn. split; [exact Hl|]. exists s.(p_l2mc), tr. by destruct s.
Qed.

Lemma served_nothing s l z : l2mc_repr s.(p_l2mc) l → served l s (Done (s, z)).
Proof. intros Hl. cbn. split; [exact Hl|]. exists s.(p_l2mc), s.(trace). by destruct s. Qed.

Lemma mld_notify_shape pkt arg s : ∃ tr r, mld_notify_msg env pkt arg s = (s <| trace := tr |>, r).
Proof.
  assert (H : s = s <| trace := s.(trace) |>) by (by destruct s).
  unfold mld_notify_msg, igs_emit. destruct (_ || _); [destruct (npd_ok env)|]; eauto.
  all: exists s.(trace), IGMPSNP_RETURN_CODE_ERROR; by rewrite H at 1.
Qed.

Section Family.
Context {G : Type} `{GroupLaw G}.

(** [igmp_snp_mod_addr] and [mld_snp_mod_addr] with their notification. *)
Lemma served_requests (notify : IGS → IGS * Z) (arg : Z) (pkt : PKT G) s l :
  l2mc_repr s.(p_l2mc) l → (∀ s1, ∃ tr r, notify s1 = (s1 <| trace := tr |>, r)) →
  served (list_request arg pkt l) s
    (if arg =? IGMP_ADDR_ADD then let* s := in_l2mc (fun t => L2mc_Entry_Insert env.(junk_entry) t pkt) s in Done (notify s)
     else if arg =? IGMP_ADDR_DEL then let* s := in_l2mc (fun t => L2mc_Entry_Node_Delete t pkt) s in Done (notify s)
     else if arg =? IGMP_ADDR_RMV then let* s := in_l2mc (fun t => L2mc_Entry_Group_Delete t pkt) s in Done (notify s)
     else if (arg =? IGMP_SYS_SET) && (pkt.(pkt_type) =? IGMP_SYS_SET_INIT) then Done (notify s)
     else if (arg =? IGMP_SYS_SET) && (pkt.(pkt_type) =? IGMP_SYS_SET_STOP) then
       let* s := in_l2mc L2mc_Entry_Group_Delete_All s in Done (notify s)
     else Done (s, IGMPSNP_RETURN_CODE_ERROR)).
Proof.
  intros Hl Hn. unfold list_request.
  destruct (arg =? IGMP_ADDR_ADD).
  { apply served_change; [|done]. eapply wp_mono; [apply (wp_insert env.(junk_entry) s.(p_l2mc) l pkt Hl)|]. by intros [t r] [? _]. }
  destruct (arg =? IGMP_ADDR_DEL).
  { apply served_change; [|done]. eapply wp_mono; [apply (wp_node_delete s.(p_l2mc) l pkt Hl)|]. by intros [t r] [? _]. }
  destruct (arg =? IGMP_ADDR_RMV).
  { apply served_change; [|done]. eapply wp_mono; [apply (wp_group_delete s.(p_l2mc) l pkt Hl)|]. by intros [t r] [? _]. }
  destruct (arg =? IGMP_SYS_SET); cbn [andb]; [|by apply served_nothing].
  destruct (Z.eqb_spec (pkt_type pkt) IGMP_SYS_SET_INIT) as [->|_]; [by apply served_notify|].
  destruct (pkt_type pkt =? IGMP_SYS_SET_STOP); [|by apply served_nothing].
  apply served_change; [|done]. eapply wp_mono; [apply (wp_delete_all s.(p_l2mc) l Hl)|]. by intros [t r] [? _].
Qed.
End Family.

Lemma wp_request r s l : l2mc_repr s.(p_l2mc) l →
  wp (request r s) (fun s' => l2mc_repr s'.(p_l2mc) (list_step l r) ∧ only_table s s').
Proof.
  intros Hl. destruct r as [arg pkt|arg pkt]; unfold request, list_step; apply wp_bind.
  - assert (H := served_requests (igmp_notify_msg env pkt arg) arg pkt s l Hl (notify_shape env pkt arg)).
    unfold served in H. unfold igmp_snp_mod_addr. eapply wp_mono; [exact H|]. by intros [s' r].
  - assert (H := served_requests (mld_notify_msg env pkt arg) arg pkt s l Hl (mld_notify_shape pkt arg)).
    unfold served in H. unfold mld_snp_mod_addr, mld_L2mc_Entry_Insert, mld_L2mc_Entry_Node_Delete, mld_L2mc_Entry_Group_Delete, mld_L2mc_Entry_Group_Delete_All.
    eapply wp_mono; [exact H|]. by intros [s' r].
Qed.

Lemma wp_requests rs s l : l2mc_repr s.(p_l2mc) l →
  wp (requests rs s) (fun s' => l2mc_repr s'.(p_l2mc) (list_run rs l) ∧ only_table s s').
Proof.
  unfold requests. revert s l. induction rs as [|r rs IH]; intros s l Hl.
  - cbn. split; [exact Hl|]. exists s.(p_l2mc), s.(trace). by destruct s.
  - cbn [foldM]. apply wp_bind. eapply wp_mono; [by apply wp_request|]. intros s1 [Hl1 Ho1].
    eapply wp_mono; [apply (IH s1 _ Hl1)|]. intros s2 [Hl2 Ho2]. split; [exact Hl2|by eapply only_table_trans].
Qed.
End Switch.
