(* ===== verification/MldSafe.v ===== *)
(** * MLD messages on the map of groups

    [as_igmp s] is the state of a daemon that snoops MLD seen as one that snoops IGMP:
    the address of a group is the number its eight words stand for, and the counters
    and switches of the two families are exchanged.  Creating a group and finding one
    do the same to both, so that the invariant [igmp_ok] and the map [group_table]
    carry over.  Every handler keeps the invariant and reads behind the end of a
    block only when it sends a frame it has built; a report does what [mld_reported]
    says. *)

From Stdlib Require Import ZArith Lia.
From stdpp Require Import base gmap list option fin_maps.
From S2P Require Import Prelude DList IgmpL2mc IgmpL2mcProps IgmpSnp IgmpList IgmpGroup IgmpGroupProps IgmpInv IgmpCreate IgmpNewGroup IgmpTimer IgmpFrame IgmpRecv Mld IgmpReport IgmpTimerProps IgmpFrameProps IgmpSafe IgmpSwitch.

Implicit Types (s : IGS) (v : MC_group_vlan) (g : MC_group) (p : positive).

(** ** Addresses as numbers *)

Definition is_word (w : Z) : Prop := 0 ≤ w < 65536.
Definition is_v6 (a : list Z) : Prop := length a = SIZE_OF_IPV6_ADDR ∧ Forall is_word a.

Fixpoint v6_code (a : list Z) : Z := match a with [] => 0 | w :: a' => w + 65536 * v6_code a' end.

Lemma v6_code_pos a : Forall is_word a → 0 ≤ v6_code a.
Proof. induction 1 as [|w a Hw _ IH]; simpl; [lia|]. unfold is_word in Hw. lia. Qed.

Lemma compare_code n a b : length a = n → length b = n → Forall is_word a → Forall is_word b →
  compare_words n a b = (v6_code a =? v6_code b).
Proof.
  revert a b. induction n as [|n IH]; intros [|x a] [|y b] Ha Hb Wa Wb; try done. cbn [compare_words v6_code].
  apply list.Forall_cons in Wa as [Hx Wa], Wb as [Hy Wb]. unfold is_word in Hx, Hy.
  rewrite IH by (try done; simpl in *; lia).
  destruct (Z.eqb_spec x y), (Z.eqb_spec (v6_code a) (v6_code b)), (Z.eqb_spec (x + 65536 * v6_code a) (y + 65536 * v6_code b));
    simpl; try done; try lia.
Qed.

Lemma compare_v6 a b : is_v6 a → is_v6 b → mld_compare_ipv6addr a b = (v6_code a =? v6_code b).
Proof. intros [? ?] [? ?]. by apply compare_code. Qed.

Lemma no_v6_ok : is_v6 no_v6.
Proof. split; [done|]. repeat (constructor; [unfold is_word; lia|]). constructor. Qed.

Lemma general_code a : is_v6 a → mld_v6addr_equal_0 a = (v6_code a =? 0).
Proof. intros Ha. apply (compare_v6 a no_v6); [done|apply no_v6_ok]. Qed.

Lemma checked_code a : is_v6 a → is_ok (mld_snp_addr_check a) = true → v6_code a ≠ 0.
Proof.
  intros [Hl Hw]. unfold mld_snp_addr_check. destruct a as [|w a]; [done|]. cbn [head default from_option id v6_code].
  apply list.Forall_cons in Hw as [Hx Hw]. assert (H := v6_code_pos a Hw). unfold is_word in Hx.
  destruct (Z.ltb_spec w 0xFF00); [done|]. lia.
Qed.

(** ** The state as one of IGMP *)

Definition as_group g : MC_group := g <| MC_ipadd := v6_code g.(MC_v6ipadd) |>.
Definition as_igmp s : IGS :=
  s <| groups := as_group <$> s.(groups) |>
    <| igmp_groupcount := s.(mld_groupcount) |> <| mld_groupcount := s.(igmp_groupcount) |>
    <| igmp_snoop_enable := s.(mld_snoop_enable) |> <| mld_snoop_enable := s.(igmp_snoop_enable) |>.

(** The daemon that snoops MLD. *)
Record mld_ok s : Prop := {
  mo_igmp : igmp_ok (as_igmp s);
  mo_v6 : ∀ p g, s.(groups) !! p = Some g → is_v6 g.(MC_v6ipadd);
  mo_off : s.(igmp_snoop_enable) = 0 }.

Lemma as_lookup s p : (as_igmp s).(groups) !! p = as_group <$> s.(groups) !! p.
Proof. apply lookup_fmap. Qed.

Lemma as_put_group s p g : as_igmp (put_group p g s) = put_group p (as_group g) (as_igmp s).
Proof. unfold as_igmp, put_group. cbn. by rewrite fmap_insert. Qed.

Lemma as_back s p h : (as_igmp s).(groups) !! p = Some h → ∃ g, s.(groups) !! p = Some g ∧ h = as_group g.
Proof. rewrite as_lookup. intros (g & Eg & ->)%fmap_Some. by exists g. Qed.

(** [f] does to the state as one of IGMP what [h] does to that of MLD. *)
Definition simulates {A} (f h : outcome (IGS * A)) : Prop := f = let* '(s, a) := h in Done (as_igmp s, a).

Lemma simulates_wp {A} (f h : outcome (IGS * A)) (Q : IGS * A → Prop) :
  simulates f h → wp f Q → wp h (fun '(s, a) => Q (as_igmp s, a)).
Proof. intros ->. by destruct h as [[s a]| |]. Qed.

(** ** Inserting a group *)

(** A function that leaves the switch queue alone commutes with the operations on
    it. *)
Section Queue.
Variable f : IGS → IGS.
Hypothesis f_get : ∀ s i, get_vlan (f s) i = get_vlan s i.
Hypothesis f_put : ∀ s i v, put_vlan i v (f s) = f (put_vlan i v s).
Hypothesis f_index : ∀ s i, GET_VLAN_POINT_BY_INDEX (f s) i = GET_VLAN_POINT_BY_INDEX s i.
Hypothesis f_taken : ∀ n s i, taken_slot n (f s) i = taken_slot n s i.
Hypothesis f_free : ∀ s, first_free_slot (f s) = first_free_slot s.
Hypothesis f_first : ∀ s i, (f s) <| first_mcgroupvlan_idx := i |> = f (s <| first_mcgroupvlan_idx := i |>).

(** Both sides take the same way. *)
Ltac same_way :=
  repeat first
    [ match goal with |- ?x = ?x => reflexivity end
    | progress rewrite ?f_get, ?f_put, ?f_index, ?f_taken, ?f_free, ?f_first, ?obind_assoc
    | match goal with
      | |- obind _ (get_vlan ?s ?i) = _ => destruct (get_vlan s i) as [?| |]; cbn [obind]
      | |- obind _ (queue_link ?i ?s) = _ => destruct (queue_link i s) as [?| |]; cbn [obind]
      | |- obind _ (match ?x with _ => _ end) = _ => destruct x; cbn [obind]
      | |- match ?x with _ => _ end = _ => destruct x; cbn [obind]
      end ].

Lemma queue_link_commutes tmp s : queue_link tmp (f s) = let* s := queue_link tmp s in Done (f s).
Proof. unfold queue_link. cbv zeta. same_way. Qed.

Lemma vlan_node_commutes vid node prev s :
  vlan_node vid node prev (f s) = let* '(s, i, b) := vlan_node vid node prev s in Done (f s, i, b).
Proof.
  unfold vlan_node. destruct prev as [q|].
  - rewrite f_get, obind_assoc. destruct (get_vlan s q) as [v| |]; cbn [obind]; [|done..].
    destruct (vlan_id v =? vid); [done|]. cbv zeta. rewrite f_free, f_put, queue_link_commutes. same_way.
  - cbv zeta. rewrite f_free. destruct (_ <=? _); [done|]. rewrite f_put, f_first.
    destruct (_ =? 0); rewrite queue_link_commutes; same_way.
Qed.
End Queue.

Lemma get_vlan_as s i : get_vlan (as_igmp s) i = get_vlan s i.
Proof. done. Qed.
Lemma free_slot_as n s i : free_slot n (as_igmp s) i = free_slot n s i.
Proof. revert i. induction n as [|n IH]; intros i; cbn [free_slot]; [done|]. by rewrite IH. Qed.
Lemma taken_slot_as n s i : taken_slot n (as_igmp s) i = taken_slot n s i.
Proof. revert i. induction n as [|n IH]; intros i; cbn [taken_slot]; [done|]. by rewrite IH. Qed.

Lemma vlan_node_as vid node prev s :
  vlan_node vid node prev (as_igmp s) = let* '(s, i, b) := vlan_node vid node prev s in Done (as_igmp s, i, b).
Proof.
  apply vlan_node_commutes; [done|done|done|apply taken_slot_as| |done]. intros s0. apply free_slot_as.
Qed.

Lemma link_front_as idx v p g s :
  group_link_front idx v p (as_group g) (as_igmp s) = let* s := group_link_front idx v p g s in Done (as_igmp s).
Proof.
  unfold group_link_front. cbv zeta. change ((as_group g) <| g_next := ?o |>) with (as_group (g <| g_next := o |>)).
  rewrite <- as_put_group. set (s1 := put_group p _ s). destruct (firstgroup v) as [q|]; [|done].
  unfold get_group. rewrite as_lookup. destruct (s1.(groups) !! q) as [x|]; [|done]. cbn [fmap option_fmap option_map deref obind].
  change ((as_group x) <| g_prev := ?o |>) with (as_group (x <| g_prev := o |>)). by rewrite <- as_put_group.
Qed.

Lemma group_ids_as fuel s o used : group_ids fuel (as_igmp s) o used = group_ids fuel s o used.
Proof.
  revert o used. induction fuel as [|n IH]; intros o used; cbn [group_ids]; [done|]. destruct o as [p|]; [|done].
  unfold get_group. rewrite as_lookup. destruct (s.(groups) !! p) as [g|]; [|done]. cbn [fmap option_fmap option_map deref obind].
  change (mgroup_id (as_group g)) with (mgroup_id g). destruct (_ && _); [apply IH|done].
Qed.
Lemma group_turns_as s : group_turns (as_igmp s) = group_turns s.
Proof. unfold group_turns. change (groups (as_igmp s)) with (as_group <$> groups s). by rewrite map_size_fmap. Qed.
Lemma vlan_group_ids_as fuel s o used : vlan_group_ids fuel (as_igmp s) o used = vlan_group_ids fuel s o used.
Proof.
  revert o used. induction fuel as [|n IH]; intros o used; cbn [vlan_group_ids]; [done|]. destruct o as [i|]; [|done].
  rewrite get_vlan_as. destruct (get_vlan s i) as [v| |]; cbn [obind]; [|done..].
  rewrite group_turns_as, group_ids_as. destruct (group_ids _ s _ _) as [u| |]; cbn [obind]; [|done..]. apply IH.
Qed.

(** A daemon that snoops MLD only. *)
Definition mld_only s : Prop := s.(igmp_snoop_enable) = 0 ∧ s.(mld_snoop_enable) ≠ 0.

Lemma groupcount_as s : mld_only s → igmp_searchvlangroup_by_groupcount (as_igmp s) = igmp_searchvlangroup_by_groupcount s.
Proof.
  intros [E0 E1]. unfold igmp_searchvlangroup_by_groupcount.
  change (igmp_snoop_enable (as_igmp s)) with (mld_snoop_enable s). change (igmp_groupcount (as_igmp s)) with (mld_groupcount s).
  rewrite E0, (proj2 (Z.eqb_neq _ _) E1). cbn [Z.eqb negb]. change (first_vlan (as_igmp s)) with (first_vlan s).
  by rewrite vlan_group_ids_as.
Qed.

(** The switches stay as they are. *)
Definition switched (n : Z) s : IGS := s <| igmp_snoop_enable := 0 |> <| mld_snoop_enable := n |>.

Lemma free_slot_switched m n s i : free_slot n (switched m s) i = free_slot n s i.
Proof. revert i. induction n as [|n IH]; intros i; cbn [free_slot]; [done|]. by rewrite IH. Qed.
Lemma taken_slot_switched m n s i : taken_slot n (switched m s) i = taken_slot n s i.
Proof. revert i. induction n as [|n IH]; intros i; cbn [taken_slot]; [done|]. by rewrite IH. Qed.

Lemma mld_only_switched s : mld_only s ↔ s.(mld_snoop_enable) ≠ 0 ∧ switched s.(mld_snoop_enable) s = s.
Proof.
  unfold mld_only. split.
  - intros [E0 E1]. split; [done|]. unfold switched. rewrite <- E0 at 1. by destruct s.
  - intros [E1 E]. split; [|done]. by rewrite <- E.
Qed.

Lemma vlan_node_only vid node prev s s' i b : mld_only s → vlan_node vid node prev s = Done (s', i, b) → mld_only s'.
Proof.
  intros [E1 E]%mld_only_switched En. set (n := mld_snoop_enable s) in *. rewrite <- E in En.
  rewrite (vlan_node_commutes (switched n)) in En; [|done|done|done|apply taken_slot_switched| |done].
  - apply obind_Done in En as ([[t j] c] & _ & [= <- _ _]). done.
  - intros t. apply free_slot_switched.
Qed.

Lemma link_front_only idx v p g s s' : mld_only s → group_link_front idx v p g s = Done s' → mld_only s'.
Proof.
  intros Ho. unfold group_link_front. cbv zeta. destruct (firstgroup v) as [q|].
  - intros (t & (x & _ & [= <-])%obind_Done & [= <-])%obind_Done. exact Ho.
  - intros [= <-]. exact Ho.
Qed.

(** Passing the value on, by rewriting. *)
Lemma bind_Done {A B} (k : A → outcome B) (a : A) : obind k (Done a) = k a.
Proof. done. Qed.
Lemma bind_Segv {A B} (k : A → outcome B) : obind k Segv = Segv.
Proof. done. Qed.
Lemma bind_OutOfFuel {A B} (k : A → outcome B) : obind k OutOfFuel = OutOfFuel.
Proof. done. Qed.
Ltac bind := rewrite ?bind_Done, ?bind_Segv, ?bind_OutOfFuel; cbv beta iota.

Lemma insert_group_as vid g routers prev s : mld_only s →
  insert_group vid (as_group g) routers (fun s => s <| igmp_groupcount := u32 (s.(igmp_groupcount) + 1) |>) prev (as_igmp s) =
  let* '(s, o) := insert_group vid g routers (fun s => s <| mld_groupcount := u32 (s.(mld_groupcount) + 1) |>) prev s in
  Done (as_igmp s, o).
Proof.
  intros Ho. unfold insert_group. assert (Ef : fresh (dom (as_igmp s).(groups)) = fresh (dom s.(groups))).
  { change (groups (as_igmp s)) with (as_group <$> groups s). by rewrite dom_fmap_L. }
  rewrite Ef. set (p := fresh (dom s.(groups))). cbv zeta. rewrite vlan_node_as, !obind_assoc.
  destruct (vlan_node vid _ prev s) as [[[s1 i] b]| |] eqn:En; bind; [|done..].
  assert (Ho1 := vlan_node_only _ _ _ _ _ _ _ Ho En). rewrite get_vlan_as, !obind_assoc.
  destruct (get_vlan s1 i) as [v| |]; bind; [|done..]. rewrite link_front_as, !obind_assoc.
  destruct (group_link_front i v p g s1) as [s2| |] eqn:El; bind; [|done..].
  assert (Ho2 := link_front_only _ _ _ _ _ _ Ho1 El).
  set (s3 := s2 <| mld_groupcount := u32 (s2.(mld_groupcount) + 1) |>).
  change ((as_igmp s2) <| igmp_groupcount := u32 (igmp_groupcount (as_igmp s2) + 1) |>) with (as_igmp s3).
  assert (Ho3 : mld_only s3) by exact Ho2. rewrite groupcount_as, !obind_assoc by done.
  destruct (igmp_searchvlangroup_by_groupcount s3) as [id| |]; bind; [|done..].
  unfold get_group. rewrite as_lookup. destruct (s3.(groups) !! p) as [x|]; [|done].
  cbn [fmap option_fmap option_map deref]; bind. change ((as_group x) <| mgroup_id := ?o |>) with (as_group (x <| mgroup_id := o |>)).
  rewrite <- as_put_group, get_vlan_as, !obind_assoc. destruct (get_vlan _ i) as [w| |]; done.
Qed.

(** ** Steps that keep it *)

(** The address of a group is part of its data. *)
Lemma v6_of_table s k x : group_table (as_igmp s) !! k = Some x → core_ok (as_igmp s) → 
  (∀ p g, s.(groups) !! p = Some g → is_v6 g.(MC_v6ipadd)) → is_v6 x.(MC_v6ipadd).
Proof.
  intros E Hc Hv. apply group_table_lookup in E as (q & h & Eh & _ & <-); [|done].
  apply as_back in Eh as (g & Eg & ->). apply (Hv q g Eg).
Qed.

Lemma mld_switches s : mld_ok s → mld_only s.
Proof. intros [H1 _ H3]. split; [done|]. exact (io_on _ (do_igs _ H1)). Qed.

Lemma rest_mld_enable s s' : rest s' = rest s → s'.(mld_snoop_enable) = s.(mld_snoop_enable).
Proof. intros E. apply (f_equal mld_snoop_enable) in E. by destruct s, s'. Qed.

Lemma rest_as s s' : rest (as_igmp s') = rest (as_igmp s) → rest s' = rest s.
Proof.
  intros E. apply (f_equal (fun t => t <| igmp_snoop_enable := t.(mld_snoop_enable) |> <| mld_snoop_enable := t.(igmp_snoop_enable) |>)) in E.
  destruct s, s'. exact E.
Qed.

Lemma mld_insert s vid g routers ov (Q : IGS * option (positive * Z) → Prop) :
  mld_ok s → 0 ≤ vid ≤ 4094 → g.(g_vid) = vid → group_fine (as_group g) → is_v6 g.(MC_v6ipadd) → g.(mgroup_id) = 0 →
  g.(portstatelist) = [] → g.(g_next) = None ∧ g.(g_prev) = None →
  searched (as_igmp s) vid (v6_code g.(MC_v6ipadd)) None ov → (size s.(groups) ≤ 1023)%nat →
  (∀ s' p idx h w, mld_ok s' → rest s' = rest s → same_switch s s' → s'.(mcgroup_vlan_queue) !! idx = Some w →
     s'.(groups) !! p = Some h → g_key (as_group h) = (vid, v6_code g.(MC_v6ipadd)) → h.(MC_v6ipadd) = g.(MC_v6ipadd) →
     h.(portstatelist) = [] →
     (∀ k, k ≠ (vid, v6_code g.(MC_v6ipadd)) → group_table (as_igmp s') !! k = group_table (as_igmp s) !! k) →
     Q (s', Some (p, idx))) →
  wp (insert_group vid g routers (fun s => s <| mld_groupcount := u32 (s.(mld_groupcount) + 1) |>) ov s) Q.
Proof.
  intros Hd Hvid Hgv Hfine Hv6 Hid Hpl Hlinks Hse Hsize HQ. assert (Hd' := Hd). destruct Hd' as [Hi Hm Ho].
  assert (H : wp (insert_group vid (as_group g) routers (fun s => s <| igmp_groupcount := u32 (s.(igmp_groupcount) + 1) |>) ov (as_igmp s))
    (fun '(t, o) => ∃ p idx, o = Some (p, idx) ∧ group_created (as_igmp s) t vid (v6_code g.(MC_v6ipadd)) g.(MC_v6ipadd) p idx)).
  { apply (wp_insert_group (as_igmp s) vid (as_group g)); [apply Hi|done..| |].
    - change (groups (as_igmp s)) with (as_group <$> groups s). by rewrite map_size_fmap.
    - intros t p idx Hc. by exists p, idx. }
  rewrite insert_group_as in H by (by apply mld_switches).
  destruct (insert_group vid g routers _ ov s) as [[s' o]| |]; [|done..]. cbn [obind wp] in H |- *.
  destruct H as (p & idx & -> & [C1 C2 C3 C4 (x & Ex & Exk & Expl & Exv & Et) (w & Ew & Evw)]).
  apply as_back in Ex as (h & Eh & ->). apply (HQ s' p idx h w); [|by apply rest_as|split; [done|exact (f_equal (List.filter notice) C4)]|done..|].
  2: { intros k Hk. rewrite Et. by rewrite lookup_insert_ne. }
  split.
  - by eapply daemon_rest.
  - intros q y Ey. assert (Ey' : (as_igmp s').(groups) !! q = Some (as_group y)) by (by rewrite as_lookup, Ey).
    assert (El : group_table (as_igmp s') !! g_key (as_group y) = Some (g_erase (as_group y))).
    { apply group_table_lookup; [apply C1|]. by exists q, (as_group y). }
    destruct (decide (q = p)) as [->|Hne].
    + assert (y = h) as -> by congruence. change (is_v6 (as_group h).(MC_v6ipadd)). by rewrite Exv.
    + rewrite Et in El. destruct (decide (g_key (as_group y) = (vid, v6_code g.(MC_v6ipadd)))) as [Ek|Nk].
      * rewrite Ek, lookup_insert_eq in El. apply (inj Some) in El. assert (E := f_equal MC_v6ipadd El).
        change (is_v6 (g_erase (as_group y)).(MC_v6ipadd)). rewrite <- E. change (is_v6 (as_group h).(MC_v6ipadd)). by rewrite Exv.
      * rewrite lookup_insert_ne in El by done. apply (v6_of_table s _ _ El); [apply Hi|done].
  - exact (eq_trans (rest_mld_enable _ _ C2) Ho).
Qed.

(** What the messages change besides the groups. *)
Lemma mld_outside s s' :
  mld_ok s → same_core s s' → (∃ l, l2mc_repr s'.(p_l2mc) l) → s'.(mld_groupcount) = s.(mld_groupcount) →
  s'.(p_vlanlist) = s.(p_vlanlist) → s'.(mld_snoop_enable) = s.(mld_snoop_enable) →
  s'.(igmp_snoop_enable) = s.(igmp_snoop_enable) → s'.(p_reporterlist) = s.(p_reporterlist) →
  timers_ok s'.(igmp_timer_list) → mld_ok s'.
Proof.
  intros [[H1 H2 H3 H4] Hm Ho] (Cq & Cf & Cg) Hl Ec Ev Ee Eo Er Ht. split.
  - split; [|done|cbn in *; congruence|]; [|change (ports_fine (p_vlanlist s')); by rewrite Ev].
    apply (igs_ok_same (as_igmp s)); [|exact Hl|exact Ec|exact Ev|exact Ee|exact H1].
    split_and!; [exact Cq|exact Cf|]. change (as_group <$> groups s' = as_group <$> groups s). by rewrite Cg.
  - by rewrite Cg.
  - by rewrite Eo.
Qed.

Lemma mld_l2 s : mld_ok s → ∃ l, l2mc_repr s.(p_l2mc) l.
Proof. intros [Hi _ _]. exact (io_l2 _ (do_igs _ Hi)). Qed.
Lemma mld_timers s : mld_ok s → timers_ok s.(igmp_timer_list).
Proof. intros [Hi _ _]. exact (do_timers _ Hi). Qed.
Lemma mld_reporters s : mld_ok s → s.(p_reporterlist) = [].
Proof. intros [Hi _ _]. exact (do_reporters _ Hi). Qed.

Lemma mld_sent s s' : mld_ok s → only_sent s s' → mld_ok s'.
Proof. intros Hd (tr & -> & _). eapply mld_outside; [exact Hd|done|exact (mld_l2 s Hd)|done..|exact (mld_timers s Hd)]. Qed.

Lemma mld_table s s' l : mld_ok s → only_table s s' → l2mc_repr s'.(p_l2mc) l → mld_ok s'.
Proof. intros Hd (t & tr & ->) Hl. eapply mld_outside; [exact Hd|done|by exists l|done..|exact (mld_timers s Hd)]. Qed.

Lemma mld_timer s h n : mld_ok s → timers_ok h → mld_ok (s <| igmp_timer_list := h |> <| rand_count := n |>).
Proof. intros Hd Hh. eapply mld_outside; [exact Hd|done|exact (mld_l2 s Hd)|done..]. Qed.

(** A change of a group that keeps its place, its address and its number. *)
Record group_step g g' : Prop := {
  st_next : g'.(g_next) = g.(g_next);
  st_prev : g'.(g_prev) = g.(g_prev);
  st_vid : g'.(g_vid) = g.(g_vid);
  st_v6 : g'.(MC_v6ipadd) = g.(MC_v6ipadd);
  st_id : g'.(mgroup_id) = g.(mgroup_id);
  st_ports : NoDup (ps_ifindex <$> g.(portstatelist)) → NoDup (ps_ifindex <$> g'.(portstatelist)) }.

Lemma mld_group s p g g' : mld_ok s → s.(groups) !! p = Some g → group_step g g' → mld_ok (put_group p g' s).
Proof.
  intros [Hi Hm Ho] Eg [S1 S2 S3 S4 S5 S6]. assert (Ea : (as_igmp s).(groups) !! p = Some (as_group g)) by (by rewrite as_lookup, Eg).
  assert (Hf := io_fine _ (do_igs _ Hi) p _ Ea). split.
  - rewrite as_put_group. apply (daemon_group (as_igmp s) p (as_group g)); [done|done| | |done].
    + split_and!; [done|done|]. unfold g_key, as_group. cbn. by rewrite S3, S4.
    + destruct Hf as [F1 F2 F3]. split; [|by cbn in *; rewrite S5|by apply S6].
      cbn in *. by rewrite S4.
  - intros q h Eh. rewrite groups_put_group in Eh. destruct (decide (q = p)) as [->|Hne].
    + rewrite lookup_insert_eq in Eh. injection Eh as <-. rewrite S4. by apply (Hm p).
    + rewrite lookup_insert_ne in Eh by done. by apply (Hm q).
  - exact Ho.
Qed.

Lemma mld_router s i v l : mld_ok s → s.(mcgroup_vlan_queue) !! i = Some v → mld_ok (put_vlan i (v <| routerlist := rlist l |>) s).
Proof. intros [Hi Hm Ho] Ev. split; [|done|done]. by apply (daemon_router (as_igmp s) i v l). Qed.

Lemma mld_router_list s i v : mld_ok s → s.(mcgroup_vlan_queue) !! i = Some v → ∃ l, v.(routerlist) = rlist l.
Proof. intros [Hi _ _] Ev. exact (co_routers (as_igmp s) (io_core _ (do_igs _ Hi)) i v Ev). Qed.

Lemma router_upsert_list ifindex up l : ∃ l', router_upsert ifindex up (rlist l) = Done (rlist l').
Proof.
  induction l as [|e l [l' IH]]; cbn.
  - by eexists [_].
  - destruct (_ =? _); [by eexists (_ :: _)|]. rewrite IH. cbn. by eexists (_ :: _).
Qed.

(** ** Searching *)

Lemma find_vlan_as fuel s vid o : find_vlan fuel (as_igmp s) vid o = find_vlan fuel s vid o.
Proof.
  revert o. induction fuel as [|n IH]; intros o; cbn [find_vlan]; [done|]. destruct o as [i|]; [|done].
  rewrite get_vlan_as. destruct (get_vlan s i) as [v| |]; cbn [obind]; [|done..]. destruct (negb _); [apply IH|done].
Qed.

Lemma find_group_as fuel s ulGroup o : (∀ p g, s.(groups) !! p = Some g → is_v6 g.(MC_v6ipadd)) → is_v6 ulGroup →
  find_group fuel (as_igmp s) (v6_code ulGroup) o = mld_find_group fuel s ulGroup o.
Proof.
  intros Hm Hg. revert o. induction fuel as [|n IH]; intros o; cbn [find_group mld_find_group]; [done|]. destruct o as [p|]; [|done].
  unfold get_group. rewrite as_lookup. destruct (s.(groups) !! p) as [g|] eqn:Eg; [|done].
  cbn [fmap option_fmap option_map deref obind]. rewrite compare_v6 by (by eauto). change (MC_ipadd (as_group g)) with (v6_code (MC_v6ipadd g)).
  destruct (_ =? _); [done|apply IH].
Qed.

(** The search in a VLAN that is in use. *)
Lemma igmp_search_used env s vid ulGroup : vlan_used s vid →
  igmp_snp_searchvlangroup env vid ulGroup s =
  let* o := find_vlan queue_turns s vid (first_vlan s) in
  match o with
  | None => Done (s, IGMPSNP_RETURN_CODE_OK, None, None)
  | Some p => let* v := get_vlan s p in
              let* g := find_group (group_turns s) s ulGroup v.(firstgroup) in Done (s, IGMPSNP_RETURN_CODE_OK, g, Some p)
  end.
Proof. intros Hu. unfold igmp_snp_searchvlangroup, igmp_snp_groupcheck. by rewrite vlanisused_yes. Qed.
Lemma mld_search_used env s vid ulGroup : vlan_used s vid →
  mld_snp_searchvlangroup env vid ulGroup s =
  let* o := find_vlan queue_turns s vid (first_vlan s) in
  match o with
  | None => Done (s, IGMPSNP_RETURN_CODE_OK, None, None)
  | Some p => let* v := get_vlan s p in
              let* g := mld_find_group (group_turns s) s ulGroup v.(firstgroup) in Done (s, IGMPSNP_RETURN_CODE_OK, g, Some p)
  end.
Proof. intros Hu. unfold mld_snp_searchvlangroup, mld_snp_groupcheck. by rewrite vlanisused_yes. Qed.

(** ** What the handlers add to the trace *)

Section Grow.
Variable P : EFFECT → Prop.
Variables (s0 : IGS) (env : ENV).
Hypothesis P_notify : ∀ a b c d e, P (NOTIFY_NPD a b c d e).
Hypothesis P_notify6 : ∀ a b c d e, P (NOTIFY_NPD_V6 a b c d e).
Hypothesis P_send : ∀ a b c d, P (SEND_SKB a b c d).
Hypothesis P_110 : P (OVER_READ 110 sizeof_igmp_skb).
Hypothesis P_114 : P (OVER_READ 114 sizeof_igmp_skb).

Lemma grow_mld_search vid ulGroup s : grew P s0 s → grows P s0 (mld_snp_searchvlangroup env vid ulGroup s).
Proof. intros H. unfold mld_snp_searchvlangroup, mld_snp_groupcheck, mld_snp_del_mcgroupvlan. grow. Qed.
Lemma grow_mld_creat vid ulGroup ifindex prev s : grew P s0 s → grows P s0 (mld_creat_group_node vid ulGroup ifindex prev s).
Proof.
  intros H. unfold mld_creat_group_node. destruct (_ <? _); [grow|]. apply grows_read. intros routers. by apply grow_insert_group.
Qed.
Lemma grow_mld_flood info vid ifindex s : grew P s0 s → grows P s0 (mld_snp_flood env info vid ifindex s).
Proof.
  intros H. unfold mld_snp_flood. cbv zeta. destruct (vlan_port_walk _ _ _ s) as [m|] eqn:Em; [|grow].
  grow_bind; [|intros; grow]. eapply grow_walk; [|exact H|exact Em]. intros i s1 H1. apply grows_Done.
  destruct (query_port_ok s1 i); [|done]. apply grow_send; [done|lia|done].
Qed.
Lemma grow_send_mld pkt s : grew P s0 s → grows P s0 (mld_Snoop_Send_mld env pkt s).
Proof.
  intros H. assert (Hs : ∀ frame datalen vid i s, grew P s0 s →
    grew P s0 (Igmp_Snoop_Send_Packet env frame (14 + mld_buf_len (pkt_type pkt) + 8 + 16) datalen vid i s)).
  { intros. apply grow_send; [done| |done]. unfold mld_buf_len. by destruct (_ || _). }
  unfold mld_Snoop_Send_mld. apply grows_read. intros frame. cbv zeta. destruct (_ =? _).
  - destruct (vlan_port_walk _ _ _ s) as [m|] eqn:Em; [|grow]. grow_bind; [|intros; grow].
    eapply grow_walk; [|exact H|exact Em]. intros i s1 H1. apply grows_Done. destruct (_ =? _); [by apply Hs|done].
  - destruct (_ =? _); apply grows_Done; cbn [state_of igs_state prod_state fst id];
      [destruct (query_port_ok _ _)|destruct (_ =? _)]; try done; by apply Hs.
Qed.
Hint Resolve grow_mld_search grow_mld_creat grow_mld_flood grow_send_mld : grow.

Lemma grow_mld_report_port vid ulGroup ifindex error p s : grew P s0 s → grows P s0 (mld_report_port env vid ulGroup ifindex error p s).
Proof. intros H. unfold mld_report_port, upd_member, upd_group. grow. Qed.
Hint Resolve grow_mld_report_port : grow.
Lemma grow_mld_reporter_ports vid ulGroup ifindex p l s : grew P s0 s → grows P s0 (mld_reporter_ports env vid ulGroup ifindex p l s).
Proof. revert s. induction l as [|i l IH]; intros s H; cbn [mld_reporter_ports]; grow. Qed.
Lemma grow_mld_report_routers vid ulGroup info p idx s : grew P s0 s → grows P s0 (mld_report_routers env vid ulGroup info p idx s).
Proof.
  intros H. unfold mld_report_routers, upd_group, mld_snp_routerreport. do 4 grow_step; try solve [grow].
  grow_bind; [|intros; grow]. apply grows_foldM; [|done]. intros r s1 H1. grow.
Qed.
Hint Resolve grow_mld_reporter_ports grow_mld_report_routers : grow.
Lemma grow_mld_report ifindex ulGroup vid type info s : grew P s0 s → grows P s0 (mld_recv_report env ifindex ulGroup vid type info s).
Proof. intros H. unfold mld_recv_report, mld_report_group, upd_member, upd_group. grow. Qed.
Lemma grow_mld_leave ifindex ulGroup vid s : grew P s0 s → grows P s0 (mld_recv_leave env ifindex ulGroup vid s).
Proof. intros H. unfold mld_recv_leave, upd_member, upd_group. grow. Qed.
Lemma grow_mld_query_learn vid ifindex saddr idx s : grew P s0 s → grows P s0 (mld_query_learn vid ifindex saddr idx s).
Proof. intros H. unfold mld_query_learn. grow. Qed.
Lemma grow_mld_query_group vid group ifindex maxresp p s : grew P s0 s → grows P s0 (mld_query_group env vid group ifindex maxresp p s).
Proof. intros H. unfold mld_query_group, mld_resp_timer, igmp_rand_mod, upd_group. grow. Qed.
Lemma grow_mld_query_vlan vid ifindex p idx s : grew P s0 s → grows P s0 (mld_query_vlan env vid ifindex p idx s).
Proof. intros H. unfold mld_query_vlan, mld_resp_timer, igmp_rand_mod, upd_group. grow. Qed.
Hint Resolve grow_mld_report grow_mld_leave grow_mld_query_learn grow_mld_query_group grow_mld_query_vlan : grow.
Lemma grow_mld_query ifindex maxresp group vid info s : grew P s0 s → grows P s0 (mld_recv_query env ifindex maxresp group vid info s).
Proof.
  intros H. unfold mld_recv_query. cbv zeta. destruct (_ && _); [grow|].
  assert (H1 : grew P s0 (if queryRxFlag s =? IGMP_SNOOP_NO then s <| queryRxFlag := IGMP_SNOOP_YES |> else s)) by (destruct (_ =? _); grew_close).
  revert H1. generalize (if queryRxFlag s =? IGMP_SNOOP_NO then s <| queryRxFlag := IGMP_SNOOP_YES |> else s). intros s1 H1. grow.
Qed.
Lemma grow_mld_pim skb s : grew P s0 s → grows P s0 (mld_pim_recv_msg env skb s).
Proof. intros H. unfold mld_pim_recv_msg, mld_snp_pim_msghandle. grow. Qed.
Hint Resolve grow_mld_query grow_mld_pim : grow.
Lemma grow_mld_skb_proc skb s : grew P s0 s → grows P s0 (mld_skb_proc env skb s).
Proof. intros H. unfold mld_skb_proc, mld_deliver, mld_recv_unknown. grow. Qed.
End Grow.

Section Handlers.
Variable env : ENV.
Hypothesis Hnpd : env.(npd_ok) = true.
Hypothesis Hrand : rand_varied env.

Definition mld_keeps (o : outcome (IGS * Z)) : Prop := wp o (fun '(s, _) => mld_ok s).

Lemma wp_mld_search s vid ulGroup (Q : IGS * Z * option positive * option Z → Prop) :
  mld_ok s → vlan_used s vid → is_v6 ulGroup →
  (∀ og ov, searched (as_igmp s) vid (v6_code ulGroup) og ov → Q (s, IGMPSNP_RETURN_CODE_OK, og, ov)) →
  wp (mld_snp_searchvlangroup env vid ulGroup s) Q.
Proof.
  intros [Hi Hm Ho] Hu Hg HQ.
  assert (H : wp (igmp_snp_searchvlangroup env vid (v6_code ulGroup) (as_igmp s)) (fun '(t, r, og, ov) => Q (s, r, og, ov))).
  { apply wp_searchvlangroup; [apply Hi|exact Hu|]. intros og ov Hse. by apply HQ. }
  rewrite igmp_search_used in H by exact Hu. rewrite mld_search_used by done. rewrite find_vlan_as in H.
  change (first_vlan (as_igmp s)) with (first_vlan s) in H.
  destruct (find_vlan queue_turns s vid (first_vlan s)) as [o| |]; [|done..]. rewrite bind_Done in H |- *. destruct o as [i|]; [|exact H].
  rewrite get_vlan_as in H. destruct (get_vlan s i) as [v| |]; [|done..]. rewrite bind_Done in H |- *.
  rewrite group_turns_as, find_group_as in H by done. destruct (mld_find_group _ s ulGroup _) as [g| |]; [|done..].
  rewrite bind_Done in H |- *. exact H.
Qed.

(** ** Sending *)

Definition mld_type (type : Z) : Prop := MLD_MSG_GEN_QUERY ≤ type ≤ MLD_MSG_V2_REPORT.

Lemma mld_frame_total (pkt : PKT (list Z)) s : mld_type pkt.(pkt_type) → ∃ frame, mld_frame pkt s = Done frame.
Proof.
  intros Ht. unfold mld_type, MLD_MSG_GEN_QUERY, MLD_MSG_V2_REPORT in Ht. unfold mld_frame, mld_message, mld_fields.
  assert (pkt_type pkt ∈ [9; 10; 11; 12; 13]) as H.
  { assert (pkt_type pkt = 9 ∨ pkt_type pkt = 10 ∨ pkt_type pkt = 11 ∨ pkt_type pkt = 12 ∨ pkt_type pkt = 13) as H by lia.
    rewrite !elem_of_cons. tauto. }
  repeat (apply elem_of_cons in H as [->|H]; [cbn; by eexists|]). by apply not_elem_of_nil in H.
Qed.

Lemma wp_send_mld pkt s : ports_fine s.(p_vlanlist) → mld_type pkt.(pkt_type) →
  wp (mld_Snoop_Send_mld env pkt s) (fun '(s', _) => only_sent s s').
Proof.
  intros Hp Ht. unfold mld_Snoop_Send_mld. destruct (mld_frame_total pkt s Ht) as [frame ->]. cbn [obind]. cbv zeta.
  destruct (_ =? MLD_MSG_GEN_QUERY).
  - set (f := fun i s => _).
    assert (H := vlan_port_walk_shape (pkt_vlan_id pkt) (pkt_ifindex pkt) f
      ltac:(intros i s1; unfold f; cbn [wp]; destruct (_ =? _); [apply send_packet_sent|apply only_sent_refl]) s Hp).
    destruct (vlan_port_walk _ _ f s) as [m|]; [|cbn; apply only_sent_refl]. apply wp_bind. eapply wp_mono; [exact H|]. done.
  - destruct (_ =? IGMP_MSG_GS_QUERY); cbn [wp]; destruct (query_port_ok _ _) || destruct (_ =? 1); (apply send_packet_sent || apply only_sent_refl).
Qed.

(** ** Changing a group *)

(** The group [p] is as [P] says; besides it the map of the groups is [T]. *)
Record at_group (T : gmap (Z * Z) MC_group) (P : MC_group → Prop) p s : Prop := {
  ag_ok : mld_ok s;
  ag_group : ∃ g, s.(groups) !! p = Some g ∧ P g ∧ ∀ k, k ≠ g_key (as_group g) → group_table (as_igmp s) !! k = T !! k }.

Lemma at_start s p g P : mld_ok s → s.(groups) !! p = Some g → P g → at_group (group_table (as_igmp s)) P p s.
Proof. intros Hd Eg Hp. split; [done|]. by exists g. Qed.

Section Changing.
Variables (T : gmap (Z * Z) MC_group) (p : positive).

Lemma wp_upd_group f s (P P' : MC_group → Prop) (Q : IGS → Prop) :
  at_group T P p s → (∀ g, group_step g (f g)) → (∀ g, P g → P' (f g)) →
  (∀ s', at_group T P' p s' → s'.(mcgroup_vlan_queue) = s.(mcgroup_vlan_queue) → same_switch s s' → rest s' = rest s → Q s') →
  wp (upd_group p f s) Q.
Proof.
  intros [Hd (g & Eg & Hp & Ht)] Hf HP HQ. unfold upd_group, get_group. rewrite Eg. cbn [deref obind wp]. apply HQ; [|done..].
  assert (Hs := Hf g). assert (Ek : g_key (as_group (f g)) = g_key (as_group g)).
  { destruct Hs. unfold g_key, as_group. cbn. congruence. }
  split; [by apply (mld_group s p g)|]. exists (f g). rewrite groups_put_group, lookup_insert_eq. split_and!; [done|by apply HP|].
  intros k Hk. rewrite Ek in Hk. rewrite as_put_group, (table_update_group (as_igmp s) p (as_group g)).
  - rewrite lookup_insert_ne by done. by apply Ht.
  - apply Hd.
  - by rewrite as_lookup, Eg.
  - destruct Hs. split_and!; [done|done|exact Ek].
Qed.

Lemma wp_upd_port i f s (P P' : MC_group → Prop) (Q : IGS → Prop) :
  at_group T P p s → (∀ q, (f q).(ps_ifindex) = q.(ps_ifindex)) →
  (∀ g, P g → P' (g <| portstatelist := alter f i g.(portstatelist) |>)) →
  (∀ s', at_group T P' p s' → s'.(mcgroup_vlan_queue) = s.(mcgroup_vlan_queue) → same_switch s s' → rest s' = rest s → Q s') →
  wp (upd_member p i f s) Q.
Proof.
  intros Ha Hf. apply wp_upd_group; [done|]. intros g. split; try done. cbn. by rewrite alter_ifindex.
Qed.

Lemma at_table s s' P l : at_group T P p s → only_table s s' → l2mc_repr s'.(p_l2mc) l → at_group T P p s'.
Proof.
  intros [Hd Hg] Ho Hl. split; [by apply (mld_table s s' l)|]. destruct Ho as (t & tr & ->). exact Hg.
Qed.

Lemma at_sent s s' P : at_group T P p s → only_sent s s' → at_group T P p s'.
Proof. intros [Hd Hg] Ho. split; [by apply (mld_sent s)|]. destruct Ho as (tr & -> & _). exact Hg. Qed.
End Changing.

(** Adding a port to a group on the switch. *)
Lemma wp_mld_add pkt s : mld_ok s →
  wp (mld_snp_mod_addr env pkt IGMP_ADDR_ADD s) (fun '(s', r) => r = IGMPSNP_RETURN_CODE_OK ∧ only_table s s' ∧
    (∀ l, l2mc_repr s.(p_l2mc) l → l2mc_repr s'.(p_l2mc) (fst (spec_insert env.(junk_entry) pkt l))) ∧
    notices s' = notices s ++ [NOTIFY_NPD_V6 IGMP_ADDR_ADD pkt.(pkt_vlan_id) pkt.(pkt_ifindex) pkt.(groupadd) pkt.(pkt_group_id)]).
Proof.
  intros Hd. destruct (mld_l2 s Hd) as [l0 Hl0]. assert (H := fun l => wp_insert env.(junk_entry) s.(p_l2mc) l pkt).
  unfold mld_snp_mod_addr, in_l2mc. rewrite Z.eqb_refl. unfold mld_L2mc_Entry_Insert. assert (H0 := H l0 Hl0).
  destruct (L2mc_Entry_Insert _ _ _) as [[t r]| |]; [|done..]. clear H0. cbn [obind wp]. unfold mld_notify_msg. rewrite Z.eqb_refl.
  cbn [orb]. rewrite Hnpd. split; [done|]. split; [unfold igs_emit; by eexists _, _|]. split.
  - intros l Hl. by destruct (H l Hl).
  - unfold notices. cbn [trace igs_emit set set_igs_trace]. by rewrite List.filter_app.
Qed.

(** ** Reports *)

(** The member ports after a report. *)
Definition mld_joined (interval : Z) (port : MC_port_state) : MC_port_state :=
  port <| membertimer_id := interval |> <| ps_state := IGMP_SNP_HAS_MEMBER |>.
Definition mld_join_port (interval : Z) (ifindex : Z) (l : list MC_port_state) : list MC_port_state :=
  match port_pos ifindex l with
  | Some i => alter (mld_joined interval) i l
  | None => mld_joined interval (mkPort ifindex 0 0 IGMP_SNP_GROUP_NOMEMBER) :: l
  end.

Lemma search_join s l ifindex :
  let '(l', o, _) := igmp_snp_searchportstatelist s l ifindex IGMP_PORT_ADD in
  ∃ i, o = Some i ∧ ∀ f m, (∀ q, f q = mld_joined m q) → alter f i l' = mld_join_port m ifindex l.
Proof.
  unfold igmp_snp_searchportstatelist, mld_join_port. destruct (port_pos ifindex l) as [i|] eqn:Ei.
  - exists i. split; [done|]. intros f m Hf. rewrite list_alter_alter_eq. apply list_alter_ext; [|done]. intros q _. cbn. by rewrite Hf.
  - exists 0%nat. split; [done|]. intros f m Hf. cbn. by rewrite Hf.
Qed.

(** The switch after it. *)
Definition mld_l2_join (pkt : PKT (list Z)) (new : bool) (l : list l2mc_list) : list l2mc_list :=
  if new then fst (spec_insert env.(junk_entry) pkt l) else l.
Definition mld_add_pkt (vid : Z) (ulGroup : list Z) (ifindex id : Z) : PKT (list Z) :=
  mkPkt IGMP_ADDR_ADD ifindex vid id no_v6 ulGroup 0.

(** As [switch_joined]. *)
Definition mld_switch_joined s s' (vid : Z) (ulGroup : list Z) (ifindex id : Z) (new : bool) : Prop :=
  (∀ t, l2mc_repr s.(p_l2mc) t → l2mc_repr s'.(p_l2mc) (mld_l2_join (mld_add_pkt vid ulGroup ifindex id) new t)) ∧
  notices s' = notices s ++ (if new then [NOTIFY_NPD_V6 IGMP_ADDR_ADD vid ifindex ulGroup id] else []).

Lemma mld_joined_same s1 s2 s3 s4 vid ulGroup ifindex id new :
  same_switch s1 s2 → mld_switch_joined s2 s3 vid ulGroup ifindex id new → same_switch s3 s4 →
  mld_switch_joined s1 s4 vid ulGroup ifindex id new.
Proof.
  intros [A1 A2] [B1 B2] [C1 C2]. split; [|congruence]. intros t Ht. rewrite C1. apply B1. by rewrite A1.
Qed.

Lemma wp_mld_report_routers T s vid ulGroup info p idx w P (Q : IGS → Prop) :
  at_group T P p s → (∀ g t, P g → P (g <| router_reporttimer := t |>)) → s.(mcgroup_vlan_queue) !! idx = Some w →
  (∀ s', at_group T P p s' → same_switch s s' → rest s' = rest s → Q s') →
  wp (mld_report_routers env vid ulGroup info p idx s) Q.
Proof.
  intros Ha HP Ew HQ. assert (Ha' := Ha). destruct Ha' as [Hd (g & Eg & _)]. unfold mld_report_routers, get_group, get_vlan. rewrite Eg. cbn [deref obind].
  destruct (portstatelist g); [|by apply HQ]. rewrite Ew. cbn [deref obind].
  destruct (mld_router_list s idx w Hd Ew) as [l ->]. rewrite rwalk_rlist. cbn [obind]. apply wp_bind.
  assert (H : wp (foldM (fun r s => let* '(s, _) := mld_snp_routerreport env vid r.(mroute_ifindex) ulGroup info s in Done s) l s) (only_sent s)).
  { clear Ew HQ Eg. assert (H0 := only_sent_refl s). revert Ha H0. generalize s at 1 3 4. clear Hd. induction l as [|r l IH]; intros t Ha H0; cbn [foldM]; [exact H0|].
    apply wp_bind, wp_bind. eapply wp_mono; [apply wp_send_mld; [apply Ha|done]|]. intros [t' z] Hs. cbn [wp].
    apply IH; [by eapply at_sent|by eapply only_sent_trans]. }
  eapply wp_mono; [exact H|]. intros s1 Hs1. assert (Ha1 := at_sent T p s s1 P Ha Hs1). destruct Hs1 as (tr & -> & Etr).
  eapply wp_upd_group; [exact Ha1|by intros []|intros h; apply HP|]. intros s2 Ha2 _ El Er. apply HQ; [done|apply (same_switch_trans s (s <| trace := tr |>)); [by split|exact El]|by rewrite Er].
Qed.

(** The group while the report is processed: [F] is what has happened to the port. *)
Definition joining g0 (l : list MC_port_state) i (F : MC_port_state → MC_port_state) g : Prop :=
  g_key (as_group g) = g_key (as_group g0) ∧ g.(mgroup_id) = g0.(mgroup_id) ∧ g.(MC_v6ipadd) = g0.(MC_v6ipadd) ∧
  g.(portstatelist) = alter F i l.

Lemma wp_mld_report_port T s vid ulGroup ifindex error p g0 (Q : IGS * (Z + nat) → Prop) :
  at_group T (fun g => g_key (as_group g) = g_key (as_group g0) ∧ g.(mgroup_id) = g0.(mgroup_id) ∧ g.(MC_v6ipadd) = g0.(MC_v6ipadd) ∧
                g.(portstatelist) = g0.(portstatelist)) p s →
  (∀ s' l i, at_group T (fun g => joining g0 l i (fun q => q <| ps_state := IGMP_SNP_HAS_MEMBER |>) g ∧ g.(grouplifetimer_id) = 0) p s' →
     (∀ f m, (∀ q, f q = mld_joined m q) → alter f i l = mld_join_port m ifindex g0.(portstatelist)) → rest s' = rest s →
     mld_switch_joined s s' vid ulGroup ifindex g0.(mgroup_id) (port_is_new ifindex g0.(portstatelist)) → Q (s', inr i)) →
  wp (mld_report_port env vid ulGroup ifindex error p s) Q.
Proof.
  intros Ha HQ. assert (Ha' := Ha). destruct Ha' as [Hd (g & Eg & (Ek & Ei & E6 & El) & Ht)]. unfold mld_report_port, get_group. rewrite Eg. cbn [deref obind].
  assert (Hadd := search_add s g.(portstatelist) ifindex). assert (Hj := search_join s g.(portstatelist) ifindex).
  destruct (igmp_snp_searchportstatelist s (portstatelist g) ifindex IGMP_PORT_ADD) as [[l o] ret].
  destruct Hadd as (-> & i & port & -> & Ep & Est & Hnd & _). destruct Hj as (i' & [= <-] & Hj). rewrite Ep. cbn [deref obind].
  change (negb (is_ok IGMPSNP_RETURN_CODE_OK)) with false. cbv iota zeta. rewrite Est, El, Ei. rewrite El in Hj.
  set (f1 := fun g : MC_group => g <| portstatelist := l |>). change (g <| portstatelist := l |>) with (f1 g).
  assert (Ha1 : at_group T (joining g0 l i id) p (put_group p (f1 g) s)).
  { assert (Hs1 : group_step g (f1 g)) by done. split; [by apply (mld_group s p g)|]. exists (f1 g).
    rewrite groups_put_group, lookup_insert_eq. split_and!; [done|split_and!; [done..|by rewrite list_alter_id]|].
    intros k Hk. rewrite as_put_group, (table_update_group (as_igmp s) p (as_group g)); [|apply Hd|by rewrite as_lookup, Eg|done].
    rewrite lookup_insert_ne by done. by apply Ht. }
  set (s1 := put_group p (f1 g) s) in *. set (pkt := mkPkt IGMP_ADDR_ADD _ _ _ _ _ _).
  apply wp_bind.
  eapply wp_mono with (P := fun '(s2, r) => r = IGMPSNP_RETURN_CODE_OK ∧ at_group T (joining g0 l i id) p s2 ∧ rest s2 = rest s1 ∧
    mld_switch_joined s1 s2 vid ulGroup ifindex g0.(mgroup_id) (port_is_new ifindex (portstatelist g0))).
  { unfold mld_switch_joined, mld_l2_join. destruct (port_is_new _ _); [|split_and!; [done..|by rewrite app_nil_r]]. destruct (mld_l2 s1 (ag_ok _ _ _ _ Ha1)) as [t0 Ht0].
    eapply wp_mono; [apply wp_mld_add, Ha1|]. intros [s2 r] (-> & Ho & Hl2 & Hn2). split_and!; [done|by eapply at_table; [|done|apply Hl2]| |done|done].
    destruct Ho as (? & ? & ->). done. }
  intros [s2 r] (-> & Ha2 & Er2 & Hl2). change (negb (is_ok IGMPSNP_RETURN_CODE_OK)) with false. cbv iota.
  apply wp_bind. eapply (wp_upd_group T p _ s2 _ (fun g => joining g0 l i id g ∧ g.(grouplifetimer_id) = 0)); [exact Ha2|by intros []|by intros h Hh|].
  intros s3 Ha3 _ El3 Er3. apply wp_bind.
  eapply (wp_upd_port T p i _ s3 _ (fun g => joining g0 l i (fun q => q <| ps_state := IGMP_SNP_HAS_MEMBER |>) g ∧ g.(grouplifetimer_id) = 0)); [exact Ha3|done| |].
  { intros h ((H1 & H2 & H3 & H4) & H5). split; [|done]. assert (Eid : alter id i l = l) by (by apply list_alter_id).
    rewrite Eid in H4. split_and!; [done..|]. cbn. by rewrite H4. }
  intros s4 Ha4 _ El4 Er4. apply (HQ s4 l i); [done|done|by rewrite Er4, Er3, Er2|]. eapply mld_joined_same; [|exact Hl2|eapply same_switch_trans; [exact El3|exact El4]]; by split.
Qed.
Lemma mld_router_entries_ok fuel vid cursor l :
  (length l - match cursor with None => 0 | Some i => S i end < fuel)%nat → ∃ r, mld_router_entries fuel vid cursor l = Done r.
Proof.
  revert cursor. induction fuel as [|fuel IH]; intros cursor Hl; [lia|]. cbn [mld_router_entries].
  unfold query_router. destruct (find_from _ _ l) as [i|] eqn:E; [|by eexists].
  destruct (find_from_spec _ _ _ _ E) as [Hi [r Er]]. rewrite Er. cbn [deref obind].
  destruct (IH (Some i)) as [rest Er']; [lia|]. rewrite Er'. by eexists.
Qed.

(** A new group: there are too many, or it is there. *)
Lemma wp_mld_creat s vid ulGroup ifindex ov (Q : IGS * option (positive * Z) → Prop) :
  mld_ok s → 0 ≤ vid ≤ 4094 → is_v6 ulGroup → v6_code ulGroup ≠ 0 → searched (as_igmp s) vid (v6_code ulGroup) None ov →
  (size s.(groups) = 1024%nat → Q (s, None)) →
  (∀ s' p idx w h, at_group (group_table (as_igmp s)) (fun g => g = h) p s' → g_key (as_group h) = (vid, v6_code ulGroup) →
     h.(MC_v6ipadd) = ulGroup → h.(portstatelist) = [] →
     s'.(mcgroup_vlan_queue) !! idx = Some w → rest s' = rest s → same_switch s s' → Q (s', Some (p, idx))) →
  wp (mld_creat_group_node vid ulGroup ifindex ov s) Q.
Proof.
  intros Hd Hv Hg Hn Hse HQ0 HQ. unfold mld_creat_group_node, igmp_getmaxgroupcnt.
  assert (Hb := io_bound _ (do_igs _ (mo_igmp _ Hd))). assert (Hc := io_count _ (do_igs _ (mo_igmp _ Hd))).
  change (igmp_groupcount (as_igmp s)) with (mld_groupcount s) in Hc.
  change (groups (as_igmp s)) with (as_group <$> groups s) in Hb, Hc. rewrite map_size_fmap in Hb, Hc. unfold IGMP_SNP_GRP_MAX.
  destruct (Z.ltb_spec 1023 (mld_groupcount s)) as [Hgt|Hle]; [apply HQ0; lia|].
  cbv zeta. destruct (mld_router_entries_ok (S (length s.(p_routerlist))) vid None s.(p_routerlist)) as [routers ->]; [lia|]. cbn [obind].
  apply mld_insert; try done; [|lia|].
  - split; [exact Hn|unfold IGMP_SNP_GRP_MAX; cbn; lia|constructor].
  - intros s' p idx h w Hd' Er El Ew Eh Ek E6 Epl Ht. apply (HQ s' p idx w h); try done. split; [done|]. exists h. split_and!; [done..|].
    rewrite Ek. exact Ht.
Qed.

(** What a report makes of the group [g] it found or created. *)
Record mld_joined_group s g g' (ifindex : Z) (saddr : list Z) : Prop := {
  mj_v6 : g'.(MC_v6ipadd) = g.(MC_v6ipadd);
  mj_ports : g'.(portstatelist) = mld_join_port (member_interval s) ifindex g.(portstatelist);
  mj_timer : g'.(grouplifetimer_id) = 0;
  mj_saddr : g'.(report_v6ipadd) = mld_ntohs saddr;
  mj_id : g'.(mgroup_id) = g.(mgroup_id) }.

Lemma wp_mld_report_group T s ulGroup vid ifindex info p idx w g0 (Q : IGS * Z → Prop) :
  at_group T (fun g => g = g0) p s → s.(mcgroup_vlan_queue) !! idx = Some w →
  (∀ s', at_group T (fun g' => g_key (as_group g') = g_key (as_group g0) ∧ mld_joined_group s g0 g' ifindex info.(mi_saddr)) p s' →
     rest s' = rest s →
     mld_switch_joined s s' vid ulGroup ifindex g0.(mgroup_id) (port_is_new ifindex g0.(portstatelist)) →
     Q (s', IGMPSNP_RETURN_CODE_OK)) →
  wp (mld_report_group env ulGroup vid ifindex info p idx s) Q.
Proof.
  intros Ha Ew HQ. unfold mld_report_group. apply wp_bind.
  assert (Ha0 : at_group T (fun g => g_key (as_group g) = g_key (as_group g0) ∧ g.(mgroup_id) = g0.(mgroup_id) ∧
                  g.(MC_v6ipadd) = g0.(MC_v6ipadd) ∧ g.(portstatelist) = g0.(portstatelist)) p s).
  { destruct Ha as [Hd (g & Eg & -> & Ht)]. split; [done|]. exists g0. by split_and!. }
  eapply (wp_mld_report_routers T); [exact Ha0|done|exact Ew|]. intros s1 Ha1 El1 Er1.
  rewrite (mld_reporters s1) by apply Ha1.
  cbn [igmp_snp_searchreporterlist List.find fmap option_fmap option_map obind default from_option id mld_reporter_ports].
  change (negb (is_ok IGMPSNP_RETURN_CODE_OK)) with false. cbv iota.
  apply wp_bind. eapply wp_mld_report_port; [exact Ha1|]. intros s2 l i Ha2 Hj Er2 Hl2. cbv beta iota.
  unfold Igmp_Snoop_IF_Recv_Is_Report_Discard. rewrite (mld_reporters s2) by apply Ha2.
  cbn [igmp_snp_searchreporterlist List.find fmap option_fmap option_map obind].
  change (is_ok IGMPSNP_RETURN_CODE_OK) with true. cbv iota. cbn [obind]. set (m := member_interval s2).
  assert (Em : m = member_interval s) by (unfold m; rewrite (rest_interval s1 s2 Er2); by apply rest_interval).
  apply wp_bind. eapply (wp_upd_port T p i _ s2 _ (fun g => joining g0 l i (mld_joined m) g ∧ g.(grouplifetimer_id) = 0)); [exact Ha2|done| |].
  { intros h ((H1 & H2 & H3 & H4) & H5). split; [|done]. split_and!; [done..|]. cbn. by rewrite H4, list_alter_alter_eq. }
  intros s3 Ha3 _ El3 Er3. apply wp_bind.
  eapply (wp_upd_group T p _ s3 _ (fun g' => g_key (as_group g') = g_key (as_group g0) ∧ mld_joined_group s g0 g' ifindex info.(mi_saddr)));
    [exact Ha3|by intros []| |].
  { intros h ((H1 & H2 & H3 & H4) & H5). split; [exact H1|]. split; [exact H3| |exact H5|done|exact H2].
    cbn. rewrite H4, <- Em. by apply Hj. }
  intros s4 Ha4 _ El4 Er4. cbn [wp]. apply HQ; [done|by rewrite Er4, Er3, Er2, Er1|].
  eapply mld_joined_same; [exact El1|exact Hl2|]. by eapply same_switch_trans.
Qed.

(** The state after a report. *)
Definition mld_reported s s' (vid : Z) (ulGroup : list Z) (ifindex : Z) (saddr : list Z) : Prop :=
  let k := (vid, v6_code ulGroup) in
  mld_ok s' ∧ rest s' = rest s ∧ ∃ g g',
    match group_table (as_igmp s) !! k with Some x => x = g | None => g.(portstatelist) = [] ∧ g.(MC_v6ipadd) = ulGroup end ∧
    g_key g' = k ∧ mld_joined_group s g g' ifindex saddr ∧
    group_table (as_igmp s') = <[k := g']> (group_table (as_igmp s)) ∧
    mld_switch_joined s s' vid ulGroup ifindex g.(mgroup_id) (port_is_new ifindex g.(portstatelist)).

(** From the group to the map. *)
Lemma at_reported s s1 s' vid ulGroup ifindex saddr p g0 :
  at_group (group_table (as_igmp s)) (fun g' => g_key (as_group g') = g_key (as_group g0) ∧ mld_joined_group s1 g0 g' ifindex saddr) p s' →
  g_key (as_group g0) = (vid, v6_code ulGroup) → member_interval s1 = member_interval s →
  ∃ g', g_key g' = (vid, v6_code ulGroup) ∧ mld_joined_group s (g_erase (as_group g0)) g' ifindex saddr ∧
    group_table (as_igmp s') = <[(vid, v6_code ulGroup) := g']> (group_table (as_igmp s)).
Proof.
  intros [Hd (g' & Eg & [Ek Hj] & Ht)] Hk Em. exists (g_erase (as_group g')). split_and!; [by rewrite <- Hk, <- Ek| |].
  - destruct Hj as [J1 J2 J3 J4 J5]. split; [exact J1| |exact J3|exact J4|exact J5]. rewrite <- Em. exact J2.
  - apply map_eq. intros k. destruct (decide (k = (vid, v6_code ulGroup))) as [->|Hne].
    + rewrite lookup_insert_eq. apply group_table_lookup; [apply Hd|]. exists p, (as_group g'). rewrite as_lookup, Eg.
      split_and!; [done|congruence|done].
    + rewrite lookup_insert_ne by done. apply Ht. congruence.
Qed.

Lemma wp_mld_report s usIfIndex ulGroup vid ulType info :
  mld_ok s → vlan_used s vid → 0 ≤ vid ≤ 4094 → is_v6 ulGroup → is_ok (mld_snp_addr_check ulGroup) = true →
  wp (mld_recv_report env usIfIndex ulGroup vid ulType info s) (fun '(s', r) =>
    (size s.(groups) = 1024%nat ∧ group_table (as_igmp s) !! (vid, v6_code ulGroup) = None ∧ r = IGMPSNP_RETURN_CODE_ERROR ∧ s' = s) ∨
    (r = IGMPSNP_RETURN_CODE_OK ∧ mld_reported s s' vid ulGroup (trunk_or_port s.(p_vlanlist) vid usIfIndex) info.(mi_saddr))).
Proof.
  intros Hd Hu Hv Hg Ha. unfold mld_recv_report. rewrite Ha. cbn [negb]. apply wp_bind, wp_mld_search; [done..|]. intros og ov Hse.
  change (negb (is_ok IGMPSNP_RETURN_CODE_OK)) with false. cbv iota zeta. set (ifindex := trunk_or_port _ _ _). destruct og as [p|].
  - destruct ov as [idx|]; [|by destruct Hse]. destruct Hse as (w & Ew & _ & x & Ex & Ekx). assert (Ex' := Ex). apply as_back in Ex' as (g & Eg & ->).
    cbn [deref obind]. eapply wp_mld_report_group; [by apply (at_start s p g)|exact Ew|]. intros s' Ha' Er Hl. right. split; [done|].
    destruct (at_reported s s s' vid ulGroup _ _ p g Ha' Ekx eq_refl) as (g' & Ek' & Hj & Et). split; [apply Ha'|]. split; [exact Er|].
    exists (g_erase (as_group g)), g'.
    assert (El : group_table (as_igmp s) !! (vid, v6_code ulGroup) = Some (g_erase (as_group g))).
    { apply group_table_lookup; [apply Hd|eauto]. }
    rewrite El. by split_and!.
  - assert (Hnone := searched_none _ _ _ ov (io_core _ (do_igs _ (mo_igmp _ Hd))) Hse).
    apply wp_bind, wp_mld_creat; [done|done|done|by apply checked_code|done|intros Hf; by left|].
    intros s1 p idx w h Ha1 Ek E6 Epl Ew Er1 El1. cbv beta iota. eapply wp_mld_report_group; [exact Ha1|exact Ew|].
    intros s' Ha' Er Hl. right. split; [done|].
    destruct (at_reported s s1 s' vid ulGroup _ _ p h Ha' Ek (rest_interval s s1 Er1)) as (g' & Ek' & Hj & Et).
    split; [apply Ha'|]. split; [by rewrite Er|]. exists (g_erase (as_group h)), g'. rewrite Hnone. split_and!; [done..|].
    eapply mld_joined_same; [exact El1|exact Hl|by split].
Qed.

Lemma mld_report_keeps s usIfIndex ulGroup vid ulType info :
  mld_ok s → vlan_used s vid → 0 ≤ vid ≤ 4094 → is_v6 ulGroup → mld_keeps (mld_recv_report env usIfIndex ulGroup vid ulType info s).
Proof.
  intros Hd Hu Hv Hg. destruct (is_ok (mld_snp_addr_check ulGroup)) eqn:Ea.
  - eapply wp_mono; [by apply wp_mld_report|]. intros [s' r] [(_ & _ & _ & ->)|(_ & Hd' & _)]; done.
  - unfold mld_keeps, mld_recv_report. rewrite Ea. exact Hd.
Qed.

(** ** Leaves *)

Lemma mld_leave_keeps s usIfIndex ulGroup vid :
  mld_ok s → vlan_used s vid → is_v6 ulGroup → mld_keeps (mld_recv_leave env usIfIndex ulGroup vid s).
Proof.
  intros Hd Hu Hg. unfold mld_keeps, mld_recv_leave. destruct (negb _); [exact Hd|].
  apply wp_bind, wp_mld_search; [done..|]. intros og ov Hse. change (negb (is_ok IGMPSNP_RETURN_CODE_OK)) with false. cbv iota zeta.
  destruct og as [p|]; [|exact Hd]. destruct ov as [idx|]; [|by destruct Hse].
  destruct Hse as (w & Ew & _ & x & Ex & _). apply as_back in Ex as (g & Eg & _).
  unfold Igmp_Snoop_IF_Recv_Is_Report_Discard. rewrite (mld_reporters s Hd).
  cbn [igmp_snp_searchreporterlist List.find fmap option_fmap option_map obind].
  change (is_ok IGMPSNP_RETURN_CODE_OK) with true. cbv iota. cbn [obind].
  unfold get_group. rewrite Eg. cbn [deref obind]. set (ifindex := trunk_or_port _ _ _).
  destruct (igmp_snp_searchportstatelist s (portstatelist g) ifindex IGMP_PORT_QUERY) as [[l o] r].
  destruct o as [i|]; [|exact Hd]. apply wp_bind.
  eapply (wp_upd_port _ p i _ s (fun _ => True) (fun _ => True)); [by apply (at_start s p g)|done|done|]. intros s1 Ha1 Eq1 _ _.
  unfold get_vlan. rewrite Eq1. change (mcgroup_vlan_queue (as_igmp s)) with (mcgroup_vlan_queue s) in Ew. rewrite Ew. cbn [deref obind].
  apply wp_bind. eapply wp_mono; [apply wp_send_mld; [apply Ha1|done]|]. intros [s2 ret] Hs2.
  assert (Hd2 : mld_ok s2) by (apply (mld_sent s1); [apply Ha1|done]). destruct (negb _); [exact Hd2|].
  destruct (mld_l2 s2 Hd2) as [t Ht]. assert (Hx := wp_getvidx s2.(p_l2mc) t vid ulGroup Ht). unfold mld_L2mc_Entry_GetVidx.
  apply wp_bind. eapply wp_mono; [exact Hx|].
  intros [ret' vidx] _. destruct (negb _); [exact Hd2|]. apply wp_bind, wp_start_timer; [done|by apply mld_timers|].
  intros h n id Hh. cbn [wp]. by apply mld_timer.
Qed.

(** ** Queries *)

Lemma mld_routerlist s l : mld_ok s → mld_ok (s <| p_routerlist := l |>).
Proof. intros Hd. eapply mld_outside; [exact Hd|done|exact (mld_l2 s Hd)|done..|exact (mld_timers s Hd)]. Qed.

Lemma wp_mld_learn s vid ifindex saddr idx w (Q : IGS → Prop) :
  mld_ok s → s.(mcgroup_vlan_queue) !! idx = Some w →
  (∀ s', mld_ok s' → s'.(groups) = s.(groups) → Q s') → wp (mld_query_learn vid ifindex saddr idx s) Q.
Proof.
  intros Hd Ew HQ. unfold mld_query_learn. destruct (igmp_snp_searchrouterportlist _ _ _ _ _) as [[l o] r].
  destruct o as [i|]; [|by apply HQ; [apply mld_routerlist|]]. cbv zeta. unfold get_vlan.
  change (mcgroup_vlan_queue (_ <| p_routerlist := _ |>)) with (mcgroup_vlan_queue s). rewrite Ew. cbn [deref obind].
  destruct (mld_router_list s idx w Hd Ew) as [rl ->]. unfold mld_router_learn.
  destruct (router_upsert_list ifindex (fun e => e <| re_saddrv6 := saddr |> <| re_timer_id := igmp_router_timeout (s <| p_routerlist := l |>) |>) rl) as [rl' E].
  change (igmp_router_timeout (_ <| p_routerlist := _ |>)) with (igmp_router_timeout s) in *. rewrite E. cbn [obind wp].
  apply HQ; [|done]. apply mld_router; [|exact Ew]. by apply mld_routerlist, mld_routerlist.
Qed.

Lemma resp_interval_word code : is_word code → i32 (resp_interval code) ≠ 0.
Proof.
  intros Hc. unfold is_word in Hc. unfold resp_interval, IGMP_V2_TIME_SCALE, IGMP_V2_QUERY_RESP_INTERVAL.
  destruct (Z.ltb_spec 0 code); rewrite i32_small; lia.
Qed.

Lemma mld_query_group_keeps s vid group ifindex maxresp p :
  mld_ok s → is_Some (s.(groups) !! p) → is_word maxresp → mld_keeps (mld_query_group env vid group ifindex maxresp p s).
Proof.
  intros Hd [g Eg] Hc. unfold mld_keeps, mld_query_group, get_group. rewrite Eg. cbn [deref obind].
  destruct (portstatelist g); [exact Hd|]. unfold igmp_rand_mod. rewrite (proj2 (Z.eqb_neq _ _) (resp_interval_word maxresp Hc)).
  cbn [obind]. set (t := u32 _). set (s1 := s <| rand_count := S (rand_count s) |>).
  assert (Hd1 : mld_ok s1).
  { eapply mld_outside; [exact Hd|done|exact (mld_l2 s Hd)|done..|exact (mld_timers s Hd)]. }
  apply wp_bind. eapply (wp_upd_group _ p _ _ (fun _ => True) (fun _ => True)); [by apply (at_start s1 p g)|by intros []|done|].
  intros s2 [Hd2 (h & Eh & _)] _ _ _.
  apply wp_bind, wp_start_timer; [done|by apply mld_timers|]. intros k n id Hk. cbv beta iota.
  assert (Hd3 := mld_timer s2 k n Hd2 Hk). destruct id as [id|]; [|exact Hd3].
  apply wp_bind. eapply (wp_upd_group _ p _ _ (fun _ => True) (fun _ => True)); [by apply (at_start _ p h)|by intros []|done|]. intros s4 Ha4 _ _ _. apply Ha4.
Qed.

Lemma wp_mld_flood sk_info vid ifindex s : ports_fine s.(p_vlanlist) →
  wp (mld_snp_flood env sk_info vid ifindex s) (fun '(s', _) => only_sent s s').
Proof.
  intros Hfine. unfold mld_snp_flood. set (f := fun i s => _).
  assert (H := vlan_port_walk_shape vid ifindex f ltac:(intros i s1; unfold f; cbn [wp]; destruct (query_port_ok _ _);
    [apply send_packet_sent|apply only_sent_refl]) s Hfine).
  destruct (vlan_port_walk vid ifindex f s) as [m|]; [|cbn; apply only_sent_refl].
  apply wp_bind. eapply wp_mono; [exact H|]. done.
Qed.

Lemma mld_flood_keeps s info vid ifindex : mld_ok s →
  mld_keeps (let* '(s, _) := mld_snp_flood env info vid ifindex s in Done (s, IGMPSNP_RETURN_CODE_OK)).
Proof.
  intros Hd. apply wp_bind. eapply wp_mono; [apply wp_mld_flood, Hd|]. intros [s' r] Hs. cbn [wp]. by apply (mld_sent s).
Qed.

Lemma mld_query_keeps s ifindex maxresp group vid info :
  mld_ok s → vlan_used s vid → is_v6 group → is_word maxresp → mld_keeps (mld_recv_query env ifindex maxresp group vid info s).
Proof.
  intros Hd Hu Hg Hc. unfold mld_keeps, mld_recv_query. cbv zeta. rewrite general_code by done. destruct (_ && _); [exact Hd|].
  set (s1 := if queryRxFlag s =? IGMP_SNOOP_NO then _ else s).
  assert (Hd1 : mld_ok s1 ∧ vlan_used s1 vid).
  { unfold s1. destruct (_ =? _); [|done]. split; [|done]. eapply mld_outside; [exact Hd|done|exact (mld_l2 s Hd)|done..|exact (mld_timers s Hd)]. }
  clearbody s1. clear Hd Hu s. destruct Hd1 as [Hd Hu]. apply wp_bind, wp_mld_search; [done..|]. intros og ov Hse. cbv beta iota zeta.
  change (negb (is_ok IGMPSNP_RETURN_CODE_OK)) with false. cbv iota.
  destruct ov as [idx|]; [|by apply mld_flood_keeps]. destruct Hse as (w & Ew & Evid & Hx).
  change (mcgroup_vlan_queue (as_igmp s1)) with (mcgroup_vlan_queue s1) in Ew.
  unfold get_vlan. rewrite Ew. cbn [deref obind]. rewrite Evid, Z.eqb_refl. cbn [negb andb].
  destruct og as [p|]; cbn [from_option negb andb].
  - destruct Hx as (x & Ex & Ek). assert (Ef := io_fine _ (do_igs _ (mo_igmp _ Hd)) p x Ex).
    assert (Hn : v6_code group ≠ 0) by (injection Ek as _ <-; apply Ef). apply as_back in Ex as (g & Eg & _).
    apply wp_bind. eapply wp_mld_learn; [exact Hd|exact Ew|]. intros s2 Hd2 E2.
    rewrite (proj2 (Z.eqb_neq _ _) Hn). cbn [negb]. apply mld_query_group_keeps; [done| |done]. rewrite E2. by eexists.
  - destruct (v6_code group =? 0); [by apply mld_flood_keeps|].
    apply wp_bind. eapply wp_mld_learn; [exact Hd|exact Ew|]. intros s2 Hd2 _. exact Hd2.
Qed.

(** ** PIM *)

Lemma mld_pim_keeps s group ifindex vid saddr :
  mld_ok s → vlan_used s vid → is_v6 group → mld_keeps (mld_snp_pim_msghandle env group ifindex vid saddr s).
Proof.
  intros Hd Hu Hg. unfold mld_keeps, mld_snp_pim_msghandle. apply wp_bind, wp_mld_search; [done..|]. intros og ov Hse.
  change (negb (is_ok IGMPSNP_RETURN_CODE_OK)) with false. cbv iota zeta. destruct ov as [idx|]; [|exact Hd].
  destruct Hse as (w & Ew & _). change (mcgroup_vlan_queue (as_igmp s)) with (mcgroup_vlan_queue s) in Ew.
  destruct (igmp_snp_searchrouterportlist _ _ _ _ _) as [[l o] r]. destruct o as [i|]; [exact Hd|].
  unfold get_vlan. rewrite Ew. cbn [deref obind]. destruct (mld_router_list s idx w Hd Ew) as [rl ->]. unfold mld_router_learn.
  match goal with |- context [router_upsert ?i ?f (rlist rl)] => destruct (router_upsert_list i f rl) as [rl' ->] end.
  cbn [obind wp]. by apply mld_router.
Qed.

(** ** Messages *)

Lemma v6_words_ok l : length l = 16%nat → Forall is_byte l → is_v6 (v6_words l).
Proof.
  intros Hl Hb. do 17 (destruct l as [|? l]; try done). repeat (apply list.Forall_cons in Hb as [? Hb]).
  split; [done|]. unfold is_byte in *. cbn [v6_words]. repeat (constructor; [unfold is_word, be_val; cbn; lia|]). constructor.
Qed.

Lemma skb_load_v6_ok buf off : (off + 16 ≤ length buf)%nat → Forall is_byte buf → ∃ a, skb_load_v6 buf off = Done a ∧ is_v6 a.
Proof.
  intros Hl Hb. unfold skb_load_v6. destruct (skb_load_ok buf off 16 Hl Hb) as (l & -> & Hbl & Hll). cbn [obind].
  eexists. split; [done|]. by apply v6_words_ok.
Qed.

Lemma mld_deliver_keeps s type maxresp group saddr skb :
  mld_ok s → skb_fine skb → port_known s skb → is_word maxresp → is_v6 group → mld_keeps (mld_deliver env type maxresp group saddr skb s).
Proof.
  intros Hd Hf Hk Hm Hg. destruct (known_vlan (as_igmp s) skb (mo_igmp _ Hd) Hf Hk) as [Hu Hv]. unfold mld_keeps, mld_deliver. cbv zeta.
  set (info := mkMldInfo _ _ _ _). apply wp_bind.
  assert (H : mld_keeps (if type =? MLD_MEMSHIP_QUERY then mld_recv_query env (u16 (skb_ifindex skb)) maxresp group (skb_vlan_id skb) info s
     else if (type =? MLD_V2_MEMSHIP_REPORT) || (type =? MLD_V1_MEMSHIP_REPORT)
     then mld_recv_report env (u16 (skb_ifindex skb)) group (skb_vlan_id skb) type info s
     else if type =? MLD_V1_LEAVE_GROUP then mld_recv_leave env (u16 (skb_ifindex skb)) group (skb_vlan_id skb) s
     else mld_recv_unknown env info s)).
  { destruct (_ =? _); [by apply mld_query_keeps|]. destruct (_ || _); [by apply mld_report_keeps|].
    destruct (_ =? _); [by apply mld_leave_keeps|by apply mld_flood_keeps]. }
  eapply wp_mono; [exact H|]. by intros [s' r].
Qed.

Ltac read_word off v H := match goal with |- context[skb_load_be ?buf off ?n] =>
  destruct (skb_load_be_ok buf off n) as (v & -> & H); [lia|done|]; cbn [obind] end.
Ltac read_v6 off v H := match goal with |- context[skb_load_v6 ?buf off] =>
  destruct (skb_load_v6_ok buf off) as (v & -> & H); [lia|done|]; cbn [obind] end.

Lemma mld_pim_message s skb : mld_ok s → skb_fine skb → port_known s skb → mld_keeps (mld_pim_recv_msg env skb s).
Proof.
  intros Hd Hf Hk. assert (Hl := sf_length _ Hf). unfold IGMP_SNP_PKT_BUFSIZE in Hl. assert (Hb := sf_bytes _ Hf).
  unfold mld_keeps, mld_pim_recv_msg. cbv zeta. unfold IPV6_HEADER_LEN. read_v6 (14 + 8)%nat a Ha.
  destruct (skb_load_ok (skb_buf skb) (14 + 40) 4) as (pim & -> & _); [lia|done|]. cbn [obind]. destruct (negb _); [exact Hd|].
  read_word (14 + 40)%nat t Ht. destruct (_ =? 0); [|exact Hd]. destruct (_ || _); [|exact Hd]. apply wp_bind.
  destruct (known_vlan (as_igmp s) skb (mo_igmp _ Hd) Hf Hk) as [Hu _].
  eapply wp_mono; [apply mld_pim_keeps; [done|exact Hu|apply no_v6_ok]|]. by intros [s' r].
Qed.

Lemma mld_message_keeps s skb : mld_ok s → skb_fine skb → mld_keeps (mld_skb_proc env skb s).
Proof.
  intros Hd Hf. assert (Hl := sf_length _ Hf). unfold IGMP_SNP_PKT_BUFSIZE in Hl. assert (Hb := sf_bytes _ Hf).
  unfold mld_keeps, mld_skb_proc. cbv zeta.
  destruct (Z.eqb_spec (default IGMPSNP_RETURN_CODE_OK (snd (igmp_vlanisused s.(p_vlanlist) skb.(skb_vlan_id)))) 1) as [Hu|_]; [|exact Hd].
  destruct (is_ok (igmp_is_vlan_ifindex (p_vlanlist s) (skb_vlan_id skb) (skb_ifindex skb))) eqn:Hi; [|exact Hd].
  assert (Hk : port_known s skb) by (by split). cbn [negb igmp_vlanportrelation snd]. change (0 =? 1) with false. cbv iota.
  read_word (14 + 6)%nat n Hn. destruct (n =? IPPROTO_PIM).
  { apply wp_bind. eapply wp_mono; [by apply mld_pim_message|]. by intros [s' r]. }
  unfold IPV6_HEADER_LEN, MLD_IPV6_OPTION_LEN. set (mld := if n =? 0 then _ else _).
  assert (Hm : (mld ≤ 62)%nat) by (unfold mld; destruct (n =? 0); lia). clearbody mld. read_word mld type Ht.
  assert (Hg : ∃ o, mld_message_group (skb_buf skb) 14 mld type = Done o ∧ ∀ a, o = Some a → is_v6 a).
  { unfold mld_message_group, IPV6_HEADER_LEN, MLD_IPV6_OPTION_LEN. destruct (negb _).
    - read_v6 (mld + 8)%nat g Hg. eexists. split; [done|]. by intros ? [= <-].
    - cbv zeta. read_word (14 + 40 + 8 + 6)%nat k Hkk. destruct (1 <? k); [by eexists|].
      read_v6 (14 + 40 + 8 + 12)%nat g Hg. eexists. split; [done|]. by intros ? [= <-]. }
  destruct Hg as (o & -> & Hg). cbn [obind]. destruct o as [group|]; [|exact Hd].
  read_word (14 + 7)%nat hop Hh. destruct (negb _); [exact Hd|]. read_word (mld + 4)%nat maxresp Hx. read_v6 (14 + 8)%nat saddr Hs.
  apply mld_deliver_keeps; [done..|exact Hx|by apply Hg].
Qed.

(** Messages one after the other. *)
Definition mld_messages (skbs : list igmp_skb) (s : IGS) : outcome IGS :=
  foldM (fun skb s => let* '(s, _) := mld_skb_proc env skb s in Done s) skbs s.

Lemma mld_messages_grow skbs s : grows (short_block [110; 114]) s (mld_messages skbs s).
Proof.
  apply grows_foldM; [|apply grew_refl]. intros skb s1 H1. grow_bind; [|intros; grow].
  apply grow_mld_skb_proc; try done; cbn; (split; [set_solver|done]).
Qed.

Lemma mld_messages_keep skbs s : mld_ok s → Forall skb_fine skbs → wp (mld_messages skbs s) (fun s' => mld_ok s' ∧ grew (short_block [110; 114]) s s').
Proof.
  intros Hd H. apply wp_grows; [|apply mld_messages_grow]. revert s Hd. induction H as [|skb skbs Hf _ IH]; intros s Hd; [exact Hd|].
  unfold mld_messages. cbn [foldM]. apply wp_bind, wp_bind. eapply wp_mono; [by apply mld_message_keeps|]. intros [s' r] Hd'. by apply IH.
Qed.
End Handlers.
