(* ===== verification/IgmpExample.v ===== *)
(** * A small network for the IGMP snooping daemon

    Three ports in VLAN 5 and one in VLAN 6, snooping switched on, no group yet; and
    what a host on port 1 makes of it by joining 239.1.2.3. *)

From Stdlib Require Import ZArith Lia.
From Stdlib Require Import Sorting.Sorted.
From stdpp Require Import base gmap list option fin_maps.
From S2P Require Import Prelude DList IgmpL2mc IgmpL2mcProps IgmpSnp IgmpList IgmpGroup IgmpGroupProps IgmpInv IgmpTimer IgmpFrame IgmpRecv IgmpReport IgmpTimerProps IgmpFrameProps IgmpSafe.

Definition igmp_env : ENV :=
  mkEnv true true (fun n => Z.of_nat n + 1) (mkL2mc 1%positive 1%positive 0 [] 0 0 0) 0 [1; 2; 3; 4; 5; 6; 7; 8].

Definition igs0 : IGS :=
  mkIgs empty_l2mc ∅ (-1) ∅ 0 0
    [mkVlanList 5 [mkVlanPort 1 0; mkVlanPort 2 0; mkVlanPort 3 0]; mkVlanList 6 [mkVlanPort 9 0]] 2 [] [] []
    ∅ 250 2 5000 1000 100 21000 42000 1 0 0 None (mkTimers None ∅ 0 1) 0 [].

Definition skb0 : igmp_skb := mkSkb 2 2 1 5 (replicate IGMP_SNP_PKT_BUFSIZE 0).
Definition info0 : igmp_info := mkInfo 1 5 0x0A000001 skb0.
Definition group0 : Z := 0xEF010203.

Lemma igs_ok_start s :
  s.(p_l2mc) = empty_l2mc → s.(mcgroup_vlan_queue) = ∅ → s.(first_mcgroupvlan_idx) = -1 → s.(groups) = ∅ →
  s.(igmp_groupcount) = 0 → vlans_fine s.(p_vlanlist) → s.(igmp_snoop_enable) ≠ 0 → igs_ok s.
Proof.
  intros El Eq Ef Eg Ec Hv He. split.
  - split.
    + exists []. split; [constructor|by intros ? ?%not_elem_of_nil| |done|by rewrite Ef].
      intros i. rewrite Eq, lookup_empty. by intros [? ?].
    + intros i j v w. by rewrite Eq, lookup_empty.
    + intros i v. by rewrite Eq, lookup_empty.
    + intros p g. by rewrite Eg, lookup_empty.
    + intros p q g h. by rewrite Eg, lookup_empty.
    + intros i v. by rewrite Eq, lookup_empty.
  - exists []. rewrite El. apply l2mc_repr_empty.
  - by rewrite Ec, Eg.
  - rewrite Eg, map_size_empty. lia.
  - intros p g. by rewrite Eg, lookup_empty.
  - intros i v. by rewrite Eq, lookup_empty.
  - intros p q g h. by rewrite Eg, lookup_empty.
  - done.
  - done.
Qed.

Lemma igs0_vlans : vlans_fine igs0.(p_vlanlist).
Proof.
  split.
  - intros w [->|[->|?%not_elem_of_nil]%elem_of_cons]%elem_of_cons; [cbn; lia..|done].
  - repeat constructor; set_solver.
  - intros w [->|[->|?%not_elem_of_nil]%elem_of_cons]%elem_of_cons; [cbn; repeat constructor; set_solver..|done].
Qed.

Lemma igs0_ok : igs_ok igs0.
Proof. by apply igs_ok_start; [..|apply igs0_vlans|]. Qed.

(** After the report. *)
Definition igs1 : IGS :=
  match igmp_recv_report igmp_env 1 group0 5 IGMP_V2_MEMSHIP_REPORT info0 igs0 with Done (s, _) => s | _ => igs0 end.

Lemma igs1_reported : reported_state igmp_env igs0 igs1 5 group0 IGMP_V2_MEMSHIP_REPORT 1 0x0A000001.
Proof.
  assert (H := wp_recv_report igmp_env igs0 1 group0 5 IGMP_V2_MEMSHIP_REPORT info0 igs0_ok eq_refl eq_refl eq_refl
                 ltac:(lia) eq_refl).
  unfold igs1. destruct (igmp_recv_report _ _ _ _ _ _ _) as [[s r]| |]; [|done|done]. by destruct H as [[[Hs _] _]|[_ H]].
Qed.

Lemma igs1_ok : igs_ok igs1.
Proof. apply igs1_reported. Qed.

(** The VLANs with groups. *)
Lemma igs1_queue : igs1.(mcgroup_vlan_queue) ≠ ∅.
Proof. by apply (bool_decide_unpack _); vm_compute. Qed.

Lemma igs1_vlan5 vid : vid ≠ 5 → vlan_gone igs1 vid.
Proof.
  intros Hv j w Ew. assert (H : bool_decide (map_Forall (fun _ v => v.(vlan_id) = 5) igs1.(mcgroup_vlan_queue)) = true) by by vm_compute.
  apply bool_decide_eq_true in H. rewrite (H j w Ew). congruence.
Qed.
Lemma igs1_no_vlan6 : vlan_gone igs1 6.
Proof. by apply igs1_vlan5. Qed.

Lemma igs1_has_vlan : ¬ vlan_gone igs1 5.
Proof.
  intros H. destruct (map_choose igs1.(mcgroup_vlan_queue) igs1_queue) as (i & v & E). apply (H i v E).
  assert (H' : bool_decide (map_Forall (fun _ v => v.(vlan_id) = 5) igs1.(mcgroup_vlan_queue)) = true) by by vm_compute.
  apply bool_decide_eq_true in H'. by apply (H' i v).
Qed.

(** The daemon of the network. *)
Lemma igs0_ports : ports_fine igs0.(p_vlanlist).
Proof.
  intros v Hv. split; [by apply igs0_vlans|].
  assert (H : Forall (fun v => Forall (fun q => 0 ≤ q.(vp_ifindex) < 2 ^ 32) v.(first_port)) igs0.(p_vlanlist)).
  { repeat constructor; done. }
  rewrite Forall_forall in H. specialize (H v Hv). by rewrite Forall_forall in H.
Qed.

Lemma igs0_daemon : igmp_ok igs0.
Proof.
  split; [apply igs0_ok| |done|apply igs0_ports]. exists []. split; cbn; try done; [apply NoDup_nil_2| |lia].
  intros p [x E]. by rewrite lookup_empty in E.
Qed.

Lemma igmp_env_varied : rand_varied igmp_env.
Proof. intros n. apply NoDup_fmap_2_strong; [|apply NoDup_seq]. cbn. lia. Qed.

(** ** Messages *)

Definition frame0 (type : Z) : list Z := igmp_frame (mkPkt type 1 5 0 0x0A000001 group0 0) igs0.
Definition message0 (type : Z) : igmp_skb :=
  let f := frame0 type in mkSkb 2 2 1 5 (f ++ replicate (IGMP_SNP_PKT_BUFSIZE - length f) 0).
Definition report0 : igmp_skb := message0 IGMP_MSG_REPORT.
Definition leave0 : igmp_skb := message0 IGMP_MSG_LEAVE.
Definition query0 : igmp_skb := message0 IGMP_MSG_GEN_QUERY.

(** A message that the daemon, reading eight bytes too far, takes for a PIM hello. *)
Definition hello0 : igmp_skb :=
  mkSkb 2 2 1 5
    ([0x01; 0x00; 0x5E; 0x00; 0x00; 0x0D; 0x10; 0x20; 0x30; 0x40; 0x50; 0x60; 0x08; 0x00]
     ++ [0x45; 0; 0; 50; 0; 0; 0; 0; 1; 103; 0xFE; 0x98] ++ be_bytes 4 0x0A000001 ++ be_bytes 4 0xE000000D
     ++ be_bytes 4 0x0A000002 ++ [0; 0; 0; 0] ++ [0x20; 0; 0xDF; 0xFF] ++ replicate 82 0).

(** A PIM hello as a router sends it, without options: both checksums are right where
    they are. *)
Definition ordinary_hello0 : igmp_skb :=
  mkSkb 2 2 1 5
    ([0x01; 0x00; 0x5E; 0x00; 0x00; 0x0D; 0x10; 0x20; 0x30; 0x40; 0x50; 0x60; 0x08; 0x00]
     ++ [0x45; 0; 0; 24; 0; 0; 0; 0; 1; 103; 0xCF; 0x71] ++ be_bytes 4 0x0A000001 ++ be_bytes 4 0xE000000D
     ++ [0x20; 0; 0xDF; 0xFF] ++ replicate 90 0).

Lemma ordinary_hello0_sums :
  inet_cksum (take 20 (drop 14 ordinary_hello0.(skb_buf))) = 0 ∧ inet_cksum (take 4 (drop 34 ordinary_hello0.(skb_buf))) = 0 ∧
  length ordinary_hello0.(skb_buf) = IGMP_SNP_PKT_BUFSIZE.
Proof. by vm_compute. Qed.
