(* ===== verification/IgmpProps.v ===== *)
(** * What the IGMP snooping daemon guarantees, and where it fails *)

From Stdlib Require Import ZArith Lia.
From stdpp Require Import base gmap list option fin_maps.
From S2P Require Import Prelude DList IgmpL2mc IgmpL2mcProps IgmpSnp IgmpList IgmpGroup IgmpGroupProps IgmpInv IgmpTimer IgmpFrame IgmpRecv IgmpDevice.
From S2P Require Import IgmpReport IgmpTimerProps IgmpFrameProps IgmpSafe IgmpSwitch IgmpExample.

(** ** The daemon *)

(** C3: Whatever IGMP messages of 128 bytes arrive, on whatever ports and in whatever
    order, the daemon returns from each of them, follows no pointer and no index
    that does not lead to a node, and stays well formed: its lists of VLANs, groups
    and timers are linked as they should, no group is listed twice, the number of
    groups is counted, and no two groups share an identifier of the switch other
    than 0.  The only reads behind the end of a block are those of the frames it
    builds: 152 bytes are sent of a block of 66 or 70; where 36 bytes of a router
    entry of 32 are cleared, they are padding of the allocator ([memset_block]).  PIM
    messages are excepted; the switch daemon takes messages, [rand] does not repeat itself too soon,
    and the daemon has no reporter ports ([igmp_ok]). *)
Theorem igmp_messages_keep_invariant env skbs s :
  env.(npd_ok) = true → rand_varied env → igmp_ok s →
  Forall (fun skb => skb_fine skb ∧ skb_load_be skb.(skb_buf) 23 1 ≠ Done IPPROTO_PIM) skbs →
  wp (igmp_messages env skbs s) (fun s' => igmp_ok s' ∧ grew (short_block [66; 70]) s s').
Proof. intros Hn Hr. by apply messages_keep. Qed.

Lemma igmp_messages_keep_invariant_witness :
  wp (igmp_messages igmp_env [report0; leave0; query0] igs0) (fun s' => igmp_ok s' ∧ grew (short_block [66; 70]) igs0 s').
Proof.
  apply igmp_messages_keep_invariant.
  - reflexivity.
  - apply igmp_env_varied.
  - apply igs0_daemon.
  - repeat (apply list.Forall_cons; split; [split; [split; [reflexivity|by apply (bool_decide_unpack _); vm_compute|vm_compute; by split]|by vm_compute]|]).
    apply list.Forall_nil_2.
Defined.

(** C7: On the groups seen as a finite map from VLANs and addresses, a membership
    report adds the port of the report to its group, which is created when it is
    new, and leaves every other group alone.  When the group did not have the port as
    a member, the table of the switch gets it, unless it has it already or holds
    1024 entries, and the switch daemon is told about it, once; it is told about
    nothing else.  When there are 1024 groups a new one is refused, and nothing
    changes, nor is the switch daemon told anything.  This holds of a valid group
    address, a VLAN that is in use, a switch daemon that takes messages and a daemon
    without reporter ports: a reporter port would get the report as well. *)
Theorem report_refines_map env s usIfIndex ulGroup vid ulType info :
  igs_ok s → env.(npd_ok) = true → s.(p_reporterlist) = [] → vlan_used s vid → 0 ≤ vid ≤ 4094 →
  is_ok (igmp_snp_addr_check ulGroup) = true →
  wp (igmp_recv_report env usIfIndex ulGroup vid ulType info s) (fun '(s', r) =>
    (table_full s vid ulGroup ∧ r = IGMPSNP_RETURN_CODE_ERROR ∧ s' = s) ∨
    (r = IGMPSNP_RETURN_CODE_OK ∧
     reported_state env s s' vid ulGroup ulType (trunk_or_port s.(p_vlanlist) vid usIfIndex) info.(i_saddr))).
Proof. apply wp_recv_report. Qed.

Lemma report_refines_map_witness :
  wp (igmp_recv_report igmp_env 2 group0 5 IGMP_V2_MEMSHIP_REPORT info0 igs1) (fun '(s', r) =>
    (table_full igs1 5 group0 ∧ r = IGMPSNP_RETURN_CODE_ERROR ∧ s' = igs1) ∨
    (r = IGMPSNP_RETURN_CODE_OK ∧ reported_state igmp_env igs1 s' 5 group0 IGMP_V2_MEMSHIP_REPORT 2 0x0A000001)).
Proof.
  apply (report_refines_map igmp_env igs1 2 group0 5 IGMP_V2_MEMSHIP_REPORT info0).
  - apply igs1_ok.
  - reflexivity.
  - by vm_compute.
  - by vm_compute.
  - lia.
  - reflexivity.
Defined.

(** C11: Whatever the daemon asks of the switch for IGMP and MLD, in whatever order,
    the linked table holds the entries that the operations on lists give, and
    [L2mc_Entry_GetVidx] finds the first entry of a group in a VLAN.  One of the
    operations on lists shows a defect: deleting a group keeps the last entry. *)
Theorem switch_table_refines_list env rs s :
  s.(p_l2mc) = empty_l2mc →
  wp (requests env rs s) (fun s' =>
    l2mc_repr s'.(p_l2mc) (list_run env rs []) ∧ only_table s s' ∧
    ∀ vid (group : Z), wp (L2mc_Entry_GetVidx s'.(p_l2mc) vid group) (fun '(r, vidx) =>
      match List.find (fun x => (x.(ulVlanId) =? vid) && (x.(ulGroup) =? group)) (list_run env rs []) with
      | Some x => r = IGMPSNP_RETURN_CODE_OK ∧ vidx = x.(ulVlanIdx)
      | None => r = IGMPSNP_RETURN_CODE_ERROR ∧ vidx = 0
      end)).
Proof.
  intros E. eapply wp_mono; [apply (wp_requests env rs s []); rewrite E; apply l2mc_repr_empty|].
  intros s' [Hr Ho]. split_and!; [done|done|]. intros vid group. exact (wp_getvidx s'.(p_l2mc) _ vid group Hr).
Qed.

(** Two ports join a group, the older entry stays when the group is deleted. *)
Definition requests0 : list SWITCH_REQUEST :=
  [IGMP_REQUEST IGMP_ADDR_ADD (mkPkt IGMP_ADDR_ADD 1 5 1 0 group0 0);
   IGMP_REQUEST IGMP_ADDR_ADD (mkPkt IGMP_ADDR_ADD 2 5 1 0 group0 0);
   IGMP_REQUEST IGMP_ADDR_RMV (mkPkt IGMP_ADDR_RMV 0 5 1 0 group0 0)].

Lemma switch_table_refines_list_witness :
  map ulIndex (list_run igmp_env requests0 []) = [1] ∧
  wp (requests igmp_env requests0 igs0) (fun s' =>
    l2mc_repr s'.(p_l2mc) (list_run igmp_env requests0 []) ∧ only_table igs0 s' ∧
    ∀ vid (group : Z), wp (L2mc_Entry_GetVidx s'.(p_l2mc) vid group) (fun '(r, vidx) =>
      match List.find (fun x => (x.(ulVlanId) =? vid) && (x.(ulGroup) =? group)) (list_run igmp_env requests0 []) with
      | Some x => r = IGMPSNP_RETURN_CODE_OK ∧ vidx = x.(ulVlanIdx)
      | None => r = IGMPSNP_RETURN_CODE_ERROR ∧ vidx = 0
      end)).
Proof. split; [by vm_compute|]. apply switch_table_refines_list. reflexivity. Defined.

(** C23: Deleting a VLAN that has groups removes exactly these groups from the map and
    the VLAN from the queue; every other group and VLAN keeps its data, and the
    invariant holds. *)
Theorem vlan_deletion_removes_its_groups env s vid :
  igs_ok s → ¬ vlan_gone s vid →
  wp (igmp_snp_del_mcgroupvlan env vid s) (fun s' =>
    igs_ok s' ∧ rest s' = rest s ∧ vlan_gone s' vid ∧
    group_table s' = filter (fun kx => kx.1.1 ≠ vid) (group_table s) ∧
    ∀ j w, s'.(mcgroup_vlan_queue) !! j = Some w →
      ∃ w0, s.(mcgroup_vlan_queue) !! j = Some w0 ∧ v_erase w0 = v_erase w).
Proof. intros Hok Hn. by apply wp_del_mcgroupvlan. Qed.

Lemma vlan_deletion_removes_its_groups_witness :
  wp (igmp_snp_del_mcgroupvlan igmp_env 5 igs1) (fun s' =>
    igs_ok s' ∧ rest s' = rest igs1 ∧ vlan_gone s' 5 ∧
    group_table s' = filter (fun kx => kx.1.1 ≠ 5) (group_table igs1) ∧
    ∀ j w, s'.(mcgroup_vlan_queue) !! j = Some w →
      ∃ w0, igs1.(mcgroup_vlan_queue) !! j = Some w0 ∧ v_erase w0 = v_erase w).
Proof. apply vlan_deletion_removes_its_groups; [apply igs1_ok|apply igs1_has_vlan]. Defined.

(** A general query teaches the daemon nothing: it is passed on to the other ports
    of its VLAN, but the port it came from does not become a router port, in
    whatever state the daemon is. *)
Theorem general_query_learns_no_router env s ifindex code vid info :
  igmp_ok s → vlan_used s vid →
  wp (igmp_recv_query env ifindex code 0 vid info s) (fun '(s', r) =>
    r = IGMPSNP_RETURN_CODE_OK ∧ s'.(p_routerlist) = s.(p_routerlist) ∧
    s'.(mcgroup_vlan_queue) = s.(mcgroup_vlan_queue) ∧ s'.(groups) = s.(groups)).
Proof.
  intros Hd Hu. eapply wp_mono; [by apply general_query|]. intros [s' r] (-> & tr & -> & _). done.
Qed.

Lemma general_query_learns_no_router_witness :
  wp (igmp_recv_query igmp_env 1 100 0 5 info0 igs0) (fun '(s', r) =>
    r = IGMPSNP_RETURN_CODE_OK ∧ s'.(p_routerlist) = igs0.(p_routerlist) ∧
    s'.(mcgroup_vlan_queue) = igs0.(mcgroup_vlan_queue) ∧ s'.(groups) = igs0.(groups)).
Proof. apply general_query_learns_no_router; [apply igs0_daemon|by vm_compute]. Defined.

(** ** Frames *)

(** C20: Every frame the daemon builds is a list of bytes of 42 or 46 elements, and the
    checksums of its IP header and of its IGMP message verify. *)
Theorem igmp_frame_typed pkt s : mac_fine s →
  Forall is_byte (igmp_frame pkt s) ∧
  length (igmp_frame pkt s) = (if plain_message pkt.(pkt_type) then 42 else 46)%nat ∧
  let n := if plain_message pkt.(pkt_type) then 20%nat else 24%nat in
  inet_cksum (take n (drop 14 (igmp_frame pkt s))) = 0 ∧ inet_cksum (drop (14 + n) (igmp_frame pkt s)) = 0.
Proof.
  intros Hm. destruct (frame_typed pkt s Hm) as [Hb Hl]. assert (Hv := frame_verifies pkt s Hm). cbv zeta in *.
  unfold frame_options in *. destruct (plain_message (pkt_type pkt)); exact (conj Hb (conj Hl Hv)).
Qed.

Lemma igmp_frame_typed_witness :
  let pkt := mkPkt IGMP_MSG_REPORT 1 5 0 0x0A000001 group0 0 in
  Forall is_byte (igmp_frame pkt igs0) ∧
  length (igmp_frame pkt igs0) = (if plain_message pkt.(pkt_type) then 42 else 46)%nat ∧
  let n := if plain_message pkt.(pkt_type) then 20%nat else 24%nat in
  inet_cksum (take n (drop 14 (igmp_frame pkt igs0))) = 0 ∧ inet_cksum (drop (14 + n) (igmp_frame pkt igs0)) = 0.
Proof. apply igmp_frame_typed. exact I. Defined.

(** C16: A daemon that receives a frame of another one, with any padding, on a port it
    knows, hands it to the handler of its type with the fields it was built from:
    the group, the source address and, for a query, the response time. *)
Theorem igmp_frame_roundtrip env pkt s0 pad skb s :
  mac_fine s0 → 0 ≤ pkt.(groupadd) < 2 ^ 32 → 0 ≤ pkt.(pkt_saddr) < 2 ^ 32 → port_known s skb →
  skb.(skb_buf) = igmp_frame pkt s0 ++ pad →
  igmp_skb_proc env skb s =
    let '(type, code, group, _) := igmp_fields pkt s0 in deliver env type code group pkt.(pkt_saddr) skb s.
Proof. apply skb_proc_frame. Qed.

Lemma igmp_frame_roundtrip_witness :
  let pkt := mkPkt IGMP_MSG_REPORT 1 5 0 0x0A000001 group0 0 in
  igmp_fields pkt igs0 = (IGMP_V2_MEMSHIP_REPORT, 0, group0, group0) ∧
  igmp_skb_proc igmp_env report0 igs0 =
    let '(type, code, group, _) := igmp_fields pkt igs0 in deliver igmp_env type code group pkt.(pkt_saddr) report0 igs0.
Proof.
  intros pkt. split; [reflexivity|]. apply (igmp_frame_roundtrip igmp_env pkt igs0 (replicate 82 0) report0 igs0).
  - exact I.
  - split; [by vm_compute|reflexivity].
  - split; [by vm_compute|reflexivity].
  - by split; vm_compute.
  - by vm_compute.
Defined.

(** C24: Whatever the 128 bytes of a message are, the daemon does not read outside
    them, and what it hands to its handlers fits the width of its type. *)
Theorem message_stays_in_its_buffer env skb s :
  length skb.(skb_buf) = IGMP_SNP_PKT_BUFSIZE → Forall is_byte skb.(skb_buf) →
  message_outcome env skb s (igmp_skb_proc env skb s).
Proof. apply skb_proc_outcome. Qed.

Lemma message_stays_in_its_buffer_witness :
  let skb := mkSkb 2 2 1 5 (replicate IGMP_SNP_PKT_BUFSIZE 255) in
  message_outcome igmp_env skb igs0 (igmp_skb_proc igmp_env skb igs0).
Proof.
  intros skb. apply message_stays_in_its_buffer; [reflexivity|].
  by apply (bool_decide_unpack _); vm_compute.
Defined.

(** ** Failures *)

(** C37: Deleting a VLAN that the switch daemon reports as gone, and that is not the
    first one, never returns when it has no groups while another VLAN has: the walk
    to its groups stays at the last VLAN, however many turns it takes. *)
Theorem deleting_empty_vlan_hangs env s vid d w l :
  core_ok s → s.(mcgroup_vlan_queue) ≠ ∅ → vlan_gone s vid → d.(d_vlan_id) = vid → 0 ≤ vid ≤ 4094 →
  s.(p_vlanlist) = w :: l → w.(vl_vlan_id) ≠ vid → vlan_used s vid →
  igmp_snp_device_event env IGMPSNP_EVENT_DEV_UNREGISTER d s = OutOfFuel ∧
  ∀ fuel, igmp_snp_del_mcgroupvlan_fuel env fuel vid s = OutOfFuel.
Proof.
  intros Hok Hne Hg Hd Hv El Hw Hu. split; [|intros fuel; by apply del_mcgroupvlan_absent].
  unfold igmp_snp_device_event. rewrite Hd, (vlanisused_yes s vid Hu). cbn [Z.eqb Pos.eqb].
  change (IGMPSNP_EVENT_DEV_UNREGISTER =? IGMPSNP_EVENT_DEV_DOWN) with false.
  change (IGMPSNP_EVENT_DEV_UNREGISTER =? IGMPSNP_EVENT_DEV_REGISTER) with false.
  change (IGMPSNP_EVENT_DEV_UNREGISTER =? IGMPSNP_EVENT_DEV_UNREGISTER) with true. cbv iota zeta.
  unfold Igmp_Event_DelVlan. rewrite El in *. unfold vlan_used in Hu. rewrite El in Hu.
  assert (He : existsb (fun x => vl_vlan_id x =? vid) (w :: l) = true).
  { rewrite <- Hu. unfold same_vlan. by rewrite u32_small by lia. }
  rewrite He, (proj2 (Z.eqb_neq _ _) Hw). set (s1 := s <| p_vlanlist := _ |> <| igmp_vlancount := _ |>).
  assert (Hloop : igmp_snp_del_mcgroupvlan env vid s1 = OutOfFuel); [|by rewrite Hloop].
  apply del_mcgroupvlan_absent; [|done|done]. by apply (core_ok_same s).
Qed.

Lemma deleting_empty_vlan_hangs_witness :
  let d := mkDev 6 0 [] in
  igmp_snp_device_event igmp_env IGMPSNP_EVENT_DEV_UNREGISTER d igs1 = OutOfFuel ∧
  ∀ fuel, igmp_snp_del_mcgroupvlan_fuel igmp_env fuel 6 igs1 = OutOfFuel.
Proof.
  intros d. apply (deleting_empty_vlan_hangs igmp_env igs1 6 d (mkVlanList 5 [mkVlanPort 1 0; mkVlanPort 2 0; mkVlanPort 3 0])
    [mkVlanList 6 [mkVlanPort 9 0]]).
  - apply igs1_ok.
  - apply igs1_queue.
  - apply igs1_no_vlan6.
  - reflexivity.
  - lia.
  - by vm_compute.
  - discriminate.
  - by vm_compute.
Defined.

(** C39: The daemon reads the IP header of a PIM message, and what follows it, eight
    bytes too far.  When one of the two checksums it computes there is wrong, as of
    an ordinary hello, it drops the message, so that it learns no router port.  When
    somebody has chosen these bytes so that both checksums are right and the message
    passes for a hello, on a port it knows, the VLAN is read from the Ethernet
    addresses of the frame; when that VLAN is neither in use nor has groups, and
    there is a group somewhere, the daemon never returns: it deletes the groups of
    the VLAN by the walk that does not end. *)
Theorem pim_is_judged_eight_bytes_off env s skb :
  skb_fine skb → port_known s skb → skb_load_be skb.(skb_buf) 23 1 = Done IPPROTO_PIM →
  (¬ passes_shifted skb → igmp_skb_proc env skb s = Done (s, IGMPSNP_RETURN_CODE_OK)) ∧
  (∀ ifindex vid saddr, core_ok s → s.(mcgroup_vlan_queue) ≠ ∅ → shifted_pim_hello skb ifindex vid saddr →
     vlan_gone s (i32 vid) → ¬ vlan_used s (i32 vid) →
     igmp_skb_proc env skb s = OutOfFuel ∧ ∀ fuel, igmp_snp_del_mcgroupvlan_fuel env fuel (i32 vid) s = OutOfFuel).
Proof.
  intros Hf Hk Hp. split; [by apply pim_dropped|]. intros ifindex vid saddr Hc Hne Hs Hg Hu.
  split; [by eapply pim_hangs|]. intros fuel. by apply del_mcgroupvlan_absent.
Qed.

Lemma pim_is_judged_eight_bytes_off_witness :
  igmp_skb_proc igmp_env ordinary_hello0 igs1 = Done (igs1, IGMPSNP_RETURN_CODE_OK) ∧
  igmp_skb_proc igmp_env hello0 igs1 = OutOfFuel ∧
  ∀ fuel, igmp_snp_del_mcgroupvlan_fuel igmp_env fuel (i32 0x000D1020) igs1 = OutOfFuel.
Proof.
  split.
  - apply (pim_is_judged_eight_bytes_off igmp_env igs1 ordinary_hello0).
    + split; [reflexivity|by apply (bool_decide_unpack _); vm_compute|by vm_compute].
    + by split; vm_compute.
    + by vm_compute.
    + intros (b & hdr & pim & Eb & Eh & Ch & _). vm_compute in Eb. injection Eb as <-. vm_compute in Eh. injection Eh as <-. discriminate Ch.
  - refine (proj2 (pim_is_judged_eight_bytes_off igmp_env igs1 hello0 _ _ _) 0x01005E00 0x000D1020 0x0A000002 _ _ _ _ _).
    + split; [reflexivity|by apply (bool_decide_unpack _); vm_compute|by vm_compute].
    + by split; vm_compute.
    + by vm_compute.
    + apply igs1_ok.
    + apply igs1_queue.
    + split; [reflexivity| |reflexivity|reflexivity|reflexivity].
      exists 1, [1; 103; 0xFE; 0x98], [0x20; 0; 0xDF; 0xFF]. split_and!; reflexivity.
    + apply igs1_vlan5. discriminate.
    + by vm_compute.
Defined.

(** A port that joins a VLAN the daemon does not know, while it knows another one,
    makes it dereference NULL: the walk to the VLAN reads the node before it tests
    the pointer. *)
Theorem port_of_unknown_vlan_crashes env s vid ifindex d :
  s.(p_vlanlist) ≠ [] → ¬ vlan_used s vid → d.(d_vlan_id) = vid → d.(d_ifindex) = ifindex →
  igmp_snp_device_event env IGMPSNP_EVENT_DEV_VLANADDIF d s = Segv ∧ Igmp_Event_VlanAddPort vid ifindex s = Segv.
Proof.
  intros Hne Hu Hv Hi.
  assert (Ha : Igmp_Event_VlanAddPort vid ifindex s = Segv).
  { unfold Igmp_Event_VlanAddPort. destruct (p_vlanlist s) as [|w l] eqn:E; [done|]. rewrite <- E in *. clear w l E.
    assert (H : add_port vid ifindex (p_vlanlist s) = Segv); [|by rewrite H].
    unfold vlan_used in Hu. induction (p_vlanlist s) as [|w l IH]; [done|]. cbn in Hu. cbn [add_port].
    destruct (same_vlan vid w); [by destruct Hu|]. destruct l as [|w' l]; [done|]. by rewrite IH. }
  split; [|done]. unfold igmp_snp_device_event. rewrite Hv, Hi.
  change (IGMPSNP_EVENT_DEV_VLANADDIF =? IGMPSNP_EVENT_DEV_DOWN) with false.
  change (IGMPSNP_EVENT_DEV_VLANADDIF =? IGMPSNP_EVENT_DEV_REGISTER) with false.
  change (IGMPSNP_EVENT_DEV_VLANADDIF =? IGMPSNP_EVENT_DEV_UNREGISTER) with false.
  change (IGMPSNP_EVENT_DEV_VLANADDIF =? IGMPSNP_EVENT_DEV_VLANADDIF) with true. cbv iota zeta.
  assert (Hp : igmp_is_vlan_ifindex (p_vlanlist s) vid ifindex = IGMPSNP_RETURN_CODE_NOTENABLE_PORT).
  { unfold igmp_is_vlan_ifindex. destruct (p_vlanlist s) as [|w l] eqn:E; [done|]. rewrite <- E in *. clear w l E.
    assert (H : existsb (fun v => same_vlan vid v && has_port ifindex v) (p_vlanlist s) = false); [|by rewrite H].
    unfold vlan_used in Hu. clear Ha Hne. induction (p_vlanlist s) as [|w l IH]; [done|]. cbn in Hu |- *.
    destruct (same_vlan vid w); [by destruct Hu|]. cbn. by apply IH. }
  rewrite Hp, Z.eqb_refl. by rewrite Ha.
Qed.

Lemma port_of_unknown_vlan_crashes_witness :
  igmp_snp_device_event igmp_env IGMPSNP_EVENT_DEV_VLANADDIF (mkDev 7 4 []) igs0 = Segv ∧
  Igmp_Event_VlanAddPort 7 4 igs0 = Segv.
Proof. apply port_of_unknown_vlan_crashes; [discriminate|by vm_compute|reflexivity|reflexivity]. Defined.
