(* ===== verification/MldProps.v ===== *)
(** * What the daemon does with MLD

    The frames of MLD and how they are read, a network for the witnesses, and the
    properties of messages, reports and frames. *)

From Stdlib Require Import ZArith Lia.
From stdpp Require Import base gmap list option fin_maps.
From S2P Require Import Prelude Checksum DList IgmpL2mc IgmpL2mcProps IgmpSnp IgmpList IgmpGroup IgmpGroupProps IgmpInv IgmpTimer IgmpFrame IgmpRecv Mld.
From S2P Require Import IgmpReport IgmpTimerProps IgmpFrameProps IgmpSafe IgmpSwitch IgmpExample MldSafe.

(** ** Addresses as bytes *)

Lemma length_v6_bytes a : length (v6_bytes a) = (2 * length a)%nat.
Proof. induction a as [|w a IH]; [done|]. unfold v6_bytes in *. cbn [flat_map]. rewrite length_app, IH, length_be_bytes. cbn. lia. Qed.

Lemma v6_roundtrip a : Forall is_word a → v6_words (v6_bytes a) = a.
Proof.
  induction 1 as [|w a Hw _ IH]; [done|]. change (v6_bytes (w :: a)) with (be_bytes 2 w ++ v6_bytes a).
  cbn [be_bytes app v6_words]. rewrite IH. f_equal.
  apply (be_val_bytes2 w Hw).
Qed.

Lemma v6_bytes_typed a : Forall is_byte (v6_bytes a).
Proof. induction a as [|w a IH]; [constructor|]. unfold v6_bytes in *. cbn [flat_map]. apply Forall_app. split; [apply be_bytes_byte|done]. Qed.

Lemma v6_length a : is_v6 a → length a = 8%nat.
Proof. by intros [? _]. Qed.

(** The bytes of an address add up to its words. *)
Lemma sum16_v6 a : Forall is_word a → sum16 (v6_bytes a) = foldr Z.add 0 a.
Proof.
  induction 1 as [|w a Hw _ IH]; [done|]. unfold v6_bytes in *. cbn [flat_map foldr].
  rewrite sum16_even by (rewrite length_be_bytes; by exists 1%nat). by rewrite sum16_be_bytes, IH.
Qed.

(** ** Reading a part of the buffer *)

Lemma skb_load_mid a b c k n : k = length a → n = length b → skb_load (a ++ b ++ c) k n = Done b.
Proof.
  intros -> ->. unfold skb_load. rewrite decide_True by (rewrite !length_app; lia).
  by rewrite drop_app_length, take_app_length.
Qed.
Lemma skb_load_be_mid a b c k n v : k = length a → n = length b → be_val b = v → skb_load_be (a ++ b ++ c) k n = Done v.
Proof. intros Hk Hn <-. unfold skb_load_be. by rewrite (skb_load_mid a b c). Qed.
Lemma skb_load_v6_mid a g c k : k = length a → is_v6 g → skb_load_v6 (a ++ v6_bytes g ++ c) k = Done g.
Proof.
  intros Hk [Hl Hw]. unfold skb_load_v6. rewrite (skb_load_mid a (v6_bytes g) c) by (done || by rewrite length_v6_bytes, Hl).
  cbn [obind]. by rewrite v6_roundtrip.
Qed.

(** ** A frame that is read *)

(** The type and the response time the frame is built with. *)
Definition mld_kind (pkt : PKT (list Z)) (s : IGS) : Z * Z :=
  match mld_fields pkt s with Some (type, maxresp, _) => (type, maxresp) | None => (MLD_V2_MEMSHIP_REPORT, 0) end.

(** The parts of a frame. *)
Lemma mld_frame_parts pkt s frame : mac_fine s → is_v6 pkt.(pkt_saddr) → is_v6 pkt.(groupadd) → mld_frame pkt s = Done frame →
  ∃ E mld daddr len, frame = E ++ ipv6_header len pkt.(pkt_saddr) daddr ++ mld_snp_file_option_field ++ mld ∧ length E = 14%nat ∧
    is_v6 daddr ∧ mld_message pkt s = Done (mld, daddr).
Proof.
  intros Hm Hs Hg. unfold mld_frame. destruct (mld_message pkt s) as [[mld daddr]| |] eqn:E; cbn [obind]; [|done..].
  assert (Hd : is_v6 daddr).
  { unfold mld_message, mld_fields in E. repeat case_match; simplify_eq; try done;
      (split; [done|]; repeat (constructor; [unfold is_word; lia|]); constructor). }
  intros [= <-]. exists (ether_header_v6 s daddr), mld, daddr, (Z.of_nat (length mld + MLD_IPV6_OPTION_LEN)).
  split_and!; [done| |done|done]. unfold ether_header_v6. rewrite !length_app, length_v6_bytes, length_drop, (v6_length _ Hd).
  unfold mac_fine in Hm. destruct (sysMac s) as [m|]; [destruct Hm as [_ ->]|]; done.
Qed.

Lemma mld_fields_words pkt s type maxresp daddr : mld_fields pkt s = Some (type, maxresp, daddr) →
  is_byte type ∧ is_word maxresp ∧ (type =? MLD_V2_MEMSHIP_REPORT) = false.
Proof.
  unfold mld_fields. repeat case_match; intros [= <- <- <-]; (split_and!; [split; done| |done]);
    try apply u16_range; unfold is_word; lia.
Qed.

(** What a message says, wherever it is. *)
Lemma mld_message_read pkt s mld daddr rest : is_v6 pkt.(groupadd) → mld_message pkt s = Done (mld, daddr) →
  let '(type, maxresp) := mld_kind pkt s in
  skb_load_be (mld ++ rest) 0 1 = Done type ∧ skb_load_be (mld ++ rest) 4 2 = Done maxresp ∧
  if type =? MLD_V2_MEMSHIP_REPORT
  then skb_load_be (mld ++ rest) 6 2 = Done 1 ∧ skb_load_v6 (mld ++ rest) 12 = Done pkt.(groupadd)
  else skb_load_v6 (mld ++ rest) 8 = Done pkt.(groupadd).
Proof.
  intros Hg. unfold mld_message, mld_kind. destruct (Z.eqb_spec (pkt_type pkt) MLD_MSG_V2_REPORT) as [E|Nt].
  - intros [= <- <-]. assert (En : mld_fields pkt s = None) by (unfold mld_fields; by rewrite E). rewrite En.
    set (c := inet_cksum _). clearbody c. unfold mldv2_header. rewrite <- !app_assoc. rewrite Z.eqb_refl. split_and!; [reflexivity|reflexivity|reflexivity|].
    rewrite !app_assoc, <- app_assoc. by apply skb_load_v6_mid.
  - destruct (mld_fields pkt s) as [[[type maxresp] d]|] eqn:Ef; [|done]. intros [= <- <-].
    destruct (mld_fields_words _ _ _ _ _ Ef) as (Ht & Hm & ->). set (c := inet_cksum _). clearbody c. unfold mld_header. rewrite <- !app_assoc.
    split_and!; [reflexivity| |].
    + rewrite (app_assoc [type; 0]). apply skb_load_be_mid; [done|done|by apply be_val_bytes2].
    + rewrite !app_assoc, <- app_assoc. by apply skb_load_v6_mid.
Qed.

Section Read.
Variable env : ENV.

Lemma mld_skb_proc_frame pkt s0 frame pad skb s :
  mac_fine s0 → is_v6 pkt.(groupadd) → is_v6 pkt.(pkt_saddr) → port_known s skb → mld_frame pkt s0 = Done frame →
  skb.(skb_buf) = frame ++ pad →
  mld_skb_proc env skb s =
    let '(type, maxresp) := mld_kind pkt s0 in mld_deliver env type maxresp pkt.(groupadd) pkt.(pkt_saddr) skb s.
Proof.
  intros Hm Hg Hs [Hu Hi] Hf Hbuf. destruct (mld_frame_parts _ _ _ Hm Hs Hg Hf) as (E & mld & daddr & len & -> & HE & Hd & Hmsg).
  assert (Hr := mld_message_read pkt s0 mld daddr pad Hg Hmsg). destruct (mld_kind pkt s0) as [type maxresp]. destruct Hr as (Rt & Rm & Rg).
  set (I := ipv6_header len (pkt_saddr pkt) daddr) in *. set (O := mld_snp_file_option_field) in *.
  assert (HI : length I = 40%nat).
  { unfold I, ipv6_header. rewrite !length_app, !length_v6_bytes, length_be_bytes, (v6_length _ Hs), (v6_length _ Hd). done. }
  assert (Ebuf : skb_buf skb = (E ++ I ++ O) ++ mld ++ pad) by (by rewrite Hbuf, <- !app_assoc).
  assert (Hl : length (E ++ I ++ O) = 62%nat) by (by rewrite !length_app, HE, HI).
  assert (Rm0 : ∀ k n, skb_load_be (skb_buf skb) (62 + k) n = skb_load_be (mld ++ pad) k n).
  { intros k n. rewrite Ebuf. apply load_be_skip. by rewrite Hl. }
  assert (Rv6 : ∀ k, skb_load_v6 (skb_buf skb) (62 + k) = skb_load_v6 (mld ++ pad) k).
  { intros k. unfold skb_load_v6. rewrite Ebuf, <- Hl. by rewrite load_skip. }
  assert (EI : skb_buf skb = E ++ ([0x60; 0; 0; 0] ++ be_bytes 2 len ++ [0; MLD_HOP_LIMIT]) ++ v6_bytes (pkt_saddr pkt) ++ (v6_bytes daddr ++ O ++ mld ++ pad)).
  { rewrite Hbuf. unfold I, ipv6_header. by rewrite <- !app_assoc. }
  assert (Rn : skb_load_be (skb_buf skb) (14 + 6) 1 = Done 0) by (rewrite EI; erewrite load_be_skip by (by rewrite HE); reflexivity).
  assert (Rh : skb_load_be (skb_buf skb) (14 + 7) 1 = Done 1) by (rewrite EI; erewrite load_be_skip by (by rewrite HE); reflexivity).
  assert (Rs : skb_load_v6 (skb_buf skb) (14 + 8) = Done (pkt_saddr pkt)).
  { rewrite EI, app_assoc. apply skb_load_v6_mid; [|done]. by rewrite !length_app, HE. }
  unfold mld_skb_proc. cbv zeta. rewrite Hu, Hi. cbn [negb igmp_vlanportrelation snd]. change (1 =? 1) with true. change (0 =? 1) with false.
  cbn [negb]. rewrite Rn. cbn [obind]. change (0 =? IPPROTO_PIM) with false. change (0 =? 0) with true. cbv iota.
  change (14 + IPV6_HEADER_LEN + MLD_IPV6_OPTION_LEN)%nat with (62 + 0)%nat.
  rewrite (Rm0 0%nat), Rt. cbn [obind]. unfold mld_message_group.
  change (14 + IPV6_HEADER_LEN + MLD_IPV6_OPTION_LEN)%nat with 62%nat. cbv zeta. change (62 + 0 + 8)%nat with (62 + 8)%nat. change (62 + 0 + 4)%nat with (62 + 4)%nat.
  destruct (type =? MLD_V2_MEMSHIP_REPORT); cbn [negb].
  - destruct Rg as [R1 R2]. rewrite (Rm0 6%nat), R1. cbn [obind]. change (1 <? 1) with false. cbv iota. rewrite (Rv6 12%nat), R2. cbn [obind].
    rewrite Rh. cbn [obind]. change (1 =? 1) with true. cbn [negb]. by rewrite (Rm0 4%nat), Rm, Rs.
  - rewrite (Rv6 8%nat), Rg. cbn [obind]. rewrite Rh. cbn [obind]. change (1 =? 1) with true. cbn [negb]. by rewrite (Rm0 4%nat), Rm, Rs.
Qed.
End Read.

(** ** The checksum *)

Lemma inet_cksum_zero l : Forall is_byte l → Z.of_nat (length l) ≤ 32767 → 0 < sum16 l →
  inet_cksum l = 0 ↔ sum16 l mod 65535 = 0.
Proof.
  intros Hb Hl Hs. destruct (inet_cksum_ones l Hb Hl) as [Hc (H1 & H2 & H3)]. apply Z.mod_divide in H2 as [k Hk]; [|lia]. split.
  - intros E. apply Z.mod_divide; [lia|]. exists (- k + 1). lia.
  - intros [m Hm]%Z.mod_divide; [|lia]. assert (inet_cksum l ≠ 65535) by lia. nia.
Qed.

(** A message but for its checksum and its group. *)
Lemma mld_header_sum type cksum maxresp group : is_byte type → is_word cksum → is_word maxresp → is_v6 group →
  sum16 (mld_header type cksum maxresp group) = 256 * type + cksum + maxresp + foldr Z.add 0 group.
Proof.
  intros Ht Hc Hm [_ Hg]. unfold mld_header. assert (He : ∀ w, Nat.Even (length (be_bytes 2 w))) by (intros w; rewrite length_be_bytes; by exists 1%nat).
  rewrite (sum16_even [type; 0]) by (by exists 1%nat). rewrite !(sum16_even (be_bytes 2 _)) by apply He.
  rewrite !sum16_be_bytes, sum16_v6 by done. cbn [sum16]. lia.
Qed.

Lemma mld_header_typed type cksum maxresp group : is_byte type → Forall is_byte (mld_header type cksum maxresp group).
Proof.
  intros Ht. unfold mld_header. rewrite !Forall_app. split_and!; try apply be_bytes_byte; try apply v6_bytes_typed.
  repeat (constructor; [done|]). constructor.
Qed.
Lemma length_mld_header type cksum maxresp group : is_v6 group → length (mld_header type cksum maxresp group) = 24%nat.
Proof. intros Hg. unfold mld_header. rewrite !length_app, !length_be_bytes, length_v6_bytes, (v6_length _ Hg). done. Qed.

Lemma v6_sum_pos a : is_v6 a → 0 ≤ foldr Z.add 0 a.
Proof. intros [_ H]. induction H as [|w a Hw _ IH]; cbn; [lia|]. unfold is_word in Hw. lia. Qed.

(** The message verifies only when the words of the group add up to nothing. *)
Lemma mld_message_cksum pkt s mld daddr : is_v6 pkt.(groupadd) → mld_fields pkt s ≠ None → mld_message pkt s = Done (mld, daddr) →
  inet_cksum mld = 0 ↔ foldr Z.add 0 pkt.(groupadd) mod 65535 = 0.
Proof.
  intros Hg Hn. unfold mld_message. destruct (Z.eqb_spec (pkt_type pkt) MLD_MSG_V2_REPORT) as [E|_].
  { destruct Hn. unfold mld_fields. by rewrite E. }
  destruct (mld_fields pkt s) as [[[type maxresp] d]|] eqn:Ef; [|done]. intros [= <- _].
  destruct (mld_fields_words _ _ _ _ _ Ef) as (Ht & Hm & _).
  assert (Htp : 0 < type) by (unfold mld_fields in Ef; repeat case_match; simplify_eq; done).
  set (h := mld_header type 0 maxresp no_v6).
  destruct (inet_cksum_ones h) as [Hc (H1 & H2 & _)]; [by apply mld_header_typed|unfold h; rewrite length_mld_header by apply no_v6_ok; done|].
  assert (Eh : sum16 h = 256 * type + maxresp) by (unfold h; rewrite mld_header_sum by (done || apply no_v6_ok); cbn; lia).
  assert (Es : sum16 (mld_header type (inet_cksum h) maxresp (groupadd pkt)) = 256 * type + inet_cksum h + maxresp + foldr Z.add 0 (groupadd pkt)).
  { by apply mld_header_sum. }
  assert (Hp := v6_sum_pos _ Hg). assert (Hm' := Hm). unfold is_word in Hm'.
  rewrite inet_cksum_zero; [|by apply mld_header_typed|rewrite length_mld_header by done; done|lia].
  rewrite Es. apply Z.mod_divide in H2 as [k Hk]; [|lia]. rewrite Eh in Hk.
  replace (256 * type + inet_cksum h + maxresp + foldr Z.add 0 (groupadd pkt)) with (foldr Z.add 0 (groupadd pkt) + (1 - k) * 65535) by lia.
  by rewrite Z.mod_add by lia.
Qed.

(** ** A small network *)

(** The network of [igs0], snooping MLD. *)
Definition mld0 : IGS := igs0 <| igmp_snoop_enable := 0 |> <| mld_snoop_enable := 1 |>.
Definition mld_group0 : list Z := [0xFF1E; 0; 0; 0; 0; 0; 0x0102; 0x0304].
Definition mld_host0 : list Z := [0xFE80; 0; 0; 0; 0x0211; 0x22FF; 0xFE33; 0x4455].

Definition mld_message0 (type : Z) : igmp_skb :=
  let f := match mld_frame (mkPkt type 1 5 0 mld_host0 mld_group0 0) mld0 with Done f => f | _ => [] end in
  mkSkb 2 2 1 5 (f ++ replicate (IGMP_SNP_PKT_BUFSIZE - length f) 0).

(** A PIM hello over IPv6. *)
Definition mld_hello0 : igmp_skb :=
  mkSkb 2 2 1 5
    ([0x33; 0x33; 0; 0; 0; 0x0D; 0x10; 0x20; 0x30; 0x40; 0x50; 0x60; 0x86; 0xDD]
     ++ [0x60; 0; 0; 0; 0; 4; IPPROTO_PIM; 1] ++ v6_bytes mld_host0 ++ v6_bytes mld_group0
     ++ [0x20; 0; 0xDF; 0xFF] ++ replicate 70 0).

Lemma mld_group0_ok : is_v6 mld_group0.
Proof. split; [done|]. repeat (constructor; [by vm_compute|]). constructor. Qed.
Lemma mld_host0_ok : is_v6 mld_host0.
Proof. split; [done|]. repeat (constructor; [by vm_compute|]). constructor. Qed.

Lemma mld0_daemon : mld_ok mld0.
Proof.
  assert (E : as_igmp mld0 = igs0) by (unfold as_igmp, mld0, igs0; cbn; by rewrite fmap_empty).
  split; [rewrite E; apply igs0_daemon| |done]. intros p g Eg. change ((∅ : gmap positive MC_group) !! p = Some g) in Eg. by rewrite lookup_empty in Eg.
Qed.

Definition mld_info0 : mld_info := mkMldInfo 1 5 mld_host0 (mld_message0 MLD_MSG_REPORT).

(** ** Properties *)

(** C4: Whatever MLD messages of 128 bytes arrive, PIM messages among them, on whatever
    ports and in whatever order, a daemon that snoops MLD only returns from each of
    them, follows no pointer and no index that does not lead to a node, and stays
    well formed: what [igmp_ok] says of the state with the addresses of the groups as
    numbers.  The only reads behind the end of a block are those of the frames it
    builds: 152 bytes are sent of a block of 110 or 114.  The switch daemon takes
    messages, [rand] does not repeat itself too soon, and the daemon has no reporter
    ports ([mld_ok]). *)
Theorem mld_messages_keep_invariant env skbs s :
  env.(npd_ok) = true → rand_varied env → mld_ok s → Forall skb_fine skbs →
  wp (mld_messages env skbs s) (fun s' => mld_ok s' ∧ grew (short_block [110; 114]) s s').
Proof. intros Hn Hr. by apply mld_messages_keep. Qed.

Lemma mld_messages_keep_invariant_witness :
  wp (mld_messages igmp_env (mld_hello0 :: (mld_message0 <$> [MLD_MSG_REPORT; MLD_MSG_V2_REPORT; MLD_MSG_GEN_QUERY; MLD_MSG_LEAVE])) mld0)
    (fun s' => mld_ok s' ∧ grew (short_block [110; 114]) mld0 s').
Proof.
  apply mld_messages_keep_invariant.
  - reflexivity.
  - apply igmp_env_varied.
  - apply mld0_daemon.
  - repeat (apply list.Forall_cons; split; [split; [vm_compute; reflexivity|by apply (bool_decide_unpack _); vm_compute|vm_compute; by split]|]).
    apply list.Forall_nil_2.
Defined.

(** C8: On the groups seen as a finite map from VLANs and IPv6 addresses, an MLD report
    gives its group, which is created when it is new, the port of the report as a
    member, the source of the report with its words reversed and no life timer, and
    leaves every other group alone.  When the group did not have the port as a
    member, the table of the switch gets it, unless it has it already or holds 1024
    entries, and the switch daemon is told about it, once; it is told about nothing
    else.  When there are 1024 groups a new one is refused, and nothing changes, nor
    is the switch daemon told anything.  This holds of a valid group address, a VLAN
    that is in use, a switch daemon that takes messages and a daemon that snoops MLD
    only and has no reporter ports ([mld_ok]). *)
Theorem mld_report_refines_map env s usIfIndex ulGroup vid ulType info :
  env.(npd_ok) = true → mld_ok s → vlan_used s vid → 0 ≤ vid ≤ 4094 → is_v6 ulGroup → is_ok (mld_snp_addr_check ulGroup) = true →
  wp (mld_recv_report env usIfIndex ulGroup vid ulType info s) (fun '(s', r) =>
    (size s.(groups) = 1024%nat ∧ group_table (as_igmp s) !! (vid, v6_code ulGroup) = None ∧ r = IGMPSNP_RETURN_CODE_ERROR ∧ s' = s) ∨
    (r = IGMPSNP_RETURN_CODE_OK ∧ mld_reported env s s' vid ulGroup (trunk_or_port s.(p_vlanlist) vid usIfIndex) info.(mi_saddr))).
Proof. intros Hn. by apply wp_mld_report. Qed.

Lemma mld_report_refines_map_witness :
  wp (mld_recv_report igmp_env 1 mld_group0 5 MLD_V1_MEMSHIP_REPORT mld_info0 mld0) (fun '(s', r) =>
    (size mld0.(groups) = 1024%nat ∧ group_table (as_igmp mld0) !! (5, v6_code mld_group0) = None ∧ r = IGMPSNP_RETURN_CODE_ERROR ∧ s' = mld0) ∨
    (r = IGMPSNP_RETURN_CODE_OK ∧ mld_reported igmp_env mld0 s' 5 mld_group0 1 mld_host0)).
Proof.
  apply mld_report_refines_map.
  - reflexivity.
  - apply mld0_daemon.
  - reflexivity.
  - lia.
  - apply mld_group0_ok.
  - reflexivity.
Defined.

(** C17: A daemon that receives a frame of MLD another one built, with any padding, on a
    port it knows, hands it to the handler of its type with the group, the source
    address and the response time it was built from. *)
Theorem mld_frame_roundtrip env pkt s0 frame pad skb s :
  mac_fine s0 → is_v6 pkt.(groupadd) → is_v6 pkt.(pkt_saddr) → port_known s skb → mld_frame pkt s0 = Done frame →
  skb.(skb_buf) = frame ++ pad →
  mld_skb_proc env skb s =
    let '(type, maxresp) := mld_kind pkt s0 in mld_deliver env type maxresp pkt.(groupadd) pkt.(pkt_saddr) skb s.
Proof. apply mld_skb_proc_frame. Qed.

Lemma mld_frame_roundtrip_witness :
  let pkt := mkPkt MLD_MSG_V2_REPORT 1 5 0 mld_host0 mld_group0 0 in
  let skb := mld_message0 MLD_MSG_V2_REPORT in
  mld_kind pkt mld0 = (MLD_V2_MEMSHIP_REPORT, 0) ∧
  mld_skb_proc igmp_env skb mld0 =
    let '(type, maxresp) := mld_kind pkt mld0 in mld_deliver igmp_env type maxresp mld_group0 mld_host0 skb mld0.
Proof.
  intros pkt skb. split; [reflexivity|].
  apply (mld_frame_roundtrip igmp_env pkt mld0 (match mld_frame pkt mld0 with Done f => f | _ => [] end) (replicate 38 0) skb mld0).
  - exact I.
  - apply mld_group0_ok.
  - apply mld_host0_ok.
  - by split; vm_compute.
  - by vm_compute.
  - by vm_compute.
Defined.

(** The checksum of an MLD message is computed before its group is stored: a
    receiver that sums the message finds it right only when the words of the group
    add up to a multiple of 65535, as those of a general query do. *)
Theorem mld_checksum_omits_group pkt s mld daddr :
  is_v6 pkt.(groupadd) → mld_fields pkt s ≠ None → mld_message pkt s = Done (mld, daddr) →
  inet_cksum mld = 0 ↔ foldr Z.add 0 pkt.(groupadd) mod 65535 = 0.
Proof. apply mld_message_cksum. Qed.

Lemma mld_checksum_omits_group_witness :
  let pkt := mkPkt MLD_MSG_REPORT 1 5 0 mld_host0 mld_group0 0 in
  let mld := match mld_message pkt mld0 with Done (m, _) => m | _ => [] end in
  (inet_cksum mld = 0 ↔ foldr Z.add 0 mld_group0 mod 65535 = 0) ∧ inet_cksum mld ≠ 0.
Proof.
  intros pkt mld. split.
  - apply (mld_checksum_omits_group pkt mld0 mld mld_group0).
    + apply mld_group0_ok.
    + by vm_compute.
    + by vm_compute.
  - by vm_compute.
Defined.
